(* ===== verification/_CoqProject ===== *)
-Q . S2P
Prelude.v
GoStrings.v
GoBase64.v
GoSha256.v
GoJson.v
GoNet.v
GoTime.v
HubTypes.v
GoFloat.v
ReleaseVersion.v
TaskGate.v
Profile.v
TaskResult.v
Heartbeat.v
IntegrationStatus.v
Metrics.v
Repository.v
Service.v
HubSystem.v
HubRefines.v
ServiceFacts.v
TaskGateClaims.v
HostClaims.v
Samples.v
HubClaims.v
ServiceClaims.v
AgentStore.v
AgentApply.v
AgentStoreFacts.v
AgentApplyClaims.v
GoDuration.v
AgentConfig.v
AgentMain.v
AgentConfigClaims.v
AgentHub.v
AgentTasks.v
AgentTasksClaims.v
AgentReports.v
AgentDeploy.v
AgentDeployClaims.v
AgentFirewall.v
AgentFirewallClaims.v
TerminalHub.v
TerminalHubFacts.v
TerminalHubClaims.v
GoTyped.v
RemoteNodes.v
PanelApi.v
RateLimit.v
PanelNodes.v
PanelDomains.v
PanelAgents.v
PanelRouter.v
PanelFacts.v
PanelSamples.v
PanelTaskClaims.v
PanelClaims.v
PanelDomainClaims.v
RateLimitClaims.v
HostFiles.v
AgentEditors.v
AgentNginx.v
AgentPHP.v
AgentFiles.v
AgentEditorsClaims.v
AgentDomains.v
ProjectDomains.v
AgentDeployDomains.v
AgentDeployDomainsClaims.v
AgentCron.v
AgentCronClaims.v
AgentServices.v
AgentDatabases.v
AgentCertificates.v
AgentBackups.v
ReleaseUpdates.v
AgentUpdates.v
AgentUpdatesClaims.v
AgentCleanup.v
HostTasks.v
