(* ===== verification/Prelude.v ===== *)
(** * The Heyserver agent hub: a verification development

    Heyserver is a hosting panel that manages a fleet of hosts.  On every host
    runs an agent; the panel's _agent hub_ keeps what it knows of the hosts and
    the work it wants done there in four SQLite tables, and talks to the agents
    through polling requests.  This library models the hub in full, the Go
    packages [internal/agenthub], [internal/managedintegrationstatus],
    [internal/integrationstate] and [internal/releaseversion], down to the text
    of the database columns and of the messages, and the agent in
    [cmd/hserver-agent]: its configuration, profile store, cycle, task executor
    and the controllers that change the host, down to their system calls, with
    the parts of [internal/services/deploy] and [internal/services/releaseupdates]
    they call.  Above the hub it models the panel's API of the managed nodes
    ([internal/api]) with its router and rate limiter, and the relay of terminals
    ([internal/agentterminal]).  It proves what a user of the panel relies on,
    and that the ends of the protocols fit together.

    ** The parts and how they interact

    An operator registers a node and receives its bearer token once.  The agent
    sends heartbeats (inventory, capabilities, the observation of its profile),
    polls for the next task and reports results.  The operator edits a node's
    desired deploy profile under compare-and-swap and asks to apply it, and
    queues tasks of a closed list of kinds.  [service.go] is the policy,
    [repository.go] the storage with its atomic writes, [profile.go] and
    [metrics.go] the typed documents.  A user reaches all of it by HTTP: a
    handler queues a task, waits for the agent to finish it and answers from its
    result.  On the host the executor hands a task to a controller, which edits
    files and runs commands.  A terminal of a host is relayed between two
    WebSockets.

    ** Files

    The Go language and its standard library, as far as the source uses them:
    - [Prelude] (this file): results and their notation, tactics, the hint
      database [hub], generic lemmas;
    - [GoStrings]: byte strings, UTF-8 decoding, [strings], [strconv],
      [path/filepath.Clean], [unicode];  [GoBase64], [GoSha256]: the encodings;
      [GoJson]: [encoding/json] as a value type with a printer, a
      parser and the decoding rules for Go targets, and the round trip between
      them;  [GoNet]: [net.ParseIP] and [ParseCIDR];  [GoTime]: the calendar,
      RFC 3339 printing and parsing and their round trip;  [GoFloat]: [float64]
      as binary64 [SpecFloat] with its decimal conversions.

    The hub:
    - [HubTypes]: constants, records and errors of [types.go] and of the heads
      of the other files;
    - [ReleaseVersion]: [releaseversion.go] and [compatibility.go];
    - [TaskGate]: [ValidateTaskRequest], one definition per arm of its switch,
      with all its validators, [capabilityForTask], [ValidateTaskResultRequest],
      and the payload schema of every kind;
    - [Profile]: [profile.go], normalisation, strict documents, the derived
      apply state;  [TaskResult]: results of profile applies;
    - [Heartbeat]: registration and heartbeat validation and the inventory
      document;  [IntegrationStatus], [Metrics]: the typed results of
      [integration.status] and [metrics.read];
    - [Repository]: the tables as a record [db] of maps and rows, every method
      of [repository.go] as a function on it;  a transaction that fails returns
      the state it began with;
    - [Service]: every method of [service.go] as a function of the database and
      of the readings of the clock, in the order the method takes them.

    The hub as a system:
    - [HubSystem], its first half: an abstract job board, the contract of the
      task queue: jobs are posted, claimed in order by their node, and finished
      once by it.  The class [BoardQueue] states what an implementation
      promises, and the properties of the queue are proved for every instance;
    - [HubSystem], its second half: the step relation [hub_step] whose steps are the atomic
      writes of the repository as the service issues them.  The methods of the
      service interleave between their reads and their write, so a step is
      taken with the arguments of any earlier read; [reachable] closes it under
      every interleaving.  [hub_inv] is the invariant;
    - [HubRefines]: the forward simulation of the board by the hub, the
      instance [hub_queue];
    - [ServiceFacts]: what rows decode to; that a service method is
      a sequence of steps; [call] and [run], histories of service calls.

    The agent:
    - [AgentStore], [AgentApply]: [profile_store.go] and [profile_apply.go].  The
      profile directory is a record of four file entries; every system call's
      outcome is an input, and an apply returns the list of directory states it
      published, so a crash is a prefix of that list;  [AgentStoreFacts]: lemmas;
    - [GoDuration], [AgentConfig]: [time.ParseDuration] and [config.go];
    - [AgentMain], [AgentHub]: the heartbeat and the cycle of [main.go] over any
      client ([client.go]), and the client that is the hub of [Service] itself;
    - [AgentTasks]: [tasks.go] and [integration_status.go].  A task is a program
      ([prog]) of controller calls; what a controller answers is chosen by the
      host;
    - [AgentDeploy], [AgentFirewall]: [deploy.go] and [firewall.go].

    The host, and the controllers that change it:
    - [HostFiles]: the files of a host as a map from paths, the system calls
      ([sys]), what each may answer and do ([sys_step]) on a host (the class
      [Host]), and the states a program of them can stop in ([reaches]).  [wp] is the program logic: an invariant
      after every call, so also at a crash, and a postcondition; [run_on] is a
      host that carries programs out, for the witnesses;
    - [AgentEditors]: the guarded replacement the writers share;  [AgentNginx],
      [AgentPHP], [AgentFiles]: [nginx.go], [php.go] and [files.go];
      [AgentDomains]: [domains.go];  [AgentCron]: [cron.go];
    - [ProjectDomains]: the runtime of [project_domains_nginx.go];
      [AgentDeployDomains]: [deploy_domains.go].  What the one promises to the
      other is the class [RuntimeSpec] of [AgentDeployDomainsClaims];
    - [AgentServices]: [service.go], [containers.go], [logs.go] and [pm2.go];
      [AgentDatabases], [AgentCertificates], [AgentBackups]: [database.go],
      [ssl.go] and [backup.go];  [AgentCleanup]: [disk_cleanup.go];
    - [ReleaseUpdates]: the discovery of releases, [checker.go];
      [AgentUpdates]: the agent's own updates, [agent_update.go];
    - [HostTasks]: the controllers [main] builds, and the operations of the
      executor carried out by them.

    The terminal relay:
    - [TerminalHub]: [agentterminal/hub.go].  Every method is a sequence of
      atomic instructions (a critical section of maps, a channel operation, the
      taking of the writers' lock, a transport call), and a run is any
      interleaving of them with inputs of the transport;  [TerminalHubFacts]:
      invariants, the lock of the writers, progress and the measure that bounds
      a run between inputs.

    The panel's API of the managed nodes:
    - [GoTyped]: Go types as values and [encoding/json] into them;
      [RemoteNodes]: the structs of [services/remotenodes];
    - [PanelApi]: a handler is a program ([prog]) of calls of the hub, the audit
      log, the rate limiter and the clock that ends with one response;
      [waitForManagedNodeTask] and the reading of bodies;
    - [PanelNodes], [PanelDomains], [PanelAgents]: the handlers of
      [handlers_remote_nodes.go], [handlers_agenthub.go] and its neighbours;
    - [RateLimit]: [services/security/ratelimit.go];
    - [PanelRouter]: the routes of [router.go], sessions and roles;
    - [PanelFacts]: what every handler may call, as a protocol over the calls it
      has made, obeyed by every route, and the tasks a [GET] queues;
    - [PanelSamples]: the calls answered by the modelled hub and limiter while
      other goroutines run between them, and sample requests;
      [PanelTaskClaims]: a task on its way from a handler through the hub and
      the agent and back.

    The properties and their witnesses are in [AgentHub], [AgentReports],
    [AgentDomains], [AgentCleanup] and [HostTasks] and in the files whose names
    end in [Claims]; [Samples] has the concrete states and histories the
    witnesses of the hub use.

    ** What the theorems show

    - The queue ([HubClaims]): the hub refines the board; each node has at most
      one profile apply in flight; a node receives its tasks in order and each
      at most once; a result is recorded once and by the claiming node; tasks
      move forward only; the database is sound; profile revisions grow by one;
      histories of service calls stay within the reachable states.
    - The service ([ServiceClaims]): authentication, admission of tasks,
      compare-and-swap of profiles, idempotent applies, delivery by polls,
      completion once, isolation of nodes, bounded histories, the 45-second
      online window.  Progress: a request that satisfies the conditions is
      queued, a desired profile of an online node can be applied, a claimed task
      can be finished.
    - The gate ([TaskGateClaims]): closed kinds with exact schemas, bounded and
      control-free values, no path traversal, a capability for every kind.
    - Documents ([HostClaims]): normalisation
      is canonical, idempotent and safe; canonical encoding and strict decoding
      are inverse; "applied" is reported from an observation only; accepted
      status, metrics and inventory documents satisfy their arithmetic without
      wrap-around.
    - The agent alone: an apply is crash-safe, monotone, idempotent and makes
      progress ([AgentApplyClaims]); a loaded configuration is well formed
      whatever the profile directory holds ([AgentConfigClaims]); the executor
      stays within the host's allowances ([AgentTasksClaims]); a firewall change
      never locks out a protected path and is all or nothing,
      and a rule is read back from its command line ([AgentFirewallClaims]); a
      deployment runs configured commands only and its
      output is bounded ([AgentDeployClaims]).
    - The agent and the hub: their decoders of profile payloads and their
      identifier patterns agree; what the agent advertises, observes and
      reports passes the hub's validation ([AgentReports], [AgentConfigClaims],
      [AgentApplyClaims]); an admitted task reaches its controller
      with the arguments of its payload ([AgentTasksClaims]); a profile task ends recorded, and the panel's
      "applied" means an active profile on the host ([AgentHub]).
    - Files of the host ([AgentEditorsClaims]): wherever an edit stops the target
      is its old or its complete new version, the answer tells which, and no
      edit overwrites what its author has not seen; from the executor on, this
      is what a save of the panel does to the disk ([HostTasks]).
    - The other controllers: a change of the cron jobs is crash-safe, answered
      truthfully and read back by the next inventory, and no job can add a line
      to the cron file ([AgentCronClaims]); switching a domain changes its link
      only and in one step ([AgentDomains]); ensuring a project domain never
      harms a file that was there ([AgentDeployDomainsClaims]); an upgrade runs
      the installer of a signed release only ([AgentUpdatesClaims]); a clean-up
      removes regular files of its targets older than seven days only
      ([AgentCleanup]).
    - The terminal relay ([TerminalHubClaims]): a session that was not ended is
      attached to the current, open connection of its node, a replaced
      connection is closed and empty, queues are bounded, one goroutine at a
      time writes to an agent, and the relay comes to rest, as long as transport
      calls return and browsers take their messages.
    - The panel ([PanelClaims]): whatever the hub answers, every call of a
      request is authorised by a session's role or an agent's credentials and
      names the node of the path.  A request that is no [GET] or [HEAD] asks
      nothing but the registration of a node of the hub before the rate limiter
      let it pass, a [GET] changes nothing but that it may queue one task of a
      list of kinds, and a success means that the task completed, or says that
      it is pending.  What a user writes reaches the host's controller unchanged, and saving a
      file works from the request to the receipt ([PanelTaskClaims]); the
      receipt of an ensured domain is checked ([PanelDomainClaims]); a ban
      refuses logins to its end ([RateLimitClaims]).
    - Twelve lemmas state behaviour that departs from a comment or an evident
      intention: [gate_write_without_content], [ensure_conflict_window],
      [list_nodes_not_newest_first], [heartbeat_write_roots_unchecked],
      [nested_write_root_refused], [deploy_output_refused],
      [delete_keeps_quotes], [mapped_source_unprotected], [ban_forgotten],
      [forwarded_address_wins], [state_outgrows_limit], [orphan_job_blocks].

    ** Conventions

    A byte string is a [string] whose characters are bytes; a w-bit integer is
    a [Z] with its wrap-around written out ([wrap_int64], [wrap_uint64]); an
    instant is its nanoseconds since year one in [Z], with an offset where the
    zone matters; [(T, error)] is [result hub_error T]; the identity of wrapped
    errors is the sentinel they wrap, every other error is [ErrOther].  A slice
    that may be nil is [slice], an [option (list A)].

    Fuel: the JSON parser takes two units per byte of the text and two more
    ([unmarshal_fuel]), and [parse_fuel_enough] shows that more never changes
    the answer; printing a number in decimal takes one unit per binary digit
    ([dec_fuel]); the shortest decimal of a binary64 is searched among at most
    17 digits, which always identify it; a walk of a clean-up goes
    [walk_levels] deep, 2048, the most elements a path of the 4096 bytes Linux
    allows can have, and a backup's walk stops at the depth the source itself
    sets.

    Parameters: [UnicodeTables] (letters and digits above U+00FF, of package
    [unicode]) and [LowerTable] (its lower-case map above ASCII), used at
    [latin_tables] by the witnesses; the readings of the clock, assumed within
    the years RFC 3339 can print ([clock_ok]) where a theorem reads a stored
    timestamp back; the random bytes of a token; [url.Parse] and
    [url.ParseRequestURI]; [mail.ParseAddress]; [auth.ValidateToken], the user a
    session's token names; [TokenBucket], the limiters of
    [golang.org/x/time/rate]; [X509] ([crypto/x509]), [Web] ([net/url] and
    Ed25519) and [Archives] ([archive/tar] over [compress/gzip], [debug/elf]);
    the order [sort.Slice] leaves equal names in and the order of a map's
    iteration ([shuffle]); the texts of decoding errors; [Host], whether the
    system calls of a host may fail without cause, when its files were modified,
    and what its clock reads; what a command does to the
    files (the relation [command]) and what a path resolves to ([resolves]).
    The theorems on edits, cron jobs and domains assume that the programs the
    agent runs there (Nginx, PHP-FPM, systemctl) leave the files alone
    ([leaves_managed_files]), and those on cron jobs and project domains that
    the configured paths are apart ([cron_layout], [site_layout]).  Parameters
    too are the answers of the operating system, of the commands an agent runs, of the
    transport of terminals and, in the theorems that say so, of the hub.
    Payloads and results are assumed valid UTF-8 ([utf8_map]), which the JSON
    decoding of a request guarantees.

    Not modelled: failures of SQLite itself (I/O, locking, the context of a
    query), nil receivers, the upgrade of a database without the capabilities
    column, the nesting limit of [encoding/json], timing of the token
    comparison; outside the hub, the HTTP transport, the WebSocket ends of the
    terminal relay, the handlers of the panel's other features and its login,
    the agent's inventory, metrics and terminals (operations of the executor,
    answered by the host), a transport call of a terminal that never returns, the deadlines of commands (a late
    command is one that fails), the ticker of the TLS maintenance, the agent's
    files changing under it by other processes than its commands, the command
    line, the web panel and the wrappers of external programs.

    ** Plan

    Next, in this order: the panel's login with its second factor; the panel's
    own update manager; address lists, alert rules and rclone profiles; the
    round trip of the inventory column. *)

From stdpp Require Import base strings gmap list fin_maps.
From Stdlib Require Import ZArith Lia.

(** ** Results and the state-and-error monad

    A Go function that returns [(T, error)] becomes a function into
    [result E T]; a method that also writes to the store becomes a function
    [S -> result E T * S]. *)

Inductive result (E A : Type) : Type :=
| Ok (a : A)
| Err (e : E).
Arguments Ok {E A} a.
Arguments Err {E A} e.

Definition rbind {E A B} (r : result E A) (k : A -> result E B) : result E B :=
  match r with
  | Ok a => k a
  | Err e => Err e
  end.

Definition is_Ok {E A} (r : result E A) : bool :=
  match r with Ok _ => true | Err _ => false end.

Declare Scope hub_scope.
Delimit Scope hub_scope with hub.
Notation "'let?' x := c 'in' k" := (rbind c (fun x => k))
  (at level 200, x pattern, c at level 200, k at level 200, right associativity) : hub_scope.
Infix "=?s" := String.eqb (at level 70, no associativity) : hub_scope.
Open Scope hub_scope.

Lemma rbind_Ok {E A B} (r : result E A) (k : A -> result E B) b :
  rbind r k = Ok b <-> exists a, r = Ok a /\ k a = Ok b.
Proof. destruct r; simpl; naive_solver. Qed.

Lemma rbind_Err {E A B} (r : result E A) (k : A -> result E B) e :
  rbind r k = Err e <-> r = Err e \/ exists a, r = Ok a /\ k a = Err e.
Proof. destruct r; simpl; naive_solver. Qed.

Lemma is_Ok_true {E A} (r : result E A) : is_Ok r = true <-> exists a, r = Ok a.
Proof. destruct r; simpl; naive_solver. Qed.

(** ** The Go [switch] statement on a string

    [switch k cases dflt] is [switch k { case l1, l2: b1; ...; default: dflt }]:
    the first arm one of whose labels equals [k] is taken. *)

Fixpoint switch {A} (k : string) (cases : list (list string * A)) (dflt : A) : A :=
  match cases with
  | [] => dflt
  | (labels, body) :: rest =>
      if existsb (String.eqb k) labels then body else switch k rest dflt
  end.

Lemma existsb_eqb_elem (k : string) (l : list string) :
  existsb (String.eqb k) l = true <-> k ∈ l.
Proof.
  rewrite existsb_exists. setoid_rewrite String.eqb_eq.
  split; [intros (x & ? & ->); by apply list_elem_of_In|].
  intros ?. exists k. split; [by apply list_elem_of_In|done].
Qed.

Lemma switch_inv {A} (k : string) (cases : list (list string * A)) (dflt : A) :
  (exists labels body, (labels, body) ∈ cases /\ k ∈ labels /\ switch k cases dflt = body)
  \/ (switch k cases dflt = dflt /\ forall labels body, (labels, body) ∈ cases -> k ∉ labels).
Proof.
  induction cases as [|[labels body] rest IH]; simpl.
  - right. split; [done|]. intros ?? []%not_elem_of_nil.
  - destruct (existsb _ _) eqn:E.
    + apply existsb_eqb_elem in E. left. exists labels, body. set_solver.
    + destruct IH as [(l & b & ? & ? & ?)|[? IH]].
      * left. exists l, b. set_solver.
      * right. split; [done|]. intros l b [[= -> ->]|Hin]%elem_of_cons; [|by eapply IH].
        intros Hk%existsb_eqb_elem. congruence.
Qed.

(** ** Automation *)

Create HintDb hub.
Create Rewrite HintDb hubs.

(** Turn boolean facts in the context into propositions. *)
Ltac breflect :=
  repeat match goal with
  | H : (_ && _) = true |- _ => apply andb_true_iff in H; destruct H
  | H : (_ || _) = false |- _ => apply orb_false_iff in H; destruct H
  | H : negb _ = true |- _ => apply negb_true_iff in H
  | H : negb _ = false |- _ => apply negb_false_iff in H
  | H : String.eqb _ _ = true |- _ => apply String.eqb_eq in H
  | H : String.eqb _ _ = false |- _ => apply String.eqb_neq in H
  | H : (_ <? _)%Z = true |- _ => apply Z.ltb_lt in H
  | H : (_ <? _)%Z = false |- _ => apply Z.ltb_ge in H
  | H : (_ <=? _)%Z = true |- _ => apply Z.leb_le in H
  | H : (_ <=? _)%Z = false |- _ => apply Z.leb_gt in H
  | H : (_ =? _)%Z = true |- _ => apply Z.eqb_eq in H
  | H : (_ =? _)%Z = false |- _ => apply Z.eqb_neq in H
  | H : bool_decide _ = true |- _ => apply bool_decide_eq_true in H
  | H : bool_decide _ = false |- _ => apply bool_decide_eq_false in H
  end.

(** Case analysis on the tests of a hypothesis [H : f x = Ok y] until the
    failing branches are gone. *)
Ltac inv_ok H :=
  repeat match type of H with
  | rbind _ _ = Ok _ =>
      let a := fresh "a" in let H1 := fresh "Hr" in let H2 := fresh "Hk" in
      apply rbind_Ok in H as (a & H1 & H2); rename H2 into H
  | (if ?b then Err _ else _) = Ok _ =>
      let E := fresh "E" in destruct b eqn:E; [discriminate H|]
  | (if ?b then _ else Err _) = Ok _ =>
      let E := fresh "E" in destruct b eqn:E; [|discriminate H]
  end.

(** Linear arithmetic with division and modulo. *)
Ltac lia_div := Z.to_euclidean_division_equations; lia.

(** ** Lists and finite maps *)

Lemma forallb_Forall {A} (f : A -> bool) (l : list A) :
  forallb f l = true <-> Forall (fun x => f x = true) l.
Proof. rewrite forallb_forall, List.Forall_forall. done. Qed.

Lemma existsb_false {A} (f : A -> bool) (l : list A) :
  existsb f l = false <-> Forall (fun x => f x = false) l.
Proof.
  induction l as [|x l IH]; simpl; [split; auto|].
  rewrite orb_false_iff, Forall_cons, IH. done.
Qed.

(** A map whose size is the number of listed keys, all of which it has, has
    exactly these keys. *)
Lemma dom_exact {A} (m : gmap string A) (ks : list string) :
  NoDup ks -> Forall (fun k => is_Some (m !! k)) ks -> size m = length ks ->
  dom m = list_to_set ks.
Proof.
  intros Hnd Hall Hsz. symmetry. apply set_subseteq_size_eq.
  - intros k Hk%elem_of_list_to_set. apply elem_of_dom.
    by eapply Forall_forall in Hall.
  - rewrite size_list_to_set by done. rewrite size_dom. lia.
Qed.
