(* ===== verification/GoStrings.v ===== *)
(** * Go strings, runes, paths and integer syntax

    The part of Go's language and standard library that the agent hub uses on
    strings: a Go string is a byte sequence, here [string] (a list of bytes);
    [range] over a string decodes UTF-8 into runes; [strings.TrimSpace],
    [strings.Split], [strings.Fields], [filepath.Clean], [strconv.Atoi],
    [strconv.ParseInt], [strconv.ParseUint] and [strconv.FormatInt] are
    executable functions.  Nothing here maps to the repository: these are the
    definitions its validators are written with. *)

From stdpp Require Import base strings gmap list.
From Stdlib Require Import ZArith Lia Ascii.
From S2P Require Import Prelude.
Local Open Scope Z_scope.

(** ** Bytes *)

Definition byte (c : ascii) : Z := Z.of_N (N_of_ascii c).
Definition of_byte (b : Z) : ascii := ascii_of_N (Z.to_N b).

(** Go's [len] of a string. *)
Definition len (s : string) : Z := Z.of_nat (String.length s).

Definition chars (s : string) : list ascii := String.list_ascii_of_string s.

Lemma byte_range c : 0 <= byte c < 256.
Proof. unfold byte. pose proof (N_ascii_bounded c). lia. Qed.

Lemma of_byte_byte c : of_byte (byte c) = c.
Proof. unfold of_byte, byte. rewrite N2Z.id. apply ascii_N_embedding. Qed.

Lemma byte_of_byte b : 0 <= b < 256 -> byte (of_byte b) = b.
Proof.
  intros. unfold of_byte, byte. rewrite N_ascii_embedding by lia. lia.
Qed.

Lemma byte_inj c d : byte c = byte d -> c = d.
Proof. intros H. rewrite <-(of_byte_byte c), <-(of_byte_byte d). by rewrite H. Qed.

Lemma len_nonneg s : 0 <= len s.
Proof. unfold len. lia. Qed.

Lemma len_nonempty s : s <> "" -> 1 <= len s.
Proof. destruct s; [done|]. unfold len. simpl. lia. Qed.

Lemma string_app_cons c s t : (String c s +:+ t) = String c (s +:+ t).
Proof. done. Qed.

Lemma string_app_nil_r s : (s +:+ "") = s.
Proof. induction s; [done|]. unfold String.app. simpl. f_equal. apply IHs. Qed.

Lemma string_app_assoc s t u : (s +:+ (t +:+ u)) = ((s +:+ t) +:+ u).
Proof. induction s; [done|]. unfold String.app in *. simpl. f_equal. apply IHs. Qed.

Lemma len_app s t : len (s +:+ t) = len s + len t.
Proof.
  unfold len, String.app. induction s as [|c s IH]; simpl; [done|]. lia.
Qed.

Lemma chars_app s t : chars (s +:+ t) = chars s ++ chars t.
Proof. induction s; [done|]. unfold String.app in *. simpl. f_equal. apply IHs. Qed.

Lemma length_chars s : length (chars s) = String.length s.
Proof. induction s; simpl; [done|]. f_equal. apply IHs. Qed.

Lemma string_chars s : String.string_of_list_ascii (chars s) = s.
Proof. apply String.string_of_list_ascii_of_string. Qed.

(** ** UTF-8 decoding, as in package [unicode/utf8] *)

Definition RuneError : Z := 0xFFFD.

Definition cont (c : ascii) : bool := (0x80 <=? byte c) && (byte c <=? 0xBF).
Definition in_range (lo hi : Z) (c : ascii) : bool := (lo <=? byte c) && (byte c <=? hi).

(** [decode_rune c s] decodes the rune that starts with byte [c] and continues
    in [s]: its value and the number of bytes of [s] it takes, [None] for an
    invalid encoding (Go then yields [RuneError] of width 1). *)
Definition decode_rune (c : ascii) (s : string) : option (Z * nat) :=
  let b := byte c in
  if b <? 0x80 then Some (b, 0%nat)
  else if (0xC2 <=? b) && (b <=? 0xDF) then
    match s with
    | String c1 _ =>
        if cont c1 then Some ((b - 0xC0) * 64 + (byte c1 - 0x80), 1%nat) else None
    | _ => None
    end
  else if (0xE0 <=? b) && (b <=? 0xEF) then
    match s with
    | String c1 (String c2 _) =>
        let lo := if b =? 0xE0 then 0xA0 else 0x80 in
        let hi := if b =? 0xED then 0x9F else 0xBF in
        if in_range lo hi c1 && cont c2
        then Some ((b - 0xE0) * 4096 + (byte c1 - 0x80) * 64 + (byte c2 - 0x80), 2%nat)
        else None
    | _ => None
    end
  else if (0xF0 <=? b) && (b <=? 0xF4) then
    match s with
    | String c1 (String c2 (String c3 _)) =>
        let lo := if b =? 0xF0 then 0x90 else 0x80 in
        let hi := if b =? 0xF4 then 0x8F else 0xBF in
        if in_range lo hi c1 && cont c2 && cont c3
        then Some ((b - 0xF0) * 262144 + (byte c1 - 0x80) * 4096
                   + (byte c2 - 0x80) * 64 + (byte c3 - 0x80), 3%nat)
        else None
    | _ => None
    end
  else None.

(** The runes a [for _, r := range s] loop visits.  [skip] counts the bytes of
    the current rune still to be passed over. *)
Fixpoint runes_from (skip : nat) (s : string) : list Z :=
  match s with
  | "" => []
  | String c s' =>
      match skip with
      | S k => runes_from k s'
      | O =>
          match decode_rune c s' with
          | Some (r, w) => r :: runes_from w s'
          | None => RuneError :: runes_from 0 s'
          end
      end
  end.

Definition runes (s : string) : list Z := runes_from 0 s.

(** [utf8.Valid]. *)
Fixpoint valid_utf8_from (skip : nat) (s : string) : bool :=
  match s with
  | "" => true
  | String c s' =>
      match skip with
      | S k => valid_utf8_from k s'
      | O =>
          match decode_rune c s' with
          | Some (_, w) => valid_utf8_from w s'
          | None => false
          end
      end
  end.

Definition valid_utf8 (s : string) : bool := valid_utf8_from 0 s.

(** ** Character classes of package [unicode] *)

Definition IsControl (r : Z) : bool :=
  ((0 <=? r) && (r <=? 0x1F)) || ((0x7F <=? r) && (r <=? 0x9F)).

(** [unicode.White_Space], the complete table. *)
Definition IsSpace (r : Z) : bool :=
  ((0x09 <=? r) && (r <=? 0x0D)) || (r =? 0x20) || (r =? 0x85) || (r =? 0xA0)
  || (r =? 0x1680) || ((0x2000 <=? r) && (r <=? 0x200A)) || (r =? 0x2028)
  || (r =? 0x2029) || (r =? 0x202F) || (r =? 0x205F) || (r =? 0x3000).

(** The letter and decimal-digit tables above Latin-1 are data of the Unicode
    version the Go release ships; the model is parametric in them. *)
Class UnicodeTables := {
  letter_table : Z -> bool;
  digit_table : Z -> bool
}.

Definition IsLetter `{UnicodeTables} (r : Z) : bool :=
  if r <=? 0xFF then
    ((0x41 <=? r) && (r <=? 0x5A)) || ((0x61 <=? r) && (r <=? 0x7A))
    || (r =? 0xAA) || (r =? 0xB5) || (r =? 0xBA)
    || ((0xC0 <=? r) && (r <=? 0xD6)) || ((0xD8 <=? r) && (r <=? 0xF6)) || (0xF8 <=? r)
  else letter_table r.

Definition IsDigit `{UnicodeTables} (r : Z) : bool :=
  if r <=? 0xFF then (0x30 <=? r) && (r <=? 0x39) else digit_table r.

(** ** Package [strings] *)

(** [strings.Split] with a one-byte separator. *)
Fixpoint split (sep : ascii) (s : string) : list string :=
  match s with
  | "" => [""]
  | String c s' =>
      if Ascii.eqb c sep then "" :: split sep s'
      else match split sep s' with
           | [] => [String c ""]
           | w :: ws => String c w :: ws
           end
  end.

(** [strings.Join] with a one-byte separator. *)
Fixpoint join (sep : ascii) (ws : list string) : string :=
  match ws with
  | [] => ""
  | [w] => w
  | w :: ws' => w +:+ String sep (join sep ws')
  end.

Fixpoint prefix_of (p s : list ascii) : bool :=
  match p, s with
  | [], _ => true
  | a :: p', b :: s' => Ascii.eqb a b && prefix_of p' s'
  | _ :: _, [] => false
  end.

Definition HasPrefix (s p : string) : bool := prefix_of (chars p) (chars s).

Definition HasSuffix (s p : string) : bool :=
  prefix_of (reverse (chars p)) (reverse (chars s)).

(** [strings.TrimPrefix] with a one-byte prefix. *)
Definition TrimPrefix1 (s : string) (p : ascii) : string :=
  match s with
  | String c s' => if Ascii.eqb c p then s' else s
  | "" => s
  end.

(** [strings.ContainsAny] for a set of ASCII bytes. *)
Definition ContainsAny (s : string) (cs : list ascii) : bool :=
  existsb (fun c => existsb (Ascii.eqb c) cs) (chars s).

(** [strings.ContainsRune] for a rune looked up in an ASCII literal. *)
Definition ContainsRune (lit : string) (r : Z) : bool :=
  existsb (fun c => byte c =? r) (chars lit).

(** The number of fields [strings.Fields] returns. *)
Fixpoint count_fields (inside : bool) (rs : list Z) : Z :=
  match rs with
  | [] => if inside then 1 else 0
  | r :: rs' =>
      if IsSpace r then (if inside then 1 else 0) + count_fields false rs'
      else count_fields true rs'
  end.

Definition FieldsCount (s : string) : Z := count_fields false (runes s).

Fixpoint trim_left_from (skip : nat) (s : string) : string :=
  match s with
  | "" => ""
  | String c s' =>
      match skip with
      | S k => trim_left_from k s'
      | O =>
          match decode_rune c s' with
          | Some (r, w) => if IsSpace r then trim_left_from w s' else s
          | None => s
          end
      end
  end.

(** [utf8.DecodeLastRune] on a reversed byte list: the rune and the number of
    further bytes it takes, [None] when the tail is not one valid encoding. *)
Definition rune_start (c : ascii) : bool := negb (cont c).

Definition decode_last (c : ascii) (rb : list ascii) : option (Z * nat) :=
  if byte c <? 0x80 then Some (byte c, 0%nat)
  else
    let try (k : nat) :=
      match reverse (c :: take k rb) with
      | c0 :: rest =>
          match decode_rune c0 (String.string_of_list_ascii rest) with
          | Some (r, w) => if Nat.eqb w k then Some (r, k) else None
          | None => None
          end
      | [] => None
      end in
    match rb with
    | c1 :: rb1 =>
        if rune_start c1 then try 1%nat
        else match rb1 with
             | c2 :: rb2 =>
                 if rune_start c2 then try 2%nat
                 else match rb2 with
                      | c3 :: _ => if rune_start c3 then try 3%nat else None
                      | [] => None
                      end
             | [] => None
             end
    | [] => None
    end.

Fixpoint trim_right_from (skip : nat) (rb : list ascii) : list ascii :=
  match rb with
  | [] => []
  | c :: rb' =>
      match skip with
      | S k => trim_right_from k rb'
      | O =>
          match decode_last c rb' with
          | Some (r, w) => if IsSpace r then trim_right_from w rb' else rb
          | None => rb
          end
      end
  end.

Definition TrimSpace (s : string) : string :=
  String.string_of_list_ascii
    (reverse (trim_right_from 0 (reverse (chars (trim_left_from 0 s))))).

(** ** Package [path/filepath] on Unix *)

Definition slash : ascii := "/"%char.

Definition IsAbs (p : string) : bool := HasPrefix p "/".

(** The component stack of [filepath.Clean], innermost component first. *)
Fixpoint clean_go (rooted : bool) (comps stack : list string) : list string :=
  match comps with
  | [] => stack
  | c :: cs =>
      if (c =?s "") || (c =?s ".") then clean_go rooted cs stack
      else if c =?s ".." then
        match stack with
        | top :: rest =>
            if top =?s ".." then clean_go rooted cs (".." :: stack)
            else clean_go rooted cs rest
        | [] => if rooted then clean_go rooted cs [] else clean_go rooted cs [".."]
        end
      else clean_go rooted cs (c :: stack)
  end.

Definition Clean (p : string) : string :=
  let rooted := IsAbs p in
  let out := join slash (reverse (clean_go rooted (split slash p) [])) in
  if rooted then String slash out else if out =?s "" then "." else out.

(** ** Package [strconv] *)

Definition digit_of (c : ascii) : option Z :=
  if in_range 48 57 c then Some (byte c - 48) else None.

Fixpoint digits_value (acc : Z) (s : string) : option Z :=
  match s with
  | "" => Some acc
  | String c s' =>
      match digit_of c with
      | Some d => digits_value (acc * 10 + d) s'
      | None => None
      end
  end.

Definition max_int64 : Z := 2 ^ 63 - 1.
Definition min_int64 : Z := - 2 ^ 63.
Definition max_uint64 : Z := 2 ^ 64 - 1.

(** The 64-bit two's complement wrap-around of Go's [int64] and [uint64]. *)
Definition wrap_int64 (x : Z) : Z := (x + 2 ^ 63) mod 2 ^ 64 - 2 ^ 63.
Definition wrap_uint64 (x : Z) : Z := x mod 2 ^ 64.

(** [strconv.ParseUint(s, 10, 64)]. *)
Definition ParseUint (s : string) : option Z :=
  if s =?s "" then None
  else match digits_value 0 s with
       | Some n => if n <=? max_uint64 then Some n else None
       | None => None
       end.

(** [strconv.ParseInt(s, 10, 64)]; [strconv.Atoi] is the same function on a
    64-bit platform. *)
Definition ParseInt (s : string) : option Z :=
  match s with
  | "" => None
  | String c s' =>
      let '(neg, body) :=
        if Ascii.eqb c "-"%char then (true, s')
        else if Ascii.eqb c "+"%char then (false, s') else (false, s) in
      match ParseUint body with
      | Some n =>
          if neg then (if n <=? 2 ^ 63 then Some (- n) else None)
          else if n <? 2 ^ 63 then Some n else None
      | None => None
      end
  end.

Definition Atoi (s : string) : option Z := ParseInt s.

(** The value [strconv.Atoi] returns with or without an error: zero for a text
    that is no number, the nearest bound for one out of range. *)
Fixpoint scan_uint (acc : Z) (s : string) : option Z :=
  match s with
  | "" => Some acc
  | String c s' =>
      match digit_of c with
      | Some d =>
          let acc' := acc * 10 + d in
          if max_uint64 <? acc' then Some max_uint64 else scan_uint acc' s'
      | None => None
      end
  end.

Definition Atoi_value (s : string) : Z :=
  let '(minus, digits) :=
    match s with
    | String c s' =>
        if Ascii.eqb c "-"%char then (true, s') else if Ascii.eqb c "+"%char then (false, s') else (false, s)
    | "" => (false, "")
    end in
  if digits =?s "" then 0
  else match scan_uint 0 digits with
       | Some n => if minus then Z.max min_int64 (- n) else Z.min max_int64 n
       | None => 0
       end.

(** Decimal digits of a non-negative number, most significant first; [fuel] at
    least the number of digits is enough. *)
Fixpoint dec_digits (fuel : nat) (n : Z) : list Z :=
  match fuel with
  | O => []
  | S k => (if n <? 10 then [] else dec_digits k (n / 10)) ++ [n mod 10]
  end.

Definition digit_char (d : Z) : ascii := of_byte (48 + d).

Definition dec_fuel (n : Z) : nat := S (Z.to_nat (Z.log2 n)).

Definition utoa (n : Z) : string :=
  String.string_of_list_ascii (digit_char <$> dec_digits (dec_fuel n) n).

(** [strconv.FormatInt(n, 10)] and [strconv.Itoa]. *)
Definition Itoa (n : Z) : string :=
  if n <? 0 then String "-"%char (utoa (- n)) else utoa n.

(** ** Lemmas: splitting and joining *)

Lemma split_nonempty sep s : split sep s <> [].
Proof. destruct s as [|c s]; simpl; [done|]. repeat case_match; done. Qed.

Lemma join_split sep s : join sep (split sep s) = s.
Proof.
  induction s as [|c s IH]; simpl; [done|].
  destruct (Ascii.eqb_spec c sep) as [->|Hne].
  - destruct (split sep s) eqn:E; [by apply split_nonempty in E|]. simpl in *. by rewrite IH.
  - destruct (split sep s) as [|w [|w' ws]] eqn:E; [by apply split_nonempty in E|..];
      simpl in *; rewrite ?string_app_cons; by rewrite IH.
Qed.

(** No part of a split contains the separator. *)
Lemma split_no_sep sep s : Forall (fun w => sep ∉ chars w) (split sep s).
Proof.
  induction s as [|c s IH]; simpl; [constructor; [by apply not_elem_of_nil|done]|].
  destruct (Ascii.eqb_spec c sep) as [->|Hne].
  - constructor; [by apply not_elem_of_nil|done].
  - destruct (split sep s) as [|w ws]; [by constructor; [set_solver|]|].
    inversion_clear IH. constructor; [|done]. unfold chars in *. simpl. set_solver.
Qed.

Lemma split_app_sep sep w rest :
  sep ∉ chars w -> split sep (w +:+ String sep rest) = w :: split sep rest.
Proof.
  induction w as [|c w IH]; intros Hw.
  - simpl. by rewrite Ascii.eqb_refl.
  - unfold String.app, chars in *. simpl in *.
    destruct (Ascii.eqb_spec c sep) as [->|]; [set_solver|].
    rewrite IH by set_solver. done.
Qed.

Lemma split_plain sep w : sep ∉ chars w -> split sep w = [w].
Proof.
  induction w as [|c w IH]; intros Hw; [done|]. unfold chars in *. simpl in *.
  destruct (Ascii.eqb_spec c sep) as [->|]; [set_solver|].
  rewrite IH by set_solver. done.
Qed.

Lemma split_join sep ws :
  ws <> [] -> Forall (fun w => sep ∉ chars w) ws -> split sep (join sep ws) = ws.
Proof.
  induction ws as [|w [|w' ws] IH]; intros Hne Hws; [done|..]; inversion_clear Hws; simpl.
  - by apply split_plain.
  - rewrite split_app_sep by done. f_equal. apply IH; done.
Qed.

(** ** Lemmas: clean paths *)

Definition plain_component (c : string) : Prop := c <> "" /\ c <> "." /\ c <> "..".

Lemma clean_go_rooted comps stack :
  Forall plain_component stack -> Forall plain_component (clean_go true comps stack).
Proof.
  revert stack. induction comps as [|c cs IH]; intros stack Hst; simpl; [done|].
  destruct (String.eqb_spec c ""); [by apply IH|]; simpl.
  destruct (String.eqb_spec c "."); [by apply IH|]; simpl.
  destruct (String.eqb_spec c "..").
  - destruct stack as [|top rest]; [by apply IH|]. inversion_clear Hst as [|?? [? [? Htop]]].
    destruct (String.eqb_spec top ".."); [done|]. by apply IH.
  - apply IH. constructor; [by repeat split|done].
Qed.

Lemma clean_go_sub rooted (P : string -> Prop) comps stack :
  Forall P comps -> Forall P stack -> Forall P (clean_go rooted comps stack).
Proof.
  revert stack. induction comps as [|c cs IH]; intros stack Hc Hs; simpl; [done|].
  inversion_clear Hc as [|?? HPc HPcs].
  destruct ((c =?s "") || (c =?s ".")); [by apply IH|].
  destruct (String.eqb_spec c "..") as [->|].
  - destruct stack as [|top rest]; [destruct rooted; apply IH; auto|].
    inversion Hs; subst. destruct (top =?s ".."); apply IH; auto.
  - apply IH; auto.
Qed.

(** A rooted clean path is the root followed by plain components: no empty
    component, no dot and no parent step. *)
Lemma Clean_abs_components p :
  IsAbs p = true ->
  exists comps, Clean p = String slash (join slash comps)
    /\ Forall plain_component comps
    /\ Forall (fun c => slash ∉ chars c) comps.
Proof.
  intros Habs. unfold Clean. rewrite Habs.
  exists (reverse (clean_go true (split slash p) [])). split; [done|]. split.
  - apply Forall_reverse. by apply clean_go_rooted.
  - apply Forall_reverse, clean_go_sub; [apply split_no_sep|done].
Qed.

(** ** Lemmas: decimal integers *)

Lemma digit_of_char d : 0 <= d < 10 -> digit_of (digit_char d) = Some d.
Proof.
  intros. unfold digit_of, digit_char, in_range. rewrite byte_of_byte by lia.
  rewrite andb_true_intro by lia. f_equal. lia.
Qed.

Lemma digits_value_app acc s t :
  digits_value acc (s +:+ t) = digits_value acc s ≫= fun a => digits_value a t.
Proof.
  revert acc. induction s as [|c s IH]; intros acc; [done|].
  unfold String.app in *. simpl. destruct (digit_of c); [|done]. apply IH.
Qed.

Lemma string_of_chars_app l1 l2 :
  String.string_of_list_ascii (l1 ++ l2)
  = String.string_of_list_ascii l1 +:+ String.string_of_list_ascii l2.
Proof. induction l1; [done|]. unfold String.app in *. simpl. by f_equal. Qed.

Lemma dec_digits_range fuel n : 0 <= n -> Forall (fun d => 0 <= d < 10) (dec_digits fuel n).
Proof.
  revert n. induction fuel as [|k IH]; intros n Hn; simpl; [done|].
  apply Forall_app. split.
  - destruct (n <? 10); [done|]. apply IH. apply Z.div_pos; lia.
  - constructor; [|done]. apply Z.mod_pos_bound. lia.
Qed.

Lemma dec_fuel_step n k :
  10 <= n -> (Z.to_nat (Z.log2 n) <= k)%nat -> (Z.to_nat (Z.log2 (n / 10)) < k)%nat.
Proof.
  intros Hn Hk.
  assert (0 < n / 10) by (apply Z.div_str_pos; lia).
  assert (Z.log2 (n / 10) < Z.log2 n) as Hlog.
  { apply Z.log2_lt_pow2; [done|].
    assert (n / 10 < n / 4 + 1) as H1.
    { assert (n / 10 <= n / 4); [|lia]. apply Z.div_le_compat_l; lia. }
    destruct (Z.log2_spec n) as [_ Hu]; [lia|]. rewrite Z.pow_succ_r in Hu by apply Z.log2_nonneg.
    assert (n / 4 < 2 ^ Z.log2 n); [|lia]. apply Z.div_lt_upper_bound; lia. }
  pose proof (Z.log2_nonneg (n / 10)). lia.
Qed.

Lemma dec_digits_value fuel n :
  0 <= n -> (Z.to_nat (Z.log2 n) < fuel)%nat ->
  digits_value 0 (String.string_of_list_ascii (digit_char <$> dec_digits fuel n)) = Some n.
Proof.
  revert n. induction fuel as [|k IH]; intros n Hn Hf; [lia|]. simpl.
  rewrite fmap_app, string_of_chars_app, digits_value_app.
  destruct (Z.ltb_spec n 10) as [Hlt|Hge]; simpl.
  - rewrite Z.mod_small by lia. by rewrite digit_of_char by lia.
  - rewrite IH; [|apply Z.div_pos; lia|by apply dec_fuel_step; lia]. simpl.
    rewrite digit_of_char by (apply Z.mod_pos_bound; lia). f_equal.
    pose proof (Z.div_mod n 10). lia.
Qed.

Lemma utoa_nonempty n : utoa n <> "".
Proof.
  unfold utoa. intros H. apply (f_equal String.length) in H.
  unfold dec_fuel in H. simpl in H. rewrite fmap_app, string_of_chars_app in H.
  destruct (String.string_of_list_ascii _); simpl in H; done.
Qed.

Lemma digits_value_utoa n : 0 <= n -> digits_value 0 (utoa n) = Some n.
Proof. intros Hn. apply dec_digits_value; [done|]. unfold dec_fuel. lia. Qed.

Lemma utoa_head_digit n c s : 0 <= n -> utoa n = String c s -> is_Some (digit_of c).
Proof.
  intros Hn Hu. pose proof (digits_value_utoa n Hn) as Hv. rewrite Hu in Hv. simpl in Hv.
  destruct (digit_of c); [by eexists|done].
Qed.

Lemma ParseUint_utoa n : 0 <= n <= max_uint64 -> ParseUint (utoa n) = Some n.
Proof.
  intros Hn. unfold ParseUint.
  destruct (String.eqb_spec (utoa n) "") as [E|]; [by apply utoa_nonempty in E|].
  rewrite digits_value_utoa by lia. by rewrite (proj2 (Z.leb_le _ _)) by lia.
Qed.

(** A non-negative [int64] takes at most 64 characters. *)
Lemma Itoa_len n : 0 <= n <= max_int64 -> len (Itoa n) <= 64.
Proof.
  intros Hn. unfold Itoa. rewrite (proj2 (Z.ltb_ge _ _)) by lia. unfold utoa.
  assert (forall fuel m, length (dec_digits fuel m) <= fuel)%nat as Hd.
  { induction fuel as [|k IH]; intros m; simpl; [lia|]. rewrite length_app. simpl.
    destruct (m <? 10); simpl; [lia|]. specialize (IH (m / 10)). lia. }
  assert (forall l, len (String.string_of_list_ascii l) = Z.of_nat (length l)) as Hl.
  { unfold len. intros l. induction l; simpl; lia. }
  rewrite Hl, length_fmap. pose proof (Hd (dec_fuel n) n) as Hb. unfold dec_fuel in *.
  assert (Z.log2 n <= 62) by (destruct (Z.eq_dec n 0) as [->|]; [by vm_compute|];
    apply Z.lt_succ_r, Z.log2_lt_pow2; unfold max_int64 in *; lia).
  pose proof (Z.log2_nonneg n). lia.
Qed.

(** A parsed integer fits its width. *)
Lemma ParseInt_range s n : ParseInt s = Some n -> min_int64 <= n <= max_int64.
Proof.
  assert (forall acc t m, 0 <= acc -> digits_value acc t = Some m -> 0 <= m) as Hnn.
  { intros acc t. revert acc. induction t as [|c t IH]; intros acc m Hacc H; simpl in H; [by simplify_eq|].
    destruct (digit_of c) as [d|] eqn:E; [|done]. apply IH in H; [done|].
    unfold digit_of, in_range in E. destruct (_ && _) eqn:Er; [|done]. breflect. simplify_eq. lia. }
  destruct s as [|c s]; [done|]. unfold ParseInt. intros H.
  destruct (if Ascii.eqb c "-" then _ else _) as [neg body].
  destruct (ParseUint body) as [m|] eqn:Eu; [|done]. unfold ParseUint in Eu.
  destruct (body =?s ""); [done|]. destruct (digits_value 0 body) as [k|] eqn:Ed; [|done].
  apply Hnn in Ed; [|done]. destruct (k <=? max_uint64); [|done]. simplify_eq.
  unfold min_int64, max_int64. destruct neg; repeat case_match; breflect; simplify_eq; lia.
Qed.

(** [strconv.ParseInt] inverts [strconv.FormatInt] on every [int64]. *)
Lemma ParseInt_Itoa n : min_int64 <= n <= max_int64 -> ParseInt (Itoa n) = Some n.
Proof.
  intros Hn. unfold Itoa, min_int64, max_int64 in *. destruct (Z.ltb_spec n 0) as [Hneg|Hpos].
  - simpl. rewrite ParseUint_utoa by (unfold max_uint64; lia).
    rewrite (proj2 (Z.leb_le _ _)) by lia. f_equal. lia.
  - unfold ParseInt. pose proof (ParseUint_utoa n) as HP. unfold max_uint64 in HP.
    destruct (utoa n) as [|c s] eqn:E; [by apply utoa_nonempty in E|].
    destruct (utoa_head_digit n c s Hpos E) as [d Hd].
    destruct (Ascii.eqb_spec c "-"%char) as [->|]; [done|].
    destruct (Ascii.eqb_spec c "+"%char) as [->|]; [done|].
    rewrite HP by lia. by rewrite (proj2 (Z.ltb_lt _ _)) by lia.
Qed.

Lemma wrap_int64_id x : min_int64 <= x <= max_int64 -> wrap_int64 x = x.
Proof.
  unfold wrap_int64, min_int64, max_int64. intros. rewrite Z.mod_small by lia. lia.
Qed.

Lemma wrap_int64_range x : min_int64 <= wrap_int64 x <= max_int64.
Proof.
  unfold wrap_int64, min_int64, max_int64. pose proof (Z.mod_pos_bound (x + 2 ^ 63) (2 ^ 64)). lia.
Qed.

#[export] Hint Resolve wrap_int64_range len_nonneg byte_range : hub.
