(* ===== verification/GoBase64.v ===== *)
(** * Base64: Go's [base64.StdEncoding]

    [EncodeToString] pads; [DecodeString] skips carriage returns and newlines
    anywhere, wants complete quanta, accepts padding only at the end and, as
    the encoding is not strict, ignores the unused low bits of the last
    character. *)

From stdpp Require Import base strings list.
From Stdlib Require Import ZArith Lia Ascii.
From S2P Require Import Prelude GoStrings.
Local Open Scope Z_scope.

Definition b64_alphabet : list ascii :=
  chars "ABCDEFGHIJKLMNOPQRSTUVWXYZabcdefghijklmnopqrstuvwxyz0123456789+/".

Definition b64_pad : ascii := "="%char.

Definition b64_char (i : Z) : ascii := nth (Z.to_nat i) b64_alphabet b64_pad.

Fixpoint index_of (c : ascii) (l : list ascii) (i : Z) : option Z :=
  match l with
  | [] => None
  | d :: l' => if Ascii.eqb c d then Some i else index_of c l' (i + 1)
  end.

Definition b64_value (c : ascii) : option Z := index_of c b64_alphabet 0.

Fixpoint b64_encode (bs : list ascii) : list ascii :=
  match bs with
  | a :: b :: c :: rest =>
      let v := byte a * 65536 + byte b * 256 + byte c in
      b64_char (v / 262144) :: b64_char (v / 4096 mod 64)
      :: b64_char (v / 64 mod 64) :: b64_char (v mod 64) :: b64_encode rest
  | [a; b] =>
      let v := byte a * 65536 + byte b * 256 in
      [b64_char (v / 262144); b64_char (v / 4096 mod 64); b64_char (v / 64 mod 64); b64_pad]
  | [a] =>
      let v := byte a * 65536 in
      [b64_char (v / 262144); b64_char (v / 4096 mod 64); b64_pad; b64_pad]
  | [] => []
  end.

Definition EncodeToString (s : string) : string :=
  String.string_of_list_ascii (b64_encode (chars s)).

Definition b64_newline (c : ascii) : bool := (byte c =? 10) || (byte c =? 13).

Fixpoint b64_decode (cs : list ascii) : option (list ascii) :=
  match cs with
  | [] => Some []
  | c0 :: c1 :: c2 :: c3 :: rest =>
      match b64_value c0, b64_value c1 with
      | Some v0, Some v1 =>
          match b64_value c2, b64_value c3 with
          | Some v2, Some v3 =>
              let v := v0 * 262144 + v1 * 4096 + v2 * 64 + v3 in
              match b64_decode rest with
              | Some bs => Some (of_byte (v / 65536) :: of_byte (v / 256 mod 256)
                                 :: of_byte (v mod 256) :: bs)
              | None => None
              end
          | Some v2, None =>
              if Ascii.eqb c3 b64_pad && bool_decide (rest = []) then
                let v := v0 * 262144 + v1 * 4096 + v2 * 64 in
                Some [of_byte (v / 65536); of_byte (v / 256 mod 256)]
              else None
          | None, _ =>
              if Ascii.eqb c2 b64_pad && Ascii.eqb c3 b64_pad && bool_decide (rest = []) then
                Some [of_byte ((v0 * 262144 + v1 * 4096) / 65536)]
              else None
          end
      | _, _ => None
      end
  | _ => None
  end.

Definition DecodeString (s : string) : option string :=
  String.string_of_list_ascii <$> b64_decode (filter (fun c => b64_newline c = false) (chars s)).

(** ** Round trip *)

Lemma b64_char_spec i :
  0 <= i < 64 -> b64_value (b64_char i) = Some i /\ b64_newline (b64_char i) = false.
Proof.
  intros Hi.
  assert (forallb (fun n => bool_decide (b64_value (b64_char (Z.of_nat n)) = Some (Z.of_nat n)
            /\ b64_newline (b64_char (Z.of_nat n)) = false)) (seq 0 64) = true) as H
    by (vm_compute; reflexivity).
  rewrite forallb_forall in H. specialize (H (Z.to_nat i)).
  rewrite Z2Nat.id in H by lia. apply bool_decide_eq_true in H; [done|].
  apply in_seq. lia.
Qed.

Lemma b64_value_char i : 0 <= i < 64 -> b64_value (b64_char i) = Some i.
Proof. intros. by apply b64_char_spec. Qed.

Lemma b64_newline_char i : 0 <= i < 64 -> b64_newline (b64_char i) = false.
Proof. intros. by apply b64_char_spec. Qed.

(** The six-bit digits of a 24-bit quantum. *)
Lemma b64_digits v :
  0 <= v < 16777216 ->
  0 <= v / 262144 < 64 /\ 0 <= v / 4096 mod 64 < 64 /\ 0 <= v / 64 mod 64 < 64
  /\ 0 <= v mod 64 < 64
  /\ v = v / 262144 * 262144 + v / 4096 mod 64 * 4096 + v / 64 mod 64 * 64 + v mod 64.
Proof.
  intros Hv.
  assert (v / 262144 = v / 64 / 64 / 64) as -> by (rewrite !Z.div_div by lia; f_equal).
  assert (v / 4096 = v / 64 / 64) as -> by (rewrite !Z.div_div by lia; f_equal).
  pose proof (Z.div_mod v 64). pose proof (Z.div_mod (v / 64) 64).
  pose proof (Z.div_mod (v / 64 / 64) 64).
  pose proof (Z.mod_pos_bound v 64). pose proof (Z.mod_pos_bound (v / 64) 64).
  pose proof (Z.mod_pos_bound (v / 64 / 64) 64).
  lia.
Qed.

(** The bytes of a 24-bit quantum. *)
Lemma b64_bytes a b c :
  let v := byte a * 65536 + byte b * 256 + byte c in
  0 <= v < 16777216 /\ of_byte (v / 65536) = a /\ of_byte (v / 256 mod 256) = b
  /\ of_byte (v mod 256) = c.
Proof.
  intros v. pose proof (byte_range a). pose proof (byte_range b). pose proof (byte_range c).
  assert (v mod 256 = byte c) as Hc.
  { unfold v. symmetry. apply (Z.mod_unique _ _ (byte a * 256 + byte b)); lia. }
  assert (v / 256 = byte a * 256 + byte b) as Hb.
  { unfold v. symmetry. apply (Z.div_unique _ _ _ (byte c)); lia. }
  assert (v / 65536 = byte a) as Ha.
  { unfold v. symmetry. apply (Z.div_unique _ _ _ (byte b * 256 + byte c)); lia. }
  assert ((byte a * 256 + byte b) mod 256 = byte b) as Hb'.
  { symmetry. apply (Z.mod_unique _ _ (byte a)); lia. }
  rewrite Ha, Hb, Hc, Hb', !of_byte_byte. unfold v. split; [lia|done].
Qed.

Lemma b64_pad_value : b64_value b64_pad = None.
Proof. reflexivity. Qed.

Lemma list_ind3 {A} (P : list A -> Prop) :
  P [] -> (forall a, P [a]) -> (forall a b, P [a; b]) ->
  (forall a b c l, P l -> P (a :: b :: c :: l)) -> forall l, P l.
Proof.
  intros H0 H1 H2 H3. fix IH 1. intros [|a [|b [|c l]]]; [exact H0|exact (H1 a)|exact (H2 a b)|exact (H3 a b c l (IH l))].
Qed.

Lemma b64_decode_encode bs : b64_decode (b64_encode bs) = Some bs.
Proof.
  induction bs as [|a|a b|a b c bs IH] using list_ind3; [done|..].
  - destruct (b64_bytes a (of_byte 0) (of_byte 0)) as (Hv & Ha & _).
    change (byte (of_byte 0)) with 0 in *. rewrite !Z.mul_0_l, !Z.add_0_r in *.
    destruct (b64_digits _ Hv) as (D1 & D2 & D3 & D4 & Hsum).
    cbn [b64_encode b64_decode]. cbv zeta. rewrite !b64_value_char, b64_pad_value by lia. simpl. do 2 f_equal.
    assert (byte a * 65536 / 64 mod 64 = 0 /\ byte a * 65536 mod 64 = 0) as [E1 E2].
    { split.
      - replace (byte a * 65536) with (byte a * 16 * 64 * 64) by lia.
        rewrite Z.div_mul by lia. apply Z.mod_mul. lia.
      - replace (byte a * 65536) with (byte a * 1024 * 64) by lia. apply Z.mod_mul. lia. }
    rewrite E1, E2, !Z.mul_0_l, !Z.add_0_r in Hsum. by rewrite <-Hsum.
  - destruct (b64_bytes a b (of_byte 0)) as (Hv & Ha & Hb & _).
    change (byte (of_byte 0)) with 0 in *. rewrite !Z.add_0_r in *.
    destruct (b64_digits _ Hv) as (D1 & D2 & D3 & D4 & Hsum).
    cbn [b64_encode b64_decode]. cbv zeta. rewrite !b64_value_char, b64_pad_value by lia. simpl.
    assert ((byte a * 65536 + byte b * 256) mod 64 = 0) as E2.
    { replace (byte a * 65536 + byte b * 256) with ((byte a * 1024 + byte b * 4) * 64) by lia.
      apply Z.mod_mul. lia. }
    rewrite E2, Z.add_0_r in Hsum. rewrite <-Hsum. by rewrite Ha, Hb.
  - destruct (b64_bytes a b c) as (Hv & Ha & Hb & Hc).
    destruct (b64_digits _ Hv) as (D1 & D2 & D3 & D4 & Hsum).
    cbn [b64_encode b64_decode]. cbv zeta. rewrite !b64_value_char by lia. rewrite IH.
    by rewrite <-Hsum, Ha, Hb, Hc.
Qed.

Lemma b64_encode_no_newline bs : Forall (fun c => b64_newline c = false) (b64_encode bs).
Proof.
  induction bs as [|a|a b|a b c bs IH] using list_ind3; [constructor|..].
  - destruct (b64_bytes a (of_byte 0) (of_byte 0)) as (Hv & _).
    change (byte (of_byte 0)) with 0 in *. rewrite !Z.mul_0_l, !Z.add_0_r in *.
    destruct (b64_digits _ Hv) as (D1 & D2 & D3 & D4 & _).
    simpl. repeat constructor; by apply b64_newline_char.
  - destruct (b64_bytes a b (of_byte 0)) as (Hv & _).
    change (byte (of_byte 0)) with 0 in *. rewrite !Z.add_0_r in *.
    destruct (b64_digits _ Hv) as (D1 & D2 & D3 & D4 & _).
    simpl. repeat constructor; by apply b64_newline_char.
  - destruct (b64_bytes a b c) as (Hv & _).
    destruct (b64_digits _ Hv) as (D1 & D2 & D3 & D4 & _).
    cbn [b64_encode]. cbv zeta. repeat constructor; try by apply b64_newline_char. done.
Qed.

Lemma filter_all {A} (P : A -> Prop) `{forall x, Decision (P x)} (l : list A) :
  Forall P l -> filter P l = l.
Proof.
  induction 1; [done|]. rewrite filter_cons_True by done. by f_equal.
Qed.

Lemma chars_of_list l : chars (String.string_of_list_ascii l) = l.
Proof. apply String.list_ascii_of_string_of_list_ascii. Qed.

(** [DecodeString] inverts [EncodeToString]. *)
Lemma base64_roundtrip s : DecodeString (EncodeToString s) = Some s.
Proof.
  unfold DecodeString, EncodeToString. rewrite chars_of_list.
  rewrite filter_all by apply b64_encode_no_newline.
  rewrite b64_decode_encode. simpl. by rewrite string_chars.
Qed.

(** The encoded length: four characters for every started group of three. *)
Lemma EncodeToString_len s : len (EncodeToString s) = (len s + 2) / 3 * 4.
Proof.
  unfold len, EncodeToString. rewrite <-(length_chars (String.string_of_list_ascii _)), chars_of_list.
  rewrite <-(length_chars s). generalize (chars s). clear s. intros bs.
  induction bs as [|a|a b|a b c bs IH] using list_ind3; [done..|].
  cbn [b64_encode length]. cbn [b64_encode length] in IH. rewrite !Nat2Z.inj_succ. rewrite IH.
  replace (Z.succ (Z.succ (Z.succ (Z.of_nat (length bs)))) + 2)
    with (Z.of_nat (length bs) + 2 + 1 * 3) by lia.
  rewrite Z.div_add by lia. lia.
Qed.
