(* ===== verification/GoSha256.v ===== *)
(** * SHA-256 and hexadecimal text: [crypto/sha256], [encoding/hex]

    The hub stores the hexadecimal SHA-256 digest of a node's bearer token.
    This is the digest itself (FIPS 180-4) on 32-bit words kept as [Z] with the
    wrap-around written out, so that authentication is a closed computation. *)

From stdpp Require Import base strings list.
From Stdlib Require Import ZArith Lia Ascii.
From S2P Require Import Prelude GoStrings.
Local Open Scope Z_scope.

Definition w32 (x : Z) : Z := x mod 2 ^ 32.
Definition add32 (x y : Z) : Z := w32 (x + y).
Definition rotr32 (n x : Z) : Z := Z.lor (Z.shiftr x n) (w32 (Z.shiftl x (32 - n))).

Definition sha_ch (x y z : Z) : Z := Z.lxor (Z.land x y) (Z.land (Z.lxor x (2 ^ 32 - 1)) z).
Definition sha_maj (x y z : Z) : Z := Z.lxor (Z.lxor (Z.land x y) (Z.land x z)) (Z.land y z).
Definition sha_S0 (x : Z) : Z := Z.lxor (Z.lxor (rotr32 2 x) (rotr32 13 x)) (rotr32 22 x).
Definition sha_S1 (x : Z) : Z := Z.lxor (Z.lxor (rotr32 6 x) (rotr32 11 x)) (rotr32 25 x).
Definition sha_s0 (x : Z) : Z := Z.lxor (Z.lxor (rotr32 7 x) (rotr32 18 x)) (Z.shiftr x 3).
Definition sha_s1 (x : Z) : Z := Z.lxor (Z.lxor (rotr32 17 x) (rotr32 19 x)) (Z.shiftr x 10).

(** The constants, by their definition in the standard: the first 32 bits of
    the fractional parts of the square roots of the first 8 primes, and of the
    cube roots of the first 64. *)
Definition is_prime (n : Z) : bool :=
  forallb (fun k => negb (n mod Z.of_nat k =? 0)) (seq 2 (Z.to_nat (n - 2))).

Definition primes (below : nat) : list Z := List.filter is_prime (Z.of_nat <$> seq 2 (below - 2)).

(** The integer cube root, one bit at a time from bit [n - 1] down. *)
Fixpoint cube_root (n : nat) (acc x : Z) : Z :=
  match n with
  | O => acc
  | S k =>
      let next := acc + 2 ^ Z.of_nat k in
      cube_root k (if next ^ 3 <=? x then next else acc) x
  end.

Definition sha_iv : list Z :=
  Eval vm_compute in (fun p => w32 (Z.sqrt (p * 2 ^ 64))) <$> primes 20.

Definition sha_k : list Z :=
  Eval vm_compute in (fun p => w32 (cube_root 36 0 (p * 2 ^ 96))) <$> primes 312.

(** Padding: the bit 1, zeros, and the message length in bits on 8 bytes. *)
Fixpoint be_bytes (n : nat) (x : Z) : list Z :=
  match n with
  | O => []
  | S k => be_bytes k (x / 256) ++ [x mod 256]
  end.

Definition sha_pad (m : list Z) : list Z :=
  let n := Z.of_nat (length m) in
  m ++ [0x80] ++ replicate (Z.to_nat ((55 - n) mod 64)) 0 ++ be_bytes 8 (n * 8).

Fixpoint sha_words (bs : list Z) : list Z :=
  match bs with
  | a :: b :: c :: d :: rest => a * 16777216 + b * 65536 + c * 256 + d :: sha_words rest
  | _ => []
  end.

(** Message schedule, newest word first. *)
Fixpoint sha_schedule (n : nat) (ws : list Z) : list Z :=
  match n with
  | O => ws
  | S k =>
      let w i := nth i ws 0 in
      let x := add32 (add32 (sha_s1 (w 1%nat)) (w 6%nat)) (add32 (sha_s0 (w 14%nat)) (w 15%nat)) in
      sha_schedule k (x :: ws)
  end.

Definition sha_round (st : list Z) (kw : Z * Z) : list Z :=
  match st with
  | [a; b; c; d; e; f; g; h] =>
      let t1 := add32 (add32 h (sha_S1 e)) (add32 (sha_ch e f g) (add32 (fst kw) (snd kw))) in
      let t2 := add32 (sha_S0 a) (sha_maj a b c) in
      [add32 t1 t2; a; b; c; add32 d t1; e; f; g]
  | _ => st
  end.

Definition sha_block (h : list Z) (ws : list Z) : list Z :=
  let w := reverse (sha_schedule 48 (reverse ws)) in
  zip_with add32 h (foldl sha_round h (zip sha_k w)).

Fixpoint sha_blocks (fuel : nat) (h ws : list Z) : list Z :=
  match fuel with
  | O => h
  | S k => match ws with [] => h | _ => sha_blocks k (sha_block h (take 16 ws)) (drop 16 ws) end
  end.

(** [sha256.Sum256]: the digest as 32 bytes. *)
Definition Sum256 (m : list Z) : list Z :=
  let ws := sha_words (sha_pad m) in
  flat_map (be_bytes 4) (sha_blocks (length ws) sha_iv ws).

Definition hex_digit (d : Z) : ascii := of_byte (if d <? 10 then 48 + d else 87 + d).

(** [hex.EncodeToString]. *)
Definition hex_encode (bs : list Z) : string :=
  String.string_of_list_ascii (flat_map (fun b => [hex_digit (b / 16); hex_digit (b mod 16)]) bs).

(** The hexadecimal digest of a string, as the hub computes it for a token. *)
Definition sha256_hex (s : string) : string := hex_encode (Sum256 (byte <$> chars s)).

(** The standard test vectors. *)
Example sha256_abc :
  sha256_hex "abc" = "ba7816bf8f01cfea414140de5dae2223b00361a396177a9cb410ff61f20015ad".
Proof. vm_compute. reflexivity. Qed.

Example sha256_empty :
  sha256_hex "" = "e3b0c44298fc1c149afbf4c8996fb92427ae41e4649b934ca495991b7852b855".
Proof. vm_compute. reflexivity. Qed.

Example sha256_two_blocks :
  sha256_hex "abcdbcdecdefdefgefghfghighijhijkijkljklmklmnlmnomnopnopq"
  = "248d6a61d20638b8e5c026930c3e6039a33ce45964ff2167f6ecedd419db06c1".
Proof. vm_compute. reflexivity. Qed.
