(* ===== verification/GoJson.v ===== *)
(** * JSON: Go's [encoding/json]

    A JSON value keeps the text of a number (Go decodes it with [strconv] into
    the target type), a string value also says whether its literal was written
    without escapes ([time.Time] decodes the raw literal), and an object keeps
    its members in order, duplicates included.  [marshal] is [json.Marshal] (compact, HTML-escaping, invalid
    UTF-8 replaced); [unmarshal] accepts exactly one JSON text.  Go's limit of
    10000 nested values is left out: no schema of the hub nests beyond three
    levels, so a deeper text is refused by every decoder either way. *)

From stdpp Require Import base strings gmap list sorting.
From Stdlib Require Import ZArith Lia Ascii.
From S2P Require Import Prelude GoStrings.
Local Open Scope Z_scope.

Inductive json : Type :=
| JNull
| JBool (b : bool)
| JNum (lit : string)
| JStr (plain : bool) (s : string)
| JArr (l : list json)
| JObj (m : list (string * json)).

(** ** Printing *)

Definition dq : ascii := "034"%char.
Definition bslash : ascii := "\"%char.

Definition hex4_digits (x : Z) : string :=
  let h d := of_byte (if d <? 10 then 48 + d else 87 + d) in
  String (h (x / 4096 mod 16)) (String (h (x / 256 mod 16))
    (String (h (x / 16 mod 16)) (String (h (x mod 16)) ""))).

(** Characters [json.Marshal] writes as they are. *)
Definition html_safe (c : ascii) : bool :=
  (0x20 <=? byte c) && (byte c <? 0x80)
  && negb (existsb (Ascii.eqb c) [dq; bslash; "<"%char; ">"%char; "&"%char]).

Definition escape_ascii (c : ascii) : string :=
  if html_safe c then String c ""
  else if Ascii.eqb c dq || Ascii.eqb c bslash then String bslash (String c "")
  else if byte c =? 8 then String bslash "b"
  else if byte c =? 12 then String bslash "f"
  else if byte c =? 10 then String bslash "n"
  else if byte c =? 13 then String bslash "r"
  else if byte c =? 9 then String bslash "t"
  else String bslash ("u" +:+ hex4_digits (byte c)).

Definition escape_rune (r : Z) : string := String bslash ("u" +:+ hex4_digits r).

(** The inside of a JSON string literal; [copy] counts the continuation bytes
    of the current rune that are written unchanged. *)
Fixpoint escape_from (copy : nat) (s : string) : string :=
  match s with
  | "" => ""
  | String c s' =>
      match copy with
      | S k => String c (escape_from k s')
      | O =>
          match decode_rune c s' with
          | None => escape_rune RuneError +:+ escape_from 0 s'
          | Some (r, O) => escape_ascii c +:+ escape_from 0 s'
          | Some (r, w) =>
              if (r =? 0x2028) || (r =? 0x2029) then
                match s' with
                | String _ (String _ s3) => escape_rune r +:+ escape_from 0 s3
                | _ => ""
                end
              else String c (escape_from w s')
          end
      end
  end.

Definition quote (s : string) : string := String dq (escape_from 0 s +:+ String dq "").

(** The value [json.Marshal] prints for a Go string. *)
Definition jstr (s : string) : json := JStr (escape_from 0 s =?s s) s.

Definition comma : ascii := ","%char.
Definition colon : ascii := ":"%char.
Definition lbrace : ascii := "{"%char.
Definition rbrace : ascii := "}"%char.
Definition lbrack : ascii := "["%char.
Definition rbrack : ascii := "]"%char.

Fixpoint marshal (j : json) : string :=
  match j with
  | JNull => "null"
  | JBool true => "true"
  | JBool false => "false"
  | JNum lit => lit
  | JStr _ s => quote s
  | JArr l => String lbrack (join comma (marshal <$> l) +:+ String rbrack "")
  | JObj m =>
      String lbrace
        (join comma ((fun kv => quote kv.1 +:+ String colon (marshal kv.2)) <$> m)
         +:+ String rbrace "")
  end.

(** ** Parsing *)

Definition json_space (c : ascii) : bool :=
  (byte c =? 32) || (byte c =? 9) || (byte c =? 10) || (byte c =? 13).

Fixpoint skip_ws (s : string) : string :=
  match s with
  | String c s' => if json_space c then skip_ws s' else s
  | "" => ""
  end.

Definition hex_value (c : ascii) : option Z :=
  let b := byte c in
  if (48 <=? b) && (b <=? 57) then Some (b - 48)
  else if (97 <=? b) && (b <=? 102) then Some (b - 87)
  else if (65 <=? b) && (b <=? 70) then Some (b - 55)
  else None.

Definition hex4 (s : string) : option Z :=
  match s with
  | String a (String b (String c (String d _))) =>
      match hex_value a, hex_value b, hex_value c, hex_value d with
      | Some x, Some y, Some z, Some w => Some (x * 4096 + y * 256 + z * 16 + w)
      | _, _, _, _ => None
      end
  | _ => None
  end.

(** [utf8.EncodeRune]; surrogates and values out of range become [RuneError]. *)
Definition utf8_encode (r0 : Z) : string :=
  let r := if ((0xD800 <=? r0) && (r0 <=? 0xDFFF)) || (r0 <? 0) || (0x10FFFF <? r0)
           then RuneError else r0 in
  if r <? 0x80 then String (of_byte r) ""
  else if r <? 0x800 then
    String (of_byte (0xC0 + r / 64)) (String (of_byte (0x80 + r mod 64)) "")
  else if r <? 0x10000 then
    String (of_byte (0xE0 + r / 4096)) (String (of_byte (0x80 + r / 64 mod 64))
      (String (of_byte (0x80 + r mod 64)) ""))
  else
    String (of_byte (0xF0 + r / 262144)) (String (of_byte (0x80 + r / 4096 mod 64))
      (String (of_byte (0x80 + r / 64 mod 64)) (String (of_byte (0x80 + r mod 64)) ""))).

(** The escape after a backslash: what it denotes and how many characters it
    takes.  A surrogate pair takes two escapes; a lone surrogate denotes
    [RuneError]. *)
Definition escape_at (s : string) : option (string * nat) :=
  match s with
  | "" => None
  | String e s' =>
      if Ascii.eqb e dq || Ascii.eqb e bslash || Ascii.eqb e slash
      then Some (String e "", 1%nat)
      else if Ascii.eqb e "b"%char then Some (String (of_byte 8) "", 1%nat)
      else if Ascii.eqb e "f"%char then Some (String (of_byte 12) "", 1%nat)
      else if Ascii.eqb e "n"%char then Some (String (of_byte 10) "", 1%nat)
      else if Ascii.eqb e "r"%char then Some (String (of_byte 13) "", 1%nat)
      else if Ascii.eqb e "t"%char then Some (String (of_byte 9) "", 1%nat)
      else if Ascii.eqb e "u"%char then
        match hex4 s' with
        | None => None
        | Some rr =>
            if (0xD800 <=? rr) && (rr <=? 0xDFFF) then
              let lone := Some (utf8_encode RuneError, 5%nat) in
              match s' with
              | String _ (String _ (String _ (String _ (String b (String u t))))) =>
                  if Ascii.eqb b bslash && Ascii.eqb u "u"%char then
                    match hex4 t with
                    | Some r2 =>
                        if (rr <? 0xDC00) && (0xDC00 <=? r2) && (r2 <=? 0xDFFF)
                        then Some (utf8_encode (0x10000 + (rr - 0xD800) * 1024 + (r2 - 0xDC00)),
                                   11%nat)
                        else lone
                    | None => lone
                    end
                  else lone
              | _ => lone
              end
            else Some (utf8_encode rr, 5%nat)
        end
      else None
  end.

Definition prepend (p : string) (r : option (string * string)) : option (string * string) :=
  match r with
  | Some (s, rest) => Some (p +:+ s, rest)
  | None => None
  end.

(** The rest of a string literal after its opening quote: its value and what
    follows the closing quote.  [drop] characters belong to an escape already
    read, [copy] bytes to a rune already accepted. *)
Fixpoint parse_str (drop copy : nat) (s : string) : option (string * string) :=
  match s with
  | "" => None
  | String c s' =>
      match drop with
      | S d => parse_str d copy s'
      | O =>
          match copy with
          | S k => prepend (String c "") (parse_str 0 k s')
          | O =>
              if Ascii.eqb c dq then Some ("", s')
              else if Ascii.eqb c bslash then
                match escape_at s' with
                | Some (out, n) => prepend out (parse_str n 0 s')
                | None => None
                end
              else if byte c <? 0x20 then None
              else match decode_rune c s' with
                   | Some (_, w) => prepend (String c "") (parse_str 0 w s')
                   | None => prepend (utf8_encode RuneError) (parse_str 0 0 s')
                   end
          end
      end
  end.

Fixpoint take_digits (s : string) : string * string :=
  match s with
  | String c s' =>
      match digit_of c with
      | Some _ => let '(d, r) := take_digits s' in (String c d, r)
      | None => ("", s)
      end
  | "" => ("", "")
  end.

(** The number grammar: sign, integer part without leading zeros, fraction,
    exponent. *)
Definition parse_frac (s : string) : option (string * string) :=
  match s with
  | String c s' =>
      if Ascii.eqb c "."%char then
        match take_digits s' with
        | ("", _) => None
        | (d, r) => Some (String c d, r)
        end
      else Some ("", s)
  | "" => Some ("", "")
  end.

Definition parse_exp (s : string) : option (string * string) :=
  match s with
  | String c s' =>
      if Ascii.eqb c "e"%char || Ascii.eqb c "E"%char then
        let '(sign, s'') :=
          match s' with
          | String g t => if Ascii.eqb g "+"%char || Ascii.eqb g "-"%char then (String g "", t) else ("", s')
          | "" => ("", s')
          end in
        match take_digits s'' with
        | ("", _) => None
        | (d, r) => Some (String c (sign +:+ d), r)
        end
      else Some ("", s)
  | "" => Some ("", "")
  end.

Definition parse_int_part (s : string) : option (string * string) :=
  match s with
  | String c s' =>
      match digit_of c with
      | Some d =>
          if d =? 0 then Some (String c "", s')
          else let '(ds, r) := take_digits s' in Some (String c ds, r)
      | None => None
      end
  | "" => None
  end.

Definition parse_num (s : string) : option (string * string) :=
  let '(sign, s1) :=
    match s with
    | String c s' => if Ascii.eqb c "-"%char then (String c "", s') else ("", s)
    | "" => ("", s)
    end in
  match parse_int_part s1 with
  | None => None
  | Some (ip, s2) =>
      match parse_frac s2 with
      | None => None
      | Some (fp, s3) =>
          match parse_exp s3 with
          | None => None
          | Some (ep, s4) => Some (sign +:+ ip +:+ fp +:+ ep, s4)
          end
      end
  end.

Fixpoint stake (n : nat) (s : string) : string :=
  match n, s with
  | S k, String c s' => String c (stake k s')
  | _, _ => ""
  end.

Fixpoint sdrop (n : nat) (s : string) : string :=
  match n, s with
  | S k, String _ s' => sdrop k s'
  | _, _ => s
  end.

Definition literal (word : string) (j : json) (s : string) : option (json * string) :=
  if HasPrefix s word then Some (j, sdrop (String.length word) s) else None.

(** Values, the elements of an array after its bracket, and the members of an
    object after its brace.  [unmarshal_fuel] is enough (see
    [parse_fuel_enough]). *)
Fixpoint parse_value (fuel : nat) (s0 : string) : option (json * string) :=
  match fuel with
  | O => None
  | S k =>
      match skip_ws s0 with
      | "" => None
      | String c s' =>
          if Ascii.eqb c dq then
            match parse_str 0 0 s' with
            | Some (v, r) =>
                Some (JStr (stake (String.length s' - String.length r - 1) s' =?s v) v, r)
            | None => None
            end
          else if Ascii.eqb c lbrack then
            match skip_ws s' with
            | "" => None
            | String c1 r =>
                if Ascii.eqb c1 rbrack then Some (JArr [], r)
                else match parse_elems k s' with
                     | Some (l, r') => Some (JArr l, r')
                     | None => None
                     end
            end
          else if Ascii.eqb c lbrace then
            match skip_ws s' with
            | "" => None
            | String c1 r =>
                if Ascii.eqb c1 rbrace then Some (JObj [], r)
                else match parse_members k s' with
                     | Some (m, r') => Some (JObj m, r')
                     | None => None
                     end
            end
          else if Ascii.eqb c "t"%char then literal "true" (JBool true) (String c s')
          else if Ascii.eqb c "f"%char then literal "false" (JBool false) (String c s')
          else if Ascii.eqb c "n"%char then literal "null" JNull (String c s')
          else match parse_num (String c s') with
               | Some (lit, r) => Some (JNum lit, r)
               | None => None
               end
      end
  end
with parse_elems (fuel : nat) (s : string) : option (list json * string) :=
  match fuel with
  | O => None
  | S k =>
      match parse_value k s with
      | None => None
      | Some (v, r) =>
          match skip_ws r with
          | "" => None
          | String c r' =>
              if Ascii.eqb c comma then
                match parse_elems k r' with
                | Some (l, r'') => Some (v :: l, r'')
                | None => None
                end
              else if Ascii.eqb c rbrack then Some ([v], r')
              else None
          end
      end
  end
with parse_members (fuel : nat) (s : string) : option (list (string * json) * string) :=
  match fuel with
  | O => None
  | S k =>
      match skip_ws s with
      | "" => None
      | String q s1 =>
          if Ascii.eqb q dq then
            match parse_str 0 0 s1 with
            | None => None
            | Some (key, s2) =>
                match skip_ws s2 with
                | "" => None
                | String d s3 =>
                    if Ascii.eqb d colon then
                      match parse_value k s3 with
                      | None => None
                      | Some (v, r) =>
                          match skip_ws r with
                          | "" => None
                          | String c r' =>
                              if Ascii.eqb c comma then
                                match parse_members k r' with
                                | Some (m, r'') => Some ((key, v) :: m, r'')
                                | None => None
                                end
                              else if Ascii.eqb c rbrace then Some ([(key, v)], r')
                              else None
                          end
                      end
                    else None
                end
            end
          else None
      end
  end.

Definition unmarshal_fuel (s : string) : nat := (2 * String.length s + 2)%nat.

(** One complete JSON text. *)
Definition unmarshal (s : string) : option json :=
  match parse_value (unmarshal_fuel s) s with
  | Some (j, r) => if skip_ws r =?s "" then Some j else None
  | None => None
  end.

(** ** Decoding into Go values *)

(** [json.Unmarshal] into a [map[string]json.RawMessage]: a duplicated key keeps
    its last value, [null] gives the nil map. *)
Definition unmarshal_raw_map (text : string) : option (gmap string json) :=
  match unmarshal text with
  | Some (JObj ms) => Some (foldl (fun m kv => <[kv.1 := kv.2]> m) ∅ ms)
  | Some JNull => Some ∅
  | _ => None
  end.

(** Targets of a scalar type.  [null] leaves the target as it is. *)
Definition into_string (j : json) (old : string) : option string :=
  match j with JStr _ s => Some s | JNull => Some old | _ => None end.
Definition into_bool (j : json) (old : bool) : option bool :=
  match j with JBool b => Some b | JNull => Some old | _ => None end.
Definition into_int64 (j : json) (old : Z) : option Z :=
  match j with JNum lit => ParseInt lit | JNull => Some old | _ => None end.
Definition into_uint64 (j : json) (old : Z) : option Z :=
  match j with JNum lit => ParseUint lit | JNull => Some old | _ => None end.

(** The case folding [encoding/json] matches field names with: ASCII letters,
    the long s and the Kelvin sign. *)
Definition fold_rune (r : Z) : Z :=
  if (97 <=? r) && (r <=? 122) then r - 32
  else if r =? 0x17F then 83 else if r =? 0x212A then 75 else r.

Definition fold_name (s : string) : list Z := fold_rune <$> runes s.

(** A struct target: field names with what a member does to the struct. *)
Definition fields_of (A : Type) : Type := list (string * (json -> A -> option A)).

Fixpoint find_exact {A} (fs : fields_of A) (k : string) : option (json -> A -> option A) :=
  match fs with
  | [] => None
  | (n, set) :: fs' => if n =?s k then Some set else find_exact fs' k
  end.

Fixpoint find_folded {A} (fs : fields_of A) (k : string) : option (json -> A -> option A) :=
  match fs with
  | [] => None
  | (n, set) :: fs' =>
      if bool_decide (fold_name n = fold_name k) then Some set else find_folded fs' k
  end.

Definition find_field {A} (fs : fields_of A) (k : string) : option (json -> A -> option A) :=
  match find_exact fs k with Some set => Some set | None => find_folded fs k end.

(** Members are applied in order.  [strict] is [DisallowUnknownFields]. *)
Fixpoint decode_members {A} (strict : bool) (fs : fields_of A) (ms : list (string * json))
    (acc : A) : option A :=
  match ms with
  | [] => Some acc
  | (k, v) :: ms' =>
      match find_field fs k with
      | Some set =>
          match set v acc with
          | Some acc' => decode_members strict fs ms' acc'
          | None => None
          end
      | None => if strict then None else decode_members strict fs ms' acc
      end
  end.

Definition decode_struct {A} (strict : bool) (fs : fields_of A) (j : json) (acc : A) : option A :=
  match j with
  | JObj ms => decode_members strict fs ms acc
  | JNull => Some acc
  | _ => None
  end.

(** The same decoding one field at a time, for structs of many fields: the
    members that select field [name], in order. *)
Definition match_name (names : list string) (k : string) : option string :=
  match find (String.eqb k) names with
  | Some n => Some n
  | None => find (fun n => bool_decide (fold_name n = fold_name k)) names
  end.

Fixpoint read_field {A} (names : list string) (name : string) (into : json -> A -> option A)
    (ms : list (string * json)) (acc : A) : option A :=
  match ms with
  | [] => Some acc
  | (k, v) :: ms' =>
      if bool_decide (match_name names k = Some name) then
        match into v acc with
        | Some acc' => read_field names name into ms' acc'
        | None => None
        end
      else read_field names name into ms' acc
  end.

(** [DisallowUnknownFields]. *)
Definition known_fields (names : list string) (ms : list (string * json)) : bool :=
  forallb (fun kv => bool_decide (match_name names kv.1 <> None)) ms.

(** A slice target.  The decoder writes into the elements the backing array
    already holds (from an earlier member of the same name), so the target is
    the backing array with its visible length; [[]] starts a new array and
    [null] gives the nil slice. *)
Record slice_target (A : Type) : Type := mkSlice { backing : list A; visible : option nat }.
Arguments mkSlice {A} backing visible.
Arguments backing {A} s.
Arguments visible {A} s.

Definition nil_slice {A} : slice_target A := mkSlice [] None.
Definition slice_value {A} (s : slice_target A) : option (list A) :=
  match visible s with Some n => Some (take n (backing s)) | None => None end.

Fixpoint decode_items {A} (zero : A) (elem : json -> A -> option A) (items : list json)
    (old : list A) : option (list A) :=
  match items with
  | [] => Some old
  | j :: items' =>
      match elem j (match old with a :: _ => a | [] => zero end) with
      | None => None
      | Some a =>
          match decode_items zero elem items' (tail old) with
          | None => None
          | Some l => Some (a :: l)
          end
      end
  end.

Definition into_slice {A} (zero : A) (elem : json -> A -> option A) (j : json)
    (old : slice_target A) : option (slice_target A) :=
  match j with
  | JArr [] => Some (mkSlice [] (Some 0%nat))
  | JArr items =>
      match decode_items zero elem items (backing old) with
      | Some l => Some (mkSlice l (Some (length items)))
      | None => None
      end
  | JNull => Some nil_slice
  | _ => None
  end.

(** ** Maps of strings *)

(** [sort.Strings]: byte order. *)
Definition sort_strings (l : list string) : list string := merge_sort String.le l.

(** The members of a [map[string]string], sorted by key. *)
Definition map_members (m : gmap string string) : list (string * json) :=
  (fun k => (k, jstr (default "" (m !! k)))) <$> sort_strings (elements (dom m)).

Definition map_json (m : gmap string string) : json := JObj (map_members m).

(** Decoding an object into a [map[string]string]: later duplicates win and a
    [null] member is the empty string. *)
Fixpoint members_map (ms : list (string * json)) (acc : gmap string string)
    : option (gmap string string) :=
  match ms with
  | [] => Some acc
  | (k, JStr _ s) :: ms' => members_map ms' (<[k := s]> acc)
  | (k, JNull) :: ms' => members_map ms' (<[k := ""]> acc)
  | _ :: _ => None
  end.

(** [json.Unmarshal] into a [map[string]string]; [null] leaves the map empty. *)
Definition unmarshal_map (text : string) : option (gmap string string) :=
  match unmarshal text with
  | Some (JObj ms) => members_map ms ∅
  | Some JNull => Some ∅
  | _ => None
  end.

(** ** JSON: the parser inverts the printer, and its fuel is enough

    [marshal_roundtrip]: parsing the text of a value whose strings are valid
    UTF-8 and whose numbers are integers gives the value back.
    [parse_fuel_enough]: the fuel [unmarshal] runs with decides nothing, more
    fuel gives the same answer on every input. *)

(** ** UTF-8, rune by rune *)

(** A decoded rune only depends on the bytes it takes. *)
Lemma decode_rune_chunk c s r w :
  decode_rune c s = Some (r, w) ->
  exists p q, s = p +:+ q /\ String.length p = w
    /\ forall q', decode_rune c (p +:+ q') = Some (r, w).
Proof.
  unfold decode_rune. intros H.
  destruct (byte c <? 0x80).
  { injection H as <- <-. by exists "", s. }
  destruct (_ && _).
  { destruct s as [|c1 s]; [done|]. destruct (cont c1) eqn:E1; [|done].
    injection H as <- <-. exists (String c1 ""), s. split; [done|]. split; [done|].
    intros q'. rewrite string_app_cons. by rewrite E1. }
  destruct (_ && _).
  { destruct s as [|c1 [|c2 s]]; [done..|]. destruct (_ && _) eqn:E1; [|done].
    injection H as <- <-. exists (String c1 (String c2 "")), s. split; [done|]. split; [done|].
    intros q'. rewrite !string_app_cons. by rewrite E1. }
  destruct (_ && _); [|done].
  destruct s as [|c1 [|c2 [|c3 s]]]; [done..|]. destruct (_ && _) eqn:E1; [|done].
  injection H as <- <-. exists (String c1 (String c2 (String c3 ""))), s.
  split; [done|]. split; [done|]. intros q'. rewrite !string_app_cons. by rewrite E1.
Qed.

Lemma valid_utf8_skip p q : valid_utf8_from (String.length p) (p +:+ q) = valid_utf8 q.
Proof. induction p as [|c p IH]; [done|]. apply IH. Qed.

Lemma escape_copy p q : escape_from (String.length p) (p +:+ q) = p +:+ escape_from 0 q.
Proof. induction p as [|c p IH]; [done|]. rewrite !string_app_cons. simpl. by rewrite IH. Qed.

Lemma prepend_prepend p q r : prepend p (prepend q r) = prepend (p +:+ q) r.
Proof. destruct r as [[s t]|]; simpl; [|done]. by rewrite string_app_assoc. Qed.

Lemma prepend_nil r : prepend "" r = r.
Proof. by destruct r as [[]|]. Qed.

Lemma parse_str_copy p q : parse_str 0 (String.length p) (p +:+ q) = prepend p (parse_str 0 0 q).
Proof.
  induction p as [|c p IH]; [by rewrite prepend_nil|].
  rewrite string_app_cons. cbn [parse_str String.length]. by rewrite IH, prepend_prepend.
Qed.

(** Induction on the runes of a valid string. *)
Lemma utf8_ind (P : string -> Prop) :
  P "" ->
  (forall c p q r, (forall q', decode_rune c (p +:+ q') = Some (r, String.length p)) ->
     valid_utf8 q = true -> P q -> P (String c (p +:+ q))) ->
  forall s, valid_utf8 s = true -> P s.
Proof.
  intros H0 Hstep s. remember (String.length s) as n eqn:Hn. revert s Hn.
  induction (lt_wf n) as [n _ IH]. intros [|c s] Hn Hv; [done|].
  unfold valid_utf8 in Hv. simpl in Hv.
  destruct (decode_rune c s) as [[r w]|] eqn:Hd; [|done].
  destruct (decode_rune_chunk _ _ _ _ Hd) as (p & q & -> & <- & Hq).
  rewrite valid_utf8_skip in Hv. apply (Hstep c p q r); [done..|].
  eapply IH; [|reflexivity|done]. subst n. simpl.
  assert (String.length (p +:+ q) = (String.length p + String.length q)%nat) as ->; [|lia].
  pose proof (len_app p q). unfold len in *. lia.
Qed.

(** ** String literals *)

Lemma parse_str_drop p q : parse_str (String.length p) 0 (p +:+ q) = parse_str 0 0 q.
Proof. induction p as [|c p IH]; [done|]. rewrite string_app_cons. apply IH. Qed.

(** An escaped ASCII character is a backslash and an escape that denotes it. *)
Lemma escape_ascii_at c :
  byte c < 0x80 -> html_safe c = false ->
  exists e, escape_ascii c = String bslash e
    /\ forall t, escape_at (e +:+ t) = Some (String c "", String.length e).
Proof.
  destruct c as [[] [] [] [] [] [] [] []]; intros H Hs;
    try (exfalso; vm_compute in H; done); try (exfalso; vm_compute in Hs; done);
    eexists; (split; [vm_compute; reflexivity|intros t; reflexivity]).
Qed.

Lemma parse_escape e out t :
  escape_at (e +:+ t) = Some (out, String.length e) ->
  parse_str 0 0 (String bslash e +:+ t) = prepend out (parse_str 0 0 t).
Proof.
  intros He. rewrite string_app_cons. cbn [parse_str].
  change (Ascii.eqb bslash dq) with false. change (Ascii.eqb bslash bslash) with true.
  cbv iota. by rewrite He, parse_str_drop.
Qed.

Lemma parse_escape_ascii c t :
  byte c < 0x80 ->
  parse_str 0 0 (escape_ascii c +:+ t) = prepend (String c "") (parse_str 0 0 t).
Proof.
  intros Hc. destruct (html_safe c) eqn:Hs.
  - unfold escape_ascii. rewrite Hs. rewrite string_app_cons. change ("" +:+ t) with t.
    unfold html_safe in Hs. breflect. cbn [existsb] in *.
    repeat match goal with H : (_ || _) = false |- _ => apply orb_false_iff in H as [] end.
    cbn [parse_str]. unfold decode_rune.
    destruct (Ascii.eqb c dq); [done|]. destruct (Ascii.eqb c bslash); [done|].
    rewrite (proj2 (Z.ltb_ge _ _)) by lia. by rewrite (proj2 (Z.ltb_lt _ _)) by lia.
  - destruct (escape_ascii_at c Hc Hs) as (e & -> & He). apply parse_escape, He.
Qed.

Lemma parse_escape_rune r t :
  r = 0x2028 \/ r = 0x2029 ->
  parse_str 0 0 (escape_rune r +:+ t) = prepend (utf8_encode r) (parse_str 0 0 t).
Proof. intros [-> | ->]; apply parse_escape; reflexivity. Qed.

(** The two line separators are encoded by exactly one byte sequence. *)
Lemma decode_separator c p r :
  decode_rune c p = Some (r, String.length p) -> r = 0x2028 \/ r = 0x2029 ->
  String c p = utf8_encode r /\ exists c1 c2, p = String c1 (String c2 "").
Proof.
  unfold decode_rune. intros H Hr.
  pose proof (byte_range c) as Hc.
  destruct (Z.ltb_spec (byte c) 0x80); [injection H; intros; lia|].
  destruct ((0xC2 <=? byte c) && (byte c <=? 0xDF)) eqn:E2.
  { destruct p as [|c1 p]; [done|]. destruct (cont c1) eqn:E1; [|done].
    unfold cont in E1. injection H; intros. breflect. lia. }
  destruct ((0xE0 <=? byte c) && (byte c <=? 0xEF)) eqn:E3.
  { destruct p as [|c1 [|c2 p]]; [done..|].
    destruct (in_range _ _ c1 && cont c2) eqn:E1; [|done].
    injection H as H Hlen. destruct p; [|done]. unfold cont, in_range in E1. breflect.
    assert (0x80 <= byte c1 <= 0xBF) as Hc1 by (repeat case_match; lia).
    assert (byte c = 0xE2 /\ byte c1 = 0x80 /\ byte c2 = r - 0x2000 + 0x80) as (B & B1 & B2) by lia.
    split; [|by exists c1, c2].
    rewrite <-(of_byte_byte c), <-(of_byte_byte c1), <-(of_byte_byte c2), B, B1, B2.
    by destruct Hr as [-> | ->]. }
  destruct ((0xF0 <=? byte c) && (byte c <=? 0xF4)) eqn:E4; [|done].
  destruct p as [|c1 [|c2 [|c3 p]]]; [done..|].
  destruct (in_range _ _ c1 && cont c2 && cont c3) eqn:E1; [|done].
  injection H as H Hlen. unfold cont, in_range in E1. breflect.
  destruct (Z.eqb_spec (byte c) 0xF0); lia.
Qed.

Lemma decode_ascii c q r : decode_rune c q = Some (r, 0%nat) -> byte c < 0x80.
Proof.
  unfold decode_rune. destruct (Z.ltb_spec (byte c) 0x80); [done|].
  intros. repeat case_match; simplify_eq.
Qed.

Lemma decode_multi c p q r w :
  decode_rune c (p +:+ q) = Some (r, S w) ->
  0x80 <= byte c /\ Ascii.eqb c dq = false /\ Ascii.eqb c bslash = false.
Proof.
  unfold decode_rune. destruct (Z.ltb_spec (byte c) 0x80) as [|Hge]; [done|]. intros _.
  split; [done|]. split.
  - destruct (Ascii.eqb_spec c dq) as [->|]; [by vm_compute in Hge|done].
  - destruct (Ascii.eqb_spec c bslash) as [->|]; [by vm_compute in Hge|done].
Qed.

Lemma prepend_Some p r s rest :
  r = Some (s, rest) -> prepend p r = Some (p +:+ s, rest).
Proof. by intros ->. Qed.

(** Reading a printed string literal gives the string back. *)
Lemma parse_str_escape s rest :
  valid_utf8 s = true ->
  parse_str 0 0 (escape_from 0 s +:+ String dq rest) = Some (s, rest).
Proof.
  intros Hv. revert s Hv. apply utf8_ind; [done|].
  intros c p q r Hd Hv IH. cbn [escape_from]. rewrite Hd.
  destruct (String.length p) as [|w] eqn:Hw.
  - destruct p; [|done]. change ("" +:+ q) with q in *.
    rewrite <-string_app_assoc, parse_escape_ascii by (by eapply decode_ascii, (Hd "")).
    by rewrite (prepend_Some _ _ _ _ IH).
  - destruct ((r =? 0x2028) || (r =? 0x2029)) eqn:Hsep.
    + assert (r = 0x2028 \/ r = 0x2029) as Hr.
      { apply orb_true_iff in Hsep as [?|?]; breflect; auto. }
      pose proof (Hd "") as Hp. rewrite string_app_nil_r, <-Hw in Hp.
      destruct (decode_separator _ _ _ Hp Hr) as (Henc & c1 & c2 & ->).
      rewrite !string_app_cons. change ("" +:+ q) with q.
      rewrite <-string_app_assoc, parse_escape_rune by done.
      rewrite (prepend_Some _ _ _ _ IH), <-Henc. done.
    + destruct (decode_multi _ _ _ _ _ (Hd q)) as (Hge & Hdq & Hbs).
      rewrite <-Hw, escape_copy, string_app_cons, <-string_app_assoc.
      cbn [parse_str]. rewrite Hdq, Hbs, Hd.
      rewrite (proj2 (Z.ltb_ge _ _)) by lia. rewrite <-Hw, parse_str_copy.
      rewrite prepend_prepend, (prepend_Some _ _ _ _ IH). done.
Qed.

(** ** Numbers *)

(** What may follow a value in a printed text. *)
Definition stops (rest : string) : bool :=
  match rest with
  | "" => true
  | String c _ => existsb (Ascii.eqb c) [comma; rbrack; rbrace]
  end.

Lemma stops_no_digit rest : stops rest = true ->
  match rest with
  | "" => True
  | String c _ => digit_of c = None /\ Ascii.eqb c "."%char = false
      /\ Ascii.eqb c "e"%char = false /\ Ascii.eqb c "E"%char = false /\ json_space c = false
  end.
Proof.
  destruct rest as [|c rest]; [done|]. simpl. rewrite orb_false_r.
  intros [->%Ascii.eqb_eq|[->%Ascii.eqb_eq| ->%Ascii.eqb_eq]%orb_true_iff]%orb_true_iff; done.
Qed.

Lemma take_digits_stop ds rest :
  Forall (fun d => 0 <= d < 10) ds -> stops rest = true ->
  take_digits (String.string_of_list_ascii (digit_char <$> ds) +:+ rest)
  = (String.string_of_list_ascii (digit_char <$> ds), rest).
Proof.
  intros Hds Hstop. induction Hds as [|d ds Hd Hds IH]; simpl.
  - change ("" +:+ rest) with rest. destruct rest as [|c rest]; [done|].
    pose proof (stops_no_digit _ Hstop) as (Hc & _). simpl. by rewrite Hc.
  - rewrite digit_of_char by done. unfold fmap in IH. by rewrite IH.
Qed.

Lemma dec_digits_head fuel n :
  0 < n -> (Z.to_nat (Z.log2 n) < fuel)%nat ->
  exists d ds, dec_digits fuel n = d :: ds /\ 0 < d < 10.
Proof.
  revert n. induction fuel as [|k IH]; intros n Hn Hf; [lia|]. simpl.
  destruct (Z.ltb_spec n 10) as [Hlt|Hge].
  - exists n, []. rewrite Z.mod_small by lia. done.
  - destruct (IH (n / 10)) as (d & ds & -> & Hd);
      [apply Z.div_str_pos; lia|by apply dec_fuel_step; lia|].
    by exists d, (ds ++ [n mod 10]).
Qed.

Lemma utoa_digits n : 0 <= n ->
  n = 0 /\ utoa n = "0"
  \/ exists d ds, utoa n = String (digit_char d) (String.string_of_list_ascii (digit_char <$> ds))
       /\ 0 < d < 10 /\ Forall (fun d => 0 <= d < 10) ds.
Proof.
  intros Hn. destruct (Z.eq_dec n 0) as [->|Hnz]; [left; done|right].
  destruct (dec_digits_head (dec_fuel n) n) as (d & ds & E & Hd); [lia|unfold dec_fuel; lia|].
  exists d, ds. unfold utoa. rewrite E. split; [done|]. split; [done|].
  pose proof (dec_digits_range (dec_fuel n) n Hn) as HF. rewrite E in HF. by inversion HF.
Qed.

Lemma parse_tail_stop rest :
  stops rest = true -> parse_frac rest = Some ("", rest) /\ parse_exp rest = Some ("", rest).
Proof.
  intros Hstop. destruct rest as [|c rest]; [done|].
  destruct (stops_no_digit _ Hstop) as (_ & H1 & H2 & H3 & _). simpl. by rewrite H1, H2, H3.
Qed.

Lemma parse_int_part_utoa n rest :
  0 <= n -> stops rest = true -> parse_int_part (utoa n +:+ rest) = Some (utoa n, rest).
Proof.
  intros Hn Hstop. destruct (utoa_digits n Hn) as [[-> ->]|(d & ds & -> & Hd & Hds)].
  - done.
  - rewrite string_app_cons. cbn [parse_int_part]. rewrite digit_of_char by lia.
    rewrite (proj2 (Z.eqb_neq _ _)) by lia. by rewrite take_digits_stop.
Qed.

Lemma parse_num_Itoa n rest :
  stops rest = true -> parse_num (Itoa n +:+ rest) = Some (Itoa n, rest).
Proof.
  intros Hstop. destruct (parse_tail_stop _ Hstop) as [Hf He]. unfold Itoa.
  destruct (Z.ltb_spec n 0).
  - rewrite string_app_cons. unfold parse_num. simpl (Ascii.eqb _ _). cbv iota beta.
    rewrite parse_int_part_utoa by (done || lia). rewrite Hf, He.
    rewrite !string_app_nil_r. done.
  - unfold parse_num. pose proof (parse_int_part_utoa n rest ltac:(lia) Hstop) as Hi.
    destruct (utoa n) as [|c s] eqn:E; [by apply utoa_nonempty in E|].
    destruct (utoa_head_digit n c s ltac:(lia) E) as [d Hd].
    rewrite string_app_cons in Hi |- *.
    destruct (Ascii.eqb_spec c "-"%char) as [->|]; [done|]. rewrite Hi, Hf, He.
    by rewrite !string_app_nil_r.
Qed.

(** ** The round trip *)

(** Values whose printed text reads back: valid UTF-8 strings and integers. *)
Inductive json_ok : json -> Prop :=
| ok_null : json_ok JNull
| ok_bool b : json_ok (JBool b)
| ok_num n : json_ok (JNum (Itoa n))
| ok_str s : valid_utf8 s = true -> json_ok (jstr s)
| ok_arr l : Forall json_ok l -> json_ok (JArr l)
| ok_obj m : Forall (fun kv : string * json => valid_utf8 kv.1 = true) m ->
    Forall (fun kv : string * json => json_ok kv.2) m -> json_ok (JObj m).

Lemma json_ind' (P : json -> Prop) :
  P JNull -> (forall b, P (JBool b)) -> (forall l, P (JNum l)) -> (forall b s, P (JStr b s)) ->
  (forall l, Forall P l -> P (JArr l)) ->
  (forall m, Forall (fun kv : string * json => P kv.2) m -> P (JObj m)) -> forall j, P j.
Proof.
  intros H0 H1 H2 H3 H4 H5. fix IH 1. intros [|b|l|b s|l|m].
  - exact H0.
  - apply H1.
  - apply H2.
  - apply H3.
  - apply H4. induction l as [|j l IHl]; constructor; [apply IH|apply IHl].
  - apply H5. induction m as [|[k j] m IHm]; constructor; [apply IH|apply IHm].
Qed.

Lemma digit_char_head c :
  is_Some (digit_of c) ->
  json_space c = false /\ Ascii.eqb c dq = false /\ Ascii.eqb c lbrack = false
  /\ Ascii.eqb c lbrace = false /\ Ascii.eqb c rbrack = false /\ Ascii.eqb c "t"%char = false
  /\ Ascii.eqb c "f"%char = false /\ Ascii.eqb c "n"%char = false.
Proof.
  destruct c as [[] [] [] [] [] [] [] []]; intros [d Hd]; vm_compute in Hd; try done;
    vm_compute; repeat split.
Qed.

(** The first character of an integer literal starts no other kind of value. *)
Lemma Itoa_head n :
  exists c s, Itoa n = String c s /\
  (json_space c = false /\ Ascii.eqb c dq = false /\ Ascii.eqb c lbrack = false
  /\ Ascii.eqb c lbrace = false /\ Ascii.eqb c rbrack = false /\ Ascii.eqb c "t"%char = false
  /\ Ascii.eqb c "f"%char = false /\ Ascii.eqb c "n"%char = false).
Proof.
  unfold Itoa. destruct (Z.ltb_spec n 0).
  - exists "-"%char, (utoa (- n)). done.
  - destruct (utoa n) as [|c s] eqn:E; [by apply utoa_nonempty in E|].
    exists c, s. split; [done|]. apply digit_char_head. by eapply utoa_head_digit.
Qed.

Lemma marshal_head j : json_ok j ->
  exists c s, marshal j = String c s /\ json_space c = false /\ Ascii.eqb c rbrack = false.
Proof.
  intros Hj. destruct Hj as [|[]|n| | |]; simpl; try (by eexists _, _).
  destruct (Itoa_head n) as (c & s & E & Hc). exists c, s. by intuition.
Qed.

Lemma skip_ws_stop c s : json_space c = false -> skip_ws (String c s) = String c s.
Proof. simpl. by intros ->. Qed.

Definition parses (j : json) : Prop :=
  exists K, forall k rest, (K <= k)%nat -> stops rest = true ->
    parse_value k (marshal j +:+ rest) = Some (j, rest).

Lemma parse_elems_marshal l :
  l <> [] -> Forall json_ok l -> Forall parses l ->
  exists K, forall k rest, (K <= k)%nat ->
    parse_elems k (join comma (marshal <$> l) +:+ String rbrack rest) = Some (l, rest).
Proof.
  induction l as [|j [|j' l] IH]; intros Hne Hok Hp; [done|..].
  - inversion_clear Hp as [|?? [K HK] _]. exists (S K). intros [|k] rest Hk; [lia|].
    cbn [fmap list_fmap join parse_elems]. rewrite HK by (done || lia). done.
  - inversion_clear Hp as [|?? [K HK] Hp']. inversion_clear Hok as [|?? Hj Hok'].
    destruct IH as [K' HK']; [done..|].
    exists (S (K + K')). intros [|k] rest Hk; [lia|].
    change (join comma (marshal <$> j :: j' :: l))
      with (marshal j +:+ String comma (join comma (marshal <$> j' :: l))).
    rewrite <-string_app_assoc, string_app_cons. cbn [parse_elems].
    rewrite HK by (done || lia). rewrite skip_ws_stop by done.
    change (Ascii.eqb comma comma) with true. cbv iota. rewrite HK' by lia. done.
Qed.

Lemma parse_members_marshal m :
  m <> [] -> Forall (fun kv : string * json => valid_utf8 kv.1 = true) m ->
  Forall (fun kv : string * json => parses kv.2) m ->
  exists K, forall k rest, (K <= k)%nat ->
    parse_members k (join comma ((fun kv => quote kv.1 +:+ String colon (marshal kv.2)) <$> m)
                     +:+ String rbrace rest) = Some (m, rest).
Proof.
  induction m as [|[key j] [|kv' m] IH]; intros Hne Hok Hp; [done|..].
  - inversion_clear Hp as [|?? [K HK] _]. inversion_clear Hok as [|?? Hkey _].
    exists (S K). intros [|k] rest Hk; [lia|].
    cbn [fmap list_fmap join]. unfold quote. cbn [fst snd] in *.
    rewrite !string_app_cons, <-!string_app_assoc. cbn [parse_members].
    rewrite skip_ws_stop by done. change (Ascii.eqb dq dq) with true. cbv iota.
    rewrite !string_app_cons. change ("" +:+ ?x) with x.
    rewrite parse_str_escape by done. rewrite skip_ws_stop by done.
    change (Ascii.eqb colon colon) with true. cbv iota. rewrite HK by (done || lia). done.
  - inversion_clear Hp as [|?? [K HK] Hp']. inversion_clear Hok as [|?? Hkey Hok'].
    destruct IH as [K' HK']; [done..|].
    exists (S (K + K')). intros [|k] rest Hk; [lia|].
    set (tail := join comma ((fun kv => quote kv.1 +:+ String colon (marshal kv.2)) <$> kv' :: m)) in *.
    change (join comma ((fun kv => quote kv.1 +:+ String colon (marshal kv.2)) <$> (key, j) :: kv' :: m))
      with ((quote key +:+ String colon (marshal j)) +:+ String comma tail).
    unfold quote. cbn [fst snd] in *.
    rewrite !string_app_cons, <-!string_app_assoc. cbn [parse_members].
    rewrite skip_ws_stop by done. change (Ascii.eqb dq dq) with true. cbv iota.
    rewrite !string_app_cons. change ("" +:+ ?x) with x.
    rewrite parse_str_escape by done. rewrite skip_ws_stop by done.
    change (Ascii.eqb colon colon) with true. cbv iota. rewrite ?string_app_cons.
    rewrite HK by (done || lia). rewrite skip_ws_stop by done.
    change (Ascii.eqb comma comma) with true. cbv iota. rewrite HK' by lia. done.
Qed.

Lemma parses_arr l : Forall json_ok l -> Forall parses l -> parses (JArr l).
Proof.
  intros Hok Hp. destruct (decide (l = [])) as [->|Hne].
  { exists 1%nat. intros [|k] rest Hk _; [lia|done]. }
  destruct (parse_elems_marshal l Hne Hok Hp) as [K HK].
  exists (S K). intros [|k] rest Hk _; [lia|].
  cbn [marshal]. rewrite string_app_cons, <-string_app_assoc, string_app_cons.
  change ("" +:+ rest) with rest. cbn [parse_value]. rewrite skip_ws_stop by done.
  change (Ascii.eqb lbrack dq) with false. change (Ascii.eqb lbrack lbrack) with true. cbv iota.
  assert (exists c s, join comma (marshal <$> l) +:+ String rbrack rest = String c s
     /\ json_space c = false /\ Ascii.eqb c rbrack = false) as (c & s & E & Hsp & Hrb).
  { destruct l as [|j l]; [done|]. inversion_clear Hok as [|?? Hj _].
    destruct (marshal_head j Hj) as (c & s & E & Hs). cbn [fmap list_fmap]. rewrite E.
    destruct l; cbn [join fmap list_fmap]; rewrite !string_app_cons; by eexists _, _. }
  rewrite E, skip_ws_stop by done. rewrite Hrb, <-E, HK by lia. done.
Qed.

(** An object is read back whatever follows it. *)
Lemma parses_obj_any m :
  Forall (fun kv : string * json => valid_utf8 kv.1 = true) m ->
  Forall (fun kv : string * json => parses kv.2) m ->
  exists K, forall k rest, (K <= k)%nat ->
    parse_value k (marshal (JObj m) +:+ rest) = Some (JObj m, rest).
Proof.
  intros Hok Hp. destruct (decide (m = [])) as [->|Hne].
  { exists 1%nat. intros [|k] rest Hk; [lia|done]. }
  destruct (parse_members_marshal m Hne Hok Hp) as [K HK].
  exists (S K). intros [|k] rest Hk; [lia|].
  cbn [marshal]. rewrite string_app_cons, <-string_app_assoc, string_app_cons.
  change ("" +:+ rest) with rest. cbn [parse_value]. rewrite skip_ws_stop by done.
  change (Ascii.eqb lbrace dq) with false. change (Ascii.eqb lbrace lbrack) with false.
  change (Ascii.eqb lbrace lbrace) with true. cbv iota.
  set (text := join comma _ +:+ _) in *.
  assert (exists s, text = String dq s) as [s E].
  { unfold text. destruct m as [|kv m]; [done|]. cbn [fmap list_fmap]. unfold quote.
    destruct m; cbn [join fmap list_fmap]; rewrite !string_app_cons; by eexists. }
  specialize (HK k rest ltac:(lia)). fold text in HK. rewrite HK.
  rewrite E, skip_ws_stop by done. done.
Qed.

Lemma parses_obj m :
  Forall (fun kv : string * json => valid_utf8 kv.1 = true) m ->
  Forall (fun kv : string * json => parses kv.2) m -> parses (JObj m).
Proof.
  intros Hok Hp. destruct (parses_obj_any m Hok Hp) as [K HK]. exists K. auto.
Qed.

Lemma parses_literals :
  parses JNull /\ parses (JBool true) /\ parses (JBool false).
Proof. repeat split; exists 1%nat; intros [|k] rest Hk _; try lia; reflexivity. Qed.

Lemma stake_app p q n : n = String.length p -> stake n (p +:+ q) = p.
Proof. intros ->. induction p as [|c p IH]; [done|]. rewrite string_app_cons. simpl. by f_equal. Qed.

Lemma stake_literal p rest :
  stake (String.length (p +:+ String dq rest) - String.length rest - 1) (p +:+ String dq rest) = p.
Proof.
  apply stake_app. pose proof (len_app p (String dq rest)). unfold len in *. simpl in *. lia.
Qed.

Lemma marshal_parses j : json_ok j -> parses j.
Proof.
  destruct parses_literals as (Hn & Ht & Hf).
  induction j as [|[]|lit|b s|l IH|m IH] using json_ind'; intros Hj; try done.
  - inversion_clear Hj as [| |n| | |]. exists 1%nat. intros [|k] rest Hk Hstop; [lia|].
    pose proof (parse_num_Itoa n rest Hstop) as HN. cbn [marshal].
    destruct (Itoa_head n) as (c & s & E & Hsp & H1 & H2 & H3 & _ & H4 & H5 & H6).
    rewrite E in HN |- *. rewrite string_app_cons in HN |- *. cbn [parse_value].
    rewrite skip_ws_stop by done. by rewrite H1, H2, H3, H4, H5, H6, HN.
  - inversion_clear Hj as [| | |? Hv| |]. exists 1%nat. intros [|k] rest Hk Hstop; [lia|].
    cbn [marshal]. unfold quote. rewrite string_app_cons, <-string_app_assoc, string_app_cons.
    change ("" +:+ rest) with rest. cbn [parse_value]. rewrite skip_ws_stop by done.
    change (Ascii.eqb dq dq) with true. cbv iota. rewrite parse_str_escape by done.
    rewrite stake_literal. done.
  - inversion_clear Hj as [| | | |? Hl|]. apply parses_arr; [done|].
    rewrite List.Forall_forall in IH, Hl |- *. auto.
  - inversion_clear Hj as [| | | | |? Hk Hv]. apply parses_obj; [done|].
    rewrite List.Forall_forall in IH, Hv |- *. auto.
Qed.

(** ** Fuel *)

Lemma skip_ws_length s : (String.length (skip_ws s) <= String.length s)%nat.
Proof. induction s as [|c s IH]; simpl; [done|]. destruct (json_space c); simpl; lia. Qed.

Lemma parse_str_length s drop copy v r :
  parse_str drop copy s = Some (v, r) -> (String.length r < String.length s)%nat.
Proof.
  revert drop copy v r. induction s as [|c s IH]; intros drop copy v r H; [done|].
  cbn [parse_str] in H. cbn [String.length].
  destruct drop as [|d]; [|specialize (IH _ _ _ _ H); lia].
  assert (forall p d k, prepend p (parse_str d k s) = Some (v, r) -> (String.length r < S (String.length s))%nat) as Hpre.
  { intros p d k Hp. destruct (parse_str d k s) as [[v' r']|] eqn:E; [|done].
    simpl in Hp. injection Hp as <- <-. specialize (IH _ _ _ _ E). lia. }
  destruct copy; [|by eapply Hpre].
  destruct (Ascii.eqb c dq); [injection H as <- <-; lia|].
  destruct (Ascii.eqb c bslash); [destruct (escape_at s) as [[]|]; [by eapply Hpre|done]|].
  destruct (byte c <? 0x20); [done|].
  destruct (decode_rune c s) as [[]|]; by eapply Hpre.
Qed.

Lemma take_digits_length s d r :
  take_digits s = (d, r) -> String.length s = (String.length d + String.length r)%nat.
Proof.
  revert d r. induction s as [|c s IH]; intros d r H; simpl in H.
  - by injection H as <- <-.
  - destruct (digit_of c); [|by injection H as <- <-].
    destruct (take_digits s) as [d' r'] eqn:E. injection H as <- <-. simpl. by rewrite (IH _ _ eq_refl).
Qed.

Lemma parse_num_length s lit r :
  parse_num s = Some (lit, r) -> (String.length r < String.length s)%nat.
Proof.
  assert (forall s ip r, parse_int_part s = Some (ip, r) -> (String.length r < String.length s)%nat) as Hi.
  { intros [|c t] ip r' H; [done|]. simpl in *. destruct (digit_of c); [|done].
    destruct (_ =? 0); [injection H as <- <-; lia|].
    destruct (take_digits t) as [d r''] eqn:E. injection H as <- <-.
    apply take_digits_length in E. lia. }
  assert (forall s fp r, parse_frac s = Some (fp, r) -> (String.length r <= String.length s)%nat) as Hf.
  { intros [|c t] fp r' H; simpl in *; [by injection H as <- <-|].
    destruct (Ascii.eqb c _); [|by injection H as <- <-].
    destruct (take_digits t) as [[|d0 d] r''] eqn:E; [done|]. injection H as <- <-.
    apply take_digits_length in E. simpl in *. lia. }
  assert (forall s ep r, parse_exp s = Some (ep, r) -> (String.length r <= String.length s)%nat) as He.
  { intros [|c t] ep r' H; simpl in *; [by injection H as <- <-|].
    destruct (_ || _); [|by injection H as <- <-].
    destruct (match t with "" => _ | _ => _ end) as [sg t'] eqn:Et.
    assert (String.length t' <= String.length t)%nat.
    { destruct t as [|g t]; [by injection Et as <- <-|].
      destruct (_ || _); injection Et as <- <-; simpl; lia. }
    destruct (take_digits t') as [[|d0 d] r''] eqn:E; [done|]. injection H as <- <-.
    apply take_digits_length in E. simpl in *. lia. }
  unfold parse_num. intros H.
  destruct (match s with "" => _ | _ => _ end) as [sg s1] eqn:Es.
  assert (String.length s1 <= String.length s)%nat.
  { destruct s as [|g t]; [by injection Es as <- <-|].
    destruct (Ascii.eqb _ _); injection Es as <- <-; simpl; lia. }
  destruct (parse_int_part s1) as [[ip s2]|] eqn:E1; [|done].
  destruct (parse_frac s2) as [[fp s3]|] eqn:E2; [|done].
  destruct (parse_exp s3) as [[ep s4]|] eqn:E3; [|done].
  injection H as <- <-. apply Hi in E1. apply Hf in E2. apply He in E3. lia.
Qed.

Lemma sdrop_length n s : (String.length (sdrop n s) <= String.length s)%nat.
Proof. revert s. induction n; intros [|c s]; simpl; try lia. specialize (IHn s). lia. Qed.

Lemma literal_length w j s v r :
  literal w j s = Some (v, r) -> w <> "" -> (String.length r < String.length s)%nat.
Proof.
  unfold literal. intros H Hw. destruct (HasPrefix s w) eqn:E; [|done]. injection H as <- <-.
  destruct w as [|c w]; [done|]. destruct s as [|d s]; [done|]. simpl.
  pose proof (sdrop_length (String.length w) s). lia.
Qed.

(** A parse consumes at least one character. *)
Lemma parse_lengths k :
  (forall s j r, parse_value k s = Some (j, r) -> (String.length r < String.length s)%nat)
  /\ (forall s l r, parse_elems k s = Some (l, r) -> (String.length r < String.length s)%nat)
  /\ (forall s m r, parse_members k s = Some (m, r) -> (String.length r < String.length s)%nat).
Proof.
  induction k as [|k (IHv & IHe & IHm)]; [by repeat split|].
  assert (forall s c t, skip_ws s = String c t -> (String.length t < String.length s)%nat) as Hws.
  { intros s c t E. pose proof (skip_ws_length s) as Hl. rewrite E in Hl. simpl in Hl. lia. }
  split; [|split]; intros s x r H; cbn [parse_value parse_elems parse_members] in H.
  - destruct (skip_ws s) as [|c t] eqn:E; [done|]. pose proof (Hws _ _ _ E) as Hst.
    pose proof (skip_ws_length s) as Hsl. rewrite E in Hsl.
    destruct (Ascii.eqb c dq).
    { destruct (parse_str 0 0 t) as [[v r']|] eqn:Ep; [|done]. injection H as <- <-.
      apply parse_str_length in Ep. lia. }
    destruct (Ascii.eqb c lbrack).
    { destruct (skip_ws t) as [|c1 r1] eqn:Et; [done|]. apply Hws in Et.
      destruct (Ascii.eqb c1 rbrack); [injection H as <- <-; lia|].
      destruct (parse_elems k t) as [[l r']|] eqn:Ee; [|done]. injection H as <- <-.
      apply IHe in Ee. lia. }
    destruct (Ascii.eqb c lbrace).
    { destruct (skip_ws t) as [|c1 r1] eqn:Et; [done|]. apply Hws in Et.
      destruct (Ascii.eqb c1 rbrace); [injection H as <- <-; lia|].
      destruct (parse_members k t) as [[l r']|] eqn:Ee; [|done]. injection H as <- <-.
      apply IHm in Ee. lia. }
    destruct (Ascii.eqb c _); [apply literal_length in H; [lia|done]|].
    destruct (Ascii.eqb c _); [apply literal_length in H; [lia|done]|].
    destruct (Ascii.eqb c _); [apply literal_length in H; [lia|done]|].
    destruct (parse_num _) as [[lit r']|] eqn:Ep; [|done]. injection H as <- <-.
    apply parse_num_length in Ep. lia.
  - destruct (parse_value k s) as [[v r1]|] eqn:Ev; [|done]. apply IHv in Ev.
    destruct (skip_ws r1) as [|c r2] eqn:E1; [done|]. apply Hws in E1.
    destruct (Ascii.eqb c comma).
    { destruct (parse_elems k r2) as [[l r3]|] eqn:Ee; [|done]. injection H as <- <-.
      apply IHe in Ee. lia. }
    destruct (Ascii.eqb c rbrack); [|done]. injection H as <- <-. lia.
  - destruct (skip_ws s) as [|q s1] eqn:E; [done|]. apply Hws in E.
    destruct (Ascii.eqb q dq); [|done].
    destruct (parse_str 0 0 s1) as [[key s2]|] eqn:Ek; [|done]. apply parse_str_length in Ek.
    destruct (skip_ws s2) as [|d s3] eqn:E2; [done|]. apply Hws in E2.
    destruct (Ascii.eqb d colon); [|done].
    destruct (parse_value k s3) as [[v r1]|] eqn:Ev; [|done]. apply IHv in Ev.
    destruct (skip_ws r1) as [|c r2] eqn:E1; [done|]. apply Hws in E1.
    destruct (Ascii.eqb c comma).
    { destruct (parse_members k r2) as [[l r3]|] eqn:Ee; [|done]. injection H as <- <-.
      apply IHm in Ee. lia. }
    destruct (Ascii.eqb c rbrace); [|done]. injection H as <- <-. lia.
Qed.

(** Two parses with fuel beyond the length of the text agree. *)
Lemma parse_fuel_agree n :
  (forall s k k', (String.length s <= n)%nat -> (2 * n + 1 <= k)%nat -> (2 * n + 1 <= k')%nat ->
     parse_value k s = parse_value k' s)
  /\ (forall s k k', (String.length s <= n)%nat -> (2 * n + 2 <= k)%nat -> (2 * n + 2 <= k')%nat ->
     parse_elems k s = parse_elems k' s)
  /\ (forall s k k', (String.length s <= n)%nat -> (2 * n + 2 <= k)%nat -> (2 * n + 2 <= k')%nat ->
     parse_members k s = parse_members k' s).
Proof.
  induction (lt_wf n) as [n _ IH].
  assert (forall s c t, skip_ws s = String c t -> (String.length t < String.length s)%nat) as Hws.
  { intros s c t E. pose proof (skip_ws_length s) as Hl. rewrite E in Hl. simpl in Hl. lia. }
  assert (forall t k k', (String.length t < n)%nat -> (2 * n <= k)%nat -> (2 * n <= k')%nat ->
    parse_elems k t = parse_elems k' t /\ parse_members k t = parse_members k' t) as Hsub.
  { intros t k k' Ht Hk Hk'. destruct (IH (n - 1)%nat) as (_ & He & Hm); [lia|].
    split; [apply He|apply Hm]; lia. }
  assert (forall s k k', (String.length s <= n)%nat -> (2 * n + 1 <= k)%nat ->
    (2 * n + 1 <= k')%nat -> parse_value k s = parse_value k' s) as Hval.
  { intros s [|k] [|k'] Hs Hk Hk'; [lia..|]. cbn [parse_value].
    destruct (skip_ws s) as [|c t] eqn:E; [done|]. pose proof (Hws _ _ _ E).
    destruct (Hsub t k k') as [-> ->]; [lia..|done]. }
  split; [done|]. split; intros s [|k] [|k'] Hs Hk Hk'; try lia; cbn [parse_elems parse_members].
  - rewrite (Hval s k k') by lia. destruct (parse_value k' s) as [[v r]|] eqn:Ev; [|done].
    apply parse_lengths in Ev. destruct (skip_ws r) as [|c r'] eqn:E; [done|]. apply Hws in E.
    destruct (Hsub r' k k') as [-> _]; [lia..|done].
  - destruct (skip_ws s) as [|q s1] eqn:E; [done|]. apply Hws in E.
    destruct (Ascii.eqb q dq); [|done].
    destruct (parse_str 0 0 s1) as [[key s2]|] eqn:Ek; [|done]. apply parse_str_length in Ek.
    destruct (skip_ws s2) as [|d s3] eqn:E2; [done|]. apply Hws in E2.
    destruct (Ascii.eqb d colon); [|done]. rewrite (Hval s3 k k') by lia.
    destruct (parse_value k' s3) as [[v r]|] eqn:Ev; [|done]. apply parse_lengths in Ev.
    destruct (skip_ws r) as [|c r'] eqn:E3; [done|]. apply Hws in E3.
    destruct (Hsub r' k k') as [_ ->]; [lia..|done].
Qed.

Lemma parse_fuel_enough s k :
  (unmarshal_fuel s <= k)%nat -> parse_value k s = parse_value (unmarshal_fuel s) s.
Proof.
  intros Hk. unfold unmarshal_fuel in *.
  apply (parse_fuel_agree (String.length s)); lia.
Qed.

(** Parsing a printed value gives the value back. *)
Lemma marshal_roundtrip j : json_ok j -> unmarshal (marshal j) = Some j.
Proof.
  intros Hj. destruct (marshal_parses j Hj) as [K HK].
  specialize (HK (K + unmarshal_fuel (marshal j))%nat "" ltac:(lia) eq_refl).
  rewrite string_app_nil_r in HK. rewrite parse_fuel_enough in HK by lia.
  unfold unmarshal. by rewrite HK.
Qed.

(** The text of an object may be followed by white space. *)
Lemma unmarshal_object_trailing m ws :
  json_ok (JObj m) -> skip_ws ws = "" -> unmarshal (marshal (JObj m) +:+ ws) = Some (JObj m).
Proof.
  intros Hj Hws. inversion Hj as [| | | | |m' Hk Hv]; subst.
  destruct (parses_obj_any m) as [K HK].
  { done. }
  { eapply Forall_impl; [exact Hv|]. intros kv. apply marshal_parses. }
  set (text := marshal (JObj m) +:+ ws) in *.
  specialize (HK (K + unmarshal_fuel text)%nat ws ltac:(lia)). fold text in HK.
  rewrite parse_fuel_enough in HK by lia. unfold unmarshal. rewrite HK, Hws. done.
Qed.

(** ** Maps of strings, as [json.Marshal] prints them *)

Lemma sort_strings_perm l : sort_strings l ≡ₚ l.
Proof. apply merge_sort_Permutation. Qed.

Lemma sort_strings_sorted l : Sorted String.le (sort_strings l).
Proof. apply Sorted_merge_sort; apply _. Qed.

(** Sorting is the identity on sorted lists. *)
Lemma sort_strings_id l : Sorted String.le l -> sort_strings l = l.
Proof.
  intros Hl. apply (Sorted_unique String.le); [apply sort_strings_sorted|done|apply sort_strings_perm].
Qed.

(** Every key and value of a map is valid UTF-8. *)
Definition utf8_map (m : gmap string string) : Prop :=
  map_Forall (fun k v => valid_utf8 k = true /\ valid_utf8 v = true) m.

Lemma map_members_json_ok m : utf8_map m -> json_ok (map_json m).
Proof.
  intros Hm. unfold map_json, map_members.
  assert (forall k, k ∈ sort_strings (elements (dom m)) -> exists v, m !! k = Some v) as Hk.
  { intros k Hk. rewrite sort_strings_perm in Hk.
    apply elem_of_elements, elem_of_dom in Hk as [v Hv]. by exists v. }
  constructor; apply Forall_fmap, Forall_forall; intros k Hin; simpl;
    destruct (Hk k Hin) as [v Hv]; destruct (Hm k v Hv) as [Huk Huv]; [done|].
  rewrite Hv. by constructor.
Qed.

Lemma members_map_strings (m acc : gmap string string) ks :
  members_map ((fun k => (k, jstr (default "" (m !! k)))) <$> ks) acc
  = Some (foldl (fun a k => <[k := default "" (m !! k)]> a) acc ks).
Proof. revert acc. induction ks as [|k ks IH]; intros acc; simpl; [done|]. apply IH. Qed.

Lemma foldl_insert_lookup (m acc : gmap string string) ks k :
  foldl (fun a k => <[k := default "" (m !! k)]> a) acc ks !! k
  = if decide (k ∈ ks) then Some (default "" (m !! k)) else acc !! k.
Proof.
  revert acc. induction ks as [|k' ks IH]; intros acc; simpl.
  - done.
  - rewrite IH. destruct (decide (k = k')) as [->|Hne].
    + rewrite lookup_insert_eq. repeat case_decide; set_solver.
    + rewrite lookup_insert_ne by done. repeat case_decide; set_solver.
Qed.

(** A map of valid UTF-8 strings survives printing and reading. *)
Lemma map_json_roundtrip m : utf8_map m -> unmarshal_map (marshal (map_json m)) = Some m.
Proof.
  intros Hm. unfold unmarshal_map. rewrite marshal_roundtrip by by apply map_members_json_ok.
  unfold map_json, map_members. rewrite members_map_strings. f_equal. apply map_eq. intros k.
  rewrite foldl_insert_lookup.
  assert (k ∈ sort_strings (elements (dom m)) <-> is_Some (m !! k)) as Hk.
  { by rewrite sort_strings_perm, elem_of_elements, elem_of_dom. }
  case_decide as Hd; rewrite Hk in Hd; destruct (m !! k) as [v|]; try done; by destruct Hd.
Qed.
