(* ===== verification/GoNet.v ===== *)
(** * IP addresses: [net.ParseIP], [net.ParseCIDR], [IP.To4]

    Both parsers go through [netip.ParseAddr]: the first of a dot, a colon or a
    percent sign decides the address family.  The hub only asks whether the
    address has a four-byte form, which an IPv4-mapped IPv6 address also has;
    the agent's firewall also uses networks, their masks and their text. *)

From stdpp Require Import base strings list.
From Stdlib Require Import ZArith Lia Ascii.
From S2P Require Import Prelude GoStrings GoJson.
Local Open Scope Z_scope.

Inductive addr : Type :=
| Addr4 (bytes : list Z)
| Addr6 (bytes : list Z) (zone : string).

(** One decimal octet: digits without a leading zero, at most 255. *)
Definition parse_octet (s : string) : option Z :=
  match s with
  | "" => None
  | String c s' =>
      if Ascii.eqb c "0"%char && negb (s' =?s "") then None
      else match digits_value 0 s with
           | Some n => if n <=? 255 then Some n else None
           | None => None
           end
  end.

Definition parse_ipv4 (s : string) : option (list Z) :=
  match split "."%char s with
  | [a; b; c; d] =>
      match parse_octet a, parse_octet b, parse_octet c, parse_octet d with
      | Some x, Some y, Some z, Some w => Some [x; y; z; w]
      | _, _, _, _ => None
      end
  | _ => None
  end.

(** Leading hexadecimal digits, their number and value, and the rest. *)
Fixpoint take_hex (s : string) (n acc : Z) : Z * Z * string :=
  match s with
  | String c s' =>
      match hex_value c with
      | Some d => take_hex s' (n + 1) (acc * 16 + d)
      | None => (n, acc, s)
      end
  | "" => (n, acc, "")
  end.

(** The group loop of [parseIPv6]: [got] holds the bytes read so far and
    [ell] the position of the ellipsis.  At most eight groups are read. *)
Fixpoint ipv6_groups (fuel : nat) (s : string) (got : list Z) (ell : option nat)
    : option (list Z * option nat * string) :=
  match fuel with
  | O => Some (got, ell, s)
  | S k =>
      let '(off, acc, rest) := take_hex s 0 0 in
      if (off =? 0) || (4 <? off) then None
      else
        let chunk := got ++ [acc / 256; acc mod 256] in
        match rest with
        | "" => Some (chunk, ell, "")
        | String c rest' =>
            if Ascii.eqb c "."%char then
              if (match ell with None => negb (Nat.eqb (length got) 12) | Some _ => false end)
                 || (12 <? Z.of_nat (length got)) then None
              else match parse_ipv4 s with
                   | Some b4 => Some (got ++ b4, ell, "")
                   | None => None
                   end
            else if negb (Ascii.eqb c ":"%char) then None
            else match rest' with
                 | "" => None
                 | String c2 rest'' =>
                     if Ascii.eqb c2 ":"%char then
                       match ell with
                       | Some _ => None
                       | None =>
                           if rest'' =?s "" then Some (chunk, Some (length chunk), "")
                           else ipv6_groups k rest'' chunk (Some (length chunk))
                       end
                     else ipv6_groups k rest' chunk ell
                 end
        end
  end.

Definition parse_ipv6 (s0 : string) : option addr :=
  let parts := split "%"%char s0 in
  let s := default "" (head parts) in
  let zone := join "%"%char (tail parts) in
  if bool_decide (length parts <> 1%nat) && (zone =?s "") then None
  else
    let '(ell, body) :=
      if HasPrefix s "::" then (Some 0%nat, sdrop 2 s) else (None, s) in
    if bool_decide (ell = Some 0%nat) && (body =?s "") then Some (Addr6 (replicate 16 0) zone)
    else
      match ipv6_groups 8 body [] ell with
      | Some (got, ell', rest) =>
          if negb (rest =?s "") then None
          else if (length got <? 16)%nat then
            match ell' with
            | None => None
            | Some e => Some (Addr6 (take e got ++ replicate (16 - length got) 0 ++ drop e got) zone)
            end
          else match ell' with Some _ => None | None => Some (Addr6 got zone) end
      | None => None
      end.

(** [netip.ParseAddr]. *)
Fixpoint addr_family (s : string) : option ascii :=
  match s with
  | "" => None
  | String c s' =>
      if existsb (Ascii.eqb c) ["."%char; ":"%char; "%"%char] then Some c else addr_family s'
  end.

Definition ParseAddr (s : string) : option addr :=
  match addr_family s with
  | Some c =>
      if Ascii.eqb c "."%char then Addr4 <$> parse_ipv4 s
      else if Ascii.eqb c ":"%char then parse_ipv6 s else None
  | None => None
  end.

(** Whether [IP.To4] is not nil. *)
Definition is_ipv4 (a : addr) : bool :=
  match a with
  | Addr4 _ => true
  | Addr6 bs _ => bool_decide (take 12 bs = replicate 10 0 ++ [255; 255])
  end.

(** [net.ParseIP]: no zone. *)
Definition ParseIP (s : string) : option addr :=
  match ParseAddr s with
  | Some (Addr6 bs z) => if z =?s "" then Some (Addr6 bs z) else None
  | r => r
  end.

Definition bit_len (a : addr) : Z := match a with Addr4 _ => 32 | Addr6 _ _ => 128 end.

(** The address before the first slash, and a prefix length. *)
Definition parse_cidr (s : string) : option (addr * Z) :=
  match split "/"%char s with
  | ad :: m :: ms =>
      let mask := join "/"%char (m :: ms) in
      match ParseIP ad with
      | Some a =>
          if mask =?s "" then None
          else match digits_value 0 mask with
               | Some n => if n <=? bit_len a then Some (a, n) else None
               | None => None
               end
      | None => None
      end
  | _ => None
  end.

(** [net.ParseCIDR], the address only. *)
Definition ParseCIDR (s : string) : option addr := fst <$> parse_cidr s.

(** ** Networks

    An [IP] is a list of 4 or 16 bytes, an [IPNet] an address with a mask of the
    same width. *)

Definition v4_prefix : list Z := replicate 10 0 ++ [255; 255].

Definition as16 (a : addr) : list Z :=
  match a with Addr4 bs => v4_prefix ++ bs | Addr6 bs _ => bs end.

Definition To4 (ip : list Z) : option (list Z) :=
  if Nat.eqb (length ip) 4 then Some ip
  else if Nat.eqb (length ip) 16 && bool_decide (take 12 ip = v4_prefix) then Some (drop 12 ip)
  else None.

Record IPNet : Type := mkNet { net_IP : list Z; net_Mask : list Z }.

(** [net.CIDRMask]: the byte of [k] leading ones is [256 - 2^(8-k)]. *)
Definition mask_byte (ones : Z) (i : nat) : Z :=
  256 - 2 ^ (8 - Z.max 0 (Z.min 8 (ones - 8 * Z.of_nat i))).

Definition CIDRMask (ones bits : Z) : list Z := mask_byte ones <$> seq 0 (Z.to_nat (bits / 8)).

(** [IP.Mask] of a 16-byte address. *)
Definition mask_ip (ip mask : list Z) : list Z :=
  match Nat.eqb (length mask) 4, To4 ip with
  | true, Some ip4 => zip_with Z.land ip4 mask
  | _, _ => zip_with Z.land ip mask
  end.

(** The network [net.ParseCIDR] returns. *)
Definition ParseCIDR_net (s : string) : option IPNet :=
  match parse_cidr s with
  | Some (a, n) =>
      let mask := CIDRMask n (bit_len a) in
      Some (mkNet (mask_ip (as16 a) mask) mask)
  | None => None
  end.

Definition networkNumberAndMask (n : IPNet) : option (list Z * list Z) :=
  let ip := match To4 (net_IP n) with Some ip4 => ip4 | None => net_IP n end in
  let m := net_Mask n in
  if Nat.eqb (length m) 4 then if Nat.eqb (length ip) 4 then Some (ip, m) else None
  else if Nat.eqb (length m) 16 then Some (ip, if Nat.eqb (length ip) 4 then drop 12 m else m)
  else None.

(** [IPNet.Contains]. *)
Definition Contains (n : IPNet) (ip0 : list Z) : bool :=
  match networkNumberAndMask n with
  | None => false
  | Some (nn, m) =>
      let ip := match To4 ip0 with Some ip4 => ip4 | None => ip0 end in
      Nat.eqb (length ip) (length nn)
      && bool_decide (zip_with Z.land nn m = zip_with Z.land ip m)
  end.

Definition ip4_string (ip : list Z) : string := join "."%char (Itoa <$> ip).

(** Lower-case hexadecimal without leading zeros, of a 16-bit group. *)
Definition hex_group (x : Z) : string :=
  let h d := String (of_byte (if d <? 10 then 48 + d else 87 + d)) "" in
  (if 4096 <=? x then h (x / 4096) else "") +:+ (if 256 <=? x then h (x / 256 mod 16) else "")
  +:+ (if 16 <=? x then h (x / 16 mod 16) else "") +:+ h (x mod 16).

Fixpoint groups_of (bs : list Z) : list Z :=
  match bs with
  | a :: b :: r => (a * 256 + b) :: groups_of r
  | _ => []
  end.

(** The length of the run of zero groups at the head. *)
Fixpoint zero_run (gs : list Z) : nat :=
  match gs with
  | g :: r => if g =? 0 then S (zero_run r) else O
  | [] => O
  end.

(** The first longest run of at least two zero groups: start and length. *)
Fixpoint longest_run (i : nat) (gs : list Z) (best : nat * nat) : nat * nat :=
  match gs with
  | [] => best
  | g :: r =>
      let n := zero_run gs in
      longest_run (S i) r (if (2 <=? n)%nat && (best.2 <? n)%nat then (i, n) else best)
  end.

Definition ip6_string (ip : list Z) : string :=
  let gs := groups_of ip in
  let '(i, n) := longest_run 0 gs (0%nat, 0%nat) in
  let text l := join ":"%char (hex_group <$> l) in
  if Nat.eqb n 0 then text gs else text (take i gs) +:+ "::" +:+ text (drop (i + n) gs).

(** [IP.String]. *)
Definition IP_String (ip : list Z) : string :=
  match To4 ip with Some ip4 => ip4_string ip4 | None => ip6_string ip end.

(** The position of the first byte [c]. *)
Fixpoint IndexByte (c : ascii) (s : string) : option nat :=
  match s with
  | "" => None
  | String d s' => if Ascii.eqb c d then Some O else S <$> IndexByte c s'
  end.

Definition LastIndexByte (c : ascii) (s : string) : option nat :=
  i ← IndexByte c (String.string_of_list_ascii (rev (chars s))); Some (String.length s - 1 - i)%nat.

(** [net.SplitHostPort]: the host; the port is not used. *)
Definition SplitHost (hostport : string) : option string :=
  i ← LastIndexByte ":"%char hostport;
  '(host, j, k) ←
    (if HasPrefix hostport "["
     then
       end_ ← IndexByte "]"%char hostport;
       (* also refuses an address that ends with the bracket *)
       if Nat.eqb (end_ + 1) i then Some (sdrop 1 (stake end_ hostport), 1%nat, (end_ + 1)%nat) else None
     else
       let host := stake i hostport in
       match IndexByte ":"%char host with Some _ => None | None => Some (host, O, O) end);
  match IndexByte "["%char (sdrop j hostport), IndexByte "]"%char (sdrop k hostport) with
  | None, None => Some host
  | _, _ => None
  end.

(** The number of leading ones of a mask made by [CIDRMask]. *)
Fixpoint mask_ones (m : list Z) : Z :=
  match m with
  | [] => 0
  | b :: r => if b =? 255 then 8 + mask_ones r else 8 - Z.log2 (256 - b)
  end.

(** [IPNet.String] of a network with such a mask. *)
Definition IPNet_String (n : IPNet) : string :=
  match networkNumberAndMask n with
  | Some (nn, m) => IP_String nn +:+ "/" +:+ Itoa (mask_ones m)
  | None => "<nil>"
  end.

Example network_strings :
  (IPNet_String <$> ParseCIDR_net "10.1.2.3/8") = Some "10.0.0.0/8"
  /\ (IPNet_String <$> ParseCIDR_net "192.168.77.9/31") = Some "192.168.77.8/31"
  /\ (IPNet_String <$> ParseCIDR_net "2001:db8::8:800:200c:417a/64") = Some "2001:db8::/64"
  /\ (IPNet_String <$> ParseCIDR_net "::ffff:10.1.2.3/104") = Some "10.0.0.0/8"
  /\ (IPNet_String <$> ParseCIDR_net "::ffff:10.1.2.3/88") = Some "::ff00:0:0/88"
  /\ (IPNet_String <$> ParseCIDR_net "0.0.0.0/0") = Some "0.0.0.0/0".
Proof. vm_compute. split_and!; reflexivity. Qed.

Example parse_ip_v4 : ParseIP "10.0.0.1" = Some (Addr4 [10; 0; 0; 1]).
Proof. reflexivity. Qed.

Example parse_ip_leading_zero : ParseIP "10.0.0.01" = None.
Proof. reflexivity. Qed.

Example parse_ip_mapped :
  (is_ipv4 <$> ParseIP "::ffff:10.0.0.1") = Some true /\ (is_ipv4 <$> ParseIP "fe80::1") = Some false.
Proof. split; vm_compute; reflexivity. Qed.

Example parse_cidr_v4 : ParseCIDR "192.168.0.0/16" = Some (Addr4 [192; 168; 0; 0]).
Proof. reflexivity. Qed.

Example parse_cidr_too_long : ParseCIDR "192.168.0.0/33" = None.
Proof. reflexivity. Qed.
