(* ===== verification/GoTime.v ===== *)
(** * Time: what the hub uses of Go's [time]

    Instants are nanoseconds since the Unix epoch.  [FormatRFC3339Nano] prints
    an instant in UTC and [ParseRFC3339] reads a timestamp back, with the
    leniencies of [time.Parse] (a one-digit hour, a comma before the fraction,
    offsets up to 24:60).  The civil calendar is the proleptic Gregorian one. *)

From stdpp Require Import base strings list.
From Stdlib Require Import ZArith Lia Ascii.
From S2P Require Import Prelude GoStrings GoJson.
Local Open Scope Z_scope.

(** ** Calendar *)

Definition isLeap (year : Z) : bool :=
  (year mod 4 =? 0) && (negb (year mod 100 =? 0) || (year mod 400 =? 0)).

Definition daysIn (month year : Z) : Z :=
  if month =? 2 then (if isLeap year then 29 else 28)
  else if (month =? 4) || (month =? 6) || (month =? 9) || (month =? 11) then 30
  else 31.

(** The day number of a day of a 400-year era that starts on the first of
    March, from the year of the era, the month (March is 0) and the day. *)
Definition era_day (yoe mp d : Z) : Z :=
  yoe * 365 + yoe / 4 - yoe / 100 + ((153 * mp + 2) / 5 + d - 1).

Definition days_from_civil (y m d : Z) : Z :=
  let y' := if m <=? 2 then y - 1 else y in
  y' / 400 * 146097 + era_day (y' mod 400) (if m <=? 2 then m + 9 else m - 3) d - 719468.

(** Year of the era, month (March is 0) and day of a day of an era: centuries,
    four-year groups and years are cut off in turn, the last one of each being a
    day longer. *)
Definition era_civil (doe : Z) : Z * Z * Z :=
  let c := Z.min 3 (doe / 36524) in
  let r := doe - c * 36524 in
  let q := r / 1461 in
  let r' := r - q * 1461 in
  let y := Z.min 3 (r' / 365) in
  let doy := r' - y * 365 in
  let mp := (5 * doy + 2) / 153 in
  (100 * c + 4 * q + y, mp, doy - (153 * mp + 2) / 5 + 1).

Definition civil_from_days (n : Z) : Z * Z * Z :=
  let z := n + 719468 in
  let '(yoe, mp, d) := era_civil (z mod 146097) in
  let m := if mp <? 10 then mp + 3 else mp - 9 in
  (yoe + z / 146097 * 400 + (if m <=? 2 then 1 else 0), m, d).

(** ** Printing *)

Definition digit_string (ds : list Z) : string :=
  String.string_of_list_ascii (digit_char <$> ds).

Definition two_digits (n : Z) : list Z := [n / 10; n mod 10].

(** [appendInt] with a minimal width of four. *)
Definition year_string (y : Z) : string :=
  if y <? 0 then String "-"%char (if - y <? 10000 then digit_string (two_digits (- y / 100) ++ two_digits (- y mod 100)) else utoa (- y))
  else if y <? 10000 then digit_string (two_digits (y / 100) ++ two_digits (y mod 100))
  else utoa y.

(** The [n] decimal digits of [x], most significant first. *)
Fixpoint fixed_digits (n : nat) (x : Z) : list Z :=
  match n with
  | O => []
  | S k => x / 10 ^ Z.of_nat k mod 10 :: fixed_digits k x
  end.

(** Digits without the zeros at their end. *)
Fixpoint trim_zeros (ds : list Z) : list Z :=
  match ds with
  | [] => []
  | d :: rest =>
      match trim_zeros rest with
      | [] => if d =? 0 then [] else [d]
      | kept => d :: kept
      end
  end.

Definition fraction_string (ns : Z) : string :=
  match trim_zeros (fixed_digits 9 ns) with
  | [] => ""
  | ds => String "."%char (digit_string ds)
  end.

Definition day_ns : Z := 86400 * 1000000000.

Definition format_with (zone : string) (t : Z) : string :=
  let '(y, m, d) := civil_from_days (t / day_ns) in
  let sec := t mod day_ns / 1000000000 in
  let ns := t mod 1000000000 in
  year_string y +:+ String "-"%char (digit_string (two_digits m)
    +:+ String "-"%char (digit_string (two_digits d)
    +:+ String "T"%char (digit_string (two_digits (sec / 3600))
    +:+ String ":"%char (digit_string (two_digits (sec / 60 mod 60))
    +:+ String ":"%char (digit_string (two_digits (sec mod 60))
    +:+ (fraction_string ns +:+ zone)))))).

(** [t.UTC().Format(time.RFC3339Nano)]. *)
Definition FormatRFC3339Nano (t : Z) : string := format_with "Z" t.

(** The instants whose year has four digits. *)
Definition year_of (t : Z) : Z := (civil_from_days (t / day_ns)).1.1.
Definition clock_ok (t : Z) : bool := (0 <=? year_of t) && (year_of t <? 10000).

Definition zone_string (offset : Z) : string :=
  if offset =? 0 then "Z"
  else String (if offset <? 0 then "-"%char else "+"%char)
         (digit_string (two_digits (Z.abs offset / 3600))
          +:+ String ":"%char (digit_string (two_digits (Z.abs offset / 60 mod 60)))).

(** [Time.MarshalJSON]: it fails on a year beyond four digits or a zone of a
    day or more. *)
Definition time_json (t : Z * Z) : option json :=
  let local := t.1 + t.2 * 1000000000 in
  if clock_ok local && (Z.abs t.2 <? 86400) then Some (jstr (format_with (zone_string t.2) local))
  else None.

(** ** Parsing *)

(** [getnum]: one or two digits, or exactly two when [fixed]. *)
Definition getnum (fixed : bool) (s : string) : option (Z * string) :=
  match s with
  | String a s1 =>
      match digit_of a with
      | None => None
      | Some x =>
          match s1 with
          | String b s2 =>
              match digit_of b with
              | Some y => Some (x * 10 + y, s2)
              | None => if fixed then None else Some (x, s1)
              end
          | "" => if fixed then None else Some (x, s1)
          end
      end
  | "" => None
  end.

Definition getyear (s : string) : option (Z * string) :=
  match getnum true s with
  | None => None
  | Some (hi, s1) =>
      match getnum true s1 with
      | None => None
      | Some (lo, s2) => Some (hi * 100 + lo, s2)
      end
  end.

Definition skip_char (c : ascii) (s : string) : option string :=
  match s with
  | String d s' => if Ascii.eqb c d then Some s' else None
  | "" => None
  end.

(** Up to nine digits of a fraction, scaled to nanoseconds. *)
Fixpoint fraction_value (scale : Z) (ds : string) : Z :=
  match ds with
  | "" => 0
  | String c ds' =>
      match digit_of c with
      | Some x => x * scale + fraction_value (scale / 10) ds'
      | None => 0
      end
  end.

(** An optional fraction: a period or comma and at least one digit. *)
Definition getfraction (s : string) : Z * string :=
  match s with
  | String c s' =>
      if Ascii.eqb c "."%char || Ascii.eqb c ","%char then
        match take_digits s' with
        | ("", _) => (0, s)
        | (ds, r) => (fraction_value 100000000 ds, r)
        end
      else (0, s)
  | "" => (0, s)
  end.

(** The zone: [Z] or an offset in seconds; nothing may follow. *)
Definition getzone (s : string) : option Z :=
  match s with
  | String c s' =>
      if Ascii.eqb c "Z"%char then (if s' =?s "" then Some 0 else None)
      else if Ascii.eqb c "+"%char || Ascii.eqb c "-"%char then
        match getnum true s' with
        | None => None
        | Some (hr, s1) =>
            match skip_char ":"%char s1 with
            | None => None
            | Some s2 =>
                match getnum true s2 with
                | Some (mm, "") =>
                    if (24 <? hr) || (60 <? mm) then None
                    else Some ((if Ascii.eqb c "-"%char then -1 else 1) * ((hr * 60 + mm) * 60))
                | _ => None
                end
            end
        end
      else None
  | "" => None
  end.

(** A two-digit number after a separator. *)
Definition getfield (sep : ascii) (fixed : bool) (s : string) : option (Z * string) :=
  match skip_char sep s with Some s' => getnum fixed s' | None => None end.

(** [time.Parse] with layout [RFC3339] or [RFC3339Nano]: the instant and the
    offset of its zone. *)
Definition ParseRFC3339 (value : string) : option (Z * Z) :=
  match getyear value with
  | None => None
  | Some (y, s1) =>
  match getfield "-"%char true s1 with
  | None => None
  | Some (m, s2) =>
  match getfield "-"%char true s2 with
  | None => None
  | Some (d, s3) =>
  match getfield "T"%char false s3 with
  | None => None
  | Some (hh, s4) =>
  match getfield ":"%char true s4 with
  | None => None
  | Some (mi, s5) =>
  match getfield ":"%char true s5 with
  | None => None
  | Some (ss, s6) =>
      let '(ns, s7) := getfraction s6 in
      match getzone s7 with
      | None => None
      | Some offset =>
          if (m <? 1) || (12 <? m) || (d <? 1) || (daysIn m y <? d) || (23 <? hh) || (59 <? mi)
             || (59 <? ss)
          then None
          else Some ((days_from_civil y m d * 86400 + hh * 3600 + mi * 60 + ss - offset)
                     * 1000000000 + ns, offset)
      end
  end end end end end end.

(** A [time.Time] target of [encoding/json]: the raw literal is parsed, [null]
    leaves the value. *)
Definition into_time (j : json) (old : Z * Z) : option (Z * Z) :=
  match j with
  | JStr true s => ParseRFC3339 s
  | JNull => Some old
  | _ => None
  end.

(** ** Facts *)

Lemma month_split doy :
  0 <= doy <= 365 ->
  let mp := (5 * doy + 2) / 153 in
  0 <= mp <= 11 /\ 1 <= doy - (153 * mp + 2) / 5 + 1 <= 31
  /\ (mp <> 11 -> doy - (153 * mp + 2) / 5 + 1 <= daysIn (if mp <? 10 then mp + 3 else mp - 9) 1)
  /\ (mp = 11 -> doy - (153 * mp + 2) / 5 + 1 = doy - 336).
Proof.
  intros Hd mp.
  assert (forallb (fun n => let doy := Z.of_nat n in let mp := (5 * doy + 2) / 153 in
     let d := doy - (153 * mp + 2) / 5 + 1 in
     (0 <=? mp) && (mp <=? 11) && (1 <=? d) && (d <=? 31)
     && ((mp =? 11) || (d <=? daysIn (if mp <? 10 then mp + 3 else mp - 9) 1))
     && (negb (mp =? 11) || (d =? doy - 336))) (seq 0 366) = true) as H by (vm_compute; reflexivity).
  rewrite forallb_forall in H. specialize (H (Z.to_nat doy)).
  rewrite Z2Nat.id in H by lia. cbv zeta in H. fold mp in H.
  assert (In (Z.to_nat doy) (seq 0 366)) as Hin by (apply in_seq; lia).
  specialize (H Hin). clear Hin.
  revert H. generalize (doy - (153 * mp + 2) / 5 + 1). intros d.
  generalize (daysIn (if mp <? 10 then mp + 3 else mp - 9) 1). clearbody mp. intros dm H. breflect. destruct (Z.eqb_spec mp 11); simpl in *; breflect; lia.
Qed.

(** A day of an era: its year of the era, and its day of the year. *)
Lemma era_civil_spec doe yoe mp d :
  0 <= doe < 146097 -> era_civil doe = (yoe, mp, d) ->
  0 <= yoe < 400 /\ 0 <= mp <= 11 /\ 1 <= d <= 31 /\ era_day yoe mp d = doe
  /\ d <= daysIn (if mp <? 10 then mp + 3 else mp - 9) (yoe + (if mp <? 10 then 0 else 1)).
Proof.
  intros Hdoe. unfold era_civil, era_day.
  set (c := Z.min 3 (doe / 36524)). set (r := doe - c * 36524). set (q := r / 1461).
  set (r' := r - q * 1461). set (y := Z.min 3 (r' / 365)). set (doy := r' - y * 365).
  intros [= <- <- <-].
  assert (0 <= c <= 3) as Hc by (unfold c; lia_div).
  assert (0 <= r <= 36524 /\ (c < 3 -> r < 36524)) as [Hr Hr3] by (unfold r, c in *; lia_div).
  assert (0 <= q <= 24) as Hq by (unfold q; lia_div).
  assert (0 <= r' < 1461) as Hr' by (unfold r', q in *; lia_div).
  assert (0 <= y <= 3) as Hy by (unfold y; lia_div).
  assert (0 <= doy <= 365 /\ (y < 3 -> doy < 365)) as [Hdoy Hy3] by (unfold doy, y in *; lia_div).
  assert ((100 * c + 4 * q + y) / 4 = 25 * c + q) as E4 by lia_div.
  assert ((100 * c + 4 * q + y) / 100 = c) as E100 by lia_div.
  destruct (month_split doy) as (H1 & H2 & H3 & H4); [lia|].
  rewrite E4, E100. split_and!; try lia.
  set (mp := (5 * doy + 2) / 153) in *.
  destruct (Z.eq_dec mp 11) as [E|E].
  - rewrite E in *. specialize (H4 eq_refl). change (11 <? 10) with false. cbv iota.
    change (11 - 9) with 2. unfold daysIn. rewrite Z.eqb_refl. unfold isLeap.
    destruct (Z.eqb_spec ((100 * c + 4 * q + y + 1) mod 4) 0),
      (Z.eqb_spec ((100 * c + 4 * q + y + 1) mod 100) 0),
      (Z.eqb_spec ((100 * c + 4 * q + y + 1) mod 400) 0); simpl; lia_div.
  - specialize (H3 E). destruct (Z.ltb_spec mp 10).
    + unfold daysIn in *. destruct (Z.eqb_spec (mp + 3) 2); [lia|]. exact H3.
    + unfold daysIn in *. destruct (Z.eqb_spec (mp - 9) 2); [lia|]. exact H3.
Qed.

Lemma isLeap_era y k : isLeap (y + k * 400) = isLeap y.
Proof.
  unfold isLeap. replace ((y + k * 400) mod 4) with (y mod 4) by lia_div.
  replace ((y + k * 400) mod 100) with (y mod 100) by lia_div.
  by replace ((y + k * 400) mod 400) with (y mod 400) by lia_div.
Qed.

Lemma daysIn_era m y k : daysIn m (y + k * 400) = daysIn m y.
Proof. unfold daysIn. by rewrite isLeap_era. Qed.

(** The civil date of a day is a date of the calendar, and it is that day. *)
Lemma civil_from_days_spec n y m d :
  civil_from_days n = (y, m, d) ->
  1 <= m <= 12 /\ 1 <= d <= daysIn m y /\ days_from_civil y m d = n.
Proof.
  unfold civil_from_days, days_from_civil. set (z := n + 719468).
  destruct (era_civil (z mod 146097)) as [[yoe mp] d'] eqn:E. intros [= <- <- <-].
  destruct (era_civil_spec _ _ _ _ ltac:(apply Z.mod_pos_bound; lia) E) as (Hy & Hm & Hd & Hday & Hin).
  assert (n = z / 146097 * 146097 + z mod 146097 - 719468) as Hn.
  { pose proof (Z.div_mod z 146097). unfold z in *. lia. }
  destruct (Z.ltb_spec mp 10).
  - rewrite (proj2 (Z.leb_gt (mp + 3) 2)) by lia.
    rewrite !Z.add_0_r in *. rewrite daysIn_era. split_and!; [lia..|].
    replace ((yoe + z / 146097 * 400) / 400) with (z / 146097) by lia_div.
    replace ((yoe + z / 146097 * 400) mod 400) with yoe by lia_div.
    replace (mp + 3 - 3) with mp by lia. lia.
  - rewrite (proj2 (Z.leb_le (mp - 9) 2)) by lia.
    replace (yoe + z / 146097 * 400 + 1) with (yoe + 1 + z / 146097 * 400) by lia.
    rewrite daysIn_era. split_and!; [lia..|].
    replace ((yoe + 1 + z / 146097 * 400 - 1) / 400) with (z / 146097) by lia_div.
    replace ((yoe + 1 + z / 146097 * 400 - 1) mod 400) with yoe by lia_div.
    replace (mp - 9 + 9) with mp by lia. lia.
Qed.

Lemma getnum_two fixed n rest :
  0 <= n < 100 -> getnum fixed (digit_string (two_digits n) +:+ rest) = Some (n, rest).
Proof.
  intros Hn. unfold two_digits, digit_string. simpl.
  rewrite !digit_of_char by lia_div. f_equal. f_equal. lia_div.
Qed.

Lemma digit_string_app a b : digit_string (a ++ b) = digit_string a +:+ digit_string b.
Proof. unfold digit_string. by rewrite fmap_app, string_of_chars_app. Qed.

Lemma getyear_string y rest :
  0 <= y < 10000 -> getyear (year_string y +:+ rest) = Some (y, rest).
Proof.
  intros Hy. unfold year_string. rewrite (proj2 (Z.ltb_ge _ _)), (proj2 (Z.ltb_lt _ _)) by lia.
  rewrite digit_string_app, <-string_app_assoc. unfold getyear.
  rewrite getnum_two by lia_div. rewrite getnum_two by lia_div. f_equal. f_equal. lia_div.
Qed.

Lemma getfield_two c fixed n rest :
  0 <= n < 100 ->
  getfield c fixed (String c (digit_string (two_digits n) +:+ rest)) = Some (n, rest).
Proof. intros Hn. unfold getfield. simpl. rewrite Ascii.eqb_refl. by apply getnum_two. Qed.

(** The digits a fraction is printed with have its value. *)
Lemma fraction_value_nil scale rest :
  (match rest with String c _ => digit_of c = None | "" => True end) -> fraction_value scale rest = 0.
Proof. destruct rest as [|c rest]; simpl; [done|]. by intros ->. Qed.

Lemma fixed_digits_range n x : Forall (fun d => 0 <= d < 10) (fixed_digits n x).
Proof. induction n; simpl; constructor; [lia_div|done]. Qed.

Lemma trim_zeros_range ds : Forall (fun d => 0 <= d < 10) ds -> Forall (fun d => 0 <= d < 10) (trim_zeros ds).
Proof.
  induction 1 as [|d ds Hd _ IH]; simpl; [done|].
  destruct (trim_zeros ds); [destruct (d =? 0)|]; auto.
Qed.

Lemma fraction_value_cons d ds scale :
  0 <= d < 10 ->
  fraction_value scale (digit_string (d :: ds)) = d * scale + fraction_value (scale / 10) (digit_string ds).
Proof.
  intros Hd. unfold digit_string. cbn [fmap list_fmap String.string_of_list_ascii fraction_value].
  by rewrite digit_of_char.
Qed.

Lemma fraction_value_trim ds scale :
  Forall (fun d => 0 <= d < 10) ds ->
  fraction_value scale (digit_string (trim_zeros ds)) = fraction_value scale (digit_string ds).
Proof.
  intros H. revert scale. induction H as [|d ds Hd Hds IH]; intros scale; [done|].
  rewrite (fraction_value_cons d ds) by done. rewrite <-IH. cbn [trim_zeros].
  destruct (trim_zeros ds) as [|e es] eqn:T; [|by apply fraction_value_cons].
  destruct (Z.eqb_spec d 0) as [->|]; [done|]. by rewrite fraction_value_cons.
Qed.

Lemma fraction_value_fixed k x :
  0 <= x < 10 ^ Z.of_nat k ->
  fraction_value (10 ^ Z.of_nat k / 10) (digit_string (fixed_digits k x)) = x.
Proof.
  revert x. induction k as [|k IH]; intros x Hx.
  - simpl in *. lia.
  - cbn [fixed_digits]. rewrite fraction_value_cons by (apply Z.mod_pos_bound; lia).
    rewrite Nat2Z.inj_succ, Z.pow_succ_r in * by lia.
    set (p := 10 ^ Z.of_nat k) in *. assert (0 < p) as Hp by (apply Z.pow_pos_nonneg; lia).
    replace (10 * p / 10) with p by lia_div.
    assert (fixed_digits k x = fixed_digits k (x mod p)) as ->.
    { assert (forall j, (j <= k)%nat -> fixed_digits j x = fixed_digits j (x mod p)) as Hj.
      { induction j as [|j IHj]; intros Hj; [done|]. simpl. rewrite IHj by lia. f_equal.
        unfold p. replace (Z.of_nat k) with (Z.of_nat j + (1 + Z.of_nat (k - j - 1))) by lia.
        rewrite Z.pow_add_r, Z.pow_add_r by lia. change (10 ^ 1) with 10.
        assert (0 < 10 ^ Z.of_nat j) by (apply Z.pow_pos_nonneg; lia).
        assert (0 < 10 ^ Z.of_nat (k - j - 1)) by (apply Z.pow_pos_nonneg; lia).
        rewrite Z.rem_mul_r by lia. rewrite Z.mul_comm, Z.div_add by lia.
        rewrite (Z.div_small (x mod _)) by (apply Z.mod_pos_bound; lia). rewrite Z.add_0_l.
        rewrite Z.rem_mul_r by lia. rewrite Z.mul_comm, Z.mod_add by lia. by rewrite Z.mod_mod by lia. }
      by apply Hj. }
    rewrite IH by (apply Z.mod_pos_bound; lia).
    rewrite (Z.mod_small (x / p)) by (split; [apply Z.div_pos; lia|apply Z.div_lt_upper_bound; lia]).
    pose proof (Z.div_mod x p). lia.
Qed.

Lemma take_digits_string ds c rest :
  Forall (fun d => 0 <= d < 10) ds -> digit_of c = None ->
  take_digits (digit_string ds +:+ String c rest) = (digit_string ds, String c rest).
Proof.
  intros H Hc. induction H as [|d ds Hd _ IH]; [simpl; by rewrite Hc|].
  change (digit_string (d :: ds)) with (String (digit_char d) (digit_string ds)).
  rewrite string_app_cons. cbn [take_digits]. by rewrite digit_of_char, IH.
Qed.

Lemma getfraction_string ns :
  0 <= ns < 1000000000 -> getfraction (fraction_string ns +:+ "Z") = (ns, "Z").
Proof.
  intros Hns. unfold fraction_string.
  pose proof (fixed_digits_range 9 ns) as Hr. pose proof (fraction_value_fixed 9 ns Hns) as Hv.
  rewrite <-(fraction_value_trim _ _ Hr) in Hv. apply trim_zeros_range in Hr.
  destruct (trim_zeros (fixed_digits 9 ns)) as [|d ds].
  - unfold digit_string in Hv. simpl in Hv. by subst ns.
  - rewrite string_app_cons. cbn [getfraction].
    rewrite (take_digits_string (d :: ds) "Z"%char "") by done.
    destruct (digit_string (d :: ds)) eqn:E; [done|]. change (10 ^ Z.of_nat 9 / 10) with 100000000 in Hv. by rewrite Hv.
Qed.

Lemma format_parse t : clock_ok t = true -> ParseRFC3339 (FormatRFC3339Nano t) = Some (t, 0).
Proof.
  unfold clock_ok, year_of, FormatRFC3339Nano, format_with. intros H.
  destruct (civil_from_days (t / day_ns)) as [[y m] d] eqn:E. simpl in H. breflect.
  apply civil_from_days_spec in E as (Hm & Hd & Hday).
  assert (daysIn m y <= 31) as Hdm by (unfold daysIn; repeat case_match; lia).
  assert (0 <= t mod day_ns / 1000000000 < 86400) as Hs by (unfold day_ns in *; lia_div).
  set (sec := t mod day_ns / 1000000000) in *.
  unfold ParseRFC3339. rewrite getyear_string by lia.
  rewrite getfield_two by lia. rewrite getfield_two by lia.
  rewrite getfield_two by lia_div. rewrite getfield_two by lia_div. rewrite getfield_two by lia_div.
  rewrite getfraction_string by (apply Z.mod_pos_bound; lia). cbn [getzone].
  change (Ascii.eqb "Z" "Z") with true. change ("" =?s "")%hub with true. cbv iota.
  match goal with |- (if ?b then _ else _) = _ => replace b with false end.
  2:{ symmetry. repeat (apply orb_false_iff; split); apply Z.ltb_ge; lia_div. }
  f_equal. f_equal. rewrite Hday. unfold sec, day_ns. lia_div.
Qed.
