(* ===== verification/HubTypes.v ===== *)
(** * Agent hub: constants, errors and data

    The vocabulary of [internal/agenthub]: the task kinds and capabilities of
    [types.go], the states, limits and sentinel errors of [repository.go] and
    [profile.go], and the request, response and row types.  Constants and
    fields keep the source's names (a field is prefixed with its struct's
    name). *)

From stdpp Require Import base strings gmap list.
From Stdlib Require Import ZArith Lia.
From Stdlib Require Import SpecFloat.
From S2P Require Import Prelude GoStrings GoJson.
Local Open Scope Z_scope.

Definition ProtocolVersion : string := "v1".

(** ** Task kinds *)

Definition TaskServiceStatus : string := "service.status".
Definition TaskServiceAction : string := "service.action".
Definition TaskHostAction : string := "host.action".
Definition TaskProcessSignal : string := "process.signal".
Definition TaskDiskCleanupScan : string := "disk.cleanup.scan".
Definition TaskDiskCleanupExecute : string := "disk.cleanup.execute".
Definition TaskLogsRead : string := "logs.read".
Definition TaskContainerList : string := "container.list".
Definition TaskContainerAction : string := "container.action".
Definition TaskNginxAction : string := "nginx.action".
Definition TaskNginxConfigList : string := "nginx.config.list".
Definition TaskNginxConfigRead : string := "nginx.config.read".
Definition TaskNginxConfigWrite : string := "nginx.config.write".
Definition TaskPHPInventory : string := "php.inventory".
Definition TaskPHPConfigRead : string := "php.config.read".
Definition TaskPHPConfigWrite : string := "php.config.write".
Definition TaskPHPAction : string := "php.action".
Definition TaskPM2List : string := "pm2.list".
Definition TaskPM2Logs : string := "pm2.logs".
Definition TaskPM2Action : string := "pm2.action".
Definition TaskCronInventory : string := "cron.inventory".
Definition TaskCronCreate : string := "cron.create".
Definition TaskCronUpdate : string := "cron.update".
Definition TaskCronDelete : string := "cron.delete".
Definition TaskCronRun : string := "cron.run".
Definition TaskFirewallInventory : string := "firewall.inventory".
Definition TaskFirewallAdd : string := "firewall.add".
Definition TaskFirewallDelete : string := "firewall.delete".
Definition TaskDomainInventory : string := "domain.inventory".
Definition TaskDomainAction : string := "domain.action".
Definition TaskSSLInventory : string := "ssl.inventory".
Definition TaskSSLAction : string := "ssl.action".
Definition TaskDatabaseInventory : string := "database.inventory".
Definition TaskDatabaseAction : string := "database.action".
Definition TaskBackupInventory : string := "backup.inventory".
Definition TaskBackupRun : string := "backup.run".
Definition TaskFilesBrowse : string := "files.browse".
Definition TaskFilesRead : string := "files.read".
Definition TaskFilesWrite : string := "files.write".
Definition TaskDeployInventory : string := "deploy.inventory".
Definition TaskDeployAction : string := "deploy.action".
Definition TaskDeployDomainInventory : string := "deploy.domain.inventory".
Definition TaskDeployDomainHealth : string := "deploy.domain.health".
Definition TaskDeployDomainAction : string := "deploy.domain.action".
Definition TaskAgentUpdateStatus : string := "agent.update.status".
Definition TaskAgentUpdateAction : string := "agent.update.action".
Definition TaskIntegrationStatus : string := "integration.status".
Definition TaskMetricsRead : string := "metrics.read".
Definition TaskProfileApply : string := "agent.profile.apply".

(** ** Capabilities *)

Definition CapabilityInventory : string := "inventory".
Definition CapabilityServiceStatus : string := "service.status".
Definition CapabilityServiceAction : string := "service.action".
Definition CapabilityHostAction : string := "host.action".
Definition CapabilityProcessRead : string := "process.read".
Definition CapabilityProcessSignal : string := "process.signal".
Definition CapabilityTerminal : string := "terminal".
Definition CapabilityDiskCleanup : string := "disk.cleanup".
Definition CapabilityLogsRead : string := "logs.read".
Definition CapabilityContainerRead : string := "container.read".
Definition CapabilityContainerAction : string := "container.action".
Definition CapabilityNginxAction : string := "nginx.action".
Definition CapabilityNginxConfigRead : string := "nginx.config.read".
Definition CapabilityNginxConfigWrite : string := "nginx.config.write".
Definition CapabilityPHPRead : string := "php.read".
Definition CapabilityPHPWrite : string := "php.write".
Definition CapabilityPHPAction : string := "php.action".
Definition CapabilityPM2Read : string := "pm2.read".
Definition CapabilityPM2Action : string := "pm2.action".
Definition CapabilityCronRead : string := "cron.read".
Definition CapabilityCronWrite : string := "cron.write".
Definition CapabilityCronRun : string := "cron.run".
Definition CapabilityFirewallRead : string := "firewall.read".
Definition CapabilityFirewallWrite : string := "firewall.write".
Definition CapabilityDomainRead : string := "domain.read".
Definition CapabilityDomainAction : string := "domain.action".
Definition CapabilitySSLRead : string := "ssl.read".
Definition CapabilitySSLAction : string := "ssl.action".
Definition CapabilityDatabaseRead : string := "database.read".
Definition CapabilityDatabaseAction : string := "database.action".
Definition CapabilityBackupRead : string := "backup.read".
Definition CapabilityBackupRun : string := "backup.run".
Definition CapabilityFilesRead : string := "files.read".
Definition CapabilityFilesWrite : string := "files.write".
Definition CapabilityDeployRead : string := "deploy.read".
Definition CapabilityDeployAction : string := "deploy.action".
Definition CapabilityDeployDomainRead : string := "deploy.domain.read".
Definition CapabilityDeployDomainAction : string := "deploy.domain.action".
Definition CapabilityAgentUpdateRead : string := "agent.update.read".
Definition CapabilityAgentUpdateAction : string := "agent.update.action".
Definition CapabilityIntegrationStatus : string := "integration.status".
Definition CapabilityMetricsRead : string := "metrics.read".
Definition CapabilityProfileApply : string := "agent.profile.apply".

(** ** Task states *)

Definition TaskStatusQueued : string := "queued".
Definition TaskStatusRunning : string := "running".
Definition TaskStatusCompleted : string := "completed".
Definition TaskStatusFailed : string := "failed".

(** ** Limits *)

Definition maxNodeIDLength : Z := 128.
Definition maxNodeNameLength : Z := 255.
Definition maxHostnameLength : Z := 255.
Definition maxAgentVersionLength : Z := 128.
Definition maxHeartbeatInventorySize : Z := Z.shiftl 64 10.
Definition maxTaskPayloadValueLength : Z := 255.
Definition maxTaskErrorLength : Z := 4096.
Definition maxTaskResultValueLength : Z := Z.shiftl 5 20.
Definition maxNginxConfigBytes : Z := Z.shiftl 2 20.
Definition maxEncodedNginxConfigSize : Z := (maxNginxConfigBytes + 2) / 3 * 4.
Definition maxManagedPathLength : Z := 4096.
Definition maxCronJobBytes : Z := Z.shiftl 8 10.
Definition maxEncodedCronJobSize : Z := (maxCronJobBytes + 2) / 3 * 4.
Definition maxFirewallRuleBytes : Z := Z.shiftl 1 10.
Definition maxEncodedFirewallSize : Z := (maxFirewallRuleBytes + 2) / 3 * 4.

(** ** Profile states, result states and error codes *)

Definition profileStateConfigured : string := "configured".
Definition profileStateNotConfigured : string := "not_configured".
Definition profileObservedNotReported : string := "not_reported".
Definition profileApplyManualRequired : string := "manual_required".
Definition profileApplySelfApplyReason : string := "self_apply_not_supported".
Definition profileApplyNotRequested : string := "not_requested".
Definition profileApplyQueued : string := "queued".
Definition profileApplyRunning : string := "running".
Definition profileApplyAwaiting : string := "awaiting_heartbeat".
Definition profileApplyApplied : string := "applied".
Definition profileApplyFailed : string := "failed".
Definition profileApplyDrifted : string := "drifted".
Definition ProfileObservationNotConfigured : string := "not_configured".
Definition ProfileObservationPendingRestart : string := "pending_restart".
Definition ProfileObservationApplied : string := "applied".
Definition ProfileObservationFailed : string := "failed".
Definition ProfileApplyResultRestartScheduled : string := "restart_scheduled".
Definition ProfileApplyResultAlreadyActive : string := "already_active".
Definition ProfileErrorCodeNotConfigured : string := "not_configured".
Definition ProfileErrorCodeInvalidProfile : string := "invalid_profile".
Definition ProfileErrorCodePermissionDenied : string := "permission_denied".
Definition ProfileErrorCodeWriteFailed : string := "write_failed".
Definition ProfileErrorCodeRestartFailed : string := "restart_failed".
Definition ProfileErrorCodeApplyFailed : string := "apply_failed".
Definition ProfileErrorCodeProfileApplyFailed : string := "profile_apply_failed".
Definition ProfileErrorCodeUnsupported : string := "unsupported".
Definition ProfileErrorCodeNotSupported : string := "not_supported".
Definition ProfileErrorCodeTimeout : string := "timeout".
Definition ProfileErrorCodeStaleRevision : string := "stale_revision".
Definition ProfileErrorCodeInvalidRevision : string := "invalid_revision".
Definition ProfileErrorCodeAgentError : string := "agent_error".
Definition ProfileErrorCodeUnknown : string := "unknown".
Definition ProfileErrorCodeMissing : string := "profile_missing".
Definition ProfileErrorCodeCorrupt : string := "profile_corrupt".
Definition ProfileErrorCodeStateCorrupt : string := "profile_state_corrupt".
Definition ProfileErrorCodeRevisionInvalid : string := "profile_revision_invalid".
Definition ProfileErrorCodePayloadInvalid : string := "profile_payload_invalid".
Definition ProfileErrorCodePayloadTooLarge : string := "profile_payload_too_large".
Definition ProfileErrorCodeApplyUnavailable : string := "profile_apply_unavailable".
Definition ProfileErrorCodeScheduleFailed : string := "profile_schedule_failed".
Definition ProfileErrorCodeStoreFailed : string := "profile_store_failed".
Definition ProfileErrorCodeSuperseded : string := "profile_superseded".

Definition maxProfilePathBytes : Z := 4096.
Definition maxProfileWriteRoots : Z := 16.
Definition maxProfileJSONBytes : Z := Z.shiftl 16 10.
Definition maxProfileEncodedBytes : Z := (maxProfileJSONBytes + 2) / 3 * 4.
Definition profileApplySchemaVersion : Z := 1.

(** ** Errors

    The sentinel errors callers test with [errors.Is].  [ErrOther] stands for
    an error that wraps no sentinel (a stored value that does not decode). *)

Inductive hub_error : Type :=
| ErrNotFound
| ErrAlreadyExists
| ErrUnauthorized
| ErrInvalidInput
| ErrUnsupportedProtocol
| ErrStaleHeartbeat
| ErrTaskNotClaimed
| ErrCapabilityUnavailable
| ErrNodeOffline
| ErrDeployDomainEnsureConflict
| ErrProfileRevisionStale
| ErrProfileNotConfigured
| ErrProfileApplyInFlight
| ErrOther.

#[export] Instance hub_error_eq_dec : EqDecision hub_error.
Proof. solve_decision. Defined.

Abbreviation res := (result hub_error).

(** ** Time

    An instant is its number of nanoseconds since the Unix epoch, UTC. *)

Definition time : Type := Z.
Definition duration : Type := Z.
Definition Nanosecond : duration := 1.
Definition Second : duration := 1000000000.
Definition Minute : duration := 60 * Second.

(** [time.Time{}], the first of January of year 1. *)
Definition zero_time : time := - 62135596800 * Second.

(** [Time.Sub]: the difference saturates at the ends of [int64]. *)
Definition Sub (t u : time) : duration :=
  Z.max min_int64 (Z.min max_int64 (t - u)).

(** ** Data *)

(** A Go slice where the code tells the nil slice from an empty one ([None] is
    nil); elsewhere a slice is a list. *)
Definition slice (A : Type) : Type := option (list A).
Definition elems {A} (s : slice A) : list A := default [] s.

(** An IEEE 754 double, as its specification. *)
Definition float64 : Type := spec_float.

Record ServiceState : Type := mkServiceState {
  svc_Name : string;
  svc_Active : string;
  svc_Sub : string
}.

Record DiskMount : Type := mkDiskMount {
  mnt_Filesystem : string;
  mnt_Size : Z;
  mnt_Used : Z;
  mnt_Available : Z;
  mnt_UsePercent : Z;
  mnt_Mountpoint : string
}.

Record Process : Type := mkProcess {
  proc_PID : Z;
  proc_StartTime : Z;
  proc_User : string;
  proc_CPU : float64;
  proc_Memory : float64;
  proc_RSS : Z;
  proc_Command : string
}.

Record Inventory : Type := mkInventory {
  inv_OS : string;
  inv_Arch : string;
  inv_Kernel : string;
  inv_BootID : string;
  inv_UptimeSeconds : Z;
  inv_Load1 : float64;
  inv_MemoryTotal : Z;
  inv_MemoryAvailable : Z;
  inv_SwapTotal : Z;
  inv_SwapUsed : Z;
  inv_SwapFree : Z;
  inv_SwapResetEligible : bool;
  inv_SwapResetReason : string;
  inv_DiskTotal : Z;
  inv_DiskUsed : Z;
  inv_DiskAvailable : Z;
  inv_DiskUsePercent : float64;
  inv_DiskMounts : list DiskMount;
  inv_PleskPresent : bool;
  inv_Services : slice ServiceState;
  inv_Processes : slice Process;
  inv_LogSources : list string;
  inv_FileReadRoots : slice string;
  inv_FileWriteRoots : list string
}.

Definition empty_inventory : Inventory :=
  mkInventory "" "" "" "" 0 (S754_zero false) 0 0 0 0 0 false "" 0 0 0 (S754_zero false)
    [] false None None [] None [].

Record AgentProfileObservation : Type := mkObservation {
  obs_State : string;
  obs_Revision : Z;
  obs_ErrorCode : string
}.

Record HeartbeatRequest : Type := mkHeartbeat {
  hb_ProtocolVersion : string;
  hb_NodeID : string;
  hb_AgentVersion : string;
  hb_Capabilities : slice string;
  hb_Hostname : string;
  hb_SentAt : time;
  hb_Inventory : Inventory;
  hb_Profile : option AgentProfileObservation
}.

Record RegisterNodeRequest : Type := mkRegister {
  reg_ID : string;
  reg_Name : string
}.

Record Node : Type := mkNode {
  node_ID : string;
  node_Name : string;
  node_Hostname : string;
  node_AgentVersion : string;
  node_ProtocolVersion : string;
  node_Capabilities : list string;
  node_Inventory : Inventory;
  node_LastSeenAt : option time;
  node_CreatedAt : time;
  node_UpdatedAt : time
}.

Record TaskRequest : Type := mkTaskRequest {
  req_Kind : string;
  req_Payload : gmap string string
}.

Record Task : Type := mkTask {
  task_ID : Z;
  task_NodeID : string;
  task_Kind : string;
  task_Payload : gmap string string;
  task_Status : string;
  task_Result : gmap string string;
  task_Error : string;
  task_CreatedAt : time;
  task_StartedAt : option time;
  task_CompletedAt : option time
}.

Record TaskResultRequest : Type := mkTaskResult {
  tres_Status : string;
  tres_Result : gmap string string;
  tres_Error : string
}.

(** [RegisterNodeResponse] and [HeartbeatResponse]. *)
Record RegisterNodeResponse : Type := mkRegistered {
  rsp_Node : Node;
  rsp_Token : string
}.

Record HeartbeatResponse : Type := mkHeartbeatResponse {
  hbr_Accepted : bool;
  hbr_ServerAt : time
}.

Record AgentProfile : Type := mkProfile {
  prof_AllowDeployRead : bool;
  prof_AllowDeployActions : bool;
  prof_AllowDeployDomainRead : bool;
  prof_AllowDeployDomainActions : bool;
  prof_DeployPlansFile : string;
  prof_DeployAcmeWebroot : string;
  prof_DeployWriteRoots : list string
}.

#[export] Instance AgentProfile_eq_dec : EqDecision AgentProfile.
Proof. solve_decision. Defined.

Record AgentProfileRecord : Type := mkProfileRecord {
  rec_Profile : AgentProfile;
  rec_Revision : Z;
  rec_Configured : bool
}.

Record AgentProfileObservationRecord : Type := mkObservationRecord {
  orec_State : string;
  orec_Revision : Z;
  orec_ErrorCode : string;
  orec_UpdatedAt : time
}.

(** A Go map read with a missing key gives the empty string. *)
Definition get (m : gmap string string) (k : string) : string := default "" (m !! k).

(** Go's [len] of a map. *)
Definition map_len (m : gmap string string) : Z := Z.of_nat (size m).

Lemma get_nonempty m k : get m k <> "" -> is_Some (m !! k).
Proof. unfold get. destruct (m !! k); [by eexists|done]. Qed.

#[export] Hint Resolve get_nonempty : hub.
