(* ===== verification/GoFloat.v ===== *)
(** * Floating point: what the hub uses of Go's [float64], [strconv] and [math]

    A [float64] is the specification of an IEEE 754 double ([SpecFloat] with
    53 bits of precision).  [ParseFloat] reads the literal of a JSON number to
    the nearest double, [FormatFloat] prints a finite double the way
    [encoding/json] does: with the fewest digits that read back. *)

From stdpp Require Import base strings list.
From Stdlib Require Import ZArith Lia Ascii.
From Stdlib Require Import SpecFloat.
From S2P Require Import Prelude GoStrings GoJson HubTypes.
Local Open Scope Z_scope.

Definition prec : Z := 53.
Definition emax : Z := 1024.

Definition f_zero : float64 := S754_zero false.
Definition f_sub : float64 -> float64 -> float64 := SFsub prec emax.
Definition f_mul : float64 -> float64 -> float64 := SFmul prec emax.
Definition f_div : float64 -> float64 -> float64 := SFdiv prec emax.
Definition f_lt (x y : float64) : bool := SFltb x y.
Definition f_le (x y : float64) : bool := SFleb x y.
Definition Abs (x : float64) : float64 := SFabs x.

Definition IsNaN (x : float64) : bool := match x with S754_nan => true | _ => false end.
Definition IsInf (x : float64) : bool := match x with S754_infinity _ => true | _ => false end.

(** [float64(n)] of an integer: the nearest double. *)
Definition of_Z (n : Z) : float64 := binary_normalize prec emax n 0 false.

(** The double nearest to [(-1)^neg * m * 10^e]. *)
Definition dec_to_float (neg : bool) (m e : Z) : float64 :=
  if m =? 0 then S754_zero neg
  else if 0 <=? e then binary_normalize prec emax ((if neg then -1 else 1) * m * 10 ^ e) 0 neg
  else SFdiv prec emax (S754_finite neg (Z.to_pos m) 0) (S754_finite false (Z.to_pos (10 ^ - e)) 0).

(** ** Parsing *)

(** The exponent stops growing at four digits. *)
Fixpoint exp_value (acc : Z) (ds : string) : Z :=
  match ds with
  | "" => acc
  | String c ds' =>
      exp_value (if acc <? 10000 then acc * 10 + default 0 (digit_of c) else acc) ds'
  end.

Definition literal_exp (s : string) : Z :=
  match s with
  | String c s' =>
      match s' with
      | String g t =>
          if Ascii.eqb g "-"%char then - exp_value 0 t
          else if Ascii.eqb g "+"%char then exp_value 0 t
          else exp_value 0 s'
      | "" => 0
      end
  | "" => 0
  end.

(** The value of a literal of the JSON number grammar. *)
Definition literal_float (lit : string) : float64 :=
  let '(neg, s) :=
    match lit with
    | String c s' => if Ascii.eqb c "-"%char then (true, s') else (false, lit)
    | "" => (false, lit)
    end in
  let '(ip, s1) := take_digits s in
  let '(fp, s2) :=
    match s1 with
    | String c s' => if Ascii.eqb c "."%char then take_digits s' else ("", s1)
    | "" => ("", s1)
    end in
  dec_to_float neg (default 0 (digits_value 0 (ip +:+ fp))) (literal_exp s2 - len fp).

(** [strconv.ParseFloat]: a value out of range is an error. *)
Definition ParseFloat (lit : string) : option float64 :=
  let f := literal_float lit in
  if IsInf f then None else Some f.

Definition into_float64 (j : json) (old : float64) : option float64 :=
  match j with JNum lit => ParseFloat lit | JNull => Some old | _ => None end.

(** ** Printing *)

Definition float_eqb (x y : float64) : bool :=
  match x, y with
  | S754_finite s m e, S754_finite s' m' e' => Bool.eqb s s' && Pos.eqb m m' && (e =? e')
  | S754_zero s, S754_zero s' => Bool.eqb s s'
  | S754_infinity s, S754_infinity s' => Bool.eqb s s'
  | S754_nan, S754_nan => true
  | _, _ => false
  end.

(** A power of ten as a fraction. *)
Definition scale10 (num den k : Z) : Z * Z :=
  if 0 <=? k then (num * 10 ^ k, den) else (num, den * 10 ^ - k).

(** The position of the decimal point: [10^(p-1) <= num/den < 10^p], from an
    estimate by the binary logarithm. *)
Fixpoint point_up (fuel : nat) (num den p : Z) : Z :=
  match fuel with
  | O => p
  | S k => let '(n, d) := scale10 num den (- p) in if d <=? n then point_up k num den (p + 1) else p
  end.

Definition point_position (num den : Z) : Z :=
  point_up 8 num den ((Z.log2 num - Z.log2 den) * 30103 / 100000 - 2).

(** Try [n], [n+1], ... digits: the candidates next to the value from below and
    above, the nearer one when both read back. *)
Fixpoint shortest (fuel : nat) (x : float64) (neg : bool) (num den p n : Z) : Z * Z :=
  let '(sn, sd) := scale10 num den (n - p) in
  let lo := sn / sd in
  let hi := if sn mod sd =? 0 then lo else lo + 1 in
  let ok c := float_eqb (dec_to_float neg c (p - n)) x in
  let nearer := if 2 * (sn mod sd) <? sd then lo else if sd <? 2 * (sn mod sd) then hi
                else if Z.even lo then lo else hi in
  match fuel with
  | O => (nearer, n)
  | S k =>
      if ok lo && ok hi then (nearer, n)
      else if ok lo then (lo, n)
      else if ok hi then (hi, n)
      else shortest k x neg num den p (n + 1)
  end.

Definition zeros (n : Z) : string := String.string_of_list_ascii (replicate (Z.to_nat n) "0"%char).

(** Digits without zeros at their end. *)
Fixpoint strip_zeros (fuel : nat) (c n : Z) : Z * Z :=
  match fuel with
  | O => (c, n)
  | S k => if (c mod 10 =? 0) && (1 <? n) then strip_zeros k (c / 10) (n - 1) else (c, n)
  end.

(** The exponent as [encoding/json] writes it: no padding for [e-9]. *)
Definition exp_string (e : Z) : string :=
  if e <? 0 then "e-" +:+ utoa (- e)
  else "e+" +:+ (if e <? 10 then "0" else "") +:+ utoa e.

Definition print_digits (scientific : bool) (digits : string) (p : Z) : string :=
  if scientific then
    stake 1 digits +:+ (if 1 <? len digits then "." +:+ sdrop 1 digits else "") +:+ exp_string (p - 1)
  else if p <=? 0 then "0." +:+ zeros (- p) +:+ digits
  else if len digits <=? p then digits +:+ zeros (p - len digits)
  else stake (Z.to_nat p) digits +:+ "." +:+ sdrop (Z.to_nat p) digits.

Definition FormatFloat (x : float64) : option string :=
  match x with
  | S754_zero neg => Some (if neg then "-0" else "0")
  | S754_finite neg m e =>
      let num := if 0 <=? e then Zpos m * 2 ^ e else Zpos m in
      let den := if 0 <=? e then 1 else 2 ^ - e in
      let p := point_position num den in
      let '(c0, n0) := shortest 17 x neg num den p 1 in
      (* a candidate of one digit more than asked for is a power of ten *)
      let '(c, n) := if c0 =? 10 ^ n0 then (1, 1) else strip_zeros 17 c0 n0 in
      let p' := if c0 =? 10 ^ n0 then p + 1 else p in
      let scientific := f_lt (Abs x) (dec_to_float false 1 (-6))
                        || f_le (dec_to_float false 1 21) (Abs x) in
      Some ((if neg then "-" else "") +:+ print_digits scientific (utoa c) p')
  | _ => None
  end.

Example format_samples :
  FormatFloat (dec_to_float false 4237 (-2)) = Some "42.37"
  /\ FormatFloat (dec_to_float false 1 (-1)) = Some "0.1"
  /\ FormatFloat (dec_to_float true 5 (-324)) = Some "-5e-324"
  /\ FormatFloat (dec_to_float false 1 21) = Some "1e+21"
  /\ FormatFloat (dec_to_float false 1 20) = Some "100000000000000000000"
  /\ FormatFloat (dec_to_float false 999999 (-12)) = Some "9.99999e-7"
  /\ FormatFloat (f_div (of_Z 1) (of_Z 3)) = Some "0.3333333333333333"
  /\ FormatFloat (of_Z 9007199254740993) = Some "9007199254740992".
Proof. vm_compute. split_and!; reflexivity. Qed.

Example parse_samples :
  ParseFloat "42.37" = Some (dec_to_float false 4237 (-2))
  /\ ParseFloat "-0.0" = Some (S754_zero true)
  /\ ParseFloat "1e400" = None
  /\ ParseFloat "1.5E+2" = Some (of_Z 150)
  /\ ParseFloat "1e-400" = Some f_zero.
Proof. vm_compute. split_and!; reflexivity. Qed.
