(* ===== verification/ReleaseVersion.v ===== *)
(** * Release versions: [internal/releaseversion]

    [parse] reads a stable [major.minor.patch] version and [Compare] orders a
    candidate against the current release.  The agent hub uses it to report
    version drift and to admit upgrade tasks. *)

From stdpp Require Import base strings list.
From Stdlib Require Import ZArith Lia Ascii.
From S2P Require Import Prelude GoStrings HubTypes.
Local Open Scope Z_scope.

Inductive State : Type := Current | Behind | Ahead | Unknown.

#[export] Instance State_eq_dec : EqDecision State.
Proof. solve_decision. Defined.

(** The three parts, each a [uint64]. *)
Definition parse (value : string) : option (Z * Z * Z) :=
  let normalized := TrimPrefix1 (TrimSpace value) "v"%char in
  if ContainsAny normalized ["-"%char; "+"%char] then None
  else match split "."%char normalized with
       | [a; b; c] =>
           match ParseUint a, ParseUint b, ParseUint c with
           | Some x, Some y, Some z => Some (x, y, z)
           | _, _, _ => None
           end
       | _ => None
       end.

(** The loop over the three parts. *)
Fixpoint compare_parts (l : list (Z * Z)) : State :=
  match l with
  | [] => Current
  | (x, y) :: l' => if x <? y then Behind else if y <? x then Ahead else compare_parts l'
  end.

Definition Compare (candidateVersion currentVersion : string) : State :=
  match parse candidateVersion, parse currentVersion with
  | Some (x1, y1, z1), Some (x2, y2, z2) => compare_parts [(x1, x2); (y1, y2); (z1, z2)]
  | _, _ => Unknown
  end.

Record NodeCompatibility : Type := mkCompatibility {
  compat_PanelVersion : string;
  compat_ExpectedProtocol : string;
  compat_ProtocolCompatible : bool;
  compat_AgentVersionState : State
}.

Definition Compatibility (agentVersion protocolVersion panelVersion : string) : NodeCompatibility :=
  mkCompatibility panelVersion ProtocolVersion (protocolVersion =?s ProtocolVersion)
    (Compare agentVersion panelVersion).

(** ** Order *)

(** The strict order [Compare] decides: lexicographic on the parsed parts. *)
Definition version_lt (v w : Z * Z * Z) : Prop :=
  let '(x1, y1, z1) := v in
  let '(x2, y2, z2) := w in
  x1 < x2 \/ (x1 = x2 /\ (y1 < y2 \/ (y1 = y2 /\ z1 < z2))).

Lemma Compare_spec a b :
  match parse a, parse b with
  | Some v, Some w =>
      (Compare a b = Behind <-> version_lt v w) /\ (Compare a b = Ahead <-> version_lt w v)
      /\ (Compare a b = Current <-> v = w) /\ Compare a b <> Unknown
  | _, _ => Compare a b = Unknown
  end.
Proof.
  unfold Compare. destruct (parse a) as [[[x1 y1] z1]|]; [|done].
  destruct (parse b) as [[[x2 y2] z2]|]; [|done]. cbn [compare_parts version_lt].
  repeat match goal with
  | |- context [?x <? ?y] => destruct (Z.ltb_spec x y)
  end; repeat split; intros; simplify_eq; try congruence; try lia; try (f_equal; [f_equal|]; lia).
Qed.


(** Version comparison is a total order on the versions that parse:
    [Behind] and [Ahead] are converse, [Behind] is transitive, versions with
    equal parts are interchangeable, and [Unknown] is answered exactly when one
    side is not a stable [major.minor.patch] version. *)
Theorem Compare_order a b c :
  (Compare a b = Behind <-> Compare b a = Ahead)
  /\ (Compare a b = Unknown <-> parse a = None \/ parse b = None)
  /\ (Compare a b = Behind -> Compare b c = Behind -> Compare a c = Behind)
  /\ (Compare a b = Current -> Compare a c = Compare b c).
Proof.
  pose proof (Compare_spec a b) as Hab. pose proof (Compare_spec b a) as Hba.
  pose proof (Compare_spec b c) as Hbc. pose proof (Compare_spec a c) as Hac.
  assert (parse a = None \/ parse b = None -> Compare a b = Unknown /\ Compare b a = Unknown) as Hnone.
  { unfold Compare. intros [-> | ->]; [by destruct (parse b) as [[[] ?]|]|by destruct (parse a) as [[[] ?]|]]. }
  destruct (parse a) as [va|] eqn:Ea, (parse b) as [vb|] eqn:Eb;
    try (destruct Hnone as [-> ->]; [auto|]; split_and!; [split; congruence|split; auto|congruence..]).
  destruct Hab as (H1 & H2 & H3 & H4), Hba as (H5 & H6 & H7 & H8). split_and!.
  - by rewrite H1, H6.
  - split; [done|]. by intros [|].
  - destruct (parse c) as [vc|]; [|congruence]. destruct Hbc as (Hb & _), Hac as (Ha & _).
    rewrite Ha, H1, Hb. destruct va as [[x1 y1] z1], vb as [[x2 y2] z2], vc as [[x3 y3] z3]. simpl. lia.
  - intros E%H3. unfold Compare. by rewrite Ea, Eb, E.
Qed.
