(* ===== verification/TaskGate.v ===== *)
(** * The task gate: what the panel may ask an agent to do

    [ValidateTaskRequest] of [internal/agenthub/service.go] with every
    validator it calls, the capability a task kind needs, and the bounds on
    task results.  Each arm of its switch is a definition of its own;
    [task_cases] is the switch. *)

From stdpp Require Import base strings gmap list.
From Stdlib Require Import ZArith Lia Ascii.
From S2P Require Import Prelude GoStrings GoBase64 GoJson GoNet HubTypes ReleaseVersion.
Local Open Scope Z_scope.

(** ** Character-level validators *)

Definition asciiLetterOrDigit (r : Z) : bool :=
  ((97 <=? r) && (r <=? 122)) || ((65 <=? r) && (r <=? 90)) || ((48 <=? r) && (r <=? 57)).

Definition containsControl (value : string) : bool := existsb IsControl (runes value).

Definition safeToken `{UnicodeTables} (value : string) : bool :=
  if value =?s "" then false
  else forallb (fun r => IsLetter r || IsDigit r || (r =? 95) || (r =? 45)) (runes value).

(** A loop [for index, char := range value] that tests the first rune with
    [first] and the others with [other]. *)
Definition scan_runes (first other : Z -> bool) (value : string) : bool :=
  match runes value with
  | [] => true
  | r :: rs => first r && forallb other rs
  end.

Definition validNodeID (value : string) : bool :=
  if (value =?s "") || (maxNodeIDLength <? len value) || negb (TrimSpace value =?s value) then false
  else scan_runes asciiLetterOrDigit
         (fun r => asciiLetterOrDigit r || (r =? 46) || (r =? 95) || (r =? 45)) value.

Definition validUnitName (value : string) : bool :=
  if (value =?s "") || (maxTaskPayloadValueLength <? len value) || negb (TrimSpace value =?s value)
  then false
  else scan_runes asciiLetterOrDigit
         (fun r => (asciiLetterOrDigit r || ContainsRune ":_.@-" r)
                   && negb (IsSpace r) && negb (IsControl r)) value.

Definition validContainerName (value : string) : bool :=
  if (value =?s "") || (128 <? len value) then false
  else scan_runes asciiLetterOrDigit (fun r => asciiLetterOrDigit r || ContainsRune "_.-" r) value.

Definition validNginxConfigName (value : string) : bool :=
  if (value =?s "") || (255 <? len value) then false
  else scan_runes asciiLetterOrDigit (fun r => asciiLetterOrDigit r || ContainsRune "._-" r) value.

Definition validPHPPool (value : string) : bool :=
  if (value =?s "") || (128 <? len value) then false
  else scan_runes asciiLetterOrDigit (fun r => asciiLetterOrDigit r || ContainsRune "._-" r) value.

Definition validPM2Name (value : string) : bool :=
  if (value =?s "") || (128 <? len value) then false
  else scan_runes asciiLetterOrDigit (fun r => asciiLetterOrDigit r || ContainsRune "._:@-" r) value.

Definition validSystemUser (value : string) : bool :=
  if (value =?s "") || (32 <? len value) then false
  else
    let base r := ((97 <=? r) && (r <=? 122)) || (r =? 95) in
    scan_runes base (fun r => base r || ((48 <=? r) && (r <=? 57)) || (r =? 45)) value.

Definition lower_hex (r : Z) : bool :=
  ((48 <=? r) && (r <=? 57)) || ((97 <=? r) && (r <=? 102)).

Definition validSHA256 (value : string) : bool :=
  if negb (len value =? 64) then false else forallb lower_hex (runes value).

Definition validCronID (value : string) : bool :=
  if negb (len value =? len "cron-" + 12) || negb (HasPrefix value "cron-") then false
  else forallb lower_hex (runes (sdrop 5 value)).

Definition validFirewallID (value : string) : bool :=
  if negb (len value =? len "fw-" + 12) || negb (HasPrefix value "fw-") then false
  else forallb lower_hex (runes (sdrop 3 value)).

Definition validNginxConfigContent (content : string) : bool :=
  if negb (valid_utf8 content) then false
  else forallb (fun c => negb ((byte c <? 0x20) && negb (byte c =? 10) && negb (byte c =? 13)
                               && negb (byte c =? 9))) (chars content).

Definition validPHPVersion (value : string) : bool :=
  match split "."%char value with
  | [a; b] =>
      if (a =?s "") || (b =?s "") then false
      else forallb (fun part => forallb (fun r => (48 <=? r) && (r <=? 57)) (runes part)) [a; b]
           && (len value <=? 16)
  | _ => false
  end.

Definition first_char (s : string) : option ascii := head (chars s).
Definition last_char (s : string) : option ascii := last (chars s).

Definition validDeployLabel (label : string) : bool :=
  if (label =?s "") || (63 <? len label) || bool_decide (first_char label = Some "-"%char)
     || bool_decide (last_char label = Some "-"%char) then false
  else forallb (fun r => ((97 <=? r) && (r <=? 122)) || ((48 <=? r) && (r <=? 57)) || (r =? 45))
         (runes label).

Definition validDeployDomainName (value : string) : bool :=
  if (value =?s "") || (253 <? len value) || HasPrefix value "." || HasSuffix value "." then false
  else
    let labels := split "."%char value in
    if (length labels <? 2)%nat then false else forallb validDeployLabel labels.

(** A loop that accepts each value of an allowlist at most once. *)
Fixpoint distinct_allowed (allowed : string -> bool) (seen : gset string) (parts : list string) : bool :=
  match parts with
  | [] => true
  | t :: ts =>
      if allowed t then
        if bool_decide (t ∈ seen) then false else distinct_allowed allowed ({[t]} ∪ seen) ts
      else false
  end.

Definition cleanup_target (t : string) : bool :=
  existsb (String.eqb t) ["apt-cache"; "journal"; "tmp-old"; "rotated-logs"].

Definition validDiskCleanupTargets (value : string) : bool :=
  let parts := split ","%char value in
  if (length parts =? 0)%nat || (4 <? length parts)%nat then false
  else distinct_allowed cleanup_target ∅ parts.

Definition validLogSource (value : string) : bool :=
  existsb (String.eqb value) ["system"; "nginx"; "php"; "mariadb"; "postgresql"; "pm2"; "docker"].

Definition validContainerAction (value : string) : bool :=
  (value =?s "start") || (value =?s "stop") || (value =?s "restart").

Definition validDeployAction (value : string) : bool :=
  (value =?s "preflight") || (value =?s "deploy") || (value =?s "restart") || (value =?s "rollback").

Definition validDeployDomainAction (value : string) : bool :=
  (value =?s "create") || (value =?s "delete") || (value =?s "ensure") || (value =?s "tls-enable")
  || (value =?s "tls-disable") || (value =?s "tls-renew").

Definition validPHPAction (value : string) : bool :=
  (value =?s "test") || (value =?s "reload") || (value =?s "restart").

Definition validPM2Action (value : string) : bool :=
  (value =?s "start") || (value =?s "stop") || (value =?s "restart") || (value =?s "reload").

Definition validDatabaseEngine (value : string) : bool :=
  (value =?s "mariadb") || (value =?s "postgresql").

Definition nul : ascii := "000"%char.
Definition line_breaks : list ascii := ["013"%char; "010"%char; nul].

Definition validManagedAbsolutePath (value : string) : bool :=
  (1 <? len value) && (len value <=? maxManagedPathLength) && IsAbs value
  && (Clean value =?s value) && negb (ContainsAny value [nul]).

(** ** Structured payloads *)

Record cronTaskJob : Type := mkCronTaskJob {
  cron_ID : string;
  cron_Schedule : string;
  cron_User : string;
  cron_Command : string;
  cron_Description : string;
  cron_Enabled : bool
}.

Definition cron_fields : fields_of cronTaskJob :=
  [("id", fun j v => (fun x => mkCronTaskJob x (cron_Schedule v) (cron_User v) (cron_Command v)
                                 (cron_Description v) (cron_Enabled v)) <$> into_string j (cron_ID v));
   ("schedule", fun j v => (fun x => mkCronTaskJob (cron_ID v) x (cron_User v) (cron_Command v)
                                 (cron_Description v) (cron_Enabled v)) <$> into_string j (cron_Schedule v));
   ("user", fun j v => (fun x => mkCronTaskJob (cron_ID v) (cron_Schedule v) x (cron_Command v)
                                 (cron_Description v) (cron_Enabled v)) <$> into_string j (cron_User v));
   ("command", fun j v => (fun x => mkCronTaskJob (cron_ID v) (cron_Schedule v) (cron_User v) x
                                 (cron_Description v) (cron_Enabled v)) <$> into_string j (cron_Command v));
   ("description", fun j v => (fun x => mkCronTaskJob (cron_ID v) (cron_Schedule v) (cron_User v)
                                 (cron_Command v) x (cron_Enabled v)) <$> into_string j (cron_Description v));
   ("enabled", fun j v => (fun x => mkCronTaskJob (cron_ID v) (cron_Schedule v) (cron_User v)
                                 (cron_Command v) (cron_Description v) x) <$> into_bool j (cron_Enabled v))].

Definition validCronJob (requireID : bool) (job : cronTaskJob) : bool :=
  if (requireID && negb (validCronID (cron_ID job)))
     || (negb requireID && negb (cron_ID job =?s "")) || negb (validSystemUser (cron_User job))
     || (len (cron_Command job) =? 0) || (4096 <? len (cron_Command job))
     || ContainsAny (cron_Command job) line_breaks || (160 <? len (cron_Description job))
     || ContainsAny (cron_Description job) line_breaks then false
  else (len (cron_Schedule job) <=? 160) && negb (ContainsAny (cron_Schedule job) line_breaks)
       && (FieldsCount (cron_Schedule job) =? 5).

Definition validCronJobPayload (encoded : string) (requireID : bool) : bool :=
  match DecodeString encoded with
  | None => false
  | Some raw =>
      if (len raw =? 0) || (maxCronJobBytes <? len raw) || negb (valid_utf8 raw) then false
      else match unmarshal_raw_map raw with
           | None => false
           | Some fields =>
               let n := Z.of_nat (size fields) in
               if (n <? 4) || (6 <? n) then false
               else if negb (forallb (fun k => existsb (String.eqb k)
                        ["id"; "schedule"; "user"; "command"; "description"; "enabled"])
                        (elements (dom fields))) then false
               else match unmarshal raw ≫= fun j =>
                            decode_struct false cron_fields j (mkCronTaskJob "" "" "" "" "" false) with
                    | None => false
                    | Some job =>
                        if negb (forallb (fun k => bool_decide (is_Some (fields !! k)))
                                   ["schedule"; "user"; "command"; "enabled"]) then false
                        else validCronJob requireID job
                    end
           end
  end.

Record firewallTaskRule : Type := mkFirewallTaskRule {
  fw_Action : string;
  fw_Protocol : string;
  fw_Port : Z;
  fw_Source : string;
  fw_Comment : string
}.

Definition firewall_fields : fields_of firewallTaskRule :=
  [("action", fun j v => (fun x => mkFirewallTaskRule x (fw_Protocol v) (fw_Port v) (fw_Source v)
                                     (fw_Comment v)) <$> into_string j (fw_Action v));
   ("protocol", fun j v => (fun x => mkFirewallTaskRule (fw_Action v) x (fw_Port v) (fw_Source v)
                                     (fw_Comment v)) <$> into_string j (fw_Protocol v));
   ("port", fun j v => (fun x => mkFirewallTaskRule (fw_Action v) (fw_Protocol v) x (fw_Source v)
                                     (fw_Comment v)) <$> into_int64 j (fw_Port v));
   ("source", fun j v => (fun x => mkFirewallTaskRule (fw_Action v) (fw_Protocol v) (fw_Port v) x
                                     (fw_Comment v)) <$> into_string j (fw_Source v));
   ("comment", fun j v => (fun x => mkFirewallTaskRule (fw_Action v) (fw_Protocol v) (fw_Port v)
                                     (fw_Source v) x) <$> into_string j (fw_Comment v))].

Definition validFirewallRule (rule : firewallTaskRule) : bool :=
  if (negb (fw_Action rule =?s "ACCEPT") && negb (fw_Action rule =?s "DROP"))
     || (negb (fw_Protocol rule =?s "tcp") && negb (fw_Protocol rule =?s "udp")
         && negb (fw_Protocol rule =?s "all")) then false
  else if ((fw_Protocol rule =?s "all") && negb (fw_Port rule =? 0))
          || (negb (fw_Protocol rule =?s "all") && ((fw_Port rule <? 0) || (65535 <? fw_Port rule)))
          || (80 <? len (fw_Comment rule)) || ContainsAny (fw_Comment rule) line_breaks then false
  else if fw_Source rule =?s "" then true
  else match ParseIP (fw_Source rule) with
       | Some ip => is_ipv4 ip
       | None => match ParseCIDR (fw_Source rule) with
                 | Some ip => is_ipv4 ip
                 | None => false
                 end
       end.

Definition validFirewallRulePayload (encoded : string) : bool :=
  match DecodeString encoded with
  | None => false
  | Some raw =>
      if (len raw =? 0) || (maxFirewallRuleBytes <? len raw) || negb (valid_utf8 raw) then false
      else match unmarshal_raw_map raw with
           | None => false
           | Some fields =>
               let n := Z.of_nat (size fields) in
               if (n <? 2) || (5 <? n) then false
               else if negb (forallb (fun k => existsb (String.eqb k)
                        ["action"; "protocol"; "port"; "source"; "comment"])
                        (elements (dom fields))) then false
               else if negb (bool_decide (is_Some (fields !! "action"))) then false
               else if negb (bool_decide (is_Some (fields !! "protocol"))) then false
               else match unmarshal raw ≫= fun j =>
                            decode_struct false firewall_fields j (mkFirewallTaskRule "" "" 0 "" "") with
                    | None => false
                    | Some rule => validFirewallRule rule
                    end
           end
  end.

(** ** The arms of the switch of [ValidateTaskRequest] *)

Abbreviation payload := (gmap string string).

Definition valid_when (b : bool) : res unit := if b then Ok tt else Err ErrInvalidInput.
Definition invalid_when (b : bool) : res unit := if b then Err ErrInvalidInput else Ok tt.

Definition check_no_payload (p : payload) : res unit := invalid_when (negb (map_len p =? 0)).

Definition check_service_status (p : payload) : res unit :=
  if negb (map_len p =? 1) || (get p "service" =?s "") then Err ErrInvalidInput
  else invalid_when (negb (validUnitName (get p "service"))).

Definition check_service_action (p : payload) : res unit :=
  if negb (map_len p =? 2) || (get p "service" =?s "") || (get p "action" =?s "")
  then Err ErrInvalidInput
  else if negb (validUnitName (get p "service")) then Err ErrInvalidInput
  else valid_when (existsb (String.eqb (get p "action")) ["start"; "stop"; "restart"]).

Definition check_host_action (p : payload) : res unit :=
  if negb (map_len p =? 1) || (get p "action" =?s "") then Err ErrInvalidInput
  else valid_when (existsb (String.eqb (get p "action"))
                     ["memory-optimize"; "swap-reset"; "temp-clean"; "reboot"; "reboot-cancel"]).

Definition check_process_signal (p : payload) : res unit :=
  if negb (map_len p =? 3) || (get p "pid" =?s "") || (get p "start_time" =?s "")
     || (get p "signal" =?s "") then Err ErrInvalidInput
  else match Atoi (get p "pid"), ParseUint (get p "start_time") with
       | Some pid, Some startTime =>
           if (pid <=? 1) || (startTime =? 0) then Err ErrInvalidInput
           else invalid_when (negb (get p "signal" =?s "term") && negb (get p "signal" =?s "kill"))
       | _, _ => Err ErrInvalidInput
       end.

Definition check_disk_cleanup_execute (p : payload) : res unit :=
  invalid_when (negb (map_len p =? 1) || negb (validDiskCleanupTargets (get p "targets"))).

(** A canonical decimal line count between 1 and 500. *)
Definition valid_lines (s : string) : bool :=
  match Atoi s with
  | Some lines => negb ((lines <? 1) || (500 <? lines) || negb (Itoa lines =?s s))
  | None => false
  end.

Definition check_logs_read (p : payload) : res unit :=
  invalid_when (negb (map_len p =? 2) || negb (validLogSource (get p "source"))
                || negb (valid_lines (get p "lines"))).

Definition check_container_action (p : payload) : res unit :=
  invalid_when (negb (map_len p =? 2) || negb (validContainerName (get p "container"))
                || negb (validContainerAction (get p "action"))).

Definition check_nginx_action (p : payload) : res unit :=
  invalid_when (negb (map_len p =? 1)
                || (negb (get p "action" =?s "test") && negb (get p "action" =?s "reload"))).

Definition check_nginx_config_read (p : payload) : res unit :=
  invalid_when (negb (map_len p =? 1) || negb (validNginxConfigName (get p "name"))).

(** The decoded content of a write: bounded, valid UTF-8, no control bytes. *)
Definition check_content (encoded : string) : res unit :=
  match DecodeString encoded with
  | Some content =>
      invalid_when ((maxNginxConfigBytes <? len content) || negb (validNginxConfigContent content))
  | None => Err ErrInvalidInput
  end.

Definition not_boolean (s : string) : bool := negb (s =?s "true") && negb (s =?s "false").

Definition check_nginx_config_write (p : payload) : res unit :=
  if negb (map_len p =? 4) || negb (validNginxConfigName (get p "name"))
     || negb (validSHA256 (get p "checksum")) || not_boolean (get p "reload")
  then Err ErrInvalidInput
  else check_content (get p "content_b64").

Definition check_php_config_read (p : payload) : res unit :=
  invalid_when (negb (map_len p =? 2) || negb (validPHPVersion (get p "version"))
                || negb (validPHPPool (get p "pool"))).

Definition check_php_config_write (p : payload) : res unit :=
  if negb (map_len p =? 5) || negb (validPHPVersion (get p "version"))
     || negb (validPHPPool (get p "pool")) || negb (validSHA256 (get p "checksum"))
     || not_boolean (get p "reload")
  then Err ErrInvalidInput
  else check_content (get p "content_b64").

Definition check_php_action (p : payload) : res unit :=
  invalid_when (negb (map_len p =? 2) || negb (validPHPVersion (get p "version"))
                || negb (validPHPAction (get p "action"))).

Definition check_pm2_logs (p : payload) : res unit :=
  invalid_when (negb (map_len p =? 2) || negb (validPM2Name (get p "name"))
                || negb (valid_lines (get p "lines"))).

Definition check_pm2_action (p : payload) : res unit :=
  invalid_when (negb (map_len p =? 2) || negb (validPM2Name (get p "name"))
                || negb (validPM2Action (get p "action"))).

Definition check_cron_write (requireID : bool) (p : payload) : res unit :=
  invalid_when (negb (map_len p =? 2) || negb (validSHA256 (get p "revision"))
                || negb (validCronJobPayload (get p "job_b64") requireID)).

Definition check_cron_delete (p : payload) : res unit :=
  invalid_when (negb (map_len p =? 2) || negb (validCronID (get p "id"))
                || negb (validSHA256 (get p "revision"))).

Definition check_cron_run (p : payload) : res unit :=
  invalid_when (negb (map_len p =? 1) || negb (validCronID (get p "id"))).

Definition check_firewall_add (p : payload) : res unit :=
  invalid_when (negb (map_len p =? 2) || negb (validSHA256 (get p "revision"))
                || negb (validFirewallRulePayload (get p "rule_b64"))).

Definition check_firewall_delete (p : payload) : res unit :=
  invalid_when (negb (map_len p =? 2) || negb (validFirewallID (get p "id"))
                || negb (validSHA256 (get p "revision"))).

Definition check_domain_action (p : payload) : res unit :=
  invalid_when (negb (map_len p =? 2) || negb (validNginxConfigName (get p "config"))
                || (negb (get p "action" =?s "enable") && negb (get p "action" =?s "disable"))).

Definition check_ssl_action (p : payload) : res unit :=
  invalid_when (negb (map_len p =? 2) || negb (validNginxConfigName (get p "name"))
                || (negb (get p "action" =?s "check") && negb (get p "action" =?s "renew"))).

Definition check_database_action (p : payload) : res unit :=
  invalid_when (negb (map_len p =? 2) || negb (validDatabaseEngine (get p "engine"))
                || negb (get p "action" =?s "restart")).

Definition check_backup_run (p : payload) : res unit :=
  invalid_when (negb (map_len p =? 1) || negb (validNginxConfigName (get p "plan"))).

Definition check_files_read (p : payload) : res unit :=
  invalid_when (negb (map_len p =? 1) || negb (validManagedAbsolutePath (get p "path"))).

Definition check_files_write (p : payload) : res unit :=
  if negb (map_len p =? 3) || negb (validManagedAbsolutePath (get p "path"))
     || negb (validSHA256 (get p "checksum"))
  then Err ErrInvalidInput
  else check_content (get p "content_b64").

Definition check_deploy_action (p : payload) : res unit :=
  invalid_when (negb (map_len p =? 2) || negb (validNginxConfigName (get p "target"))
                || negb (validDeployAction (get p "action"))).

Definition check_deploy_domain_inventory (p : payload) : res unit :=
  invalid_when (negb (map_len p =? 1) || negb (validNginxConfigName (get p "target"))).

Definition check_deploy_domain_health (p : payload) : res unit :=
  invalid_when (negb (map_len p =? 2) || negb (validNginxConfigName (get p "target"))
                || negb (validDeployDomainName (get p "domain"))).

Definition ensure_fields : list string := ["target"; "domain"; "action"; "expected_revision"].

Definition check_deploy_domain_action (p : payload) : res unit :=
  let action := get p "action" in
  if action =?s "ensure" then
    if negb (map_len p =? 4) || negb (validNginxConfigName (get p "target"))
       || negb (validDeployDomainName (get p "domain"))
       || (negb (validSHA256 (get p "expected_revision"))
           && negb (get p "expected_revision" =?s "absent"))
    then Err ErrInvalidInput
    else valid_when (forallb (fun k => existsb (String.eqb k) ensure_fields) (elements (dom p)))
  else
    let minimumFields := if (action =?s "tls-enable") && negb (get p "email" =?s "") then 4 else 3 in
    invalid_when (negb (map_len p =? minimumFields) || negb (validNginxConfigName (get p "target"))
                  || negb (validDeployDomainName (get p "domain"))
                  || negb (validDeployDomainAction action)).

Definition check_agent_update_action (p : payload) : res unit :=
  let action := get p "action" in
  if action =?s "upgrade" then
    invalid_when (negb (map_len p =? 2)
                  || negb (bool_decide (Compare (get p "version") (get p "version") = Current)))
  else if action =?s "rollback" then invalid_when (negb (map_len p =? 1))
  else Err ErrInvalidInput.

(** The switch: labels with their arms, in source order. *)
Definition task_cases : list (list string * (payload -> res unit)) :=
  [([TaskServiceStatus], check_service_status);
   ([TaskServiceAction], check_service_action);
   ([TaskHostAction], check_host_action);
   ([TaskProcessSignal], check_process_signal);
   ([TaskDiskCleanupScan], check_no_payload);
   ([TaskDiskCleanupExecute], check_disk_cleanup_execute);
   ([TaskLogsRead], check_logs_read);
   ([TaskContainerList], check_no_payload);
   ([TaskContainerAction], check_container_action);
   ([TaskNginxAction], check_nginx_action);
   ([TaskNginxConfigList], check_no_payload);
   ([TaskNginxConfigRead], check_nginx_config_read);
   ([TaskNginxConfigWrite], check_nginx_config_write);
   ([TaskPHPInventory], check_no_payload);
   ([TaskPHPConfigRead], check_php_config_read);
   ([TaskPHPConfigWrite], check_php_config_write);
   ([TaskPHPAction], check_php_action);
   ([TaskPM2List], check_no_payload);
   ([TaskPM2Logs], check_pm2_logs);
   ([TaskPM2Action], check_pm2_action);
   ([TaskCronInventory], check_no_payload);
   ([TaskCronCreate], check_cron_write false);
   ([TaskCronUpdate], check_cron_write true);
   ([TaskCronDelete], check_cron_delete);
   ([TaskCronRun], check_cron_run);
   ([TaskFirewallInventory], check_no_payload);
   ([TaskFirewallAdd], check_firewall_add);
   ([TaskFirewallDelete], check_firewall_delete);
   ([TaskDomainInventory], check_no_payload);
   ([TaskDomainAction], check_domain_action);
   ([TaskSSLInventory], check_no_payload);
   ([TaskSSLAction], check_ssl_action);
   ([TaskDatabaseInventory], check_no_payload);
   ([TaskDatabaseAction], check_database_action);
   ([TaskBackupInventory], check_no_payload);
   ([TaskBackupRun], check_backup_run);
   ([TaskFilesBrowse; TaskFilesRead], check_files_read);
   ([TaskFilesWrite], check_files_write);
   ([TaskDeployInventory], check_no_payload);
   ([TaskDeployAction], check_deploy_action);
   ([TaskDeployDomainInventory], check_deploy_domain_inventory);
   ([TaskDeployDomainHealth], check_deploy_domain_health);
   ([TaskDeployDomainAction], check_deploy_domain_action);
   ([TaskAgentUpdateStatus], check_no_payload);
   ([TaskAgentUpdateAction], check_agent_update_action);
   ([TaskIntegrationStatus], check_no_payload);
   ([TaskMetricsRead], check_no_payload)].

(** The allowlist test at the top of the gate. *)
Definition allowed_kinds : list string :=
  [TaskServiceStatus; TaskServiceAction; TaskHostAction; TaskProcessSignal; TaskDiskCleanupScan;
   TaskDiskCleanupExecute; TaskLogsRead; TaskContainerList; TaskContainerAction; TaskNginxAction;
   TaskNginxConfigList; TaskNginxConfigRead; TaskNginxConfigWrite; TaskPHPInventory;
   TaskPHPConfigRead; TaskPHPConfigWrite; TaskPHPAction; TaskPM2List; TaskPM2Logs; TaskPM2Action;
   TaskCronInventory; TaskCronCreate; TaskCronUpdate; TaskCronDelete; TaskCronRun;
   TaskFirewallInventory; TaskFirewallAdd; TaskFirewallDelete; TaskDomainInventory;
   TaskDomainAction; TaskSSLInventory; TaskSSLAction; TaskDatabaseInventory; TaskDatabaseAction;
   TaskBackupInventory; TaskBackupRun; TaskFilesBrowse; TaskFilesRead; TaskFilesWrite;
   TaskDeployInventory; TaskDeployAction; TaskDeployDomainInventory; TaskDeployDomainHealth;
   TaskDeployDomainAction; TaskAgentUpdateStatus; TaskAgentUpdateAction; TaskIntegrationStatus;
   TaskMetricsRead].

(** The kinds whose payload may be empty. *)
Definition empty_payload_kinds : list string :=
  [TaskDiskCleanupScan; TaskContainerList; TaskNginxConfigList; TaskPHPInventory; TaskPM2List;
   TaskCronInventory; TaskFirewallInventory; TaskDomainInventory; TaskSSLInventory;
   TaskDatabaseInventory; TaskBackupInventory; TaskDeployInventory; TaskAgentUpdateStatus;
   TaskIntegrationStatus; TaskMetricsRead].

(** The body of the loop over the payload: whether one entry is acceptable. *)
Definition payload_entry_ok `{UnicodeTables} (kind key value : string) : bool :=
  let configContent := ((kind =?s TaskNginxConfigWrite) || (kind =?s TaskPHPConfigWrite))
                       && (key =?s "content_b64") in
  let cronJob := ((kind =?s TaskCronCreate) || (kind =?s TaskCronUpdate)) && (key =?s "job_b64") in
  let firewallRule := (kind =?s TaskFirewallAdd) && (key =?s "rule_b64") in
  let fileContent := (kind =?s TaskFilesWrite) && (key =?s "content_b64") in
  let managedPath := ((kind =?s TaskFilesBrowse) || (kind =?s TaskFilesRead) || (kind =?s TaskFilesWrite))
                     && (key =?s "path") in
  let valueLimit :=
    if configContent then maxEncodedNginxConfigSize
    else if cronJob then maxEncodedCronJobSize
    else if firewallRule then maxEncodedFirewallSize
    else if fileContent then maxEncodedNginxConfigSize
    else if managedPath then maxManagedPathLength
    else maxTaskPayloadValueLength in
  negb ((key =?s "") || (maxTaskPayloadValueLength <? len key) || negb (safeToken key)
        || (negb configContent && negb cronJob && negb firewallRule && negb fileContent && (value =?s ""))
        || (valueLimit <? len value) || containsControl value).

Definition ValidateTaskRequest `{UnicodeTables} (req : TaskRequest) : res unit :=
  let kind := req_Kind req in
  let p := req_Payload req in
  if negb (existsb (String.eqb kind) allowed_kinds) then Err ErrInvalidInput
  else if ((map_len p =? 0) && negb (existsb (String.eqb kind) empty_payload_kinds)) || (6 <? map_len p)
  then Err ErrInvalidInput
  else if negb (forallb (fun kv => payload_entry_ok kind kv.1 kv.2) (map_to_list p))
  then Err ErrInvalidInput
  else switch kind task_cases (fun _ => Ok tt) p.

(** ** Capabilities *)

Definition capability_cases : list (list string * string) :=
  [([TaskServiceStatus], CapabilityServiceStatus);
   ([TaskServiceAction], CapabilityServiceAction);
   ([TaskHostAction], CapabilityHostAction);
   ([TaskProcessSignal], CapabilityProcessSignal);
   ([TaskDiskCleanupScan; TaskDiskCleanupExecute], CapabilityDiskCleanup);
   ([TaskLogsRead], CapabilityLogsRead);
   ([TaskContainerList], CapabilityContainerRead);
   ([TaskContainerAction], CapabilityContainerAction);
   ([TaskNginxAction], CapabilityNginxAction);
   ([TaskNginxConfigList; TaskNginxConfigRead], CapabilityNginxConfigRead);
   ([TaskNginxConfigWrite], CapabilityNginxConfigWrite);
   ([TaskPHPInventory; TaskPHPConfigRead], CapabilityPHPRead);
   ([TaskPHPConfigWrite], CapabilityPHPWrite);
   ([TaskPHPAction], CapabilityPHPAction);
   ([TaskPM2List; TaskPM2Logs], CapabilityPM2Read);
   ([TaskPM2Action], CapabilityPM2Action);
   ([TaskCronInventory], CapabilityCronRead);
   ([TaskCronCreate; TaskCronUpdate; TaskCronDelete], CapabilityCronWrite);
   ([TaskCronRun], CapabilityCronRun);
   ([TaskFirewallInventory], CapabilityFirewallRead);
   ([TaskFirewallAdd; TaskFirewallDelete], CapabilityFirewallWrite);
   ([TaskDomainInventory], CapabilityDomainRead);
   ([TaskDomainAction], CapabilityDomainAction);
   ([TaskSSLInventory], CapabilitySSLRead);
   ([TaskSSLAction], CapabilitySSLAction);
   ([TaskDatabaseInventory], CapabilityDatabaseRead);
   ([TaskDatabaseAction], CapabilityDatabaseAction);
   ([TaskBackupInventory], CapabilityBackupRead);
   ([TaskBackupRun], CapabilityBackupRun);
   ([TaskFilesBrowse; TaskFilesRead], CapabilityFilesRead);
   ([TaskFilesWrite], CapabilityFilesWrite);
   ([TaskDeployInventory], CapabilityDeployRead);
   ([TaskDeployAction], CapabilityDeployAction);
   ([TaskDeployDomainInventory; TaskDeployDomainHealth], CapabilityDeployDomainRead);
   ([TaskDeployDomainAction], CapabilityDeployDomainAction);
   ([TaskAgentUpdateStatus], CapabilityAgentUpdateRead);
   ([TaskAgentUpdateAction], CapabilityAgentUpdateAction);
   ([TaskIntegrationStatus], CapabilityIntegrationStatus);
   ([TaskMetricsRead], CapabilityMetricsRead);
   ([TaskProfileApply], CapabilityProfileApply)].

Definition capabilityForTask (kind : string) : string := switch kind capability_cases "".

Definition hasCapability (capabilities : list string) (capability : string) : bool :=
  existsb (fun candidate => candidate =?s capability) capabilities.

(** ** Task results *)

Definition ValidateTaskResultRequest (req : TaskResultRequest) : res unit :=
  if negb (tres_Status req =?s TaskStatusCompleted) && negb (tres_Status req =?s TaskStatusFailed)
  then Err ErrInvalidInput
  else if (maxTaskErrorLength <? len (tres_Error req)) || containsControl (tres_Error req)
  then Err ErrInvalidInput
  else if (tres_Status req =?s TaskStatusFailed) && (TrimSpace (tres_Error req) =?s "")
  then Err ErrInvalidInput
  else if 100 <? map_len (tres_Result req) then Err ErrInvalidInput
  else if negb (forallb (fun kv =>
            negb ((kv.1 =?s "") || (maxTaskPayloadValueLength <? len kv.1) || containsControl kv.1
                  || (maxTaskResultValueLength <? len kv.2) || containsControl kv.2))
            (map_to_list (tres_Result req)))
  then Err ErrInvalidInput
  else Ok tt.

(** ** The task gate: theorems

    What an accepted task request looks like: its fields are exactly those of
    its kind, its values are bounded and free of control characters, its kind
    needs a capability, its paths cannot leave their root. *)

(** ** The documented fields of each kind *)

Definition task_schemas : list (list string * list (list string)) :=
  [([TaskServiceStatus], [["service"]]);
   ([TaskServiceAction], [["service"; "action"]]);
   ([TaskHostAction], [["action"]]);
   ([TaskProcessSignal], [["pid"; "start_time"; "signal"]]);
   ([TaskDiskCleanupExecute], [["targets"]]);
   ([TaskLogsRead], [["source"; "lines"]]);
   ([TaskContainerAction], [["container"; "action"]]);
   ([TaskNginxAction], [["action"]]);
   ([TaskNginxConfigRead], [["name"]]);
   ([TaskNginxConfigWrite], [["name"; "checksum"; "reload"; "content_b64"]]);
   ([TaskPHPConfigRead], [["version"; "pool"]]);
   ([TaskPHPConfigWrite], [["version"; "pool"; "checksum"; "reload"; "content_b64"]]);
   ([TaskPHPAction], [["version"; "action"]]);
   ([TaskPM2Logs], [["name"; "lines"]]);
   ([TaskPM2Action], [["name"; "action"]]);
   ([TaskCronCreate; TaskCronUpdate], [["revision"; "job_b64"]]);
   ([TaskCronDelete], [["id"; "revision"]]);
   ([TaskCronRun], [["id"]]);
   ([TaskFirewallAdd], [["revision"; "rule_b64"]]);
   ([TaskFirewallDelete], [["id"; "revision"]]);
   ([TaskDomainAction], [["config"; "action"]]);
   ([TaskSSLAction], [["name"; "action"]]);
   ([TaskDatabaseAction], [["engine"; "action"]]);
   ([TaskBackupRun], [["plan"]]);
   ([TaskFilesBrowse; TaskFilesRead], [["path"]]);
   ([TaskFilesWrite], [["path"; "checksum"; "content_b64"]]);
   ([TaskDeployAction], [["target"; "action"]]);
   ([TaskDeployDomainInventory], [["target"]]);
   ([TaskDeployDomainHealth], [["target"; "domain"]]);
   ([TaskDeployDomainAction], [["target"; "domain"; "action"; "expected_revision"];
                               ["target"; "domain"; "action"; "email"];
                               ["target"; "domain"; "action"]]);
   ([TaskAgentUpdateAction], [["action"; "version"]; ["action"]])].

(** The field sets of a kind; a kind that is not listed takes no fields. *)
Definition task_schema (kind : string) : list (list string) := switch kind task_schemas [[]].

(** The write kinds, whose arms read the content with a map access that gives
    the empty string for a missing field. *)
Definition write_kinds : list string := [TaskNginxConfigWrite; TaskPHPConfigWrite; TaskFilesWrite].

Definition fits_schema (kind : string) (p : payload) : Prop :=
  Exists (fun ks => dom p = list_to_set ks) (task_schema kind)
  \/ (kind ∈ write_kinds /\ "content_b64" ∉ dom p).

(** ** Arms *)

Lemma get_valid (f : string -> bool) (p : payload) k :
  f "" = false -> f (get p k) = true -> is_Some (p !! k).
Proof.
  intros Hf Hv. apply get_nonempty. intros E. rewrite E in Hv. congruence.
Qed.

Lemma get_eq_present (p : payload) k v : get p k = v -> v <> "" -> is_Some (p !! k).
Proof. intros <-. apply get_nonempty. Qed.

Lemma map_len_size (p : payload) (ks : list string) :
  map_len p = Z.of_nat (length ks) -> size p = length ks.
Proof. unfold map_len. lia. Qed.

Lemma invalid_when_ok b : invalid_when b = Ok tt <-> b = false.
Proof. by destruct b. Qed.

Lemma valid_when_ok b : valid_when b = Ok tt <-> b = true.
Proof. by destruct b. Qed.

Lemma not_both_false (a b : bool) : negb a && negb b = false -> a = true \/ b = true.
Proof. destruct a, b; auto. Qed.

(** A field is present when its value passed a test the empty string fails. *)
Ltac field_present :=
  match goal with
  | H : get ?p ?k <> "" |- is_Some (?p !! ?k) => exact (get_nonempty p k H)
  | H : get ?p ?k = ?v |- is_Some (?p !! ?k) => exact (get_eq_present p k v H ltac:(discriminate))
  | H : ?f (get ?p ?k) = true |- is_Some (?p !! ?k) => exact (get_valid f p k eq_refl H)
  | H : ?f (get ?p ?k) ?a = true |- is_Some (?p !! ?k) =>
      exact (get_valid (fun s => f s a) p k ltac:(by destruct a) H)
  | H : negb (get ?p ?k =?s _) && negb (get ?p ?k =?s _) = false |- is_Some (?p !! ?k) =>
      apply not_both_false in H as [H|H]; apply String.eqb_eq in H; field_present
  | H : existsb (String.eqb (get ?p ?k)) ?l = true |- is_Some (?p !! ?k) =>
      exact (get_valid (fun s => existsb (String.eqb s) l) p k eq_refl H)
  | H : not_boolean (get ?p ?k) = false |- is_Some (?p !! ?k) =>
      exact (get_valid (fun s => negb (not_boolean s)) p k eq_refl (proj2 (negb_true_iff _) H))
  end.

Ltac exact_fields :=
  apply dom_exact;
  [apply (bool_decide_unpack _); vm_compute; exact I
  |repeat (apply Forall_cons_2; [field_present|]); apply Forall_nil_2
  |apply map_len_size; assumption].

Ltac arm H :=
  try (match type of H with
       | invalid_when _ = Ok _ => apply invalid_when_ok in H
       | valid_when _ = Ok _ => apply valid_when_ok in H
       end);
  repeat match type of H with (if ?b then Err _ else _) = Ok _ =>
    let E := fresh "E" in destruct b eqn:E; [discriminate H|] end;
  try (match type of H with
       | invalid_when _ = Ok _ => apply invalid_when_ok in H
       | valid_when _ = Ok _ => apply valid_when_ok in H
       end); breflect.

Ltac solve_arm f :=
  let H := fresh "H" in intros H; unfold f in H; arm H; exact_fields.

Lemma check_no_payload_fields p : check_no_payload p = Ok tt -> dom p = list_to_set [].
Proof. solve_arm check_no_payload. Qed.

Lemma check_service_status_fields p :
  check_service_status p = Ok tt -> dom p = list_to_set ["service"].
Proof. solve_arm check_service_status. Qed.

Lemma check_service_action_fields p :
  check_service_action p = Ok tt -> dom p = list_to_set ["service"; "action"].
Proof. solve_arm check_service_action. Qed.

Lemma check_host_action_fields p : check_host_action p = Ok tt -> dom p = list_to_set ["action"].
Proof. solve_arm check_host_action. Qed.

Lemma check_process_signal_fields p :
  check_process_signal p = Ok tt -> dom p = list_to_set ["pid"; "start_time"; "signal"].
Proof. solve_arm check_process_signal. Qed.

Lemma check_disk_cleanup_execute_fields p :
  check_disk_cleanup_execute p = Ok tt -> dom p = list_to_set ["targets"].
Proof. solve_arm check_disk_cleanup_execute. Qed.

Lemma check_logs_read_fields p :
  check_logs_read p = Ok tt -> dom p = list_to_set ["source"; "lines"].
Proof. solve_arm check_logs_read. Qed.

Lemma check_container_action_fields p :
  check_container_action p = Ok tt -> dom p = list_to_set ["container"; "action"].
Proof. solve_arm check_container_action. Qed.

Lemma check_nginx_action_fields p : check_nginx_action p = Ok tt -> dom p = list_to_set ["action"].
Proof. solve_arm check_nginx_action. Qed.

Lemma check_nginx_config_read_fields p :
  check_nginx_config_read p = Ok tt -> dom p = list_to_set ["name"].
Proof. solve_arm check_nginx_config_read. Qed.

Lemma check_php_config_read_fields p :
  check_php_config_read p = Ok tt -> dom p = list_to_set ["version"; "pool"].
Proof. solve_arm check_php_config_read. Qed.

Lemma check_php_action_fields p :
  check_php_action p = Ok tt -> dom p = list_to_set ["version"; "action"].
Proof. solve_arm check_php_action. Qed.

Lemma check_pm2_logs_fields p : check_pm2_logs p = Ok tt -> dom p = list_to_set ["name"; "lines"].
Proof. solve_arm check_pm2_logs. Qed.

Lemma check_pm2_action_fields p :
  check_pm2_action p = Ok tt -> dom p = list_to_set ["name"; "action"].
Proof. solve_arm check_pm2_action. Qed.

Lemma check_cron_write_fields b p :
  check_cron_write b p = Ok tt -> dom p = list_to_set ["revision"; "job_b64"].
Proof. solve_arm check_cron_write. Qed.

Lemma check_cron_delete_fields p :
  check_cron_delete p = Ok tt -> dom p = list_to_set ["id"; "revision"].
Proof. solve_arm check_cron_delete. Qed.

Lemma check_cron_run_fields p : check_cron_run p = Ok tt -> dom p = list_to_set ["id"].
Proof. solve_arm check_cron_run. Qed.

Lemma check_firewall_add_fields p :
  check_firewall_add p = Ok tt -> dom p = list_to_set ["revision"; "rule_b64"].
Proof. solve_arm check_firewall_add. Qed.

Lemma check_firewall_delete_fields p :
  check_firewall_delete p = Ok tt -> dom p = list_to_set ["id"; "revision"].
Proof. solve_arm check_firewall_delete. Qed.

Lemma check_domain_action_fields p :
  check_domain_action p = Ok tt -> dom p = list_to_set ["config"; "action"].
Proof. solve_arm check_domain_action. Qed.

Lemma check_ssl_action_fields p :
  check_ssl_action p = Ok tt -> dom p = list_to_set ["name"; "action"].
Proof. solve_arm check_ssl_action. Qed.

Lemma check_database_action_fields p :
  check_database_action p = Ok tt -> dom p = list_to_set ["engine"; "action"].
Proof. solve_arm check_database_action. Qed.

Lemma check_backup_run_fields p : check_backup_run p = Ok tt -> dom p = list_to_set ["plan"].
Proof. solve_arm check_backup_run. Qed.

Lemma check_files_read_fields p : check_files_read p = Ok tt -> dom p = list_to_set ["path"].
Proof. solve_arm check_files_read. Qed.

Lemma check_deploy_action_fields p :
  check_deploy_action p = Ok tt -> dom p = list_to_set ["target"; "action"].
Proof. solve_arm check_deploy_action. Qed.

Lemma check_deploy_domain_inventory_fields p :
  check_deploy_domain_inventory p = Ok tt -> dom p = list_to_set ["target"].
Proof. solve_arm check_deploy_domain_inventory. Qed.

Lemma check_deploy_domain_health_fields p :
  check_deploy_domain_health p = Ok tt -> dom p = list_to_set ["target"; "domain"].
Proof. solve_arm check_deploy_domain_health. Qed.

(** The writes: all the documented fields, or no content field. *)
Lemma write_fields (p : payload) (ks : list string) :
  NoDup ("content_b64" :: ks) -> Forall (fun k => is_Some (p !! k)) ks ->
  map_len p = Z.of_nat (S (length ks)) ->
  dom p = list_to_set (ks ++ ["content_b64"]) \/ "content_b64" ∉ dom p.
Proof.
  intros Hnd Hks Hlen. destruct (decide (is_Some (p !! "content_b64"))) as [Hc|Hc].
  - left. apply dom_exact.
    + rewrite Permutation_app_comm. done.
    + apply Forall_app. auto.
    + unfold map_len in Hlen. rewrite length_app. simpl. lia.
  - right. by rewrite elem_of_dom.
Qed.

Ltac write_arm ks :=
  apply (write_fields _ ks);
  [apply (bool_decide_unpack _); vm_compute; exact I
  |repeat (apply Forall_cons_2; [field_present|]); apply Forall_nil_2
  |assumption].

Lemma check_nginx_config_write_fields p :
  check_nginx_config_write p = Ok tt ->
  dom p = list_to_set ["name"; "checksum"; "reload"; "content_b64"] \/ "content_b64" ∉ dom p.
Proof.
  intros H. unfold check_nginx_config_write in H. arm H. write_arm ["name"; "checksum"; "reload"].
Qed.

Lemma check_php_config_write_fields p :
  check_php_config_write p = Ok tt ->
  dom p = list_to_set ["version"; "pool"; "checksum"; "reload"; "content_b64"]
  \/ "content_b64" ∉ dom p.
Proof.
  intros H. unfold check_php_config_write in H. arm H.
  write_arm ["version"; "pool"; "checksum"; "reload"].
Qed.

Lemma check_files_write_fields p :
  check_files_write p = Ok tt ->
  dom p = list_to_set ["path"; "checksum"; "content_b64"] \/ "content_b64" ∉ dom p.
Proof. intros H. unfold check_files_write in H. arm H. write_arm ["path"; "checksum"]. Qed.

Lemma Compare_self_nonempty v : bool_decide (Compare v v = Current) = true -> v <> "".
Proof. intros H ->. vm_compute in H. done. Qed.

Lemma check_agent_update_action_fields p :
  check_agent_update_action p = Ok tt ->
  dom p = list_to_set ["action"; "version"] \/ dom p = list_to_set ["action"].
Proof.
  intros H. unfold check_agent_update_action in H.
  destruct (String.eqb_spec (get p "action") "upgrade") as [Ha|_].
  - left. apply invalid_when_ok, orb_false_iff in H as [H1 H2].
    apply negb_false_iff, Compare_self_nonempty in H2. breflect. exact_fields.
  - destruct (String.eqb_spec (get p "action") "rollback") as [Ha|_]; [|done].
    right. apply invalid_when_ok in H. breflect. exact_fields.
Qed.

Lemma check_deploy_domain_action_fields p :
  check_deploy_domain_action p = Ok tt ->
  dom p = list_to_set ["target"; "domain"; "action"; "expected_revision"]
  \/ dom p = list_to_set ["target"; "domain"; "action"; "email"]
  \/ dom p = list_to_set ["target"; "domain"; "action"].
Proof.
  intros H. unfold check_deploy_domain_action in H.
  destruct (String.eqb_spec (get p "action") "ensure") as [Ha|_].
  - left. arm H.
    assert (get p "expected_revision" <> "") as Hrev.
    { intros E. rewrite E in *. vm_compute in H2. done. }
    exact_fields.
  - right. apply invalid_when_ok in H.
    destruct ((get p "action" =?s "tls-enable") && negb (get p "email" =?s "")) eqn:Et;
      breflect; [left|right]; exact_fields.
Qed.

(** ** The whole gate *)

Definition arm_fits (c : list string * (payload -> res unit)) : Prop :=
  Forall (fun kind => forall p, c.2 p = Ok tt -> fits_schema kind p) c.1.

Lemma fits_one kind p ks :
  task_schema kind = [ks] -> dom p = list_to_set ks -> fits_schema kind p.
Proof. intros E H. left. rewrite E. by constructor. Qed.

Ltac split_Forall :=
  repeat match goal with
  | |- Forall _ (_ :: _) => apply Forall_cons_2
  | |- Forall _ [] => apply Forall_nil_2
  end.

Lemma fits_write kind p ks :
  task_schema kind = [ks] -> kind ∈ write_kinds ->
  dom p = list_to_set ks \/ "content_b64" ∉ dom p -> fits_schema kind p.
Proof. intros E Hw [H|H]; [by eapply fits_one|by right]. Qed.

(** The field lemma of the arm a hypothesis speaks of. *)
Ltac arm_fields H :=
  lazymatch type of H with
  | check_no_payload _ = _ => apply check_no_payload_fields in H
  | check_service_status _ = _ => apply check_service_status_fields in H
  | check_service_action _ = _ => apply check_service_action_fields in H
  | check_host_action _ = _ => apply check_host_action_fields in H
  | check_process_signal _ = _ => apply check_process_signal_fields in H
  | check_disk_cleanup_execute _ = _ => apply check_disk_cleanup_execute_fields in H
  | check_logs_read _ = _ => apply check_logs_read_fields in H
  | check_container_action _ = _ => apply check_container_action_fields in H
  | check_nginx_action _ = _ => apply check_nginx_action_fields in H
  | check_nginx_config_read _ = _ => apply check_nginx_config_read_fields in H
  | check_php_config_read _ = _ => apply check_php_config_read_fields in H
  | check_php_action _ = _ => apply check_php_action_fields in H
  | check_pm2_logs _ = _ => apply check_pm2_logs_fields in H
  | check_pm2_action _ = _ => apply check_pm2_action_fields in H
  | check_cron_delete _ = _ => apply check_cron_delete_fields in H
  | check_cron_run _ = _ => apply check_cron_run_fields in H
  | check_firewall_add _ = _ => apply check_firewall_add_fields in H
  | check_firewall_delete _ = _ => apply check_firewall_delete_fields in H
  | check_domain_action _ = _ => apply check_domain_action_fields in H
  | check_ssl_action _ = _ => apply check_ssl_action_fields in H
  | check_database_action _ = _ => apply check_database_action_fields in H
  | check_backup_run _ = _ => apply check_backup_run_fields in H
  | check_files_read _ = _ => apply check_files_read_fields in H
  | check_deploy_action _ = _ => apply check_deploy_action_fields in H
  | check_deploy_domain_inventory _ = _ => apply check_deploy_domain_inventory_fields in H
  | check_deploy_domain_health _ = _ => apply check_deploy_domain_health_fields in H
  | check_cron_write _ _ = _ => apply check_cron_write_fields in H
  | check_nginx_config_write _ = _ => apply check_nginx_config_write_fields in H
  | check_php_config_write _ = _ => apply check_php_config_write_fields in H
  | check_files_write _ = _ => apply check_files_write_fields in H
  | check_deploy_domain_action _ = _ => apply check_deploy_domain_action_fields in H
  | check_agent_update_action _ = _ => apply check_agent_update_action_fields in H
  end.

Lemma task_cases_fit : Forall arm_fits task_cases.
Proof.
  unfold task_cases, arm_fits. split_Forall; cbn [fst snd]; split_Forall; intros p H; arm_fields H.
  all: lazymatch type of H with
       | dom _ = list_to_set _ => eapply fits_one; [|exact H]; reflexivity
       | _ \/ _ ∉ _ =>
           eapply fits_write; [| |exact H]; [reflexivity|unfold write_kinds; set_solver]
       | _ => idtac
       end.
  - left.
    change (task_schema TaskDeployDomainAction) with
      [["target"; "domain"; "action"; "expected_revision"]; ["target"; "domain"; "action"; "email"];
       ["target"; "domain"; "action"]].
    destruct H as [H|[H|H]]; rewrite H;
      [by constructor|by constructor 2; constructor|by constructor 2; constructor 2; constructor].
  - left.
    change (task_schema TaskAgentUpdateAction) with [["action"; "version"]; ["action"]].
    destruct H as [H|H]; rewrite H; [by constructor|by constructor 2; constructor].
Qed.

(** Every kind on the allowlist has an arm. *)
Lemma allowed_kind_has_arm kind :
  kind ∈ allowed_kinds -> exists labels body, (labels, body) ∈ task_cases /\ kind ∈ labels.
Proof.
  intros Hk.
  assert (forallb (fun k => existsb (fun c => existsb (String.eqb k) c.1) task_cases) allowed_kinds
          = true) as Hall by (vm_compute; reflexivity).
  rewrite forallb_forall in Hall. specialize (Hall kind (proj1 (list_elem_of_In _ _) Hk)).
  apply existsb_exists in Hall as ([labels body] & Hin & Hl).
  exists labels, body. split; [by apply list_elem_of_In|by apply existsb_eqb_elem].
Qed.

Section gate.
Context `{UnicodeTables}.

(** What acceptance by the gate gives. *)
Lemma ValidateTaskRequest_inv req :
  ValidateTaskRequest req = Ok tt ->
  req_Kind req ∈ allowed_kinds
  /\ map_len (req_Payload req) <= 6
  /\ map_Forall (fun k v => payload_entry_ok (req_Kind req) k v = true) (req_Payload req)
  /\ switch (req_Kind req) task_cases (fun _ => Ok tt) (req_Payload req) = Ok tt.
Proof.
  intros Hv. unfold ValidateTaskRequest in Hv.
  destruct (negb (existsb _ allowed_kinds)) eqn:E1; [done|].
  destruct (_ || (6 <? _)) eqn:E2; [done|].
  destruct (negb (forallb _ _)) eqn:E3; [done|].
  apply negb_false_iff in E1, E3. apply orb_false_iff in E2 as [_ E2]. breflect.
  split; [by apply existsb_eqb_elem|]. split; [done|]. split; [|done].
  intros k v Hkv. rewrite forallb_forall in E3. specialize (E3 (k, v)). apply E3.
  by apply list_elem_of_In, elem_of_map_to_list.
Qed.

(** An accepted request goes through the arm of its kind. *)
Lemma ValidateTaskRequest_arm req :
  ValidateTaskRequest req = Ok tt ->
  exists labels body, (labels, body) ∈ task_cases /\ req_Kind req ∈ labels
    /\ body (req_Payload req) = Ok tt.
Proof.
  intros Hv. apply ValidateTaskRequest_inv in Hv as (Hk & _ & _ & Hs).
  destruct (switch_inv (req_Kind req) task_cases (fun _ => Ok tt))
    as [(labels & body & Hin & Hl & E)|[_ Hno]].
  - exists labels, body. by rewrite E in Hs.
  - destruct (allowed_kind_has_arm _ Hk) as (labels & body & Hin & Hl). by destruct (Hno _ _ Hin).
Qed.

Lemma ValidateTaskRequest_fits req :
  ValidateTaskRequest req = Ok tt -> fits_schema (req_Kind req) (req_Payload req).
Proof.
  intros Hv. destruct (ValidateTaskRequest_arm _ Hv) as (labels & body & Hin & Hl & Hb).
  pose proof task_cases_fit as HF. rewrite Forall_forall in HF. specialize (HF _ Hin).
  unfold arm_fits in HF. rewrite Forall_forall in HF. by apply (HF _ Hl).
Qed.

(** The gate answers a valid request or [ErrInvalidInput], nothing else. *)
Lemma ValidateTaskRequest_error req e :
  ValidateTaskRequest req = Err e -> e = ErrInvalidInput.
Proof.
  intros Hv. unfold ValidateTaskRequest in Hv.
  destruct (negb (existsb _ allowed_kinds)); [congruence|].
  destruct (_ || (6 <? _)); [congruence|].
  destruct (negb (forallb _ _)); [congruence|].
  assert (Forall (fun c : list string * (payload -> res unit) =>
    forall p e, c.2 p = Err e -> e = ErrInvalidInput) task_cases) as HF.
  { unfold task_cases. repeat (apply Forall_cons_2; [|]); try apply Forall_nil_2; cbn [fst snd];
      intros p e0 He;
      match type of He with ?f _ = _ => unfold f in He | ?f _ _ = _ => unfold f in He end;
      unfold invalid_when, valid_when, check_content, invalid_when in He;
      repeat case_match; congruence. }
  destruct (switch_inv (req_Kind req) task_cases (fun _ => Ok tt))
    as [(labels & body & Hin & Hl & E)|[E _]]; rewrite E in Hv; [|done].
  rewrite Forall_forall in HF. by apply (HF _ Hin (req_Payload req)).
Qed.
End gate.

(** ** Capabilities *)

(** Every kind the gate admits needs a capability, so the capability test of
    [EnqueueTask] is never skipped. *)
Lemma capability_required kind :
  kind ∈ TaskProfileApply :: allowed_kinds -> capabilityForTask kind <> "".
Proof.
  intros Hk.
  assert (forallb (fun k => negb (capabilityForTask k =?s "")) (TaskProfileApply :: allowed_kinds)
          = true) as Hall by (vm_compute; reflexivity).
  rewrite forallb_forall in Hall. specialize (Hall kind (proj1 (list_elem_of_In _ _) Hk)).
  by breflect.
Qed.

Lemma hasCapability_elem caps c : hasCapability caps c = true <-> c ∈ caps.
Proof.
  unfold hasCapability. rewrite existsb_exists. setoid_rewrite String.eqb_eq.
  split; [intros (x & Hx & ->); by apply list_elem_of_In|].
  intros Hc. exists c. split; [by apply list_elem_of_In|done].
Qed.

#[export] Hint Resolve get_valid get_eq_present : hub.
