(* ===== verification/Profile.v ===== *)
(** * Agent profiles: [internal/agenthub/profile.go]

    The desired deploy profile of a managed node: its strict JSON decoding, its
    normalisation, the versioned document an agent receives, and the response
    that derives the state of an apply from the desired row, the latest task and
    the latest observation. *)

From stdpp Require Import base strings gmap list sorting.
From Stdlib Require Import ZArith Lia Ascii.
From S2P Require Import Prelude GoStrings GoBase64 GoJson HubTypes TaskGate.
Local Open Scope Z_scope.
Local Open Scope hub_scope.

(** ** Normalisation *)

Definition validateProfileDependencies (profile : AgentProfile) : res unit :=
  if prof_AllowDeployActions profile && negb (prof_AllowDeployRead profile) then Err ErrInvalidInput
  else if prof_AllowDeployDomainRead profile && negb (prof_AllowDeployRead profile)
  then Err ErrInvalidInput
  else if prof_AllowDeployDomainActions profile && negb (prof_AllowDeployDomainRead profile)
  then Err ErrInvalidInput
  else Ok tt.

Definition validateProfileString (value : string) : res unit :=
  if negb (valid_utf8 value) || (maxProfilePathBytes <? len value) || ContainsAny value line_breaks
  then Err ErrInvalidInput
  else Ok tt.

(** [^[A-Za-z0-9._/+:-]+$]. *)
Definition profileSafePath (value : string) : bool :=
  negb (value =?s "")
  && forallb (fun c => asciiLetterOrDigit (byte c) || existsb (Ascii.eqb c) (chars "._/+:-"))
       (chars value).

Definition validateOptionalProfilePath (value : string) (file : bool) : res unit :=
  if value =?s "" then Ok tt
  else
    let? _ := validateProfileString value in
    if (value =?s "/") || negb (IsAbs value) || negb (Clean value =?s value) then Err ErrInvalidInput
    else if negb (profileSafePath value) then Err ErrInvalidInput
    else if file && HasSuffix value "/" then Err ErrInvalidInput
    else Ok tt.

(** The loop of [normalizeProfileRoots]: each root valid, not empty, not seen. *)
Fixpoint check_roots (seen : gset string) (raw : list string) : res (list string) :=
  match raw with
  | [] => Ok []
  | root :: rest =>
      let? _ := validateOptionalProfilePath root false in
      if root =?s "" then Err ErrInvalidInput
      else if bool_decide (root ∈ seen) then Err ErrInvalidInput
      else
        let? roots := check_roots ({[root]} ∪ seen) rest in
        Ok (root :: roots)
  end.

Definition normalizeProfileRoots (raw : list string) : res (list string) :=
  if maxProfileWriteRoots <? Z.of_nat (length raw) then Err ErrInvalidInput
  else
    let? roots := check_roots ∅ raw in
    Ok (sort_strings roots).

Definition set_roots (profile : AgentProfile) (roots : list string) : AgentProfile :=
  mkProfile (prof_AllowDeployRead profile) (prof_AllowDeployActions profile)
    (prof_AllowDeployDomainRead profile) (prof_AllowDeployDomainActions profile)
    (prof_DeployPlansFile profile) (prof_DeployAcmeWebroot profile) roots.

Definition NormalizeAgentProfile (profile : AgentProfile) : res AgentProfile :=
  let? _ := validateProfileDependencies profile in
  let? _ := validateOptionalProfilePath (prof_DeployPlansFile profile) true in
  let? _ := validateOptionalProfilePath (prof_DeployAcmeWebroot profile) false in
  let? roots := normalizeProfileRoots (prof_DeployWriteRoots profile) in
  Ok (set_roots profile roots).

Definition emptyAgentProfile : AgentProfile := mkProfile false false false false "" "" [].

(** ** Observations *)

Definition safe_error_codes : list string :=
  [""; ProfileErrorCodeNotConfigured; ProfileErrorCodeInvalidProfile;
   ProfileErrorCodePermissionDenied; ProfileErrorCodeWriteFailed; ProfileErrorCodeRestartFailed;
   ProfileErrorCodeApplyFailed; ProfileErrorCodeProfileApplyFailed; ProfileErrorCodeUnsupported;
   ProfileErrorCodeNotSupported; ProfileErrorCodeTimeout; ProfileErrorCodeStaleRevision;
   ProfileErrorCodeInvalidRevision; ProfileErrorCodeAgentError; ProfileErrorCodeUnknown;
   ProfileErrorCodeMissing; ProfileErrorCodeCorrupt; ProfileErrorCodeStateCorrupt;
   ProfileErrorCodeRevisionInvalid; ProfileErrorCodePayloadInvalid;
   ProfileErrorCodePayloadTooLarge; ProfileErrorCodeApplyUnavailable;
   ProfileErrorCodeScheduleFailed; ProfileErrorCodeStoreFailed; ProfileErrorCodeSuperseded].

Definition isSafeProfileErrorCode (value : string) : bool := existsb (String.eqb value) safe_error_codes.

Definition observation_states : list string :=
  [ProfileObservationNotConfigured; ProfileObservationPendingRestart; ProfileObservationApplied;
   ProfileObservationFailed].

Definition validateAgentProfileObservation (observation : option AgentProfileObservation) : res unit :=
  match observation with
  | None => Ok tt
  | Some o =>
      if obs_Revision o <? 0 then Err ErrInvalidInput
      else if negb (existsb (String.eqb (obs_State o)) observation_states) then Err ErrInvalidInput
      else if negb (isSafeProfileErrorCode (obs_ErrorCode o)) then Err ErrInvalidInput
      else Ok tt
  end.

(** ** Strict JSON decoding *)

(** The members of an object, refusing duplicate keys. *)
Fixpoint strict_members (ms : list (string * json)) (fields : gmap string json)
    : res (gmap string json) :=
  match ms with
  | [] => Ok fields
  | (k, v) :: ms' =>
      if bool_decide (is_Some (fields !! k)) then Err ErrOther
      else strict_members ms' (<[k := v]> fields)
  end.

(** [decodeStrictJSONObject] on the text of a value already delimited. *)
Definition strict_object (j : json) : res (gmap string json) :=
  match j with
  | JObj ms => strict_members ms ∅
  | _ => Err ErrOther
  end.

Definition decodeStrictJSONObject (data : string) : res (gmap string json) :=
  match unmarshal data with
  | Some j => strict_object j
  | None => Err ErrOther
  end.

Definition isJSONNull (j : json) : bool := match j with JNull => true | _ => false end.

(** [decodeRequiredJSONField] for a target type read by [into]. *)
Definition decodeRequiredJSONField {A} (into : json -> A -> option A) (zero : A)
    (fields : gmap string json) (field : string) : res A :=
  match fields !! field with
  | Some raw =>
      if isJSONNull raw then Err ErrOther
      else match into raw zero with Some v => Ok v | None => Err ErrOther end
  | None => Err ErrOther
  end.

Definition require_bool := decodeRequiredJSONField into_bool false.
Definition require_string := decodeRequiredJSONField into_string "".
Definition require_int64 := decodeRequiredJSONField into_int64 0.

Fixpoint decode_root_items (items : list json) : res (list string) :=
  match items with
  | [] => Ok []
  | JStr _ s :: rest => let? ss := decode_root_items rest in Ok (s :: ss)
  | _ :: _ => Err ErrOther
  end.

Definition decodeProfileRoots (raw : json) : res (list string) :=
  match raw with
  | JArr items => decode_root_items items
  | _ => Err ErrOther
  end.

(** Fields allowed in an object, as the [for field := range fields] loops test. *)
Definition only_fields (allowed : list string) (fields : gmap string json) : bool :=
  forallb (fun k => existsb (String.eqb k) allowed) (elements (dom fields)).

Definition profile_fields : list string :=
  ["allowDeployRead"; "allowDeployActions"; "allowDeployDomainRead"; "allowDeployDomainActions";
   "deployPlansFile"; "deployAcmeWebroot"; "deployWriteRoots"].

(** The historical comma-separated form of the write roots. *)
Definition legacy_roots (s : string) : list string :=
  if s =?s "" then [] else TrimSpace <$> split ","%char s.

Definition decodeAgentProfileJSON (data : json) (allowLegacyRoots : bool) : res AgentProfile :=
  let? fields := strict_object data in
  if negb (only_fields profile_fields fields) then Err ErrOther
  else
    let? r := require_bool fields "allowDeployRead" in
    let? a := require_bool fields "allowDeployActions" in
    let? dr := require_bool fields "allowDeployDomainRead" in
    let? da := require_bool fields "allowDeployDomainActions" in
    let? plans := require_string fields "deployPlansFile" in
    let? webroot := require_string fields "deployAcmeWebroot" in
    match fields !! "deployWriteRoots" with
    | None => Err ErrOther
    | Some rootsRaw =>
        if isJSONNull rootsRaw then Err ErrOther
        else
          let? roots :=
            match rootsRaw with
            | JStr _ legacy =>
                if allowLegacyRoots then Ok (legacy_roots legacy) else decodeProfileRoots rootsRaw
            | _ => decodeProfileRoots rootsRaw
            end in
          Ok (mkProfile r a dr da plans webroot roots)
    end.

Definition decodePersistedAgentProfile (data : string) : res AgentProfile :=
  match unmarshal data with
  | Some j => decodeAgentProfileJSON j true
  | None => Err ErrOther
  end.

(** [AgentProfile.UnmarshalJSON], the strict form of the public contract. *)
Definition unmarshal_profile (data : string) : res AgentProfile :=
  match unmarshal data with
  | Some j => decodeAgentProfileJSON j false
  | None => Err ErrOther
  end.

Record AgentProfilePutRequest : Type := mkPutRequest {
  put_Profile : AgentProfile;
  put_ExpectedRevision : Z
}.

Definition field_not_null (fields : gmap string json) (k : string) : res json :=
  match fields !! k with
  | Some raw => if isJSONNull raw then Err ErrOther else Ok raw
  | None => Err ErrOther
  end.

Definition as_int64 (j : json) : res Z :=
  match into_int64 j 0 with Some n => Ok n | None => Err ErrOther end.

(** [AgentProfilePutRequest.UnmarshalJSON]. *)
Definition unmarshal_put_request (data : string) : res AgentProfilePutRequest :=
  let? fields := decodeStrictJSONObject data in
  if negb (only_fields ["profile"; "expectedRevision"] fields) then Err ErrOther
  else
    let? profileRaw := field_not_null fields "profile" in
    let? revisionRaw := field_not_null fields "expectedRevision" in
    let? profile := decodeAgentProfileJSON profileRaw false in
    let? revision := as_int64 revisionRaw in
    Ok (mkPutRequest profile revision).

Record AgentProfileApplyRequest : Type := mkApplyRequest {
  apply_ExpectedRevision : Z;
  apply_Confirmed : bool
}.

(** [AgentProfileApplyRequest.UnmarshalJSON]. *)
Definition unmarshal_apply_request (data : string) : res AgentProfileApplyRequest :=
  let? fields := decodeStrictJSONObject data in
  if negb (only_fields ["expectedRevision"; "confirmed"] fields) then Err ErrOther
  else
    let? revisionRaw := field_not_null fields "expectedRevision" in
    let? confirmedRaw := field_not_null fields "confirmed" in
    let? revision := as_int64 revisionRaw in
    let? confirmed :=
      match into_bool confirmedRaw false with Some b => Ok b | None => Err ErrOther end in
    if revision <? 1 then Err ErrInvalidInput
    else if negb confirmed then Err ErrInvalidInput
    else Ok (mkApplyRequest revision confirmed).

(** [AgentProfileObservation.UnmarshalJSON], on the value and on its text. *)
Definition decode_observation (j : json) : res AgentProfileObservation :=
  let? fields := strict_object j in
  if negb (only_fields ["state"; "revision"; "error_code"] fields) then Err ErrOther
  else
    let? state := require_string fields "state" in
    let? revision := require_int64 fields "revision" in
    let? errorCode :=
      match fields !! "error_code" with
      | None => Ok ""
      | Some raw =>
          if isJSONNull raw then Err ErrOther
          else match into_string raw "" with Some s => Ok s | None => Err ErrOther end
      end in
    let value := mkObservation state revision errorCode in
    let? _ := validateAgentProfileObservation (Some value) in
    Ok value.

Definition unmarshal_observation (data : string) : res AgentProfileObservation :=
  match unmarshal data with Some j => decode_observation j | None => Err ErrOther end.

(** ** The versioned document *)

Record profileApplyDocument : Type := mkDocument {
  doc_SchemaVersion : Z;
  doc_Revision : Z;
  doc_Profile : AgentProfile
}.

(** [json.Marshal] of a profile and of a document: members in field order. *)
Definition profile_json (p : AgentProfile) : json :=
  JObj [("allowDeployRead", JBool (prof_AllowDeployRead p));
        ("allowDeployActions", JBool (prof_AllowDeployActions p));
        ("allowDeployDomainRead", JBool (prof_AllowDeployDomainRead p));
        ("allowDeployDomainActions", JBool (prof_AllowDeployDomainActions p));
        ("deployPlansFile", jstr (prof_DeployPlansFile p));
        ("deployAcmeWebroot", jstr (prof_DeployAcmeWebroot p));
        ("deployWriteRoots", JArr (jstr <$> prof_DeployWriteRoots p))].

Definition document_json (d : profileApplyDocument) : json :=
  JObj [("schema_version", JNum (Itoa (doc_SchemaVersion d)));
        ("revision", JNum (Itoa (doc_Revision d)));
        ("profile", profile_json (doc_Profile d))].

Definition decodeProfileApplyDocument (data : string) : res profileApplyDocument :=
  if (len data =? 0) || (maxProfileJSONBytes <? len data) then Err ErrOther
  else
    let? fields := decodeStrictJSONObject data in
    if negb (only_fields ["schema_version"; "revision"; "profile"] fields) then Err ErrOther
    else
      match require_int64 fields "schema_version" with
      | Err _ => Err ErrOther
      | Ok schema =>
          if negb (schema =? profileApplySchemaVersion) then Err ErrOther
          else
            match require_int64 fields "revision" with
            | Err _ => Err ErrOther
            | Ok revision =>
                if revision <? 1 then Err ErrOther
                else
                  let? profileRaw := field_not_null fields "profile" in
                  let? profile := decodeAgentProfileJSON profileRaw false in
                  let? normalized := NormalizeAgentProfile profile in
                  let document := mkDocument schema revision normalized in
                  if negb (marshal (document_json document) =?s data) then Err ErrOther
                  else Ok document
            end
      end.

Definition canonicalProfileApplyDocument (profile : AgentProfile) (revision : Z)
    : res (AgentProfile * string) :=
  if revision <? 1 then Err ErrInvalidInput
  else
    let? normalized := NormalizeAgentProfile profile in
    let document := marshal (document_json (mkDocument profileApplySchemaVersion revision normalized)) in
    if maxProfileJSONBytes <? len document then Err ErrInvalidInput
    else Ok (normalized, document).

(** [profileApplyPayloadRevision] of [repository.go]: the revision of a stored
    profile-apply payload that has exactly the canonical shape. *)
Definition apply_payload (encoded revision : string) : gmap string string :=
  <["profile_json_b64" := encoded]> {["revision" := revision]}.

Definition profileApplyPayloadRevision (payload : string) : res Z :=
  let? fields := decodeStrictJSONObject payload in
  if negb (Z.of_nat (size fields) =? 2) then Err ErrOther
  else
    let? revisionValue := require_string fields "revision" in
    let? encoded := require_string fields "profile_json_b64" in
    if negb (marshal (map_json (apply_payload encoded revisionValue)) =?s payload) then Err ErrOther
    else
      match ParseInt revisionValue with
      | None => Err ErrOther
      | Some revision =>
          if (revision <? 1) || negb (Itoa revision =?s revisionValue) then Err ErrOther
          else
            match DecodeString encoded with
            | None => Err ErrOther
            | Some profileJSON =>
                if negb (EncodeToString profileJSON =?s encoded) || (len profileJSON =? 0)
                   || (maxProfileJSONBytes <? len profileJSON) || (maxProfileEncodedBytes <? len encoded)
                then Err ErrOther
                else
                  match decodeProfileApplyDocument profileJSON with
                  | Err _ => Err ErrOther
                  | Ok document =>
                      if negb (doc_Revision document =? revision) then Err ErrOther else Ok revision
                  end
            end
      end.

Definition profileApplyPayloadRevisionFromTask (task : Task) : res Z :=
  profileApplyPayloadRevision (marshal (map_json (task_Payload task))).

(** ** The response *)

Record AgentProfileDesiredResponse : Type := mkDesired {
  des_State : string;
  des_Revision : Z;
  des_Profile : option AgentProfile
}.

Record AgentProfileObservedResponse : Type := mkObserved {
  ob_Capabilities : list string;
  ob_Online : bool;
  ob_LastSeenAt : option time;
  ob_AgentVersion : string;
  ob_ProtocolVersion : string;
  ob_ProfileState : string;
  ob_ProfileRevision : option Z;
  ob_ProfileErrorCode : option string
}.

Record AgentProfileApplyResponse : Type := mkApply {
  ap_State : string;
  ap_Reason : string;
  ap_DesiredRevision : option Z;
  ap_TaskID : option Z;
  ap_ObservedRevision : option Z;
  ap_ObservedState : option string
}.

Record AgentProfileResponse : Type := mkResponse {
  resp_NodeID : string;
  resp_Desired : AgentProfileDesiredResponse;
  resp_Observed : AgentProfileObservedResponse;
  resp_Apply : AgentProfileApplyResponse
}.

Definition set_apply (a : AgentProfileApplyResponse) (state reason : string)
    : AgentProfileApplyResponse :=
  mkApply state reason (ap_DesiredRevision a) (ap_TaskID a) (ap_ObservedRevision a)
    (ap_ObservedState a).

Definition set_task_id (a : AgentProfileApplyResponse) (id : Z) : AgentProfileApplyResponse :=
  mkApply (ap_State a) (ap_Reason a) (ap_DesiredRevision a) (Some id) (ap_ObservedRevision a)
    (ap_ObservedState a).

(** Whether the latest task carries the desired revision. *)
Definition task_matches_desired (record : AgentProfileRecord) (latestTask : option Task) : bool :=
  rec_Configured record
  && match latestTask with
     | None => false
     | Some t =>
         match profileApplyPayloadRevisionFromTask t with
         | Ok revision => revision =? rec_Revision record
         | Err _ => false
         end
     end.

(** The state an apply has by its latest task. *)
Definition apply_by_task (a : AgentProfileApplyResponse) (t : Task) : AgentProfileApplyResponse :=
  let a := set_task_id a (task_ID t) in
  if task_Status t =?s TaskStatusQueued then set_apply a profileApplyQueued ""
  else if task_Status t =?s TaskStatusRunning then set_apply a profileApplyRunning ""
  else if task_Status t =?s TaskStatusCompleted then set_apply a profileApplyAwaiting ""
  else if task_Status t =?s TaskStatusFailed then
    set_apply a profileApplyFailed
      (if negb (task_Error t =?s "") && isSafeProfileErrorCode (task_Error t)
       then task_Error t else ProfileErrorCodeProfileApplyFailed)
  else a.

(** The state an apply has by the latest observation. *)
Definition apply_by_observation (record : AgentProfileRecord) (matches : bool)
    (a : AgentProfileApplyResponse) (o : AgentProfileObservationRecord)
    : AgentProfileApplyResponse :=
  let same := orec_Revision o =? rec_Revision record in
  if (orec_State o =?s ProfileObservationApplied) && same then set_apply a profileApplyApplied ""
  else if (orec_State o =?s ProfileObservationPendingRestart) && same
  then set_apply a profileApplyAwaiting ""
  else if (orec_State o =?s ProfileObservationFailed) && same then
    set_apply a profileApplyFailed
      (if orec_ErrorCode o =?s "" then ProfileErrorCodeProfileApplyFailed else orec_ErrorCode o)
  else if negb same && negb matches then set_apply a profileApplyDrifted "profile_revision_drift"
  else a.

Definition profileResponse (record : AgentProfileRecord) (node : Node) (online : bool)
    (observation0 : option AgentProfileObservationRecord) (latestTask : option Task)
    : AgentProfileResponse :=
  let configured := rec_Configured record in
  let desiredRevision := if configured then Some (rec_Revision record) else None in
  let capable := hasCapability (node_Capabilities node) CapabilityProfileApply in
  let observation := if capable then observation0 else None in
  let apply0 :=
    mkApply (if capable then profileApplyNotRequested else profileApplyManualRequired)
      (if capable then "" else profileApplySelfApplyReason)
      desiredRevision None (orec_Revision <$> observation) (orec_State <$> observation) in
  let matches := task_matches_desired record latestTask in
  let apply1 :=
    match latestTask with
    | Some t => if capable && matches then apply_by_task apply0 t else apply0
    | None => apply0
    end in
  let apply2 :=
    match observation with
    | Some o => if configured then apply_by_observation record matches apply1 o else apply1
    | None => apply1
    end in
  mkResponse (node_ID node)
    (mkDesired (if configured then profileStateConfigured else profileStateNotConfigured)
       (rec_Revision record) (if configured then Some (rec_Profile record) else None))
    (mkObserved (node_Capabilities node) online (node_LastSeenAt node) (node_AgentVersion node)
       (node_ProtocolVersion node) (default profileObservedNotReported (orec_State <$> observation))
       (orec_Revision <$> observation) (orec_ErrorCode <$> observation))
    apply2.

(** [AgentProfileApplyResponse.MarshalJSON]: two members for the manual path,
    every field otherwise; a nil pointer is [null]. *)
Definition pointer_json {A} (f : A -> json) (p : option A) : json :=
  match p with Some a => f a | None => JNull end.

Definition apply_response_json (response : AgentProfileApplyResponse) : json :=
  let integer n := JNum (Itoa n) in
  if (ap_State response =?s profileApplyManualRequired) && (ap_Reason response =?s profileApplySelfApplyReason)
  then JObj [("state", jstr (ap_State response)); ("reason", jstr (ap_Reason response))]
  else JObj [("state", jstr (ap_State response)); ("reason", jstr (ap_Reason response));
             ("desiredRevision", pointer_json integer (ap_DesiredRevision response));
             ("taskId", pointer_json integer (ap_TaskID response));
             ("observedRevision", pointer_json integer (ap_ObservedRevision response));
             ("observedState", pointer_json jstr (ap_ObservedState response))].

(** ** Agent profiles: theorems

    Normalisation is idempotent and keeps the dependencies between the
    permissions; the stored and transmitted forms decode to the profile that
    was written; the derived apply state says [applied] only on the strength of
    a heartbeat. *)

(** ** Normalisation *)

(** What normalisation establishes. *)
Record normal_profile (p : AgentProfile) : Prop := {
  normal_deps : validateProfileDependencies p = Ok tt;
  normal_plans : validateOptionalProfilePath (prof_DeployPlansFile p) true = Ok tt;
  normal_webroot : validateOptionalProfilePath (prof_DeployAcmeWebroot p) false = Ok tt;
  normal_root_paths : Forall (fun r => r <> "" /\ validateOptionalProfilePath r false = Ok tt)
                        (prof_DeployWriteRoots p);
  normal_nodup : NoDup (prof_DeployWriteRoots p);
  normal_sorted : Sorted String.le (prof_DeployWriteRoots p);
  normal_count : Z.of_nat (length (prof_DeployWriteRoots p)) <= maxProfileWriteRoots
}.

Lemma check_roots_ok seen raw roots :
  check_roots seen raw = Ok roots ->
  roots = raw /\ NoDup raw /\ Forall (fun r => r ∉ seen) raw
  /\ Forall (fun r => r <> "" /\ validateOptionalProfilePath r false = Ok tt) raw.
Proof.
  revert seen roots. induction raw as [|r raw IH]; intros seen roots H; cbn [check_roots] in H.
  { injection H as <-. repeat split; constructor. }
  apply rbind_Ok in H as ([] & Hp & H).
  destruct (String.eqb_spec r ""); [done|].
  destruct (bool_decide (r ∈ seen)) eqn:Hs; [done|]. apply bool_decide_eq_false in Hs.
  apply rbind_Ok in H as (rs & Hr & H). injection H as <-.
  apply IH in Hr as (-> & Hnd & Hseen & HF). split; [done|]. split.
  - constructor; [|done]. intros Hin. rewrite Forall_forall in Hseen. apply Hseen in Hin. set_solver.
  - split; [|by constructor]. constructor; [done|].
    rewrite Forall_forall in Hseen |- *. intros x Hx. apply Hseen in Hx. set_solver.
Qed.

Lemma check_roots_complete seen raw :
  NoDup raw -> Forall (fun r => r ∉ seen) raw ->
  Forall (fun r => r <> "" /\ validateOptionalProfilePath r false = Ok tt) raw ->
  check_roots seen raw = Ok raw.
Proof.
  revert seen. induction raw as [|r raw IH]; intros seen Hnd Hs HF; [done|].
  inversion_clear Hnd as [|?? Hr Hnd']. inversion_clear Hs as [|?? Hsr Hs'].
  inversion_clear HF as [|?? [Hne Hv] HF']. cbn [check_roots]. rewrite Hv. cbn [rbind].
  destruct (String.eqb_spec r ""); [done|]. rewrite bool_decide_eq_false_2 by done.
  rewrite IH; [done|done| |done].
  rewrite Forall_forall in Hs' |- *. intros y Hy. pose proof (Hs' y Hy).
  assert (y <> r) by (by intros ->). set_solver.
Qed.

Lemma set_roots_id p : set_roots p (prof_DeployWriteRoots p) = p.
Proof. by destruct p. Qed.

Lemma Normalize_normal p q : NormalizeAgentProfile p = Ok q -> normal_profile q.
Proof.
  unfold NormalizeAgentProfile, normalizeProfileRoots. intros H.
  apply rbind_Ok in H as ([] & Hd & H). apply rbind_Ok in H as ([] & Hpl & H).
  apply rbind_Ok in H as ([] & Hw & H). apply rbind_Ok in H as (rs & Hr & H).
  injection H as <-. destruct (_ <? _) eqn:Hn; [done|]. apply Z.ltb_ge in Hn.
  apply rbind_Ok in Hr as (rs' & Hc & Hr). injection Hr as <-.
  apply check_roots_ok in Hc as (-> & Hnd & _ & HF).
  split; try done; cbn [set_roots prof_DeployWriteRoots].
  - by rewrite sort_strings_perm.
  - by rewrite sort_strings_perm.
  - apply sort_strings_sorted.
  - by rewrite sort_strings_perm.
Qed.

Lemma normal_fixpoint q : normal_profile q -> NormalizeAgentProfile q = Ok q.
Proof.
  intros [Hd Hpl Hw HF Hnd Hs Hn]. unfold NormalizeAgentProfile, normalizeProfileRoots.
  rewrite Hd, Hpl, Hw. cbn [rbind]. rewrite (proj2 (Z.ltb_ge _ _)) by done.
  rewrite check_roots_complete; [|done| |done].
  - cbn [rbind]. by rewrite sort_strings_id, set_roots_id.
  - apply Forall_true. set_solver.
Qed.

(** ** Encoding *)

Lemma profile_path_utf8 v file : validateOptionalProfilePath v file = Ok tt -> valid_utf8 v = true.
Proof.
  unfold validateOptionalProfilePath. destruct (String.eqb_spec v "") as [->|]; [done|].
  intros H. apply rbind_Ok in H as ([] & Hs & _). unfold validateProfileString in Hs.
  destruct (negb _ || _ || _) eqn:E; [done|]. breflect. done.
Qed.

Lemma profile_json_ok p : normal_profile p -> json_ok (profile_json p).
Proof.
  intros [_ Hpl Hw HF _ _ _]. apply ok_obj; [by repeat constructor|].
  repeat constructor; simpl; try (eapply profile_path_utf8; eassumption).
  apply Forall_fmap. eapply Forall_impl; [exact HF|]. intros r [_ Hr]. simpl. constructor.
  by eapply profile_path_utf8.
Qed.

Lemma document_json_ok s r p : normal_profile p -> json_ok (document_json (mkDocument s r p)).
Proof.
  intros Hp. apply ok_obj; [by repeat constructor|].
  do 2 (apply Forall_cons_2; [apply ok_num|]). apply Forall_cons_2; [|apply Forall_nil_2].
  by apply profile_json_ok.
Qed.

Lemma decode_root_items_strings l : decode_root_items (jstr <$> l) = Ok l.
Proof.
  induction l as [|s l IH]; [done|]. rewrite fmap_cons. cbn [decode_root_items jstr]. by rewrite IH.
Qed.

(** An object without duplicate keys is the map of its members. *)
Lemma strict_members_ok ms (acc : gmap string json) :
  NoDup ms.*1 -> Forall (fun k => acc !! k = None) ms.*1 ->
  strict_members ms acc = Ok (list_to_map ms ∪ acc).
Proof.
  revert acc. induction ms as [|[k v] ms IH]; intros acc Hnd Hacc; cbn [strict_members].
  { by rewrite list_to_map_nil, map_empty_union. }
  inversion_clear Hnd as [|?? Hk Hnd']. inversion_clear Hacc as [|?? Hak Hacc'].
  rewrite bool_decide_eq_false_2 by (rewrite Hak; by intros []).
  rewrite IH; [|done|].
  - f_equal. rewrite list_to_map_cons, <-insert_union_l. symmetry.
    apply insert_union_r. by apply not_elem_of_list_to_map_1.
  - rewrite Forall_forall in Hacc' |- *. intros y Hy. rewrite lookup_insert_ne; [by apply Hacc'|].
    by intros ->.
Qed.

Lemma strict_object_ok ms : NoDup ms.*1 -> strict_object (JObj ms) = Ok (list_to_map ms).
Proof.
  intros Hnd. unfold strict_object. rewrite strict_members_ok; [by rewrite map_union_empty|done|].
  by apply Forall_true.
Qed.

Lemma only_fields_ok allowed (ms : list (string * json)) :
  Forall (fun k => k ∈ allowed) ms.*1 -> only_fields allowed (list_to_map ms) = true.
Proof.
  intros HF. unfold only_fields. apply forallb_forall. intros k Hk%list_elem_of_In.
  apply existsb_eqb_elem. rewrite Forall_forall in HF. apply HF.
  rewrite elem_of_elements, dom_list_to_map_L in Hk. by apply elem_of_list_to_set in Hk.
Qed.

Ltac keys_distinct := apply (bool_decide_unpack _); vm_compute; exact I.
Ltac keys_allowed := cbn; repeat (apply Forall_cons_2; [set_solver|]); apply Forall_nil_2.

Lemma decode_profile_json p legacy : decodeAgentProfileJSON (profile_json p) legacy = Ok p.
Proof.
  unfold decodeAgentProfileJSON, profile_json. rewrite strict_object_ok by keys_distinct.
  cbn [rbind]. rewrite only_fields_ok by keys_allowed. cbn [negb].
  unfold require_bool, require_string, decodeRequiredJSONField. simplify_map_eq.
  cbn [isJSONNull into_bool into_string rbind jstr].
  unfold decodeProfileRoots. rewrite decode_root_items_strings. cbn [rbind]. by destruct p.
Qed.

Lemma decodePersisted_roundtrip p :
  normal_profile p -> decodePersistedAgentProfile (marshal (profile_json p)) = Ok p.
Proof.
  intros Hp. unfold decodePersistedAgentProfile.
  rewrite marshal_roundtrip by by apply profile_json_ok. apply decode_profile_json.
Qed.

Lemma canonical_ok p rev q doc :
  canonicalProfileApplyDocument p rev = Ok (q, doc) ->
  1 <= rev /\ NormalizeAgentProfile p = Ok q /\ normal_profile q
  /\ doc = marshal (document_json (mkDocument profileApplySchemaVersion rev q))
  /\ 1 <= len doc <= maxProfileJSONBytes.
Proof.
  unfold canonicalProfileApplyDocument. intros H. destruct (Z.ltb_spec rev 1); [done|].
  apply rbind_Ok in H as (q' & Hn & H). destruct (Z.ltb_spec maxProfileJSONBytes
    (len (marshal (document_json (mkDocument profileApplySchemaVersion rev q'))))); [done|].
  injection H as -> <-. split; [lia|]. split; [done|]. split; [by eapply Normalize_normal|].
  split; [done|]. split; [apply len_nonempty; done|done].
Qed.

#[local] Opaque ParseInt Itoa marshal.

(** The document sent to an agent decodes to the revision and the profile. *)
Lemma document_roundtrip p rev q doc :
  canonicalProfileApplyDocument p rev = Ok (q, doc) -> rev <= max_int64 ->
  decodeProfileApplyDocument doc = Ok (mkDocument profileApplySchemaVersion rev q).
Proof.
  intros (Hrev & _ & Hq & -> & Hlen)%canonical_ok Hmax.
  set (d := mkDocument profileApplySchemaVersion rev q) in *.
  unfold decodeProfileApplyDocument.
  rewrite (proj2 (Z.eqb_neq (len _) 0)) by lia. rewrite (proj2 (Z.ltb_ge maxProfileJSONBytes (len _))) by lia. cbn [orb].
  unfold decodeStrictJSONObject. rewrite marshal_roundtrip by by apply document_json_ok.
  unfold document_json at 1. cbn [doc_SchemaVersion doc_Revision doc_Profile d].
  rewrite strict_object_ok by keys_distinct.
  cbn [rbind]. rewrite only_fields_ok by keys_allowed. cbn [negb].
  unfold require_int64, decodeRequiredJSONField, field_not_null. simplify_map_eq.
  cbn [isJSONNull into_int64].
  rewrite (ParseInt_Itoa profileApplySchemaVersion) by (by vm_compute).
  rewrite Z.eqb_refl. cbn [negb].
  rewrite (ParseInt_Itoa rev) by (unfold min_int64 in *; lia). rewrite (proj2 (Z.ltb_ge _ _)) by done.
  change (isJSONNull (profile_json q)) with false. cbn [rbind]. rewrite decode_profile_json. cbn [rbind].
  rewrite normal_fixpoint by done. cbn [rbind]. fold d. by rewrite String.eqb_refl.
Qed.

(** What a document that decodes is. *)
Lemma decodeDocument_inv data d :
  decodeProfileApplyDocument data = Ok d ->
  len data <= maxProfileJSONBytes /\ doc_SchemaVersion d = profileApplySchemaVersion /\ 1 <= doc_Revision d
  /\ normal_profile (doc_Profile d) /\ data = marshal (document_json d).
Proof.
  unfold decodeProfileApplyDocument. intros Hd. inv_ok Hd.
  destruct (require_int64 _ "schema_version") as [schema|]; [|done]. inv_ok Hd.
  destruct (require_int64 _ "revision") as [rev|]; [|done]. inv_ok Hd. breflect. injection Hd as <-. simpl.
  split; [done|]. split; [done|]. split; [done|]. split; [by eapply Normalize_normal|done].
Qed.

(** ** Task payloads *)

Lemma apply_payload_lookup e r :
  apply_payload e r !! "revision" = Some r /\ apply_payload e r !! "profile_json_b64" = Some e.
Proof. unfold apply_payload. split; by simplify_map_eq. Qed.

Lemma apply_payload_members e r :
  map_members (apply_payload e r) = [("profile_json_b64", jstr e); ("revision", jstr r)].
Proof.
  unfold map_members.
  assert (sort_strings (elements (dom (apply_payload e r))) = ["profile_json_b64"; "revision"]) as ->.
  { unfold apply_payload. rewrite dom_insert_L, dom_singleton_L. vm_compute. reflexivity. }
  destruct (apply_payload_lookup e r) as [E1 E2]. simpl. by rewrite E1, E2.
Qed.

Lemma ascii_valid_utf8 s : Forall (fun c => byte c < 0x80) (chars s) -> valid_utf8 s = true.
Proof.
  induction s as [|c s IH]; intros Hs; [done|]. inversion_clear Hs as [|?? Hc Hs'].
  unfold valid_utf8. simpl. unfold decode_rune. rewrite (proj2 (Z.ltb_lt _ _)) by done. by apply IH.
Qed.

Lemma b64_alphabet_ascii i : byte (b64_char i) < 0x80.
Proof.
  unfold b64_char. destruct (nth_in_or_default (Z.to_nat i) b64_alphabet b64_pad) as [Hin| ->];
    [|by vm_compute].
  assert (forallb (fun c => byte c <? 0x80) b64_alphabet = true) as Hall by (vm_compute; reflexivity).
  rewrite forallb_forall in Hall. specialize (Hall _ Hin). lia.
Qed.

Lemma EncodeToString_utf8 s : valid_utf8 (EncodeToString s) = true.
Proof.
  apply ascii_valid_utf8. unfold EncodeToString. rewrite chars_of_list. generalize (chars s).
  intros bs. induction bs as [|a|a b|a b c bs IH] using list_ind3; cbn [b64_encode];
    repeat (apply Forall_cons_2; [first [apply b64_alphabet_ascii|done]|]); done.
Qed.

#[local] Opaque EncodeToString DecodeString.
#[local] Transparent Itoa.

Lemma Itoa_utf8 n : valid_utf8 (Itoa n) = true.
Proof.
  assert (forall m, Forall (fun c => byte c < 0x80) (chars (utoa m)) \/ m < 0) as Hu.
  { intros m. destruct (Z.lt_ge_cases m 0); [by right|left]. unfold utoa. rewrite chars_of_list.
    apply Forall_fmap. eapply Forall_impl; [by apply dec_digits_range|]. simpl. intros d Hd.
    unfold digit_char. rewrite byte_of_byte; lia. }
  apply ascii_valid_utf8. unfold Itoa. destruct (Z.ltb_spec n 0).
  - destruct (Hu (- n)); [|lia]. constructor; [by vm_compute|done].
  - destruct (Hu n); [done|lia].
Qed.

#[local] Opaque Itoa.

(** The payload written for a revision is recognised as that revision. *)
Lemma payload_revision_roundtrip p rev q doc :
  canonicalProfileApplyDocument p rev = Ok (q, doc) -> rev <= max_int64 ->
  profileApplyPayloadRevision (marshal (map_json (apply_payload (EncodeToString doc) (Itoa rev)))) = Ok rev.
Proof.
  intros Hc Hmax. pose proof (document_roundtrip _ _ _ _ Hc Hmax) as Hd.
  apply canonical_ok in Hc as (Hrev & _ & _ & _ & Hlen).
  unfold profileApplyPayloadRevision, decodeStrictJSONObject, map_json at 1.
  rewrite apply_payload_members.
  rewrite marshal_roundtrip.
  2:{ apply ok_obj; repeat constructor; simpl; [apply EncodeToString_utf8|apply Itoa_utf8]. }
  rewrite strict_object_ok by keys_distinct. cbn [rbind].
  rewrite map_size_list_to_map by keys_distinct. cbn [length].
  change (negb (Z.of_nat 2 =? 2)) with false. cbv iota.
  unfold require_string, decodeRequiredJSONField. simplify_map_eq.
  cbn [isJSONNull into_string jstr rbind]. unfold map_json. rewrite apply_payload_members.
  rewrite String.eqb_refl. cbn [negb].
  rewrite ParseInt_Itoa by (unfold min_int64 in *; lia).
  rewrite (proj2 (Z.ltb_ge _ _)), String.eqb_refl by lia. cbn [orb negb].
  rewrite base64_roundtrip, String.eqb_refl. cbn [orb negb].
  rewrite (proj2 (Z.eqb_neq _ _)), (proj2 (Z.ltb_ge maxProfileJSONBytes _)) by lia. cbn [orb].
  rewrite (proj2 (Z.ltb_ge _ _)).
  2:{ rewrite EncodeToString_len. unfold maxProfileEncodedBytes.
      apply Z.mul_le_mono_nonneg_r; [lia|]. apply Z.div_le_mono; lia. }
  rewrite Hd. cbn [doc_Revision]. by rewrite Z.eqb_refl.
Qed.
