(* ===== verification/TaskResult.v ===== *)
(** * Results of profile tasks: [internal/agenthub/service.go]

    The closed result contract of [agent.profile.apply]. *)

From stdpp Require Import base strings gmap list.
From Stdlib Require Import ZArith Lia.
From S2P Require Import Prelude GoStrings HubTypes TaskGate Profile.
Local Open Scope Z_scope.
Local Open Scope hub_scope.

Definition validProfileApplyResultState (value : string) : bool :=
  (value =?s ProfileApplyResultRestartScheduled) || (value =?s ProfileApplyResultAlreadyActive).

(** One entry of the result of a completed task; every refusal is the same
    error, so the order Go ranges over the map does not show. *)
Definition apply_result_entry_ok (revision : Z) (key value : string) : bool :=
  if key =?s "revision" then value =?s Itoa revision
  else if key =?s "state" then validProfileApplyResultState value
  else if key =?s "error_code" then isSafeProfileErrorCode value
  else false.

Definition ValidateProfileApplyTaskResult (task : Task) (req : TaskResultRequest) : res unit :=
  if negb (task_Kind task =?s TaskProfileApply) then Err ErrInvalidInput
  else
    match profileApplyPayloadRevisionFromTask task with
    | Err _ => Err ErrInvalidInput
    | Ok revision =>
        let? _ := ValidateTaskResultRequest req in
        if tres_Status req =?s TaskStatusCompleted then
          if negb (tres_Error req =?s "") then Err ErrInvalidInput
          else if negb (forallb (fun kv => apply_result_entry_ok revision kv.1 kv.2)
                          (map_to_list (tres_Result req)))
          then Err ErrInvalidInput
          else if negb (bool_decide (is_Some (tres_Result req !! "revision")))
                  || negb (bool_decide (is_Some (tres_Result req !! "state")))
          then Err ErrInvalidInput
          else Ok tt
        else if tres_Status req =?s TaskStatusFailed then
          if negb (map_len (tres_Result req) =? 0) || negb (isSafeProfileErrorCode (tres_Error req))
             || (tres_Error req =?s "")
          then Err ErrInvalidInput else Ok tt
        else Err ErrInvalidInput
    end.

Definition ValidateAgentProfileTaskResult (task : Task) (req : TaskResultRequest) : res unit :=
  ValidateProfileApplyTaskResult task req.
