(* ===== verification/Heartbeat.v ===== *)
(** * Heartbeats: [internal/agenthub/service.go], [types.go]

    The JSON codec of the inventory column, and the validation of registration
    requests and heartbeats with their freshness window. *)

From stdpp Require Import base strings gmap list.
From Stdlib Require Import ZArith Lia Ascii.
From Stdlib Require Import SpecFloat.
From S2P Require Import Prelude GoStrings GoJson GoFloat HubTypes TaskGate Profile.
Local Open Scope Z_scope.
Local Open Scope hub_scope.

(** ** [json.Marshal] of an inventory

    A float that is not finite makes the encoding fail. *)

Definition json_float (x : float64) : option json := JNum <$> FormatFloat x.
Definition json_int (n : Z) : json := JNum (Itoa n).
Definition json_strings (l : list string) : json := JArr (jstr <$> l).

(** [omitempty]. *)
Definition omit (empty : bool) (name : string) (j : json) : list (string * json) :=
  if empty then [] else [(name, j)].

Definition json_slice {A} (f : A -> json) (s : slice A) : json :=
  match s with Some l => JArr (f <$> l) | None => JNull end.

Definition is_empty {A} (l : list A) : bool := match l with [] => true | _ :: _ => false end.

Definition mount_json (m : DiskMount) : json :=
  JObj [("filesystem", jstr (mnt_Filesystem m)); ("size", json_int (mnt_Size m));
        ("used", json_int (mnt_Used m)); ("available", json_int (mnt_Available m));
        ("use_percent", json_int (mnt_UsePercent m)); ("mountpoint", jstr (mnt_Mountpoint m))].

Definition service_json (s : ServiceState) : json :=
  JObj ([("name", jstr (svc_Name s)); ("active", jstr (svc_Active s))]
        ++ omit (svc_Sub s =?s "") "sub" (jstr (svc_Sub s))).

Definition process_json (p : Process) : option json :=
  cpu ← json_float (proc_CPU p);
  memory ← json_float (proc_Memory p);
  Some (JObj [("pid", json_int (proc_PID p)); ("startTime", json_int (proc_StartTime p));
              ("user", jstr (proc_User p)); ("cpu", cpu); ("memory", memory);
              ("rss", json_int (proc_RSS p)); ("command", jstr (proc_Command p))]).

Definition processes_json (s : slice Process) : option json :=
  match s with
  | Some l => JArr <$> mapM process_json l
  | None => Some JNull
  end.

Definition inventory_json (i : Inventory) : option json :=
  load ← json_float (inv_Load1 i);
  disk ← json_float (inv_DiskUsePercent i);
  procs ← processes_json (inv_Processes i);
  Some (JObj (
    [("os", jstr (inv_OS i))] ++ omit (inv_Arch i =?s "") "arch" (jstr (inv_Arch i))
    ++ [("kernel", jstr (inv_Kernel i)); ("boot_id", jstr (inv_BootID i));
        ("uptime_seconds", json_int (inv_UptimeSeconds i)); ("load_1", load);
        ("memory_total_bytes", json_int (inv_MemoryTotal i));
        ("memory_available_bytes", json_int (inv_MemoryAvailable i));
        ("swap_total_bytes", json_int (inv_SwapTotal i)); ("swap_used_bytes", json_int (inv_SwapUsed i));
        ("swap_free_bytes", json_int (inv_SwapFree i));
        ("swap_reset_eligible", JBool (inv_SwapResetEligible i))]
    ++ omit (inv_SwapResetReason i =?s "") "swap_reset_reason" (jstr (inv_SwapResetReason i))
    ++ [("disk_total_bytes", json_int (inv_DiskTotal i)); ("disk_used_bytes", json_int (inv_DiskUsed i));
        ("disk_available_bytes", json_int (inv_DiskAvailable i)); ("disk_use_percent", disk)]
    ++ omit (is_empty (inv_DiskMounts i)) "disk_mounts" (JArr (mount_json <$> inv_DiskMounts i))
    ++ [("plesk_present", JBool (inv_PleskPresent i));
        ("services", json_slice service_json (inv_Services i)); ("processes", procs)]
    ++ omit (is_empty (inv_LogSources i)) "log_sources" (json_strings (inv_LogSources i))
    ++ omit (is_empty (elems (inv_FileReadRoots i))) "file_read_roots"
         (json_strings (elems (inv_FileReadRoots i)))
    ++ omit (is_empty (inv_FileWriteRoots i)) "file_write_roots"
         (json_strings (inv_FileWriteRoots i)))).

Definition inventory_text (i : Inventory) : option string := marshal <$> inventory_json i.

(** ** [json.Unmarshal] of an inventory *)

Definition mount_names : list string :=
  ["filesystem"; "size"; "used"; "available"; "use_percent"; "mountpoint"].

(** Decode a struct from its members: [null] leaves the target. *)
Definition into_struct {A} (from : list (string * json) -> A -> option A) (j : json) (old : A) : option A :=
  match j with
  | JObj ms => from ms old
  | JNull => Some old
  | _ => None
  end.

Definition into_mount : json -> DiskMount -> option DiskMount := into_struct (fun ms old =>
  let rd {A} n (into : json -> A -> option A) acc := read_field mount_names n into ms acc in
  fs ← rd "filesystem" into_string (mnt_Filesystem old);
  size ← rd "size" into_uint64 (mnt_Size old);
  used ← rd "used" into_uint64 (mnt_Used old);
  avail ← rd "available" into_uint64 (mnt_Available old);
  pct ← rd "use_percent" into_int64 (mnt_UsePercent old);
  mp ← rd "mountpoint" into_string (mnt_Mountpoint old);
  Some (mkDiskMount fs size used avail pct mp)).

Definition service_names : list string := ["name"; "active"; "sub"].

Definition into_service : json -> ServiceState -> option ServiceState := into_struct (fun ms old =>
  let rd {A} n (into : json -> A -> option A) acc := read_field service_names n into ms acc in
  name ← rd "name" into_string (svc_Name old);
  active ← rd "active" into_string (svc_Active old);
  sub ← rd "sub" into_string (svc_Sub old);
  Some (mkServiceState name active sub)).

Definition process_names : list string :=
  ["pid"; "startTime"; "user"; "cpu"; "memory"; "rss"; "command"].

Definition into_process : json -> Process -> option Process := into_struct (fun ms old =>
  let rd {A} n (into : json -> A -> option A) acc := read_field process_names n into ms acc in
  pid ← rd "pid" into_int64 (proc_PID old);
  start ← rd "startTime" into_uint64 (proc_StartTime old);
  user ← rd "user" into_string (proc_User old);
  cpu ← rd "cpu" into_float64 (proc_CPU old);
  mem ← rd "memory" into_float64 (proc_Memory old);
  rss ← rd "rss" into_uint64 (proc_RSS old);
  cmd ← rd "command" into_string (proc_Command old);
  Some (mkProcess pid start user cpu mem rss cmd)).

Definition inventory_names : list string :=
  ["os"; "arch"; "kernel"; "boot_id"; "uptime_seconds"; "load_1"; "memory_total_bytes";
   "memory_available_bytes"; "swap_total_bytes"; "swap_used_bytes"; "swap_free_bytes";
   "swap_reset_eligible"; "swap_reset_reason"; "disk_total_bytes"; "disk_used_bytes";
   "disk_available_bytes"; "disk_use_percent"; "disk_mounts"; "plesk_present"; "services";
   "processes"; "log_sources"; "file_read_roots"; "file_write_roots"].

Definition zero_mount : DiskMount := mkDiskMount "" 0 0 0 0 "".
Definition zero_service : ServiceState := mkServiceState "" "" "".
Definition zero_process : Process := mkProcess 0 0 "" f_zero f_zero 0 "".

Definition inventory_members (ms : list (string * json)) : option Inventory :=
  let rd {A} n (into : json -> A -> option A) acc := read_field inventory_names n into ms acc in
  os ← rd "os" into_string "";
  arch ← rd "arch" into_string "";
  kernel ← rd "kernel" into_string "";
  boot ← rd "boot_id" into_string "";
  uptime ← rd "uptime_seconds" into_int64 0;
  load ← rd "load_1" into_float64 f_zero;
  mt ← rd "memory_total_bytes" into_uint64 0;
  ma ← rd "memory_available_bytes" into_uint64 0;
  st ← rd "swap_total_bytes" into_uint64 0;
  su ← rd "swap_used_bytes" into_uint64 0;
  sf ← rd "swap_free_bytes" into_uint64 0;
  se ← rd "swap_reset_eligible" into_bool false;
  sr ← rd "swap_reset_reason" into_string "";
  dt ← rd "disk_total_bytes" into_uint64 0;
  du ← rd "disk_used_bytes" into_uint64 0;
  da ← rd "disk_available_bytes" into_uint64 0;
  dp ← rd "disk_use_percent" into_float64 f_zero;
  mounts ← rd "disk_mounts" (into_slice zero_mount into_mount) nil_slice;
  plesk ← rd "plesk_present" into_bool false;
  services ← rd "services" (into_slice zero_service into_service) nil_slice;
  procs ← rd "processes" (into_slice zero_process into_process) nil_slice;
  logs ← rd "log_sources" (into_slice "" into_string) nil_slice;
  fr ← rd "file_read_roots" (into_slice "" into_string) nil_slice;
  fw ← rd "file_write_roots" (into_slice "" into_string) nil_slice;
  Some (mkInventory os arch kernel boot uptime load mt ma st su sf se sr dt du da dp
          (elems (slice_value mounts)) plesk (slice_value services) (slice_value procs)
          (elems (slice_value logs)) (slice_value fr) (elems (slice_value fw))).

Definition decode_inventory (text : string) : option Inventory :=
  match unmarshal text with
  | Some (JObj ms) => inventory_members ms
  | Some JNull => Some empty_inventory
  | _ => None
  end.

Definition decode_strings (text : string) : option (list string) :=
  match unmarshal text with
  | Some j => elems ∘ slice_value <$> into_slice "" into_string j nil_slice
  | None => None
  end.

(** ** Registration *)

Definition validateRegisterNodeRequest (req : RegisterNodeRequest) : res unit :=
  if negb (validNodeID (reg_ID req)) then Err ErrInvalidInput
  else if (TrimSpace (reg_Name req) =?s "") || (maxNodeNameLength <? len (reg_Name req))
          || containsControl (reg_Name req)
  then Err ErrInvalidInput
  else Ok tt.

(** ** Heartbeat fields *)

Definition known_capabilities : list string :=
  [CapabilityInventory; CapabilityServiceStatus; CapabilityServiceAction; CapabilityHostAction;
   CapabilityProcessRead; CapabilityProcessSignal; CapabilityTerminal; CapabilityDiskCleanup;
   CapabilityLogsRead; CapabilityContainerRead; CapabilityContainerAction; CapabilityNginxAction;
   CapabilityNginxConfigRead; CapabilityNginxConfigWrite; CapabilityPHPRead; CapabilityPHPWrite;
   CapabilityPHPAction; CapabilityPM2Read; CapabilityPM2Action; CapabilityCronRead;
   CapabilityCronWrite; CapabilityCronRun; CapabilityFirewallRead; CapabilityFirewallWrite;
   CapabilityDomainRead; CapabilityDomainAction; CapabilitySSLRead; CapabilitySSLAction;
   CapabilityDatabaseRead; CapabilityDatabaseAction; CapabilityBackupRead; CapabilityBackupRun;
   CapabilityFilesRead; CapabilityFilesWrite; CapabilityDeployRead; CapabilityDeployAction;
   CapabilityDeployDomainRead; CapabilityDeployDomainAction; CapabilityAgentUpdateRead;
   CapabilityAgentUpdateAction; CapabilityIntegrationStatus; CapabilityMetricsRead;
   CapabilityProfileApply].

Definition known_capability (c : string) : bool := existsb (String.eqb c) known_capabilities.

(** Counters [used] and [free] of a total, with the subtraction of [uint64]. *)
Definition counters_inconsistent (used free total : Z) : bool :=
  (total <? used) || (total <? free) || (wrap_uint64 (total - free) <? used).

Definition validDiskMount (m : DiskMount) : bool :=
  negb ((mnt_Filesystem m =?s "") || (mnt_Mountpoint m =?s "") || (255 <? len (mnt_Filesystem m))
        || (512 <? len (mnt_Mountpoint m)) || containsControl (mnt_Filesystem m)
        || containsControl (mnt_Mountpoint m) || (mnt_UsePercent m <? 0) || (100 <? mnt_UsePercent m)
        || counters_inconsistent (mnt_Used m) (mnt_Available m) (mnt_Size m)).

Definition negative_or_not_finite (x : float64) : bool := IsNaN x || IsInf x || f_lt x f_zero.

Definition validProcess (p : Process) : bool :=
  negb ((proc_PID p <=? 0) || (proc_StartTime p =? 0) || (64 <? len (proc_User p))
        || (512 <? len (proc_Command p)) || containsControl (proc_User p)
        || containsControl (proc_Command p) || negative_or_not_finite (proc_CPU p)
        || negative_or_not_finite (proc_Memory p)).

Fixpoint check_file_roots (allowedParents : slice string) (seen : gset string)
    (roots : list string) : bool :=
  match roots with
  | [] => true
  | root :: rest =>
      if (root =?s "/") || (512 <? len root) || containsControl root || negb (IsAbs root)
         || negb (Clean root =?s root)
      then false
      else if bool_decide (root ∈ seen) then false
      else
        match allowedParents with
        | Some parents =>
            if existsb (String.eqb root) parents
            then check_file_roots allowedParents ({[root]} ∪ seen) rest else false
        | None => check_file_roots allowedParents ({[root]} ∪ seen) rest
        end
  end.

Definition validManagedFileRootInventory (roots : list string) (allowedParents : slice string) : bool :=
  if 16 <? Z.of_nat (length roots) then false else check_file_roots allowedParents ∅ roots.

Definition percent_out_of_range (x : float64) : bool :=
  IsNaN x || IsInf x || f_lt x f_zero || f_lt (of_Z 100) x.

Definition validateInventoryText (i : Inventory) : res unit :=
  match inventory_text i with
  | None => Err ErrInvalidInput
  | Some text => if maxHeartbeatInventorySize <? len text then Err ErrInvalidInput else Ok tt
  end.

Definition validateHeartbeatFields (req : HeartbeatRequest) : res unit :=
  let i := hb_Inventory req in
  if negb (validNodeID (hb_NodeID req)) then Err ErrInvalidInput
  else
    let? _ := validateAgentProfileObservation (hb_Profile req) in
    if (maxHostnameLength <? len (hb_Hostname req)) || containsControl (hb_Hostname req)
    then Err ErrInvalidInput
    else if (maxAgentVersionLength <? len (hb_AgentVersion req)) || containsControl (hb_AgentVersion req)
    then Err ErrInvalidInput
    else if (32 <? len (inv_Arch i)) || containsControl (inv_Arch i) then Err ErrInvalidInput
    else if negb (distinct_allowed known_capability ∅ (elems (hb_Capabilities req)))
    then Err ErrInvalidInput
    else if percent_out_of_range (inv_DiskUsePercent i) then Err ErrInvalidInput
    else if counters_inconsistent (inv_DiskUsed i) (inv_DiskAvailable i) (inv_DiskTotal i)
    then Err ErrInvalidInput
    else if 64 <? Z.of_nat (length (inv_DiskMounts i)) then Err ErrInvalidInput
    else if negb (forallb validDiskMount (inv_DiskMounts i)) then Err ErrInvalidInput
    else if counters_inconsistent (inv_SwapUsed i) (inv_SwapFree i) (inv_SwapTotal i)
    then Err ErrInvalidInput
    else if 50 <? Z.of_nat (length (elems (inv_Processes i))) then Err ErrInvalidInput
    else if 7 <? Z.of_nat (length (inv_LogSources i)) then Err ErrInvalidInput
    else if negb (distinct_allowed validLogSource ∅ (inv_LogSources i)) then Err ErrInvalidInput
    else if negb (validManagedFileRootInventory (elems (inv_FileReadRoots i)) None)
            || negb (validManagedFileRootInventory (inv_FileWriteRoots i) (inv_FileReadRoots i))
    then Err ErrInvalidInput
    else if negb (forallb validProcess (elems (inv_Processes i))) then Err ErrInvalidInput
    else validateInventoryText i.

(** ** Freshness *)

Definition HeartbeatFreshnessWindow : duration := 5 * Minute.
Definition NodeOnlineWindow : duration := 45 * Second.

Definition heartbeatAge (now sentAt : time) : duration :=
  if sentAt =? zero_time then HeartbeatFreshnessWindow + Nanosecond
  else if now <? sentAt then Sub sentAt now
  else Sub now sentAt.
