(* ===== verification/IntegrationStatus.v ===== *)
(** * Integration states: [internal/integrationstate], [internal/managedintegrationstatus]

    The availability states of an optional integration and the schema-v1
    result a managed node reports for them, with its strict decoding. *)

From stdpp Require Import base strings gmap list.
From Stdlib Require Import ZArith Lia Ascii.
From S2P Require Import Prelude GoStrings GoJson GoTime HubTypes TaskGate Heartbeat.
Local Open Scope Z_scope.
Local Open Scope hub_scope.

(** ** [integrationstate] *)

Definition NotConfigured : string := "not_configured".
Definition Unavailable : string := "unavailable".
Definition Healthy : string := "healthy".

Record Observation : Type := mkObserve { Configured : bool; Successful : bool }.

Definition IsValid (s : string) : bool := existsb (String.eqb s) [NotConfigured; Unavailable; Healthy].

(** [Validate], with [ErrInvalidState] as the error. *)
Definition ValidateState (raw : string) : result unit unit := if IsValid raw then Ok tt else Err tt.

(** The lower case of runes beyond ASCII, data of the Unicode tables. *)
Class LowerTable := lower_table : Z -> Z.

Definition ToLower `{LowerTable} (s : string) : string :=
  let lower r := if (65 <=? r) && (r <=? 90) then r + 32 else if r <? 0x80 then r else lower_table r in
  foldr String.append "" (utf8_encode ∘ lower <$> runes s).

Definition Normalize `{LowerTable} (raw : string) : result unit string :=
  let normalized := ToLower (TrimSpace raw) in
  let? _ := ValidateState normalized in Ok normalized.

Definition FromObservation (observation : Observation) : string :=
  if negb (Configured observation) then NotConfigured
  else if negb (Successful observation) then Unavailable
  else Healthy.

(** ** [managedintegrationstatus] *)

Definition SchemaVersion : Z := 1.
Definition ScopeManagedNode : string := "managed_node".
Definition ProcessPM2ID : string := "process.pm2".
Definition DockerID : string := "container.docker".
Definition PM2InventoryProbe : string := "pm2_inventory".
Definition DockerInfoProbe : string := "docker_info".
Definition ErrorCodeNotConfigured : string := "not_configured".
Definition ErrorCodeProbeFailed : string := "probe_failed".
Definition ErrorCodeTimeout : string := "timeout".
Definition FatalErrorCode : string := "integration_status_failed".
Definition MaxResultBytes : Z := Z.shiftl 32 10.

Inductive status_error : Type := ErrInvalidResult | ErrResultTooLarge.

Record ManagedIntegrationStatusTarget : Type := mkTarget {
  tgt_Scope : string;
  tgt_NodeID : string
}.

Record ManagedIntegrationStatusResult : Type := mkStatusResult {
  sr_ID : string;
  sr_State : string;
  sr_Probe : string;
  sr_ErrorCode : string;
  sr_DurationMS : Z
}.

(** [ObservedAt] is the instant and the offset of its zone. *)
Record ManagedIntegrationStatusResponse : Type := mkStatusResponse {
  st_SchemaVersion : Z;
  st_ObservedAt : time * Z;
  st_Target : ManagedIntegrationStatusTarget;
  st_Results : slice ManagedIntegrationStatusResult;
  st_Partial : bool
}.

(** The package's own [validNodeID]. *)
Definition status_rune_ok (i : nat) (r : Z) : bool :=
  (((97 <=? r) && (r <=? 122)) || ((65 <=? r) && (r <=? 90)) || ((48 <=? r) && (r <=? 57))
   || (r =? 45) || (r =? 95) || (r =? 46))
  && negb ((i =? 0)%nat && ((r =? 45) || (r =? 95) || (r =? 46))).

Definition statusValidNodeID (value : string) : bool :=
  if (value =?s "") || (128 <? len value) || negb (TrimSpace value =?s value) then false
  else forallb id (imap status_rune_ok (runes value)).

(** One iteration of the loop of [Validate]: whether the result is acceptable,
    and whether it makes the response partial. *)
Definition valid_result (r : ManagedIntegrationStatusResult) : bool :=
  negb (sr_DurationMS r <? 0) && IsValid (sr_State r)
  && (if sr_ID r =?s ProcessPM2ID then sr_Probe r =?s PM2InventoryProbe
      else if sr_ID r =?s DockerID then sr_Probe r =?s DockerInfoProbe
      else false)
  && (if sr_State r =?s Healthy then sr_ErrorCode r =?s ""
      else if sr_State r =?s NotConfigured then sr_ErrorCode r =?s ErrorCodeNotConfigured
      else if sr_State r =?s Unavailable
      then (sr_ErrorCode r =?s ErrorCodeProbeFailed) || (sr_ErrorCode r =?s ErrorCodeTimeout)
      else true).

Definition partial_result (r : ManagedIntegrationStatusResult) : bool :=
  (sr_State r =?s NotConfigured) || (sr_State r =?s Unavailable).

Fixpoint check_results (seen : gset string) (partial : bool)
    (results : list ManagedIntegrationStatusResult) : result status_error (gset string * bool) :=
  match results with
  | [] => Ok (seen, partial)
  | r :: rest =>
      if bool_decide (sr_ID r ∈ seen) then Err ErrInvalidResult
      else if negb (valid_result r) then Err ErrInvalidResult
      else check_results ({[sr_ID r]} ∪ seen) (partial || partial_result r) rest
  end.

Definition Validate (r : ManagedIntegrationStatusResponse) : result status_error unit :=
  if negb (st_SchemaVersion r =? SchemaVersion) then Err ErrInvalidResult
  else if fst (st_ObservedAt r) =? zero_time then Err ErrInvalidResult
  else if negb (tgt_Scope (st_Target r) =?s ScopeManagedNode)
          || negb (statusValidNodeID (tgt_NodeID (st_Target r)))
  then Err ErrInvalidResult
  else
    match st_Results r with
    | None => Err ErrInvalidResult
    | Some results =>
        if negb (length results =? 2)%nat then Err ErrInvalidResult
        else
          let? (seen, partial) := check_results ∅ false results in
          if negb (bool_decide (ProcessPM2ID ∈ seen)) then Err ErrInvalidResult
          else if negb (bool_decide (DockerID ∈ seen)) then Err ErrInvalidResult
          else if negb (Bool.eqb (st_Partial r) partial) then Err ErrInvalidResult
          else Ok tt
    end.

(** *** Strict decoding *)

Definition target_names : list string := ["scope"; "node_id"].

Definition into_target : json -> ManagedIntegrationStatusTarget -> option ManagedIntegrationStatusTarget :=
  into_struct (fun ms old =>
    if negb (known_fields target_names ms) then None
    else
      scope ← read_field target_names "scope" into_string ms (tgt_Scope old);
      node ← read_field target_names "node_id" into_string ms (tgt_NodeID old);
      Some (mkTarget scope node)).

Definition result_names : list string := ["id"; "state"; "probe"; "error_code"; "duration_ms"].

Definition into_result : json -> ManagedIntegrationStatusResult -> option ManagedIntegrationStatusResult :=
  into_struct (fun ms old =>
    if negb (known_fields result_names ms) then None
    else
      id ← read_field result_names "id" into_string ms (sr_ID old);
      state ← read_field result_names "state" into_string ms (sr_State old);
      probe ← read_field result_names "probe" into_string ms (sr_Probe old);
      code ← read_field result_names "error_code" into_string ms (sr_ErrorCode old);
      duration ← read_field result_names "duration_ms" into_int64 ms (sr_DurationMS old);
      Some (mkStatusResult id state probe code duration)).

Definition response_names : list string :=
  ["schema_version"; "observed_at"; "target"; "results"; "partial"].

Definition zero_result : ManagedIntegrationStatusResult := mkStatusResult "" "" "" "" 0.

Definition response_members (ms : list (string * json)) : option ManagedIntegrationStatusResponse :=
  let rd {A} n (into : json -> A -> option A) acc := read_field response_names n into ms acc in
  if negb (known_fields response_names ms) then None
  else
    version ← rd "schema_version" into_int64 0;
    observed ← rd "observed_at" into_time (zero_time, 0);
    target ← rd "target" into_target (mkTarget "" "");
    results ← rd "results" (into_slice zero_result into_result) nil_slice;
    partial ← rd "partial" into_bool false;
    Some (mkStatusResponse version observed target (slice_value results) partial).

Definition decode_response (data : string) : option ManagedIntegrationStatusResponse :=
  match unmarshal data with
  | Some (JObj ms) => response_members ms
  | Some JNull => Some (mkStatusResponse 0 (zero_time, 0) (mkTarget "" "") None false)
  | _ => None
  end.

Definition Decode (data : string) : result status_error ManagedIntegrationStatusResponse :=
  if MaxResultBytes <? len data then Err ErrResultTooLarge
  else
    match decode_response data with
    | None => Err ErrInvalidResult
    | Some result => let? _ := Validate result in Ok result
    end.

(** *** Encoding *)

Definition result_json (r : ManagedIntegrationStatusResult) : json :=
  JObj ([("id", jstr (sr_ID r)); ("state", jstr (sr_State r)); ("probe", jstr (sr_Probe r))]
        ++ omit (sr_ErrorCode r =?s "") "error_code" (jstr (sr_ErrorCode r))
        ++ omit (sr_DurationMS r =? 0) "duration_ms" (json_int (sr_DurationMS r))).

Definition response_json (r : ManagedIntegrationStatusResponse) : option json :=
  observed ← time_json (st_ObservedAt r);
  Some (JObj [("schema_version", json_int (st_SchemaVersion r)); ("observed_at", observed);
              ("target", JObj [("scope", jstr (tgt_Scope (st_Target r)));
                               ("node_id", jstr (tgt_NodeID (st_Target r)))]);
              ("results", json_slice result_json (st_Results r));
              ("partial", JBool (st_Partial r))]).

Definition Marshal (r : ManagedIntegrationStatusResponse) : result status_error string :=
  let? _ := Validate r in
  match response_json r with
  | None => Err ErrInvalidResult
  | Some j =>
      let data := marshal j in
      if MaxResultBytes <? len data then Err ErrResultTooLarge else Ok data
  end.

(** ** The hub's gate on an [integration.status] result *)

Definition ValidateIntegrationStatusTaskResult (req : TaskResultRequest) : res unit :=
  if tres_Status req =?s TaskStatusCompleted then
    if negb (tres_Error req =?s "") || negb (map_len (tres_Result req) =? 1) then Err ErrInvalidInput
    else
      match tres_Result req !! "data" with
      | None => Err ErrInvalidInput
      | Some data =>
          if len data =? 0 then Err ErrInvalidInput
          else match Decode data with Ok _ => Ok tt | Err _ => Err ErrInvalidInput end
      end
  else if tres_Status req =?s TaskStatusFailed then
    if negb (tres_Error req =?s FatalErrorCode) || negb (map_len (tres_Result req) =? 0)
    then Err ErrInvalidInput else Ok tt
  else Err ErrInvalidInput.
