(* ===== verification/Metrics.v ===== *)
(** * Metrics: [internal/agenthub/metrics.go]

    The strict decoding and the bounds of a live host observation. *)

From stdpp Require Import base strings gmap list.
From Stdlib Require Import ZArith Lia.
From S2P Require Import Prelude GoStrings GoJson GoTime GoFloat HubTypes TaskGate Heartbeat.
Local Open Scope Z_scope.
Local Open Scope hub_scope.

Definition MetricsSnapshotMaxAge : duration := 2 * Minute.
Definition MetricsSnapshotFutureSkew : duration := 30 * Second.
Definition MetricsUnavailableError : string := "metrics_unavailable".
Definition maxMetricsSnapshotBytes : Z := Z.shiftl 8 10.

Record MetricsCPU : Type := mkCPU { cpu_UsagePercent : float64; cpu_CoreCount : Z }.
Record MetricsLoad : Type := mkLoad { load_One : float64; load_Five : float64; load_Fifteen : float64 }.
Record MetricsMemory : Type := mkMemory {
  mem_TotalBytes : Z; mem_UsedBytes : Z; mem_AvailableBytes : Z; mem_UsagePercent : float64 }.
Record MetricsNetwork : Type := mkNetwork { net_RXBytes : Z; net_TXBytes : Z }.
Record MetricsFilesystem : Type := mkFilesystem {
  fs_TotalBytes : Z; fs_UsedBytes : Z; fs_AvailableBytes : Z; fs_UsagePercent : float64 }.

Record MetricsSnapshot : Type := mkSnapshot {
  snap_ObservedAt : time * Z;
  snap_CPU : MetricsCPU;
  snap_Load : MetricsLoad;
  snap_Memory : MetricsMemory;
  snap_Network : MetricsNetwork;
  snap_RootDisk : MetricsFilesystem
}.

(** ** Shape *)

Definition metrics_objects : list (string * list string) :=
  [("cpu", ["usage_percent"; "core_count"]);
   ("load", ["one"; "five"; "fifteen"]);
   ("memory", ["total_bytes"; "used_bytes"; "available_bytes"; "usage_percent"]);
   ("network", ["rx_bytes"; "tx_bytes"]);
   ("root_disk", ["total_bytes"; "used_bytes"; "available_bytes"; "usage_percent"])].

(** Decoding into a [map[string]json.RawMessage] of a member already read. *)
Definition raw_object (j : json) : option (gmap string json) :=
  match j with
  | JObj ms => Some (foldl (fun m kv => <[kv.1 := kv.2]> m) ∅ ms)
  | JNull => Some ∅
  | _ => None
  end.

Definition has_exact_fields (fields : list string) (object : gmap string json) : bool :=
  (size object =? length fields)%nat && forallb (fun f => bool_decide (is_Some (object !! f))) fields.

Definition object_shape (root : gmap string json) (o : string * list string) : bool :=
  match root !! o.1 with
  | None => false
  | Some raw =>
      match raw_object raw with
      | None => false
      | Some object => has_exact_fields o.2 object
      end
  end.

Definition validateMetricsJSONShape (data : string) : res unit :=
  match unmarshal_raw_map data with
  | None => Err ErrInvalidInput
  | Some root =>
      if negb (size root =? length metrics_objects + 1)%nat then Err ErrInvalidInput
      else if negb (bool_decide (is_Some (root !! "observed_at"))) then Err ErrInvalidInput
      else if negb (forallb (object_shape root) metrics_objects) then Err ErrInvalidInput
      else Ok tt
  end.

(** ** Decoding *)

Definition into_cpu : json -> MetricsCPU -> option MetricsCPU :=
  let names := ["usage_percent"; "core_count"] in
  into_struct (fun ms old =>
    if negb (known_fields names ms) then None
    else
      pct ← read_field names "usage_percent" into_float64 ms (cpu_UsagePercent old);
      cores ← read_field names "core_count" into_int64 ms (cpu_CoreCount old);
      Some (mkCPU pct cores)).

Definition into_load : json -> MetricsLoad -> option MetricsLoad :=
  let names := ["one"; "five"; "fifteen"] in
  into_struct (fun ms old =>
    if negb (known_fields names ms) then None
    else
      one ← read_field names "one" into_float64 ms (load_One old);
      five ← read_field names "five" into_float64 ms (load_Five old);
      fifteen ← read_field names "fifteen" into_float64 ms (load_Fifteen old);
      Some (mkLoad one five fifteen)).

Definition bytes_names : list string := ["total_bytes"; "used_bytes"; "available_bytes"; "usage_percent"].

Definition into_memory : json -> MetricsMemory -> option MetricsMemory :=
  into_struct (fun ms old =>
    if negb (known_fields bytes_names ms) then None
    else
      total ← read_field bytes_names "total_bytes" into_uint64 ms (mem_TotalBytes old);
      used ← read_field bytes_names "used_bytes" into_uint64 ms (mem_UsedBytes old);
      available ← read_field bytes_names "available_bytes" into_uint64 ms (mem_AvailableBytes old);
      pct ← read_field bytes_names "usage_percent" into_float64 ms (mem_UsagePercent old);
      Some (mkMemory total used available pct)).

Definition into_network : json -> MetricsNetwork -> option MetricsNetwork :=
  let names := ["rx_bytes"; "tx_bytes"] in
  into_struct (fun ms old =>
    if negb (known_fields names ms) then None
    else
      rx ← read_field names "rx_bytes" into_uint64 ms (net_RXBytes old);
      tx ← read_field names "tx_bytes" into_uint64 ms (net_TXBytes old);
      Some (mkNetwork rx tx)).

Definition into_filesystem : json -> MetricsFilesystem -> option MetricsFilesystem :=
  into_struct (fun ms old =>
    if negb (known_fields bytes_names ms) then None
    else
      total ← read_field bytes_names "total_bytes" into_uint64 ms (fs_TotalBytes old);
      used ← read_field bytes_names "used_bytes" into_uint64 ms (fs_UsedBytes old);
      available ← read_field bytes_names "available_bytes" into_uint64 ms (fs_AvailableBytes old);
      pct ← read_field bytes_names "usage_percent" into_float64 ms (fs_UsagePercent old);
      Some (mkFilesystem total used available pct)).

Definition snapshot_names : list string :=
  ["observed_at"; "cpu"; "load"; "memory"; "network"; "root_disk"].

Definition zero_snapshot : MetricsSnapshot :=
  mkSnapshot (zero_time, 0) (mkCPU f_zero 0) (mkLoad f_zero f_zero f_zero) (mkMemory 0 0 0 f_zero)
    (mkNetwork 0 0) (mkFilesystem 0 0 0 f_zero).

Definition into_snapshot : json -> MetricsSnapshot -> option MetricsSnapshot :=
  into_struct (fun ms old =>
    if negb (known_fields snapshot_names ms) then None
    else
      observed ← read_field snapshot_names "observed_at" into_time ms (snap_ObservedAt old);
      cpu ← read_field snapshot_names "cpu" into_cpu ms (snap_CPU old);
      load ← read_field snapshot_names "load" into_load ms (snap_Load old);
      memory ← read_field snapshot_names "memory" into_memory ms (snap_Memory old);
      network ← read_field snapshot_names "network" into_network ms (snap_Network old);
      disk ← read_field snapshot_names "root_disk" into_filesystem ms (snap_RootDisk old);
      Some (mkSnapshot observed cpu load memory network disk)).

Definition DecodeMetricsSnapshot (data : string) : res MetricsSnapshot :=
  if (len data =? 0) || (maxMetricsSnapshotBytes <? len data) then Err ErrInvalidInput
  else
    let? _ := validateMetricsJSONShape data in
    match unmarshal data with
    | None => Err ErrInvalidInput
    | Some j =>
        match into_snapshot j zero_snapshot with
        | Some snapshot => Ok snapshot
        | None => Err ErrInvalidInput
        end
    end.

(** ** Bounds *)

Definition validMetricsPercent (value : float64) : bool :=
  negb (IsNaN value) && negb (IsInf value) && f_le f_zero value && f_le value (of_Z 100).

Definition validMetricsLoad (value : float64) : bool :=
  negb (IsNaN value) && negb (IsInf value) && f_le f_zero value && f_le value (of_Z 1000000).

Definition closeMetricsPercent (got want : float64) : bool :=
  f_le (Abs (f_sub got want)) (dec_to_float false 1 (-2)).

(** [float64(used) / float64(total) * 100]. *)
Definition percent_of (used total : Z) : float64 :=
  f_mul (f_div (of_Z used) (of_Z total)) (of_Z 100).

Definition invalid_memory (m : MetricsMemory) : bool :=
  (mem_TotalBytes m =? 0) || (mem_TotalBytes m <? mem_AvailableBytes m)
  || negb (mem_UsedBytes m =? wrap_uint64 (mem_TotalBytes m - mem_AvailableBytes m))
  || negb (validMetricsPercent (mem_UsagePercent m))
  || negb (closeMetricsPercent (mem_UsagePercent m) (percent_of (mem_UsedBytes m) (mem_TotalBytes m))).

Definition invalid_disk (d : MetricsFilesystem) : bool :=
  (fs_TotalBytes d =? 0) || (fs_TotalBytes d <? fs_UsedBytes d)
  || (fs_TotalBytes d <? fs_AvailableBytes d)
  || (wrap_uint64 (fs_TotalBytes d - fs_AvailableBytes d) <? fs_UsedBytes d)
  || negb (validMetricsPercent (fs_UsagePercent d)).

Definition wanted_disk_percent (d : MetricsFilesystem) : float64 :=
  let diskDenominator := wrap_uint64 (fs_UsedBytes d + fs_AvailableBytes d) in
  if 0 <? diskDenominator then percent_of (fs_UsedBytes d) diskDenominator else f_zero.

Definition ValidateMetricsSnapshot (snapshot : MetricsSnapshot) (now : time) : res unit :=
  let '(observed, offset) := snap_ObservedAt snapshot in
  if observed =? zero_time then Err ErrInvalidInput
  else if negb (offset =? 0) || (observed <? now - MetricsSnapshotMaxAge)
          || (now + MetricsSnapshotFutureSkew <? observed)
  then Err ErrInvalidInput
  else if (cpu_CoreCount (snap_CPU snapshot) <? 1) || (65536 <? cpu_CoreCount (snap_CPU snapshot))
          || negb (validMetricsPercent (cpu_UsagePercent (snap_CPU snapshot)))
  then Err ErrInvalidInput
  else if negb (validMetricsLoad (load_One (snap_Load snapshot)))
          || negb (validMetricsLoad (load_Five (snap_Load snapshot)))
          || negb (validMetricsLoad (load_Fifteen (snap_Load snapshot)))
  then Err ErrInvalidInput
  else if invalid_memory (snap_Memory snapshot) then Err ErrInvalidInput
  else if invalid_disk (snap_RootDisk snapshot) then Err ErrInvalidInput
  else if negb (closeMetricsPercent (fs_UsagePercent (snap_RootDisk snapshot))
                  (wanted_disk_percent (snap_RootDisk snapshot)))
  then Err ErrInvalidInput
  else Ok tt.

Definition ValidateMetricsTaskResult (req : TaskResultRequest) (now : time) : res unit :=
  if tres_Status req =?s TaskStatusCompleted then
    if negb (tres_Error req =?s "") || negb (map_len (tres_Result req) =? 1) then Err ErrInvalidInput
    else
      match tres_Result req !! "data" with
      | None => Err ErrInvalidInput
      | Some data =>
          let? snapshot := DecodeMetricsSnapshot data in
          ValidateMetricsSnapshot snapshot now
      end
  else if tres_Status req =?s TaskStatusFailed then
    if negb (tres_Error req =?s MetricsUnavailableError) || negb (map_len (tres_Result req) =? 0)
    then Err ErrInvalidInput else Ok tt
  else Err ErrInvalidInput.
