(* ===== verification/Repository.v ===== *)
(** * The repository: [internal/agenthub/repository.go]

    The SQLite tables of the hub as a record of tables, and every method of
    [Repository] as a function on it.  A method that writes returns its result
    with the new state; a transaction that fails returns the state it started
    from.  Columns keep the text the code writes (JSON, RFC 3339), so reading a
    row decodes it and can fail, as in the source.  The constraints of the
    schema are tests of the writes: the primary keys, the references to
    [agent_nodes], the [CHECK] clauses and the end of the [AUTOINCREMENT] ids.
    Failures of the database itself (I/O, locking) are not modelled. *)

From stdpp Require Import base strings gmap list sorting.
From Stdlib Require Import ZArith Lia.
From S2P Require Import Prelude GoStrings GoBase64 GoSha256 GoJson GoTime HubTypes TaskGate Profile TaskResult Heartbeat.
Local Open Scope Z_scope.
Local Open Scope hub_scope.

(** ** Tables *)

Record node_row : Type := mkNodeRow {
  nr_name : string;
  nr_hostname : string;
  nr_agent_version : string;
  nr_protocol_version : string;
  nr_capabilities_json : string;
  nr_inventory_json : string;
  nr_token_hash : string;
  nr_last_seen_at : option string;
  nr_created_at : string;
  nr_updated_at : string
}.

Record task_row : Type := mkTaskRow {
  tr_id : Z;
  tr_node_id : string;
  tr_kind : string;
  tr_payload_json : string;
  tr_status : string;
  tr_result_json : string;
  tr_error : string;
  tr_created_at : string;
  tr_started_at : option string;
  tr_completed_at : option string
}.

Record profile_row : Type := mkProfileRow {
  pr_profile_json : string;
  pr_revision : Z;
  pr_updated_at : string
}.

Record observation_row : Type := mkObservationRow {
  or_state : string;
  or_revision : Z;
  or_error_code : string;
  or_updated_at : string
}.

(** The task table is its rows in the order of their row ids, with the next
    id [AUTOINCREMENT] gives; the other tables are maps from their key. *)
Record db : Type := mkDb {
  db_nodes : gmap string node_row;
  db_tasks : list task_row;
  db_next_id : Z;
  db_profiles : gmap string profile_row;
  db_observations : gmap string observation_row
}.

(** [Migrate] on an empty database. *)
Definition Migrate : db := mkDb ∅ [] 1 ∅ ∅.

Definition set_nodes (d : db) x := mkDb x (db_tasks d) (db_next_id d) (db_profiles d) (db_observations d).
Definition set_tasks (d : db) x n := mkDb (db_nodes d) x n (db_profiles d) (db_observations d).
Definition set_profiles (d : db) x := mkDb (db_nodes d) (db_tasks d) (db_next_id d) x (db_observations d).
Definition set_observations (d : db) x := mkDb (db_nodes d) (db_tasks d) (db_next_id d) (db_profiles d) x.

(** The [CHECK] clauses. *)
Definition check_task_status (status : string) : bool :=
  existsb (String.eqb status) ["queued"; "running"; "completed"; "failed"].

Definition check_observation (o : observation_row) : bool :=
  existsb (String.eqb (or_state o)) ["not_configured"; "pending_restart"; "applied"; "failed"]
  && (0 <=? or_revision o)
  && existsb (String.eqb (or_error_code o))
       [""; "not_configured"; "invalid_profile"; "permission_denied"; "write_failed"; "restart_failed";
        "apply_failed"; "profile_apply_failed"; "unsupported"; "not_supported"; "timeout";
        "stale_revision"; "invalid_revision"; "agent_error"; "unknown"; "profile_missing";
        "profile_corrupt"; "profile_state_corrupt"; "profile_revision_invalid";
        "profile_payload_invalid"; "profile_payload_too_large"; "profile_apply_unavailable";
        "profile_schedule_failed"; "profile_store_failed"; "profile_superseded"].

(** ** Columns *)

Definition formatTime (value : time) : string := FormatRFC3339Nano value.

Definition parseTime (value : string) : res time :=
  if value =?s "" then Err ErrOther
  else match ParseRFC3339 value with Some (t, _) => Ok t | None => Err ErrOther end.

Definition parseNullableTime (value : option string) : res (option time) :=
  match value with
  | None => Ok None
  | Some s => if s =?s "" then Ok None else let? t := parseTime s in Ok (Some t)
  end.

Definition marshalStringMap (values : gmap string string) : string := marshal (map_json values).

Definition constantTimeEqual (stored expected : string) : bool := stored =?s expected.

Definition decoded {A} (o : option A) : res A := match o with Some a => Ok a | None => Err ErrOther end.

Definition scanNode (id : string) (r : node_row) : res Node :=
  let inventoryJSON := if nr_inventory_json r =?s "" then "{}" else nr_inventory_json r in
  let capabilitiesJSON := if nr_capabilities_json r =?s "" then "[]" else nr_capabilities_json r in
  let? capabilities := decoded (decode_strings capabilitiesJSON) in
  let? inventory := decoded (decode_inventory inventoryJSON) in
  let? created := parseTime (nr_created_at r) in
  let? updated := parseTime (nr_updated_at r) in
  let? lastSeen := parseNullableTime (nr_last_seen_at r) in
  Ok (mkNode id (nr_name r) (nr_hostname r) (nr_agent_version r) (nr_protocol_version r) capabilities
        inventory lastSeen created updated).

Definition object_or_empty (text : string) : string :=
  if (text =?s "") || (text =?s "null") then "{}" else text.

Definition scanTask (r : task_row) : res Task :=
  let? payload := decoded (unmarshal_map (object_or_empty (tr_payload_json r))) in
  let? result := decoded (unmarshal_map (object_or_empty (tr_result_json r))) in
  let? created := parseTime (tr_created_at r) in
  let? started := parseNullableTime (tr_started_at r) in
  let? completed := parseNullableTime (tr_completed_at r) in
  Ok (mkTask (tr_id r) (tr_node_id r) (tr_kind r) payload (tr_status r) result (tr_error r) created
        started completed).

(** ** Nodes *)

Definition GetNode (d : db) (id : string) : res Node :=
  match db_nodes d !! id with
  | None => Err ErrNotFound
  | Some r => scanNode id r
  end.

Definition CreateNode (d : db) (req : RegisterNodeRequest) (tokenHash : string) (now : time)
    : res Node * db :=
  if (tokenHash =?s "") || (reg_ID req =?s "") || (reg_Name req =?s "") then (Err ErrInvalidInput, d)
  else
    let stamp := formatTime now in
    match db_nodes d !! reg_ID req with
    | Some _ => (Err ErrAlreadyExists, d)
    | None =>
        let row := mkNodeRow (reg_Name req) "" "" "" "[]" "{}" tokenHash None stamp stamp in
        let d' := set_nodes d (<[reg_ID req := row]> (db_nodes d)) in
        (GetNode d' (reg_ID req), d')
    end.

(** [ORDER BY created_at DESC, id ASC], on the text of the columns. *)
Definition node_order (a b : string * node_row) : Prop :=
  nr_created_at a.2 <> nr_created_at b.2 /\ String.le (nr_created_at b.2) (nr_created_at a.2)
  \/ nr_created_at a.2 = nr_created_at b.2 /\ String.le a.1 b.1.

#[export] Instance node_order_dec a b : Decision (node_order a b).
Proof. unfold node_order. apply _. Defined.

Fixpoint scan_all {A B} (scan : A -> res B) (rows : list A) : res (list B) :=
  match rows with
  | [] => Ok []
  | r :: rest => let? b := scan r in let? bs := scan_all scan rest in Ok (b :: bs)
  end.

Definition ListNodes (d : db) : res (list Node) :=
  scan_all (fun ir => scanNode ir.1 ir.2) (merge_sort node_order (map_to_list (db_nodes d))).

Definition AuthenticateToken (d : db) (nodeID token : string) : res Node :=
  match db_nodes d !! nodeID with
  | None => Err ErrUnauthorized
  | Some r =>
      if negb (constantTimeEqual (nr_token_hash r) (sha256_hex token)) then Err ErrUnauthorized
      else GetNode d nodeID
  end.

(** ** Heartbeats *)

Definition capabilities_text (capabilities : slice string) : string :=
  marshal (json_slice jstr capabilities).

Definition heartbeat_row (r : node_row) (req : HeartbeatRequest) (inventory stamp : string) : node_row :=
  mkNodeRow (nr_name r) (hb_Hostname req) (hb_AgentVersion req) (hb_ProtocolVersion req)
    (capabilities_text (hb_Capabilities req)) inventory (nr_token_hash r) (Some stamp)
    (nr_created_at r) stamp.

Definition observation_of (o : AgentProfileObservation) (stamp : string) : observation_row :=
  mkObservationRow (obs_State o) (obs_Revision o) (obs_ErrorCode o) stamp.

Definition UpdateHeartbeat (d : db) (nodeID : string) (req : HeartbeatRequest) (serverNow : time)
    : res unit * db :=
  match validateAgentProfileObservation (hb_Profile req) with
  | Err e => (Err e, d)
  | Ok _ =>
      match inventory_text (hb_Inventory req) with
      | None => (Err ErrOther, d)
      | Some inventory =>
          let stamp := formatTime serverNow in
          match db_nodes d !! nodeID with
          | None => (Err ErrNotFound, d)
          | Some r =>
              let d1 := set_nodes d (<[nodeID := heartbeat_row r req inventory stamp]> (db_nodes d)) in
              match hb_Profile req with
              | Some o =>
                  if hasCapability (elems (hb_Capabilities req)) CapabilityProfileApply then
                    if check_observation (observation_of o stamp)
                    then (Ok tt, set_observations d1
                                   (<[nodeID := observation_of o stamp]> (db_observations d1)))
                    else (Err ErrOther, d)
                  else (Ok tt, set_observations d1 (delete nodeID (db_observations d1)))
              | None => (Ok tt, set_observations d1 (delete nodeID (db_observations d1)))
              end
          end
      end
  end.

(** ** Desired profiles *)

Definition GetNodeProfile (d : db) (nodeID : string) : res AgentProfileRecord :=
  match db_nodes d !! nodeID with
  | None => Err ErrNotFound
  | Some _ =>
      let absent := Ok (mkProfileRecord emptyAgentProfile 0 false) in
      match db_profiles d !! nodeID with
      | None => absent
      | Some row =>
          if pr_profile_json row =?s "" then absent
          else
            let? profile := decodePersistedAgentProfile (pr_profile_json row) in
            let? normalized := NormalizeAgentProfile profile in
            if pr_revision row <? 1 then Err ErrOther
            else Ok (mkProfileRecord normalized (pr_revision row) true)
      end
  end.

Definition write_profile (d : db) (nodeID : string) (p : AgentProfile) (revision : Z) (stamp : string) : db :=
  set_profiles d (<[nodeID := mkProfileRow (marshal (profile_json p)) revision stamp]> (db_profiles d)).

Definition SaveNodeProfile (d : db) (nodeID : string) (profile : AgentProfile) (expectedRevision : Z)
    (now : time) : res AgentProfileRecord * db :=
  if expectedRevision <? 0 then (Err ErrInvalidInput, d)
  else
    match NormalizeAgentProfile profile with
    | Err e => (Err e, d)
    | Ok normalized =>
        match db_nodes d !! nodeID with
        | None => (Err ErrNotFound, d)
        | Some _ =>
            let stamp := formatTime now in
            let commit newRevision :=
              match canonicalProfileApplyDocument normalized newRevision with
              | Err e => (Err e, d)
              | Ok _ => (Ok (mkProfileRecord normalized newRevision true),
                         write_profile d nodeID normalized newRevision stamp)
              end in
            match db_profiles d !! nodeID with
            | None => if negb (expectedRevision =? 0) then (Err ErrProfileRevisionStale, d) else commit 1
            | Some row =>
                if (pr_revision row <? 1) || negb (pr_revision row =? expectedRevision)
                then (Err ErrProfileRevisionStale, d)
                else commit (wrap_int64 (pr_revision row + 1))
            end
        end
    end.

(** ** Observations *)

Definition GetNodeProfileObservation (d : db) (nodeID : string)
    : res (option AgentProfileObservationRecord) :=
  match db_nodes d !! nodeID with
  | None => Err ErrNotFound
  | Some _ =>
      match db_observations d !! nodeID with
      | None => Ok None
      | Some o =>
          if (or_revision o <? 0) || (or_updated_at o =?s "") then Err ErrOther
          else
            let? parsed := parseTime (or_updated_at o) in
            let? _ := validateAgentProfileObservation
                        (Some (mkObservation (or_state o) (or_revision o) (or_error_code o))) in
            Ok (Some (mkObservationRecord (or_state o) (or_revision o) (or_error_code o) parsed))
      end
  end.

Definition UpsertNodeProfileObservation (d : db) (nodeID : string) (observation : AgentProfileObservation)
    (now : time) : res unit * db :=
  match validateAgentProfileObservation (Some observation) with
  | Err e => (Err e, d)
  | Ok _ =>
      let row := observation_of observation (formatTime now) in
      if negb (check_observation row) then (Err ErrOther, d)
      else
        match db_nodes d !! nodeID with
        | None => (Err ErrNotFound, d)
        | Some _ => (Ok tt, set_observations d (<[nodeID := row]> (db_observations d)))
        end
  end.

Definition ClearNodeProfileObservation (d : db) (nodeID : string) : res unit * db :=
  match db_observations d !! nodeID with
  | Some _ => (Ok tt, set_observations d (delete nodeID (db_observations d)))
  | None => (let? _ := GetNode d nodeID in Ok tt, d)
  end.

(** ** Tasks *)

Definition find_task (p : task_row -> bool) (rows : list task_row) : option task_row := find p rows.

Definition GetTask (d : db) (id : Z) : res Task :=
  match find_task (fun r => tr_id r =? id) (db_tasks d) with
  | None => Err ErrNotFound
  | Some r => scanTask r
  end.

Definition GetTaskForNode (d : db) (nodeID : string) (id : Z) : res Task :=
  match find_task (fun r => (tr_id r =? id) && (tr_node_id r =?s nodeID)) (db_tasks d) with
  | None => Err ErrNotFound
  | Some r => scanTask r
  end.

(** [ORDER BY id DESC LIMIT limit]; a negative limit is no limit. *)
Definition node_tasks (d : db) (nodeID : string) : list task_row :=
  filter (fun r => tr_node_id r = nodeID) (db_tasks d).

Definition limited {A} (limit : Z) (rows : list A) : list A :=
  if limit <? 0 then rows else take (Z.to_nat limit) rows.

Definition ListTasksForNode (d : db) (nodeID : string) (limit : Z) : res (list Task) :=
  scan_all scanTask (limited limit (rev (node_tasks d nodeID))).

(** [INSERT INTO agent_tasks]: the foreign key and the end of the ids. *)
Definition insert_task (d : db) (nodeID kind payload stamp : string) : res Z * db :=
  match db_nodes d !! nodeID with
  | None => (Err ErrNotFound, d)
  | Some _ =>
      if max_int64 <? db_next_id d then (Err ErrOther, d)
      else
        let row := mkTaskRow (db_next_id d) nodeID kind payload TaskStatusQueued "{}" "" stamp None None in
        (Ok (db_next_id d), set_tasks d (db_tasks d ++ [row]) (db_next_id d + 1))
  end.

Definition CreateTask (d : db) (nodeID : string) (req : TaskRequest) (now : time) : res Task * db :=
  if req_Kind req =?s TaskProfileApply then (Err ErrInvalidInput, d)
  else
    match insert_task d nodeID (req_Kind req) (marshalStringMap (req_Payload req)) (formatTime now) with
    | (Err e, d') => (Err e, d')
    | (Ok id, d') => (GetTask d' id, d')
    end.

Definition in_flight_status (status : string) : bool :=
  (status =?s TaskStatusQueued) || (status =?s TaskStatusRunning).

Definition apply_in_flight (nodeID : string) (r : task_row) : bool :=
  (tr_node_id r =?s nodeID) && (tr_kind r =?s TaskProfileApply) && in_flight_status (tr_status r).

(** The rows of [CreateProfileApplyTask]'s in-flight lookup: whether one of
    them carries another revision, and the newest that carries this one. *)
Fixpoint scan_in_flight (expectedRevision : Z) (rows : list task_row) (conflicting : bool)
    (coalescedID : Z) : bool * Z :=
  match rows with
  | [] => (conflicting, coalescedID)
  | r :: rest =>
      match profileApplyPayloadRevision (tr_payload_json r) with
      | Ok existingRevision =>
          if negb (existingRevision =? expectedRevision)
          then scan_in_flight expectedRevision rest true coalescedID
          else scan_in_flight expectedRevision rest conflicting
                 (if coalescedID =? 0 then tr_id r else coalescedID)
      | Err _ => scan_in_flight expectedRevision rest true coalescedID
      end
  end.

Definition stored_profile_matches (row : profile_row) (normalized : AgentProfile) : bool :=
  match decodePersistedAgentProfile (pr_profile_json row) with
  | Err _ => false
  | Ok stored =>
      match NormalizeAgentProfile stored with
      | Err _ => false
      | Ok stored' => marshal (profile_json stored') =?s marshal (profile_json normalized)
      end
  end.

Definition observed_applied (d : db) (nodeID : string) (revision : Z) : bool :=
  match db_observations d !! nodeID with
  | Some o => (or_state o =?s ProfileObservationApplied) && (or_revision o =? revision)
  | None => false
  end.

Definition CreateProfileApplyTask (d : db) (nodeID : string) (expectedRevision : Z)
    (profile : AgentProfile) (now : time) : res (option Task) * db :=
  if expectedRevision <? 1 then (Err ErrInvalidInput, d)
  else
    match canonicalProfileApplyDocument profile expectedRevision with
    | Err e => (Err e, d)
    | Ok (normalized, profileJSON) =>
        let profileJSONB64 := EncodeToString profileJSON in
        if (maxProfileJSONBytes <? len profileJSON) || (maxProfileEncodedBytes <? len profileJSONB64)
        then (Err ErrInvalidInput, d)
        else
          let payload := marshalStringMap (apply_payload profileJSONB64 (Itoa expectedRevision)) in
          match db_nodes d !! nodeID with
          | None => (Err ErrNotFound, d)
          | Some _ =>
              match db_profiles d !! nodeID with
              | None => (Err ErrProfileNotConfigured, d)
              | Some row =>
                  if negb (pr_revision row =? expectedRevision) then (Err ErrProfileRevisionStale, d)
                  else if negb (stored_profile_matches row normalized) then (Err ErrInvalidInput, d)
                  else if observed_applied d nodeID expectedRevision then (Ok None, d)
                  else
                    let rows := rev (filter (fun r => apply_in_flight nodeID r = true) (db_tasks d)) in
                    let '(conflicting, coalescedID) := scan_in_flight expectedRevision rows false 0 in
                    if conflicting then (Err ErrProfileApplyInFlight, d)
                    else if negb (coalescedID =? 0) then (let? t := GetTask d coalescedID in Ok (Some t), d)
                    else
                      match insert_task d nodeID TaskProfileApply payload (formatTime now) with
                      | (Err e, _) => (Err e, d)
                      | (Ok id, d') => (let? t := GetTask d' id in Ok (Some t), d')
                      end
              end
          end
    end.

Definition GetLatestProfileApplyTask (d : db) (nodeID : string) : res (option Task) :=
  match find_task (fun r => (tr_node_id r =?s nodeID) && (tr_kind r =?s TaskProfileApply))
          (rev (db_tasks d)) with
  | None => Ok None
  | Some r => let? t := scanTask r in Ok (Some t)
  end.

(** [UPDATE agent_tasks SET ... WHERE ...]. *)
Definition update_where (p : task_row -> bool) (f : task_row -> task_row) (rows : list task_row)
    : list task_row :=
  (fun r => if p r then f r else r) <$> rows.

Definition claim_row (stamp : string) (r : task_row) : task_row :=
  mkTaskRow (tr_id r) (tr_node_id r) (tr_kind r) (tr_payload_json r) TaskStatusRunning
    (tr_result_json r) (tr_error r) (tr_created_at r) (Some stamp) (tr_completed_at r).

Definition queued_for (nodeID : string) (r : task_row) : bool :=
  (tr_node_id r =?s nodeID) && (tr_status r =?s TaskStatusQueued).

Definition ClaimNextTask (d : db) (nodeID : string) (now : time) : res (option Task) * db :=
  match find_task (queued_for nodeID) (db_tasks d) with
  | None => (Ok None, d)
  | Some r =>
      let stamp := formatTime now in
      (let? t := scanTask (claim_row stamp r) in Ok (Some t),
       set_tasks d (update_where (fun x => tr_id x =? tr_id r) (claim_row stamp) (db_tasks d))
         (db_next_id d))
  end.

Definition complete_row (req : TaskResultRequest) (stamp : string) (r : task_row) : task_row :=
  mkTaskRow (tr_id r) (tr_node_id r) (tr_kind r) (tr_payload_json r) (tres_Status req)
    (marshalStringMap (tres_Result req)) (tres_Error req) (tr_created_at r) (tr_started_at r) (Some stamp).

Definition claimed_by (nodeID : string) (taskID : Z) (r : task_row) : bool :=
  (tr_id r =? taskID) && (tr_node_id r =?s nodeID) && (tr_status r =?s TaskStatusRunning).

(** The [UPDATE] of [CompleteTask]: the number of rows it changed. *)
Definition complete_update (d : db) (nodeID : string) (taskID : Z) (req : TaskResultRequest) (now : time)
    : res nat * db :=
  let affected := length (filter (fun r => claimed_by nodeID taskID r = true) (db_tasks d)) in
  if negb (affected =? 0)%nat && negb (check_task_status (tres_Status req)) then (Err ErrOther, d)
  else
    (Ok affected,
     set_tasks d (update_where (claimed_by nodeID taskID) (complete_row req (formatTime now)) (db_tasks d))
       (db_next_id d)).

Definition CompleteTask (d : db) (nodeID : string) (taskID : Z) (req : TaskResultRequest) (now : time)
    : res Task * db :=
  let refused :=
    match GetTaskForNode d nodeID taskID with
    | Ok task =>
        if task_Kind task =?s TaskProfileApply then ValidateProfileApplyTaskResult task req else Ok tt
    | Err _ => Ok tt
    end in
  match refused with
  | Err e => (Err e, d)
  | Ok _ =>
      match complete_update d nodeID taskID req now with
      | (Err e, d') => (Err e, d')
      | (Ok n, d') => if negb (n =? 1)%nat then (Err ErrTaskNotClaimed, d') else (GetTask d' taskID, d')
      end
  end.
