(* ===== verification/Service.v ===== *)
(** * The service: [internal/agenthub/service.go]

    The policy above the repository: node tokens, heartbeats, profiles and
    tasks.  Every method is a function of the database and of the readings of
    the hub's clock, in the order the method takes them; [currentTime] is read
    again for each use, so a method that uses it twice takes two readings.
    [RegisterNode] takes the 32 random bytes the source draws from
    [crypto/rand]. *)

From stdpp Require Import base strings gmap list.
From Stdlib Require Import ZArith Lia.
From S2P Require Import Prelude GoStrings GoSha256 HubTypes TaskGate Profile TaskResult Heartbeat.
From S2P Require Import IntegrationStatus Metrics Repository.
Local Open Scope Z_scope.
Local Open Scope hub_scope.

(** Continue with the value of a method that only reads. *)
Definition reading {A B} (r : res A) (d : db) (k : A -> res B * db) : res B * db :=
  match r with
  | Ok a => k a
  | Err e => (Err e, d)
  end.

(** ** Nodes *)

Definition RegisterNode (d : db) (req : RegisterNodeRequest) (rawToken : list Z) (now : time)
    : res RegisterNodeResponse * db :=
  reading (validateRegisterNodeRequest req) d (fun _ =>
    let token := hex_encode rawToken in
    match CreateNode d req (sha256_hex token) now with
    | (Err e, d') => (Err e, d')
    | (Ok node, d') => (Ok (mkRegistered node token), d')
    end).

Definition AuthenticateNode (d : db) (nodeID token : string) : res Node :=
  if negb (validNodeID nodeID) || (token =?s "") then Err ErrUnauthorized
  else AuthenticateToken d nodeID token.

Definition ValidateHeartbeat (req : HeartbeatRequest) (now : time) : res unit :=
  if negb (hb_ProtocolVersion req =?s ProtocolVersion) then Err ErrUnsupportedProtocol
  else
    let? _ := validateHeartbeatFields req in
    if HeartbeatFreshnessWindow <? heartbeatAge now (hb_SentAt req) then Err ErrStaleHeartbeat
    else Ok tt.

Definition Heartbeat (d : db) (nodeID token : string) (req : HeartbeatRequest) (now : time)
    : res HeartbeatResponse * db :=
  if negb (validNodeID nodeID) || negb (hb_NodeID req =?s nodeID) then (Err ErrUnauthorized, d)
  else
    reading (AuthenticateNode d nodeID token) d (fun _ =>
    if negb (hb_ProtocolVersion req =?s ProtocolVersion) then (Err ErrUnsupportedProtocol, d)
    else
      reading (validateHeartbeatFields req) d (fun _ =>
      if HeartbeatFreshnessWindow <? heartbeatAge now (hb_SentAt req) then (Err ErrStaleHeartbeat, d)
      else
        match UpdateHeartbeat d nodeID req now with
        | (Err e, d') => (Err e, d')
        | (Ok _, d') => (Ok (mkHeartbeatResponse true now), d')
        end)).

Definition ListNodes (d : db) : res (list Node) := Repository.ListNodes d.

Definition GetNode (d : db) (id : string) : res Node :=
  if negb (validNodeID id) then Err ErrNotFound else Repository.GetNode d id.

Definition IsNodeOnline (node : Node) (now : time) : bool :=
  match node_LastSeenAt node with
  | None => false
  | Some seen => let age := Sub now seen in (0 <=? age) && (age <=? NodeOnlineWindow)
  end.

(** ** Profiles *)

Definition GetNodeProfile (d : db) (nodeID : string) (now : time) : res AgentProfileResponse :=
  let? node := GetNode d nodeID in
  let? record := Repository.GetNodeProfile d nodeID in
  let? observation := GetNodeProfileObservation d nodeID in
  let? latestTask := GetLatestProfileApplyTask d nodeID in
  Ok (profileResponse record node (IsNodeOnline node now) observation latestTask).

Definition UpdateNodeProfile (d : db) (nodeID : string) (profile : AgentProfile) (expectedRevision : Z)
    (saved read : time) : res AgentProfileResponse * db :=
  reading (GetNode d nodeID) d (fun _ =>
    if expectedRevision <? 0 then (Err ErrInvalidInput, d)
    else
      reading (NormalizeAgentProfile profile) d (fun _ =>
        match SaveNodeProfile d nodeID profile expectedRevision saved with
        | (Err e, d') => (Err e, d')
        | (Ok _, d') => (GetNodeProfile d' nodeID read, d')
        end)).

(** Whether an observation reports [state] at [revision]. *)
Definition observed_as (observation : option AgentProfileObservationRecord) (state : string) (revision : Z)
    : bool :=
  match observation with
  | Some o => (orec_State o =?s state) && (orec_Revision o =? revision)
  | None => false
  end.

(** A completed task of this revision that still awaits its heartbeat. *)
Definition awaiting_receipt (latestTask : option Task)
    (observation : option AgentProfileObservationRecord) (expectedRevision : Z) : option Task :=
  match latestTask with
  | Some t =>
      if task_Status t =?s TaskStatusCompleted then
        match profileApplyPayloadRevisionFromTask t with
        | Ok taskRevision =>
            if (taskRevision =? expectedRevision)
               && negb (observed_as observation ProfileObservationFailed expectedRevision)
            then Some t else None
        | Err _ => None
        end
      else None
  | None => None
  end.

Definition ApplyNodeProfile (d : db) (nodeID : string) (expectedRevision : Z) (checked written : time)
    : res (option Task) * db :=
  if negb (validNodeID nodeID) then (Err ErrNotFound, d)
  else if expectedRevision <? 1 then (Err ErrInvalidInput, d)
  else
    reading (Repository.GetNode d nodeID) d (fun node =>
    reading (Repository.GetNodeProfile d nodeID) d (fun record =>
    if negb (rec_Configured record) then (Err ErrProfileNotConfigured, d)
    else if negb (rec_Revision record =? expectedRevision) then (Err ErrProfileRevisionStale, d)
    else if negb (hasCapability (node_Capabilities node) CapabilityProfileApply)
    then (Err ErrCapabilityUnavailable, d)
    else
      reading (GetNodeProfileObservation d nodeID) d (fun observation =>
      if observed_as observation ProfileObservationApplied expectedRevision then (Ok None, d)
      else if negb (IsNodeOnline node checked) then (Err ErrNodeOffline, d)
      else
        reading (GetLatestProfileApplyTask d nodeID) d (fun latestTask =>
        match awaiting_receipt latestTask observation expectedRevision with
        | Some t => (Ok (Some t), d)
        | None => CreateProfileApplyTask d nodeID expectedRevision (rec_Profile record) written
        end)))).

(** ** Enqueueing *)

(** The first task of a list a test selects, as the coalescing loops do. *)
Definition pending (t : Task) : bool := in_flight_status (task_Status t).

Definition same_ensure (req : TaskRequest) (t : Task) : bool :=
  (task_Kind t =?s TaskDeployDomainAction) && pending t
  && (get (task_Payload t) "action" =?s "ensure")
  && (get (task_Payload t) "target" =?s get (req_Payload req) "target")
  && (get (task_Payload t) "domain" =?s get (req_Payload req) "domain").

Section Enqueue.
Context `{UnicodeTables}.

Definition enqueueDeployDomainEnsure (d : db) (nodeID : string) (req : TaskRequest)
    (checked written : time) : res Task * db :=
  reading (ValidateTaskRequest req) d (fun _ =>
  if negb (validNodeID nodeID) then (Err ErrNotFound, d)
  else
    reading (Repository.GetNode d nodeID) d (fun node =>
    if negb (hasCapability (node_Capabilities node) CapabilityDeployDomainAction)
    then (Err ErrCapabilityUnavailable, d)
    else if negb (IsNodeOnline node checked) then (Err ErrNodeOffline, d)
    else
      reading (ListTasksForNode d nodeID 50) d (fun tasks =>
      match find (same_ensure req) tasks with
      | Some task =>
          if negb (get (task_Payload task) "expected_revision"
                   =?s get (req_Payload req) "expected_revision")
          then (Err ErrDeployDomainEnsureConflict, d)
          else (Ok task, d)
      | None => CreateTask d nodeID req written
      end))).

Definition EnqueueTask (d : db) (nodeID : string) (req : TaskRequest) (checked written : time)
    : res Task * db :=
  if (req_Kind req =?s TaskDeployDomainAction) && (get (req_Payload req) "action" =?s "ensure")
  then enqueueDeployDomainEnsure d nodeID req checked written
  else if negb (validNodeID nodeID) then (Err ErrNotFound, d)
  else
    reading (Repository.GetNode d nodeID) d (fun node =>
    reading (ValidateTaskRequest req) d (fun _ =>
    let required := capabilityForTask (req_Kind req) in
    if negb (required =?s "") && negb (hasCapability (node_Capabilities node) required)
    then (Err ErrCapabilityUnavailable, d)
    else if negb (IsNodeOnline node checked) then (Err ErrNodeOffline, d)
    else CreateTask d nodeID req written)).

Definition ensure_payload (targetID domain expectedRevision : string) : gmap string string :=
  <["target" := targetID]> (<["domain" := domain]> (<["action" := "ensure"]>
    {["expected_revision" := if expectedRevision =?s "" then "absent" else expectedRevision]})).

Definition EnqueueDeployDomainEnsure (d : db) (nodeID targetID domain expectedRevision : string)
    (checked written : time) : res Task * db :=
  EnqueueTask d nodeID (mkTaskRequest TaskDeployDomainAction (ensure_payload targetID domain expectedRevision))
    checked written.

End Enqueue.

(** [EnqueueIntegrationStatusTask] and [EnqueueMetricsTask] differ in the kind
    and the capability only. *)
Definition enqueue_coalesced (kind capability : string) (d : db) (nodeID : string)
    (checked written : time) : res Task * db :=
  if negb (validNodeID nodeID) then (Err ErrNotFound, d)
  else
    reading (Repository.GetNode d nodeID) d (fun node =>
    if negb (hasCapability (node_Capabilities node) capability) then (Err ErrCapabilityUnavailable, d)
    else if negb (IsNodeOnline node checked) then (Err ErrNodeOffline, d)
    else
      reading (ListTasksForNode d nodeID 50) d (fun tasks =>
      match find (fun t => (task_Kind t =?s kind) && pending t) tasks with
      | Some task => (Ok task, d)
      | None => CreateTask d nodeID (mkTaskRequest kind ∅) written
      end)).

Definition EnqueueIntegrationStatusTask : db -> string -> time -> time -> res Task * db :=
  enqueue_coalesced TaskIntegrationStatus CapabilityIntegrationStatus.

Definition EnqueueMetricsTask : db -> string -> time -> time -> res Task * db :=
  enqueue_coalesced TaskMetricsRead CapabilityMetricsRead.

(** ** Reading tasks *)

Definition GetTaskForNode (d : db) (nodeID : string) (taskID : Z) : res Task :=
  if negb (validNodeID nodeID) || (taskID <=? 0) then Err ErrNotFound
  else Repository.GetTaskForNode d nodeID taskID.

Definition clamp_limit (limit : Z) : Z :=
  let limit := if limit <=? 0 then 20 else limit in
  if 50 <? limit then 50 else limit.

Definition ListTasksForNode (d : db) (nodeID : string) (limit : Z) : res (list Task) :=
  if negb (validNodeID nodeID) then Err ErrNotFound
  else
    let? _ := Repository.GetNode d nodeID in
    Repository.ListTasksForNode d nodeID (clamp_limit limit).

(** ** The agent's side *)

Definition PollTaskForNode (d : db) (nodeID : string) (now : time) : res (option Task) * db :=
  if negb (validNodeID nodeID) then (Err ErrUnauthorized, d) else ClaimNextTask d nodeID now.

Definition PollTask (d : db) (nodeID token : string) (now : time) : res (option Task) * db :=
  reading (AuthenticateNode d nodeID token) d (fun _ => PollTaskForNode d nodeID now).

Definition result_for_kind (task : Task) (req : TaskResultRequest) (now : time) : res unit :=
  let? _ := if task_Kind task =?s TaskIntegrationStatus
            then ValidateIntegrationStatusTaskResult req else Ok tt in
  let? _ := if task_Kind task =?s TaskMetricsRead then ValidateMetricsTaskResult req now else Ok tt in
  if task_Kind task =?s TaskProfileApply then ValidateProfileApplyTaskResult task req else Ok tt.

Definition CompleteTaskForNode (d : db) (nodeID : string) (taskID : Z) (req : TaskResultRequest)
    (checked written : time) : res Task * db :=
  if negb (validNodeID nodeID) then (Err ErrUnauthorized, d)
  else if taskID <=? 0 then (Err ErrInvalidInput, d)
  else
    reading (ValidateTaskResultRequest req) d (fun _ =>
    match Repository.GetTaskForNode d nodeID taskID with
    | Err ErrNotFound => Repository.CompleteTask d nodeID taskID req written
    | Err e => (Err e, d)
    | Ok task =>
        reading (result_for_kind task req checked) d (fun _ =>
        Repository.CompleteTask d nodeID taskID req written)
    end).

Definition CompleteTask (d : db) (nodeID token : string) (taskID : Z) (req : TaskResultRequest)
    (checked written : time) : res Task * db :=
  reading (AuthenticateNode d nodeID token) d (fun _ =>
    CompleteTaskForNode d nodeID taskID req checked written).
