(* ===== verification/HubSystem.v ===== *)
(** * What the hub promises about tasks: an abstract job board

    The contract between the panel, the hub and the agents, without SQL, JSON
    or clocks.  Jobs are appended with growing ids; a node receives its oldest
    queued job; a job is finished once, by the node that received it; a kind
    that is exclusive has at most one unfinished job per node.  [HubRefines]
    proves that the steps of the hub are steps of this board. *)

From stdpp Require Import base strings list sets gmap sorting.
From Stdlib Require Import ZArith Lia.
From S2P Require Import Prelude GoStrings GoBase64 GoJson GoTime HubTypes TaskGate Profile TaskResult Heartbeat Repository.
Local Open Scope Z_scope.
Local Open Scope hub_scope.

Inductive phase : Type := Waiting | Working | Done.

#[export] Instance phase_eq_dec : EqDecision phase.
Proof. solve_decision. Defined.

Record job : Type := mkJob {
  job_id : Z;
  job_node : string;
  job_kind : string;
  job_payload : string;
  job_phase : phase
}.

Definition set_phase (j : job) (p : phase) : job :=
  mkJob (job_id j) (job_node j) (job_kind j) (job_payload j) p.

(** What a step shows: the job a node received, or the job it finished. *)
Inductive event : Type :=
| Silent
| Claimed (node : string) (id : Z)
| Finished (node : string) (id : Z).

Section Board.
(** The kinds of which a node has at most one unfinished job. *)
Variable exclusive : string -> Prop.

Inductive board_step : list job -> event -> list job -> Prop :=
| board_skip b : board_step b Silent b
| board_enqueue b j :
    job_phase j = Waiting -> Forall (fun i => job_id i < job_id j) b ->
    (exclusive (job_kind j) ->
     Forall (fun i => job_node i = job_node j -> job_kind i = job_kind j -> job_phase i = Done) b) ->
    board_step b Silent (b ++ [j])
| board_claim b1 j b2 :
    job_phase j = Waiting ->
    Forall (fun i => job_node i = job_node j -> job_phase i <> Waiting) b1 ->
    board_step (b1 ++ j :: b2) (Claimed (job_node j) (job_id j)) (b1 ++ set_phase j Working :: b2)
| board_finish b1 j b2 :
    job_phase j = Working ->
    board_step (b1 ++ j :: b2) (Finished (job_node j) (job_id j)) (b1 ++ set_phase j Done :: b2).

Inductive board_steps : list job -> list event -> list job -> Prop :=
| board_refl b : board_steps b [] b
| board_cons b e b1 es b2 : board_step b e b1 -> board_steps b1 es b2 -> board_steps b (e :: es) b2.

Definition board_sorted (b : list job) : Prop := StronglySorted Z.lt (job_id <$> b).

(** The jobs a node received, and the jobs finished, in order. *)
Definition claims (node : string) (es : list event) : list Z :=
  omap (fun e => match e with Claimed n i => if decide (n = node) then Some i else None | _ => None end) es.

Definition finishes (es : list event) : list Z :=
  omap (fun e => match e with Finished _ i => Some i | _ => None end) es.

(** ** Order of ids *)

Lemma sorted_app_inv (l1 l2 : list Z) x :
  StronglySorted Z.lt (l1 ++ x :: l2) ->
  Forall (fun y => y < x) l1 /\ Forall (fun y => x < y) l2.
Proof.
  induction l1 as [|y l1 IH]; simpl; intros Hs; inversion_clear Hs as [|?? Hs' Hf].
  - split; [constructor|done].
  - destruct (IH Hs') as [H1 H2]. split; [|done]. constructor; [|done].
    apply Forall_app in Hf as [_ Hf]. by inversion_clear Hf.
Qed.

Lemma sorted_snoc (l : list Z) x :
  StronglySorted Z.lt l -> Forall (fun y => y < x) l -> StronglySorted Z.lt (l ++ [x]).
Proof.
  induction 1 as [|y l Hs IH Hy]; intros Hx; simpl; [repeat constructor|].
  inversion_clear Hx. constructor; [by apply IH|]. apply Forall_app. split; [done|by constructor].
Qed.

Lemma ids_set_phase b1 j b2 p : job_id <$> (b1 ++ set_phase j p :: b2) = job_id <$> (b1 ++ j :: b2).
Proof. by rewrite !fmap_app. Qed.

Lemma step_sorted b e b' : board_step b e b' -> board_sorted b -> board_sorted b'.
Proof.
  unfold board_sorted. destruct 1 as [b|b j _ Hlt _|b1 j b2 _ _|b1 j b2 _]; intros Hs;
    rewrite ?ids_set_phase; try done.
  rewrite fmap_app. apply sorted_snoc; [done|]. by apply Forall_fmap.
Qed.

Lemma sorted_around b1 j b2 :
  board_sorted (b1 ++ j :: b2) ->
  Forall (fun i => job_id i < job_id j) b1 /\ Forall (fun i => job_id j < job_id i) b2.
Proof.
  unfold board_sorted. rewrite fmap_app, fmap_cons. intros Hs.
  apply (sorted_app_inv (job_id <$> b1) (job_id <$> b2) (job_id j)) in Hs.
  by rewrite !Forall_fmap in Hs.
Qed.

(** Membership and bounds after one job changed its phase. *)
Lemma elem_changed (b1 b2 : list job) j k p :
  j ∈ b1 ++ set_phase k p :: b2 -> j = set_phase k p \/ j ∈ b1 ++ k :: b2.
Proof. rewrite !elem_of_app, !elem_of_cons. tauto. Qed.

Lemma elem_middle (b1 b2 : list job) k : k ∈ b1 ++ k :: b2.
Proof. set_solver. Qed.

Lemma below_changed (b1 b2 : list job) k p i :
  Forall (fun j => job_id j < i) (b1 ++ set_phase k p :: b2) -> Forall (fun j => job_id j < i) (b1 ++ k :: b2).
Proof. rewrite !Forall_app, !Forall_cons. done. Qed.

(** What is above every id after a step was above every id before it. *)
Lemma below_before b e b' i :
  board_step b e b' -> Forall (fun j => job_id j < i) b' -> Forall (fun j => job_id j < i) b.
Proof. destruct 1; [done| |apply below_changed..]. by intros [? _]%Forall_app. Qed.

(** ** Each node receives its jobs in the order of their ids *)

(** A job received later is waiting now, or not yet on the board. *)
Lemma claims_source b es b' node i :
  board_steps b es b' -> i ∈ claims node es ->
  (exists j, j ∈ b /\ job_id j = i /\ job_node j = node /\ job_phase j = Waiting)
  \/ Forall (fun j => job_id j < i) b.
Proof.
  induction 1 as [b|b e b1 es b2 Hstep _ IH]; [by intros ?%not_elem_of_nil|]. intros Hi.
  assert ((exists b1 j b2, b = b1 ++ j :: b2 /\ e = Claimed node i /\ job_id j = i /\ job_node j = node
           /\ job_phase j = Waiting) \/ i ∈ claims node es) as [(l1 & j & l2 & -> & _ & ? & ? & ?)|Hlater].
  { unfold claims in *. destruct Hstep as [|b j|l1 j l2 Hw Hb|l1 j l2]; simpl in Hi; try by right.
    case_decide; [|by right]. apply elem_of_cons in Hi as [->|Hi]; [|by right]. left. subst. by eexists _, _, _. }
  { left. exists j. split_and!; try done. apply elem_middle. }
  destruct (IH Hlater) as [(j & Hj & Hid & Hn & Hw)|Hall]; clear IH Hi Hlater.
  - destruct Hstep as [b|b k Hk Hlt _|l1 k l2 Hk Hfirst|l1 k l2 Hk].
    + left. by exists j.
    + apply elem_of_app in Hj as [Hj| ->%list_elem_of_singleton]; [left; by exists j|]. right. by subst i.
    + apply elem_changed in Hj as [->|Hj]; [done|]. left. by exists j.
    + apply elem_changed in Hj as [->|Hj]; [done|]. left. by exists j.
  - right. by eapply below_before.
Qed.

Lemma claims_increasing b es b' node :
  board_steps b es b' -> board_sorted b -> StronglySorted Z.lt (claims node es).
Proof.
  induction 1 as [b|b e b1 es b2 Hstep Hsteps IH]; intros Hs; [constructor|].
  pose proof (IH (step_sorted _ _ _ Hstep Hs)) as IHs. clear IH.
  destruct Hstep as [b|b k Hk Hlt _|l1 k l2 Hk Hfirst|l1 k l2 Hk]; try exact IHs.
  unfold claims at 1. simpl. case_decide as Hn; [|exact IHs]. constructor; [exact IHs|].
  apply Forall_forall. intros i Hi. apply sorted_around in Hs as [_ Hafter].
  destruct (claims_source _ _ _ _ _ Hsteps Hi) as [(j & Hj & Hid & Hjn & Hw)|Hall].
  - apply elem_of_app in Hj as [Hj|[->|Hj]%elem_of_cons].
    + rewrite Forall_forall in Hfirst. exfalso. apply (Hfirst j Hj); [congruence|done].
    + done.
    + rewrite Forall_forall in Hafter. specialize (Hafter j Hj). simpl in Hafter. lia.
  - apply Forall_app in Hall as [_ Hall]. inversion_clear Hall. done.
Qed.

(** ** A job is finished at most once, after it was received *)

Lemma finishes_source b es b' i :
  board_steps b es b' -> i ∈ finishes es ->
  (exists j, j ∈ b /\ job_id j = i /\ job_phase j <> Done) \/ Forall (fun j => job_id j < i) b.
Proof.
  induction 1 as [b|b e b1 es b2 Hstep _ IH]; [by intros ?%not_elem_of_nil|]. intros Hi.
  assert ((exists b1 j b2, b = b1 ++ j :: b2 /\ job_id j = i /\ job_phase j = Working) \/ i ∈ finishes es)
    as [(l1 & j & l2 & -> & ? & Hw)|Hlater].
  { unfold finishes in *. destruct Hstep as [|b j|l1 j l2 Hw Hb|l1 j l2]; simpl in Hi; try by right.
    apply elem_of_cons in Hi as [->|Hi]; [|by right]. left. by eexists _, _, _. }
  { left. exists j. split_and!; [apply elem_middle|done|by rewrite Hw]. }
  destruct (IH Hlater) as [(j & Hj & Hid & Hw)|Hall]; clear IH Hi Hlater.
  - destruct Hstep as [b|b k Hk Hlt _|l1 k l2 Hk Hfirst|l1 k l2 Hk].
    + left. by exists j.
    + apply elem_of_app in Hj as [Hj| ->%list_elem_of_singleton]; [left; by exists j|]. right. by subst i.
    + left. apply elem_changed in Hj as [->|Hj]; [|by exists j].
      exists k. split_and!; [apply elem_middle|done|by rewrite Hk].
    + apply elem_changed in Hj as [->|Hj]; [done|]. left. by exists j.
  - right. by eapply below_before.
Qed.

Lemma finishes_once b es b' : board_steps b es b' -> board_sorted b -> NoDup (finishes es).
Proof.
  induction 1 as [b|b e b1 es b2 Hstep Hsteps IH]; intros Hs; [constructor|].
  pose proof (IH (step_sorted _ _ _ Hstep Hs)) as IHs. clear IH.
  destruct Hstep as [b|b k Hk Hlt _|l1 k l2 Hk Hfirst|l1 k l2 Hk]; try exact IHs.
  unfold finishes at 1. simpl. constructor; [|exact IHs]. intros Hi.
  apply sorted_around in Hs as [Hbefore Hafter]. rewrite Forall_forall in Hbefore, Hafter.
  destruct (finishes_source _ _ _ _ Hsteps Hi) as [(j & Hj & Hid & Hw)|Hall].
  - apply elem_of_app in Hj as [Hj|[->|Hj]%elem_of_cons]; [|done|].
    + specialize (Hbefore j Hj). simpl in Hbefore. lia.
    + specialize (Hafter j Hj). simpl in Hafter. lia.
  - apply Forall_app in Hall as [_ Hall]. inversion_clear Hall as [|?? Hlt _]. simpl in Hlt. lia.
Qed.

(** A job is being worked on, or it was received before it is finished. *)
Lemma finish_after_claim b es1 node i es2 b' :
  board_steps b (es1 ++ Finished node i :: es2) b' ->
  (exists j, j ∈ b /\ job_id j = i /\ job_node j = node /\ job_phase j = Working)
  \/ Claimed node i ∈ es1.
Proof.
  revert b. induction es1 as [|e es1 IH]; intros b Hs; simpl in Hs; inversion Hs as [|? ? b1 ? ? Hstep Hsteps]; subst.
  - left. inversion Hstep as [| | |l1 j l2 Hw]; subst. exists j. split_and!; try done. set_solver.
  - destruct (IH _ Hsteps) as [(j & Hj & Hid & Hn & Hw)|Hin]; [|right; set_solver].
    destruct Hstep as [b|b k Hk Hlt _|l1 k l2 Hk Hfirst|l1 k l2 Hk].
    + left. by exists j.
    + apply elem_of_app in Hj as [Hj| ->%list_elem_of_singleton]; [left; by exists j|congruence].
    + apply elem_changed in Hj as [->|Hj]; [|left; by exists j]. right. simpl in *. subst. set_solver.
    + apply elem_changed in Hj as [->|Hj]; [done|]. left. by exists j.
Qed.

(** ** Jobs stay on the board, unchanged but for their phase *)

Definition phase_rank (p : phase) : Z := match p with Waiting => 0 | Working => 1 | Done => 2 end.

Definition job_keeps (j j' : job) : Prop :=
  job_id j' = job_id j /\ job_node j' = job_node j /\ job_kind j' = job_kind j
  /\ job_payload j' = job_payload j /\ phase_rank (job_phase j) <= phase_rank (job_phase j').

Lemma job_keeps_refl j : job_keeps j j.
Proof. unfold job_keeps. split_and!; done. Qed.

Lemma elem_kept (b1 b2 : list job) k p j :
  phase_rank (job_phase k) <= phase_rank p -> j ∈ b1 ++ k :: b2 ->
  exists j', j' ∈ b1 ++ set_phase k p :: b2 /\ job_keeps j j'.
Proof.
  intros Hp Hj. apply elem_of_app in Hj as [Hj|[->|Hj]%elem_of_cons].
  - exists j. split; [set_solver|apply job_keeps_refl].
  - exists (set_phase k p). split; [apply elem_middle|]. unfold job_keeps. simpl. split_and!; done.
  - exists j. split; [set_solver|apply job_keeps_refl].
Qed.

Lemma step_keeps b e b' j : board_step b e b' -> j ∈ b -> exists j', j' ∈ b' /\ job_keeps j j'.
Proof.
  destruct 1 as [b|b k|b1 k b2 Hk|b1 k b2 Hk]; intros Hj.
  - exists j. split; [done|apply job_keeps_refl].
  - exists j. split; [set_solver|apply job_keeps_refl].
  - apply elem_kept; [by rewrite Hk|done].
  - apply elem_kept; [by rewrite Hk|done].
Qed.

Lemma steps_keep b es b' j : board_steps b es b' -> j ∈ b -> exists j', j' ∈ b' /\ job_keeps j j'.
Proof.
  intros Hs. revert j. induction Hs as [|b e b1 es b2 Hstep _ IH]; intros j Hj.
  - exists j. split; [done|apply job_keeps_refl].
  - destruct (step_keeps _ _ _ _ Hstep Hj) as (j1 & Hj1 & ? & ? & ? & ? & ?).
    destruct (IH j1 Hj1) as (j2 & Hj2 & ? & ? & ? & ? & ?). exists j2. split; [done|].
    unfold job_keeps. split_and!; try congruence. lia.
Qed.
End Board.

(** ** The interface of an implementation

    A system whose steps show events implements the board when an invariant of
    it holds and its states read as boards such that every step is a board
    step.  What follows is proved for every implementation. *)

Inductive runs {St : Type} (step : St -> event -> St -> Prop) (s : St) : list event -> St -> Prop :=
| runs_refl : runs step s [] s
| runs_cons e s1 es s2 : step s e s1 -> runs step s1 es s2 -> runs step s (e :: es) s2.

Class BoardQueue {St : Type} (exclusive : string -> Prop) (step : St -> event -> St -> Prop) := {
  queue_inv : St -> Prop;
  queue_board : St -> list job;
  queue_keeps s e s' : step s e s' -> queue_inv s -> queue_inv s';
  queue_step s e s' : queue_inv s -> step s e s' -> board_step exclusive (queue_board s) e (queue_board s')
}.

Section Queue.
Context {St : Type} {exclusive : string -> Prop} {step : St -> event -> St -> Prop}.
Context `{Q : !BoardQueue exclusive step}.

Lemma runs_app s es s1 es' s2 : runs step s es s1 -> runs step s1 es' s2 -> runs step s (es ++ es') s2.
Proof using Type. induction 1; simpl; [done|]. intros. econstructor; eauto. Qed.

Lemma queue_runs_inv s es s' : runs step s es s' -> queue_inv s -> queue_inv s'.
Proof. induction 1; eauto using queue_keeps. Qed.

Lemma queue_refines s es s' :
  queue_inv s -> runs step s es s' -> board_steps exclusive (queue_board s) es (queue_board s').
Proof.
  intros Hi Hs. induction Hs as [|s e s1 es s2 Hstep _ IH]; [constructor|].
  econstructor; [by apply queue_step|]. apply IH. by eapply queue_keeps.
Qed.

Lemma queue_fifo s es s' node :
  queue_inv s -> queue_board s = [] -> runs step s es s' -> StronglySorted Z.lt (claims node es).
Proof.
  intros Hi Hb Hs. eapply claims_increasing; [by apply queue_refines|]. rewrite Hb. constructor.
Qed.

Lemma queue_finish_once s es s' :
  queue_inv s -> queue_board s = [] -> runs step s es s' ->
  NoDup (finishes es) /\ forall es1 node i es2, es = es1 ++ Finished node i :: es2 -> Claimed node i ∈ es1.
Proof.
  intros Hi Hb Hs%queue_refines; [|done]. rewrite Hb in Hs. split.
  - eapply finishes_once; [exact Hs|constructor].
  - intros es1 node i es2 ->. destruct (finish_after_claim _ _ _ _ _ _ _ Hs) as [(j & Hj & _)|Hin]; [|done].
    by apply not_elem_of_nil in Hj.
Qed.

Lemma queue_keeps_jobs s es s' j :
  queue_inv s -> runs step s es s' -> j ∈ queue_board s -> exists j', j' ∈ queue_board s' /\ job_keeps j j'.
Proof. intros Hi Hs. eapply steps_keep. by apply queue_refines. Qed.
End Queue.

(** ** The hub as a transition system

    The atomic writes of the repository (one SQL statement or transaction
    each), as the service issues them, are the steps of a transition system on
    the database.  The writes of concurrent requests interleave in any order;
    what every reachable state satisfies therefore holds for every
    interleaving of service calls.  [ServiceFacts] shows that a service call
    performs such steps only. *)

(** The event of a claim and of a completion: the task handed to
    the node, or the task whose result is recorded. *)
Definition claim_event (d : db) (nodeID : string) : event :=
  match find_task (queued_for nodeID) (db_tasks d) with
  | Some r => Claimed nodeID (tr_id r)
  | None => Silent
  end.

Definition finish_event (d : db) (nodeID : string) (taskID : Z) : event :=
  if existsb (claimed_by nodeID taskID) (db_tasks d) then Finished nodeID taskID else Silent.

Section System.
Context `{UnicodeTables}.

(** The requests of a step come from validated, JSON-decoded input (so their
    strings are UTF-8) and the clock reads a year of four digits. *)
Inductive hub_step (d : db) : event -> db -> Prop :=
| step_register req hash now :
    clock_ok now = true -> hub_step d Silent (CreateNode d req hash now).2
| step_heartbeat nodeID req now :
    clock_ok now = true -> hub_step d Silent (UpdateHeartbeat d nodeID req now).2
| step_save_profile nodeID p revision now :
    revision <= max_int64 -> clock_ok now = true ->
    hub_step d Silent (SaveNodeProfile d nodeID p revision now).2
| step_observe nodeID o now :
    clock_ok now = true -> hub_step d Silent (UpsertNodeProfileObservation d nodeID o now).2
| step_clear nodeID : hub_step d Silent (ClearNodeProfileObservation d nodeID).2
| step_create nodeID req now :
    ValidateTaskRequest req = Ok tt -> utf8_map (req_Payload req) -> clock_ok now = true ->
    hub_step d Silent (CreateTask d nodeID req now).2
| step_apply nodeID revision p now :
    revision <= max_int64 -> clock_ok now = true ->
    hub_step d Silent (CreateProfileApplyTask d nodeID revision p now).2
| step_claim nodeID now :
    clock_ok now = true -> hub_step d (claim_event d nodeID) (ClaimNextTask d nodeID now).2
| step_finish nodeID taskID req now :
    ValidateTaskResultRequest req = Ok tt -> utf8_map (tres_Result req) -> clock_ok now = true ->
    hub_step d (finish_event d nodeID taskID) (complete_update d nodeID taskID req now).2.

(** Executions with their events. *)
Definition hub_steps : db -> list event -> db -> Prop := runs hub_step.

Definition reachable (d : db) : Prop := exists es, hub_steps Migrate es d.

(** ** The invariant *)

Definition stamp_ok (s : string) : Prop := exists t, clock_ok t = true /\ s = formatTime t.

(** Which of the two later timestamps a status goes with. *)
Definition times_ok (r : task_row) : Prop :=
  match tr_started_at r, tr_completed_at r with
  | None, None => tr_status r = TaskStatusQueued
  | Some s, None => tr_status r = TaskStatusRunning /\ stamp_ok s
  | Some s, Some c =>
      (tr_status r = TaskStatusCompleted \/ tr_status r = TaskStatusFailed) /\ stamp_ok s /\ stamp_ok c
  | None, Some _ => False
  end.

(** The payload of a task: a profile document of its revision, or a request
    the gate admitted. *)
Definition payload_ok (r : task_row) : Prop :=
  (tr_kind r = TaskProfileApply /\ exists p rev q doc,
     canonicalProfileApplyDocument p rev = Ok (q, doc) /\ rev <= max_int64
     /\ tr_payload_json r = marshalStringMap (apply_payload (EncodeToString doc) (Itoa rev)))
  \/ (exists m, ValidateTaskRequest (mkTaskRequest (tr_kind r) m) = Ok tt /\ utf8_map m
        /\ tr_kind r <> TaskProfileApply /\ tr_payload_json r = marshalStringMap m).

Record task_row_ok (r : task_row) : Prop := {
  row_times : times_ok r;
  row_created : stamp_ok (tr_created_at r);
  row_payload : payload_ok r;
  row_result : exists m, utf8_map m /\ tr_result_json r = marshalStringMap m
}.

Definition profile_row_ok (row : profile_row) : Prop :=
  1 <= pr_revision row <= max_int64
  /\ exists p, normal_profile p /\ pr_profile_json row = marshal (profile_json p)
       /\ exists doc, canonicalProfileApplyDocument p (pr_revision row) = Ok (p, doc).

Definition observation_row_ok (o : observation_row) : Prop :=
  check_observation o = true /\ stamp_ok (or_updated_at o).

Definition applies_in_flight (d : db) (nodeID : string) : list task_row :=
  filter (fun r => apply_in_flight nodeID r = true) (db_tasks d).

Record hub_inv (d : db) : Prop := {
  inv_next : 1 <= db_next_id d <= max_int64 + 1;
  inv_ids : Forall (fun r => 1 <= tr_id r < db_next_id d) (db_tasks d);
  inv_sorted : StronglySorted Z.lt (tr_id <$> db_tasks d);
  inv_rows : Forall task_row_ok (db_tasks d);
  inv_task_nodes : Forall (fun r => is_Some (db_nodes d !! tr_node_id r)) (db_tasks d);
  inv_profiles : map_Forall (fun id row => is_Some (db_nodes d !! id) /\ profile_row_ok row) (db_profiles d);
  inv_observations :
    map_Forall (fun id o => is_Some (db_nodes d !! id) /\ observation_row_ok o) (db_observations d);
  inv_single_flight : forall nodeID, (length (applies_in_flight d nodeID) <= 1)%nat
}.

Lemma inv_init : hub_inv Migrate.
Proof.
  split; try apply map_Forall_empty; try constructor; try done; simpl; lia.
Qed.

(** *** Writes that leave the task table alone *)

Lemma inv_set_nodes d nodes :
  (forall id, is_Some (db_nodes d !! id) -> is_Some (nodes !! id)) -> hub_inv d -> hub_inv (set_nodes d nodes).
Proof.
  intros Hn [? ? ? ? Ht Hp Ho ?]. split; simpl; try done.
  - eapply Forall_impl; [exact Ht|]. simpl. auto.
  - intros id row Hrow. destruct (Hp id row Hrow). auto.
  - intros id row Hrow. destruct (Ho id row Hrow). auto.
Qed.

Lemma inv_set_observations d id o :
  is_Some (db_nodes d !! id) -> observation_row_ok o -> hub_inv d ->
  hub_inv (set_observations d (<[id := o]> (db_observations d))).
Proof. intros Hid Ho []. split; simpl; try done. by apply map_Forall_insert_2. Qed.

Lemma inv_delete_observation d id : hub_inv d -> hub_inv (set_observations d (delete id (db_observations d))).
Proof. intros []. split; simpl; try done. by apply map_Forall_delete. Qed.

Lemma inv_write_profile d id p rev doc stamp :
  is_Some (db_nodes d !! id) -> normal_profile p -> canonicalProfileApplyDocument p rev = Ok (p, doc) ->
  rev <= max_int64 -> hub_inv d -> hub_inv (write_profile d id p rev stamp).
Proof.
  intros Hid Hp Hdoc Hr []. split; simpl; try done. apply map_Forall_insert_2; [|done].
  split; [done|]. apply canonical_ok in Hdoc as Hc. split; [simpl; lia|]. exists p. split_and!; [done..|by exists doc].
Qed.

(** A node row may be replaced. *)
Lemma nodes_insert_mono (nodes : gmap string node_row) id row x :
  is_Some (nodes !! x) -> is_Some (<[id := row]> nodes !! x).
Proof. rewrite lookup_insert_is_Some'. auto. Qed.

(** The codes the validator admits are those the column admits. *)
Lemma check_observation_valid o stamp :
  validateAgentProfileObservation (Some o) = Ok tt -> check_observation (observation_of o stamp) = true.
Proof.
  unfold validateAgentProfileObservation. intros Hv. inv_ok Hv. breflect.
  unfold check_observation, observation_of. simpl or_state. simpl or_revision. simpl or_error_code.
  apply andb_true_iff. split; [apply andb_true_iff; split|].
  - assumption.
  - by apply Z.leb_le.
  - assumption.
Qed.

(** *** Writes to the task table *)

Definition new_row (d : db) (nodeID kind payload stamp : string) : task_row :=
  mkTaskRow (db_next_id d) nodeID kind payload TaskStatusQueued "{}" "" stamp None None.

Lemma insert_task_cases d nodeID kind payload stamp :
  (exists e, insert_task d nodeID kind payload stamp = (Err e, d))
  \/ (is_Some (db_nodes d !! nodeID) /\ db_next_id d <= max_int64
      /\ insert_task d nodeID kind payload stamp
         = (Ok (db_next_id d),
            set_tasks d (db_tasks d ++ [new_row d nodeID kind payload stamp]) (db_next_id d + 1))).
Proof.
  unfold insert_task. destruct (db_nodes d !! nodeID); [|by left; eexists].
  destruct (Z.ltb_spec max_int64 (db_next_id d)); [by left; eexists|]. right. by split_and!.
Qed.

Lemma empty_map_json : marshalStringMap ∅ = "{}".
Proof. vm_compute. reflexivity. Qed.

Lemma utf8_map_empty : utf8_map ∅.
Proof. intros k v Hk. by rewrite lookup_empty in Hk. Qed.

Lemma new_row_ok d nodeID kind payload now :
  clock_ok now = true -> payload_ok (new_row d nodeID kind payload (formatTime now)) ->
  task_row_ok (new_row d nodeID kind payload (formatTime now)).
Proof.
  intros Hc Hp. split; [done| |done|].
  - by exists now.
  - exists ∅. split; [apply utf8_map_empty|]. by rewrite empty_map_json.
Qed.

Lemma inv_insert d nodeID kind payload now :
  is_Some (db_nodes d !! nodeID) -> db_next_id d <= max_int64 -> clock_ok now = true ->
  payload_ok (new_row d nodeID kind payload (formatTime now)) ->
  (kind = TaskProfileApply -> applies_in_flight d nodeID = []) ->
  hub_inv d ->
  hub_inv (set_tasks d (db_tasks d ++ [new_row d nodeID kind payload (formatTime now)]) (db_next_id d + 1)).
Proof.
  intros Hn Hmax Hc Hp Hfree [Hnext Hids Hsort Hrows Hnodes ? ? Hsingle]. split; simpl; try done; try lia.
  - apply Forall_app. split; [|constructor; [simpl; lia|done]].
    eapply Forall_impl; [exact Hids|]. simpl. intros; lia.
  - rewrite fmap_app. apply sorted_snoc; [done|]. apply Forall_fmap.
    eapply Forall_impl; [exact Hids|]. simpl. intros; lia.
  - apply Forall_app. split; [done|]. constructor; [by apply new_row_ok|done].
  - apply Forall_app. split; [done|]. by constructor.
  - intros n. unfold applies_in_flight in *. simpl. rewrite filter_app, length_app.
    rewrite filter_cons, filter_nil. case_decide as Ha; simpl; [|specialize (Hsingle n); lia].
    unfold apply_in_flight in Ha. simpl in Ha. breflect. subst. rewrite Hfree by done. simpl. lia.
Qed.

(** A row and its successor: the status moves forward, nothing else that
    identifies the task changes. *)
Definition rank (status : string) : Z :=
  if status =?s TaskStatusQueued then 0 else if status =?s TaskStatusRunning then 1 else 2.

Record row_moves (r r' : task_row) : Prop := {
  moves_id : tr_id r' = tr_id r;
  moves_node : tr_node_id r' = tr_node_id r;
  moves_kind : tr_kind r' = tr_kind r;
  moves_payload : tr_payload_json r' = tr_payload_json r;
  moves_rank : rank (tr_status r) < rank (tr_status r')
}.

Definition moves_where (p : task_row -> bool) (f : task_row -> task_row) (rows : list task_row) : Prop :=
  Forall (fun r => p r = true -> row_moves r (f r) /\ task_row_ok (f r)) rows.

Lemma apply_in_flight_moves nodeID r r' :
  row_moves r r' -> task_row_ok r -> apply_in_flight nodeID r' = true -> apply_in_flight nodeID r = true.
Proof.
  intros [_ Hn Hk _ Hr] [Ht _ _ _]. unfold apply_in_flight. rewrite Hn, Hk.
  destruct (tr_node_id r =?s nodeID); [|done]. destruct (tr_kind r =?s TaskProfileApply); [|done]. simpl.
  revert Hr Ht. unfold rank, times_ok, in_flight_status.
  destruct (tr_status r =?s TaskStatusQueued); [done|].
  destruct (tr_status r =?s TaskStatusRunning); [done|].
  repeat case_match; try lia; done.
Qed.

Lemma filter_update_length nodeID p f rows :
  Forall task_row_ok rows -> moves_where p f rows ->
  (length (filter (fun r => apply_in_flight nodeID r = true) (update_where p f rows))
   <= length (filter (fun r => apply_in_flight nodeID r = true) rows))%nat.
Proof.
  intros Hok Hm. induction rows as [|r rows IH]; simpl; [lia|].
  inversion_clear Hok. inversion_clear Hm as [|?? Hr Hm']. rewrite !filter_cons.
  assert (apply_in_flight nodeID (if p r then f r else r) = true -> apply_in_flight nodeID r = true) as Hi.
  { destruct (p r); [|done]. destruct Hr; [done|]. by eapply apply_in_flight_moves. }
  specialize (IH ltac:(assumption) ltac:(assumption)).
  do 2 case_decide; simpl; try lia. exfalso. auto.
Qed.

Lemma update_ids p f rows : moves_where p f rows -> tr_id <$> update_where p f rows = tr_id <$> rows.
Proof.
  induction 1 as [|r rows Hr _ IH]; [done|]. cbn [update_where fmap list_fmap].
  f_equal; [|exact IH]. destruct (p r); [|done]. by destruct Hr as [[-> _ _ _ _] _].
Qed.

Lemma inv_update d p f :
  moves_where p f (db_tasks d) -> hub_inv d ->
  hub_inv (set_tasks d (update_where p f (db_tasks d)) (db_next_id d)).
Proof.
  intros Hm [Hnext Hids Hsort Hrows Hnodes ? ? Hsingle].
  assert (forall P : task_row -> Prop, Forall P (db_tasks d) ->
    (forall r, P r -> row_moves r (f r) -> task_row_ok (f r) -> P (f r)) ->
    Forall P (update_where p f (db_tasks d))) as Hall.
  { intros P HP Hstep. unfold update_where. apply Forall_fmap. unfold moves_where in Hm.
    rewrite Forall_forall in HP, Hm |- *. intros r Hr. simpl. destruct (p r) eqn:E; [|by apply HP].
    destruct (Hm r Hr E). apply Hstep; auto. }
  split; simpl; try done.
  - apply Hall; [done|]. by intros r Hr [-> _ _ _ _].
  - by rewrite update_ids.
  - apply Hall; auto.
  - apply Hall; [done|]. by intros r Hr [_ -> _ _ _].
  - intros n. etransitivity; [|apply (Hsingle n)]. by apply filter_update_length.
Qed.

Lemma claim_moves r now :
  task_row_ok r -> tr_status r = TaskStatusQueued -> clock_ok now = true ->
  row_moves r (claim_row (formatTime now) r) /\ task_row_ok (claim_row (formatTime now) r).
Proof.
  intros [Ht Hc Hp Hr] Hq Hnow. split.
  - split; try done. by rewrite Hq.
  - split; try done. unfold times_ok in *. simpl. rewrite Hq in Ht.
    destruct (tr_started_at r), (tr_completed_at r); try done.
    + by destruct Ht as [[|] _].
    + by destruct Ht.
    + split; [done|by exists now].
Qed.

Lemma result_status req :
  ValidateTaskResultRequest req = Ok tt ->
  tres_Status req = TaskStatusCompleted \/ tres_Status req = TaskStatusFailed.
Proof.
  unfold ValidateTaskResultRequest. intros Hv.
  destruct (String.eqb_spec (tres_Status req) TaskStatusCompleted); [by left|].
  destruct (String.eqb_spec (tres_Status req) TaskStatusFailed); [by right|]. done.
Qed.

Lemma finish_moves r req now :
  task_row_ok r -> tr_status r = TaskStatusRunning -> clock_ok now = true ->
  ValidateTaskResultRequest req = Ok tt -> utf8_map (tres_Result req) ->
  row_moves r (complete_row req (formatTime now) r) /\ task_row_ok (complete_row req (formatTime now) r).
Proof.
  intros [Ht Hc Hp Hr] Hq Hnow Hv%result_status Hu. split.
  - split; try done. simpl. rewrite Hq. by destruct Hv as [-> | ->].
  - split; [|done|done|by exists (tres_Result req)]. unfold times_ok in *. simpl. rewrite Hq in Ht.
    destruct (tr_started_at r), (tr_completed_at r); try done.
    + by destruct Ht as [[|] _].
    + destruct Ht. split_and!; try done. by exists now.
Qed.

(** *** Preservation *)

Lemma find_task_Some p rows r : find_task p rows = Some r -> r ∈ rows /\ p r = true.
Proof. intros Hf. apply find_some in Hf as [Hin Hp]. split; [by apply list_elem_of_In|done]. Qed.

Lemma sorted_unique (rows : list task_row) x y :
  StronglySorted Z.lt (tr_id <$> rows) -> x ∈ rows -> y ∈ rows -> tr_id x = tr_id y -> x = y.
Proof.
  induction rows as [|r rows IH]; intros Hs Hx Hy E; [by apply not_elem_of_nil in Hx|].
  simpl in Hs. inversion_clear Hs as [|?? Hs' Hlt]. rewrite Forall_fmap, Forall_forall in Hlt.
  apply elem_of_cons in Hx as [->|Hx], Hy as [->|Hy]; [done| | |by apply IH].
  - specialize (Hlt _ Hy). simpl in Hlt. lia.
  - specialize (Hlt _ Hx). simpl in Hlt. lia.
Qed.

Lemma scan_in_flight_conflict rev rows k : (scan_in_flight rev rows true k).1 = true.
Proof.
  revert k. induction rows as [|r rows IH]; intros k; simpl; [done|].
  destruct (profileApplyPayloadRevision _); [destruct (negb _)|]; apply IH.
Qed.

Lemma scan_in_flight_found rev rows c k : k <> 0 -> (scan_in_flight rev rows c k).2 = k.
Proof.
  intros Hk. revert c. induction rows as [|r rows IH]; intros c; simpl; [done|].
  destruct (profileApplyPayloadRevision _); [destruct (negb _)|]; try apply IH.
  rewrite (proj2 (Z.eqb_neq k 0)) by done. apply IH.
Qed.

(** Nothing in flight conflicts and nothing coalesces: nothing is in flight. *)
Lemma scan_in_flight_none rev rows :
  Forall (fun r => 1 <= tr_id r) rows -> scan_in_flight rev rows false 0 = (false, 0) -> rows = [].
Proof.
  intros Hids Hs. destruct rows as [|r rows]; [done|]. exfalso. inversion_clear Hids as [|?? Hr _].
  simpl in Hs. destruct (profileApplyPayloadRevision (tr_payload_json r)) as [v|e].
  - destruct (negb (v =? rev)).
    + pose proof (scan_in_flight_conflict rev rows 0). rewrite Hs in *. done.
    + assert (tr_id r <> 0) as Hz by lia. pose proof (scan_in_flight_found rev rows false _ Hz) as E.
      rewrite Hs in E. simpl in E. lia.
  - pose proof (scan_in_flight_conflict rev rows 0). rewrite Hs in *. done.
Qed.

Lemma nothing_in_flight d nodeID revision :
  hub_inv d ->
  scan_in_flight revision (rev (filter (fun r => apply_in_flight nodeID r = true) (db_tasks d))) false 0
  = (false, 0) -> applies_in_flight d nodeID = [].
Proof.
  intros Hd Hs. apply scan_in_flight_none in Hs.
  - rewrite <-(rev_involutive (applies_in_flight d nodeID)). unfold applies_in_flight. by rewrite Hs.
  - pose proof (inv_ids _ Hd) as Hids. rewrite Forall_forall in Hids |- *. intros r Hr.
    apply list_elem_of_In, in_rev, list_elem_of_In, list_elem_of_filter in Hr as [_ Hr].
    specialize (Hids r Hr). simpl in Hids. lia.
Qed.

Lemma CreateNode_inv d req hash now : hub_inv d -> hub_inv (CreateNode d req hash now).2.
Proof.
  intros Hd. unfold CreateNode. destruct (_ || _ || _); [done|].
  destruct (db_nodes d !! reg_ID req); [done|]. simpl.
  apply inv_set_nodes; [|done]. intros id. apply nodes_insert_mono.
Qed.

Lemma UpdateHeartbeat_inv d nodeID req now :
  clock_ok now = true -> hub_inv d -> hub_inv (UpdateHeartbeat d nodeID req now).2.
Proof.
  intros Hc Hd. unfold UpdateHeartbeat.
  destruct (validateAgentProfileObservation (hb_Profile req)) as [[]|] eqn:Hv; [|done].
  destruct (inventory_text (hb_Inventory req)) as [text|]; [|done].
  destruct (db_nodes d !! nodeID) as [r|] eqn:Hn; [|done].
  assert (hub_inv (set_nodes d (<[nodeID := heartbeat_row r req text (formatTime now)]> (db_nodes d)))) as H1.
  { apply inv_set_nodes; [|done]. intros id. apply nodes_insert_mono. }
  destruct (hb_Profile req) as [o|]; [destruct (hasCapability _ _)|]; cbn [snd];
    try by apply (inv_delete_observation _ nodeID H1).
  destruct (check_observation _) eqn:Hk; [|done]. cbn [snd].
  eapply (inv_set_observations _ nodeID (observation_of o (formatTime now))); [|split; [done|by exists now]|exact H1].
  apply lookup_insert_is_Some'. by left.
Qed.

Lemma SaveNodeProfile_inv d nodeID p revision now :
  revision <= max_int64 -> hub_inv d -> hub_inv (SaveNodeProfile d nodeID p revision now).2.
Proof.
  intros Hmax Hd. unfold SaveNodeProfile. destruct (revision <? 0); [done|].
  destruct (NormalizeAgentProfile p) as [q|] eqn:Hq; [|done].
  destruct (db_nodes d !! nodeID) eqn:Hn; [|done].
  assert (forall rev', rev' <= max_int64 -> hub_inv
    (match canonicalProfileApplyDocument q rev' with
     | Ok _ => (Ok (mkProfileRecord q rev' true), write_profile d nodeID q rev' (formatTime now))
     | Err e => (Err e, d) end : res AgentProfileRecord * db).2) as Hcommit.
  { intros rev' Hr. destruct (canonicalProfileApplyDocument q rev') as [[q' doc]|] eqn:Hcan; [|done].
    apply Normalize_normal in Hq. pose proof (canonical_ok _ _ _ _ Hcan) as (_ & Hq' & _).
    rewrite normal_fixpoint in Hq' by done. injection Hq' as <-.
    by eapply inv_write_profile; [rewrite Hn| |exact Hcan|..]. }
  destruct (db_profiles d !! nodeID) as [row|] eqn:Hrow.
  - destruct (_ || _); [done|]. apply Hcommit. apply wrap_int64_range.
  - destruct (negb _); [done|]. by apply Hcommit.
Qed.

Lemma Upsert_inv d nodeID o now :
  clock_ok now = true -> hub_inv d -> hub_inv (UpsertNodeProfileObservation d nodeID o now).2.
Proof.
  intros Hc Hd. unfold UpsertNodeProfileObservation.
  destruct (validateAgentProfileObservation (Some o)); [|done].
  destruct (check_observation _) eqn:Hk; simpl; [|done]. destruct (db_nodes d !! nodeID) eqn:Hn; [|done]. simpl.
  apply inv_set_observations; [by rewrite Hn|split; [done|by exists now]|done].
Qed.

Lemma Clear_inv d nodeID : hub_inv d -> hub_inv (ClearNodeProfileObservation d nodeID).2.
Proof.
  intros Hd. unfold ClearNodeProfileObservation. destruct (db_observations d !! nodeID); [|done]. simpl.
  by apply inv_delete_observation.
Qed.

Lemma CreateTask_inv d nodeID req now :
  ValidateTaskRequest req = Ok tt -> utf8_map (req_Payload req) -> clock_ok now = true ->
  hub_inv d -> hub_inv (CreateTask d nodeID req now).2.
Proof.
  intros Hv Hu Hc Hd. unfold CreateTask. destruct (String.eqb_spec (req_Kind req) TaskProfileApply); [done|].
  destruct (insert_task_cases d nodeID (req_Kind req) (marshalStringMap (req_Payload req)) (formatTime now))
    as [(e & ->)|(Hn & Hmax & ->)]; [done|]. simpl.
  apply inv_insert; try done. right. exists (req_Payload req). by destruct req.
Qed.

Lemma CreateProfileApplyTask_inv d nodeID revision p now :
  revision <= max_int64 -> clock_ok now = true ->
  hub_inv d -> hub_inv (CreateProfileApplyTask d nodeID revision p now).2.
Proof.
  intros Hmax Hc Hd. unfold CreateProfileApplyTask. destruct (revision <? 1); [done|].
  destruct (canonicalProfileApplyDocument p revision) as [[q doc]|] eqn:Hcan; [|done].
  destruct (_ || _); [done|]. destruct (db_nodes d !! nodeID); [|done].
  destruct (db_profiles d !! nodeID); [|done]. destruct (negb _); [done|]. destruct (negb _); [done|].
  destruct (observed_applied _ _ _); [done|].
  destruct (scan_in_flight revision (rev (filter _ (db_tasks d))) false 0) as [[] k] eqn:Hs; [done|].
  destruct (Z.eqb_spec k 0) as [->|]; simpl; [|done].
  destruct (insert_task_cases d nodeID TaskProfileApply
    (marshalStringMap (apply_payload (EncodeToString doc) (Itoa revision))) (formatTime now))
    as [(e & ->)|(Hn & Hnext & ->)]; [done|]. simpl.
  apply inv_insert; try done.
  - left. split; [done|]. by exists p, revision, q, doc.
  - intros _. by eapply nothing_in_flight.
Qed.

Lemma ClaimNextTask_inv d nodeID now :
  clock_ok now = true -> hub_inv d -> hub_inv (ClaimNextTask d nodeID now).2.
Proof.
  intros Hc Hd. unfold ClaimNextTask. destruct (find_task _ _) as [r|] eqn:Hf; [|done]. simpl.
  apply find_task_Some in Hf as [Hin Hq]. unfold queued_for in Hq. breflect.
  apply inv_update; [|done]. unfold moves_where. rewrite Forall_forall. intros x Hx E. breflect.
  assert (x = r) as -> by (eapply sorted_unique; eauto using inv_sorted).
  apply claim_moves; try done. pose proof (inv_rows _ Hd) as Hrows. rewrite Forall_forall in Hrows. by apply Hrows.
Qed.

Lemma complete_update_inv d nodeID taskID req now :
  ValidateTaskResultRequest req = Ok tt -> utf8_map (tres_Result req) -> clock_ok now = true ->
  hub_inv d -> hub_inv (complete_update d nodeID taskID req now).2.
Proof.
  intros Hv Hu Hc Hd. unfold complete_update. destruct (_ && _); [done|]. simpl.
  apply inv_update; [|done]. unfold moves_where. rewrite Forall_forall. intros x Hx E.
  unfold claimed_by in E. breflect. apply finish_moves; try done.
  pose proof (inv_rows _ Hd) as Hrows. rewrite Forall_forall in Hrows. by apply Hrows.
Qed.

Lemma step_inv d e d' : hub_step d e d' -> hub_inv d -> hub_inv d'.
Proof.
  destruct 1; eauto using CreateNode_inv, UpdateHeartbeat_inv, SaveNodeProfile_inv, Upsert_inv, Clear_inv,
    CreateTask_inv, CreateProfileApplyTask_inv, ClaimNextTask_inv, complete_update_inv.
Qed.

Lemma steps_inv d es d' : hub_steps d es d' -> hub_inv d -> hub_inv d'.
Proof. induction 1; eauto using step_inv. Qed.

Lemma reachable_inv d : reachable d -> hub_inv d.
Proof. intros (es & Hs). eapply steps_inv; [exact Hs|apply inv_init]. Qed.

Lemma steps_app d es d1 es' d2 : hub_steps d es d1 -> hub_steps d1 es' d2 -> hub_steps d (es ++ es') d2.
Proof. apply runs_app. Qed.
End System.
