(* ===== verification/HubRefines.v ===== *)
(** * The hub implements the job board

    [board_of] reads the job board off the task table; every step of the hub is
    a step of the board with the same event.  The order and exactly-once
    properties of the board hold of the hub. *)

From stdpp Require Import base strings gmap list sorting.
From Stdlib Require Import ZArith Lia.
From S2P Require Import Prelude GoStrings GoBase64 GoJson GoTime HubTypes TaskGate Profile.
From S2P Require Import TaskResult Heartbeat Repository HubSystem.
Local Open Scope Z_scope.
Local Open Scope hub_scope.

Definition phase_of (status : string) : phase :=
  if status =?s TaskStatusQueued then Waiting
  else if status =?s TaskStatusRunning then Working
  else Done.

Definition job_of (r : task_row) : job :=
  mkJob (tr_id r) (tr_node_id r) (tr_kind r) (tr_payload_json r) (phase_of (tr_status r)).

Definition board_of (d : db) : list job := job_of <$> db_tasks d.

(** Profile applies are the exclusive kind. *)
Definition exclusive_kind (kind : string) : Prop := kind = TaskProfileApply.

Section Refines.
Context `{UnicodeTables}.

Lemma board_of_sorted d : hub_inv d -> board_sorted (board_of d).
Proof.
  intros [_ _ Hs _ _ _ _ _]. unfold board_sorted, board_of. rewrite <-list_fmap_compose. exact Hs.
Qed.

(** The table around the first row a test selects. *)
Lemma find_task_split p rows r :
  find_task p rows = Some r ->
  exists l1 l2, rows = l1 ++ r :: l2 /\ p r = true /\ Forall (fun x => p x = false) l1.
Proof.
  induction rows as [|x rows IH]; simpl; [done|]. destruct (p x) eqn:E.
  - intros [= ->]. exists [], rows. by split_and!.
  - intros (l1 & l2 & -> & Hp & Hl)%IH. exists (x :: l1), l2. split_and!; try done. by constructor.
Qed.

(** An update that selects exactly one row. *)
Lemma update_one p f l1 r l2 :
  p r = true -> Forall (fun x => p x = false) l1 -> Forall (fun x => p x = false) l2 ->
  update_where p f (l1 ++ r :: l2) = l1 ++ f r :: l2.
Proof.
  intros Hr H1 H2. unfold update_where. rewrite fmap_app, fmap_cons, Hr.
  assert (forall l, Forall (fun x => p x = false) l -> (fun x => if p x then f x else x) <$> l = l) as Hid.
  { induction 1 as [|x l Hx _ IH]; [done|]. by rewrite fmap_cons, Hx, IH. }
  by rewrite !Hid.
Qed.

(** Other rows have other ids. *)
Lemma other_ids l1 (r : task_row) l2 :
  StronglySorted Z.lt (tr_id <$> (l1 ++ r :: l2)) ->
  Forall (fun x => (tr_id x =? tr_id r) = false) l1 /\ Forall (fun x => (tr_id x =? tr_id r) = false) l2.
Proof.
  rewrite fmap_app, fmap_cons. intros Hs.
  apply (sorted_app_inv (tr_id <$> l1) (tr_id <$> l2)) in Hs as [H1 H2].
  rewrite Forall_fmap in H1. rewrite Forall_fmap in H2.
  split; eapply Forall_impl; eauto; simpl; intros; apply Z.eqb_neq; lia.
Qed.

Lemma board_same_tasks d d' : db_tasks d' = db_tasks d -> board_step exclusive_kind (board_of d) Silent (board_of d').
Proof. unfold board_of. intros ->. constructor. Qed.

Lemma insert_refines d nodeID kind payload stamp :
  hub_inv d -> (kind = TaskProfileApply -> applies_in_flight d nodeID = []) ->
  board_step exclusive_kind (board_of d) Silent (board_of (insert_task d nodeID kind payload stamp).2).
Proof.
  intros Hd Hfree.
  destruct (insert_task_cases d nodeID kind payload stamp) as [(e & ->)|(_ & _ & ->)]; [by apply board_same_tasks|].
  unfold board_of. simpl. rewrite fmap_app. apply (board_enqueue _ _ (job_of (new_row d nodeID kind payload stamp))).
  - done.
  - apply Forall_fmap. eapply Forall_impl; [apply (inv_ids _ Hd)|]. simpl. lia.
  - intros Hk. simpl in Hk. unfold exclusive_kind in Hk. specialize (Hfree Hk). subst kind.
    rewrite Forall_fmap, Forall_forall. intros r Hr Hn Hkind. simpl in *. unfold phase_of.
    assert (apply_in_flight nodeID r = false) as Hf.
    { destruct (apply_in_flight nodeID r) eqn:E; [|done].
      assert (r ∈ applies_in_flight d nodeID) as Hin by (by apply list_elem_of_filter).
      rewrite Hfree in Hin. by apply not_elem_of_nil in Hin. }
    unfold apply_in_flight, in_flight_status in Hf. rewrite Hn, Hkind, !String.eqb_refl in Hf. simpl in Hf.
    breflect. by repeat case_match; breflect.
Qed.

Lemma CreateProfileApplyTask_table d nodeID revision p now :
  hub_inv d ->
  db_tasks (CreateProfileApplyTask d nodeID revision p now).2 = db_tasks d
  \/ (applies_in_flight d nodeID = [] /\ exists payload,
      (CreateProfileApplyTask d nodeID revision p now).2
      = (insert_task d nodeID TaskProfileApply payload (formatTime now)).2).
Proof.
  intros Hd. unfold CreateProfileApplyTask. destruct (revision <? 1); [by left|].
  destruct (canonicalProfileApplyDocument p revision) as [[q doc]|]; [|by left].
  destruct (_ || _); [by left|]. destruct (db_nodes d !! nodeID); [|by left].
  destruct (db_profiles d !! nodeID); [|by left]. destruct (negb _); [by left|]. destruct (negb _); [by left|].
  destruct (observed_applied _ _ _); [by left|].
  destruct (scan_in_flight revision (rev (filter _ (db_tasks d))) false 0) as [[] k] eqn:Hs; [by left|].
  destruct (Z.eqb_spec k 0) as [->|]; simpl; [|by left]. right. split; [by eapply nothing_in_flight|].
  exists (marshalStringMap (apply_payload (EncodeToString doc) (Itoa revision))).
  destruct (insert_task_cases d nodeID TaskProfileApply
    (marshalStringMap (apply_payload (EncodeToString doc) (Itoa revision))) (formatTime now))
    as [(e & ->)|(_ & _ & ->)]; done.
Qed.

Lemma CreateTask_refines d nodeID req now :
  hub_inv d -> board_step exclusive_kind (board_of d) Silent (board_of (CreateTask d nodeID req now).2).
Proof.
  intros Hd. unfold CreateTask. destruct (String.eqb_spec (req_Kind req) TaskProfileApply); [constructor|].
  pose proof (insert_refines d nodeID (req_Kind req) (marshalStringMap (req_Payload req)) (formatTime now) Hd).
  destruct (insert_task _ _ _ _ _) as [[] ?]; naive_solver.
Qed.

Lemma ClaimNextTask_refines d nodeID now :
  hub_inv d ->
  board_step exclusive_kind (board_of d) (claim_event d nodeID) (board_of (ClaimNextTask d nodeID now).2).
Proof.
  intros Hd. unfold ClaimNextTask, claim_event.
  destruct (find_task (queued_for nodeID) (db_tasks d)) as [r|] eqn:Hf; [|constructor].
  apply find_task_split in Hf as (l1 & l2 & Ht & Hq & Hl1).
  pose proof (inv_sorted _ Hd) as Hs. rewrite Ht in Hs. apply other_ids in Hs as [Ho1 Ho2].
  unfold board_of. simpl. rewrite Ht, update_one by (done || by rewrite Z.eqb_refl).
  rewrite !fmap_app, !fmap_cons. unfold queued_for in Hq. breflect.
  subst nodeID. change (job_of (claim_row (formatTime now) r)) with (set_phase (job_of r) Working).
  apply (board_claim exclusive_kind (job_of <$> l1) (job_of r)).
  - simpl. unfold phase_of. by replace (tr_status r) with TaskStatusQueued.
  - apply Forall_fmap. eapply Forall_impl; [exact Hl1|]. simpl. intros x Hx Hn. unfold queued_for in Hx.
    rewrite Hn, String.eqb_refl in Hx. simpl in Hx. unfold phase_of. rewrite Hx. by case_match.
Qed.

Lemma existsb_split {A} (p : A -> bool) l :
  existsb p l = true -> exists l1 x l2, l = l1 ++ x :: l2 /\ p x = true.
Proof.
  intros (x & Hin & Hp)%existsb_exists. apply list_elem_of_In, list_elem_of_split in Hin as (l1 & l2 & ->).
  by exists l1, x, l2.
Qed.

Lemma update_none p f (rows : list task_row) :
  existsb p rows = false -> update_where p f rows = rows.
Proof.
  rewrite existsb_false. induction 1 as [|x l Hx _ IH]; [done|].
  unfold update_where in *. by rewrite fmap_cons, Hx, IH.
Qed.

Lemma complete_update_refines d nodeID taskID req now :
  hub_inv d -> ValidateTaskResultRequest req = Ok tt ->
  board_step exclusive_kind (board_of d) (finish_event d nodeID taskID)
    (board_of (complete_update d nodeID taskID req now).2).
Proof.
  intros Hd Hv%result_status. unfold complete_update, finish_event.
  assert (check_task_status (tres_Status req) = true) as -> by (by destruct Hv as [-> | ->]).
  rewrite andb_false_r. cbn [snd]. unfold board_of. simpl.
  destruct (existsb (claimed_by nodeID taskID) (db_tasks d)) eqn:He.
  - apply existsb_split in He as (l1 & r & l2 & Ht & Hc).
    pose proof (inv_sorted _ Hd) as Hs. rewrite Ht in Hs. apply other_ids in Hs as [Ho1 Ho2].
    assert (forall l, Forall (fun x => (tr_id x =? tr_id r) = false) l ->
      Forall (fun x => claimed_by nodeID taskID x = false) l) as Hl.
    { intros l Hl. eapply Forall_impl; [exact Hl|]. simpl. unfold claimed_by in Hc |- *. breflect. subst taskID.
      by intros x ->. }
    rewrite Ht, update_one by auto. rewrite !fmap_app, !fmap_cons. unfold claimed_by in Hc. breflect.
    subst nodeID taskID.
    assert (job_of (complete_row req (formatTime now) r) = set_phase (job_of r) Done) as ->.
    { unfold job_of, complete_row, set_phase, phase_of. simpl. by destruct Hv as [-> | ->]. }
    apply (board_finish exclusive_kind (job_of <$> l1) (job_of r)).
    simpl. unfold phase_of. by replace (tr_status r) with TaskStatusRunning.
  - rewrite update_none by done. constructor.
Qed.

Lemma UpdateHeartbeat_tasks d nodeID req now : db_tasks (UpdateHeartbeat d nodeID req now).2 = db_tasks d.
Proof. unfold UpdateHeartbeat. by repeat case_match. Qed.

Lemma SaveNodeProfile_tasks d nodeID p rev now : db_tasks (SaveNodeProfile d nodeID p rev now).2 = db_tasks d.
Proof. unfold SaveNodeProfile. by repeat case_match. Qed.

(** Every step of the hub is a step of the board, with its event. *)
Lemma step_refines d e d' :
  hub_inv d -> hub_step d e d' -> board_step exclusive_kind (board_of d) e (board_of d').
Proof.
  intros Hd Hstep. destruct Hstep.
  - apply board_same_tasks. unfold CreateNode. by repeat case_match.
  - apply board_same_tasks, UpdateHeartbeat_tasks.
  - apply board_same_tasks, SaveNodeProfile_tasks.
  - apply board_same_tasks. unfold UpsertNodeProfileObservation. by repeat case_match.
  - apply board_same_tasks. unfold ClearNodeProfileObservation. by repeat case_match.
  - by apply CreateTask_refines.
  - destruct (CreateProfileApplyTask_table d nodeID revision p now Hd) as [E|(Hf & payload & ->)];
      [by apply board_same_tasks|by apply insert_refines].
  - by apply ClaimNextTask_refines.
  - by apply complete_update_refines.
Qed.

(** The hub is an implementation of the board. *)
#[export] Instance hub_queue : BoardQueue exclusive_kind hub_step := {
  queue_inv := hub_inv;
  queue_board := board_of;
  queue_keeps := step_inv;
  queue_step := step_refines
}.
End Refines.
