(* ===== verification/ServiceFacts.v ===== *)
(** * Reading back what was written

    Every task row of a reachable state decodes to the task that was queued;
    the profile rows decode to the profile that was saved. *)

From stdpp Require Import base strings gmap list sorting.
From Stdlib Require Import ZArith Lia.
From S2P Require Import Prelude GoStrings GoBase64 GoSha256 GoJson GoTime HubTypes TaskGate Profile TaskResult Heartbeat IntegrationStatus Metrics Repository Service HubSystem.
Local Open Scope Z_scope.
Local Open Scope hub_scope.

Lemma parseTime_format t : clock_ok t = true -> parseTime (formatTime t) = Ok t.
Proof.
  intros Hc%format_parse. unfold parseTime, formatTime.
  destruct (String.eqb_spec (FormatRFC3339Nano t) "") as [E|_]; [by rewrite E in Hc|]. by rewrite Hc.
Qed.

Lemma stamp_parses s : stamp_ok s -> exists t, parseTime s = Ok t.
Proof. intros (t & Hc & ->). exists t. by apply parseTime_format. Qed.

Lemma stamp_nonempty s : stamp_ok s -> (s =?s "") = false.
Proof.
  intros (t & Hc & ->). apply String.eqb_neq. intros E. apply format_parse in Hc.
  unfold formatTime in E. by rewrite E in Hc.
Qed.

Lemma nullable_stamp s : stamp_ok s -> exists t, parseNullableTime (Some s) = Ok (Some t).
Proof.
  intros Hs. unfold parseNullableTime. rewrite stamp_nonempty by done.
  destruct (stamp_parses s Hs) as (t & ->). by exists t.
Qed.

Lemma map_text_object m : object_or_empty (marshalStringMap m) = marshalStringMap m.
Proof. done. Qed.

Lemma map_text_roundtrip m : utf8_map m -> unmarshal_map (object_or_empty (marshalStringMap m)) = Some m.
Proof. intros Hm. rewrite map_text_object. by apply map_json_roundtrip. Qed.

Lemma apply_payload_utf8 doc rev : utf8_map (apply_payload (EncodeToString doc) (Itoa rev)).
Proof.
  unfold utf8_map, apply_payload. apply map_Forall_insert_2; [|apply map_Forall_singleton];
    (split; [done|]); [apply EncodeToString_utf8|apply Itoa_utf8].
Qed.

Section Rows.
Context `{UnicodeTables}.

(** The payload text is the encoding of a map of UTF-8 strings. *)
Lemma payload_map r : payload_ok r -> exists m, utf8_map m /\ tr_payload_json r = marshalStringMap m.
Proof.
  intros [(_ & p & rev & q & doc & _ & _ & ->)|(m & _ & Hm & _ & ->)]; [|by exists m].
  eexists. split; [apply apply_payload_utf8|done].
Qed.

(** A task row decodes; the task has its columns. *)
Record reads_as (r : task_row) (t : Task) : Prop := {
  reads_id : task_ID t = tr_id r;
  reads_node : task_NodeID t = tr_node_id r;
  reads_kind : task_Kind t = tr_kind r;
  reads_status : task_Status t = tr_status r;
  reads_error : task_Error t = tr_error r;
  reads_payload : marshalStringMap (task_Payload t) = tr_payload_json r;
  reads_utf8 : utf8_map (task_Payload t)
}.

Lemma scanTask_ok r : task_row_ok r -> exists t, scanTask r = Ok t /\ reads_as r t.
Proof.
  intros [Ht (tc & Hc & Ec) Hp (mr & Hmr & Er)]. destruct (payload_map r Hp) as (mp & Hmp & Ep).
  unfold scanTask. rewrite Ep, Er, Ec, !map_text_roundtrip by done. cbn [decoded rbind].
  rewrite parseTime_format by done. cbn [rbind].
  assert (exists s, parseNullableTime (tr_started_at r) = Ok s) as (s & ->).
  { revert Ht. unfold times_ok. destruct (tr_started_at r) as [x|]; [|by exists None].
    intros Ht. destruct (nullable_stamp x) as (t & ->); [by destruct (tr_completed_at r); naive_solver|].
    by exists (Some t). }
  assert (exists c, parseNullableTime (tr_completed_at r) = Ok c) as (c & ->).
  { revert Ht. unfold times_ok. destruct (tr_completed_at r) as [x|]; [|by exists None].
    intros Ht. destruct (nullable_stamp x) as (t & ->); [by destruct (tr_started_at r); naive_solver|].
    by exists (Some t). }
  cbn [rbind]. eexists. split; [reflexivity|]. by split.
Qed.

Lemma reads_apply_revision r t : reads_as r t ->
  profileApplyPayloadRevisionFromTask t = profileApplyPayloadRevision (tr_payload_json r).
Proof. intros Hr. unfold profileApplyPayloadRevisionFromTask. by rewrite <-(reads_payload _ _ Hr). Qed.

(** The revision of a stored profile apply is the one it was queued for. *)
Lemma apply_row_revision r :
  payload_ok r -> tr_kind r = TaskProfileApply ->
  exists rev, 1 <= rev <= max_int64 /\ profileApplyPayloadRevision (tr_payload_json r) = Ok rev.
Proof.
  intros [(_ & p & rev & q & doc & Hcan & Hmax & ->)|(m & _ & _ & Hk & _)] Hkind; [|done].
  exists rev. split; [|by eapply payload_revision_roundtrip].
  apply canonical_ok in Hcan as [? _]. done.
Qed.

Lemma scan_all_ok (rows : list task_row) :
  Forall task_row_ok rows -> exists ts, scan_all scanTask rows = Ok ts /\ Forall2 reads_as rows ts.
Proof.
  induction 1 as [|r rows Hr _ IH]; [by exists []|].
  destruct (scanTask_ok r Hr) as (t & Et & Hrt), IH as (ts & Ets & Hts).
  exists (t :: ts). simpl. rewrite Et. simpl. rewrite Ets. split; [done|by constructor].
Qed.

Lemma find_by_id d r : hub_inv d -> r ∈ db_tasks d ->
  find_task (fun x => tr_id x =? tr_id r) (db_tasks d) = Some r.
Proof.
  intros Hd Hr. destruct (find_task (fun x => tr_id x =? tr_id r) (db_tasks d)) as [x|] eqn:Hf.
  - apply find_task_Some in Hf as [Hx E]. breflect. f_equal. eapply sorted_unique; eauto using inv_sorted.
  - apply find_none with (x := r) in Hf; [|by apply list_elem_of_In]. by rewrite Z.eqb_refl in Hf.
Qed.

Lemma row_in d r : hub_inv d -> r ∈ db_tasks d -> task_row_ok r.
Proof. intros Hd Hr. pose proof (inv_rows _ Hd) as Hrows. rewrite Forall_forall in Hrows. by apply Hrows. Qed.

Lemma GetTask_in d r : hub_inv d -> r ∈ db_tasks d ->
  exists t, GetTask d (tr_id r) = Ok t /\ reads_as r t.
Proof.
  intros Hd Hr. unfold GetTask. rewrite find_by_id by done. apply scanTask_ok. by eapply row_in.
Qed.

(** A profile row decodes to the normalised profile it was written from. *)
Lemma profile_row_reads row :
  profile_row_ok row -> exists p,
    normal_profile p /\ decodePersistedAgentProfile (pr_profile_json row) = Ok p
    /\ NormalizeAgentProfile p = Ok p /\ (pr_profile_json row =?s "") = false.
Proof.
  intros [_ (p & Hp & -> & _)]. exists p. split; [done|]. rewrite decodePersisted_roundtrip by done.
  split; [done|]. split; [by apply normal_fixpoint|done].
Qed.

Lemma GetNodeProfile_ok d nodeID row :
  hub_inv d -> db_profiles d !! nodeID = Some row ->
  exists p, normal_profile p /\ pr_profile_json row = marshal (profile_json p)
    /\ Repository.GetNodeProfile d nodeID = Ok (mkProfileRecord p (pr_revision row) true)
    /\ exists doc, canonicalProfileApplyDocument p (pr_revision row) = Ok (p, doc).
Proof.
  intros Hd Hrow. destruct (inv_profiles _ Hd _ _ Hrow) as [(nr & Hn) [Hrev (p & Hp & Ep & Hdoc)]].
  exists p. split; [done|]. split; [done|]. split; [|done]. unfold Repository.GetNodeProfile. rewrite Hn, Hrow, Ep.
  change (marshal (profile_json p) =?s "") with false. cbv iota.
  rewrite decodePersisted_roundtrip by done. cbn [rbind]. rewrite normal_fixpoint by done. cbn [rbind].
  by rewrite (proj2 (Z.ltb_ge _ _)) by lia.
Qed.

Lemma GetNodeProfile_absent d nodeID nr :
  db_nodes d !! nodeID = Some nr -> db_profiles d !! nodeID = None ->
  Repository.GetNodeProfile d nodeID = Ok (mkProfileRecord emptyAgentProfile 0 false).
Proof. intros Hn Hp. unfold Repository.GetNodeProfile. by rewrite Hn, Hp. Qed.

Lemma observation_valid o :
  check_observation o = true ->
  validateAgentProfileObservation (Some (mkObservation (or_state o) (or_revision o) (or_error_code o))) = Ok tt.
Proof.
  unfold check_observation, validateAgentProfileObservation. intros Hc.
  apply andb_true_iff in Hc as [Hc Hcode]. apply andb_true_iff in Hc as [Hstate Hrev]. breflect.
  simpl obs_Revision. simpl obs_State. simpl obs_ErrorCode.
  rewrite (proj2 (Z.ltb_ge _ _)) by done. 
  change (existsb (String.eqb (or_state o)) observation_states = true) in Hstate. rewrite Hstate. cbn [negb].
  change (isSafeProfileErrorCode (or_error_code o) = true) in Hcode. by rewrite Hcode.
Qed.

Lemma GetNodeProfileObservation_ok d nodeID o :
  hub_inv d -> db_observations d !! nodeID = Some o ->
  exists t, GetNodeProfileObservation d nodeID
            = Ok (Some (mkObservationRecord (or_state o) (or_revision o) (or_error_code o) t)).
Proof.
  intros Hd Ho. destruct (inv_observations _ Hd _ _ Ho) as [(nr & Hn) [Hc Hs]].
  destruct (stamp_parses _ Hs) as (t & Ht). exists t.
  unfold GetNodeProfileObservation. rewrite Hn, Ho, Ht, (stamp_nonempty _ Hs), observation_valid by done.
  unfold check_observation in Hc. breflect. by rewrite (proj2 (Z.ltb_ge _ _)) by done.
Qed.

Lemma GetLatest_ok d nodeID :
  hub_inv d ->
  (GetLatestProfileApplyTask d nodeID = Ok None
   /\ Forall (fun r => tr_node_id r = nodeID -> tr_kind r <> TaskProfileApply) (db_tasks d))
  \/ (exists r t, r ∈ db_tasks d /\ tr_node_id r = nodeID /\ tr_kind r = TaskProfileApply /\ reads_as r t
      /\ GetLatestProfileApplyTask d nodeID = Ok (Some t)).
Proof.
  intros Hd. unfold GetLatestProfileApplyTask.
  destruct (find_task _ (rev (db_tasks d))) as [r|] eqn:Hf.
  - right. apply find_task_Some in Hf as [Hr Hp]. breflect.
    apply list_elem_of_In, in_rev, list_elem_of_In in Hr.
    destruct (scanTask_ok r) as (t & -> & Ht); [by eapply row_in|]. by exists r, t.
  - left. split; [done|]. apply Forall_forall. intros r Hr Hn Hk.
    apply find_none with (x := r) in Hf; [|by apply in_rev; rewrite rev_involutive; apply list_elem_of_In].
    subst. by rewrite Hk, !String.eqb_refl in Hf.
Qed.
End Rows.

(** ** Saving a profile *)

(** The revision of a node's desired profile, zero when there is none. *)
Definition revision_of (d : db) (nodeID : string) : Z :=
  match db_profiles d !! nodeID with Some row => pr_revision row | None => 0 end.

Lemma wrap_next rev : 1 <= rev <= max_int64 -> 1 <= wrap_int64 (rev + 1) -> wrap_int64 (rev + 1) = rev + 1.
Proof.
  intros Hr. unfold wrap_int64, max_int64 in *. destruct (Z.eq_dec rev (2 ^ 63 - 1)) as [->|].
  - by vm_compute.
  - intros _. rewrite Z.mod_small; lia.
Qed.

Lemma SaveNodeProfile_cases d nodeID p rev now :
  (exists e, SaveNodeProfile d nodeID p rev now = (Err e, d))
  \/ (exists q, NormalizeAgentProfile p = Ok q /\ revision_of d nodeID = rev
      /\ (forall row, db_profiles d !! nodeID = Some row -> 1 <= pr_revision row)
      /\ 1 <= wrap_int64 (rev + 1)
      /\ SaveNodeProfile d nodeID p rev now
         = (Ok (mkProfileRecord q (wrap_int64 (rev + 1)) true),
            write_profile d nodeID q (wrap_int64 (rev + 1)) (formatTime now))).
Proof.
  unfold SaveNodeProfile, revision_of. destruct (rev <? 0); [by left; eexists|].
  destruct (NormalizeAgentProfile p) as [q|]; [|by left; eexists].
  destruct (db_nodes d !! nodeID); [|by left; eexists].
  destruct (db_profiles d !! nodeID) as [row|] eqn:Hrow.
  - destruct (_ || _) eqn:E; [by left; eexists|]. breflect. subst rev.
    destruct (canonicalProfileApplyDocument q (wrap_int64 (pr_revision row + 1))) as [[q' doc]|] eqn:Hc;
      [|by left; eexists].
    right. exists q. apply canonical_ok in Hc as [? _]. split_and!; try done. intros ? [= <-]. lia.
  - destruct (Z.eqb_spec rev 0) as [->|]; simpl; [|by left; eexists].
    destruct (canonicalProfileApplyDocument q 1) as [[q' doc]|] eqn:Hc; [|by left; eexists].
    right. exists q. split_and!; done.
Qed.

(** ** Service calls as steps of the hub

    Every method of [Service] performs at most one write of the transition
    system of [HubSystem]; a history of service calls is an execution. *)

(** A call of the service, with the readings of the clock it makes. *)
Inductive call : Type :=
| CallRegister (req : RegisterNodeRequest) (rawToken : list Z) (now : time)
| CallHeartbeat (nodeID token : string) (req : HeartbeatRequest) (now : time)
| CallUpdateProfile (nodeID : string) (p : AgentProfile) (expectedRevision : Z) (saved read : time)
| CallApplyProfile (nodeID : string) (expectedRevision : Z) (checked written : time)
| CallEnqueue (nodeID : string) (req : TaskRequest) (checked written : time)
| CallIntegrationStatus (nodeID : string) (checked written : time)
| CallMetrics (nodeID : string) (checked written : time)
| CallPoll (nodeID token : string) (now : time)
| CallComplete (nodeID token : string) (taskID : Z) (req : TaskResultRequest) (checked written : time).

Section Calls.
Context `{UnicodeTables}.

Definition run (c : call) (d : db) : db :=
  match c with
  | CallRegister req raw now => (RegisterNode d req raw now).2
  | CallHeartbeat n token req now => (Service.Heartbeat d n token req now).2
  | CallUpdateProfile n p rev saved read => (UpdateNodeProfile d n p rev saved read).2
  | CallApplyProfile n rev checked written => (ApplyNodeProfile d n rev checked written).2
  | CallEnqueue n req checked written => (EnqueueTask d n req checked written).2
  | CallIntegrationStatus n checked written => (EnqueueIntegrationStatusTask d n checked written).2
  | CallMetrics n checked written => (EnqueueMetricsTask d n checked written).2
  | CallPoll n token now => (PollTask d n token now).2
  | CallComplete n token id req checked written => (Service.CompleteTask d n token id req checked written).2
  end.

(** Inputs of a call: the clock reads years of four digits, revisions are
    [int64], and the strings that were decoded from JSON are UTF-8. *)
Definition call_ok (c : call) : Prop :=
  match c with
  | CallRegister _ _ now | CallHeartbeat _ _ _ now | CallPoll _ _ now => clock_ok now = true
  | CallUpdateProfile _ _ rev saved _ => rev <= max_int64 /\ clock_ok saved = true
  | CallApplyProfile _ rev _ written => rev <= max_int64 /\ clock_ok written = true
  | CallEnqueue _ req _ written => utf8_map (req_Payload req) /\ clock_ok written = true
  | CallIntegrationStatus _ _ written | CallMetrics _ _ written => clock_ok written = true
  | CallComplete _ _ _ req _ written => utf8_map (tres_Result req) /\ clock_ok written = true
  end.

Definition steps_to (d d' : db) : Prop := exists es, hub_steps d es d'.

Lemma steps_same d : steps_to d d.
Proof. exists []. constructor. Qed.

Lemma steps_one d e d' : hub_step d e d' -> steps_to d d'.
Proof. intros Hs. exists [e]. econstructor; [exact Hs|constructor]. Qed.

Lemma reading_cases {A B} (r : res A) (d : db) (k : A -> res B * db) (P : db -> Prop) :
  P d -> (forall a, r = Ok a -> P (k a).2) -> P (reading r d k).2.
Proof. intros Hd Hk. destruct r as [a|e]; simpl; [by apply Hk|done]. Qed.

(** Peel the guards of a service method off, keeping the facts they establish. *)
Ltac guards :=
  repeat match goal with
  | |- steps_to ?d (reading _ ?d _).2 => apply reading_cases; [apply steps_same|intros ? ?]
  | |- steps_to _ (if ?b then _ else _).2 => destruct b eqn:?; [try apply steps_same|try apply steps_same]
  end.

Lemma CreateTask_steps d nodeID req now :
  ValidateTaskRequest req = Ok tt -> utf8_map (req_Payload req) -> clock_ok now = true ->
  steps_to d (CreateTask d nodeID req now).2.
Proof. intros. eapply steps_one, step_create; eauto. Qed.

Lemma enqueue_ensure_steps d nodeID req checked written :
  utf8_map (req_Payload req) -> clock_ok written = true ->
  steps_to d (enqueueDeployDomainEnsure d nodeID req checked written).2.
Proof.
  intros Hu Hc. unfold enqueueDeployDomainEnsure. guards.
  match goal with |- context [find ?p ?l] => destruct (find p l) end; [guards|].
  match goal with Hv : ValidateTaskRequest _ = Ok ?x |- _ => destruct x end. by apply CreateTask_steps.
Qed.

Lemma EnqueueTask_steps d nodeID req checked written :
  utf8_map (req_Payload req) -> clock_ok written = true -> steps_to d (EnqueueTask d nodeID req checked written).2.
Proof.
  intros Hu Hc. unfold EnqueueTask. destruct (_ && _); [by apply enqueue_ensure_steps|]. cbv zeta. guards.
  match goal with Hv : ValidateTaskRequest _ = Ok ?x |- _ => destruct x end. by apply CreateTask_steps.
Qed.

Lemma enqueue_coalesced_steps kind capability d nodeID checked written :
  ValidateTaskRequest (mkTaskRequest kind ∅) = Ok tt -> clock_ok written = true ->
  steps_to d (enqueue_coalesced kind capability d nodeID checked written).2.
Proof.
  intros Hv Hc. unfold enqueue_coalesced. guards.
  match goal with |- context [find ?p ?l] => destruct (find p l) end; [apply steps_same|].
  apply CreateTask_steps; [done|apply utf8_map_empty|done].
Qed.

Lemma metrics_request_valid : ValidateTaskRequest (mkTaskRequest TaskMetricsRead ∅) = Ok tt.
Proof. vm_compute. reflexivity. Qed.

Lemma status_request_valid : ValidateTaskRequest (mkTaskRequest TaskIntegrationStatus ∅) = Ok tt.
Proof. vm_compute. reflexivity. Qed.

Lemma ApplyNodeProfile_steps d nodeID rev checked written :
  rev <= max_int64 -> clock_ok written = true -> steps_to d (ApplyNodeProfile d nodeID rev checked written).2.
Proof.
  intros Hr Hc. unfold ApplyNodeProfile. guards.
  match goal with |- context [awaiting_receipt ?a ?b ?c] => destruct (awaiting_receipt a b c) end; [apply steps_same|].
  by eapply steps_one, step_apply.
Qed.

Lemma CompleteTask_steps d nodeID taskID req now :
  ValidateTaskResultRequest req = Ok tt -> utf8_map (tres_Result req) -> clock_ok now = true ->
  steps_to d (Repository.CompleteTask d nodeID taskID req now).2.
Proof.
  intros Hv Hu Hc. unfold Repository.CompleteTask.
  match goal with |- context [match ?r with Ok _ => _ | Err _ => _ end] => destruct r; [|apply steps_same] end.
  pose proof (steps_one _ _ _ (step_finish d nodeID taskID req now Hv Hu Hc)) as Hs.
  destruct (complete_update d nodeID taskID req now) as [[n|e] d']; simpl in *; [by destruct (negb _)|done].
Qed.

Lemma CompleteTaskForNode_steps d nodeID taskID req checked written :
  utf8_map (tres_Result req) -> clock_ok written = true ->
  steps_to d (CompleteTaskForNode d nodeID taskID req checked written).2.
Proof.
  intros Hu Hc. unfold CompleteTaskForNode. guards.
  match goal with Hv : ValidateTaskResultRequest _ = Ok ?x |- _ => destruct x end.
  destruct (Repository.GetTaskForNode d nodeID taskID) as [t|[]]; try apply steps_same.
  - guards. by apply CompleteTask_steps.
  - by apply CompleteTask_steps.
Qed.

Lemma call_steps c d : call_ok c -> steps_to d (run c d).
Proof.
  destruct c as [req raw now|n token req now|n p rev saved read|n rev checked written|n req checked written
    |n checked written|n checked written|n token now|n token id req checked written]; cbn [call_ok run].
  - intros Hc. unfold RegisterNode. guards.
    pose proof (steps_one _ _ _ (step_register d req (sha256_hex (hex_encode raw)) now Hc)) as Hs.
    destruct (CreateNode d req _ now) as [[] ?]; done.
  - intros Hc. unfold Service.Heartbeat. guards.
    pose proof (steps_one _ _ _ (step_heartbeat d n req now Hc)) as Hs.
    destruct (UpdateHeartbeat d n req now) as [[] ?]; done.
  - intros [Hr Hc]. unfold UpdateNodeProfile. guards.
    pose proof (steps_one _ _ _ (step_save_profile d n p rev saved Hr Hc)) as Hs.
    destruct (SaveNodeProfile d n p rev saved) as [[] ?]; done.
  - intros [Hr Hc]. by apply ApplyNodeProfile_steps.
  - intros [Hu Hc]. by apply EnqueueTask_steps.
  - intros Hc. apply enqueue_coalesced_steps; [apply status_request_valid|done].
  - intros Hc. apply enqueue_coalesced_steps; [apply metrics_request_valid|done].
  - intros Hc. unfold PollTask, PollTaskForNode. guards. by eapply steps_one, step_claim.
  - intros [Hu Hc]. unfold Service.CompleteTask. guards. by apply CompleteTaskForNode_steps.
Qed.

Lemma calls_reachable cs d : Forall call_ok cs -> reachable d -> reachable (foldl (fun d c => run c d) d cs).
Proof.
  intros Hcs. revert d. induction Hcs as [|c cs Hc _ IH]; intros d Hd; simpl; [done|]. apply IH.
  destruct Hd as (es & Hes), (call_steps c d Hc) as (es' & Hes'). exists (es ++ es'). by eapply steps_app.
Qed.
End Calls.
