(* ===== verification/TaskGateClaims.v ===== *)
(** * Properties of the task gate

    What an accepted task request guarantees to the agent that will run it. *)

From stdpp Require Import base strings gmap list.
From Stdlib Require Import ZArith Lia.
From S2P Require Import Prelude GoStrings GoJson HubTypes TaskGate Heartbeat.
Local Open Scope Z_scope.

(** Tables for concrete evaluations: no letters or digits beyond Latin-1. *)
Definition latin_tables : UnicodeTables := {| letter_table := fun _ => false; digit_table := fun _ => false |}.

Definition sample_status_request : TaskRequest :=
  mkTaskRequest TaskServiceStatus {["service" := "nginx.service"]}.

Definition sample_read_request : TaskRequest :=
  mkTaskRequest TaskFilesRead {["path" := "/srv/app/config.yml"]}.

(** The kinds whose payload names a file of the managed node. *)
Definition file_kinds : list string := [TaskFilesBrowse; TaskFilesRead; TaskFilesWrite].

Section claims.
Context `{UnicodeTables}.

(** C5. An accepted task request is of an allowlisted kind and carries exactly
    the documented fields of that kind, and at most six; the only exception are
    the three write kinds, whose [content_b64] field may be missing. *)
Theorem gate_schema req :
  ValidateTaskRequest req = Ok tt ->
  req_Kind req ∈ allowed_kinds /\ (size (req_Payload req) <= 6)%nat
  /\ fits_schema (req_Kind req) (req_Payload req).
Proof.
  intros Hv. split_and!; [|pose proof (ValidateTaskRequest_inv _ Hv) as (_ & Hs & _); unfold map_len in Hs; lia
                         |by apply ValidateTaskRequest_fits].
  by apply ValidateTaskRequest_inv in Hv as [? _].
Qed.

(** Every key of an accepted payload is a non-empty token of letters,
    digits, underscores and dashes, no value holds a control character, and
    apart from the encoded documents and the paths no value is empty or longer
    than 255 bytes. *)
Theorem gate_values req key value :
  ValidateTaskRequest req = Ok tt -> req_Payload req !! key = Some value ->
  key <> "" /\ safeToken key = true /\ Forall (fun r => IsControl r = false) (runes value)
  /\ (key ∉ ["content_b64"; "job_b64"; "rule_b64"; "path"] -> value <> "" /\ len value <= 255)
  /\ len value <= maxEncodedNginxConfigSize.
Proof.
  intros (_ & _ & Hall & _)%ValidateTaskRequest_inv Hk. specialize (Hall _ _ Hk).
  unfold payload_entry_ok in Hall. apply negb_true_iff in Hall.
  repeat match goal with H : (_ || _) = false |- _ => apply orb_false_iff in H; destruct H end.
  breflect. split; [done|]. split; [done|]. split; [by apply existsb_false|]. split.
  - intros Hnot. repeat (apply not_elem_of_cons in Hnot as [? Hnot]).
    repeat rewrite (proj2 (String.eqb_neq key _)) in * by done.
    rewrite !andb_false_r in *. simpl in *. breflect. done.
  - etransitivity; [eassumption|]. repeat case_match; by vm_compute.
Qed.

(** A file task that passes the gate names an absolute path of the node
    that is not the root and has no empty, dot or parent component: the path
    cannot climb out of a root the agent compares it with. *)
Theorem gate_no_traversal req :
  ValidateTaskRequest req = Ok tt -> req_Kind req ∈ file_kinds ->
  exists comps, get (req_Payload req) "path" = String slash (join slash comps)
    /\ comps <> [] /\ Forall plain_component comps /\ Forall (fun c => slash ∉ chars c) comps.
Proof.
  intros Hv Hk. destruct (ValidateTaskRequest_arm _ Hv) as (labels & body & Hin & Hl & Hb).
  assert (validManagedAbsolutePath (get (req_Payload req) "path") = true) as Hp.
  { assert (body = check_files_read \/ body = check_files_write) as [-> | ->].
    { repeat (apply elem_of_cons in Hin as [[= -> ->]|Hin]); try (by left); try (by right);
        try (by apply not_elem_of_nil in Hin);
        exfalso; revert Hk Hl; generalize (req_Kind req); unfold file_kinds;
        intros k Hk Hl; repeat (apply elem_of_cons in Hk as [->|Hk]); try (by apply not_elem_of_nil in Hk);
        vm_compute in Hl; repeat (apply elem_of_cons in Hl as [?|Hl]); try done; by apply not_elem_of_nil in Hl. }
    - unfold check_files_read in Hb. apply invalid_when_ok in Hb. by breflect.
    - unfold check_files_write in Hb. case_match eqn:E; [done|]. by breflect. }
  unfold validManagedAbsolutePath in Hp. breflect.
  destruct (Clean_abs_components (get (req_Payload req) "path")) as (comps & E & Hc & Hs); [done|].
  exists comps. split; [congruence|]. split; [|done]. intros ->.
  simpl in E. assert (get (req_Payload req) "path" = "/") as E' by (change "/" with (String slash ""); congruence). by rewrite E' in *.
Qed.

(** The gate answers or refuses with [ErrInvalidInput]; it has no other
    error. *)
Theorem gate_refusal req : ValidateTaskRequest req = Ok tt \/ ValidateTaskRequest req = Err ErrInvalidInput.
Proof.
  destruct (ValidateTaskRequest req) as [[]|e] eqn:E; [by left|right].
  by rewrite (ValidateTaskRequest_error _ _ E).
Qed.

End claims.

(** Every kind the gate admits requires a capability, and that capability
    is one a heartbeat may advertise: no kind is queued without the node's
    consent and none is out of reach. *)
Theorem gate_capability kind :
  kind ∈ allowed_kinds ->
  capabilityForTask kind <> "" /\ capabilityForTask kind ∈ known_capabilities.
Proof.
  intros Hk. split; [apply capability_required; set_solver|].
  assert (forallb (fun k => existsb (String.eqb (capabilityForTask k)) known_capabilities) allowed_kinds
          = true) as Hall by (vm_compute; reflexivity).
  rewrite forallb_forall in Hall. apply existsb_eqb_elem. apply Hall. by apply list_elem_of_In.
Qed.

(** The gate accepts a configuration write without any content: with
    four fields of which one is an arbitrary extra key and [content_b64] is
    missing, the arm reads the missing field as the empty document. *)
Theorem gate_write_without_content :
  exists req, @ValidateTaskRequest latin_tables req = Ok tt /\ req_Kind req = TaskNginxConfigWrite
    /\ req_Payload req !! "content_b64" = None /\ is_Some (req_Payload req !! "unexpected").
Proof.
  exists (mkTaskRequest TaskNginxConfigWrite
    (<["name" := "site.conf"]> (<["reload" := "true"]> (<["unexpected" := "x"]>
      {["checksum" := "e3b0c44298fc1c149afbf4c8996fb92427ae41e4649b934ca495991b7852b855"]})))).
  split; [vm_compute; reflexivity|]. split; [done|]. split; [done|]. by eexists.
Qed.

(** ** Witnesses *)

Lemma gate_schema_witness :
  TaskServiceStatus ∈ allowed_kinds /\ (size (req_Payload sample_status_request) <= 6)%nat
  /\ fits_schema TaskServiceStatus (req_Payload sample_status_request).
Proof. apply (@gate_schema latin_tables sample_status_request). vm_compute. reflexivity. Defined.

Lemma gate_values_witness :
  "service" <> "" /\ @safeToken latin_tables "service" = true
  /\ Forall (fun r => IsControl r = false) (runes "nginx.service")
  /\ ("service" ∉ ["content_b64"; "job_b64"; "rule_b64"; "path"] ->
      "nginx.service" <> "" /\ len "nginx.service" <= 255)
  /\ len "nginx.service" <= maxEncodedNginxConfigSize.
Proof.
  apply (@gate_values latin_tables sample_status_request "service" "nginx.service"); vm_compute; reflexivity.
Defined.

Lemma gate_no_traversal_witness :
  exists comps, "/srv/app/config.yml" = String slash (join slash comps)
    /\ comps <> [] /\ Forall plain_component comps /\ Forall (fun c => slash ∉ chars c) comps.
Proof.
  apply (@gate_no_traversal latin_tables sample_read_request).
  - vm_compute. reflexivity.
  - apply existsb_eqb_elem. vm_compute. reflexivity.
Defined.

Lemma gate_capability_witness :
  capabilityForTask TaskDeployAction <> "" /\ capabilityForTask TaskDeployAction ∈ known_capabilities.
Proof. apply gate_capability. apply existsb_eqb_elem. vm_compute. reflexivity. Defined.
