(* ===== verification/HostClaims.v ===== *)
(** * Properties of agent profiles

    Normalisation, the documents and payloads derived from a profile, and the
    state of an apply. *)

From stdpp Require Import base strings gmap list sorting.
From Stdlib Require Import ZArith Lia Ascii.
From S2P Require Import Prelude GoStrings GoBase64 GoJson GoTime HubTypes GoFloat TaskGate Profile Heartbeat IntegrationStatus Metrics.
Local Open Scope Z_scope.
Local Open Scope hub_scope.

Definition sample_profile : AgentProfile :=
  mkProfile true true true false "/etc/hserver/plans.json" "/var/www/acme" ["/srv/b"; "/srv/a"].

Definition sample_normal : AgentProfile :=
  mkProfile true true true false "/etc/hserver/plans.json" "/var/www/acme" ["/srv/a"; "/srv/b"].

Lemma sample_normalizes : NormalizeAgentProfile sample_profile = Ok sample_normal.
Proof. vm_compute. reflexivity. Qed.

Lemma sample_is_normal : normal_profile sample_normal.
Proof. exact (Normalize_normal _ _ sample_normalizes). Qed.

Definition sample_document : string :=
  marshal (document_json (mkDocument profileApplySchemaVersion 3 sample_normal)).

Lemma sample_canonical : canonicalProfileApplyDocument sample_profile 3 = Ok (sample_normal, sample_document).
Proof. vm_compute. reflexivity. Qed.

(** ** Helper lemmas *)

Lemma Normalize_fields p q :
  NormalizeAgentProfile p = Ok q ->
  q = set_roots p (prof_DeployWriteRoots q)
  /\ prof_DeployWriteRoots q ≡ₚ prof_DeployWriteRoots p.
Proof.
  unfold NormalizeAgentProfile, normalizeProfileRoots. intros Hn. inv_ok Hn. injection Hn as <-.
  match goal with Hr : (if _ then _ else _) = Ok _ |- _ => inv_ok Hr; injection Hr as <- end.
  match goal with Hc : check_roots _ _ = Ok _ |- _ => apply check_roots_ok in Hc as (-> & _) end.
  split; [done|]. apply sort_strings_perm.
Qed.

Lemma dependencies_spec p :
  validateProfileDependencies p = Ok tt <->
  (prof_AllowDeployActions p = true -> prof_AllowDeployRead p = true)
  /\ (prof_AllowDeployDomainRead p = true -> prof_AllowDeployRead p = true)
  /\ (prof_AllowDeployDomainActions p = true -> prof_AllowDeployDomainRead p = true).
Proof.
  unfold validateProfileDependencies.
  destruct (prof_AllowDeployActions p), (prof_AllowDeployRead p), (prof_AllowDeployDomainRead p),
    (prof_AllowDeployDomainActions p); simpl; split; try done; try tauto; intuition congruence.
Qed.

Lemma profile_path_plain v file :
  validateOptionalProfilePath v file = Ok tt -> v <> "" ->
  exists comps, v = String slash (join slash comps) /\ comps <> [] /\ Forall plain_component comps
    /\ Forall (fun c => slash ∉ chars c) comps.
Proof.
  unfold validateOptionalProfilePath. intros Hv Hne. rewrite (proj2 (String.eqb_neq _ _)) in Hv by done.
  inv_ok Hv. breflect.
  destruct (Clean_abs_components v) as (comps & E & Hc & Hs); [done|].
  exists comps. split; [congruence|]. split; [|done]. intros ->. simpl in E.
  assert (v = "/") by (change "/" with (String slash ""); congruence). done.
Qed.

(** ** Claims *)

(** Normalisation returns a canonical profile and is idempotent: the write
    roots of the result are those of the request, without duplicates and in
    byte order, nothing else changes, and normalising the result again gives
    it back. *)
Theorem normalize_idempotent p q :
  NormalizeAgentProfile p = Ok q ->
  q = set_roots p (prof_DeployWriteRoots q)
  /\ prof_DeployWriteRoots q ≡ₚ prof_DeployWriteRoots p
  /\ NoDup (prof_DeployWriteRoots q) /\ Sorted String.le (prof_DeployWriteRoots q)
  /\ NormalizeAgentProfile q = Ok q.
Proof.
  intros Hn. pose proof (Normalize_normal _ _ Hn) as Hq. destruct (Normalize_fields _ _ Hn).
  split_and!; try done; [apply Hq..|by apply normal_fixpoint].
Qed.

(** An accepted profile grants no permission whose prerequisite it does
    not grant, has at most sixteen write roots, and every path in it is
    absolute, is not the root and has no empty, dot or parent component. *)
Theorem normalize_safe p q :
  NormalizeAgentProfile p = Ok q ->
  (prof_AllowDeployActions q = true -> prof_AllowDeployRead q = true)
  /\ (prof_AllowDeployDomainActions q = true ->
      prof_AllowDeployDomainRead q = true /\ prof_AllowDeployRead q = true)
  /\ (length (prof_DeployWriteRoots q) <= 16)%nat
  /\ Forall (fun v => exists comps, v = String slash (join slash comps) /\ comps <> []
               /\ Forall plain_component comps) (prof_DeployWriteRoots q)
  /\ Forall (fun v => v = "" \/ exists comps, v = String slash (join slash comps) /\ comps <> []
               /\ Forall plain_component comps) [prof_DeployPlansFile q; prof_DeployAcmeWebroot q].
Proof.
  intros [Hd Hpl Hw HF _ _ Hc]%Normalize_normal. apply dependencies_spec in Hd as (H1 & H2 & H3).
  assert (forall v file, validateOptionalProfilePath v file = Ok tt ->
    v = "" \/ exists comps, v = String slash (join slash comps) /\ comps <> [] /\ Forall plain_component comps)
    as Hpath.
  { intros v file Hv. destruct (String.eqb_spec v ""); [by left|right].
    destruct (profile_path_plain v file Hv) as (comps & ? & ? & ? & _); [done|]. by exists comps. }
  split_and!; [done|naive_solver| | |].
  - unfold maxProfileWriteRoots in Hc. lia.
  - eapply Forall_impl; [exact HF|]. intros v [Hne Hv]. simpl. destruct (Hpath v false Hv); [done|done].
  - apply Forall_cons_2; [by eapply Hpath|]. apply Forall_cons_2; [by eapply Hpath|done].
Qed.

(** C40. The document sent to an agent and the triple of schema version,
    revision and normalised profile determine each other: the strict decoder
    accepts exactly the canonical text of each triple and returns that
    triple. *)
Theorem document_bijection q rev data :
  normal_profile q -> rev <= max_int64 ->
  canonicalProfileApplyDocument q rev = Ok (q, data)
  <-> decodeProfileApplyDocument data = Ok (mkDocument profileApplySchemaVersion rev q).
Proof.
  intros Hq Hmax. split.
  - intros Hc. by eapply document_roundtrip.
  - intros (Hlen & _ & Hrev & _ & ->)%decodeDocument_inv. simpl in *.
    unfold canonicalProfileApplyDocument. rewrite (proj2 (Z.ltb_ge rev 1)) by done.
    rewrite normal_fixpoint by done. cbn [rbind]. by rewrite (proj2 (Z.ltb_ge _ _)) by done.
Qed.

(** The payload stored for a profile apply is recognised as the revision
    it was made for, so the coalescing and the result checks see the revision
    the operator asked to apply. *)
Theorem payload_revision p rev q doc :
  canonicalProfileApplyDocument p rev = Ok (q, doc) -> rev <= max_int64 ->
  profileApplyPayloadRevision (marshal (map_json (apply_payload (EncodeToString doc) (Itoa rev)))) = Ok rev.
Proof. apply payload_revision_roundtrip. Qed.

(** The profile column decodes to the profile that was written, by the
    persisted decoder and by the strict public one. *)
Theorem profile_column_roundtrip p :
  normal_profile p ->
  decodePersistedAgentProfile (marshal (profile_json p)) = Ok p
  /\ unmarshal_profile (marshal (profile_json p)) = Ok p.
Proof.
  intros Hp. split; [by apply decodePersisted_roundtrip|].
  unfold unmarshal_profile. rewrite marshal_roundtrip by by apply profile_json_ok. apply decode_profile_json.
Qed.

(** When the answer is [applied]. *)
Lemma applied_status record node online observation latestTask :
  ap_State (resp_Apply (profileResponse record node online observation latestTask)) = profileApplyApplied
  <-> rec_Configured record = true /\ CapabilityProfileApply ∈ node_Capabilities node
      /\ exists o, observation = Some o /\ orec_State o = ProfileObservationApplied
                   /\ orec_Revision o = rec_Revision record.
Proof.
  rewrite <-hasCapability_elem. unfold profileResponse. cbn [resp_Apply].
  set (a1 := match latestTask with Some t => _ | None => _ end).
  assert (ap_State a1 <> profileApplyApplied) as Hno.
  { unfold a1. destruct latestTask as [t|]; [destruct (_ && _)|]; simpl;
      unfold apply_by_task; repeat case_match; done. }
  clearbody a1. split.
  - destruct (hasCapability _ _), observation as [o|], (rec_Configured record); try done.
    unfold apply_by_observation. repeat case_match; try done.
    intros _. breflect. split_and!; try done. by exists o.
  - intros (Hc & -> & o & -> & Hs & Hr). rewrite Hc. unfold apply_by_observation.
    by rewrite Hs, Hr, Z.eqb_refl.
Qed.

(** The panel reports [applied] exactly when the node is capable of
    profile applies, a profile is desired, and the node's latest observation
    says it applied the desired revision; no task status can produce it. *)
Theorem applied_only_by_observation record node online observation latestTask :
  ap_State (resp_Apply (profileResponse record node online observation latestTask)) = profileApplyApplied
  <-> rec_Configured record = true /\ CapabilityProfileApply ∈ node_Capabilities node
      /\ exists o, observation = Some o /\ orec_State o = ProfileObservationApplied
                   /\ orec_Revision o = rec_Revision record.
Proof. apply applied_status. Qed.

(** The answer has the two-member shape of the manual path exactly for a node
    without the capability; a capable node gets every field. *)
Theorem manual_wire_shape record node online observation latestTask :
  let apply := resp_Apply (profileResponse record node online observation latestTask) in
  (exists state reason, apply_response_json apply = JObj [("state", state); ("reason", reason)])
  <-> CapabilityProfileApply ∉ node_Capabilities node.
Proof.
  simpl. rewrite <-hasCapability_elem. unfold profileResponse. cbn [resp_Apply].
  destruct (hasCapability _ _) eqn:Hc.
  - split; [|done]. intros (s & r & E). exfalso. revert E.
    unfold apply_response_json, apply_by_observation, apply_by_task. by repeat case_match.
  - split; [done|]. intros _. cbn [andb]. destruct latestTask; by eexists _, _.
Qed.

(** A request to apply a profile decodes only when it is explicitly
    confirmed and names a revision of at least one. *)
Theorem apply_request_confirmed data r :
  unmarshal_apply_request data = Ok r -> apply_Confirmed r = true /\ 1 <= apply_ExpectedRevision r.
Proof.
  unfold unmarshal_apply_request. intros Hd. inv_ok Hd. breflect. injection Hd as <-. done.
Qed.

(** ** Witnesses *)

Lemma normalize_idempotent_witness :
  sample_normal = set_roots sample_profile (prof_DeployWriteRoots sample_normal)
  /\ prof_DeployWriteRoots sample_normal ≡ₚ prof_DeployWriteRoots sample_profile
  /\ NoDup (prof_DeployWriteRoots sample_normal) /\ Sorted String.le (prof_DeployWriteRoots sample_normal)
  /\ NormalizeAgentProfile sample_normal = Ok sample_normal.
Proof. apply normalize_idempotent. vm_compute. reflexivity. Defined.

Lemma normalize_safe_witness :
  (prof_AllowDeployActions sample_normal = true -> prof_AllowDeployRead sample_normal = true)
  /\ (prof_AllowDeployDomainActions sample_normal = true ->
      prof_AllowDeployDomainRead sample_normal = true /\ prof_AllowDeployRead sample_normal = true)
  /\ (length (prof_DeployWriteRoots sample_normal) <= 16)%nat
  /\ Forall (fun v => exists comps, v = String slash (join slash comps) /\ comps <> []
               /\ Forall plain_component comps) (prof_DeployWriteRoots sample_normal)
  /\ Forall (fun v => v = "" \/ exists comps, v = String slash (join slash comps) /\ comps <> []
               /\ Forall plain_component comps)
       [prof_DeployPlansFile sample_normal; prof_DeployAcmeWebroot sample_normal].
Proof. apply (normalize_safe sample_profile). vm_compute. reflexivity. Defined.

Lemma document_bijection_witness :
  canonicalProfileApplyDocument sample_normal 3 = Ok (sample_normal, sample_document)
  <-> decodeProfileApplyDocument sample_document = Ok (mkDocument profileApplySchemaVersion 3 sample_normal).
Proof. apply document_bijection; [apply sample_is_normal|by vm_compute]. Defined.

Lemma payload_revision_witness :
  profileApplyPayloadRevision
    (marshal (map_json (apply_payload (EncodeToString sample_document) (Itoa 3)))) = Ok 3.
Proof. apply (payload_revision sample_profile 3 sample_normal); [apply sample_canonical|by vm_compute]. Defined.

Lemma profile_column_roundtrip_witness :
  decodePersistedAgentProfile (marshal (profile_json sample_normal)) = Ok sample_normal
  /\ unmarshal_profile (marshal (profile_json sample_normal)) = Ok sample_normal.
Proof. apply profile_column_roundtrip, sample_is_normal. Defined.

Definition sample_apply_request : string :=
  marshal (JObj [("expectedRevision", JNum "3"); ("confirmed", JBool true)]).

Lemma apply_request_confirmed_witness :
  apply_Confirmed (mkApplyRequest 3 true) = true /\ 1 <= apply_ExpectedRevision (mkApplyRequest 3 true).
Proof. apply (apply_request_confirmed sample_apply_request). vm_compute. reflexivity. Defined.

(** ** Properties of integration states and status results *)

(** ** Helper lemmas *)

Lemma status_rune_later i r :
  status_rune_ok (S i) r = asciiLetterOrDigit r || (r =? 46) || (r =? 95) || (r =? 45).
Proof.
  unfold status_rune_ok, asciiLetterOrDigit. simpl. rewrite andb_true_r.
  generalize ((97 <=? r) && (r <=? 122)) ((65 <=? r) && (r <=? 90)) ((48 <=? r) && (r <=? 57)).
  intros a b c. destruct a, b, c, (r =? 45), (r =? 95), (r =? 46); reflexivity.
Qed.

Lemma status_rune_first r : status_rune_ok 0 r = asciiLetterOrDigit r.
Proof.
  unfold status_rune_ok, asciiLetterOrDigit. simpl.
  destruct (Z.eqb_spec r 45) as [->|]; [reflexivity|]. destruct (Z.eqb_spec r 95) as [->|]; [reflexivity|].
  destruct (Z.eqb_spec r 46) as [->|]; [reflexivity|]. by rewrite !orb_false_r, andb_true_r.
Qed.

Lemma status_runes_later rs i :
  forallb id (imap (fun n => status_rune_ok (S (i + n))) rs)
  = forallb (fun r => asciiLetterOrDigit r || (r =? 46) || (r =? 95) || (r =? 45)) rs.
Proof.
  revert i. induction rs as [|r rs IH]; intros i; [done|]. cbn [imap forallb].
  unfold id at 1. rewrite status_rune_later, <-(IH (S i)). f_equal.
Qed.

(** The two results of a valid response. *)
Definition results_ok (r : ManagedIntegrationStatusResponse) : Prop :=
  exists x y, st_Results r = Some [x; y] /\ valid_result x = true /\ valid_result y = true
    /\ sr_ID x <> sr_ID y /\ st_Partial r = partial_result x || partial_result y.

Lemma valid_result_id r : valid_result r = true -> sr_ID r = ProcessPM2ID \/ sr_ID r = DockerID.
Proof.
  unfold valid_result. intros Hv. breflect.
  destruct (String.eqb_spec (sr_ID r) ProcessPM2ID); [by left|].
  destruct (String.eqb_spec (sr_ID r) DockerID); [by right|done].
Qed.

Lemma Validate_spec r :
  Validate r = Ok tt <->
  st_SchemaVersion r = SchemaVersion /\ (st_ObservedAt r).1 <> zero_time
  /\ tgt_Scope (st_Target r) = ScopeManagedNode /\ statusValidNodeID (tgt_NodeID (st_Target r)) = true
  /\ results_ok r.
Proof.
  unfold Validate, results_ok.
  destruct (Z.eqb_spec (st_SchemaVersion r) SchemaVersion); simpl; [|by split; [|intros (? & _)]].
  destruct (Z.eqb_spec (st_ObservedAt r).1 zero_time); simpl; [by split; [|intros (_ & ? & _)]|].
  destruct (String.eqb_spec (tgt_Scope (st_Target r)) ScopeManagedNode); simpl;
    [|by split; [|intros (_ & _ & ? & _)]].
  destruct (statusValidNodeID _); simpl; [|by split; [|intros (_ & _ & _ & ? & _)]].
  destruct (st_Results r) as [[|x [|y [|z l]]]|]; simpl;
    try (by split; [|intros (_ & _ & _ & _ & ? & ? & ? & _)]).
  rewrite bool_decide_eq_false_2 by set_solver.
  destruct (valid_result x) eqn:Hx; simpl;
    [|by split; [|intros (_ & _ & _ & _ & ? & ? & [= <- <-] & ? & _); congruence]].
  destruct (decide (sr_ID x = sr_ID y)) as [E|E].
  { rewrite bool_decide_eq_true_2 by set_solver. simpl.
    by split; [|intros (_ & _ & _ & _ & ? & ? & [= <- <-] & _ & _ & ? & _)]. }
  rewrite bool_decide_eq_false_2 by set_solver.
  destruct (valid_result y) eqn:Hy; simpl;
    [|by split; [|intros (_ & _ & _ & _ & ? & ? & [= <- <-] & _ & ? & _); congruence]].
  rewrite !bool_decide_eq_true_2
    by (destruct (valid_result_id x Hx), (valid_result_id y Hy); try congruence; set_solver).
  simpl. destruct (Bool.eqb_spec (st_Partial r) (partial_result x || partial_result y)); simpl.
  - split; [|done]. intros _. split_and!; try done. by exists x, y.
  - by split; [|intros (_ & _ & _ & _ & ? & ? & [= <- <-] & _ & _ & _ & ?)].
Qed.

(** *** The wire text *)

(** Strings without control characters that [json.Marshal] writes as they are. *)
Definition safe_char (c : ascii) : bool := html_safe c && (byte c <? 0x7F).
Definition safe_text (s : string) : Prop := Forall (fun c => safe_char c = true) (chars s).

Lemma safe_text_app s t : safe_text s -> safe_text t -> safe_text (s +:+ t).
Proof. unfold safe_text. rewrite chars_app. apply Forall_app_2. Qed.

Lemma safe_text_cons c s : safe_char c = true -> safe_text s -> safe_text (String c s).
Proof. intros Hc Hs. by apply (Forall_cons_2 (fun c => safe_char c = true)). Qed.

Lemma escape_safe s : safe_text s -> escape_from 0 s = s.
Proof.
  induction s as [|c s IH]; intros Hs; [done|]. inversion_clear Hs as [|?? [Hc _]%andb_true_iff Hs'].
  assert (byte c < 0x80) as Hb by (unfold html_safe in Hc; breflect; done).
  cbn [escape_from]. unfold decode_rune. rewrite (proj2 (Z.ltb_lt _ _)) by done.
  unfold escape_ascii. rewrite Hc. cbn [String.append]. by rewrite IH.
Qed.

Lemma safe_text_utf8 s : safe_text s -> valid_utf8 s = true.
Proof.
  intros Hs. apply ascii_valid_utf8. eapply Forall_impl; [exact Hs|]. unfold safe_char, html_safe. intros c Hc. by breflect.
Qed.

Lemma digit_string_safe ds : Forall (fun d => 0 <= d < 10) ds -> safe_text (digit_string ds).
Proof.
  intros Hd. unfold safe_text, digit_string. rewrite GoBase64.chars_of_list. apply Forall_fmap.
  eapply Forall_impl; [exact Hd|]. simpl. intros d Hr.
  assert (forallb (fun n => safe_char (digit_char (Z.of_nat n))) (seq 0 10) = true) as Hall
    by (vm_compute; reflexivity).
  rewrite forallb_forall in Hall. specialize (Hall (Z.to_nat d)). rewrite Z2Nat.id in Hall by lia.
  apply Hall, in_seq. lia.
Qed.

Lemma two_digits_safe n : 0 <= n < 100 -> safe_text (digit_string (two_digits n)).
Proof. intros Hn. apply digit_string_safe. unfold two_digits. repeat constructor; lia_div. Qed.

Lemma fraction_safe ns : safe_text (fraction_string ns).
Proof.
  unfold fraction_string. pose proof (trim_zeros_range _ (fixed_digits_range 9 ns)) as Hr.
  destruct (trim_zeros (fixed_digits 9 ns)) as [|e es]; [constructor|].
  apply safe_text_cons; [done|]. by apply digit_string_safe.
Qed.

Lemma format_time_safe t : clock_ok t = true -> safe_text (FormatRFC3339Nano t).
Proof.
  unfold clock_ok, year_of, FormatRFC3339Nano, format_with. intros Hc.
  destruct (civil_from_days (t / day_ns)) as [[y m] d] eqn:E. simpl in Hc. breflect.
  apply civil_from_days_spec in E as (Hm & Hd & _).
  assert (daysIn m y <= 31) as Hdm by (unfold daysIn; repeat case_match; lia).
  assert (0 <= t mod day_ns / 1000000000 < 86400) as Hs by (unfold day_ns in *; lia_div).
  set (sec := t mod day_ns / 1000000000) in *.
  apply safe_text_app.
  { unfold year_string. rewrite (proj2 (Z.ltb_ge _ _)), (proj2 (Z.ltb_lt _ _)) by lia. rewrite digit_string_app.
    apply safe_text_app; apply two_digits_safe; lia_div. }
  repeat (apply safe_text_cons; [done|]; apply safe_text_app; [apply two_digits_safe; lia_div|]).
  apply safe_text_app; [apply fraction_safe|]. apply safe_text_cons; [done|constructor].
Qed.

Lemma time_json_roundtrip t j :
  time_json (t, 0) = Some j -> exists s, j = jstr s /\ valid_utf8 s = true /\ into_time j (zero_time, 0) = Some (t, 0).
Proof.
  unfold time_json. cbn [fst snd]. rewrite Z.mul_0_l, Z.add_0_r. intros Hj.
  destruct (clock_ok t && _) eqn:Hc; [|done]. breflect. injection Hj as <-.
  exists (FormatRFC3339Nano t). split; [done|]. pose proof (format_time_safe t ltac:(done)) as Hsafe.
  split; [by apply safe_text_utf8|]. unfold jstr. change (format_with (zone_string 0) t) with (FormatRFC3339Nano t).
  rewrite escape_safe by done. rewrite String.eqb_refl. by apply format_parse.
Qed.

(** *** Ids are ASCII *)

Lemma decode_rune_big c s r w : 0x80 <= byte c -> decode_rune c s = Some (r, w) -> 0x80 <= r.
Proof.
  unfold decode_rune, cont, in_range. intros Hc. rewrite (proj2 (Z.ltb_ge _ _)) by done.
  intros Hd. repeat case_match; simplify_eq; breflect; try lia.
Qed.

Lemma runes_ascii s : Forall (fun r => r < 0x80) (runes s) -> runes s = byte <$> chars s.
Proof.
  unfold runes. induction s as [|c s IH]; [done|]. cbn [runes_from].
  destruct (Z.lt_ge_cases (byte c) 0x80) as [Hc|Hc].
  - unfold decode_rune. rewrite (proj2 (Z.ltb_lt _ _)) by done. intros Hf. inversion_clear Hf.
    cbn [chars String.list_ascii_of_string fmap list_fmap]. f_equal. by apply IH.
  - intros Hf. exfalso. destruct (decode_rune c s) as [[r w]|] eqn:E.
    + apply decode_rune_big in E; [|done]. inversion_clear Hf. lia.
    + inversion_clear Hf as [|?? Hr _]. by vm_compute in Hr.
Qed.

Lemma letter_or_digit_safe c : asciiLetterOrDigit (byte c) = true -> safe_char c = true.
Proof. destruct c as [[] [] [] [] [] [] [] []]; vm_compute; done. Qed.

Lemma node_id_safe v : validNodeID v = true -> safe_text v.
Proof.
  unfold validNodeID. destruct (_ || _); [done|]. unfold scan_runes. intros Hv.
  assert (Forall (fun r => asciiLetterOrDigit r || (r =? 46) || (r =? 95) || (r =? 45) = true) (runes v)) as Hr.
  { destruct (runes v) as [|r rs]; [constructor|]. breflect. constructor; [by rewrite H|].
    by apply forallb_Forall. }
  rewrite runes_ascii in Hr.
  - rewrite Forall_fmap in Hr. eapply Forall_impl; [exact Hr|]. simpl. intros c Hc.
    destruct (asciiLetterOrDigit (byte c)) eqn:E; [by apply letter_or_digit_safe|].
    revert Hc. clear. destruct c as [[] [] [] [] [] [] [] []]; vm_compute; done.
  - eapply Forall_impl; [exact Hr|]. simpl. unfold asciiLetterOrDigit. intros r Hc. lia.
Qed.

Lemma node_ids_agree value : statusValidNodeID value = validNodeID value.
Proof.
  unfold statusValidNodeID, validNodeID. change 128 with maxNodeIDLength. destruct (_ || _); [done|].
  unfold scan_runes. destruct (runes value) as [|r rs]; [done|]. cbn [imap forallb].
  unfold id at 1. rewrite status_rune_first. f_equal. apply (status_runes_later rs 0).
Qed.

(** *** Decoding what was encoded *)

(** The texts of a valid result are constants of the schema. *)
Lemma valid_result_texts r :
  valid_result r = true ->
  0 <= sr_DurationMS r
  /\ Forall (fun s => valid_utf8 s = true) [sr_ID r; sr_State r; sr_Probe r; sr_ErrorCode r].
Proof.
  unfold valid_result, IsValid. intros Hv. breflect. split; [done|].
  assert (Forall (fun s => valid_utf8 s = true)
    [ProcessPM2ID; DockerID; PM2InventoryProbe; DockerInfoProbe; NotConfigured; Unavailable; Healthy; "";
     ErrorCodeNotConfigured; ErrorCodeProbeFailed; ErrorCodeTimeout]) as Hall.
  { repeat (apply Forall_cons_2; [vm_compute; reflexivity|]). apply Forall_nil_2. }
  rewrite Forall_forall in Hall |- *. intros s Hs. apply Hall.
  match goal with He : existsb _ _ = true |- _ => apply existsb_eqb_elem in He as Hst end.
  repeat match goal with
  | He : (if ?b then _ else _) = true |- _ => destruct b eqn:?; breflect; try done
  | He : (_ || _) = true |- _ => apply orb_true_iff in He as [He|He]; breflect
  end; set_solver.
Qed.

Lemma result_json_ok r : valid_result r = true -> json_ok (result_json r).
Proof.
  intros [_ Ht]%valid_result_texts. rewrite !Forall_cons in Ht. destruct Ht as (H1 & H2 & H3 & H4 & _).
  unfold result_json, omit. apply ok_obj; rewrite !Forall_app; split_and!.
  1-3: repeat case_match; repeat constructor.
  all: repeat case_match; repeat (apply Forall_cons_2; [first [by apply ok_str|apply ok_num]|]);
    apply Forall_nil_2.
Qed.

Lemma into_result_json r :
  valid_result r = true -> sr_DurationMS r <= max_int64 ->
  into_result (result_json r) zero_result = Some r.
Proof.
  intros [Hd _]%valid_result_texts Hmax. destruct r as [i s p e n]. simpl in Hd, Hmax.
  unfold result_json, omit. cbn [sr_ID sr_State sr_Probe sr_ErrorCode sr_DurationMS].
  destruct (String.eqb_spec e "") as [->|], (Z.eqb_spec n 0) as [->|];
    cbv -[jstr json_int into_string into_int64 mbind option_bind];
    unfold mbind, option_bind, json_int; cbn [into_string into_int64 jstr];
    rewrite ?ParseInt_Itoa by (unfold min_int64; lia); reflexivity.
Qed.

Lemma into_results_json x y :
  valid_result x = true -> valid_result y = true ->
  sr_DurationMS x <= max_int64 -> sr_DurationMS y <= max_int64 ->
  into_slice zero_result into_result (JArr [result_json x; result_json y]) nil_slice
  = Some (mkSlice [x; y] (Some 2%nat)).
Proof. intros. cbn [into_slice decode_items backing nil_slice tail]. by rewrite !into_result_json. Qed.

Lemma into_target_json node :
  into_target (JObj [("scope", jstr ScopeManagedNode); ("node_id", jstr node)]) (mkTarget "" "")
  = Some (mkTarget ScopeManagedNode node).
Proof. reflexivity. Qed.

Lemma response_roundtrip r data :
  (st_ObservedAt r).2 = 0 ->
  Forall (fun x => sr_DurationMS x <= max_int64) (elems (st_Results r)) ->
  Marshal r = Ok data -> Decode data = Ok r.
Proof.
  intros Hz Hdur Hm. unfold Marshal in Hm. apply rbind_Ok in Hm as ([] & Hv & Hm).
  pose proof Hv as (Hs & _ & Hscope & Hnode & x & y & Hres & Hx & Hy & _)%Validate_spec.
  rewrite Hres in Hdur. simpl in Hdur. rewrite !Forall_cons in Hdur. destruct Hdur as (Hdx & Hdy & _).
  destruct (response_json r) as [j|] eqn:Hj; [|done]. inv_ok Hm. injection Hm as <-. breflect.
  unfold response_json in Hj. destruct (st_ObservedAt r) as [t off] eqn:Ht. simpl in Hz. subst off.
  destruct (time_json (t, 0)) as [tj|] eqn:Htj; [|done]. simpl in Hj. injection Hj as <-.
  apply time_json_roundtrip in Htj as (ts & Ets & Hu & Hinto).
  unfold Decode. rewrite (proj2 (Z.ltb_ge _ _)) by done. unfold decode_response.
  rewrite marshal_roundtrip.
  2:{ subst tj. rewrite Hscope, Hres. apply ok_obj; [by repeat constructor|].
      apply Forall_cons_2; [apply ok_num|]. apply Forall_cons_2; [by apply ok_str|].
      apply Forall_cons_2. { apply ok_obj; [by repeat constructor|].
        apply Forall_cons_2; [by apply ok_str|]. apply Forall_cons_2; [|apply Forall_nil_2].
        apply ok_str. apply safe_text_utf8, node_id_safe. by rewrite <-node_ids_agree. }
      apply Forall_cons_2; [|apply Forall_cons_2; [apply ok_bool|apply Forall_nil_2]].
      apply ok_arr. apply Forall_cons_2; [by apply result_json_ok|].
      apply Forall_cons_2; [by apply result_json_ok|apply Forall_nil_2]. }
  assert (response_members
    [("schema_version", json_int (st_SchemaVersion r)); ("observed_at", tj);
     ("target", JObj [("scope", jstr (tgt_Scope (st_Target r))); ("node_id", jstr (tgt_NodeID (st_Target r)))]);
     ("results", json_slice result_json (st_Results r)); ("partial", JBool (st_Partial r))] = Some r) as ->.
  { rewrite Hscope, Hres, Hs. cbn [json_slice fmap list_fmap].
    pose proof (into_results_json x y Hx Hy Hdx Hdy) as Hr. pose proof (into_target_json (tgt_NodeID (st_Target r))) as Htg.
    assert (into_int64 (json_int SchemaVersion) 0 = Some SchemaVersion) as Hi by reflexivity.
    revert Hr Htg Hi Hinto. generalize (JArr [result_json x; result_json y]). intros rj.
    generalize (JObj [("scope", jstr ScopeManagedNode); ("node_id", jstr (tgt_NodeID (st_Target r)))]). intros gj.
    generalize (json_int SchemaVersion). intros ij Hr Htg Hi Hti.
    cbv -[into_int64 into_time into_target into_slice into_bool mbind option_bind zero_time zero_result
          into_result nil_slice slice_value st_Partial st_Target tgt_NodeID SchemaVersion].
    rewrite Hi. unfold mbind, option_bind. 
    change (into_time tj (zero_time, 0%Z)) with (into_time tj (zero_time, 0)). rewrite Hti, Htg, Hr.
    cbn [into_bool slice_value visible backing take]. destruct r as [v o g rs p]. simpl in *. subst.
    destruct g. simpl in *. by subst. }
  by rewrite Hv.
Qed.

(** ** Claims *)

(** The node ids the status schema admits are exactly those the hub
    registers: the two validators agree on every string. *)
Theorem status_node_ids value : statusValidNodeID value = validNodeID value.
Proof. apply node_ids_agree. Qed.

(** A response is valid exactly when it is of schema version one, was
    observed at a real instant, targets a registered-style node id, and holds
    one result for PM2 and one for Docker, each with its own probe and an error
    code that fits its state, with [partial] set exactly when one of them is
    not healthy. *)
Theorem status_validate r :
  Validate r = Ok tt <->
  st_SchemaVersion r = 1 /\ (st_ObservedAt r).1 <> zero_time
  /\ tgt_Scope (st_Target r) = ScopeManagedNode /\ validNodeID (tgt_NodeID (st_Target r)) = true
  /\ exists x y, st_Results r = Some [x; y] /\ valid_result x = true /\ valid_result y = true
       /\ (sr_ID x = ProcessPM2ID /\ sr_ID y = DockerID \/ sr_ID x = DockerID /\ sr_ID y = ProcessPM2ID)
       /\ (st_Partial r = true <-> sr_State x <> Healthy \/ sr_State y <> Healthy).
Proof.
  rewrite Validate_spec, node_ids_agree. unfold SchemaVersion, results_ok.
  assert (forall x, valid_result x = true -> partial_result x = negb (sr_State x =?s Healthy)) as Hpart.
  { intros x Hx. unfold valid_result, IsValid in Hx. breflect. unfold partial_result.
    match goal with He : existsb _ _ = true |- _ => apply existsb_eqb_elem in He end.
    repeat match goal with He : _ ∈ _ :: _ |- _ => apply elem_of_cons in He as [->|He]; [done|] end.
    by match goal with He : _ ∈ [] |- _ => apply not_elem_of_nil in He end. }
  do 4 f_equiv. split; intros (x & y & Hr & Hx & Hy & Hid & Hp); exists x, y; split_and!; try done.
  - destruct (valid_result_id x Hx), (valid_result_id y Hy); intuition congruence.
  - rewrite Hp, !Hpart by done.
    destruct (String.eqb_spec (sr_State x) Healthy), (String.eqb_spec (sr_State y) Healthy); simpl; intuition congruence.
  - intros E. by destruct Hid as [[H1 H2]|[H1 H2]]; rewrite H1, H2 in E.
  - rewrite !Hpart by done. apply Bool.eq_iff_eq_true. rewrite Hp.
    destruct (String.eqb_spec (sr_State x) Healthy), (String.eqb_spec (sr_State y) Healthy); simpl; intuition congruence.
Qed.

(** What a node encodes the hub decodes: a response stamped in UTC whose
    encoding succeeds is read back unchanged by the strict decoder. *)
Theorem status_roundtrip r data :
  (st_ObservedAt r).2 = 0 ->
  Forall (fun x => sr_DurationMS x <= max_int64) (elems (st_Results r)) ->
  Marshal r = Ok data -> Decode data = Ok r.
Proof. apply response_roundtrip. Qed.

(** Availability states: [healthy] is derived exactly from a configured and
    successful observation, every derived state is a wire state, and
    normalisation returns a wire state and is idempotent. *)
Theorem state_contract `{LowerTable} observation raw s :
  (FromObservation observation = Healthy <-> Configured observation = true /\ Successful observation = true)
  /\ IsValid (FromObservation observation) = true
  /\ (Normalize raw = Ok s -> IsValid s = true /\ Normalize s = Ok s).
Proof.
  split_and!.
  - destruct observation as [[] []]; vm_compute; intuition congruence.
  - by destruct observation as [[] []].
  - unfold Normalize at 1, ValidateState. intros Hn. inv_ok Hn. injection Hn as <-.
    match goal with Hr : (if ?b then _ else _) = Ok _ |- _ => destruct b eqn:Hv; [|done] end.
    split; [done|]. unfold IsValid in Hv. apply existsb_eqb_elem in Hv.
    repeat (apply elem_of_cons in Hv as [->|Hv]; [reflexivity|]). by apply not_elem_of_nil in Hv.
Qed.

(** A completed [integration.status] result is accepted only when it is the
    single member [data] holding a valid response of at most 32 KiB, a failed
    one only with the fixed error code and no data. *)
Theorem status_result_gate req :
  ValidateIntegrationStatusTaskResult req = Ok tt ->
  (tres_Status req = TaskStatusCompleted /\ tres_Error req = ""
   /\ exists data r, tres_Result req = {["data" := data]} /\ Decode data = Ok r /\ Validate r = Ok tt
                     /\ len data <= MaxResultBytes)
  \/ (tres_Status req = TaskStatusFailed /\ tres_Error req = FatalErrorCode /\ tres_Result req = ∅).
Proof.
  unfold ValidateIntegrationStatusTaskResult. intros Hv.
  destruct (String.eqb_spec (tres_Status req) TaskStatusCompleted) as [Hs|_].
  - left. inv_ok Hv. breflect. destruct (tres_Result req !! "data") as [data|] eqn:Hd; [|done]. inv_ok Hv.
    destruct (Decode data) as [r|] eqn:Hdec; [|done]. split; [done|]. split; [done|].
    exists data, r. split_and!; [|done| |].
    + apply map_eq. intros k. destruct (decide (k = "data")) as [->|Hk]; [by simplify_map_eq|].
      rewrite lookup_singleton_ne by done.
      assert (dom (tres_Result req) = {["data"]}) as Hdom.
      { rewrite (dom_exact _ ["data"]); [set_solver|by apply NoDup_singleton| |].
        - by repeat constructor; rewrite Hd.
        - unfold map_len in *. simpl. lia. }
      apply not_elem_of_dom. rewrite Hdom. set_solver.
    + unfold Decode in Hdec. destruct (_ <? _); [done|]. destruct (decode_response data); [|done].
      destruct (Validate _) as [[]|] eqn:Hval; [|done]. simpl in Hdec. congruence.
    + unfold Decode in Hdec. destruct (Z.ltb_spec MaxResultBytes (len data)); [done|lia].
  - right. destruct (String.eqb_spec (tres_Status req) TaskStatusFailed); [|done]. inv_ok Hv. breflect.
    split; [done|]. split; [done|]. apply map_size_empty_inv. unfold map_len in *. lia.
Qed.

(** ** Witnesses *)

Definition sample_status : ManagedIntegrationStatusResponse :=
  mkStatusResponse 1 (1767225600500000000, 0) (mkTarget ScopeManagedNode "edge-01")
    (Some [mkStatusResult ProcessPM2ID Healthy PM2InventoryProbe "" 12;
           mkStatusResult DockerID Unavailable DockerInfoProbe ErrorCodeTimeout 0]) true.

Definition sample_status_text : string :=
  match Marshal sample_status with Ok t => t | Err _ => "" end.

Lemma status_roundtrip_witness : Decode sample_status_text = Ok sample_status.
Proof.
  apply status_roundtrip; [reflexivity| |vm_compute; reflexivity].
  apply Forall_cons_2; [by vm_compute|]. apply Forall_cons_2; [by vm_compute|apply Forall_nil_2].
Defined.

Definition sample_status_result : TaskResultRequest :=
  mkTaskResult TaskStatusCompleted {["data" := sample_status_text]} "".

Lemma status_result_gate_witness :
  (tres_Status sample_status_result = TaskStatusCompleted /\ tres_Error sample_status_result = ""
   /\ exists data r, tres_Result sample_status_result = {["data" := data]} /\ Decode data = Ok r
        /\ Validate r = Ok tt /\ len data <= MaxResultBytes)
  \/ (tres_Status sample_status_result = TaskStatusFailed
      /\ tres_Error sample_status_result = FatalErrorCode /\ tres_Result sample_status_result = ∅).
Proof. apply status_result_gate. vm_compute. reflexivity. Defined.

(** ** Properties of what a node reports about its host

    Metrics snapshots and heartbeat inventories. *)

(** ** Helper lemmas *)

Definition uint64 (n : Z) : Prop := 0 <= n <= max_uint64.

Lemma digits_value_nonneg s acc n : 0 <= acc -> digits_value acc s = Some n -> 0 <= n.
Proof.
  revert acc. induction s as [|c s IH]; intros acc Ha Hd; simpl in Hd; [by simplify_eq|].
  unfold digit_of in Hd. destruct (in_range 48 57 c) eqn:E; [|done]. unfold in_range in E. breflect.
  eapply IH; [|exact Hd]. lia.
Qed.

Lemma into_uint64_range j old n : uint64 old -> into_uint64 j old = Some n -> uint64 n.
Proof.
  intros Ho. destruct j; simpl; try done; [by intros [= <-]|]. unfold ParseUint, uint64.
  destruct (_ =?s _); [done|]. destruct (digits_value 0 lit) as [m|] eqn:E; [|done].
  destruct (Z.leb_spec m max_uint64); [|done]. intros [= <-]. apply digits_value_nonneg in E; lia.
Qed.

(** What every member preserves the field has. *)
Lemma read_field_inv {A} (P : A -> Prop) names name (into : json -> A -> option A) ms acc a :
  P acc -> (forall j x y, P x -> into j x = Some y -> P y) ->
  read_field names name into ms acc = Some a -> P a.
Proof.
  intros Hp Hinto. revert acc Hp. induction ms as [|[k v] ms IH]; intros acc Hp Hr; simpl in Hr; [by simplify_eq|].
  case_bool_decide; [|by eapply IH]. destruct (into v acc) eqn:E; [|done]. by eapply IH; [eapply Hinto|].
Qed.

Ltac opt_steps H :=
  repeat match type of H with
  | (?x ≫= _) = Some _ =>
      let a := fresh "v" in let E := fresh "Hv" in
      destruct x as [a|] eqn:E; [cbn [mbind option_bind] in H|done]
  end.

Definition bytes_ok (a b c : Z) : Prop := uint64 a /\ uint64 b /\ uint64 c.

Lemma into_memory_range j m m' :
  bytes_ok (mem_TotalBytes m) (mem_UsedBytes m) (mem_AvailableBytes m) -> into_memory j m = Some m' ->
  bytes_ok (mem_TotalBytes m') (mem_UsedBytes m') (mem_AvailableBytes m').
Proof.
  intros (H1 & H2 & H3) Hi. unfold into_memory, into_struct in Hi. destruct j; try done; [by simplify_eq|].
  destruct (negb _); [done|]. opt_steps Hi. injection Hi as <-.
  split_and!; (eapply read_field_inv; [| |eassumption]; [done|by eauto using into_uint64_range]).
Qed.

Lemma into_filesystem_range j m m' :
  bytes_ok (fs_TotalBytes m) (fs_UsedBytes m) (fs_AvailableBytes m) -> into_filesystem j m = Some m' ->
  bytes_ok (fs_TotalBytes m') (fs_UsedBytes m') (fs_AvailableBytes m').
Proof.
  intros (H1 & H2 & H3) Hi. unfold into_filesystem, into_struct in Hi. destruct j; try done; [by simplify_eq|].
  destruct (negb _); [done|]. opt_steps Hi. injection Hi as <-.
  split_and!; (eapply read_field_inv; [| |eassumption]; [done|by eauto using into_uint64_range]).
Qed.

Lemma decoded_ranges data s :
  DecodeMetricsSnapshot data = Ok s ->
  bytes_ok (mem_TotalBytes (snap_Memory s)) (mem_UsedBytes (snap_Memory s)) (mem_AvailableBytes (snap_Memory s))
  /\ bytes_ok (fs_TotalBytes (snap_RootDisk s)) (fs_UsedBytes (snap_RootDisk s)) (fs_AvailableBytes (snap_RootDisk s)).
Proof.
  assert (bytes_ok 0 0 0) as H0 by (unfold bytes_ok, uint64, max_uint64; lia).
  unfold DecodeMetricsSnapshot. intros Hd. inv_ok Hd. destruct (unmarshal data) as [j|]; [|done].
  destruct (into_snapshot j zero_snapshot) as [s'|] eqn:Hi; [|done]. injection Hd as <-.
  unfold into_snapshot, into_struct in Hi. destruct j; try done; [by simplify_eq|].
  destruct (negb _); [done|]. opt_steps Hi. injection Hi as <-. simpl.
  split; (eapply read_field_inv with (P := fun m => bytes_ok (_ m) (_ m) (_ m)); [| |eassumption]; [exact H0|]).
  - intros. by eapply into_memory_range.
  - intros. by eapply into_filesystem_range.
Qed.

Lemma wrap_uint64_id x : 0 <= x <= max_uint64 -> wrap_uint64 x = x.
Proof. unfold wrap_uint64, max_uint64. intros. apply Z.mod_small. lia. Qed.

Lemma has_exact_fields_dom fields object :
  NoDup fields -> has_exact_fields fields object = true -> dom object = list_to_set fields.
Proof.
  unfold has_exact_fields. intros Hnd Hf. apply andb_true_iff in Hf as [Hs Hall].
  apply Nat.eqb_eq in Hs. apply dom_exact; [done| |done].
  apply forallb_Forall in Hall. eapply Forall_impl; [exact Hall|]. simpl. intros x Hx. by breflect.
Qed.

(** Counters that pass the test add up to at most their total. *)
Lemma counters_sum used free total :
  uint64 free -> uint64 total -> counters_inconsistent used free total = false -> used + free <= total.
Proof.
  unfold counters_inconsistent, uint64. intros Hf Ht Hc. breflect.
  rewrite wrap_uint64_id in * by lia. lia.
Qed.

Lemma distinct_allowed_spec allowed seen parts :
  distinct_allowed allowed seen parts = true ->
  NoDup parts /\ Forall (fun p => allowed p = true /\ p ∉ seen) parts.
Proof.
  revert seen. induction parts as [|p parts IH]; intros seen Hd; simpl in Hd; [by repeat constructor|].
  destruct (allowed p) eqn:Ha; [|done]. case_bool_decide as Hs; [done|].
  apply IH in Hd as [Hnd HF]. rewrite Forall_forall in HF. split.
  - constructor; [|done]. intros Hin. apply HF in Hin as [_ Hin]. set_solver.
  - constructor; [done|]. apply Forall_forall. intros x Hx. apply HF in Hx as [? ?]. set_solver.
Qed.

Lemma check_file_roots_spec parents seen roots :
  check_file_roots parents seen roots = true ->
  Forall (fun r => (exists comps, r = String slash (join slash comps) /\ Forall plain_component comps)
                   /\ forall ps, parents = Some ps -> r ∈ ps) roots.
Proof.
  revert seen. induction roots as [|r roots IH]; intros seen Hc; simpl in Hc; [constructor|].
  destruct (_ || _) eqn:E; [done|]. breflect. case_bool_decide; [done|].
  assert (exists comps, r = String slash (join slash comps) /\ Forall plain_component comps) as Hr.
  { destruct (Clean_abs_components r) as (comps & Ec & Hp & _); [done|]. exists comps. split; [congruence|done]. }
  destruct parents as [ps|].
  - destruct (existsb (String.eqb r) ps) eqn:Hin; [|done]. apply existsb_eqb_elem in Hin.
    constructor; [split; [done|by intros ? [= <-]]|]. by eapply IH.
  - constructor; [by split|]. by eapply IH.
Qed.

(** ** Claims *)

(** The hub records a heartbeat as fresh exactly when its timestamp is set
    and differs from the hub's clock by at most five minutes, in the past or in
    the future; the saturation of [Time.Sub] never hides a stale one. *)
Theorem heartbeat_fresh now sentAt :
  (HeartbeatFreshnessWindow <? heartbeatAge now sentAt) = false
  <-> sentAt <> zero_time /\ Z.abs (now - sentAt) <= 5 * 60 * 1000000000.
Proof.
  unfold heartbeatAge, HeartbeatFreshnessWindow, Minute, Second, Nanosecond, Sub, max_int64, min_int64.
  destruct (Z.eqb_spec sentAt zero_time) as [->|Hz]; [split; [intros [=]|by intros [? _]]|].
  destruct (Z.ltb_spec now sentAt); rewrite Z.ltb_ge; split; intros; try (split; [done|]); lia.
Qed.

(** An accepted heartbeat advertises distinct capabilities of the known
    set, its disk and swap counters add up to at most their totals in exact
    arithmetic, and every managed write root is an absolute clean path and one
    of the read roots, when read roots are reported. *)
Theorem heartbeat_inventory req :
  let i := hb_Inventory req in
  uint64 (inv_DiskTotal i) -> uint64 (inv_DiskAvailable i) -> uint64 (inv_SwapTotal i) -> uint64 (inv_SwapFree i) ->
  validateHeartbeatFields req = Ok tt ->
  NoDup (elems (hb_Capabilities req)) /\ Forall (fun c => c ∈ known_capabilities) (elems (hb_Capabilities req))
  /\ inv_DiskUsed i + inv_DiskAvailable i <= inv_DiskTotal i
  /\ inv_SwapUsed i + inv_SwapFree i <= inv_SwapTotal i
  /\ Forall (fun r => (exists comps, r = String slash (join slash comps) /\ Forall plain_component comps)
                      /\ forall roots, inv_FileReadRoots i = Some roots -> r ∈ roots) (inv_FileWriteRoots i).
Proof.
  intros i Hdt Hda Hst Hsf Hv. unfold validateHeartbeatFields in Hv. fold i in Hv.
  inv_ok Hv. clear Hv. apply orb_false_iff in E12 as [_ Hw]. breflect.
  match goal with Hc : distinct_allowed known_capability _ _ = true |- _ =>
    apply distinct_allowed_spec in Hc as [Hnd HF] end.
  split_and!; [done| |by apply counters_sum..|].
  - eapply Forall_impl; [exact HF|]. intros c [Hc _]. by apply existsb_eqb_elem.
  - unfold validManagedFileRootInventory in Hw. destruct (16 <? _); [done|]. by eapply check_file_roots_spec.
Qed.

(** A metrics snapshot the hub decodes and validates was observed in UTC
    between two minutes before and thirty seconds after the hub's clock, counts
    one to 65536 cores, its memory counters satisfy [used + available = total]
    and its disk counters [used + available <= total] in exact arithmetic (no
    wrap-around of [uint64] can satisfy the tests), and the percentages and
    loads are finite numbers within their bounds. *)
Theorem metrics_bounds data now s :
  DecodeMetricsSnapshot data = Ok s -> ValidateMetricsSnapshot s now = Ok tt ->
  let m := snap_Memory s in let d := snap_RootDisk s in
  (snap_ObservedAt s).2 = 0
  /\ now - 120 * 1000000000 <= (snap_ObservedAt s).1 <= now + 30 * 1000000000
  /\ 1 <= cpu_CoreCount (snap_CPU s) <= 65536
  /\ 0 < mem_TotalBytes m /\ mem_UsedBytes m + mem_AvailableBytes m = mem_TotalBytes m
  /\ 0 < fs_TotalBytes d /\ fs_UsedBytes d + fs_AvailableBytes d <= fs_TotalBytes d
  /\ Forall (fun x => f_le f_zero x = true /\ f_le x (of_Z 100) = true)
       [cpu_UsagePercent (snap_CPU s); mem_UsagePercent m; fs_UsagePercent d]
  /\ Forall (fun x => f_le f_zero x = true /\ f_le x (of_Z 1000000) = true)
       [load_One (snap_Load s); load_Five (snap_Load s); load_Fifteen (snap_Load s)].
Proof.
  intros ((Hmt & Hmu & Hma) & (Hdt & Hdu & Hda))%decoded_ranges Hv. cbv zeta.
  unfold ValidateMetricsSnapshot in Hv.
  destruct (snap_ObservedAt s) as [observed offset]. unfold invalid_memory, invalid_disk in Hv.
  inv_ok Hv. unfold uint64 in *. breflect.
  repeat match goal with
  | Hp : validMetricsPercent _ = true |- _ => unfold validMetricsPercent in Hp; breflect
  | Hp : validMetricsLoad _ = true |- _ => unfold validMetricsLoad in Hp; breflect
  end.
  unfold MetricsSnapshotMaxAge, MetricsSnapshotFutureSkew, Minute, Second in *.
  rewrite wrap_uint64_id in * by lia. split_and!; simpl; try lia; repeat constructor; done.
Qed.

(** Every counter of a decoded metrics snapshot was sent: the document has
    exactly the six members of the schema and every object exactly its fields,
    so no value is a silent zero. *)
Theorem metrics_complete data s :
  DecodeMetricsSnapshot data = Ok s ->
  exists root, unmarshal_raw_map data = Some root
    /\ dom root = {["observed_at"; "cpu"; "load"; "memory"; "network"; "root_disk"]}
    /\ Forall (fun o => exists raw object, root !! o.1 = Some raw /\ raw_object raw = Some object
                          /\ dom object = list_to_set o.2) metrics_objects.
Proof.
  unfold DecodeMetricsSnapshot. intros Hd. inv_ok Hd. clear Hd.
  match goal with Hs : validateMetricsJSONShape _ = Ok _ |- _ => unfold validateMetricsJSONShape in Hs;
    destruct (unmarshal_raw_map data) as [root|]; [|done]; inv_ok Hs; clear Hs end.
  breflect. match goal with Ho : forallb _ _ = true |- _ => apply forallb_Forall in Ho as Hobj end.
  exists root. split; [done|].
  assert (Forall (fun o => exists raw object, root !! o.1 = Some raw /\ raw_object raw = Some object
                            /\ dom object = list_to_set o.2) metrics_objects) as HF.
  { rewrite Forall_forall in Hobj |- *. intros o Ho. specialize (Hobj o Ho). unfold object_shape in Hobj.
    destruct (root !! o.1) as [raw|] eqn:Hr; [|done]. destruct (raw_object raw) as [object|] eqn:Hro; [|done].
    exists raw, object. split_and!; try done. apply has_exact_fields_dom; [|done].
    clear - Ho. unfold metrics_objects in Ho.
    repeat (apply elem_of_cons in Ho as [->|Ho]; [apply (bool_decide_unpack _); vm_compute; exact I|]).
    by apply not_elem_of_nil in Ho. }
  split; [|done].
  rewrite (dom_exact root ["observed_at"; "cpu"; "load"; "memory"; "network"; "root_disk"]).
  - simpl. set_solver.
  - apply (bool_decide_unpack _). vm_compute. exact I.
  - unfold metrics_objects in HF. rewrite !Forall_cons in HF.
    destruct HF as ((? & ? & ? & _) & (? & ? & ? & _) & (? & ? & ? & _) & (? & ? & ? & _) & (? & ? & ? & _) & _).
    simpl in *. apply Forall_cons_2; [done|]. repeat (apply Forall_cons_2; [by eexists|]). apply Forall_nil_2.
  - match goal with Hs : (size root =? _)%nat = true |- _ => by apply Nat.eqb_eq in Hs end.
Qed.

(** ** Witnesses *)

Definition sample_inventory : Inventory :=
  mkInventory "linux" "amd64" "6.8.0" "b0-42" 3600 (dec_to_float false 42 (-2)) 8000 5000 100 40 60 false ""
    1000 400 500 (dec_to_float false 444 (-1)) [mkDiskMount "/dev/sda1" 1000 400 500 44 "/"] false
    (Some [mkServiceState "nginx.service" "active" "running"])
    (Some [mkProcess 17 99 "root" (dec_to_float false 15 (-1)) f_zero 4096 "nginx: master"])
    ["system"; "nginx"] (Some ["/srv"; "/etc/nginx"]) ["/srv"].

Definition sample_now : time := 1767225600500000000.

Definition sample_heartbeat : HeartbeatRequest :=
  mkHeartbeat ProtocolVersion "edge-01" "1.4.0"
    (Some [CapabilityInventory; CapabilityServiceStatus; CapabilityProfileApply; CapabilityDeployDomainAction;
           CapabilityMetricsRead])
    "edge-01.example" sample_now sample_inventory None.

Lemma heartbeat_inventory_witness :
  NoDup (elems (hb_Capabilities sample_heartbeat))
  /\ Forall (fun c => c ∈ known_capabilities) (elems (hb_Capabilities sample_heartbeat))
  /\ 400 + 500 <= 1000 /\ 40 + 60 <= 100
  /\ Forall (fun r => (exists comps, r = String slash (join slash comps) /\ Forall plain_component comps)
                      /\ forall roots, inv_FileReadRoots sample_inventory = Some roots -> r ∈ roots) ["/srv"].
Proof.
  apply (heartbeat_inventory sample_heartbeat); first [split; by vm_compute|vm_compute; reflexivity].
Defined.

(** A heartbeat that omits its read roots may report any write root: the
    check that write roots are among the read roots is skipped when the read
    roots are the nil slice. *)
Theorem heartbeat_write_roots_unchecked :
  exists req, validateHeartbeatFields req = Ok tt /\ inv_FileReadRoots (hb_Inventory req) = None
    /\ inv_FileWriteRoots (hb_Inventory req) = ["/etc"].
Proof.
  exists (mkHeartbeat ProtocolVersion "edge-01" "" None "" sample_now
    (mkInventory "" "" "" "" 0 f_zero 0 0 0 0 0 false "" 0 0 0 f_zero [] false None None [] None ["/etc"]) None).
  split; [vm_compute; reflexivity|done].
Qed.

Definition sample_metrics_text : string :=
  marshal (JObj
    [("observed_at", jstr (FormatRFC3339Nano sample_now));
     ("cpu", JObj [("usage_percent", JNum "12.5"); ("core_count", JNum "8")]);
     ("load", JObj [("one", JNum "0.5"); ("five", JNum "0.25"); ("fifteen", JNum "1e-1")]);
     ("memory", JObj [("total_bytes", JNum "8000"); ("used_bytes", JNum "3000");
                      ("available_bytes", JNum "5000"); ("usage_percent", JNum "37.5")]);
     ("network", JObj [("rx_bytes", JNum "10"); ("tx_bytes", JNum "20")]);
     ("root_disk", JObj [("total_bytes", JNum "1000"); ("used_bytes", JNum "400");
                         ("available_bytes", JNum "500"); ("usage_percent", JNum "44.44")])]).

Definition sample_snapshot : MetricsSnapshot :=
  mkSnapshot (sample_now, 0) (mkCPU (dec_to_float false 125 (-1)) 8)
    (mkLoad (dec_to_float false 5 (-1)) (dec_to_float false 25 (-2)) (dec_to_float false 1 (-1)))
    (mkMemory 8000 3000 5000 (dec_to_float false 375 (-1))) (mkNetwork 10 20)
    (mkFilesystem 1000 400 500 (dec_to_float false 4444 (-2))).

Lemma metrics_bounds_witness :
  (snap_ObservedAt sample_snapshot).2 = 0
  /\ sample_now + 1 - 120 * 1000000000 <= (snap_ObservedAt sample_snapshot).1 <= sample_now + 1 + 30 * 1000000000
  /\ 1 <= cpu_CoreCount (snap_CPU sample_snapshot) <= 65536
  /\ 0 < mem_TotalBytes (snap_Memory sample_snapshot)
  /\ mem_UsedBytes (snap_Memory sample_snapshot) + mem_AvailableBytes (snap_Memory sample_snapshot)
     = mem_TotalBytes (snap_Memory sample_snapshot)
  /\ 0 < fs_TotalBytes (snap_RootDisk sample_snapshot)
  /\ fs_UsedBytes (snap_RootDisk sample_snapshot) + fs_AvailableBytes (snap_RootDisk sample_snapshot)
     <= fs_TotalBytes (snap_RootDisk sample_snapshot)
  /\ Forall (fun x => f_le f_zero x = true /\ f_le x (of_Z 100) = true)
       [cpu_UsagePercent (snap_CPU sample_snapshot); mem_UsagePercent (snap_Memory sample_snapshot);
        fs_UsagePercent (snap_RootDisk sample_snapshot)]
  /\ Forall (fun x => f_le f_zero x = true /\ f_le x (of_Z 1000000) = true)
       [load_One (snap_Load sample_snapshot); load_Five (snap_Load sample_snapshot);
        load_Fifteen (snap_Load sample_snapshot)].
Proof.
  apply (metrics_bounds sample_metrics_text (sample_now + 1) sample_snapshot); vm_compute; reflexivity.
Defined.

Lemma metrics_complete_witness :
  exists root, unmarshal_raw_map sample_metrics_text = Some root
    /\ dom root = {["observed_at"; "cpu"; "load"; "memory"; "network"; "root_disk"]}
    /\ Forall (fun o => exists raw object, root !! o.1 = Some raw /\ raw_object raw = Some object
                          /\ dom object = list_to_set o.2) metrics_objects.
Proof. apply (metrics_complete _ sample_snapshot). vm_compute. reflexivity. Defined.
