(* ===== verification/Samples.v ===== *)
(** * A sample history

    A node registers, reports, gets a profile, is asked to apply it and to
    report a service, takes the first task and finishes it.  The states of this
    history are the concrete inputs of the witnesses. *)

From stdpp Require Import base strings gmap list sorting.
From Stdlib Require Import ZArith Lia.
From S2P Require Import Prelude GoStrings GoJson GoTime GoSha256 HubTypes TaskGate Profile.
From S2P Require Import TaskResult Heartbeat Repository Service HubSystem ServiceFacts.
From S2P Require Import TaskGateClaims HostClaims.
Local Open Scope Z_scope.

Definition sample_node : string := "edge-01".
Definition sample_registration : RegisterNodeRequest := mkRegister sample_node "Edge one".
Definition sample_raw_token : list Z := Z.of_nat <$> seq 1 32.
Definition sample_token : string := hex_encode sample_raw_token.
Definition sample_later : time := sample_now + 10 * Second.

Definition sample_result : TaskResultRequest :=
  mkTaskResult TaskStatusCompleted
    (<["revision" := "1"]> {["state" := ProfileApplyResultRestartScheduled]}) "".

Definition sample_d1 : db := Eval vm_compute in
  (CreateNode Migrate sample_registration (sha256_hex sample_token) sample_now).2.
Definition sample_d2 : db := Eval vm_compute in (UpdateHeartbeat sample_d1 sample_node sample_heartbeat sample_now).2.
Definition sample_d3 : db := Eval vm_compute in (SaveNodeProfile sample_d2 sample_node sample_profile 0 sample_now).2.
Definition sample_d4 : db := Eval vm_compute in
  (CreateProfileApplyTask sample_d3 sample_node 1 sample_normal sample_later).2.
Definition sample_d5 : db := Eval vm_compute in
  (CreateTask sample_d4 sample_node sample_status_request sample_later).2.
Definition sample_d6 : db := Eval vm_compute in (ClaimNextTask sample_d5 sample_node sample_later).2.
Definition sample_d7 : db := Eval vm_compute in
  (complete_update sample_d6 sample_node 1 sample_result sample_later).2.

Definition sample_events : list event :=
  [Silent; Silent; Silent; Silent; Silent; Claimed sample_node 1; Finished sample_node 1].

(** UTF-8 of a concrete map, by evaluation. *)
Definition utf8_mapb (m : gmap string string) : bool :=
  forallb (fun kv => valid_utf8 kv.1 && valid_utf8 kv.2) (map_to_list m).

Lemma utf8_mapb_ok m : utf8_mapb m = true -> utf8_map m.
Proof.
  unfold utf8_mapb, utf8_map. rewrite forallb_forall. intros Hm k v Hkv.
  specialize (Hm (k, v)). simpl in Hm. apply andb_true_iff, Hm. by apply list_elem_of_In, elem_of_map_to_list.
Qed.

Section Sample.
#[local] Existing Instance latin_tables.

(** A step given by its event and its result. *)
Lemma step_as d e d' e1 d1 : hub_step d e1 d1 -> e1 = e -> d1 = d' -> hub_step d e d'.
Proof. by intros Hs <- <-. Qed.

Ltac evaluates :=
  lazymatch goal with
  | |- utf8_map _ => apply utf8_mapb_ok; vm_compute; reflexivity
  | |- _ => vm_compute; reflexivity
  end.

Lemma sample_step1 : hub_step Migrate Silent sample_d1.
Proof.
  eapply step_as; [apply (step_register _ sample_registration (sha256_hex sample_token) sample_now)|..]; evaluates.
Qed.

Lemma sample_step2 : hub_step sample_d1 Silent sample_d2.
Proof. eapply step_as; [apply (step_heartbeat _ sample_node sample_heartbeat sample_now)|..]; evaluates. Qed.

Lemma sample_step3 : hub_step sample_d2 Silent sample_d3.
Proof. eapply step_as; [apply (step_save_profile _ sample_node sample_profile 0 sample_now)|..]; by vm_compute. Qed.

Lemma sample_step4 : hub_step sample_d3 Silent sample_d4.
Proof. eapply step_as; [apply (step_apply _ sample_node 1 sample_normal sample_later)|..]; by vm_compute. Qed.

Lemma sample_step5 : hub_step sample_d4 Silent sample_d5.
Proof. eapply step_as; [apply (step_create _ sample_node sample_status_request sample_later)|..]; evaluates. Qed.

Lemma reachable_step d e d' : reachable d -> hub_step d e d' -> reachable d'.
Proof.
  intros (es & Hes) Hs. exists (es ++ [e]). eapply steps_app; [exact Hes|].
  econstructor; [exact Hs|constructor].
Qed.

Lemma sample_d2_reachable : reachable sample_d2.
Proof.
  eapply reachable_step; [eapply reachable_step; [exists []; constructor|apply sample_step1]|apply sample_step2].
Qed.

Lemma sample_d3_reachable : reachable sample_d3.
Proof. eapply reachable_step; [apply sample_d2_reachable|apply sample_step3]. Qed.

Lemma sample_d4_reachable : reachable sample_d4.
Proof. eapply reachable_step; [apply sample_d3_reachable|apply sample_step4]. Qed.

Lemma sample_d5_reachable : reachable sample_d5.
Proof. eapply reachable_step; [apply sample_d4_reachable|apply sample_step5]. Qed.

Lemma sample_claim_step : hub_step sample_d5 (Claimed sample_node 1) sample_d6.
Proof. eapply step_as; [apply (step_claim _ sample_node sample_later)|..]; evaluates. Qed.

Lemma sample_finish_step : hub_step sample_d6 (Finished sample_node 1) sample_d7.
Proof.
  eapply step_as; [apply (step_finish _ sample_node 1 sample_result sample_later)|..];
    evaluates.
Qed.

Lemma sample_finish : hub_steps sample_d6 [Finished sample_node 1] sample_d7.
Proof. eapply runs_cons; [apply sample_finish_step|apply runs_refl]. Qed.

Lemma sample_d6_reachable : reachable sample_d6.
Proof. eapply reachable_step; [apply sample_d5_reachable|apply sample_claim_step]. Qed.

Lemma sample_d7_reachable : reachable sample_d7.
Proof. eapply reachable_step; [apply sample_d6_reachable|apply sample_finish_step]. Qed.

Lemma sample_run : hub_steps Migrate sample_events sample_d7.
Proof.
  eapply runs_cons; [apply sample_step1|]. eapply runs_cons; [apply sample_step2|].
  eapply runs_cons; [apply sample_step3|]. eapply runs_cons; [apply sample_step4|].
  eapply runs_cons; [apply sample_step5|]. eapply runs_cons; [apply sample_claim_step|]. apply sample_finish.
Qed.
End Sample.
