(* ===== verification/HubClaims.v ===== *)
(** * Properties of the hub as a whole

    Statements about every reachable state and every execution, whatever the
    interleaving of the requests. *)

From stdpp Require Import base strings gmap list sorting.
From Stdlib Require Import ZArith Lia.
From S2P Require Import Prelude GoStrings GoJson GoTime HubTypes TaskGate Profile.
From S2P Require Import TaskResult Heartbeat Repository Service HubSystem HubRefines ServiceFacts.
From S2P Require Import TaskGateClaims HostClaims Samples.
Local Open Scope Z_scope.
Local Open Scope hub_scope.

(** ** Helper lemmas *)

Section claims.
Context `{UnicodeTables}.

Lemma step_revision d e d' nodeID :
  hub_inv d -> hub_step d e d' ->
  revision_of d' nodeID = revision_of d nodeID \/ revision_of d' nodeID = revision_of d nodeID + 1.
Proof.
  intros Hd Hs. assert (forall d1, db_profiles d1 = db_profiles d -> revision_of d1 nodeID = revision_of d nodeID) as Hsame.
  { unfold revision_of. by intros d1 ->. }
  destruct Hs as [req hash now|n req now|n p rev now|n o now|n|n req now|n rev p now|n now|n id req now].
  all: lazymatch goal with |- context [SaveNodeProfile] => idtac | |- _ => left; apply Hsame end.
  - unfold CreateNode. by repeat case_match.
  - unfold UpdateHeartbeat. by repeat case_match.
  - destruct (SaveNodeProfile_cases d n p rev now) as [(e & ->)|(q & _ & Hr & Hpos & Hw & ->)]; [by left|].
    simpl. unfold write_profile, revision_of at 1 3. simpl. destruct (decide (n = nodeID)) as [->|Hn].
    + rewrite lookup_insert_eq. simpl. right. rewrite Hr.
      destruct (db_profiles d !! nodeID) as [row|] eqn:Hrow.
      * apply wrap_next; [|done]. destruct (inv_profiles _ Hd _ _ Hrow) as [_ [? _]].
        unfold revision_of in Hr. rewrite Hrow in Hr. lia.
      * unfold revision_of in Hr. rewrite Hrow in Hr. by subst rev.
    + rewrite lookup_insert_ne by done. by left.
  - unfold UpsertNodeProfileObservation. by repeat case_match.
  - unfold ClearNodeProfileObservation. by repeat case_match.
  - unfold CreateTask, insert_task. by repeat case_match; simplify_eq.
  - unfold CreateProfileApplyTask, insert_task. by repeat case_match; simplify_eq.
  - unfold ClaimNextTask. by repeat case_match.
  - unfold complete_update. by repeat case_match.
Qed.

(** ** Claims *)

(** C2. At every moment of every interleaving of requests a node has at most
    one profile apply that is queued or running. *)
Theorem single_flight d nodeID :
  reachable d -> (length (filter (fun r => apply_in_flight nodeID r = true) (db_tasks d)) <= 1)%nat.
Proof. intros Hd%reachable_inv. apply (inv_single_flight _ Hd). Qed.

(** C1. The hub implements the abstract job board: every execution of the hub
    is an execution of the board with the same events (a job claimed, a job
    finished; queueing is a silent step of both), under the reading of the task
    table as a board. *)
Theorem hub_refines_board es d :
  hub_steps Migrate es d -> board_steps exclusive_kind [] es (board_of d).
Proof. intros Hs. apply (queue_refines (Q := hub_queue) Migrate es d inv_init Hs). Qed.

(** C22. Every node receives its tasks in the order they were queued, each at
    most once: the ids handed to a node along any execution are strictly
    increasing. *)
Theorem claims_fifo es d nodeID :
  hub_steps Migrate es d -> StronglySorted Z.lt (claims nodeID es).
Proof. by apply (queue_fifo (Q := hub_queue) Migrate es d nodeID inv_init). Qed.

(** A result is recorded at most once per task, and only from the node
    that received the task before. *)
Theorem finish_once es d :
  hub_steps Migrate es d ->
  NoDup (finishes es)
  /\ forall es1 nodeID id es2, es = es1 ++ Finished nodeID id :: es2 -> Claimed nodeID id ∈ es1.
Proof. by apply (queue_finish_once (Q := hub_queue) Migrate es d inv_init). Qed.

(** A task keeps its id, node, kind and payload for ever and its status only
    moves from queued to running to a final one. *)
Theorem tasks_only_move_forward d es d' r :
  reachable d -> hub_steps d es d' -> r ∈ db_tasks d ->
  exists r', r' ∈ db_tasks d' /\ tr_id r' = tr_id r /\ tr_node_id r' = tr_node_id r /\ tr_kind r' = tr_kind r
    /\ tr_payload_json r' = tr_payload_json r /\ rank (tr_status r) <= rank (tr_status r').
Proof.
  intros Hd%reachable_inv Hs Hr.
  assert (job_of r ∈ board_of d) as Hj by (by apply list_elem_of_fmap_2).
  destruct (queue_keeps_jobs (Q := hub_queue) d es d' (job_of r) Hd Hs Hj) as (j' & Hj' & H1 & H2 & H3 & H4 & H5).
  apply list_elem_of_fmap in Hj' as (r' & -> & Hr'). exists r'. split; [done|].
  simpl in *. split_and!; try done. unfold phase_of in H5. unfold rank. repeat case_match; simpl in *; lia.
Qed.

(** C38. Every reachable database is sound: task ids are positive, strictly
    increasing in the order of insertion and below the next id; every task,
    profile and observation belongs to a registered node; every task has the
    timestamps its status calls for; and every task row decodes. *)
Theorem database_sound d :
  reachable d ->
  StronglySorted Z.lt (tr_id <$> db_tasks d) /\ Forall (fun r => 1 <= tr_id r < db_next_id d) (db_tasks d)
  /\ Forall (fun r => is_Some (db_nodes d !! tr_node_id r)) (db_tasks d)
  /\ dom (db_profiles d) ⊆ dom (db_nodes d) /\ dom (db_observations d) ⊆ dom (db_nodes d)
  /\ Forall (fun r => tr_status r = TaskStatusQueued /\ tr_started_at r = None /\ tr_completed_at r = None
                      \/ tr_status r = TaskStatusRunning /\ is_Some (tr_started_at r) /\ tr_completed_at r = None
                      \/ (tr_status r = TaskStatusCompleted \/ tr_status r = TaskStatusFailed)
                         /\ is_Some (tr_started_at r) /\ is_Some (tr_completed_at r)) (db_tasks d)
  /\ Forall (fun r => exists t, scanTask r = Ok t /\ task_ID t = tr_id r /\ task_Kind t = tr_kind r
                        /\ marshalStringMap (task_Payload t) = tr_payload_json r) (db_tasks d).
Proof.
  intros Hd%reachable_inv. split_and!; try apply Hd.
  - intros x [row Hx]%elem_of_dom. apply elem_of_dom. by destruct (inv_profiles _ Hd _ _ Hx).
  - intros x [row Hx]%elem_of_dom. apply elem_of_dom. by destruct (inv_observations _ Hd _ _ Hx).
  - eapply Forall_impl; [apply (inv_rows _ Hd)|]. intros r [Ht _ _ _]. unfold times_ok in Ht.
    destruct (tr_started_at r), (tr_completed_at r); naive_solver.
  - eapply Forall_impl; [apply (inv_rows _ Hd)|]. intros r Hr.
    destruct (scanTask_ok r Hr) as (t & Ht & Hreads). exists t. split; [done|]. split_and!; apply Hreads.
Qed.

(** The revision of a node's desired profile never decreases and grows by
    one at a time, whatever the order of the requests. *)
Theorem revision_monotone d e d' nodeID :
  reachable d -> hub_step d e d' ->
  revision_of d' nodeID = revision_of d nodeID \/ revision_of d' nodeID = revision_of d nodeID + 1.
Proof. intros Hd%reachable_inv. by apply step_revision. Qed.

(** C39. A history of service calls is an execution of the hub: whatever the
    calls and their order, the resulting database is reachable, so the
    properties of reachable databases hold after every call. *)
Theorem service_histories_reachable cs :
  Forall call_ok cs -> reachable (foldl (fun d c => run c d) Migrate cs).
Proof. intros Hcs. apply calls_reachable; [done|]. exists []. constructor. Qed.
End claims.

(** ** Witnesses *)

Lemma single_flight_witness :
  (length (filter (fun r => apply_in_flight sample_node r = true) (db_tasks sample_d5)) <= 1)%nat.
Proof. apply (@single_flight latin_tables), sample_d5_reachable. Defined.

Lemma hub_refines_board_witness : board_steps exclusive_kind [] sample_events (board_of sample_d7).
Proof. apply (@hub_refines_board latin_tables), sample_run. Defined.

Lemma claims_fifo_witness : StronglySorted Z.lt (claims sample_node sample_events).
Proof. apply (@claims_fifo latin_tables sample_events sample_d7), sample_run. Defined.

Lemma finish_once_witness :
  NoDup (finishes sample_events)
  /\ forall es1 nodeID id es2, sample_events = es1 ++ Finished nodeID id :: es2 -> Claimed nodeID id ∈ es1.
Proof. apply (@finish_once latin_tables sample_events sample_d7), sample_run. Defined.

Lemma tasks_only_move_forward_witness :
  exists r', r' ∈ db_tasks sample_d7 /\ tr_id r' = 1 /\ tr_node_id r' = sample_node
    /\ tr_kind r' = TaskProfileApply
    /\ tr_payload_json r' = tr_payload_json (List.hd (mkTaskRow 0 "" "" "" "" "" "" "" None None) (db_tasks sample_d6))
    /\ rank TaskStatusRunning <= rank (tr_status r').
Proof.
  apply (@tasks_only_move_forward latin_tables sample_d6 [Finished sample_node 1] sample_d7
    (List.hd (mkTaskRow 0 "" "" "" "" "" "" "" None None) (db_tasks sample_d6))).
  - apply sample_d6_reachable.
  - apply sample_finish.
  - apply list_elem_of_In. by left.
Defined.

Lemma revision_monotone_witness :
  revision_of sample_d7 sample_node = revision_of sample_d6 sample_node
  \/ revision_of sample_d7 sample_node = revision_of sample_d6 sample_node + 1.
Proof.
  apply (@revision_monotone latin_tables sample_d6 (Finished sample_node 1)); [apply sample_d6_reachable|].
  apply sample_finish_step.
Defined.

Lemma service_histories_reachable_witness :
  @reachable latin_tables (foldl (fun d c => @run latin_tables c d) Migrate
    [CallRegister sample_registration sample_raw_token sample_now;
     CallHeartbeat sample_node sample_token sample_heartbeat sample_now;
     CallPoll sample_node sample_token sample_later]).
Proof.
  apply (@service_histories_reachable latin_tables).
  repeat (apply Forall_cons_2; [vm_compute; reflexivity|]). apply Forall_nil_2.
Defined.

Lemma database_sound_witness :
  StronglySorted Z.lt (tr_id <$> db_tasks sample_d7)
  /\ Forall (fun r => 1 <= tr_id r < db_next_id sample_d7) (db_tasks sample_d7)
  /\ Forall (fun r => is_Some (db_nodes sample_d7 !! tr_node_id r)) (db_tasks sample_d7)
  /\ dom (db_profiles sample_d7) ⊆ dom (db_nodes sample_d7)
  /\ dom (db_observations sample_d7) ⊆ dom (db_nodes sample_d7)
  /\ Forall (fun r => tr_status r = TaskStatusQueued /\ tr_started_at r = None /\ tr_completed_at r = None
                      \/ tr_status r = TaskStatusRunning /\ is_Some (tr_started_at r) /\ tr_completed_at r = None
                      \/ (tr_status r = TaskStatusCompleted \/ tr_status r = TaskStatusFailed)
                         /\ is_Some (tr_started_at r) /\ is_Some (tr_completed_at r)) (db_tasks sample_d7)
  /\ Forall (fun r => exists t, scanTask r = Ok t /\ task_ID t = tr_id r /\ task_Kind t = tr_kind r
                        /\ marshalStringMap (task_Payload t) = tr_payload_json r) (db_tasks sample_d7).
Proof. apply (@database_sound latin_tables), sample_d7_reachable. Defined.
