(* ===== verification/ServiceClaims.v ===== *)
(** * Properties of the service calls

    What a panel or an agent may rely on for a single call and for pairs of
    calls: authentication, admission of tasks, profile updates, delivery,
    completion and isolation between nodes. *)

From stdpp Require Import base strings gmap list sorting.
From Stdlib Require Import ZArith Lia.
From S2P Require Import Prelude GoStrings GoBase64 GoSha256 GoJson GoTime HubTypes TaskGate Profile TaskResult Heartbeat IntegrationStatus Metrics Repository Service HubSystem HubRefines ServiceFacts TaskGateClaims HostClaims Samples.
Local Open Scope Z_scope.
Local Open Scope hub_scope.

(** ** Helper lemmas *)

Lemma fresh_node_reads id name hash now :
  clock_ok now = true ->
  scanNode id (mkNodeRow name "" "" "" "[]" "{}" hash None (formatTime now) (formatTime now))
  = Ok (mkNode id name "" "" "" [] empty_inventory None now now).
Proof.
  intros Hc. unfold scanNode. cbn [nr_inventory_json nr_capabilities_json].
  change (decode_strings (if "[]" =?s "" then "[]" else "[]")) with (Some ([] : list string)).
  change (decode_inventory (if "{}" =?s "" then "{}" else "{}")) with (Some empty_inventory).
  cbn [decoded rbind nr_created_at nr_updated_at nr_last_seen_at nr_name nr_hostname nr_agent_version nr_protocol_version].
  by rewrite parseTime_format.
Qed.

Lemma hex_encode_nonempty b bs : hex_encode (b :: bs) <> "".
Proof. done. Qed.

Lemma RegisterNode_ok d req raw now rsp d' :
  RegisterNode d req raw now = (Ok rsp, d') ->
  validNodeID (reg_ID req) = true /\ rsp_Token rsp = hex_encode raw
  /\ db_nodes d !! reg_ID req = None
  /\ d' = set_nodes d (<[reg_ID req := mkNodeRow (reg_Name req) "" "" "" "[]" "{}" (sha256_hex (hex_encode raw))
                          None (formatTime now) (formatTime now)]> (db_nodes d))
  /\ Repository.GetNode d' (reg_ID req) = Ok (rsp_Node rsp).
Proof.
  unfold RegisterNode, reading. destruct (validateRegisterNodeRequest req) as [[]|] eqn:Hv; [|done].
  unfold validateRegisterNodeRequest in Hv. inv_ok Hv. breflect.
  unfold CreateNode. destruct (_ || _ || _); [done|]. destruct (db_nodes d !! reg_ID req) eqn:Hn; [done|].
  match goal with |- context [Repository.GetNode ?x ?y] => destruct (Repository.GetNode x y) eqn:Hg end; [|done].
  intros [= <- <-]. done.
Qed.

Lemma map_text_inj a b : utf8_map a -> utf8_map b -> marshalStringMap a = marshalStringMap b -> a = b.
Proof.
  intros Ha Hb E. apply map_json_roundtrip in Ha, Hb. unfold marshalStringMap in E. rewrite E in Ha. congruence.
Qed.

Section Facts.
Context `{UnicodeTables}.

(** A task that is admitted is stored and returned. *)
Lemma CreateTask_spec d nodeID req now :
  hub_inv d -> ValidateTaskRequest req = Ok tt -> utf8_map (req_Payload req) -> clock_ok now = true ->
  (exists e, CreateTask d nodeID req now = (Err e, d))
  \/ (exists t d', CreateTask d nodeID req now = (Ok t, d')
      /\ d' = set_tasks d (db_tasks d ++ [new_row d nodeID (req_Kind req) (marshalStringMap (req_Payload req))
                                            (formatTime now)]) (db_next_id d + 1)
      /\ task_ID t = db_next_id d /\ task_NodeID t = nodeID /\ task_Kind t = req_Kind req
      /\ task_Payload t = req_Payload req /\ task_Status t = TaskStatusQueued).
Proof.
  intros Hd Hv Hu Hc. pose proof (CreateTask_inv d nodeID req now Hv Hu Hc Hd) as Hd'. revert Hd'.
  unfold CreateTask. destruct (_ =?s _); [by left; eexists|].
  destruct (insert_task_cases d nodeID (req_Kind req) (marshalStringMap (req_Payload req)) (formatTime now))
    as [(e & ->)|(_ & _ & ->)]; [by left; eexists|]. cbn [snd]. intros Hd'. right.
  set (row := new_row d nodeID (req_Kind req) (marshalStringMap (req_Payload req)) (formatTime now)) in *.
  destruct (GetTask_in _ row Hd') as (t & Ht & [? ? ? ? _ Hp Hpu]); [simpl; set_solver|].
  change (db_next_id d) with (tr_id row) at 2. rewrite Ht. eexists t, _. split_and!; try done.
  by apply map_text_inj.
Qed.

(** What a successful generic enqueue went through. *)
Lemma EnqueueTask_admits d nodeID req checked written t d' :
  EnqueueTask d nodeID req checked written = (Ok t, d') ->
  ValidateTaskRequest req = Ok tt /\ validNodeID nodeID = true
  /\ (exists node, Repository.GetNode d nodeID = Ok node
      /\ capabilityForTask (req_Kind req) ∈ node_Capabilities node /\ IsNodeOnline node checked = true)
  /\ ((d' = d /\ req_Kind req = TaskDeployDomainAction /\ same_ensure req t = true
       /\ get (task_Payload t) "expected_revision" = get (req_Payload req) "expected_revision")
      \/ CreateTask d nodeID req written = (Ok t, d')).
Proof.
  unfold EnqueueTask. destruct (_ && _) eqn:Hens.
  - breflect. unfold enqueueDeployDomainEnsure, reading.
    destruct (ValidateTaskRequest req) as [[]|] eqn:Hv; [|done].
    destruct (validNodeID nodeID) eqn:Hn; [|done]. cbn [negb].
    destruct (Repository.GetNode d nodeID) as [node|] eqn:Hg; [|done].
    destruct (hasCapability _ _) eqn:Hcap; [|done]. destruct (IsNodeOnline node checked) eqn:Hon; [|done]. cbn [negb].
    destruct (Repository.ListTasksForNode d nodeID 50) as [ts|]; [|done]. apply hasCapability_elem in Hcap.
    intros Hr. split; [done|]. split; [done|]. split.
    { exists node. split_and!; try done. by match goal with Hk : req_Kind req = _ |- _ => rewrite Hk end. }
    destruct (find (same_ensure req) ts) as [t'|] eqn:Hf; [|by right].
    apply find_some in Hf as [_ Hf]. destruct (negb _) eqn:E; [done|]. injection Hr as <- <-. breflect. by left.
  - unfold reading. destruct (validNodeID nodeID) eqn:Hn; [|done]. cbn [negb].
    destruct (Repository.GetNode d nodeID) as [node|] eqn:Hg; [|done].
    destruct (ValidateTaskRequest req) as [[]|] eqn:Hv; [|done]. cbv zeta.
    pose proof (ValidateTaskRequest_inv _ Hv) as (Hk & _).
    rewrite (proj2 (String.eqb_neq _ _)) by (apply capability_required; set_solver).
    destruct (hasCapability _ _) eqn:Hcap; [|done]. destruct (IsNodeOnline node checked) eqn:Hon; [|done].
    cbn [negb andb]. apply hasCapability_elem in Hcap. intros Hr. split_and!; try done; [by exists node|by right].
Qed.

(** *** Repeated profile applies *)

Lemma latest_new d nodeID payload stamp :
  GetLatestProfileApplyTask
    (set_tasks d (db_tasks d ++ [new_row d nodeID TaskProfileApply payload stamp]) (db_next_id d + 1)) nodeID
  = (let? t := scanTask (new_row d nodeID TaskProfileApply payload stamp) in Ok (Some t)).
Proof.
  unfold GetLatestProfileApplyTask. simpl db_tasks. rewrite rev_app_distr. cbn [rev app find_task find].
  cbn [tr_node_id tr_kind new_row]. by rewrite !String.eqb_refl.
Qed.

(** The state after an apply that returned a task: unchanged, or with the new
    row as the only apply in flight. *)
Lemma CreateProfileApplyTask_again d nodeID rev p now t d' now' :
  hub_inv d -> rev <= max_int64 -> clock_ok now = true ->
  CreateProfileApplyTask d nodeID rev p now = (Ok (Some t), d') ->
  CreateProfileApplyTask d' nodeID rev p now' = (Ok (Some t), d')
  /\ (d' = d \/ (GetLatestProfileApplyTask d' nodeID = Ok (Some t) /\ task_Status t = TaskStatusQueued
                 /\ exists row, d' = set_tasks d (db_tasks d ++ [row]) (db_next_id d + 1))).
Proof.
  intros Hd Hmax Hc Hcr. pose proof (CreateProfileApplyTask_inv d nodeID rev p now Hmax Hc Hd) as Hd'.
  rewrite Hcr in Hd'. simpl in Hd'. revert Hcr. unfold CreateProfileApplyTask.
  destruct (rev <? 1); [done|]. destruct (canonicalProfileApplyDocument p rev) as [[q doc]|] eqn:Hcan; [|done].
  destruct (_ || _); [done|]. destruct (db_nodes d !! nodeID) eqn:Hn; [|done].
  destruct (db_profiles d !! nodeID) as [prow|] eqn:Hp; [|done].
  destruct (negb (pr_revision prow =? rev)) eqn:Hrv; [done|].
  destruct (negb (stored_profile_matches prow q)) eqn:Hst; [done|].
  destruct (observed_applied d nodeID rev) eqn:Hob; [done|].
  destruct (scan_in_flight rev (List.rev (filter _ (db_tasks d))) false 0) as [[] k] eqn:Hs; [done|].
  destruct (Z.eqb_spec k 0) as [->|Hk]; cbn [negb].
  - pose proof (nothing_in_flight d nodeID rev Hd Hs) as Hnone. unfold applies_in_flight in Hnone.
    set (payload := marshalStringMap (apply_payload (EncodeToString doc) (Itoa rev))).
    destruct (insert_task_cases d nodeID TaskProfileApply payload (formatTime now)) as [(e & ->)|(_ & _ & ->)]; [done|].
    set (row := new_row d nodeID TaskProfileApply payload (formatTime now)).
    intros [= Hget <-]. fold row in Hd'.
    destruct (GetTask_in _ row Hd') as (t' & Ht' & Hreads); [simpl; set_solver|].
    change (tr_id row) with (db_next_id d) in Ht'. rewrite Ht' in Hget. injection Hget as ->.
    unfold observed_applied in *. cbn [db_nodes db_profiles db_observations db_tasks set_tasks].
    rewrite Hn, Hp, Hrv, Hst, Hob. rewrite filter_app, Hnone. rewrite filter_cons_True.
    2:{ unfold apply_in_flight. cbn. by rewrite !String.eqb_refl. }
    rewrite filter_nil. cbn [app List.rev scan_in_flight].
    replace (profileApplyPayloadRevision (tr_payload_json row)) with (Ok rev : res Z).
    2:{ symmetry. by eapply payload_revision_roundtrip. }
    rewrite !Z.eqb_refl. cbn [negb scan_in_flight]. change (tr_id row) with (db_next_id d).
    pose proof (inv_next _ Hd). rewrite (proj2 (Z.eqb_neq (db_next_id d) 0)) by lia. cbn [negb].
    rewrite Ht'. split; [done|]. right. split_and!; [|by rewrite (reads_status _ _ Hreads)|by eexists].
    unfold row at 1. rewrite latest_new. fold row. unfold GetTask in Ht'. change (db_next_id d) with (tr_id row) in Ht' at 1. rewrite (find_by_id _ row Hd') in Ht' by (simpl; set_solver).
    by rewrite Ht'.
  - intros Hget. assert (d' = d) as -> by (by injection Hget).
    rewrite Hn, Hp, Hrv, Hst, Hob, Hs, (proj2 (Z.eqb_neq k 0)) by done. split; [done|by left].
Qed.

(** *** Completion *)

Lemma set_tasks_same d : set_tasks d (db_tasks d) (db_next_id d) = d.
Proof. by destruct d. Qed.

(** A completion that no running task of the node matches changes nothing. *)
Lemma complete_update_none d nodeID id req now :
  existsb (claimed_by nodeID id) (db_tasks d) = false -> complete_update d nodeID id req now = (Ok 0%nat, d).
Proof.
  intros He. unfold complete_update. rewrite update_none by done. rewrite set_tasks_same.
  assert (filter (fun r => claimed_by nodeID id r = true) (db_tasks d) = []) as ->; [|done].
  apply existsb_false in He. induction He as [|r l Hr _ IH]; [done|].
  rewrite filter_cons_False by congruence. done.
Qed.

Lemma CompleteTask_refused d nodeID id req now :
  existsb (claimed_by nodeID id) (db_tasks d) = false ->
  exists e, Repository.CompleteTask d nodeID id req now = (Err e, d).
Proof.
  intros He. unfold Repository.CompleteTask. rewrite complete_update_none by done.
  repeat case_match; simplify_eq; by eexists.
Qed.

Lemma CompleteTaskForNode_refused d nodeID id req checked written :
  existsb (claimed_by nodeID id) (db_tasks d) = false ->
  exists e, CompleteTaskForNode d nodeID id req checked written = (Err e, d).
Proof.
  intros He. unfold CompleteTaskForNode, reading.
  destruct (negb _); [by eexists|]. destruct (_ <=? _); [by eexists|].
  destruct (ValidateTaskResultRequest req); [|by eexists].
  destruct (Repository.GetTaskForNode d nodeID id) as [t|[]]; try by eexists.
  - destruct (result_for_kind _ _ _); [by apply CompleteTask_refused|by eexists].
  - by apply CompleteTask_refused.
Qed.

Lemma CompleteTaskForNode_ok d nodeID id req checked written t d' :
  CompleteTaskForNode d nodeID id req checked written = (Ok t, d') ->
  ValidateTaskResultRequest req = Ok tt
  /\ d' = set_tasks d (update_where (claimed_by nodeID id) (complete_row req (formatTime written)) (db_tasks d))
            (db_next_id d)
  /\ existsb (claimed_by nodeID id) (db_tasks d) = true /\ GetTask d' id = Ok t.
Proof.
  unfold CompleteTaskForNode, reading. destruct (negb _); [done|]. destruct (_ <=? _); [done|].
  destruct (ValidateTaskResultRequest req) as [[]|]; [|done].
  assert (Repository.CompleteTask d nodeID id req written = (Ok t, d') ->
    d' = set_tasks d (update_where (claimed_by nodeID id) (complete_row req (formatTime written)) (db_tasks d))
           (db_next_id d)
    /\ existsb (claimed_by nodeID id) (db_tasks d) = true /\ GetTask d' id = Ok t) as Hct.
  { unfold Repository.CompleteTask, complete_update. intros Hr.
    destruct (existsb (claimed_by nodeID id) (db_tasks d)) eqn:He.
    2:{ exfalso. destruct (CompleteTask_refused d nodeID id req written He) as [e E].
        unfold Repository.CompleteTask, complete_update in E. rewrite Hr in E. done. }
    repeat case_match; simplify_eq; done. }
  destruct (Repository.GetTaskForNode d nodeID id) as [t0|[]]; try done; [|naive_solver].
  destruct (result_for_kind _ _ _); naive_solver.
Qed.

(** *** Lists in descending order *)

Lemma StronglySorted_take {A} (R : A -> A -> Prop) n l : StronglySorted R l -> StronglySorted R (take n l).
Proof.
  intros Hs. revert n. induction Hs as [|x l Hs IH Hx]; intros [|n]; simpl; try constructor; [apply IH|].
  by apply Forall_take.
Qed.

Lemma StronglySorted_rev (l : list Z) : StronglySorted Z.lt l -> StronglySorted (fun a b => b < a) (rev l).
Proof.
  induction 1 as [|x l Hs IH Hx]; simpl; [constructor|].
  assert (forall k, StronglySorted (fun a b => b < a) k -> Forall (fun y => x < y) k ->
    StronglySorted (fun a b => b < a) (k ++ [x])) as Hsnoc.
  { induction 1 as [|y k Hk IHk Hy]; intros Hall; simpl; [repeat constructor|]. inversion_clear Hall.
    constructor; [by apply IHk|]. apply Forall_app. split; [done|by constructor]. }
  apply Hsnoc; [done|]. by apply Forall_rev.
Qed.

Lemma fmap_rev {A B} (f : A -> B) l : f <$> rev l = rev (f <$> l).
Proof. induction l as [|x l IH]; [done|]. simpl. by rewrite fmap_app, IH. Qed.

Lemma descending_rows d nodeID :
  hub_inv d ->
  StronglySorted (fun a b => b < a) (tr_id <$> rev (filter (fun r => tr_node_id r = nodeID) (db_tasks d))).
Proof.
  intros Hd. rewrite fmap_rev. apply StronglySorted_rev. pose proof (inv_sorted _ Hd) as Hs.
  induction (db_tasks d) as [|r l IH]; [constructor|]. simpl in Hs. inversion_clear Hs as [|?? Hs' Hlt].
  rewrite filter_cons. case_decide; [|by apply IH]. simpl. constructor; [by apply IH|].
  rewrite Forall_fmap, Forall_forall in Hlt |- *. intros x Hx. apply list_elem_of_filter in Hx as [_ Hx]. by apply Hlt.
Qed.
End Facts.

(** ** Authentication *)

(** Registration hands out the only copy of a node's token: the token it
    returns authenticates the node, any token with another digest is refused,
    and the database holds the digest only. *)
Theorem register_then_authenticate d req raw now rsp d' token :
  length raw = 32%nat -> RegisterNode d req raw now = (Ok rsp, d') ->
  AuthenticateNode d' (reg_ID req) (rsp_Token rsp) = Ok (rsp_Node rsp)
  /\ (sha256_hex token <> sha256_hex (rsp_Token rsp) ->
      AuthenticateNode d' (reg_ID req) token = Err ErrUnauthorized)
  /\ nr_token_hash <$> db_nodes d' !! reg_ID req = Some (sha256_hex (rsp_Token rsp)).
Proof.
  intros Hlen (Hid & Ht & _ & -> & Hg)%RegisterNode_ok. rewrite Ht.
  assert ((hex_encode raw =?s "") = false) as Hne.
  { apply String.eqb_neq. destruct raw; [done|]. apply hex_encode_nonempty. }
  unfold AuthenticateNode, AuthenticateToken, constantTimeEqual. simpl db_nodes. rewrite lookup_insert_eq.
  simpl nr_token_hash. rewrite Hid, Hne, String.eqb_refl. split_and!; [done| |done].
  intros Hd. destruct (token =?s ""); [done|]. cbn [negb orb].
  by rewrite (proj2 (String.eqb_neq _ _)) by (by intros ?).
Qed.

(** A call that fails to authenticate has no effect: a heartbeat, a poll
    and a completion with a refused token return an error and leave the
    database as it is. *)
Theorem unauthenticated_no_effect d nodeID token hb now id req checked written e :
  AuthenticateNode d nodeID token = Err e ->
  (exists e', Service.Heartbeat d nodeID token hb now = (Err e', d))
  /\ PollTask d nodeID token now = (Err e, d)
  /\ Service.CompleteTask d nodeID token id req checked written = (Err e, d).
Proof.
  intros Ha. unfold Service.Heartbeat, PollTask, Service.CompleteTask. rewrite Ha. simpl.
  split; [|done]. destruct (_ || _); by eexists.
Qed.

(** After an accepted heartbeat the node counts as online exactly for the
    45 seconds that follow the hub's reading of its clock; the timestamp the
    agent sent plays no part. *)
Theorem heartbeat_online d nodeID token req now rsp d' node t :
  clock_ok now = true ->
  Service.Heartbeat d nodeID token req now = (Ok rsp, d') -> Service.GetNode d' nodeID = Ok node ->
  rsp = mkHeartbeatResponse true now
  /\ (IsNodeOnline node t = true <-> now <= t <= now + 45 * 1000000000).
Proof.
  intros Hc. unfold Service.Heartbeat, reading. destruct (_ || _); [done|].
  destruct (AuthenticateNode d nodeID token); [|done]. destruct (negb _); [done|].
  destruct (validateHeartbeatFields req); [|done]. destruct (_ <? _); [done|].
  destruct (UpdateHeartbeat d nodeID req now) as [[u|] d1] eqn:Hu; [|done]. intros [= <- <-] Hg. split; [done|].
  assert (exists r text, db_nodes d1 !! nodeID = Some (heartbeat_row r req text (formatTime now))) as (r & text & Hrow).
  { unfold UpdateHeartbeat in Hu. destruct (validateAgentProfileObservation _); [|done].
    destruct (inventory_text _) as [text|]; [|done]. destruct (db_nodes d !! nodeID) as [r|]; [|done].
    exists r, text. repeat case_match; simplify_eq; simpl; by rewrite lookup_insert_eq. }
  assert (node_LastSeenAt node = Some now) as Hseen.
  { unfold Service.GetNode in Hg. destruct (negb _); [done|]. unfold Repository.GetNode in Hg. rewrite Hrow in Hg.
    unfold scanNode in Hg. inv_ok Hg. injection Hg as <-. simpl.
    match goal with Hl : parseNullableTime _ = Ok _ |- _ => revert Hl end.
    unfold parseNullableTime, heartbeat_row. simpl. rewrite stamp_nonempty by (by exists now).
    rewrite parseTime_format by done. by intros [= <-]. }
  unfold IsNodeOnline. rewrite Hseen. unfold Sub, NodeOnlineWindow, Second, min_int64, max_int64.
  rewrite andb_true_iff, !Z.leb_le. lia.
Qed.

(** ** Admission of tasks *)

Section claims.
Context `{UnicodeTables}.

(** C3. A task is queued only for a registered node that is online and
    advertises the capability of its kind, and only if it passes the gate; it
    then is the newest row of the table, queued, with the payload of the
    request.  Otherwise the database does not change: the call is refused, or
    it returns the pending domain-ensure task of the same revision. *)
Theorem enqueue_admission d nodeID req checked written r d' :
  reachable d -> utf8_map (req_Payload req) -> clock_ok written = true ->
  EnqueueTask d nodeID req checked written = (r, d') ->
  (d' = d /\ ((exists e, r = Err e)
             \/ exists t, r = Ok t /\ same_ensure req t = true
                  /\ get (task_Payload t) "expected_revision" = get (req_Payload req) "expected_revision"))
  \/ (exists t node, r = Ok t /\ ValidateTaskRequest req = Ok tt /\ Repository.GetNode d nodeID = Ok node
      /\ capabilityForTask (req_Kind req) ∈ node_Capabilities node /\ IsNodeOnline node checked = true
      /\ db_tasks d' = db_tasks d ++ [new_row d nodeID (req_Kind req) (marshalStringMap (req_Payload req))
                                       (formatTime written)]
      /\ task_ID t = db_next_id d /\ task_Status t = TaskStatusQueued /\ task_Payload t = req_Payload req).
Proof.
  intros Hd%reachable_inv Hu Hc Hr. destruct r as [t|e].
  - destruct (EnqueueTask_admits _ _ _ _ _ _ _ Hr) as (Hv & _ & (node & Hg & Hcap & Hon) & [(-> & _ & He & Hrev)|Hct]).
    + left. split; [done|]. right. by exists t.
    + right. destruct (CreateTask_spec d nodeID req written Hd Hv Hu Hc) as [(e & E)|(t' & d1 & E & -> & ? & ? & ? & ? & ?)];
        rewrite E in Hct; [done|]. injection Hct as -> <-. by exists t, node.
  - left. split; [|left; by eexists]. revert Hr. unfold EnqueueTask, enqueueDeployDomainEnsure, reading.
    assert (forall d1 e1, ValidateTaskRequest req = Ok tt -> CreateTask d nodeID req written = (Err e1, d1) -> d1 = d) as Hct.
    { intros d1 e1 Hv E. destruct (CreateTask_spec d nodeID req written Hd Hv Hu Hc) as [(e2 & E')|(t' & d2 & E' & _)];
        rewrite E' in E; by simplify_eq. }
    repeat (case_match; try (by intros; simplify_eq)); match goal with u : unit |- _ => destruct u end; eauto.
Qed.

(** ** Profiles *)

(** C23. Profile updates are compare-and-swap: a successful save at an expected
    revision makes the saved profile the node's desired one at the next
    revision, and every other save at the same expected revision is refused as
    stale without effect. *)
Theorem save_profile_cas d nodeID p rev now record d1 p' q' now' :
  reachable d -> rev <= max_int64 -> clock_ok now = true ->
  SaveNodeProfile d nodeID p rev now = (Ok record, d1) ->
  Repository.GetNodeProfile d1 nodeID = Ok record /\ rec_Revision record = rev + 1
  /\ NormalizeAgentProfile p = Ok (rec_Profile record)
  /\ (NormalizeAgentProfile p' = Ok q' ->
      SaveNodeProfile d1 nodeID p' rev now' = (Err ErrProfileRevisionStale, d1)).
Proof.
  intros Hd%reachable_inv Hmax Hc Hs. pose proof (SaveNodeProfile_inv d nodeID p rev now Hmax Hd) as Hd1.
  rewrite Hs in Hd1. simpl in Hd1.
  destruct (SaveNodeProfile_cases d nodeID p rev now) as [(e & E)|(q & Hq & Hr & Hpos & Hw & E)];
    rewrite E in Hs; [done|]. injection Hs as <- <-. simpl.
  assert (0 <= rev) as Hrev0.
  { unfold revision_of in Hr. destruct (db_profiles d !! nodeID) as [row|]; [|lia]. specialize (Hpos row eq_refl). lia. }
  assert (wrap_int64 (rev + 1) = rev + 1) as Hwrap.
  { destruct (Z.eq_dec rev 0) as [->|]; [done|]. apply wrap_next; [lia|done]. }
  rewrite Hwrap in *.
  assert (db_profiles (write_profile d nodeID q (rev + 1) (formatTime now)) !! nodeID
          = Some (mkProfileRow (marshal (profile_json q)) (rev + 1) (formatTime now))) as Hrow
    by (simpl; by rewrite lookup_insert_eq).
  assert (is_Some (db_nodes d !! nodeID)) as [nr Hnode] by (by destruct (inv_profiles _ Hd1 _ _ Hrow)).
  split_and!; [|done|done|].
  - unfold Repository.GetNodeProfile. rewrite Hrow. cbn [db_nodes write_profile set_profiles]. rewrite Hnode. cbn [pr_profile_json pr_revision].
    change (marshal (profile_json q) =?s "") with false. cbv iota.
    rewrite decodePersisted_roundtrip by (by eapply Normalize_normal). cbn [rbind].
    rewrite normal_fixpoint by (by eapply Normalize_normal). cbn [rbind]. by rewrite (proj2 (Z.ltb_ge _ _)) by lia.
  - intros Hq'. unfold SaveNodeProfile. rewrite (proj2 (Z.ltb_ge rev 0)) by done. rewrite Hq', Hrow. simpl db_nodes.
    rewrite Hnode. simpl pr_revision. rewrite (proj2 (Z.eqb_neq (rev + 1) rev)) by lia. by rewrite orb_true_r.
Qed.
(** C18. Asking to apply a profile again is idempotent: once a call returned a
    task, a second call for the same revision, whatever the clock says by then,
    returns the same task and queues nothing while the node is online, and is
    refused as offline, without a change, when it is not any more. *)
Theorem apply_idempotent d nodeID rev checked written t d' checked' written' :
  reachable d -> rev <= max_int64 -> clock_ok written = true ->
  ApplyNodeProfile d nodeID rev checked written = (Ok (Some t), d') ->
  exists node, Repository.GetNode d' nodeID = Ok node
    /\ ApplyNodeProfile d' nodeID rev checked' written'
       = (if IsNodeOnline node checked' then Ok (Some t) else Err ErrNodeOffline, d').
Proof.
  intros Hd%reachable_inv Hmax Hc. unfold ApplyNodeProfile, reading.
  destruct (negb (validNodeID nodeID)) eqn:Hid; [done|]. destruct (rev <? 1) eqn:Hr1; [done|].
  destruct (Repository.GetNode d nodeID) as [node|] eqn:Hg; [|done].
  destruct (Repository.GetNodeProfile d nodeID) as [record|] eqn:Hp; [|done].
  destruct (negb (rec_Configured record)) eqn:Hcf; [done|].
  destruct (negb (rec_Revision record =? rev)) eqn:Hrv; [done|].
  destruct (negb (hasCapability _ _)) eqn:Hcap; [done|].
  destruct (GetNodeProfileObservation d nodeID) as [ob|] eqn:Ho; [|done].
  destruct (observed_as ob ProfileObservationApplied rev) eqn:Hap; [done|].
  destruct (negb (IsNodeOnline node checked)) eqn:Hon; [done|].
  destruct (GetLatestProfileApplyTask d nodeID) as [latest|] eqn:Hl; [|done].
  destruct (awaiting_receipt latest ob rev) as [tw|] eqn:Haw.
  - intros [= -> <-]. exists node. split; [done|]. rewrite Hg, Hp, Hcf, Hrv, Hcap, Ho, Hap.
    destruct (IsNodeOnline node checked'); [|done]. cbn [negb]. by rewrite Hl, Haw.
  - intros Hcr. destruct (CreateProfileApplyTask_again _ _ _ _ _ _ _ written' Hd Hmax Hc Hcr)
      as [Hagain [->|(Hlatest & Hq & row & ->)]].
    + exists node. split; [done|]. rewrite Hg, Hp, Hcf, Hrv, Hcap, Ho, Hap.
      destruct (IsNodeOnline node checked'); [|done]. cbn [negb]. by rewrite Hl, Haw.
    + exists node. split; [exact Hg|].
      change (Repository.GetNode (set_tasks d (db_tasks d ++ [row]) (db_next_id d + 1)) nodeID)
        with (Repository.GetNode d nodeID).
      change (Repository.GetNodeProfile (set_tasks d (db_tasks d ++ [row]) (db_next_id d + 1)) nodeID)
        with (Repository.GetNodeProfile d nodeID).
      change (GetNodeProfileObservation (set_tasks d (db_tasks d ++ [row]) (db_next_id d + 1)) nodeID)
        with (GetNodeProfileObservation d nodeID).
      rewrite Hg, Hp, Hcf, Hrv, Hcap, Ho, Hap. destruct (IsNodeOnline node checked'); [|done]. cbn [negb].
      rewrite Hlatest. cbn [awaiting_receipt].
      rewrite Hq. change (TaskStatusQueued =?s TaskStatusCompleted) with false. exact Hagain.
Qed.

(** ** Delivery and completion *)

(** C24. A poll of an authenticated node never fails: it returns the oldest
    queued task of the node, now running, or nothing when the node has no
    queued task. *)
Theorem poll_delivers d nodeID token now node :
  reachable d -> clock_ok now = true -> AuthenticateNode d nodeID token = Ok node ->
  (PollTask d nodeID token now = (Ok None, d)
   /\ Forall (fun r => tr_node_id r = nodeID -> tr_status r <> TaskStatusQueued) (db_tasks d))
  \/ (exists r t d', PollTask d nodeID token now = (Ok (Some t), d')
      /\ r ∈ db_tasks d /\ tr_node_id r = nodeID /\ tr_status r = TaskStatusQueued
      /\ Forall (fun x => tr_node_id x = nodeID -> tr_status x = TaskStatusQueued -> tr_id r <= tr_id x) (db_tasks d)
      /\ task_ID t = tr_id r /\ task_Kind t = tr_kind r /\ task_Status t = TaskStatusRunning
      /\ marshalStringMap (task_Payload t) = tr_payload_json r).
Proof.
  intros Hd%reachable_inv Hc Ha. unfold PollTask, PollTaskForNode. rewrite Ha. cbn [reading].
  unfold AuthenticateNode in Ha. destruct (validNodeID nodeID); [|done]. cbn [negb]. unfold ClaimNextTask.
  destruct (find_task (queued_for nodeID) (db_tasks d)) as [r|] eqn:Hf.
  - right. pose proof (find_task_split _ _ _ Hf) as (l1 & l2 & Ht & Hq & Hl1).
    pose proof (find_task_Some _ _ _ Hf) as [Hin _]. unfold queued_for in Hq. breflect.
    pose proof (inv_sorted _ Hd) as Hs. rewrite Ht in Hs. rewrite fmap_app, fmap_cons in Hs.
    apply (sorted_app_inv (tr_id <$> l1) (tr_id <$> l2)) in Hs as [_ Hafter]. rewrite Forall_fmap in Hafter.
    destruct (scanTask_ok (claim_row (formatTime now) r)) as (t & Hsc & Hreads).
    { apply claim_moves; [by eapply row_in|done|done]. }
    rewrite Hsc. cbn [rbind]. exists r, t. eexists. split; [reflexivity|]. split; [done|]. split; [done|]. split; [done|].
    split; [|split_and!; apply Hreads]. rewrite Ht. apply Forall_app_2; [|apply Forall_cons_2; [lia|]].
    + eapply Forall_impl; [exact Hl1|]. simpl. unfold queued_for. intros x Hx Hxn Hxs.
      by rewrite Hxn, Hxs, !String.eqb_refl in Hx.
    + eapply Forall_impl; [exact Hafter|]. simpl. lia.
  - left. split; [done|]. apply Forall_forall. intros r Hr Hn Hst.
    apply find_none with (x := r) in Hf; [|by apply list_elem_of_In]. unfold queued_for in Hf.
    by rewrite Hn, Hst, !String.eqb_refl in Hf.
Qed.

(** A task is completed once: after a completion succeeded, the stored task
    carries its final status and error, and every further completion by the
    node is refused and changes nothing. *)
Theorem complete_once d nodeID id req checked written t d' req' checked' written' :
  reachable d -> utf8_map (tres_Result req) -> clock_ok written = true ->
  CompleteTaskForNode d nodeID id req checked written = (Ok t, d') ->
  task_ID t = id /\ task_Status t = tres_Status req /\ task_Error t = tres_Error req /\ task_NodeID t = nodeID
  /\ exists e, CompleteTaskForNode d' nodeID id req' checked' written' = (Err e, d').
Proof.
  intros Hd%reachable_inv Hu Hc (Hv & -> & He & Hg)%CompleteTaskForNode_ok.
  pose proof (complete_update_inv d nodeID id req written Hv Hu Hc Hd) as Hd'. unfold complete_update in Hd'.
  pose proof (result_status _ Hv) as Hst.
  assert (check_task_status (tres_Status req) = true) as Hck by (by destruct Hst as [-> | ->]).
  rewrite Hck, andb_false_r in Hd'. cbn [snd] in Hd'.
  apply existsb_split in He as (l1 & r & l2 & Ht & Hcl). pose proof Hcl as Hcl'. unfold claimed_by in Hcl'. breflect.
  set (tasks' := update_where _ _ _) in *.
  assert (complete_row req (formatTime written) r ∈ tasks') as Hin.
  { unfold tasks', update_where. apply list_elem_of_fmap. exists r. rewrite Hcl. split; [done|]. rewrite Ht. set_solver. }
  destruct (GetTask_in _ _ Hd' Hin) as (t' & Ht' & Hreads). cbn [tr_id complete_row] in Ht'.
  replace (tr_id r) with id in Ht'. rewrite Hg in Ht'. injection Ht' as <-.
  split_and!; try (etransitivity; [apply Hreads|done]).
  apply CompleteTaskForNode_refused. apply existsb_false. simpl. unfold tasks', update_where.
  apply Forall_fmap, Forall_forall. intros x _. simpl. destruct (claimed_by nodeID id x) eqn:Hx; [|done].
  unfold claimed_by in *. simpl. by destruct Hst as [-> | ->]; rewrite andb_false_r.
Qed.

(** Nodes are isolated: a task of one node cannot be read or completed in
    the name of another. *)
Theorem node_isolation d nodeID r req checked written :
  reachable d -> r ∈ db_tasks d -> tr_node_id r <> nodeID ->
  Service.GetTaskForNode d nodeID (tr_id r) = Err ErrNotFound
  /\ exists e, CompleteTaskForNode d nodeID (tr_id r) req checked written = (Err e, d).
Proof.
  intros Hd%reachable_inv Hr Hn.
  assert (forall x, x ∈ db_tasks d -> (tr_id x =? tr_id r) && (tr_node_id x =?s nodeID) = false) as Hno.
  { intros x Hx. destruct (Z.eqb_spec (tr_id x) (tr_id r)) as [E|]; [|done]. simpl.
    assert (x = r) as -> by (eapply sorted_unique; eauto using inv_sorted). by apply String.eqb_neq. }
  split.
  - unfold Service.GetTaskForNode, Repository.GetTaskForNode. destruct (_ || _); [done|].
    destruct (find_task _ _) as [x|] eqn:Hf; [|done]. apply find_task_Some in Hf as [Hx E]. by rewrite Hno in E.
  - apply CompleteTaskForNode_refused. apply existsb_false, Forall_forall. intros x Hx.
    unfold claimed_by. by rewrite Hno.
Qed.

(** The history of a known node always loads: it holds at most fifty
    tasks, only tasks of that node, and lists them newest first. *)
Theorem list_bounded d nodeID limit node :
  reachable d -> Service.GetNode d nodeID = Ok node ->
  exists ts, Service.ListTasksForNode d nodeID limit = Ok ts
  /\ (length ts <= 50)%nat /\ Forall (fun t => task_NodeID t = nodeID) ts
  /\ StronglySorted (fun a b => b < a) (task_ID <$> ts).
Proof.
  intros Hd%reachable_inv Hg. unfold Service.GetNode in Hg. unfold Service.ListTasksForNode.
  destruct (negb _); [done|]. rewrite Hg. cbn [rbind]. unfold Repository.ListTasksForNode.
  assert (0 <= clamp_limit limit <= 50) as Hclamp.
  { unfold clamp_limit. destruct (Z.leb_spec limit 0), (Z.ltb_spec 50 limit); simpl; try lia. }
  unfold limited. rewrite (proj2 (Z.ltb_ge _ 0)) by lia.
  set (rows := take _ _).
  assert (Forall task_row_ok rows /\ Forall (fun r => tr_node_id r = nodeID) rows
          /\ StronglySorted (fun a b => b < a) (tr_id <$> rows)) as (Hok & Hnode & Hsort).
  { unfold rows, node_tasks. assert (forall r, r ∈ rev (filter (fun r => tr_node_id r = nodeID) (db_tasks d)) ->
      tr_node_id r = nodeID /\ r ∈ db_tasks d) as Hmem.
    { intros r Hr. apply list_elem_of_In, in_rev, list_elem_of_In in Hr. by apply list_elem_of_filter in Hr. }
    split_and!.
    - apply Forall_take, Forall_forall. intros r Hr. eapply row_in; [done|by apply Hmem].
    - apply Forall_take, Forall_forall. intros r Hr. by apply Hmem.
    - rewrite fmap_take. apply StronglySorted_take. by apply descending_rows. }
  destruct (scan_all_ok rows Hok) as (ts & -> & Hf2). exists ts.
  split_and!; [done|..].
  - rewrite <-(Forall2_length _ _ _ Hf2). unfold rows. rewrite length_take. lia.
  - eapply Forall2_Forall_r; [exact Hf2|]. eapply Forall_impl; [exact Hnode|]. simpl. intros r Hr t Hrt.
    by rewrite (reads_node _ _ Hrt).
  - replace (task_ID <$> ts) with (tr_id <$> rows); [done|].
    clear -Hf2. clearbody rows. induction Hf2 as [|r t rs ts Hrt _ IH]; [done|].
    rewrite !fmap_cons, (reads_id _ _ Hrt). by f_equal.
Qed.
End claims.

(** ** Two places where the code and its comments differ *)

Definition sample_revision_a : string := "e3b0c44298fc1c149afbf4c8996fb92427ae41e4649b934ca495991b7852b855".

(** A node with one pending ensure, fifty pending status tasks, and then an
    ensure of another revision for the same domain. *)
Definition window_history : list call :=
  [CallRegister sample_registration sample_raw_token sample_now;
   CallHeartbeat sample_node sample_token sample_heartbeat sample_now;
   CallEnqueue sample_node (mkTaskRequest TaskDeployDomainAction (ensure_payload "app" "app.example.com" ""))
     sample_later sample_later]
  ++ replicate 50 (CallEnqueue sample_node sample_status_request sample_later sample_later)
  ++ [CallEnqueue sample_node
        (mkTaskRequest TaskDeployDomainAction (ensure_payload "app" "app.example.com" sample_revision_a))
        sample_later sample_later].

Definition pending_ensures (d : db) : list (gmap string string) :=
  omap (fun r => match scanTask r with
                 | Ok t => if (task_Kind t =?s TaskDeployDomainAction) && pending t then Some (task_Payload t) else None
                 | Err _ => None
                 end) (db_tasks d).

(** The guard against two desired revisions of one managed domain in flight
    looks at the newest fifty tasks only: behind fifty other pending tasks a
    second ensure of another revision is queued. *)
Theorem ensure_conflict_window :
  Forall (@call_ok) window_history
  /\ pending_ensures (foldl (fun d c => @run latin_tables c d) Migrate window_history)
     = [ensure_payload "app" "app.example.com" ""; ensure_payload "app" "app.example.com" sample_revision_a].
Proof.
  split; [|vm_compute; reflexivity].
  unfold window_history. rewrite !Forall_app. split_and!.
  - repeat apply Forall_cons_2; try apply Forall_nil_2; cbn [call_ok]; [vm_compute; reflexivity..|].
    split; [apply utf8_mapb_ok|]; vm_compute; reflexivity.
  - apply Forall_replicate. cbn [call_ok]. split; [apply utf8_mapb_ok|]; vm_compute; reflexivity.
  - apply Forall_cons_2; [|apply Forall_nil_2]. cbn [call_ok]. split; [apply utf8_mapb_ok|]; vm_compute; reflexivity.
Qed.

(** The node list is ordered by the text of the creation time, which is not
    the order of time: a node registered half a second after a full second is
    listed after the node registered before it. *)
Theorem list_nodes_not_newest_first :
  exists d a b, @reachable latin_tables d /\ Service.ListNodes d = Ok [a; b] /\ node_CreatedAt a < node_CreatedAt b.
Proof.
  set (d := foldl (fun d c => @run latin_tables c d) Migrate
    [CallRegister (mkRegister "older" "Older") sample_raw_token (sample_now - 500000000);
     CallRegister (mkRegister "newer" "Newer") sample_raw_token sample_now]).
  assert (Service.ListNodes d = Ok [mkNode "older" "Older" "" "" "" [] empty_inventory None
            (sample_now - 500000000) (sample_now - 500000000);
          mkNode "newer" "Newer" "" "" "" [] empty_inventory None sample_now sample_now]) as Hl
    by (vm_compute; reflexivity).
  eexists d, _, _. split; [|split; [exact Hl|by vm_compute]].
  apply calls_reachable; [|exists []; constructor].
  repeat (apply Forall_cons_2; [vm_compute; reflexivity|]). apply Forall_nil_2.
Qed.

(** ** Witnesses *)

Definition zero_task : Task := mkTask 0 "" "" ∅ "" ∅ "" 0 None None.
Definition task_of (r : res (option Task)) : Task := match r with Ok (Some t) => t | _ => zero_task end.
Definition one_task (r : res Task) : Task := match r with Ok t => t | Err _ => zero_task end.

Definition sample_fresh_node : Node :=
  mkNode sample_node "Edge one" "" "" "" [] empty_inventory None sample_now sample_now.

Lemma register_then_authenticate_witness :
  AuthenticateNode sample_d1 sample_node sample_token = Ok sample_fresh_node
  /\ (sha256_hex "guess" <> sha256_hex sample_token ->
      AuthenticateNode sample_d1 sample_node "guess" = Err ErrUnauthorized)
  /\ nr_token_hash <$> db_nodes sample_d1 !! sample_node = Some (sha256_hex sample_token).
Proof.
  apply (register_then_authenticate Migrate sample_registration sample_raw_token sample_now
    (mkRegistered sample_fresh_node sample_token) sample_d1 "guess"); [reflexivity|vm_compute; reflexivity].
Defined.

Lemma unauthenticated_no_effect_witness :
  (exists e', Service.Heartbeat sample_d5 sample_node "guess" sample_heartbeat sample_later = (Err e', sample_d5))
  /\ PollTask sample_d5 sample_node "guess" sample_later = (Err ErrUnauthorized, sample_d5)
  /\ Service.CompleteTask sample_d5 sample_node "guess" 1 sample_result sample_later sample_later
     = (Err ErrUnauthorized, sample_d5).
Proof. apply unauthenticated_no_effect. vm_compute. reflexivity. Defined.

Definition sample_seen_node : Node := Eval vm_compute in
  match Service.GetNode sample_d2 sample_node with Ok n => n | Err _ => sample_fresh_node end.

Lemma heartbeat_online_witness :
  mkHeartbeatResponse true sample_now = mkHeartbeatResponse true sample_now
  /\ (IsNodeOnline sample_seen_node sample_later = true
      <-> sample_now <= sample_later <= sample_now + 45 * 1000000000).
Proof.
  apply (heartbeat_online sample_d1 sample_node sample_token sample_heartbeat sample_now
    (mkHeartbeatResponse true sample_now) sample_d2 sample_seen_node sample_later); vm_compute; reflexivity.
Defined.

Definition sample_queued : Task := Eval vm_compute in
  one_task (CreateTask sample_d4 sample_node sample_status_request sample_later).1.

Lemma enqueue_admission_witness :
  (sample_d5 = sample_d4 /\ ((exists e, (Ok sample_queued : res Task) = Err e)
     \/ exists t, (Ok sample_queued : res Task) = Ok t /\ same_ensure sample_status_request t = true
        /\ get (task_Payload t) "expected_revision" = get (req_Payload sample_status_request) "expected_revision"))
  \/ (exists t node, (Ok sample_queued : res Task) = Ok t
      /\ @ValidateTaskRequest latin_tables sample_status_request = Ok tt
      /\ Repository.GetNode sample_d4 sample_node = Ok node
      /\ capabilityForTask (req_Kind sample_status_request) ∈ node_Capabilities node
      /\ IsNodeOnline node sample_later = true
      /\ db_tasks sample_d5 = db_tasks sample_d4 ++ [new_row sample_d4 sample_node (req_Kind sample_status_request)
           (marshalStringMap (req_Payload sample_status_request)) (formatTime sample_later)]
      /\ task_ID t = db_next_id sample_d4 /\ task_Status t = TaskStatusQueued
      /\ task_Payload t = req_Payload sample_status_request).
Proof.
  apply (@enqueue_admission latin_tables sample_d4 sample_node sample_status_request sample_later sample_later
    (Ok sample_queued) sample_d5).
  - apply sample_d4_reachable.
  - apply utf8_mapb_ok. vm_compute. reflexivity.
  - vm_compute. reflexivity.
  - vm_compute. reflexivity.
Defined.

Lemma save_profile_cas_witness :
  Repository.GetNodeProfile sample_d3 sample_node = Ok (mkProfileRecord sample_normal 1 true)
  /\ rec_Revision (mkProfileRecord sample_normal 1 true) = 0 + 1
  /\ NormalizeAgentProfile sample_profile = Ok (rec_Profile (mkProfileRecord sample_normal 1 true))
  /\ (NormalizeAgentProfile emptyAgentProfile = Ok emptyAgentProfile ->
      SaveNodeProfile sample_d3 sample_node emptyAgentProfile 0 sample_later
      = (Err ErrProfileRevisionStale, sample_d3)).
Proof.
  apply (@save_profile_cas latin_tables sample_d2 sample_node sample_profile 0 sample_now
    (mkProfileRecord sample_normal 1 true) sample_d3 emptyAgentProfile emptyAgentProfile sample_later).
  - apply sample_d2_reachable.
  - by vm_compute.
  - vm_compute. reflexivity.
  - vm_compute. reflexivity.
Defined.

Definition sample_apply_task : Task := Eval vm_compute in
  task_of (ApplyNodeProfile sample_d3 sample_node 1 sample_later sample_later).1.

Lemma apply_idempotent_witness :
  exists node, Repository.GetNode sample_d4 sample_node = Ok node
    /\ ApplyNodeProfile sample_d4 sample_node 1 (sample_later + 3) (sample_later + 4)
       = (if IsNodeOnline node (sample_later + 3) then Ok (Some sample_apply_task) else Err ErrNodeOffline, sample_d4).
Proof.
  apply (@apply_idempotent latin_tables sample_d3 sample_node 1 sample_later sample_later sample_apply_task sample_d4).
  - apply sample_d3_reachable.
  - by vm_compute.
  - vm_compute. reflexivity.
  - vm_compute. reflexivity.
Defined.

Lemma poll_delivers_witness :
  (PollTask sample_d5 sample_node sample_token sample_later = (Ok None, sample_d5)
   /\ Forall (fun r => tr_node_id r = sample_node -> tr_status r <> TaskStatusQueued) (db_tasks sample_d5))
  \/ (exists r t d', PollTask sample_d5 sample_node sample_token sample_later = (Ok (Some t), d')
      /\ r ∈ db_tasks sample_d5 /\ tr_node_id r = sample_node /\ tr_status r = TaskStatusQueued
      /\ Forall (fun x => tr_node_id x = sample_node -> tr_status x = TaskStatusQueued -> tr_id r <= tr_id x)
           (db_tasks sample_d5)
      /\ task_ID t = tr_id r /\ task_Kind t = tr_kind r /\ task_Status t = TaskStatusRunning
      /\ marshalStringMap (task_Payload t) = tr_payload_json r).
Proof.
  apply (@poll_delivers latin_tables sample_d5 sample_node sample_token sample_later sample_seen_node).
  - apply sample_d5_reachable.
  - vm_compute. reflexivity.
  - vm_compute. reflexivity.
Defined.

Definition sample_done_task : Task := Eval vm_compute in
  one_task (CompleteTaskForNode sample_d6 sample_node 1 sample_result sample_later sample_later).1.

Lemma complete_once_witness :
  task_ID sample_done_task = 1 /\ task_Status sample_done_task = tres_Status sample_result
  /\ task_Error sample_done_task = tres_Error sample_result /\ task_NodeID sample_done_task = sample_node
  /\ exists e, CompleteTaskForNode sample_d7 sample_node 1 sample_result sample_later sample_later = (Err e, sample_d7).
Proof.
  apply (@complete_once latin_tables sample_d6 sample_node 1 sample_result sample_later sample_later
    sample_done_task sample_d7).
  - apply sample_d6_reachable.
  - apply utf8_mapb_ok. vm_compute. reflexivity.
  - vm_compute. reflexivity.
  - vm_compute. reflexivity.
Defined.

Definition sample_row : task_row := Eval vm_compute in
  List.hd (mkTaskRow 0 "" "" "" "" "" "" "" None None) (db_tasks sample_d6).

Lemma node_isolation_witness :
  Service.GetTaskForNode sample_d6 "edge-02" (tr_id sample_row) = Err ErrNotFound
  /\ exists e, CompleteTaskForNode sample_d6 "edge-02" (tr_id sample_row) sample_result sample_later sample_later
               = (Err e, sample_d6).
Proof.
  apply (@node_isolation latin_tables sample_d6 "edge-02" sample_row).
  - apply sample_d6_reachable.
  - apply list_elem_of_In. by left.
  - by vm_compute.
Defined.

Lemma list_bounded_witness :
  exists ts, Service.ListTasksForNode sample_d5 sample_node 500 = Ok ts
  /\ (length ts <= 50)%nat /\ Forall (fun t => task_NodeID t = sample_node) ts
  /\ StronglySorted (fun a b => b < a) (task_ID <$> ts).
Proof.
  apply (@list_bounded latin_tables sample_d5 sample_node 500 sample_seen_node);
    [apply sample_d5_reachable|vm_compute; reflexivity].
Defined.

(** ** Progress of the service calls

    The other direction of the admission properties: what a caller has to
    bring for a call to succeed.  A request that satisfies every documented
    condition is queued, a profile of an online node can be applied, and the
    node that claimed a task can finish it. *)

(** ** Helper lemmas *)

Lemma GetNode_valid d nodeID node :
  Service.GetNode d nodeID = Ok node -> validNodeID nodeID = true /\ Repository.GetNode d nodeID = Ok node.
Proof. unfold Service.GetNode. by destruct (validNodeID nodeID). Qed.

Lemma GetNode_row d nodeID node : Repository.GetNode d nodeID = Ok node -> is_Some (db_nodes d !! nodeID).
Proof. unfold Repository.GetNode. by destruct (db_nodes d !! nodeID). Qed.

Lemma encoded_profile_fits doc :
  len doc <= maxProfileJSONBytes ->
  (maxProfileJSONBytes <? len doc) || (maxProfileEncodedBytes <? len (EncodeToString doc)) = false.
Proof.
  intros Hl. rewrite (proj2 (Z.ltb_ge _ _)) by done. simpl. apply Z.ltb_ge. rewrite EncodeToString_len.
  unfold maxProfileEncodedBytes. apply Z.mul_le_mono_nonneg_r; [lia|]. apply Z.div_le_mono; lia.
Qed.

Lemma insert_task_ok d nodeID kind payload stamp :
  is_Some (db_nodes d !! nodeID) -> db_next_id d <= max_int64 ->
  insert_task d nodeID kind payload stamp
  = (Ok (db_next_id d), set_tasks d (db_tasks d ++ [new_row d nodeID kind payload stamp]) (db_next_id d + 1)).
Proof. intros [row Hrow] Hmax. unfold insert_task. by rewrite Hrow, (proj2 (Z.ltb_ge _ _)). Qed.

Section Facts.
Context `{UnicodeTables}.

Lemma CreateTask_succeeds d nodeID req now :
  hub_inv d -> ValidateTaskRequest req = Ok tt -> utf8_map (req_Payload req) -> clock_ok now = true ->
  is_Some (db_nodes d !! nodeID) -> db_next_id d <= max_int64 ->
  exists t, CreateTask d nodeID req now
    = (Ok t, set_tasks d (db_tasks d ++ [new_row d nodeID (req_Kind req) (marshalStringMap (req_Payload req))
                                           (formatTime now)]) (db_next_id d + 1)).
Proof.
  intros Hd Hv Hu Hc Hn Hmax.
  destruct (CreateTask_spec d nodeID req now Hd Hv Hu Hc) as [(e & E)|(t & d' & E & -> & _)]; [|by exists t].
  exfalso. pose proof (CreateTask_inv d nodeID req now Hv Hu Hc Hd) as Hd'. revert E Hd'. unfold CreateTask.
  destruct (String.eqb_spec (req_Kind req) TaskProfileApply) as [Hk|_].
  { apply ValidateTaskRequest_inv in Hv as (Hin & _). rewrite Hk in Hin. vm_compute in Hin. set_solver. }
  rewrite insert_task_ok by done. set (row := new_row _ _ _ _ _). intros E Hd'.
  destruct (GetTask_in _ row Hd') as (t & Ht & _); [simpl; set_solver|].
  change (tr_id row) with (db_next_id d) in Ht. cbn [snd] in Ht. by rewrite Ht in E.
Qed.

Lemma CreateProfileApplyTask_succeeds d nodeID row p doc now :
  hub_inv d -> clock_ok now = true -> db_next_id d <= max_int64 -> is_Some (db_nodes d !! nodeID) ->
  db_profiles d !! nodeID = Some row -> pr_revision row <= max_int64 -> normal_profile p ->
  pr_profile_json row = marshal (profile_json p) ->
  canonicalProfileApplyDocument p (pr_revision row) = Ok (p, doc) ->
  observed_applied d nodeID (pr_revision row) = false -> applies_in_flight d nodeID = [] ->
  exists t d', CreateProfileApplyTask d nodeID (pr_revision row) p now = (Ok (Some t), d')
    /\ reads_as (new_row d nodeID TaskProfileApply
         (marshalStringMap (apply_payload (EncodeToString doc) (Itoa (pr_revision row)))) (formatTime now)) t.
Proof.
  intros Hd Hc Hmax [nrow Hn] Hrow Hrev Hp Hj Hdoc Hob Hfl.
  pose proof (CreateProfileApplyTask_inv d nodeID (pr_revision row) p now Hrev Hc Hd) as Hd'. revert Hd'.
  pose proof (canonical_ok _ _ _ _ Hdoc) as (H1 & _ & _ & _ & _ & Hlen).
  unfold CreateProfileApplyTask. rewrite (proj2 (Z.ltb_ge _ _)) by lia.
  rewrite Hdoc, encoded_profile_fits by done. rewrite Hn, Hrow, Z.eqb_refl. cbn [negb].
  unfold stored_profile_matches. rewrite Hj, decodePersisted_roundtrip, normal_fixpoint by done.
  rewrite String.eqb_refl. cbn [negb]. rewrite Hob. unfold applies_in_flight in Hfl. rewrite Hfl.
  cbn [rev scan_in_flight negb Z.eqb]. rewrite insert_task_ok by (done || by rewrite Hn).
  set (r := new_row _ _ _ _ _). intros Hd'.
  destruct (GetTask_in _ r Hd') as (t & Ht & Hreads); [simpl; set_solver|].
  change (tr_id r) with (db_next_id d) in Ht. cbn [snd] in Ht. rewrite Ht. by eexists t, _.
Qed.

(** The task an apply returns names the node and the revision. *)
Definition applies_revision (nodeID : string) (revision : Z) (t : Task) : Prop :=
  task_NodeID t = nodeID /\ task_Kind t = TaskProfileApply /\ profileApplyPayloadRevisionFromTask t = Ok revision.

Lemma awaiting_applies d nodeID observation revision latest t :
  hub_inv d -> GetLatestProfileApplyTask d nodeID = Ok latest ->
  awaiting_receipt latest observation revision = Some t -> applies_revision nodeID revision t.
Proof.
  intros Hd Hl Haw. destruct (GetLatest_ok d nodeID Hd) as [[E _]|(r & t' & _ & Hn & Hk & Hreads & E)];
    rewrite E in Hl; injection Hl as <-; [done|]. cbn [awaiting_receipt] in Haw.
  destruct (_ =?s _); [|done]. destruct (profileApplyPayloadRevisionFromTask t') as [v|] eqn:Hv; [|done].
  destruct (_ && _) eqn:Hc; [|done]. injection Haw as <-. breflect. subst v.
  split_and!; [by rewrite (reads_node _ _ Hreads)|by rewrite (reads_kind _ _ Hreads)|done].
Qed.

(** The two views of an applied observation agree. *)
Lemma observation_views d nodeID revision observation :
  hub_inv d -> is_Some (db_nodes d !! nodeID) -> GetNodeProfileObservation d nodeID = Ok observation ->
  observed_as observation ProfileObservationApplied revision = observed_applied d nodeID revision.
Proof.
  intros Hd [nrow Hn] Ho. unfold observed_applied. destruct (db_observations d !! nodeID) as [o|] eqn:E.
  - destruct (GetNodeProfileObservation_ok d nodeID o Hd E) as (t & Et). rewrite Et in Ho. by injection Ho as <-.
  - unfold GetNodeProfileObservation in Ho. rewrite Hn, E in Ho. by injection Ho as <-.
Qed.

Lemma observation_reads d nodeID :
  hub_inv d -> is_Some (db_nodes d !! nodeID) -> exists o, GetNodeProfileObservation d nodeID = Ok o.
Proof.
  intros Hd [nrow Hn]. destruct (db_observations d !! nodeID) as [o|] eqn:E.
  - destruct (GetNodeProfileObservation_ok d nodeID o Hd E) as (t & Et). by eexists.
  - exists None. unfold GetNodeProfileObservation. by rewrite Hn, E.
Qed.

Lemma latest_reads d nodeID : hub_inv d -> exists latest, GetLatestProfileApplyTask d nodeID = Ok latest.
Proof. intros Hd. destruct (GetLatest_ok d nodeID Hd) as [[-> _]|(? & ? & _ & _ & _ & _ & ->)]; by eexists. Qed.

(** A task row is the only one with its id. *)
Lemma GetTaskForNode_in d r :
  hub_inv d -> r ∈ db_tasks d -> Repository.GetTaskForNode d (tr_node_id r) (tr_id r) = scanTask r.
Proof.
  intros Hd Hr. unfold Repository.GetTaskForNode.
  destruct (find_task _ (db_tasks d)) as [x|] eqn:Hf.
  - apply find_task_Some in Hf as [Hx E]. breflect. f_equal. eapply sorted_unique; eauto using inv_sorted.
  - apply find_none with (x := r) in Hf; [|by apply list_elem_of_In]. by rewrite Z.eqb_refl, String.eqb_refl in Hf.
Qed.

Lemma claimed_once d r :
  hub_inv d -> r ∈ db_tasks d -> tr_status r = TaskStatusRunning ->
  filter (fun x => claimed_by (tr_node_id r) (tr_id r) x = true) (db_tasks d) = [r].
Proof.
  intros Hd Hr Hs. apply list_elem_of_split in Hr as (l1 & l2 & Ht). pose proof (inv_sorted _ Hd) as Hso.
  rewrite Ht in Hso. apply other_ids in Hso as [Ho1 Ho2]. rewrite Ht.
  assert (forall l, Forall (fun x => (tr_id x =? tr_id r) = false) l ->
    filter (fun x => claimed_by (tr_node_id r) (tr_id r) x = true) l = []) as Hnone.
  { induction 1 as [|x l Hx _ IH]; [done|]. rewrite filter_cons_False; [done|]. unfold claimed_by. by rewrite Hx. }
  rewrite filter_app, filter_cons_True, !Hnone by (done || unfold claimed_by;
    by rewrite Hs, Z.eqb_refl, !String.eqb_refl). done.
Qed.

(** A valid result of a running task is recorded. *)
Lemma complete_succeeds d r task req checked written :
  hub_inv d -> r ∈ db_tasks d -> tr_status r = TaskStatusRunning -> validNodeID (tr_node_id r) = true ->
  utf8_map (tres_Result req) -> clock_ok written = true -> ValidateTaskResultRequest req = Ok tt ->
  scanTask r = Ok task -> result_for_kind task req checked = Ok tt ->
  exists t d', CompleteTaskForNode d (tr_node_id r) (tr_id r) req checked written = (Ok t, d')
    /\ task_ID t = tr_id r /\ task_Status t = tres_Status req.
Proof.
  intros Hd Hr Hs Hid Hu Hc Hv Hscan Hk.
  pose proof (complete_update_inv d (tr_node_id r) (tr_id r) req written Hv Hu Hc Hd) as Hd'. revert Hd'.
  unfold CompleteTaskForNode, reading. pose proof (inv_ids _ Hd) as Hids. rewrite Forall_forall in Hids.
  specialize (Hids r Hr). simpl in Hids.
  rewrite Hid, (proj2 (Z.leb_gt _ _)), Hv, GetTaskForNode_in, Hscan, Hk by (done || lia). cbn [negb].
  unfold Repository.CompleteTask. rewrite GetTaskForNode_in, Hscan by done.
  assert ((if task_Kind task =?s TaskProfileApply then ValidateProfileApplyTaskResult task req else Ok tt) = Ok tt) as ->.
  { unfold result_for_kind in Hk. apply rbind_Ok in Hk as ([] & _ & Hk). by apply rbind_Ok in Hk as ([] & _ & Hk). }
  unfold complete_update. rewrite claimed_once by done. pose proof (result_status _ Hv) as Hst.
  assert (check_task_status (tres_Status req) = true) as -> by (by destruct Hst as [-> | ->]).
  cbn [length Nat.eqb negb andb snd]. set (d1 := set_tasks _ _ _). intros Hd1.
  destruct (GetTask_in d1 (complete_row req (formatTime written) r) Hd1) as (t & Ht & Hreads).
  { simpl. unfold update_where. apply list_elem_of_fmap. exists r. unfold claimed_by.
    by rewrite Hs, Z.eqb_refl, !String.eqb_refl. }
  cbn [tr_id complete_row] in Ht. rewrite Ht. exists t, d1. split; [done|].
  split; [apply (reads_id _ _ Hreads)|apply (reads_status _ _ Hreads)].
Qed.

(** A valid generic request is queued. *)
Lemma EnqueueTask_succeeds d nodeID req checked written node :
  hub_inv d -> utf8_map (req_Payload req) -> clock_ok written = true -> db_next_id d <= max_int64 ->
  Service.GetNode d nodeID = Ok node -> ValidateTaskRequest req = Ok tt ->
  capabilityForTask (req_Kind req) ∈ node_Capabilities node -> IsNodeOnline node checked = true ->
  get (req_Payload req) "action" <> "ensure" ->
  exists t, EnqueueTask d nodeID req checked written
    = (Ok t, set_tasks d (db_tasks d ++ [new_row d nodeID (req_Kind req) (marshalStringMap (req_Payload req))
                                           (formatTime written)]) (db_next_id d + 1))
    /\ task_ID t = db_next_id d.
Proof.
  intros Hd Hu Hc Hmax [Hid Hg]%GetNode_valid Hv Hcap Hon Hens.
  destruct (CreateTask_succeeds d nodeID req written Hd Hv Hu Hc (GetNode_row _ _ _ Hg) Hmax) as (t & Ht).
  exists t. split.
  - unfold EnqueueTask, reading. rewrite (proj2 (String.eqb_neq _ "ensure")) by done.
    rewrite andb_false_r, Hid, Hg, Hv. cbn [negb]. cbv zeta. apply hasCapability_elem in Hcap.
    by rewrite Hcap, Hon, andb_false_r.
  - destruct (CreateTask_spec d nodeID req written Hd Hv Hu Hc) as [(e & E)|(t' & d' & E & _ & Hi & _)];
      rewrite E in Ht; [done|]. by injection Ht as <- _.
Qed.
End Facts.

(** ** Claims *)

Section claims.
Context `{UnicodeTables}.

(** A valid request is queued: for a registered node that is online and
    advertises the capability of the kind, and as long as row ids are left,
    [EnqueueTask] appends the task and returns it. *)
Theorem enqueue_accepts d nodeID req checked written node :
  reachable d -> utf8_map (req_Payload req) -> clock_ok written = true -> db_next_id d <= max_int64 ->
  Service.GetNode d nodeID = Ok node -> ValidateTaskRequest req = Ok tt ->
  capabilityForTask (req_Kind req) ∈ node_Capabilities node -> IsNodeOnline node checked = true ->
  get (req_Payload req) "action" <> "ensure" ->
  exists t d', EnqueueTask d nodeID req checked written = (Ok t, d')
    /\ db_tasks d' = db_tasks d ++ [new_row d nodeID (req_Kind req) (marshalStringMap (req_Payload req))
                                     (formatTime written)].
Proof.
  intros Hd%reachable_inv Hu Hc Hmax Hg Hv Hcap Hon Hens.
  destruct (EnqueueTask_succeeds d nodeID req checked written node) as (t & Ht & _); auto. by eexists _, _.
Qed.

(** Applying the desired profile succeeds: for an online node with the
    capability, the current revision and no other apply in flight, the call
    answers that the revision is already applied, exactly when the node's
    observation says so, or returns a task of this node and revision. *)
Theorem apply_accepts d nodeID checked written node record :
  reachable d -> clock_ok written = true -> db_next_id d <= max_int64 ->
  Service.GetNode d nodeID = Ok node -> Repository.GetNodeProfile d nodeID = Ok record ->
  rec_Configured record = true -> CapabilityProfileApply ∈ node_Capabilities node ->
  IsNodeOnline node checked = true -> applies_in_flight d nodeID = [] ->
  exists o d', ApplyNodeProfile d nodeID (rec_Revision record) checked written = (Ok o, d')
    /\ (o = None <-> observed_applied d nodeID (rec_Revision record) = true)
    /\ (forall t, o = Some t -> applies_revision nodeID (rec_Revision record) t).
Proof.
  intros Hd%reachable_inv Hc Hmax [Hid Hg]%GetNode_valid Hp Hcf Hcap%hasCapability_elem Hon Hfl.
  pose proof (GetNode_row _ _ _ Hg) as Hn.
  destruct (db_profiles d !! nodeID) as [row|] eqn:Hrow.
  2:{ destruct Hn as [nr Hn]. rewrite (GetNodeProfile_absent d nodeID nr) in Hp by done. by injection Hp as <-. }
  destruct (GetNodeProfile_ok d nodeID row Hd Hrow) as (p & Hnp & Hj & E & doc & Hdoc).
  rewrite E in Hp. injection Hp as <-. cbn [rec_Revision rec_Configured] in *.
  destruct (inv_profiles _ Hd _ _ Hrow) as [_ [Hrev _]].
  destruct (observation_reads d nodeID Hd Hn) as (ob & Hob), (latest_reads d nodeID Hd) as (latest & Hl).
  unfold ApplyNodeProfile, reading. rewrite Hid, (proj2 (Z.ltb_ge _ _)), Hg, E by lia.
  cbn [negb rec_Configured rec_Revision rec_Profile]. rewrite Z.eqb_refl, Hcap, Hob. cbn [negb].
  rewrite (observation_views d nodeID _ ob Hd Hn Hob).
  destruct (observed_applied d nodeID (pr_revision row)) eqn:Ha; [by eexists None, _|].
  rewrite Hon, Hl. cbn [negb].
  destruct (awaiting_receipt latest ob (pr_revision row)) as [t|] eqn:Haw.
  - exists (Some t), d. split_and!; [done..|]. intros ? [= <-]. by eapply awaiting_applies.
  - destruct (CreateProfileApplyTask_succeeds d nodeID row p doc written Hd Hc Hmax Hn Hrow)
      as (t & d' & -> & Hreads); try done; [lia|].
    exists (Some t), d'. split_and!; [done..|]. intros ? [= <-].
    split_and!; [apply Hreads..|]. rewrite (reads_apply_revision _ _ Hreads).
    eapply payload_revision_roundtrip; [exact Hdoc|lia].
Qed.

(** The node that claimed a task can finish it: a result with a final
    status and of the shape its kind calls for is stored, and the task is
    returned with that status. *)
Theorem complete_accepts d r task req checked written :
  reachable d -> r ∈ db_tasks d -> tr_status r = TaskStatusRunning -> validNodeID (tr_node_id r) = true ->
  utf8_map (tres_Result req) -> clock_ok written = true -> ValidateTaskResultRequest req = Ok tt ->
  scanTask r = Ok task -> result_for_kind task req checked = Ok tt ->
  exists t d', CompleteTaskForNode d (tr_node_id r) (tr_id r) req checked written = (Ok t, d')
    /\ task_ID t = tr_id r /\ task_Status t = tres_Status req.
Proof. intros Hd%reachable_inv. by apply complete_succeeds. Qed.
End claims.

(** ** Witnesses *)

Lemma enqueue_accepts_witness :
  exists t d', @EnqueueTask latin_tables sample_d4 sample_node sample_status_request sample_later sample_later = (Ok t, d')
    /\ db_tasks d' = db_tasks sample_d4 ++ [new_row sample_d4 sample_node (req_Kind sample_status_request)
         (marshalStringMap (req_Payload sample_status_request)) (formatTime sample_later)].
Proof.
  apply (@enqueue_accepts latin_tables sample_d4 sample_node sample_status_request sample_later sample_later
    sample_seen_node).
  - apply sample_d4_reachable.
  - apply utf8_mapb_ok. vm_compute. reflexivity.
  - vm_compute. reflexivity.
  - by vm_compute.
  - vm_compute. reflexivity.
  - vm_compute. reflexivity.
  - apply hasCapability_elem. vm_compute. reflexivity.
  - vm_compute. reflexivity.
  - by vm_compute.
Defined.

Lemma apply_accepts_witness :
  exists o d', ApplyNodeProfile sample_d3 sample_node 1 sample_later sample_later = (Ok o, d')
    /\ (o = None <-> observed_applied sample_d3 sample_node 1 = true)
    /\ (forall t, o = Some t -> applies_revision sample_node 1 t).
Proof.
  apply (@apply_accepts latin_tables sample_d3 sample_node sample_later sample_later sample_seen_node
    (mkProfileRecord sample_normal 1 true)).
  - apply sample_d3_reachable.
  - vm_compute. reflexivity.
  - by vm_compute.
  - vm_compute. reflexivity.
  - vm_compute. reflexivity.
  - reflexivity.
  - apply hasCapability_elem. vm_compute. reflexivity.
  - vm_compute. reflexivity.
  - vm_compute. reflexivity.
Defined.

Definition sample_running : task_row := Eval vm_compute in
  match db_tasks sample_d6 with r :: _ => r | [] => sample_row end.

Lemma complete_accepts_witness :
  exists t d', CompleteTaskForNode sample_d6 sample_node 1 sample_result sample_later sample_later = (Ok t, d')
    /\ task_ID t = 1 /\ task_Status t = TaskStatusCompleted.
Proof.
  apply (@complete_accepts latin_tables sample_d6 sample_running
    (match scanTask sample_running with Ok t => t | Err _ => zero_task end) sample_result sample_later sample_later).
  - apply sample_d6_reachable.
  - vm_compute. constructor.
  - vm_compute. reflexivity.
  - vm_compute. reflexivity.
  - apply utf8_mapb_ok. vm_compute. reflexivity.
  - vm_compute. reflexivity.
  - vm_compute. reflexivity.
  - vm_compute. reflexivity.
  - vm_compute. reflexivity.
Defined.
