(* ===== verification/AgentStore.v ===== *)
(** * The agent's profile store: [cmd/hserver-agent/profile_store.go]

    The four files of the profile directory and the operations on them.  The
    operating system answers through records of system-call results
    ([dir_calls], [write_calls]), so every error path of the source is a branch
    here.  A file is published by a rename; [run] keeps every directory state a
    sequence of publications goes through, the states a crash can leave. *)

From stdpp Require Import base strings gmap list.
From Stdlib Require Import ZArith Lia Ascii.
From S2P Require Import Prelude GoStrings GoJson HubTypes TaskGate Profile.
Local Open Scope Z_scope.
Local Open Scope hub_scope.

(** ** Constants *)

Definition profileSchemaVersion : Z := 1.
Definition maxProfileDocumentBytes : Z := Z.shiftl 16 10.
Definition profileDirectoryName : string := "profile".
Definition profileStatePendingRestart : string := "pending_restart".
Definition profileStateActive : string := "active".
Definition profileStateFailed : string := "failed".
Definition profileErrorCorrupt : string := ProfileErrorCodeCorrupt.
Definition profileErrorStateCorrupt : string := ProfileErrorCodeStateCorrupt.
Definition profileErrorRevision : string := ProfileErrorCodeRevisionInvalid.
Definition profileErrorPayload : string := ProfileErrorCodePayloadInvalid.
Definition profileErrorPayloadTooLarge : string := ProfileErrorCodePayloadTooLarge.
Definition profileErrorNotReady : string := ProfileErrorCodeApplyUnavailable.
Definition profileErrorSchedule : string := ProfileErrorCodeScheduleFailed.
Definition profileErrorStore : string := ProfileErrorCodeStoreFailed.
Definition profileErrorSuperseded : string := ProfileErrorCodeSuperseded.
Definition profileErrorMissing : string := ProfileErrorCodeMissing.

Inductive store_error : Type :=
| errProfileMissing
| errProfileCorrupt
| errProfileStateCorrupt
| errProfileRevision
| errProfilePayloadTooBig
| errStoreOther.

Notation sres := (result store_error).

Definition errors_is (e target : store_error) : bool :=
  match e, target with
  | errProfileMissing, errProfileMissing | errProfileCorrupt, errProfileCorrupt
  | errProfileStateCorrupt, errProfileStateCorrupt | errProfileRevision, errProfileRevision
  | errProfilePayloadTooBig, errProfilePayloadTooBig => true
  | _, _ => false
  end.

(** An error of another package is none of the sentinels above. *)
Definition foreign {E A} (r : result E A) : sres A :=
  match r with Ok a => Ok a | Err _ => Err errStoreOther end.

Record profileWrapper : Type := mkWrapper {
  wr_SchemaVersion : Z;
  wr_Revision : Z;
  wr_Profile : AgentProfile
}.

Definition no_wrapper : profileWrapper := mkWrapper 0 0 emptyAgentProfile.

Record profileStateDocument : Type := mkStateDoc {
  sd_SchemaVersion : Z;
  sd_State : string;
  sd_Revision : Z;
  sd_ErrorCode : string
}.

(** ** Wrapper documents *)

(** [json.Marshal] of a wrapper and of a state: members in field order,
    [omitempty] on the error code. *)
Definition wrapper_json (w : profileWrapper) : json :=
  JObj [("schema_version", JNum (Itoa (wr_SchemaVersion w)));
        ("revision", JNum (Itoa (wr_Revision w)));
        ("profile", profile_json (wr_Profile w))].

Definition state_json (s : profileStateDocument) : json :=
  JObj ([("schema_version", JNum (Itoa (sd_SchemaVersion s)));
         ("state", jstr (sd_State s));
         ("revision", JNum (Itoa (sd_Revision s)))]
        ++ (if sd_ErrorCode s =?s "" then [] else [("error_code", jstr (sd_ErrorCode s))])).

Definition marshalProfileWrapper (wrapper : profileWrapper) : sres string :=
  if negb (wr_SchemaVersion wrapper =? profileSchemaVersion) || (wr_Revision wrapper <=? 0)
  then Err errProfileRevision
  else
    let? normalized := foreign (NormalizeAgentProfile (wr_Profile wrapper)) in
    let data := marshal (wrapper_json (mkWrapper (wr_SchemaVersion wrapper) (wr_Revision wrapper)
                                         normalized)) in
    if maxProfileDocumentBytes <? len data then Err errProfilePayloadTooBig else Ok data.

(** The members of the one object of the text; a duplicate key is an error. *)
Definition strictJSONObject (data : string) : sres (gmap string json) :=
  match unmarshal data with
  | Some (JObj ms) => foreign (strict_members ms ∅)
  | _ => Err errStoreOther
  end.

(** A field that is present and not [null]. *)
Definition required_raw (e : store_error) (fields : gmap string json) (field : string) : sres json :=
  match fields !! field with
  | Some raw => if isJSONNull raw then Err e else Ok raw
  | None => Err e
  end.

Definition decodeProfileWrapper (data : string) : sres profileWrapper :=
  if (len data =? 0) || (maxProfileDocumentBytes <? len data) then Err errProfilePayloadTooBig
  else
    let? fields := strictJSONObject data in
    if negb (only_fields ["schema_version"; "revision"; "profile"] fields) then Err errStoreOther
    else
      let? schemaRaw := required_raw errStoreOther fields "schema_version" in
      match into_int64 schemaRaw 0 with
      | None => Err errStoreOther
      | Some schema =>
          if negb (schema =? profileSchemaVersion) then Err errStoreOther
          else
            let? revisionRaw := required_raw errProfileRevision fields "revision" in
            match into_int64 revisionRaw 0 with
            | None => Err errProfileRevision
            | Some revision =>
                if revision <=? 0 then Err errProfileRevision
                else
                  let? profileRaw := required_raw errStoreOther fields "profile" in
                  let? profile := foreign (decodeAgentProfileJSON profileRaw false) in
                  let? normalized := foreign (NormalizeAgentProfile profile) in
                  let wrapper := mkWrapper profileSchemaVersion revision normalized in
                  let? canonical := marshalProfileWrapper wrapper in
                  if negb (data =?s canonical) then Err errStoreOther else Ok wrapper
            end
      end.

(** ** The directory *)

(** What a path holds, as [Lstat] and [ReadFile] report it: nothing, a regular
    file, a symbolic link, another kind of object, a regular file that cannot be
    read, or a path that cannot be examined. *)
Inductive entry : Type :=
| Missing
| Regular (data : string)
| Symlink
| Special
| Unreadable
| Denied.

Record disk : Type := mkDisk {
  d_candidate : entry;
  d_active : entry;
  d_previous : entry;
  d_state : entry
}.

(** The current directory with the states it went through, newest first. *)
Record run : Type := mkRun { now : disk; earlier : list disk }.

Definition publish (r : run) (d : disk) : run := mkRun d (now r :: earlier r).

Inductive lstat : Type :=
| LMissing | LError | LSymlink | LDir | LRegular | LOther.

(** Results of the system calls of [ensurePrivateDirectory], in call order. *)
Record dir_calls : Type := mkDirCalls {
  dc_before : lstat;
  dc_mkdir : bool;
  dc_after : lstat;
  dc_chmod : bool;
  dc_chown : bool
}.

Definition ensurePrivateDirectory (root : bool) (calls : dir_calls) (directory : string) : sres unit :=
  if Clean directory =?s "/" then Err errStoreOther
  else
    let? _ :=
      match dc_before calls with
      | LMissing | LDir => Ok tt
      | LError | LSymlink | LRegular | LOther => Err errStoreOther
      end in
    if negb (dc_mkdir calls) then Err errStoreOther
    else
      match dc_after calls with
      | LDir =>
          if negb (dc_chmod calls) then Err errStoreOther
          else if root && negb (dc_chown calls) then Err errStoreOther
          else Ok tt
      | _ => Err errStoreOther
      end.

(** Results of the system calls of [writeAtomicProfileFile], in call order. *)
Record write_calls : Type := mkWriteCalls {
  wc_dir : dir_calls;
  wc_create : bool;
  wc_chmod : bool;
  wc_chown : bool;
  wc_write : bool;
  wc_sync : bool;
  wc_close : bool;
  wc_rename : bool;
  wc_syncdir : bool
}.

(** The entry the destination has afterwards, [None] when it is unchanged. *)
Definition writeAtomicProfileFile (root : bool) (calls : write_calls) (directory : string)
    (old : entry) (data : string) : sres unit * option entry :=
  match ensurePrivateDirectory root (wc_dir calls) directory with
  | Err e => (Err e, None)
  | Ok _ =>
      match old with
      | Symlink | Special | Denied => (Err errStoreOther, None)
      | Missing | Regular _ | Unreadable =>
          if negb (wc_create calls) || negb (wc_chmod calls) || (root && negb (wc_chown calls))
             || negb (wc_write calls) || negb (wc_sync calls) || negb (wc_close calls)
             || negb (wc_rename calls)
          then (Err errStoreOther, None)
          else if negb (wc_syncdir calls) then (Err errStoreOther, Some (Regular data))
          else (Ok tt, Some (Regular data))
      end
  end.

(** ** Reading *)

(** [readWrapper] also says whether the file exists. *)
Definition readWrapper (file : entry) : profileWrapper * bool * option store_error :=
  match file with
  | Missing => (no_wrapper, false, None)
  | Denied => (no_wrapper, false, Some errStoreOther)
  | Symlink | Special => (no_wrapper, true, Some errProfileCorrupt)
  | Unreadable => (no_wrapper, true, Some errStoreOther)
  | Regular data =>
      if maxProfileDocumentBytes <? len data then (no_wrapper, true, Some errProfilePayloadTooBig)
      else
        match decodeProfileWrapper data with
        | Err e => (no_wrapper, true, Some e)
        | Ok wrapper => (wrapper, true, None)
        end
  end.

Definition safe_profile_codes : list string :=
  [profileErrorMissing; profileErrorCorrupt; profileErrorStateCorrupt; profileErrorRevision;
   profileErrorPayload; profileErrorPayloadTooLarge; profileErrorNotReady; profileErrorSchedule;
   profileErrorStore; profileErrorSuperseded].

Definition safeProfileErrorCode (code fallback : string) : string :=
  if existsb (String.eqb code) safe_profile_codes then code else fallback.

Definition state_names : list string :=
  [profileStatePendingRestart; profileStateActive; profileStateFailed].

(** The fields of a state document as the decoder sets them. *)
Definition state_fields : fields_of profileStateDocument :=
  [("schema_version", fun j s =>
      n ← into_int64 j (sd_SchemaVersion s);
      Some (mkStateDoc n (sd_State s) (sd_Revision s) (sd_ErrorCode s)));
   ("state", fun j s =>
      v ← into_string j (sd_State s);
      Some (mkStateDoc (sd_SchemaVersion s) v (sd_Revision s) (sd_ErrorCode s)));
   ("revision", fun j s =>
      n ← into_int64 j (sd_Revision s);
      Some (mkStateDoc (sd_SchemaVersion s) (sd_State s) n (sd_ErrorCode s)));
   ("error_code", fun j s =>
      v ← into_string j (sd_ErrorCode s);
      Some (mkStateDoc (sd_SchemaVersion s) (sd_State s) (sd_Revision s) v))].

Definition no_state : profileStateDocument := mkStateDoc 0 "" 0 "".

Definition newline_text : string := String (of_byte 10) "".

(** The text of a regular state file. *)
Definition decode_state (data : string) : sres profileStateDocument :=
  if maxProfileDocumentBytes <? len data then Err errProfileStateCorrupt
  else
    match unmarshal data with
    | None => Err errStoreOther
    | Some j =>
        match decode_struct true state_fields j no_state with
        | None => Err errStoreOther
        | Some state =>
            if negb (sd_SchemaVersion state =? profileSchemaVersion) || (sd_Revision state <? 1)
            then Err errProfileStateCorrupt
            else if negb (existsb (String.eqb (sd_State state)) state_names)
            then Err errProfileStateCorrupt
            else if negb (sd_State state =?s profileStateFailed) && negb (sd_ErrorCode state =?s "")
            then Err errProfileStateCorrupt
            else if negb (sd_ErrorCode state =?s "")
                    && negb (safeProfileErrorCode (sd_ErrorCode state) "" =?s sd_ErrorCode state)
            then Err errProfileStateCorrupt
            else
              let canonical := marshal (state_json state) in
              if negb (data =?s canonical) && negb (data =?s canonical +:+ newline_text)
              then Err errProfileStateCorrupt
              else Ok state
        end
    end.

Definition readState (file : entry) : profileStateDocument * bool * option store_error :=
  match file with
  | Missing => (no_state, false, None)
  | Denied => (no_state, false, Some errStoreOther)
  | Symlink | Special => (no_state, true, Some errProfileStateCorrupt)
  | Unreadable => (no_state, true, Some errStoreOther)
  | Regular data =>
      match decode_state data with
      | Err e => (no_state, true, Some e)
      | Ok state => (state, true, None)
      end
  end.

(** ** Writing *)

(** Which file of the directory an operation publishes. *)
Inductive slot : Type := SCandidate | SPrevious | SState.

Definition slot_entry (d : disk) (s : slot) : entry :=
  match s with SCandidate => d_candidate d | SPrevious => d_previous d | SState => d_state d end.

Definition set_slot (d : disk) (s : slot) (e : entry) : disk :=
  match s with
  | SCandidate => mkDisk e (d_active d) (d_previous d) (d_state d)
  | SPrevious => mkDisk (d_candidate d) (d_active d) e (d_state d)
  | SState => mkDisk (d_candidate d) (d_active d) (d_previous d) e
  end.

Definition write_slot (root : bool) (calls : write_calls) (directory : string) (s : slot)
    (data : string) (r : run) : sres unit * run :=
  match writeAtomicProfileFile root calls directory (slot_entry (now r) s) data with
  | (res, Some e) => (res, publish r (set_slot (now r) s e))
  | (res, None) => (res, r)
  end.

Definition writeWrapper (root : bool) (calls : write_calls) (directory : string) (s : slot)
    (wrapper : profileWrapper) (r : run) : sres unit * run :=
  match marshalProfileWrapper wrapper with
  | Err e => (Err e, r)
  | Ok data => write_slot root calls directory s data r
  end.

Definition writeState (root : bool) (calls : write_calls) (directory : string)
    (state0 : profileStateDocument) (r : run) : sres unit * run :=
  let state :=
    if sd_SchemaVersion state0 =? 0
    then mkStateDoc profileSchemaVersion (sd_State state0) (sd_Revision state0) (sd_ErrorCode state0)
    else state0 in
  let data := marshal (state_json state) in
  if maxProfileDocumentBytes <? len data then (Err errProfileStateCorrupt, r)
  else write_slot root calls directory SState (data +:+ newline_text) r.

(** [filepath.Join(stateDir, "profile")]: [Join] drops empty elements and cleans. *)
Definition directory (stateDir : string) : string :=
  if stateDir =?s "" then Clean profileDirectoryName
  else Clean (stateDir +:+ "/" +:+ profileDirectoryName).

Definition ensureDirectory (root : bool) (outer inner : dir_calls) (stateDir : string) : sres unit :=
  if (stateDir =?s "") || negb (IsAbs stateDir) || negb (Clean stateDir =?s stateDir)
  then Err errStoreOther
  else
    let? _ := ensurePrivateDirectory root outer stateDir in
    ensurePrivateDirectory root inner (directory stateDir).

(** ** The active profile *)

Definition observe (state : string) (revision : Z) (code : string) : AgentProfileObservation :=
  mkObservation state revision code.

(** The profile in force, the observation of it, and the error. *)
Definition loadActiveProfile (d : disk)
    : profileWrapper * AgentProfileObservation * option store_error :=
  match readWrapper (d_active d) with
  | (_, _, Some _) =>
      (no_wrapper, observe ProfileObservationFailed 0 profileErrorCorrupt, Some errProfileCorrupt)
  | (active, exists_, None) =>
      match readState (d_state d) with
      | (_, _, Some e) =>
          (active, observe ProfileObservationFailed (wr_Revision active) profileErrorStateCorrupt, Some e)
      | (state, stateExists, None) =>
          let pending := observe ProfileObservationPendingRestart (sd_Revision state) "" in
          let failed := observe ProfileObservationFailed (sd_Revision state)
                          (safeProfileErrorCode (sd_ErrorCode state) profileErrorStore) in
          let applied := (active, observe ProfileObservationApplied (wr_Revision active) "", None) in
          let named name := sd_State state =?s name in
          let existing :=
            if stateExists then
              if named profileStatePendingRestart then (active, pending, None)
              else if named profileStateFailed then (active, failed, None)
              else if named profileStateActive then
                if negb (sd_Revision state =? wr_Revision active)
                then (active, observe ProfileObservationFailed (wr_Revision active)
                                profileErrorStateCorrupt, Some errProfileStateCorrupt)
                else applied
              else applied
            else applied in
          if negb exists_ then
            if negb stateExists
            then (no_wrapper, observe ProfileObservationNotConfigured 0 "", Some errProfileMissing)
            else if named profileStatePendingRestart then (no_wrapper, pending, None)
            else if named profileStateFailed then (no_wrapper, failed, None)
            else if named profileStateActive
            then (no_wrapper, observe ProfileObservationFailed (sd_Revision state)
                                profileErrorStateCorrupt, Some errProfileStateCorrupt)
            else existing
          else existing
      end
  end.
