(* ===== verification/AgentApply.v ===== *)
(** * Applying a profile on the agent: [cmd/hserver-agent/profile_apply.go]

    The controller that stages a profile task: it decodes the payload, compares
    the revision with the active and the pending profile, publishes the
    candidate and the pending state, and schedules the detached installer. *)

From stdpp Require Import base strings gmap list.
From Stdlib Require Import ZArith Lia Ascii.
From S2P Require Import Prelude GoStrings GoBase64 GoJson HubTypes TaskGate Profile AgentStore.
Local Open Scope Z_scope.
Local Open Scope hub_scope.

(** [Lstat] of an executable: the permission bits of a regular file. *)
Definition regularExecutable (mode : string -> option Z) (filename : string) : bool :=
  match mode filename with
  | Some perm => negb (Z.land perm 73 =? 0)
  | None => false
  end.

(** What runs a command: [true] when the command succeeded. *)
Definition commandRunner : Type := string -> list string -> bool.

Record profileApplyController : Type := mkController {
  pc_stateDir : string;
  pc_installer : string;
  pc_systemdRun : string;
  pc_runner : option commandRunner
}.

Definition newProfileApplyController (stateDir installer systemdRun : string)
    (runner : option commandRunner) : profileApplyController :=
  mkController stateDir installer systemdRun runner.

Definition executableReady (mode : string -> option Z) (c : profileApplyController) : bool :=
  match pc_runner c with
  | None => false
  | Some _ => regularExecutable mode (pc_installer c) && regularExecutable mode (pc_systemdRun c)
  end.

Definition profile_apply_args (installer : string) : list string :=
  ["--collect"; "--quiet"; "--unit=hserver-agent-profile"; "--on-active=3s";
   "--timer-property=AccuracySec=1s"; installer; "apply-profile"].

Definition scheduleProfileApply (runner : option commandRunner) (systemdRun installer : string) : bool :=
  match runner with
  | None => false
  | Some run_command =>
      if (systemdRun =?s "") || (installer =?s "") then false
      else run_command systemdRun (profile_apply_args installer)
  end.

Record profileApplyOutcome : Type := mkOutcome { out_State : string; out_Revision : Z }.

(** [base64.StdEncoding.EncodedLen]. *)
Definition EncodedLen (n : Z) : Z := (n + 2) / 3 * 4.

(** A wrapper, or the code of the failure. *)
Definition decodeProfileTaskPayload (payload : gmap string string) : result string profileWrapper :=
  if negb (map_len payload =? 2) then Err profileErrorPayload
  else
    match payload !! "revision", payload !! "profile_json_b64" with
    | Some rawRevision, Some encoded =>
        if (rawRevision =?s "") || (encoded =?s "") then Err profileErrorPayload
        else
          match ParseInt rawRevision with
          | None => Err profileErrorRevision
          | Some revision =>
              if (revision <=? 0) || negb (Itoa revision =?s rawRevision) then Err profileErrorRevision
              else if EncodedLen maxProfileDocumentBytes <? len encoded
              then Err profileErrorPayloadTooLarge
              else
                match DecodeString encoded with
                | None => Err profileErrorPayload
                | Some decoded =>
                    if negb (EncodeToString decoded =?s encoded) then Err profileErrorPayload
                    else if maxProfileDocumentBytes <? len decoded then Err profileErrorPayloadTooLarge
                    else
                      match decodeProfileWrapper decoded with
                      | Err e =>
                          if errors_is e errProfilePayloadTooBig then Err profileErrorPayloadTooLarge
                          else if errors_is e errProfileRevision then Err profileErrorRevision
                          else Err profileErrorPayload
                      | Ok wrapper =>
                          if negb (wr_Revision wrapper =? revision) then Err profileErrorRevision
                          else Ok wrapper
                      end
                end
          end
    | _, _ => Err profileErrorPayload
    end.

(** Answers of the operating system during one apply. *)
Record apply_calls : Type := mkApplyCalls {
  ac_root : bool;
  ac_mode : string -> option Z;
  ac_outer : dir_calls;
  ac_inner : dir_calls;
  ac_previous : write_calls;
  ac_candidate : write_calls;
  ac_pending : write_calls;
  ac_failed : write_calls
}.

(** From the first write on. *)
Definition stage (c : profileApplyController) (calls : apply_calls) (active : option profileWrapper)
    (wrapper : profileWrapper) (r0 : run) : result string profileApplyOutcome * run :=
  let root := ac_root calls in
  let dir := directory (pc_stateDir c) in
  match ensureDirectory root (ac_outer calls) (ac_inner calls) (pc_stateDir c) with
  | Err _ => (Err profileErrorStore, r0)
  | Ok _ =>
      let '(wrote_previous, r1) :=
        match active with
        | Some a => writeWrapper root (ac_previous calls) dir SPrevious a r0
        | None => (Ok tt, r0)
        end in
      match wrote_previous with
      | Err _ => (Err profileErrorStore, r1)
      | Ok _ =>
          match writeWrapper root (ac_candidate calls) dir SCandidate wrapper r1 with
          | (Err _, r2) => (Err profileErrorStore, r2)
          | (Ok _, r2) =>
              match writeState root (ac_pending calls) dir
                      (mkStateDoc profileSchemaVersion profileStatePendingRestart
                         (wr_Revision wrapper) "") r2 with
              | (Err _, r3) => (Err profileErrorStore, r3)
              | (Ok _, r3) =>
                  if scheduleProfileApply (pc_runner c) (pc_systemdRun c) (pc_installer c)
                  then (Ok (mkOutcome ProfileApplyResultRestartScheduled (wr_Revision wrapper)), r3)
                  else
                    let '(_, r4) :=
                      writeState root (ac_failed calls) dir
                        (mkStateDoc profileSchemaVersion profileStateFailed
                           (wr_Revision wrapper) profileErrorSchedule) r3 in
                    (Err profileErrorSchedule, r4)
              end
          end
      end
  end.

(** The pending revision, when a restart is scheduled. *)
Definition apply (c : profileApplyController) (calls : apply_calls) (payload : gmap string string)
    (r : run) : result string profileApplyOutcome * run :=
  match decodeProfileTaskPayload payload with
  | Err code => (Err code, r)
  | Ok wrapper =>
      if negb (executableReady (ac_mode calls) c) then (Err profileErrorNotReady, r)
      else
        match readWrapper (d_active (now r)) with
        | (_, _, Some _) => (Err profileErrorCorrupt, r)
        | (active, activeExists, None) =>
            match readState (d_state (now r)) with
            | (_, _, Some _) => (Err profileErrorStateCorrupt, r)
            | (state, stateExists, None) =>
                if activeExists && (wr_Revision wrapper <? wr_Revision active)
                then (Err profileErrorSuperseded, r)
                else if activeExists && (wr_Revision wrapper =? wr_Revision active)
                then (Ok (mkOutcome ProfileApplyResultAlreadyActive (wr_Revision active)), r)
                else
                  let pending := stateExists && (sd_State state =?s profileStatePendingRestart) in
                  if pending && (wr_Revision wrapper <? sd_Revision state)
                  then (Err profileErrorSuperseded, r)
                  else if pending && (wr_Revision wrapper =? sd_Revision state)
                  then (Ok (mkOutcome ProfileApplyResultRestartScheduled (sd_Revision state)), r)
                  else stage c calls (if activeExists then Some active else None) wrapper r
            end
        end
  end.

Definition observation (d : disk) : AgentProfileObservation :=
  let '(_, o, _) := loadActiveProfile d in o.

Definition profileApplyTaskResult (outcome : profileApplyOutcome) : TaskResultRequest :=
  mkTaskResult TaskStatusCompleted
    (<["state" := out_State outcome]> {["revision" := Itoa (out_Revision outcome)]}) "".

Definition failedProfileTaskResult (code : string) : TaskResultRequest :=
  mkTaskResult TaskStatusFailed ∅ (safeProfileErrorCode code profileErrorStore).

(** The arm of [execute] for this kind. *)
Definition execute_profile (c : profileApplyController) (calls : apply_calls)
    (payload : gmap string string) (r : run) : TaskResultRequest * run :=
  match apply c calls payload r with
  | (Err code, r') => (failedProfileTaskResult code, r')
  | (Ok outcome, r') => (profileApplyTaskResult outcome, r')
  end.
