(* ===== verification/AgentStoreFacts.v ===== *)
(** * The agent's profile store: facts

    The agent's decoder of wrapper documents agrees with the hub's decoder of
    apply documents; documents and states that are written read back; what a
    publication changes. *)

From stdpp Require Import base strings gmap list.
From Stdlib Require Import ZArith Lia Ascii.
From S2P Require Import Prelude GoStrings GoBase64 GoJson HubTypes TaskGate.
From S2P Require Import Profile TaskResult AgentStore AgentApply.
Local Open Scope Z_scope.
Local Open Scope hub_scope.
Local Opaque marshal.

(** ** Wrapper documents *)

(** The document of the hub as the agent's wrapper. *)
Definition wrapper_of (d : profileApplyDocument) : profileWrapper :=
  mkWrapper (doc_SchemaVersion d) (doc_Revision d) (doc_Profile d).

Lemma foreign_Ok {E A} (r : result E A) a : foreign r = Ok a <-> r = Ok a.
Proof. destruct r; simpl; split; congruence. Qed.

Lemma foreign_inv {E A} (r : result E A) a : foreign r = Ok a -> r = Ok a.
Proof. apply foreign_Ok. Qed.

Lemma strictJSONObject_Ok data fields :
  strictJSONObject data = Ok fields <-> decodeStrictJSONObject data = Ok fields.
Proof.
  unfold strictJSONObject, decodeStrictJSONObject, strict_object.
  destruct (unmarshal data) as [[]|]; try (split; congruence). apply foreign_Ok.
Qed.

Lemma marshalProfileWrapper_Ok w data :
  marshalProfileWrapper w = Ok data <->
  wr_SchemaVersion w = profileSchemaVersion /\ 1 <= wr_Revision w
  /\ exists q, NormalizeAgentProfile (wr_Profile w) = Ok q
       /\ data = marshal (wrapper_json (mkWrapper profileSchemaVersion (wr_Revision w) q))
       /\ len data <= maxProfileDocumentBytes.
Proof.
  unfold marshalProfileWrapper. split.
  - intros H. inv_ok H. breflect. apply foreign_inv in Hr. injection H as <-.
    split; [done|]. split; [lia|]. exists a. split; [done|]. split; [congruence|lia].
  - intros (Hs & Hr & q & Hq & -> & Hlen). rewrite Hs, Z.eqb_refl.
    rewrite (proj2 (Z.leb_gt _ _)) by lia. cbn [negb orb]. rewrite Hq. cbn [foreign rbind].
    by rewrite (proj2 (Z.ltb_ge _ _)).
Qed.

Lemma required_raw_Ok e fields field raw :
  required_raw e fields field = Ok raw <-> fields !! field = Some raw /\ isJSONNull raw = false.
Proof.
  unfold required_raw. destruct (fields !! field) as [j|]; [|split; [done|by intros []]].
  destruct (isJSONNull j) eqn:E; split; try done; [|by intros [= ->]|]; intros [[= ->] ?]; congruence.
Qed.

Lemma require_int64_Ok fields field n :
  require_int64 fields field = Ok n <->
  exists raw, fields !! field = Some raw /\ isJSONNull raw = false /\ into_int64 raw 0 = Some n.
Proof.
  unfold require_int64, decodeRequiredJSONField. split.
  - destruct (fields !! field) as [j|]; [|done]. destruct (isJSONNull j) eqn:E; [done|].
    destruct (into_int64 j 0) eqn:Ei; [|done]. intros [= ->]. eauto.
  - intros (j & -> & -> & ->). done.
Qed.

(** A wrapper the agent decodes is a document the hub decodes. *)
Lemma agent_decodes_document data w :
  decodeProfileWrapper data = Ok w ->
  decodeProfileApplyDocument data
  = Ok (mkDocument (wr_SchemaVersion w) (wr_Revision w) (wr_Profile w)).
Proof.
  unfold decodeProfileWrapper. intros H. inv_ok H. rename Hr into Hf. rename Hr0 into Hschema.
  destruct (into_int64 _ 0) as [schema|] eqn:Es in H; [|done]. inv_ok H. rename Hr into Hrev.
  destruct (into_int64 _ 0) as [rev|] eqn:Er in H; [|done]. inv_ok H. rename Hr into Hprof.
  apply foreign_inv in Hr0, Hr1. rename Hr0 into Hdec. rename Hr1 into Hnorm. rename Hr2 into Hcan.
  breflect. injection H as <-. cbn [wr_SchemaVersion wr_Revision wr_Profile].
  apply strictJSONObject_Ok in Hf. apply required_raw_Ok in Hschema as [Hs1 Hs2].
  apply required_raw_Ok in Hrev as [Hr1 Hr2]. apply required_raw_Ok in Hprof as [Hp1 Hp2].
  apply marshalProfileWrapper_Ok in Hcan as (_ & _ & q & Hq & Hdata & _). cbn [wr_Revision wr_Profile] in *.
  rewrite normal_fixpoint in Hq by by eapply Normalize_normal. injection Hq as <-.
  unfold decodeProfileApplyDocument.
  rewrite (proj2 (Z.eqb_neq _ _)) by done. change maxProfileJSONBytes with maxProfileDocumentBytes.
  rewrite (proj2 (Z.ltb_ge _ _)) by done. cbn [orb]. rewrite Hf. cbn [rbind].
  match goal with E : only_fields _ _ = true |- _ => rewrite E end. cbn [negb].
  rewrite (proj2 (require_int64_Ok _ _ schema)) by eauto. subst schema.
  change profileApplySchemaVersion with profileSchemaVersion. rewrite Z.eqb_refl. cbn [negb].
  rewrite (proj2 (require_int64_Ok _ _ rev)) by eauto. rewrite (proj2 (Z.ltb_ge _ _)) by lia.
  unfold field_not_null. rewrite Hp1, Hp2. cbn [rbind]. rewrite Hdec. cbn [rbind]. rewrite Hnorm. cbn [rbind].
  rewrite (proj2 (String.eqb_eq _ _)); [done|]. subst. reflexivity.
Qed.

(** And the other way round. *)
Lemma document_decodes_agent data d :
  decodeProfileApplyDocument data = Ok d -> decodeProfileWrapper data = Ok (wrapper_of d).
Proof.
  intros Hd. pose proof (decodeDocument_inv _ _ Hd) as (Hlen & _ & _ & Hnormal & Hdata).
  unfold decodeProfileApplyDocument in Hd. inv_ok Hd.
  rename Hr into Hf. destruct (require_int64 a "schema_version") as [schema|] eqn:Es; [|done]. inv_ok Hd.
  destruct (require_int64 a "revision") as [rev|] eqn:Er; [|done]. inv_ok Hd. breflect. injection Hd as <-.
  apply require_int64_Ok in Es as (raw1 & Hs1 & Hs2 & Hs3). apply require_int64_Ok in Er as (raw2 & Hr1' & Hr2' & Hr3).
  unfold field_not_null in Hr. destruct (a !! "profile") as [j|] eqn:Ep; [|done].
  destruct (isJSONNull j) eqn:Ej; [done|]. injection Hr as ->.
  unfold decodeProfileWrapper. rewrite (proj2 (Z.eqb_neq _ _)) by done.
  change maxProfileDocumentBytes with maxProfileJSONBytes. rewrite (proj2 (Z.ltb_ge _ _)) by done. cbn [orb].
  rewrite (proj2 (strictJSONObject_Ok _ _) Hf). cbn [rbind].
  match goal with E : only_fields _ _ = true |- _ => rewrite E end. cbn [negb].
  rewrite (proj2 (required_raw_Ok _ _ _ raw1)) by done. cbn [rbind]. rewrite Hs3.
  subst schema. change profileApplySchemaVersion with profileSchemaVersion in *.
  rewrite Z.eqb_refl. cbn [negb].
  rewrite (proj2 (required_raw_Ok _ _ _ raw2)) by done. cbn [rbind]. rewrite Hr3, (proj2 (Z.leb_gt _ _)) by lia.
  rewrite (proj2 (required_raw_Ok _ _ _ a0)) by done. cbn [rbind]. rewrite Hr0. cbn [foreign rbind].
  rewrite Hr1. cbn [foreign rbind].
  rewrite (proj2 (marshalProfileWrapper_Ok _ data)).
  { cbn [rbind]. by rewrite String.eqb_refl. }
  split; [done|]. split; [simpl; lia|]. exists a2. split; [by apply normal_fixpoint|]. by split.
Qed.

Lemma decodeProfileWrapper_inv data w :
  decodeProfileWrapper data = Ok w ->
  len data <= maxProfileDocumentBytes /\ wr_SchemaVersion w = profileSchemaVersion /\ 1 <= wr_Revision w
  /\ normal_profile (wr_Profile w) /\ data = marshal (wrapper_json w).
Proof. intros Hd%agent_decodes_document%decodeDocument_inv. exact Hd. Qed.

(** A wrapper of the file can be printed again, to the same text. *)
Lemma decoded_marshals data w : decodeProfileWrapper data = Ok w -> marshalProfileWrapper w = Ok data.
Proof.
  intros (Hlen & Hs & Hr & Hn & ->)%decodeProfileWrapper_inv. apply marshalProfileWrapper_Ok.
  split; [done|]. split; [done|]. exists (wr_Profile w). split; [by apply normal_fixpoint|].
  rewrite <-Hs. by destruct w.
Qed.

(** ** Task payloads *)

Lemma map_members_keys m : NoDup (map_members m).*1.
Proof.
  unfold map_members. rewrite <-list_fmap_compose.
  assert (fst ∘ (fun k => (k, jstr (default "" (m !! k)))) <$> sort_strings (elements (dom m))
          = sort_strings (elements (dom m))) as ->.
  { generalize (sort_strings (elements (dom m))). intros l. induction l as [|k l IH]; [done|].
    rewrite fmap_cons, IH. done. }
  rewrite sort_strings_perm. apply NoDup_elements.
Qed.

(** The text of a string map reads back as its members. *)
Lemma strict_map_members m :
  utf8_map m -> decodeStrictJSONObject (marshal (map_json m)) = Ok (jstr <$> m).
Proof.
  intros Hm. unfold decodeStrictJSONObject. rewrite marshal_roundtrip by by apply map_members_json_ok.
  unfold map_json. rewrite strict_object_ok by apply map_members_keys. f_equal. apply map_eq. intros k.
  rewrite lookup_fmap. destruct (m !! k) as [v|] eqn:E; cbn [fmap option_fmap option_map].
  - apply elem_of_list_to_map_1; [apply map_members_keys|]. unfold map_members. apply list_elem_of_fmap.
    exists k. rewrite E. split; [done|]. rewrite sort_strings_perm. apply elem_of_elements, elem_of_dom. eauto.
  - apply not_elem_of_list_to_map_1. unfold map_members. rewrite <-list_fmap_compose.
    intros (k' & -> & Hk')%list_elem_of_fmap. rewrite sort_strings_perm in Hk'.
    apply elem_of_elements, elem_of_dom in Hk' as [v Hv]. simpl in E. congruence.
Qed.

Lemma require_string_member (m : gmap string string) k v :
  require_string (jstr <$> m) k = Ok v <-> m !! k = Some v.
Proof.
  unfold require_string, decodeRequiredJSONField. rewrite lookup_fmap.
  destruct (m !! k) as [w|]; simpl; split; congruence.
Qed.

Lemma two_keys_payload (payload : gmap string string) rev enc :
  map_len payload = 2 -> payload !! "revision" = Some rev -> payload !! "profile_json_b64" = Some enc ->
  payload = apply_payload enc rev.
Proof.
  intros Hlen Hr He. unfold map_len in Hlen.
  assert (dom payload = list_to_set ["profile_json_b64"; "revision"]) as Hdom.
  { apply dom_exact; [by repeat constructor; set_solver|repeat constructor; eauto|simpl; lia]. }
  apply map_eq. intros k. unfold apply_payload.
  destruct (decide (k = "profile_json_b64")) as [->|H1]; [by simplify_map_eq|].
  destruct (decide (k = "revision")) as [->|H2]; [by simplify_map_eq|]. simplify_map_eq.
  apply not_elem_of_dom. rewrite Hdom. set_solver.
Qed.

Lemma encoded_bounds doc :
  1 <= len doc <= maxProfileDocumentBytes ->
  EncodeToString doc <> "" /\ len (EncodeToString doc) <= EncodedLen maxProfileDocumentBytes.
Proof.
  intros Hd. pose proof (EncodeToString_len doc) as Hl. split.
  - intros E. rewrite E in Hl. change (len "") with 0 in Hl. lia_div.
  - rewrite Hl. unfold EncodedLen. apply Z.mul_le_mono_nonneg_r; [lia|]. apply Z.div_le_mono; lia.
Qed.

Lemma decoded_nonempty doc w : decodeProfileWrapper doc = Ok w -> 1 <= len doc.
Proof.
  unfold decodeProfileWrapper. intros H. inv_ok H. breflect. pose proof (len_nonneg doc). lia.
Qed.

Lemma Itoa_nonempty n : Itoa n =?s "" = false.
Proof. destruct (Itoa_head n) as (c & s & -> & _). done. Qed.

Lemma decodeProfileTaskPayload_Ok payload w :
  decodeProfileTaskPayload payload = Ok w <->
  exists doc, payload = apply_payload (EncodeToString doc) (Itoa (wr_Revision w))
    /\ decodeProfileWrapper doc = Ok w /\ wr_Revision w <= max_int64.
Proof.
  unfold decodeProfileTaskPayload. split.
  - intros H. inv_ok H. breflect.
    destruct (payload !! "revision") as [raw|] eqn:Er; [|done].
    destruct (payload !! "profile_json_b64") as [enc|] eqn:Ee; [|done]. inv_ok H.
    destruct (ParseInt raw) as [rev|] eqn:Ep; [|done]. inv_ok H.
    destruct (DecodeString enc) as [doc|] eqn:Ed; [|done]. inv_ok H.
    destruct (decodeProfileWrapper doc) as [w'|e] eqn:Ew; [|by repeat case_match].
    inv_ok H. breflect. injection H as ->. exists doc. subst rev.
    split; [apply two_keys_payload; congruence|]. split; [done|]. by apply ParseInt_range in Ep as [].
  - intros (doc & -> & Hw & Hmax). pose proof (decodeProfileWrapper_inv _ _ Hw) as (Hlen & _ & Hrev & _ & Hdoc).
    destruct (apply_payload_lookup (EncodeToString doc) (Itoa (wr_Revision w))) as [-> ->].
    assert (map_len (apply_payload (EncodeToString doc) (Itoa (wr_Revision w))) = 2) as -> by done.
    cbn [negb Z.eqb]. rewrite ParseInt_Itoa by (unfold min_int64 in *; lia).
    rewrite (proj2 (Z.leb_gt _ _)) by lia. rewrite String.eqb_refl. cbn [negb orb].
    pose proof (decoded_nonempty _ _ Hw). destruct (encoded_bounds doc) as [Hne Hb]; [lia|].
    rewrite Itoa_nonempty, (proj2 (String.eqb_neq _ _)) by done. cbn [orb].
    rewrite (proj2 (Z.ltb_ge _ _)), base64_roundtrip, String.eqb_refl by done. cbn [negb].
    by rewrite (proj2 (Z.ltb_ge _ _)), Hw, Z.eqb_refl by done.
Qed.

(** The hub's reading of a payload. *)
Lemma payloadRevision_Ok payload rev :
  utf8_map payload ->
  profileApplyPayloadRevision (marshal (map_json payload)) = Ok rev ->
  exists doc d, payload = apply_payload (EncodeToString doc) (Itoa rev)
    /\ decodeProfileApplyDocument doc = Ok d /\ doc_Revision d = rev /\ rev <= max_int64.
Proof.
  intros Hm. unfold profileApplyPayloadRevision. rewrite strict_map_members by done. cbn [rbind].
  rewrite map_size_fmap. intros H. inv_ok H. apply require_string_member in Hr, Hr0.
  destruct (ParseInt _) as [n|] eqn:Ep in H; [|done]. inv_ok H.
  destruct (DecodeString _) as [doc|] eqn:Ed in H; [|done]. inv_ok H.
  destruct (decodeProfileApplyDocument doc) as [d|] eqn:Edoc; [|done]. inv_ok H. breflect.
  injection H as <-. exists doc, d. split; [apply two_keys_payload; unfold map_len; congruence|].
  split; [done|]. split; [done|]. by apply ParseInt_range in Ep as [].
Qed.

Lemma utf8_apply_payload doc rev : utf8_map (apply_payload (EncodeToString doc) (Itoa rev)).
Proof.
  unfold apply_payload. apply map_Forall_insert_2.
  - by split; [|apply EncodeToString_utf8].
  - apply map_Forall_singleton. by split; [|apply Itoa_utf8].
Qed.

(** Both sides accept the same payloads, for the same revision. *)
Lemma payload_agreement payload rev :
  utf8_map payload ->
  profileApplyPayloadRevision (marshal (map_json payload)) = Ok rev <->
  exists w, decodeProfileTaskPayload payload = Ok w /\ wr_Revision w = rev.
Proof.
  intros Hm. split.
  - intros (doc & d & -> & Hd & <- & Hmax)%payloadRevision_Ok; [|done].
    exists (wrapper_of d). split; [|done]. apply decodeProfileTaskPayload_Ok.
    exists doc. split; [done|]. split; [by apply document_decodes_agent|done].
  - intros (w & (doc & -> & Hw & Hmax)%decodeProfileTaskPayload_Ok & <-).
    pose proof (decodeProfileWrapper_inv _ _ Hw) as (Hlen & Hs & Hr & Hn & Hdoc).
    apply payload_revision_roundtrip with (wr_Profile w) (wr_Profile w); [|done].
    unfold canonicalProfileApplyDocument. rewrite (proj2 (Z.ltb_ge _ _)), normal_fixpoint by done. cbn [rbind].
    change profileApplySchemaVersion with profileSchemaVersion. rewrite <-Hs.
    change (document_json _) with (wrapper_json w). rewrite <-Hdoc. by rewrite (proj2 (Z.ltb_ge _ _)).
Qed.

(** ** State documents *)

(** The states [readState] accepts. *)
Definition state_marks : list (string * string) :=
  [(profileStatePendingRestart, ""); (profileStateActive, ""); (profileStateFailed, "")]
  ++ ((fun c => (profileStateFailed, c)) <$> safe_profile_codes).

Definition valid_state (s : profileStateDocument) : Prop :=
  sd_SchemaVersion s = profileSchemaVersion /\ 1 <= sd_Revision s <= max_int64
  /\ In (sd_State s, sd_ErrorCode s) state_marks.

Ltac each_mark Hin :=
  unfold state_marks in Hin; simpl in Hin; repeat (destruct Hin as [[= <- <-]|Hin]); [..|done].

Lemma len_cons c s : len (String c s) = 1 + len s.
Proof. unfold len. simpl String.length. lia. Qed.

Local Transparent marshal.

Lemma state_text_len st rev code :
  In (st, code) state_marks ->
  len (marshal (state_json (mkStateDoc profileSchemaVersion st rev code))) <= len (Itoa rev) + 200.
Proof.
  intros Hin. unfold state_json. cbn [sd_State sd_ErrorCode sd_Revision sd_SchemaVersion].
  set (n := Itoa rev). each_mark Hin.
  all: repeat match goal with |- context [if String.eqb ?a "" then _ else _] =>
         let b := eval vm_compute in (String.eqb a "") in change (String.eqb a "") with b end.
  all: cbv iota; cbn [app marshal fmap list_fmap join fst snd jstr]; repeat rewrite ?len_app, ?len_cons.
  all: change (Itoa profileSchemaVersion) with "1".
  all: repeat match goal with |- context [len (quote ?s)] =>
         let v := eval vm_compute in (len (quote s)) in change (len (quote s)) with v end.
  all: repeat match goal with |- context [len ""] => change (len "") with 0 | |- context [len "1"] => change (len "1") with 1 end.
  all: clearbody n; lia.
Qed.

Local Opaque marshal.

Lemma state_len s : valid_state s -> len (marshal (state_json s)) + 1 <= maxProfileDocumentBytes.
Proof.
  destruct s as [v st rev code]. unfold valid_state. cbn [sd_State sd_ErrorCode sd_Revision sd_SchemaVersion].
  intros (-> & Hr & Hin). pose proof (state_text_len st rev code Hin). pose proof (Itoa_len rev).
  change maxProfileDocumentBytes with 16384. lia.
Qed.

Lemma state_json_ok s : valid_state s -> json_ok (state_json s).
Proof.
  destruct s as [v st rev code]. unfold valid_state. cbn [sd_State sd_ErrorCode sd_Revision sd_SchemaVersion].
  intros (-> & Hr & Hin). unfold state_json. cbn [sd_State sd_ErrorCode sd_Revision sd_SchemaVersion].
  each_mark Hin; (apply ok_obj; [by repeat constructor|]); repeat (apply Forall_cons_2; [by constructor|]);
    apply Forall_nil_2.
Qed.

Lemma decode_state_struct s :
  valid_state s -> decode_struct true state_fields (state_json s) no_state = Some s.
Proof.
  destruct s as [v st rev code]. unfold valid_state. cbn [sd_State sd_ErrorCode sd_Revision sd_SchemaVersion].
  intros (-> & Hr & Hin). unfold state_json. cbn [sd_State sd_ErrorCode sd_Revision sd_SchemaVersion].
  each_mark Hin; cbn -[Itoa ParseInt]; rewrite !ParseInt_Itoa by (unfold min_int64, max_int64, profileSchemaVersion in *; lia); done.
Qed.

Lemma decode_state_roundtrip s :
  valid_state s -> decode_state (marshal (state_json s) +:+ newline_text) = Ok s.
Proof.
  intros Hs. pose proof (state_len s Hs) as Hlen. unfold decode_state.
  rewrite (proj2 (Z.ltb_ge _ _)) by (rewrite len_app; change (len newline_text) with 1; lia).
  assert (unmarshal (marshal (state_json s) +:+ newline_text) = Some (state_json s)) as ->.
  { apply unmarshal_object_trailing; [by apply state_json_ok|done]. }
  rewrite decode_state_struct by done. rewrite !String.eqb_refl, andb_false_r.
  destruct s as [v st rev code]. destruct Hs as (Hv & Hr & Hin).
  cbn [sd_State sd_ErrorCode sd_Revision sd_SchemaVersion] in *. subst v.
  rewrite (proj2 (Z.ltb_ge _ _)) by lia. each_mark Hin; reflexivity.
Qed.

Lemma decode_state_inv data s :
  decode_state data = Ok s ->
  sd_SchemaVersion s = profileSchemaVersion /\ 1 <= sd_Revision s
  /\ (sd_ErrorCode s = "" \/ sd_State s = profileStateFailed /\ In (sd_ErrorCode s) safe_profile_codes)
  /\ In (sd_State s) state_names.
Proof.
  unfold decode_state. intros H. inv_ok H. destruct (unmarshal data) as [j|]; [|done].
  destruct (decode_struct _ _ _ _) as [s'|]; [|done]. inv_ok H. injection H as ->. breflect.
  split; [done|]. split; [done|]. split; [|by apply list_elem_of_In, existsb_eqb_elem].
  destruct (String.eqb_spec (sd_ErrorCode s) "") as [|Hne]; [by left|right].
  split.
  - destruct (String.eqb_spec (sd_State s) profileStateFailed); [done|].
    match goal with H : negb (_ =?s _) && _ = false |- _ => by destruct_and? end.
  - destruct (String.eqb_spec (safeProfileErrorCode (sd_ErrorCode s) "") (sd_ErrorCode s)) as [Hsafe|]; [|done].
    unfold safeProfileErrorCode in Hsafe. destruct (existsb _ _) eqn:Ex in Hsafe; [|congruence].
    by apply list_elem_of_In, existsb_eqb_elem.
Qed.

(** ** What an apply publishes *)

Definition wrapper_text (w : profileWrapper) : string := marshal (wrapper_json w).

Definition state_text (state : string) (w : profileWrapper) (code : string) : string :=
  marshal (state_json (mkStateDoc profileSchemaVersion state (wr_Revision w) code)) +:+ newline_text.

(** The directory at some point of staging [w] from [d]: the active file is
    untouched, the previous file is as it was or a copy of the active one, and
    the state changes only once the candidate is in place. *)
Record staged (d : disk) (w : profileWrapper) (d' : disk) : Prop := {
  staged_active : d_active d' = d_active d;
  staged_previous : d_previous d' = d_previous d \/ d_previous d' = d_active d;
  staged_files :
    d_candidate d' = d_candidate d /\ d_state d' = d_state d
    \/ d_candidate d' = Regular (wrapper_text w)
       /\ (d_state d' = d_state d
           \/ d_state d' = Regular (state_text profileStatePendingRestart w "")
           \/ d_state d' = Regular (state_text profileStateFailed w profileErrorSchedule))
}.

Definition states (r : run) : list disk := now r :: earlier r.

Lemma write_slot_cases root calls dir s data r res r' :
  write_slot root calls dir s data r = (res, r') ->
  (r' = r /\ res <> Ok tt) \/ r' = publish r (set_slot (now r) s (Regular data)).
Proof.
  unfold write_slot, writeAtomicProfileFile.
  destruct (ensurePrivateDirectory _ _ _) as [[]|]; [|intros [= <- <-]; by left].
  destruct (slot_entry (now r) s); try (intros [= <- <-]; by left);
    (destruct (negb _ || _ || _ || _ || _ || _ || _); [intros [= <- <-]; by left|];
     destruct (negb _); intros [= <- <-]; by right).
Qed.

Lemma writeState_cases root calls dir st rev code r res r' :
  writeState root calls dir (mkStateDoc profileSchemaVersion st rev code) r = (res, r') ->
  (r' = r /\ res <> Ok tt)
  \/ r' = publish r (set_slot (now r) SState
            (Regular (marshal (state_json (mkStateDoc profileSchemaVersion st rev code)) +:+ newline_text))).
Proof.
  unfold writeState. cbn [sd_SchemaVersion]. change (profileSchemaVersion =? 0) with false. cbv iota.
  destruct (_ <? _); [intros [= <- <-]; by left|]. apply write_slot_cases.
Qed.

Lemma writeWrapper_cases root calls dir s data w r res r' :
  decodeProfileWrapper data = Ok w ->
  writeWrapper root calls dir s w r = (res, r') ->
  (r' = r /\ res <> Ok tt) \/ r' = publish r (set_slot (now r) s (Regular data)).
Proof.
  intros Hd. unfold writeWrapper. rewrite (decoded_marshals _ _ Hd). apply write_slot_cases.
Qed.

(** The wrapper of an existing file and its text. *)
Lemma readWrapper_Ok file w :
  readWrapper file = (w, true, None) ->
  exists data, file = Regular data /\ decodeProfileWrapper data = Ok w /\ data = wrapper_text w.
Proof.
  unfold readWrapper. destruct file as [|data| | | |]; try done.
  destruct (_ <? _); [done|]. destruct (decodeProfileWrapper data) as [w'|] eqn:E; [|done].
  intros [= ->]. exists data. split; [done|]. split; [done|]. by apply decodeProfileWrapper_inv in E as (_ & _ & _ & _ & ?).
Qed.

Lemma readWrapper_text w :
  decodeProfileWrapper (wrapper_text w) = Ok w -> readWrapper (Regular (wrapper_text w)) = (w, true, None).
Proof.
  intros Hd. unfold readWrapper. rewrite Hd.
  apply decodeProfileWrapper_inv in Hd as (Hlen & _). by rewrite (proj2 (Z.ltb_ge _ _)).
Qed.

Lemma decoded_text doc w : decodeProfileWrapper doc = Ok w -> decodeProfileWrapper (wrapper_text w) = Ok w.
Proof. intros Hd. pose proof (decodeProfileWrapper_inv _ _ Hd) as (_ & _ & _ & _ & ->). done. Qed.

Lemma readState_Regular data s : readState (Regular data) = (s, true, None) <-> decode_state data = Ok s.
Proof. unfold readState. destruct (decode_state data); split; congruence. Qed.

Lemma readState_absent file s b : readState file = (s, b, None) -> b = false -> file = Missing.
Proof. unfold readState. destruct file; try congruence. destruct (decode_state data); congruence. Qed.

Ltac no_outcome := intros [? ?]; discriminate.

(** Every state of a staging satisfies [staged]; a success has published the
    candidate and then the pending state, and scheduled the installer. *)
Lemma stage_states c calls active w r res r' :
  decodeProfileWrapper (wrapper_text w) = Ok w ->
  match active with
  | Some a => readWrapper (d_active (now r)) = (a, true, None)
  | None => True
  end ->
  earlier r = [] ->
  stage c calls active w r = (res, r') ->
  Forall (staged (now r) w) (states r')
  /\ ((exists o, res = Ok o) ->
      res = Ok (mkOutcome ProfileApplyResultRestartScheduled (wr_Revision w))
      /\ d_candidate (now r') = Regular (wrapper_text w)
      /\ d_state (now r') = Regular (state_text profileStatePendingRestart w "")
      /\ scheduleProfileApply (pc_runner c) (pc_systemdRun c) (pc_installer c) = true).
Proof.
  intros Hw Ha He. destruct r as [d past]. simpl in He. subst past. cbn [now] in *. unfold stage.
  assert (staged d w d) as H0 by (constructor; auto).
  destruct (ensureDirectory _ _ _ _) as [[]|]; [|intros [= <- <-]; split; [by repeat constructor|no_outcome]].
  destruct (match active with Some _ => _ | None => _ end) as [res1 r1] eqn:E1.
  assert (Forall (staged d w) (states r1) /\ d_active (now r1) = d_active d
          /\ d_candidate (now r1) = d_candidate d /\ d_state (now r1) = d_state d
          /\ (d_previous (now r1) = d_previous d \/ d_previous (now r1) = d_active d)) as (H1 & F1 & F2 & F3 & F4).
  { destruct active as [a|]; [|injection E1 as <- <-; split; [by repeat constructor|auto]].
    apply readWrapper_Ok in Ha as (data & Hact & Hdec & Hdata).
    apply (writeWrapper_cases _ _ _ _ _ _ _ _ _ Hdec) in E1 as [[-> _]| ->].
    - split; [by repeat constructor|auto].
    - split; [|simpl; rewrite Hact; auto]. constructor; [|by repeat constructor].
      constructor; simpl; [done|by right|by left]. }
  destruct res1 as [[]|]; [|intros [= <- <-]; split; [done|no_outcome]].
  destruct (writeWrapper _ _ _ SCandidate _ _) as [res2 r2] eqn:E2.
  apply (writeWrapper_cases _ _ _ _ _ _ _ _ _ Hw) in E2 as [[-> Hr]| ->].
  { destruct res2 as [[]|]; [done|]. intros [= <- <-]. split; [done|no_outcome]. }
  set (r2 := publish r1 _).
  assert (Forall (staged d w) (states r2)) as H2.
  { constructor; [|done]. constructor; simpl; auto. }
  destruct res2 as [[]|]; [|intros [= <- <-]; split; [done|no_outcome]].
  destruct (writeState _ _ _ _ _) as [res3 r3] eqn:E3.
  apply writeState_cases in E3 as [[-> Hr]| ->].
  { destruct res3 as [[]|]; [done|]. intros [= <- <-]. split; [done|no_outcome]. }
  set (r3 := publish r2 _).
  assert (Forall (staged d w) (states r3)) as H3.
  { constructor; [|done]. constructor; simpl; auto. }
  destruct res3 as [[]|]; [|intros [= <- <-]; split; [done|no_outcome]].
  destruct (scheduleProfileApply _ _ _) eqn:Es; [intros [= <- <-]; by split|].
  destruct (writeState _ _ _ _ _) as [res4 r4] eqn:E4.
  intros [= <- <-]. split; [|no_outcome].
  apply writeState_cases in E4 as [[-> Hr]| ->]; [done|].
  constructor; [|done]. constructor; simpl; auto.
Qed.

(** ** Printable text *)

Definition printable (s : string) : Prop := Forall (fun c => 0x20 <= byte c < 0x7F) (chars s).

Lemma printable_runes s : printable s -> runes s = byte <$> chars s.
Proof.
  unfold printable, runes. induction s as [|c s IH]; intros Hs; [done|].
  apply Forall_cons in Hs as [Hc Hs]. simpl. unfold decode_rune.
  rewrite (proj2 (Z.ltb_lt _ _)) by lia. by rewrite IH.
Qed.

Lemma printable_no_control s : printable s -> containsControl s = false.
Proof.
  intros Hs. unfold containsControl. rewrite printable_runes by done. apply existsb_false, Forall_fmap.
  eapply Forall_impl; [exact Hs|]. intros c Hc. simpl in *. unfold IsControl.
  apply orb_false_iff. split; apply andb_false_iff; [right|left]; apply Z.leb_gt; lia.
Qed.

Lemma Itoa_printable n : printable (Itoa n).
Proof.
  assert (forall m, 0 <= m -> printable (utoa m)) as Hu.
  { intros m Hm. unfold printable, utoa. rewrite chars_of_list. apply Forall_fmap.
    eapply Forall_impl; [by apply dec_digits_range|]. simpl. intros d Hd.
    unfold digit_char. rewrite byte_of_byte; lia. }
  unfold Itoa. destruct (Z.ltb_spec n 0); [|by apply Hu]. constructor; [by vm_compute|]. apply Hu. lia.
Qed.

(** ** The outcomes of an apply *)

Lemma decode_code payload code :
  decodeProfileTaskPayload payload = Err code -> In code safe_profile_codes.
Proof.
  unfold decodeProfileTaskPayload. intros H.
  repeat match type of H with
  | Err _ = Err _ => injection H as <-; vm_compute; tauto
  | Ok _ = Err _ => discriminate H
  | (if ?b then _ else _) = _ => destruct b
  | match ?x with _ => _ end = _ => destruct x
  end.
Qed.

Lemma stage_code c calls active w r code r' :
  stage c calls active w r = (Err code, r') -> In code [profileErrorStore; profileErrorSchedule].
Proof.
  unfold stage. destruct (ensureDirectory _ _ _ _); [|intros [= <- _]; by left].
  destruct (match active with Some _ => _ | None => _ end) as [[]]; [|intros [= <- _]; by left].
  destruct (writeWrapper _ _ _ _ _ _) as [[]]; [|intros [= <- _]; by left].
  destruct (writeState _ _ _ _ _) as [[]]; [|intros [= <- _]; by left].
  destruct (scheduleProfileApply _ _ _); [done|]. destruct (writeState _ _ _ _ _).
  intros [= <- _]. right. by left.
Qed.

(** An apply that decoded its payload either changed nothing or staged it over
    an older active and an older pending profile. *)
Lemma apply_cases c calls payload r res r' :
  apply c calls payload r = (res, r') ->
  (r' = r /\ (exists code, res = Err code /\ In code safe_profile_codes))
  \/ (exists w, decodeProfileTaskPayload payload = Ok w /\
      ((r' = r /\ exists st, res = Ok (mkOutcome st (wr_Revision w))
          /\ validProfileApplyResultState st = true)
       \/ exists a b s b', readWrapper (d_active (now r)) = (a, b, None)
          /\ readState (d_state (now r)) = (s, b', None)
          /\ executableReady (ac_mode calls) c = true
          /\ (b = true -> wr_Revision a < wr_Revision w)
          /\ (b' = true -> sd_State s = profileStatePendingRestart -> sd_Revision s < wr_Revision w)
          /\ stage c calls (if b then Some a else None) w r = (res, r'))).
Proof.
  assert (forall code, In code safe_profile_codes -> (Err code, r) = (res, r') ->
    (r' = r /\ (exists code, res = Err code /\ In code safe_profile_codes))) as Hfail.
  { intros code Hc [= <- <-]. split; [done|]. exists code. by split. }
  unfold apply. destruct (decodeProfileTaskPayload payload) as [w|code] eqn:Ed.
  2:{ intros H. left. eapply Hfail; [|done]. by eapply decode_code. }
  destruct (executableReady _ _) eqn:Er; [|intros H; left; eapply Hfail; [|exact H]; vm_compute; tauto].
  cbn [negb]. destruct (readWrapper (d_active (now r))) as [[a b] [e|]] eqn:Ea.
  { intros H; left; eapply Hfail; [|exact H]; vm_compute; tauto. }
  destruct (readState (d_state (now r))) as [[s b'] [e|]] eqn:Es.
  { intros H; left; eapply Hfail; [|exact H]; vm_compute; tauto. }
  destruct (b && (wr_Revision w <? wr_Revision a)) eqn:E1.
  { intros H; left; eapply Hfail; [|exact H]; vm_compute; tauto. }
  destruct (b && (wr_Revision w =? wr_Revision a)) eqn:E2.
  { intros [= <- <-]. right. exists w. split; [done|]. left. split; [done|].
    exists ProfileApplyResultAlreadyActive. breflect. split; [congruence|done]. }
  destruct (b' && _ && (wr_Revision w <? sd_Revision s)) eqn:E3.
  { intros H; left; eapply Hfail; [|exact H]; vm_compute; tauto. }
  destruct (b' && _ && (wr_Revision w =? sd_Revision s)) eqn:E4.
  { intros [= <- <-]. right. exists w. split; [done|]. left. split; [done|].
    exists ProfileApplyResultRestartScheduled. breflect. split; [congruence|done]. }
  intros H. right. exists w. split; [done|]. right. exists a, b, s, b'. repeat (split; [done|]).
  split; [intros ->; simpl in *; breflect; lia|]. split; [|done].
  intros -> Hs. rewrite Hs, String.eqb_refl in E3, E4. simpl in E3, E4. breflect. lia.
Qed.
