(* ===== verification/AgentApplyClaims.v ===== *)
(** * Applying profiles on the agent: theorems

    The agent and the hub read the same payloads; every directory state an apply
    goes through keeps the active profile and a candidate for the announced
    revision; revisions never go back; what the agent reports is accepted by the
    hub; a repeated apply changes nothing. *)

From stdpp Require Import base strings gmap list.
From Stdlib Require Import ZArith Lia Ascii.
From S2P Require Import Prelude GoStrings GoBase64 GoJson HubTypes TaskGate.
From S2P Require Import Profile TaskResult HostClaims Samples AgentStore AgentApply AgentStoreFacts.
Local Open Scope Z_scope.
Local Open Scope hub_scope.
Local Opaque marshal.

(** ** Concrete inputs *)

Definition good_dir : dir_calls := mkDirCalls LDir true LDir true true.
Definition good_write : write_calls := mkWriteCalls good_dir true true true true true true true true.
Definition good_calls : apply_calls :=
  mkApplyCalls true (fun _ => Some 493) good_dir good_dir good_write good_write good_write good_write.

Definition sample_controller : profileApplyController :=
  newProfileApplyController "/var/lib/hserver-agent" "/usr/local/sbin/install" "/usr/bin/systemd-run"
    (Some (fun _ _ => true)).

Definition sample_payload : gmap string string := apply_payload (EncodeToString sample_document) (Itoa 3).
Definition sample_wrapper : profileWrapper := mkWrapper profileSchemaVersion 3 sample_normal.
Definition empty_disk : disk := mkDisk Missing Missing Missing Missing.
Definition start (d : disk) : run := mkRun d [].

(** ** Helper lemmas *)

(** The wrapper in force depends on the active file only. *)
Lemma load_wrapper d : (loadActiveProfile d).1.1 = (readWrapper (d_active d)).1.1.
Proof.
  unfold loadActiveProfile. destruct (readWrapper (d_active d)) as [[a b] [e|]] eqn:E.
  - simpl. unfold readWrapper in E. repeat case_match; by simplify_eq.
  - destruct (readState (d_state d)) as [[s b'] [e|]]; [done|].
    destruct b; [by repeat case_match|].
    assert (a = no_wrapper) as -> by (unfold readWrapper in E; repeat case_match; by simplify_eq).
    by repeat case_match.
Qed.

(** When a restart is announced, the candidate of at least that revision is in
    place. *)
Definition store_ok (d : disk) : Prop :=
  forall s, readState (d_state d) = (s, true, None) -> sd_State s = profileStatePendingRestart ->
  exists w, readWrapper (d_candidate d) = (w, true, None) /\ sd_Revision s <= wr_Revision w.

Lemma state_text_reads st w code :
  1 <= wr_Revision w <= max_int64 -> In (st, code) state_marks ->
  readState (Regular (state_text st w code))
  = (mkStateDoc profileSchemaVersion st (wr_Revision w) code, true, None).
Proof.
  intros Hr Hin. unfold readState, state_text. by rewrite decode_state_roundtrip.
Qed.

Lemma payload_wrapper payload w :
  decodeProfileTaskPayload payload = Ok w ->
  decodeProfileWrapper (wrapper_text w) = Ok w /\ 1 <= wr_Revision w <= max_int64.
Proof.
  intros (doc & _ & Hw & Hmax)%decodeProfileTaskPayload_Ok.
  pose proof (decodeProfileWrapper_inv _ _ Hw) as (_ & _ & Hr & _). split; [by eapply decoded_text|lia].
Qed.

(** The states of an apply: unchanged, or staged. *)
Lemma apply_states c calls payload d res r' :
  apply c calls payload (start d) = (res, r') ->
  states r' = [d]
  \/ exists w, decodeProfileTaskPayload payload = Ok w
     /\ (forall a, readWrapper (d_active d) = (a, true, None) -> wr_Revision a < wr_Revision w)
     /\ (forall s, readState (d_state d) = (s, true, None) ->
           sd_State s = profileStatePendingRestart -> sd_Revision s < wr_Revision w)
     /\ Forall (staged d w) (states r').
Proof.
  intros [[-> _]|(w & Hw & [[-> _]|(a & b & s & b' & Ha & Hs & _ & Hna & Hns & Hst)])]%apply_cases; [by left..|].
  right. exists w. split; [done|]. cbn [start now] in *.
  split; [intros a'; rewrite Ha; intros [= -> ->]; auto|].
  split; [intros s'; rewrite Hs; intros [= -> ->]; auto|].
  apply payload_wrapper in Hw as [Hw _].
  apply stage_states in Hst as [Hf _]; [done|done|by destruct b|done].
Qed.

(** A test of every entry of a map. *)
Lemma forallb_entries (f : string * string -> bool) (m : gmap string string) :
  map_Forall (fun k v => f (k, v) = true) m -> forallb f (map_to_list m) = true.
Proof.
  intros Hm. apply forallb_forall. intros [k v] Hin%list_elem_of_In%elem_of_map_to_list. by apply Hm.
Qed.

Lemma result_state_text st :
  validProfileApplyResultState st = true -> containsControl st = false /\ len st <= 64.
Proof.
  unfold validProfileApplyResultState. intros [H|H]%orb_true_iff; breflect; subst st; by vm_compute.
Qed.

Lemma short_fits s n : len s <= 64 -> 64 <= n -> (n <? len s) = false.
Proof. intros. apply Z.ltb_ge. lia. Qed.

(** The result of a completed apply has the general shape of results. *)
Lemma profile_result_shape st rev :
  validProfileApplyResultState st = true -> 0 <= rev <= max_int64 ->
  ValidateTaskResultRequest (profileApplyTaskResult (mkOutcome st rev)) = Ok tt.
Proof.
  intros Hst Hrev. pose proof (result_state_text _ Hst) as [Hc Hl]. pose proof (Itoa_len rev Hrev) as Hi.
  pose proof (printable_no_control _ (Itoa_printable rev)) as Hp.
  unfold ValidateTaskResultRequest, profileApplyTaskResult. cbn [tres_Status tres_Error tres_Result out_State out_Revision].
  change (negb (TaskStatusCompleted =?s TaskStatusCompleted) && _) with false.
  change ((maxTaskErrorLength <? len "") || containsControl "") with false.
  change ((TaskStatusCompleted =?s TaskStatusFailed) && _) with false. cbv iota.
  change (100 <? map_len _) with false. cbv iota.
  rewrite forallb_entries; [done|]. apply map_Forall_insert_2; [|apply map_Forall_singleton]; simpl.
  - by rewrite Hc, short_fits by (done || by vm_compute).
  - by rewrite Hp, short_fits by (done || by vm_compute).
Qed.

Lemma safe_code_kept code fallback : In code safe_profile_codes -> safeProfileErrorCode code fallback = code.
Proof.
  intros Hc. unfold safeProfileErrorCode. by rewrite (proj2 (existsb_eqb_elem _ _)) by by apply list_elem_of_In.
Qed.

(** ** An apply that meets no failure *)

Definition dir_ok (root : bool) (calls : dir_calls) : bool :=
  match dc_before calls, dc_after calls with
  | (LMissing | LDir), LDir => dc_mkdir calls && dc_chmod calls && implb root (dc_chown calls)
  | _, _ => false
  end.

Definition write_ok (root : bool) (calls : write_calls) : bool :=
  dir_ok root (wc_dir calls) && wc_create calls && wc_chmod calls && implb root (wc_chown calls)
  && wc_write calls && wc_sync calls && wc_close calls && wc_rename calls && wc_syncdir calls.

Definition calls_ok (calls : apply_calls) : bool :=
  let root := ac_root calls in
  dir_ok root (ac_outer calls) && dir_ok root (ac_inner calls) && write_ok root (ac_previous calls)
  && write_ok root (ac_candidate calls) && write_ok root (ac_pending calls).

Definition replaceable (e : entry) : bool :=
  match e with Missing | Regular _ | Unreadable => true | Symlink | Special | Denied => false end.

Lemma dir_ok_private root calls dir :
  dir_ok root calls = true -> Clean dir <> "/" -> ensurePrivateDirectory root calls dir = Ok tt.
Proof.
  unfold dir_ok, ensurePrivateDirectory. intros H Hd. rewrite (proj2 (String.eqb_neq _ _)) by done.
  destruct (dc_before calls), (dc_after calls), (dc_mkdir calls), (dc_chmod calls), root, (dc_chown calls); done.
Qed.

Lemma write_ok_slot root calls dir s data r :
  write_ok root calls = true -> Clean dir <> "/" -> replaceable (slot_entry (now r) s) = true ->
  write_slot root calls dir s data r = (Ok tt, publish r (set_slot (now r) s (Regular data))).
Proof.
  unfold write_ok. intros H Hd He. breflect. unfold write_slot, writeAtomicProfileFile.
  rewrite dir_ok_private by done.
  destruct calls as [dc c1 c2 c3 c4 c5 c6 c7 c8]. simpl in *. subst.
  destruct (slot_entry (now r) s), root, c3; simplify_eq/=; done.
Qed.

Lemma observation_reportable d : validateAgentProfileObservation (Some (observation d)) = Ok tt.
Proof.
  assert (forall o, 0 <= obs_Revision o -> In (obs_State o) observation_states ->
            In (obs_ErrorCode o) ("" :: safe_profile_codes) ->
            validateAgentProfileObservation (Some o) = Ok tt) as Hok.
  { intros [st rv code] Hr Hs Hc. unfold validateAgentProfileObservation. cbn [obs_Revision obs_State obs_ErrorCode] in *.
    rewrite (proj2 (Z.ltb_ge _ _)) by done.
    rewrite (proj2 (existsb_eqb_elem _ _)) by by apply list_elem_of_In.
    simpl in Hc. by repeat (destruct Hc as [<-|Hc]; [done|]). }
  assert (forall w b e, readWrapper (d_active d) = (w, b, e) -> 0 <= wr_Revision w) as Hw.
  { intros w b e H. unfold readWrapper in H. repeat case_match; simplify_eq; try done.
    match goal with H : decodeProfileWrapper _ = Ok _ |- _ =>
      apply decodeProfileWrapper_inv in H as (_ & _ & ? & _); lia end. }
  unfold observation, loadActiveProfile.
  destruct (readWrapper (d_active d)) as [[a b] [e|]] eqn:Ea; [by apply Hok; [done|vm_compute; tauto..]|].
  specialize (Hw _ _ _ eq_refl).
  destruct (readState (d_state d)) as [[s b'] [e|]] eqn:Es; [by apply Hok; [done|vm_compute; tauto..]|].
  assert (0 <= sd_Revision s /\ In (safeProfileErrorCode (sd_ErrorCode s) profileErrorStore) ("" :: safe_profile_codes))
    as [Hs Hcode].
  { split.
    - unfold readState in Es. repeat case_match; simplify_eq; try done.
      match goal with H : decode_state _ = Ok _ |- _ => apply decode_state_inv in H as (_ & ? & _); lia end.
    - right. unfold safeProfileErrorCode. destruct (existsb _ _) eqn:Ex; [|vm_compute; tauto].
      by apply list_elem_of_In, existsb_eqb_elem. }
  assert (In ProfileObservationFailed observation_states /\ In ProfileObservationApplied observation_states
          /\ In ProfileObservationPendingRestart observation_states) as (Hf & Hap & Hpe) by (vm_compute; tauto).
  assert (In profileErrorStateCorrupt ("" :: safe_profile_codes)) as Hsc by (vm_compute; tauto).
  repeat case_match; simplify_eq; apply Hok; cbn [observe obs_Revision obs_State obs_ErrorCode];
    first [done|by left|vm_compute; tauto].
Qed.

(** ** Claims *)

(** C33. The agent and the hub, two implementations of the payload of
    [agent.profile.apply], accept the same payloads and read the same revision
    from them. *)
Theorem payload_decoders_agree payload rev :
  utf8_map payload ->
  profileApplyPayloadRevision (marshal (map_json payload)) = Ok rev <->
  exists w, decodeProfileTaskPayload payload = Ok w /\ wr_Revision w = rev.
Proof. apply payload_agreement. Qed.

(** C29. Every directory state an apply goes through, whatever system call fails
    and wherever it stops, has the active file of before and loads the same
    active profile; the previous file is kept or becomes a copy of the active
    one; and a pending restart always has its candidate in place. *)
Theorem apply_crash_safe c calls payload d res r' :
  store_ok d -> apply c calls payload (start d) = (res, r') ->
  Forall (fun d' => d_active d' = d_active d
                    /\ (loadActiveProfile d').1.1 = (loadActiveProfile d).1.1
                    /\ (d_previous d' = d_previous d \/ d_previous d' = d_active d)
                    /\ store_ok d') (states r').
Proof.
  intros Hok [->|(w & Hw & _ & Hns & Hst)]%apply_states; [by repeat constructor; auto|].
  apply payload_wrapper in Hw as [Hw Hr].
  eapply Forall_impl; [exact Hst|]. intros d' [Ha Hp Hf]. rewrite !load_wrapper, Ha.
  split; [done|]. split; [done|]. split; [done|]. unfold store_ok.
  destruct Hf as [[Hc Hs]|[Hc Hs]]; rewrite Hc; [by rewrite Hs|].
  intros s Hread Hpend. exists w. split; [by apply readWrapper_text|].
  destruct Hs as [Hs|[Hs|Hs]]; rewrite Hs in Hread.
  - specialize (Hns s Hread Hpend). lia.
  - rewrite state_text_reads in Hread by (done || by left). by injection Hread as <-.
  - rewrite state_text_reads in Hread by (done || (vm_compute; tauto)). by injection Hread as <-.
Qed.

(** An apply never goes back: a state it publishes carries the revision of
    its payload, which is above the revision of the active profile and above
    the revision of a restart already pending. *)
Theorem apply_never_rolls_back c calls payload d res r' :
  apply c calls payload (start d) = (res, r') ->
  Forall (fun d' => d_state d' = d_state d
    \/ exists s w, readState (d_state d') = (s, true, None)
         /\ decodeProfileTaskPayload payload = Ok w /\ sd_Revision s = wr_Revision w
         /\ readWrapper (d_candidate d') = (w, true, None)
         /\ (forall a, readWrapper (d_active d) = (a, true, None) -> wr_Revision a < sd_Revision s)
         /\ (forall s0, readState (d_state d) = (s0, true, None) ->
               sd_State s0 = profileStatePendingRestart -> sd_Revision s0 < sd_Revision s)) (states r').
Proof.
  intros [->|(w & Hw & Hna & Hns & Hst)]%apply_states; [by repeat constructor; auto|].
  pose proof (payload_wrapper _ _ Hw) as [Hdec Hr].
  eapply Forall_impl; [exact Hst|]. intros d' [Ha Hp Hf].
  destruct Hf as [[Hc Hs]|[Hc [Hs|Hs]]]; [by left..|]. right.
  assert (exists st code, In (st, code) state_marks /\ d_state d' = Regular (state_text st w code))
    as (st & code & Hin & Hst').
  { destruct Hs as [Hs|Hs]; rewrite Hs; eexists _, _; (split; [|done]); vm_compute; tauto. }
  exists (mkStateDoc profileSchemaVersion st (wr_Revision w) code), w.
  rewrite Hst', Hc. split; [by apply state_text_reads|]. split; [done|]. split; [done|].
  split; [by apply readWrapper_text|]. by split.
Qed.

Lemma profile_report_accepted c calls task rev d :
  task_Kind task = TaskProfileApply -> utf8_map (task_Payload task) ->
  profileApplyPayloadRevisionFromTask task = Ok rev ->
  ValidateProfileApplyTaskResult task (execute_profile c calls (task_Payload task) (start d)).1 = Ok tt.
Proof.
  intros Hk Hu Hrev. unfold ValidateProfileApplyTaskResult. rewrite Hk, String.eqb_refl, Hrev. cbn [negb].
  unfold profileApplyPayloadRevisionFromTask in Hrev.
  apply (proj1 (payload_agreement _ _ Hu)) in Hrev as (w & Hw & <-).
  pose proof (payload_wrapper _ _ Hw) as [Hdec Hr]. unfold execute_profile.
  destruct (apply c calls (task_Payload task) (start d)) as [res r'] eqn:E.
  assert ((exists code, res = Err code /\ In code safe_profile_codes)
          \/ exists st, res = Ok (mkOutcome st (wr_Revision w)) /\ validProfileApplyResultState st = true) as Hres.
  { apply apply_cases in E as [[_ Hc]|(w' & Hw' & [[_ Ho]|(a & b & s & b' & Ha & _ & _ & _ & _ & Hst)])];
      [by left|rewrite Hw in Hw'; injection Hw' as <-; by right|].
    rewrite Hw in Hw'. injection Hw' as <-. destruct res as [o|code].
    - apply stage_states in Hst as [_ Ho]; [|done|by destruct b|done].
      destruct Ho as [[= ->] _]; [by eexists|]. right. by eexists.
    - left. exists code. split; [done|]. apply stage_code in Hst. simpl in *. tauto. }
  destruct Hres as [(code & -> & Hc)|(st & -> & Hst)]; cbn [fst].
  - unfold failedProfileTaskResult. rewrite safe_code_kept by done.
    clear -Hc. simpl in Hc. repeat (destruct Hc as [<-|Hc]; [by vm_compute|]). done.
  - rewrite profile_result_shape by (done || lia). cbn [rbind].
    unfold profileApplyTaskResult. cbn [tres_Status tres_Error tres_Result out_State out_Revision].
    change (TaskStatusCompleted =?s TaskStatusCompleted) with true. change ("" =?s "") with true. cbn [negb].
    rewrite forallb_entries; [by simplify_map_eq|].
    apply map_Forall_insert_2; [|apply map_Forall_singleton]; unfold apply_result_entry_ok; simpl; [done|].
    by rewrite String.eqb_refl.
Qed.

(** Whatever happens on the host, the report of a profile task is one the
    hub accepts: for every task whose payload the hub admits, the result of the
    agent passes the closed result contract of that task. *)
Theorem apply_report_accepted c calls task rev d :
  task_Kind task = TaskProfileApply -> utf8_map (task_Payload task) ->
  profileApplyPayloadRevisionFromTask task = Ok rev ->
  ValidateProfileApplyTaskResult task (execute_profile c calls (task_Payload task) (start d)).1 = Ok tt.
Proof. apply profile_report_accepted. Qed.

(** Every observation the agent can make of its profile directory is one
    the hub's heartbeat validation accepts. *)
Theorem observation_accepted d : validateAgentProfileObservation (Some (observation d)) = Ok tt.
Proof. apply observation_reportable. Qed.

(** Applying the same payload again is idempotent: after a success, a
    second apply of it succeeds with the same outcome and writes nothing. *)
Theorem apply_repeat c calls calls' payload d o r' :
  apply c calls payload (start d) = (Ok o, r') -> executableReady (ac_mode calls') c = true ->
  apply c calls' payload (start (now r')) = (Ok o, start (now r')).
Proof.
  intros H Hready. unfold apply in H |- *. destruct (decodeProfileTaskPayload payload) as [w|] eqn:Ew; [|done].
  rewrite Hready. cbn [negb]. destruct (executableReady (ac_mode calls) c); [|done]. cbn [negb] in H.
  cbn [start now] in *. destruct (readWrapper (d_active d)) as [[a b] [e|]] eqn:Ea; [done|].
  destruct (readState (d_state d)) as [[s b'] [e|]] eqn:Es; [done|].
  destruct (b && (wr_Revision w <? wr_Revision a)) eqn:E1; [done|].
  destruct (b && (wr_Revision w =? wr_Revision a)) eqn:E2.
  { injection H as <- <-. cbn [start now]. by rewrite Ea, Es, E1, E2. }
  destruct (_ && (wr_Revision w <? sd_Revision s)) eqn:E3; [done|].
  destruct (_ && (wr_Revision w =? sd_Revision s)) eqn:E4.
  { injection H as <- <-. cbn [start now]. by rewrite Ea, Es, E1, E2, E3, E4. }
  pose proof (payload_wrapper _ _ Ew) as [Hdec Hr].
  apply stage_states in H as [Hf Ho]; [|done|by destruct b|done].
  destruct Ho as ([= ->] & Hc & Hs & _); [by eexists|]. apply Forall_cons in Hf as [[Hact _ _] _].
  cbn [start now] in Hact |- *. rewrite Hact, Ea, Hs, state_text_reads by (done || by left). rewrite E1, E2.
  cbn [sd_State sd_Revision andb]. by rewrite String.eqb_refl, Z.ltb_irrefl, Z.eqb_refl.
Qed.

(** An apply makes progress: when the tools are in place, the directory is
    readable, the revision is newer than the active and the pending one and no
    system call fails, the profile is staged and the restart scheduled. *)
Theorem apply_stages c calls payload d w a b s b' :
  decodeProfileTaskPayload payload = Ok w ->
  executableReady (ac_mode calls) c = true -> calls_ok calls = true ->
  scheduleProfileApply (pc_runner c) (pc_systemdRun c) (pc_installer c) = true ->
  IsAbs (pc_stateDir c) = true -> Clean (pc_stateDir c) = pc_stateDir c -> pc_stateDir c <> "/" ->
  Clean (directory (pc_stateDir c)) <> "/" ->
  readWrapper (d_active d) = (a, b, None) -> (b = true -> wr_Revision a < wr_Revision w) ->
  readState (d_state d) = (s, b', None) -> (b' = true -> sd_Revision s < wr_Revision w) ->
  replaceable (d_candidate d) = true -> replaceable (d_previous d) = true ->
  exists r', apply c calls payload (start d)
             = (Ok (mkOutcome ProfileApplyResultRestartScheduled (wr_Revision w)), r')
    /\ now r' = mkDisk (Regular (wrapper_text w)) (d_active d)
                  (if b then d_active d else d_previous d)
                  (Regular (state_text profileStatePendingRestart w "")).
Proof.
  intros Hw Hready Hcalls Hsched Habs Hclean Hroot Hdir Ha Hna Hs Hns Hcand Hprev.
  unfold calls_ok in Hcalls. breflect. pose proof (payload_wrapper _ _ Hw) as [Hdec Hr].
  unfold apply. rewrite Hw, Hready. cbn [negb start now]. rewrite Ha, Hs.
  assert (b && (wr_Revision w <? wr_Revision a) = false /\ b && (wr_Revision w =? wr_Revision a) = false) as [-> ->].
  { destruct b; [|done]. specialize (Hna eq_refl). split; [apply Z.ltb_ge|apply Z.eqb_neq]; lia. }
  assert (b' && (sd_State s =?s profileStatePendingRestart) && (wr_Revision w <? sd_Revision s) = false
    /\ b' && (sd_State s =?s profileStatePendingRestart) && (wr_Revision w =? sd_Revision s) = false) as [-> ->].
  { destruct b'; [|done]. specialize (Hns eq_refl).
    split; apply andb_false_iff; right; [apply Z.ltb_ge|apply Z.eqb_neq]; lia. }
  unfold stage, ensureDirectory. rewrite (proj2 (String.eqb_neq _ "")) by (by intros E; rewrite E in Habs).
  rewrite Habs, Hclean, String.eqb_refl. cbn [negb orb].
  rewrite dir_ok_private by (done || by rewrite Hclean). cbn [rbind]. rewrite dir_ok_private by done.
  assert (replaceable (d_state d) = true) as Hst by (destruct (d_state d); done).
  unfold writeState, writeWrapper. rewrite (decoded_marshals _ _ Hdec).
  cbn [sd_SchemaVersion]. change (profileSchemaVersion =? 0) with false. cbv iota.
  rewrite (proj2 (Z.ltb_ge maxProfileDocumentBytes _)).
  2:{ assert (valid_state (mkStateDoc profileSchemaVersion profileStatePendingRestart (wr_Revision w) "")) as Hv.
      { split; [done|]. split; [done|by left]. }
      pose proof (state_len _ Hv). lia. }
  destruct b.
  - apply readWrapper_Ok in Ha as (data & Hact & Hdata & _). rewrite (decoded_marshals _ _ Hdata).
    rewrite !write_ok_slot by done. rewrite Hsched. eexists. split; [done|]. simpl. by rewrite Hact.
  - rewrite !write_ok_slot by done. rewrite Hsched. eexists. by split.
Qed.

(** ** Witnesses *)

Definition sample_staged : disk :=
  mkDisk (Regular (wrapper_text sample_wrapper)) Missing Missing
    (Regular (state_text profileStatePendingRestart sample_wrapper "")).

Definition sample_apply_task : Task :=
  mkTask 7 sample_node TaskProfileApply sample_payload TaskStatusRunning ∅ "" sample_later None None.

Lemma payload_decoders_agree_witness :
  profileApplyPayloadRevision (marshal (map_json sample_payload)) = Ok 3
  /\ exists w, decodeProfileTaskPayload sample_payload = Ok w /\ wr_Revision w = 3.
Proof.
  assert (profileApplyPayloadRevision (marshal (map_json sample_payload)) = Ok 3) as H by (vm_compute; reflexivity).
  split; [exact H|]. apply payload_decoders_agree; [|exact H]. apply utf8_mapb_ok. vm_compute. reflexivity.
Defined.

Lemma empty_disk_ok : store_ok empty_disk.
Proof. intros s H. discriminate H. Qed.

Lemma apply_crash_safe_witness :
  exists res r', apply sample_controller good_calls sample_payload (start empty_disk) = (res, r')
  /\ length (states r') = 3%nat
  /\ Forall (fun d' => d_active d' = d_active empty_disk
                    /\ (loadActiveProfile d').1.1 = (loadActiveProfile empty_disk).1.1
                    /\ (d_previous d' = d_previous empty_disk \/ d_previous d' = d_active empty_disk)
                    /\ store_ok d') (states r').
Proof.
  eexists _, _. split; [apply surjective_pairing|]. split; [vm_compute; reflexivity|].
  apply (apply_crash_safe sample_controller good_calls sample_payload empty_disk
    (apply sample_controller good_calls sample_payload (start empty_disk)).1);
    [exact empty_disk_ok|apply surjective_pairing].
Defined.

Lemma apply_never_rolls_back_witness :
  exists res r', apply sample_controller good_calls sample_payload (start empty_disk) = (res, r')
  /\ d_state (now r') <> d_state empty_disk
  /\ Forall (fun d' => d_state d' = d_state empty_disk
    \/ exists s w, readState (d_state d') = (s, true, None)
         /\ decodeProfileTaskPayload sample_payload = Ok w /\ sd_Revision s = wr_Revision w
         /\ readWrapper (d_candidate d') = (w, true, None)
         /\ (forall a, readWrapper (d_active empty_disk) = (a, true, None) -> wr_Revision a < sd_Revision s)
         /\ (forall s0, readState (d_state empty_disk) = (s0, true, None) ->
               sd_State s0 = profileStatePendingRestart -> sd_Revision s0 < sd_Revision s)) (states r').
Proof.
  eexists _, _. split; [apply surjective_pairing|]. split; [vm_compute; discriminate|].
  apply (apply_never_rolls_back sample_controller good_calls sample_payload empty_disk
    (apply sample_controller good_calls sample_payload (start empty_disk)).1). apply surjective_pairing.
Defined.

Lemma apply_report_accepted_witness :
  ValidateProfileApplyTaskResult sample_apply_task
    (execute_profile sample_controller good_calls sample_payload (start empty_disk)).1 = Ok tt.
Proof.
  apply (apply_report_accepted sample_controller good_calls sample_apply_task 3).
  - reflexivity.
  - apply utf8_mapb_ok. vm_compute. reflexivity.
  - vm_compute. reflexivity.
Defined.

Lemma apply_repeat_witness :
  exists o r', apply sample_controller good_calls sample_payload (start empty_disk) = (Ok o, r')
  /\ apply sample_controller good_calls sample_payload (start (now r')) = (Ok o, start (now r')).
Proof.
  eexists _, _. split; [vm_compute; reflexivity|].
  apply (apply_repeat sample_controller good_calls good_calls sample_payload empty_disk); vm_compute; reflexivity.
Defined.

Lemma apply_stages_witness :
  exists r', apply sample_controller good_calls sample_payload (start empty_disk)
             = (Ok (mkOutcome ProfileApplyResultRestartScheduled 3), r')
    /\ now r' = sample_staged.
Proof.
  apply (apply_stages sample_controller good_calls sample_payload empty_disk sample_wrapper
    no_wrapper false no_state false); try (intros; discriminate); vm_compute; try reflexivity; discriminate.
Defined.
