(* ===== verification/GoDuration.v ===== *)
(** * Durations: [time.ParseDuration]

    A sequence of decimal numbers, each with an optional fraction and a unit,
    read into nanoseconds with the overflow tests of the source; the fraction
    goes through [float64]. *)

From stdpp Require Import base strings list.
From Stdlib Require Import ZArith Lia Ascii SpecFloat.
From S2P Require Import Prelude GoStrings GoJson HubTypes GoFloat.
Local Open Scope Z_scope.

(** Leading digits; [None] when the value leaves [0, 2^63]. *)
Fixpoint leadingInt (x : Z) (s : string) : option (Z * string) :=
  match s with
  | String c s' =>
      match digit_of c with
      | Some d =>
          if 2 ^ 63 / 10 <? x then None
          else let x' := x * 10 + d in if 2 ^ 63 <? x' then None else leadingInt x' s'
      | None => Some (x, s)
      end
  | "" => Some (x, "")
  end.

(** Leading digits of a fraction with their scale; digits that do not fit are
    dropped. *)
Fixpoint leadingFraction (overflow : bool) (x : Z) (scale : float64) (s : string)
    : Z * float64 * string :=
  match s with
  | String c s' =>
      match digit_of c with
      | Some d =>
          if overflow then leadingFraction true x scale s'
          else if (2 ^ 63 - 1) / 10 <? x then leadingFraction true x scale s'
          else
            let y := x * 10 + d in
            if 2 ^ 63 <? y then leadingFraction true x scale s'
            else leadingFraction false y (f_mul scale (of_Z 10)) s'
      | None => (x, scale, s)
      end
  | "" => (x, scale, "")
  end.

(** The unit: everything up to the next digit or dot. *)
Fixpoint take_unit (s : string) : string * string :=
  match s with
  | String c s' =>
      if Ascii.eqb c "."%char || bool_decide (is_Some (digit_of c)) then ("", s)
      else let '(u, r) := take_unit s' in (String c u, r)
  | "" => ("", "")
  end.

(** The micro sign U+00B5 and the Greek letter U+03BC are two bytes each. *)
Definition micro_sign : string := String (of_byte 0xC2) (String (of_byte 0xB5) "s").
Definition greek_mu : string := String (of_byte 0xCE) (String (of_byte 0xBC) "s").

Definition unitMap (u : string) : option Z :=
  if u =?s "ns" then Some 1
  else if (u =?s "us") || (u =?s micro_sign) || (u =?s greek_mu) then Some 1000
  else if u =?s "ms" then Some 1000000
  else if u =?s "s" then Some Second
  else if u =?s "m" then Some (60 * Second)
  else if u =?s "h" then Some (3600 * Second)
  else None.

(** [uint64(x)] of a finite, non-negative double below [2^64]. *)
Definition truncate (x : float64) : Z :=
  match x with
  | S754_finite false m e => if 0 <=? e then Zpos m * 2 ^ e else Zpos m / 2 ^ - e
  | _ => 0
  end.

(** One number with its unit: its nanoseconds and the rest of the text. *)
Definition duration_item (s : string) : option (Z * string) :=
  match s with
  | "" => None
  | String c _ =>
      if negb (Ascii.eqb c "."%char || bool_decide (is_Some (digit_of c))) then None
      else
        match leadingInt 0 s with
        | None => None
        | Some (v, s1) =>
            let pre := negb (len s1 =? len s) in
            let '(f, scale, s2, post) :=
              match s1 with
              | String d s' =>
                  if Ascii.eqb d "."%char then
                    let '(f, scale, r) := leadingFraction false 0 (of_Z 1) s' in
                    (f, scale, r, negb (len r =? len s'))
                  else (0, of_Z 1, s1, false)
              | "" => (0, of_Z 1, s1, false)
              end in
            if negb pre && negb post then None
            else
              let '(u, s3) := take_unit s2 in
              if u =?s "" then None
              else
                match unitMap u with
                | None => None
                | Some unit =>
                    if 2 ^ 63 / unit <? v then None
                    else
                      let v1 := v * unit in
                      if 0 <? f then
                        let v2 := v1 + truncate (f_mul (of_Z f) (f_div (of_Z unit) scale)) in
                        if 2 ^ 63 <? v2 then None else Some (v2, s3)
                      else Some (v1, s3)
                end
        end
  end.

(** The loop over the items; every item takes at least one character, so the
    length of the text is enough fuel ([duration_fuel_enough]). *)
Fixpoint duration_items (fuel : nat) (d : Z) (s : string) : option Z :=
  match s with
  | "" => Some d
  | _ =>
      match fuel with
      | O => None
      | S k =>
          match duration_item s with
          | None => None
          | Some (v, rest) =>
              let d' := d + v in
              if 2 ^ 63 <? d' then None else duration_items k d' rest
          end
      end
  end.

Definition ParseDuration (s0 : string) : option duration :=
  let '(neg, s) :=
    match s0 with
    | String c s' =>
        if Ascii.eqb c "-"%char then (true, s')
        else if Ascii.eqb c "+"%char then (false, s') else (false, s0)
    | "" => (false, s0)
    end in
  if s =?s "0" then Some 0
  else if s =?s "" then None
  else
    match duration_items (String.length s) 0 s with
    | None => None
    | Some d =>
        if neg then Some (- d)
        else if max_int64 <? d then None else Some d
    end.

Example duration_samples :
  ParseDuration "30s" = Some (30 * Second) /\ ParseDuration "1h30m" = Some (5400 * Second)
  /\ ParseDuration "1.5s" = Some 1500000000 /\ ParseDuration "-0.25ms" = Some (-250000)
  /\ ParseDuration ".5h" = Some (1800 * Second) /\ ParseDuration "5" = None /\ ParseDuration "" = None
  /\ ParseDuration "1h 2m" = None /\ ParseDuration "3000000h" = None /\ ParseDuration "0" = Some 0.
Proof. vm_compute. split_and!; reflexivity. Qed.

(** ** Termination *)

Lemma leadingInt_rest x s v r : leadingInt x s = Some (v, r) -> (String.length r <= String.length s)%nat.
Proof.
  revert x. induction s as [|c s IH]; intros x H; simpl in H; [by simplify_eq|].
  destruct (digit_of c); [|by simplify_eq/=; lia]. repeat case_match; simplify_eq; apply IH in H; simpl; lia.
Qed.

Lemma leadingFraction_rest o x sc s f sc' r :
  leadingFraction o x sc s = (f, sc', r) -> (String.length r <= String.length s)%nat.
Proof.
  revert o x sc. induction s as [|c s IH]; intros o x sc H; simpl in H; [by simplify_eq|].
  destruct (digit_of c); [|by simplify_eq/=; lia]. repeat case_match; apply IH in H; simpl; lia.
Qed.

Lemma take_unit_rest s u r :
  take_unit s = (u, r) -> String.length s = (String.length u + String.length r)%nat.
Proof.
  revert u r. induction s as [|c s IH]; intros u r H; simpl in H; [by simplify_eq|].
  destruct (_ || _); [by simplify_eq|]. destruct (take_unit s) as [u' r'] eqn:E. simplify_eq/=.
  by rewrite (IH _ _ eq_refl).
Qed.

Lemma duration_item_shorter s v r :
  duration_item s = Some (v, r) -> (String.length r < String.length s)%nat.
Proof.
  destruct s as [|c s0]; [done|]. unfold duration_item. set (s := String c s0).
  destruct (negb _); [done|]. destruct (leadingInt 0 s) as [[v0 s1]|] eqn:E1; [|done].
  apply leadingInt_rest in E1. intros H.
  destruct (match s1 with String _ _ => _ | "" => _ end) as [[[f sc] s2] post] eqn:E2.
  assert (String.length s2 <= String.length s1)%nat as H2.
  { destruct s1 as [|d s1']; [by simplify_eq|]. destruct (Ascii.eqb d "."); [|by simplify_eq].
    destruct (leadingFraction _ _ _ _) as [[f' sc'] r'] eqn:E3. simplify_eq.
    apply leadingFraction_rest in E3. simpl. lia. }
  destruct (_ && _); [done|]. destruct (take_unit s2) as [u s3] eqn:E4. apply take_unit_rest in E4.
  destruct (String.eqb_spec u "") as [|Hu]; [done|]. destruct (unitMap u); [|done].
  destruct u as [|? ?]; [done|]. simpl in E4. repeat case_match; simplify_eq; lia.
Qed.

(** More fuel than the length of the text never changes the answer. *)
Lemma duration_fuel_enough s d k k' :
  (String.length s <= k)%nat -> (String.length s <= k')%nat -> duration_items k d s = duration_items k' d s.
Proof.
  revert k' d s. induction k as [|k IH]; intros k' d s Hk Hk'.
  - destruct s; simpl in *; [by destruct k'|lia].
  - destruct s as [|c s]; [by destruct k'|]. destruct k' as [|k']; [simpl in Hk'; lia|].
    cbn [duration_items]. destruct (duration_item (String c s)) as [[v r]|] eqn:E; [|done].
    apply duration_item_shorter in E. destruct (_ <? _); [done|]. simpl in *. apply IH; lia.
Qed.
