(* ===== verification/AgentConfig.v ===== *)
(** * The agent's configuration: [cmd/hserver-agent/config.go]

    The environment variables an agent is started with, read and checked in the
    order of the source, and the overlay of the active profile.  [net/url] is a
    parameter: which texts [url.Parse] accepts changes between Go releases, and
    nothing here depends on it beyond the fields it returns. *)

From stdpp Require Import base strings gmap list.
From Stdlib Require Import ZArith Lia Ascii.
From S2P Require Import Prelude GoStrings GoJson GoNet GoDuration HubTypes TaskGate Profile.
From S2P Require Import IntegrationStatus AgentStore AgentApply.
Local Open Scope Z_scope.
Local Open Scope hub_scope.

(** ** Constants *)

Definition defaultInterval : duration := 30 * Second.
Definition minInterval : duration := 5 * Second.
Definition maxInterval : duration := 60 * Minute.
Definition maxServices : Z := 128.
Definition maxHostActions : Z := 5.
Definition maxDiskCleanupTargets : Z := 4.
Definition maxLogSources : Z := 7.
Definition maxContainerActions : Z := 3.
Definition maxNginxActions : Z := 2.
Definition maxPHPActions : Z := 3.
Definition maxPM2Actions : Z := 4.
Definition maxFileRoots : Z := 16.
Definition maxTokenBytes : Z := Z.shiftl 64 10.
Definition defaultNginxAvailable : string := "/etc/nginx/sites-available".
Definition defaultNginxEnabled : string := "/etc/nginx/sites-enabled".
Definition defaultCertConfigDir : string := "/etc/letsencrypt".
Definition defaultCertWorkDir : string := "/var/lib/letsencrypt".
Definition defaultCertLogsDir : string := "/var/log/letsencrypt".
Definition defaultCertbotBinary : string := "/usr/bin/certbot".
Definition defaultOpenSSLBinary : string := "/usr/bin/openssl".
Definition defaultCABundle : string := "/etc/ssl/certs/ca-certificates.crt".
Definition defaultMariaDBBinary : string := "/usr/bin/mariadb".
Definition defaultMariaAdmin : string := "/usr/bin/mariadb-admin".
Definition defaultPGClusters : string := "/usr/bin/pg_lsclusters".
Definition defaultPSQLBinary : string := "/usr/bin/psql".
Definition defaultPGIsReady : string := "/usr/bin/pg_isready".
Definition defaultBackupPlans : string := "/etc/hserver/backup-plans.json".
Definition defaultDeployPlans : string := "/etc/hserver/deploy-plans.json".
Definition defaultDeployACMERoot : string := "/var/www/hserver-acme".
Definition defaultAgentStateDir : string := "/var/lib/hserver-agent".
Definition defaultLifecycleTool : string := "/usr/local/libexec/hserver-agent-install".
Definition defaultSystemdRun : string := "/usr/bin/systemd-run".
Definition defaultSystemctl : string := "/usr/bin/systemctl".
Definition defaultPHPConfigRoot : string := "/etc/php".
Definition defaultPHPBinaryRoot : string := "/usr/sbin".
Definition defaultCronStatePath : string := "/etc/hserver/cron-jobs.json".
Definition defaultCronFilePath : string := "/etc/cron.d/hserver-managed".
Definition defaultCronLockPath : string := "/run/lock/hserver-cron.lock".
Definition defaultCrontabBinary : string := "/usr/bin/crontab".
Definition defaultRunuserBinary : string := "/usr/sbin/runuser".
Definition defaultCronShell : string := "/bin/bash".
Definition defaultCronService : string := "cron.service".
Definition defaultIPTablesBinary : string := "/usr/sbin/iptables".
Definition defaultFirewallSave : string := "/usr/sbin/netfilter-persistent".
Definition defaultFirewallLock : string := "/run/lock/hserver-firewall.lock".
Definition defaultFirewallSvc : string := "netfilter-persistent.service".
Definition defaultFirewallState : string := "/etc/iptables".

(** The fields of [url.URL] the agent reads. *)
Record URL : Type := mkURL {
  url_Scheme : string;
  url_Host : string;
  url_User : bool;
  url_RawQuery : string;
  url_Fragment : string;
  url_Path : string
}.

Record config : Type := mkConfig {
  cfg_hubURL : URL;
  cfg_nodeID : string;
  cfg_token : string;
  cfg_interval : duration;
  cfg_observedServices : list string;
  cfg_allowedServices : gset string;
  cfg_allowedHostActions : gset string;
  cfg_allowProcessSignals : bool;
  cfg_allowTerminal : bool;
  cfg_allowedDiskCleanup : gset string;
  cfg_allowedLogSources : gset string;
  cfg_allowContainerRead : bool;
  cfg_allowedContainerActions : gset string;
  cfg_allowedNginxActions : gset string;
  cfg_allowNginxConfigRead : bool;
  cfg_allowNginxConfigWrite : bool;
  cfg_allowDomainRead : bool;
  cfg_allowDomainActions : bool;
  cfg_allowSSLRead : bool;
  cfg_allowSSLActions : bool;
  cfg_certificateConfigDir : string;
  cfg_certificateWorkDir : string;
  cfg_certificateLogsDir : string;
  cfg_certbotBinary : string;
  cfg_openSSLBinary : string;
  cfg_caBundle : string;
  cfg_allowDatabaseRead : bool;
  cfg_allowedDatabaseRestarts : gset string;
  cfg_mariaDBBinary : string;
  cfg_mariaDBAdminBinary : string;
  cfg_pgClustersBinary : string;
  cfg_psqlBinary : string;
  cfg_pgIsReadyBinary : string;
  cfg_allowBackupRead : bool;
  cfg_allowBackupRun : bool;
  cfg_backupPlansPath : string;
  cfg_allowDeployRead : bool;
  cfg_allowDeployActions : bool;
  cfg_allowDeployDomainRead : bool;
  cfg_allowDeployDomainActions : bool;
  cfg_deployPlansPath : string;
  cfg_deployACMEWebroot : string;
  cfg_deployWriteRoots : list string;
  cfg_allowAgentUpdateRead : bool;
  cfg_allowAgentUpdateActions : bool;
  cfg_agentUpdateManifestURL : string;
  cfg_agentUpdatePublicKeys : string;
  cfg_agentStateDir : string;
  cfg_agentLifecycleInstaller : string;
  cfg_systemdRunBinary : string;
  cfg_systemctlBinary : string;
  cfg_fileReadRoots : list string;
  cfg_fileWriteRoots : list string;
  cfg_nginxSitesAvailable : string;
  cfg_nginxSitesEnabled : string;
  cfg_allowedPHPActions : gset string;
  cfg_allowPHPConfigRead : bool;
  cfg_allowPHPConfigWrite : bool;
  cfg_phpConfigRoot : string;
  cfg_phpBinaryRoot : string;
  cfg_allowPM2Read : bool;
  cfg_allowedPM2Actions : gset string;
  cfg_pm2Binary : string;
  cfg_pm2Home : string;
  cfg_pm2User : string;
  cfg_allowCronRead : bool;
  cfg_allowCronWrite : bool;
  cfg_allowCronRun : bool;
  cfg_cronStatePath : string;
  cfg_cronFilePath : string;
  cfg_cronLockPath : string;
  cfg_crontabBinary : string;
  cfg_runuserBinary : string;
  cfg_cronShell : string;
  cfg_cronService : string;
  cfg_allowFirewallRead : bool;
  cfg_allowFirewallWrite : bool;
  cfg_iptablesBinary : string;
  cfg_firewallSaveBinary : string;
  cfg_firewallLockPath : string;
  cfg_firewallService : string;
  cfg_firewallPersistencePath : string;
  cfg_firewallProtectedSources : list string;
  cfg_firewallProtectedPorts : gset Z;
  cfg_profileObservation : AgentProfileObservation
}.

(** ** The overlay of a profile: [profile_store.go] *)

(** The seven fields a profile sets; the others stay. *)
Definition applyProfileOverlay (cfg : config) (profile : AgentProfile) : config := {|
  cfg_hubURL := cfg_hubURL cfg;
  cfg_nodeID := cfg_nodeID cfg;
  cfg_token := cfg_token cfg;
  cfg_interval := cfg_interval cfg;
  cfg_observedServices := cfg_observedServices cfg;
  cfg_allowedServices := cfg_allowedServices cfg;
  cfg_allowedHostActions := cfg_allowedHostActions cfg;
  cfg_allowProcessSignals := cfg_allowProcessSignals cfg;
  cfg_allowTerminal := cfg_allowTerminal cfg;
  cfg_allowedDiskCleanup := cfg_allowedDiskCleanup cfg;
  cfg_allowedLogSources := cfg_allowedLogSources cfg;
  cfg_allowContainerRead := cfg_allowContainerRead cfg;
  cfg_allowedContainerActions := cfg_allowedContainerActions cfg;
  cfg_allowedNginxActions := cfg_allowedNginxActions cfg;
  cfg_allowNginxConfigRead := cfg_allowNginxConfigRead cfg;
  cfg_allowNginxConfigWrite := cfg_allowNginxConfigWrite cfg;
  cfg_allowDomainRead := cfg_allowDomainRead cfg;
  cfg_allowDomainActions := cfg_allowDomainActions cfg;
  cfg_allowSSLRead := cfg_allowSSLRead cfg;
  cfg_allowSSLActions := cfg_allowSSLActions cfg;
  cfg_certificateConfigDir := cfg_certificateConfigDir cfg;
  cfg_certificateWorkDir := cfg_certificateWorkDir cfg;
  cfg_certificateLogsDir := cfg_certificateLogsDir cfg;
  cfg_certbotBinary := cfg_certbotBinary cfg;
  cfg_openSSLBinary := cfg_openSSLBinary cfg;
  cfg_caBundle := cfg_caBundle cfg;
  cfg_allowDatabaseRead := cfg_allowDatabaseRead cfg;
  cfg_allowedDatabaseRestarts := cfg_allowedDatabaseRestarts cfg;
  cfg_mariaDBBinary := cfg_mariaDBBinary cfg;
  cfg_mariaDBAdminBinary := cfg_mariaDBAdminBinary cfg;
  cfg_pgClustersBinary := cfg_pgClustersBinary cfg;
  cfg_psqlBinary := cfg_psqlBinary cfg;
  cfg_pgIsReadyBinary := cfg_pgIsReadyBinary cfg;
  cfg_allowBackupRead := cfg_allowBackupRead cfg;
  cfg_allowBackupRun := cfg_allowBackupRun cfg;
  cfg_backupPlansPath := cfg_backupPlansPath cfg;
  cfg_allowDeployRead := prof_AllowDeployRead profile;
  cfg_allowDeployActions := prof_AllowDeployActions profile;
  cfg_allowDeployDomainRead := prof_AllowDeployDomainRead profile;
  cfg_allowDeployDomainActions := prof_AllowDeployDomainActions profile;
  cfg_deployPlansPath := prof_DeployPlansFile profile;
  cfg_deployACMEWebroot := prof_DeployAcmeWebroot profile;
  cfg_deployWriteRoots := prof_DeployWriteRoots profile;
  cfg_allowAgentUpdateRead := cfg_allowAgentUpdateRead cfg;
  cfg_allowAgentUpdateActions := cfg_allowAgentUpdateActions cfg;
  cfg_agentUpdateManifestURL := cfg_agentUpdateManifestURL cfg;
  cfg_agentUpdatePublicKeys := cfg_agentUpdatePublicKeys cfg;
  cfg_agentStateDir := cfg_agentStateDir cfg;
  cfg_agentLifecycleInstaller := cfg_agentLifecycleInstaller cfg;
  cfg_systemdRunBinary := cfg_systemdRunBinary cfg;
  cfg_systemctlBinary := cfg_systemctlBinary cfg;
  cfg_fileReadRoots := cfg_fileReadRoots cfg;
  cfg_fileWriteRoots := cfg_fileWriteRoots cfg;
  cfg_nginxSitesAvailable := cfg_nginxSitesAvailable cfg;
  cfg_nginxSitesEnabled := cfg_nginxSitesEnabled cfg;
  cfg_allowedPHPActions := cfg_allowedPHPActions cfg;
  cfg_allowPHPConfigRead := cfg_allowPHPConfigRead cfg;
  cfg_allowPHPConfigWrite := cfg_allowPHPConfigWrite cfg;
  cfg_phpConfigRoot := cfg_phpConfigRoot cfg;
  cfg_phpBinaryRoot := cfg_phpBinaryRoot cfg;
  cfg_allowPM2Read := cfg_allowPM2Read cfg;
  cfg_allowedPM2Actions := cfg_allowedPM2Actions cfg;
  cfg_pm2Binary := cfg_pm2Binary cfg;
  cfg_pm2Home := cfg_pm2Home cfg;
  cfg_pm2User := cfg_pm2User cfg;
  cfg_allowCronRead := cfg_allowCronRead cfg;
  cfg_allowCronWrite := cfg_allowCronWrite cfg;
  cfg_allowCronRun := cfg_allowCronRun cfg;
  cfg_cronStatePath := cfg_cronStatePath cfg;
  cfg_cronFilePath := cfg_cronFilePath cfg;
  cfg_cronLockPath := cfg_cronLockPath cfg;
  cfg_crontabBinary := cfg_crontabBinary cfg;
  cfg_runuserBinary := cfg_runuserBinary cfg;
  cfg_cronShell := cfg_cronShell cfg;
  cfg_cronService := cfg_cronService cfg;
  cfg_allowFirewallRead := cfg_allowFirewallRead cfg;
  cfg_allowFirewallWrite := cfg_allowFirewallWrite cfg;
  cfg_iptablesBinary := cfg_iptablesBinary cfg;
  cfg_firewallSaveBinary := cfg_firewallSaveBinary cfg;
  cfg_firewallLockPath := cfg_firewallLockPath cfg;
  cfg_firewallService := cfg_firewallService cfg;
  cfg_firewallPersistencePath := cfg_firewallPersistencePath cfg;
  cfg_firewallProtectedSources := cfg_firewallProtectedSources cfg;
  cfg_firewallProtectedPorts := cfg_firewallProtectedPorts cfg;
  cfg_profileObservation := cfg_profileObservation cfg
|}.

(** ** Values *)

(** A regular expression [^[first][other]{0,n}$] over bytes. *)
Definition class_pattern (first other : ascii -> bool) (n : Z) (value : string) : bool :=
  match value with
  | "" => false
  | String c rest => first c && forallb other (chars rest) && (len rest <=? n)
  end.

Definition alnum (c : ascii) : bool := asciiLetterOrDigit (byte c).

Definition nodeIDPattern : string -> bool :=
  class_pattern alnum (fun c => alnum c || existsb (Ascii.eqb c) (chars "._-")) 127.

Definition servicePattern : string -> bool :=
  class_pattern alnum (fun c => alnum c || existsb (Ascii.eqb c) (chars ":_.@-")) 254.

Definition envValue (lookup : string -> option string) (key : string) : string :=
  TrimSpace (default "" (lookup key)).

Definition validToken (value : string) : bool :=
  if (value =?s "") || (maxTokenBytes <? len value) then false
  else forallb (fun c => (0x21 <=? byte c) && (byte c <=? 0x7e)) (chars value).

(** The parsers return [None] for an error. *)
Definition parseOptionalBool `{LowerTable} (raw : string) : option bool :=
  let v := ToLower (TrimSpace raw) in
  if (v =?s "") || (v =?s "false") then Some false
  else if v =?s "true" then Some true
  else None.

Definition parts_of (raw : string) : list string := split ","%char raw.

(** A comma-separated set whose members are all [valid]. *)
Definition parse_set (limit : Z) (valid : string -> bool) (raw : string) : option (gset string) :=
  if raw =?s "" then Some ∅
  else if limit <? Z.of_nat (length (parts_of raw)) then None
  else
    let items := TrimSpace <$> parts_of raw in
    if forallb valid items then Some (list_to_set items) else None.

Definition one_of (allowed : list string) (value : string) : bool := existsb (String.eqb value) allowed.

Definition host_actions : list string :=
  ["memory-optimize"; "swap-reset"; "temp-clean"; "reboot"; "reboot-cancel"].
Definition parseHostActions : string -> option (gset string) := parse_set maxHostActions (one_of host_actions).

Definition parsePM2Actions : string -> option (gset string) :=
  parse_set maxPM2Actions (one_of ["start"; "stop"; "restart"; "reload"]).
Definition parseDatabaseEngines : string -> option (gset string) :=
  parse_set 2 (one_of ["mariadb"; "postgresql"]).
Definition parsePHPActions : string -> option (gset string) :=
  parse_set maxPHPActions (one_of ["test"; "reload"; "restart"]).
Definition parseNginxActions : string -> option (gset string) :=
  parse_set maxNginxActions (one_of ["test"; "reload"]).
Definition parseContainerActions : string -> option (gset string) :=
  parse_set maxContainerActions (one_of ["start"; "stop"; "restart"]).
Definition validAgentLogSource : string -> bool :=
  one_of ["system"; "nginx"; "php"; "mariadb"; "postgresql"; "pm2"; "docker"].
Definition parseLogSources : string -> option (gset string) := parse_set maxLogSources validAgentLogSource.
Definition parseDiskCleanupTargets : string -> option (gset string) :=
  parse_set maxDiskCleanupTargets (one_of ["apt-cache"; "journal"; "tmp-old"; "rotated-logs"]).

Definition parseAbsoluteDirectory (raw0 fallback : string) : option string :=
  let raw := if raw0 =?s "" then fallback else raw0 in
  if (4096 <? len raw) || negb (IsAbs raw) || negb (Clean raw =?s raw) || (raw =?s "/")
  then None else Some raw.

Definition parseAbsoluteFilePath (raw0 fallback : string) : option string :=
  let raw := if raw0 =?s "" then fallback else raw0 in
  if (4096 <? len raw) || negb (IsAbs raw) || negb (Clean raw =?s raw) || (raw =?s "/")
     || HasSuffix raw "/"
  then None else Some raw.

(** The loop that keeps the first occurrence of every parsed part. *)
Fixpoint collect (parse : string -> option string) (seen : gset string) (parts : list string)
    : option (list string) :=
  match parts with
  | [] => Some []
  | part :: rest =>
      match parse (TrimSpace part) with
      | None => None
      | Some v =>
          if bool_decide (v ∈ seen) then collect parse seen rest
          else cons v <$> collect parse ({[v]} ∪ seen) rest
      end
  end.

Definition parse_list (limit : Z) (parse : string -> option string) (raw : string)
    : option (list string) :=
  if raw =?s "" then Some []
  else if limit <? Z.of_nat (length (parts_of raw)) then None
  else collect parse ∅ (parts_of raw).

Definition parseServices : string -> option (list string) :=
  parse_list maxServices (fun s => if servicePattern s then Some s else None).

Definition parseAbsoluteDirectories : string -> option (list string) :=
  parse_list maxFileRoots (fun s => parseAbsoluteDirectory s "").

Definition pathWithinAnyRoot (candidate : string) (roots : list string) : bool :=
  existsb (fun root => (candidate =?s root) || HasPrefix candidate (root +:+ "/")) roots.

Definition normalizeIPv4Network (raw : string) : option string :=
  match ParseIP raw ≫= fun a => To4 (as16 a) with
  | Some ip4 => Some (ip4_string ip4 +:+ "/32")
  | None =>
      match parse_cidr raw, ParseCIDR_net raw with
      | Some (a, _), Some network =>
          match To4 (as16 a) with
          | Some _ => Some (IPNet_String network)
          | None => None
          end
      | _, _ => None
      end
  end.

Definition parseFirewallSources : string -> option (list string) := parse_list 32 normalizeIPv4Network.

Fixpoint collect_ports (parts : list string) : option (gset Z) :=
  match parts with
  | [] => Some ∅
  | part :: rest =>
      match Atoi (TrimSpace part) with
      | None => None
      | Some port =>
          if (port <? 1) || (65535 <? port) then None
          else (fun ports => {[port]} ∪ ports) <$> collect_ports rest
      end
  end.

Definition parseFirewallPorts (raw : string) : option (gset Z) :=
  if raw =?s "" then Some ∅
  else if 32 <? Z.of_nat (length (parts_of raw)) then None
  else collect_ports (parts_of raw).

(** [for index, char := range raw]: the first rune has index 0. *)
Definition parseSystemUser (raw0 fallback : string) : option string :=
  let raw := if raw0 =?s "" then fallback else raw0 in
  let letter r := ((97 <=? r) && (r <=? 122)) || ((65 <=? r) && (r <=? 90)) || (r =? 95) in
  if 64 <? len raw then None
  else if scan_runes letter (fun r => letter r || ((48 <=? r) && (r <=? 57)) || (r =? 45)) raw
  then Some raw else None.

(** [strings.TrimRight(path, "/")]. *)
Fixpoint drop_slashes (cs : list ascii) : list ascii :=
  match cs with
  | c :: rest => if Ascii.eqb c slash then drop_slashes rest else cs
  | [] => []
  end.

Definition trim_slashes (path : string) : string :=
  String.string_of_list_ascii (reverse (drop_slashes (reverse (chars path)))).

(** ** Loading

    The groups below follow the source from top to bottom; an error names the
    variable it is about. *)

Notation cres := (result string).

Definition need {A} (key : string) (value : option A) : cres A :=
  match value with Some a => Ok a | None => Err key end.

Definition guard (key : string) (holds : bool) : cres unit := if holds then Ok tt else Err key.

Section load.
Context `{LowerTable}.
Context (url_Parse url_ParseRequestURI : string -> option URL).
Context (lookup : string -> option string) (readFile : string -> option string).

Definition env (key : string) : string := envValue lookup key.
Definition env_bool (key : string) : cres bool := need key (parseOptionalBool (env key)).
Definition env_dir (key fallback : string) : cres string := need key (parseAbsoluteDirectory (env key) fallback).
Definition env_file (key fallback : string) : cres string := need key (parseAbsoluteFilePath (env key) fallback).

Record identity : Type := mkIdentity {
  id_hubURL : URL; id_nodeID : string; id_token : string; id_interval : duration
}.

Definition load_identity : cres identity :=
  let rawURL := env "HSERVER_AGENT_HUB_URL" in
  let? _ := guard "HSERVER_AGENT_HUB_URL" (negb (rawURL =?s "")) in
  let? u := need "HSERVER_AGENT_HUB_URL" (url_Parse rawURL) in
  let? _ := guard "HSERVER_AGENT_HUB_URL"
    (((url_Scheme u =?s "http") || (url_Scheme u =?s "https")) && negb (url_Host u =?s "")
     && negb (url_User u) && (url_RawQuery u =?s "") && (url_Fragment u =?s "")) in
  let hub := mkURL (url_Scheme u) (url_Host u) (url_User u) (url_RawQuery u) (url_Fragment u)
               (trim_slashes (url_Path u)) in
  let nodeID := env "HSERVER_AGENT_NODE_ID" in
  let? _ := guard "HSERVER_AGENT_NODE_ID" (nodeIDPattern nodeID) in
  let tokenValue := env "HSERVER_AGENT_TOKEN" in
  let tokenFile := env "HSERVER_AGENT_TOKEN_FILE" in
  let? _ := guard "HSERVER_AGENT_TOKEN" ((tokenValue =?s "") || (tokenFile =?s "")) in
  let? token :=
    if tokenFile =?s "" then Ok tokenValue
    else
      let? data := need "HSERVER_AGENT_TOKEN_FILE" (readFile tokenFile) in
      let? _ := guard "HSERVER_AGENT_TOKEN_FILE" (len data <=? maxTokenBytes) in
      Ok (TrimSpace data) in
  let? _ := guard "HSERVER_AGENT_TOKEN" (validToken token) in
  let rawInterval := env "HSERVER_AGENT_INTERVAL" in
  let? interval :=
    if rawInterval =?s "" then Ok defaultInterval
    else
      let? d := need "HSERVER_AGENT_INTERVAL" (ParseDuration rawInterval) in
      let? _ := guard "HSERVER_AGENT_INTERVAL" ((minInterval <=? d) && (d <=? maxInterval)) in
      Ok d in
  Ok (mkIdentity hub nodeID token interval).

Record allowances : Type := mkAllowances {
  al_observedServices : list string; al_allowedServices : gset string;
  al_hostActions : gset string; al_processSignals : bool; al_terminal : bool;
  al_diskCleanup : gset string; al_logSources : gset string; al_containerRead : bool;
  al_containerActions : gset string; al_nginxActions : gset string
}.

Definition load_allowances : cres allowances :=
  let? observed := need "HSERVER_AGENT_OBSERVED_SERVICES"
                     (parseServices (env "HSERVER_AGENT_OBSERVED_SERVICES")) in
  let? allowed := need "HSERVER_AGENT_ALLOWED_SERVICES"
                    (parseServices (env "HSERVER_AGENT_ALLOWED_SERVICES")) in
  let? hostActions := need "HSERVER_AGENT_ALLOWED_HOST_ACTIONS"
                        (parseHostActions (env "HSERVER_AGENT_ALLOWED_HOST_ACTIONS")) in
  let? signals := env_bool "HSERVER_AGENT_ALLOW_PROCESS_SIGNALS" in
  let? terminal := env_bool "HSERVER_AGENT_ALLOW_TERMINAL" in
  let? cleanup := need "HSERVER_AGENT_ALLOWED_DISK_CLEANUP"
                    (parseDiskCleanupTargets (env "HSERVER_AGENT_ALLOWED_DISK_CLEANUP")) in
  let? sources := need "HSERVER_AGENT_ALLOWED_LOG_SOURCES"
                    (parseLogSources (env "HSERVER_AGENT_ALLOWED_LOG_SOURCES")) in
  let? containerRead := env_bool "HSERVER_AGENT_ALLOW_CONTAINER_READ" in
  let? containerActions := need "HSERVER_AGENT_ALLOWED_CONTAINER_ACTIONS"
                             (parseContainerActions (env "HSERVER_AGENT_ALLOWED_CONTAINER_ACTIONS")) in
  let? nginxActions := need "HSERVER_AGENT_ALLOWED_NGINX_ACTIONS"
                         (parseNginxActions (env "HSERVER_AGENT_ALLOWED_NGINX_ACTIONS")) in
  Ok (mkAllowances observed (list_to_set allowed) hostActions signals terminal cleanup sources
        containerRead containerActions nginxActions).

Record web : Type := mkWeb {
  web_nginxRead : bool; web_nginxWrite : bool; web_available : string; web_enabled : string;
  web_domainRead : bool; web_domainActions : bool; web_sslRead : bool; web_sslActions : bool;
  web_certConfig : string; web_certWork : string; web_certLogs : string;
  web_certbot : string; web_openSSL : string; web_caBundle : string
}.

Definition load_web : cres web :=
  let? nginxRead := env_bool "HSERVER_AGENT_ALLOW_NGINX_CONFIG_READ" in
  let? nginxWrite := env_bool "HSERVER_AGENT_ALLOW_NGINX_CONFIG_WRITE" in
  let? _ := guard "HSERVER_AGENT_ALLOW_NGINX_CONFIG_WRITE" (implb nginxWrite nginxRead) in
  let? available := env_dir "HSERVER_AGENT_NGINX_SITES_AVAILABLE" defaultNginxAvailable in
  let? enabled := env_dir "HSERVER_AGENT_NGINX_SITES_ENABLED" defaultNginxEnabled in
  let? domainRead := env_bool "HSERVER_AGENT_ALLOW_DOMAIN_READ" in
  let? domainActions := env_bool "HSERVER_AGENT_ALLOW_DOMAIN_ACTIONS" in
  let? _ := guard "HSERVER_AGENT_ALLOW_DOMAIN_ACTIONS" (implb domainActions domainRead) in
  let? sslRead := env_bool "HSERVER_AGENT_ALLOW_SSL_READ" in
  let? sslActions := env_bool "HSERVER_AGENT_ALLOW_SSL_ACTIONS" in
  let? _ := guard "HSERVER_AGENT_ALLOW_SSL_ACTIONS" (implb sslActions sslRead) in
  let? certConfig := env_dir "HSERVER_AGENT_CERTBOT_CONFIG_DIR" defaultCertConfigDir in
  let? certWork := env_dir "HSERVER_AGENT_CERTBOT_WORK_DIR" defaultCertWorkDir in
  let? certLogs := env_dir "HSERVER_AGENT_CERTBOT_LOGS_DIR" defaultCertLogsDir in
  let? certbot := env_file "HSERVER_AGENT_CERTBOT_BINARY" defaultCertbotBinary in
  let? openSSL := env_file "HSERVER_AGENT_OPENSSL_BINARY" defaultOpenSSLBinary in
  let? caBundle := env_file "HSERVER_AGENT_CA_BUNDLE" defaultCABundle in
  Ok (mkWeb nginxRead nginxWrite available enabled domainRead domainActions sslRead sslActions
        certConfig certWork certLogs certbot openSSL caBundle).

Record delivery : Type := mkDelivery {
  dl_backupRead : bool; dl_backupRun : bool; dl_backupPlans : string;
  dl_deployRead : bool; dl_deployActions : bool; dl_deployDomainRead : bool;
  dl_deployDomainActions : bool; dl_deployPlans : string; dl_acmeWebroot : string;
  dl_writeRoots : list string
}.

Definition load_delivery : cres delivery :=
  let? backupRead := env_bool "HSERVER_AGENT_ALLOW_BACKUP_READ" in
  let? backupRun := env_bool "HSERVER_AGENT_ALLOW_BACKUP_RUN" in
  let? _ := guard "HSERVER_AGENT_ALLOW_BACKUP_RUN" (implb backupRun backupRead) in
  let? backupPlans := env_file "HSERVER_AGENT_BACKUP_PLANS_FILE" defaultBackupPlans in
  let? deployRead := env_bool "HSERVER_AGENT_ALLOW_DEPLOY_READ" in
  let? deployActions := env_bool "HSERVER_AGENT_ALLOW_DEPLOY_ACTIONS" in
  let? _ := guard "HSERVER_AGENT_ALLOW_DEPLOY_ACTIONS" (implb deployActions deployRead) in
  let? domainRead := env_bool "HSERVER_AGENT_ALLOW_DEPLOY_DOMAIN_READ" in
  let? _ := guard "HSERVER_AGENT_ALLOW_DEPLOY_DOMAIN_READ" (implb domainRead deployRead) in
  let? domainActions := env_bool "HSERVER_AGENT_ALLOW_DEPLOY_DOMAIN_ACTIONS" in
  let? _ := guard "HSERVER_AGENT_ALLOW_DEPLOY_DOMAIN_ACTIONS" (implb domainActions domainRead) in
  let? plans := env_file "HSERVER_AGENT_DEPLOY_PLANS_FILE" defaultDeployPlans in
  let? webroot := env_dir "HSERVER_AGENT_DEPLOY_ACME_WEBROOT" defaultDeployACMERoot in
  let? roots := need "HSERVER_AGENT_DEPLOY_WRITE_ROOTS"
                  (parseAbsoluteDirectories (env "HSERVER_AGENT_DEPLOY_WRITE_ROOTS")) in
  Ok (mkDelivery backupRead backupRun backupPlans deployRead deployActions domainRead domainActions
        plans webroot roots).

Definition validAgentUpdateManifestURL (raw : string) : bool :=
  match url_ParseRequestURI raw with
  | Some u => ((url_Scheme u =?s "http") || (url_Scheme u =?s "https")) && negb (url_Host u =?s "")
              && negb (url_User u)
  | None => false
  end.

Record lifecycle : Type := mkLifecycle {
  lc_updateRead : bool; lc_updateActions : bool; lc_manifestURL : string; lc_publicKeys : string;
  lc_stateDir : string; lc_installer : string; lc_systemdRun : string; lc_systemctl : string;
  lc_readRoots : list string; lc_writeRoots : list string
}.

Definition load_lifecycle : cres lifecycle :=
  let? updateRead := env_bool "HSERVER_AGENT_ALLOW_UPDATE_READ" in
  let? updateActions := env_bool "HSERVER_AGENT_ALLOW_UPDATE_ACTIONS" in
  let? _ := guard "HSERVER_AGENT_ALLOW_UPDATE_ACTIONS" (implb updateActions updateRead) in
  let manifestURL := TrimSpace (env "HSERVER_AGENT_UPDATE_MANIFEST_URL") in
  let? _ := guard "HSERVER_AGENT_UPDATE_MANIFEST_URL"
              ((manifestURL =?s "") || validAgentUpdateManifestURL manifestURL) in
  let publicKeys := TrimSpace (env "HSERVER_AGENT_UPDATE_MANIFEST_PUBLIC_KEYS") in
  let? stateDir := env_dir "HSERVER_AGENT_STATE_DIR" defaultAgentStateDir in
  let? installer := env_file "HSERVER_AGENT_LIFECYCLE_INSTALLER" defaultLifecycleTool in
  let? systemdRun := env_file "HSERVER_AGENT_SYSTEMD_RUN_BINARY" defaultSystemdRun in
  let? systemctl := env_file "HSERVER_AGENT_SYSTEMCTL_BINARY" defaultSystemctl in
  let? readRoots := need "HSERVER_AGENT_FILE_READ_ROOTS"
                      (parseAbsoluteDirectories (env "HSERVER_AGENT_FILE_READ_ROOTS")) in
  let? writeRoots := need "HSERVER_AGENT_FILE_WRITE_ROOTS"
                       (parseAbsoluteDirectories (env "HSERVER_AGENT_FILE_WRITE_ROOTS")) in
  let? _ := guard "HSERVER_AGENT_FILE_WRITE_ROOTS"
              (forallb (fun root => pathWithinAnyRoot root readRoots) writeRoots) in
  Ok (mkLifecycle updateRead updateActions manifestURL publicKeys stateDir installer systemdRun
        systemctl readRoots writeRoots).

Record runtimes : Type := mkRuntimes {
  rt_databaseRead : bool; rt_databaseRestarts : gset string; rt_mariaDB : string;
  rt_mariaAdmin : string; rt_pgClusters : string; rt_psql : string; rt_pgIsReady : string;
  rt_phpActions : gset string; rt_phpRead : bool; rt_phpWrite : bool; rt_phpConfigRoot : string;
  rt_phpBinaryRoot : string
}.

Definition load_runtimes : cres runtimes :=
  let? databaseRead := env_bool "HSERVER_AGENT_ALLOW_DATABASE_READ" in
  let? restarts := need "HSERVER_AGENT_ALLOWED_DATABASE_RESTARTS"
                     (parseDatabaseEngines (env "HSERVER_AGENT_ALLOWED_DATABASE_RESTARTS")) in
  let? _ := guard "HSERVER_AGENT_ALLOWED_DATABASE_RESTARTS"
              (bool_decide (size restarts = 0%nat) || databaseRead) in
  let? mariaDB := env_file "HSERVER_AGENT_MARIADB_BINARY" defaultMariaDBBinary in
  let? mariaAdmin := env_file "HSERVER_AGENT_MARIADB_ADMIN_BINARY" defaultMariaAdmin in
  let? pgClusters := env_file "HSERVER_AGENT_PG_LSCLUSTERS_BINARY" defaultPGClusters in
  let? psql := env_file "HSERVER_AGENT_PSQL_BINARY" defaultPSQLBinary in
  let? pgIsReady := env_file "HSERVER_AGENT_PG_ISREADY_BINARY" defaultPGIsReady in
  let? phpActions := need "HSERVER_AGENT_ALLOWED_PHP_ACTIONS"
                       (parsePHPActions (env "HSERVER_AGENT_ALLOWED_PHP_ACTIONS")) in
  let? phpRead := env_bool "HSERVER_AGENT_ALLOW_PHP_CONFIG_READ" in
  let? phpWrite := env_bool "HSERVER_AGENT_ALLOW_PHP_CONFIG_WRITE" in
  let? _ := guard "HSERVER_AGENT_ALLOW_PHP_CONFIG_WRITE" (implb phpWrite phpRead) in
  let? configRoot := env_dir "HSERVER_AGENT_PHP_CONFIG_ROOT" defaultPHPConfigRoot in
  let? binaryRoot := env_dir "HSERVER_AGENT_PHP_BINARY_ROOT" defaultPHPBinaryRoot in
  Ok (mkRuntimes databaseRead restarts mariaDB mariaAdmin pgClusters psql pgIsReady phpActions
        phpRead phpWrite configRoot binaryRoot).

Record pm2_settings : Type := mkPM2 {
  pm_read : bool; pm_actions : gset string; pm_binary : string; pm_home : string; pm_user : string
}.

Definition load_pm2 : cres pm2_settings :=
  let? pm2Read := env_bool "HSERVER_AGENT_ALLOW_PM2_READ" in
  let? actions := need "HSERVER_AGENT_ALLOWED_PM2_ACTIONS"
                    (parsePM2Actions (env "HSERVER_AGENT_ALLOWED_PM2_ACTIONS")) in
  let? binary :=
    if env "HSERVER_AGENT_PM2_BINARY" =?s "" then Ok "" else env_file "HSERVER_AGENT_PM2_BINARY" "" in
  let? home :=
    if env "HSERVER_AGENT_PM2_HOME" =?s "" then Ok "" else env_dir "HSERVER_AGENT_PM2_HOME" "" in
  let? user :=
    if env "HSERVER_AGENT_PM2_USER" =?s "" then Ok ""
    else
      let? user := need "HSERVER_AGENT_PM2_USER" (parseSystemUser (env "HSERVER_AGENT_PM2_USER") "") in
      let? _ := guard "HSERVER_AGENT_PM2_USER" (negb (user =?s "root")) in
      Ok user in
  let enabled := pm2Read || bool_decide (size actions <> 0%nat) in
  let? _ := guard "HSERVER_AGENT_PM2_BINARY" (implb enabled (negb (binary =?s ""))) in
  let? _ := guard "HSERVER_AGENT_PM2_HOME" (implb enabled (negb (home =?s ""))) in
  let? _ := guard "HSERVER_AGENT_PM2_USER" (implb enabled (negb (user =?s ""))) in
  Ok (mkPM2 pm2Read actions binary home user).

Record cron_settings : Type := mkCron {
  cr_read : bool; cr_write : bool; cr_run : bool; cr_statePath : string; cr_filePath : string;
  cr_lockPath : string; cr_crontab : string; cr_runuser : string; cr_shell : string;
  cr_service : string
}.

Definition load_cron : cres cron_settings :=
  let? cronRead := env_bool "HSERVER_AGENT_ALLOW_CRON_READ" in
  let? cronWrite := env_bool "HSERVER_AGENT_ALLOW_CRON_WRITE" in
  let? cronRun := env_bool "HSERVER_AGENT_ALLOW_CRON_RUN" in
  let? _ := guard "HSERVER_AGENT_ALLOW_CRON_READ" (implb (cronWrite || cronRun) cronRead) in
  let? statePath := env_file "HSERVER_AGENT_CRON_STATE_PATH" defaultCronStatePath in
  let? filePath := env_file "HSERVER_AGENT_CRON_FILE_PATH" defaultCronFilePath in
  let? lockPath := env_file "HSERVER_AGENT_CRON_LOCK_PATH" defaultCronLockPath in
  let? crontab := env_file "HSERVER_AGENT_CRONTAB_BINARY" defaultCrontabBinary in
  let? runuser := env_file "HSERVER_AGENT_RUNUSER_BINARY" defaultRunuserBinary in
  let? shell := env_file "HSERVER_AGENT_CRON_SHELL" defaultCronShell in
  let service0 := env "HSERVER_AGENT_CRON_SERVICE" in
  let service := if service0 =?s "" then defaultCronService else service0 in
  let? _ := guard "HSERVER_AGENT_CRON_SERVICE" (servicePattern service) in
  Ok (mkCron cronRead cronWrite cronRun statePath filePath lockPath crontab runuser shell service).

Record firewall_settings : Type := mkFirewall {
  fw_read : bool; fw_write : bool; fw_iptables : string; fw_save : string; fw_lock : string;
  fw_service : string; fw_persistence : string; fw_sources : list string; fw_ports : gset Z
}.

Definition load_firewall : cres firewall_settings :=
  let? fwRead := env_bool "HSERVER_AGENT_ALLOW_FIREWALL_READ" in
  let? fwWrite := env_bool "HSERVER_AGENT_ALLOW_FIREWALL_WRITE" in
  let? _ := guard "HSERVER_AGENT_ALLOW_FIREWALL_WRITE" (implb fwWrite fwRead) in
  let? iptables := env_file "HSERVER_AGENT_IPTABLES_BINARY" defaultIPTablesBinary in
  let? save := env_file "HSERVER_AGENT_FIREWALL_SAVE_BINARY" defaultFirewallSave in
  let? lock := env_file "HSERVER_AGENT_FIREWALL_LOCK_PATH" defaultFirewallLock in
  let service0 := env "HSERVER_AGENT_FIREWALL_PERSISTENCE_SERVICE" in
  let service := if service0 =?s "" then defaultFirewallSvc else service0 in
  let? _ := guard "HSERVER_AGENT_FIREWALL_PERSISTENCE_SERVICE" (servicePattern service) in
  let? persistence := env_dir "HSERVER_AGENT_FIREWALL_PERSISTENCE_PATH" defaultFirewallState in
  let? sources := need "HSERVER_AGENT_FIREWALL_PROTECTED_SOURCES"
                    (parseFirewallSources (env "HSERVER_AGENT_FIREWALL_PROTECTED_SOURCES")) in
  let? ports := need "HSERVER_AGENT_FIREWALL_PROTECTED_PORTS"
                  (parseFirewallPorts (env "HSERVER_AGENT_FIREWALL_PROTECTED_PORTS")) in
  Ok (mkFirewall fwRead fwWrite iptables save lock service persistence sources ports).

(** The configuration of the environment, before the profile. *)
Definition assemble (id : identity) (al : allowances) (w : web) (dl : delivery) (lc : lifecycle)
    (rt : runtimes) (pm : pm2_settings) (cr : cron_settings) (fw : firewall_settings)
    (observation : AgentProfileObservation) : config := {|
  cfg_hubURL := id_hubURL id;
  cfg_nodeID := id_nodeID id;
  cfg_token := id_token id;
  cfg_interval := id_interval id;
  cfg_observedServices := al_observedServices al;
  cfg_allowedServices := al_allowedServices al;
  cfg_allowedHostActions := al_hostActions al;
  cfg_allowProcessSignals := al_processSignals al;
  cfg_allowTerminal := al_terminal al;
  cfg_allowedDiskCleanup := al_diskCleanup al;
  cfg_allowedLogSources := al_logSources al;
  cfg_allowContainerRead := al_containerRead al;
  cfg_allowedContainerActions := al_containerActions al;
  cfg_allowedNginxActions := al_nginxActions al;
  cfg_allowNginxConfigRead := web_nginxRead w;
  cfg_allowNginxConfigWrite := web_nginxWrite w;
  cfg_allowDomainRead := web_domainRead w;
  cfg_allowDomainActions := web_domainActions w;
  cfg_allowSSLRead := web_sslRead w;
  cfg_allowSSLActions := web_sslActions w;
  cfg_certificateConfigDir := web_certConfig w;
  cfg_certificateWorkDir := web_certWork w;
  cfg_certificateLogsDir := web_certLogs w;
  cfg_certbotBinary := web_certbot w;
  cfg_openSSLBinary := web_openSSL w;
  cfg_caBundle := web_caBundle w;
  cfg_allowDatabaseRead := rt_databaseRead rt;
  cfg_allowedDatabaseRestarts := rt_databaseRestarts rt;
  cfg_mariaDBBinary := rt_mariaDB rt;
  cfg_mariaDBAdminBinary := rt_mariaAdmin rt;
  cfg_pgClustersBinary := rt_pgClusters rt;
  cfg_psqlBinary := rt_psql rt;
  cfg_pgIsReadyBinary := rt_pgIsReady rt;
  cfg_allowBackupRead := dl_backupRead dl;
  cfg_allowBackupRun := dl_backupRun dl;
  cfg_backupPlansPath := dl_backupPlans dl;
  cfg_allowDeployRead := dl_deployRead dl;
  cfg_allowDeployActions := dl_deployActions dl;
  cfg_allowDeployDomainRead := dl_deployDomainRead dl;
  cfg_allowDeployDomainActions := dl_deployDomainActions dl;
  cfg_deployPlansPath := dl_deployPlans dl;
  cfg_deployACMEWebroot := dl_acmeWebroot dl;
  cfg_deployWriteRoots := dl_writeRoots dl;
  cfg_allowAgentUpdateRead := lc_updateRead lc;
  cfg_allowAgentUpdateActions := lc_updateActions lc;
  cfg_agentUpdateManifestURL := lc_manifestURL lc;
  cfg_agentUpdatePublicKeys := lc_publicKeys lc;
  cfg_agentStateDir := lc_stateDir lc;
  cfg_agentLifecycleInstaller := lc_installer lc;
  cfg_systemdRunBinary := lc_systemdRun lc;
  cfg_systemctlBinary := lc_systemctl lc;
  cfg_fileReadRoots := lc_readRoots lc;
  cfg_fileWriteRoots := lc_writeRoots lc;
  cfg_nginxSitesAvailable := web_available w;
  cfg_nginxSitesEnabled := web_enabled w;
  cfg_allowedPHPActions := rt_phpActions rt;
  cfg_allowPHPConfigRead := rt_phpRead rt;
  cfg_allowPHPConfigWrite := rt_phpWrite rt;
  cfg_phpConfigRoot := rt_phpConfigRoot rt;
  cfg_phpBinaryRoot := rt_phpBinaryRoot rt;
  cfg_allowPM2Read := pm_read pm;
  cfg_allowedPM2Actions := pm_actions pm;
  cfg_pm2Binary := pm_binary pm;
  cfg_pm2Home := pm_home pm;
  cfg_pm2User := pm_user pm;
  cfg_allowCronRead := cr_read cr;
  cfg_allowCronWrite := cr_write cr;
  cfg_allowCronRun := cr_run cr;
  cfg_cronStatePath := cr_statePath cr;
  cfg_cronFilePath := cr_filePath cr;
  cfg_cronLockPath := cr_lockPath cr;
  cfg_crontabBinary := cr_crontab cr;
  cfg_runuserBinary := cr_runuser cr;
  cfg_cronShell := cr_shell cr;
  cfg_cronService := cr_service cr;
  cfg_allowFirewallRead := fw_read fw;
  cfg_allowFirewallWrite := fw_write fw;
  cfg_iptablesBinary := fw_iptables fw;
  cfg_firewallSaveBinary := fw_save fw;
  cfg_firewallLockPath := fw_lock fw;
  cfg_firewallService := fw_service fw;
  cfg_firewallPersistencePath := fw_persistence fw;
  cfg_firewallProtectedSources := fw_sources fw;
  cfg_firewallProtectedPorts := fw_ports fw;
  cfg_profileObservation := observation
|}.

(** [disks] is the profile directory below a state directory. *)
Definition loadConfigFromEnv (disks : string -> disk) : cres config :=
  let? id := load_identity in
  let? al := load_allowances in
  let? w := load_web in
  let? dl := load_delivery in
  let? lc := load_lifecycle in
  let? rt := load_runtimes in
  let? pm := load_pm2 in
  let? cr := load_cron in
  let? fw := load_firewall in
  let '(active, observation, profileErr) := loadActiveProfile (disks (lc_stateDir lc)) in
  let cfg := assemble id al w dl lc rt pm cr fw observation in
  Ok (match profileErr with
      | None => if 0 <? wr_Revision active then applyProfileOverlay cfg (wr_Profile active) else cfg
      | Some _ => cfg
      end).
End load.
