(* ===== verification/AgentMain.v ===== *)
(** * The agent's cycle: [cmd/hserver-agent/main.go]

    What an agent advertises and reports of itself, and one round of its loop:
    heartbeat, poll, execution, report. *)

From stdpp Require Import base strings gmap list.
From Stdlib Require Import ZArith Lia.
From S2P Require Import Prelude GoStrings GoJson HubTypes Profile AgentStore AgentApply AgentConfig.
Local Open Scope Z_scope.
Local Open Scope hub_scope.

(** [len(m) > 0] of a set. *)
Definition some_of (s : gset string) : bool := bool_decide (size s <> 0%nat).
Definition some_in {A} (l : list A) : bool := negb (Nat.eqb (length l) 0).

Definition profileApplyReady (mode : string -> option Z) (cfg : config) : bool :=
  regularExecutable mode (cfg_agentLifecycleInstaller cfg)
  && regularExecutable mode (cfg_systemdRunBinary cfg).

(** The capabilities appended one after the other, each under its condition. *)
Definition optional_capabilities (ready : bool) (cfg : config) : list (bool * string) :=
  [(some_in (cfg_observedServices cfg) || some_of (cfg_allowedServices cfg), CapabilityServiceStatus);
   (some_of (cfg_allowedServices cfg), CapabilityServiceAction);
   (some_of (cfg_allowedHostActions cfg), CapabilityHostAction);
   (cfg_allowProcessSignals cfg, CapabilityProcessSignal);
   (cfg_allowTerminal cfg, CapabilityTerminal);
   (some_of (cfg_allowedDiskCleanup cfg), CapabilityDiskCleanup);
   (some_of (cfg_allowedLogSources cfg), CapabilityLogsRead);
   (cfg_allowContainerRead cfg, CapabilityContainerRead);
   (some_of (cfg_allowedContainerActions cfg), CapabilityContainerAction);
   (some_of (cfg_allowedNginxActions cfg), CapabilityNginxAction);
   (cfg_allowNginxConfigRead cfg, CapabilityNginxConfigRead);
   (cfg_allowNginxConfigWrite cfg, CapabilityNginxConfigWrite);
   (cfg_allowPHPConfigRead cfg, CapabilityPHPRead);
   (cfg_allowPHPConfigWrite cfg, CapabilityPHPWrite);
   (some_of (cfg_allowedPHPActions cfg), CapabilityPHPAction);
   (cfg_allowPM2Read cfg, CapabilityPM2Read);
   (some_of (cfg_allowedPM2Actions cfg), CapabilityPM2Action);
   (cfg_allowCronRead cfg, CapabilityCronRead);
   (cfg_allowCronWrite cfg, CapabilityCronWrite);
   (cfg_allowCronRun cfg, CapabilityCronRun);
   (cfg_allowFirewallRead cfg, CapabilityFirewallRead);
   (cfg_allowFirewallWrite cfg, CapabilityFirewallWrite);
   (cfg_allowDomainRead cfg, CapabilityDomainRead);
   (cfg_allowDomainActions cfg, CapabilityDomainAction);
   (cfg_allowSSLRead cfg, CapabilitySSLRead);
   (cfg_allowSSLActions cfg, CapabilitySSLAction);
   (cfg_allowDatabaseRead cfg, CapabilityDatabaseRead);
   (some_of (cfg_allowedDatabaseRestarts cfg), CapabilityDatabaseAction);
   (cfg_allowBackupRead cfg, CapabilityBackupRead);
   (cfg_allowBackupRun cfg, CapabilityBackupRun);
   (some_in (cfg_fileReadRoots cfg), CapabilityFilesRead);
   (some_in (cfg_fileWriteRoots cfg), CapabilityFilesWrite);
   (cfg_allowDeployRead cfg, CapabilityDeployRead);
   (cfg_allowDeployActions cfg, CapabilityDeployAction);
   (cfg_allowDeployDomainRead cfg, CapabilityDeployDomainRead);
   (cfg_allowDeployDomainActions cfg, CapabilityDeployDomainAction);
   (cfg_allowAgentUpdateRead cfg, CapabilityAgentUpdateRead);
   (cfg_allowAgentUpdateActions cfg, CapabilityAgentUpdateAction);
   (ready, CapabilityProfileApply)].

Definition append_enabled (table : list (bool * string)) : list string :=
  foldr (fun (entry : bool * string) rest => if entry.1 then entry.2 :: rest else rest) [] table.

Definition advertisedCapabilities (mode : string -> option Z) (cfg : config) : list string :=
  [CapabilityInventory; CapabilityProcessRead]
  ++ append_enabled (optional_capabilities (profileApplyReady mode cfg) cfg)
  ++ [CapabilityIntegrationStatus; CapabilityMetricsRead].

(** [append([]string(nil), roots...)]: the nil slice when there are none. *)
Definition copy_slice (l : list string) : slice string := match l with [] => None | _ => Some l end.

Definition configuredManagedFileRoots (cfg : config) : slice string * list string :=
  (copy_slice (cfg_fileReadRoots cfg), cfg_fileWriteRoots cfg).

Definition configuredLogSources (allowed : gset string) : list string := sort_strings (elements allowed).

Definition set_inventory_roots (inv : Inventory) (sources : list string) (reads : slice string)
    (writes : list string) : Inventory :=
  mkInventory (inv_OS inv) (inv_Arch inv) (inv_Kernel inv) (inv_BootID inv) (inv_UptimeSeconds inv)
    (inv_Load1 inv) (inv_MemoryTotal inv) (inv_MemoryAvailable inv) (inv_SwapTotal inv)
    (inv_SwapUsed inv) (inv_SwapFree inv) (inv_SwapResetEligible inv) (inv_SwapResetReason inv)
    (inv_DiskTotal inv) (inv_DiskUsed inv) (inv_DiskAvailable inv) (inv_DiskUsePercent inv)
    (inv_DiskMounts inv) (inv_PleskPresent inv) (inv_Services inv) (inv_Processes inv)
    sources reads writes.

Definition attachProfileObservation (request : HeartbeatRequest) (o : AgentProfileObservation)
    : HeartbeatRequest :=
  mkHeartbeat (hb_ProtocolVersion request) (hb_NodeID request) (hb_AgentVersion request)
    (hb_Capabilities request) (hb_Hostname request) (hb_SentAt request) (hb_Inventory request)
    (Some (mkObservation (obs_State o) (obs_Revision o) (obs_ErrorCode o))).

(** The heartbeat of a cycle: [inv0] is what the collector read, [d] the profile
    directory, [sent] the clock. *)
Definition cycle_heartbeat (mode : string -> option Z) (cfg : config) (version hostname : string)
    (inv0 : Inventory) (d : disk) (sent : time) : HeartbeatRequest :=
  let '(reads, writes) := configuredManagedFileRoots cfg in
  let inv := set_inventory_roots inv0 (configuredLogSources (cfg_allowedLogSources cfg)) reads writes in
  let request := mkHeartbeat ProtocolVersion (cfg_nodeID cfg) version
                   (Some (advertisedCapabilities mode cfg)) hostname sent inv None in
  if profileApplyReady mode cfg then attachProfileObservation request (observation d) else request.

(** ** One cycle

    [agentClient] is what the agent asks of the hub; [H] is the state on the
    other side.  An error is [None]. *)

Record agentClient (H : Type) : Type := mkClient {
  client_heartbeat : HeartbeatRequest -> H -> bool * H;
  client_poll : H -> option (option Task) * H;
  client_report : Z -> TaskResultRequest -> H -> bool * H
}.
Arguments client_heartbeat {H} _ _ _.
Arguments client_poll {H} _ _.
Arguments client_report {H} _ _ _ _.

(** How a cycle ended, as the agent logs it. *)
Inductive cycle_end : Type :=
| PollFailed
| NoTask
| ReportFailed (id : Z)
| TaskCompleted (id : Z) (status : string).

Section cycle.
Context {H W : Type} (client : agentClient H).
(** The host: what executing a task does to it. *)
Context (execute : Task -> W -> TaskResultRequest * W).

Definition runCycle (request : HeartbeatRequest) (h : H) (w : W) : cycle_end * H * W :=
  let '(_, h1) := client_heartbeat client request h in
  match client_poll client h1 with
  | (None, h2) => (PollFailed, h2, w)
  | (Some None, h2) => (NoTask, h2, w)
  | (Some (Some task), h2) =>
      let '(result, w1) := execute task w in
      match client_report client (task_ID task) result h2 with
      | (false, h3) => (ReportFailed (task_ID task), h3, w1)
      | (true, h3) => (TaskCompleted (task_ID task) (tres_Status result), h3, w1)
      end
  end.
End cycle.
