(* ===== verification/AgentConfigClaims.v ===== *)
(** * The agent's configuration: theorems

    The identifiers the agent accepts are those the hub accepts; a loaded
    configuration satisfies the dependencies between its permissions and names
    clean paths only; a broken profile never keeps the agent from starting; what
    the agent advertises passes the hub's heartbeat validation. *)

From stdpp Require Import base strings gmap list.
From Stdlib Require Import ZArith Lia Ascii.
From S2P Require Import Prelude GoStrings GoJson GoNet GoDuration HubTypes TaskGate.
From S2P Require Import Profile IntegrationStatus Heartbeat HostClaims AgentStore AgentApply AgentStoreFacts.
From S2P Require Import AgentConfig AgentMain AgentApplyClaims.
Local Open Scope Z_scope.
Local Open Scope hub_scope.

(** ** Scanning *)

Lemma decode_rune_high c s r w :
  decode_rune c s = Some (r, w) -> 0x80 <= byte c -> 0x80 <= r.
Proof.
  unfold decode_rune, cont, in_range. intros H Hc. rewrite (proj2 (Z.ltb_ge _ _)) in H by done.
  repeat case_match; breflect; simplify_eq; lia.
Qed.

(** A test that no rune above ASCII passes is a test of the bytes. *)
Lemma forallb_runes (P : Z -> bool) s :
  (forall r, 0x80 <= r -> P r = false) -> forallb P (runes s) = forallb (fun c => P (byte c)) (chars s).
Proof.
  intros HP. unfold runes. induction s as [|c s IH]; [done|]. simpl.
  destruct (Z.lt_ge_cases (byte c) 0x80) as [Hc|Hc].
  - unfold decode_rune. rewrite (proj2 (Z.ltb_lt _ _)) by done. simpl. by rewrite IH.
  - rewrite (HP (byte c)) by done. destruct (decode_rune c s) as [[r w]|] eqn:E; simpl.
    + by rewrite (HP r) by by eapply decode_rune_high.
    + by rewrite (HP RuneError).
Qed.

Lemma scan_runes_pattern (first other : Z -> bool) (P Q : ascii -> bool) n s :
  (forall r, 0x80 <= r -> first r = false) -> (forall r, 0x80 <= r -> other r = false) ->
  (forall c, first (byte c) = P c) -> (forall c, other (byte c) = Q c) -> s <> "" ->
  class_pattern P Q n s = scan_runes first other s && (len s <=? n + 1).
Proof.
  intros Hf Ho HP HQ Hs. destruct s as [|c s]; [done|]. unfold class_pattern, scan_runes, runes. simpl.
  rewrite <-HP, len_cons. replace (1 + len s <=? n + 1) with (len s <=? n) by (destruct (Z.leb_spec (len s) n),
    (Z.leb_spec (1 + len s) (n + 1)); lia || done).
  destruct (Z.lt_ge_cases (byte c) 0x80) as [Hc|Hc].
  - unfold decode_rune. rewrite (proj2 (Z.ltb_lt _ _)) by done. simpl. f_equal. f_equal.
    change (runes_from 0 s) with (runes s). rewrite forallb_runes by done.
    clear -HQ. induction (chars s) as [|x l IH]; [done|]. simpl. by rewrite HQ, IH.
  - rewrite (Hf (byte c)) by done. destruct (decode_rune c s) as [[r w]|] eqn:E; simpl.
    + by rewrite (Hf r) by by eapply decode_rune_high.
    + by rewrite (Hf RuneError).
Qed.

(** Text without white space at either end is its own trimming. *)
Lemma trim_left_id c s : byte c < 0x80 -> IsSpace (byte c) = false -> trim_left_from 0 (String c s) = String c s.
Proof. intros Hc Hs. simpl. unfold decode_rune. by rewrite (proj2 (Z.ltb_lt _ _)), Hs by done. Qed.

Lemma trim_plain s :
  Forall (fun c => byte c < 0x80 /\ IsSpace (byte c) = false) (chars s) -> TrimSpace s = s.
Proof.
  intros Hs. unfold TrimSpace. destruct s as [|c s]; [done|].
  pose proof Hs as [[Hc Hsp] _]%Forall_cons. rewrite trim_left_id by done.
  assert (forall l, Forall (fun c => byte c < 0x80 /\ IsSpace (byte c) = false) l -> trim_right_from 0 l = l) as Hr.
  { intros [|x l] Hl; [done|]. apply Forall_cons in Hl as [[Hx1 Hx2] _]. simpl. unfold decode_last.
    by rewrite (proj2 (Z.ltb_lt _ _)), Hx2 by done. }
  rewrite Hr by by apply Forall_reverse. rewrite reverse_involutive. apply string_chars.
Qed.

(** A pattern whose characters are plain is its length test, trimming and scan. *)
Lemma pattern_agrees (first other : Z -> bool) (P Q : ascii -> bool) n limit s :
  (forall r, 0x80 <= r -> first r = false) -> (forall r, 0x80 <= r -> other r = false) ->
  (forall c, first (byte c) = P c) -> (forall c, other (byte c) = Q c) ->
  (forall c, P c = true -> IsSpace (byte c) = false) -> (forall c, Q c = true -> IsSpace (byte c) = false) ->
  limit = n + 1 ->
  (if (s =?s "") || (limit <? len s) || negb (TrimSpace s =?s s) then false else scan_runes first other s)
  = class_pattern P Q n s.
Proof.
  intros Hf Ho HP HQ HPs HQs ->. destruct (String.eqb_spec s "") as [->|Hs]; [done|]. cbn [orb].
  rewrite (scan_runes_pattern first other P Q n s) by done.
  destruct (Z.ltb_spec (n + 1) (len s)) as [Hl|Hl]; cbn [orb].
  { rewrite (proj2 (Z.leb_gt _ _)) by done. by rewrite andb_false_r. }
  rewrite (proj2 (Z.leb_le _ _)), andb_true_r by done.
  destruct (String.eqb_spec (TrimSpace s) s) as [|Ht]; [done|]. cbn [negb]. symmetry.
  apply not_true_iff_false. intros Hscan. apply Ht, trim_plain.
  pose proof (scan_runes_pattern first other P Q n s Hf Ho HP HQ Hs) as Hc.
  rewrite Hscan, (proj2 (Z.leb_le _ _)) in Hc by done. destruct s as [|c s]; [done|]. simpl in Hc. breflect.
  assert (forall x, 0x80 <= byte x -> P x = false /\ Q x = false) as Hhigh.
  { intros x Hx. rewrite <-HP, <-HQ. auto. }
  assert (forall x, P x = true \/ Q x = true -> byte x < 0x80 /\ IsSpace (byte x) = false) as Hplain.
  { intros x Hx. split; [|destruct Hx; auto]. destruct (Z.lt_ge_cases (byte x) 0x80) as [|Hx']; [done|].
    destruct (Hhigh x Hx'), Hx; congruence. }
  constructor; [apply Hplain; by left|]. apply forallb_Forall in H1.
  eapply Forall_impl; [exact H1|]. intros x Hx. apply Hplain. by right.
Qed.

Lemma alnum_ascii r : 0x80 <= r -> asciiLetterOrDigit r = false.
Proof.
  intros Hr. unfold asciiLetterOrDigit. rewrite !orb_false_iff, !andb_false_iff, !Z.leb_gt. lia.
Qed.

Lemma ContainsRune_ascii lit r :
  forallb (fun c => byte c <? 0x80) (chars lit) = true -> 0x80 <= r -> ContainsRune lit r = false.
Proof.
  intros Hl Hr. unfold ContainsRune. apply existsb_false. apply forallb_Forall in Hl.
  eapply Forall_impl; [exact Hl|]. simpl. intros c Hc%Z.ltb_lt. apply Z.eqb_neq. lia.
Qed.

(** A statement about every byte, by evaluation. *)
Ltac each_byte := intros [[] [] [] [] [] [] [] []]; vm_compute; (reflexivity || discriminate || done).

(** ** Facts of the loading groups *)

Definition clean_absolute (p : string) : bool :=
  IsAbs p && (Clean p =?s p) && negb (p =?s "/") && (len p <=? 4096).

Lemma absolute_clean raw fallback p : parseAbsoluteDirectory raw fallback = Some p -> clean_absolute p = true.
Proof.
  unfold parseAbsoluteDirectory, clean_absolute. intros Hp. repeat case_match; simplify_eq; breflect;
    (repeat (apply andb_true_iff; split); [done|by apply String.eqb_eq|by apply negb_true_iff, String.eqb_neq|by apply Z.leb_le]).
Qed.

Lemma file_clean raw fallback p : parseAbsoluteFilePath raw fallback = Some p -> clean_absolute p = true.
Proof.
  intros Hp. apply (absolute_clean raw fallback). unfold parseAbsoluteFilePath, parseAbsoluteDirectory in *.
  lazymatch type of Hp with (if ?b || HasSuffix _ _ then _ else _) = _ => destruct b end; [done|].
  cbn [orb] in Hp. by destruct (HasSuffix _ _).
Qed.

Lemma need_Ok {A} key (o : option A) a : need key o = Ok a -> o = Some a.
Proof. destruct o; simpl; congruence. Qed.

Lemma guard_Ok key b u : guard key b = Ok u -> b = true.
Proof. by destruct b. Qed.

Lemma collect_spec parse seen parts out :
  collect parse seen parts = Some out ->
  NoDup out /\ Forall (fun v => v ∉ seen /\ exists part, parse part = Some v) out.
Proof.
  revert seen out. induction parts as [|part parts IH]; intros seen out Ho; simpl in Ho; [by simplify_eq; repeat constructor|].
  destruct (parse (TrimSpace part)) as [v|] eqn:Ep; [|done]. case_bool_decide as Hs; [by apply IH|].
  destruct (collect parse _ parts) as [l|] eqn:Ec; [|done]. simplify_eq/=.
  apply IH in Ec as [Hnd Hf]. rewrite Forall_forall in Hf. split.
  - constructor; [|done]. intros Hin. apply Hf in Hin as [Hin _]. set_solver.
  - constructor; [eauto|]. apply Forall_forall. intros x Hx. apply Hf in Hx as [? ?]. set_solver.
Qed.

Lemma parse_list_spec limit parse raw out :
  parse_list limit parse raw = Some out ->
  NoDup out /\ Forall (fun v => exists part, parse part = Some v) out.
Proof.
  unfold parse_list. repeat case_match; intros Hp; simplify_eq; [by repeat constructor|].
  apply collect_spec in Hp as [Hnd Hf]. split; [done|]. eapply Forall_impl; [exact Hf|]. by intros v [_ Hv].
Qed.

Lemma collect_length parse seen parts out :
  collect parse seen parts = Some out -> (length out <= length parts)%nat.
Proof.
  revert seen out. induction parts as [|part parts IH]; intros seen out Ho; simpl in Ho; [by simplify_eq|].
  destruct (parse (TrimSpace part)) as [v|]; [|done]. case_bool_decide; [apply IH in Ho; simpl; lia|].
  destruct (collect parse _ parts) as [l|] eqn:Ec; [|done]. simplify_eq/=. apply IH in Ec. lia.
Qed.

Lemma parse_list_length limit parse raw out :
  0 <= limit -> parse_list limit parse raw = Some out -> Z.of_nat (length out) <= limit.
Proof.
  intros Hl. unfold parse_list. repeat case_match; intros Hp; simplify_eq; [done|].
  apply collect_length in Hp. breflect. lia.
Qed.

Lemma directories_clean raw out :
  parseAbsoluteDirectories raw = Some out ->
  NoDup out /\ Forall (fun r => clean_absolute r = true) out /\ Z.of_nat (length out) <= 16.
Proof.
  intros Hp. pose proof (parse_list_length maxFileRoots _ _ _ ltac:(done) Hp).
  apply parse_list_spec in Hp as [Hnd Hf]. split; [done|]. split; [|done].
  eapply Forall_impl; [exact Hf|]. intros v [part Hv]. by eapply absolute_clean.
Qed.

Lemma parse_set_valid limit valid raw out :
  parse_set limit valid raw = Some out -> forall x, x ∈ out -> valid x = true.
Proof.
  unfold parse_set. repeat case_match; intros Hp x Hx; simplify_eq; [set_solver|].
  apply elem_of_list_to_set in Hx. by eapply forallb_forall, list_elem_of_In.
Qed.

Section facts.
Context `{LowerTable} (parse_url parse_request : string -> option URL).
Context (lookup : string -> option string) (readFile : string -> option string).

Lemma env_dir_Ok key fallback p : env_dir lookup key fallback = Ok p -> clean_absolute p = true.
Proof. intros Hp%need_Ok. by eapply absolute_clean. Qed.

Lemma env_file_Ok key fallback p : env_file lookup key fallback = Ok p -> clean_absolute p = true.
Proof. intros Hp%need_Ok. by eapply file_clean. Qed.
End facts.

(** Take a group apart: the guards and what its values satisfy. *)
Ltac load_inv H :=
  repeat lazymatch type of H with
  | rbind _ _ = Ok _ =>
      let v := fresh "v" in let Hr := fresh "Hr" in
      apply rbind_Ok in H as (v & Hr & H);
      lazymatch type of Hr with
      | guard _ _ = _ => apply guard_Ok in Hr
      | env_dir _ _ _ = _ => apply env_dir_Ok in Hr
      | env_file _ _ _ = _ => apply env_file_Ok in Hr
      | env_bool _ _ = _ => clear Hr
      | need _ _ = _ => apply need_Ok in Hr
      | _ => idtac
      end
  end; try (injection H as <-).

(** The names of an allow list are among those. *)
Definition knows (entry : gset string * list string) : Prop := forall x, x ∈ entry.1 -> x ∈ entry.2.

Definition empty_or_clean (p : string) : Prop := p = "" \/ clean_absolute p = true.

Definition all_clean (l : list string) : Prop := Forall (fun p => clean_absolute p = true) l.
Ltac split_foralls :=
  repeat match goal with
  | H : Forall _ (_ :: _) |- _ => apply Forall_cons in H as [? ?]
  | H : Forall _ (_ ++ _) |- _ => apply Forall_app in H as [? ?]
  | H : Forall _ [] |- _ => clear H
  end.
Ltac cleans_app :=
  repeat (apply Forall_cons_2; [assumption|]); first [assumption|apply Forall_nil_2|apply Forall_app_2; assumption].
Ltac cleans := repeat (apply Forall_cons_2; [assumption|]); apply Forall_nil_2.

Section groups.
Context `{LowerTable} (parse_url parse_request : string -> option URL).
Context (lookup : string -> option string) (readFile : string -> option string).

Lemma load_identity_ok id :
  load_identity parse_url lookup readFile = Ok id ->
  nodeIDPattern (id_nodeID id) = true /\ validToken (id_token id) = true
  /\ minInterval <= id_interval id <= maxInterval.
Proof.
  unfold load_identity. intros Hl. load_inv Hl. cbn [id_nodeID id_token id_interval].
  split; [done|]. split; [done|]. destruct (_ =?s "") in Hr6.
  - injection Hr6 as <-. by vm_compute.
  - load_inv Hr6. breflect. by split.
Qed.

Lemma parse_set_knows limit names raw out : parse_set limit (one_of names) raw = Some out -> knows (out, names).
Proof. intros Hp x Hx. by apply existsb_eqb_elem, (parse_set_valid _ _ _ _ Hp). Qed.

Lemma load_allowances_ok al :
  load_allowances lookup = Ok al ->
  (forall x, x ∈ al_logSources al -> validLogSource x = true)
  /\ Forall knows
       [(al_hostActions al, host_actions); (al_diskCleanup al, ["apt-cache"; "journal"; "tmp-old"; "rotated-logs"]);
        (al_containerActions al, ["start"; "stop"; "restart"]); (al_nginxActions al, ["test"; "reload"])].
Proof.
  unfold load_allowances. intros Hl. load_inv Hl. cbn.
  split; [match goal with H : parseLogSources _ = Some _ |- _ => exact (parse_set_valid _ _ _ _ H) end|].
  repeat (apply Forall_cons_2; [by eapply parse_set_knows|]). apply Forall_nil_2.
Qed.

Lemma load_web_ok w :
  load_web lookup = Ok w ->
  implb (web_nginxWrite w) (web_nginxRead w) && implb (web_domainActions w) (web_domainRead w)
  && implb (web_sslActions w) (web_sslRead w) = true
  /\ all_clean [web_available w; web_enabled w; web_certConfig w; web_certWork w; web_certLogs w;
                web_certbot w; web_openSSL w; web_caBundle w].
Proof.
  unfold load_web. intros Hl. load_inv Hl. cbn. split; [|cleans].
  by repeat (apply andb_true_iff; split).
Qed.

Lemma load_delivery_ok d :
  load_delivery lookup = Ok d ->
  implb (dl_backupRun d) (dl_backupRead d) && implb (dl_deployActions d) (dl_deployRead d)
  && implb (dl_deployDomainRead d) (dl_deployRead d)
  && implb (dl_deployDomainActions d) (dl_deployDomainRead d) = true
  /\ all_clean ([dl_backupPlans d; dl_deployPlans d; dl_acmeWebroot d] ++ dl_writeRoots d).
Proof.
  unfold load_delivery. intros Hl. load_inv Hl. cbn [dl_backupRun dl_backupRead dl_deployActions dl_deployRead
    dl_deployDomainRead dl_deployDomainActions dl_backupPlans dl_deployPlans dl_acmeWebroot dl_writeRoots].
  split; [by repeat (apply andb_true_iff; split)|]. apply Forall_app. split; [cleans|].
  match goal with H : parseAbsoluteDirectories _ = Some _ |- _ => by apply directories_clean in H as (_ & ? & _) end.
Qed.

Lemma load_lifecycle_ok lc :
  load_lifecycle parse_request lookup = Ok lc ->
  implb (lc_updateActions lc) (lc_updateRead lc) = true
  /\ all_clean ([lc_stateDir lc; lc_installer lc; lc_systemdRun lc; lc_systemctl lc]
                 ++ lc_readRoots lc ++ lc_writeRoots lc)
  /\ NoDup (lc_readRoots lc) /\ NoDup (lc_writeRoots lc)
  /\ Z.of_nat (length (lc_readRoots lc)) <= 16 /\ Z.of_nat (length (lc_writeRoots lc)) <= 16
  /\ Forall (fun r => pathWithinAnyRoot r (lc_readRoots lc) = true) (lc_writeRoots lc).
Proof.
  unfold load_lifecycle. intros Hl. load_inv Hl. cbn [lc_updateActions lc_updateRead lc_stateDir lc_installer
    lc_systemdRun lc_systemctl lc_readRoots lc_writeRoots].
  repeat match goal with H : parseAbsoluteDirectories _ = Some _ |- _ =>
    apply directories_clean in H as (? & ? & ?) end.
  split; [done|]. split; [repeat apply Forall_app_2; [cleans|done..]|]. repeat (split; [done|]).
  by apply forallb_Forall.
Qed.

Lemma load_runtimes_ok rt :
  load_runtimes lookup = Ok rt ->
  implb (rt_phpWrite rt) (rt_phpRead rt) && implb (some_of (rt_databaseRestarts rt)) (rt_databaseRead rt) = true
  /\ all_clean [rt_mariaDB rt; rt_mariaAdmin rt; rt_pgClusters rt; rt_psql rt; rt_pgIsReady rt;
                rt_phpConfigRoot rt; rt_phpBinaryRoot rt]
  /\ Forall knows [(rt_databaseRestarts rt, ["mariadb"; "postgresql"]); (rt_phpActions rt, ["test"; "reload"; "restart"])].
Proof.
  unfold load_runtimes. intros Hl. load_inv Hl. cbn. split; [|split; [cleans|]].
  2: { repeat (apply Forall_cons_2; [by eapply parse_set_knows|]). apply Forall_nil_2. }
  apply andb_true_iff. split; [done|]. unfold some_of. rewrite bool_decide_not.
  match goal with H : bool_decide _ || _ = true |- _ => revert H end.
  by destruct (bool_decide _), (v : bool).
Qed.

Lemma load_pm2_ok pm :
  load_pm2 lookup = Ok pm ->
  pm_user pm <> "root" /\ empty_or_clean (pm_binary pm) /\ empty_or_clean (pm_home pm)
  /\ (pm_read pm || some_of (pm_actions pm) = true ->
      clean_absolute (pm_binary pm) = true /\ clean_absolute (pm_home pm) = true /\ pm_user pm <> "")
  /\ knows (pm_actions pm, ["start"; "stop"; "restart"; "reload"]).
Proof.
  unfold load_pm2. intros Hl. load_inv Hl. cbn [pm_user pm_read pm_actions pm_binary pm_home]. fold (some_of v0) in *.
  split; [|split; [|split; [|split; [|by eapply parse_set_knows]]]].
  - destruct (_ =?s "") in Hr2; [by injection Hr2 as <-|]. load_inv Hr2. by breflect.
  - destruct (_ =?s "") in Hr0; [injection Hr0 as <-; by left|]. apply env_file_Ok in Hr0. by right.
  - destruct (_ =?s "") in Hr1; [injection Hr1 as <-; by left|]. apply env_dir_Ok in Hr1. by right.
  - intros E. rewrite E in *. cbn [implb] in *. breflect. split; [|split; [|done]].
    + destruct (_ =?s "") in Hr0; [by injection Hr0 as <-|]. by apply env_file_Ok in Hr0.
    + destruct (_ =?s "") in Hr1; [by injection Hr1 as <-|]. by apply env_dir_Ok in Hr1.
Qed.

Lemma load_cron_ok cr :
  load_cron lookup = Ok cr ->
  implb (cr_write cr || cr_run cr) (cr_read cr) = true /\ servicePattern (cr_service cr) = true
  /\ all_clean [cr_statePath cr; cr_filePath cr; cr_lockPath cr; cr_crontab cr; cr_runuser cr; cr_shell cr].
Proof. unfold load_cron. intros Hl. load_inv Hl. cbn. split; [done|]. split; [done|cleans]. Qed.

Lemma load_firewall_ok fw :
  load_firewall lookup = Ok fw ->
  implb (fw_write fw) (fw_read fw) = true /\ servicePattern (fw_service fw) = true
  /\ all_clean [fw_iptables fw; fw_save fw; fw_lock fw; fw_persistence fw].
Proof. unfold load_firewall. intros Hl. load_inv Hl. cbn. split; [done|]. split; [done|cleans]. Qed.
End groups.

Lemma identifier_patterns v :
  nodeIDPattern v = validNodeID v /\ servicePattern v = validUnitName v.
Proof.
  split; symmetry; apply pattern_agrees; try done; try each_byte; try apply alnum_ascii.
  - intros r Hr. rewrite alnum_ascii by done. rewrite !(proj2 (Z.eqb_neq _ _)) by lia. done.
  - intros r Hr. by rewrite alnum_ascii, ContainsRune_ascii.
Qed.

(** ** Claims *)


(** ** Sound configurations *)

(** The permissions that need another one.  Container, PM2, Nginx and PHP-FPM
    actions need none: their lists are checked by themselves. *)
Definition required_reads (cfg : config) : bool :=
  implb (cfg_allowNginxConfigWrite cfg) (cfg_allowNginxConfigRead cfg)
  && implb (cfg_allowDomainActions cfg) (cfg_allowDomainRead cfg)
  && implb (cfg_allowSSLActions cfg) (cfg_allowSSLRead cfg)
  && implb (cfg_allowBackupRun cfg) (cfg_allowBackupRead cfg)
  && implb (cfg_allowDeployActions cfg) (cfg_allowDeployRead cfg)
  && implb (cfg_allowDeployDomainRead cfg) (cfg_allowDeployRead cfg)
  && implb (cfg_allowDeployDomainActions cfg) (cfg_allowDeployDomainRead cfg)
  && implb (cfg_allowAgentUpdateActions cfg) (cfg_allowAgentUpdateRead cfg)
  && implb (some_of (cfg_allowedDatabaseRestarts cfg)) (cfg_allowDatabaseRead cfg)
  && implb (cfg_allowPHPConfigWrite cfg) (cfg_allowPHPConfigRead cfg)
  && implb (cfg_allowCronWrite cfg || cfg_allowCronRun cfg) (cfg_allowCronRead cfg)
  && implb (cfg_allowFirewallWrite cfg) (cfg_allowFirewallRead cfg).

(** Every path of the configuration that a profile cannot set. *)
Definition local_paths (cfg : config) : list string :=
  [cfg_nginxSitesAvailable cfg; cfg_nginxSitesEnabled cfg; cfg_certificateConfigDir cfg;
   cfg_certificateWorkDir cfg; cfg_certificateLogsDir cfg; cfg_certbotBinary cfg; cfg_openSSLBinary cfg;
   cfg_caBundle cfg; cfg_backupPlansPath cfg; cfg_agentStateDir cfg; cfg_agentLifecycleInstaller cfg;
   cfg_systemdRunBinary cfg; cfg_systemctlBinary cfg; cfg_mariaDBBinary cfg; cfg_mariaDBAdminBinary cfg;
   cfg_pgClustersBinary cfg; cfg_psqlBinary cfg; cfg_pgIsReadyBinary cfg; cfg_phpConfigRoot cfg;
   cfg_phpBinaryRoot cfg; cfg_cronStatePath cfg; cfg_cronFilePath cfg; cfg_cronLockPath cfg;
   cfg_crontabBinary cfg; cfg_runuserBinary cfg; cfg_cronShell cfg; cfg_iptablesBinary cfg;
   cfg_firewallSaveBinary cfg; cfg_firewallLockPath cfg; cfg_firewallPersistencePath cfg]
  ++ cfg_fileReadRoots cfg ++ cfg_fileWriteRoots cfg.

(** The allow lists, each with the names it may hold. *)
Definition allow_lists (cfg : config) : list (gset string * list string) :=
  [(cfg_allowedHostActions cfg, host_actions);
   (cfg_allowedDiskCleanup cfg, ["apt-cache"; "journal"; "tmp-old"; "rotated-logs"]);
   (cfg_allowedContainerActions cfg, ["start"; "stop"; "restart"]);
   (cfg_allowedNginxActions cfg, ["test"; "reload"]);
   (cfg_allowedPHPActions cfg, ["test"; "reload"; "restart"]);
   (cfg_allowedPM2Actions cfg, ["start"; "stop"; "restart"; "reload"]);
   (cfg_allowedDatabaseRestarts cfg, ["mariadb"; "postgresql"])].


Record sound_config (cfg : config) : Prop := {
  sound_identity : validNodeID (cfg_nodeID cfg) = true /\ validToken (cfg_token cfg) = true
                   /\ minInterval <= cfg_interval cfg <= maxInterval;
  sound_permissions : required_reads cfg = true;
  sound_actions : Forall knows (allow_lists cfg);
  sound_paths : all_clean (local_paths cfg);
  sound_deploy : all_clean (cfg_deployWriteRoots cfg)
                 /\ empty_or_clean (cfg_deployPlansPath cfg) /\ empty_or_clean (cfg_deployACMEWebroot cfg);
  sound_roots : Forall (fun r => pathWithinAnyRoot r (cfg_fileReadRoots cfg) = true) (cfg_fileWriteRoots cfg);
  sound_logs : forall x, x ∈ cfg_allowedLogSources cfg -> validLogSource x = true;
  sound_pm2 : cfg_pm2User cfg <> "root"
              /\ empty_or_clean (cfg_pm2Binary cfg) /\ empty_or_clean (cfg_pm2Home cfg)
              /\ (cfg_allowPM2Read cfg || some_of (cfg_allowedPM2Actions cfg) = true ->
                  clean_absolute (cfg_pm2Binary cfg) = true /\ clean_absolute (cfg_pm2Home cfg) = true
                  /\ cfg_pm2User cfg <> "")
}.

(** The profile of an active wrapper is normalised. *)
Lemma active_normal d a o e :
  loadActiveProfile d = (a, o, e) -> 0 < wr_Revision a -> normal_profile (wr_Profile a).
Proof.
  intros Hl Hr. pose proof (load_wrapper d) as Hw. rewrite Hl in Hw. cbn [fst] in Hw.
  unfold readWrapper in Hw. destruct (d_active d) as [|data| | | |]; simpl in Hw; try (subst a; done).
  destruct (_ <? _); [by subst a|]. destruct (decodeProfileWrapper data) as [w|] eqn:Ed; simpl in Hw; [|by subst a].
  subst w. by apply decodeProfileWrapper_inv in Ed as (_ & _ & _ & ? & _).
Qed.

Lemma profile_path_clean v file :
  validateOptionalProfilePath v file = Ok tt -> v = "" \/ clean_absolute v = true.
Proof.
  unfold validateOptionalProfilePath. intros Hv.
  destruct (String.eqb_spec v "") as [|Hne]; [by left|]. right. inv_ok Hv. unfold validateProfileString in Hr. inv_ok Hr. breflect. unfold clean_absolute.
  repeat (apply andb_true_iff; split); [done|by apply String.eqb_eq|by apply negb_true_iff, String.eqb_neq|].
  by apply Z.leb_le.
Qed.

Lemma load_sound `{LowerTable} parse_url parse_request lookup readFile disks cfg :
  loadConfigFromEnv parse_url parse_request lookup readFile disks = Ok cfg -> sound_config cfg.
Proof.
  unfold loadConfigFromEnv. intros Hl.
  apply rbind_Ok in Hl as (id & Hid%load_identity_ok & Hl). apply rbind_Ok in Hl as (al & Hal & Hl).
  pose proof (load_allowances_ok _ _ Hal) as [Hlogs Hallow].
  apply rbind_Ok in Hl as (w & Hw%load_web_ok & Hl). apply rbind_Ok in Hl as (dl & Hdl%load_delivery_ok & Hl).
  apply rbind_Ok in Hl as (lc & Hlc%load_lifecycle_ok & Hl). apply rbind_Ok in Hl as (rt & Hrt%load_runtimes_ok & Hl).
  apply rbind_Ok in Hl as (pm & Hpm%load_pm2_ok & Hl). apply rbind_Ok in Hl as (cr & Hcr%load_cron_ok & Hl).
  apply rbind_Ok in Hl as (fw & Hfw%load_firewall_ok & Hl).
  destruct (loadActiveProfile (disks (lc_stateDir lc))) as [[a o] e] eqn:Ea.
  destruct Hid as (Hid & Htok & Hint), Hw as [Hw Hwp], Hdl as [Hdl Hdlp], Hlc as (Hlc & Hlcp & _ & _ & _ & _ & Hroots),
    Hrt as (Hrt & Hrtp & Hrta), Hpm as (Hpmu & Hpmb & Hpmh & Hpmon & Hpma), Hcr as (Hcr & _ & Hcrp), Hfw as (Hfw & _ & Hfwp).
  assert (sound_config (assemble id al w dl lc rt pm cr fw o)) as Hsound.
  { constructor.
    - rewrite <-(proj1 (identifier_patterns _)). done.
    - unfold required_reads. cbn [assemble cfg_allowNginxConfigWrite].
      breflect. repeat (apply andb_true_iff; split); done.
    - split_foralls. unfold allow_lists. cbn. cleans.
    - unfold all_clean, local_paths in *. cbn [app] in *. split_foralls. cleans_app.
    - unfold all_clean in *. cbn [app] in Hdlp. split_foralls. split; [done|]. by split; right.
    - done.
    - done.
    - done. }
  injection Hl as <-. destruct e as [e|]; [done|]. destruct (Z.ltb_spec 0 (wr_Revision a)) as [Hr|]; [|done].
  pose proof (active_normal _ _ _ _ Ea Hr) as [Hd Hpl Hwr HF _ _ _]. destruct Hsound as [S1 S2 SA S3 S4 S5 S6 S7].
  constructor; try done.
  - unfold required_reads in *. cbn in *. breflect.
    unfold validateProfileDependencies in Hd. repeat (apply andb_true_iff; split); try done;
      revert Hd; repeat match goal with |- context [?f (wr_Profile a)] => destruct (f (wr_Profile a)) end; done.
  - cbn. split; [|by split; eapply profile_path_clean]. eapply Forall_impl; [exact HF|].
    intros r [Hne Hroot]. by apply profile_path_clean in Hroot as [?|?].
Qed.

(** C34. A configuration the agent starts with is sound, whatever the profile
    directory holds: each of the permissions that need another one (to write
    Nginx, PHP-FPM, cron and firewall configuration, to run cron jobs, to act on
    domains, certificates, deployments, deployment domains and agent releases, to
    run backups, to restart databases, to read deployment domains) comes with it;
    every allow list of actions, clean-up targets and databases holds names the
    agent knows only; every path is clean, absolute and not the root, but that a
    profile may leave the deployment's plans file and web root empty, and PM2's
    binary and home may be empty while nothing of PM2 is enabled; write roots lie
    inside read roots, and PM2 never runs as root. *)
Theorem loaded_config_sound `{LowerTable} parse_url parse_request lookup readFile disks cfg :
  loadConfigFromEnv parse_url parse_request lookup readFile disks = Ok cfg -> sound_config cfg.
Proof. apply load_sound. Qed.

(** The configuration without what the profile decides. *)
Definition local_part (cfg : config) : config :=
  let c := applyProfileOverlay cfg emptyAgentProfile in
  mkConfig (cfg_hubURL c) (cfg_nodeID c) (cfg_token c) (cfg_interval c) (cfg_observedServices c)
    (cfg_allowedServices c) (cfg_allowedHostActions c) (cfg_allowProcessSignals c) (cfg_allowTerminal c)
    (cfg_allowedDiskCleanup c) (cfg_allowedLogSources c) (cfg_allowContainerRead c)
    (cfg_allowedContainerActions c) (cfg_allowedNginxActions c) (cfg_allowNginxConfigRead c)
    (cfg_allowNginxConfigWrite c) (cfg_allowDomainRead c) (cfg_allowDomainActions c) (cfg_allowSSLRead c)
    (cfg_allowSSLActions c) (cfg_certificateConfigDir c) (cfg_certificateWorkDir c)
    (cfg_certificateLogsDir c) (cfg_certbotBinary c) (cfg_openSSLBinary c) (cfg_caBundle c)
    (cfg_allowDatabaseRead c) (cfg_allowedDatabaseRestarts c) (cfg_mariaDBBinary c)
    (cfg_mariaDBAdminBinary c) (cfg_pgClustersBinary c) (cfg_psqlBinary c) (cfg_pgIsReadyBinary c)
    (cfg_allowBackupRead c) (cfg_allowBackupRun c) (cfg_backupPlansPath c) (cfg_allowDeployRead c)
    (cfg_allowDeployActions c) (cfg_allowDeployDomainRead c) (cfg_allowDeployDomainActions c)
    (cfg_deployPlansPath c) (cfg_deployACMEWebroot c) (cfg_deployWriteRoots c) (cfg_allowAgentUpdateRead c)
    (cfg_allowAgentUpdateActions c) (cfg_agentUpdateManifestURL c) (cfg_agentUpdatePublicKeys c)
    (cfg_agentStateDir c) (cfg_agentLifecycleInstaller c) (cfg_systemdRunBinary c) (cfg_systemctlBinary c)
    (cfg_fileReadRoots c) (cfg_fileWriteRoots c) (cfg_nginxSitesAvailable c) (cfg_nginxSitesEnabled c)
    (cfg_allowedPHPActions c) (cfg_allowPHPConfigRead c) (cfg_allowPHPConfigWrite c) (cfg_phpConfigRoot c)
    (cfg_phpBinaryRoot c) (cfg_allowPM2Read c) (cfg_allowedPM2Actions c) (cfg_pm2Binary c) (cfg_pm2Home c)
    (cfg_pm2User c) (cfg_allowCronRead c) (cfg_allowCronWrite c) (cfg_allowCronRun c) (cfg_cronStatePath c)
    (cfg_cronFilePath c) (cfg_cronLockPath c) (cfg_crontabBinary c) (cfg_runuserBinary c) (cfg_cronShell c)
    (cfg_cronService c) (cfg_allowFirewallRead c) (cfg_allowFirewallWrite c) (cfg_iptablesBinary c)
    (cfg_firewallSaveBinary c) (cfg_firewallLockPath c) (cfg_firewallService c)
    (cfg_firewallPersistencePath c) (cfg_firewallProtectedSources c) (cfg_firewallProtectedPorts c)
    (mkObservation "" 0 "").

(** The profile directory never decides whether the agent starts: with the
    same environment and any other profile files, corrupt ones included, it
    starts with a configuration that differs in the seven profile fields and
    the observation only, and reports what it found. *)
Theorem profile_never_blocks_start `{LowerTable} parse_url parse_request lookup readFile disks disks' cfg :
  loadConfigFromEnv parse_url parse_request lookup readFile disks = Ok cfg ->
  exists cfg', loadConfigFromEnv parse_url parse_request lookup readFile disks' = Ok cfg'
    /\ local_part cfg' = local_part cfg
    /\ cfg_profileObservation cfg' = observation (disks' (cfg_agentStateDir cfg)).
Proof.
  unfold loadConfigFromEnv. intros Hl.
  repeat (apply rbind_Ok in Hl as (? & -> & Hl)). cbn [rbind].
  destruct (loadActiveProfile (disks _)) as [[a o] e]. unfold observation.
  assert (cfg_agentStateDir cfg = lc_stateDir x3) as ->.
  { injection Hl as <-. destruct e; [done|]. by destruct (_ <? _). }
  destruct (loadActiveProfile (disks' _)) as [[a' o'] e'].
  eexists. split; [done|]. injection Hl as <-.
  split; destruct e, e'; repeat case_match; done.
Qed.

(** ** What an agent advertises *)

Lemma append_enabled_sub table : append_enabled table `sublist_of` table.*2.
Proof.
  induction table as [|[b c] table IH]; [done|]. simpl. destruct b; by constructor.
Qed.

Lemma append_enabled_in table b c : (b, c) ∈ table -> NoDup table.*2 -> c ∈ append_enabled table <-> b = true.
Proof.
  induction table as [|[b' c'] table IH]; intros Hin Hnd; [set_solver|].
  rewrite fmap_cons in Hnd. apply NoDup_cons in Hnd as [Hc Hnd]. simpl in Hc.
  assert (forall x, x ∈ append_enabled table -> x ∈ table.*2) as Hsub.
  { intros x Hx. eapply elem_of_submseteq; [exact Hx|]. apply sublist_submseteq, append_enabled_sub. }
  apply elem_of_cons in Hin as [[= -> ->]|Hin].
  - simpl. destruct b'; [set_solver|]. split; [|done]. intros Hx%Hsub. done.
  - assert (c <> c') as Hne by (intros ->; apply Hc, list_elem_of_fmap; by exists (b, c')).
    specialize (IH Hin Hnd). simpl. destruct b'; [rewrite elem_of_cons|]; naive_solver.
Qed.

Lemma distinct_allowed_complete allowed seen parts :
  NoDup parts -> Forall (fun p => allowed p = true /\ p ∉ seen) parts -> distinct_allowed allowed seen parts = true.
Proof.
  revert seen. induction parts as [|p parts IH]; intros seen Hnd HF; [done|]. simpl.
  apply NoDup_cons in Hnd as [Hp Hnd]. apply Forall_cons in HF as [[-> Hs] HF].
  rewrite bool_decide_false by done. apply IH; [done|]. apply Forall_forall. intros x Hx.
  rewrite Forall_forall in HF. destruct (HF x Hx). split; [done|]. set_solver.
Qed.

(** A configuration that allows nothing. *)
Definition blank_config : config :=
  assemble (mkIdentity (mkURL "" "" false "" "" "") "" "" 0) (mkAllowances [] ∅ ∅ false false ∅ ∅ false ∅ ∅)
    (mkWeb false false "" "" false false false false "" "" "" "" "" "")
    (mkDelivery false false "" false false false false "" "" [])
    (mkLifecycle false false "" "" "" "" "" "" [] []) (mkRuntimes false ∅ "" "" "" "" "" ∅ false false "" "")
    (mkPM2 false ∅ "" "" "") (mkCron false false false "" "" "" "" "" "" "")
    (mkFirewall false false "" "" "" "" "" [] ∅) (mkObservation "" 0 "").

Definition capability_names : list string := (optional_capabilities true blank_config).*2.

Lemma optional_names ready cfg : (optional_capabilities ready cfg).*2 = capability_names.
Proof. reflexivity. Qed.

Lemma advertised_distinct mode cfg :
  NoDup (advertisedCapabilities mode cfg)
  /\ Forall (fun c => known_capability c = true) (advertisedCapabilities mode cfg).
Proof.
  unfold advertisedCapabilities.
  set (table := optional_capabilities _ cfg). set (front := [_; _]). set (back := [_; _]).
  assert (front ++ append_enabled table ++ back `sublist_of` front ++ capability_names ++ back) as Hsub.
  { apply sublist_app; [done|]. apply sublist_app; [|done].
    rewrite <-(optional_names (profileApplyReady mode cfg) cfg). apply append_enabled_sub. }
  split.
  - eapply sublist_NoDup; [|exact Hsub]. apply (bool_decide_unpack _). vm_compute. done.
  - assert (Forall (fun c => known_capability c = true) (front ++ capability_names ++ back)) as HF.
    { apply forallb_Forall. vm_compute. reflexivity. }
    rewrite Forall_forall in HF. apply Forall_forall. intros c Hc. apply HF.
    eapply elem_of_submseteq; [exact Hc|]. by apply sublist_submseteq.
Qed.

(** An optional capability is advertised exactly under its condition. *)
Lemma advertised_in mode cfg b c :
  (b, c) ∈ optional_capabilities (profileApplyReady mode cfg) cfg ->
  existsb (String.eqb c) [CapabilityInventory; CapabilityProcessRead; CapabilityIntegrationStatus;
                          CapabilityMetricsRead] = false ->
  c ∈ advertisedCapabilities mode cfg <-> b = true.
Proof.
  intros Hin Hfix. unfold advertisedCapabilities. rewrite !elem_of_app, (append_enabled_in _ b c Hin).
  - split; [|by auto]. cbn [existsb] in Hfix. breflect. set_solver.
  - rewrite optional_names. apply (bool_decide_unpack _). vm_compute. done.
Qed.

Lemma advertised_profile mode cfg :
  CapabilityProfileApply ∈ advertisedCapabilities mode cfg <-> profileApplyReady mode cfg = true.
Proof.
  apply advertised_in; [|done].
  unfold optional_capabilities. repeat (apply list_elem_of_here || apply list_elem_of_further).
Qed.

Lemma log_sources_distinct (allowed : gset string) :
  (forall x, x ∈ allowed -> validLogSource x = true) ->
  distinct_allowed validLogSource ∅ (configuredLogSources allowed) = true
  /\ Z.of_nat (length (configuredLogSources allowed)) <= 7.
Proof.
  intros Ha. unfold configuredLogSources.
  assert (NoDup (sort_strings (elements allowed))) as Hnd by (rewrite sort_strings_perm; apply NoDup_elements).
  assert (forall x, x ∈ sort_strings (elements allowed) -> validLogSource x = true) as Hv.
  { intros x Hx. rewrite sort_strings_perm in Hx. by apply Ha, elem_of_elements. }
  split.
  - apply distinct_allowed_complete; [done|]. apply Forall_forall. intros x Hx. split; [by apply Hv|set_solver].
  - transitivity (Z.of_nat (length ["system"; "nginx"; "php"; "mariadb"; "postgresql"; "pm2"; "docker"]));
      [|by vm_compute].
    apply inj_le. apply submseteq_length, NoDup_submseteq; [done|]. intros x Hx%Hv.
    unfold validLogSource in Hx. by apply existsb_eqb_elem in Hx.
Qed.

(** What the configuration puts into a heartbeat always passes the hub's
    heartbeat validation: the node ID, the observation of the profile, the
    capabilities (known ones, each once) and the log sources.  Profile applies
    are advertised exactly when the host can run them, and then the observation
    is attached. *)
Theorem advertised_accepted `{LowerTable} parse_url parse_request lookup readFile disks cfg mode version hostname inv d sent :
  loadConfigFromEnv parse_url parse_request lookup readFile disks = Ok cfg ->
  let req := cycle_heartbeat mode cfg version hostname inv d sent in
  validNodeID (hb_NodeID req) = true
  /\ validateAgentProfileObservation (hb_Profile req) = Ok tt
  /\ distinct_allowed known_capability ∅ (elems (hb_Capabilities req)) = true
  /\ distinct_allowed validLogSource ∅ (inv_LogSources (hb_Inventory req)) = true
  /\ Z.of_nat (length (inv_LogSources (hb_Inventory req))) <= 7
  /\ (CapabilityProfileApply ∈ elems (hb_Capabilities req) <-> profileApplyReady mode cfg = true)
  /\ (profileApplyReady mode cfg = true <-> is_Some (hb_Profile req)).
Proof.
  intros [Hid _ _ _ _ _ Hlog _]%load_sound. cbv zeta. unfold cycle_heartbeat. cbn [configuredManagedFileRoots].
  pose proof (advertised_distinct mode cfg) as [Hnd HF]. destruct (log_sources_distinct _ Hlog) as [Hl1 Hl2].
  assert (distinct_allowed known_capability ∅ (advertisedCapabilities mode cfg) = true) as Hcaps.
  { apply distinct_allowed_complete; [done|]. eapply Forall_impl; [exact HF|]. intros c Hc. split; [done|set_solver]. }
  pose proof (advertised_profile mode cfg) as Hcap.
  destruct (profileApplyReady mode cfg) eqn:Er; cbn [attachProfileObservation hb_NodeID hb_Profile hb_Capabilities
    hb_Inventory set_inventory_roots inv_LogSources elems default]; (split; [apply Hid|]).
  - split; [pose proof (observation_reportable d); by destruct (observation d)|].
    repeat (split; [assumption|]). split; [intros _; by eexists|reflexivity].
  - split; [reflexivity|]. repeat (split; [assumption|]).
    split; [discriminate|by intros []].
Qed.

(** ** Concrete environments *)

Definition sample_env (extra : list (string * string)) (key : string) : option string :=
  (list_to_map (extra ++
    [("HSERVER_AGENT_HUB_URL", "https://hub.example/"); ("HSERVER_AGENT_NODE_ID", "edge-01");
     ("HSERVER_AGENT_TOKEN", "0123456789abcdef"); ("HSERVER_AGENT_ALLOW_DEPLOY_READ", "true");
     ("HSERVER_AGENT_ALLOWED_LOG_SOURCES", "nginx, system"); ("HSERVER_AGENT_INTERVAL", "45s");
     ("HSERVER_AGENT_FILE_READ_ROOTS", "/srv, /var/www")]) : gmap string string) !! key.

Definition sample_url (raw : string) : option URL := Some (mkURL "https" "hub.example" false "" "" "/").

#[local] Instance ascii_lower : LowerTable := fun r => r.

Definition sample_config : config :=
  match loadConfigFromEnv sample_url sample_url (sample_env []) (fun _ => None) (fun _ => empty_disk) with
  | Ok cfg => cfg
  | Err _ => blank_config
  end.

Lemma sample_config_loads :
  loadConfigFromEnv sample_url sample_url (sample_env []) (fun _ => None) (fun _ => empty_disk) = Ok sample_config.
Proof. vm_compute. reflexivity. Qed.

Lemma heartbeat_write_roots req :
  validateHeartbeatFields req = Ok tt ->
  validManagedFileRootInventory (inv_FileWriteRoots (hb_Inventory req))
    (inv_FileReadRoots (hb_Inventory req)) = true.
Proof. unfold validateHeartbeatFields. intros Hv. inv_ok Hv. breflect. done. Qed.

(** A write root below a read root, which the agent's configuration allows
    ("contained by"), makes the hub refuse every heartbeat of that agent: the
    hub demands that each write root is itself a read root. *)
Theorem nested_write_root_refused :
  exists cfg,
    loadConfigFromEnv sample_url sample_url (sample_env [("HSERVER_AGENT_FILE_WRITE_ROOTS", "/srv/data")])
      (fun _ => None) (fun _ => empty_disk) = Ok cfg
    /\ cfg_fileReadRoots cfg = ["/srv"; "/var/www"] /\ cfg_fileWriteRoots cfg = ["/srv/data"]
    /\ forall mode version hostname inv d sent,
         validateHeartbeatFields (cycle_heartbeat mode cfg version hostname inv d sent) <> Ok tt.
Proof.
  eexists. split; [vm_compute; reflexivity|]. split; [reflexivity|]. split; [reflexivity|].
  intros mode version hostname inv d sent Hv%heartbeat_write_roots. revert Hv.
  unfold cycle_heartbeat. cbn [configuredManagedFileRoots].
  destruct (profileApplyReady _ _); cbn [attachProfileObservation hb_Inventory set_inventory_roots
    inv_FileWriteRoots inv_FileReadRoots]; vm_compute; discriminate.
Qed.

(** ** Witnesses *)

Lemma loaded_config_sound_witness : cfg_interval sample_config = 45 * Second /\ sound_config sample_config.
Proof.
  split; [vm_compute; reflexivity|].
  exact (loaded_config_sound _ _ _ _ _ _ sample_config_loads).
Defined.

Definition corrupt_disk : disk := mkDisk Missing (Regular "{") Missing Symlink.

Lemma profile_never_blocks_start_witness :
  exists cfg', loadConfigFromEnv sample_url sample_url (sample_env []) (fun _ => None) (fun _ => corrupt_disk) = Ok cfg'
    /\ local_part cfg' = local_part sample_config
    /\ cfg_profileObservation cfg' = mkObservation ProfileObservationFailed 0 ProfileErrorCodeCorrupt.
Proof.
  exact (profile_never_blocks_start _ _ _ _ _ (fun _ => corrupt_disk) _ sample_config_loads).
Defined.

Lemma advertised_accepted_witness :
  let req := cycle_heartbeat (fun _ => None) sample_config "1.4.0" "edge" empty_inventory empty_disk 0 in
  validNodeID (hb_NodeID req) = true
  /\ validateAgentProfileObservation (hb_Profile req) = Ok tt
  /\ distinct_allowed known_capability ∅ (elems (hb_Capabilities req)) = true
  /\ distinct_allowed validLogSource ∅ (inv_LogSources (hb_Inventory req)) = true
  /\ Z.of_nat (length (inv_LogSources (hb_Inventory req))) <= 7
  /\ (CapabilityProfileApply ∈ elems (hb_Capabilities req) <-> profileApplyReady (fun _ => None) sample_config = true)
  /\ (profileApplyReady (fun _ => None) sample_config = true <-> is_Some (hb_Profile req)).
Proof.
  exact (advertised_accepted _ _ _ _ _ _ (fun _ => None) "1.4.0" "edge" empty_inventory empty_disk 0
    sample_config_loads).
Defined.
