(* ===== verification/AgentHub.v ===== *)
(** * The agent and the hub together

    The hub as the agent's client ([cmd/hserver-agent/client.go] above
    [internal/api/handlers_agenthub.go]): a request carries the node's identity
    and token, and its JSON body decodes to the value that was sent.  Cycles of
    the agent are then histories of service calls, and a profile travels from
    the operator's edit to the heartbeat that reports it. *)

From stdpp Require Import base strings gmap list.
From Stdlib Require Import ZArith Lia.
From S2P Require Import Prelude GoStrings GoJson GoTime HubTypes TaskGate Profile TaskResult Heartbeat IntegrationStatus Metrics Repository Service HubSystem ServiceFacts TaskGateClaims HostClaims Samples ServiceClaims AgentStore AgentApply AgentStoreFacts AgentApplyClaims AgentConfig AgentMain AgentConfigClaims.
Local Open Scope Z_scope.
Local Open Scope hub_scope.

(** The hub's clock during one cycle, in the order it is read. *)
Record cycle_clock : Type := mkClock {
  at_heartbeat : time; at_poll : time; at_check : time; at_record : time
}.

Definition clock_fine (k : cycle_clock) : Prop :=
  clock_ok (at_heartbeat k) = true /\ clock_ok (at_poll k) = true /\ clock_ok (at_record k) = true.

Definition set_node_id (req : HeartbeatRequest) (nodeID : string) : HeartbeatRequest :=
  mkHeartbeat (hb_ProtocolVersion req) nodeID (hb_AgentVersion req) (hb_Capabilities req)
    (hb_Hostname req) (hb_SentAt req) (hb_Inventory req) (hb_Profile req).

Section hub.
Context `{UnicodeTables}.

Definition hub_client (nodeID token : string) (k : cycle_clock) : agentClient db := {|
  client_heartbeat := fun req d =>
    match Service.Heartbeat d nodeID token (set_node_id req nodeID) (at_heartbeat k) with
    | (Ok rsp, d') => (hbr_Accepted rsp, d')
    | (Err _, d') => (false, d')
    end;
  client_poll := fun d =>
    match PollTask d nodeID token (at_poll k) with
    | (Ok task, d') => (Some task, d')
    | (Err _, d') => (None, d')
    end;
  client_report := fun id req d =>
    if id <=? 0 then (false, d)
    else
      match Service.CompleteTask d nodeID token id req (at_check k) (at_record k) with
      | (Ok _, d') => (true, d')
      | (Err _, d') => (false, d')
      end
|}.

(** The executor as far as profiles go; [other] stands for the other kinds. *)
Definition profile_executor (c : profileApplyController) (calls : apply_calls)
    (other : Task -> disk -> TaskResultRequest * disk) (task : Task) (d : disk)
    : TaskResultRequest * disk :=
  if task_Kind task =?s TaskProfileApply then
    let '(result, r) := execute_profile c calls (task_Payload task) (start d) in (result, now r)
  else other task d.

(** ** Helper lemmas *)

(** The task a poll returns is a running row of the node. *)
Lemma poll_row d nodeID token now t d1 :
  hub_inv d -> clock_ok now = true -> PollTask d nodeID token now = (Ok (Some t), d1) ->
  hub_inv d1 /\ db_nodes d1 = db_nodes d
  /\ exists r, r ∈ db_tasks d1 /\ tr_node_id r = nodeID /\ tr_status r = TaskStatusRunning
       /\ scanTask r = Ok t /\ reads_as r t.
Proof.
  intros Hd Hc. unfold PollTask, reading. destruct (AuthenticateNode d nodeID token); [|done].
  unfold PollTaskForNode. destruct (validNodeID nodeID); [|done]. cbn [negb].
  intros Hcl. pose proof (ClaimNextTask_inv d nodeID now Hc Hd) as Hd1. rewrite Hcl in Hd1. cbn [snd] in Hd1.
  split; [done|]. unfold ClaimNextTask in Hcl.
  destruct (find_task _ _) as [r|] eqn:Hf; [|done]. apply find_task_Some in Hf as [Hin Hq].
  unfold queued_for in Hq. breflect.
  destruct (scanTask_ok (claim_row (formatTime now) r)) as (t' & Hsc & Hreads).
  { apply claim_moves; [by apply (row_in d)|done|done]. }
  rewrite Hsc in Hcl. cbn [rbind] in Hcl. injection Hcl as <- <-. split; [done|].
  exists (claim_row (formatTime now) r). split.
  { simpl. unfold update_where. apply list_elem_of_fmap. exists r. by rewrite Z.eqb_refl. }
  by repeat (split; [done|]).
Qed.

(** A poll of an authenticated node does not fail. *)
Lemma poll_total d nodeID token now node :
  hub_inv d -> clock_ok now = true -> AuthenticateNode d nodeID token = Ok node ->
  exists o d1, PollTask d nodeID token now = (Ok o, d1).
Proof.
  intros Hd Hc Ha. unfold PollTask, reading. rewrite Ha. unfold PollTaskForNode.
  unfold AuthenticateNode in Ha. destruct (validNodeID nodeID); [|done]. cbn [negb]. unfold ClaimNextTask.
  destruct (find_task _ _) as [r|] eqn:Hf; [|by eexists _, _]. apply find_task_Some in Hf as [Hin Hq].
  unfold queued_for in Hq. breflect.
  destruct (scanTask_ok (claim_row (formatTime now) r)) as (t' & -> & _).
  { apply claim_moves; [by apply (row_in d)|done|done]. }
  by eexists _, _.
Qed.

Lemma authenticate_nodes d d' nodeID token : db_nodes d' = db_nodes d ->
  AuthenticateNode d' nodeID token = AuthenticateNode d nodeID token.
Proof.
  intros E. unfold AuthenticateNode, AuthenticateToken, Repository.GetNode. by rewrite E.
Qed.

Lemma service_call_reachable c d : call_ok c -> reachable d -> reachable (ServiceFacts.run c d).
Proof. intros Hc Hd. by apply (calls_reachable [c]); [repeat constructor|]. Qed.

(** A profile report is valid UTF-8 and of the kind's contract. *)
Lemma report_utf8 c calls payload r : utf8_map (tres_Result (execute_profile c calls payload r).1).
Proof.
  unfold execute_profile. destruct (apply c calls payload r) as [[o|code] r'] eqn:E; cbn [fst tres_Result].
  - unfold profileApplyTaskResult. cbn [tres_Result].
    assert (valid_utf8 (out_State o) = true) as Hs.
    { apply apply_cases in E as [[_ (? & ? & _)]|(w & Hw & [[_ (st & [= ->] & Hst)]|(a & b & s & b' & _ & _ & _ & _ & _ & Hst)])];
        [done| |].
      - simpl. unfold validProfileApplyResultState in Hst. apply orb_true_iff in Hst as [H1|H1]; breflect; by subst st.
      - unfold stage in Hst. repeat case_match; by simplify_eq. }
    apply map_Forall_insert_2; [done|]. apply map_Forall_singleton. by split; [|apply Itoa_utf8].
  - apply map_Forall_empty.
Qed.

(** The report of a claimed profile task is recorded. *)
Lemma profile_report_recorded d1 r t nodeID token node c calls dk checked written :
  hub_inv d1 -> AuthenticateNode d1 nodeID token = Ok node -> clock_ok written = true ->
  r ∈ db_tasks d1 -> tr_node_id r = nodeID -> tr_status r = TaskStatusRunning ->
  scanTask r = Ok t -> reads_as r t -> task_Kind t = TaskProfileApply ->
  let result := (execute_profile c calls (task_Payload t) (start dk)).1 in
  0 < task_ID t /\
  exists t' d2, Service.CompleteTask d1 nodeID token (task_ID t) result checked written = (Ok t', d2)
    /\ task_Status t' = tres_Status result.
Proof.
  intros Hd Ha Hc Hr Hn Hs Hsc Hreads Hk. cbv zeta.
  pose proof (inv_ids _ Hd) as Hids. rewrite Forall_forall in Hids. specialize (Hids r Hr). simpl in Hids.
  rewrite (reads_id _ _ Hreads). split; [lia|].
  destruct (row_in d1 r Hd Hr) as [_ _ Hpay _].
  destruct (apply_row_revision r Hpay) as (rev & _ & Hrev); [by rewrite <-(reads_kind _ _ Hreads)|].
  rewrite <-(reads_apply_revision _ _ Hreads) in Hrev.
  pose proof (profile_report_accepted c calls t rev dk Hk (reads_utf8 _ _ Hreads) Hrev) as Hacc.
  unfold Service.CompleteTask, reading. rewrite Ha.
  destruct (complete_succeeds d1 r t (execute_profile c calls (task_Payload t) (start dk)).1 checked written)
    as (t' & d2 & Hcomp & _ & Hst); try done.
  - unfold AuthenticateNode in Ha. rewrite Hn. by destruct (validNodeID nodeID).
  - apply report_utf8.
  - unfold ValidateProfileApplyTaskResult in Hacc. rewrite Hk, Hrev in Hacc. cbn in Hacc.
    by apply rbind_Ok in Hacc as ([] & ? & _).
  - unfold result_for_kind. rewrite Hk. done.
  - rewrite Hn in Hcomp. by exists t', d2.
Qed.
(** ** Cycles *)

(** Every call of a cycle is a call of the service. *)
Lemma heartbeat_call nodeID token k req d :
  (client_heartbeat (hub_client nodeID token k) req d).2
  = (Service.Heartbeat d nodeID token (set_node_id req nodeID) (at_heartbeat k)).2.
Proof. simpl. by destruct (Service.Heartbeat _ _ _ _ _) as [[] ?]. Qed.

Lemma report_call nodeID token k id req d :
  (client_report (hub_client nodeID token k) id req d).2 = d
  \/ (client_report (hub_client nodeID token k) id req d).2
     = (Service.CompleteTask d nodeID token id req (at_check k) (at_record k)).2.
Proof.
  simpl. destruct (id <=? 0); [by left|right].
  by destruct (Service.CompleteTask _ _ _ _ _ _ _) as [[] ?].
Qed.

Lemma report_reachable nodeID token k id req d :
  clock_fine k -> utf8_map (tres_Result req) -> reachable d ->
  reachable (client_report (hub_client nodeID token k) id req d).2.
Proof.
  intros (_ & _ & Hr) Hu Hd. destruct (report_call nodeID token k id req d) as [-> | ->]; [done|].
  by apply (service_call_reachable (CallComplete nodeID token id req (at_check k) (at_record k))).
Qed.

(** A cycle of an authenticated node never fails to poll, and when the hub
    hands it a profile to apply, the cycle ends with the result recorded: the
    agent never produces a profile report the hub turns away.  The hub is left
    in a reachable state. *)
Theorem profile_cycle c calls other nodeID token k req d dk node out d' dk' :
  reachable d -> clock_fine k ->
  (forall t w, utf8_map (tres_Result (other t w).1)) ->
  AuthenticateNode (client_heartbeat (hub_client nodeID token k) req d).2 nodeID token = Ok node ->
  runCycle (hub_client nodeID token k) (profile_executor c calls other) req d dk = (out, d', dk') ->
  reachable d' /\
  match client_poll (hub_client nodeID token k) (client_heartbeat (hub_client nodeID token k) req d).2 with
  | (None, _) => False
  | (Some None, _) => out = NoTask /\ dk' = dk
  | (Some (Some t), d1) =>
      task_Kind t = TaskProfileApply ->
      let '(result, r) := execute_profile c calls (task_Payload t) (start dk) in
      out = TaskCompleted (task_ID t) (tres_Status result) /\ dk' = now r
      /\ exists t', GetTask d' (task_ID t) = Ok t' /\ task_Status t' = tres_Status result
  end.
Proof.
  intros Hd Hk Ho Ha Hrun. pose proof Hk as (Hkh & Hkp & Hkr).
  pose proof (heartbeat_call nodeID token k req d) as Eh. unfold runCycle in Hrun.
  destruct (client_heartbeat _ _ _) as [b d0]. cbn [snd] in *.
  assert (reachable d0) as Hd0.
  { rewrite Eh.
    by apply (service_call_reachable (CallHeartbeat nodeID token (set_node_id req nodeID) (at_heartbeat k))). }
  destruct (poll_total d0 nodeID token (at_poll k) node) as (o & d1 & Ep);
    [by apply reachable_inv|done|done|].
  assert (reachable d1) as Hd1.
  { pose proof (service_call_reachable (CallPoll nodeID token (at_poll k)) d0 Hkp Hd0) as H1.
    simpl in H1. by rewrite Ep in H1. }
  cbn [client_poll hub_client] in Hrun |- *. rewrite Ep in Hrun |- *.
  destruct o as [t|]; [|by injection Hrun as <- <- <-].
  destruct (profile_executor c calls other t dk) as [result dk1] eqn:Ex.
  assert (utf8_map (tres_Result result)) as Hu.
  { unfold profile_executor in Ex. destruct (_ =?s _).
    - pose proof (report_utf8 c calls (task_Payload t) (start dk)) as Hr.
      destruct (execute_profile _ _ _ _) as [? ?]. by injection Ex as <- _.
    - pose proof (Ho t dk) as Hr. by rewrite Ex in Hr. }
  split.
  - pose proof (report_reachable nodeID token k (task_ID t) result d1 Hk Hu Hd1) as Hd'.
    destruct (client_report _ _ _ _) as [[] d2]; by injection Hrun as _ <- _.
  - intros Hkind. unfold profile_executor in Ex. rewrite Hkind in Ex.
    change (TaskProfileApply =?s TaskProfileApply) with true in Ex. cbv iota in Ex.
    destruct (poll_row d0 nodeID token (at_poll k) t d1 (reachable_inv _ Hd0) Hkp Ep)
      as (Hi1 & En & r & Hr & Hn & Hs & Hsc & Hreads).
    destruct (profile_report_recorded d1 r t nodeID token node c calls dk (at_check k) (at_record k))
      as (Hid & t' & d2 & Hc & Hst); try done; [by rewrite (authenticate_nodes d0)|].
    destruct (execute_profile _ _ _ _) as [result' r']. cbn [fst] in *. injection Ex as -> <-.
    cbn [client_report hub_client] in Hrun. rewrite Hc in Hrun.
    rewrite (proj2 (Z.leb_gt _ _)) in Hrun by done. injection Hrun as <- <- <-.
    split_and!; [done|done|]. exists t'. split; [|done].
    unfold Service.CompleteTask, reading in Hc. destruct (AuthenticateNode d1 nodeID token); [|done].
    by apply CompleteTaskForNode_ok in Hc as (_ & _ & _ & ?).
Qed.
End hub.

(** ** What the panel shows is what the host runs

    The theorems that tie the profile directory of a host to the answer the
    panel gets about its node, through one heartbeat. *)

Local Opaque marshal.

(** ** Helper lemmas *)

Lemma decode_items_strings l : decode_items "" into_string (jstr <$> l) [] = Some l.
Proof. induction l as [|s l IH]; [done|]. rewrite fmap_cons. cbn [decode_items tail into_string jstr]. by rewrite IH. Qed.

(** The capabilities of a row decode to the ones that were sent. *)
Lemma capabilities_roundtrip l :
  Forall (fun s => valid_utf8 s = true) l -> decode_strings (capabilities_text (Some l)) = Some l.
Proof.
  intros Hl. unfold decode_strings, capabilities_text, json_slice. rewrite marshal_roundtrip.
  - destruct l as [|s l]; [done|]. pose proof (decode_items_strings (s :: l)) as E.
    rewrite fmap_cons in E |- *. unfold into_slice. cbn [backing nil_slice]. rewrite E.
    cbn [length]. rewrite length_fmap. cbn [fmap option_fmap option_map compose slice_value visible backing elems default].
    change (S (length l)) with (length (s :: l)). by rewrite firstn_all.
  - constructor. apply Forall_fmap. eapply Forall_impl; [exact Hl|]. intros s Hs. by constructor.
Qed.

Lemma capabilities_text_nonempty l :
  Forall (fun s => valid_utf8 s = true) l -> (capabilities_text (Some l) =?s "") = false.
Proof.
  intros Hl. apply String.eqb_neq. intros E. pose proof (capabilities_roundtrip l Hl) as Hr.
  by rewrite E in Hr.
Qed.

Lemma advertised_utf8 mode cfg : Forall (fun s => valid_utf8 s = true) (advertisedCapabilities mode cfg).
Proof.
  destruct (advertised_distinct mode cfg) as [_ HF]. eapply Forall_impl; [exact HF|]. intros c Hc.
  unfold known_capability in Hc. apply existsb_exists in Hc as (x & Hx & E). breflect. subst x.
  assert (forallb valid_utf8 known_capabilities = true) as Hall by (vm_compute; reflexivity).
  rewrite forallb_forall in Hall. by apply Hall.
Qed.

(** The profile a host runs: its active file holds a wrapper of [revision], and
    the state file is absent or says that this revision is active. *)
Definition runs_profile (d : disk) (revision : Z) : Prop :=
  exists w, readWrapper (d_active d) = (w, true, None) /\ wr_Revision w = revision
  /\ (d_state d = Missing
      \/ exists s, readState (d_state d) = (s, true, None) /\ sd_State s = profileStateActive
                   /\ sd_Revision s = revision).

Lemma readState_names file s : readState file = (s, true, None) -> In (sd_State s) state_names.
Proof.
  unfold readState. destruct file as [|data| | | |]; try done.
  destruct (decode_state data) as [s'|] eqn:E; [|done]. intros [= ->]. by apply decode_state_inv in E as (_ & _ & _ & ?).
Qed.

Lemma observation_applied d revision :
  obs_State (observation d) = ProfileObservationApplied /\ obs_Revision (observation d) = revision
  <-> runs_profile d revision.
Proof.
  unfold observation, runs_profile, loadActiveProfile.
  destruct (readWrapper (d_active d)) as [[a b] [e|]]; [split; [by intros [? _]|by intros (? & ? & _)]|].
  destruct (readState (d_state d)) as [[s b'] [e|]] eqn:Es.
  { split; [by intros [? _]|]. intros (w & _ & _ & [Hm|(s' & Hs' & _)]); [|done]. by rewrite Hm in Es. }
  destruct b'.
  - assert (d_state d <> Missing) as Hm by (intros Hm; by rewrite Hm in Es).
    pose proof (readState_names _ _ Es) as [Hs|[Hs|[Hs|[]]]]; rewrite <-Hs; destruct b; cbn;
      try (split; [by intros [? _]|intros (w & Hw & Hr & [?|(s' & Hs' & Ha & _)]); [done|]];
           try done; injection Hs' as <-; by rewrite <-Hs in Ha).
    destruct (Z.eqb_spec (sd_Revision s) (wr_Revision a)) as [Hr|Hr]; cbn.
    + split.
      * intros [_ <-]. exists a. split_and!; [done..|]. right. exists s. split_and!; [done|by rewrite <-Hs|exact Hr].
      * intros (w & [= ->] & <- & _). done.
    + split; [by intros [? _]|]. intros (w & [= ->] & <- & [?|(s' & Hs' & _ & Hrev)]); [done|].
      by injection Hs' as <-.
  - assert (d_state d = Missing) as Hm by (by eapply readState_absent).
    destruct b; cbn.
    + split; [intros [_ <-]; exists a; by auto|]. by intros (w & [= ->] & <- & _).
    + split; [by intros [? _]|]. by intros (w & [=] & _).
Qed.

(** An accepted heartbeat with an observation: the rows it leaves. *)
Lemma accepted_heartbeat d nodeID token req now rsp d' o :
  Service.Heartbeat d nodeID token req now = (Ok rsp, d') -> hb_Profile req = Some o ->
  CapabilityProfileApply ∈ elems (hb_Capabilities req) ->
  (exists r text, db_nodes d' !! nodeID = Some (heartbeat_row r req text (formatTime now)))
  /\ db_observations d' !! nodeID = Some (observation_of o (formatTime now))
  /\ db_profiles d' = db_profiles d.
Proof.
  unfold Service.Heartbeat, reading. destruct (_ || _); [done|].
  destruct (AuthenticateNode d nodeID token); [|done]. destruct (negb _); [done|].
  destruct (validateHeartbeatFields req); [|done]. destruct (_ <? _); [done|].
  intros Hu Hp Hc%hasCapability_elem.
  destruct (UpdateHeartbeat d nodeID req now) as [[u|] d1] eqn:Eu; [|done]. injection Hu as _ <-.
  unfold UpdateHeartbeat in Eu. rewrite Hp, Hc in Eu.
  destruct (validateAgentProfileObservation _); [|done]. destruct (inventory_text _) as [text|]; [|done].
  destruct (db_nodes d !! nodeID) as [r|]; [|done]. destruct (check_observation _); [|done].
  injection Eu as _ <-. simpl. rewrite !lookup_insert_eq. split_and!; try done. by exists r, text.
Qed.

Lemma heartbeat_capabilities d nodeID r req text stamp node caps :
  db_nodes d !! nodeID = Some (heartbeat_row r req text stamp) -> Service.GetNode d nodeID = Ok node ->
  hb_Capabilities req = Some caps -> Forall (fun s => valid_utf8 s = true) caps ->
  node_Capabilities node = caps.
Proof.
  intros Hrow Hg Hc Hu. unfold Service.GetNode in Hg. destruct (negb _); [done|].
  unfold Repository.GetNode in Hg. rewrite Hrow in Hg. unfold scanNode in Hg. inv_ok Hg. injection Hg as <-.
  cbn [node_Capabilities].
  match goal with Hd : decoded (decode_strings _) = Ok _ |- _ => revert Hd end.
  unfold heartbeat_row. cbn [nr_capabilities_json]. rewrite Hc.
  assert ((capabilities_text (Some caps) =?s "") = false) as -> by (apply capabilities_text_nonempty; done).
  rewrite capabilities_roundtrip by done. by intros [= ->].
Qed.

Section claims.
Context `{UnicodeTables}.

(** C28. What the panel shows is what the host runs: after a heartbeat of a host
    that can apply profiles, the panel says [applied] exactly when a profile is
    desired and the host's active file holds a profile of the desired revision
    that its state file does not contradict. *)
Theorem applied_means_active mode cfg version hostname inv dk sent d token now rsp d' read resp record :
  reachable d -> clock_ok now = true -> profileApplyReady mode cfg = true ->
  Service.Heartbeat d (cfg_nodeID cfg) token (cycle_heartbeat mode cfg version hostname inv dk sent) now
  = (Ok rsp, d') ->
  Service.GetNodeProfile d' (cfg_nodeID cfg) read = Ok resp ->
  Repository.GetNodeProfile d (cfg_nodeID cfg) = Ok record ->
  ap_State (resp_Apply resp) = profileApplyApplied
  <-> rec_Configured record = true /\ runs_profile dk (rec_Revision record).
Proof.
  intros Hd Hc Hready Hh Hg Hrec.
  set (req := cycle_heartbeat mode cfg version hostname inv dk sent) in *.
  assert (hb_Profile req = Some (observation dk)
          /\ hb_Capabilities req = Some (advertisedCapabilities mode cfg)) as [Hp Hcaps].
  { unfold req, cycle_heartbeat. cbn [configuredManagedFileRoots]. rewrite Hready.
    cbn [attachProfileObservation hb_Profile hb_Capabilities]. by destruct (observation dk). }
  assert (reachable d') as Hd'%reachable_inv.
  { pose proof (service_call_reachable (CallHeartbeat (cfg_nodeID cfg) token req now) d Hc Hd) as Hr.
    simpl in Hr. by rewrite Hh in Hr. }
  destruct (accepted_heartbeat _ _ _ _ _ _ _ _ Hh Hp) as ((r & text & Hrow) & Hobs & Hprof).
  { rewrite Hcaps. by apply advertised_profile. }
  destruct (GetNodeProfileObservation_ok d' _ _ Hd' Hobs) as (seen & Hget).
  unfold Service.GetNodeProfile in Hg. apply rbind_Ok in Hg as (node & Hnode & Hg).
  rewrite Hget in Hg. apply rbind_Ok in Hg as (record' & Hrec' & Hg). cbn [rbind] in Hg.
  apply rbind_Ok in Hg as (latest & _ & [= <-]).
  assert (record' = record) as ->.
  { revert Hrec Hrec'. unfold Repository.GetNodeProfile. rewrite Hprof, Hrow.
    destruct (db_nodes d !! cfg_nodeID cfg); [|discriminate]. intros E1 E2. rewrite E1 in E2. by injection E2. }
  rewrite applied_status, (heartbeat_capabilities _ _ _ _ _ _ _ _ Hrow Hnode Hcaps (advertised_utf8 mode cfg)).
  rewrite advertised_profile, <-observation_applied. naive_solver.
Qed.
End claims.

(** ** Witnesses *)

Section witnesses.
#[local] Existing Instance latin_tables.

Definition sample_clock : cycle_clock := mkClock sample_later sample_later sample_later sample_later.
Definition idle (t : Task) (d : disk) : TaskResultRequest * disk := (mkTaskResult TaskStatusFailed ∅ "unsupported", d).

Lemma profile_cycle_witness :
  exists d' dk', runCycle (hub_client sample_node sample_token sample_clock)
    (profile_executor sample_controller good_calls idle) sample_heartbeat sample_d5 empty_disk
    = (TaskCompleted 1 TaskStatusCompleted, d', dk') /\ reachable d'.
Proof.
  set (cycle := runCycle _ _ _ _ _).
  assert (cycle = (cycle.1.1, cycle.1.2, cycle.2)) as Hc by (by destruct cycle as [[? ?] ?]).
  destruct (AuthenticateNode (client_heartbeat (hub_client sample_node sample_token sample_clock)
    sample_heartbeat sample_d5).2 sample_node sample_token) as [node|] eqn:Ha; [|by vm_compute in Ha].
  destruct (profile_cycle sample_controller good_calls idle sample_node sample_token sample_clock
    sample_heartbeat sample_d5 empty_disk node cycle.1.1 cycle.1.2 cycle.2) as [Hr _].
  - exact sample_d5_reachable.
  - repeat split; vm_compute; reflexivity.
  - intros t w. apply map_Forall_empty.
  - exact Ha.
  - exact Hc.
  - exists cycle.1.2, cycle.2. split; [|exact Hr]. etransitivity; [exact Hc|].
    assert (cycle.1.1 = TaskCompleted 1 TaskStatusCompleted) as -> by (vm_compute; reflexivity). reflexivity.
Defined.

Definition applied_disk : disk :=
  mkDisk Missing (Regular (wrapper_text (mkWrapper profileSchemaVersion 1 sample_normal))) Missing Missing.

Lemma applied_means_active_witness :
  exists resp,
    Service.GetNodeProfile (Service.Heartbeat sample_d3 sample_node sample_token
      (cycle_heartbeat (fun _ => Some 493) sample_config "1.4.0" "edge" (hb_Inventory sample_heartbeat)
         applied_disk sample_later) sample_later).2 sample_node sample_later = Ok resp
    /\ ap_State (resp_Apply resp) = profileApplyApplied /\ runs_profile applied_disk 1.
Proof.
  set (req := cycle_heartbeat _ _ _ _ _ _ _). set (out := Service.Heartbeat _ _ _ _ _).
  destruct out.1 as [rsp|] eqn:Eout; [|by vm_compute in Eout].
  destruct (Service.GetNodeProfile out.2 sample_node sample_later) as [resp|] eqn:Eg; [|by vm_compute in Eg].
  destruct (Repository.GetNodeProfile sample_d3 sample_node) as [record|] eqn:Er; [|by vm_compute in Er].
  exists resp. split; [done|].
  destruct (applied_means_active (fun _ => Some 493) sample_config "1.4.0" "edge" (hb_Inventory sample_heartbeat)
    applied_disk sample_later sample_d3 sample_token sample_later rsp out.2 sample_later resp record) as [H1 _].
  - exact sample_d3_reachable.
  - by vm_compute.
  - by vm_compute.
  - change (out = (Ok rsp, out.2)). rewrite <-Eout. apply surjective_pairing.
  - exact Eg.
  - exact Er.
  - assert (ap_State (resp_Apply resp) = profileApplyApplied) as Ha.
    { vm_compute in Eg. by injection Eg as <-. }
    split; [done|]. destruct (H1 Ha) as [_ Hr]. vm_compute in Er. by injection Er as <-.
Defined.
End witnesses.
