(* ===== verification/AgentTasks.v ===== *)
(** * The agent's task executor: [tasks.go] and [integration_status.go] of [cmd/hserver-agent]

    A task is executed by checks on its payload and on what the host's
    configuration enables, then by calls of the host's controllers.  The
    controllers are interfaces in the source; here a call is an [operation]
    whose answer the host chooses, and [execute] is a program of such calls.  A
    theorem about [execute] thus holds whatever the controllers answer. *)

From stdpp Require Import base strings gmap list.
From Stdlib Require Import ZArith Lia Ascii.
From S2P Require Import Prelude GoStrings GoBase64 GoJson GoTime HubTypes TaskGate IntegrationStatus AgentStore AgentConfig AgentApply Metrics.
Local Open Scope Z_scope.
Local Open Scope hub_scope.

(** ** Programs of calls *)

Section programs.
Context {E : Type -> Type}.

Inductive prog (A : Type) : Type :=
| Ret (a : A)
| Call {B : Type} (o : E B) (k : B -> prog A).
Arguments Ret {A} _.
Arguments Call {A B} _ _.

(** Run against a host with state [W]. *)
Fixpoint run_prog {A W : Type} (host : forall B, E B -> W -> B * W) (p : prog A) (w : W) : A * W :=
  match p with
  | Ret a => (a, w)
  | Call o k => let '(b, w') := host _ o w in run_prog host (k b) w'
  end.

(** Every call the program can make satisfies [P], whatever the answers. *)
Fixpoint all_calls {A} (P : forall B, E B -> Prop) (p : prog A) : Prop :=
  match p with
  | Ret _ => True
  | Call o k => P _ o /\ forall b, all_calls P (k b)
  end.

(** Every value the program can return, when the answers satisfy [Q], satisfies [R]. *)
Fixpoint all_results {A} (Q : forall B, E B -> B -> Prop) (R : A -> Prop) (p : prog A) : Prop :=
  match p with
  | Ret a => R a
  | Call o k => forall b, Q _ o b -> all_results Q R (k b)
  end.

(** The program calls the host, first with a call that satisfies [P]. *)
Definition begins {A} (P : forall B, E B -> Prop) (p : prog A) : Prop :=
  match p with Ret _ => False | Call o _ => P _ o end.
End programs.
Arguments prog : clear implicits.
Arguments Ret {E A} _.
Arguments Call {E A B} _ _.

(** ** Errors *)

(** The sentinels [errors.Is] is asked for. *)
Inductive sentinel : Type :=
| errNginxConfigChanged | errNginxConfigInvalid | errNginxConfigTooLarge | errManagedFileTooLarge
| errPHPConfigChanged | errPHPConfigInvalid | errPHPConfigTooLarge
| errCronChanged | errCronNotFound | errCronInvalid
| errFirewallChanged | errFirewallNotFound | errFirewallInvalid | errFirewallProtected | errFirewallPersistence
| errManagedDeployDomainStale | errManagedDeployDomainDrift | errManagedDeployDomainConflict
| errManagedDeployDomainCleanup | ErrProjectDomainCleanup | errManagedDeployDomainObservation.

#[global] Instance sentinel_eq_dec : EqDecision sentinel.
Proof. solve_decision. Defined.

(** An error: its text and the sentinels it wraps. *)
Record error : Type := mkError { err_Error : string; err_wraps : list sentinel }.
Definition errors_New (text : string) : error := mkError text [].
Definition errors_Is (e : error) (s : sentinel) : bool := bool_decide (s ∈ err_wraps e).

Definition answer (A : Type) : Type := result error A.

(** ** The controllers' interfaces *)

Record serviceState : Type := mkServiceState { sst_Name : string; sst_Active : string; sst_Sub : string }.
Record ProcessSignalResult : Type := mkSignalResult {
  psr_Message : string; psr_Exited : bool; psr_Confirmed : bool
}.

(** A value that is only put on the wire: its JSON, or the text of the error
    [json.Marshal] returns for it. *)
Definition value : Type := result string json.

Inductive hostOperation : Type :=
| OptimizeMemory | ResetSwap | CleanTemporaryFiles | ScheduleReboot | CancelScheduledReboot.

Record firewallRule : Type := mkRule {
  rule_ID : string; rule_Action : string; rule_Protocol : string; rule_Port : Z; rule_Source : string;
  rule_Comment : string; rule_Managed : bool; rule_Raw : string
}.

(** What a probe of [integration_status.go] did: the state and whether an error
    came with it, whether its context had ended by then, and how long it took. *)
Record probe_run : Type := mkProbeRun { pr_State : string; pr_Failed : bool; pr_Expired : bool; pr_Duration : Z }.

Inductive operation : Type -> Type :=
| ProfileApply (payload : gmap string string) : operation (result string profileApplyOutcome)
| UpdateStatus : operation (answer value)
| UpdateUpgrade (version : string) : operation (answer value)
| UpdateRollback : operation (answer value)
(** a probe that does not report before the deadline of both has no run *)
| IntegrationProbe (id : string) : operation (option probe_run)
| IntegrationClock : operation time
| MetricsCollect : operation (answer value)
| ServiceStatus (service : string) : operation (answer serviceState)
| ServiceAction (service action : string) : operation (answer unit)
| HostAction (o : hostOperation) : operation (answer string)
| TerminateProcess (pid : Z) (signal : string) (start : Z) : operation (answer ProcessSignalResult)
| DiskScan : operation (answer value)
| DiskExecute (targets : list string) : operation (answer value)
| LogsRead (source : string) (lines : Z) : operation (answer value)
| ContainerList : operation (answer value)
| ContainerAction (container action : string) : operation (answer string)
| NginxAction (action : string) : operation (answer string)
| NginxList : operation (answer value)
| NginxRead (name : string) : operation (answer value)
| NginxWrite (name content checksum : string) (reload : bool) : operation (answer string)
| PHPInventory : operation (answer value)
| PHPRead (version pool : string) : operation (answer value)
| PHPWrite (version pool content checksum : string) (reload : bool) : operation (answer string)
| PHPAction (version action : string) : operation (answer string)
| PM2List : operation (answer value)
| PM2Logs (name : string) (lines : Z) : operation (answer string)
| PM2Action (name action : string) : operation (answer string)
| CronInventory : operation (answer value)
| CronCreate (job : cronTaskJob) (revision : string) : operation (answer string)
| CronUpdate (job : cronTaskJob) (revision : string) : operation (answer unit)
| CronDelete (id revision : string) : operation (answer unit)
| CronRun (id : string) : operation (answer string)
| FirewallInventory : operation (answer value)
| FirewallAdd (rule : firewallRule) (revision : string) : operation (answer string)
| FirewallDelete (id revision : string) : operation (answer unit)
| DomainInventory : operation (answer value)
| DomainAction (config action : string) : operation (answer string)
| SSLInventory : operation (answer value)
| SSLAction (name action : string) : operation (answer string)
| DatabaseInventory : operation (answer value)
| DatabaseAction (engine action : string) : operation (answer string)
| BackupInventory : operation (answer value)
| BackupRun (plan : string) : operation (answer string)
| FilesBrowse (path : string) : operation (answer value)
| FilesRead (path : string) : operation (answer value)
| FilesWrite (path content checksum : string) : operation (answer string)
| DeployInventory : operation (answer value)
| DeployRun (target action : string) : operation (string * string * option error)
| DeployDomainInventory (target : string) : operation (answer value)
| DeployDomainHealth (target domain : string) : operation (answer value)
| DeployDomainCreate (target domain : string) : operation (answer value)
| DeployDomainEnsure (target domain revision : string) : operation (answer value)
| DeployDomainDelete (target domain : string) : operation (answer unit)
| DeployDomainEnableTLS (target domain email : string) : operation (answer value)
| DeployDomainDisableTLS (target domain : string) : operation (answer value)
| DeployDomainRenewTLS (target domain : string) : operation (answer value).

(** The components an executor may lack. *)
Inductive component : Type :=
| Chost | Cdisk | Clogs | Ccontainers | Cnginx | Cphp | Cpm2 | Ccron | Cfirewall | Cdomains | Cssl
| Cdatabases | Cbackups | Cfiles | Cdeploys | CdeployDomains | CagentUpdates | CprofileApply | Cmetrics
| CintegrationPM2 | CintegrationDocker.

Record taskExecutor : Type := mkExecutor {
  has : component -> bool;
  observed : gset string;
  allowed : gset string;
  allowedHostActions : gset string;
  allowProcessSignals : bool;
  allowAgentUpdates : bool
}.

Definition newTaskExecutor (has : component -> bool) (observed : list string)
    (allowed allowedHostActions : gset string) (allowProcessSignals : bool) : taskExecutor :=
  mkExecutor has (list_to_set observed ∪ allowed) allowed allowedHostActions allowProcessSignals false.

(** ** Patterns *)

Definition agentNginxConfigNamePattern : string -> bool :=
  class_pattern alnum (fun c => alnum c || existsb (Ascii.eqb c) (chars "._-")) 254.
Definition agentContainerNamePattern : string -> bool :=
  class_pattern alnum (fun c => alnum c || existsb (Ascii.eqb c) (chars "_.-")) 127.
Definition agentPHPPoolNamePattern : string -> bool :=
  class_pattern alnum (fun c => alnum c || existsb (Ascii.eqb c) (chars "._-")) 127.
Definition agentPM2NamePattern : string -> bool :=
  class_pattern alnum (fun c => alnum c || existsb (Ascii.eqb c) (chars "._:@-")) 127.

Definition hex_digit (c : ascii) : bool := lower_hex (byte c).
Definition decimal_digit (c : ascii) : bool := (48 <=? byte c) && (byte c <=? 57).

Definition agentSHA256Pattern (value : string) : bool := (len value =? 64) && forallb hex_digit (chars value).
Definition agentDeployDomainRevisionPattern : string -> bool := agentSHA256Pattern.

(** [^[0-9]+\.[0-9]+$] *)
Definition agentPHPVersionPattern (value : string) : bool :=
  match split "."%char value with
  | [major; minor] => negb (major =?s "") && negb (minor =?s "")
                      && forallb decimal_digit (chars major) && forallb decimal_digit (chars minor)
  | _ => false
  end.

Definition validAgentDeployAction (action : string) : bool :=
  (action =?s "preflight") || (action =?s "deploy") || (action =?s "restart") || (action =?s "rollback").

Definition validAgentDeployDomainRevision (value : string) : bool :=
  (value =?s "absent") || agentDeployDomainRevisionPattern value.

(** [strconv.ParseBool] *)
Definition ParseBool (s : string) : option bool :=
  if existsb (String.eqb s) ["1"; "t"; "T"; "true"; "TRUE"; "True"] then Some true
  else if existsb (String.eqb s) ["0"; "f"; "F"; "false"; "FALSE"; "False"] then Some false
  else None.

Definition FormatBool (b : bool) : string := if b then "true" else "false".

(** ** Results *)

Definition failedResult (e : error) : TaskResultRequest := mkTaskResult TaskStatusFailed ∅ (err_Error e).

Definition jsonTaskResult (v : value) : TaskResultRequest :=
  match v with
  | Err text => failedResult (errors_New text)
  | Ok j => mkTaskResult TaskStatusCompleted {["data" := marshal j]} ""
  end.

Definition coded (code : string) (e : error) : TaskResultRequest :=
  mkTaskResult TaskStatusFailed {["code" := code]} (err_Error e).

Definition failedNginxResult (e : error) : TaskResultRequest :=
  coded (if errors_Is e errNginxConfigChanged then "config_changed"
         else if errors_Is e errNginxConfigInvalid then "config_invalid"
         else if errors_Is e errNginxConfigTooLarge || errors_Is e errManagedFileTooLarge
         then "config_too_large"
         else "nginx_operation_failed") e.

Definition failedPHPResult (e : error) : TaskResultRequest :=
  coded (if errors_Is e errPHPConfigChanged then "config_changed"
         else if errors_Is e errPHPConfigInvalid then "config_invalid"
         else if errors_Is e errPHPConfigTooLarge || errors_Is e errManagedFileTooLarge
         then "config_too_large"
         else "php_operation_failed") e.

Definition failedCronResult (e : error) : TaskResultRequest :=
  coded (if errors_Is e errCronChanged then "cron_changed"
         else if errors_Is e errCronNotFound then "cron_not_found"
         else if errors_Is e errCronInvalid then "cron_invalid"
         else "cron_operation_failed") e.

Definition failedFirewallResult (e : error) : TaskResultRequest :=
  coded (if errors_Is e errFirewallChanged then "firewall_changed"
         else if errors_Is e errFirewallNotFound then "firewall_not_found"
         else if errors_Is e errFirewallInvalid then "firewall_invalid"
         else if errors_Is e errFirewallProtected then "firewall_protected"
         else if errors_Is e errFirewallPersistence then "firewall_persistence_failed"
         else "firewall_operation_failed") e.

(** The error text is the code alone. *)
Definition failedDeployDomainResult (e : error) : TaskResultRequest :=
  mkTaskResult TaskStatusFailed ∅
    (if errors_Is e errManagedDeployDomainStale then "stale_observation"
     else if errors_Is e errManagedDeployDomainDrift then "domain_drift"
     else if errors_Is e errManagedDeployDomainConflict then "domain_conflict"
     else if errors_Is e errManagedDeployDomainCleanup || errors_Is e ErrProjectDomainCleanup
     then "domain_cleanup_failed"
     else if errors_Is e errManagedDeployDomainObservation then "domain_observation_failed"
     else "domain_operation_failed").

(** ** Payloads *)

Definition exactPayload (payload : gmap string string) (key : string) : option string :=
  if negb (map_len payload =? 1) then None
  else let v := get payload key in if v =?s "" then None else Some v.

Definition start_stop_restart (action : string) : bool :=
  existsb (String.eqb action) ["start"; "stop"; "restart"].

Definition exactActionPayload (payload : gmap string string) : option (string * string) :=
  if negb (map_len payload =? 2) then None
  else
    let service := get payload "service" in
    let action := get payload "action" in
    if service =?s "" then None
    else if start_stop_restart action then Some (service, action) else None.

Definition exactContainerPayload (payload : gmap string string) : option (string * string) :=
  if negb (map_len payload =? 2) then None
  else
    let container := get payload "container" in
    let action := get payload "action" in
    if negb (agentContainerNamePattern container) then None
    else if start_stop_restart action then Some (container, action) else None.

(** ** The arms of [execute] *)

Definition task_prog : Type := prog operation TaskResultRequest.

Definition refuse (message : string) : task_prog := Ret (failedResult (errors_New message)).

(** The three ways an arm ends after its call. *)
Definition data_or (fail : error -> TaskResultRequest) (a : answer value) : task_prog :=
  Ret (match a with Ok v => jsonTaskResult v | Err e => fail e end).

Definition completed (result : gmap string string) : TaskResultRequest :=
  mkTaskResult TaskStatusCompleted result "".

Definition message_or (fail : error -> TaskResultRequest) (a : answer string) : task_prog :=
  Ret (match a with Ok message => completed {["message" := message]} | Err e => fail e end).

Definition said_or (fail : error -> TaskResultRequest) (message : string) (a : answer unit) : task_prog :=
  Ret (match a with Ok _ => completed {["message" := message]} | Err e => fail e end).

Definition backup_or (fail : error -> TaskResultRequest) (message : string) (a : answer string) : task_prog :=
  Ret (match a with
       | Ok backup => completed (<["message" := message]> {["backup" := backup]})
       | Err e => fail e
       end).

(** An arm that takes no payload and reads a value from a component. *)
Definition inventory (e : taskExecutor) (c : component) (message : string) (o : operation (answer value))
    (fail : error -> TaskResultRequest) (payload : gmap string string) : task_prog :=
  if negb (map_len payload =? 0) || negb (has e c) then refuse message
  else Call o (data_or fail).

Section arms.
Context (e : taskExecutor).
Abbreviation pl := (gmap string string).

Definition exec_profile_apply (p : pl) : task_prog :=
  if negb (has e CprofileApply) then Ret (failedProfileTaskResult profileErrorNotReady)
  else Call (ProfileApply p) (fun a =>
         Ret (match a with
              | Ok outcome => profileApplyTaskResult outcome
              | Err code => failedProfileTaskResult code
              end)).

Definition exec_agent_update_status : pl -> task_prog :=
  inventory e CagentUpdates "agent update status is not enabled locally" UpdateStatus failedResult.

Definition exec_agent_update_action (p : pl) : task_prog :=
  if negb (has e CagentUpdates) || negb (allowAgentUpdates e)
  then refuse "agent update actions are not enabled locally"
  else
    switch (get p "action")
      [(["upgrade"],
        if negb (map_len p =? 2) || (get p "version" =?s "")
        then refuse "agent upgrade requires exactly action and version fields"
        else Call (UpdateUpgrade (get p "version")) (data_or failedResult));
       (["rollback"],
        if negb (map_len p =? 1) then refuse "agent rollback accepts only the action field"
        else Call UpdateRollback (data_or failedResult))]
      (refuse "unsupported agent lifecycle action").

(** *** [integration_status.go] *)

(** [managedIntegrationAggregateTimeout.Milliseconds()] *)
Definition managedIntegrationAggregateTimeout_ms : Z := 10000.

Definition failedManagedIntegrationStatus : TaskResultRequest := mkTaskResult TaskStatusFailed ∅ FatalErrorCode.

Definition normalizeManagedIntegrationResult (id probe state : string) (failed timedOut : bool) (durationMS : Z)
    : ManagedIntegrationStatusResult :=
  if timedOut then mkStatusResult id Unavailable probe ErrorCodeTimeout durationMS
  else if state =?s NotConfigured then mkStatusResult id state probe ErrorCodeNotConfigured durationMS
  else if (state =?s Healthy) && negb failed then mkStatusResult id state probe "" durationMS
  else mkStatusResult id Unavailable probe ErrorCodeProbeFailed durationMS.

(** State, whether there is an error, whether it timed out. *)
Definition invokeManagedIntegrationProbe (configured : bool) (run : probe_run) : string * bool * bool :=
  if negb configured then (NotConfigured, true, false)
  else if pr_Expired run then (Unavailable, true, true)
  else (pr_State run, pr_Failed run, false).

(** The entry of a probe in the collected results. *)
Definition collected (configured : bool) (id probe : string) (reported : option probe_run) : ManagedIntegrationStatusResult :=
  match reported with
  | None => normalizeManagedIntegrationResult id probe Unavailable true true managedIntegrationAggregateTimeout_ms
  | Some run =>
      let '(state, failed, timedOut) := invokeManagedIntegrationProbe configured run in
      normalizeManagedIntegrationResult id probe state failed timedOut (Z.max 0 (pr_Duration run))
  end.

Definition status_response (node : string) (now : time) (results : list ManagedIntegrationStatusResult)
    : ManagedIntegrationStatusResponse :=
  mkStatusResponse SchemaVersion (now, 0) (mkTarget ScopeManagedNode node) (Some results)
    (existsb (fun r => negb (sr_State r =?s Healthy)) results).

(** The probes run side by side; their results are kept by probe. *)
Definition executeManagedIntegrationStatus (node : string) (p : pl) : task_prog :=
  if negb (map_len p =? 0) || (node =?s "") then Ret failedManagedIntegrationStatus
  else
    Call (IntegrationProbe ProcessPM2ID) (fun pm2 =>
    Call (IntegrationProbe DockerID) (fun docker =>
    Call IntegrationClock (fun now =>
      Ret (match Marshal (status_response node now
                   [collected (has e CintegrationPM2) ProcessPM2ID PM2InventoryProbe pm2;
                    collected (has e CintegrationDocker) DockerID DockerInfoProbe docker]) with
           | Ok data => completed {["data" := data]}
           | Err _ => failedManagedIntegrationStatus
           end)))).

Definition metrics_failed : TaskResultRequest := mkTaskResult TaskStatusFailed ∅ MetricsUnavailableError.

Definition exec_metrics_read (p : pl) : task_prog :=
  if negb (map_len p =? 0) || negb (has e Cmetrics) then Ret metrics_failed
  else Call MetricsCollect (data_or (fun _ => metrics_failed)).

Definition exec_service_status (p : pl) : task_prog :=
  match exactPayload p "service" with
  | None => refuse "service.status requires exactly the service payload field"
  | Some service =>
      if negb (bool_decide (service ∈ observed e)) then refuse "service is not in the observed allowlist"
      else Call (ServiceStatus service) (fun a =>
             Ret (match a with
                  | Err err => failedResult err
                  | Ok state => completed (<["service" := sst_Name state]>
                      (<["active" := sst_Active state]> {["sub" := sst_Sub state]}))
                  end))
  end.

Definition status_check_failed (err : error) : error :=
  mkError ("action completed but status check failed: " +:+ err_Error err) (err_wraps err).

Definition exec_service_action (p : pl) : task_prog :=
  match exactActionPayload p with
  | None => refuse "service.action requires exactly service and action payload fields"
  | Some (service, action) =>
      if negb (bool_decide (service ∈ allowed e)) then refuse "service is not in the action allowlist"
      else Call (ServiceAction service action) (fun a =>
             match a with
             | Err err => Ret (failedResult err)
             | Ok _ =>
                 Call (ServiceStatus service) (fun b =>
                   Ret (match b with
                        | Err err => failedResult (status_check_failed err)
                        | Ok state => completed (<["service" := sst_Name state]> (<["action" := action]>
                            (<["active" := sst_Active state]> {["sub" := sst_Sub state]})))
                        end))
             end)
  end.

Definition host_operation (action : string) : option hostOperation :=
  switch action
    [(["memory-optimize"], Some OptimizeMemory); (["swap-reset"], Some ResetSwap);
     (["temp-clean"], Some CleanTemporaryFiles); (["reboot"], Some ScheduleReboot);
     (["reboot-cancel"], Some CancelScheduledReboot)] None.

Definition exec_host_action (p : pl) : task_prog :=
  match exactPayload p "action" with
  | None => refuse "host.action requires exactly the action payload field"
  | Some action =>
      if negb (bool_decide (action ∈ allowedHostActions e)) then refuse "host action is not in the local allowlist"
      else if negb (has e Chost) then refuse "host action executor is unavailable"
      else match host_operation action with
           | None => refuse "unsupported host action"
           | Some o =>
               Call (HostAction o) (fun a =>
                 Ret (match a with
                      | Err err => failedResult err
                      | Ok message => completed (<["action" := action]> {["message" := message]})
                      end))
           end
  end.

Definition exec_process_signal (p : pl) : task_prog :=
  if negb (allowProcessSignals e) then refuse "process signals are not enabled locally"
  else
    let invalid := refuse "process.signal requires a valid pid, start_time, and signal" in
    let signal := get p "signal" in
    match Atoi (get p "pid"), ParseUint (get p "start_time") with
    | Some pid, Some startTime =>
        if negb (map_len p =? 3) || (pid <=? 1) || (startTime =? 0)
           || (negb (signal =?s "term") && negb (signal =?s "kill")) then invalid
        else if negb (has e Chost) then refuse "process signal executor is unavailable"
        else Call (TerminateProcess pid signal startTime) (fun a =>
               Ret (match a with
                    | Err err => failedResult err
                    | Ok r => completed (<["message" := psr_Message r]>
                        (<["exited" := FormatBool (psr_Exited r)]>
                         {["confirmed" := FormatBool (psr_Confirmed r)]}))
                    end))
    | _, _ => invalid
    end.

Definition exec_disk_scan : pl -> task_prog :=
  inventory e Cdisk "disk cleanup scan is not enabled locally" DiskScan failedResult.

Definition exec_disk_execute (p : pl) : task_prog :=
  match exactPayload p "targets" with
  | Some targets =>
      if negb (has e Cdisk) then refuse "disk cleanup execution is not enabled locally"
      else Call (DiskExecute (split ","%char targets)) (data_or failedResult)
  | None => refuse "disk cleanup execution is not enabled locally"
  end.

Definition maxLogLines : Z := 500.

Definition exec_logs_read (p : pl) : task_prog :=
  let disabled := refuse "log reading is not enabled locally" in
  match Atoi (get p "lines") with
  | Some lines =>
      if negb (map_len p =? 2) || (lines <? 1) || (maxLogLines <? lines) || negb (has e Clogs) then disabled
      else Call (LogsRead (get p "source") lines) (data_or failedResult)
  | None => disabled
  end.

Definition exec_container_list : pl -> task_prog :=
  inventory e Ccontainers "container inventory is not enabled locally" ContainerList failedResult.

Definition exec_container_action (p : pl) : task_prog :=
  let disabled := refuse "container action is not enabled locally" in
  match exactContainerPayload p with
  | Some (container, action) =>
      if negb (has e Ccontainers) then disabled
      else Call (ContainerAction container action) (message_or failedResult)
  | None => disabled
  end.

Definition exec_nginx_action (p : pl) : task_prog :=
  let disabled := refuse "Nginx action is not enabled locally" in
  match exactPayload p "action" with
  | Some action =>
      if negb (has e Cnginx) || (negb (action =?s "test") && negb (action =?s "reload")) then disabled
      else Call (NginxAction action) (message_or failedResult)
  | None => disabled
  end.

Definition exec_nginx_config_list : pl -> task_prog :=
  inventory e Cnginx "Nginx configuration reading is not enabled locally" NginxList failedNginxResult.

Definition exec_nginx_config_read (p : pl) : task_prog :=
  let disabled := refuse "Nginx configuration reading is not enabled locally" in
  match exactPayload p "name" with
  | Some name =>
      if negb (has e Cnginx) then disabled else Call (NginxRead name) (data_or failedNginxResult)
  | None => disabled
  end.

Definition exec_nginx_config_write (p : pl) : task_prog :=
  if negb (map_len p =? 4) || negb (has e Cnginx)
  then refuse "Nginx configuration writing is not enabled locally"
  else
    match DecodeString (get p "content_b64"), ParseBool (get p "reload") with
    | Some content, Some reload =>
        if negb (agentNginxConfigNamePattern (get p "name")) || negb (agentSHA256Pattern (get p "checksum"))
        then refuse "invalid Nginx configuration write request"
        else Call (NginxWrite (get p "name") content (get p "checksum") reload)
               (backup_or failedNginxResult
                  (if reload then "Nginx configuration saved, tested and reloaded"
                   else "Nginx configuration saved and tested"))
    | _, _ => refuse "invalid Nginx configuration write request"
    end.

Definition exec_php_inventory : pl -> task_prog :=
  inventory e Cphp "PHP-FPM inventory is not enabled locally" PHPInventory failedPHPResult.

Definition exec_php_config_read (p : pl) : task_prog :=
  if negb (map_len p =? 2) || negb (has e Cphp)
  then refuse "PHP-FPM configuration reading is not enabled locally"
  else Call (PHPRead (get p "version") (get p "pool")) (data_or failedPHPResult).

Definition exec_php_config_write (p : pl) : task_prog :=
  if negb (map_len p =? 5) || negb (has e Cphp)
  then refuse "PHP-FPM configuration writing is not enabled locally"
  else
    match DecodeString (get p "content_b64"), ParseBool (get p "reload") with
    | Some content, Some reload =>
        if negb (agentPHPVersionPattern (get p "version")) || negb (agentPHPPoolNamePattern (get p "pool"))
           || negb (agentSHA256Pattern (get p "checksum"))
        then refuse "invalid PHP-FPM configuration write request"
        else Call (PHPWrite (get p "version") (get p "pool") content (get p "checksum") reload)
               (backup_or failedPHPResult
                  (if reload then "PHP-FPM pool saved, tested and reloaded"
                   else "PHP-FPM pool saved and tested"))
    | _, _ => refuse "invalid PHP-FPM configuration write request"
    end.

Definition exec_php_action (p : pl) : task_prog :=
  if negb (map_len p =? 2) || negb (has e Cphp) then refuse "PHP-FPM action is not enabled locally"
  else Call (PHPAction (get p "version") (get p "action")) (message_or failedPHPResult).

Definition exec_pm2_list : pl -> task_prog :=
  inventory e Cpm2 "PM2 inventory is not enabled locally" PM2List failedResult.

Definition exec_pm2_logs (p : pl) : task_prog :=
  let disabled := refuse "PM2 log reading is not enabled locally" in
  match Atoi (get p "lines") with
  | Some lines =>
      if negb (map_len p =? 2) || negb (has e Cpm2) || (lines <? 1) || (500 <? lines)
         || negb (agentPM2NamePattern (get p "name")) then disabled
      else Call (PM2Logs (get p "name") lines) (fun a =>
             Ret (match a with Ok logs => jsonTaskResult (Ok (jstr logs)) | Err err => failedResult err end))
  | None => disabled
  end.

Definition exec_pm2_action (p : pl) : task_prog :=
  if negb (map_len p =? 2) || negb (has e Cpm2) || negb (agentPM2NamePattern (get p "name"))
  then refuse "PM2 action is not enabled locally"
  else Call (PM2Action (get p "name") (get p "action")) (message_or failedResult).

Definition exec_cron_inventory : pl -> task_prog :=
  inventory e Ccron "cron inventory is not enabled locally" CronInventory failedCronResult.

Definition maxCronStateBytes : Z := Z.shiftl 1 20.

(** [json.Unmarshal(raw, &job)] *)
Definition decode_cron_job (raw : string) : option cronTaskJob :=
  unmarshal raw ≫= fun j => decode_struct false cron_fields j (mkCronTaskJob "" "" "" "" "" false).

Definition exec_cron_write (kind : string) (p : pl) : task_prog :=
  if negb (map_len p =? 2) || negb (has e Ccron) || negb (agentSHA256Pattern (get p "revision"))
  then refuse "cron writing is not enabled locally"
  else
    match DecodeString (get p "job_b64") with
    | None => refuse "invalid cron job payload"
    | Some raw =>
        if maxCronStateBytes <? len raw then refuse "invalid cron job payload"
        else
          match decode_cron_job raw with
          | None => refuse "invalid cron job payload"
          | Some job =>
              if kind =?s TaskCronCreate then
                Call (CronCreate job (get p "revision")) (fun a =>
                  Ret (match a with
                       | Err err => failedCronResult err
                       | Ok id => completed (<["id" := id]> {["message" := "Cron job created and validated"]})
                       end))
              else Call (CronUpdate job (get p "revision"))
                     (said_or failedCronResult "Cron job updated and validated")
          end
    end.

Definition exec_cron_delete (p : pl) : task_prog :=
  if negb (map_len p =? 2) || negb (has e Ccron) then refuse "cron deletion is not enabled locally"
  else Call (CronDelete (get p "id") (get p "revision")) (said_or failedCronResult "Cron job deleted").

Definition exec_cron_run (p : pl) : task_prog :=
  if negb (map_len p =? 1) || negb (has e Ccron) then refuse "manual cron execution is not enabled locally"
  else Call (CronRun (get p "id")) (fun a =>
         Ret (match a with
              | Err err => failedCronResult err
              | Ok output => completed (<["message" := "Cron job completed"]> {["data" := marshal (jstr output)]})
              end)).

Definition exec_firewall_inventory : pl -> task_prog :=
  inventory e Cfirewall "firewall inventory is not enabled locally" FirewallInventory failedFirewallResult.

Definition zero_rule : firewallRule := mkRule "" "" "" 0 "" "" false "".

Definition rule_fields : fields_of firewallRule :=
  [("id", fun j v => (fun x => mkRule x (rule_Action v) (rule_Protocol v) (rule_Port v) (rule_Source v)
      (rule_Comment v) (rule_Managed v) (rule_Raw v)) <$> into_string j (rule_ID v));
   ("action", fun j v => (fun x => mkRule (rule_ID v) x (rule_Protocol v) (rule_Port v) (rule_Source v)
      (rule_Comment v) (rule_Managed v) (rule_Raw v)) <$> into_string j (rule_Action v));
   ("protocol", fun j v => (fun x => mkRule (rule_ID v) (rule_Action v) x (rule_Port v) (rule_Source v)
      (rule_Comment v) (rule_Managed v) (rule_Raw v)) <$> into_string j (rule_Protocol v));
   ("port", fun j v => (fun x => mkRule (rule_ID v) (rule_Action v) (rule_Protocol v) x (rule_Source v)
      (rule_Comment v) (rule_Managed v) (rule_Raw v)) <$> into_int64 j (rule_Port v));
   ("source", fun j v => (fun x => mkRule (rule_ID v) (rule_Action v) (rule_Protocol v) (rule_Port v) x
      (rule_Comment v) (rule_Managed v) (rule_Raw v)) <$> into_string j (rule_Source v));
   ("comment", fun j v => (fun x => mkRule (rule_ID v) (rule_Action v) (rule_Protocol v) (rule_Port v)
      (rule_Source v) x (rule_Managed v) (rule_Raw v)) <$> into_string j (rule_Comment v));
   ("managed", fun j v => (fun x => mkRule (rule_ID v) (rule_Action v) (rule_Protocol v) (rule_Port v)
      (rule_Source v) (rule_Comment v) x (rule_Raw v)) <$> into_bool j (rule_Managed v));
   ("raw", fun j v => (fun x => mkRule (rule_ID v) (rule_Action v) (rule_Protocol v) (rule_Port v)
      (rule_Source v) (rule_Comment v) (rule_Managed v) x) <$> into_string j (rule_Raw v))].

Definition decode_rule (raw : string) : option firewallRule :=
  unmarshal raw ≫= fun j => decode_struct false rule_fields j zero_rule.

Definition exec_firewall_add (p : pl) : task_prog :=
  if negb (map_len p =? 2) || negb (has e Cfirewall) || negb (agentSHA256Pattern (get p "revision"))
  then refuse "firewall writing is not enabled locally"
  else
    match DecodeString (get p "rule_b64") with
    | None => refuse "invalid firewall rule payload"
    | Some raw =>
        if Z.shiftl 1 10 <? len raw then refuse "invalid firewall rule payload"
        else
          match decode_rule raw with
          | None => refuse "invalid firewall rule payload"
          | Some rule =>
              Call (FirewallAdd rule (get p "revision")) (fun a =>
                Ret (match a with
                     | Err err => failedFirewallResult err
                     | Ok id => completed (<["id" := id]> {["message" := "Firewall rule added and persisted"]})
                     end))
          end
    end.

Definition exec_firewall_delete (p : pl) : task_prog :=
  if negb (map_len p =? 2) || negb (has e Cfirewall) then refuse "firewall deletion is not enabled locally"
  else Call (FirewallDelete (get p "id") (get p "revision"))
         (said_or failedFirewallResult "Firewall rule deleted and persisted").

Definition exec_domain_inventory : pl -> task_prog :=
  inventory e Cdomains "domain inventory is not enabled locally" DomainInventory failedResult.

Definition exec_domain_action (p : pl) : task_prog :=
  if negb (map_len p =? 2) || negb (has e Cdomains) then refuse "domain actions are not enabled locally"
  else Call (DomainAction (get p "config") (get p "action")) (message_or failedNginxResult).

Definition exec_ssl_inventory : pl -> task_prog :=
  inventory e Cssl "SSL certificate inventory is not enabled locally" SSLInventory failedResult.

Definition exec_ssl_action (p : pl) : task_prog :=
  if negb (map_len p =? 2) || negb (has e Cssl) then refuse "SSL certificate actions are not enabled locally"
  else Call (SSLAction (get p "name") (get p "action")) (message_or failedResult).

Definition exec_database_inventory : pl -> task_prog :=
  inventory e Cdatabases "database inventory is not enabled locally" DatabaseInventory failedResult.

Definition exec_database_action (p : pl) : task_prog :=
  if negb (map_len p =? 2) || negb (has e Cdatabases) then refuse "database actions are not enabled locally"
  else Call (DatabaseAction (get p "engine") (get p "action")) (message_or failedResult).

Definition exec_backup_inventory : pl -> task_prog :=
  inventory e Cbackups "backup inventory is not enabled locally" BackupInventory failedResult.

Definition exec_backup_run (p : pl) : task_prog :=
  if negb (map_len p =? 1) || negb (has e Cbackups) then refuse "backup execution is not enabled locally"
  else Call (BackupRun (get p "plan")) (message_or failedResult).

Definition exec_files_browse (p : pl) : task_prog :=
  if negb (map_len p =? 1) || negb (has e Cfiles) then refuse "file browsing is not enabled locally"
  else Call (FilesBrowse (get p "path")) (data_or failedResult).

Definition exec_files_read (p : pl) : task_prog :=
  if negb (map_len p =? 1) || negb (has e Cfiles) then refuse "file reading is not enabled locally"
  else Call (FilesRead (get p "path")) (data_or failedResult).

Definition exec_files_write (p : pl) : task_prog :=
  if negb (map_len p =? 3) || negb (has e Cfiles) then refuse "file writing is not enabled locally"
  else
    match DecodeString (get p "content_b64") with
    | None => refuse "invalid file content"
    | Some content =>
        Call (FilesWrite (get p "path") content (get p "checksum")) (backup_or failedNginxResult "File saved")
    end.

Definition exec_deploy_inventory : pl -> task_prog :=
  inventory e Cdeploys "deploy inventory is not enabled locally" DeployInventory failedResult.

Definition deploy_result (r : string * string * option error) : TaskResultRequest :=
  let '(message, output, err) := r in
  match err with
  | Some err => mkTaskResult TaskStatusFailed {["output" := output]} (err_Error err)
  | None => completed (<["message" := message]> {["output" := output]})
  end.

Definition exec_deploy_action (p : pl) : task_prog :=
  if negb (map_len p =? 2) || negb (has e Cdeploys) || negb (agentNginxConfigNamePattern (get p "target"))
     || negb (validAgentDeployAction (get p "action"))
  then refuse "deploy action request is invalid or disabled locally"
  else Call (DeployRun (get p "target") (get p "action")) (fun r => Ret (deploy_result r)).

Definition exec_deploy_domain_inventory (p : pl) : task_prog :=
  if negb (map_len p =? 1) || negb (has e CdeployDomains) || negb (agentNginxConfigNamePattern (get p "target"))
  then refuse "project domain inventory request is invalid or disabled locally"
  else Call (DeployDomainInventory (get p "target")) (data_or failedResult).

Definition exec_deploy_domain_health (p : pl) : task_prog :=
  if negb (map_len p =? 2) || negb (has e CdeployDomains) || negb (agentNginxConfigNamePattern (get p "target"))
  then refuse "project domain health request is invalid or disabled locally"
  else Call (DeployDomainHealth (get p "target") (get p "domain")) (data_or failedResult).

Definition exec_deploy_domain_action (p : pl) : task_prog :=
  if negb (has e CdeployDomains) || negb (agentNginxConfigNamePattern (get p "target"))
  then refuse "project domain action request is invalid or disabled locally"
  else
    let target := get p "target" in
    let domain := get p "domain" in
    let three (message : string) (k : task_prog) := if negb (map_len p =? 3) then refuse message else k in
    switch (get p "action")
      [(["create"], three "project domain create request is invalid"
          (Call (DeployDomainCreate target domain) (data_or failedResult)));
       (["ensure"],
        if negb (map_len p =? 4) || (get p "expected_revision" =?s "")
           || negb (validAgentDeployDomainRevision (get p "expected_revision"))
        then refuse "project domain ensure request requires exactly target, domain, action, and expected_revision"
        else Call (DeployDomainEnsure target domain (get p "expected_revision"))
               (data_or failedDeployDomainResult));
       (["delete"], three "project domain delete request is invalid"
          (Call (DeployDomainDelete target domain)
             (said_or failedResult "Managed project domain removed")));
       (["tls-enable"],
        if negb (map_len p =? 3) && negb (map_len p =? 4) then refuse "project TLS enable request is invalid"
        else Call (DeployDomainEnableTLS target domain (get p "email")) (data_or failedResult));
       (["tls-disable"], three "project TLS disable request is invalid"
          (Call (DeployDomainDisableTLS target domain) (data_or failedResult)));
       (["tls-renew"], three "project TLS renewal request is invalid"
          (Call (DeployDomainRenewTLS target domain) (data_or failedResult)))]
      (refuse "unsupported project domain action").

(** ** The dispatcher *)

Definition execute (task : option Task) : task_prog :=
  match task with
  | None => refuse "missing task"
  | Some t =>
      let p := task_Payload t in
      switch (task_Kind t)
        [([TaskProfileApply], exec_profile_apply p);
         ([TaskAgentUpdateStatus], exec_agent_update_status p);
         ([TaskAgentUpdateAction], exec_agent_update_action p);
         ([TaskIntegrationStatus], executeManagedIntegrationStatus (task_NodeID t) p);
         ([TaskMetricsRead], exec_metrics_read p);
         ([TaskServiceStatus], exec_service_status p);
         ([TaskServiceAction], exec_service_action p);
         ([TaskHostAction], exec_host_action p);
         ([TaskProcessSignal], exec_process_signal p);
         ([TaskDiskCleanupScan], exec_disk_scan p);
         ([TaskDiskCleanupExecute], exec_disk_execute p);
         ([TaskLogsRead], exec_logs_read p);
         ([TaskContainerList], exec_container_list p);
         ([TaskContainerAction], exec_container_action p);
         ([TaskNginxAction], exec_nginx_action p);
         ([TaskNginxConfigList], exec_nginx_config_list p);
         ([TaskNginxConfigRead], exec_nginx_config_read p);
         ([TaskNginxConfigWrite], exec_nginx_config_write p);
         ([TaskPHPInventory], exec_php_inventory p);
         ([TaskPHPConfigRead], exec_php_config_read p);
         ([TaskPHPConfigWrite], exec_php_config_write p);
         ([TaskPHPAction], exec_php_action p);
         ([TaskPM2List], exec_pm2_list p);
         ([TaskPM2Logs], exec_pm2_logs p);
         ([TaskPM2Action], exec_pm2_action p);
         ([TaskCronInventory], exec_cron_inventory p);
         ([TaskCronCreate; TaskCronUpdate], exec_cron_write (task_Kind t) p);
         ([TaskCronDelete], exec_cron_delete p);
         ([TaskCronRun], exec_cron_run p);
         ([TaskFirewallInventory], exec_firewall_inventory p);
         ([TaskFirewallAdd], exec_firewall_add p);
         ([TaskFirewallDelete], exec_firewall_delete p);
         ([TaskDomainInventory], exec_domain_inventory p);
         ([TaskDomainAction], exec_domain_action p);
         ([TaskSSLInventory], exec_ssl_inventory p);
         ([TaskSSLAction], exec_ssl_action p);
         ([TaskDatabaseInventory], exec_database_inventory p);
         ([TaskDatabaseAction], exec_database_action p);
         ([TaskBackupInventory], exec_backup_inventory p);
         ([TaskBackupRun], exec_backup_run p);
         ([TaskFilesBrowse], exec_files_browse p);
         ([TaskFilesRead], exec_files_read p);
         ([TaskFilesWrite], exec_files_write p);
         ([TaskDeployInventory], exec_deploy_inventory p);
         ([TaskDeployAction], exec_deploy_action p);
         ([TaskDeployDomainInventory], exec_deploy_domain_inventory p);
         ([TaskDeployDomainHealth], exec_deploy_domain_health p);
         ([TaskDeployDomainAction], exec_deploy_domain_action p)]
        (refuse "unsupported task kind")
  end.
End arms.

(** ** The executor [main] builds

    Every component is there but the agent updates, which need their own
    allowance. *)
Definition main_executor (cfg : config) : taskExecutor :=
  let base := newTaskExecutor
      (fun c => match c with CagentUpdates => cfg_allowAgentUpdateRead cfg | _ => true end)
      (cfg_observedServices cfg) (cfg_allowedServices cfg) (cfg_allowedHostActions cfg)
      (cfg_allowProcessSignals cfg) in
  mkExecutor (has base) (observed base) (allowed base) (allowedHostActions base) (allowProcessSignals base)
    (cfg_allowAgentUpdateRead cfg && cfg_allowAgentUpdateActions cfg).
