(* ===== verification/AgentTasksClaims.v ===== *)
(** * The agent's executor: theorems

    The agent's patterns accept what the hub's validators accept; a task the hub
    admits for an advertised capability reaches its controller; whatever a hub
    sends, a controller is only called within the host's allowances; and the
    report of a task is one the hub records. *)

From stdpp Require Import base strings gmap list.
From Stdlib Require Import ZArith Lia Ascii.
From S2P Require Import Prelude GoStrings GoBase64 GoJson GoTime HubTypes ReleaseVersion TaskGate IntegrationStatus TaskGateClaims.
From S2P Require Import AgentStore AgentConfig AgentApply AgentStoreFacts AgentMain AgentConfigClaims AgentTasks.
Local Open Scope Z_scope.
Local Open Scope hub_scope.

(** ** Patterns and validators *)

Lemma scan_agrees (first other : Z -> bool) (P Q : ascii -> bool) n limit s :
  (forall r, 0x80 <= r -> first r = false) -> (forall r, 0x80 <= r -> other r = false) ->
  (forall c, first (byte c) = P c) -> (forall c, other (byte c) = Q c) -> limit = n + 1 ->
  (if (s =?s "") || (limit <? len s) then false else scan_runes first other s) = class_pattern P Q n s.
Proof.
  intros Hf Ho HP HQ ->. destruct (String.eqb_spec s "") as [->|Hs]; [done|]. cbn [orb].
  rewrite (scan_runes_pattern first other P Q n s) by done.
  destruct (Z.ltb_spec (n + 1) (len s)).
  - by rewrite (proj2 (Z.leb_gt _ _)), andb_false_r by done.
  - by rewrite (proj2 (Z.leb_le _ _)), andb_true_r by done.
Qed.

Ltac same_pattern :=
  symmetry; apply scan_agrees; try done; try each_byte; try apply alnum_ascii;
  intros r Hr; by rewrite alnum_ascii, ContainsRune_ascii.

Lemma nginx_pattern v : agentNginxConfigNamePattern v = validNginxConfigName v.
Proof. same_pattern. Qed.

Lemma container_pattern v : agentContainerNamePattern v = validContainerName v.
Proof. same_pattern. Qed.

Lemma pool_pattern v : agentPHPPoolNamePattern v = validPHPPool v.
Proof. same_pattern. Qed.

Lemma pm2_pattern v : agentPM2NamePattern v = validPM2Name v.
Proof. same_pattern. Qed.

Lemma lower_hex_ascii r : 0x80 <= r -> lower_hex r = false.
Proof. intros Hr. unfold lower_hex. rewrite !orb_false_iff, !andb_false_iff, !Z.leb_gt. lia. Qed.

Lemma sha256_pattern v : agentSHA256Pattern v = validSHA256 v.
Proof.
  unfold agentSHA256Pattern, validSHA256. destruct (len v =? 64); [|done]. cbn [negb andb].
  rewrite forallb_runes by apply lower_hex_ascii. done.
Qed.

(** The agent's regular expressions and the hub's character loops accept the
    same identifiers, for nodes, services, configurations, containers, PHP
    pools, PM2 processes and revisions: what one side lets through the other
    never refuses for its spelling. *)
Theorem identifiers_agree v :
  nodeIDPattern v = validNodeID v /\ servicePattern v = validUnitName v
  /\ agentNginxConfigNamePattern v = validNginxConfigName v /\ agentContainerNamePattern v = validContainerName v
  /\ agentPHPPoolNamePattern v = validPHPPool v /\ agentPM2NamePattern v = validPM2Name v
  /\ agentSHA256Pattern v = validSHA256 v.
Proof.
  split; [apply identifier_patterns|]. split; [apply identifier_patterns|].
  split_and!; [apply nginx_pattern|apply container_pattern|apply pool_pattern|apply pm2_pattern|apply sha256_pattern].
Qed.

(** ** What the executor may call *)

(** The calls the host's allowances and the agent's own checks permit. *)
Definition permitted (e : taskExecutor) (B : Type) (o : operation B) : Prop :=
  match o with
  | ProfileApply _ => has e CprofileApply = true
  | UpdateStatus => has e CagentUpdates = true
  | UpdateUpgrade version => allowAgentUpdates e = true /\ has e CagentUpdates = true /\ version <> ""
  | UpdateRollback => allowAgentUpdates e = true /\ has e CagentUpdates = true
  | IntegrationProbe id => id ∈ [ProcessPM2ID; DockerID]
  | IntegrationClock => True
  | MetricsCollect => has e Cmetrics = true
  | ServiceStatus service => service ∈ observed e \/ service ∈ allowed e
  | ServiceAction service action => service ∈ allowed e /\ action ∈ ["start"; "stop"; "restart"]
  | HostAction o => has e Chost = true
                    /\ exists action, action ∈ allowedHostActions e /\ host_operation action = Some o
  | TerminateProcess pid signal start =>
      allowProcessSignals e = true /\ has e Chost = true /\ 1 < pid /\ start <> 0 /\ signal ∈ ["term"; "kill"]
  | DiskScan | DiskExecute _ => has e Cdisk = true
  | LogsRead _ lines => has e Clogs = true /\ 1 <= lines <= 500
  | ContainerList => has e Ccontainers = true
  | ContainerAction name action =>
      has e Ccontainers = true /\ validContainerName name = true /\ action ∈ ["start"; "stop"; "restart"]
  | NginxAction action => has e Cnginx = true /\ action ∈ ["test"; "reload"]
  | NginxList | NginxRead _ => has e Cnginx = true
  | NginxWrite name _ checksum _ =>
      has e Cnginx = true /\ validNginxConfigName name = true /\ validSHA256 checksum = true
  | PHPInventory | PHPRead _ _ | PHPAction _ _ => has e Cphp = true
  | PHPWrite version pool _ checksum _ =>
      has e Cphp = true /\ agentPHPVersionPattern version = true /\ validPHPPool pool = true
      /\ validSHA256 checksum = true
  | PM2List => has e Cpm2 = true
  | PM2Logs name lines => has e Cpm2 = true /\ validPM2Name name = true /\ 1 <= lines <= 500
  | PM2Action name _ => has e Cpm2 = true /\ validPM2Name name = true
  | CronInventory | CronDelete _ _ | CronRun _ => has e Ccron = true
  | CronCreate _ revision | CronUpdate _ revision => has e Ccron = true /\ validSHA256 revision = true
  | FirewallInventory | FirewallDelete _ _ => has e Cfirewall = true
  | FirewallAdd _ revision => has e Cfirewall = true /\ validSHA256 revision = true
  | DomainInventory | DomainAction _ _ => has e Cdomains = true
  | SSLInventory | SSLAction _ _ => has e Cssl = true
  | DatabaseInventory | DatabaseAction _ _ => has e Cdatabases = true
  | BackupInventory | BackupRun _ => has e Cbackups = true
  | FilesBrowse _ | FilesRead _ | FilesWrite _ _ _ => has e Cfiles = true
  | DeployInventory => has e Cdeploys = true
  | DeployRun target action =>
      has e Cdeploys = true /\ validNginxConfigName target = true /\ validDeployAction action = true
  | DeployDomainInventory target | DeployDomainHealth target _ | DeployDomainCreate target _
  | DeployDomainDelete target _ | DeployDomainEnableTLS target _ _ | DeployDomainDisableTLS target _
  | DeployDomainRenewTLS target _ => has e CdeployDomains = true /\ validNginxConfigName target = true
  | DeployDomainEnsure target _ revision =>
      has e CdeployDomains = true /\ validNginxConfigName target = true
      /\ (revision = "absent" \/ validSHA256 revision = true)
  end.

(** A property of every arm is a property of the switch. *)
Lemma switch_all {A} (P : A -> Prop) k cases dflt :
  Forall (fun c : list string * A => P c.2) cases -> P dflt -> P (switch k cases dflt).
Proof.
  intros Hc Hd. destruct (switch_inv k cases dflt) as [(l & b & Hin & _ & ->)|[-> _]]; [|done].
  rewrite Forall_forall in Hc. apply (Hc (l, b) Hin).
Qed.

(** Like [switch_all], for the arms whose label the key is. *)
Lemma switch_labelled {A} (P : A -> Prop) k cases dflt :
  Forall (fun c : list string * A => k ∈ c.1 -> P c.2) cases -> P dflt -> P (switch k cases dflt).
Proof.
  intros Hc Hd. destruct (switch_inv k cases dflt) as [(l & b & Hin & Hk & ->)|[-> _]]; [|done].
  rewrite Forall_forall in Hc. by apply (Hc (l, b)).
Qed.

Lemma exactPayload_Some p k v : exactPayload p k = Some v -> v = get p k /\ v <> "" /\ map_len p = 1.
Proof. unfold exactPayload. intros. repeat case_match; simplify_eq. breflect. done. Qed.

Lemma choice_elem a l : start_stop_restart a = true -> l = ["start"; "stop"; "restart"] -> a ∈ l.
Proof. intros H ->. by apply existsb_eqb_elem. Qed.

Lemma either_of a x y : negb (a =?s x) && negb (a =?s y) = false -> a ∈ [x; y].
Proof. intros [H|H]%not_both_false; apply String.eqb_eq in H; subst; set_solver. Qed.

Lemma inventory_calls e c message o fail p :
  (has e c = true -> permitted e _ o) -> all_calls (permitted e) (inventory e c message o fail p).
Proof. intros Ho. unfold inventory. destruct (_ || _) eqn:Hg; [done|]. breflect. split; [by apply Ho|done]. Qed.

(** Unfold an arm and follow its guards. *)
Ltac arm_calls f :=
  intros; unfold f;
  repeat match goal with
  | |- all_calls _ (if ?b then _ else _) => destruct b eqn:?; [done|]
  | |- all_calls _ (match ?x with _ => _ end) => destruct x eqn:?; try done
  | |- all_calls _ (refuse _) => done
  | |- all_calls _ (Ret _) => done
  end; breflect.

(** Most arms make one call. *)
Ltac one_call f :=
  arm_calls f; repeat match goal with H : exactPayload _ _ = Some _ |- _ => apply exactPayload_Some in H as (-> & ? & ?) end;
  rewrite ?nginx_pattern, ?container_pattern, ?pool_pattern, ?pm2_pattern, ?sha256_pattern in *;
  split; [cbn [permitted]; split_and?; eauto using either_of; lia|done].

Section calls.
Context (e : taskExecutor) (p : gmap string string).
Abbreviation safe := (all_calls (permitted e)).

Lemma service_action_calls : safe (exec_service_action e p).
Proof.
  arm_calls exec_service_action. unfold exactActionPayload in *. repeat case_match; simplify_eq.
  split; [split; [done|by eapply choice_elem]|]. intros [|]; [|done]. split; [by right|done].
Qed.

Lemma host_action_calls : safe (exec_host_action e p).
Proof. arm_calls exec_host_action. split; [|done]. split; [done|]. by eexists. Qed.

Lemma process_signal_calls : safe (exec_process_signal e p).
Proof. one_call exec_process_signal. Qed.

Lemma logs_read_calls : safe (exec_logs_read e p).
Proof. one_call exec_logs_read. Qed.

Lemma container_action_calls : safe (exec_container_action e p).
Proof.
  arm_calls exec_container_action. unfold exactContainerPayload in *. repeat case_match; simplify_eq. breflect.
  split; [|done]. rewrite container_pattern in *. split_and!; [done|done|by eapply choice_elem].
Qed.

Lemma nginx_action_calls : safe (exec_nginx_action e p).
Proof. one_call exec_nginx_action. Qed.

Lemma nginx_write_calls : safe (exec_nginx_config_write e p).
Proof. one_call exec_nginx_config_write. Qed.

Lemma php_write_calls : safe (exec_php_config_write e p).
Proof. one_call exec_php_config_write. Qed.

Lemma pm2_logs_calls : safe (exec_pm2_logs e p).
Proof. one_call exec_pm2_logs. Qed.

Lemma pm2_action_calls : safe (exec_pm2_action e p).
Proof. one_call exec_pm2_action. Qed.

Lemma cron_write_calls kind : safe (exec_cron_write e kind p).
Proof.
  arm_calls exec_cron_write; rewrite ?sha256_pattern in *; (split; [by split|done]).
Qed.

Lemma firewall_add_calls : safe (exec_firewall_add e p).
Proof. one_call exec_firewall_add. Qed.

Lemma deploy_action_calls : safe (exec_deploy_action e p).
Proof. one_call exec_deploy_action. Qed.

Lemma deploy_domain_action_calls : safe (exec_deploy_domain_action e p).
Proof.
  arm_calls exec_deploy_domain_action. rewrite nginx_pattern in *.
  apply switch_all; [|done]. repeat constructor; cbn [snd];
    repeat case_match; try done; (split; [|done]); split_and!; try done.
  breflect. unfold validAgentDeployDomainRevision, agentDeployDomainRevisionPattern in *. rewrite sha256_pattern in *.
  match goal with H : _ || _ = true |- _ => apply orb_true_iff in H as [H|H] end; breflect; auto.
Qed.

Lemma integration_status_calls node : safe (executeManagedIntegrationStatus e node p).
Proof.
  unfold executeManagedIntegrationStatus. destruct (_ || _); [done|].
  split; [left|]. intros pm2. split; [right; left|]. done.
Qed.

Lemma agent_update_action_calls : safe (exec_agent_update_action e p).
Proof.
  arm_calls exec_agent_update_action. apply switch_all; [|done].
  repeat constructor; cbn [snd]; case_match; try done; breflect; (split; [|done]); split_and!; done.
Qed.
End calls.

(** C26. Whatever task a hub sends, admitted or not, the executor calls a
    controller only within the host's allowances: services and host actions of
    the local allowlists, signals only when enabled and never to process 0 or
    1, configuration writes only to plain names with a well-formed checksum,
    deployments only of plain targets with a known action. *)
Theorem executor_permits e task : all_calls (permitted e) (execute e task).
Proof.
  destruct task as [t|]; [|done]. unfold execute. apply switch_all; [|done].
  repeat apply Forall_cons_2; try apply Forall_nil_2; cbn [snd];
    eauto using service_action_calls, host_action_calls, process_signal_calls, logs_read_calls,
      container_action_calls, nginx_action_calls, nginx_write_calls, php_write_calls, pm2_logs_calls,
      pm2_action_calls, cron_write_calls, firewall_add_calls, deploy_action_calls,
      deploy_domain_action_calls, agent_update_action_calls, integration_status_calls.
  all: try (apply inventory_calls; done).
  all: try match goal with |- all_calls _ (?f _ _) => one_call f end.
  all: done.
Qed.

(** ** Tasks the hub admits *)

(** A decoded firewall rule of the agent carries what the hub checked. *)
Definition same_rule (h : firewallTaskRule) (r : firewallRule) : Prop :=
  rule_Action r = fw_Action h /\ rule_Protocol r = fw_Protocol h /\ rule_Port r = fw_Port h
  /\ rule_Source r = fw_Source h /\ rule_Comment r = fw_Comment h.

Definition rule_keys : list string := ["action"; "protocol"; "port"; "source"; "comment"].

Lemma rule_members ms h h' r :
  Forall (fun kv : string * json => kv.1 ∈ rule_keys) ms -> same_rule h r ->
  decode_members false firewall_fields ms h = Some h' ->
  exists r', decode_members false rule_fields ms r = Some r' /\ same_rule h' r'.
Proof.
  revert h r. induction ms as [|[k v] ms IH]; intros h r Hk Hs; [intros [= <-]; by exists r|].
  apply Forall_cons in Hk as [Hk Hks]. destruct h, r, Hs as (Ha & Hp & Hport & Hsrc & Hc). simpl in *. subst.
  repeat (apply elem_of_cons in Hk as [->|Hk]);
    [..|by apply not_elem_of_nil in Hk]; cbn; intros Hd;
    match type of Hd with context [?f v ?x] => destruct (f v x) as [y|] eqn:E; [|done] end;
    cbn in Hd |- *; (eapply IH; [done| |exact Hd]); done.
Qed.

Lemma raw_map_keys ms :
  forallb (fun k => existsb (String.eqb k) rule_keys)
    (elements (dom (foldl (fun m (kv : string * json) => <[kv.1 := kv.2]> m) (∅ : gmap string json) ms))) = true ->
  Forall (fun kv : string * json => kv.1 ∈ rule_keys) ms.
Proof.
  rewrite forallb_forall. intros Hk. apply Forall_forall. intros [k v] Hin. apply existsb_eqb_elem, Hk.
  apply list_elem_of_In, elem_of_elements. simpl. clear Hk.
  assert (forall m, k ∈ dom m \/ (exists v, (k, v) ∈ ms) ->
    k ∈ dom (foldl (fun m (kv : string * json) => <[kv.1 := kv.2]> m) (m : gmap string json) ms)) as Hgen.
  { clear Hin v. induction ms as [|[k' v'] ms IH]; intros m Hm; simpl.
    - destruct Hm as [|[v Hv]]; [done|by apply not_elem_of_nil in Hv].
    - apply IH. destruct Hm as [Hm|[v Hv]]; [left; set_solver|].
      apply elem_of_cons in Hv as [[= -> ->]|Hv]; [left; set_solver|right; by exists v]. }
  apply Hgen. right. by exists v.
Qed.

Lemma admitted_rule encoded :
  validFirewallRulePayload encoded = true ->
  exists raw rule h, DecodeString encoded = Some raw /\ len raw <= 1024 /\ decode_rule raw = Some rule
    /\ same_rule h rule /\ validFirewallRule h = true.
Proof.
  unfold validFirewallRulePayload, decode_rule. destruct (DecodeString encoded) as [raw|]; [|done].
  destruct (_ || _) eqn:Hlen; [done|]. breflect. unfold unmarshal_raw_map.
  destruct (unmarshal raw) as [j|] eqn:Hu; [|done].
  intros Hv. exists raw. destruct j as [| | | | |ms]; try done.
  destruct ((_ <? 2) || _); [done|].
  destruct (negb (forallb _ _)) eqn:Hk; [done|]. apply negb_false_iff, raw_map_keys in Hk.
  destruct (negb _); [done|]. destruct (negb _); [done|]. cbn [mbind option_bind decode_struct] in *.
  destruct (decode_members false firewall_fields ms _) as [h|] eqn:Hd; [|done].
  assert (same_rule (mkFirewallTaskRule "" "" 0 "" "") zero_rule) as Hz by done.
  destruct (rule_members ms _ h zero_rule Hk Hz Hd) as (rule & Hr & Hsame).
  exists rule, h. split_and!; try done. by rewrite Hu.
Qed.

Lemma admitted_cron encoded b :
  validCronJobPayload encoded b = true ->
  exists raw job, DecodeString encoded = Some raw /\ len raw <= maxCronStateBytes /\ decode_cron_job raw = Some job
    /\ validCronJob b job = true.
Proof.
  unfold validCronJobPayload, decode_cron_job. destruct (DecodeString encoded) as [raw|]; [|done].
  destruct (_ || _) eqn:Hlen; [done|]. breflect.
  destruct (unmarshal_raw_map raw) as [fields|]; [|done].
  destruct ((_ <? 4) || _); [done|]. destruct (negb _); [done|].
  destruct (unmarshal raw ≫= _) as [job|] eqn:Hj; [|done]. destruct (negb _); [done|]. intros Hv.
  exists raw, job. split_and!; [done| |exact Hj|done]. etransitivity; [eassumption|by vm_compute].
Qed.

Lemma php_version_agrees v : validPHPVersion v = true -> agentPHPVersionPattern v = true.
Proof.
  unfold validPHPVersion, agentPHPVersionPattern. destruct (split _ v) as [|a [|b [|]]]; try done.
  destruct (_ || _) eqn:E; [done|]. intros [Hd _]%andb_true_iff. apply orb_false_iff in E as [-> ->]. cbn [negb andb].
  cbn [forallb] in Hd. rewrite andb_true_r in Hd. revert Hd.
  rewrite !forallb_runes; [done|..]; intros r Hr; apply andb_false_iff; rewrite !Z.leb_gt; lia.
Qed.

Lemma boolean_parses s : not_boolean s = false -> is_Some (ParseBool s).
Proof. intros [H|H]%not_both_false; apply String.eqb_eq in H as ->; by eexists. Qed.

Lemma content_decodes encoded : check_content encoded = Ok tt -> is_Some (DecodeString encoded).
Proof. unfold check_content. destruct (DecodeString encoded); [by eexists|done]. Qed.

(** Follow an arm of the gate into the arm of the executor. *)
Ltac refuted :=
  unfold validContainerAction, start_stop_restart in *; cbn [existsb] in *;
  repeat match goal with
  | H : invalid_when _ = Ok _ |- _ => apply invalid_when_ok in H
  | H : negb _ && negb _ = false |- _ => apply not_both_false in H as [H|H]
  end; breflect;
  repeat match goal with H : _ || _ = true |- _ => apply orb_true_iff in H as [H|H] end;
  breflect;
  try (match goal with H : ?f (get ?p ?k) = true, E : get ?p ?k = "" |- _ => rewrite E in H; by vm_compute in H end);
  first [congruence | lia | done].

(** The operation a task of a kind and with a payload asks for, with its
    arguments. *)
Definition asked (kind : string) (p : gmap string string) (B : Type) (o : operation B) : Prop :=
  let field := get p in
  match o with
  | ProfileApply payload => kind = TaskProfileApply /\ payload = p
  | UpdateStatus => kind = TaskAgentUpdateStatus
  | UpdateUpgrade version => kind = TaskAgentUpdateAction /\ field "action" = "upgrade" /\ version = field "version"
  | UpdateRollback => kind = TaskAgentUpdateAction /\ field "action" = "rollback"
  | IntegrationProbe _ => kind = TaskIntegrationStatus
  | IntegrationClock => False
  | MetricsCollect => kind = TaskMetricsRead
  | ServiceStatus service => kind = TaskServiceStatus /\ service = field "service"
  | ServiceAction service action => kind = TaskServiceAction /\ service = field "service" /\ action = field "action"
  | HostAction o => kind = TaskHostAction /\ host_operation (field "action") = Some o
  | TerminateProcess pid signal start =>
      kind = TaskProcessSignal /\ Atoi (field "pid") = Some pid /\ signal = field "signal"
      /\ ParseUint (field "start_time") = Some start
  | DiskScan => kind = TaskDiskCleanupScan
  | DiskExecute targets => kind = TaskDiskCleanupExecute /\ targets = split ","%char (field "targets")
  | LogsRead source lines => kind = TaskLogsRead /\ source = field "source" /\ Atoi (field "lines") = Some lines
  | ContainerList => kind = TaskContainerList
  | ContainerAction container action =>
      kind = TaskContainerAction /\ container = field "container" /\ action = field "action"
  | NginxAction action => kind = TaskNginxAction /\ action = field "action"
  | NginxList => kind = TaskNginxConfigList
  | NginxRead name => kind = TaskNginxConfigRead /\ name = field "name"
  | NginxWrite name content checksum reload =>
      kind = TaskNginxConfigWrite /\ name = field "name" /\ DecodeString (field "content_b64") = Some content
      /\ checksum = field "checksum" /\ ParseBool (field "reload") = Some reload
  | PHPInventory => kind = TaskPHPInventory
  | PHPRead version pool => kind = TaskPHPConfigRead /\ version = field "version" /\ pool = field "pool"
  | PHPWrite version pool content checksum reload =>
      kind = TaskPHPConfigWrite /\ version = field "version" /\ pool = field "pool"
      /\ DecodeString (field "content_b64") = Some content /\ checksum = field "checksum"
      /\ ParseBool (field "reload") = Some reload
  | PHPAction version action => kind = TaskPHPAction /\ version = field "version" /\ action = field "action"
  | PM2List => kind = TaskPM2List
  | PM2Logs name lines => kind = TaskPM2Logs /\ name = field "name" /\ Atoi (field "lines") = Some lines
  | PM2Action name action => kind = TaskPM2Action /\ name = field "name" /\ action = field "action"
  | CronInventory => kind = TaskCronInventory
  | CronCreate job revision =>
      kind = TaskCronCreate /\ DecodeString (field "job_b64") ≫= decode_cron_job = Some job /\ revision = field "revision"
  | CronUpdate job revision =>
      kind = TaskCronUpdate /\ DecodeString (field "job_b64") ≫= decode_cron_job = Some job /\ revision = field "revision"
  | CronDelete id revision => kind = TaskCronDelete /\ id = field "id" /\ revision = field "revision"
  | CronRun id => kind = TaskCronRun /\ id = field "id"
  | FirewallInventory => kind = TaskFirewallInventory
  | FirewallAdd rule revision =>
      kind = TaskFirewallAdd /\ DecodeString (field "rule_b64") ≫= decode_rule = Some rule /\ revision = field "revision"
  | FirewallDelete id revision => kind = TaskFirewallDelete /\ id = field "id" /\ revision = field "revision"
  | DomainInventory => kind = TaskDomainInventory
  | DomainAction config action => kind = TaskDomainAction /\ config = field "config" /\ action = field "action"
  | SSLInventory => kind = TaskSSLInventory
  | SSLAction name action => kind = TaskSSLAction /\ name = field "name" /\ action = field "action"
  | DatabaseInventory => kind = TaskDatabaseInventory
  | DatabaseAction engine action => kind = TaskDatabaseAction /\ engine = field "engine" /\ action = field "action"
  | BackupInventory => kind = TaskBackupInventory
  | BackupRun plan => kind = TaskBackupRun /\ plan = field "plan"
  | FilesBrowse path => kind = TaskFilesBrowse /\ path = field "path"
  | FilesRead path => kind = TaskFilesRead /\ path = field "path"
  | FilesWrite path content checksum =>
      kind = TaskFilesWrite /\ path = field "path" /\ DecodeString (field "content_b64") = Some content
      /\ checksum = field "checksum"
  | DeployInventory => kind = TaskDeployInventory
  | DeployRun target action => kind = TaskDeployAction /\ target = field "target" /\ action = field "action"
  | DeployDomainInventory target => kind = TaskDeployDomainInventory /\ target = field "target"
  | DeployDomainHealth target domain =>
      kind = TaskDeployDomainHealth /\ target = field "target" /\ domain = field "domain"
  | DeployDomainCreate target domain =>
      kind = TaskDeployDomainAction /\ field "action" = "create" /\ target = field "target" /\ domain = field "domain"
  | DeployDomainEnsure target domain revision =>
      kind = TaskDeployDomainAction /\ field "action" = "ensure" /\ target = field "target" /\ domain = field "domain"
      /\ revision = field "expected_revision"
  | DeployDomainDelete target domain =>
      kind = TaskDeployDomainAction /\ field "action" = "delete" /\ target = field "target" /\ domain = field "domain"
  | DeployDomainEnableTLS target domain email =>
      kind = TaskDeployDomainAction /\ field "action" = "tls-enable" /\ target = field "target" /\ domain = field "domain"
      /\ email = field "email"
  | DeployDomainDisableTLS target domain =>
      kind = TaskDeployDomainAction /\ field "action" = "tls-disable" /\ target = field "target" /\ domain = field "domain"
  | DeployDomainRenewTLS target domain =>
      kind = TaskDeployDomainAction /\ field "action" = "tls-renew" /\ target = field "target" /\ domain = field "domain"
  end.

(** The call is the one that was asked for. *)
Ltac as_asked := cbn [begins asked]; cbv zeta; split_and?; solve [done | eauto | congruence].

Ltac reach chk exe :=
  let H := fresh "H" in
  intros H Hhas; unfold chk, valid_lines in H; arm H;
  unfold exe, exactPayload, exactActionPayload, exactContainerPayload, inventory, maxLogLines;
  change validAgentDeployAction with validDeployAction;
  rewrite ?nginx_pattern, ?container_pattern, ?pool_pattern, ?pm2_pattern, ?sha256_pattern, ?Hhas;
  repeat (case_match; simplify_eq; try done; try as_asked); breflect; try done; refuted.

Section reach.
Context (e : taskExecutor) (p : gmap string string).

Lemma reach_inventory kind c message o fail :
  asked kind p _ o -> check_no_payload p = Ok tt -> has e c = true -> begins (asked kind p) (inventory e c message o fail p).
Proof. intros Ho. reach check_no_payload inventory. Qed.

Lemma reach_logs : check_logs_read p = Ok tt -> has e Clogs = true -> begins (asked TaskLogsRead p) (exec_logs_read e p).
Proof. reach check_logs_read exec_logs_read. Qed.

Lemma reach_disk :
  check_disk_cleanup_execute p = Ok tt -> has e Cdisk = true -> begins (asked TaskDiskCleanupExecute p) (exec_disk_execute e p).
Proof. reach check_disk_cleanup_execute exec_disk_execute. Qed.

Lemma reach_service_status :
  check_service_status p = Ok tt -> get p "service" ∈ observed e -> begins (asked TaskServiceStatus p) (exec_service_status e p).
Proof. reach check_service_status exec_service_status. Qed.

Lemma reach_service_action :
  check_service_action p = Ok tt -> get p "service" ∈ allowed e -> begins (asked TaskServiceAction p) (exec_service_action e p).
Proof. reach check_service_action exec_service_action. Qed.

Lemma reach_host_action :
  check_host_action p = Ok tt -> has e Chost = true -> get p "action" ∈ allowedHostActions e ->
  begins (asked TaskHostAction p) (exec_host_action e p).
Proof.
  intros Hc Hh Hin. assert (is_Some (host_operation (get p "action"))) as [o Ho].
  { unfold check_host_action in Hc. arm Hc. match goal with H : existsb _ _ = true |- _ => apply existsb_eqb_elem in H end.
    repeat match goal with H : _ ∈ _ :: _ |- _ => apply elem_of_cons in H as [->|H]; [by eexists|] end.
    by match goal with H : _ ∈ [] |- _ => apply not_elem_of_nil in H end. }
  revert Hc Hin. reach check_host_action exec_host_action.
Qed.

Lemma reach_signal :
  check_process_signal p = Ok tt -> has e Chost = true -> allowProcessSignals e = true ->
  begins (asked TaskProcessSignal p) (exec_process_signal e p).
Proof. intros Hc Hh. revert Hc. reach check_process_signal exec_process_signal. Qed.

Lemma reach_container_action :
  check_container_action p = Ok tt -> has e Ccontainers = true -> begins (asked TaskContainerAction p) (exec_container_action e p).
Proof. reach check_container_action exec_container_action. Qed.

Lemma reach_nginx_action :
  check_nginx_action p = Ok tt -> has e Cnginx = true -> begins (asked TaskNginxAction p) (exec_nginx_action e p).
Proof. reach check_nginx_action exec_nginx_action. Qed.

Lemma reach_nginx_config_read :
  check_nginx_config_read p = Ok tt -> has e Cnginx = true -> begins (asked TaskNginxConfigRead p) (exec_nginx_config_read e p).
Proof. reach check_nginx_config_read exec_nginx_config_read. Qed.

Lemma reach_nginx_config_write :
  check_nginx_config_write p = Ok tt -> has e Cnginx = true -> begins (asked TaskNginxConfigWrite p) (exec_nginx_config_write e p).
Proof.
  intros Hc. assert (is_Some (DecodeString (get p "content_b64")) /\ is_Some (ParseBool (get p "reload"))) as [[c E1] [r E2]].
  { unfold check_nginx_config_write in Hc. arm Hc. split_and!; eauto using content_decodes, boolean_parses. }
  revert Hc. reach check_nginx_config_write exec_nginx_config_write.
Qed.

Lemma reach_php_config_read :
  check_php_config_read p = Ok tt -> has e Cphp = true -> begins (asked TaskPHPConfigRead p) (exec_php_config_read e p).
Proof. reach check_php_config_read exec_php_config_read. Qed.

Lemma reach_php_config_write :
  check_php_config_write p = Ok tt -> has e Cphp = true -> begins (asked TaskPHPConfigWrite p) (exec_php_config_write e p).
Proof.
  intros Hc. assert (is_Some (DecodeString (get p "content_b64")) /\ is_Some (ParseBool (get p "reload"))
    /\ agentPHPVersionPattern (get p "version") = true) as ([c E1] & [r E2] & Ev).
  { unfold check_php_config_write in Hc. arm Hc. split_and!; eauto using content_decodes, boolean_parses, php_version_agrees. }
  revert Hc. reach check_php_config_write exec_php_config_write.
Qed.

Lemma reach_php_action : check_php_action p = Ok tt -> has e Cphp = true -> begins (asked TaskPHPAction p) (exec_php_action e p).
Proof. reach check_php_action exec_php_action. Qed.

Lemma reach_pm2_logs : check_pm2_logs p = Ok tt -> has e Cpm2 = true -> begins (asked TaskPM2Logs p) (exec_pm2_logs e p).
Proof. reach check_pm2_logs exec_pm2_logs. Qed.

Lemma reach_pm2_action : check_pm2_action p = Ok tt -> has e Cpm2 = true -> begins (asked TaskPM2Action p) (exec_pm2_action e p).
Proof. reach check_pm2_action exec_pm2_action. Qed.

Lemma reach_cron_write kind b :
  kind ∈ [TaskCronCreate; TaskCronUpdate] ->
  check_cron_write b p = Ok tt -> has e Ccron = true -> begins (asked kind p) (exec_cron_write e kind p).
Proof.
  intros Hk Hc Hhas. unfold check_cron_write in Hc. arm Hc.
  match goal with H : validCronJobPayload _ _ = true |- _ => apply admitted_cron in H as (raw & job & E1 & El & E2 & _) end.
  assert (DecodeString (get p "job_b64") ≫= decode_cron_job = Some job) as E by (by rewrite E1).
  unfold exec_cron_write. rewrite sha256_pattern, Hhas, E1, E2. destruct (_ || _) eqn:Hg; [refuted|].
  destruct (Z.ltb_spec maxCronStateBytes (len raw)); [lia|].
  destruct (String.eqb_spec kind TaskCronCreate) as [->|Hne]; [by split_and!|].
  apply elem_of_cons in Hk as [Hk|Hk%list_elem_of_singleton]; [done|]. subst kind. by split_and!.
Qed.

Lemma reach_cron_delete : check_cron_delete p = Ok tt -> has e Ccron = true -> begins (asked TaskCronDelete p) (exec_cron_delete e p).
Proof. reach check_cron_delete exec_cron_delete. Qed.

Lemma reach_cron_run : check_cron_run p = Ok tt -> has e Ccron = true -> begins (asked TaskCronRun p) (exec_cron_run e p).
Proof. reach check_cron_run exec_cron_run. Qed.

Lemma reach_firewall_add : check_firewall_add p = Ok tt -> has e Cfirewall = true -> begins (asked TaskFirewallAdd p) (exec_firewall_add e p).
Proof.
  intros Hc Hhas. unfold check_firewall_add in Hc. arm Hc.
  match goal with H : validFirewallRulePayload _ = true |- _ => apply admitted_rule in H as (raw & rule & h & E1 & El & E2 & _) end.
  assert (DecodeString (get p "rule_b64") ≫= decode_rule = Some rule) as E by (by rewrite E1).
  unfold exec_firewall_add. rewrite sha256_pattern, Hhas, E1, E2. change (Z.shiftl 1 10) with 1024.
  repeat (case_match; try done; try as_asked); refuted.
Qed.

Lemma reach_firewall_delete :
  check_firewall_delete p = Ok tt -> has e Cfirewall = true -> begins (asked TaskFirewallDelete p) (exec_firewall_delete e p).
Proof. reach check_firewall_delete exec_firewall_delete. Qed.

Lemma reach_domain_action : check_domain_action p = Ok tt -> has e Cdomains = true -> begins (asked TaskDomainAction p) (exec_domain_action e p).
Proof. reach check_domain_action exec_domain_action. Qed.

Lemma reach_ssl_action : check_ssl_action p = Ok tt -> has e Cssl = true -> begins (asked TaskSSLAction p) (exec_ssl_action e p).
Proof. reach check_ssl_action exec_ssl_action. Qed.

Lemma reach_database_action :
  check_database_action p = Ok tt -> has e Cdatabases = true -> begins (asked TaskDatabaseAction p) (exec_database_action e p).
Proof. reach check_database_action exec_database_action. Qed.

Lemma reach_backup_run : check_backup_run p = Ok tt -> has e Cbackups = true -> begins (asked TaskBackupRun p) (exec_backup_run e p).
Proof. reach check_backup_run exec_backup_run. Qed.

Lemma reach_files_browse : check_files_read p = Ok tt -> has e Cfiles = true -> begins (asked TaskFilesBrowse p) (exec_files_browse e p).
Proof. reach check_files_read exec_files_browse. Qed.

Lemma reach_files_read : check_files_read p = Ok tt -> has e Cfiles = true -> begins (asked TaskFilesRead p) (exec_files_read e p).
Proof. reach check_files_read exec_files_read. Qed.

Lemma reach_files_write : check_files_write p = Ok tt -> has e Cfiles = true -> begins (asked TaskFilesWrite p) (exec_files_write e p).
Proof.
  intros Hc. assert (is_Some (DecodeString (get p "content_b64"))) as [c E1].
  { unfold check_files_write in Hc. arm Hc. eauto using content_decodes. }
  revert Hc. reach check_files_write exec_files_write.
Qed.

Lemma reach_deploy_action : check_deploy_action p = Ok tt -> has e Cdeploys = true -> begins (asked TaskDeployAction p) (exec_deploy_action e p).
Proof. reach check_deploy_action exec_deploy_action. Qed.

Lemma reach_deploy_domain_inventory :
  check_deploy_domain_inventory p = Ok tt -> has e CdeployDomains = true -> begins (asked TaskDeployDomainInventory p) (exec_deploy_domain_inventory e p).
Proof. reach check_deploy_domain_inventory exec_deploy_domain_inventory. Qed.

Lemma reach_deploy_domain_health :
  check_deploy_domain_health p = Ok tt -> has e CdeployDomains = true -> begins (asked TaskDeployDomainHealth p) (exec_deploy_domain_health e p).
Proof. reach check_deploy_domain_health exec_deploy_domain_health. Qed.

Lemma reach_integration_status node :
  check_no_payload p = Ok tt -> node <> "" ->
  begins (asked TaskIntegrationStatus p) (executeManagedIntegrationStatus e node p).
Proof.
  intros Hc Hn. unfold check_no_payload in Hc. arm Hc. unfold executeManagedIntegrationStatus.
  rewrite (proj2 (String.eqb_neq _ _) Hn). case_match; [refuted|done].
Qed.

Lemma reach_agent_update_action :
  check_agent_update_action p = Ok tt -> has e CagentUpdates = true -> allowAgentUpdates e = true ->
  begins (asked TaskAgentUpdateAction p) (exec_agent_update_action e p).
Proof.
  unfold check_agent_update_action, exec_agent_update_action. intros Hc -> ->. cbn [negb orb].
  destruct (String.eqb_spec (get p "action") "upgrade") as [E|].
  - rewrite ?E in Hc |- *. arm Hc. match goal with H : Compare _ _ = _ |- _ => pose proof (Compare_self_nonempty _ (bool_decide_eq_true_2 _ H)) end.
    cbn [switch existsb String.eqb Ascii.eqb Bool.eqb orb]. repeat (case_match; try done; try as_asked); refuted.
  - destruct (String.eqb_spec (get p "action") "rollback") as [E|]; [|done]. rewrite ?E in Hc |- *. arm Hc.
    cbn [switch existsb String.eqb Ascii.eqb Bool.eqb orb]. repeat (case_match; try done; try as_asked); refuted.
Qed.

Lemma reach_deploy_domain_action :
  check_deploy_domain_action p = Ok tt -> has e CdeployDomains = true -> begins (asked TaskDeployDomainAction p) (exec_deploy_domain_action e p).
Proof.
  unfold check_deploy_domain_action, exec_deploy_domain_action, validDeployDomainAction. intros Hc ->.
  rewrite nginx_pattern. unfold validAgentDeployDomainRevision, agentDeployDomainRevisionPattern. rewrite sha256_pattern.
  destruct (String.eqb_spec (get p "action") "ensure") as [E|Hne].
  - rewrite ?E in Hc |- *. arm Hc. cbn [switch existsb String.eqb Ascii.eqb Bool.eqb orb]. cbv zeta.
    repeat (case_match; try done; try as_asked);
      repeat match goal with H : negb _ && negb _ = false |- _ => apply not_both_false in H as [H|H] end;
      repeat match goal with H : context [get p "expected_revision" =?s ?x] |- _ =>
        destruct (String.eqb_spec (get p "expected_revision") x); simplify_eq; cbn in * end;
      try done; try refuted.
  - assert (exists n, map_len p = n /\ validNginxConfigName (get p "target") = true
      /\ (n = 3 \/ n = 4 /\ get p "action" = "tls-enable")
      /\ get p "action" ∈ ["create"; "delete"; "ensure"; "tls-enable"; "tls-disable"; "tls-renew"]) as (n & Hl & Ht & Hn & Ha).
    { apply invalid_when_ok in Hc. apply orb_false_iff in Hc as [Hc Ha]. apply orb_false_iff in Hc as [Hc _].
      apply orb_false_iff in Hc as [Hl Ht]. apply negb_false_iff in Hl, Ht, Ha. apply Z.eqb_eq in Hl.
      eexists. split; [exact Hl|]. split; [done|]. split.
      - destruct ((_ =?s "tls-enable") && _) eqn:E; [|by left]. right. by breflect.
      - repeat (apply orb_true_iff in Ha as [Ha|Ha]); try discriminate Ha; apply String.eqb_eq in Ha; rewrite Ha; set_solver. }
    rewrite Hl, Ht. cbn [negb orb].
    repeat (apply elem_of_cons in Ha as [Ha|Ha]); try (by apply not_elem_of_nil in Ha); try done; rewrite Ha;
      destruct Hn as [->|[-> Hn]]; try as_asked; by rewrite Ha in Hn.
Qed.
End reach.

(** The allowlists of the host that a task names an entry of. *)
Definition locally_allowed (cfg : config) (t : Task) : Prop :=
  (task_Kind t = TaskServiceStatus ->
     get (task_Payload t) "service" ∈ cfg_observedServices cfg
     \/ get (task_Payload t) "service" ∈ cfg_allowedServices cfg)
  /\ (task_Kind t = TaskServiceAction -> get (task_Payload t) "service" ∈ cfg_allowedServices cfg)
  /\ (task_Kind t = TaskHostAction -> get (task_Payload t) "action" ∈ cfg_allowedHostActions cfg).

Ltac listed := unfold optional_capabilities; repeat (apply list_elem_of_here || apply list_elem_of_further).

Lemma switch_skip {A} (P : A -> Prop) k labels body rest d :
  existsb (String.eqb k) labels = false -> P (switch k rest d) -> P (switch k ((labels, body) :: rest) d).
Proof. intros E. simpl. by rewrite E. Qed.

Lemma switch_take {A} (P : A -> Prop) k labels body rest d :
  existsb (String.eqb k) labels = true -> P body -> P (switch k ((labels, body) :: rest) d).
Proof. intros E. simpl. by rewrite E. Qed.

(** C25. The hub's gate, the agent's configuration and the agent's executor fit
    together: a task the hub admits, of a kind whose capability the agent
    advertises and whose service or host action the local allowlists name, is
    never refused by the executor's own checks: it calls the controller of its
    kind, and asks it for the operation the payload describes, with the
    payload's arguments. *)
Theorem admitted_task_reaches `{UnicodeTables} cfg mode t :
  sound_config cfg -> ValidateTaskRequest (mkTaskRequest (task_Kind t) (task_Payload t)) = Ok tt ->
  capabilityForTask (task_Kind t) ∈ advertisedCapabilities mode cfg -> locally_allowed cfg t -> task_NodeID t <> "" ->
  begins (asked (task_Kind t) (task_Payload t)) (execute (main_executor cfg) (Some t)).
Proof.
  intros Hsound Hv Hcap (Hobs & Hact & Hhost) Hnode.
  apply ValidateTaskRequest_arm in Hv as (labels & body & Hin & Hl & Hb). cbn [req_Kind req_Payload] in *.
  unfold execute. set (e := main_executor cfg).
  assert (forall c, c <> CagentUpdates -> has e c = true) as Hhas by (by intros []).
  destruct t as [id node kind p status result err c1 c2 c3]. cbn [task_Kind task_Payload task_NodeID] in *.
  unfold task_cases in Hin.
  repeat (apply elem_of_cons in Hin as [[= -> ->]|Hin];
    [repeat (apply elem_of_cons in Hl as [->|Hl]); [..|by apply not_elem_of_nil in Hl]|]).
  all: try (by apply not_elem_of_nil in Hin).
  all: match goal with |- begins ?P _ =>
    repeat (apply (switch_skip (begins P)); [reflexivity|]); apply (switch_take (begins P)); [reflexivity|] end.
  all: try (apply reach_inventory; [reflexivity|done|by apply Hhas]).
  all: try (eauto 3 using reach_logs, reach_disk, reach_container_action, reach_nginx_action, reach_nginx_config_read,
    reach_nginx_config_write, reach_php_config_read, reach_php_config_write, reach_php_action, reach_pm2_logs,
    reach_pm2_action, reach_cron_delete, reach_cron_run, reach_firewall_add,
    reach_firewall_delete, reach_domain_action, reach_ssl_action, reach_database_action, reach_backup_run,
    reach_files_browse, reach_files_read, reach_files_write, reach_deploy_action,
    reach_deploy_domain_inventory, reach_deploy_domain_health, reach_deploy_domain_action; fail).
  all: try (eapply reach_cron_write; [listed|done|by apply Hhas]).
  - apply reach_service_status; [done|].
    change (observed e) with (list_to_set (cfg_observedServices cfg) ∪ cfg_allowedServices cfg).
    apply elem_of_union. rewrite elem_of_list_to_set. exact (Hobs eq_refl).
  - by apply reach_service_action; [|apply Hact].
  - by apply reach_host_action; [|apply Hhas|apply Hhost].
  - apply reach_signal; [done|by apply Hhas|]. change (cfg_allowProcessSignals cfg = true).
    change (capabilityForTask TaskProcessSignal) with CapabilityProcessSignal in Hcap.
    apply advertised_in with (b := cfg_allowProcessSignals cfg) in Hcap; [done|listed|done].
  - apply reach_inventory; [reflexivity|done|]. change (cfg_allowAgentUpdateRead cfg = true).
    change (capabilityForTask TaskAgentUpdateStatus) with CapabilityAgentUpdateRead in Hcap.
    apply advertised_in with (b := cfg_allowAgentUpdateRead cfg) in Hcap; [done|listed|done].
  - change (capabilityForTask TaskAgentUpdateAction) with CapabilityAgentUpdateAction in Hcap.
    apply advertised_in with (b := cfg_allowAgentUpdateActions cfg) in Hcap; [|listed|done].
    assert (cfg_allowAgentUpdateRead cfg = true) as Hread.
    { pose proof (sound_permissions _ Hsound) as Hp. unfold required_reads in Hp. breflect.
      by rewrite Hcap in *. }
    apply reach_agent_update_action; [done|done|].
    change (cfg_allowAgentUpdateRead cfg && cfg_allowAgentUpdateActions cfg = true). by rewrite Hread, Hcap.
  - by apply reach_integration_status.
Qed.

(** ** Witnesses *)

Definition logs_task : Task :=
  mkTask 3 "edge-01" TaskLogsRead (<["source" := "nginx"]> {["lines" := "50"]}) TaskStatusRunning ∅ "" 0 None None.

Lemma admitted_task_reaches_witness :
  begins (asked TaskLogsRead (task_Payload logs_task)) (execute (main_executor sample_config) (Some logs_task)).
Proof.
  apply (@admitted_task_reaches latin_tables sample_config (fun _ => None)).
  - exact (load_sound _ _ _ _ _ _ sample_config_loads).
  - vm_compute. reflexivity.
  - apply existsb_eqb_elem. vm_compute. reflexivity.
  - split_and!; discriminate.
  - discriminate.
Defined.
