(* ===== verification/AgentReports.v ===== *)
(** * What the agent reports: theorems

    The report of every task is one the hub records, as long as what the
    controllers answer with is short enough and has no control characters in the
    texts that are reported as they are.  What is reported as JSON may have any
    characters that JSON escapes, and the integration status, which the executor
    makes itself, is accepted whatever its probes answer. *)

From stdpp Require Import base strings gmap list.
From Stdlib Require Import ZArith Lia Ascii Wf_nat.
From S2P Require Import Prelude GoStrings GoJson GoTime HubTypes TaskGate Heartbeat IntegrationStatus Repository Service Metrics HostClaims Samples.
From S2P Require Import AgentStore AgentConfig AgentApply AgentStoreFacts AgentApplyClaims AgentConfigClaims AgentTasks AgentTasksClaims.
Local Open Scope Z_scope.
Local Open Scope hub_scope.
Local Opaque marshal.

(** ** Texts that fit *)

(** A value of a result, and an error. *)
Definition clean (s : string) : Prop := len s <= maxTaskResultValueLength /\ containsControl s = false.
Definition error_within (limit : Z) (s : string) : Prop :=
  len s <= limit /\ containsControl s = false /\ TrimSpace s <> "".
(** The longest text the executor puts before an error has 42 bytes. *)
Definition clean_error : string -> Prop := error_within (maxTaskErrorLength - 42).

(** Texts and documents without the control characters that JSON does not
    escape, U+007F to U+009F. *)
Definition unescaped_control (r : Z) : bool := (0x7F <=? r) && (r <=? 0x9F).
Definition tame_text (s : string) : bool := negb (existsb unescaped_control (runes s)).

Definition printable_b (s : string) : bool := forallb (fun c => (0x20 <=? byte c) && (byte c <? 0x7F)) (chars s).

Fixpoint tame (j : json) : bool :=
  match j with
  | JNull | JBool _ => true
  | JNum lit => printable_b lit
  | JStr _ s => tame_text s
  | JArr l => forallb tame l
  | JObj m => forallb (fun kv => tame_text kv.1 && tame kv.2) m
  end.

Definition short_document (j : json) : Prop := tame j = true /\ len (marshal j) <= maxTaskResultValueLength.

Definition clean_value (v : value) : Prop :=
  match v with Ok j => short_document j | Err text => clean_error text end.

Definition clean_answer {A} (P : A -> Prop) (a : answer A) : Prop :=
  match a with Ok x => P x | Err e => clean_error (err_Error e) end.

Definition clean_state (s : serviceState) : Prop := clean (sst_Name s) /\ clean (sst_Active s) /\ clean (sst_Sub s).

(** Answers of the controllers that fit the hub's bounds. *)
Definition fits (B : Type) (o : operation B) : B -> Prop :=
  match o in operation B return B -> Prop with
  | ProfileApply _ => fun a =>
      match a with
      | Ok outcome => clean (out_State outcome) /\ 0 <= out_Revision outcome <= max_int64
      | Err _ => True
      end
  | IntegrationProbe _ => fun reported =>
      match reported with Some run => min_int64 <= pr_Duration run <= max_int64 | None => True end
  | IntegrationClock => fun _ => True
  | UpdateStatus | UpdateUpgrade _ | UpdateRollback | MetricsCollect | DiskScan | DiskExecute _ | LogsRead _ _
  | ContainerList | NginxList | NginxRead _ | PHPInventory | PHPRead _ _ | PM2List | CronInventory
  | FirewallInventory | DomainInventory | SSLInventory | DatabaseInventory | BackupInventory | FilesBrowse _
  | FilesRead _ | DeployInventory | DeployDomainInventory _ | DeployDomainHealth _ _ | DeployDomainCreate _ _
  | DeployDomainEnsure _ _ _ | DeployDomainEnableTLS _ _ _ | DeployDomainDisableTLS _ _
  | DeployDomainRenewTLS _ _ => clean_answer clean_value
  | ServiceStatus _ => clean_answer clean_state
  | ServiceAction _ _ | CronUpdate _ _ | CronDelete _ _ | FirewallDelete _ _ | DeployDomainDelete _ _ =>
      clean_answer (fun _ => True)
  | HostAction _ | ContainerAction _ _ | NginxAction _ | NginxWrite _ _ _ _ | PHPWrite _ _ _ _ _ | PHPAction _ _
  | PM2Action _ _ | CronCreate _ _ | FirewallAdd _ _ | DomainAction _ _ | SSLAction _ _ | DatabaseAction _ _
  | BackupRun _ | FilesWrite _ _ _ => clean_answer clean
  | PM2Logs _ _ | CronRun _ => clean_answer (fun s => short_document (jstr s))
  | TerminateProcess _ _ _ => clean_answer (fun r => clean (psr_Message r))
  | DeployRun _ _ => fun '(message, output, err) =>
      clean output /\ match err with Some e => clean_error (err_Error e) | None => clean message end
  end.

(** ** Helper lemmas *)

Lemma control_app a b : printable a -> containsControl (a +:+ b) = containsControl b.
Proof.
  unfold printable, containsControl, runes. induction a as [|c a IH]; intros Ha; [done|].
  apply Forall_cons in Ha as [Hc Ha]. simpl. unfold decode_rune. rewrite (proj2 (Z.ltb_lt _ _)) by lia. cbn [existsb].
  rewrite IH by done. replace (IsControl (byte c)) with false; [done|]. symmetry. unfold IsControl.
  apply orb_false_iff. split; apply andb_false_iff; [right|left]; apply Z.leb_gt; lia.
Qed.

Lemma printable_reflect s : printable_b s = true -> printable s.
Proof.
  intros Hs%forallb_Forall. eapply Forall_impl; [exact Hs|]. simpl. intros c Hc. breflect. lia.
Qed.

(** *** Documents

    A text is inert when it has no control characters and what follows it is
    read from its own start. *)

Definition inert (a : string) : Prop := forall t, containsControl (a +:+ t) = containsControl t.

Lemma inert_printable a : printable_b a = true -> inert a.
Proof. intros Ha t. by apply control_app, printable_reflect. Qed.

Lemma inert_app a b : inert a -> inert b -> inert (a +:+ b).
Proof. intros Ha Hb t. by rewrite <-string_app_assoc, Ha, Hb. Qed.

Lemma inert_nil : inert "".
Proof. by intros t. Qed.

Lemma inert_clean a : inert a -> containsControl a = false.
Proof. intros Ha. by rewrite <-(string_app_nil_r a), Ha. Qed.

Lemma runes_skip p q : runes_from (String.length p) (p +:+ q) = runes q.
Proof. induction p as [|c p IH]; [done|]. apply IH. Qed.

Lemma inert_rune c p r :
  (forall q, decode_rune c (p +:+ q) = Some (r, String.length p)) -> IsControl r = false -> inert (String c p).
Proof.
  intros Hd Hr t. unfold containsControl, runes. rewrite string_app_cons. cbn [runes_from]. rewrite Hd. cbn [existsb].
  by rewrite Hr, runes_skip.
Qed.

Lemma escape_ascii_inert c : byte c < 0x7F -> inert (escape_ascii c).
Proof.
  intros Hc. apply inert_printable.
  destruct c as [[] [] [] [] [] [] [] []]; try (vm_compute; reflexivity); exfalso; by vm_compute in Hc.
Qed.

Lemma hex_digit_printable d :
  0 <= d < 16 -> let c := of_byte (if d <? 10 then 48 + d else 87 + d) in (0x20 <=? byte c) && (byte c <? 0x7F) = true.
Proof.
  intros Hd. assert (forallb (fun n => let d := Z.of_nat n in let c := of_byte (if d <? 10 then 48 + d else 87 + d) in
    (0x20 <=? byte c) && (byte c <? 0x7F)) (seq 0 16) = true) as Hall by (vm_compute; reflexivity).
  rewrite forallb_forall in Hall. specialize (Hall (Z.to_nat d)). rewrite Z2Nat.id in Hall by lia.
  apply Hall, in_seq. lia.
Qed.

Lemma escape_rune_inert r : inert (escape_rune r).
Proof.
  apply inert_printable. unfold escape_rune, hex4_digits, printable_b. cbv zeta.
  do 6 (apply andb_true_iff; split; [first [reflexivity|apply hex_digit_printable, Z.mod_pos_bound; lia]|]). reflexivity.
Qed.

(** What an escaped text shows of control characters: none of its own. *)
Lemma escape_inert s : tame_text s = true -> inert (escape_from 0 s).
Proof.
  remember (String.length s) as n eqn:Hn. revert s Hn. induction (lt_wf n) as [n _ IH]. intros [|c s] -> Ht; [apply inert_nil|].
  unfold tame_text, runes in Ht. cbn [runes_from] in Ht. cbn [escape_from].
  destruct (decode_rune c s) as [[r w]|] eqn:Hd; cbn [existsb] in Ht; rewrite negb_orb in Ht; apply andb_true_iff in Ht as [Hr Ht].
  - destruct (decode_rune_chunk _ _ _ _ Hd) as (p & q & -> & <- & Hq). rewrite runes_skip in Ht.
    assert (inert (escape_from 0 q)) as Hin.
    { eapply IH; [|reflexivity|exact Ht]. simpl. pose proof (len_app p q). unfold len in *. lia. }
    apply negb_true_iff in Hr. unfold unescaped_control in Hr.
    destruct (String.length p) as [|w] eqn:Hw.
    + destruct p; [|done]. apply inert_app; [|done]. apply escape_ascii_inert.
      pose proof (decode_ascii _ _ _ Hd) as Hc. unfold decode_rune in Hd. rewrite (proj2 (Z.ltb_lt _ _)) in Hd by done.
      injection Hd as <-. apply andb_false_iff in Hr as [Hr|Hr]; apply Z.leb_gt in Hr; lia.
    + destruct ((r =? 0x2028) || (r =? 0x2029)) eqn:Hsep.
      * assert (r = 0x2028 \/ r = 0x2029) as Hr2 by (apply orb_true_iff in Hsep as [?|?]; breflect; auto).
        pose proof (Hq "") as Hp. rewrite string_app_nil_r, <-Hw in Hp.
        destruct (decode_separator _ _ _ Hp Hr2) as (_ & c1 & c2 & ->). rewrite !string_app_cons. change ("" +:+ q) with q.
        apply inert_app; [apply escape_rune_inert|done].
      * rewrite <-Hw, escape_copy. apply (inert_app (String c p)); [|done]. apply (inert_rune c p r); [by rewrite Hw|].
        destruct (decode_multi _ _ _ _ _ Hd) as (Hge & _). pose proof (decode_rune_big _ _ _ _ Hge Hd).
        unfold IsControl. apply andb_false_iff in Hr as [Hr|Hr]; apply Z.leb_gt in Hr; [lia|].
        apply orb_false_iff. split; apply andb_false_iff; rewrite !Z.leb_gt; lia.
  - apply inert_app; [apply escape_rune_inert|]. eapply IH; [|reflexivity|exact Ht]. simpl. lia.
Qed.

Lemma inert_char c a : (0x20 <=? byte c) && (byte c <? 0x7F) = true -> inert a -> inert (String c a).
Proof. intros Hc Ha. apply (inert_app (String c "")); [|done]. apply inert_printable. cbn. by rewrite Hc. Qed.

Lemma quote_inert s : tame_text s = true -> inert (quote s).
Proof. intros Hs. apply inert_char; [done|]. apply inert_app; [by apply escape_inert|by apply inert_printable]. Qed.

Lemma join_inert c l : (0x20 <=? byte c) && (byte c <? 0x7F) = true -> Forall inert l -> inert (join c l).
Proof.
  intros Hc Hl. induction Hl as [|a [|b l] Ha Hl IH]; [apply inert_nil|done|].
  apply inert_app; [done|]. by apply inert_char.
Qed.

Lemma marshal_inert j : tame j = true -> inert (marshal j).
Proof.
  induction j as [|[]|lit|b s|l IH|m IH] using json_ind'; intros Hj; try (by apply inert_printable).
  - by apply quote_inert.
  - apply inert_char; [done|]. apply inert_app; [|by apply inert_printable]. apply join_inert; [done|].
    cbn [tame] in Hj. induction IH as [|x l Hx _ IHl]; [by constructor|]. cbn [forallb] in Hj. apply andb_true_iff in Hj as [? ?].
    constructor; auto.
  - apply inert_char; [done|]. apply inert_app; [|by apply inert_printable]. apply join_inert; [done|].
    cbn [tame] in Hj. induction IH as [|x m Hx _ IHm]; [by constructor|]. cbn [forallb] in Hj.
    apply andb_true_iff in Hj as [[? ?]%andb_true_iff ?]. constructor; [|auto].
    apply inert_app; [by apply quote_inert|]. apply inert_char; [done|auto].
Qed.

Lemma document_clean j : short_document j -> clean (marshal j).
Proof. intros [Ht Hl]. split; [done|]. by apply inert_clean, marshal_inert. Qed.

Definition entry_fits (k v : string) : Prop :=
  (k <> "" /\ len k <= maxTaskPayloadValueLength /\ containsControl k = false) /\ clean v.

Lemma accepted_result status result error :
  (status = TaskStatusCompleted /\ error = "" \/ status = TaskStatusFailed /\ error_within maxTaskErrorLength error) ->
  (size result <= 100)%nat -> map_Forall entry_fits result ->
  ValidateTaskResultRequest (mkTaskResult status result error) = Ok tt.
Proof.
  intros Hs Hn Hm. unfold ValidateTaskResultRequest. cbn [tres_Status tres_Error tres_Result].
  assert ((status =?s TaskStatusCompleted) || (status =?s TaskStatusFailed) = true
    /\ len error <= maxTaskErrorLength /\ containsControl error = false
    /\ ((status =?s TaskStatusFailed) && (TrimSpace error =?s "")) = false) as (H1 & H2 & H3 & H4).
  { destruct Hs as [[-> ->]|[-> (Hl & Hc & Ht)]]; [by vm_compute|]. split; [done|]. split; [done|].
    split; [done|]. apply andb_false_iff. right. by apply String.eqb_neq. }
  rewrite <-negb_orb, H1, H3, H4, (proj2 (Z.ltb_ge _ _)) by done. cbn [negb orb].
  unfold map_len. rewrite (proj2 (Z.ltb_ge _ _)) by lia.
  rewrite forallb_entries; [done|]. intros k v Hkv. destruct (Hm k v Hkv) as [(Hk1 & Hk2 & Hk3) [Hv1 Hv2]]. cbn [fst snd].
  rewrite (proj2 (String.eqb_neq _ _)), Hk3, Hv2, !(proj2 (Z.ltb_ge _ _)) by done. done.
Qed.

Lemma clean_within s : clean_error s -> error_within maxTaskErrorLength s.
Proof. intros (Hl & Hc & Ht). split; [unfold maxTaskErrorLength in *; lia|done]. Qed.
#[local] Hint Resolve clean_within : core.

Lemma failed_fits e : clean_error (err_Error e) -> ValidateTaskResultRequest (failedResult e) = Ok tt.
Proof. intros He. apply accepted_result; [by auto|by rewrite map_size_empty; lia|apply map_Forall_empty]. Qed.

Lemma entries_one k v : entry_fits k v -> map_Forall entry_fits ({[k := v]} : gmap string string).
Proof. intros. by apply map_Forall_singleton. Qed.

Lemma entries_more k v (m : gmap string string) :
  entry_fits k v -> map_Forall entry_fits m -> map_Forall entry_fits (<[k := v]> m).
Proof. apply map_Forall_insert_2. Qed.

Lemma size_more k (v : string) (m : gmap string string) n : (size m <= n)%nat -> (size (<[k := v]> m) <= S n)%nat.
Proof. intros Hm. rewrite map_size_insert. destruct (m !! k); simpl; lia. Qed.

Lemma size_one k (v : string) : (size ({[k := v]} : gmap string string) <= 1)%nat.
Proof. by rewrite map_size_singleton. Qed.

(** The keys and fixed texts of the source fit. *)
Lemma key_fits k v :
  negb (k =?s "") && (len k <=? maxTaskPayloadValueLength) && printable_b k = true -> clean v -> entry_fits k v.
Proof. intros Hk Hv. breflect. split; [|done]. split_and!; [done|done|by apply printable_no_control, printable_reflect]. Qed.

Lemma literal_fits v : (len v <=? maxTaskResultValueLength) && printable_b v = true -> clean v.
Proof. intros Hv. breflect. split; [done|by apply printable_no_control, printable_reflect]. Qed.

Ltac entries :=
  repeat lazymatch goal with
  | |- map_Forall _ (singletonM _ _) => apply entries_one
  | |- map_Forall _ (insert _ _ _) => apply entries_more
  end;
  (apply key_fits; [vm_compute; reflexivity|first [assumption | apply document_clean; assumption | apply literal_fits; vm_compute; reflexivity | done]]).

Ltac few := eapply Nat.le_trans; [repeat lazymatch goal with
  | |- (size (singletonM _ _) <= _)%nat => apply size_one
  | |- (size (insert _ _ _) <= _)%nat => apply size_more
  end|lia].

Lemma completed_fits m : (size m <= 100)%nat -> map_Forall entry_fits m -> ValidateTaskResultRequest (completed m) = Ok tt.
Proof. intros. apply accepted_result; auto. Qed.

Lemma coded_fits code e :
  (len code <=? maxTaskResultValueLength) && printable_b code = true -> clean_error (err_Error e) ->
  ValidateTaskResultRequest (coded code e) = Ok tt.
Proof.
  intros Hc He. apply accepted_result; [by auto|few|]. apply entries_one, key_fits; [done|by apply literal_fits].
Qed.

Lemma json_fits v : clean_value v -> ValidateTaskResultRequest (jsonTaskResult v) = Ok tt.
Proof.
  destruct v as [j|text]; intros Hv; [|by apply failed_fits].
  apply accepted_result; [by left|few|]. entries.
Qed.

Lemma nginx_failed e : clean_error (err_Error e) -> ValidateTaskResultRequest (failedNginxResult e) = Ok tt.
Proof. intros He. unfold failedNginxResult. repeat case_match; by apply coded_fits. Qed.

Lemma php_failed e : clean_error (err_Error e) -> ValidateTaskResultRequest (failedPHPResult e) = Ok tt.
Proof. intros He. unfold failedPHPResult. repeat case_match; by apply coded_fits. Qed.

Lemma cron_failed e : clean_error (err_Error e) -> ValidateTaskResultRequest (failedCronResult e) = Ok tt.
Proof. intros He. unfold failedCronResult. repeat case_match; by apply coded_fits. Qed.

Lemma firewall_failed e : clean_error (err_Error e) -> ValidateTaskResultRequest (failedFirewallResult e) = Ok tt.
Proof. intros He. unfold failedFirewallResult. repeat case_match; by apply coded_fits. Qed.

Lemma domain_failed e : ValidateTaskResultRequest (failedDeployDomainResult e) = Ok tt.
Proof. unfold failedDeployDomainResult. repeat case_match; vm_compute; reflexivity. Qed.

Lemma profile_failed code : ValidateTaskResultRequest (failedProfileTaskResult code) = Ok tt.
Proof.
  unfold failedProfileTaskResult, safeProfileErrorCode. destruct (existsb _ _) eqn:E; [|vm_compute; reflexivity].
  apply existsb_eqb_elem in E.
  repeat (apply elem_of_cons in E as [->|E]; [vm_compute; reflexivity|]). by apply not_elem_of_nil in E.
Qed.

(** Trimming keeps an ASCII character that is not white space. *)
Lemma decode_last_keeps c l x r w :
  byte x < 0x80 -> decode_last c (l ++ [x]) = Some (r, w) -> (w <= length l)%nat.
Proof.
  intros Hx. unfold decode_last. destruct (byte c <? 0x80); [intros [= _ <-]; lia|].
  assert (forall s n, (match decode_rune x s with Some (r0, w0) => if Nat.eqb w0 (S n) then Some (r0, S n) else None
                       | None => None end) = None) as Hno.
  { intros s n. unfold decode_rune. by rewrite (proj2 (Z.ltb_lt _ _)) by done. }
  destruct l as [|y [|z [|u l]]]; cbn -[decode_rune]; repeat case_match; try done; intros Hd; simplify_eq; try lia;
    cbn -[decode_rune] in *; simplify_eq;
    try (match goal with H : decode_rune ?d _ = Some _ |- _ =>
           unfold decode_rune in H; rewrite (proj2 (Z.ltb_lt _ _)) in H by done; simplify_eq end);
    try done; try lia.
Qed.

Lemma trim_right_keeps l x k :
  byte x < 0x80 -> IsSpace (byte x) = false -> (k <= length l)%nat -> trim_right_from k (l ++ [x]) <> [].
Proof.
  intros Hx Hs. revert k. induction l as [|c l IH]; intros k Hk.
  - assert (k = 0%nat) as -> by (simpl in Hk; lia). simpl. unfold decode_last.
    by rewrite (proj2 (Z.ltb_lt _ _)), Hs by done.
  - simpl in *. destruct k as [|k]; [|apply IH; lia].
    destruct (decode_last c (l ++ [x])) as [[r w]|] eqn:E; [|done]. destruct (IsSpace r); [|done].
    apply IH. by eapply decode_last_keeps.
Qed.

Lemma trim_nonblank c s : byte c < 0x80 -> IsSpace (byte c) = false -> TrimSpace (String c s) <> "".
Proof.
  intros Hc Hs. unfold TrimSpace. rewrite trim_left_id by done. simpl chars. rewrite reverse_cons.
  intros E. apply (trim_right_keeps (reverse (chars s)) c 0 Hc Hs); [lia|].
  destruct (trim_right_from 0 _) as [|y l]; [done|]. exfalso. rewrite reverse_cons in E.
  by destruct (reverse l).
Qed.

Lemma status_failed e :
  clean_error (err_Error e) -> ValidateTaskResultRequest (failedResult (status_check_failed e)) = Ok tt.
Proof.
  intros (Hl & Hc & Ht).
  apply accepted_result; [right; split; [done|]|by rewrite map_size_empty; lia|apply map_Forall_empty].
  cbn [status_check_failed err_Error]. split; [|split].
  - rewrite len_app. change (len "action completed but status check failed: ") with 42. lia.
  - by rewrite control_app by (apply printable_reflect; vm_compute; reflexivity).
  - by apply trim_nonblank.
Qed.

(** ** The arms *)

Abbreviation reported := (all_results fits (fun r => ValidateTaskResultRequest r = Ok tt)).

Lemma refuse_fits m : ValidateTaskResultRequest (failedResult (errors_New m)) = Ok tt -> reported (refuse m).
Proof. done. Qed.

Create HintDb reports.
#[local] Hint Resolve failed_fits json_fits nginx_failed php_failed cron_failed firewall_failed domain_failed
  profile_failed status_failed : reports.

(** Follow an arm; what is left are the reports of its answers. *)
Ltac arm_reports f :=
  unfold f, inventory, data_or, message_or, said_or, backup_or;
  repeat match goal with
  | |- all_results _ _ (refuse _) => apply refuse_fits; vm_compute; reflexivity
  | |- all_results _ _ (Ret _) => cbn [all_results]
  | |- all_results _ _ (if ?b then _ else _) => destruct b eqn:?
  | |- all_results _ _ (match ?x with _ => _ end) => destruct x eqn:?
  | |- all_results _ _ (Call _ _) => cbn [all_results fits]; intros [?|?] ?; cbn [clean_answer] in *
  end; eauto with reports.

Ltac completes := apply completed_fits; [few|entries].

Lemma choice_clean a : start_stop_restart a = true -> clean a.
Proof.
  intros Ha%existsb_eqb_elem. repeat (apply elem_of_cons in Ha as [->|Ha]; [by apply literal_fits|]).
  by apply not_elem_of_nil in Ha.
Qed.

Lemma host_operation_clean a o : host_operation a = Some o -> clean a.
Proof.
  unfold host_operation. destruct (switch_inv a [(["memory-optimize"], Some OptimizeMemory); (["swap-reset"], Some ResetSwap);
     (["temp-clean"], Some CleanTemporaryFiles); (["reboot"], Some ScheduleReboot);
     (["reboot-cancel"], Some CancelScheduledReboot)] None) as [(l & b & Hin & Hl & _)|[-> _]]; [|done].
  intros _. repeat (apply elem_of_cons in Hin as [[= -> ->]|Hin];
    [apply elem_of_cons in Hl as [->|Hl]; [by apply literal_fits|by apply not_elem_of_nil in Hl]|]).
  by apply not_elem_of_nil in Hin.
Qed.

Lemma FormatBool_clean b : clean (FormatBool b).
Proof. destruct b; by apply literal_fits. Qed.
#[local] Hint Resolve choice_clean host_operation_clean FormatBool_clean : reports.

Section arms.
Context (e : taskExecutor) (p : gmap string string).

Lemma service_action_reports : reported (exec_service_action e p).
Proof.
  arm_reports exec_service_action. destruct H0 as (? & ? & ?).
  assert (clean s0) by (unfold exactActionPayload in *; repeat case_match; simplify_eq; eauto with reports). completes.
Qed.

Lemma service_status_reports : reported (exec_service_status e p).
Proof. arm_reports exec_service_status. destruct H as (? & ? & ?). completes. Qed.

Lemma host_action_reports : reported (exec_host_action e p).
Proof. arm_reports exec_host_action. assert (clean s) by eauto with reports. completes. Qed.

Lemma process_signal_reports : reported (exec_process_signal e p).
Proof.
  arm_reports exec_process_signal.
  pose proof (FormatBool_clean (psr_Exited a)). pose proof (FormatBool_clean (psr_Confirmed a)). completes.
Qed.

Lemma profile_apply_reports : reported (exec_profile_apply e p).
Proof.
  arm_reports exec_profile_apply. unfold profileApplyTaskResult. destruct H as [? Hr].
  assert (clean (Itoa (out_Revision a))).
  { split; [|by apply printable_no_control, Itoa_printable].
    etransitivity; [by apply Itoa_len|by vm_compute]. }
  completes.
Qed.

Lemma deploy_action_reports : reported (exec_deploy_action e p).
Proof.
  unfold exec_deploy_action. destruct (_ || _); [apply refuse_fits; vm_compute; reflexivity|].
  intros [[message output] [err|]] [Ho Hm]; cbn [all_results deploy_result].
  - apply accepted_result; [by auto|few|entries].
  - completes.
Qed.
End arms.

Lemma cron_write_reports e kind p : reported (exec_cron_write e kind p).
Proof. arm_reports exec_cron_write; completes. Qed.

Lemma agent_update_action_reports e p : reported (exec_agent_update_action e p).
Proof.
  unfold exec_agent_update_action. destruct (_ || _); [apply refuse_fits; vm_compute; reflexivity|].
  apply switch_all; [|apply refuse_fits; vm_compute; reflexivity].
  repeat apply Forall_cons_2; try apply Forall_nil_2; cbn [snd]; arm_reports data_or.
Qed.

Lemma deploy_domain_action_reports e p : reported (exec_deploy_domain_action e p).
Proof.
  unfold exec_deploy_domain_action. destruct (_ || _); [apply refuse_fits; vm_compute; reflexivity|]. cbv zeta.
  apply switch_all; [|apply refuse_fits; vm_compute; reflexivity].
  repeat apply Forall_cons_2; try apply Forall_nil_2; cbn [snd]; arm_reports data_or; completes.
Qed.

(** ** The integration status *)

Lemma printable_b_ok s : printable s -> printable_b s = true.
Proof. intros Hs. apply forallb_Forall. eapply Forall_impl; [exact Hs|]. simpl. intros c Hc. lia. Qed.

Lemma safe_tame s : safe_text s -> tame_text s = true.
Proof.
  intros Hs. assert (printable s) as Hp.
  { eapply Forall_impl; [exact Hs|]. unfold safe_char, html_safe. simpl. intros c Hc. breflect. lia. }
  unfold tame_text. rewrite printable_runes by done. apply negb_true_iff.
  induction Hp as [|c l Hc _ IH]; [done|]. cbn [fmap list_fmap existsb]. rewrite IH, orb_false_r.
  apply andb_false_iff. left. apply Z.leb_gt. lia.
Qed.

Lemma result_tame id probe state failed timedOut d :
  tame_text id = true -> tame_text probe = true ->
  tame (result_json (normalizeManagedIntegrationResult id probe state failed timedOut d)) = true.
Proof.
  intros Hi Hp. assert (printable_b (Itoa d) = true) as Hd by (apply printable_b_ok, Itoa_printable).
  assert (forall state code, tame_text state = true -> tame_text code = true ->
    tame (result_json (mkStatusResult id state probe code d)) = true) as Hall.
  { intros s c Hs Hc. unfold result_json, omit. cbn [sr_ID sr_State sr_Probe sr_ErrorCode sr_DurationMS].
    cbn [tame]. rewrite !forallb_app. cbn [forallb fst snd tame jstr]. rewrite Hi, Hs, Hp.
    destruct (c =?s ""), (d =? 0); cbn [forallb fst snd tame jstr json_int]; rewrite ?Hc, ?Hd; reflexivity. }
  unfold normalizeManagedIntegrationResult. destruct timedOut; [by apply Hall|].
  destruct (String.eqb_spec state NotConfigured) as [->|]; [by apply Hall|].
  destruct (String.eqb_spec state Healthy) as [->|]; [|by apply Hall]. destruct failed; by apply Hall.
Qed.

Lemma collected_result configured id probe reported :
  tame_text id = true -> tame_text probe = true -> fits _ (IntegrationProbe id) reported ->
  tame (result_json (collected configured id probe reported)) = true
  /\ sr_DurationMS (collected configured id probe reported) <= max_int64.
Proof.
  intros Hi Hp Hf.
  assert (forall state failed timedOut d,
    sr_DurationMS (normalizeManagedIntegrationResult id probe state failed timedOut d) = d) as Hd
    by (intros; unfold normalizeManagedIntegrationResult; by repeat case_match).
  unfold collected. destruct reported as [run|].
  - destruct (invokeManagedIntegrationProbe configured run) as [[state failed] timedOut].
    rewrite Hd. split; [by apply result_tame|]. simpl in Hf. unfold max_int64 in *. lia.
  - rewrite Hd. split; [by apply result_tame|by vm_compute].
Qed.

Lemma status_document node now results data :
  Forall (fun r => tame (result_json r) = true /\ sr_DurationMS r <= max_int64) results ->
  Marshal (status_response node now results) = Ok data ->
  clean data /\ data <> "" /\ exists r, Decode data = Ok r.
Proof.
  intros Hr Hm. pose proof Hm as Hd.
  apply response_roundtrip in Hd; [|done|by eapply Forall_impl; [exact Hr|intros x [_ Hx]]].
  unfold Marshal in Hm. apply rbind_Ok in Hm as ([] & Hv & Hm).
  pose proof Hv as (_ & _ & _ & Hnode & _)%Validate_spec. rewrite node_ids_agree in Hnode.
  destruct (response_json _) as [j|] eqn:Hj; [|done]. unfold response_json in Hj.
  cbn [st_ObservedAt st_SchemaVersion st_Target st_Results st_Partial status_response tgt_Scope tgt_NodeID] in Hj, Hnode.
  unfold time_json in Hj. cbn [fst snd] in Hj. rewrite Z.mul_0_l, Z.add_0_r in Hj.
  destruct (clock_ok now && _) eqn:Hc; [|done]. apply andb_true_iff in Hc as [Hc _]. injection Hj as <-.
  destruct (MaxResultBytes <? len _) eqn:Hlen; [done|]. injection Hm as <-. apply Z.ltb_ge in Hlen.
  split; [|split; [done|by eexists]]. apply document_clean. split; [|etransitivity; [exact Hlen|by vm_compute]].
  cbn [tame forallb fst snd jstr]. change (format_with (zone_string 0) now) with (FormatRFC3339Nano now).
  rewrite (safe_tame _ (format_time_safe _ Hc)), (safe_tame _ (node_id_safe _ Hnode)).
  cbn [json_slice tame]. assert (forallb tame (result_json <$> results) = true) as ->; [|reflexivity].
  apply forallb_Forall, Forall_fmap. eapply Forall_impl; [exact Hr|]. by intros x [Hx _].
Qed.

(** What the hub asks of the report of a task. *)
Definition accepted_report (kind : string) (r : TaskResultRequest) : Prop :=
  ValidateTaskResultRequest r = Ok tt
  /\ (kind = TaskIntegrationStatus -> ValidateIntegrationStatusTaskResult r = Ok tt).

Lemma integration_reports e node p kind :
  all_results fits (accepted_report kind) (executeManagedIntegrationStatus e node p).
Proof.
  assert (accepted_report kind failedManagedIntegrationStatus) as Hf by by split; vm_compute.
  unfold executeManagedIntegrationStatus. destruct (_ || _); [exact Hf|]. intros pm2 Hp docker Hd now _.
  destruct (Marshal _) as [data|] eqn:Hm; [|exact Hf]. cbn [all_results].
  apply status_document in Hm as (Hc & Hne & r & Hr).
  - split; [completes|]. intros _. unfold ValidateIntegrationStatusTaskResult, completed, map_len.
    cbn [tres_Status tres_Error tres_Result]. rewrite map_size_singleton, lookup_singleton_eq, Hr.
    change (TaskStatusCompleted =?s TaskStatusCompleted) with true. cbn [negb orb Z.of_nat Z.eqb Pos.eqb String.eqb Ascii.eqb].
    destruct data; [done|]. reflexivity.
  - repeat constructor; by apply collected_result.
Qed.

Lemma plain_reports kind p : kind <> TaskIntegrationStatus -> reported p -> all_results fits (accepted_report kind) p.
Proof. intros Hk. induction p as [r|B o k IH]; intros Hp; [by split|]. intros b Hb. apply IH, Hp, Hb. Qed.

(** C27. Whatever task the hub sends and whatever the controllers answer, the
    report the executor builds is one the hub records, as long as what the
    controllers answer is short enough and free of the control characters that
    would be reported as they are: the executor itself adds no key, text or
    status the hub turns away, JSON hides line breaks and the other C0 controls,
    and the report of an integration status passes its own gate too, whatever
    the probes answered and the clock says. *)
Theorem reports_accepted e task :
  all_results fits (accepted_report (default "" (task_Kind <$> task))) (execute e task).
Proof.
  destruct task as [t|]; [|by split; vm_compute]. unfold execute. cbn [fmap option_fmap option_map default].
  destruct (String.eqb_spec (task_Kind t) TaskIntegrationStatus) as [->|Hk].
  { apply integration_reports. }
  apply switch_labelled; [|by apply plain_reports, refuse_fits; [|vm_compute]].
  repeat apply Forall_cons_2; try apply Forall_nil_2; cbn [fst snd]; intros Hl;
    try (by exfalso; apply Hk, list_elem_of_singleton); (apply plain_reports; [done|]); clear Hl;
    auto using service_action_reports, service_status_reports, host_action_reports, process_signal_reports,
      profile_apply_reports, deploy_action_reports, agent_update_action_reports, deploy_domain_action_reports.
  all: try match goal with |- all_results _ _ (?f _ _) => arm_reports f end.
  all: try match goal with |- context [if ?b then _ else _] => destruct b end.
  all: try match goal with |- ValidateTaskResultRequest (completed _) = _ => completes end.
  apply cron_write_reports.
Qed.

(** ** Witness: PM2 is well, Docker does not answer in time *)

Definition status_task : Task :=
  mkTask 7 "edge-01" TaskIntegrationStatus ∅ TaskStatusRunning ∅ "" 0 None None.

Definition status_executor : taskExecutor := mkExecutor (fun _ => true) ∅ ∅ ∅ false false.

Definition status_report : TaskResultRequest :=
  match Marshal (status_response "edge-01" sample_now
          [collected true ProcessPM2ID PM2InventoryProbe (Some (mkProbeRun Healthy false false 12));
           collected true DockerID DockerInfoProbe None]) with
  | Ok data => completed {["data" := data]}
  | Err _ => failedManagedIntegrationStatus
  end.

Lemma reports_accepted_witness :
  tres_Status status_report = TaskStatusCompleted /\ accepted_report TaskIntegrationStatus status_report.
Proof.
  split; [vm_compute; reflexivity|]. pose proof (reports_accepted status_executor (Some status_task)) as H.
  refine (H (Some (mkProbeRun Healthy false false 12)) _ None I sample_now I). by split; vm_compute.
Defined.
