(* ===== verification/AgentDeploy.v ===== *)
(** * Deployments on the agent: [cmd/hserver-agent/deploy.go]

    The plans a host configures, the targets the agent reports of them, and the
    run of one action with its captured output.  The files and processes of the
    host answer through the parameters. *)

From stdpp Require Import base strings gmap list.
From Stdlib Require Import ZArith Lia Ascii.
From S2P Require Import Prelude GoStrings GoJson GoTime GoFloat HubTypes TaskGate Heartbeat AgentStore AgentTasks.
Local Open Scope Z_scope.
Local Open Scope hub_scope.

(** ** Library functions *)

(** [time.Duration.String] *)
Definition second_ns : Z := 1000000000.

Definition small_duration (u : Z) : string :=
  let unit_of scale suffix := Itoa (u / scale) +:+ fraction_string (u mod scale * (second_ns / scale)) +:+ suffix in
  if u <? 1000 then Itoa u +:+ "ns"
  else if u <? 1000000 then unit_of 1000 "µs"
  else unit_of 1000000 "ms".

Definition large_duration (u : Z) : string :=
  let secs := u / second_ns in
  let tail := Itoa (secs mod 60) +:+ fraction_string (u mod second_ns) +:+ "s" in
  let minutes := secs / 60 in
  if minutes =? 0 then tail
  else if minutes / 60 =? 0 then Itoa minutes +:+ "m" +:+ tail
  else Itoa (minutes / 60) +:+ "h" +:+ Itoa (minutes mod 60) +:+ "m" +:+ tail.

Definition Duration_String (d : Z) : string :=
  let u := Z.abs d in
  let text := if u =? 0 then "0s" else if u <? second_ns then small_duration u else large_duration u in
  if d <? 0 then "-" +:+ text else text.

(** [strings.ToValidUTF8(s, replacement)]: one replacement for each run of
    invalid bytes. *)
Fixpoint to_valid_from (replacement : string) (skip : nat) (inside : bool) (s : string) : string :=
  match s with
  | "" => ""
  | String c s' =>
      match skip with
      | S k => String c (to_valid_from replacement k false s')
      | O =>
          match decode_rune c s' with
          | Some (_, w) => String c (to_valid_from replacement w false s')
          | None => (if inside then "" else replacement) +:+ to_valid_from replacement 0 true s'
          end
      end
  end.

Definition ToValidUTF8 (s replacement : string) : string := to_valid_from replacement 0 false s.

(** [json.Decoder.Decode]: the first value of the input; what follows is not
    read. *)
Definition decode_first (s : string) : option json := fst <$> parse_value (unmarshal_fuel s) s.

Example duration_texts :
  Duration_String (15 * 60 * second_ns) = "15m0s" /\ Duration_String (3661 * second_ns + 500000000) = "1h1m1.5s"
  /\ Duration_String (-290448384) = "-290.448384ms" /\ Duration_String 0 = "0s".
Proof. vm_compute. repeat split. Qed.

(** ** Plans *)

Definition maxDeployPlans : Z := 32.
Definition maxDeployPlanBytes : Z := Z.shiftl 64 10.
Definition maxDeployArgs : Z := 32.
Definition maxDeployOutputBytes : Z := Z.shiftl 1 20.
Definition defaultDeployTimeout : duration := 15 * 60 * second_ns.
Definition maxDeployTimeout : duration := 35 * 60 * second_ns.

Record deployActionConfig : Type := mkAction {
  act_Command : string; act_Args : slice string; act_TimeoutSeconds : Z
}.

Record deployPlanConfig : Type := mkPlan {
  plan_ID : string; plan_Name : string; plan_Description : string; plan_Kind : string; plan_Path : string;
  plan_HostPort : Z; plan_Actions : gmap string deployActionConfig
}.

Definition action_names : list string := ["command"; "args"; "timeout_seconds"].

Definition into_action : json -> deployActionConfig -> option deployActionConfig :=
  into_struct (fun ms old =>
    if negb (known_fields action_names ms) then None
    else
      command ← read_field action_names "command" into_string ms (act_Command old);
      args ← read_field action_names "args" (into_slice "" into_string) ms
               (match act_Args old with Some l => mkSlice l (Some (length l)) | None => nil_slice end);
      timeout ← read_field action_names "timeout_seconds" into_int64 ms (act_TimeoutSeconds old);
      Some (mkAction command (slice_value args) timeout)).

Definition zero_action : deployActionConfig := mkAction "" None 0.

(** A map of structs: every member is decoded into a fresh element. *)
Definition into_actions (j : json) (old : gmap string deployActionConfig)
    : option (gmap string deployActionConfig) :=
  match j with
  | JObj ms =>
      foldl (fun acc kv => m ← acc; a ← into_action kv.2 zero_action; Some (<[kv.1 := a]> m)) (Some old) ms
  | JNull => Some ∅
  | _ => None
  end.

Definition plan_names : list string :=
  ["id"; "name"; "description"; "kind"; "path"; "host_port"; "actions"].

Definition zero_plan : deployPlanConfig := mkPlan "" "" "" "" "" 0 ∅.

Definition into_plan : json -> deployPlanConfig -> option deployPlanConfig :=
  into_struct (fun ms old =>
    if negb (known_fields plan_names ms) then None
    else
      id ← read_field plan_names "id" into_string ms (plan_ID old);
      name ← read_field plan_names "name" into_string ms (plan_Name old);
      description ← read_field plan_names "description" into_string ms (plan_Description old);
      kind ← read_field plan_names "kind" into_string ms (plan_Kind old);
      path ← read_field plan_names "path" into_string ms (plan_Path old);
      port ← read_field plan_names "host_port" into_int64 ms (plan_HostPort old);
      actions ← read_field plan_names "actions" into_actions ms (plan_Actions old);
      Some (mkPlan id name description kind path port actions)).

Definition decode_plans (data : string) : option (list deployPlanConfig) :=
  match decode_first data with
  | Some (JObj ms) =>
      if negb (known_fields ["plans"] ms) then None
      else plans ← read_field ["plans"] "plans" (into_slice zero_plan into_plan) ms nil_slice;
           Some (elems (slice_value plans))
  | Some JNull => Some []
  | _ => None
  end.

(** [time.Duration(seconds) * time.Second], in 64 bits. *)
Definition seconds_duration (seconds : Z) : duration := wrap_int64 (seconds * second_ns).

Definition valid_action (action : string) (config : deployActionConfig) : bool :=
  negb (negb (validAgentDeployAction action) || negb (IsAbs (act_Command config))
        || negb (Clean (act_Command config) =?s act_Command config)
        || (maxDeployArgs <? Z.of_nat (length (elems (act_Args config))))
        || (act_TimeoutSeconds config <? 0) || (maxDeployTimeout <? seconds_duration (act_TimeoutSeconds config)))
  && forallb (fun argument => negb ((4096 <? len argument) || ContainsAny argument [nul])) (elems (act_Args config)).

Definition validDeployPlan (plan : deployPlanConfig) : bool :=
  if negb (agentNginxConfigNamePattern (plan_ID plan)) || (plan_Name plan =?s "") || (128 <? len (plan_Name plan))
     || ContainsAny (plan_Name plan +:+ plan_Description plan) line_breaks || (512 <? len (plan_Description plan))
     || negb (IsAbs (plan_Path plan)) || negb (Clean (plan_Path plan) =?s plan_Path plan)
     || (plan_Path plan =?s "/") || (Nat.eqb (size (plan_Actions plan)) 0)
     || (4 <? Z.of_nat (size (plan_Actions plan))) || (plan_HostPort plan <? 0) || (65535 <? plan_HostPort plan)
  then false
  else if negb (existsb (String.eqb (plan_Kind plan)) ["application"; "compose"; "service"; "custom"]) then false
  else forallb (fun kv => valid_action kv.1 kv.2) (map_to_list (plan_Actions plan)).

Definition default_kind (plan : deployPlanConfig) : deployPlanConfig :=
  if plan_Kind plan =?s "" then
    mkPlan (plan_ID plan) (plan_Name plan) (plan_Description plan) "application" (plan_Path plan)
      (plan_HostPort plan) (plan_Actions plan)
  else plan.

(** [%q] of an identifier. *)
Definition quoted (s : string) : string := String "034"%char (s +:+ String "034"%char "").

(** The loop over the decoded plans. *)
Fixpoint check_plans (seen : gset string) (index : Z) (plans : list deployPlanConfig)
    : answer (list deployPlanConfig) :=
  match plans with
  | [] => Ok []
  | plan0 :: rest =>
      let plan := default_kind plan0 in
      if negb (validDeployPlan plan)
      then Err (errors_New ("deploy plan " +:+ Itoa (index + 1) +:+ " is invalid"))
      else if bool_decide (plan_ID plan ∈ seen)
      then Err (errors_New ("duplicate deploy plan " +:+ quoted (plan_ID plan)))
      else let? checked := check_plans ({[plan_ID plan]} ∪ seen) (index + 1) rest in Ok (plan :: checked)
  end.

(** What opening and reading the plan file gives. *)
Inductive plans_file : Type :=
| OpenFailed (text : string)
| ReadFailed
| PlansRead (data : string) (decode_error : string).

(** What [os.Stat] gives: a directory, a regular file with its permission bits,
    something else, or an error. *)
Inductive stat : Type := StatDir | StatRegular (perm : Z) | StatOther | StatError.

(** ** The captured output *)

Record boundedDeployOutput : Type := mkCapture { cap_buffer : string; cap_limit : Z; cap_truncated : bool }.

Definition Write (w : boundedDeployOutput) (data : string) : boundedDeployOutput :=
  let remaining := cap_limit w - len (cap_buffer w) in
  let buffer := if 0 <? remaining
                then cap_buffer w +:+ stake (Z.to_nat (Z.min remaining (len data))) data
                else cap_buffer w in
  mkCapture buffer (cap_limit w) (if remaining <? len data then true else cap_truncated w).

(** [runner.run]: the pieces the process writes, in order, and how it ends. *)
Record process_run : Type := mkProcess {
  proc_pieces : list string;
  proc_error : option error;       (** what [cmd.Run] returns *)
  proc_expired : bool              (** the action's deadline has passed *)
}.

Definition capture (limit : Z) (pieces : list string) : boundedDeployOutput :=
  foldl Write (mkCapture "" limit false) pieces.

Section controller.
(** [sort.Slice] by name; the order of equal names is not specified. *)
Variable sort_plans : list deployPlanConfig -> list deployPlanConfig.

Record deployController : Type := mkDeployController {
  dep_allowRead : bool; dep_allowRun : bool
}.

Definition loadPlans (file : plans_file) : answer (list deployPlanConfig) :=
  match file with
  | OpenFailed text => Err (errors_New ("open deploy plans: " +:+ text))
  | ReadFailed => Err (errors_New "deploy plan file is unreadable or exceeds 64 KiB")
  | PlansRead data decode_error =>
      if maxDeployPlanBytes <? len data
      then Err (errors_New "deploy plan file is unreadable or exceeds 64 KiB")
      else
        match decode_plans data with
        | None => Err (errors_New ("decode deploy plans: " +:+ decode_error))
        | Some plans =>
            if maxDeployPlans <? Z.of_nat (length plans)
            then Err (errors_New ("deploy plans exceed the " +:+ Itoa maxDeployPlans +:+ "-plan limit"))
            else let? checked := check_plans ∅ 0 plans in Ok (sort_plans checked)
        end
  end.

Definition deploy_actions : list string := ["preflight"; "deploy"; "restart"; "rollback"].

Definition orderedDeployActions (actions : gmap string deployActionConfig) : list string :=
  filter (fun action => is_Some (actions !! action)) deploy_actions.

(** [Perm() & 0o111]. *)
Definition executable (s : stat) : bool :=
  match s with StatRegular perm => negb (Z.land perm 73 =? 0) | _ => false end.

Definition deployPlanUnavailableReason (stats : string -> stat) (plan : deployPlanConfig) : string :=
  match stats (plan_Path plan) with
  | StatDir =>
      match find (fun action => negb (executable (stats (act_Command (default zero_action (plan_Actions plan !! action))))))
              (orderedDeployActions (plan_Actions plan)) with
      | Some action => "Configured " +:+ action +:+ " executable is unavailable"
      | None => ""
      end
  | _ => "Configured working directory is unavailable"
  end.

Record managedDeployTarget : Type := mkDeployTarget {
  mdt_ID : string; mdt_Name : string; mdt_Description : string; mdt_Kind : string; mdt_Path : string;
  mdt_Status : string; mdt_Eligible : bool; mdt_Reason : string; mdt_Actions : list string; mdt_HostPort : Z
}.

Definition Inventory (c : deployController) (file : plans_file) (stats : string -> stat)
    : answer (list managedDeployTarget) :=
  if negb (dep_allowRead c) then Err (errors_New "deploy inventory is not enabled locally")
  else
    let? plans := loadPlans file in
    Ok ((fun plan =>
           let reason := deployPlanUnavailableReason stats plan in
           mkDeployTarget (plan_ID plan) (plan_Name plan) (plan_Description plan) (plan_Kind plan) (plan_Path plan)
             (if negb (reason =?s "") then "unavailable" else "ready") (reason =?s "") reason
             (orderedDeployActions (plan_Actions plan)) (plan_HostPort plan)) <$> plans).

Definition replacement_char : string := String "239"%char (String "191"%char (String "189"%char "")).

(** What is run: directory, command, arguments. *)
Definition launch : Type := string * string * list string.

Definition truncation_note : string := String "010"%char "[output truncated at 1 MiB]".

Definition output_text (w : boundedDeployOutput) : string :=
  let output := cap_buffer w in
  let output' := if negb (valid_utf8 output) then ToValidUTF8 output replacement_char else output in
  let text := TrimSpace output' in
  if cap_truncated w then text +:+ truncation_note else text.

(** The message, the output, and the error; [runner] answers the launch. *)
Definition Run (c : deployController) (file : plans_file) (stats : string -> stat) (runner : launch -> duration -> process_run)
    (targetID action : string) : string * string * option error :=
  let failed text := ("", "", Some (errors_New text)) in
  if negb (dep_allowRun c) then failed "deploy actions are not enabled locally"
  else
    match loadPlans file with
    | Err e => ("", "", Some e)
    | Ok plans =>
        match find (fun plan => plan_ID plan =?s targetID) plans with
        | None => failed "deploy target is not configured locally"
        | Some selected =>
            match plan_Actions selected !! action with
            | None => failed "deploy action is not configured for this target"
            | Some config =>
                let reason := deployPlanUnavailableReason stats selected in
                if negb (reason =?s "") then failed reason
                else
                  let timeout := if 0 <? act_TimeoutSeconds config
                                 then seconds_duration (act_TimeoutSeconds config) else defaultDeployTimeout in
                  let process := runner (plan_Path selected, act_Command config, elems (act_Args config)) timeout in
                  let text := output_text (capture maxDeployOutputBytes (proc_pieces process)) in
                  match proc_error process with
                  | Some e =>
                      if proc_expired process
                      then ("", text, Some (errors_New ("deploy action exceeded its " +:+ Duration_String timeout
                                                        +:+ " local timeout")))
                      else ("", text, Some (mkError ("deploy action failed: " +:+ err_Error e) (err_wraps e)))
                  | None => (plan_Name selected +:+ " " +:+ action +:+ " completed", text, None)
                  end
            end
        end
    end.
End controller.
