(* ===== verification/AgentDeployClaims.v ===== *)
(** * Deployments: theorems

    The captured output is the beginning of what the process wrote; only
    configured commands run, each within its bounded time; and the report of a
    deployment that prints more than one line is turned away by the hub. *)

From stdpp Require Import base strings gmap list.
From Stdlib Require Import ZArith Lia Ascii.
From S2P Require Import Prelude GoStrings GoJson GoTime HubTypes TaskGate Heartbeat Repository Service ServiceClaims.
From S2P Require Import AgentStore AgentTasks AgentTasksClaims AgentDeploy.
Local Open Scope Z_scope.
Local Open Scope hub_scope.

(** ** The captured output *)

Definition written (pieces : list string) : string := foldl (fun acc p => acc +:+ p) "" pieces.

Lemma stake_chars n s : chars (stake n s) = take n (chars s).
Proof. revert n. induction s as [|c s IH]; intros [|n]; simpl; [done..|]. by rewrite <-IH. Qed.

Lemma len_chars s : len s = Z.of_nat (length (chars s)).
Proof. unfold len. induction s as [|c s IH]; simpl; [done|]. lia. Qed.

Lemma chars_inj s t : chars s = chars t -> s = t.
Proof. intros E. rewrite <-(string_chars s), <-(string_chars t). by f_equal. Qed.

(** The capture agrees with keeping everything and cutting at the end. *)
Definition captured (limit : Z) (all : string) (w : boundedDeployOutput) : Prop :=
  cap_limit w = limit /\ chars (cap_buffer w) = take (Z.to_nat limit) (chars all)
  /\ (cap_truncated w = true <-> limit < len all).

Lemma Write_captured limit all w data :
  0 <= limit -> captured limit all w -> captured limit (all +:+ data) (Write w data).
Proof.
  intros Hl (HL & Hb & Ht). unfold captured, Write. cbn [cap_limit cap_buffer cap_truncated].
  assert (len (cap_buffer w) = Z.min limit (len all)) as Hbl.
  { rewrite !len_chars, Hb, length_take. lia. }
  rewrite HL, Hbl. pose proof (len_nonneg data) as Hd. pose proof (len_nonneg all) as Ha.
  split; [done|]. split.
  - rewrite chars_app. destruct (Z.ltb_spec 0 (limit - Z.min limit (len all))) as [Hr|Hr].
    + rewrite chars_app, Hb, stake_chars, take_app. rewrite !len_chars in *. f_equal.
      destruct (decide (length (chars data) <= Z.to_nat limit - length (chars all))%nat) as [Hs|Hs].
      * rewrite !take_ge by lia. done.
      * f_equal. lia.
    + rewrite Hb, take_app_le; [done|]. rewrite len_chars in *. lia.
  - rewrite len_app. destruct (Z.ltb_spec (limit - Z.min limit (len all)) (len data)) as [Hr|Hr].
    + split; [intros _; lia|done].
    + rewrite Ht. lia.
Qed.

(** The bounded buffer is equivalent to its reference: after any sequence
    of writes it holds the first [limit] bytes of all that was written, and its
    mark is set exactly when more was written. *)
Theorem capture_prefix limit pieces :
  0 <= limit ->
  cap_buffer (capture limit pieces) = stake (Z.to_nat limit) (written pieces)
  /\ (cap_truncated (capture limit pieces) = true <-> limit < len (written pieces)).
Proof.
  intros Hl.
  assert (forall w all, captured limit all w ->
    captured limit (foldl (fun acc p => acc +:+ p) all pieces) (foldl Write w pieces)) as Hgen.
  { induction pieces as [|p ps IH]; intros w all Hw; simpl; [done|]. apply IH. by apply Write_captured. }
  destruct (Hgen (mkCapture "" limit false) "") as (_ & Hb & Ht).
  - split; [done|]. split; [symmetry; apply take_nil|]. split; [done|]. change (len "") with 0. lia.
  - split; [|exact Ht]. apply chars_inj. rewrite stake_chars. exact Hb.
Qed.

(** ** What runs *)

Section claims.
Context (sort_plans : list deployPlanConfig -> list deployPlanConfig).
Hypothesis sort_plans_perm : forall l, sort_plans l ≡ₚ l.

Lemma check_plans_valid seen index plans checked :
  check_plans seen index plans = Ok checked ->
  Forall (fun plan => validDeployPlan plan = true) checked /\ NoDup (plan_ID <$> checked)
  /\ Forall (fun plan => plan_ID plan ∉ seen) checked.
Proof.
  revert seen index checked. induction plans as [|plan plans IH]; intros seen index checked Hc; simpl in Hc.
  { injection Hc as <-. split_and!; constructor. }
  inv_ok Hc. injection Hc as <-. breflect. apply IH in Hr as (Hv & Hn & Hs).
  split; [by constructor|]. split.
  - constructor; [|done]. intros Hin%list_elem_of_fmap. destruct Hin as (x & Hx & Hin).
    rewrite Forall_forall in Hs. apply (Hs x Hin). rewrite <-Hx. set_solver.
  - constructor; [done|]. eapply Forall_impl; [exact Hs|]. set_solver.
Qed.

Lemma loadPlans_valid file plans :
  loadPlans sort_plans file = Ok plans ->
  Forall (fun plan => validDeployPlan plan = true) plans /\ NoDup (plan_ID <$> plans).
Proof.
  unfold loadPlans. destruct file as [| |data text]; try done. destruct (_ <? _); [done|].
  destruct (decode_plans data) as [plans'|]; [|done]. destruct (_ <? _); [done|].
  intros Hl. inv_ok Hl. injection Hl as <-. apply check_plans_valid in Hr as (Hv & Hn & _).
  rewrite sort_plans_perm. done.
Qed.

(** A launch the host configured: a valid plan of that id, its own command in
    its own directory, an absolute command, and at most 35 minutes. *)
Definition configured (file : plans_file) (targetID action : string) (l : launch) (timeout : duration) : Prop :=
  exists plans plan config, loadPlans sort_plans file = Ok plans /\ plan ∈ plans /\ plan_ID plan = targetID
  /\ plan_Actions plan !! action = Some config /\ validAgentDeployAction action = true
  /\ l = (plan_Path plan, act_Command config, elems (act_Args config))
  /\ IsAbs (plan_Path plan) = true /\ IsAbs (act_Command config) = true
  /\ timeout <= maxDeployTimeout.

Lemma valid_plan_action plan action config :
  validDeployPlan plan = true -> plan_Actions plan !! action = Some config ->
  IsAbs (plan_Path plan) = true /\ valid_action action config = true.
Proof.
  unfold validDeployPlan. intros Hv Ha. destruct (_ || _) eqn:E; [done|]. destruct (negb (existsb _ _)); [done|].
  breflect. split; [done|]. rewrite forallb_forall in Hv. apply (Hv (action, config)).
  by apply list_elem_of_In, elem_of_map_to_list.
Qed.

(** A deployment runs nothing but what the host configured: two hosts that
    answer the same on configured launches (the plan's own directory, command
    and arguments, within 35 minutes even where the seconds overflow) give the
    same result, whatever else they would do. *)
Theorem deploy_confined c file stats targetID action runner1 runner2 :
  (forall l timeout, configured file targetID action l timeout -> runner1 l timeout = runner2 l timeout) ->
  Run sort_plans c file stats runner1 targetID action = Run sort_plans c file stats runner2 targetID action.
Proof.
  intros Hr. unfold Run. destruct (negb (dep_allowRun c)); [done|].
  destruct (loadPlans sort_plans file) as [plans|] eqn:Hl; [|done].
  destruct (find _ plans) as [plan|] eqn:Hf; [|done]. apply find_some in Hf as [Hin%list_elem_of_In Hid%String.eqb_eq].
  destruct (plan_Actions plan !! action) as [config|] eqn:Ha; [|done]. destruct (negb _); [done|].
  apply loadPlans_valid in Hl as Hv. destruct Hv as [Hv _]. rewrite Forall_forall in Hv. specialize (Hv _ Hin).
  destruct (valid_plan_action _ _ _ Hv Ha) as [Hp Hva]. unfold valid_action in Hva. breflect.
  rewrite Hr; [done|]. exists plans, plan, config. split_and!; try done.
  destruct (Z.ltb_spec 0 (act_TimeoutSeconds config)); [done|]. by vm_compute.
Qed.
End claims.

(** ** A deployment that prints two lines *)

Lemma control_result_refused r k v :
  tres_Result r !! k = Some v -> containsControl v = true -> exists e, ValidateTaskResultRequest r = Err e.
Proof.
  intros Hk Hv. unfold ValidateTaskResultRequest. repeat (case_match; [by eexists|]).
  match goal with H : negb (forallb ?f ?l) = false |- _ => apply negb_false_iff in H; rewrite forallb_forall in H;
    specialize (H (k, v) ltac:(by apply list_elem_of_In, elem_of_map_to_list)) end.
  cbn [fst snd] in *. rewrite Hv in *. by rewrite !orb_true_r in *.
Qed.

Definition printing_plans : string :=
  "{" +:+ quoted "plans" +:+ ":[{" +:+ quoted "id" +:+ ":" +:+ quoted "app" +:+ "," +:+ quoted "name" +:+ ":"
  +:+ quoted "App" +:+ "," +:+ quoted "path" +:+ ":" +:+ quoted "/srv/app" +:+ "," +:+ quoted "actions" +:+ ":{"
  +:+ quoted "deploy" +:+ ":{" +:+ quoted "command" +:+ ":" +:+ quoted "/srv/app/deploy.sh" +:+ "}}}]}".

Definition two_lines : string := "step 1" +:+ String "010"%char "step 2".
Definition sample_deploy : deployController := mkDeployController true true.
Definition sample_stats (path : string) : stat := if path =?s "/srv/app" then StatDir else StatRegular 493.
Definition printing (l : launch) (timeout : duration) : process_run :=
  mkProcess [two_lines; String "010"%char ""] None false.

(** A deployment that succeeds but prints more than one line can never be
    reported: the text the agent puts into the result keeps its line breaks,
    the hub refuses every result that holds one, and the hub's state stays as
    it is, so the task stays running. *)
Theorem deploy_output_refused :
  Run id sample_deploy (PlansRead printing_plans "") sample_stats printing "app" "deploy"
  = ("App deploy completed", two_lines, None)
  /\ containsControl two_lines = true
  /\ forall message output err d nodeID taskID checked recorded,
       containsControl output = true ->
       exists e, CompleteTaskForNode d nodeID taskID (deploy_result (message, output, err)) checked recorded
                 = (Err e, d).
Proof.
  split; [vm_compute; reflexivity|]. split; [vm_compute; reflexivity|].
  intros message output err d nodeID taskID checked recorded Ho.
  unfold CompleteTaskForNode, reading. repeat (case_match; [by eexists|]).
  assert (tres_Result (deploy_result (message, output, err)) !! "output" = Some output) as Hk.
  { destruct err; [apply lookup_singleton_eq|]. cbn. by rewrite lookup_insert_ne, lookup_singleton_eq. }
  destruct (control_result_refused _ _ _ Hk Ho) as (e & ->). by eexists.
Qed.

(** ** Witnesses *)

Lemma capture_prefix_witness :
  cap_buffer (capture 4 ["ab"; "cde"; "f"]) = "abcd" /\ cap_truncated (capture 4 ["ab"; "cde"; "f"]) = true.
Proof.
  destruct (capture_prefix 4 ["ab"; "cde"; "f"]) as [Hb [_ Ht]]; [lia|].
  split; [exact Hb|]. apply Ht. vm_compute. reflexivity.
Defined.

Lemma deploy_confined_witness :
  Run id sample_deploy (PlansRead printing_plans "") sample_stats printing "app" "deploy"
  = Run id sample_deploy (PlansRead printing_plans "") sample_stats
      (fun l timeout => if timeout <=? maxDeployTimeout then printing l timeout else mkProcess [] None false)
      "app" "deploy".
Proof.
  apply (deploy_confined id (fun l => Permutation_refl l)).
  intros l timeout (_ & _ & _ & _ & _ & _ & _ & _ & _ & _ & _ & Ht).
  by rewrite (proj2 (Z.leb_le _ _) Ht).
Defined.
