(* ===== verification/AgentFirewall.v ===== *)
(** * The firewall of a host: [cmd/hserver-agent/firewall.go]

    Rules of the panel live in one chain of their own.  A change reads the
    chain, compares its revision with the one the panel saw, and runs [iptables]
    and the save command; a failed save is rolled back.  The commands, the lock
    file and the random identifier are calls whose answers the host chooses. *)

From stdpp Require Import base strings gmap list sorting.
From Stdlib Require Import ZArith Lia Ascii.
From S2P Require Import Prelude GoStrings GoBase64 GoSha256 GoJson GoNet HubTypes TaskGate AgentConfig AgentTasks.
Local Open Scope Z_scope.
Local Open Scope hub_scope.

(** ** Library functions *)

(** The characters of a text with their bytes. *)
Fixpoint segments_from (skip : nat) (s : string) : list (Z * string) :=
  match s with
  | "" => []
  | String c s' =>
      match skip with
      | S k => segments_from k s'
      | O =>
          match decode_rune c s' with
          | Some (r, w) => (r, String c (stake w s')) :: segments_from w s'
          | None => (RuneError, String c "") :: segments_from 0 s'
          end
      end
  end.

Fixpoint words (word : string) (segments : list (Z * string)) : list string :=
  let flush := if word =?s "" then [] else [word] in
  match segments with
  | [] => flush
  | (r, text) :: rest => if IsSpace r then flush ++ words "" rest else words (word +:+ text) rest
  end.

(** [strings.Fields]: the words between runs of white space. *)
Definition Fields (s : string) : list string := words "" (segments_from 0 s).

(** [strings.Trim(s, quotes)] for double and single quotes. *)
Definition quote_mark (c : ascii) : bool := Ascii.eqb c "034"%char || Ascii.eqb c "'"%char.

Fixpoint drop_quotes (cs : list ascii) : list ascii :=
  match cs with
  | c :: cs' => if quote_mark c then drop_quotes cs' else cs
  | [] => []
  end.

Definition trim_quotes (s : string) : string :=
  String.string_of_list_ascii (reverse (drop_quotes (reverse (drop_quotes (chars s))))).

(** [strings.SplitN(s, sep, 3)] *)
Definition split3 (sep : ascii) (s : string) : list string :=
  match split sep s with
  | a :: b :: c :: rest => [a; b; join sep (c :: rest)]
  | parts => parts
  end.

(** [base64.RawURLEncoding] *)
Definition url_char (c : ascii) : ascii :=
  if Ascii.eqb c "+"%char then "-"%char else if Ascii.eqb c "/"%char then "_"%char else c.

Definition RawURLEncode (s : string) : string :=
  String.string_of_list_ascii (url_char <$> filter (fun c => c <> b64_pad) (b64_encode (chars s))).

Definition url_value (c : ascii) : option Z :=
  if Ascii.eqb c "-"%char then Some 62
  else if Ascii.eqb c "_"%char then Some 63
  else if Ascii.eqb c "+"%char || Ascii.eqb c "/"%char then None
  else b64_value c.

(** The bytes decoded before the first error, as [DecodeString] returns them. *)
Fixpoint raw_url_decode (cs : list ascii) : list ascii :=
  match cs with
  | c0 :: c1 :: c2 :: c3 :: rest =>
      match url_value c0, url_value c1, url_value c2, url_value c3 with
      | Some v0, Some v1, Some v2, Some v3 =>
          let v := v0 * 262144 + v1 * 4096 + v2 * 64 + v3 in
          of_byte (v / 65536) :: of_byte (v / 256 mod 256) :: of_byte (v mod 256) :: raw_url_decode rest
      | _, _, _, _ => []
      end
  | [c0; c1; c2] =>
      match url_value c0, url_value c1, url_value c2 with
      | Some v0, Some v1, Some v2 =>
          let v := v0 * 262144 + v1 * 4096 + v2 * 64 in
          [of_byte (v / 65536); of_byte (v / 256 mod 256)]
      | _, _, _ => []
      end
  | [c0; c1] =>
      match url_value c0, url_value c1 with
      | Some v0, Some v1 => [of_byte ((v0 * 262144 + v1 * 4096) / 65536)]
      | _, _ => []
      end
  | _ => []
  end.

Definition RawURLDecode (s : string) : string :=
  String.string_of_list_ascii (raw_url_decode (filter (fun c => b64_newline c = false) (chars s))).

(** ** Rules and their commands *)

Definition firewallManagedChain : string := "HSERVER-INPUT".

Definition agentFirewallIDPattern (value : string) : bool :=
  HasPrefix value "fw-" && (len value =? 15) && forallb hex_digit (chars (sdrop 3 value)).

Definition argAfter : list string -> string -> string :=
  fix after (args : list string) (key : string) : string :=
    match args with
    | a :: ((b :: _) as rest) => if a =?s key then trim_quotes b else after rest key
    | _ => ""
    end.

Definition containsArgPair (args : list string) (key value : string) : bool := argAfter args key =?s value.
Definition defaultString (value fallback : string) : string := if value =?s "" then fallback else value.
Definition hasFirewallComment (args : list string) (prefix : string) : bool := HasPrefix (argAfter args "--comment") prefix.

Definition set_rule (rule : firewallRule) (id source raw : string) (managed : bool) : firewallRule :=
  mkRule id (rule_Action rule) (rule_Protocol rule) (rule_Port rule) source (rule_Comment rule) managed raw.

Definition everywhere : string := "0.0.0.0/0".

Definition normalizeFirewallRule (rule : firewallRule) : option firewallRule :=
  if (negb (rule_Action rule =?s "ACCEPT") && negb (rule_Action rule =?s "DROP"))
     || (negb (rule_Protocol rule =?s "tcp") && negb (rule_Protocol rule =?s "udp")
         && negb (rule_Protocol rule =?s "all")) then None
  else if ((rule_Protocol rule =?s "all") && negb (rule_Port rule =? 0))
          || (negb (rule_Protocol rule =?s "all") && ((rule_Port rule <? 0) || (65535 <? rule_Port rule)))
          || (80 <? len (rule_Comment rule)) || ContainsAny (rule_Comment rule) line_breaks then None
  else
    let source0 := TrimSpace (rule_Source rule) in
    let source := if source0 =?s "" then everywhere else source0 in
    (fun normalized => set_rule rule (rule_ID rule) normalized (rule_Raw rule) (rule_Managed rule))
    <$> normalizeIPv4Network source.

Definition rule_args (rule : firewallRule) : list string :=
  (if negb (rule_Source rule =?s everywhere) then ["-s"; rule_Source rule] else [])
  ++ (if negb (rule_Protocol rule =?s "all") then ["-p"; rule_Protocol rule] else [])
  ++ (if negb (rule_Port rule =? 0) then ["--dport"; Itoa (rule_Port rule)] else [])
  ++ ["-m"; "comment"; "--comment"; "hserver:" +:+ rule_ID rule +:+ ":" +:+ RawURLEncode (rule_Comment rule);
      "-j"; rule_Action rule].

Definition firewallAppendArgs (rule : firewallRule) : list string :=
  ["-A"; firewallManagedChain] ++ rule_args rule.

Definition parseManagedFirewallRule (line : string) : option firewallRule :=
  let args := Fields line in
  match split3 ":"%char (argAfter args "--comment") with
  | [mark; id; encoded] =>
      if negb (mark =?s "hserver") || negb (agentFirewallIDPattern id) then None
      else
        Some (mkRule id (argAfter args "-j") (defaultString (argAfter args "-p") "all")
                (Atoi_value (argAfter args "--dport"))
                (defaultString (argAfter args "-s") everywhere) (RawURLDecode encoded) true line)
  | _ => None
  end.

(** The words of a rule of that chain in a listing. *)
Definition appended (chain : string) (args : list string) : bool :=
  match args with
  | op :: of_chain :: _ => (op =?s "-A") && (of_chain =?s chain)
  | _ => false
  end.

(** [strings.Split(output, newline)] *)
Definition lines_of (output : string) : list string := split "010"%char output.

Definition policy_line (args : list string) : option string :=
  match args with
  | op :: chain :: policy :: _ => if (op =?s "-P") && (chain =?s "INPUT") then Some policy else None
  | _ => None
  end.

Fixpoint input_rules (index : Z) (policy : string) (lines : list string) : string * list firewallRule :=
  match lines with
  | [] => (policy, [])
  | raw :: rest =>
      let line := TrimSpace raw in
      let args := Fields line in
      match policy_line args with
      | Some p => input_rules (index + 1) p rest
      | None =>
          if negb (appended "INPUT" args) || containsArgPair args "-j" firewallManagedChain
          then input_rules (index + 1) policy rest
          else
            let '(policy', rules) := input_rules (index + 1) policy rest in
            (policy', mkRule ("input-" +:+ Itoa index) (argAfter args "-j")
                        (defaultString (argAfter args "-p") "all") 0 (argAfter args "-s") "" false line :: rules)
      end
  end.

Definition parseInputRules (output : string) : string * list firewallRule :=
  input_rules 0 "unknown" (lines_of output).

Definition firewallRevision (lines : list string) : string :=
  sha256_hex (marshal (JArr (jstr <$> lines))).

(** ** The controller *)

(** The calls of the controller. *)
Inductive exec : Type -> Type :=
| Exec (name : string) (args : list string) : exec (result string string)
| RandomBytes (n : nat) : exec (result string (list Z))
| LockFile (path : string) : exec (result string unit).

Record firewallController : Type := mkFirewallController {
  fwc_allowRead : bool;
  fwc_allowWrite : bool;
  fwc_iptables : string;
  fwc_saveBinary : string;
  fwc_lockPath : string;
  fwc_persistenceSvc : string;
  fwc_protectedSources : list IPNet;
  fwc_protectedLabels : list string;
  fwc_protectedPorts : gset Z
}.

Definition newFirewallController (allowRead allowWrite : bool) (iptables saveBinary lockPath persistenceSvc : string)
    (protectedSources : list string) (protectedPorts : gset Z) : firewallController :=
  mkFirewallController allowRead allowWrite iptables saveBinary lockPath persistenceSvc
    (omap (fun source => match ParseCIDR_net source with
                         | Some network => if bool_decide (is_Some (To4 (net_IP network))) then Some network else None
                         | None => None
                         end) protectedSources)
    protectedSources protectedPorts.

Definition networksOverlap (left right : IPNet) : bool :=
  Contains left (net_IP right) || Contains right (net_IP left).

Definition blocksProtectedPath (c : firewallController) (rule : firewallRule) : bool :=
  if negb (rule_Action rule =?s "DROP") || Nat.eqb (length (fwc_protectedSources c)) 0
     || Nat.eqb (size (fwc_protectedPorts c)) 0 then false
  else if negb (rule_Port rule =? 0) && negb (bool_decide (rule_Port rule ∈ fwc_protectedPorts c)) then false
  else
    match ParseCIDR_net (rule_Source rule) with
    | None => false
    | Some source => existsb (networksOverlap source) (fwc_protectedSources c)
    end.

Definition fw (A : Type) : Type := prog exec A.
Definition wrapped (before : string) (text : string) : error := errors_New (before +:+ text).
Definition sentinel_error (text : string) (s : sentinel) : error := mkError text [s].

Definition firewall_changed : error := sentinel_error "firewall rules changed on the server" errFirewallChanged.
Definition firewall_missing : error := sentinel_error "firewall rule was not found" errFirewallNotFound.
Definition firewall_invalid : error := sentinel_error "firewall rule is invalid" errFirewallInvalid.
Definition firewall_protected : error :=
  sentinel_error "firewall rule would block a locally protected management path" errFirewallProtected.
Definition firewall_persistence : error := sentinel_error "firewall persistence failed" errFirewallPersistence.
Definition rollback_failed (text : string) : error :=
  sentinel_error ("firewall persistence failed; rollback failed: " +:+ text) errFirewallPersistence.

(** The managed rules of the chain's listing. *)
Definition managed_line (line : string) : bool :=
  appended firewallManagedChain (Fields line) && hasFirewallComment (Fields line) "hserver:fw-".

Definition managed_lines (output : string) : list string :=
  filter (fun line => managed_line line = true) (TrimSpace <$> lines_of output).

Section controller.
Context (c : firewallController).
Context {A : Type}.

(** The lines, and whether the chain exists; a failed listing is an absent
    chain. *)
Definition managedLines (k : list string * bool -> fw A) : fw A :=
  Call (Exec (fwc_iptables c) ["-S"; firewallManagedChain]) (fun out =>
    match out with
    | Err _ => k ([], false)
    | Ok output => k (managed_lines output, true)
    end).

(** [withMutationLock]: the mutex and the lock file serialise the body. *)
Definition withMutationLock (failed : error -> fw A) (body : fw A) : fw A :=
  Call (LockFile (fwc_lockPath c)) (fun r =>
    match r with Err text => failed (errors_New text) | Ok _ => body end).

(** A command whose failure ends the operation. *)
Definition must (failed : error -> fw A) (before name : string) (args : list string) (k : fw A) : fw A :=
  Call (Exec name args) (fun r => match r with Err text => failed (wrapped before text) | Ok _ => k end).

(** Save; when that fails, run [undo] and report the failure. *)
Definition save_or_undo (failed : error -> fw A) (undo : list string) (k : fw A) : fw A :=
  Call (Exec (fwc_saveBinary c) ["save"]) (fun r =>
    match r with
    | Ok _ => k
    | Err _ =>
        Call (Exec (fwc_iptables c) undo) (fun u =>
          match u with
          | Ok _ => failed firewall_persistence
          | Err text => failed (rollback_failed text)
          end)
    end).

(** The jump from [INPUT], inserted when it is not there. *)
Definition ensure_jump (failed : error -> fw A) (k : fw A) : fw A :=
  Call (Exec (fwc_iptables c) ["-C"; "INPUT"; "-j"; firewallManagedChain]) (fun r =>
    match r with
    | Ok _ => k
    | Err _ => must failed "attach managed firewall chain: " (fwc_iptables c)
                 ["-I"; "INPUT"; "1"; "-j"; firewallManagedChain] k
    end).
End controller.

Definition Add (c : firewallController) (rule0 : firewallRule) (expectedRevision : string) : fw (answer string) :=
  let failed e := Ret (Err e) in
  if negb (fwc_allowWrite c) then failed (errors_New "firewall writing is not enabled locally")
  else
    match normalizeFirewallRule (set_rule rule0 "" (rule_Source rule0) "" true) with
    | None => failed firewall_invalid
    | Some normalized0 =>
        if blocksProtectedPath c normalized0 then failed firewall_protected
        else
          Call (RandomBytes 6) (fun raw =>
            match raw with
            | Err text => failed (errors_New text)
            | Ok bytes =>
                let id := "fw-" +:+ hex_encode bytes in
                let normalized := set_rule normalized0 id (rule_Source normalized0) "" true in
                let append := firewallAppendArgs normalized in
                withMutationLock c failed (managedLines c (fun '(lines, chainExists) =>
                  if negb (agentSHA256Pattern expectedRevision)
                     || negb (firewallRevision lines =?s expectedRevision)
                  then failed firewall_changed
                  else
                    let attach :=
                      ensure_jump c failed
                        (must failed "append managed firewall rule: " (fwc_iptables c) append
                          (save_or_undo c failed ("-D" :: firewallManagedChain :: drop 2 append) (Ret (Ok id)))) in
                    if chainExists then attach
                    else must failed "create managed firewall chain: " (fwc_iptables c)
                           ["-N"; firewallManagedChain] attach))
            end)
    end.

(** The rule of that identifier in the listing: its position among the chain's
    rules, and its words. *)
Fixpoint find_rule (id : string) (position : Z) (lines : list string) : option (Z * list string) :=
  match lines with
  | [] => None
  | line :: rest =>
      let args := Fields line in
      if negb (appended firewallManagedChain args) then find_rule id position rest
      else if hasFirewallComment args ("hserver:" +:+ id +:+ ":") then Some (position + 1, args)
      else find_rule id (position + 1) rest
  end.

Definition Delete (c : firewallController) (id expectedRevision : string) : fw (answer unit) :=
  let failed e := Ret (Err e) in
  if negb (fwc_allowWrite c) then failed (errors_New "firewall writing is not enabled locally")
  else if negb (agentFirewallIDPattern id) then failed firewall_invalid
  else
    withMutationLock c failed (managedLines c (fun '(lines, _) =>
      if negb (agentSHA256Pattern expectedRevision) || negb (firewallRevision lines =?s expectedRevision)
      then failed firewall_changed
      else
        Call (Exec (fwc_iptables c) ["-S"; firewallManagedChain]) (fun out =>
          match out with
          | Err _ => failed firewall_missing
          | Ok output =>
              match find_rule id 0 (lines_of output) with
              | None => failed firewall_missing
              | Some (position, target) =>
                  must failed "delete managed firewall rule: " (fwc_iptables c) ("-D" :: tail target)
                    (save_or_undo c failed
                       (["-I"; firewallManagedChain; Itoa position] ++ drop 2 target) (Ret (Ok tt)))
              end
          end))).

Record firewallInventory : Type := mkFirewallInventory {
  fwi_Backend : string; fwi_Policy : string; fwi_Persistence : string; fwi_Rules : list firewallRule;
  fwi_Revision : string; fwi_ProtectedSources : list string; fwi_ProtectedPorts : list Z
}.

Definition persistenceState (out : result string string) : string :=
  match out with
  | Ok output => if TrimSpace output =?s "" then "unavailable" else TrimSpace output
  | Err _ => "unavailable"
  end.

Definition Inventory (c : firewallController) : fw (answer firewallInventory) :=
  if negb (fwc_allowRead c) then Ret (Err (errors_New "firewall inventory is not enabled locally"))
  else
    Call (Exec (fwc_iptables c) ["-S"; "INPUT"]) (fun input =>
      match input with
      | Err text => Ret (Err (wrapped "read INPUT rules: " text))
      | Ok inputOutput =>
          managedLines c (fun '(lines, _) =>
            let '(policy, systemRules) := parseInputRules inputOutput in
            Call (Exec "/usr/bin/systemctl"
                    ["show"; "--property=ActiveState"; "--value"; fwc_persistenceSvc c]) (fun state =>
              Ret (Ok (mkFirewallInventory "iptables" policy (persistenceState state)
                         (omap parseManagedFirewallRule lines ++ systemRules) (firewallRevision lines)
                         (fwc_protectedLabels c) (merge_sort Z.le (elements (fwc_protectedPorts c)))))))
      end).
