(* ===== verification/AgentFirewallClaims.v ===== *)
(** * The firewall: theorems

    A rule that drops packets never meets a protected source on a protected
    port; the commands of a change are those of one normalised rule, under the
    revision the panel saw. *)

From stdpp Require Import base strings gmap list.
From Stdlib Require Import ZArith Lia Ascii.
From S2P Require Import Prelude GoStrings GoBase64 GoSha256 GoJson GoNet HubTypes TaskGate AgentStore AgentStoreFacts AgentConfig AgentConfigClaims AgentTasks AgentTasksClaims AgentFirewall.
Local Open Scope Z_scope.
Local Open Scope hub_scope.

(** ** Runs of a program

    [path p es a]: [p] can make the calls [es], with their answers, and return
    [a]. *)

Inductive did : Type :=
| Did {B : Type} (o : exec B) (b : B).

Fixpoint path {A} (p : prog exec A) (es : list did) (a : A) : Prop :=
  match p with
  | Ret x => es = [] /\ a = x
  | Call o k => exists b es', es = Did o b :: es' /\ path (k b) es' a
  end.

(** The command of a call that succeeded. *)
Definition ran (d : did) : option (string * list string) :=
  match d with
  | @Did B o b =>
      match o in exec B return B -> option (string * list string) with
      | Exec name args => fun r => match r with Ok _ => Some (name, args) | Err _ => None end
      | RandomBytes _ => fun _ => None
      | LockFile _ => fun _ => None
      end b
  end.

Definition commands (es : list did) : list (string * list string) := omap ran es.

(** ** Networks *)

Definition mask4 (k : Z) : list Z := CIDRMask k 32.

(** The network of an IPv4 prefix: four bytes, masked. *)
Definition v4_net (n : IPNet) (k : Z) (nn : list Z) : Prop :=
  networkNumberAndMask n = Some (nn, mask4 k) /\ length nn = 4%nat /\ zip_with Z.land nn (mask4 k) = nn.

Lemma mask_bytes_nest k1 k2 i : k1 <= k2 -> Z.land (mask_byte k2 i) (mask_byte k1 i) = mask_byte k1 i.
Proof.
  intros Hk. unfold mask_byte.
  set (a := Z.max 0 (Z.min 8 (k1 - 8 * Z.of_nat i))). set (b := Z.max 0 (Z.min 8 (k2 - 8 * Z.of_nat i))).
  assert (0 <= a <= b /\ b <= 8) as (Ha & Hb) by lia. clearbody a b.
  assert (a = 0 \/ a = 1 \/ a = 2 \/ a = 3 \/ a = 4 \/ a = 5 \/ a = 6 \/ a = 7 \/ a = 8) as Hca by lia.
  assert (b = 0 \/ b = 1 \/ b = 2 \/ b = 3 \/ b = 4 \/ b = 5 \/ b = 6 \/ b = 7 \/ b = 8) as Hcb by lia.
  repeat (destruct Hca as [->|Hca]); subst; repeat (destruct Hcb as [->|Hcb]); subst;
    first [reflexivity | lia].
Qed.

Lemma mask_bytes_idem k i : Z.land (mask_byte k i) (mask_byte k i) = mask_byte k i.
Proof. apply Z.land_diag. Qed.

(** Masking a longer prefix with a shorter one. *)
Lemma nested_masks k1 k2 ip :
  length ip = 4%nat -> k1 <= k2 ->
  zip_with Z.land (zip_with Z.land ip (mask4 k2)) (mask4 k1) = zip_with Z.land ip (mask4 k1).
Proof.
  intros Hl Hk. destruct ip as [|a [|b [|x [|y [|]]]]]; try done. unfold mask4, CIDRMask.
  change (Z.to_nat (32 / 8)) with 4%nat. cbn [seq fmap list_fmap zip_with].
  by rewrite <-!Z.land_assoc, !mask_bytes_nest.
Qed.

Lemma To4_four ip : length ip = 4%nat -> To4 ip = Some ip.
Proof. intros Hl. unfold To4. by rewrite Hl. Qed.

Lemma contains_v4 n k nn ip :
  v4_net n k nn -> length ip = 4%nat ->
  Contains n ip = true <-> nn = zip_with Z.land ip (mask4 k).
Proof.
  intros (Hn & Hl & Hm) Hi. unfold Contains. rewrite Hn, (To4_four ip), Hi, Hl, Hm by done.
  cbn [Nat.eqb andb]. apply bool_decide_eq_true.
Qed.

(** Two networks that share an address overlap in the sense of the source. *)
Lemma shared_address_overlaps n1 k1 nn1 n2 k2 nn2 ip :
  v4_net n1 k1 nn1 -> v4_net n2 k2 nn2 -> length ip = 4%nat ->
  Contains n1 ip = true -> Contains n2 ip = true ->
  Contains n1 nn2 = true \/ Contains n2 nn1 = true.
Proof.
  intros H1 H2 Hi Hc1%(contains_v4 _ _ _ _ H1 Hi) Hc2%(contains_v4 _ _ _ _ H2 Hi).
  pose proof H1 as (_ & Hl1 & _). pose proof H2 as (_ & Hl2 & _).
  destruct (Z.le_ge_cases k1 k2) as [Hk|Hk].
  - left. apply (contains_v4 _ _ _ _ H1 Hl2). by rewrite Hc2, nested_masks.
  - right. apply (contains_v4 _ _ _ _ H2 Hl1). by rewrite Hc1, nested_masks.
Qed.

Lemma Contains_To4 n ip ip4 : To4 ip = Some ip4 -> Contains n ip = Contains n ip4.
Proof.
  intros Ht. assert (length ip4 = 4%nat) as Hl.
  { unfold To4 in Ht. destruct (Nat.eqb_spec (length ip) 4); [by simplify_eq|].
    destruct (Nat.eqb_spec (length ip) 16); [|done]. simpl in Ht. case_bool_decide; [|done].
    injection Ht as <-. rewrite length_drop. lia. }
  unfold Contains. by rewrite Ht, (To4_four ip4).
Qed.

(** ** What the parsers return *)

Lemma parse_ipv4_length s bs : parse_ipv4 s = Some bs -> length bs = 4%nat.
Proof. unfold parse_ipv4. intros. repeat case_match; by simplify_eq. Qed.

(** At most sixteen bytes, and the ellipsis within them. *)
Lemma ipv6_groups_length fuel s got ell got' ell' rest :
  ipv6_groups fuel s got ell = Some (got', ell', rest) -> (length got + 2 * fuel <= 16)%nat ->
  (forall e, ell = Some e -> (e <= length got)%nat) ->
  (length got' <= 16)%nat /\ (forall e, ell' = Some e -> (e <= length got')%nat).
Proof.
  revert s got ell. induction fuel as [|k IH]; intros s got ell Hg Hl He; simpl in Hg.
  { simplify_eq. split; [lia|done]. }
  destruct (take_hex s 0 0) as [[off acc] r]. destruct (_ || _); [done|].
  set (chunk := got ++ [acc / 256; acc mod 256]) in *.
  assert (length chunk = (length got + 2)%nat) as Hc by (unfold chunk; rewrite length_app; done).
  assert (forall e, ell = Some e -> (e <= length chunk)%nat) as Hec by (intros e Hel; specialize (He e Hel); lia).
  destruct r as [|c r']; [simplify_eq; split; [lia|done]|].
  destruct (Ascii.eqb c "."%char).
  { destruct (_ || _) eqn:Ho in Hg; [done|]. destruct (parse_ipv4 s) as [b4|] eqn:Hb; [|done]. simplify_eq.
    apply parse_ipv4_length in Hb. rewrite length_app. split; [lia|]. intros e Hel. specialize (He e Hel). lia. }
  destruct (negb _); [done|]. destruct r' as [|c2 r'']; [done|].
  destruct (Ascii.eqb c2 ":"%char).
  - destruct ell; [done|]. destruct (r'' =?s ""); [simplify_eq; split; [lia|by intros e [= <-]]|].
    eapply IH; [exact Hg|lia|]. by intros e [= <-].
  - eapply IH; [exact Hg|lia|done].
Qed.

Lemma parse_ipv6_length s bs z : parse_ipv6 s = Some (Addr6 bs z) -> length bs = 16%nat.
Proof.
  unfold parse_ipv6. cbv zeta. destruct (_ && _); [done|].
  assert (forall body ell, (match ell with Some 0%nat | None => True | _ => False end) ->
    match ipv6_groups 8 body [] ell with
    | Some (got, ell', rest) =>
        if negb (rest =?s "") then None
        else if (length got <? 16)%nat
        then match ell' with
             | Some e => Some (Addr6 (take e got ++ replicate (16 - length got) 0 ++ drop e got) (join "%"%char (tail (split "%"%char s))))
             | None => None
             end
        else match ell' with Some _ => None | None => Some (Addr6 got (join "%"%char (tail (split "%"%char s)))) end
    | None => None
    end = Some (Addr6 bs z) -> length bs = 16%nat) as Hgen.
  { intros body ell Hell Hg. destruct (ipv6_groups 8 body [] ell) as [[[got ell'] rest]|] eqn:E; [|done].
    apply ipv6_groups_length in E as [Hl He]; [|simpl; lia|by destruct ell as [[|]|]; intros e; [intros [= <-]|..]].
    destruct (negb _); [done|]. destruct (Nat.ltb_spec (length got) 16).
    - destruct ell' as [e|]; [|done]. injection Hg as <- <-. specialize (He e eq_refl).
      rewrite !length_app, length_take, length_replicate, length_drop. lia.
    - destruct ell'; [done|]. injection Hg as <- <-. lia. }
  destruct (HasPrefix _ "::"); [|by apply Hgen].
  destruct (_ && _); [|by apply Hgen]. by intros [= <- <-].
Qed.

Lemma ParseIP_length s a :
  ParseIP s = Some a -> length (as16 a) = 16%nat /\ (forall bs, a = Addr4 bs -> length bs = 4%nat).
Proof.
  unfold ParseIP, ParseAddr. intros Hp.
  assert (match addr_family s with
          | Some c => if Ascii.eqb c "."%char then Addr4 <$> parse_ipv4 s
                      else if Ascii.eqb c ":"%char then parse_ipv6 s else None
          | None => None end = Some a) as Ha by (repeat case_match; by simplify_eq).
  clear Hp. destruct (addr_family s) as [c|]; [|done]. destruct (Ascii.eqb c "."%char).
  - destruct (parse_ipv4 s) as [bs|] eqn:E; [|done]. injection Ha as <-. apply parse_ipv4_length in E.
    simpl. split; [rewrite E; done|]. by intros bs' [= <-].
  - destruct (Ascii.eqb c ":"%char); [|done]. destruct a as [bs|bs z].
    + unfold parse_ipv6 in Ha. repeat case_match; simplify_eq.
    + apply parse_ipv6_length in Ha. by split.
Qed.

Lemma length_CIDRMask ones bits : length (CIDRMask ones bits) = Z.to_nat (bits / 8).
Proof. unfold CIDRMask. by rewrite length_fmap, length_seq. Qed.

Lemma masked_again ip m : zip_with Z.land (zip_with Z.land ip m) m = zip_with Z.land ip m.
Proof.
  revert m. induction ip as [|a ip IH]; intros [|b m]; simpl; try done.
  by rewrite IH, <-Z.land_assoc, Z.land_diag.
Qed.

Lemma mask_tail n : drop 12 (CIDRMask n 128) = mask4 (n - 96).
Proof.
  unfold mask4, CIDRMask. change (Z.to_nat (128 / 8)) with 16%nat. change (Z.to_nat (32 / 8)) with 4%nat.
  assert (forall i, mask_byte (n - 96) i = mask_byte n (12 + i)) as Hb.
  { intros i. unfold mask_byte. do 5 f_equal. lia. }
  rewrite <-fmap_drop. cbn [seq drop fmap list_fmap]. by rewrite !Hb.
Qed.

Lemma drop_zip_land k ip m : drop k (zip_with Z.land ip m) = zip_with Z.land (drop k ip) (drop k m).
Proof. revert ip m. induction k as [|k IH]; intros [|a ip] [|b m]; simpl; try done. by destruct (drop k ip). Qed.

(** The IPv4 networks [net.ParseCIDR] returns, mapped ones included. *)
Lemma ParseCIDR_v4 s n ip4 :
  ParseCIDR_net s = Some n -> To4 (net_IP n) = Some ip4 -> exists k, v4_net n k ip4.
Proof.
  unfold ParseCIDR_net. intros Hp Ht. destruct (parse_cidr s) as [[a k]|] eqn:E; [|done]. injection Hp as <-.
  assert (exists t, ParseIP t = Some a) as [t Hip].
  { unfold parse_cidr in E. repeat case_match; simplify_eq. by eexists. }
  apply ParseIP_length in Hip as [H16 H4]. cbn [net_IP] in Ht. destruct a as [bs|bs z].
  - specialize (H4 bs eq_refl). exists k. cbn [bit_len as16] in *.
    assert (To4 (v4_prefix ++ bs) = Some bs) as Hbs.
    { unfold To4. rewrite H16. cbn [Nat.eqb andb]. rewrite take_app_length' by done.
      rewrite bool_decide_eq_true_2 by done. by rewrite drop_app_length' by done. }
    unfold mask_ip in *. rewrite length_CIDRMask in *. change (Nat.eqb (Z.to_nat (32 / 8)) 4) with true in *.
    rewrite Hbs in *. assert (length (zip_with Z.land bs (CIDRMask k 32)) = 4%nat) as Hz.
    { rewrite length_zip_with, length_CIDRMask, H4. done. }
    rewrite To4_four in Ht by done. injection Ht as <-. split; [|split; [done|apply masked_again]].
    unfold networkNumberAndMask. cbn [net_IP net_Mask]. rewrite To4_four, length_CIDRMask, Hz by done. done.
  - exists (k - 96). cbn [bit_len as16] in *. unfold mask_ip in *. rewrite length_CIDRMask in *.
    change (Nat.eqb (Z.to_nat (128 / 8)) 4) with false in *. cbv iota in *.
    assert (length (zip_with Z.land bs (CIDRMask k 128)) = 16%nat) as Hz.
    { rewrite length_zip_with, length_CIDRMask, H16. done. }
    pose proof Ht as Ht'. unfold To4 in Ht. rewrite Hz in Ht. cbn [Nat.eqb andb] in Ht. case_bool_decide; [|done].
    injection Ht as <-. split; [|split].
    + unfold networkNumberAndMask. cbn [net_IP net_Mask]. rewrite Ht', length_CIDRMask, length_drop, Hz.
      change (Nat.eqb (Z.to_nat (128 / 8)) 4) with false. change (Nat.eqb (Z.to_nat (128 / 8)) 16) with true.
      change (Nat.eqb (16 - 12) 4) with true. cbv iota. by rewrite mask_tail.
    + rewrite length_drop, Hz. done.
    + rewrite drop_zip_land, mask_tail. apply masked_again.
Qed.

Lemma contains_four n ip :
  length ip = 4%nat -> Contains n ip = true -> length (net_IP n) = 4%nat \/ length (net_IP n) = 16%nat ->
  is_Some (To4 (net_IP n)).
Proof.
  intros Hi Hc Hl. destruct (To4 (net_IP n)) as [x|] eqn:E; [by eexists|]. exfalso.
  destruct Hl as [Hl|Hl]; [by rewrite To4_four in E|].
  revert Hc. unfold Contains, networkNumberAndMask. rewrite E, (To4_four ip), Hi, Hl by done.
  repeat (case_match; try done); simplify_eq; breflect; rewrite Hl in *; done.
Qed.

Lemma ParseCIDR_lengths s n :
  ParseCIDR_net s = Some n -> length (net_IP n) = 4%nat \/ length (net_IP n) = 16%nat.
Proof.
  unfold ParseCIDR_net. intros Hp. destruct (parse_cidr s) as [[a k]|] eqn:E; [|done]. injection Hp as <-.
  assert (exists t, ParseIP t = Some a) as [t Hip].
  { unfold parse_cidr in E. repeat case_match; simplify_eq. by eexists. }
  apply ParseIP_length in Hip as [H16 H4]. cbn [net_IP]. unfold mask_ip. rewrite length_CIDRMask.
  destruct a as [bs|bs z]; cbn [bit_len as16] in *.
  - change (Nat.eqb (Z.to_nat (32 / 8)) 4) with true. cbv iota. left.
    assert (To4 (v4_prefix ++ bs) = Some bs) as ->.
    { unfold To4. rewrite H16. cbn [Nat.eqb andb]. rewrite take_app_length' by done.
      rewrite bool_decide_eq_true_2 by done. by rewrite drop_app_length' by done. }
    rewrite length_zip_with, length_CIDRMask, (H4 bs eq_refl). done.
  - change (Nat.eqb (Z.to_nat (128 / 8)) 4) with false. cbv iota. right.
    rewrite length_zip_with, length_CIDRMask, H16. done.
Qed.

(** ** Packets *)

(** A rule meets a packet from [src] to [port] when its source network, as
    [iptables] reads the normalised text, holds the address and its port is the
    packet's or none. *)
Definition meets (rule : firewallRule) (src : list Z) (port : Z) : Prop :=
  (rule_Port rule = 0 \/ rule_Port rule = port)
  /\ exists network, ParseCIDR_net (rule_Source rule) = Some network /\ Contains network src = true.

Section controller.
Context (read write : bool) (iptables save lock service : string) (sources : list string) (ports : gset Z).
Abbreviation controller := (newFirewallController read write iptables save lock service sources ports).

(** C35. No lock-out: a rule that drops packets and is let through meets no
    packet from a locally protected network to a locally protected port,
    whatever prefixes the two networks have. *)
Theorem drop_spares_protected rule source network src port :
  rule_Action rule = "DROP" -> blocksProtectedPath controller rule = false ->
  source ∈ sources -> ParseCIDR_net source = Some network -> length src = 4%nat ->
  Contains network src = true -> port ∈ ports -> ~ meets rule src port.
Proof.
  intros Hdrop Hb Hin Hnet Hlen Hsrc Hport (Hrp & left & Hleft & Hls).
  destruct (contains_four network src) as [pn Hpn]; [done|done|by eapply ParseCIDR_lengths|].
  destruct (contains_four left src) as [ln Hln]; [done|done|by eapply ParseCIDR_lengths|].
  assert (network ∈ fwc_protectedSources controller) as Hprot.
  { cbn [newFirewallController fwc_protectedSources]. apply list_elem_of_omap. exists source. split; [done|].
    by rewrite Hnet, bool_decide_eq_true_2 by by eexists. }
  assert (networksOverlap left network = true) as Ho.
  { destruct (ParseCIDR_v4 _ _ _ Hnet Hpn) as [k1 V1], (ParseCIDR_v4 _ _ _ Hleft Hln) as [k2 V2].
    unfold networksOverlap. rewrite (Contains_To4 left _ _ Hpn), (Contains_To4 network _ _ Hln).
    apply orb_true_iff. eapply shared_address_overlaps; eauto. }
  revert Hb. unfold blocksProtectedPath. rewrite Hdrop, Hleft. change ("DROP" =?s "DROP") with true. cbn [negb orb].
  assert (length (fwc_protectedSources controller) <> 0%nat) as Hl0 by (by destruct (fwc_protectedSources controller); [apply not_elem_of_nil in Hprot|]).
  cbn [newFirewallController fwc_protectedPorts] in *.
  rewrite (proj2 (Nat.eqb_neq _ _) Hl0). cbn [orb].
  assert (size ports <> 0%nat) as Hs by (intros E%size_empty_inv; set_solver).
  rewrite (proj2 (Nat.eqb_neq _ _) Hs).
  assert (negb (rule_Port rule =? 0) && negb (bool_decide (rule_Port rule ∈ ports)) = false) as ->.
  { apply andb_false_iff. destruct Hrp as [->|<-]; [by left|right]. by rewrite bool_decide_eq_true_2. }
  intros Hb. apply existsb_false in Hb. rewrite Forall_forall in Hb. rewrite (Hb _ Hprot) in Ho. done.
Qed.
End controller.

(** ** Changes of the chain *)

(** One of the commands of [preparation]. *)
Ltac prepares := repeat first [apply list_elem_of_here | apply list_elem_of_further].

Section changes.
Context (c : firewallController).

(** The commands before the rule itself: reading the chain, creating it, and
    making [INPUT] jump to it. *)
Definition preparation : list (string * list string) :=
  [(fwc_iptables c, ["-S"; firewallManagedChain]); (fwc_iptables c, ["-N"; firewallManagedChain]);
   (fwc_iptables c, ["-C"; "INPUT"; "-j"; firewallManagedChain]);
   (fwc_iptables c, ["-I"; "INPUT"; "1"; "-j"; firewallManagedChain])].

(** The command that lists the chain, and the revision of its answer. *)
Definition listing_command : string * list string := (fwc_iptables c, ["-S"; firewallManagedChain]).

Definition listed_revision (listing : result string string) : string :=
  firewallRevision (match listing with Ok output => managed_lines output | Err _ => [] end).

(** What the commands of [Add] can be, for the appended arguments. *)
Definition add_commands (append : list string) (r : answer string) (cmds : list (string * list string)) : Prop :=
  exists prep, Forall (fun cmd => cmd ∈ preparation) prep /\
  match r with
  | Ok _ => cmds = prep ++ [(fwc_iptables c, append); (fwc_saveBinary c, ["save"])]
  | Err e =>
      cmds = prep
      \/ cmds = prep ++ [(fwc_iptables c, append); (fwc_iptables c, "-D" :: firewallManagedChain :: drop 2 append)]
      \/ (exists text, e = rollback_failed text) /\ cmds = prep ++ [(fwc_iptables c, append)]
  end.

Lemma add_prepared cmd append r cmds :
  cmd ∈ preparation -> add_commands append r cmds -> add_commands append r (cmd :: cmds).
Proof.
  intros Hc (prep & Hp & Hr). exists (cmd :: prep). split; [by constructor|].
  destruct r; [by subst|]. destruct Hr as [-> | [-> | [? ->]]]; auto.
Qed.

Lemma add_stops append e : add_commands append (Err e) [].
Proof. exists []. split; [constructor|by left]. Qed.

Lemma must_path (append : list string) before name args k es r :
  (name, args) ∈ preparation -> path (must (fun e => Ret (Err e)) before name args k) es r ->
  (forall es', path k es' r -> add_commands append r (commands es')) -> add_commands append r (commands es).
Proof.
  intros Hin (b & es' & -> & Hp) Hk. destruct b as [u|text].
  - apply add_prepared; [done|by apply Hk].
  - destruct Hp as [-> ->]. apply add_stops.
Qed.

(** Appending and saving, with the undoing of a failed save. *)
Lemma append_path append id es r :
  path (must (fun e => Ret (Err e)) "append managed firewall rule: " (fwc_iptables c) append
          (save_or_undo c (fun e => Ret (Err e)) ("-D" :: firewallManagedChain :: drop 2 append) (Ret (Ok id)))) es r ->
  add_commands append r (commands es) /\ (forall i, r = Ok i -> i = id).
Proof.
  intros (b & es1 & -> & Hp). destruct b as [u|text]; [|destruct Hp as [-> ->]; split; [apply add_stops|done]].
  destruct Hp as (b & es2 & -> & Hp). destruct b as [v|text].
  - destruct Hp as [-> ->]. split; [|by intros i [= ->]]. exists []. by split; [constructor|].
  - destruct Hp as (b & es3 & -> & Hp). destruct b as [w|text2]; destruct Hp as [-> ->]; (split; [|done]);
      exists []; (split; [constructor|]); [right; by left|right; right; split; [by eexists|done]].
Qed.

Lemma attach_path append id es r :
  path (ensure_jump c (fun e => Ret (Err e))
          (must (fun e => Ret (Err e)) "append managed firewall rule: " (fwc_iptables c) append
            (save_or_undo c (fun e => Ret (Err e)) ("-D" :: firewallManagedChain :: drop 2 append) (Ret (Ok id))))) es r ->
  add_commands append r (commands es) /\ (forall i, r = Ok i -> i = id).
Proof.
  intros (b & es1 & -> & Hp). destruct b as [u|text].
  - apply append_path in Hp as [Ha Hi]. split; [|done]. apply add_prepared; [|done]. prepares.
  - destruct Hp as (b & es2 & -> & Hp). destruct b as [u|text2]; [|destruct Hp as [-> ->]; split; [apply add_stops|done]].
    apply append_path in Hp as [Ha Hi]. split; [|done]. apply add_prepared; [|done]. prepares.
Qed.

(** C36. Adding a rule is all or nothing and guarded by the panel's revision.
    The only rule ever appended is the normalised one, which blocks no protected
    path; when [Add] succeeds it was appended and saved; when it fails either
    nothing was appended, or it was removed again, or the failure says that the
    removal failed too; and no chain is changed unless the listing had the
    revision the panel saw. *)
Theorem firewall_add_atomic rule expected es r :
  path (Add c rule expected) es r ->
  commands es = [] /\ (exists e, r = Err e)
  \/ exists normalized id (listing : result string string),
       normalizeFirewallRule (set_rule rule "" (rule_Source rule) "" true) = Some normalized
       /\ blocksProtectedPath c normalized = false
       /\ add_commands (firewallAppendArgs (set_rule normalized id (rule_Source normalized) "" true)) r (commands es)
       /\ (forall i, r = Ok i -> i = id)
       /\ Did (Exec (fwc_iptables c) ["-S"; firewallManagedChain]) listing ∈ es
       /\ (listed_revision listing = expected
           \/ (exists e, r = Err e) /\ Forall (fun cmd => cmd = listing_command) (commands es)).
Proof.
  unfold Add. destruct (negb (fwc_allowWrite c)); [by intros [-> ->]; left; split; [|eexists]|].
  destruct (normalizeFirewallRule _) as [normalized|] eqn:En; [|by intros [-> ->]; left; split; [|eexists]].
  destruct (blocksProtectedPath c normalized) eqn:Eb; [by intros [-> ->]; left; split; [|eexists]|].
  intros (raw & es1 & -> & Hp). destruct raw as [bytes|text]; [|destruct Hp as [-> ->]; left; split; [done|by eexists]].
  destruct Hp as (lock & es2 & -> & Hp). destruct lock as [u|text]; [|destruct Hp as [-> ->]; left; split; [done|by eexists]].
  destruct Hp as (listing & es3 & -> & Hp). right.
  exists normalized, ("fw-" +:+ hex_encode bytes), listing. split; [done|]. split; [done|].
  set (append := firewallAppendArgs _) in *.
  assert ((add_commands append r (commands es3) /\ (forall i, r = Ok i -> i = "fw-" +:+ hex_encode bytes))
    /\ (listed_revision listing = expected \/ (exists e, r = Err e) /\ commands es3 = [])) as [[Ha Hi] Hrev].
  { destruct listing as [output|text]; destruct (_ || _) eqn:Er in Hp;
      try (destruct Hp as [-> ->]; (split; [split; [apply add_stops|discriminate]|
        right; exact (conj (ex_intro _ _ eq_refl) eq_refl)]));
      breflect; (split; [|left; assumption]).
    - by apply attach_path in Hp.
    - destruct Hp as (b & es4 & -> & Hp). destruct b as [u'|text2]; [|destruct Hp as [-> ->]; split; [apply add_stops|done]].
      apply attach_path in Hp as [Ha Hi]. split; [|done]. apply add_prepared; [|done]. prepares. }
  split; [|split; [done|split; [prepares|]]].
  - destruct listing; [|done]. apply add_prepared; [|done]. prepares.
  - destruct Hrev as [?|[He Hnil]]; [by left|right]. split; [done|].
    destruct listing; simpl; rewrite Hnil; by repeat constructor.
Qed.

(** The rules of a listing of the chain, in order. *)
Definition chain_rules (lines : list string) : list (list string) :=
  filter (fun args => appended firewallManagedChain args = true) (Fields <$> lines).

Definition marked (id : string) (args : list string) : bool := hasFirewallComment args ("hserver:" +:+ id +:+ ":").

(** [find_rule] answers the first rule of that identifier, with its position. *)
Lemma find_rule_first id p lines position target :
  find_rule id p lines = Some (position, target) ->
  exists before after, chain_rules lines = before ++ target :: after
    /\ position = p + 1 + Z.of_nat (length before)
    /\ marked id target = true /\ Forall (fun args => marked id args = false) before.
Proof.
  unfold chain_rules. revert p. induction lines as [|line lines IH]; intros p; [done|]. cbn [find_rule fmap list_fmap]. cbv zeta.
  destruct (appended firewallManagedChain (Fields line)) eqn:Ea; cbn [negb].
  - rewrite filter_cons_True by done. fold (marked id (Fields line)).
    destruct (marked id (Fields line)) eqn:Em.
    + intros [= <- <-]. exists [], (chain_rules lines). split; [done|]. split; [simpl; lia|]. by split; [|constructor].
    + intros (before & after & -> & -> & Hm & Hb)%IH. exists (Fields line :: before), after.
      split; [done|]. split; [simpl length; lia|]. by split; [|constructor].
  - rewrite filter_cons_False by congruence. apply IH.
Qed.

(** Deleting and saving, with the undoing of a failed save. *)
Lemma remove_path del undo es r :
  path (must (fun e => Ret (Err e)) "delete managed firewall rule: " (fwc_iptables c) del
          (save_or_undo c (fun e => Ret (Err e)) undo (Ret (Ok tt)))) es r ->
  match r with
  | Ok _ => commands es = [(fwc_iptables c, del); (fwc_saveBinary c, ["save"])]
  | Err e =>
      commands es = [] \/ commands es = [(fwc_iptables c, del); (fwc_iptables c, undo)]
      \/ (exists text, e = rollback_failed text) /\ commands es = [(fwc_iptables c, del)]
  end.
Proof.
  intros (b & es1 & -> & Hp). destruct b as [u|text]; [|destruct Hp as [-> ->]; by left].
  destruct Hp as (b & es2 & -> & Hp). destruct b as [v|text]; [by destruct Hp as [-> ->]|].
  destruct Hp as (b & es3 & -> & Hp). destruct b as [w|text2]; destruct Hp as [-> ->]; right; [by left|right].
  split; [by eexists|done].
Qed.

(** Deleting a rule touches that rule only, under the panel's revision: the
    words deleted are those of the first rule with the identifier in the
    chain, and when the save fails they are inserted again at the position they
    had, or the failure says that this failed. *)
Theorem firewall_delete_exact id expected es r :
  path (Delete c id expected) es r ->
  Forall (fun cmd => cmd = listing_command) (commands es) /\ (exists e, r = Err e)
  \/ exists listing output reads before target after,
       Did (Exec (fwc_iptables c) ["-S"; firewallManagedChain]) listing ∈ es
       /\ Did (Exec (fwc_iptables c) ["-S"; firewallManagedChain]) (Ok output) ∈ es
       /\ listed_revision listing = expected
       /\ chain_rules (lines_of output) = before ++ target :: after
       /\ marked id target = true /\ Forall (fun args => marked id args = false) before
       /\ Forall (fun cmd => cmd = listing_command) reads
       /\ match r with
          | Ok _ => commands es = reads ++ [(fwc_iptables c, "-D" :: tail target); (fwc_saveBinary c, ["save"])]
          | Err e =>
              commands es = reads
              \/ commands es = reads ++ [(fwc_iptables c, "-D" :: tail target);
                   (fwc_iptables c, ["-I"; firewallManagedChain; Itoa (1 + Z.of_nat (length before))] ++ drop 2 target)]
              \/ (exists text, e = rollback_failed text)
                 /\ commands es = reads ++ [(fwc_iptables c, "-D" :: tail target)]
          end.
Proof.
  unfold Delete. destruct (negb (fwc_allowWrite c)); [by intros [-> ->]; left; split; [constructor|eexists]|].
  destruct (negb (agentFirewallIDPattern id)); [by intros [-> ->]; left; split; [constructor|eexists]|].
  intros (lock & es1 & -> & Hp). destruct lock as [u|text]; [|destruct Hp as [-> ->]; left; split; [constructor|by eexists]].
  destruct Hp as (listing & es2 & -> & Hp).
  set (reads := match listing with Ok _ => [listing_command] | Err _ => [] end).
  assert (Forall (fun cmd => cmd = listing_command) reads) as Hreads by (destruct listing; by repeat constructor).
  assert (commands (Did (LockFile (fwc_lockPath c)) (Ok u)
                    :: Did (Exec (fwc_iptables c) ["-S"; firewallManagedChain]) listing :: es2)
          = reads ++ commands es2) as -> by (destruct listing; done).
  assert ((r = Err firewall_changed /\ es2 = [])
    \/ (listed_revision listing = expected
       /\ path (Call (Exec (fwc_iptables c) ["-S"; firewallManagedChain]) (fun out =>
            match out with
            | Err _ => Ret (Err firewall_missing)
            | Ok output =>
                match find_rule id 0 (lines_of output) with
                | None => Ret (Err firewall_missing)
                | Some (position, target) =>
                    must (fun e => Ret (Err e)) "delete managed firewall rule: " (fwc_iptables c) ("-D" :: tail target)
                      (save_or_undo c (fun e => Ret (Err e))
                         (["-I"; firewallManagedChain; Itoa position] ++ drop 2 target) (Ret (Ok tt)))
                end
            end)) es2 r)) as [[-> ->]|[Hrev (out & es3 & -> & Hp')]].
  { destruct listing as [output|text]; destruct (_ || _) eqn:Er in Hp;
      try (left; destruct Hp as [-> ->]; done); right; breflect; by split. }
  { left. rewrite app_nil_r. split; [done|by eexists]. }
  clear Hp. destruct out as [output|text]; [|destruct Hp' as [-> ->]; left; rewrite app_nil_r; split; [done|by eexists]].
  change (commands (Did (Exec (fwc_iptables c) ["-S"; firewallManagedChain]) (Ok output) :: es3))
    with (listing_command :: commands es3).
  destruct (find_rule id 0 (lines_of output)) as [[position target]|] eqn:Ef.
  - apply find_rule_first in Ef as (before & after & Hrules & -> & Hm & Hb). apply remove_path in Hp'. right.
    exists listing, output, (reads ++ [listing_command]), before, target, after.
    split; [prepares|]. split; [prepares|]. split; [done|]. split; [done|]. split; [done|]. split; [done|]. split.
    + apply Forall_app_2; [exact Hreads|by repeat constructor].
    + rewrite <-!app_assoc. destruct r as [u'|e]; [by rewrite Hp'|].
      destruct Hp' as [-> | [-> | [Ht ->]]]; [by left|right; by left|right; by right].
  - destruct Hp' as [-> ->]. left. split; [|by eexists]. apply Forall_app. split; [done|by repeat constructor].
Qed.
End changes.

Definition sample_controller : firewallController :=
  newFirewallController true true "/sbin/iptables" "/sbin/netfilter-persistent" "/run/fw.lock" "netfilter-persistent"
    ["10.0.0.0/8"] {[22]}.

Definition sample_drop : firewallRule := mkRule "" "DROP" "tcp" 22 "192.168.0.0/16" "lab" true "".

Lemma drop_spares_protected_witness :
  blocksProtectedPath sample_controller sample_drop = false
  /\ blocksProtectedPath sample_controller (mkRule "" "DROP" "tcp" 22 "0.0.0.0/0" "" true "") = true
  /\ ~ meets sample_drop [10; 1; 2; 3] 22.
Proof.
  split; [vm_compute; reflexivity|]. split; [vm_compute; reflexivity|].
  apply (drop_spares_protected true true "/sbin/iptables" "/sbin/netfilter-persistent" "/run/fw.lock"
           "netfilter-persistent" ["10.0.0.0/8"] {[22]} sample_drop "10.0.0.0/8"
           (mkNet [10; 0; 0; 0] [255; 0; 0; 0]) [10; 1; 2; 3] 22);
    [reflexivity|vm_compute; reflexivity|left|vm_compute; reflexivity|reflexivity|vm_compute; reflexivity|].
  apply elem_of_singleton. reflexivity.
Defined.

(** A run that appends a rule and saves it. *)
Definition sample_run : list did :=
  [Did (RandomBytes 6) (Ok [0; 17; 34; 51; 170; 187]);
   Did (LockFile "/run/fw.lock") (Ok tt);
   Did (Exec "/sbin/iptables" ["-S"; firewallManagedChain]) (Ok "-N HSERVER-INPUT");
   Did (Exec "/sbin/iptables" ["-C"; "INPUT"; "-j"; firewallManagedChain]) (Ok "");
   Did (Exec "/sbin/iptables" (firewallAppendArgs (set_rule sample_drop "fw-00112233aabb" "192.168.0.0/16" "" true))) (Ok "");
   Did (Exec "/sbin/netfilter-persistent" ["save"]) (Ok "")].

Lemma firewall_add_atomic_witness :
  path (Add sample_controller sample_drop (firewallRevision [])) sample_run (Ok "fw-00112233aabb")
  /\ exists normalized id,
       blocksProtectedPath sample_controller normalized = false
       /\ add_commands sample_controller (firewallAppendArgs (set_rule normalized id (rule_Source normalized) "" true))
            (Ok "fw-00112233aabb") (commands sample_run).
Proof.
  assert (path (Add sample_controller sample_drop (firewallRevision [])) sample_run (Ok "fw-00112233aabb")) as Hp.
  { unfold Add. change (negb (fwc_allowWrite sample_controller)) with false. cbv iota.
    assert (normalizeFirewallRule (set_rule sample_drop "" (rule_Source sample_drop) "" true)
            = Some (mkRule "" "DROP" "tcp" 22 "192.168.0.0/16" "lab" true "")) as -> by (vm_compute; reflexivity).
    assert (blocksProtectedPath sample_controller (mkRule "" "DROP" "tcp" 22 "192.168.0.0/16" "lab" true "") = false)
      as -> by (vm_compute; reflexivity).
    do 2 (eexists _, _; split; [reflexivity|]; cbv beta iota). eexists _, _. split; [reflexivity|]. cbv beta iota.
    assert (managed_lines "-N HSERVER-INPUT" = []) as -> by (vm_compute; reflexivity). cbv iota beta.
    assert (negb (agentSHA256Pattern (firewallRevision [])) || negb (firewallRevision [] =?s firewallRevision []) = false)
      as -> by (vm_compute; reflexivity).
    do 3 (eexists _, _; split; [reflexivity|]; cbv beta iota). split; reflexivity. }
  split; [exact Hp|].
  destruct (firewall_add_atomic _ _ _ _ _ Hp) as [[_ [e He]]|(normalized & id & listing & _ & Hb & Ha & _)]; [discriminate He|].
  exists normalized, id. split; [exact Hb|exact Ha].
Defined.

(** A protected source written as an IPv4-mapped network shorter than the
    mapping's prefix passes the configuration and is then not protected. *)
Lemma mapped_source_unprotected :
  parseFirewallSources "::ffff:10.0.0.1/64" = Some ["::/64"]
  /\ fwc_protectedSources (newFirewallController true true "" "" "" "" ["::/64"] {[22]}) = [].
Proof. split; vm_compute; reflexivity. Qed.

(** The listing of [sample_drop] in the chain, and a run that deletes it. *)
Definition sample_listing : string :=
  "-N HSERVER-INPUT" +:+ String "010"%char
    (join " "%char (firewallAppendArgs (set_rule sample_drop "fw-00112233aabb" "192.168.0.0/16" "" true))).

Definition sample_target : list string :=
  firewallAppendArgs (set_rule sample_drop "fw-00112233aabb" "192.168.0.0/16" "" true).

Definition delete_run : list did :=
  [Did (LockFile "/run/fw.lock") (Ok tt);
   Did (Exec "/sbin/iptables" ["-S"; firewallManagedChain]) (Ok sample_listing);
   Did (Exec "/sbin/iptables" ["-S"; firewallManagedChain]) (Ok sample_listing);
   Did (Exec "/sbin/iptables" ("-D" :: tail sample_target)) (Ok "");
   Did (Exec "/sbin/netfilter-persistent" ["save"]) (Ok "")].

Lemma firewall_delete_exact_witness :
  path (Delete sample_controller "fw-00112233aabb" (firewallRevision (managed_lines sample_listing))) delete_run (Ok tt)
  /\ exists reads target, marked "fw-00112233aabb" target = true
       /\ commands delete_run = reads ++ [("/sbin/iptables", "-D" :: tail target); ("/sbin/netfilter-persistent", ["save"])].
Proof.
  assert (path (Delete sample_controller "fw-00112233aabb" (firewallRevision (managed_lines sample_listing))) delete_run (Ok tt)) as Hp.
  { assert (agentSHA256Pattern (firewallRevision (managed_lines sample_listing)) = true) as Hsha by (vm_compute; reflexivity).
    assert (agentFirewallIDPattern "fw-00112233aabb" = true) as Hid by reflexivity.
    assert (fwc_allowWrite sample_controller = true) as Hw by reflexivity.
    unfold Delete. rewrite Hw, Hid. change (negb true) with false. cbv iota.
    eexists _, _. split; [reflexivity|]. cbv beta iota. eexists _, _. split; [reflexivity|]. cbv beta iota.
    rewrite Hsha, String.eqb_refl. change (negb true || negb true) with false. cbv iota.
    eexists _, _. split; [reflexivity|]. cbv beta iota.
    assert (find_rule "fw-00112233aabb" 0 (lines_of sample_listing) = Some (1, sample_target)) as ->
      by (vm_compute; reflexivity). cbv beta iota.
    do 2 (eexists _, _; split; [reflexivity|]; cbv beta iota). split; reflexivity. }
  split; [exact Hp|].
  destruct (firewall_delete_exact _ _ _ _ _ Hp)
    as [[_ [e He]]|(listing & output & reads & before & target & after & _ & _ & _ & _ & Hm & _ & _ & Hc)];
    [discriminate He|].
  exists reads, target. split; [exact Hm|exact Hc].
Defined.

(** [iptables] quotes a comment that has a colon.  Such a line is read as a
    managed rule, but deleting it hands the words to [iptables] with the
    quotes in them, so the comment of the deletion is not the comment of the
    rule. *)
Definition quoted_listing : string :=
  "-A HSERVER-INPUT -s 192.168.0.0/16 -p tcp -m tcp --dport 22 -m comment --comment "
  +:+ String "034"%char ("hserver:fw-00112233aabb:bGFi" +:+ String "034"%char " -j DROP").

Lemma delete_keeps_quotes :
  (rule_ID <$> parseManagedFirewallRule quoted_listing) = Some "fw-00112233aabb"
  /\ "hserver:fw-00112233aabb:bGFi" ∈ sample_target
  /\ match find_rule "fw-00112233aabb" 0 [quoted_listing] with
     | Some (_, target) => "hserver:fw-00112233aabb:bGFi" ∉ target
                           /\ String "034"%char ("hserver:fw-00112233aabb:bGFi" +:+ String "034"%char "") ∈ target
     | None => False
     end.
Proof.
  split; [vm_compute; reflexivity|]. split; [apply (bool_decide_unpack _); vm_compute; exact I|].
  assert (exists target, find_rule "fw-00112233aabb" 0 [quoted_listing] = Some (1, target)
    /\ bool_decide ("hserver:fw-00112233aabb:bGFi" ∉ target) = true
    /\ bool_decide (String "034"%char ("hserver:fw-00112233aabb:bGFi" +:+ String "034"%char "") ∈ target) = true)
    as (target & -> & H1 & H2) by (eexists; split; [vm_compute; reflexivity|split; vm_compute; reflexivity]).
  apply bool_decide_eq_true in H1, H2. split; assumption.
Qed.

(** ** The firewall: rules and their command lines

    The words [iptables] is given for a rule, and the reading of a listed rule:
    [firewallAppendArgs] and [parseManagedFirewallRule] are inverse. *)

(** ** Notes *)

Lemma url_char_spec i :
  0 <= i < 64 -> url_value (url_char (b64_char i)) = Some i /\ b64_char i <> b64_pad
                 /\ b64_newline (url_char (b64_char i)) = false.
Proof.
  intros Hi.
  assert (forallb (fun n => bool_decide (url_value (url_char (b64_char (Z.of_nat n))) = Some (Z.of_nat n)
            /\ b64_char (Z.of_nat n) <> b64_pad
            /\ b64_newline (url_char (b64_char (Z.of_nat n))) = false)) (seq 0 64) = true) as H
    by (vm_compute; reflexivity).
  rewrite forallb_forall in H. specialize (H (Z.to_nat i)).
  rewrite Z2Nat.id in H by lia. apply bool_decide_eq_true in H; [done|]. apply in_seq. lia.
Qed.

(** The characters of an encoding without padding. *)
Definition raw_chars (bs : list ascii) : list ascii := url_char <$> filter (fun c => c <> b64_pad) (b64_encode bs).

Lemma raw_chars_kept i l :
  0 <= i < 64 -> url_char <$> filter (fun c => c <> b64_pad) (b64_char i :: l)
                 = url_char (b64_char i) :: (url_char <$> filter (fun c => c <> b64_pad) l).
Proof. intros Hi. destruct (url_char_spec i Hi) as (_ & Hp & _). by rewrite filter_cons_True. Qed.

Lemma raw_chars_pad l :
  url_char <$> filter (fun c => c <> b64_pad) (b64_pad :: l) = url_char <$> filter (fun c => c <> b64_pad) l.
Proof. by rewrite filter_cons_False by naive_solver. Qed.

Lemma raw_roundtrip bs :
  raw_url_decode (raw_chars bs) = bs /\ Forall (fun c => b64_newline c = false) (raw_chars bs).
Proof.
  induction bs as [|a|a b|a b c bs [IH IHn]] using list_ind3; [by split; [|constructor]|..]; unfold raw_chars.
  - destruct (b64_bytes a (of_byte 0) (of_byte 0)) as (Hv & Ha & _).
    change (byte (of_byte 0)) with 0 in *. rewrite !Z.mul_0_l, !Z.add_0_r in *.
    destruct (b64_digits _ Hv) as (D1 & D2 & D3 & D4 & Hsum).
    cbn [b64_encode]. cbv zeta. rewrite !raw_chars_kept, !raw_chars_pad by done.
    destruct (url_char_spec _ D1) as (V1 & _ & N1), (url_char_spec _ D2) as (V2 & _ & N2).
    cbn [filter list_filter fmap list_fmap raw_url_decode]. rewrite V1, V2. split; [|by repeat constructor].
    assert (byte a * 65536 / 64 mod 64 = 0 /\ byte a * 65536 mod 64 = 0) as [E1 E2].
    { split.
      - replace (byte a * 65536) with (byte a * 16 * 64 * 64) by lia. rewrite Z.div_mul by lia. apply Z.mod_mul. lia.
      - replace (byte a * 65536) with (byte a * 1024 * 64) by lia. apply Z.mod_mul. lia. }
    rewrite E1, E2, !Z.mul_0_l, !Z.add_0_r in Hsum. by rewrite <-Hsum, Ha.
  - destruct (b64_bytes a b (of_byte 0)) as (Hv & Ha & Hb & _).
    change (byte (of_byte 0)) with 0 in *. rewrite !Z.add_0_r in *.
    destruct (b64_digits _ Hv) as (D1 & D2 & D3 & D4 & Hsum).
    cbn [b64_encode]. cbv zeta. rewrite !raw_chars_kept, !raw_chars_pad by done.
    destruct (url_char_spec _ D1) as (V1 & _ & N1), (url_char_spec _ D2) as (V2 & _ & N2), (url_char_spec _ D3) as (V3 & _ & N3).
    cbn [filter list_filter fmap list_fmap raw_url_decode]. rewrite V1, V2, V3. split; [|by repeat constructor].
    assert ((byte a * 65536 + byte b * 256) mod 64 = 0) as E2.
    { replace (byte a * 65536 + byte b * 256) with ((byte a * 1024 + byte b * 4) * 64) by lia. apply Z.mod_mul. lia. }
    rewrite E2, Z.add_0_r in Hsum. rewrite <-Hsum. by rewrite Ha, Hb.
  - destruct (b64_bytes a b c) as (Hv & Ha & Hb & Hc). destruct (b64_digits _ Hv) as (D1 & D2 & D3 & D4 & Hsum).
    cbn [b64_encode]. cbv zeta. rewrite !raw_chars_kept by done. fold (raw_chars bs).
    destruct (url_char_spec _ D1) as (V1 & _ & N1), (url_char_spec _ D2) as (V2 & _ & N2),
      (url_char_spec _ D3) as (V3 & _ & N3), (url_char_spec _ D4) as (V4 & _ & N4).
    cbn [raw_url_decode]. rewrite V1, V2, V3, V4, IH. split; [|by repeat constructor].
    by rewrite <-Hsum, Ha, Hb, Hc.
Qed.

Lemma note_roundtrip s : RawURLDecode (RawURLEncode s) = s.
Proof.
  unfold RawURLDecode, RawURLEncode. rewrite chars_of_list. destruct (raw_roundtrip (chars s)) as [Hr Hn].
  fold (raw_chars (chars s)). by rewrite filter_all, Hr, string_chars.
Qed.

(** ** Words *)

(** A word a command line carries as it is: printable, without blanks or quotes. *)
Definition plain_char (c : ascii) : bool := (0x21 <=? byte c) && (byte c <? 0x7F) && negb (quote_mark c).
Definition plain_word (s : string) : bool := negb (s =?s "") && forallb plain_char (chars s).

Lemma segments_ascii s :
  Forall (fun c => byte c < 0x80) (chars s) -> segments_from 0 s = (fun c => (byte c, String c "")) <$> chars s.
Proof.
  induction s as [|c s IH]; intros Hs; [done|]. apply Forall_cons in Hs as [Hc Hs]. simpl. unfold decode_rune.
  rewrite (proj2 (Z.ltb_lt _ _)) by done. rewrite IH by done. by destruct s.
Qed.

Lemma plain_space c : plain_char c = true -> IsSpace (byte c) = false.
Proof. revert c. each_byte. Qed.

Lemma words_plain w rest acc :
  forallb plain_char w = true ->
  words acc (((fun c => (byte c, String c "")) <$> w) ++ rest) = words (acc +:+ String.string_of_list_ascii w) rest.
Proof.
  revert acc. induction w as [|c w IH]; intros acc Hw; simpl in *; [by rewrite string_app_nil_r|].
  apply andb_true_iff in Hw as [Hc Hw]. rewrite plain_space by done. rewrite IH by done. f_equal.
  rewrite <-string_app_assoc. done.
Qed.

Lemma Fields_join ws : Forall (fun w => plain_word w = true) ws -> Fields (join " "%char ws) = ws.
Proof.
  intros Hws. unfold Fields.
  assert (Forall (fun c => byte c < 0x80) (chars (join " "%char ws))) as Ha.
  { induction Hws as [|w ws Hw Hws IH]; [constructor|]. unfold plain_word in Hw. breflect.
    assert (Forall (fun c => byte c < 0x80) (chars w)) as Hc.
    { apply forallb_Forall in H0. eapply Forall_impl; [exact H0|]. intros c Hc. unfold plain_char in Hc. breflect. lia. }
    destruct ws as [|w' ws]; [done|]. cbn [join]. rewrite chars_app. apply Forall_app. split; [done|].
    constructor; [by vm_compute|done]. }
  rewrite segments_ascii by done. clear Ha.
  induction Hws as [|w ws Hw Hws IH]; [done|]. unfold plain_word in Hw. breflect.
  assert (forall rest, words "" (((fun c => (byte c, String c "")) <$> chars w) ++ rest) = words w rest) as Hw1.
  { intros rest. rewrite words_plain by done. simpl. by rewrite string_chars. }
  destruct ws as [|w' ws].
  - cbn [join]. rewrite <-(app_nil_r (_ <$> chars w)), Hw1. cbn [words]. cbv zeta. by rewrite (proj2 (String.eqb_neq _ _)).
  - change (join " "%char (w :: w' :: ws)) with (w +:+ String " "%char (join " "%char (w' :: ws))).
    rewrite chars_app, fmap_app, Hw1.
    change (chars (String " "%char (join " "%char (w' :: ws)))) with (" "%char :: chars (join " "%char (w' :: ws))).
    cbn [fmap list_fmap words]. cbv zeta. change (IsSpace (byte " "%char)) with true. cbv iota.
    rewrite (proj2 (String.eqb_neq _ _)) by done. cbn [app]. f_equal. exact IH.
Qed.

Lemma trim_plain_word w : plain_word w = true -> trim_quotes w = w.
Proof.
  unfold plain_word. intros Hw. breflect.
  assert (forall l, forallb plain_char l = true -> drop_quotes l = l) as Hd.
  { intros [|c l] Hl; [done|]. cbn [forallb] in Hl. apply andb_true_iff in Hl as [Hl _]. unfold plain_char in Hl. breflect. cbn [drop_quotes].
    by match goal with H : quote_mark _ = false |- _ => rewrite H end. }
  unfold trim_quotes. rewrite (Hd (chars w)) by done. rewrite Hd; [by rewrite reverse_involutive, string_chars|].
  apply forallb_Forall, Forall_reverse. by apply forallb_Forall.
Qed.

(** ** A rule and its line *)

Lemma plain_app a b : plain_word a = true -> forallb plain_char (chars b) = true -> plain_word (a +:+ b) = true.
Proof.
  unfold plain_word. intros Ha Hb. breflect. rewrite chars_app, forallb_app, Hb, andb_true_r.
  destruct a; [done|]. simpl. done.
Qed.

(** A value on the command line: plain, and not a flag. *)
Definition value_word (w : string) : bool :=
  plain_word w && match w with String c _ => negb (Ascii.eqb c "-"%char) | "" => false end.

Lemma value_not_flag w flag : value_word w = true -> (w =?s String "-"%char flag) = false.
Proof.
  unfold value_word. intros Hv. apply andb_true_iff in Hv as [_ Hv]. apply String.eqb_neq. intros ->.
  by rewrite Ascii.eqb_refl in Hv.
Qed.

Lemma value_app a b : value_word a = true -> forallb plain_char (chars b) = true -> value_word (a +:+ b) = true.
Proof.
  unfold value_word. intros Ha Hb. apply andb_true_iff in Ha as [Ha Hh]. rewrite plain_app by done.
  by destruct a.
Qed.

Lemma value_plain w : value_word w = true -> plain_word w = true.
Proof. unfold value_word. intros. by breflect. Qed.

Lemma plain_chars w : plain_word w = true -> forallb plain_char (chars w) = true.
Proof. unfold plain_word. intros. by breflect. Qed.

Lemma digit_plain d : 0 <= d < 10 -> plain_char (digit_char d) = true /\ digit_char d <> "-"%char.
Proof.
  intros Hd. assert (d = 0 \/ d = 1 \/ d = 2 \/ d = 3 \/ d = 4 \/ d = 5 \/ d = 6 \/ d = 7 \/ d = 8 \/ d = 9) as Hc by lia.
  repeat destruct Hc as [->|Hc]; try subst d; by split; [vm_compute|vm_compute; discriminate].
Qed.

Lemma utoa_chars n : 0 <= n -> Forall (fun c => plain_char c = true /\ c <> "-"%char) (chars (utoa n)).
Proof.
  intros Hn. unfold utoa. rewrite chars_of_list. apply Forall_fmap.
  eapply Forall_impl; [by apply dec_digits_range|]. intros d Hd. by apply digit_plain.
Qed.

Lemma Itoa_value n : 0 <= n -> value_word (Itoa n) = true.
Proof.
  intros Hn. unfold Itoa. rewrite (proj2 (Z.ltb_ge _ _)) by lia. pose proof (utoa_chars n Hn) as Hc.
  pose proof (utoa_nonempty n) as Hne. destruct (utoa n) as [|c s]; [done|].
  apply Forall_cons in Hc as [[Hc Hd] Hs]. unfold value_word, plain_word.
  rewrite (proj2 (String.eqb_neq _ _)), (proj2 (Ascii.eqb_neq _ _)) by done. cbn [negb andb].
  rewrite andb_true_r. cbn. rewrite Hc. apply forallb_Forall. eapply Forall_impl; [exact Hs|]. by intros x [? _].
Qed.

Lemma digits_value_mono acc s n : 0 <= acc -> digits_value acc s = Some n -> acc <= n.
Proof.
  revert acc. induction s as [|c s IH]; intros acc Ha; simpl; [intros [= ->]; lia|].
  unfold digit_of, in_range. destruct (_ && _) eqn:E; [|done]. breflect. intros Hv. apply IH in Hv; lia.
Qed.

Lemma scan_digits acc s n :
  0 <= acc -> digits_value acc s = Some n -> n <= max_uint64 -> scan_uint acc s = Some n.
Proof.
  revert acc. induction s as [|c s IH]; intros acc Ha Hv Hn; [done|]. simpl in *.
  unfold digit_of, in_range in *. destruct (_ && _) eqn:E; [|done]. breflect.
  pose proof (digits_value_mono (acc * 10 + (byte c - 48)) s n ltac:(lia) Hv). rewrite (proj2 (Z.ltb_ge _ _)) by lia. apply IH; [lia|done..].
Qed.

Lemma Atoi_value_Itoa n : 0 <= n <= max_int64 -> Atoi_value (Itoa n) = n.
Proof.
  intros Hn. unfold Itoa. rewrite (proj2 (Z.ltb_ge _ _)) by lia. unfold Atoi_value.
  pose proof (digits_value_utoa n ltac:(lia)) as Hv. pose proof (utoa_chars n ltac:(lia)) as Hc.
  pose proof (utoa_nonempty n) as Hne. destruct (utoa n) as [|c s]; [done|].
  apply scan_digits in Hv as Hs; [|lia|unfold max_int64, max_uint64 in *; lia].
  apply Forall_cons in Hc as [[Hc Hd] _].
  assert (c <> "+"%char) as Hp by (by intros ->).
  rewrite !(proj2 (Ascii.eqb_neq _ _)) by done. cbv zeta. cbn [String.eqb]. rewrite Hs. lia.
Qed.

Lemma argAfter_skip a b rest key : (a =?s key) = false -> argAfter (a :: b :: rest) key = argAfter (b :: rest) key.
Proof. intros E. simpl. by rewrite E. Qed.

Lemma argAfter_hit b rest key : plain_word b = true -> argAfter (key :: b :: rest) key = b.
Proof. intros Hb. simpl. by rewrite String.eqb_refl, trim_plain_word. Qed.

Lemma hex_plain s : forallb hex_digit (chars s) = true -> forallb plain_char (chars s) = true /\ ":"%char ∉ chars s.
Proof.
  intros Hs. apply forallb_Forall in Hs. split.
  - apply forallb_Forall. eapply Forall_impl; [exact Hs|]. simpl. each_byte.
  - intros Hin. rewrite Forall_forall in Hs. by specialize (Hs _ Hin).
Qed.

Lemma prefix_of_app p s : prefix_of p s = true -> exists t, s = p ++ t.
Proof.
  revert s. induction p as [|a p IH]; intros s Hs; [by exists s|]. destruct s as [|b s]; [done|]. simpl in Hs.
  apply andb_true_iff in Hs as [->%Ascii.eqb_eq [t ->]%IH]. by exists t.
Qed.

Lemma id_shape id :
  agentFirewallIDPattern id = true -> forallb plain_char (chars id) = true /\ ":"%char ∉ chars id /\ HasPrefix id "fw-" = true.
Proof.
  unfold agentFirewallIDPattern. intros Hid. apply andb_true_iff in Hid as [[Hp Hl]%andb_true_iff Hx].
  destruct (prefix_of_app _ _ Hp) as [t Ht].
  assert (id = "fw-" +:+ String.string_of_list_ascii t) as ->.
  { rewrite <-(string_chars id), Ht. done. }
  change (sdrop 3 ("fw-" +:+ String.string_of_list_ascii t)) with (String.string_of_list_ascii t) in Hx.
  apply hex_plain in Hx as [Hpl Hc]. rewrite chars_app. split; [|split; [|done]].
  - by rewrite forallb_app, Hpl.
  - intros [Hin|Hin]%elem_of_app; [|done]. revert Hin. apply (bool_decide_unpack _). by vm_compute.
Qed.

Lemma b64_encode_chars bs c : c ∈ b64_encode bs -> c = b64_pad \/ exists i, 0 <= i < 64 /\ c = b64_char i.
Proof.
  induction bs as [|a|a b|a b d bs IH] using list_ind3; cbn [b64_encode]; cbv zeta; [set_solver|..].
  - destruct (b64_bytes a (of_byte 0) (of_byte 0)) as (Hv & _). change (byte (of_byte 0)) with 0 in *.
    rewrite !Z.mul_0_l, !Z.add_0_r in *. destruct (b64_digits _ Hv) as (D1 & D2 & D3 & D4 & _).
    rewrite !elem_of_cons. intros [->|[->|[->|[->|Hn%not_elem_of_nil]]]]; [| | | |done]; eauto.
  - destruct (b64_bytes a b (of_byte 0)) as (Hv & _). change (byte (of_byte 0)) with 0 in *.
    rewrite !Z.add_0_r in *. destruct (b64_digits _ Hv) as (D1 & D2 & D3 & D4 & _).
    rewrite !elem_of_cons. intros [->|[->|[->|[->|Hn%not_elem_of_nil]]]]; [| | | |done]; eauto.
  - destruct (b64_bytes a b d) as (Hv & _). destruct (b64_digits _ Hv) as (D1 & D2 & D3 & D4 & _).
    rewrite !elem_of_cons. intros [->|[->|[->|[->|Hin]]]]; eauto.
Qed.

Lemma url_char_plain i : 0 <= i < 64 -> plain_char (url_char (b64_char i)) = true /\ url_char (b64_char i) <> ":"%char.
Proof.
  intros Hi.
  assert (forallb (fun n => bool_decide (plain_char (url_char (b64_char (Z.of_nat n))) = true
            /\ url_char (b64_char (Z.of_nat n)) <> ":"%char)) (seq 0 64) = true) as H by (vm_compute; reflexivity).
  rewrite forallb_forall in H. specialize (H (Z.to_nat i)).
  rewrite Z2Nat.id in H by lia. apply bool_decide_eq_true in H; [done|]. apply in_seq. lia.
Qed.

Lemma note_shape s : forallb plain_char (chars (RawURLEncode s)) = true /\ ":"%char ∉ chars (RawURLEncode s).
Proof.
  unfold RawURLEncode. rewrite chars_of_list.
  assert (Forall (fun c => plain_char c = true /\ c <> ":"%char)
            (url_char <$> filter (fun c => c <> b64_pad) (b64_encode (chars s)))) as HF.
  { apply Forall_fmap, Forall_forall. intros c [Hc Hin]%list_elem_of_filter.
    apply b64_encode_chars in Hin as [->|(i & Hi & ->)]; [done|]. by apply url_char_plain. }
  split.
  - apply forallb_Forall. eapply Forall_impl; [exact HF|]. by intros c [? _].
  - intros Hin. rewrite Forall_forall in HF. by destruct (HF _ Hin).
Qed.

(** ** Texts of normalised sources *)

Lemma parse_ipv4_nonneg s bs : parse_ipv4 s = Some bs -> Forall (Z.le 0) bs.
Proof.
  assert (forall t n, parse_octet t = Some n -> 0 <= n) as Ho.
  { intros t n. unfold parse_octet. destruct t as [|c t]; [done|]. destruct (_ && _); [done|].
    destruct (digits_value 0 _) as [m|] eqn:E; [|done]. apply digits_value_mono in E; [|done].
    destruct (m <=? 255); [|done]. by intros [= <-]. }
  unfold parse_ipv4. intros. repeat case_match; simplify_eq. repeat constructor; by eapply Ho.
Qed.

Lemma hex_value_nonneg c d : hex_value c = Some d -> 0 <= d.
Proof. unfold hex_value, in_range. intros. repeat case_match; simplify_eq; breflect; lia. Qed.

Lemma take_hex_nonneg s n acc : 0 <= acc -> 0 <= (take_hex s n acc).1.2.
Proof.
  revert n acc. induction s as [|c s IH]; intros n acc Ha; simpl; [done|].
  destruct (hex_value c) as [d|] eqn:E; [|done]. apply hex_value_nonneg in E. apply IH. lia.
Qed.

Lemma ipv6_groups_nonneg fuel s got ell got' ell' rest :
  ipv6_groups fuel s got ell = Some (got', ell', rest) -> Forall (Z.le 0) got -> Forall (Z.le 0) got'.
Proof.
  revert s got ell. induction fuel as [|k IH]; intros s got ell Hg Hgot; simpl in Hg; [by simplify_eq|].
  pose proof (take_hex_nonneg s 0 0 ltac:(lia)) as Hacc. destruct (take_hex s 0 0) as [[off acc] r]. simpl in Hacc.
  destruct (_ || _); [done|].
  assert (Forall (Z.le 0) (got ++ [acc / 256; acc mod 256])) as Hc.
  { apply Forall_app. split; [done|]. repeat constructor; [apply Z.div_pos; lia|apply Z.mod_pos_bound; lia]. }
  destruct r as [|c r']; [by simplify_eq|]. destruct (Ascii.eqb c "."%char).
  { destruct (_ || _) in Hg; [done|]. destruct (parse_ipv4 s) as [b4|] eqn:Hb; [|done]. simplify_eq.
    apply Forall_app. split; [done|]. by eapply parse_ipv4_nonneg. }
  destruct (negb _); [done|]. destruct r' as [|c2 r'']; [done|]. destruct (Ascii.eqb c2 ":"%char).
  - destruct ell; [done|]. destruct (r'' =?s ""); [by simplify_eq|]. by eapply IH.
  - by eapply IH.
Qed.

Lemma parse_ipv6_nonneg s bs z : parse_ipv6 s = Some (Addr6 bs z) -> Forall (Z.le 0) bs.
Proof.
  unfold parse_ipv6. cbv zeta. destruct (_ && _); [done|].
  destruct (if HasPrefix _ "::" then _ else _) as [ell body]. destruct (_ && _).
  { intros [= <- _]. by repeat constructor. }
  destruct (ipv6_groups 8 body [] ell) as [[[got ell'] rest]|] eqn:E; [|done].
  apply ipv6_groups_nonneg in E; [|constructor]. destruct (negb _); [done|].
  destruct (_ <? 16)%nat; destruct ell' as [e|]; try done; intros [= <- _]; [|done].
  repeat apply Forall_app_2; [by apply Forall_take|by apply Forall_replicate|by apply Forall_drop].
Qed.

Lemma ParseIP_nonneg s a : ParseIP s = Some a -> Forall (Z.le 0) (as16 a).
Proof.
  unfold ParseIP, ParseAddr. intros Hp.
  assert (match addr_family s with
          | Some c => if Ascii.eqb c "."%char then Addr4 <$> parse_ipv4 s
                      else if Ascii.eqb c ":"%char then parse_ipv6 s else None
          | None => None end = Some a) as Ha by (repeat case_match; by simplify_eq).
  clear Hp. destruct (addr_family s) as [c|]; [|done]. destruct (Ascii.eqb c "."%char).
  - destruct (parse_ipv4 s) as [bs|] eqn:E; [|done]. injection Ha as <-. apply parse_ipv4_nonneg in E.
    apply Forall_app. split; [|done]. by repeat constructor.
  - destruct (Ascii.eqb c ":"%char); [|done]. destruct a as [bs|bs z].
    + unfold parse_ipv6 in Ha. repeat case_match; simplify_eq.
    + by apply parse_ipv6_nonneg in Ha.
Qed.

Lemma To4_nonneg ip ip4 : To4 ip = Some ip4 -> Forall (Z.le 0) ip -> Forall (Z.le 0) ip4.
Proof. unfold To4. intros. repeat case_match; simplify_eq; [done|]. by apply Forall_drop. Qed.

Lemma To4_length ip ip4 : To4 ip = Some ip4 -> length ip4 = 4%nat.
Proof.
  unfold To4. destruct (Nat.eqb_spec (length ip) 4); [by intros [= <-]|].
  destruct (Nat.eqb_spec (length ip) 16) as [E|]; [|done]. cbn [andb]. case_bool_decide; [|done].
  intros [= <-]. by rewrite length_drop, E.
Qed.

Lemma zip_land_nonneg ip m : Forall (Z.le 0) ip -> Forall (Z.le 0) (zip_with Z.land ip m).
Proof.
  intros Hip. revert m. induction Hip as [|a ip Ha Hip IH]; intros [|b m]; simpl; constructor; [|done].
  apply Z.land_nonneg. by left.
Qed.

Lemma CIDRMask_nonneg n bits : Forall (Z.le 0) (CIDRMask n bits).
Proof.
  apply Forall_fmap, Forall_forall. intros i _. simpl. unfold mask_byte.
  assert (2 ^ (8 - Z.max 0 (Z.min 8 (n - 8 * Z.of_nat i))) <= 2 ^ 8) by (apply Z.pow_le_mono_r; lia). lia.
Qed.

Lemma mask_ones_nonneg m : Forall (Z.le 0) m -> 0 <= mask_ones m.
Proof.
  induction 1 as [|b m Hb _ IH]; simpl; [lia|]. destruct (Z.eqb_spec b 255); [lia|].
  assert (Z.log2 (256 - b) <= Z.log2 256) by (apply Z.log2_le_mono; lia). change (Z.log2 256) with 8 in *. lia.
Qed.

Lemma ip6_string_colon ip : length ip = 16%nat -> ":"%char ∈ chars (ip6_string ip).
Proof.
  intros Hl. unfold ip6_string. destruct (longest_run 0 _ _) as [i n]. destruct (Nat.eqb n 0).
  - do 16 (destruct ip as [|? ip]; [done|]). cbn [groups_of fmap list_fmap].
    match goal with |- _ ∈ chars (join _ (?a :: ?b :: ?l)) =>
      change (join ":"%char (a :: b :: l)) with (a +:+ String ":"%char (join ":"%char (b :: l))) end.
    rewrite chars_app. apply elem_of_app. right. left.
  - rewrite !chars_app. apply elem_of_app. right. left.
Qed.

Lemma ip4_string_value ip : Forall (Z.le 0) ip -> ip <> [] -> value_word (ip4_string ip) = true.
Proof.
  unfold ip4_string. intros Hip Hne. destruct Hip as [|a ip Ha Hip]; [done|]. clear Hne.
  revert a Ha. induction Hip as [|b ip Hb Hip IH]; intros a Ha.
  - cbn [fmap list_fmap join]. by apply Itoa_value.
  - cbn [fmap list_fmap].
    change (join "."%char (Itoa a :: Itoa b :: (Itoa <$> ip)))
      with (Itoa a +:+ String "."%char (join "."%char (Itoa <$> (b :: ip)))).
    apply value_app; [by apply Itoa_value|]. specialize (IH b Hb). apply value_plain, plain_chars in IH.
    change (plain_char "."%char && forallb plain_char (chars (join "."%char (Itoa <$> (b :: ip)))) = true).
    rewrite andb_true_iff. split; [done|exact IH].
Qed.

Lemma slash_value a n : value_word a = true -> 0 <= n -> value_word (a +:+ "/" +:+ Itoa n) = true.
Proof.
  intros Ha Hn. apply value_app; [done|]. rewrite chars_app. cbn. by apply plain_chars, value_plain, Itoa_value.
Qed.

Lemma IPNet_String_value n :
  Forall (Z.le 0) (net_IP n) -> Forall (Z.le 0) (net_Mask n) -> length (net_IP n) = 4%nat \/ length (net_IP n) = 16%nat ->
  ":"%char ∉ chars (IPNet_String n) -> value_word (IPNet_String n) = true.
Proof.
  unfold IPNet_String. intros Hip Hm Hl.
  destruct (networkNumberAndMask n) as [[nn m]|] eqn:E; [|by intros _].
  assert (nn = default (net_IP n) (To4 (net_IP n)) /\ Forall (Z.le 0) m) as [-> Hm'].
  { unfold networkNumberAndMask in E. repeat case_match; simplify_eq; (split; [done|]); try done; by apply Forall_drop. }
  intros Hcolon. apply slash_value; [|by apply mask_ones_nonneg].
  destruct (To4 (net_IP n)) as [ip4|] eqn:E4; cbn [default] in *; unfold IP_String in *.
  - pose proof (To4_length _ _ E4) as H4. rewrite To4_four by done.
    apply ip4_string_value; [by eapply To4_nonneg|by destruct ip4].
  - cbn [id] in *. rewrite E4 in *. destruct Hl as [Hl|Hl]; [by rewrite To4_four in E4|].
    exfalso. apply Hcolon. rewrite chars_app. apply elem_of_app. left. by apply ip6_string_colon.
Qed.

(** A normalised source written as an IPv4 network is one plain word. *)
Lemma normalized_value raw s :
  normalizeIPv4Network raw = Some s -> ":"%char ∉ chars s -> value_word s = true.
Proof.
  unfold normalizeIPv4Network. destruct (ParseIP raw ≫= fun a => To4 (as16 a)) as [ip4|] eqn:E.
  - intros [= <-] _. destruct (ParseIP raw) as [a|] eqn:Ep; [|done]. simpl in E.
    change "/32" with ("/" +:+ Itoa 32). apply slash_value; [|lia].
    apply ip4_string_value; [eapply To4_nonneg; [exact E|by eapply ParseIP_nonneg]|].
    apply To4_length in E. by destruct ip4.
  - clear E. destruct (parse_cidr raw) as [[a k]|] eqn:Ec; [|done].
    destruct (ParseCIDR_net raw) as [network|] eqn:En; [|done]. destruct (To4 (as16 a)); [|done]. intros [= <-].
    apply IPNet_String_value; [..|by eapply ParseCIDR_lengths];
      unfold ParseCIDR_net in En; rewrite Ec in En; injection En as <-; [|by apply CIDRMask_nonneg].
    assert (exists t, ParseIP t = Some a) as [t Hip%ParseIP_nonneg]
      by (unfold parse_cidr in Ec; repeat case_match; simplify_eq; by eexists).
    cbn [net_IP]. unfold mask_ip. destruct (Nat.eqb _ _); [|by apply zip_land_nonneg].
    destruct (To4 (as16 a)) as [x|] eqn:Ex; apply zip_land_nonneg; [by eapply To4_nonneg|done].
Qed.

(** ** Reading a rule back *)

(** The mark, the identifier and the encoded note. *)
Lemma comment_parts id note :
  ":"%char ∉ chars id ->
  split3 ":"%char ("hserver:" +:+ id +:+ ":" +:+ RawURLEncode note) = ["hserver"; id; RawURLEncode note].
Proof.
  intros Hid. destruct (note_shape note) as [_ Hnote]. unfold split3.
  change ("hserver:" +:+ id +:+ ":" +:+ RawURLEncode note) with ("hserver" +:+ String ":"%char (id +:+ String ":"%char (RawURLEncode note))).
  rewrite split_app_sep by (apply (bool_decide_unpack _); by vm_compute).
  by rewrite split_app_sep, split_plain by done.
Qed.

(** ** The words of a rule *)

Lemma normalized_shape rule0 rule :
  normalizeFirewallRule rule0 = Some rule ->
  (rule_Action rule = "ACCEPT" \/ rule_Action rule = "DROP")
  /\ (rule_Protocol rule = "tcp" \/ rule_Protocol rule = "udp" \/ rule_Protocol rule = "all")
  /\ 0 <= rule_Port rule <= 65535
  /\ exists raw, normalizeIPv4Network raw = Some (rule_Source rule).
Proof.
  unfold normalizeFirewallRule. destruct (_ || _) eqn:E1; [done|]. destruct (_ || _) eqn:E2 in |- *; [done|]. cbv zeta.
  destruct (normalizeIPv4Network _) as [source|] eqn:Es; [|done]. intros [= <-]. cbn.
  repeat match goal with
  | H : (_ || _) = false |- _ => apply orb_false_iff in H as [? ?]
  | H : (_ && _) = false |- _ => apply andb_false_iff in H
  | H : negb _ = false |- _ => apply negb_false_iff in H
  | H : _ \/ _ |- _ => destruct H
  | H : (_ =?s _) = true |- _ => apply String.eqb_eq in H
  | H : (_ =?s _) = false |- _ => apply String.eqb_neq in H
  end; breflect; repeat split; try (by eexists); auto; try lia; congruence.
Qed.

(** The word of the comment. *)
Definition comment_word (rule : firewallRule) : string :=
  "hserver:" +:+ rule_ID rule +:+ ":" +:+ RawURLEncode (rule_Comment rule).

Lemma comment_value rule : agentFirewallIDPattern (rule_ID rule) = true -> value_word (comment_word rule) = true.
Proof.
  intros (Hp & _)%id_shape. apply value_app; [done|]. rewrite !chars_app, !forallb_app, Hp.
  by destruct (note_shape (rule_Comment rule)) as [-> _].
Qed.

(** One step of [argAfter] along a command. *)
Ltac walk := repeat first
  [rewrite argAfter_hit by (by apply value_plain)
  |rewrite argAfter_skip by first [reflexivity | by apply value_not_flag]].

Section rule.
Context (rule : firewallRule).
Hypothesis Haction : value_word (rule_Action rule) = true.
Hypothesis Hproto : value_word (rule_Protocol rule) = true.
Hypothesis Hport : 0 <= rule_Port rule <= 65535.
Hypothesis Hsource : value_word (rule_Source rule) = true.
Hypothesis Hid : agentFirewallIDPattern (rule_ID rule) = true.

Let Hcomment : value_word (comment_word rule) = true := comment_value rule Hid.
Let Hvalue : value_word (Itoa (rule_Port rule)) = true := Itoa_value _ (proj1 Hport).

Lemma append_words : Forall (fun w => plain_word w = true) (firewallAppendArgs rule).
Proof using Haction Hproto Hport Hsource Hid.
  unfold firewallAppendArgs, rule_args. fold (comment_word rule).
  destruct (rule_Source rule =?s everywhere), (rule_Protocol rule =?s "all"), (rule_Port rule =? 0);
    cbn [negb app]; repeat apply Forall_cons_2;
    first [exact (List.Forall_nil _) | reflexivity | apply value_plain; assumption].
Qed.

Lemma append_arguments :
  let args := firewallAppendArgs rule in
  argAfter args "--comment" = comment_word rule /\ argAfter args "-j" = rule_Action rule
  /\ argAfter args "-p" = (if rule_Protocol rule =?s "all" then "" else rule_Protocol rule)
  /\ argAfter args "--dport" = (if rule_Port rule =? 0 then "" else Itoa (rule_Port rule))
  /\ argAfter args "-s" = (if rule_Source rule =?s everywhere then "" else rule_Source rule).
Proof using Haction Hproto Hport Hsource Hid.
  unfold firewallAppendArgs, rule_args. fold (comment_word rule). cbv zeta.
  destruct (rule_Source rule =?s everywhere), (rule_Protocol rule =?s "all"), (rule_Port rule =? 0);
    cbn [negb app]; repeat split; walk; reflexivity.
Qed.
End rule.

(** C37. A rule is read back from its own command line: whatever the note, the
    words [iptables] is given for a normalised rule with a valid identifier, and
    a source without a colon (the network is one of IPv4), parse to the same action, protocol, port, source and note, and the line
    counts as a managed one. *)
Theorem rule_line_roundtrip rule0 rule id :
  normalizeFirewallRule rule0 = Some rule -> agentFirewallIDPattern id = true -> ":"%char ∉ chars (rule_Source rule) ->
  let line := join " "%char (firewallAppendArgs (set_rule rule id (rule_Source rule) (rule_Raw rule) true)) in
  parseManagedFirewallRule line = Some (set_rule rule id (rule_Source rule) line true)
  /\ managed_line line = true.
Proof.
  intros Hn Hid Hcolon line.
  destruct (normalized_shape _ _ Hn) as (Haction & Hproto & Hport & raw & Hsource).
  apply normalized_value in Hsource; [|done].
  set (named := set_rule rule id (rule_Source rule) (rule_Raw rule) true) in *.
  assert (value_word (rule_Action named) = true) as Ha by (cbn; destruct Haction as [-> | ->]; reflexivity).
  assert (value_word (rule_Protocol named) = true) as Hp by (cbn; destruct Hproto as [-> | [-> | ->]]; reflexivity).
  assert (Fields line = firewallAppendArgs named) as Hf by (by apply Fields_join, append_words).
  destruct (append_arguments named Ha Hp Hport Hsource Hid) as (Ec & Ej & Epr & Ed & Es).
  unfold parseManagedFirewallRule, managed_line, hasFirewallComment. rewrite Hf, Ec, Ej, Epr, Ed, Es. cbv zeta.
  split.
  - unfold comment_word. rewrite comment_parts by (by apply id_shape). cbv iota. cbn [named set_rule rule_ID rule_Action rule_Protocol rule_Port rule_Source rule_Comment].
    rewrite Hid. change ("hserver" =?s "hserver") with true. cbn [negb orb].
    rewrite note_roundtrip. unfold set_rule, defaultString. do 2 f_equal.
    + destruct (rule_Protocol rule =?s "all") eqn:E; [by apply String.eqb_eq in E|].
      destruct Hproto as [Hx|[Hx|Hx]]; by rewrite Hx in *.
    + destruct (Z.eqb_spec (rule_Port rule) 0) as [->|]; [done|]. apply Atoi_value_Itoa. unfold max_int64. lia.
    + destruct (rule_Source rule =?s everywhere) eqn:E; [by apply String.eqb_eq in E|].
      destruct (rule_Source rule); [done|]. done.
  - change (appended firewallManagedChain (firewallAppendArgs named)) with true. cbn [andb].
    destruct (id_shape id Hid) as (_ & _ & Hfw). unfold comment_word. cbn [named set_rule rule_ID].
    revert Hfw. unfold HasPrefix. rewrite !chars_app. intros Hfw. destruct (prefix_of_app _ _ Hfw) as [t ->]. reflexivity.
Qed.

Lemma rule_line_roundtrip_witness :
  let rule0 := mkRule "" "DROP" "tcp" 22 "10.1.2.3/8" "block ssh: all" false "" in
  let rule := mkRule "" "DROP" "tcp" 22 "10.0.0.0/8" "block ssh: all" false "" in
  let line := join " "%char (firewallAppendArgs (set_rule rule "fw-00112233aabb" (rule_Source rule) "" true)) in
  normalizeFirewallRule rule0 = Some rule
  /\ parseManagedFirewallRule line = Some (set_rule rule "fw-00112233aabb" "10.0.0.0/8" line true)
  /\ managed_line line = true.
Proof.
  intros rule0 rule line.
  assert (normalizeFirewallRule rule0 = Some rule) as Hn by (vm_compute; reflexivity).
  split; [exact Hn|].
  apply (rule_line_roundtrip rule0 rule "fw-00112233aabb" Hn); [vm_compute; reflexivity|].
  apply (bool_decide_unpack _). vm_compute. exact I.
Defined.
