(* ===== verification/TerminalHub.v ===== *)
(** * The terminal relay of the panel: [internal/agentterminal]

    Browser terminals are multiplexed over one websocket per node.  The methods
    run in goroutines of their own and share the hub, the connections and the
    sessions under locks, so each method is a sequence of atomic instructions,
    and a run is any interleaving of such sequences.  The critical sections of
    [Hub.mu] and [AgentConnection.mu] only look up and change a map, with no
    call that could block in between, so each is one instruction.  The lock of
    the writers is held during a transport call: it is part of the state, taken
    by one instruction and released by the write.  What a transport call
    returns, which message arrives, and which ready case a [select] takes is
    left to the environment. *)

From stdpp Require Import base strings gmap list relations.
From Stdlib Require Import ZArith Lia Ascii.
From S2P Require Import Prelude GoStrings.
Local Open Scope Z_scope.
Local Open Scope hub_scope.

(** ** Messages: [protocol.go] *)

Record Message : Type := mkMessage {
  m_Type : string; m_SessionID : string; m_Data : string; m_Cols : Z; m_Rows : Z
}.

Definition TypeOpen : string := "open".
Definition TypeReady : string := "ready".
Definition TypeInput : string := "input".
Definition TypeOutput : string := "output".
Definition TypeResize : string := "resize".
Definition TypeClose : string := "close".
Definition TypeError : string := "error".
Definition TypePing : string := "ping".
Definition TypePong : string := "pong".

Definition pong : Message := mkMessage TypePong "" "" 0 0.
Definition open_message (sessionID : string) (cols rows : Z) : Message := mkMessage TypeOpen sessionID "" cols rows.
Definition close_message (sessionID reason : string) : Message := mkMessage TypeClose sessionID reason 0 0.
Definition set_session (m : Message) (sessionID : string) : Message :=
  mkMessage (m_Type m) sessionID (m_Data m) (m_Cols m) (m_Rows m).

(** ** The shared state

    Connections and sessions are allocated and never reused: a pointer is an
    index into the list of all that were made. *)

(** [sync.Once] *)
Inductive once : Type := Idle | Busy | Spent.

#[global] Instance once_eq_dec : EqDecision once.
Proof. solve_decision. Defined.

Record Session : Type := mkSession {
  s_id : string;
  s_agent : nat;
  s_events : list Message;
  s_done : bool;
  s_given : bool  (** returned to its caller *)
}.

Record AgentConnection : Type := mkConnection {
  c_nodeID : string;
  c_sessions : gmap string nat;
  c_closed : bool;  (** the transport was closed *)
  c_once : once;
  c_writing : bool;  (** [writeMu] is held *)
  c_sent : list Message  (** what was written to the agent *)
}.

Record Hub : Type := mkHub {
  agents : gmap string nat;
  connections : list AgentConnection;
  sessions : list Session
}.

Definition NewHub : Hub := mkHub ∅ [] [].

Definition events_limit : nat := 64.

Definition set_agents (h : Hub) (a : gmap string nat) : Hub := mkHub a (connections h) (sessions h).
Definition on_connection (f : AgentConnection -> AgentConnection) (c : nat) (h : Hub) : Hub :=
  mkHub (agents h) (alter f c (connections h)) (sessions h).
Definition on_session (f : Session -> Session) (s : nat) (h : Hub) : Hub :=
  mkHub (agents h) (connections h) (alter f s (sessions h)).

Definition with_sessions (m : gmap string nat) (C : AgentConnection) : AgentConnection :=
  mkConnection (c_nodeID C) m (c_closed C) (c_once C) (c_writing C) (c_sent C).
Definition closed_transport (C : AgentConnection) : AgentConnection :=
  mkConnection (c_nodeID C) (c_sessions C) true (c_once C) (c_writing C) (c_sent C).
Definition with_once (o : once) (C : AgentConnection) : AgentConnection :=
  mkConnection (c_nodeID C) (c_sessions C) (c_closed C) o (c_writing C) (c_sent C).
Definition with_writing (writing : bool) (C : AgentConnection) : AgentConnection :=
  mkConnection (c_nodeID C) (c_sessions C) (c_closed C) (c_once C) writing (c_sent C).
Definition wrote (m : Message) (C : AgentConnection) : AgentConnection :=
  mkConnection (c_nodeID C) (c_sessions C) (c_closed C) (c_once C) (c_writing C) (c_sent C ++ [m]).

Definition with_events (events : list Message) (S : Session) : Session :=
  mkSession (s_id S) (s_agent S) events (s_done S) (s_given S).
Definition finished (S : Session) : Session := mkSession (s_id S) (s_agent S) (s_events S) true (s_given S).
Definition given (S : Session) : Session := mkSession (s_id S) (s_agent S) (s_events S) (s_done S) true.

(** [Hub.Connected] *)
Definition Connected (h : Hub) (nodeID : string) : bool := bool_decide (is_Some (agents h !! nodeID)).

(** ** Instructions *)

Inductive instr : Type :=
(** [Hub.Attach], then [Run] with its deferred shutdown *)
| Attach (nodeID : string)
(** [AgentConnection.shutdown]: the once, the hub's map, the transport, the
    sessions, each session's message and end, the end of the once *)
| Shutdown (c : nat) (reason : string)
| Detach (c : nat) (reason : string)
| Disconnect (c : nat) (reason : string)
| TakeSessions (c : nat) (reason : string)
| Dismiss (s : nat) (reason : string)
| Finish (s : nat)
| OnceDone (c : nat)
(** [Hub.Open] and [AgentConnection.open] *)
| Open (nodeID sessionID : string) (cols rows : Z)
| Insert (c : nat) (sessionID : string) (cols rows : Z)
| WriteOpen (c s : nat) (sessionID : string) (cols rows : Z)
(** [removeSession] and then the [finish] of [s] its callers go on with *)
| Remove (c : nat) (sessionID : string) (notify : bool) (s : nat)
(** [AgentConnection.write]: the lock is taken, and released by the write *)
| LockWrite (c : nat)
| Write (c : nat) (m : Message)
(** [AgentConnection.Run] *)
| Run (c : nat)
| Dispatch (c : nat) (m : Message)
| Deliver (c s : nat) (m : Message)
| CloseTransport (c : nat)
(** [Session.Send] and [Session.Close] *)
| Send (s : nat) (m : Message)
| Close (s : nat).

(** What the environment answers: the call works or fails, a message is read,
    the context is cancelled, the sessions come in some order. *)
Inductive answer : Type :=
| Works
| Fails
| Reads (m : Message)
| Cancelled
| InOrder (order : list nat).

Definition registered (C : AgentConnection) : gset nat := map_img (c_sessions C).

Definition ends_session (m : Message) : bool := (m_Type m =?s TypeClose) || (m_Type m =?s TypeError).

(** [AgentConnection.write] whose error is ignored. *)
Definition write (c : nat) (m : Message) : list instr := [LockWrite c; Write c m].

(** [handleAgentTerminal] goes on with [Run] when [Attach] returned. *)
Definition run_relay (c : nat) : list instr := [Run c; Shutdown c "agent disconnected"].

(** One atomic step: the new state and the instructions that follow.  No result
    means that the instruction cannot proceed with that answer. *)
Definition exec (h : Hub) (i : instr) (a : answer) : option (Hub * list instr) :=
  match i with
  | Attach nodeID =>
      let c := length (connections h) in
      let previous := agents h !! nodeID in
      Some (mkHub (<[nodeID := c]> (agents h))
              (connections h ++ [mkConnection nodeID ∅ false Idle false []]) (sessions h),
            match previous with Some p => [Shutdown p "agent connection replaced"] | None => [] end ++ run_relay c)
  | Shutdown c reason =>
      C ← connections h !! c;
      match c_once C with
      | Idle => Some (on_connection (with_once Busy) c h, [Detach c reason])
      | Busy => None
      | Spent => Some (h, [])
      end
  | Detach c reason =>
      C ← connections h !! c;
      if bool_decide (agents h !! c_nodeID C = Some c)
      then Some (set_agents h (delete (c_nodeID C) (agents h)), [Disconnect c reason])
      else Some (h, [Disconnect c reason])
  | Disconnect c reason => Some (on_connection closed_transport c h, [TakeSessions c reason])
  | TakeSessions c reason =>
      C ← connections h !! c;
      match a with
      | InOrder order =>
          if bool_decide (NoDup order /\ list_to_set order = registered C)
          then Some (on_connection (with_sessions ∅) c h,
                     concat ((fun s => [Dismiss s reason; Finish s]) <$> order) ++ [OnceDone c])
          else None
      | _ => None
      end
  | Dismiss s reason =>
      S ← sessions h !! s;
      if (length (s_events S) <? events_limit)%nat
      then Some (on_session (with_events (s_events S ++ [close_message (s_id S) reason])) s h, [])
      else Some (h, [])
  | Finish s => Some (on_session finished s h, [])
  | OnceDone c => Some (on_connection (with_once Spent) c h, [])
  | LockWrite c =>
      C ← connections h !! c;
      if c_writing C then None else Some (on_connection (with_writing true) c h, [])
  | Write c m =>
      C ← connections h !! c;
      match a with
      | Works => if c_closed C then None else Some (on_connection (with_writing false ∘ wrote m) c h, [])
      | Fails => Some (on_connection (with_writing false) c h, [])
      | _ => None
      end
  | Open nodeID sessionID cols rows =>
      Some (h, match agents h !! nodeID with Some c => [Insert c sessionID cols rows] | None => [] end)
  | Insert c sessionID cols rows =>
      C ← connections h !! c;
      if sessionID =?s "" then Some (h, [])
      else
        match c_sessions C !! sessionID with
        | Some _ => Some (h, [])
        | None =>
            let s := length (sessions h) in
            Some (mkHub (agents h)
                    (alter (with_sessions (<[sessionID := s]> (c_sessions C))) c (connections h))
                    (sessions h ++ [mkSession sessionID c [] false false]),
                  [LockWrite c; WriteOpen c s sessionID cols rows])
        end
  | WriteOpen c s sessionID cols rows =>
      C ← connections h !! c;
      match a with
      | Works => if c_closed C then None
                 else Some (on_session given s
                              (on_connection (with_writing false ∘ wrote (open_message sessionID cols rows)) c h), [])
      | Fails => Some (on_connection (with_writing false) c h, [Remove c sessionID false s])
      | _ => None
      end
  | Remove c sessionID notify s =>
      C ← connections h !! c;
      Some (on_connection (with_sessions (delete sessionID (c_sessions C))) c h,
            (if notify && bool_decide (is_Some (c_sessions C !! sessionID))
             then write c (close_message sessionID "") else []) ++ [Finish s])
  | Run c =>
      match a with
      | Fails => Some (h, [])
      | Reads m =>
          Some (h, if m_Type m =?s TypePing then write c pong ++ [Run c]
                   else if m_SessionID m =?s "" then [Run c] else [Dispatch c m])
      | _ => None
      end
  | Dispatch c m =>
      C ← connections h !! c;
      Some (h, match c_sessions C !! m_SessionID m with Some s => [Deliver c s m] | None => [Run c] end)
  | Deliver c s m =>
      S ← sessions h !! s;
      let next := (if ends_session m then [Remove c (m_SessionID m) false s] else []) ++ [Run c] in
      match a with
      | Works => if (length (s_events S) <? events_limit)%nat
                 then Some (on_session (with_events (s_events S ++ [m])) s h, next) else None
      | Fails => if s_done S then Some (h, next) else None
      | Cancelled => Some (h, [])
      | _ => None
      end
  | CloseTransport c => Some (on_connection closed_transport c h, [])
  | Send s m =>
      S ← sessions h !! s;
      Some (h, if s_done S then [] else write (s_agent S) (set_session m (s_id S)))
  | Close s =>
      S ← sessions h !! s;
      Some (h, [Remove (s_agent S) (s_id S) true s])
  end.

(** ** Runs *)

(** The hub and the goroutines that work on it. *)
Record system : Type := mkSystem { hub : Hub; threads : list (list instr) }.

(** What callers may start: the agent's handler attaches and then runs the
    connection, or its context is cancelled; a browser opens a session, and uses
    the sessions it was given. *)
Inductive starts (h : Hub) : list instr -> Prop :=
| starts_attach nodeID : starts h [Attach nodeID]
| starts_cancel c : (c < length (connections h))%nat -> starts h [CloseTransport c]
| starts_open nodeID sessionID cols rows : starts h [Open nodeID sessionID cols rows]
| starts_send s S m : sessions h !! s = Some S -> s_given S = true -> starts h [Send s m]
| starts_close s S : sessions h !! s = Some S -> s_given S = true -> starts h [Close s].

Inductive step : system -> system -> Prop :=
| step_start h ts code : starts h code -> step (mkSystem h ts) (mkSystem h (ts ++ [code]))
| step_exec h h' before after i rest a new :
    exec h i a = Some (h', new) ->
    step (mkSystem h (before ++ (i :: rest) :: after)) (mkSystem h' (before ++ (new ++ rest) :: after))
(** the reader of [Session.Events] takes a message *)
| step_receive h ts s S m events :
    sessions h !! s = Some S -> s_events S = m :: events ->
    step (mkSystem h ts) (mkSystem (on_session (with_events events) s h) ts).

Definition reachable (sys : system) : Prop := rtc step (mkSystem NewHub []) sys.

(** A goroutine that has nothing to do: it has returned, or it reads from an
    agent whose transport is open. *)
Inductive settled_code (h : Hub) : list instr -> Prop :=
| settled_returned : settled_code h []
| settled_reading c C : connections h !! c = Some C -> c_closed C = false -> settled_code h (run_relay c).

Definition settled (sys : system) : Prop := Forall (settled_code (hub sys)) (threads sys).

(** A step without input from outside: no message is read from an agent and no
    context cancelled.  A read from a closed transport fails, and a browser takes
    the messages of the session it was given until that is ended. *)
Inductive silent : system -> system -> Prop :=
| silent_exec h h' before after i rest a new :
    (forall c, i <> Run c) -> a <> Cancelled -> exec h i a = Some (h', new) ->
    silent (mkSystem h (before ++ (i :: rest) :: after)) (mkSystem h' (before ++ (new ++ rest) :: after))
| silent_lost h before after c rest C :
    connections h !! c = Some C -> c_closed C = true ->
    silent (mkSystem h (before ++ (Run c :: rest) :: after)) (mkSystem h (before ++ rest :: after))
| silent_take h ts s S m events :
    sessions h !! s = Some S -> s_given S = true -> s_done S = false -> s_events S = m :: events ->
    silent (mkSystem h ts) (mkSystem (on_session (with_events events) s h) ts).
