(* ===== verification/TerminalHubFacts.v ===== *)
(** * The terminal relay: invariants

    [inv] holds in every reachable state, [kept] in every one in which no
    session identifier was used twice.  They say which goroutine still owes what
    to a connection or session that is between two states. *)

From stdpp Require Import base strings gmap list relations.
From Stdlib Require Import ZArith Lia Ascii Wf_nat.
From S2P Require Import Prelude GoStrings TerminalHub.
Local Open Scope Z_scope.
Local Open Scope hub_scope.

(** ** Lookups *)

Lemma alter_lookup_Some {A} (f : A -> A) i (l : list A) j y :
  alter f i l !! j = Some y -> exists x, l !! j = Some x /\ (i = j /\ y = f x \/ i <> j /\ y = x).
Proof.
  destruct (decide (i = j)) as [->|Hne].
  - rewrite list_lookup_alter_eq. intros (x & Hx & ->)%fmap_Some. exists x. auto.
  - rewrite list_lookup_alter_ne by done. exists y. auto.
Qed.

Lemma alter_lookup_is {A} (f : A -> A) i (l : list A) j x :
  l !! j = Some x -> exists y, alter f i l !! j = Some y /\ (i = j /\ y = f x \/ i <> j /\ y = x).
Proof.
  intros Hl. destruct (decide (i = j)) as [->|Hne].
  - rewrite list_lookup_alter_eq, Hl. exists (f x). auto.
  - rewrite list_lookup_alter_ne by done. exists x. auto.
Qed.

Lemma snoc_lookup_Some {A} (l : list A) z j y :
  (l ++ [z]) !! j = Some y -> l !! j = Some y \/ j = length l /\ y = z.
Proof.
  intros [H|[Hl H]]%lookup_app_Some; [by left|right]. destruct (j - length l)%nat eqn:E; [|done].
  simpl in H. injection H as <-. split; [lia|done].
Qed.

Lemma snoc_lookup_is {A} (l : list A) z j y : l !! j = Some y -> (l ++ [z]) !! j = Some y.
Proof. by apply lookup_app_l_Some. Qed.

Lemma snoc_lookup_last {A} (l : list A) z : (l ++ [z]) !! length l = Some z.
Proof. apply list_lookup_middle. done. Qed.

(** The cases of a step. *)
Ltac exec_cases H :=
  unfold exec in H; simplify_option_eq;
  repeat match goal with
  | H : match ?x with _ => _ end = Some _ |- _ => destruct x eqn:?; simplify_option_eq
  end.

(** ** Growth

    Connections and sessions keep what identifies them; a closed transport, a
    started shutdown, an ended or returned session stay so. *)

Definition grows_connection (C C' : AgentConnection) : Prop :=
  c_nodeID C' = c_nodeID C /\ (c_closed C = true -> c_closed C' = true)
  /\ (c_once C <> Idle -> c_once C' <> Idle) /\ c_sent C `prefix_of` c_sent C'.

Definition grows_session (S S' : Session) : Prop :=
  s_id S' = s_id S /\ s_agent S' = s_agent S /\ (s_done S = true -> s_done S' = true)
  /\ (s_given S = true -> s_given S' = true).

Definition grows (h h' : Hub) : Prop :=
  (forall c C, connections h !! c = Some C -> exists C', connections h' !! c = Some C' /\ grows_connection C C')
  /\ (forall s S, sessions h !! s = Some S -> exists S', sessions h' !! s = Some S' /\ grows_session S S').

Lemma grows_connection_refl C : grows_connection C C.
Proof. by repeat split. Qed.

Lemma grows_session_refl S : grows_session S S.
Proof. by repeat split. Qed.

#[local] Hint Resolve grows_connection_refl grows_session_refl : core.

Lemma grows_refl h : grows h h.
Proof. split; eauto. Qed.

Lemma grows_on_connection f c h :
  (forall C, connections h !! c = Some C -> grows_connection C (f C)) -> grows h (on_connection f c h).
Proof.
  intros Hf. split; [|eauto]. intros c' C HC.
  destruct (alter_lookup_is f c _ _ _ HC) as (C' & HC' & [[-> ->]|[_ ->]]); eauto.
Qed.

Lemma grows_on_session f s h :
  (forall S, sessions h !! s = Some S -> grows_session S (f S)) -> grows h (on_session f s h).
Proof.
  intros Hf. split; [eauto|]. intros s' S HS.
  destruct (alter_lookup_is f s _ _ _ HS) as (S' & HS' & [[-> ->]|[_ ->]]); eauto.
Qed.

Lemma grows_trans h1 h2 h3 : grows h1 h2 -> grows h2 h3 -> grows h1 h3.
Proof.
  intros [Hc1 Hs1] [Hc2 Hs2]. split.
  - intros c C HC. destruct (Hc1 c C HC) as (C' & HC' & ? & ? & ? & ?).
    destruct (Hc2 c C' HC') as (C'' & HC'' & ? & ? & ? & ?). exists C''. split; [done|].
    repeat split; [congruence|auto..|by etrans].
  - intros s S HS. destruct (Hs1 s S HS) as (S' & HS' & ? & ? & ? & ?).
    destruct (Hs2 s S' HS') as (S'' & HS'' & ? & ? & ? & ?). exists S''. split; [done|].
    repeat split; [congruence|congruence|auto..].
Qed.

Lemma prefix_snoc {A} (l : list A) x : l `prefix_of` l ++ [x].
Proof. by exists [x]. Qed.
#[local] Hint Resolve prefix_snoc : core.

Lemma exec_grows h i a h' new : exec h i a = Some (h', new) -> grows h h'.
Proof.
  intros He. destruct i; exec_cases He; try apply grows_refl;
    try (apply grows_on_connection; intros ? ?; simplify_eq; repeat split; simpl; auto; fail);
    try (apply grows_on_session; intros ? ?; simplify_eq; repeat split; simpl; auto; fail);
    try (split; eauto; fail).
  - split; [|eauto]. intros c C HC. exists C. split; [by apply snoc_lookup_is|done].
  - match goal with |- grows h (mkHub (agents h) (alter ?f ?c _) ?ss) =>
      apply (grows_trans _ (on_connection f c h)) end.
    + apply grows_on_connection. intros ? ?. simplify_eq. by repeat split.
    + split; [eauto|]. intros s S HS. exists S. split; [by apply snoc_lookup_is|done].
  - eapply grows_trans;
      [apply (grows_on_connection (with_writing false ∘ wrote (open_message sessionID cols rows)) c)|apply grows_on_session];
      intros ? ?; repeat split; simpl; auto.
Qed.

(** ** What is owed

    [pend i]: some goroutine has [i] before it. *)

Definition pending (ts : list (list instr)) (i : instr) : Prop := exists code, code ∈ ts /\ i ∈ code.

(** The agent was told of that session. *)
Definition opened (h : Hub) (c : nat) (sessionID : string) : Prop :=
  exists C m, connections h !! c = Some C /\ m ∈ c_sent C /\ m_Type m = TypeOpen /\ m_SessionID m = sessionID.

Definition is_session (h : Hub) (s c : nat) (sessionID : string) : Prop :=
  exists S, sessions h !! s = Some S /\ s_id S = sessionID /\ s_agent S = c.

(** What an instruction relies on. *)
Definition instr_ok (h : Hub) (i : instr) : Prop :=
  match i with
  | Attach _ | Open _ _ _ _ | CloseTransport _ | Finish _ => True
  | Dismiss s _ => is_Some (sessions h !! s)
  | Shutdown c _ | Insert c _ _ _ | LockWrite c | Run c | Dispatch c _ => is_Some (connections h !! c)
  | Detach c _ | Disconnect c _ | OnceDone c => exists C, connections h !! c = Some C /\ c_once C <> Idle
  | TakeSessions c _ => exists C, connections h !! c = Some C /\ c_once C <> Idle /\ c_closed C = true
  | WriteOpen c s sessionID _ _ => is_session h s c sessionID
  | Remove c sessionID notify s => (notify = true -> opened h c sessionID) /\ is_session h s c sessionID
  | Write c m => is_Some (connections h !! c) /\ (m_SessionID m = "" \/ opened h c (m_SessionID m))
  | Deliver c s m => is_session h s c (m_SessionID m) /\ is_Some (connections h !! c)
  | Send s _ | Close s => exists S, sessions h !! s = Some S /\ s_given S = true
  end.

Definition code_ok (h : Hub) : list instr -> Prop := Forall (instr_ok h).

(** Every message about a session comes after its opening. *)
Definition opened_first (sent : list Message) : Prop :=
  forall before m after, sent = before ++ m :: after -> m_SessionID m <> "" -> m_Type m <> TypeOpen ->
    exists m0, m0 ∈ before /\ m_Type m0 = TypeOpen /\ m_SessionID m0 = m_SessionID m.

Section owed.
Context (h : Hub) (pend : instr -> Prop).

Definition closing (c : nat) : Prop :=
  exists reason, pend (Detach c reason) \/ pend (Disconnect c reason) \/ pend (TakeSessions c reason).

Definition opening (s : nat) : Prop := exists c sessionID cols rows, pend (WriteOpen c s sessionID cols rows).

Definition removing (s : nat) : Prop := exists c sessionID notify, pend (Remove c sessionID notify s).

Record inv : Prop := {
  inv_registered c C sessionID s :
    connections h !! c = Some C -> c_sessions C !! sessionID = Some s -> is_session h s c sessionID;
  inv_current nodeID c :
    agents h !! nodeID = Some c ->
    exists C, connections h !! c = Some C /\ c_nodeID C = nodeID
              /\ (c_once C = Idle \/ exists reason, pend (Detach c reason));
  inv_idle c C :
    connections h !! c = Some C -> c_once C = Idle ->
    agents h !! c_nodeID C = Some c \/ pend (Shutdown c "agent connection replaced");
  inv_reader c C :
    connections h !! c = Some C -> c_once C = Idle -> pend (Shutdown c "agent disconnected");
  inv_busy c C :
    connections h !! c = Some C -> c_once C <> Idle -> closing c \/ c_closed C = true;
  inv_turn c C : connections h !! c = Some C -> c_once C = Busy -> closing c \/ pend (OnceDone c);
  inv_late c C sessionID s :
    connections h !! c = Some C -> c_once C <> Idle -> c_sessions C !! sessionID = Some s ->
    closing c \/ opening s \/ removing s;
  inv_finish s :
    pend (Finish s) ->
    is_Some (sessions h !! s)
    /\ forall c C sessionID, connections h !! c = Some C -> c_sessions C !! sessionID <> Some s;
  inv_events s S :
    sessions h !! s = Some S ->
    (length (s_events S) <= events_limit)%nat /\ Forall (fun m => m_SessionID m = s_id S) (s_events S);
  inv_agent s S : sessions h !! s = Some S -> is_Some (connections h !! s_agent S);
  inv_ungiven s S :
    sessions h !! s = Some S -> s_given S = false -> s_done S = false -> opening s \/ removing s \/ pend (Finish s);
  inv_given s S : sessions h !! s = Some S -> s_given S = true -> opened h (s_agent S) (s_id S);
  inv_sent c C : connections h !! c = Some C -> opened_first (c_sent C)
}.

(** A session that is not over is registered, or about to be ended. *)
Definition kept : Prop :=
  forall s S, sessions h !! s = Some S -> s_done S = false ->
    pend (Finish s) \/ exists C, connections h !! s_agent S = Some C /\ c_sessions C !! s_id S = Some s.
End owed.

(** No session identifier was used twice. *)
Definition unique (h : Hub) : Prop := NoDup (s_id <$> sessions h).

(** ** Stability *)

Lemma grows_is_session h h' s c sessionID : grows h h' -> is_session h s c sessionID -> is_session h' s c sessionID.
Proof.
  intros [_ Hs] (S & HS & Hi & Ha). destruct (Hs s S HS) as (S' & HS' & Hi' & Ha' & _).
  exists S'. split; [done|]. split; congruence.
Qed.

Lemma grows_opened h h' c sessionID : grows h h' -> opened h c sessionID -> opened h' c sessionID.
Proof.
  intros [Hc _] (C & m & HC & Hm & Ht & Hi). destruct (Hc c C HC) as (C' & HC' & _ & _ & _ & [k Hk]).
  exists C', m. split; [done|]. split; [|done]. rewrite Hk. apply elem_of_app. by left.
Qed.

Lemma grows_connection_is h h' c : grows h h' -> is_Some (connections h !! c) -> is_Some (connections h' !! c).
Proof. intros [Hc _] [C HC]. destruct (Hc c C HC) as (C' & HC' & _). by exists C'. Qed.

Lemma grows_session_is h h' s : grows h h' -> is_Some (sessions h !! s) -> is_Some (sessions h' !! s).
Proof. intros [_ Hs] [S HS]. destruct (Hs s S HS) as (S' & HS' & _). by exists S'. Qed.

#[local] Hint Resolve grows_is_session grows_opened grows_connection_is grows_session_is : core.

Lemma grows_started h h' c C :
  grows h h' -> connections h !! c = Some C -> c_once C <> Idle ->
  exists C', connections h' !! c = Some C' /\ c_once C' <> Idle /\ (c_closed C = true -> c_closed C' = true).
Proof. intros [Hc _] HC Ho. destruct (Hc c C HC) as (C' & HC' & _ & ? & ? & _). eauto 6. Qed.

Lemma grows_given h h' s S :
  grows h h' -> sessions h !! s = Some S -> s_given S = true ->
  exists S', sessions h' !! s = Some S' /\ s_given S' = true.
Proof. intros [_ Hs] HS Hv. destruct (Hs s S HS) as (S' & HS' & _ & _ & _ & ?). eauto. Qed.

Lemma instr_ok_grows h h' i : grows h h' -> instr_ok h i -> instr_ok h' i.
Proof.
  intros Hg. destruct i; simpl; try (by eauto).
  - intros (C & HC & Ho). destruct (grows_started _ _ _ _ Hg HC Ho) as (C' & ? & ? & _). eauto.
  - intros (C & HC & Ho). destruct (grows_started _ _ _ _ Hg HC Ho) as (C' & ? & ? & _). eauto.
  - intros (C & HC & Ho & Hd). destruct (grows_started _ _ _ _ Hg HC Ho) as (C' & ? & ? & ?). eauto 6.
  - intros (C & HC & Ho). destruct (grows_started _ _ _ _ Hg HC Ho) as (C' & ? & ? & _). eauto.
  - intros [? ?]. eauto.
  - intros [? [?|?]]; eauto.
  - intros [? ?]. eauto.
  - intros (S & HS & Hv). by eapply grows_given.
  - intros (S & HS & Hv). by eapply grows_given.
Qed.

Lemma code_ok_grows h h' code : grows h h' -> code_ok h code -> code_ok h' code.
Proof. intros Hg Hf. eapply Forall_impl; [exact Hf|]. intros i. by apply instr_ok_grows. Qed.

(** ** One step *)

(** The element a lookup after the step came from. *)
Ltac back H :=
  first [ apply alter_lookup_Some in H as (? & H & [[? ->]|[? ->]])
        | apply snoc_lookup_Some in H as [H|[? ->]]
        | idtac ]; simpl in *; subst.

Lemma alter_sessions f c0 (l : list AgentConnection) c C sessionID s :
  l !! c = Some C -> c_sessions C !! sessionID = Some s -> (c0 = c -> c_sessions (f C) !! sessionID = Some s) ->
  exists C', alter f c0 l !! c = Some C' /\ c_sessions C' !! sessionID = Some s.
Proof. intros HC Hs Hf. destruct (alter_lookup_is f c0 _ _ _ HC) as (C' & HC' & [[-> ->]|[_ ->]]); eauto. Qed.

Lemma is_take i : (exists c reason, i = TakeSessions c reason) \/ forall c reason, i <> TakeSessions c reason.
Proof. destruct i; try (by right). left. eauto. Qed.

(** What a shutdown does with the sessions it takes. *)
Definition dismissals (reason : string) (order : list nat) : list instr :=
  concat ((fun s => [Dismiss s reason; Finish s]) <$> order).

Lemma take_sessions h c reason a h' new :
  exec h (TakeSessions c reason) a = Some (h', new) ->
  exists C order, connections h !! c = Some C /\ NoDup order /\ list_to_set order = registered C
    /\ h' = on_connection (with_sessions ∅) c h /\ new = dismissals reason order ++ [OnceDone c].
Proof.
  simpl. intros (C & HC & He)%bind_Some. destruct a as [| | | |order]; try done.
  case_bool_decide as Ho; [|done]. destruct Ho as [Hnd Hreg]. simplify_eq. by exists C, order.
Qed.

Lemma dismissals_finish reason order s : Finish s ∈ dismissals reason order <-> s ∈ order.
Proof.
  unfold dismissals. induction order as [|s' order IH]; simpl; [by rewrite !elem_of_nil|].
  rewrite !elem_of_cons, IH. intuition congruence.
Qed.

Lemma dismissals_ok h reason order :
  (forall s, s ∈ order -> is_Some (sessions h !! s)) -> code_ok h (dismissals reason order).
Proof.
  unfold dismissals. induction order as [|s order IH]; intros Hs; [constructor|]. constructor; [apply Hs; left|].
  constructor; [exact I|]. apply IH. intros s' Hin. apply Hs. by right.
Qed.

Lemma one_ok h i : instr_ok h i -> code_ok h [i].
Proof. by repeat constructor. Qed.

Lemma write_ok h c m :
  is_Some (connections h !! c) -> m_SessionID m = "" \/ opened h c (m_SessionID m) -> code_ok h (write c m).
Proof. intros. constructor; [done|]. by apply one_ok. Qed.

Lemma run_relay_ok h c : is_Some (connections h !! c) -> code_ok h (run_relay c).
Proof. intros. constructor; [done|]. by apply one_ok. Qed.

Section step.
Context (h h' : Hub) (i : instr) (a : answer) (new : list instr) (pend pend' : instr -> Prop).
Hypothesis He : exec h i a = Some (h', new).
Hypothesis Hok : instr_ok h i.
Hypothesis Hkeep : forall j, pend j -> j = i \/ pend' j.
Hypothesis Hnew : forall j, j ∈ new -> pend' j.
Hypothesis Hback : forall j, pend' j -> pend j \/ j ∈ new.
Hypothesis Hinv : inv h pend.

Lemma step_grows : grows h h'.
Proof. by eapply exec_grows. Qed.

Lemma keep_closing c : closing pend c -> closing pend' c \/ exists reason, i = TakeSessions c reason.
Proof.
  intros (reason & [Hp|[Hp|Hp]]); destruct (Hkeep _ Hp) as [<-|Hp'].
  - left. exists reason. right. left. apply Hnew. exec_cases He; left.
  - left. exists reason. by left.
  - left. exists reason. right. right. apply Hnew. exec_cases He; left.
  - left. exists reason. right. by left.
  - right. by exists reason.
  - left. exists reason. right. by right.
Qed.

Lemma keep_opening s : opening pend s -> opening pend' s \/ exists c sessionID cols rows, i = WriteOpen c s sessionID cols rows.
Proof.
  intros (c & sessionID & cols & rows & Hp). destruct (Hkeep _ Hp) as [<-|Hp']; [right|left]; unfold opening; eauto 6.
Qed.

Lemma step_registered c C sessionID s :
  connections h' !! c = Some C -> c_sessions C !! sessionID = Some s -> is_session h' s c sessionID.
Proof.
  pose proof step_grows as Hgrows. intros HC Hs.
  enough ((exists C0, connections h !! c = Some C0 /\ c_sessions C0 !! sessionID = Some s) \/ is_session h' s c sessionID)
    as [(C0 & HC0 & Hs0)|?]; [|done|].
  { eapply grows_is_session; [exact Hgrows|]. by eapply (inv_registered _ _ Hinv). }
  clear Hok Hkeep Hnew Hback. destruct i; exec_cases He; back HC; try (by left; eauto); try (by simplify_map_eq).
  - apply lookup_insert_Some in Hs as [[<- <-]|[_ Hs]]; [|by left; eauto]. right.
    eexists. split; [apply snoc_lookup_last|done].
  - apply lookup_delete_Some in Hs as [_ Hs]. left. eauto.
Qed.

(** A shutdown that starts goes on to detach the connection. *)
Lemma step_once c C C' :
  connections h !! c = Some C -> connections h' !! c = Some C' -> c_once C = Idle ->
  c_once C' = Idle \/ exists reason, i = Shutdown c reason /\ pend' (Detach c reason).
Proof.
  intros HC HC' Ho. assert (c < length (connections h))%nat as Hlt by by eapply lookup_lt_Some.
  destruct i; exec_cases He; try (by auto); back HC'; simplify_eq; try lia; auto.
  - right. exists reason. split; [done|]. apply Hnew. left.
  - destruct Hok as (C0 & ? & ?). simplify_eq.
Qed.

Lemma step_agents nodeID c :
  agents h' !! nodeID = Some c ->
  agents h !! nodeID = Some c /\ (forall reason, i <> Detach c reason)
  \/ exists C, connections h' !! c = Some C /\ c_nodeID C = nodeID /\ c_once C = Idle.
Proof.
  intros Ha. destruct i; exec_cases He; simpl in Ha; try (by left).
  - apply lookup_insert_Some in Ha as [[<- <-]|[_ Ha]]; [right|by left]. eexists. split; [apply snoc_lookup_last|done].
  - apply lookup_delete_Some in Ha as [Hne Ha]. left. split; [done|]. intros r [= -> _].
    destruct (inv_current _ _ Hinv _ _ Ha) as (C & HC & Hn & _). simplify_eq.
  - left. split; [done|]. intros r [= -> _].
    destruct (inv_current _ _ Hinv _ _ Ha) as (C & HC & Hn & _). simplify_eq.
Qed.

Lemma step_current nodeID c :
  agents h' !! nodeID = Some c ->
  exists C, connections h' !! c = Some C /\ c_nodeID C = nodeID
            /\ (c_once C = Idle \/ exists reason, pend' (Detach c reason)).
Proof.
  intros [[Ha Hi]|(C & ? & ? & ?)]%step_agents; [|by eauto].
  destruct (inv_current _ _ Hinv _ _ Ha) as (C & HC & Hn & Ho).
  destruct (proj1 step_grows _ _ HC) as (C' & HC' & Hn' & _). exists C'. split; [done|]. split; [congruence|].
  destruct Ho as [Ho|[reason Hp]].
  - destruct (step_once _ _ _ HC HC' Ho) as [?|(reason & _ & ?)]; eauto.
  - right. exists reason. destruct (Hkeep _ Hp) as [<-|?]; [|done]. by destruct (Hi reason).
Qed.

Lemma step_idle c C :
  connections h' !! c = Some C -> c_once C = Idle ->
  agents h' !! c_nodeID C = Some c \/ pend' (Shutdown c "agent connection replaced").
Proof.
  intros HC Ho.
  enough (agents h' !! c_nodeID C = Some c \/ pend' (Shutdown c "agent connection replaced")
          \/ exists C0, connections h !! c = Some C0 /\ c_once C0 = Idle /\ c_nodeID C = c_nodeID C0
              /\ (agents h !! c_nodeID C = Some c -> agents h' !! c_nodeID C = Some c \/ pend' (Shutdown c "agent connection replaced"))
              /\ (forall reason, i <> Shutdown c reason))
    as [?|[?|(C0 & HC0 & Ho0 & Hn & Ha & Hi)]]; [by left|by right| |].
  { destruct (inv_idle _ _ Hinv _ _ HC0 Ho0) as [?|Hp]; [apply Ha; congruence|].
    right. destruct (Hkeep _ Hp) as [<-|?]; [by destruct (Hi "agent connection replaced")|done]. }
  destruct i; exec_cases He; back HC; simplify_eq; try (right; right; eexists; split; [eassumption|]; split_and!; eauto; fail).
  - right. right. exists C. split; [done|]. split; [done|]. split; [done|]. split; [|done]. intros Ha.
    destruct (decide (nodeID = c_nodeID C)) as [->|Hne]; [right|left; by rewrite lookup_insert_ne].
    rewrite Ha in Hnew. apply Hnew. left.
  - left. by rewrite lookup_insert_eq.
  - right. right. exists x. split; [done|]. split; [done|]. split; [done|]. split; [by left|]. congruence.
  - right. right. exists C. split; [done|]. split; [done|]. split; [done|]. split; [by left|]. congruence.
  - right. right. exists C. split; [done|]. split; [done|]. split; [done|]. split; [|done]. intros Ha. left.
    rewrite lookup_delete_ne; [done|]. intros Heq. destruct Hok as (C1 & HC1 & Hb). simplify_eq. congruence.
Qed.

Lemma step_reader c C :
  connections h' !! c = Some C -> c_once C = Idle -> pend' (Shutdown c "agent disconnected").
Proof.
  intros HC Ho.
  enough (pend' (Shutdown c "agent disconnected")
          \/ exists C0, connections h !! c = Some C0 /\ c_once C0 = Idle /\ (forall reason, i <> Shutdown c reason))
    as [?|(C0 & HC0 & Ho0 & Hi)]; [done| |].
  { destruct (Hkeep _ (inv_reader _ _ Hinv _ _ HC0 Ho0)) as [<-|?]; [by edestruct Hi|done]. }
  destruct i; exec_cases He; back HC; simplify_eq; try (right; eexists; split; [eassumption|]; split; [done|congruence]).
  left. apply Hnew, elem_of_app. right. right. left.
Qed.

Lemma step_busy c C : connections h' !! c = Some C -> c_once C <> Idle -> closing pend' c \/ c_closed C = true.
Proof.
  intros HC Ho.
  enough (closing pend' c \/ c_closed C = true
          \/ exists C0, connections h !! c = Some C0 /\ c_once C0 <> Idle /\ (c_closed C0 = true -> c_closed C = true)
              /\ (forall reason, i <> TakeSessions c reason))
    as [?|[?|(C0 & HC0 & Ho0 & Hc & Hi)]]; [by left|by right| |].
  { destruct (inv_busy _ _ Hinv _ _ HC0 Ho0) as [[?|[reason ->]]%keep_closing|?]; [by left|by destruct (Hi reason)|auto]. }
  destruct i; exec_cases He; back HC; simplify_eq; try (right; right; eexists; split; [eassumption|]; split_and!; eauto; fail);
    try (by right; left).
  - left. exists reason. left. apply Hnew. left.
  - destruct Hok as (C1 & HC1 & _ & Hd). simplify_eq. by right; left.
  - right. right. exists x. split; [done|]. split; [done|]. split; [done|]. congruence.
  - destruct Hok as (C1 & HC1 & _ & Hd). simplify_eq. by right; left.
  - right. right. exists x. split; [done|]. split; [done|]. split; [done|]. congruence.
  - destruct Hok as (C1 & HC1 & Hb). simplify_eq. right. right. by exists C1.
Qed.

Lemma step_turn c C : connections h' !! c = Some C -> c_once C = Busy -> closing pend' c \/ pend' (OnceDone c).
Proof.
  intros HC Ho.
  enough (closing pend' c
          \/ exists C0, connections h !! c = Some C0 /\ c_once C0 = Busy /\ (i = OnceDone c -> False))
    as [?|(C0 & HC0 & Ho0 & Hi)]; [by left| |].
  { destruct (inv_turn _ _ Hinv _ _ HC0 Ho0) as [Hc|Hp].
    - destruct (keep_closing _ Hc) as [?|[reason ->]]; [by left|]. right. apply Hnew.
      destruct (take_sessions _ _ _ _ _ _ He) as (? & ? & _ & _ & _ & _ & ->). apply elem_of_app. right. left.
    - destruct (Hkeep _ Hp) as [<-|?]; [by destruct Hi|by right]. }
  destruct i; exec_cases He; back HC; simplify_eq; try (right; eexists; split; [eassumption|]; split; [done|congruence]).
  left. exists reason. left. apply Hnew. left.
Qed.

(** A session registered after the step was there before it, or is new and
    about to be announced. *)
Lemma step_sessions c C sessionID s :
  connections h' !! c = Some C -> c_sessions C !! sessionID = Some s ->
  opening pend' s /\ sessions h !! s = None
  \/ exists C0, connections h !! c = Some C0 /\ c_sessions C0 !! sessionID = Some s
                      /\ (c_once C0 = Idle -> c_once C = Idle \/ closing pend' c)
                      /\ (forall reason, i <> TakeSessions c reason).
Proof.
  intros HC Hs. destruct i; exec_cases He; back HC; simplify_eq; try (by simplify_map_eq);
    try (right; eexists; split; [eassumption|]; split; [done|]; split; [by left|done]).
  - right. eexists. split; [eassumption|]. split; [done|]. split; [|done]. right. exists reason. left. apply Hnew. left.
  - right. eexists. split; [eassumption|]. split; [done|]. split; [by left|]. congruence.
  - right. eexists. split; [eassumption|]. split; [done|]. split; [by left|]. congruence.
  - destruct Hok as (C1 & HC1 & Hb). simplify_eq. right. exists C1. split; [done|]. split; [done|]. by split.
  - apply lookup_insert_Some in Hs as [[<- <-]|[_ Hs]].
    + left. split; [do 4 eexists; apply Hnew; right; left|by apply lookup_ge_None_2].
    + right. eexists. split; [eassumption|]. split; [done|]. split; [by left|done].
  - apply lookup_delete_Some in Hs as [_ Hs]. right. eexists. split; [eassumption|]. split; [done|]. split; [by left|done].
Qed.

Lemma is_session_agent s c c' sessionID sessionID' :
  is_session h s c sessionID -> is_session h s c' sessionID' -> c = c' /\ sessionID = sessionID'.
Proof. intros (S & HS & <- & <-) (S' & HS' & <- & <-). by simplify_eq. Qed.

Lemma step_late c C sessionID s :
  connections h' !! c = Some C -> c_once C <> Idle -> c_sessions C !! sessionID = Some s ->
  closing pend' c \/ opening pend' s \/ removing pend' s.
Proof.
  pose proof (keep_closing c) as Hclosing. intros HC Ho Hs. destruct (step_sessions _ _ _ _ HC Hs) as [[? _]|(C0 & HC0 & Hs0 & Hidle & Hi)]; [auto|].
  destruct (decide (c_once C0 = Idle)) as [E|E]; [destruct (Hidle E); [done|auto]|].
  destruct (inv_late _ _ Hinv _ _ _ _ HC0 E Hs0) as [Hc|[Hopen|Hr]].
  - destruct (Hclosing Hc) as [?|[reason ->]]; [auto|by destruct (Hi reason)].
  - destruct (keep_opening _ Hopen) as [?|(c1 & id1 & cols & rows & ->)]; [auto|].
    destruct (is_session_agent _ _ _ _ _ Hok (inv_registered _ _ Hinv _ _ _ _ HC0 Hs0)) as [-> ->].
    exec_cases He.
    + destruct (inv_busy _ _ Hinv _ _ HC0 E) as [Hc|?]; [|congruence].
      destruct (Hclosing Hc) as [?|[reason ?]]; [auto|done].
    + right. right. do 3 eexists. apply Hnew. left.
  - destruct Hr as (c1 & id1 & n & Hp). destruct (Hkeep _ Hp) as [<-|?]; [|right; right; by do 3 eexists].
    destruct Hok as [_ Hsess].
    destruct (is_session_agent _ _ _ _ _ Hsess (inv_registered _ _ Hinv _ _ _ _ HC0 Hs0)) as [-> ->].
    exec_cases He. apply alter_lookup_Some in HC as (x & Hx & [[_ ->]|[? _]]); [|done]. simpl in Hs. by simplify_map_eq.
Qed.

(** Where a new [Finish] comes from. *)
Lemma new_finish s :
  Finish s ∈ new ->
  (exists c reason C, i = TakeSessions c reason /\ connections h !! c = Some C /\ s ∈ registered C)
  \/ exists c sessionID notify, i = Remove c sessionID notify s.
Proof.
  intros Hin. destruct (is_take i) as [(c & reason & ->)|Hi].
  - left. destruct (take_sessions _ _ _ _ _ _ He) as (C & order & HC & _ & Hreg & -> & ->).
    exists c, reason, C. split; [done|]. split; [done|]. rewrite <-Hreg.
    apply elem_of_app in Hin as [Hin|Hin]; [|rewrite elem_of_cons, elem_of_nil in Hin; by destruct Hin].
    by apply elem_of_list_to_set; apply dismissals_finish in Hin.
  - right. destruct i; exec_cases He; try (by destruct (Hi _ _ eq_refl));
      unfold write, run_relay in Hin; repeat case_match; simpl in Hin;
      rewrite ?elem_of_cons, ?elem_of_nil in Hin; intuition (simplify_eq; eauto).
Qed.

Lemma step_finish s :
  pend' (Finish s) ->
  is_Some (sessions h' !! s)
  /\ forall c C sessionID, connections h' !! c = Some C -> c_sessions C !! sessionID <> Some s.
Proof.
  intros Hp.
  enough (is_Some (sessions h !! s)
    /\ forall c C C0 sessionID, connections h' !! c = Some C -> connections h !! c = Some C0 ->
         c_sessions C0 !! sessionID = Some s -> (forall reason, i <> TakeSessions c reason) ->
         c_sessions C !! sessionID <> Some s) as [[S HS] Hno].
  { split; [destruct (proj2 step_grows _ _ HS) as (S' & ? & _); by exists S'|]. intros c C sessionID HC Hs.
    destruct (step_sessions _ _ _ _ HC Hs) as [[_ ?]|(C0 & HC0 & Hs0 & _ & Hi)]; [congruence|]. by eapply Hno. }
  destruct (Hback _ Hp) as [Hp0|Hin].
  { destruct (inv_finish _ _ Hinv _ Hp0) as [HS Hno]. split; [done|]. intros c C C0 sessionID _ HC0 Hs0 _.
    by destruct (Hno _ _ _ HC0 Hs0). }
  destruct (new_finish _ Hin) as [(c & reason & C & Hi & HC & Hr)|(c & sessionID & n & ->)].
  - apply elem_of_map_img in Hr as [sessionID Hs].
    pose proof (inv_registered _ _ Hinv _ _ _ _ HC Hs) as Hsess. split; [by destruct Hsess as (S & ? & _); exists S|].
    intros c' C' C0 id' _ HC0 Hs0 Hne. exfalso.
    destruct (is_session_agent _ _ _ _ _ Hsess (inv_registered _ _ Hinv _ _ _ _ HC0 Hs0)) as [-> ->]. by destruct (Hne reason).
  - destruct Hok as [_ Hsess]. split; [by destruct Hsess as (S & ? & _); exists S|]. intros c' C' C0 id' HC' HC0 Hs0 _ Hs'.
    destruct (is_session_agent _ _ _ _ _ Hsess (inv_registered _ _ Hinv _ _ _ _ HC0 Hs0)) as [-> ->].
    exec_cases He. apply alter_lookup_Some in HC' as (x & Hx & [[_ ->]|[? _]]); [|done]. simpl in Hs'. by simplify_map_eq.
Qed.

(** What becomes of a registered session. *)
Lemma step_keeps_session c C sessionID s :
  connections h !! c = Some C -> c_sessions C !! sessionID = Some s ->
  (exists C', connections h' !! c = Some C' /\ c_sessions C' !! sessionID = Some s)
  \/ Finish s ∈ new \/ exists n s', i = Remove c sessionID n s' /\ Finish s' ∈ new.
Proof.
  intros HC Hs. destruct (is_take i) as [(c0 & reason & ->)|Hi].
  { destruct (take_sessions _ _ _ _ _ _ He) as (C0 & order & HC0 & _ & Hreg & Hh & Hnews).
    destruct (decide (c0 = c)) as [->|Hne].
    - right. left. rewrite Hnews. apply elem_of_app. left. apply dismissals_finish.
      apply (elem_of_list_to_set (C:=gset nat)). rewrite Hreg. apply elem_of_map_img. simplify_eq. by exists sessionID.
    - left. exists C. split; [|done]. rewrite Hh. simpl. by rewrite list_lookup_alter_ne. }
  destruct i; exec_cases He; try (by destruct (Hi _ _ eq_refl)); try (left; by exists C);
    try (left; eapply alter_sessions; [exact HC|exact Hs|done]).
  - left. exists C. split; [by apply snoc_lookup_is|done].
  - left. eapply alter_sessions; [exact HC|exact Hs|]. intros ->. simplify_eq. simpl.
    rewrite lookup_insert_ne; [done|congruence].
  - destruct (decide (c0 = c /\ sessionID0 = sessionID)) as [[-> ->]|Hne].
    { right. right. exists notify, s0. split; [done|]. apply elem_of_app. right. left. }
    left. eapply alter_sessions; [exact HC|exact Hs|]. intros ->. simplify_eq. simpl.
    rewrite lookup_delete_ne; [done|]. intros ->. by destruct Hne.
Qed.

(** A session of after the step was there before, or is the new one. *)
Lemma step_session_back s S' :
  sessions h' !! s = Some S' ->
  (exists S, sessions h !! s = Some S)
  \/ s_events S' = [] /\ s_given S' = false
     /\ exists C', connections h' !! s_agent S' = Some C' /\ c_sessions C' !! s_id S' = Some s.
Proof.
  intros HS. destruct i; exec_cases He; try (by left; eauto);
    try (apply alter_lookup_Some in HS as (S & HS & _); by left; eauto).
  apply snoc_lookup_Some in HS as [HS|[-> ->]]; [by left; eauto|]. right. split; [done|]. split; [done|].
  destruct (alter_lookup_is (with_sessions (<[sessionID:=length (sessions h)]> (c_sessions H))) c _ _ _ Heqo)
    as (C' & HC' & [[_ ->]|[? _]]); [|done]. eexists. split; [exact HC'|]. simpl. by rewrite lookup_insert_eq.
Qed.

Lemma step_kept : unique h -> kept h pend -> kept h' pend'.
Proof.
  intros Hunique Hkept s S HS Hd. destruct (step_session_back _ _ HS) as [[S0 HS0]|(_ & _ & ?)]; [|by right].
  destruct (proj2 step_grows _ _ HS0) as (S1 & HS1 & Hid & Ha & Hdone & _). simplify_eq.
  destruct (s_done S0) eqn:Hd0; [by rewrite Hdone in Hd|].
  destruct (Hkept _ _ HS0 Hd0) as [Hp|(C & HC & Hs)].
  - destruct (Hkeep _ Hp) as [<-|?]; [|by left]. exfalso. simpl in He. simplify_eq.
    apply alter_lookup_Some in HS as (S1 & _ & [[_ ->]|[? _]]); [done|done].
  - rewrite Hid, Ha. destruct (step_keeps_session _ _ _ _ HC Hs) as [?|[?|(n & s' & -> & Hf)]]; [by right|left; by apply Hnew|].
    left. apply Hnew. destruct Hok as [_ (S' & HS' & Hid' & _)].
    replace s with s'; [done|]. apply (NoDup_lookup (s_id <$> sessions h) s' s (s_id S0)); [done|..];
      rewrite list_lookup_fmap; [by rewrite HS'; simpl; congruence|by rewrite HS0].
Qed.

Lemma step_events s S :
  sessions h' !! s = Some S ->
  (length (s_events S) <= events_limit)%nat /\ Forall (fun m => m_SessionID m = s_id S) (s_events S).
Proof.
  intros HS. destruct (step_session_back _ _ HS) as [[S0 HS0]|(-> & _)]; [|split; [apply Nat.le_0_l|constructor]].
  destruct (inv_events _ _ Hinv _ _ HS0) as [Hl Hf].
  enough (forall m, m_SessionID m = s_id S0 -> (length (s_events S0) < events_limit)%nat ->
    (length (s_events S0 ++ [m]) <= events_limit)%nat /\ Forall (fun m => m_SessionID m = s_id S0) (s_events S0 ++ [m])) as Hsnoc.
  2: { intros m Hm Hlt. rewrite length_app. simpl. split; [lia|]. apply Forall_app_2; [done|]. by constructor. }
  destruct i; exec_cases He; try done;
    try (apply alter_lookup_Some in HS as (S1 & HS1 & [[-> ->]|[_ ->]]); simplify_eq; try done).
  - apply Hsnoc; [done|]. by apply Nat.ltb_lt.
  - apply snoc_lookup_Some in HS as [HS|[-> ->]]; [|by apply lookup_lt_Some, Nat.lt_irrefl in HS0]. by simplify_eq.
  - destruct Hok as [(S1 & HS1 & Hid & _) _]. simplify_eq. apply Hsnoc; [done|]. by apply Nat.ltb_lt.
Qed.

Lemma step_agent s S : sessions h' !! s = Some S -> is_Some (connections h' !! s_agent S).
Proof.
  intros HS. destruct (step_session_back _ _ HS) as [[S0 HS0]|(_ & _ & C' & HC' & _)]; [|by exists C'].
  destruct (proj2 step_grows _ _ HS0) as (S1 & HS1 & _ & Ha & _). simplify_eq. rewrite Ha.
  eapply grows_connection_is; [apply step_grows|by eapply (inv_agent _ _ Hinv)].
Qed.

(** A session that was handed out to nobody is ended by the goroutine that
    opens it, or by the one that removes it. *)
Lemma step_ungiven s S :
  sessions h' !! s = Some S -> s_given S = false -> s_done S = false ->
  opening pend' s \/ removing pend' s \/ pend' (Finish s).
Proof.
  intros HS Hg Hd.
  assert (opening pend' s \/ exists S0, sessions h !! s = Some S0 /\ s_given S0 = false /\ s_done S0 = false /\ i <> Finish s)
    as [?|(S0 & HS0 & Hg0 & Hd0 & Hi)]; [|by left|].
  { destruct (sessions h !! s) as [S0|] eqn:HS0.
    - right. destruct (proj2 step_grows _ _ HS0) as (S1 & HS1 & _ & _ & Hdone & Hgiven). simplify_eq. exists S0.
      destruct (s_given S0), (s_done S0); intuition try congruence. subst i. simpl in He. simplify_eq.
      apply alter_lookup_Some in HS as (x & _ & [[_ ->]|[? _]]); done.
    - left. destruct i; exec_cases He; repeat (apply alter_lookup_Some in HS as (? & HS & _)); try congruence.
      apply snoc_lookup_Some in HS as [?|[-> _]]; [congruence|]. do 4 eexists. apply Hnew. right. left. }
  destruct (inv_ungiven _ _ Hinv _ _ HS0 Hg0 Hd0) as [Ho|[(c & id & n & Hp)|Hp]].
  - destruct (keep_opening _ Ho) as [?|(c & id & cols & rows & ->)]; [by left|]. exec_cases He.
    + apply alter_lookup_Some in HS as (x & _ & [[_ ->]|[? _]]); done.
    + right. left. do 3 eexists. apply Hnew. left.
  - right. destruct (Hkeep _ Hp) as [<-|?]; [right|left; by do 3 eexists].
    exec_cases He. apply Hnew, elem_of_app. right. left.
  - right. right. destruct (Hkeep _ Hp) as [<-|?]; [by destruct Hi|done].
Qed.

Lemma step_given s S : sessions h' !! s = Some S -> s_given S = true -> opened h' (s_agent S) (s_id S).
Proof.
  intros HS Hg. destruct (step_session_back _ _ HS) as [[S0 HS0]|(_ & ? & _)]; [|congruence].
  destruct (proj2 step_grows _ _ HS0) as (S1 & HS1 & Hid & Ha & _). simplify_eq. rewrite Hid, Ha.
  destruct (s_given S0) eqn:Hg0; [by eapply grows_opened, inv_given; [apply step_grows|exact Hinv|..]|].
  destruct i; exec_cases He; try congruence;
    try (apply alter_lookup_Some in HS as (S1 & HS1 & [[-> ->]|[_ ->]]); simplify_eq; simpl in *; congruence).
  - apply snoc_lookup_Some in HS as [HS|[-> ->]]; [congruence|done].
  - apply alter_lookup_Some in HS as (S1 & HS1 & [[-> ->]|[_ ->]]); simplify_eq; simpl in *; [|congruence].
    destruct Hok as (S2 & HS2 & <- & <-). simplify_eq.
    destruct (alter_lookup_is (with_writing false ∘ wrote (open_message (s_id S2) cols rows)) (s_agent S2) _ _ _ Heqo) as (C' & HC' & [[_ ->]|[? _]]); [|done].
    eexists _, _. split; [exact HC'|]. simpl. split; [apply elem_of_app; right; left|]. by split.
Qed.

Lemma opened_first_snoc sent m :
  opened_first sent ->
  (m_SessionID m <> "" -> m_Type m <> TypeOpen ->
   exists m0, m0 ∈ sent /\ m_Type m0 = TypeOpen /\ m_SessionID m0 = m_SessionID m) ->
  opened_first (sent ++ [m]).
Proof.
  intros Hsent Hm before m1 after Heq Hid Ht. destruct after as [|m2 after' _] using rev_ind.
  - apply app_inj_tail in Heq as [-> ->]. by apply Hm.
  - rewrite app_comm_cons, app_assoc in Heq. apply app_inj_tail in Heq as [-> _]. by eapply Hsent.
Qed.

Lemma step_sent c C : connections h' !! c = Some C -> opened_first (c_sent C).
Proof.
  intros HC. destruct i; exec_cases He; back HC; try (by eapply inv_sent); try (by eapply (inv_sent _ _ Hinv)).
  - intros [|? ?] ? ? ?; done.
  - apply opened_first_snoc; [by eapply inv_sent|]. by intros _ [].
  - apply opened_first_snoc; [by eapply inv_sent|]. intros Hid _.
    destruct Hok as [_ [?|(C1 & m0 & HC1 & ? & ? & ?)]]; [done|]. simplify_eq. eauto.
Qed.

Lemma relay_step_inv : inv h' pend'.
Proof.
  split; [apply step_registered|apply step_current|apply step_idle|apply step_reader|apply step_busy|apply step_turn|apply step_late|apply step_finish
    |apply step_events|apply step_agent|apply step_ungiven|apply step_given|apply step_sent].
Qed.

Lemma step_code : code_ok h' new.
Proof.
  pose proof step_grows as Hg.
  destruct (is_take i) as [(c & reason & ->)|Hi].
  { destruct (take_sessions _ _ _ _ _ _ He) as (C & order & HC & _ & Hreg & -> & ->). apply Forall_app_2.
    - apply dismissals_ok. intros s Hin. apply (elem_of_list_to_set (C:=gset nat)) in Hin. rewrite Hreg in Hin.
      apply elem_of_map_img in Hin as [sessionID Hs].
      destruct (inv_registered _ _ Hinv _ _ _ _ HC Hs) as (S & HS & _). by exists S.
    - constructor; [|constructor]. destruct Hok as (C0 & HC0 & Ho & _).
      destruct (grows_started _ _ _ _ Hg HC0 Ho) as (C' & ? & ? & _). by exists C'. }
  destruct i; exec_cases He; try (by destruct (Hi _ _ eq_refl)); try (by constructor).
  - apply Forall_app_2; [|apply run_relay_ok; eexists; apply snoc_lookup_last].
    destruct (agents h !! nodeID) as [p|] eqn:E; [|constructor].
    destruct (inv_current _ _ Hinv _ _ E) as (C & HC & _). apply one_ok. apply (grows_connection_is h); [done|by exists C].
  - apply one_ok. eexists. split; [simpl; rewrite list_lookup_alter_eq, Heqo; reflexivity|done].
  - destruct Hok as (C & HC & Ho). simplify_eq. apply one_ok. by exists C.
  - destruct Hok as (C & HC & Ho). simplify_eq. apply one_ok. by exists C.
  - destruct Hok as (C & HC & Ho). apply one_ok. eexists.
    split; [simpl; rewrite list_lookup_alter_eq, HC; reflexivity|done].
  - destruct (agents h' !! nodeID) as [c|] eqn:E; [|constructor].
    destruct (inv_current _ _ Hinv _ _ E) as (C & HC & _). apply one_ok. by exists C.
  - constructor; [|apply one_ok; eexists; split; [apply snoc_lookup_last|done]].
    eapply grows_connection_is; [exact Hg|by eexists].
  - destruct Hok as [Hopen _]. apply Forall_app_2; [|by apply one_ok].
    destruct notify; [|constructor]. case_match; [|constructor].
    apply write_ok; [eapply grows_connection_is; [exact Hg|by eexists]|]. right.
    by eapply grows_opened; [exact Hg|apply Hopen].
  - case_match; [|case_match; by apply one_ok]. apply (Forall_app_2 _ (write c pong)); [|by apply one_ok].
    apply write_ok; [done|by left].
  - case_match eqn:E; apply one_ok; [|by eexists]. split; [by eapply (inv_registered _ _ Hinv)|by eexists].
  - destruct Hok as [Hs Hc]. apply Forall_app_2; [|by apply one_ok]. case_match; [|constructor].
    apply one_ok. split; [done|]. by eapply grows_is_session.
  - destruct Hok as [Hs Hc]. apply Forall_app_2; [|by apply one_ok]. case_match; [|constructor]. by apply one_ok.
  - case_match; [constructor|]. destruct Hok as (S & HS & Hv). simplify_eq.
    apply write_ok; [by eapply (inv_agent _ _ Hinv)|]. right. by eapply (inv_given _ _ Hinv).
  - apply one_ok. destruct Hok as (S & HS & Hv). simplify_eq. split; [intros _; by eapply (inv_given _ _ Hinv)|].
    by exists S.
Qed.
End step.

(** ** A message taken, a goroutine started *)

Lemma receive_grows h s S m events :
  sessions h !! s = Some S -> s_events S = m :: events -> grows h (on_session (with_events events) s h).
Proof. intros HS _. apply grows_on_session. by repeat split. Qed.

Lemma receive_inv h pend s S m events :
  sessions h !! s = Some S -> s_events S = m :: events -> inv h pend ->
  inv (on_session (with_events events) s h) pend.
Proof.
  intros HS Hev Hinv. pose proof (receive_grows _ _ _ _ _ HS Hev) as Hg.
  split; simpl; try apply Hinv.
  - intros c C sessionID s' HC Hs. eapply grows_is_session; [exact Hg|]. by eapply (inv_registered _ _ Hinv).
  - intros s' Hp. destruct (inv_finish _ _ Hinv _ Hp) as [[S' HS'] Hno]. split; [|done].
    destruct (proj2 Hg _ _ HS') as (? & ? & _). eauto.
  - intros s' S' HS'. apply alter_lookup_Some in HS' as (S0 & HS0 & [[-> ->]|[_ ->]]); [|by eapply (inv_events _ _ Hinv)].
    simplify_eq. destruct (inv_events _ _ Hinv _ _ HS) as [Hl Hf]. rewrite Hev in Hl, Hf. simpl in *.
    apply Forall_cons in Hf as [_ Hf]. split; [lia|done].
  - intros s' S' HS'. apply alter_lookup_Some in HS' as (S0 & HS0 & [[-> ->]|[_ ->]]); exact (inv_agent _ _ Hinv _ _ HS0).
  - intros s' S' HS' Hv Hd. apply alter_lookup_Some in HS' as (S0 & HS0 & [[-> ->]|[_ ->]]); exact (inv_ungiven _ _ Hinv _ _ HS0 Hv Hd).
  - intros s' S' HS' Hv. eapply grows_opened; [exact Hg|].
    apply alter_lookup_Some in HS' as (S0 & HS0 & [[-> ->]|[_ ->]]); exact (inv_given _ _ Hinv _ _ HS0 Hv).
Qed.

Lemma inv_more h (pend pend' : instr -> Prop) :
  (forall i, pend i -> pend' i) -> (forall s, pend' (Finish s) -> pend (Finish s)) -> inv h pend -> inv h pend'.
Proof.
  intros Hmore Hfin Hinv.
  assert (forall c, closing pend c -> closing pend' c) as Hclosing.
  { intros c (reason & H). exists reason. intuition auto. }
  split; try apply Hinv.
  - intros nodeID c Ha. destruct (inv_current _ _ Hinv _ _ Ha) as (C & ? & ? & [?|[r ?]]); exists C; eauto 6.
  - intros c C HC Ho. destruct (inv_idle _ _ Hinv _ _ HC Ho) as [?|?]; auto.
  - intros c C HC Ho. by apply Hmore, (inv_reader _ _ Hinv _ _ HC).
  - intros c C HC Ho. destruct (inv_busy _ _ Hinv _ _ HC Ho) as [?|?]; auto.
  - intros c C HC Ho. destruct (inv_turn _ _ Hinv _ _ HC Ho) as [?|?]; auto.
  - intros c C sessionID s HC Ho Hs. destruct (inv_late _ _ Hinv _ _ _ _ HC Ho Hs) as [?|[H|H]]; [auto|..]; right; [left|right].
    + destruct H as (c1 & i1 & cols & rows & H). exists c1, i1, cols, rows. auto.
    + destruct H as (c1 & i1 & n & H). exists c1, i1, n. auto.
  - intros s Hp. by apply (inv_finish _ _ Hinv), Hfin.
  - intros s S HS Hg Hd. destruct (inv_ungiven _ _ Hinv _ _ HS Hg Hd) as [H|[H|H]]; [left|right; left|right; right; auto].
    + destruct H as (c1 & i1 & cols & rows & H). exists c1, i1, cols, rows. auto.
    + destruct H as (c1 & i1 & n & H). exists c1, i1, n. auto.
Qed.

Lemma receive_kept h pend s S m events :
  sessions h !! s = Some S -> s_events S = m :: events -> kept h pend ->
  kept (on_session (with_events events) s h) pend.
Proof.
  intros HS Hev Hkept s' S' HS' Hd.
  apply alter_lookup_Some in HS' as (S0 & HS0 & [[-> ->]|[_ ->]]); exact (Hkept _ _ HS0 Hd).
Qed.

Lemma kept_more h (pend pend' : instr -> Prop) : (forall i, pend i -> pend' i) -> kept h pend -> kept h pend'.
Proof. intros Hmore Hkept s S HS Hd. destruct (Hkept _ _ HS Hd) as [?|?]; auto. Qed.

Lemma starts_ok h code : starts h code -> code_ok h code.
Proof.
  intros Hs. destruct Hs as [| | |s S m HS Hv|s S HS Hv]; repeat constructor; by exists S.
Qed.

Lemma starts_not_finish h code s : starts h code -> Finish s ∉ code.
Proof. intros Hs. destruct Hs; rewrite ?elem_of_cons, elem_of_nil; naive_solver. Qed.

(** ** Reachable states *)

Definition sound (sys : system) : Prop :=
  inv (hub sys) (pending (threads sys)) /\ Forall (code_ok (hub sys)) (threads sys).

Lemma sound_initial : sound (mkSystem NewHub []).
Proof.
  split; [|constructor]. split; simpl; try done.
  intros s (code & Hin & _). by apply elem_of_nil in Hin.
Qed.

Lemma pending_mid before code after i :
  pending (before ++ code :: after) i <-> pending before i \/ i ∈ code \/ pending after i.
Proof.
  split.
  - intros (l & [Hin|[->|Hin]%elem_of_cons]%elem_of_app & Hi); [left; by exists l|by right; left|right; right; by exists l].
  - intros [(l & Hin & Hi)|[Hi|(l & Hin & Hi)]]; [exists l|exists code|exists l]; (split; [|done]); apply elem_of_app;
      [by left|right; by left|right; by right].
Qed.

Lemma pending_keep before after i rest new j :
  pending (before ++ (i :: rest) :: after) j -> j = i \/ pending (before ++ (new ++ rest) :: after) j.
Proof. rewrite !pending_mid, elem_of_cons, elem_of_app. tauto. Qed.

Lemma pending_new before after rest new j : j ∈ new -> pending (before ++ (new ++ rest) :: after) j.
Proof. rewrite pending_mid, elem_of_app. tauto. Qed.

Lemma pending_back before after i rest new j :
  pending (before ++ (new ++ rest) :: after) j -> pending (before ++ (i :: rest) :: after) j \/ j ∈ new.
Proof. rewrite !pending_mid, elem_of_cons, elem_of_app. tauto. Qed.

Lemma step_sound sys sys' : step sys sys' -> sound sys -> sound sys'.
Proof.
  intros Hstep [Hinv Hcode]. destruct Hstep as [h ts code Hs|h h' before after i rest a new He|h ts s S m events HS Hev]; simpl in *.
  - split; simpl.
    + eapply inv_more; [..|exact Hinv].
      * intros i (code' & Hin & ?). exists code'. split; [|done]. apply elem_of_app. by left.
      * intros s (code' & Hin & Hf). apply elem_of_app in Hin as [Hin| ->%list_elem_of_singleton]; [by exists code'|].
        by destruct (starts_not_finish _ _ _ Hs Hf).
    + apply Forall_app_2; [done|]. constructor; [by apply starts_ok|constructor].
  - apply Forall_app in Hcode as [Hb [[Hi Hr]%Forall_cons Ha]%Forall_cons].
    pose proof (exec_grows _ _ _ _ _ He) as Hg.
    pose proof (pending_keep before after i rest new) as Hkeep. pose proof (pending_new before after rest new) as Hnew.
    pose proof (pending_back before after i rest new) as Hback. split; simpl; [by eapply relay_step_inv|].
    assert (forall l, Forall (code_ok h) l -> Forall (code_ok h') l) as Hl.
    { intros l Hl. eapply Forall_impl; [exact Hl|]. intros code. by apply code_ok_grows. }
    apply Forall_app_2; [by apply Hl|]. constructor; [|by apply Hl].
    apply Forall_app_2; [by eapply step_code|by eapply code_ok_grows].
  - split; simpl; [by eapply receive_inv|]. eapply Forall_impl; [exact Hcode|]. intros code.
    apply code_ok_grows. by eapply receive_grows.
Qed.

(** Sessions are only added. *)
Lemma step_ids sys sys' : step sys sys' -> (s_id <$> sessions (hub sys)) `prefix_of` (s_id <$> sessions (hub sys')).
Proof.
  assert (forall f s (l : list Session), (forall S, s_id (f S) = s_id S) -> s_id <$> alter f s l = s_id <$> l) as Halter.
  { intros f s l Hf. apply list_eq. intros k. rewrite !list_lookup_fmap.
    destruct (decide (s = k)) as [->|?]; [rewrite list_lookup_alter_eq|by rewrite list_lookup_alter_ne].
    destruct (l !! k); [|done]. simpl. by rewrite Hf. }
  intros Hstep. destruct Hstep as [|h h' before after i rest a new He|]; simpl; [done| |by rewrite Halter].
  destruct i; exec_cases He; rewrite ?Halter by done; try done. rewrite fmap_app. by exists [sessionID].
Qed.

Lemma step_unique sys sys' : step sys sys' -> unique (hub sys') -> unique (hub sys).
Proof.
  intros Hstep Hu. destruct (step_ids _ _ Hstep) as [k Hk]. unfold unique in *. rewrite Hk in Hu.
  by apply NoDup_app in Hu as [? _].
Qed.

Lemma reachable_sound sys : reachable sys -> sound sys.
Proof.
  intros Hr. pattern sys. eapply rtc_ind_r; [..|exact Hr]; clear sys Hr; [apply sound_initial|].
  intros sys sys' _ Hstep IH. by apply (step_sound _ _ Hstep).
Qed.

Lemma relay_step_keeps sys sys' :
  step sys sys' -> unique (hub sys) -> sound sys -> kept (hub sys) (pending (threads sys)) ->
  kept (hub sys') (pending (threads sys')).
Proof.
  intros Hstep Hu [Hinv Hcode] Hkept. destruct Hstep as [h ts code Hs|h h' before after i rest a new He|h ts s S m events HS Hev]; simpl in *.
  - eapply kept_more; [|exact Hkept]. intros i (code' & Hin & ?). exists code'. split; [|done]. apply elem_of_app. by left.
  - apply Forall_app in Hcode as [_ [[Hi _]%Forall_cons _]%Forall_cons].
    eapply step_kept; try done; [apply pending_keep|apply pending_new|apply pending_back].
  - by eapply receive_kept.
Qed.

Lemma reachable_kept sys : reachable sys -> unique (hub sys) -> kept (hub sys) (pending (threads sys)).
Proof.
  intros Hr. pattern sys. eapply rtc_ind_r; [..|exact Hr]; clear sys Hr; [by intros _ s S HS|].
  intros sys sys' Hr Hstep IH Hu. pose proof (step_unique _ _ Hstep Hu) as Hu0.
  by apply (relay_step_keeps _ _ Hstep); [|apply reachable_sound|apply IH].
Qed.

(** ** The lock of the writers

    A write follows its lock in the code of a goroutine; what is written next
    is written under the lock, by one goroutine at a time. *)

Definition writes_on (c : nat) (i : instr) : bool :=
  match i with Write c' _ | WriteOpen c' _ _ _ _ => (c' =? c)%nat | _ => false end.

Inductive paired : list instr -> Prop :=
| paired_nil : paired []
| paired_lock c i code : writes_on c i = true -> paired code -> paired (LockWrite c :: i :: code)
| paired_other i code :
    (forall c, writes_on c i = false) -> (forall c, i <> LockWrite c) -> paired code -> paired (i :: code).

Inductive lock_form : list instr -> Prop :=
| lock_free code : paired code -> lock_form code
| lock_held c i code : writes_on c i = true -> paired code -> lock_form (i :: code).

Definition holding (c : nat) (code : list instr) : nat :=
  match code with i :: _ => Nat.b2n (writes_on c i) | [] => 0 end.

(** How many goroutines are about to write on a connection. *)
Definition holders (c : nat) (ts : list (list instr)) : nat := sum_list_with (holding c) ts.

Definition writing (h : Hub) (c : nat) : bool :=
  match connections h !! c with Some C => c_writing C | None => false end.

Definition locked (sys : system) : Prop :=
  Forall lock_form (threads sys) /\ forall c, holders c (threads sys) = Nat.b2n (writing (hub sys) c).

Lemma paired_app code code' : paired code -> paired code' -> paired (code ++ code').
Proof. intros Hp Hp'. induction Hp; simpl; [done|by constructor|by apply paired_other]. Qed.

Lemma paired_holding c code : paired code -> holding c code = 0%nat.
Proof. intros Hp. destruct Hp as [| |i code Hi _ _]; [done|done|]. simpl. by rewrite Hi. Qed.

Lemma dismissals_paired reason order : paired (dismissals reason order).
Proof. unfold dismissals. induction order as [|s order IH]; [constructor|]. by do 2 (apply paired_other; [done|done|]). Qed.

Lemma writing_alter f c h c' :
  (forall C, c_writing (f C) = c_writing C) -> writing (on_connection f c h) c' = writing h c'.
Proof.
  intros Hf. unfold writing. simpl. destruct (decide (c = c')) as [->|Hne]; [rewrite list_lookup_alter_eq|by rewrite list_lookup_alter_ne].
  destruct (connections h !! c'); [apply Hf|done].
Qed.

Lemma writing_set f b c h c' C :
  connections h !! c = Some C -> (forall C, c_writing (f C) = b) ->
  writing (on_connection f c h) c' = if (c =? c')%nat then b else writing h c'.
Proof.
  intros HC Hf. unfold writing. simpl. destruct (Nat.eqb_spec c c') as [->|Hne]; [|by rewrite list_lookup_alter_ne].
  rewrite list_lookup_alter_eq, HC. apply Hf.
Qed.

Lemma writing_on_session f s h c : writing (on_session f s h) c = writing h c.
Proof. done. Qed.

(** The instructions that neither lock nor write. *)
Definition lockless (i : instr) : Prop := (forall c, writes_on c i = false) /\ forall c, i <> LockWrite c.

Lemma write_paired c m : paired (write c m).
Proof. constructor; [apply Nat.eqb_refl|constructor]. Qed.

Ltac pairs := repeat first [apply paired_nil | apply write_paired | by apply paired_other | apply paired_other; [done|done|]
  | apply (paired_lock _ (WriteOpen _ _ _ _ _)); [apply Nat.eqb_refl|] | apply (paired_lock _ (Write _ _)); [apply Nat.eqb_refl|]
  | apply paired_app].

Lemma lockless_new h i a h' new :
  lockless i -> exec h i a = Some (h', new) -> paired new /\ forall c, writing h' c = writing h c.
Proof.
  intros [Hw Hl] He. destruct (is_take i) as [(c & reason & ->)|Hi].
  { destruct (take_sessions _ _ _ _ _ _ He) as (C & order & _ & _ & _ & -> & ->). split; [|intros c'; by apply writing_alter].
    apply paired_app; [apply dismissals_paired|pairs]. }
  destruct i; exec_cases He; try (by edestruct Hi); try (by edestruct Hl); try (specialize (Hw c); simpl in Hw; by rewrite Nat.eqb_refl in Hw);
    (split; [repeat case_match; pairs|intros c'; try done; try (by apply writing_alter)]).
  unfold writing. simpl. rewrite lookup_app. destruct (connections h !! c') eqn:E; [done|].
  destruct (c' - length (connections h))%nat as [|[|?]]; done.
Qed.

Lemma writes_on_one c i c' : writes_on c i = true -> writes_on c' i = (c =? c')%nat.
Proof. intros Hw. destruct i; try done; simpl in Hw; by apply Nat.eqb_eq in Hw as ->. Qed.

Lemma form_step h i a h' new rest :
  exec h i a = Some (h', new) -> lock_form (i :: rest) ->
  (forall c, (holding c (i :: rest) <= Nat.b2n (writing h c))%nat) ->
  lock_form (new ++ rest)
  /\ forall c, (holding c (new ++ rest) + Nat.b2n (writing h c) = holding c (i :: rest) + Nat.b2n (writing h' c))%nat.
Proof.
  intros He Hf Hle. inversion Hf as [code Hp|c0 i0 code Hw Hp]; subst.
  - inversion Hp as [|c j code Hw Hp'|j code Hw Hl Hp']; subst.
    + simpl in He. apply bind_Some in He as (C & HC & He). destruct (c_writing C) eqn:E; simplify_eq.
      split; [by eapply lock_held|]. intros c'. rewrite (writing_set (with_writing true) true c h c' C HC) by done. simpl.
      rewrite (writes_on_one _ _ c' Hw).
      destruct (Nat.eqb_spec c c') as [<-|]; [|by rewrite Nat.add_0_l]. unfold writing. by rewrite HC, E.
    + destruct (lockless_new _ _ _ _ _ (conj Hw Hl) He) as [Hnew Hsame]. pose proof (paired_app _ _ Hnew Hp') as Happ.
      split; [by apply lock_free|]. intros c. rewrite Hsame, !paired_holding by done. done.
  - assert (new = [] \/ exists id s, new = [Remove c0 id false s]) as Hnew.
    { destruct i; try done; apply Nat.eqb_eq in Hw; subst; exec_cases He; eauto. }
    assert (forall c, writing h' c = if (c0 =? c)%nat then false else writing h c) as Hafter.
    { intros c. destruct i; try done; apply Nat.eqb_eq in Hw; subst; exec_cases He;
        rewrite ?writing_on_session; by eapply writing_set. }
    assert (paired (new ++ rest)) as Happ.
    { destruct Hnew as [->|(id & s & ->)]; [done|]. by apply paired_other. }
    split; [by apply lock_free|]. intros c. rewrite (paired_holding _ _ Happ), Hafter. specialize (Hle c). simpl in *.
    rewrite (writes_on_one _ _ c Hw) in *.
    destruct (c0 =? c)%nat; [|done]. destruct (writing h c); [done|]. by apply Nat.nle_succ_0 in Hle.
Qed.

Lemma holders_mid c before code after :
  holders c (before ++ code :: after) = (holders c before + (holding c code + holders c after))%nat.
Proof. unfold holders. by rewrite sum_list_with_app. Qed.

Lemma starts_form h code : starts h code -> paired code.
Proof. destruct 1; pairs. Qed.

Lemma step_locked sys sys' : step sys sys' -> locked sys -> locked sys'.
Proof.
  intros Hstep [Hform Hcount]. destruct Hstep as [h ts code Hs|h h' before after i rest a new He|h ts s S m events]; simpl in *; [..|done].
  - pose proof (starts_form _ _ Hs) as Hp. split; simpl; [apply Forall_app_2; [done|]; by repeat constructor|].
    intros c. unfold holders. rewrite sum_list_with_app. simpl. rewrite (paired_holding _ _ Hp), !Nat.add_0_r. apply Hcount.
  - apply Forall_app in Hform as [Hb [Hf Ha]%Forall_cons].
    destruct (form_step _ _ _ _ _ _ He Hf) as [Hf' Hsum].
    { intros c. rewrite <-Hcount, holders_mid. lia. }
    split; simpl; [apply Forall_app_2; [done|by constructor]|].
    intros c. specialize (Hcount c). specialize (Hsum c). rewrite holders_mid in *. lia.
Qed.

Lemma reachable_locked sys : reachable sys -> locked sys.
Proof.
  intros Hr. pattern sys. eapply rtc_ind_r; [..|exact Hr]; clear sys Hr; [by split; [constructor|]|].
  intros sys sys' _ Hstep IH. by apply (step_locked _ _ Hstep).
Qed.

(** ** The terminal relay: progress

    [shape] is the form of every goroutine's code; with it, a goroutine that
    cannot move waits for input, and the steps between inputs come to an end. *)

(** ** The form of the code *)

Definition work (i : instr) : Prop :=
  match i with
  | Run _ | Dispatch _ _ | Deliver _ _ _ | Attach _ | Shutdown _ _ => False
  | _ => True
  end.

Notation Stop c := (Shutdown c "agent disconnected").

Inductive shape : list instr -> Prop :=
| shape_work code : Forall work code -> shape code
| shape_stop code c reason : Forall work code -> shape (code ++ [Shutdown c reason])
| shape_run code c : Forall work code -> shape (code ++ [Run c; Stop c])
| shape_dispatch c m : shape [Dispatch c m; Stop c]
| shape_deliver c s m : shape [Deliver c s m; Stop c]
| shape_attach nodeID : shape [Attach nodeID]
| shape_replaced p reason c : shape [Shutdown p reason; Run c; Stop c].

Lemma starts_shape h code : starts h code -> shape code.
Proof. destruct 1; try (by apply shape_work; repeat constructor). apply shape_attach. Qed.

Lemma dismissals_work reason order : Forall work (dismissals reason order).
Proof. unfold dismissals. induction order as [|s order IH]; [constructor|]. by do 2 (apply Forall_cons; split; [exact I|]). Qed.

Lemma work_new h i a h' new : work i -> exec h i a = Some (h', new) -> Forall work new.
Proof.
  intros Hw He. destruct (is_take i) as [(c & reason & ->)|Hi].
  { destruct (take_sessions _ _ _ _ _ _ He) as (C & order & _ & _ & _ & _ & ->).
    apply Forall_app_2; [apply dismissals_work|by repeat constructor]. }
  destruct i; try done; exec_cases He; try (by destruct (Hi c reason)); repeat case_match; repeat constructor.
Qed.

(** ** A goroutine moves *)

Lemma shape_step h i a h' new rest : exec h i a = Some (h', new) -> shape (i :: rest) -> shape (new ++ rest).
Proof.
  intros He Hs. inversion Hs as [code Hw|code c reason Hw Heq|code c Hw Heq|c m|c s m|nodeID|p reason c]; subst.
  - apply Forall_cons in Hw as [Hw Hr]. apply shape_work, Forall_app_2; [by eapply work_new|done].
  - destruct code as [|j code]; simplify_eq/=.
    + rewrite app_nil_r. exec_cases He; apply shape_work; repeat constructor.
    + apply Forall_cons in Hw as [Hw Hr]. rewrite app_assoc. apply shape_stop, Forall_app_2; [by eapply work_new|done].
  - destruct code as [|j code]; simplify_eq/=.
    + destruct a as [| |m| |]; simplify_eq; [by apply (shape_stop [])|].
      repeat case_match; [by apply (shape_run (write c pong)); repeat constructor|by apply (shape_run [])|apply shape_dispatch].
    + apply Forall_cons in Hw as [Hw Hr]. rewrite app_assoc. apply shape_run, Forall_app_2; [by eapply work_new|done].
  - exec_cases He. case_match; [apply shape_deliver|by apply (shape_run [])].
  - exec_cases He; rewrite <-?app_assoc; simpl; try (by apply (shape_stop []));
      apply shape_run; repeat case_match; repeat constructor.
  - exec_cases He. rewrite app_nil_r. case_match; [apply shape_replaced|by apply (shape_run [])].
  - simpl in He. apply bind_Some in He as (C & _ & He).
    destruct (c_once C); simplify_eq; [by apply (shape_run [Detach p reason]); repeat constructor|by apply (shape_run [])].
Qed.

Lemma reachable_shape sys : reachable sys -> Forall shape (threads sys).
Proof.
  intros Hr. pattern sys. eapply rtc_ind_r; [..|exact Hr]; clear sys Hr; [constructor|].
  intros sys sys' _ Hstep IH. destruct Hstep as [h ts code Hs|h h' before after i rest a new He|]; simpl in *; [..|done].
  - apply Forall_app_2; [done|]. constructor; [by eapply starts_shape|constructor].
  - apply Forall_app in IH as [Hb [Hs Ha]%Forall_cons]. apply Forall_app_2; [done|]. constructor; [|done]. by eapply shape_step.
Qed.

(** ** No goroutine is stuck *)

Definition enabled (h : Hub) (i : instr) : Prop := exists a, a <> Cancelled /\ is_Some (exec h i a).

(** The lock of a connection is held. *)
Definition lock_waits (h : Hub) (i : instr) : Prop := exists c, i = LockWrite c /\ writing h c = true.

Section enabled.
Context (h : Hub) (pend : instr -> Prop).
Hypothesis Hinv : inv h pend.

Lemma enabled_by i a : a <> Cancelled -> is_Some (exec h i a) -> enabled h i.
Proof. by exists a. Qed.

Lemma session_connection s c sessionID : is_session h s c sessionID -> exists C, connections h !! c = Some C.
Proof. intros (S & HS & _ & <-). by eapply (inv_agent _ _ Hinv). Qed.

Lemma write_enabled c i : writes_on c i = true -> instr_ok h i -> enabled h i.
Proof.
  intros Hw Hok. destruct i; try done; simpl in Hok.
  - destruct (session_connection _ _ _ Hok) as [C HC]. eapply (enabled_by _ Fails); [done|]. simpl. rewrite HC. by eexists.
  - destruct Hok as [[C HC] _]. eapply (enabled_by _ Fails); [done|]. simpl. rewrite HC. by eexists.
Qed.

Lemma work_enabled i : work i -> instr_ok h i -> enabled h i \/ lock_waits h i.
Proof.
  intros Hw Hok. destruct i; try done; simpl in Hok;
    try (left; destruct Hok as (C & HC & _); eapply (enabled_by _ Works); [done|]; simpl; rewrite HC; simpl; case_bool_decide; by eexists);
    try (left; eapply (enabled_by _ Works); [done|by eexists]);
    try (left; by eapply (write_enabled c); [apply Nat.eqb_refl|]).
  - left. destruct Hok as (C & HC & _). eapply (enabled_by _ (InOrder (elements (registered C)))); [done|]. simpl. rewrite HC. simpl.
    rewrite bool_decide_true; [by eexists|]. split; [apply NoDup_elements|apply list_to_set_elements_L].
  - left. destruct Hok as [S HS]. eapply (enabled_by _ Works); [done|]. simpl. rewrite HS. simpl. case_match; by eexists.
  - left. destruct Hok as [C HC]. eapply (enabled_by _ Works); [done|]. simpl. rewrite HC. simpl. repeat case_match; by eexists.
  - left. destruct Hok as [_ Hok]. destruct (session_connection _ _ _ Hok) as [C HC].
    eapply (enabled_by _ Works); [done|]. simpl. rewrite HC. by eexists.
  - destruct Hok as [C HC]. destruct (c_writing C) eqn:Hl; [right; exists c; unfold writing; by rewrite HC|left].
    eapply (enabled_by _ Works); [done|]. simpl. rewrite HC. simpl. rewrite Hl. by eexists.
  - left. destruct Hok as (S & HS & _). eapply (enabled_by _ Works); [done|]. simpl. rewrite HS. by eexists.
  - left. destruct Hok as (S & HS & _). eapply (enabled_by _ Works); [done|]. simpl. rewrite HS. by eexists.
Qed.

(** The other instructions can be done too, except for a delivery to a live
    session that is full, and a shutdown that another goroutine is in. *)
Lemma dispatch_enabled c m : instr_ok h (Dispatch c m) -> enabled h (Dispatch c m).
Proof. intros [C HC]. eapply (enabled_by _ Works); [done|]. simpl. rewrite HC. by eexists. Qed.

Lemma deliver_enabled c s m :
  instr_ok h (Deliver c s m) ->
  enabled h (Deliver c s m)
  \/ exists S e events, sessions h !! s = Some S /\ s_done S = false /\ s_events S = e :: events.
Proof.
  intros [(S & HS & _) _]. destruct (s_done S) eqn:Hd.
  - left. eapply (enabled_by _ Fails); [done|]. simpl. rewrite HS. simpl. rewrite Hd. by eexists.
  - destruct (s_events S) as [|e events] eqn:Hev; [left|by right; exists S, e, events].
    eapply (enabled_by _ Works); [done|]. simpl. rewrite HS. simpl. rewrite Hev. by eexists.
Qed.

Lemma shutdown_enabled c reason :
  instr_ok h (Shutdown c reason) ->
  enabled h (Shutdown c reason) \/ closing pend c \/ pend (OnceDone c).
Proof.
  intros [C HC]. destruct (c_once C) eqn:Ho.
  - left. eapply (enabled_by _ Works); [done|]. simpl. rewrite HC. simpl. rewrite Ho. by eexists.
  - right. by eapply (inv_turn _ _ Hinv).
  - left. eapply (enabled_by _ Works); [done|]. simpl. rewrite HC. simpl. rewrite Ho. by eexists.
Qed.
End enabled.

(** A goroutine with work to do has work to do next. *)
Lemma shape_work_next code j : shape code -> j ∈ code -> work j -> exists i rest, code = i :: rest /\ work i.
Proof.
  intros Hs Hin Hj.
  assert (forall l tail, Forall work l -> j ∉ tail -> j ∈ l ++ tail -> exists i rest, l ++ tail = i :: rest /\ work i) as Hl.
  { intros [|i l] tail Hl Ht Hin'; [done|]. apply Forall_cons in Hl as [? _]. by exists i, (l ++ tail). }
  assert (forall l, Forall (fun i => ~ work i) l -> j ∉ l) as Hnone by (intros l Hl' Hjl; by apply (proj1 (Forall_forall _ _) Hl' _ Hjl)).
  destruct Hs as [code Hw|code c reason Hw|code c Hw|c m|c s m|nodeID|p reason c];
    try (exfalso; revert Hin; apply Hnone; repeat (constructor; [by intros []|]); by constructor).
  - rewrite <-(app_nil_r code) in Hin |- *. apply Hl; [done|apply not_elem_of_nil|done].
  - apply Hl; try done. intros ->%list_elem_of_singleton. destruct Hj.
  - apply Hl; try done. intros [->|[->|[]%elem_of_nil]%elem_of_cons]%elem_of_cons; destruct Hj.
Qed.

Lemma silent_at h ts i rest : i :: rest ∈ ts -> (forall c, i <> Run c) -> enabled h i -> exists sys', silent (mkSystem h ts) sys'.
Proof.
  intros (before & after & ->)%list_elem_of_split Hi (a & Ha & [[h' new] He]). eexists. by eapply silent_exec.
Qed.

(** The holder of a lock can go on to write. *)
Lemma holder_silent h ts c :
  sound (mkSystem h ts) -> locked (mkSystem h ts) -> writing h c = true -> exists sys', silent (mkSystem h ts) sys'.
Proof.
  intros [Hinv Hcode] [_ Hcount] Hw. simpl in *. specialize (Hcount c). rewrite Hw in Hcount.
  assert (exists i rest, i :: rest ∈ ts /\ writes_on c i = true) as (i & rest & Hin & Hi).
  { clear -Hcount. unfold holders in Hcount. induction ts as [|[|i rest] ts IH]; [done| |]; simpl in *.
    - destruct (IH Hcount) as (i & rest & ? & ?). exists i, rest. split; [by right|done].
    - destruct (writes_on c i) eqn:E; [exists i, rest; split; [left|done]|].
      destruct (IH Hcount) as (i' & rest' & ? & ?). exists i', rest'. split; [by right|done]. }
  pose proof (proj1 (Forall_forall _ _) Hcode _ Hin) as [Hok _]%Forall_cons.
  apply (silent_at _ _ _ _ Hin); [by intros c' ->|]. by eapply write_enabled.
Qed.

Section progress.
Context (h : Hub) (ts : list (list instr)).
Hypothesis Hsound : sound (mkSystem h ts).
Hypothesis Hlocked : locked (mkSystem h ts).
Hypothesis Hshape : Forall shape ts.

Lemma work_silent j : pending ts j -> work j -> exists sys', silent (mkSystem h ts) sys'.
Proof.
  pose proof Hsound as [Hinv Hcode]. intros (code & Hin & Hj) Hw. simpl in *.
  destruct (shape_work_next _ _ (proj1 (Forall_forall _ _) Hshape _ Hin) Hj Hw) as (i & rest & -> & Hi).
  pose proof (proj1 (Forall_forall _ _) Hcode _ Hin) as [Hok _]%Forall_cons.
  destruct (work_enabled _ _ Hinv _ Hi Hok) as [He|(c & _ & Hl)]; [|by eapply holder_silent].
  apply (silent_at _ _ _ _ Hin); [by intros c ->|done].
Qed.

Lemma closing_work pend c : closing pend c \/ pend (OnceDone c) -> exists j, pend j /\ work j.
Proof. intros [(reason & [?|[?|?]])|?]; by eexists. Qed.

(** A full queue is that of a browser that takes its messages, or of a session
    that is about to be handed out or to be ended. *)
Lemma full_silent s S e events :
  sessions h !! s = Some S -> s_done S = false -> s_events S = e :: events -> exists sys', silent (mkSystem h ts) sys'.
Proof.
  intros HS Hd Hev. destruct (s_given S) eqn:Hg; [eexists; by eapply silent_take|].
  destruct (inv_ungiven _ _ (proj1 Hsound) _ _ HS Hg Hd) as [(c & id & cols & rows & Hp)|[(c & id & n & Hp)|Hp]];
    by eapply work_silent.
Qed.

Lemma shutdown_silent c reason rest :
  Shutdown c reason :: rest ∈ ts -> instr_ok h (Shutdown c reason) -> exists sys', silent (mkSystem h ts) sys'.
Proof.
  intros Hin Hok. destruct (shutdown_enabled _ _ (proj1 Hsound) _ _ Hok) as [He|(j & Hp & Hj)%closing_work];
    [by eapply silent_at|by eapply work_silent].
Qed.

(** A goroutine that has something to do, or one it waits for, can do it. *)
Lemma not_settled_silent code : code ∈ ts -> settled_code h code \/ exists sys', silent (mkSystem h ts) sys'.
Proof.
  intros Hin. pose proof Hsound as [Hinv Hcode]. simpl in *.
  pose proof (proj1 (Forall_forall _ _) Hshape _ Hin) as Hs. pose proof (proj1 (Forall_forall _ _) Hcode _ Hin) as Hok.
  assert (forall i rest, code = i :: rest -> work i -> exists sys', silent (mkSystem h ts) sys') as Hwork.
  { intros i rest -> Hi. apply (work_silent i); [|done]. exists (i :: rest). split; [done|left]. }
  destruct Hs as [code Hw|code c reason Hw|code c Hw|c m|c s m|nodeID|p reason c];
    try (destruct code as [|i code]; [|apply Forall_cons in Hw as [Hw _]; right; by eapply Hwork]); simpl in *;
    try (apply Forall_cons in Hok as [Hok _]).
  - left. constructor.
  - right. by eapply shutdown_silent.
  - destruct Hok as [C HC]. destruct (c_closed C) eqn:Hc; [right|left; by eapply settled_reading].
    apply list_elem_of_split in Hin as (before & after & ->). eexists. by eapply silent_lost.
  - right. eapply silent_at; [done..|]. by eapply dispatch_enabled.
  - right. destruct (deliver_enabled _ _ _ _ Hok) as [He|(S & e & events & HS & Hd & Hev)]; [by eapply silent_at|].
    by eapply full_silent.
  - right. eapply silent_at; [done..|]. eapply (enabled_by _ _ Works); [done|by eexists].
  - right. by eapply shutdown_silent.
Qed.
End progress.

Lemma progress sys : reachable sys -> settled sys \/ exists sys', silent sys sys'.
Proof.
  intros Hr. pose proof (reachable_sound _ Hr) as Hs. pose proof (reachable_shape _ Hr) as Hshape.
  pose proof (reachable_locked _ Hr) as Hlocked. destruct sys as [h ts].
  assert (forall l, (forall code, code ∈ l -> code ∈ ts) -> Forall (settled_code h) l \/ exists sys', silent (mkSystem h ts) sys') as Hl.
  { induction l as [|code l IH]; intros Hsub; [by left|].
    destruct (not_settled_silent _ _ Hs Hlocked Hshape code) as [?|?]; [apply Hsub; left| |by right].
    destruct IH as [?|?]; [intros; apply Hsub; by right|left; by constructor|by right]. }
  by apply Hl.
Qed.

(** ** The steps between inputs come to an end

    Every instruction costs one more than all that can follow from it; a
    registered session pays for its message and its end in a shutdown, and a
    queued message for the browser that takes it. *)

Definition weight (i : instr) : nat :=
  match i with
  | Attach _ => 12 | Shutdown _ _ => 5 | Detach _ _ => 4 | Disconnect _ _ => 3 | TakeSessions _ _ => 2
  | Dismiss _ _ => 2 | Finish _ => 1 | OnceDone _ => 1
  | Open _ _ _ _ => 12 | Insert _ _ _ _ => 11 | WriteOpen _ _ _ _ _ => 5 | Remove _ _ _ _ => 4
  | LockWrite _ => 1 | Write _ _ => 1
  | Run _ => 1 | Dispatch _ _ => 8 | Deliver _ _ _ => 7 | CloseTransport _ => 1 | Send _ _ => 3 | Close _ => 5
  end%nat.

Definition code_weight : list instr -> nat := sum_list_with weight.
Definition registrations (C : AgentConnection) : nat := size (c_sessions C).
Definition queued (S : Session) : nat := length (s_events S).
Definition hub_weight (h : Hub) : nat :=
  3 * sum_list_with registrations (connections h) + sum_list_with queued (sessions h).
Definition potential (sys : system) : nat := hub_weight (hub sys) + sum_list_with code_weight (threads sys).

Lemma sum_alter {A} (w : A -> nat) f c l x :
  l !! c = Some x -> (sum_list_with w (alter f c l) + w x = sum_list_with w l + w (f x))%nat.
Proof.
  revert c. induction l as [|y l IH]; intros [|c] Hx; simplify_eq/=; [lia|]. specialize (IH _ Hx).
  pose proof (f_equal (Nat.add (w y)) IH) as H. rewrite !Nat.add_assoc in H. exact H.
Qed.

Lemma sum_alter_same {A} (w : A -> nat) f c l :
  (forall x, w (f x) = w x) -> sum_list_with w (alter f c l) = sum_list_with w l.
Proof.
  intros Hf. revert c. induction l as [|y l IH]; intros [|c]; [done..| |]; simpl; [by rewrite Hf|].
  exact (f_equal (Nat.add (w y)) (IH c)).
Qed.

Lemma dismissals_weight reason order : code_weight (dismissals reason order) = (3 * length order)%nat.
Proof.
  induction order as [|s order IH]; [done|]. simpl length. rewrite Nat.mul_succ_r, <-IH, Nat.add_comm. done.
Qed.

Lemma registered_size C (order : list nat) :
  NoDup order -> list_to_set order = registered C -> (length order <= registrations C)%nat.
Proof.
  intros Hnd Hreg. unfold registrations. rewrite <-length_map_to_list, <-(length_fmap snd). apply submseteq_length.
  apply NoDup_submseteq; [done|]. intros s Hs. apply (elem_of_list_to_set (C:=gset nat)) in Hs.
  rewrite Hreg in Hs. unfold registered in Hs. by rewrite map_img_alt, elem_of_list_to_set in Hs.
Qed.

Lemma delete_size (m : gmap string nat) sessionID : (size (delete sessionID m) <= size m)%nat.
Proof. rewrite map_size_delete. case_match; simpl; lia. Qed.

Lemma code_weight_app l k : code_weight (l ++ k) = (code_weight l + code_weight k)%nat.
Proof. apply sum_list_with_app. Qed.

Lemma attach_weight (l : list AgentConnection) nodeID :
  sum_list_with registrations (l ++ [mkConnection nodeID ∅ false Idle false []]) = sum_list_with registrations l.
Proof. rewrite sum_list_with_app. simpl. unfold registrations at 2. simpl. by rewrite map_size_empty, !Nat.add_0_r. Qed.

Lemma removed_weight sessionID c (l : list AgentConnection) C :
  l !! c = Some C ->
  (sum_list_with registrations (alter (with_sessions (delete sessionID (c_sessions C))) c l) <= sum_list_with registrations l)%nat.
Proof.
  intros HC. pose proof (sum_alter registrations (with_sessions (delete sessionID (c_sessions C))) _ _ _ HC) as Hsum.
  pose proof (delete_size (c_sessions C) sessionID) as Hd. unfold registrations at 2 4 in Hsum. simpl in Hsum. lia.
Qed.

(** A queue with one more message. *)
Lemma queue_weight s S m h :
  sessions h !! s = Some S ->
  sum_list_with queued (alter (with_events (s_events S ++ [m])) s (sessions h))
  = Datatypes.S (sum_list_with queued (sessions h)).
Proof.
  intros HS. pose proof (sum_alter queued (with_events (s_events S ++ [m])) _ _ _ HS) as Hsum.
  unfold queued at 2 4 in Hsum. simpl in Hsum. rewrite length_app in Hsum. simpl in Hsum. lia.
Qed.

Lemma exec_weight h i a h' new :
  exec h i a = Some (h', new) -> (forall c, i <> Run c) -> (hub_weight h' + code_weight new < hub_weight h + weight i)%nat.
Proof.
  intros He Hrun. destruct (is_take i) as [(c & reason & ->)|Hi].
  { destruct (take_sessions _ _ _ _ _ _ He) as (C & order & HC & Hnd & Hreg & -> & ->).
    pose proof (registered_size _ _ Hnd Hreg). pose proof (sum_alter registrations (with_sessions ∅) _ _ _ HC) as Hsum.
    rewrite code_weight_app, dismissals_weight. unfold hub_weight. simpl. unfold registrations in *. simpl in *.
    change (size (∅ : gmap string nat)) with 0%nat in Hsum. lia. }
  destruct i; exec_cases He; try (by destruct (Hi _ _ eq_refl)); try (by destruct (Hrun _ eq_refl));
    unfold hub_weight; rewrite ?sum_alter_same by done;
    repeat match goal with |- context [match ?x with _ => _ end] => destruct x end; simpl;
    rewrite ?sum_alter_same by done; rewrite ?(queue_weight _ _ _ _ ltac:(eassumption)); try lia.
  - rewrite !attach_weight. lia.
  - rewrite !attach_weight. lia.
  - pose proof (sum_alter registrations (with_sessions (<[sessionID:=length (sessions h)]> (c_sessions H))) _ _ _ Heqo) as Hsum.
    unfold registrations at 2 4 in Hsum. simpl in Hsum. rewrite map_size_insert_None in Hsum by done.
    rewrite (sum_list_with_app queued). simpl. lia.
  - pose proof (removed_weight sessionID _ _ _ Heqo). lia.
  - pose proof (removed_weight sessionID _ _ _ Heqo). lia.
Qed.

Lemma silent_decreases sys sys' : silent sys sys' -> (potential sys' < potential sys)%nat.
Proof.
  intros [h h' before after i rest a new Hi _ He|h before after c rest C _ _|h ts s S m events HS _ _ Hev]; unfold potential; simpl.
  - pose proof (exec_weight _ _ _ _ _ He Hi) as Hw. rewrite !sum_list_with_app. simpl. rewrite code_weight_app.
    change (code_weight (i :: rest)) with (weight i + code_weight rest)%nat. lia.
  - rewrite !sum_list_with_app. simpl. change (code_weight (Run c :: rest)) with (1 + code_weight rest)%nat. lia.
  - pose proof (sum_alter queued (with_events events) _ _ _ HS) as Hsum. unfold queued at 2 4 in Hsum.
    rewrite Hev in Hsum. unfold hub_weight. simpl in *. lia.
Qed.

Lemma silent_terminates sys : sn silent sys.
Proof.
  remember (potential sys) as n eqn:Hn. revert sys Hn. induction (lt_wf n) as [n _ IH]. intros sys ->.
  constructor. intros sys' Hs. eapply IH; [by apply silent_decreases|done].
Qed.

Lemma silent_step sys sys' : silent sys sys' -> step sys sys'.
Proof.
  intros [h h' before after i rest a new _ _ He|h before after c rest C _ _|h ts s S m events HS _ _ Hev];
    [by econstructor|by apply (step_exec h h before after (Run c) rest Fails [])|by econstructor].
Qed.

Lemma silent_reachable sys sys' : reachable sys -> rtc silent sys sys' -> reachable sys'.
Proof. unfold reachable. intros Hr Hs. etrans; [exact Hr|]. eapply rtc_subrel; [|exact Hs]. apply silent_step. Qed.

(** One goroutine at a time writes to an agent. *)
Lemma one_writer sys c : reachable sys -> (holders c (threads sys) <= 1)%nat.
Proof. intros Hr. rewrite (proj2 (reachable_locked _ Hr)). by destruct (writing (hub sys) c); [|apply Nat.le_0_l]. Qed.
