(* ===== verification/TerminalHubClaims.v ===== *)
(** * The terminal relay: what it guarantees

    In every interleaving of attachments, replacements, readers, cancellations,
    browsers that open, use and close sessions, and shutdowns. *)

From stdpp Require Import base strings gmap list relations.
From Stdlib Require Import ZArith Lia Ascii.
From S2P Require Import Prelude GoStrings TerminalHub TerminalHubFacts.
Local Open Scope Z_scope.
Local Open Scope hub_scope.

(** ** Settled states *)

(** What a goroutine without anything to do may still have before it. *)
Definition waiting (i : instr) : Prop :=
  match i with
  | Run _ => True
  | Shutdown _ reason => reason = "agent disconnected"
  | _ => False
  end.

Lemma settled_pending sys i : settled sys -> pending (threads sys) i -> waiting i.
Proof.
  intros Hs (code & Hin & Hi). apply (proj1 (Forall_forall _ _) Hs) in Hin.
  destruct Hin; [by apply elem_of_nil in Hi|..];
    apply elem_of_cons in Hi as [->|[->|[]%elem_of_nil]%elem_of_cons]; done.
Qed.

(** A connection that somebody still has to shut down is read. *)
Lemma settled_reader sys c :
  settled sys -> pending (threads sys) (Shutdown c "agent disconnected") ->
  exists C, connections (hub sys) !! c = Some C /\ c_closed C = false.
Proof.
  intros Hs (code & Hin & Hi). apply (proj1 (Forall_forall _ _) Hs) in Hin.
  destruct Hin as [|c' C HC Hc]; [by apply elem_of_nil in Hi|].
  apply elem_of_cons in Hi as [?|[[= ->]|[]%elem_of_nil]%elem_of_cons]; [done|by exists C].
Qed.

Section settled.
Context (sys : system).
Hypothesis Hr : reachable sys.
Hypothesis Hs : settled sys.

Lemma settled_closing c : ~ closing (pending (threads sys)) c.
Proof. intros (reason & [Hp|[Hp|Hp]]); by apply settled_pending in Hp. Qed.

Lemma settled_current c C :
  connections (hub sys) !! c = Some C -> c_once C = Idle -> agents (hub sys) !! c_nodeID C = Some c.
Proof.
  intros HC Ho. destruct (inv_idle _ _ (proj1 (reachable_sound _ Hr)) _ _ HC Ho) as [?|Hp]; [done|].
  by apply settled_pending in Hp.
Qed.

Lemma settled_open c C : connections (hub sys) !! c = Some C -> c_once C = Idle -> c_closed C = false.
Proof.
  intros HC Ho. pose proof (inv_reader _ _ (proj1 (reachable_sound _ Hr)) _ _ HC Ho) as Hp.
  destruct (settled_reader _ _ Hs Hp) as (C' & HC' & ?). by simplify_eq.
Qed.

Lemma settled_unregistered c C sessionID s :
  connections (hub sys) !! c = Some C -> c_once C <> Idle -> c_sessions C !! sessionID = Some s -> False.
Proof.
  intros HC Ho Hsess. destruct (inv_late _ _ (proj1 (reachable_sound _ Hr)) _ _ _ _ HC Ho Hsess) as [Hc|[Hc|Hc]].
  - by destruct (settled_closing c).
  - destruct Hc as (? & ? & ? & ? & Hp). by apply settled_pending in Hp.
  - destruct Hc as (? & ? & ? & Hp). by apply settled_pending in Hp.
Qed.
End settled.

(** C30. No browser is left hanging, as long as no session identifier is used
    twice: once the goroutines have done what they can, every session that was
    not ended is registered in the current connection of its node, which was not
    shut down and whose transport is open.  So the sessions of a lost, cancelled
    or replaced connection are all ended. *)
Theorem sessions_attached sys s S :
  reachable sys -> settled sys -> unique (hub sys) ->
  sessions (hub sys) !! s = Some S -> s_done S = false ->
  exists C, connections (hub sys) !! s_agent S = Some C /\ c_sessions C !! s_id S = Some s
            /\ c_once C = Idle /\ c_closed C = false /\ agents (hub sys) !! c_nodeID C = Some (s_agent S).
Proof.
  intros Hr Hs Hu HS Hd. destruct (reachable_kept _ Hr Hu _ _ HS Hd) as [Hp|(C & HC & Hin)].
  { by apply (settled_pending _ _ Hs) in Hp. }
  exists C. split; [done|]. split; [done|].
  destruct (decide (c_once C = Idle)) as [Ho|Ho]; [|by destruct (settled_unregistered _ Hr Hs _ _ _ _ HC Ho Hin)].
  split; [done|]. split; [by eapply settled_open|by eapply settled_current].
Qed.

(** A node has at most one working connection: once the goroutines have done
    what they can, a connection is either the current one of its node and open, or
    its transport is closed, it holds no session and no node is reached by it. *)
Theorem connection_current_or_closed sys c C :
  reachable sys -> settled sys -> connections (hub sys) !! c = Some C ->
  c_once C = Idle /\ c_closed C = false /\ agents (hub sys) !! c_nodeID C = Some c
  \/ c_once C = Spent /\ c_closed C = true /\ c_sessions C = ∅ /\ forall nodeID, agents (hub sys) !! nodeID <> Some c.
Proof.
  intros Hr Hs HC. pose proof (proj1 (reachable_sound _ Hr)) as Hinv. destruct (c_once C) eqn:Ho.
  - left. split; [done|]. split; [by eapply settled_open|by eapply settled_current].
  - exfalso. destruct (inv_turn _ _ Hinv _ _ HC Ho) as [Hc|Hp]; [by destruct (settled_closing _ Hs c)|].
    by apply (settled_pending _ _ Hs) in Hp.
  - assert (c_once C <> Idle) as Hne by congruence. right. split; [done|]. split; [|split].
    + destruct (inv_busy _ _ Hinv _ _ HC Hne) as [Hc|?]; [|done]. by destruct (settled_closing _ Hs c).
    + apply map_empty. intros sessionID. destruct (c_sessions C !! sessionID) eqn:E; [|done].
      by destruct (settled_unregistered _ Hr Hs _ _ _ _ HC Hne E).
    + intros nodeID Ha. destruct (inv_current _ _ Hinv _ _ Ha) as (C' & HC' & _ & Ho').
      simplify_eq. destruct Ho' as [?|[reason Hp]]; [congruence|]. by apply (settled_pending _ _ Hs) in Hp.
Qed.

(** C31. The relay comes to rest between inputs: there is no infinite run in
    which no message is read from an agent and no context is cancelled, and as
    long as a goroutine neither returned nor reads from an open transport, some
    goroutine or browser can move.  So neither the lock of the writers, nor the
    once of a shutdown, nor a full queue, blocks the relay for ever.  What the
    environment owes is that a transport call returns, that a read from a closed
    transport fails, and that a browser takes the messages of its session.  At
    most one goroutine at a time writes to an agent. *)
Theorem relay_settles sys :
  reachable sys ->
  sn silent sys
  /\ (forall sys', rtc silent sys sys' -> settled sys' \/ exists sys'', silent sys' sys'')
  /\ forall c, (holders c (threads sys) <= 1)%nat.
Proof.
  intros Hr. split; [apply silent_terminates|]. split; [|intros c; by apply one_writer].
  intros sys' Hs. apply progress. by eapply silent_reachable.
Qed.

(** C32. The queue of a session holds at most 64 messages, all of that session,
    and on the wire every message of a session comes after the one that opens
    it; a session handed to a browser was announced to its agent. *)
Theorem relay_messages sys :
  reachable sys ->
  (forall s S, sessions (hub sys) !! s = Some S ->
     (length (s_events S) <= events_limit)%nat /\ Forall (fun m => m_SessionID m = s_id S) (s_events S)
     /\ (s_given S = true -> opened (hub sys) (s_agent S) (s_id S)))
  /\ forall c C, connections (hub sys) !! c = Some C -> opened_first (c_sent C).
Proof.
  intros Hr. pose proof (proj1 (reachable_sound _ Hr)) as Hinv. split; [|apply (inv_sent _ _ Hinv)].
  intros s S HS. destruct (inv_events _ _ Hinv _ _ HS) as [? ?]. split; [done|]. split; [done|].
  by apply (inv_given _ _ Hinv _ _ HS).
Qed.

(** ** A scripted run *)

Inductive move : Type :=
| Start (code : list instr)
| Go (k : nat) (a : answer)
| Take (s : nat).

Definition may_start (h : Hub) (code : list instr) : bool :=
  match code with
  | [Attach _] | [Open _ _ _ _] => true
  | [CloseTransport c] => (c <? length (connections h))%nat
  | [Send s _] | [Close s] => match sessions h !! s with Some T => s_given T | None => false end
  | _ => false
  end.

Definition play_move (sys : system) (mv : move) : option system :=
  let (h, ts) := sys in
  match mv with
  | Start code => if may_start h code then Some (mkSystem h (ts ++ [code])) else None
  | Go k a =>
      match ts !! k with
      | Some (i :: rest) => '(h', new) ← exec h i a; Some (mkSystem h' (<[k := new ++ rest]> ts))
      | _ => None
      end
  | Take s =>
      T ← sessions h !! s;
      match s_events T with m :: events => Some (mkSystem (on_session (with_events events) s h) ts) | [] => None end
  end.

Fixpoint play (sys : system) (mvs : list move) : option system :=
  match mvs with
  | [] => Some sys
  | mv :: mvs => sys' ← play_move sys mv; play sys' mvs
  end.

Lemma may_start_starts h code : may_start h code = true -> starts h code.
Proof.
  intros Hm. destruct code as [|[] [|[] [|? ?]]]; try done; simpl in Hm; try (by constructor).
  - constructor. by apply Nat.ltb_lt.
  - repeat case_match; try done. by econstructor.
  - repeat case_match; try done. by econstructor.
Qed.

Lemma play_move_step sys mv sys' : play_move sys mv = Some sys' -> step sys sys'.
Proof.
  destruct sys as [h ts], mv as [code|k a|s]; simpl; intros H.
  - case_match eqn:E; simplify_eq. constructor. by apply may_start_starts.
  - destruct (ts !! k) as [[|i rest]|] eqn:E; try done. apply bind_Some in H as ([h' new] & He & [= <-]).
    pose proof (take_drop_middle _ _ _ E) as Hts. rewrite (insert_take_drop _ _ _ (lookup_lt_Some _ _ _ E)).
    rewrite <-Hts at 1. by econstructor.
  - apply bind_Some in H as (S & HS & H). destruct (s_events S) as [|m events] eqn:E; simplify_eq. by econstructor.
Qed.

Lemma play_steps sys mvs sys' : play sys mvs = Some sys' -> rtc step sys sys'.
Proof.
  revert sys. induction mvs as [|mv mvs IH]; intros sys; simpl; [by intros [= ->]|].
  intros (sys1 & Hm & Hp)%bind_Some. eapply rtc_l; [by eapply play_move_step|by apply IH].
Qed.

(** A node attaches, a browser opens a session, the agent answers, the agent
    attaches again: the first connection is shut down and its session ended,
    the second one serves a new session, and the first reader returns. *)
Definition sample_moves : list move :=
  [Start [Attach "node_a"]; Go 0 Works;
   Start [Open "node_a" "t1" 80 24]; Go 1 Works; Go 1 Works; Go 1 Works; Go 1 Works;
   Go 0 (Reads (mkMessage TypeOutput "t1" "aGk=" 0 0)); Go 0 Works; Go 0 Works;
   Start [Attach "node_a"]; Go 2 Works; Go 2 Works; Go 2 Works; Go 2 Works; Go 2 (InOrder [0%nat]);
   Go 2 Works; Go 2 Works; Go 2 Works; Go 0 Fails; Go 0 Works;
   Start [Open "node_a" "t2" 80 24]; Go 3 Works; Go 3 Works; Go 3 Works; Go 3 Works].

Definition sample_relay : system :=
  mkSystem
    (mkHub {[ "node_a" := 1%nat ]}
       [mkConnection "node_a" ∅ true Spent false [open_message "t1" 80 24];
        mkConnection "node_a" {[ "t2" := 1%nat ]} false Idle false [open_message "t2" 80 24]]
       [mkSession "t1" 0 [mkMessage TypeOutput "t1" "aGk=" 0 0; close_message "t1" "agent connection replaced"] true true;
        mkSession "t2" 1 [] false true])
    [[]; []; run_relay 1; []].

Lemma sample_relay_reachable : reachable sample_relay.
Proof. apply (play_steps _ sample_moves). vm_compute. reflexivity. Qed.

Lemma sample_relay_settled : settled sample_relay.
Proof. constructor; [|constructor; [|constructor; [by eapply settled_reading|]]]; by repeat constructor. Qed.

Lemma sample_relay_unique : unique (hub sample_relay).
Proof. apply (bool_decide_unpack _). vm_compute. exact I. Qed.

Lemma sessions_attached_witness :
  exists C, connections (hub sample_relay) !! 1%nat = Some C /\ c_sessions C !! "t2" = Some 1%nat
            /\ c_once C = Idle /\ c_closed C = false /\ agents (hub sample_relay) !! c_nodeID C = Some 1%nat.
Proof.
  apply (sessions_attached sample_relay 1 (mkSession "t2" 1 [] false true));
    [apply sample_relay_reachable|apply sample_relay_settled|apply sample_relay_unique|reflexivity|reflexivity].
Defined.

Lemma connection_current_or_closed_witness :
  exists C, connections (hub sample_relay) !! 0%nat = Some C
    /\ (c_once C = Idle /\ c_closed C = false /\ agents (hub sample_relay) !! c_nodeID C = Some 0%nat
        \/ c_once C = Spent /\ c_closed C = true /\ c_sessions C = ∅
           /\ forall nodeID, agents (hub sample_relay) !! nodeID <> Some 0%nat).
Proof.
  eexists. split; [reflexivity|].
  apply (connection_current_or_closed sample_relay 0); [apply sample_relay_reachable|apply sample_relay_settled|reflexivity].
Defined.

Lemma relay_settles_witness :
  sn silent sample_relay
  /\ (forall sys', rtc silent sample_relay sys' -> settled sys' \/ exists sys'', silent sys' sys'')
  /\ forall c, (holders c (threads sample_relay) <= 1)%nat.
Proof. apply (relay_settles sample_relay), sample_relay_reachable. Defined.

Lemma relay_messages_witness :
  (forall s S, sessions (hub sample_relay) !! s = Some S ->
     (length (s_events S) <= events_limit)%nat /\ Forall (fun m => m_SessionID m = s_id S) (s_events S)
     /\ (s_given S = true -> opened (hub sample_relay) (s_agent S) (s_id S)))
  /\ forall c C, connections (hub sample_relay) !! c = Some C -> opened_first (c_sent C).
Proof. apply (relay_messages sample_relay), sample_relay_reachable. Defined.
