(* ===== verification/GoTyped.v ===== *)
(** * Decoding JSON into Go types

    [json.Unmarshal] is driven by the type of its target.  [gotype] describes
    the types the panel decodes the answers of managed nodes into, [goval] their
    values; [decode] is the decoder.  A member is matched to a field by its name,
    exactly or else up to case, a later member overwrites an earlier one, [null]
    leaves a scalar as it is, and a slice reuses the backing array of an earlier
    member of the same name. *)

From stdpp Require Import base strings gmap list.
From Stdlib Require Import ZArith Lia Ascii.
From S2P Require Import Prelude GoStrings GoJson HubTypes GoFloat.
Local Open Scope Z_scope.

Inductive gotype : Type :=
| GString | GBool | GInt | GUint64 | GFloat64
| GSlice (t : gotype)
| GStruct (fields : list (string * gotype)).

Inductive goval : Type :=
| VString (s : string)
| VBool (b : bool)
| VInt (z : Z)
| VFloat (f : float64)
| VSlice (backing : list goval) (visible : option nat)
| VStruct (values : list goval).

(** The zero value of a type. *)
Fixpoint zero (t : gotype) : goval :=
  match t with
  | GString => VString ""
  | GBool => VBool false
  | GInt | GUint64 => VInt 0
  | GFloat64 => VFloat f_zero
  | GSlice _ => VSlice [] None
  | GStruct fields => VStruct (map (fun f => zero f.2) fields)
  end.

Definition backing_of (v : goval) : list goval := match v with VSlice l _ => l | _ => [] end.
Definition values_of (v : goval) : list goval := match v with VStruct l => l | _ => [] end.

(** The elements of a slice value. *)
Definition items_of (v : goval) : list goval :=
  match v with VSlice l (Some n) => take n l | _ => [] end.

(** [strict] is [DisallowUnknownFields]. *)
Fixpoint decode (strict : bool) (t : gotype) (j : json) (old : goval) {struct t} : option goval :=
  match t with
  | GString => match j with JStr _ s => Some (VString s) | JNull => Some old | _ => None end
  | GBool => match j with JBool b => Some (VBool b) | JNull => Some old | _ => None end
  | GInt => match j with JNum lit => VInt <$> ParseInt lit | JNull => Some old | _ => None end
  | GUint64 => match j with JNum lit => VInt <$> ParseUint lit | JNull => Some old | _ => None end
  | GFloat64 => match j with JNum lit => VFloat <$> ParseFloat lit | JNull => Some old | _ => None end
  | GSlice t' =>
      match j with
      | JArr [] => Some (VSlice [] (Some 0%nat))
      | JArr items =>
          l ← decode_items (zero t') (decode strict t') items (backing_of old); Some (VSlice l (Some (length items)))
      | JNull => Some (VSlice [] None)
      | _ => None
      end
  | GStruct fields =>
      let setters :=
        (fix setters (n : nat) (fields : list (string * gotype)) : fields_of (list goval) :=
           match fields with
           | [] => []
           | (name, t') :: fields' =>
               (name, fun j vs => v ← decode strict t' j (nth n vs (zero t')); Some (<[n := v]> vs)) :: setters (S n) fields'
           end) 0%nat fields in
      match j with
      | JNull => Some old
      | _ => VStruct <$> decode_struct strict setters j (values_of old)
      end
  end.

(** [json.Unmarshal([]byte(text), &target)] with a zero target. *)
Definition Unmarshal (t : gotype) (text : string) : option goval := j ← unmarshal text; decode false t j (zero t).

(** ** Fields of a struct value *)

Fixpoint field_index (fields : list (string * gotype)) (name : string) (n : nat) : option nat :=
  match fields with
  | [] => None
  | (f, _) :: fields' => if String.eqb f name then Some n else field_index fields' name (S n)
  end.

Definition field (t : gotype) (v : goval) (name : string) : option goval :=
  match t with GStruct fields => n ← field_index fields name 0; values_of v !! n | _ => None end.

Definition string_field (t : gotype) (v : goval) (name : string) : string :=
  match field t v name with Some (VString s) => s | _ => "" end.
Definition int_field (t : gotype) (v : goval) (name : string) : Z :=
  match field t v name with Some (VInt z) => z | _ => 0 end.
Definition bool_field (t : gotype) (v : goval) (name : string) : bool :=
  match field t v name with Some (VBool b) => b | _ => false end.

Definition sample_type : gotype := GStruct [("name", GString); ("size", GInt); ("tags", GSlice GString)].

Example decode_sample :
  decode false sample_type
    (JObj [("NAME", JStr true "a"); ("size", JNum "3"); ("x", JNull);
           ("tags", JArr [JStr true "p"; JStr true "q"]); ("tags", JArr [JNull])]) (zero sample_type)
  = Some (VStruct [VString "a"; VInt 3; VSlice [VString "p"; VString "q"] (Some 1%nat)]).
Proof. vm_compute. reflexivity. Qed.
