(* ===== verification/RemoteNodes.v ===== *)
(** * What managed nodes answer the panel: [internal/services/remotenodes]

    The structs the handlers decode task results and request bodies into, as Go
    types, and those the handlers fill themselves, as records. *)

From stdpp Require Import base strings gmap list.
From Stdlib Require Import ZArith.
From S2P Require Import Prelude GoStrings GoJson HubTypes GoTyped.
Local Open Scope Z_scope.

(** ** Decoded answers *)

Definition AgentUpdateStatus : gotype :=
  GStruct [("release_status", GString); ("signature_status", GString); ("current_version", GString);
           ("latest_version", GString); ("latest_version_state", GString); ("update_available", GBool);
           ("platform", GString); ("release_notes_url", GString); ("release_message", GString);
           ("release_checked_at", GString); ("operation", GString); ("operation_status", GString);
           ("operation_version", GString); ("operation_detail", GString); ("operation_updated_at", GString);
           ("rollback_available", GBool)].

Definition RemoteCronJob_fields : list (string * gotype) :=
  [("id", GString); ("schedule", GString); ("user", GString); ("command", GString);
   ("description", GString); ("enabled", GBool)].
Definition RemoteCronJob : gotype := GStruct RemoteCronJob_fields.

Definition RemoteCronSource : gotype :=
  GStruct [("path", GString); ("entry_count", GInt); ("managed", GBool)].

Definition RemoteCronInventory : gotype :=
  GStruct [("service", GString); ("jobs", GSlice RemoteCronJob); ("sources", GSlice RemoteCronSource);
           ("revision", GString)].

Definition RemoteFirewallRule : gotype :=
  GStruct [("id", GString); ("action", GString); ("protocol", GString); ("port", GInt); ("source", GString);
           ("comment", GString); ("managed", GBool); ("raw", GString)].

Definition RemoteFirewallInventory : gotype :=
  GStruct [("backend", GString); ("policy", GString); ("persistence", GString);
           ("rules", GSlice RemoteFirewallRule); ("revision", GString);
           ("protected_sources", GSlice GString); ("protected_ports", GSlice GInt)].

Definition RemoteDatabase : gotype :=
  GStruct [("name", GString); ("size", GInt); ("connections", GInt); ("objects", GInt)].

Definition RemoteDatabaseSession : gotype :=
  GStruct [("id", GString); ("user", GString); ("database", GString); ("state", GString);
           ("age_seconds", GInt); ("query", GString)].

Definition RemoteDatabaseEngine : gotype :=
  GStruct [("id", GString); ("name", GString); ("version", GString); ("unit", GString); ("active", GString);
           ("data_size", GInt); ("databases", GSlice RemoteDatabase); ("sessions", GSlice RemoteDatabaseSession)].

Definition RemoteBackupFile : gotype :=
  GStruct [("name", GString); ("path", GString); ("size", GInt); ("modified_at", GString)].

Definition RemoteBackupPlan : gotype :=
  GStruct [("id", GString); ("name", GString); ("service", GString); ("timer", GString); ("active", GString);
           ("enabled", GString); ("last_result", GString); ("last_run", GString); ("next_run", GString);
           ("completed_at", GString); ("verified", GBool); ("total_size", GInt); ("files", GSlice RemoteBackupFile)].

Definition RemoteDeployContainer : gotype :=
  GStruct [("name", GString); ("image", GString); ("state", GString); ("health", GString)].

Definition RemoteDeployTarget : gotype :=
  GStruct [("id", GString); ("name", GString); ("description", GString); ("kind", GString); ("path", GString);
           ("status", GString); ("eligible", GBool); ("reason", GString); ("actions", GSlice GString);
           ("branch", GString); ("head", GString); ("upstream", GString); ("remote", GString); ("dirty", GInt);
           ("ahead", GInt); ("behind", GInt); ("frameworks", GSlice GString);
           ("containers", GSlice RemoteDeployContainer); ("rollback_available", GBool);
           ("rollback_created_at", GString); ("host_port", GInt)].

Definition RemoteDeployDomain_names : list string :=
  ["target_id"; "domain"; "host_port"; "desired_host_port"; "upstream"; "status"; "message"; "tls_status";
   "tls_expires_at"; "tls_days_remaining"; "tls_message"; "updated_at"; "enabled"; "revision"].

Definition RemoteDeployDomain : gotype :=
  GStruct [("target_id", GString); ("domain", GString); ("host_port", GInt); ("desired_host_port", GInt);
           ("upstream", GString); ("status", GString); ("message", GString); ("tls_status", GString);
           ("tls_expires_at", GString); ("tls_days_remaining", GInt); ("tls_message", GString);
           ("updated_at", GString); ("enabled", GBool); ("revision", GString)].

Definition RemoteDeployDomainHealth : gotype :=
  GStruct [("domain", GString); ("upstream", GString); ("status", GString); ("status_code", GInt);
           ("latency_ms", GInt); ("message", GString); ("checked_at", GString)].

Definition DiskCleanupTarget : gotype :=
  GStruct [("id", GString); ("name", GString); ("description", GString); ("size", GUint64); ("risk", GString)].

Definition DiskCleanupResult : gotype :=
  GStruct [("id", GString); ("status", GString); ("message", GString); ("reclaimed", GUint64)].

Definition DiskCleanupExecution : gotype :=
  GStruct [("results", GSlice DiskCleanupResult); ("scan_error", GString)].

Definition Domain : gotype :=
  GStruct [("name", GString); ("aliases", GSlice GString); ("config", GString); ("enabled", GBool); ("ssl", GBool);
           ("certificate_name", GString); ("root", GString); ("proxy_target", GString); ("kind", GString)].

Definition Certificate : gotype :=
  GStruct [("name", GString); ("domains", GSlice GString); ("issuer", GString); ("serial", GString);
           ("not_before", GString); ("not_after", GString); ("days_remaining", GInt); ("auto_renew", GBool)].

Definition FileEntry : gotype :=
  GStruct [("name", GString); ("path", GString); ("type", GString); ("size", GInt); ("mode", GString);
           ("modified_at", GString)].

Definition FileContent : gotype :=
  GStruct [("path", GString); ("content", GString); ("checksum", GString); ("size", GInt); ("mode", GString);
           ("modified_at", GString)].

Definition NginxConfig : gotype :=
  GStruct [("name", GString); ("enabled", GBool); ("size", GInt); ("modified_at", GString); ("content", GString);
           ("checksum", GString)].

Definition LogEntry : gotype :=
  GStruct [("timestamp", GString); ("unit", GString); ("priority", GInt); ("message", GString)].

Definition Container : gotype :=
  GStruct [("id", GString); ("name", GString); ("image", GString); ("state", GString); ("status", GString);
           ("ports", GString)].

Definition PHPFPMPool : gotype :=
  GStruct [("name", GString); ("path", GString); ("user", GString); ("group", GString); ("listen", GString);
           ("pm", GString); ("max_children", GInt)].

Definition PHPFPMVersion : gotype :=
  GStruct [("version", GString); ("unit", GString); ("active", GString); ("enabled", GString); ("masked", GBool);
           ("binary", GString); ("pools", GSlice PHPFPMPool)].

Definition PM2Process : gotype :=
  GStruct [("id", GInt); ("name", GString); ("status", GString); ("pid", GInt); ("cpu", GFloat64); ("memory", GInt);
           ("uptime", GInt); ("restarts", GInt); ("mode", GString); ("cwd", GString); ("script", GString);
           ("version", GString)].

(** ** Request bodies *)

Definition CreateRemoteDeployDomainRequest : gotype := GStruct [("domain", GString)].
Definition EnableRemoteDeployDomainTLSRequest : gotype := GStruct [("email", GString)].

Record EnsureRemoteDeployDomainRequest : Type := mkEnsureRequest {
  ens_ExpectedRevision : string; ens_Confirmed : bool }.

(** ** Answers the handlers fill *)

Record EnsureRemoteDeployDomainResponse : Type := mkEnsureResponse {
  ensr_Changed : bool; ensr_Observation : goval }.

Record ActionStatus : Type := mkActionStatus {
  acs_Running : bool; acs_Action : string; acs_StartedAt : string }.

Record RebootStatus : Type := mkRebootStatus {
  rbs_Pending : bool; rbs_ScheduledFor : string; rbs_RemainingSeconds : Z }.

Record ProcessSignalResult : Type := mkSignalOutcome {
  sig_Message : string; sig_Exited : bool; sig_Confirmed : bool }.

Record MemoryState : Type := mkMemoryState {
  ms_MemoryTotal : Z; ms_MemoryAvailable : Z; ms_SwapTotal : Z; ms_SwapUsed : Z; ms_SwapFree : Z;
  ms_SwapResetEligible : bool; ms_SwapResetReason : string }.

Record RemoteDeployJob : Type := mkDeployJob {
  job_ID : string; job_TargetID : string; job_Action : string; job_Status : string; job_Message : string;
  job_CreatedAt : string; job_StartedAt : string; job_FinishedAt : string; job_Output : string }.
