(* ===== verification/PanelApi.v ===== *)
(** * The panel's handlers: requests, responses and calls of the hub

    A handler is a program of calls of the hub ([internal/agenthub]), of the
    audit log and of the clock, that ends with one response.  The calls answer
    what they answer, so a theorem about a handler holds whatever the hub, the
    agents and the other users of the panel do; [PanelSamples.hub_host] answers them
    from a database that other goroutines change between two calls. *)

From stdpp Require Import base strings gmap list.
From Stdlib Require Import ZArith Lia Ascii.
From S2P Require Import Prelude GoStrings GoJson GoTime GoTyped HubTypes TaskGate Profile Repository Service.
From S2P Require Import Metrics IntegrationStatus ReleaseVersion AgentTasks RemoteNodes.
Local Open Scope Z_scope.
Local Open Scope hub_scope.

(** ** Requests and responses *)

Inductive ctx_error : Type := DeadlineExceeded | Canceled.

Definition ctx_error_text (e : ctx_error) : string :=
  match e with DeadlineExceeded => "context deadline exceeded" | Canceled => "context canceled" end.

(** The roles of [internal/models]: strings, and the levels they are compared by. *)
Definition RoleAdmin_name : string := "admin".
Definition RoleManager_name : string := "manager".

Definition RoleViewer : Z := 1.
Definition RoleManager : Z := 2.
Definition RoleAdmin : Z := 3.

Definition roleLevel (role : string) : Z :=
  if role =?s RoleAdmin_name then RoleAdmin
  else if role =?s RoleManager_name then RoleManager
  else RoleViewer.

(** The user the token of a session names. *)
Record User : Type := mkUser { user_ID : Z; user_Email : string; user_Name : string; user_Role : string }.

(** What is read of a request.  [r_Segments] are the unescaped segments of the
    path; [r_PathValue] and [r_User] are what the router and the authentication
    add to it.  [r_Wait]: a wait under the request's context with that timeout
    ends after so many ticks of the poll's ticker, and why. *)
Record request : Type := mkRequest {
  r_Method : string;
  r_Path : string;
  r_Segments : list string;
  r_PathValue : string -> string;
  r_Query : string -> string;
  r_Header : string -> string;
  r_Cookie : string -> option string;
  r_RemoteAddr : string;
  r_Body : string;
  r_Wait : duration -> nat * ctx_error;
  r_User : option User
}.

(** The text of an error; the hub's own texts are not modelled. *)
Inductive text : Type := Text (s : string) | HubText (e : hub_error).

(** What a handler fails with. *)
Inductive failure : Type :=
| FHub (e : hub_error)
| FEnded (taskID : Z) (e : ctx_error)
| FText (s : string)
| FReceipt (s : string).

Definition failure_text (f : failure) : text :=
  match f with
  | FHub e => HubText e
  | FEnded id e => Text ("managed-node task " +:+ Itoa id +:+ " did not complete: " +:+ ctx_error_text e)
  | FText s | FReceipt s => Text s
  end.

Record managedNodeResponse : Type := mkNodeResponse {
  nres_Node : Node; nres_Compatibility : NodeCompatibility; nres_Online : bool }.

(** The values the handlers answer with. *)
Inductive body : Type :=
| BError (message : text)
| BStrings (m : list (string * string))
| BNull
| BValue (v : goval)
| BProcesses (processes : slice Process)
| BMemory (state : MemoryState)
| BMounts (mounts : list DiskMount)
| BActionStatus (status : ActionStatus)
| BRebootStatus (status : RebootStatus)
| BSignal (result : ProcessSignalResult)
| BJob (job : RemoteDeployJob)
| BJobs (jobs : list RemoteDeployJob)
| BEnsure (r : EnsureRemoteDeployDomainResponse)
| BNode (n : managedNodeResponse)
| BNodes (l : list managedNodeResponse)
| BTask (t : Task)
| BTasks (l : list Task)
| BPoll (t : option Task)
| BRegistered (r : RegisterNodeResponse)
| BHeartbeat (r : HeartbeatResponse)
| BProfile (r : AgentProfileResponse)
| BStatus (r : ManagedIntegrationStatusResponse)
| BMetrics (s : MetricsSnapshot).

Record response : Type := mkAnswer { rsp_Status : Z; rsp_Body : body }.

(** ** Calls *)

Inductive hub_call : Type -> Type :=
| HubEnqueue (nodeID : string) (req : TaskRequest) : hub_call (res Task)
| HubEnsure (nodeID targetID domain revision : string) : hub_call (res Task)
| HubStatus (nodeID : string) : hub_call (res Task)
| HubMetrics (nodeID : string) : hub_call (res Task)
| HubGetTask (nodeID : string) (taskID : Z) : hub_call (res Task)
| HubListTasks (nodeID : string) (limit : Z) : hub_call (res (list Task))
| HubGetNode (nodeID : string) : hub_call (res Node)
| HubListNodes : hub_call (res (list Node))
| HubOnline (node : Node) : hub_call bool
| HubRegister (req : RegisterNodeRequest) : hub_call (res RegisterNodeResponse)
| HubHeartbeat (nodeID token : string) (req : HeartbeatRequest) : hub_call (res HeartbeatResponse)
| HubPoll (nodeID token : string) : hub_call (res (option Task))
| HubComplete (nodeID token : string) (taskID : Z) (req : TaskResultRequest) : hub_call (res Task)
| HubGetProfile (nodeID : string) : hub_call (res AgentProfileResponse)
| HubUpdateProfile (nodeID : string) (profile : AgentProfile) (revision : Z) : hub_call (res AgentProfileResponse)
| HubApplyProfile (nodeID : string) (revision : Z) : hub_call (res (option Task))
| RateAllow (ip limit : string) : hub_call bool
| Audit (action details : string) : hub_call unit
| AuditFailure (action details : string) (f : failure) : hub_call unit
| Now : hub_call time.

Definition panel_prog : Type := prog hub_call response.

Notation "'call!' x := o 'in' k" := (Call o (fun x => k))
  (at level 200, x name, o at level 100, k at level 200, right associativity) : hub_scope.

Definition jsonResponse (status : Z) (data : body) : panel_prog := Ret (mkAnswer status data).
Definition jsonFailure (status : Z) (message : text) : panel_prog := jsonResponse status (BError message).
Definition jsonError (status : Z) (message : string) : panel_prog := jsonFailure status (Text message).

Definition StatusOK : Z := 200.
Definition StatusCreated : Z := 201.
Definition StatusAccepted : Z := 202.
Definition StatusBadRequest : Z := 400.
Definition StatusUnauthorized : Z := 401.
Definition StatusNotFound : Z := 404.
Definition StatusForbidden : Z := 403.
Definition StatusConflict : Z := 409.
Definition StatusRequestEntityTooLarge : Z := 413.
Definition StatusUnprocessableEntity : Z := 422.
Definition StatusTooManyRequests : Z := 429.
Definition StatusInternalServerError : Z := 500.
Definition StatusBadGateway : Z := 502.
Definition StatusGatewayTimeout : Z := 504.

Definition writeAgentHubError (e : hub_error) : panel_prog :=
  match e with
  | ErrUnauthorized => jsonError StatusUnauthorized "unauthorized"
  | ErrNotFound => jsonError StatusNotFound "not found"
  | ErrAlreadyExists => jsonError StatusConflict "node already exists"
  | ErrCapabilityUnavailable | ErrNodeOffline => jsonFailure StatusConflict (HubText e)
  | ErrInvalidInput | ErrUnsupportedProtocol | ErrStaleHeartbeat | ErrTaskNotClaimed =>
      jsonFailure StatusBadRequest (HubText e)
  | _ => jsonError StatusInternalServerError "agent hub operation failed"
  end.

(** ** Request bodies *)

(** The first JSON value of a body cut at [limit] bytes by [MaxBytesReader]: in
    a body that was cut the decoder still finds a value that shows its own end. *)
Definition first_value (limit : Z) (s : string) : option json :=
  if len s <=? limit then fst <$> parse_value (unmarshal_fuel s) s
  else
    match parse_value (unmarshal_fuel s) (stake (Z.to_nat limit) s) with
    | Some (JObj ms, _) => Some (JObj ms)
    | Some (JArr l, _) => Some (JArr l)
    | Some (j, rest) => if rest =?s "" then None else Some j
    | None => None
    end.

(** [json.NewDecoder(r.Body).Decode(&body)], without and with
    [DisallowUnknownFields]. *)
Definition decode_first (limit : Z) (t : gotype) (s : string) : option goval :=
  j ← first_value limit s; decode false t j (zero t).
Definition decode_first_known (limit : Z) (t : gotype) (s : string) : option goval :=
  j ← first_value limit s; decode true t j (zero t).

(** [decodeStrictJSON]: no unknown field and nothing but space after the value. *)
Definition decodeStrictJSON (limit : Z) (t : gotype) (s : string) : option goval :=
  if limit <? len s then None else j ← unmarshal s; decode true t j (zero t).

(** The limit the middleware puts on every body. *)
Definition maxRequestBodySize : Z := Z.shiftl 32 20.

(** ** Waiting for a task *)

Definition task_done (task : Task) : bool :=
  (task_Status task =?s TaskStatusCompleted) || (task_Status task =?s TaskStatusFailed).

(** The task is read once and then after every tick; [ticks] is how many ticks
    come before the end of the context. *)
Fixpoint wait_ticks (ticks : nat) (ended : ctx_error) (nodeID : string) (taskID : Z)
    (k : result failure Task -> panel_prog) : panel_prog :=
  call! r := HubGetTask nodeID taskID in
  match r with
  | Err e => k (Err (FHub e))
  | Ok task =>
      if task_done task then k (Ok task)
      else match ticks with
           | O => k (Err (FEnded taskID ended))
           | S ticks' => wait_ticks ticks' ended nodeID taskID k
           end
  end.

Definition waitForManagedNodeTask (r : request) (timeout : duration) (nodeID : string) (taskID : Z)
    (k : result failure Task -> panel_prog) : panel_prog :=
  wait_ticks (r_Wait r timeout).1 (r_Wait r timeout).2 nodeID taskID k.

(** The steps most handlers share: a task is queued, or the hub's error is
    answered; it is waited for, or the error is a gateway timeout; a failed task
    is answered by [failed], a completed one by [done]. *)
Definition run_task (r : request) (nodeID : string) (req : TaskRequest) (timeout : duration)
    (failed done : Task -> panel_prog) : panel_prog :=
  call! queued := HubEnqueue nodeID req in
  match queued with
  | Err e => writeAgentHubError e
  | Ok task =>
      waitForManagedNodeTask r timeout nodeID (task_ID task) (fun w =>
        match w with
        | Err f => jsonFailure StatusGatewayTimeout (failure_text f)
        | Ok task => if task_Status task =?s TaskStatusFailed then failed task else done task
        end)
  end.

Definition bad_gateway (task : Task) : panel_prog := jsonError StatusBadGateway (task_Error task).

Definition result_of (task : Task) (key : string) : string := get (task_Result task) key.

(** [json.Unmarshal([]byte(task.Result["data"]), &target)] *)
Definition with_data (t : gotype) (invalid : string) (task : Task) (k : goval -> panel_prog) : panel_prog :=
  match Unmarshal t (result_of task "data") with
  | None => jsonError StatusBadGateway invalid
  | Some v => k v
  end.

Definition payload_of (entries : list (string * string)) : gmap string string := list_to_map entries.
