(* ===== verification/RateLimit.v ===== *)
(** * Rate limits and bans per address: [internal/services/security/ratelimit.go]

    A limiter keeps, for every client address and every kind of limit, a token
    bucket, when it was last seen, its failed logins and the end of its ban; a
    goroutine forgets what was not seen for a while.  The token bucket is
    [golang.org/x/time/rate], a parameter.  Every operation holds the mutex, so
    an execution is a sequence of operations. *)

From stdpp Require Import base strings gmap list.
From Stdlib Require Import ZArith Lia Ascii.
From S2P Require Import Prelude GoStrings GoTime GoNet HubTypes PanelApi.
Local Open Scope Z_scope.
Local Open Scope hub_scope.

(** [golang.org/x/time/rate]: limiters, made with a rate and a burst, that
    answer whether an event is allowed now. *)
Class TokenBucket := {
  Rate : Type;
  Limiter : Type;
  rate_Every : duration -> Rate;
  rate_zero : Rate;
  NewLimiter : Rate -> Z -> Limiter;
  limiter_Allow : Limiter -> time -> bool * Limiter
}.

(** ** The kinds of limits *)

Definition LimitLogin : string := "login".
Definition LimitAPI : string := "api".
Definition LimitGeneral : string := "general".
Definition LimitMutate : string := "mutate".
Definition LimitWebhook : string := "webhook".

Definition Millisecond : duration := 1000000.

Section limiter.
Context `{TokenBucket}.

Record clientState : Type := mkClient {
  cs_limiter : Limiter;
  cs_lastSeen : time;
  cs_failures : Z;
  cs_bannedUntil : time
}.

Record RateLimiter : Type := mkRateLimiter {
  rl_clients : gmap string (gmap string clientState);
  rl_limits : gmap string Rate;
  rl_bursts : gmap string Z;
  rl_maxFailures : Z;
  rl_banDuration : duration;
  rl_cleanupTTL : duration
}.

Definition NewRateLimiter : RateLimiter := {|
  rl_clients := ∅;
  rl_limits := list_to_map [(LimitLogin, rate_Every (12 * Second)); (LimitAPI, rate_Every (600 * Millisecond));
                            (LimitGeneral, rate_Every (300 * Millisecond)); (LimitMutate, rate_Every (2 * Second));
                            (LimitWebhook, rate_Every (2500 * Millisecond))];
  rl_bursts := list_to_map [(LimitLogin, 5); (LimitAPI, 20); (LimitGeneral, 30); (LimitMutate, 5); (LimitWebhook, 3)];
  rl_maxFailures := 10;
  rl_banDuration := 15 * Minute;
  rl_cleanupTTL := 5 * Minute
|}.

Definition set_clients (rl : RateLimiter) (m : gmap string (gmap string clientState)) : RateLimiter :=
  mkRateLimiter m (rl_limits rl) (rl_bursts rl) (rl_maxFailures rl) (rl_banDuration rl) (rl_cleanupTTL rl).

(** The client of an address and a kind, and its update in place. *)
Definition client (rl : RateLimiter) (ip lt : string) : option clientState := rl_clients rl !! ip ≫= lookup lt.

Definition set_client (rl : RateLimiter) (ip lt : string) (cs : clientState) : RateLimiter :=
  set_clients rl (<[ip := <[lt := cs]> (default ∅ (rl_clients rl !! ip))]> (rl_clients rl)).

Definition fresh_limiter (rl : RateLimiter) (lt : string) : Limiter :=
  NewLimiter (default rate_zero (rl_limits rl !! lt)) (default 0 (rl_bursts rl !! lt)).

Definition getOrCreate (rl : RateLimiter) (ip lt : string) (created : time) : clientState :=
  match client rl ip lt with
  | Some cs => cs
  | None => mkClient (fresh_limiter rl lt) created 0 zero_time
  end.

(** What an operation reads of the clock, in this order. *)
Record readings : Type := mkReadings { at_created : time; at_checked : time; at_seen : time; at_taken : time }.

(** [!cs.bannedUntil.IsZero() && time.Now().Before(cs.bannedUntil)] *)
Definition banned (cs : clientState) (now : time) : bool :=
  negb (cs_bannedUntil cs =? zero_time) && (now <? cs_bannedUntil cs).

Definition Allow (rl : RateLimiter) (ip lt : string) (k : readings) : bool * RateLimiter :=
  let cs := getOrCreate rl ip lt (at_created k) in
  if banned cs (at_checked k) then (false, set_client rl ip lt cs)
  else
    let '(allowed, limiter) := limiter_Allow (cs_limiter cs) (at_taken k) in
    (allowed, set_client rl ip lt (mkClient limiter (at_seen k) (cs_failures cs) (cs_bannedUntil cs))).

Definition RecordFailure (rl : RateLimiter) (ip : string) (k : readings) : bool * RateLimiter :=
  let cs := getOrCreate rl ip LimitLogin (at_created k) in
  let failures := wrap_int64 (cs_failures cs + 1) in
  if rl_maxFailures rl <=? failures then
    (true, set_client rl ip LimitLogin
             (mkClient (cs_limiter cs) (at_seen k) 0 (at_taken k + rl_banDuration rl)))
  else (false, set_client rl ip LimitLogin (mkClient (cs_limiter cs) (at_seen k) failures (cs_bannedUntil cs))).

Definition RecordSuccess (rl : RateLimiter) (ip : string) : RateLimiter :=
  match client rl ip LimitLogin with
  | Some cs => set_client rl ip LimitLogin (mkClient (cs_limiter cs) (cs_lastSeen cs) 0 zero_time)
  | None => rl
  end.

Definition IsBanned (rl : RateLimiter) (ip : string) (checked until : time) : bool * duration :=
  match client rl ip LimitLogin with
  | Some cs => if banned cs checked then (true, Sub (cs_bannedUntil cs) until) else (false, 0)
  | None => (false, 0)
  end.

(** One tick of [cleanup]. *)
Definition cleanup (rl : RateLimiter) (now : time) : RateLimiter :=
  let threshold := now - rl_cleanupTTL rl in
  set_clients rl
    (omap (fun types =>
             let kept := filter (fun kv => ~ cs_lastSeen kv.2 < threshold) types in
             if bool_decide (kept = ∅) then None else Some kept) (rl_clients rl)).

(** ** Executions *)

Inductive limiter_op : Type :=
| DoAllow (ip lt : string) (k : readings)
| DoFailure (ip : string) (k : readings)
| DoSuccess (ip : string)
| DoCleanup (now : time).

Definition apply_op (rl : RateLimiter) (op : limiter_op) : RateLimiter :=
  match op with
  | DoAllow ip lt k => (Allow rl ip lt k).2
  | DoFailure ip k => (RecordFailure rl ip k).2
  | DoSuccess ip => RecordSuccess rl ip
  | DoCleanup now => cleanup rl now
  end.

Definition apply_ops : RateLimiter -> list limiter_op -> RateLimiter := foldl apply_op.
End limiter.

(** ** The address of a client *)

(** The text before the first comma of a header, as an IP address. *)
Definition header_ip (value : string) : option string :=
  if value =?s "" then None
  else (fun a => IP_String (as16 a)) <$> ParseIP (TrimSpace (default "" (head (split ","%char value)))).

Definition RealIP (r : request) : string :=
  match header_ip (r_Header r "X-Forwarded-For") with
  | Some ip => ip
  | None =>
      let real := r_Header r "X-Real-IP" in
      match (if real =?s "" then None else (fun a => IP_String (as16 a)) <$> ParseIP (TrimSpace real)) with
      | Some ip => ip
      | None => default (r_RemoteAddr r) (SplitHost (r_RemoteAddr r))
      end
  end.
