(* ===== verification/PanelNodes.v ===== *)
(** * The panel's managed-node handlers: [internal/api/handlers_remote_nodes.go]

    One definition per handler, in the order of the source.  Each reads the
    request, queues at most one task, waits for it and answers from its result. *)

From stdpp Require Import base strings gmap list.
From Stdlib Require Import ZArith Lia Ascii SpecFloat.
From S2P Require Import Prelude GoStrings GoBase64 GoJson GoTime GoTyped HubTypes TaskGate Profile Repository Service.
From S2P Require Import ReleaseVersion Metrics IntegrationStatus AgentTasks RemoteNodes PanelApi.
Local Open Scope Z_scope.
Local Open Scope hub_scope.

Definition path (r : request) (name : string) : string := r_PathValue r name.
Definition query (r : request) (name : string) : string := r_Query r name.

(** A task whose result is a message, which must not be empty; the action is
    audited and the message answered. *)
Definition with_message (task : Task) (invalid action details : string) : panel_prog :=
  let message := result_of task "message" in
  if message =?s "" then jsonError StatusBadGateway invalid
  else call! _ := Audit action details in jsonResponse StatusOK (BStrings [("message", message)]).

(** A task that inventories something: its data is answered. *)
Definition with_value (t : gotype) (invalid : string) (task : Task) : panel_prog :=
  with_data t invalid task (fun v => jsonResponse StatusOK (BValue v)).

(** ** Host actions *)

Definition handleRemoteNodeAction (r : request) : panel_prog :=
  let nodeID := path r "id" in
  let action := path r "action" in
  let details := nodeID +:+ ": " +:+ action in
  call! queued := HubEnqueue nodeID (mkTaskRequest TaskHostAction (payload_of [("action", action)])) in
  match queued with
  | Err e => call! _ := AuditFailure "remote_system_action" details (FHub e) in writeAgentHubError e
  | Ok task =>
      waitForManagedNodeTask r (6 * Minute) nodeID (task_ID task) (fun w =>
        match w with
        | Err f =>
            call! _ := AuditFailure "remote_system_action" details f in
            jsonFailure StatusGatewayTimeout (failure_text f)
        | Ok task =>
            if task_Status task =?s TaskStatusFailed then
              call! _ := AuditFailure "remote_system_action" details (FText (task_Error task)) in bad_gateway task
            else
              let message := if result_of task "message" =?s "" then "Managed-node action completed"
                             else result_of task "message" in
              call! _ := Audit "remote_system_action" (details +:+ ": " +:+ message) in
              jsonResponse (if action =?s "reboot" then StatusAccepted else StatusOK) (BStrings [("message", message)])
        end)
  end.

(** [t.UTC().Format(time.RFC3339)] *)
Definition FormatRFC3339 (t : time) : string := FormatRFC3339Nano (t - t mod Second).

Definition no_reboot : RebootStatus := mkRebootStatus false "" 0.

Definition reboot_pending (task : Task) (now : time) : RebootStatus :=
  match task_CompletedAt task with
  | None => no_reboot
  | Some completed =>
      let scheduled := completed + 10 * Second in
      let remaining := Sub scheduled now in
      if 0 <? remaining
      then mkRebootStatus true (FormatRFC3339 scheduled) (Z.quot (wrap_int64 (remaining + Second - 1)) Second)
      else no_reboot
  end.

(** The newest finished host action that schedules or cancels a reboot. *)
Fixpoint last_reboot (tasks : list Task) (now : time) : RebootStatus :=
  match tasks with
  | [] => no_reboot
  | task :: tasks' =>
      if negb (task_Kind task =?s TaskHostAction) || negb (task_Status task =?s TaskStatusCompleted)
      then last_reboot tasks' now
      else if get (task_Payload task) "action" =?s "reboot-cancel" then no_reboot
      else if get (task_Payload task) "action" =?s "reboot" then reboot_pending task now
      else last_reboot tasks' now
  end.

Definition handleRemoteNodeRebootStatus (r : request) : panel_prog :=
  call! listed := HubListTasks (path r "id") 50 in
  match listed with
  | Err e => writeAgentHubError e
  | Ok tasks => call! now := Now in jsonResponse StatusOK (BRebootStatus (last_reboot tasks now))
  end.

Definition action_in_flight (task : Task) : bool :=
  (task_Kind task =?s TaskHostAction)
  && ((task_Status task =?s TaskStatusQueued) || (task_Status task =?s TaskStatusRunning)).

Definition action_status (tasks : list Task) : ActionStatus :=
  match find action_in_flight tasks with
  | None => mkActionStatus false "" ""
  | Some task =>
      mkActionStatus true (get (task_Payload task) "action")
        (FormatRFC3339Nano (default (task_CreatedAt task) (task_StartedAt task)))
  end.

Definition handleRemoteNodeActionStatus (r : request) : panel_prog :=
  call! listed := HubListTasks (path r "id") 50 in
  match listed with
  | Err e => writeAgentHubError e
  | Ok tasks => jsonResponse StatusOK (BActionStatus (action_status tasks))
  end.

(** ** What the inventory says *)

Definition handleRemoteNodeProcesses (r : request) : panel_prog :=
  call! found := HubGetNode (path r "id") in
  match found with
  | Err e => writeAgentHubError e
  | Ok node => jsonResponse StatusOK (BProcesses (inv_Processes (node_Inventory node)))
  end.

Definition memory_state (i : Inventory) : MemoryState :=
  mkMemoryState (inv_MemoryTotal i) (inv_MemoryAvailable i) (inv_SwapTotal i) (inv_SwapUsed i) (inv_SwapFree i)
    (inv_SwapResetEligible i) (inv_SwapResetReason i).

Definition handleRemoteNodeMemory (r : request) : panel_prog :=
  call! found := HubGetNode (path r "id") in
  match found with
  | Err e => writeAgentHubError e
  | Ok node => jsonResponse StatusOK (BMemory (memory_state (node_Inventory node)))
  end.

(** [int(x)] of a [float64]: truncation; out of range the value amd64 gives. *)
Definition int_of_float (x : float64) : Z :=
  match x with
  | S754_zero _ => 0
  | S754_finite negative m e =>
      let magnitude := if 0 <=? e then Zpos m * 2 ^ e else Zpos m / 2 ^ (- e) in
      let v := if negative then - magnitude else magnitude in
      if (min_int64 <=? v) && (v <=? max_int64) then v else min_int64
  | _ => min_int64
  end.

Definition disk_mounts (i : Inventory) : list DiskMount :=
  let mounts := inv_DiskMounts i in
  if bool_decide (mounts = []) && (0 <? inv_DiskTotal i)
  then [mkDiskMount "root" (inv_DiskTotal i) (inv_DiskUsed i) (inv_DiskAvailable i)
          (int_of_float (inv_DiskUsePercent i)) "/"]
  else mounts.

Definition handleRemoteNodeDisk (r : request) : panel_prog :=
  call! found := HubGetNode (path r "id") in
  match found with
  | Err e => writeAgentHubError e
  | Ok node => jsonResponse StatusOK (BMounts (disk_mounts (node_Inventory node)))
  end.

(** ** Disk cleanup *)

Definition handleRemoteNodeDiskCleanupScan (r : request) : panel_prog :=
  run_task r (path r "id") (mkTaskRequest TaskDiskCleanupScan ∅) (90 * Second) bad_gateway
    (with_value (GSlice DiskCleanupTarget) "managed agent returned invalid disk cleanup inventory").

Definition cleanup_request : gotype := GStruct [("targets", GSlice GString); ("confirmed", GBool)].

Definition strings_of (v : option goval) : list string :=
  match v with
  | Some v => (fun x => match x with VString s => s | _ => "" end) <$> items_of v
  | None => []
  end.

Fixpoint duplicate (seen : list string) (l : list string) : option string :=
  match l with
  | [] => None
  | s :: l' => if existsb (String.eqb s) seen then Some s else duplicate (s :: seen) l'
  end.

(** One audit entry per result of the execution. *)
Fixpoint audit_cleanup (nodeID : string) (results : list goval) (k : panel_prog) : panel_prog :=
  match results with
  | [] => k
  | v :: results' =>
      let id := string_field DiskCleanupResult v "id" in
      let details :=
        if string_field DiskCleanupResult v "status" =?s "ok"
        then nodeID +:+ ": " +:+ id +:+ " reclaimed " +:+ Itoa (int_field DiskCleanupResult v "reclaimed") +:+ " bytes"
        else nodeID +:+ ": " +:+ id +:+ " failed: " +:+ string_field DiskCleanupResult v "message" in
      call! _ := Audit "remote_disk_cleanup" details in audit_cleanup nodeID results' k
  end.

Definition list_field (t : gotype) (v : goval) (name : string) : list goval :=
  match field t v name with Some l => items_of l | None => [] end.

Definition comma_char : ascii := ","%char.

Definition handleRemoteNodeDiskCleanupExecute (r : request) : panel_prog :=
  match decodeStrictJSON (Z.shiftl 8 10) cleanup_request (r_Body r) with
  | None => jsonError StatusBadRequest "invalid request body"
  | Some request =>
      if negb (bool_field cleanup_request request "confirmed")
      then jsonError StatusBadRequest "explicit remote disk cleanup confirmation is required"
      else
        let targets := strings_of (field cleanup_request request "targets") in
        if (length targets =? 0)%nat || (4 <? length targets)%nat
        then jsonError StatusBadRequest "select between 1 and 4 cleanup targets"
        else
          match duplicate [] targets with
          | Some target => jsonError StatusBadRequest ("duplicate cleanup target: " +:+ target)
          | None =>
              let nodeID := path r "id" in
              run_task r nodeID
                (mkTaskRequest TaskDiskCleanupExecute (payload_of [("targets", join comma_char targets)])) (6 * Minute)
                bad_gateway
                (fun task =>
                   with_data DiskCleanupExecution "managed agent returned an invalid disk cleanup receipt" task
                     (fun execution =>
                        audit_cleanup nodeID (list_field DiskCleanupExecution execution "results")
                          (jsonResponse StatusOK (BValue execution))))
          end
  end.

(** ** Files *)

Definition handleRemoteNodeFiles (r : request) : panel_prog :=
  run_task r (path r "id") (mkTaskRequest TaskFilesBrowse (payload_of [("path", query r "path")])) (35 * Second)
    bad_gateway (with_value (GSlice FileEntry) "managed agent returned invalid file inventory").

Definition handleRemoteNodeFileGet (r : request) : panel_prog :=
  run_task r (path r "id") (mkTaskRequest TaskFilesRead (payload_of [("path", query r "path")])) (35 * Second)
    bad_gateway (with_value FileContent "managed agent returned invalid file content").

(** [writeManagedNginxTaskError] and [writeManagedPHPTaskError]. *)
Definition config_error_status (code : string) : Z :=
  if code =?s "config_changed" then StatusConflict
  else if code =?s "config_invalid" then StatusUnprocessableEntity
  else if code =?s "config_too_large" then StatusRequestEntityTooLarge
  else StatusBadGateway.

Definition writeManagedNginxTaskError (task : Task) : panel_prog :=
  jsonError (config_error_status (result_of task "code")) (task_Error task).

Definition writeManagedPHPTaskError (task : Task) : panel_prog :=
  jsonError (config_error_status (result_of task "code")) (task_Error task).

Definition file_save_request : gotype := GStruct [("path", GString); ("content", GString); ("checksum", GString)].

Definition file_save_payload (request : goval) : gmap string string :=
  payload_of [("path", string_field file_save_request request "path");
              ("content_b64", EncodeToString (string_field file_save_request request "content"));
              ("checksum", string_field file_save_request request "checksum")].

Definition handleRemoteNodeFileSave (r : request) : panel_prog :=
  match decode_first (Z.shiftl 3 20) file_save_request (r_Body r) with
  | None => jsonError StatusBadRequest "invalid request body"
  | Some request =>
      let nodeID := path r "id" in
      run_task r nodeID (mkTaskRequest TaskFilesWrite (file_save_payload request)) (40 * Second)
        writeManagedNginxTaskError
        (fun task =>
           let backup := result_of task "backup" in
           if backup =?s "" then jsonError StatusBadGateway "managed agent returned an invalid file save receipt"
           else
             call! _ := Audit "remote_file_save" (nodeID +:+ ": " +:+ string_field file_save_request request "path") in
             jsonResponse StatusOK (BStrings [("message", "Remote file saved"); ("backup", backup)]))
  end.

(** ** Nginx *)

Definition handleRemoteNodeNginxConfigs (r : request) : panel_prog :=
  run_task r (path r "id") (mkTaskRequest TaskNginxConfigList ∅) (35 * Second) writeManagedNginxTaskError
    (with_value (GSlice NginxConfig) "managed agent returned invalid Nginx configuration inventory").

Definition handleRemoteNodeNginxConfigGet (r : request) : panel_prog :=
  run_task r (path r "id") (mkTaskRequest TaskNginxConfigRead (payload_of [("name", path r "name")])) (35 * Second)
    writeManagedNginxTaskError (with_value NginxConfig "managed agent returned invalid Nginx configuration").

Definition config_save_request : gotype := GStruct [("content", GString); ("checksum", GString); ("reload", GBool)].

Definition config_save_payload (names : list (string * string)) (request : goval) : gmap string string :=
  payload_of (names ++ [("content_b64", EncodeToString (string_field config_save_request request "content"));
                        ("checksum", string_field config_save_request request "checksum");
                        ("reload", FormatBool (bool_field config_save_request request "reload"))]).

(** A saved configuration: the receipt has a message and a backup. *)
Definition with_backup (task : Task) (invalid action details : string) : panel_prog :=
  if (result_of task "message" =?s "") || (result_of task "backup" =?s "") then jsonError StatusBadGateway invalid
  else call! _ := Audit action details in
       jsonResponse StatusOK (BStrings [("message", result_of task "message"); ("backup", result_of task "backup")]).

Definition handleRemoteNodeNginxConfigSave (r : request) : panel_prog :=
  match decode_first (Z.shiftl 5 20) config_save_request (r_Body r) with
  | None => jsonError StatusBadRequest "invalid request body"
  | Some request =>
      let nodeID := path r "id" in
      let name := path r "name" in
      run_task r nodeID (mkTaskRequest TaskNginxConfigWrite (config_save_payload [("name", name)] request))
        (100 * Second) writeManagedNginxTaskError
        (fun task => with_backup task "managed agent returned an invalid Nginx save receipt"
                       "remote_nginx_config_save" (nodeID +:+ ": " +:+ name))
  end.

Definition handleRemoteNodeNginxAction (r : request) : panel_prog :=
  let nodeID := path r "id" in
  let action := path r "action" in
  run_task r nodeID (mkTaskRequest TaskNginxAction (payload_of [("action", action)])) (50 * Second) bad_gateway
    (fun task => with_message task "managed agent returned an invalid Nginx action receipt"
                   "remote_nginx_action" (nodeID +:+ ": " +:+ action)).

(** ** Domains and certificates *)

Definition handleRemoteNodeDomains (r : request) : panel_prog :=
  run_task r (path r "id") (mkTaskRequest TaskDomainInventory ∅) (35 * Second) bad_gateway
    (with_value (GSlice Domain) "managed agent returned invalid domain inventory").

Definition handleRemoteNodeDomainAction (r : request) : panel_prog :=
  let nodeID := path r "id" in
  let config := path r "config" in
  let action := path r "action" in
  run_task r nodeID (mkTaskRequest TaskDomainAction (payload_of [("config", config); ("action", action)]))
    (60 * Second) writeManagedNginxTaskError
    (fun task => with_message task "managed agent returned an invalid domain action receipt"
                   "remote_domain_action" (nodeID +:+ ": " +:+ config +:+ " " +:+ action)).

Definition handleRemoteNodeCertificates (r : request) : panel_prog :=
  run_task r (path r "id") (mkTaskRequest TaskSSLInventory ∅) (35 * Second) bad_gateway
    (with_value (GSlice Certificate) "managed agent returned invalid SSL certificate inventory").

Definition handleRemoteNodeCertificateAction (r : request) : panel_prog :=
  let nodeID := path r "id" in
  let name := path r "name" in
  let action := path r "action" in
  run_task r nodeID (mkTaskRequest TaskSSLAction (payload_of [("name", name); ("action", action)]))
    (if action =?s "renew" then 16 * Minute else 60 * Second) bad_gateway
    (fun task => with_message task "managed agent returned an invalid SSL certificate action receipt"
                   "remote_certificate_action" (nodeID +:+ ": " +:+ name +:+ " " +:+ action)).

(** ** PHP-FPM and PM2 *)

Definition handleRemoteNodePHPFPM (r : request) : panel_prog :=
  run_task r (path r "id") (mkTaskRequest TaskPHPInventory ∅) (35 * Second) writeManagedPHPTaskError
    (with_value (GSlice PHPFPMVersion) "managed agent returned invalid PHP-FPM inventory").

Definition handleRemoteNodePHPFPMConfigGet (r : request) : panel_prog :=
  run_task r (path r "id")
    (mkTaskRequest TaskPHPConfigRead (payload_of [("version", path r "version"); ("pool", path r "pool")]))
    (35 * Second) writeManagedPHPTaskError
    (with_value FileContent "managed agent returned invalid PHP-FPM configuration").

Definition handleRemoteNodePHPFPMConfigSave (r : request) : panel_prog :=
  match decode_first (Z.shiftl 5 20) config_save_request (r_Body r) with
  | None => jsonError StatusBadRequest "invalid request body"
  | Some request =>
      let nodeID := path r "id" in
      let version := path r "version" in
      let pool := path r "pool" in
      run_task r nodeID
        (mkTaskRequest TaskPHPConfigWrite (config_save_payload [("version", version); ("pool", pool)] request))
        (100 * Second) writeManagedPHPTaskError
        (fun task => with_backup task "managed agent returned an invalid PHP-FPM save receipt"
                       "remote_php_fpm_config_save" (nodeID +:+ ": PHP " +:+ version +:+ " " +:+ pool))
  end.

Definition handleRemoteNodePHPFPMAction (r : request) : panel_prog :=
  let nodeID := path r "id" in
  let version := path r "version" in
  let action := path r "action" in
  run_task r nodeID (mkTaskRequest TaskPHPAction (payload_of [("version", version); ("action", action)]))
    (100 * Second) writeManagedPHPTaskError
    (fun task => with_message task "managed agent returned an invalid PHP-FPM action receipt"
                   "remote_php_fpm_action" (nodeID +:+ ": PHP " +:+ version +:+ " " +:+ action)).

Definition handleRemoteNodePM2 (r : request) : panel_prog :=
  run_task r (path r "id") (mkTaskRequest TaskPM2List ∅) (35 * Second) bad_gateway
    (with_value (GSlice PM2Process) "managed agent returned invalid PM2 inventory").

Definition handleRemoteNodePM2Action (r : request) : panel_prog :=
  let nodeID := path r "id" in
  let name := path r "name" in
  let action := path r "action" in
  run_task r nodeID (mkTaskRequest TaskPM2Action (payload_of [("name", name); ("action", action)]))
    (100 * Second) bad_gateway
    (fun task => with_message task "managed agent returned an invalid PM2 action receipt"
                   "remote_pm2_action" (nodeID +:+ ": " +:+ name +:+ " " +:+ action)).

(** The number of lines a reader asks for, between 1 and 500. *)
Definition requested_lines (r : request) : Z :=
  let lines := Atoi_value (query r "lines") in
  let lines := if lines <? 1 then 200 else lines in
  if 500 <? lines then 500 else lines.

(** A result whose data is one JSON string. *)
Definition with_text (invalid : string) (task : Task) (k : string -> panel_prog) : panel_prog :=
  with_data GString invalid task (fun v => k (match v with VString s => s | _ => "" end)).

Definition handleRemoteNodePM2Logs (r : request) : panel_prog :=
  run_task r (path r "id")
    (mkTaskRequest TaskPM2Logs (payload_of [("name", path r "name"); ("lines", Itoa (requested_lines r))]))
    (35 * Second) bad_gateway
    (fun task => with_text "managed agent returned invalid PM2 logs" task
                   (fun logs => jsonResponse StatusOK (BStrings [("logs", logs)]))).

(** ** Cron *)

Definition writeManagedCronTaskError (task : Task) : panel_prog :=
  let code := result_of task "code" in
  jsonError (if code =?s "cron_changed" then StatusConflict
             else if code =?s "cron_not_found" then StatusNotFound
             else if code =?s "cron_invalid" then StatusUnprocessableEntity
             else StatusBadGateway) (task_Error task).

Definition handleRemoteNodeCronList (r : request) : panel_prog :=
  run_task r (path r "id") (mkTaskRequest TaskCronInventory ∅) (35 * Second) writeManagedCronTaskError
    (with_value RemoteCronInventory "managed agent returned invalid cron inventory").

Definition cron_request : gotype := GStruct (RemoteCronJob_fields ++ [("revision", GString)]).

Definition omit_empty (name s : string) : list (string * json) := if s =?s "" then [] else [(name, jstr s)].

(** [json.Marshal(job)] *)
Definition cron_job_text (request : goval) (id : string) : string :=
  marshal (JObj ([("id", jstr id);
                  ("schedule", jstr (string_field cron_request request "schedule"));
                  ("user", jstr (string_field cron_request request "user"));
                  ("command", jstr (string_field cron_request request "command"))]
                 ++ omit_empty "description" (string_field cron_request request "description")
                 ++ [("enabled", JBool (bool_field cron_request request "enabled"))])).

Definition cron_payload (request : goval) (id : string) : gmap string string :=
  payload_of [("job_b64", EncodeToString (cron_job_text request id));
              ("revision", string_field cron_request request "revision")].

Definition decodeRemoteCronJob (r : request) : option goval := decode_first (Z.shiftl 16 10) cron_request (r_Body r).

(** A created thing: the receipt has an identifier and a message. *)
Definition with_id (task : Task) (invalid action nodeID : string) : panel_prog :=
  let id := result_of task "id" in
  if (id =?s "") || (result_of task "message" =?s "") then jsonError StatusBadGateway invalid
  else call! _ := Audit action (nodeID +:+ ": " +:+ id) in
       jsonResponse StatusCreated (BStrings [("id", id); ("message", result_of task "message")]).

Definition handleRemoteNodeCronCreate (r : request) : panel_prog :=
  match decodeRemoteCronJob r with
  | None => jsonError StatusBadRequest "invalid request body"
  | Some request =>
      let nodeID := path r "id" in
      run_task r nodeID
        (mkTaskRequest TaskCronCreate (cron_payload request (string_field cron_request request "id"))) (50 * Second)
        writeManagedCronTaskError
        (fun task => with_id task "managed agent returned an invalid cron create receipt" "remote_cron_create" nodeID)
  end.

(** The message of a receipt is answered whatever it is. *)
Definition audited_message (task : Task) (action details : string) : panel_prog :=
  call! _ := Audit action details in
  jsonResponse StatusOK (BStrings [("message", result_of task "message")]).

Definition handleRemoteNodeCronUpdate (r : request) : panel_prog :=
  match decodeRemoteCronJob r with
  | None => jsonError StatusBadRequest "invalid request body"
  | Some request =>
      let nodeID := path r "id" in
      let id := path r "job" in
      run_task r nodeID (mkTaskRequest TaskCronUpdate (cron_payload request id)) (50 * Second)
        writeManagedCronTaskError
        (fun task => audited_message task "remote_cron_update" (nodeID +:+ ": " +:+ id))
  end.

Definition revision_request : gotype := GStruct [("revision", GString)].

Definition revision_of (request : goval) : string := string_field revision_request request "revision".

Definition handleRemoteNodeCronDelete (r : request) : panel_prog :=
  match decode_first (Z.shiftl 4 10) revision_request (r_Body r) with
  | None => jsonError StatusBadRequest "invalid request body"
  | Some request =>
      let nodeID := path r "id" in
      let id := path r "job" in
      run_task r nodeID
        (mkTaskRequest TaskCronDelete (payload_of [("id", id); ("revision", revision_of request)])) (50 * Second)
        writeManagedCronTaskError
        (fun task => audited_message task "remote_cron_delete" (nodeID +:+ ": " +:+ id))
  end.

Definition handleRemoteNodeCronRun (r : request) : panel_prog :=
  let nodeID := path r "id" in
  let id := path r "job" in
  run_task r nodeID (mkTaskRequest TaskCronRun (payload_of [("id", id)])) (140 * Second) writeManagedCronTaskError
    (fun task =>
       with_text "managed agent returned invalid cron output" task (fun output =>
         call! _ := Audit "remote_cron_run" (nodeID +:+ ": " +:+ id) in
         jsonResponse StatusOK (BStrings [("message", result_of task "message"); ("output", output)]))).

(** ** Firewall *)

Definition writeManagedFirewallTaskError (task : Task) : panel_prog :=
  let code := result_of task "code" in
  jsonError (if code =?s "firewall_changed" then StatusConflict
             else if code =?s "firewall_not_found" then StatusNotFound
             else if (code =?s "firewall_invalid") || (code =?s "firewall_protected") then StatusUnprocessableEntity
             else StatusBadGateway) (task_Error task).

Definition handleRemoteNodeFirewallList (r : request) : panel_prog :=
  run_task r (path r "id") (mkTaskRequest TaskFirewallInventory ∅) (35 * Second) writeManagedFirewallTaskError
    (with_value RemoteFirewallInventory "managed agent returned invalid firewall inventory").

Definition firewall_request : gotype :=
  GStruct [("action", GString); ("protocol", GString); ("port", GInt); ("source", GString); ("comment", GString);
           ("revision", GString)].

Definition firewall_rule_text (request : goval) : string :=
  let port := int_field firewall_request request "port" in
  marshal (JObj ([("action", jstr (string_field firewall_request request "action"));
                  ("protocol", jstr (string_field firewall_request request "protocol"))]
                 ++ (if port =? 0 then [] else [("port", JNum (Itoa port))])
                 ++ omit_empty "source" (string_field firewall_request request "source")
                 ++ omit_empty "comment" (string_field firewall_request request "comment"))).

Definition firewall_payload (request : goval) : gmap string string :=
  payload_of [("rule_b64", EncodeToString (firewall_rule_text request));
              ("revision", string_field firewall_request request "revision")].

Definition handleRemoteNodeFirewallAdd (r : request) : panel_prog :=
  match decode_first (Z.shiftl 16 10) firewall_request (r_Body r) with
  | None => jsonError StatusBadRequest "invalid request body"
  | Some request =>
      let nodeID := path r "id" in
      run_task r nodeID (mkTaskRequest TaskFirewallAdd (firewall_payload request)) (50 * Second)
        writeManagedFirewallTaskError
        (fun task => with_id task "managed agent returned an invalid firewall add receipt" "remote_firewall_add" nodeID)
  end.

Definition handleRemoteNodeFirewallDelete (r : request) : panel_prog :=
  match decode_first (Z.shiftl 4 10) revision_request (r_Body r) with
  | None => jsonError StatusBadRequest "invalid request body"
  | Some request =>
      let nodeID := path r "id" in
      let id := path r "rule" in
      run_task r nodeID
        (mkTaskRequest TaskFirewallDelete (payload_of [("id", id); ("revision", revision_of request)])) (50 * Second)
        writeManagedFirewallTaskError
        (fun task => audited_message task "remote_firewall_delete" (nodeID +:+ ": " +:+ id))
  end.

(** ** Databases and backups *)

Definition handleRemoteNodeDatabases (r : request) : panel_prog :=
  run_task r (path r "id") (mkTaskRequest TaskDatabaseInventory ∅) (50 * Second) bad_gateway
    (with_value (GSlice RemoteDatabaseEngine) "managed agent returned invalid database inventory").

Definition handleRemoteNodeDatabaseAction (r : request) : panel_prog :=
  let nodeID := path r "id" in
  let engine := path r "engine" in
  let action := path r "action" in
  run_task r nodeID (mkTaskRequest TaskDatabaseAction (payload_of [("engine", engine); ("action", action)]))
    (130 * Second) bad_gateway
    (fun task => with_message task "managed agent returned an invalid database action receipt"
                   "remote_database_action" (nodeID +:+ ": " +:+ engine +:+ " " +:+ action)).

Definition handleRemoteNodeBackups (r : request) : panel_prog :=
  run_task r (path r "id") (mkTaskRequest TaskBackupInventory ∅) (125 * Second) bad_gateway
    (with_value (GSlice RemoteBackupPlan) "managed agent returned invalid backup inventory").

Definition handleRemoteNodeBackupRun (r : request) : panel_prog :=
  let nodeID := path r "id" in
  let plan := path r "plan" in
  run_task r nodeID (mkTaskRequest TaskBackupRun (payload_of [("plan", plan)])) (21 * Minute) bad_gateway
    (fun task => with_message task "managed agent returned an invalid backup receipt"
                   "remote_backup_run" (nodeID +:+ ": " +:+ plan)).

(** ** Deployments *)

Definition optional_stamp (t : option time) : string :=
  match t with Some t => FormatRFC3339Nano t | None => "" end.

Definition remoteDeployJobFromTask (task : Task) : RemoteDeployJob :=
  let status := task_Status task in
  mkDeployJob ("task-" +:+ Itoa (task_ID task)) (get (task_Payload task) "target") (get (task_Payload task) "action")
    status
    (if status =?s TaskStatusRunning then "Running on managed node"
     else if status =?s TaskStatusCompleted then result_of task "message"
     else if status =?s TaskStatusFailed then task_Error task
     else "Queued on managed node")
    (FormatRFC3339Nano (task_CreatedAt task)) (optional_stamp (task_StartedAt task))
    (optional_stamp (task_CompletedAt task)) (TrimSpace (result_of task "output")).

Definition handleRemoteNodeDeployTargets (r : request) : panel_prog :=
  run_task r (path r "id") (mkTaskRequest TaskDeployInventory ∅) (35 * Second) bad_gateway
    (with_value (GSlice RemoteDeployTarget) "managed agent returned invalid deploy inventory").

Definition handleRemoteNodeDeployAction (r : request) : panel_prog :=
  let nodeID := path r "id" in
  let targetID := path r "target" in
  let action := path r "action" in
  let details := nodeID +:+ ": " +:+ targetID +:+ " " +:+ action in
  call! queued :=
    HubEnqueue nodeID (mkTaskRequest TaskDeployAction (payload_of [("target", targetID); ("action", action)])) in
  match queued with
  | Err e => call! _ := Audit "remote_deploy_action" (details +:+ " enqueue failed") in writeAgentHubError e
  | Ok task =>
      let job := remoteDeployJobFromTask task in
      call! _ := Audit "remote_deploy_action" (details +:+ " queued as " +:+ job_ID job) in
      jsonResponse StatusAccepted (BJob job)
  end.

(** The newest 20 deployments. *)
Definition deploy_jobs (tasks : list Task) : list RemoteDeployJob :=
  take 20 (remoteDeployJobFromTask <$> filter (fun t => (task_Kind t =?s TaskDeployAction) = true) tasks).

Definition handleRemoteNodeDeployJobs (r : request) : panel_prog :=
  call! listed := HubListTasks (path r "id") 50 in
  match listed with
  | Err e => writeAgentHubError e
  | Ok tasks => jsonResponse StatusOK (BJobs (deploy_jobs tasks))
  end.

(** ** Journals, containers and processes *)

Definition handleRemoteNodeLogs (r : request) : panel_prog :=
  run_task r (path r "id")
    (mkTaskRequest TaskLogsRead (payload_of [("source", query r "source"); ("lines", Itoa (requested_lines r))]))
    (30 * Second) bad_gateway (with_value (GSlice LogEntry) "managed agent returned invalid journal data").

Definition handleRemoteNodeContainers (r : request) : panel_prog :=
  run_task r (path r "id") (mkTaskRequest TaskContainerList ∅) (30 * Second) bad_gateway
    (with_value (GSlice Container) "managed agent returned invalid container inventory").

Definition handleRemoteNodeContainerAction (r : request) : panel_prog :=
  let nodeID := path r "id" in
  let container := path r "container" in
  let action := path r "action" in
  run_task r nodeID (mkTaskRequest TaskContainerAction (payload_of [("container", container); ("action", action)]))
    (100 * Second) bad_gateway
    (fun task => with_message task "managed agent returned an invalid container action receipt"
                   "remote_container_action" (nodeID +:+ ": " +:+ container +:+ " " +:+ action)).

Definition signal_request : gotype := GStruct [("pid", GInt); ("startTime", GUint64); ("signal", GString)].

Definition signal_payload (request : goval) : gmap string string :=
  payload_of [("pid", Itoa (int_field signal_request request "pid"));
              ("start_time", Itoa (int_field signal_request request "startTime"));
              ("signal", string_field signal_request request "signal")].

(** [v, _ = strconv.ParseBool(s)] *)
Definition bool_or_false (s : string) : bool := default false (ParseBool s).

Definition handleRemoteNodeProcessSignal (r : request) : panel_prog :=
  match decode_first maxRequestBodySize signal_request (r_Body r) with
  | None => jsonError StatusBadRequest "invalid request body"
  | Some request =>
      let nodeID := path r "id" in
      let details := nodeID +:+ ": PID " +:+ Itoa (int_field signal_request request "pid") +:+ " start "
                     +:+ Itoa (int_field signal_request request "startTime") +:+ " signal "
                     +:+ string_field signal_request request "signal" in
      call! queued := HubEnqueue nodeID (mkTaskRequest TaskProcessSignal (signal_payload request)) in
      match queued with
      | Err e => call! _ := AuditFailure "remote_process_signal" details (FHub e) in writeAgentHubError e
      | Ok task =>
          waitForManagedNodeTask r (30 * Second) nodeID (task_ID task) (fun w =>
            match w with
            | Err f =>
                call! _ := AuditFailure "remote_process_signal" details f in
                jsonFailure StatusGatewayTimeout (failure_text f)
            | Ok task =>
                if task_Status task =?s TaskStatusFailed then
                  call! _ := AuditFailure "remote_process_signal" details (FText (task_Error task)) in bad_gateway task
                else
                  let exited := bool_or_false (result_of task "exited") in
                  let confirmed := bool_or_false (result_of task "confirmed") in
                  let outcome := if exited then "exited" else if negb confirmed then "unconfirmed" else "still-running" in
                  call! _ := Audit "remote_process_signal" (details +:+ " outcome " +:+ outcome) in
                  jsonResponse StatusOK (BSignal (mkSignalOutcome (result_of task "message") exited confirmed))
            end)
      end
  end.
