(* ===== verification/PanelDomains.v ===== *)
(** * The panel's project-domain handlers: [internal/api/handlers_remote_nodes.go]

    The domains a managed node's deployments are reached under.  The answers of
    the agent are checked before they are shown; the receipt of an [ensure] is
    decoded strictly.  [net/mail.ParseAddress] is a parameter: the name and the
    address of an RFC 5322 address. *)

From stdpp Require Import base strings gmap list.
From Stdlib Require Import ZArith Lia Ascii.
From S2P Require Import Prelude GoStrings GoJson GoTime GoTyped HubTypes TaskGate Profile Repository Service.
From S2P Require Import ReleaseVersion Metrics IntegrationStatus AgentTasks RemoteNodes PanelApi PanelNodes.
Local Open Scope Z_scope.
Local Open Scope hub_scope.

(** [strings.TrimSuffix(s, ".")] *)
Definition TrimDot (s : string) : string := if HasSuffix s "." then stake (String.length s - 1) s else s.

Definition local_upstream : string := "http://127.0.0.1:".

Section domains.
Context `{UnicodeTables} `{LowerTable}.

Definition normal_domain (domain : string) : string := ToLower (TrimDot (TrimSpace domain)).

(** ** Validation of the answers *)

Definition port_ok (port : Z) : bool := (1 <=? port) && (port <=? 65535).

Definition tls_states : list string := ["not_configured"; "healthy"; "expiring"; "expired"; "unavailable"].

Definition validRemoteDeployDomain (domain : goval) (targetID expectedDomain : string) : bool :=
  let text := string_field RemoteDeployDomain domain in
  let number := int_field RemoteDeployDomain domain in
  if negb (text "target_id" =?s targetID) || negb (text "domain" =?s expectedDomain)
     || negb (port_ok (number "host_port")) || negb (port_ok (number "desired_host_port")) then false
  else if negb (is_Ok (ValidateTaskRequest (mkTaskRequest TaskDeployDomainHealth
                   (payload_of [("target", targetID); ("domain", text "domain")])))) then false
  else if negb (text "upstream" =?s local_upstream +:+ Itoa (number "host_port")) then false
  else if negb (text "status" =?s "active") && negb (text "status" =?s "drifted") then false
  else existsb (String.eqb (text "tls_status")) tls_states.

Definition validRemoteDeployDomainHealth (health : goval) (expectedDomain : string) : bool :=
  let text := string_field RemoteDeployDomainHealth health in
  let code := int_field RemoteDeployDomainHealth health "status_code" in
  if negb (text "domain" =?s expectedDomain) || negb (HasPrefix (text "upstream") local_upstream)
     || (int_field RemoteDeployDomainHealth health "latency_ms" <? 0) then false
  else
    match Atoi (sdrop (String.length local_upstream) (text "upstream")), ParseRFC3339 (text "checked_at") with
    | Some port, Some _ =>
        if negb (port_ok port) then false
        else if text "status" =?s "healthy" then (200 <=? code) && (code <? 400)
        else if text "status" =?s "unhealthy" then
          (100 <=? code) && (code <=? 599) && ((code <? 200) || (400 <=? code))
        else if text "status" =?s "unavailable" then code =? 0
        else false
    | _, _ => false
    end.

Definition validRemoteDeployDomainRevision (value : string) : bool :=
  (len value =? 64)
  && forallb (fun c => ((48 <=? byte c) && (byte c <=? 57)) || ((97 <=? byte c) && (byte c <=? 102))) (chars value).

(** ** Listing and health *)

Definition handleRemoteNodeDeployDomains (r : request) : panel_prog :=
  let targetID := path r "target" in
  let invalid := "managed agent returned invalid project domain inventory" in
  run_task r (path r "id") (mkTaskRequest TaskDeployDomainInventory (payload_of [("target", targetID)])) (40 * Second)
    bad_gateway
    (fun task =>
       with_data (GSlice RemoteDeployDomain) invalid task (fun domains =>
         if forallb (fun d => validRemoteDeployDomain d targetID (string_field RemoteDeployDomain d "domain"))
              (items_of domains)
         then jsonResponse StatusOK (BValue domains)
         else jsonError StatusBadGateway invalid)).

Definition handleRemoteNodeDeployDomainHealth (r : request) : panel_prog :=
  let targetID := path r "target" in
  let domain := path r "domain" in
  let invalid := "managed agent returned invalid project domain health" in
  run_task r (path r "id")
    (mkTaskRequest TaskDeployDomainHealth (payload_of [("target", targetID); ("domain", domain)])) (45 * Second)
    bad_gateway
    (fun task =>
       with_data RemoteDeployDomainHealth invalid task (fun health =>
         if validRemoteDeployDomainHealth health domain then jsonResponse StatusOK (BValue health)
         else jsonError StatusBadGateway invalid)).

(** ** Actions *)

Definition receipt_invalid : string := "managed agent returned an invalid project domain receipt".

(** How [runRemoteDeployDomainAction] fails: the task is refused, it fails or
    is not waited for to its end, or its receipt is invalid. *)
Inductive action_failure : Type :=
| ARefused (e : hub_error)
| AEnded (f : failure)
| AFailed (task : Task)
| AReceipt.

Definition writeRemoteDeployDomainActionError (f : action_failure) : panel_prog :=
  match f with
  | AReceipt => jsonError StatusBadGateway receipt_invalid
  | AFailed task => bad_gateway task
  | AEnded f => jsonFailure StatusGatewayTimeout (failure_text f)
  | ARefused ErrInvalidInput => jsonFailure StatusBadRequest (HubText ErrInvalidInput)
  | ARefused e => writeAgentHubError e
  end.

Definition runRemoteDeployDomainAction (r : request) (action domain email : string) (timeout : duration)
    (k : result action_failure (option goval) -> panel_prog) : panel_prog :=
  let nodeID := path r "id" in
  let targetID := path r "target" in
  let name := normal_domain domain in
  let payload := payload_of ([("target", targetID); ("domain", name); ("action", action)]
                             ++ (if email =?s "" then [] else [("email", email)])) in
  let details := nodeID +:+ ": " +:+ targetID +:+ " " +:+ name +:+ " " +:+ action in
  call! queued := HubEnqueue nodeID (mkTaskRequest TaskDeployDomainAction payload) in
  match queued with
  | Err e => k (Err (ARefused e))
  | Ok task =>
      call! _ := Audit "remote_deploy_domain_action" (details +:+ " queued") in
      waitForManagedNodeTask r timeout nodeID (task_ID task) (fun w =>
        match w with
        | Err f => call! _ := AuditFailure "remote_deploy_domain_action" details f in k (Err (AEnded f))
        | Ok task =>
            if task_Status task =?s TaskStatusFailed then
              call! _ := AuditFailure "remote_deploy_domain_action" details (FText (task_Error task)) in
              k (Err (AFailed task))
            else if action =?s "delete" then
              call! _ := Audit "remote_deploy_domain_action" (details +:+ " completed") in k (Ok None)
            else
              match Unmarshal RemoteDeployDomain (result_of task "data") with
              | None => k (Err AReceipt)
              | Some v =>
                  if negb (validRemoteDeployDomain v targetID name) then k (Err AReceipt)
                  else call! _ := Audit "remote_deploy_domain_action" (details +:+ " completed") in k (Ok (Some v))
              end
        end)
  end.

(** The domain of a successful action. *)
Definition answer_domain (status : Z) (a : result action_failure (option goval)) : panel_prog :=
  match a with
  | Err f => writeRemoteDeployDomainActionError f
  | Ok (Some v) => jsonResponse status (BValue v)
  | Ok None => jsonResponse status BNull
  end.

Definition handleRemoteNodeDeployDomainCreate (r : request) : panel_prog :=
  match decode_first_known (Z.shiftl 8 10) CreateRemoteDeployDomainRequest (r_Body r) with
  | None => jsonError StatusBadRequest "invalid JSON"
  | Some request =>
      runRemoteDeployDomainAction r "create" (string_field CreateRemoteDeployDomainRequest request "domain") ""
        (75 * Second) (answer_domain StatusCreated)
  end.

Definition handleRemoteNodeDeployDomainDelete (r : request) : panel_prog :=
  runRemoteDeployDomainAction r "delete" (path r "domain") "" (75 * Second) (fun a =>
    match a with
    | Err f => writeRemoteDeployDomainActionError f
    | Ok _ => jsonResponse StatusOK (BStrings [("message", "Managed project domain removed")])
    end).

Definition handleRemoteNodeDeployDomainTLSEnable (ParseAddress : string -> option (string * string)) (r : request)
    : panel_prog :=
  match decode_first_known (Z.shiftl 8 10) EnableRemoteDeployDomainTLSRequest (r_Body r) with
  | None => jsonError StatusBadRequest "invalid JSON"
  | Some request =>
      let email := TrimSpace (string_field EnableRemoteDeployDomainTLSRequest request "email") in
      let valid := match ParseAddress email with
                   | Some (name, address) => (address =?s email) && (name =?s "")
                   | None => false
                   end in
      if negb (email =?s "") && negb valid then jsonError StatusBadRequest "invalid ACME account email"
      else runRemoteDeployDomainAction r "tls-enable" (path r "domain") email (6 * Minute) (answer_domain StatusOK)
  end.

Definition handleRemoteNodeDeployDomainTLSAction (action : string) (r : request) : panel_prog :=
  runRemoteDeployDomainAction r action (path r "domain") "" (6 * Minute) (answer_domain StatusOK).

(** ** Ensure *)

(** [decodeStrictJSONObjectFields]: an object without duplicate members whose
    names are all allowed. *)
Definition decodeStrictJSONObjectFields (allowed : list string) (j : json) : option (gmap string json) :=
  match strict_object j with
  | Ok fields => if only_fields allowed fields then Some fields else None
  | Err _ => None
  end.

(** [decodeJSONField]: [null] is refused. *)
Definition decodeJSONField {A} (into : json -> A -> option A) (old : A) (raw : json) : option A :=
  if isJSONNull raw then None else into raw old.

Definition decodeRemoteDeployDomainEnsureRequest (s : string) : option EnsureRemoteDeployDomainRequest :=
  if Z.shiftl 8 10 <? len s then None
  else
    j ← unmarshal s;
    fields ← decodeStrictJSONObjectFields ["expected_revision"; "confirmed"] j;
    raw ← fields !! "confirmed";
    confirmed ← decodeJSONField into_bool false raw;
    if negb confirmed then None
    else
      match fields !! "expected_revision" with
      | None => Some (mkEnsureRequest "absent" confirmed)
      | Some raw =>
          revision ← decodeJSONField into_string "" raw;
          if negb (revision =?s "absent") && negb (validRemoteDeployDomainRevision revision) then None
          else Some (mkEnsureRequest revision confirmed)
      end.

Definition remoteDeployDomainPathValues (r : request) : string * string * string :=
  (if path r "node_id" =?s "" then path r "id" else path r "node_id",
   if path r "target_id" =?s "" then path r "target" else path r "target_id",
   path r "domain").

Definition writeRemoteDeployDomainEnsureEnqueueError (e : hub_error) : panel_prog :=
  match e with
  | ErrInvalidInput => jsonError StatusBadRequest "invalid_request"
  | ErrDeployDomainEnsureConflict => jsonError StatusConflict "domain_conflict"
  | ErrCapabilityUnavailable => jsonError StatusConflict "capability"
  | ErrNodeOffline => jsonError StatusConflict "offline"
  | _ => writeAgentHubError e
  end.

Definition conflict_codes : list string :=
  ["stale"; "stale_observation"; "domain_drift"; "domain_conflict"; "offline"; "capability"; "capability_unavailable"].

Definition gateway_codes : list string :=
  ["nginx_test"; "nginx_test_failed"; "nginx_reload"; "nginx_reload_failed"; "nginx_rollback";
   "nginx_rollback_failed"; "invalid_receipt"; "domain_cleanup_failed"; "domain_observation_failed";
   "domain_operation_failed"; "domain_operation"].

Definition ensureFailureResponseCode (code : string) : string :=
  if code =?s "stale_observation" then "stale"
  else if code =?s "capability_unavailable" then "capability"
  else code.

(** The answer to a failed ensure task. *)
Definition ensure_failed (task : Task) : panel_prog :=
  let code := if result_of task "code" =?s "" then task_Error task else result_of task "code" in
  if existsb (String.eqb code) conflict_codes then jsonError StatusConflict (ensureFailureResponseCode code)
  else if code =?s "invalid_local_plan" then jsonError StatusUnprocessableEntity code
  else if existsb (String.eqb code) gateway_codes then jsonError StatusBadGateway (ensureFailureResponseCode code)
  else if code =?s "timeout" then jsonError StatusGatewayTimeout "timeout"
  else jsonError StatusBadGateway "remote_failure".

Definition ensure_ended (f : failure) : panel_prog :=
  match f with
  | FEnded _ _ => jsonError StatusGatewayTimeout "timeout"
  | _ => jsonError StatusBadGateway "remote_failure"
  end.

Definition required_observation : list string :=
  ["target_id"; "domain"; "host_port"; "desired_host_port"; "upstream"; "status"; "message"; "tls_status";
   "tls_message"; "enabled"; "revision"].

Definition ensure_observation (raw : json) (targetID domain : string) : result string goval :=
  match decodeStrictJSONObjectFields RemoteDeployDomain_names raw with
  | None => Err "invalid ensure observation object"
  | Some fields =>
      if negb (forallb (fun name => bool_decide (is_Some (fields !! name))) required_observation)
      then Err "incomplete ensure observation"
      else if existsb (fun kv => isJSONNull kv.2) (map_to_list fields) then Err "null ensure observation field"
      else
        match decode false RemoteDeployDomain raw (zero RemoteDeployDomain) with
        | None => Err "invalid ensure observation"
        | Some observation =>
            if validRemoteDeployDomain observation targetID domain
               && (string_field RemoteDeployDomain observation "status" =?s "active")
               && bool_field RemoteDeployDomain observation "enabled"
               && validRemoteDeployDomainRevision (string_field RemoteDeployDomain observation "revision")
            then Ok observation else Err "invalid ensure observation"
        end
  end.

Definition decodeRemoteDeployDomainEnsureReceipt (task : Task) (targetID domain : string)
    : result string EnsureRemoteDeployDomainResponse :=
  if negb (task_Status task =?s TaskStatusCompleted) || negb (task_Error task =?s "")
     || negb (map_len (task_Result task) =? 1) then Err "invalid ensure receipt"
  else if TrimSpace (result_of task "data") =?s "" then Err "invalid ensure receipt data"
  else
    match unmarshal (result_of task "data") ≫= decodeStrictJSONObjectFields ["changed"; "observation"] with
    | None => Err "invalid ensure receipt object"
    | Some fields =>
        match fields !! "changed", fields !! "observation" with
        | Some changed_raw, Some observation_raw =>
            match decodeJSONField into_bool false changed_raw with
            | None => Err "invalid ensure receipt changed"
            | Some changed =>
                match ensure_observation observation_raw targetID domain with
                | Err message => Err message
                | Ok observation => Ok (mkEnsureResponse changed observation)
                end
            end
        | _, _ => Err "invalid ensure receipt object"
        end
    end.

Definition handleRemoteNodeDeployDomainEnsure (r : request) : panel_prog :=
  match decodeRemoteDeployDomainEnsureRequest (r_Body r) with
  | None => jsonError StatusBadRequest "invalid JSON"
  | Some request =>
      let '(nodeID, targetID, rawDomain) := remoteDeployDomainPathValues r in
      let domain := normal_domain rawDomain in
      let details := nodeID +:+ ": " +:+ targetID +:+ " " +:+ domain in
      call! queued := HubEnsure nodeID targetID domain (ens_ExpectedRevision request) in
      match queued with
      | Err e => writeRemoteDeployDomainEnsureEnqueueError e
      | Ok task =>
          call! _ := Audit "remote_deploy_domain_ensure" (details +:+ " queued") in
          waitForManagedNodeTask r (75 * Second) nodeID (task_ID task) (fun w =>
            match w with
            | Err f => ensure_ended f
            | Ok task =>
                if task_Status task =?s TaskStatusFailed then ensure_failed task
                else
                  match decodeRemoteDeployDomainEnsureReceipt task targetID domain with
                  | Err message =>
                      call! _ := AuditFailure "remote_deploy_domain_ensure" details (FText message) in
                      jsonError StatusBadGateway "invalid_receipt"
                  | Ok response =>
                      call! _ := Audit "remote_deploy_domain_ensure" (details +:+ " completed") in
                      jsonResponse StatusOK (BEnsure response)
                  end
            end)
      end
  end.
End domains.
