(* ===== verification/PanelAgents.v ===== *)
(** * The panel's agent and node handlers:
      [internal/api/handlers_agenthub.go], [handlers_agenthub_profile.go],
      [handlers_remote_agent_updates.go], [handlers_remote_integration_status.go],
      [handlers_remote_metrics.go]

    The endpoints an agent talks to (heartbeat, poll, result) and those a user
    of the panel manages nodes with.  [net/url.ParseRequestURI] is a parameter,
    and so is the version of the panel. *)

From stdpp Require Import base strings gmap list.
From Stdlib Require Import ZArith Lia Ascii.
From S2P Require Import Prelude GoStrings GoJson GoTime GoTyped HubTypes TaskGate Profile Heartbeat Repository Service.
From S2P Require Import ReleaseVersion Metrics IntegrationStatus AgentConfig AgentTasks RemoteNodes PanelApi PanelNodes.
Local Open Scope Z_scope.
Local Open Scope hub_scope.

(** ** Bodies that become requests of the hub *)

(** Decode a struct whose members must all be known. *)
Definition strict_struct {A} (names : list string) (from : list (string * json) -> option A) (j : json) : option A :=
  match j with
  | JObj ms => if known_fields names ms then from ms else None
  | _ => None
  end.

(** Every value of a member [name] of an object passes [ok]. *)
Definition members_ok (names : list string) (name : string) (ok : json -> bool) (ms : list (string * json)) : bool :=
  forallb (fun kv => negb (bool_decide (match_name names kv.1 = Some name)) || ok kv.2) ms.

Definition known_object (names : list string) (j : json) : bool :=
  match j with JObj ms => known_fields names ms | _ => true end.
Definition known_objects (names : list string) (j : json) : bool :=
  match j with JArr l => forallb (known_object names) l | _ => true end.

Definition known_inventory (j : json) : bool :=
  match j with
  | JObj ms =>
      known_fields inventory_names ms
      && members_ok inventory_names "disk_mounts" (known_objects mount_names) ms
      && members_ok inventory_names "services" (known_objects service_names) ms
      && members_ok inventory_names "processes" (known_objects process_names) ms
  | _ => true
  end.

Definition into_inventory (j : json) (old : Inventory) : option Inventory :=
  if negb (known_inventory j) then None
  else match j with JObj ms => inventory_members ms | JNull => Some old | _ => None end.

(** A [*AgentProfileObservation], whose decoder is its own. *)
Definition into_observation (j : json) (old : option AgentProfileObservation) : option (option AgentProfileObservation) :=
  match j with
  | JNull => Some None
  | _ => match decode_observation j with Ok o => Some (Some o) | Err _ => None end
  end.

Definition heartbeat_names : list string :=
  ["protocol_version"; "node_id"; "agent_version"; "capabilities"; "hostname"; "sent_at"; "inventory"; "profile"].

Definition decode_heartbeat : json -> option HeartbeatRequest := strict_struct heartbeat_names (fun ms =>
  let rd {A} n (into : json -> A -> option A) acc := read_field heartbeat_names n into ms acc in
  protocol ← rd "protocol_version" into_string "";
  node ← rd "node_id" into_string "";
  version ← rd "agent_version" into_string "";
  capabilities ← rd "capabilities" (into_slice "" into_string) nil_slice;
  hostname ← rd "hostname" into_string "";
  sent ← rd "sent_at" into_time (zero_time, 0);
  inventory ← rd "inventory" into_inventory empty_inventory;
  profile ← rd "profile" into_observation None;
  Some (mkHeartbeat protocol node version (slice_value capabilities) hostname sent.1 inventory profile)).

Definition into_strings_map (j : json) (old : gmap string string) : option (gmap string string) :=
  match j with JObj ms => members_map ms old | JNull => Some ∅ | _ => None end.

Definition result_names : list string := ["status"; "result"; "error"].

Definition decode_result : json -> option TaskResultRequest := strict_struct result_names (fun ms =>
  status ← read_field result_names "status" into_string ms "";
  res ← read_field result_names "result" into_strings_map ms ∅;
  err ← read_field result_names "error" into_string ms "";
  Some (mkTaskResult status res err)).

Definition register_names : list string := ["id"; "name"].

Definition decode_register : json -> option RegisterNodeRequest := strict_struct register_names (fun ms =>
  id ← read_field register_names "id" into_string ms "";
  name ← read_field register_names "name" into_string ms "";
  Some (mkRegister id name)).

Record remoteTaskCreateRequest : Type := mkTaskCreate {
  tcr_Kind : string; tcr_Payload : gmap string string; tcr_Confirmed : bool }.

Definition create_names : list string := ["kind"; "payload"; "confirmed"].

Definition decode_create : json -> option remoteTaskCreateRequest := strict_struct create_names (fun ms =>
  kind ← read_field create_names "kind" into_string ms "";
  payload ← read_field create_names "payload" into_strings_map ms ∅;
  confirmed ← read_field create_names "confirmed" into_bool ms false;
  Some (mkTaskCreate kind payload confirmed)).

(** [decodeStrictJSON]; the [null] value leaves the zero request. *)
Definition strict_body {A} (limit : Z) (zero : A) (from : json -> option A) (s : string) : option A :=
  if limit <? len s then None
  else j ← unmarshal s; match j with JNull => Some zero | _ => from j end.

Definition zero_heartbeat : HeartbeatRequest := mkHeartbeat "" "" "" None "" zero_time empty_inventory None.

(** ** The agent's endpoints *)

Definition agentCredentials (r : request) : option (string * string) :=
  let nodeID := TrimSpace (r_Header r "X-HServer-Node-ID") in
  let authHeader := r_Header r "Authorization" in
  if (nodeID =?s "") || negb (HasPrefix authHeader "Bearer ") then None
  else
    let token := TrimSpace (sdrop 7 authHeader) in
    if token =?s "" then None else Some (nodeID, token).

Definition unauthorized : panel_prog := jsonError StatusUnauthorized "unauthorized".
Definition invalid_body : panel_prog := jsonError StatusBadRequest "invalid request body".

(** The answer to a call of the hub. *)
Definition answer_or {A} (a : res A) (k : A -> panel_prog) : panel_prog :=
  match a with Err e => writeAgentHubError e | Ok x => k x end.

Definition handleAgentHeartbeat (r : request) : panel_prog :=
  match agentCredentials r with
  | None => unauthorized
  | Some (nodeID, token) =>
      match strict_body maxRequestBodySize zero_heartbeat decode_heartbeat (r_Body r) with
      | None => invalid_body
      | Some req =>
          if negb (hb_NodeID req =?s nodeID) then unauthorized
          else call! a := HubHeartbeat nodeID token req in
               answer_or a (fun response => jsonResponse StatusOK (BHeartbeat response))
      end
  end.

Definition handleAgentTaskPoll (r : request) : panel_prog :=
  match agentCredentials r with
  | None => unauthorized
  | Some (nodeID, token) =>
      call! a := HubPoll nodeID token in answer_or a (fun task => jsonResponse StatusOK (BPoll task))
  end.

Definition positive_id (s : string) : option Z :=
  match ParseInt s with Some id => if id <=? 0 then None else Some id | None => None end.

Definition handleAgentTaskResult (r : request) : panel_prog :=
  match agentCredentials r with
  | None => unauthorized
  | Some (nodeID, token) =>
      match positive_id (path r "id") with
      | None => jsonError StatusBadRequest "invalid task id"
      | Some taskID =>
          match strict_body (Z.shiftl 8 20) (mkTaskResult "" ∅ "") decode_result (r_Body r) with
          | None => invalid_body
          | Some req =>
              call! a := HubComplete nodeID token taskID req in
              answer_or a (fun task => jsonResponse StatusOK (BTask task))
          end
      end
  end.

(** ** Nodes and tasks *)

Definition handleNodeRegister (r : request) : panel_prog :=
  match strict_body maxRequestBodySize (mkRegister "" "") decode_register (r_Body r) with
  | None => invalid_body
  | Some req =>
      call! a := HubRegister req in
      answer_or a (fun response => jsonResponse StatusCreated (BRegistered response))
  end.

Section nodes.
Context (Version : string).

Definition newManagedNodeResponse (node : Node) (panelVersion : string) (online : bool) : managedNodeResponse :=
  mkNodeResponse node (Compatibility (node_AgentVersion node) (node_ProtocolVersion node) panelVersion) online.

Fixpoint node_responses (nodes : list Node) (done : list managedNodeResponse) : panel_prog :=
  match nodes with
  | [] => jsonResponse StatusOK (BNodes done)
  | node :: nodes' =>
      call! online := HubOnline node in
      node_responses nodes' (done ++ [newManagedNodeResponse node Version online])
  end.

Definition handleNodeList (r : request) : panel_prog :=
  call! a := HubListNodes in answer_or a (fun nodes => node_responses nodes []).

Definition handleNodeGet (r : request) : panel_prog :=
  call! a := HubGetNode (path r "id") in
  answer_or a (fun node =>
    call! online := HubOnline node in
    jsonResponse StatusOK (BNode (newManagedNodeResponse node Version online))).
End nodes.

Definition handleNodeTaskCreate (r : request) : panel_prog :=
  match strict_body maxRequestBodySize (mkTaskCreate "" ∅ false) decode_create (r_Body r) with
  | None => invalid_body
  | Some req =>
      if negb (tcr_Confirmed req)
      then jsonError StatusBadRequest "explicit remote task confirmation (confirmed:true) is required"
      else call! a := HubEnqueue (path r "id") (mkTaskRequest (tcr_Kind req) (tcr_Payload req)) in
           answer_or a (fun task => jsonResponse StatusCreated (BTask task))
  end.

Definition handleNodeTaskList (r : request) : panel_prog :=
  let raw := query r "limit" in
  let list_tasks limit :=
    call! a := HubListTasks (path r "id") limit in answer_or a (fun tasks => jsonResponse StatusOK (BTasks tasks)) in
  if raw =?s "" then list_tasks 20
  else match positive_id raw with
       | None => jsonError StatusBadRequest "invalid task limit"
       | Some limit => list_tasks limit
       end.

Definition handleNodeTaskGet (r : request) : panel_prog :=
  match positive_id (path r "taskID") with
  | None => jsonError StatusBadRequest "invalid task id"
  | Some taskID =>
      call! a := HubGetTask (path r "id") taskID in
      answer_or a (fun task => jsonResponse StatusOK (BTask task))
  end.

(** ** Profiles *)

Definition writeNodeProfileError (e : hub_error) : panel_prog :=
  match e with
  | ErrNotFound => jsonError StatusNotFound "not found"
  | ErrProfileRevisionStale => jsonError StatusConflict "stale_profile_revision"
  | ErrProfileNotConfigured => jsonError StatusConflict "profile_not_configured"
  | ErrProfileApplyInFlight => jsonError StatusConflict "profile_apply_in_flight"
  | ErrCapabilityUnavailable => jsonError StatusConflict "profile_apply_capability_unavailable"
  | ErrNodeOffline => jsonError StatusConflict "node_offline"
  | ErrInvalidInput => jsonError StatusBadRequest "invalid profile"
  | _ => jsonError StatusInternalServerError "agent profile operation failed"
  end.

Definition profile_or {A} (a : res A) (k : A -> panel_prog) : panel_prog :=
  match a with Err e => writeNodeProfileError e | Ok x => k x end.

(** A body that a type decodes itself. *)
Definition own_body {A} (limit : Z) (from : string -> res A) (s : string) : option A :=
  if limit <? len s then None else match from s with Ok a => Some a | Err _ => None end.

Definition handleNodeProfileGet (r : request) : panel_prog :=
  call! a := HubGetProfile (path r "id") in
  profile_or a (fun response => jsonResponse StatusOK (BProfile response)).

Definition handleNodeProfilePut (r : request) : panel_prog :=
  match own_body (Z.shiftl 16 10) unmarshal_put_request (r_Body r) with
  | None => invalid_body
  | Some request =>
      call! a := HubUpdateProfile (path r "id") (put_Profile request) (put_ExpectedRevision request) in
      profile_or a (fun response =>
        call! _ := Audit "remote_agent_profile_update"
                     (path r "id" +:+ ": revision " +:+ Itoa (des_Revision (resp_Desired response))) in
        jsonResponse StatusOK (BProfile response))
  end.

Definition handleNodeProfileApply (r : request) : panel_prog :=
  match own_body (Z.shiftl 4 10) unmarshal_apply_request (r_Body r) with
  | None => invalid_body
  | Some request =>
      let nodeID := path r "id" in
      call! applied := HubApplyProfile nodeID (apply_ExpectedRevision request) in
      profile_or applied (fun _ =>
        call! a := HubGetProfile nodeID in
        profile_or a (fun response =>
          let status := if ap_State (resp_Apply response) =?s "applied" then StatusOK else StatusAccepted in
          call! _ := Audit "remote_agent_profile_apply"
                       (nodeID +:+ ": revision " +:+ Itoa (apply_ExpectedRevision request)) in
          jsonResponse status (BProfile response)))
  end.

(** ** Agent releases *)

Definition UpgradeAgentRequest : gotype := GStruct [("version", GString); ("confirmed", GBool)].
Definition RollbackAgentRequest : gotype := GStruct [("confirmed", GBool)].

Definition update_receipt_invalid : string := "managed agent returned an invalid lifecycle receipt".

(** A version is a stable release exactly when it compares as current to itself. *)
Definition stable_version (version : string) : bool := bool_decide (Compare version version = Current).

Definition stamp_ok (s : string) : bool := match ParseRFC3339 s with Some _ => true | None => false end.

Section updates.
Context (url_ParseRequestURI : string -> option URL).

Definition validRemoteReleaseURL (raw : string) : bool :=
  match url_ParseRequestURI raw with
  | Some u => ((url_Scheme u =?s "http") || (url_Scheme u =?s "https")) && negb (url_Host u =?s "") && negb (url_User u)
  | None => false
  end.

Definition latest_states : list string := ["current"; "behind"; "ahead"; "unknown"].

Definition release_ok (text : string -> string) (available : bool) : bool :=
  let release := text "release_status" in
  let state := text "latest_version_state" in
  if (release =?s "not_configured") || (release =?s "unavailable") then negb available
  else if release =?s "healthy" then
    negb ((text "latest_version" =?s "") || negb (stable_version (text "latest_version")))
    && existsb (String.eqb state) latest_states
    && Bool.eqb available (state =?s "ahead")
  else false.

Definition signature_ok (signature release : string) : bool :=
  if signature =?s "not_configured" then true
  else if signature =?s "verified" then negb (release =?s "not_configured")
  else if signature =?s "unavailable" then release =?s "unavailable"
  else false.

Definition operation_states : list string := ["scheduled"; "running"; "completed"; "failed"].

Definition operation_ok (text : string -> string) : bool :=
  let operation := text "operation" in
  let status := text "operation_status" in
  let version := text "operation_version" in
  if status =?s "idle" then
    (operation =?s "") && (version =?s "") && (text "operation_updated_at" =?s "")
  else if existsb (String.eqb status) operation_states then
    ((operation =?s "upgrade") || (operation =?s "rollback"))
    && negb ((operation =?s "upgrade") && negb (stable_version version))
    && negb ((operation =?s "rollback") && negb (version =?s ""))
    && stamp_ok (text "operation_updated_at")
  else false.

Definition validRemoteAgentUpdateStatus (status : goval) (observedVersion : string) : bool :=
  let text := string_field AgentUpdateStatus status in
  if (text "current_version" =?s "") || negb (text "current_version" =?s observedVersion)
     || (text "release_message" =?s "") || (text "operation_detail" =?s "") then false
  else if negb (text "platform" =?s "linux_amd64") && negb (text "platform" =?s "linux_arm64") then false
  else if negb (stamp_ok (text "release_checked_at")) then false
  else if negb (text "release_notes_url" =?s "") && negb (validRemoteReleaseURL (text "release_notes_url")) then false
  else release_ok text (bool_field AgentUpdateStatus status "update_available")
       && signature_ok (text "signature_status") (text "release_status")
       && operation_ok text.

Definition writeRemoteAgentUpdateError (f : failure) : panel_prog :=
  match f with
  | FReceipt message => jsonError StatusBadGateway message
  | FHub ((ErrNotFound | ErrCapabilityUnavailable | ErrNodeOffline | ErrInvalidInput) as e) => writeAgentHubError e
  | FEnded _ DeadlineExceeded => jsonFailure StatusGatewayTimeout (failure_text f)
  | _ => jsonFailure StatusBadGateway (failure_text f)
  end.

Definition runRemoteAgentUpdateTask (r : request) (nodeID : string) (request : TaskRequest) (timeout : duration)
    (k : result failure goval -> panel_prog) : panel_prog :=
  call! found := HubGetNode nodeID in
  match found with
  | Err e => k (Err (FHub e))
  | Ok node =>
      call! queued := HubEnqueue nodeID request in
      match queued with
      | Err e => k (Err (FHub e))
      | Ok task =>
          waitForManagedNodeTask r timeout nodeID (task_ID task) (fun w =>
            match w with
            | Err f => k (Err f)
            | Ok task =>
                if task_Status task =?s TaskStatusFailed then k (Err (FText (task_Error task)))
                else
                  match Unmarshal AgentUpdateStatus (result_of task "data") with
                  | Some status =>
                      if validRemoteAgentUpdateStatus status (node_AgentVersion node) then k (Ok status)
                      else k (Err (FReceipt update_receipt_invalid))
                  | None => k (Err (FReceipt update_receipt_invalid))
                  end
            end)
      end
  end.

Definition handleRemoteAgentUpdateStatus (r : request) : panel_prog :=
  runRemoteAgentUpdateTask r (path r "id") (mkTaskRequest TaskAgentUpdateStatus ∅) (45 * Second) (fun a =>
    match a with
    | Err f => writeRemoteAgentUpdateError f
    | Ok status => jsonResponse StatusOK (BValue status)
    end).

(** The answer to a lifecycle action: the receipt must say that the operation is scheduled. *)
Definition lifecycle_answer (action details scheduled : string) (named : goval -> bool) (a : result failure goval)
    : panel_prog :=
  match a with
  | Err f => call! _ := AuditFailure action details f in writeRemoteAgentUpdateError f
  | Ok status =>
      if negb (named status) then
        call! _ := AuditFailure action details (FReceipt update_receipt_invalid) in
        jsonError StatusBadGateway update_receipt_invalid
      else
        call! _ := Audit action scheduled in jsonResponse StatusAccepted (BValue status)
  end.

Definition scheduled_status (operation : string) (status : goval) : bool :=
  (string_field AgentUpdateStatus status "operation" =?s operation)
  && (string_field AgentUpdateStatus status "operation_status" =?s "scheduled").

Definition handleRemoteAgentUpgrade (r : request) : panel_prog :=
  match decodeStrictJSON (Z.shiftl 8 10) UpgradeAgentRequest (r_Body r) with
  | None => jsonError StatusBadRequest "invalid JSON"
  | Some request =>
      let version := TrimSpace (string_field UpgradeAgentRequest request "version") in
      if negb (bool_field UpgradeAgentRequest request "confirmed") || negb (stable_version version)
      then jsonError StatusBadRequest "Exact stable version and restart confirmation are required"
      else
        let nodeID := path r "id" in
        let details := nodeID +:+ ": " +:+ version in
        runRemoteAgentUpdateTask r nodeID
          (mkTaskRequest TaskAgentUpdateAction (payload_of [("action", "upgrade"); ("version", version)])) (11 * Minute)
          (lifecycle_answer "remote_agent_upgrade" details (details +:+ " scheduled")
             (fun status => scheduled_status "upgrade" status
                            && (string_field AgentUpdateStatus status "operation_version" =?s version)))
  end.

Definition handleRemoteAgentRollback (r : request) : panel_prog :=
  match decodeStrictJSON (Z.shiftl 8 10) RollbackAgentRequest (r_Body r) with
  | None => jsonError StatusBadRequest "invalid JSON"
  | Some request =>
      if negb (bool_field RollbackAgentRequest request "confirmed")
      then jsonError StatusBadRequest "Agent restart and rollback confirmation are required"
      else
        let nodeID := path r "id" in
        runRemoteAgentUpdateTask r nodeID
          (mkTaskRequest TaskAgentUpdateAction (payload_of [("action", "rollback")])) (90 * Second)
          (lifecycle_answer "remote_agent_rollback" nodeID (nodeID +:+ ": scheduled") (scheduled_status "rollback"))
  end.
End updates.

(** ** Integration status and metrics *)

Definition managedIntegrationStatusWait : duration := 45 * Second.
Definition managedMetricsWait : duration := 45 * Second.

(** The errors both handlers answer alike. *)
Definition observation_refused (e : hub_error) : panel_prog :=
  match e with
  | ErrCapabilityUnavailable => jsonError StatusConflict "capability_unavailable"
  | ErrNodeOffline => jsonError StatusConflict "managed_node_offline"
  | _ => writeAgentHubError e
  end.

Definition observation_ended (timed_out failed : string) (f : failure) : panel_prog :=
  match f with
  | FEnded _ _ => jsonError StatusGatewayTimeout timed_out
  | _ => jsonError StatusBadGateway failed
  end.

Definition handleRemoteNodeIntegrationStatus (r : request) : panel_prog :=
  let nodeID := path r "id" in
  let failed := jsonError StatusBadGateway "managed_status_failed" in
  call! queued := HubStatus nodeID in
  match queued with
  | Err e => observation_refused e
  | Ok task =>
      waitForManagedNodeTask r managedIntegrationStatusWait nodeID (task_ID task) (fun w =>
        match w with
        | Err f => observation_ended "managed_status_timeout" "managed_status_failed" f
        | Ok task =>
            if negb (task_Status task =?s TaskStatusCompleted) then failed
            else
              match task_Result task !! "data" with
              | None => failed
              | Some data =>
                  match Decode data with
                  | Err _ => failed
                  | Ok status =>
                      if negb (tgt_NodeID (st_Target status) =?s nodeID) then failed
                      else jsonResponse StatusOK (BStatus status)
                  end
              end
        end)
  end.

Definition handleRemoteNodeMetrics (r : request) : panel_prog :=
  let nodeID := path r "id" in
  let failed := jsonError StatusBadGateway "managed_metrics_failed" in
  call! queued := HubMetrics nodeID in
  match queued with
  | Err e => observation_refused e
  | Ok task =>
      waitForManagedNodeTask r managedMetricsWait nodeID (task_ID task) (fun w =>
        match w with
        | Err f => observation_ended "managed_metrics_timeout" "managed_metrics_failed" f
        | Ok task =>
            if negb (task_Status task =?s TaskStatusCompleted) || negb (map_len (task_Result task) =? 1) then failed
            else
              match task_Result task !! "data" with
              | None => failed
              | Some data =>
                  match DecodeMetricsSnapshot data with
                  | Err _ => failed
                  | Ok snapshot =>
                      call! now := Now in
                      match ValidateMetricsSnapshot snapshot now with
                      | Err _ => failed
                      | Ok _ => jsonResponse StatusOK (BMetrics snapshot)
                      end
                  end
              end
        end)
  end.
