(* ===== verification/PanelRouter.v ===== *)
(** * The panel's router and middleware: [internal/api/router.go], [middleware.go]

    A request of the managed-node API goes through the authentication of its
    session, the role the route asks for and, where it changes something, the
    rate limit of its address, and only then to the handler.  [auth.ValidateToken]
    (JSON web tokens) is a parameter: the user a token names, if it is valid. *)

From stdpp Require Import base strings gmap list.
From Stdlib Require Import ZArith Lia Ascii.
From S2P Require Import Prelude GoStrings GoJson GoTime GoTyped HubTypes TaskGate Profile Repository Service.
From S2P Require Import IntegrationStatus AgentConfig AgentTasks RemoteNodes PanelApi RateLimit PanelNodes PanelDomains PanelAgents.
Local Open Scope Z_scope.
Local Open Scope hub_scope.

(** ** Patterns of [http.ServeMux] *)

Inductive segment : Type := Literal (s : string) | Wildcard (name : string).

Definition segment_of (s : string) : segment :=
  if HasPrefix s "{" then Wildcard (sdrop 1 (stake (String.length s - 1) s)) else Literal s.

(** The segments of a path that begins with a slash. *)
Definition path_segments (path : string) : list string := split slash (sdrop 1 path).

(** A wildcard is one segment that is not empty; the values of the wildcards,
    in order. *)
Fixpoint match_segments (pattern : list segment) (path : list string) : option (list (string * string)) :=
  match pattern, path with
  | [], [] => Some []
  | Literal l :: pattern', s :: path' => if l =?s s then match_segments pattern' path' else None
  | Wildcard name :: pattern', s :: path' =>
      if s =?s "" then None else (fun values => (name, s) :: values) <$> match_segments pattern' path'
  | _, _ => None
  end.

(** A [GET] pattern also serves [HEAD]. *)
Definition match_method (pattern method : string) : bool :=
  (pattern =?s method) || ((pattern =?s "GET") && (method =?s "HEAD")).

Record route : Type := mkRoute {
  rt_Method : string; rt_Pattern : list segment; rt_Handler : request -> panel_prog }.

Definition parse_pattern (pattern : string) : string * list segment :=
  match split " "%char pattern with
  | [method; path] => (method, segment_of <$> path_segments path)
  | _ => ("", [])
  end.

(** [mux.HandleFunc("METHOD /path", handler)] *)
Definition route_of (pattern : string) (handler : request -> panel_prog) : route :=
  mkRoute (parse_pattern pattern).1 (parse_pattern pattern).2 handler.

Definition matches (r : request) (rt : route) : option (list (string * string)) :=
  if match_method (rt_Method rt) (r_Method r) then match_segments (rt_Pattern rt) (r_Segments r) else None.

Definition value_of (values : list (string * string)) (name : string) : string :=
  default "" (snd <$> find (fun kv => kv.1 =?s name) values).

Definition set_path_values (values : list (string * string)) (r : request) : request :=
  mkRequest (r_Method r) (r_Path r) (r_Segments r) (value_of values) (r_Query r) (r_Header r) (r_Cookie r)
    (r_RemoteAddr r) (r_Body r) (r_Wait r) (r_User r).

Definition set_user (u : User) (r : request) : request :=
  mkRequest (r_Method r) (r_Path r) (r_Segments r) (r_PathValue r) (r_Query r) (r_Header r) (r_Cookie r)
    (r_RemoteAddr r) (r_Body r) (r_Wait r) (Some u).

(** The patterns of this table exclude each other, so the first that matches is
    the one. *)
Fixpoint dispatch (routes : list route) (r : request) : option panel_prog :=
  match routes with
  | [] => None
  | rt :: routes' =>
      match matches r rt with
      | Some values => Some (rt_Handler rt (set_path_values values r))
      | None => dispatch routes' r
      end
  end.

(** ** Middleware *)

(** [strings.TrimPrefix(s, p)] *)
Definition TrimPrefix (s p : string) : string := if HasPrefix s p then sdrop (String.length p) s else s.

(** The token of a session: of the header, else of the cookie, else (for the
    terminal) of the WebSocket protocols, else of the query. *)
Definition session_token (r : request) : string :=
  let token :=
    if r_Header r "Authorization" =?s "" then "" else TrimPrefix (r_Header r "Authorization") "Bearer " in
  let token := if token =?s "" then default "" (r_Cookie r "hserver_token") else token in
  let token :=
    if (token =?s "") && (r_Path r =?s "/api/terminal/ws") then
      default "" ((fun p => TrimPrefix p "jwt.")
                    <$> find (fun p => HasPrefix p "jwt.")
                          (TrimSpace <$> split ","%char (r_Header r "Sec-WebSocket-Protocol")))
    else token in
  if token =?s "" then r_Query r "token" else token.

Definition requireRole (minRole : Z) (next : request -> panel_prog) (r : request) : panel_prog :=
  match r_User r with
  | None => jsonError StatusUnauthorized "unauthorized"
  | Some user => if roleLevel (user_Role user) <? minRole then jsonError StatusForbidden "forbidden" else next r
  end.

(** [mutateLimiter.Middleware(security.LimitMutate)] *)
Definition limited (next : request -> panel_prog) (r : request) : panel_prog :=
  call! allowed := RateAllow (RealIP r) LimitMutate in
  if (allowed : bool) then next r else jsonError StatusTooManyRequests "too many requests".

Section router.
Context `{UnicodeTables} `{LowerTable}.
Context (ValidateToken : string -> option User).
Context (Version : string) (url_ParseRequestURI : string -> option URL)
  (ParseAddress : string -> option (string * string)).

Definition withAuth (next : request -> panel_prog) (r : request) : panel_prog :=
  if session_token r =?s "" then jsonError StatusUnauthorized "unauthorized"
  else
    match ValidateToken (session_token r) with
    | None => jsonError StatusUnauthorized "invalid token"
    | Some user => next (set_user user r)
    end.

Definition agent_hub_routes : list route :=
  [route_of "POST /api/agent/v1/heartbeat" handleAgentHeartbeat;
   route_of "POST /api/agent/v1/tasks/poll" handleAgentTaskPoll;
   route_of "POST /api/agent/v1/tasks/{id}/result" handleAgentTaskResult;
   route_of "POST /api/nodes" (withAuth (requireRole RoleAdmin handleNodeRegister));
   route_of "GET /api/nodes" (withAuth (handleNodeList Version));
   route_of "GET /api/nodes/{id}" (withAuth (handleNodeGet Version));
   route_of "GET /api/nodes/{id}/integrations/status"
     (withAuth (requireRole RoleAdmin handleRemoteNodeIntegrationStatus));
   route_of "GET /api/nodes/{id}/metrics" (withAuth (requireRole RoleAdmin handleRemoteNodeMetrics));
   route_of "POST /api/nodes/{id}/tasks" (withAuth (requireRole RoleAdmin (limited handleNodeTaskCreate)));
   route_of "GET /api/nodes/{id}/tasks" (withAuth (requireRole RoleManager handleNodeTaskList));
   route_of "GET /api/nodes/{id}/tasks/{taskID}" (withAuth (requireRole RoleManager handleNodeTaskGet));
   route_of "GET /api/nodes/{id}/agent-update"
     (withAuth (requireRole RoleAdmin (handleRemoteAgentUpdateStatus url_ParseRequestURI)));
   route_of "POST /api/nodes/{id}/agent-update/upgrade"
     (withAuth (requireRole RoleAdmin (limited (handleRemoteAgentUpgrade url_ParseRequestURI))));
   route_of "POST /api/nodes/{id}/agent-update/rollback"
     (withAuth (requireRole RoleAdmin (limited (handleRemoteAgentRollback url_ParseRequestURI))));
   route_of "GET /api/nodes/{id}/profile" (withAuth (requireRole RoleAdmin handleNodeProfileGet));
   route_of "PUT /api/nodes/{id}/profile" (withAuth (requireRole RoleAdmin (limited handleNodeProfilePut)));
   route_of "POST /api/nodes/{id}/profile/apply"
     (withAuth (requireRole RoleAdmin (limited handleNodeProfileApply)));
   route_of "POST /api/nodes/{id}/actions/{action}"
     (withAuth (requireRole RoleAdmin (limited handleRemoteNodeAction)));
   route_of "GET /api/nodes/{id}/actions/reboot-status"
     (withAuth (requireRole RoleAdmin handleRemoteNodeRebootStatus));
   route_of "GET /api/nodes/{id}/actions/status"
     (withAuth (requireRole RoleAdmin handleRemoteNodeActionStatus));
   route_of "GET /api/nodes/{id}/processes" (withAuth (requireRole RoleAdmin handleRemoteNodeProcesses));
   route_of "GET /api/nodes/{id}/memory" (withAuth (requireRole RoleAdmin handleRemoteNodeMemory));
   route_of "GET /api/nodes/{id}/disk" (withAuth (requireRole RoleAdmin handleRemoteNodeDisk));
   route_of "GET /api/nodes/{id}/disk/cleanup"
     (withAuth (requireRole RoleAdmin handleRemoteNodeDiskCleanupScan));
   route_of "POST /api/nodes/{id}/disk/cleanup"
     (withAuth (requireRole RoleAdmin (limited handleRemoteNodeDiskCleanupExecute)));
   route_of "GET /api/nodes/{id}/domains" (withAuth (requireRole RoleAdmin handleRemoteNodeDomains));
   route_of "POST /api/nodes/{id}/domains/{config}/actions/{action}"
     (withAuth (requireRole RoleAdmin (limited handleRemoteNodeDomainAction)));
   route_of "GET /api/nodes/{id}/certificates"
     (withAuth (requireRole RoleAdmin handleRemoteNodeCertificates));
   route_of "POST /api/nodes/{id}/certificates/{name}/actions/{action}"
     (withAuth (requireRole RoleAdmin (limited handleRemoteNodeCertificateAction)));
   route_of "GET /api/nodes/{id}/php" (withAuth (requireRole RoleAdmin handleRemoteNodePHPFPM));
   route_of "GET /api/nodes/{id}/php/{version}/pools/{pool}"
     (withAuth (requireRole RoleAdmin handleRemoteNodePHPFPMConfigGet));
   route_of "PUT /api/nodes/{id}/php/{version}/pools/{pool}"
     (withAuth (requireRole RoleAdmin (limited handleRemoteNodePHPFPMConfigSave)));
   route_of "POST /api/nodes/{id}/php/{version}/actions/{action}"
     (withAuth (requireRole RoleAdmin (limited handleRemoteNodePHPFPMAction)));
   route_of "GET /api/nodes/{id}/pm2" (withAuth (requireRole RoleAdmin handleRemoteNodePM2));
   route_of "GET /api/nodes/{id}/pm2/{name}/logs" (withAuth (requireRole RoleAdmin handleRemoteNodePM2Logs));
   route_of "POST /api/nodes/{id}/pm2/{name}/actions/{action}"
     (withAuth (requireRole RoleAdmin (limited handleRemoteNodePM2Action)));
   route_of "GET /api/nodes/{id}/cron" (withAuth (requireRole RoleAdmin handleRemoteNodeCronList));
   route_of "POST /api/nodes/{id}/cron"
     (withAuth (requireRole RoleAdmin (limited handleRemoteNodeCronCreate)));
   route_of "PUT /api/nodes/{id}/cron/{job}"
     (withAuth (requireRole RoleAdmin (limited handleRemoteNodeCronUpdate)));
   route_of "DELETE /api/nodes/{id}/cron/{job}"
     (withAuth (requireRole RoleAdmin (limited handleRemoteNodeCronDelete)));
   route_of "POST /api/nodes/{id}/cron/{job}/run"
     (withAuth (requireRole RoleAdmin (limited handleRemoteNodeCronRun)));
   route_of "GET /api/nodes/{id}/firewall" (withAuth (requireRole RoleAdmin handleRemoteNodeFirewallList));
   route_of "POST /api/nodes/{id}/firewall"
     (withAuth (requireRole RoleAdmin (limited handleRemoteNodeFirewallAdd)));
   route_of "DELETE /api/nodes/{id}/firewall/{rule}"
     (withAuth (requireRole RoleAdmin (limited handleRemoteNodeFirewallDelete)));
   route_of "GET /api/nodes/{id}/databases" (withAuth (requireRole RoleAdmin handleRemoteNodeDatabases));
   route_of "POST /api/nodes/{id}/databases/{engine}/actions/{action}"
     (withAuth (requireRole RoleAdmin (limited handleRemoteNodeDatabaseAction)));
   route_of "GET /api/nodes/{id}/backups" (withAuth (requireRole RoleAdmin handleRemoteNodeBackups));
   route_of "POST /api/nodes/{id}/backups/{plan}/run"
     (withAuth (requireRole RoleAdmin (limited handleRemoteNodeBackupRun)));
   route_of "GET /api/nodes/{id}/deploy" (withAuth (requireRole RoleAdmin handleRemoteNodeDeployTargets));
   route_of "GET /api/nodes/{id}/deploy/jobs" (withAuth (requireRole RoleAdmin handleRemoteNodeDeployJobs));
   route_of "POST /api/nodes/{id}/deploy/{target}/actions/{action}"
     (withAuth (requireRole RoleAdmin (limited handleRemoteNodeDeployAction)));
   route_of "GET /api/nodes/{id}/deploy/{target}/domains"
     (withAuth (requireRole RoleAdmin handleRemoteNodeDeployDomains));
   route_of "POST /api/nodes/{id}/deploy/{target}/domains"
     (withAuth (requireRole RoleAdmin (limited handleRemoteNodeDeployDomainCreate)));
   route_of "PUT /api/nodes/{node_id}/deploy/{target_id}/domains/{domain}"
     (withAuth (requireRole RoleAdmin (limited handleRemoteNodeDeployDomainEnsure)));
   route_of "DELETE /api/nodes/{id}/deploy/{target}/domains/{domain}"
     (withAuth (requireRole RoleAdmin (limited handleRemoteNodeDeployDomainDelete)));
   route_of "GET /api/nodes/{id}/deploy/{target}/domains/{domain}/health"
     (withAuth (requireRole RoleAdmin handleRemoteNodeDeployDomainHealth));
   route_of "POST /api/nodes/{id}/deploy/{target}/domains/{domain}/tls"
     (withAuth (requireRole RoleAdmin (limited (handleRemoteNodeDeployDomainTLSEnable ParseAddress))));
   route_of "DELETE /api/nodes/{id}/deploy/{target}/domains/{domain}/tls"
     (withAuth (requireRole RoleAdmin (limited (handleRemoteNodeDeployDomainTLSAction "tls-disable"))));
   route_of "POST /api/nodes/{id}/deploy/{target}/domains/{domain}/tls/renew"
     (withAuth (requireRole RoleAdmin (limited (handleRemoteNodeDeployDomainTLSAction "tls-renew"))));
   route_of "GET /api/nodes/{id}/files" (withAuth (requireRole RoleAdmin handleRemoteNodeFiles));
   route_of "GET /api/nodes/{id}/file" (withAuth (requireRole RoleAdmin handleRemoteNodeFileGet));
   route_of "PUT /api/nodes/{id}/file" (withAuth (requireRole RoleAdmin (limited handleRemoteNodeFileSave)));
   route_of "GET /api/nodes/{id}/logs" (withAuth (requireRole RoleAdmin handleRemoteNodeLogs));
   route_of "GET /api/nodes/{id}/nginx/configs"
     (withAuth (requireRole RoleAdmin handleRemoteNodeNginxConfigs));
   route_of "GET /api/nodes/{id}/nginx/configs/{name}"
     (withAuth (requireRole RoleAdmin handleRemoteNodeNginxConfigGet));
   route_of "PUT /api/nodes/{id}/nginx/configs/{name}"
     (withAuth (requireRole RoleAdmin (limited handleRemoteNodeNginxConfigSave)));
   route_of "POST /api/nodes/{id}/nginx/actions/{action}"
     (withAuth (requireRole RoleAdmin (limited handleRemoteNodeNginxAction)));
   route_of "GET /api/nodes/{id}/containers" (withAuth (requireRole RoleAdmin handleRemoteNodeContainers));
   route_of "POST /api/nodes/{id}/containers/{container}/actions/{action}"
     (withAuth (requireRole RoleAdmin (limited handleRemoteNodeContainerAction)));
   route_of "POST /api/nodes/{id}/processes/signal"
     (withAuth (requireRole RoleAdmin (limited handleRemoteNodeProcessSignal)))].

(** [withBodyLimit]'s limit is that of the decoders; the other middlewares set
    headers and deadlines and write the log. *)
Definition serve (r : request) : option panel_prog := dispatch agent_hub_routes r.
End router.
