(* ===== verification/PanelFacts.v ===== *)
(** * Runs of the panel's programs and the protocol they follow

    A run is the calls a program makes with the answers it gets, and its
    response.  Every request of the managed-node API follows one protocol
    ([permits], [after], [settled]): what a call may be is a matter of who sends
    the request, of its method and of what was answered so far.  [obeys] checks
    it on a program for all answers at once. *)

From stdpp Require Import base strings gmap list.
From Stdlib Require Import ZArith Lia Ascii.
From S2P Require Import Prelude GoStrings GoBase64 GoJson GoTime HubTypes TaskGate Profile IntegrationStatus Repository Service AgentStore AgentApply AgentConfig AgentTasks AgentTasksClaims GoTyped RemoteNodes PanelApi RateLimit PanelNodes PanelDomains PanelAgents PanelRouter.
Local Open Scope Z_scope.
Local Open Scope hub_scope.

(** ** Runs *)

Inductive answered : Type :=
| Answered {B : Type} (o : hub_call B) (b : B).

Inductive runs : panel_prog -> list answered -> response -> Prop :=
| runs_ret rsp : runs (Ret rsp) [] rsp
| runs_call {B} (o : hub_call B) k b tr rsp : runs (k b) tr rsp -> runs (Call o k) (Answered o b :: tr) rsp.

(** The run of a program whose calls [host] answers. *)
Fixpoint trace_of {W : Type} (host : forall B, hub_call B -> W -> B * W) (p : panel_prog) (w : W)
    : list answered * response * W :=
  match p with
  | Ret rsp => ([], rsp, w)
  | Call o k =>
      let '(b, w') := host _ o w in
      let '(tr, rsp, w'') := trace_of host (k b) w' in
      (Answered o b :: tr, rsp, w'')
  end.

Lemma trace_of_runs {W : Type} (host : forall B, hub_call B -> W -> B * W) p w :
  runs p (trace_of host p w).1.1 (trace_of host p w).1.2.
Proof.
  revert w. induction p as [rsp|B o k IH]; intros w; [constructor|]. cbn [trace_of].
  destruct (host B o w) as [b w'] eqn:E. specialize (IH b w'). destruct (trace_of host (k b) w') as [[tr rsp] w''].
  by constructor.
Qed.

(** Every call of a run satisfies [P]. *)
Fixpoint each (P : forall B, hub_call B -> B -> Prop) (tr : list answered) : Prop :=
  match tr with
  | [] => True
  | Answered o b :: tr' => P _ o b /\ each P tr'
  end.

(** The node and the kind of the task a call queues; an apply may also find its
    task already there, or nothing to do. *)
Definition queue_of {B} (o : hub_call B) : option (string * string) :=
  match o with
  | HubEnqueue n req => Some (n, req_Kind req)
  | HubEnsure n _ _ _ => Some (n, TaskDeployDomainAction)
  | HubStatus n => Some (n, TaskIntegrationStatus)
  | HubMetrics n => Some (n, TaskMetricsRead)
  | HubApplyProfile n _ => Some (n, TaskProfileApply)
  | _ => None
  end.

Fixpoint queued_tasks (tr : list answered) : list (string * string) :=
  match tr with
  | [] => []
  | Answered o _ :: tr' => match queue_of o with Some q => q :: queued_tasks tr' | None => queued_tasks tr' end
  end.

(** The node a call is about. *)
Definition node_of {B} (o : hub_call B) : option string :=
  match o with
  | HubEnqueue n _ | HubEnsure n _ _ _ | HubStatus n | HubMetrics n | HubGetTask n _ | HubListTasks n _
  | HubGetNode n | HubGetProfile n | HubUpdateProfile n _ _ | HubApplyProfile n _ => Some n
  | _ => None
  end.

(** ** The protocol *)

(** The task of a request: none yet, refused, queued, or read at its end; for an
    apply, what was read of the profile since the hub took it. *)
Inductive stage : Type :=
| Idle
| Refused
| Waiting (taskID : Z)
| Seen (task : Task)
| Applying (read : option AgentProfileResponse).

Record ghost : Type := mkGhost { g_limited : bool; g_stage : stage }.

Definition start_ghost : ghost := mkGhost false Idle.

(** The kinds of tasks a [GET] may queue. *)
Definition read_kinds : list string :=
  [TaskDiskCleanupScan; TaskFilesBrowse; TaskFilesRead; TaskNginxConfigList; TaskNginxConfigRead;
   TaskDomainInventory; TaskSSLInventory; TaskPHPInventory; TaskPHPConfigRead; TaskPM2List; TaskPM2Logs;
   TaskCronInventory; TaskFirewallInventory; TaskDatabaseInventory; TaskBackupInventory; TaskDeployInventory;
   TaskDeployDomainInventory; TaskDeployDomainHealth; TaskLogsRead; TaskContainerList; TaskAgentUpdateStatus;
   TaskIntegrationStatus; TaskMetricsRead].

(** The level a call of the hub asks of the user; [None] for the agents' own. *)
Definition call_level {B} (o : hub_call B) : option Z :=
  match o with
  | HubListNodes | HubGetNode _ | HubOnline _ => Some RoleViewer
  | HubListTasks _ _ | HubGetTask _ _ => Some RoleManager
  | HubHeartbeat _ _ _ | HubPoll _ _ | HubComplete _ _ _ _ => None
  | _ => Some RoleAdmin
  end.

Section protocol.
Context (level : Z) (get : bool) (node ip : string).

(** A request that is no [GET] or [HEAD] asks nothing of the hub before the rate
    limit let it pass. *)
Definition admits (g : ghost) : Prop := get = true \/ g_limited g = true.

(** Queueing a task: one per request, about the node of the path, and for a
    [GET] of one of [read_kinds]. *)
Definition may_queue (g : ghost) (n kind : string) : Prop :=
  admits g /\ g_stage g = Idle /\ n = node /\ (get = true -> kind ∈ read_kinds).

Definition permits (g : ghost) {B} (o : hub_call B) : Prop :=
  match call_level o with Some l => l <= level | None => False end
  /\ match o with
     | HubEnqueue n req => may_queue g n (req_Kind req)
     | HubEnsure n _ _ _ => may_queue g n TaskDeployDomainAction
     | HubStatus n => may_queue g n TaskIntegrationStatus
     | HubMetrics n => may_queue g n TaskMetricsRead
     | HubApplyProfile n _ => may_queue g n TaskProfileApply
     | HubGetTask n id => admits g /\ n = node /\ (g_stage g = Waiting id \/ g_stage g = Idle)
     | HubGetNode n | HubListTasks n _ | HubGetProfile n => admits g /\ n = node
     | HubUpdateProfile n _ _ => admits g /\ n = node /\ get = false
     | RateAllow a lt => a = ip /\ lt = LimitMutate /\ get = false
     | HubRegister _ => get = false /\ node = ""
     | Audit _ _ | AuditFailure _ _ _ | Now => True
     | _ => admits g
     end.

Definition queued (g : ghost) (a : res Task) : ghost :=
  mkGhost (g_limited g) (match a with Ok task => Waiting (task_ID task) | Err _ => Refused end).

Definition after (g : ghost) {B} (o : hub_call B) : B -> ghost :=
  match o with
  | HubEnqueue _ _ | HubEnsure _ _ _ _ | HubStatus _ | HubMetrics _ => queued g
  | HubGetTask _ _ => fun a =>
      match g_stage g, a with
      | Waiting _, Ok task => if task_done task then mkGhost (g_limited g) (Seen task) else g
      | _, _ => g
      end
  | HubApplyProfile _ _ => fun a =>
      mkGhost (g_limited g) (match a with Ok _ => Applying None | Err _ => Refused end)
  | HubGetProfile _ => fun a =>
      match g_stage g, a with
      | Applying _, Ok response => mkGhost (g_limited g) (Applying (Some response))
      | _, _ => g
      end
  | RateAllow _ _ => fun allowed => mkGhost allowed (g_stage g)
  | _ => fun _ => g
  end.

(** The profile was read as applied. *)
Definition read_applied (read : option AgentProfileResponse) : Prop :=
  match read with Some response => ap_State (resp_Apply response) = "applied" | None => False end.

(** A success says what became of the task: read as completed, or only queued,
    which is not answered with [200 OK]; an apply is answered with [200 OK] only
    when the profile was read as applied. *)
Definition settled (g : ghost) (rsp : response) : Prop :=
  rsp_Status rsp < 300 ->
  match g_stage g with
  | Idle => True
  | Refused => False
  | Waiting _ => StatusOK < rsp_Status rsp
  | Seen task => task_Status task = TaskStatusCompleted
  | Applying read => StatusOK < rsp_Status rsp \/ read_applied read
  end.

Fixpoint obeys (g : ghost) (p : panel_prog) : Prop :=
  match p with
  | Ret rsp => settled g rsp
  | Call o k => permits g o /\ forall b, obeys (after g o b) (k b)
  end.

(** The protocol on a run. *)
Fixpoint follows (g : ghost) (tr : list answered) (rsp : response) : Prop :=
  match tr with
  | [] => settled g rsp
  | Answered o b :: tr' => permits g o /\ follows (after g o b) tr' rsp
  end.

Lemma obeys_runs p tr rsp : runs p tr rsp -> forall g, obeys g p -> follows g tr rsp.
Proof. induction 1; intros g; [done|]. intros [Hp Hk]. split; [done|]. by apply IHruns. Qed.

(** ** What the protocol says of a run *)

Lemma follows_levels tr rsp g : follows g tr rsp ->
  each (fun B o _ => exists l, call_level o = Some l /\ l <= level) tr.
Proof.
  revert g. induction tr as [|[B o b] tr IH]; intros g; [done|]. intros [[Hl _] Hf]. split; [|exact (IH _ Hf)].
  destruct (call_level o) as [l|]; [by exists l|done].
Qed.

Lemma follows_nodes tr rsp g : follows g tr rsp ->
  each (fun B o _ => match node_of o with Some n => n = node | None => True end) tr.
Proof.
  revert g. induction tr as [|[B o b] tr IH]; intros g; [done|]. intros [[_ Hp] Hf]. split; [|exact (IH _ Hf)].
  unfold may_queue in Hp. destruct o; cbn [node_of] in *; naive_solver.
Qed.

Lemma after_stays g {B} (o : hub_call B) b : g_stage g <> Idle -> g_stage (after g o b) <> Idle.
Proof.
  intros Hg. destruct o; cbn [after]; try done; try (by destruct b); destruct (g_stage g) eqn:Eg; try congruence;
    (destruct b as [x|]; [|congruence]); [destruct (task_done x); [done|congruence]|done].
Qed.

(** Once a task was queued, no other is. *)
Lemma follows_one tr rsp g : follows g tr rsp ->
  (g_stage g <> Idle -> queued_tasks tr = []) /\ (length (queued_tasks tr) <= 1)%nat.
Proof.
  revert g. induction tr as [|[B o b] tr IH]; intros g; [split; [done|]; simpl; lia|]. intros [[_ Hp] Hf].
  cbn [queued_tasks]. destruct (IH _ Hf) as [Hn Hl]. destruct (queue_of o) as [q|] eqn:E.
  - assert (g_stage g = Idle /\ g_stage (after g o b) <> Idle) as [Hg Ha].
    { destruct o; try done; destruct Hp as (_ & Hg & _); by destruct b. }
    rewrite (Hn Ha). simpl. split; [done|lia].
  - split; [|done]. intros Hg. by apply Hn, after_stays.
Qed.

(** The calls of [internal/agenthub]: all but the rate limiter's, the audit
    log's and the clock's. *)
Definition hub_service {B} (o : hub_call B) : bool :=
  match o with RateAllow _ _ | Audit _ _ | AuditFailure _ _ _ | Now => false | _ => true end.

(** Every call of the hub comes after the rate limit of the address let the
    request pass; the registration of a node, whose path names none, is the
    exception. *)
Fixpoint limited_calls (admitted : bool) (tr : list answered) : Prop :=
  match tr with
  | [] => True
  | Answered o b :: tr' =>
      match o with
      | HubRegister _ => node = ""
      | _ => hub_service o = true -> admitted = true
      end
      /\ limited_calls
           (match o in hub_call B return B -> bool with
            | RateAllow a lt => fun allowed => allowed && (a =?s ip) && (lt =?s LimitMutate)
            | _ => fun _ => admitted
            end b) tr'
  end.

Lemma follows_limited tr rsp g : get = false -> follows g tr rsp -> limited_calls (g_limited g) tr.
Proof.
  intros Hget. revert g. induction tr as [|[B o b] tr IH]; intros g; [done|]. intros [[_ Hp] Hf]. split.
  - destruct o; try done; unfold may_queue, admits in Hp; try (intros _; rewrite Hget in Hp; by destruct_and?; destruct_or?).
    by destruct Hp.
  - specialize (IH _ Hf). destruct o; cbn [after] in IH; try exact IH.
    + destruct (g_stage g) eqn:Eg; try exact IH. destruct b as [task|]; [|exact IH]. by destruct (task_done task).
    + destruct (g_stage g) eqn:Eg; try exact IH. by destruct b.
    + destruct Hp as (-> & -> & _). rewrite !String.eqb_refl, !andb_true_r. exact IH.
Qed.

(** What a [GET] asks of the hub: to read, or to queue one of [read_kinds]. *)
Definition reads_or_queues {B} (o : hub_call B) : Prop :=
  match queue_of o with
  | Some (n, kind) => n = node /\ kind ∈ read_kinds
  | None =>
      match o with
      | HubRegister _ | HubUpdateProfile _ _ _ | HubHeartbeat _ _ _ | HubPoll _ _ | HubComplete _ _ _ _ => False
      | _ => True
      end
  end.

Lemma follows_get tr rsp g : get = true -> follows g tr rsp -> each (fun B o _ => reads_or_queues o) tr.
Proof.
  intros Hget. revert g. induction tr as [|[B o b] tr IH]; intros g; [done|]. intros [[Hl Hp] Hf].
  split; [|exact (IH _ Hf)]. unfold reads_or_queues.
  destruct o; cbn [queue_of] in *; unfold may_queue in Hp; destruct_and?; try done; try (by split; auto); congruence.
Qed.

(** What a run knows of its task at the end. *)
Fixpoint final_stage (g : ghost) (tr : list answered) : stage :=
  match tr with
  | [] => g_stage g
  | Answered o b :: tr' => final_stage (after g o b) tr'
  end.

Lemma follows_settled tr rsp g : follows g tr rsp -> settled (mkGhost false (final_stage g tr)) rsp.
Proof. revert g. induction tr as [|[B o b] tr IH]; intros g; [by destruct g|]. intros [_ Hf]. exact (IH _ Hf). Qed.

(** ** Responses *)

Lemma obeys_response g status b : 300 <= status -> obeys g (jsonResponse status b).
Proof. intros H. unfold obeys, jsonResponse, settled. cbn [rsp_Status]. lia. Qed.

Lemma obeys_failure g status t : 300 <= status -> obeys g (jsonFailure status t).
Proof. apply obeys_response. Qed.

Lemma obeys_error g status s : 300 <= status -> obeys g (jsonError status s).
Proof. apply obeys_failure. Qed.

Lemma obeys_hub_error g e : obeys g (writeAgentHubError e).
Proof. destruct e; by apply obeys_response. Qed.

Lemma obeys_profile_error g e : obeys g (writeNodeProfileError e).
Proof. destruct e; by apply obeys_error. Qed.

Lemma obeys_bad_gateway g task : obeys g (bad_gateway task).
Proof. by apply obeys_error. Qed.

Lemma obeys_coded g code s : obeys g (jsonError (config_error_status code) s).
Proof. apply obeys_error. unfold config_error_status. by repeat case_match. Qed.

Lemma obeys_ok_idle g status b : g_stage g = Idle -> obeys g (jsonResponse status b).
Proof. intros E. unfold obeys, jsonResponse, settled. by rewrite E. Qed.

(** ** Parts of programs *)

(** A program that only writes the audit log and reads the clock. *)
Definition quiet_call {B} (o : hub_call B) : bool :=
  match o with Audit _ _ | AuditFailure _ _ _ | Now => true | _ => false end.

Definition quiet : panel_prog -> Prop := all_calls (fun B o => quiet_call o = true).

(** Once a completed task was read, or none was queued, any answer will do. *)
Definition free (g : ghost) : Prop :=
  match g_stage g with Idle => True | Seen task => task_Status task = TaskStatusCompleted | _ => False end.

Lemma obeys_quiet g p : RoleAdmin <= level -> free g -> quiet p -> obeys g p.
Proof.
  intros Ha. revert g. induction p as [rsp|B o k IH]; intros g Hf Hq.
  - unfold obeys, settled. unfold free in Hf. by destruct (g_stage g).
  - destruct Hq as [Ho Hk]. cbn [obeys]. assert (permits g o /\ forall b, after g o b = g) as [Hp E].
    { destruct o; cbn in Ho; try done; (split; [by split|done]). }
    split; [done|]. intros b. rewrite E. by apply IH, Hk.
Qed.

Lemma obeys_audit_failure g action details f p :
  RoleAdmin <= level -> obeys g p -> obeys g (Call (AuditFailure action details f) (fun _ => p)).
Proof. intros Ha Hp. by split. Qed.

Lemma obeys_audit g action details p :
  RoleAdmin <= level -> obeys g p -> obeys g (Call (Audit action details) (fun _ => p)).
Proof. intros Ha Hp. by split. Qed.

Lemma done_completed task : task_done task = true -> (task_Status task =?s TaskStatusFailed) = false ->
  task_Status task = TaskStatusCompleted.
Proof. unfold task_done. rewrite orb_true_iff. intros [E|E] F; [by apply String.eqb_eq in E|congruence]. Qed.

Lemma obeys_wait g r timeout id k :
  RoleAdmin <= level -> admits g -> g_stage g = Waiting id ->
  (forall f, obeys g (k (Err f))) ->
  (forall task, task_done task = true -> obeys (mkGhost (g_limited g) (Seen task)) (k (Ok task))) ->
  obeys g (waitForManagedNodeTask r timeout node id k).
Proof.
  intros Ha Hadm Hg He Hd. unfold waitForManagedNodeTask. generalize (r_Wait r timeout).2 as c.
  induction (r_Wait r timeout).1 as [|n IH]; intros c; cbn [wait_ticks obeys];
    (split; [split; [cbn [call_level]; unfold RoleAdmin, RoleManager in *; lia|by split_and!; [..|left]]|]);
    (intros [task|e]; cbn [after]; rewrite Hg; [|by apply He]); destruct (task_done task) eqn:E; auto.
Qed.

(** What a handler may do first. *)
Definition may_start (g : ghost) (kind : string) : Prop :=
  admits g /\ g_stage g = Idle /\ (get = true -> kind ∈ read_kinds).

Lemma read_start g kind :
  get = true -> g_stage g = Idle -> bool_decide (kind ∈ read_kinds) = true -> may_start g kind.
Proof. intros Hget Hg Hk%bool_decide_eq_true. split; [by left|done]. Qed.

Lemma write_start kind : get = false -> may_start (mkGhost true Idle) kind.
Proof. intros Hget. split; [by right|]. split; [done|congruence]. Qed.

Lemma start_queue g kind : may_start g kind -> may_queue g node kind.
Proof. by intros (? & ? & ?). Qed.

Lemma obeys_run_task g r req timeout failed done :
  RoleAdmin <= level -> may_start g (req_Kind req) ->
  (forall task, obeys (mkGhost (g_limited g) (Seen task)) (failed task)) ->
  (forall task, quiet (done task)) ->
  obeys g (run_task r node req timeout failed done).
Proof.
  intros Ha (Hadm & Hg & Hk) Hf Hd. unfold run_task. split; [by repeat split|]. intros [task|e]; [|apply obeys_hub_error].
  apply obeys_wait; [done|done|done|intros f; by apply obeys_failure|].
  intros t Ht. destruct (_ =?s _) eqn:E; [done|].
  apply obeys_quiet; [done|by apply done_completed|done].
Qed.
End protocol.

(** ** Every response of a program *)

Fixpoint responds (R : response -> Prop) (p : panel_prog) : Prop :=
  match p with
  | Ret rsp => R rsp
  | Call o k => forall b, responds R (k b)
  end.

Lemma responds_runs (R : response -> Prop) p tr rsp : responds R p -> runs p tr rsp -> R rsp.
Proof. intros Hp Hr. induction Hr as [|B o k b tr rsp Hr IH]; [done|]. apply IH, Hp. Qed.

Lemma responds_wait R r timeout n id k :
  (forall f, responds R (k (Err f))) -> (forall task, task_done task = true -> responds R (k (Ok task))) ->
  responds R (waitForManagedNodeTask r timeout n id k).
Proof.
  intros He Hd. unfold waitForManagedNodeTask. generalize (r_Wait r timeout).2 as c.
  induction (r_Wait r timeout).1 as [|m IH]; intros c; cbn [wait_ticks responds];
    (intros [task|e]; [destruct (task_done task) eqn:E|]); auto.
Qed.

Lemma calls_wait (P : forall B, hub_call B -> Prop) r timeout n id k :
  P _ (HubGetTask n id) -> (forall w, all_calls P (k w)) -> all_calls P (waitForManagedNodeTask r timeout n id k).
Proof.
  intros Hg Hk. unfold waitForManagedNodeTask. generalize (r_Wait r timeout).2 as c.
  induction (r_Wait r timeout).1 as [|m IH]; intros c; cbn [wait_ticks all_calls];
    (split; [done|]); (intros [task|e]; [destruct (task_done task)|]); auto.
Qed.

(** ** Quiet parts *)

Lemma quiet_with_data t invalid task k : (forall v, quiet (k v)) -> quiet (with_data t invalid task k).
Proof. intros Hk. unfold with_data. by destruct (Unmarshal _ _). Qed.

Lemma quiet_step {B} (o : hub_call B) k : quiet_call o = true -> (forall b, quiet (k b)) -> quiet (Call o k).
Proof. by split. Qed.

Lemma quiet_with_value t invalid task : quiet (with_value t invalid task).
Proof. by apply quiet_with_data. Qed.

Lemma quiet_with_text invalid task k : (forall s, quiet (k s)) -> quiet (with_text invalid task k).
Proof. intros Hk. by apply quiet_with_data. Qed.

Lemma quiet_with_message task invalid action details : quiet (with_message task invalid action details).
Proof. unfold with_message. by destruct (_ =?s _). Qed.

Lemma quiet_with_backup task invalid action details : quiet (with_backup task invalid action details).
Proof. unfold with_backup. by destruct (_ || _). Qed.

Lemma quiet_with_id task invalid action n : quiet (with_id task invalid action n).
Proof. unfold with_id. by destruct (_ || _). Qed.

Lemma quiet_audited task action details : quiet (audited_message task action details).
Proof. done. Qed.

Lemma quiet_cleanup n results k : quiet k -> quiet (audit_cleanup n results k).
Proof. intros Hk. induction results; [done|]. by split. Qed.

#[export] Hint Resolve quiet_with_data quiet_with_value quiet_with_text quiet_with_message quiet_with_backup
  quiet_with_id quiet_audited quiet_cleanup : quiet.

(** Follow the tests of a quiet part. *)
Ltac quiet_tac :=
  repeat match goal with
  | |- quiet _ => solve [eauto with quiet nocore]
  | |- forall _, _ => intro
  | |- quiet (with_data _ _ _ _) => apply quiet_with_data
  | |- quiet (with_text _ _ _) => apply quiet_with_text
  | |- quiet (audit_cleanup _ _ _) => apply quiet_cleanup
  | |- quiet (if ?b then _ else _) => destruct b
  | |- quiet (match ?x with _ => _ end) => destruct x
  | |- quiet (Call _ _) => apply quiet_step; [reflexivity|cbv beta]
  | |- quiet _ => exact I
  end.

(** ** Handlers *)

Section handlers.
Context (level : Z) (get : bool) (ip : string) (r : request).
Hypothesis Hadmin : RoleAdmin <= level.
Abbreviation ok := (obeys level get (path r "id") ip).

Definition read_handlers : list (request -> panel_prog) :=
  [handleRemoteNodeDiskCleanupScan; handleRemoteNodeFiles; handleRemoteNodeFileGet; handleRemoteNodeNginxConfigs;
   handleRemoteNodeNginxConfigGet; handleRemoteNodeDomains; handleRemoteNodeCertificates; handleRemoteNodePHPFPM;
   handleRemoteNodePHPFPMConfigGet; handleRemoteNodePM2; handleRemoteNodePM2Logs; handleRemoteNodeCronList;
   handleRemoteNodeFirewallList; handleRemoteNodeDatabases; handleRemoteNodeBackups; handleRemoteNodeDeployTargets;
   handleRemoteNodeLogs; handleRemoteNodeContainers].

Lemma read_handlers_obey g : get = true -> g_stage g = Idle -> Forall (fun h => ok g (h r)) read_handlers.
Proof.
  intros Hget Hg. unfold read_handlers. repeat first [apply List.Forall_cons|apply List.Forall_nil];
    cbv beta; match goal with |- obeys _ _ _ _ _ (?h _) => unfold h end;
    (apply obeys_run_task; [done|by apply read_start| |by quiet_tac]);
    intros task; first [apply obeys_bad_gateway|apply obeys_coded|apply obeys_error; by repeat case_match].
Qed.

Definition write_handlers : list (request -> panel_prog) :=
  [handleRemoteNodeDiskCleanupExecute; handleRemoteNodeFileSave; handleRemoteNodeNginxConfigSave;
   handleRemoteNodeNginxAction; handleRemoteNodeDomainAction; handleRemoteNodeCertificateAction;
   handleRemoteNodePHPFPMConfigSave; handleRemoteNodePHPFPMAction; handleRemoteNodePM2Action;
   handleRemoteNodeCronCreate; handleRemoteNodeCronUpdate; handleRemoteNodeCronDelete; handleRemoteNodeCronRun;
   handleRemoteNodeFirewallAdd; handleRemoteNodeFirewallDelete; handleRemoteNodeDatabaseAction;
   handleRemoteNodeBackupRun; handleRemoteNodeContainerAction].

Lemma write_handlers_obey : get = false -> Forall (fun h => ok (mkGhost true Idle) (h r)) write_handlers.
Proof.
  intros Hm. unfold write_handlers. repeat first [apply List.Forall_cons|apply List.Forall_nil];
    cbv beta; match goal with |- obeys _ _ _ _ _ (?h _) => unfold h end; cbv zeta;
    repeat match goal with
    | |- obeys _ _ _ _ _ (jsonError _ _) => by apply obeys_error
    | |- obeys _ _ _ _ _ (if ?b then _ else _) => destruct b
    | |- obeys _ _ _ _ _ (match ?x with _ => _ end) => destruct x
    end;
    (apply obeys_run_task; [done|by apply write_start| |by quiet_tac]);
    intros task; first [apply obeys_bad_gateway|apply obeys_coded|apply obeys_error; by repeat case_match].
Qed.

(** *** The inventory, the tasks and the profile *)

Definition inventory_handlers : list (request -> panel_prog) :=
  [handleRemoteNodeRebootStatus; handleRemoteNodeActionStatus; handleRemoteNodeProcesses; handleRemoteNodeMemory;
   handleRemoteNodeDisk; handleRemoteNodeDeployJobs; handleNodeProfileGet].

Lemma inventory_handlers_obey g : get = true -> g_stage g = Idle -> Forall (fun h => ok g (h r)) inventory_handlers.
Proof.
  intros Hget Hg. assert (admits get g) by by left. unfold inventory_handlers. repeat first [apply List.Forall_cons|apply List.Forall_nil];
    cbv beta; match goal with |- obeys _ _ _ _ _ (?h _) => unfold h end;
    (split; [split; [cbn [call_level]; unfold RoleAdmin, RoleManager, RoleViewer in *; lia|by split]|]);
    (intros [x|e]; [|first [apply obeys_hub_error|apply obeys_profile_error]]); cbn [after];
    rewrite ?Hg; try (split; [by split|intros now; cbn [after]]); by apply obeys_ok_idle.
Qed.

Lemma observation_ended_obeys g t s f : ok g (observation_ended t s f).
Proof. destruct f; by apply obeys_error. Qed.

Lemma observation_refused_obeys g e : ok g (observation_refused e).
Proof. destruct e; first [by apply obeys_error|apply obeys_hub_error]. Qed.

(** A completed task is followed by quiet checks. *)
Lemma obeys_checked g task p :
  task_Status task = TaskStatusCompleted -> quiet p -> ok (mkGhost (g_limited g) (Seen task)) p.
Proof. intros Ht Hq. by apply obeys_quiet. Qed.

Lemma integration_status_obeys g : get = true -> g_stage g = Idle -> ok g (handleRemoteNodeIntegrationStatus r).
Proof.
  intros Hget Hg. split; [split; [done|by apply start_queue, read_start]|]. intros [task|e]; [|apply observation_refused_obeys].
  apply obeys_wait; [done|by left|done|intros f; apply observation_ended_obeys|]. intros t Ht.
  destruct (negb _) eqn:E; [by apply obeys_error|]. breflect. apply obeys_checked; [done|]. by quiet_tac.
Qed.

Lemma metrics_obeys g : get = true -> g_stage g = Idle -> ok g (handleRemoteNodeMetrics r).
Proof.
  intros Hget Hg. split; [split; [done|by apply start_queue, read_start]|]. intros [task|e]; [|apply observation_refused_obeys].
  apply obeys_wait; [done|by left|done|intros f; apply observation_ended_obeys|]. intros t Ht.
  destruct (_ || _) eqn:E; [by apply obeys_error|]. breflect. apply obeys_checked; [done|]. by quiet_tac.
Qed.

(** *** Host actions and deployments *)

Lemma action_obeys : get = false -> ok (mkGhost true Idle) (handleRemoteNodeAction r).
Proof.
  intros Hm. split; [split; [done|by apply start_queue, write_start]|]. intros [task|e]; [|split; [done|intros; apply obeys_hub_error]].
  apply obeys_wait; [done|by right|done|intros f; split; [done|intros; by apply obeys_failure]|]. intros t Ht.
  destruct (_ =?s _) eqn:E; [split; [done|intros; apply obeys_bad_gateway]|].
  apply (obeys_checked (mkGhost true Idle)); [by apply done_completed|]. by quiet_tac.
Qed.

Lemma signal_obeys : get = false -> ok (mkGhost true Idle) (handleRemoteNodeProcessSignal r).
Proof.
  intros Hm. unfold handleRemoteNodeProcessSignal. destruct (decode_first _ _ _); [|by apply obeys_error].
  split; [split; [done|by apply start_queue, write_start]|]. intros [task|e]; [|split; [done|intros; apply obeys_hub_error]].
  apply obeys_wait; [done|by right|done|intros f; split; [done|intros; by apply obeys_failure]|]. intros t Ht.
  destruct (_ =?s _) eqn:E; [split; [done|intros; apply obeys_bad_gateway]|].
  apply (obeys_checked (mkGhost true Idle)); [by apply done_completed|]. by quiet_tac.
Qed.

Lemma deploy_action_obeys : get = false -> ok (mkGhost true Idle) (handleRemoteNodeDeployAction r).
Proof.
  intros Hm. split; [split; [done|by apply start_queue, write_start]|].
  intros [task|e]; (split; [done|intros []]); [|apply obeys_hub_error]. done.
Qed.

Lemma task_create_obeys : get = false -> ok (mkGhost true Idle) (handleNodeTaskCreate r).
Proof.
  intros Hm. unfold handleNodeTaskCreate. destruct (strict_body _ _ _ _); [|by apply obeys_error].
  destruct (negb _); [by apply obeys_error|]. split; [split; [done|by apply start_queue, write_start]|].
  intros [task|e]; [done|apply obeys_hub_error].
Qed.

Lemma profile_put_obeys : get = false -> ok (mkGhost true Idle) (handleNodeProfilePut r).
Proof.
  intros Hm. unfold handleNodeProfilePut. destruct (own_body _ _ _); [|by apply obeys_error].
  split; [split; [done|split_and!; [by right|done..]]|]. intros [x|e]; [|apply obeys_profile_error]. by split.
Qed.

Lemma profile_apply_obeys : get = false -> ok (mkGhost true Idle) (handleNodeProfileApply r).
Proof.
  intros Hm. unfold handleNodeProfileApply. destruct (own_body _ _ _); [|by apply obeys_error].
  split; [split; [done|by apply start_queue, write_start]|]. intros [x|e]; [|apply obeys_profile_error].
  split; [split; [done|split; [by right|done]]|]. intros [y|e]; [|apply obeys_profile_error]. cbn [after g_stage g_limited]. cbv zeta.
  split; [done|intros []]. destruct (_ =?s _) eqn:E; intros _; [right; by apply String.eqb_eq|by left].
Qed.

Lemma register_obeys g : g_stage g = Idle -> get = false -> obeys level get "" ip g (handleNodeRegister r).
Proof.
  intros Hg Hm. unfold handleNodeRegister. destruct (strict_body _ _ _ _); [|by apply obeys_error].
  split; [by split|]. intros [x|e]; [|apply obeys_hub_error]. by apply obeys_ok_idle.
Qed.

(** *** Agent releases *)

Lemma update_error_obeys g f : ok g (writeRemoteAgentUpdateError f).
Proof. destruct f as [[]|? []| |]; first [by apply obeys_error|by apply obeys_failure|apply obeys_hub_error]. Qed.

Lemma update_task_obeys g url req timeout k :
  may_start get g (req_Kind req) ->
  (forall g' f, ok g' (k (Err f))) -> (forall status, quiet (k (Ok status))) ->
  ok g (runRemoteAgentUpdateTask url r (path r "id") req timeout k).
Proof.
  intros Hs He Hq. pose proof (proj1 Hs) as Hadm. unfold runRemoteAgentUpdateTask.
  split; [split; [cbn [call_level]; unfold RoleAdmin, RoleViewer in *; lia|done]|].
  intros [node|e]; [|apply He]. split; [split; [done|by apply start_queue]|]. intros [task|e]; [|apply He].
  apply obeys_wait; [done|done|done|intros f; apply He|]. intros t Ht.
  destruct (_ =?s _) eqn:E; [apply He|]. destruct (Unmarshal _ _); [|apply He]. destruct (validRemoteAgentUpdateStatus _ _ _); [|apply He].
  apply (obeys_checked g); [by apply done_completed|done].
Qed.

Lemma update_status_obeys g url : get = true -> g_stage g = Idle -> ok g (handleRemoteAgentUpdateStatus url r).
Proof.
  intros Hget Hg. apply update_task_obeys; [by apply read_start|intros; apply update_error_obeys|by quiet_tac].
Qed.

Lemma lifecycle_failed_obeys g action details scheduled named f :
  ok g (lifecycle_answer action details scheduled named (Err f)).
Proof. split; [done|]. intros []. apply update_error_obeys. Qed.

Lemma lifecycle_quiet action details scheduled named status :
  quiet (lifecycle_answer action details scheduled named (Ok status)).
Proof. unfold lifecycle_answer. by destruct (negb _). Qed.

Lemma upgrade_obeys url : get = false -> ok (mkGhost true Idle) (handleRemoteAgentUpgrade url r).
Proof.
  intros Hm. unfold handleRemoteAgentUpgrade. destruct (decodeStrictJSON _ _ _); [|by apply obeys_error].
  cbv zeta. destruct (_ || _); [by apply obeys_error|].
  apply update_task_obeys; [by apply write_start|intros; apply lifecycle_failed_obeys|intros; apply lifecycle_quiet].
Qed.

Lemma rollback_obeys url : get = false -> ok (mkGhost true Idle) (handleRemoteAgentRollback url r).
Proof.
  intros Hm. unfold handleRemoteAgentRollback. destruct (decodeStrictJSON _ _ _); [|by apply obeys_error].
  destruct (negb _); [by apply obeys_error|].
  apply update_task_obeys; [by apply write_start|intros; apply lifecycle_failed_obeys|intros; apply lifecycle_quiet].
Qed.
End handlers.

(** *** Project domains *)

Section domains.
Context `{UnicodeTables} `{LowerTable}.
Context (level : Z) (get : bool) (ip : string) (r : request).
Hypothesis Hadmin : RoleAdmin <= level.
Abbreviation ok := (obeys level get (path r "id") ip).

Lemma domains_obey g : get = true -> g_stage g = Idle -> ok g (handleRemoteNodeDeployDomains r).
Proof.
  intros Hget Hg. apply obeys_run_task; [done|by apply read_start|intros; apply obeys_bad_gateway|].
  by quiet_tac.
Qed.

Lemma domain_health_obeys g : get = true -> g_stage g = Idle -> ok g (handleRemoteNodeDeployDomainHealth r).
Proof.
  intros Hget Hg. apply obeys_run_task; [done|by apply read_start|intros; apply obeys_bad_gateway|].
  by quiet_tac.
Qed.

Lemma action_failure_obeys g f : ok g (writeRemoteDeployDomainActionError f).
Proof.
  destruct f as [[]| | |]; first [by apply obeys_failure|apply obeys_hub_error|apply obeys_bad_gateway|by apply obeys_error].
Qed.

Lemma domain_action_obeys action domain email timeout k :
  get = false -> (forall g f, ok g (k (Err f))) -> (forall a, quiet (k (Ok a))) ->
  ok (mkGhost true Idle) (runRemoteDeployDomainAction r action domain email timeout k).
Proof.
  intros Hm He Hq. unfold runRemoteDeployDomainAction. cbv zeta.
  split; [split; [done|by apply start_queue, write_start]|]. intros [task|e]; [|apply He]. split; [done|intros []].
  apply obeys_wait; [done|by right|done|intros f; split; [done|intros []; apply He]|]. intros t Ht.
  destruct (task_Status t =?s TaskStatusFailed) eqn:E; [split; [done|intros []; apply He]|].
  destruct (action =?s "delete"); [apply obeys_quiet; [done|by apply done_completed|by apply quiet_step]|].
  destruct (Unmarshal _ _) as [v|]; [|apply He]. destruct (negb _); [apply He|].
  apply obeys_quiet; [done|by apply done_completed|by apply quiet_step].
Qed.

Lemma answer_domain_obeys g status f : ok g (answer_domain status (Err f)).
Proof. apply action_failure_obeys. Qed.

Lemma answer_domain_quiet status a : quiet (answer_domain status (Ok a)).
Proof. by destruct a. Qed.

Lemma domain_create_obeys : get = false -> ok (mkGhost true Idle) (handleRemoteNodeDeployDomainCreate r).
Proof.
  intros Hm. unfold handleRemoteNodeDeployDomainCreate. destruct (decode_first_known _ _ _); [|by apply obeys_error].
  apply domain_action_obeys; [done|intros; apply answer_domain_obeys|intros; apply answer_domain_quiet].
Qed.

Lemma domain_delete_obeys : get = false -> ok (mkGhost true Idle) (handleRemoteNodeDeployDomainDelete r).
Proof. intros Hm. by apply domain_action_obeys; [|intros; apply action_failure_obeys|]. Qed.

Lemma tls_enable_obeys parse : get = false -> ok (mkGhost true Idle) (handleRemoteNodeDeployDomainTLSEnable parse r).
Proof.
  intros Hm. unfold handleRemoteNodeDeployDomainTLSEnable.
  destruct (decode_first_known _ _ _); [|by apply obeys_error]. cbv zeta. destruct (_ && _); [by apply obeys_error|].
  apply domain_action_obeys; [done|intros; apply answer_domain_obeys|intros; apply answer_domain_quiet].
Qed.

Lemma tls_action_obeys action : get = false -> ok (mkGhost true Idle) (handleRemoteNodeDeployDomainTLSAction action r).
Proof.
  intros Hm. apply domain_action_obeys; [done|intros; apply answer_domain_obeys|intros; apply answer_domain_quiet].
Qed.

Lemma ensure_refused_obeys g e : ok g (writeRemoteDeployDomainEnsureEnqueueError e).
Proof. destruct e; first [by apply obeys_error|apply obeys_hub_error]. Qed.

Lemma ensure_failed_obeys g task : ok g (ensure_failed task).
Proof. unfold ensure_failed. cbv zeta. repeat case_match; by apply obeys_error. Qed.

Lemma ensure_obeys : get = false -> path r "node_id" <> "" ->
  obeys level get (path r "node_id") ip (mkGhost true Idle) (handleRemoteNodeDeployDomainEnsure r).
Proof.
  intros Hm Hn. unfold handleRemoteNodeDeployDomainEnsure.
  destruct (decodeRemoteDeployDomainEnsureRequest _) as [q|]; [|by apply obeys_error].
  unfold remoteDeployDomainPathValues. apply String.eqb_neq in Hn. rewrite Hn. cbv zeta.
  split; [split; [done|by apply start_queue, write_start]|]. intros [task|x]; [|destruct x; first [by apply obeys_error|apply obeys_hub_error]].
  split; [done|intros []]. apply obeys_wait; [done|by right|done|intros []; by apply obeys_error|]. intros t Ht.
  destruct (task_Status t =?s TaskStatusFailed) eqn:E; [unfold ensure_failed; cbv zeta; repeat case_match; by apply obeys_error|].
  apply obeys_quiet; [done|by apply done_completed|]. by quiet_tac.
Qed.
End domains.

(** *** What every user or manager may read *)

Section readers.
Context (level : Z) (node ip : string) (r : request).
Abbreviation reads := (obeys level true).

Lemma get_admits g : admits true g.
Proof. by left. Qed.
#[local] Hint Resolve get_admits : core.

Lemma node_list_obeys g Version :
  RoleViewer <= level -> g_stage g = Idle -> reads node ip g (handleNodeList Version r).
Proof.
  intros Hl Hg. split; [done|]. intros [nodes|e]; [|apply obeys_hub_error]. simpl. generalize (@nil managedNodeResponse).
  induction nodes as [|n nodes IH]; intros rs; [by apply obeys_ok_idle|]. split; [done|]. intros online. apply IH.
Qed.

Lemma node_get_obeys g Version :
  RoleViewer <= level -> g_stage g = Idle -> reads (path r "id") ip g (handleNodeGet Version r).
Proof.
  intros Hl Hg. split; [done|]. intros [n|e]; [|apply obeys_hub_error]. split; [done|]. intros online.
  by apply obeys_ok_idle.
Qed.

Lemma task_list_obeys g :
  RoleManager <= level -> g_stage g = Idle -> reads (path r "id") ip g (handleNodeTaskList r).
Proof.
  intros Hl Hg. unfold handleNodeTaskList. cbv zeta. repeat case_match; try (by apply obeys_error);
    (split; [done|]); (intros [l|e]; [by apply obeys_ok_idle|apply obeys_hub_error]).
Qed.

Lemma task_get_obeys g :
  RoleManager <= level -> g_stage g = Idle -> reads (path r "id") ip g (handleNodeTaskGet r).
Proof.
  intros Hl Hg. unfold handleNodeTaskGet. destruct (positive_id _); [|by apply obeys_error].
  split; [split; [done|split_and!; [done|done|by right]]|].
  intros [l|e]; cbn [after]; rewrite Hg; [by apply obeys_ok_idle|apply obeys_hub_error].
Qed.
End readers.

(** ** Routes *)

(** What the session and the path of a request say. *)
Definition is_get (r : request) : bool := match_method "GET" (r_Method r).
Definition request_node (r : request) : string := nth 2 (r_Segments r) "".

Section routes.
Context `{UnicodeTables} `{LowerTable}.
Context (ValidateToken : string -> option User).
Context (Version : string) (url_ParseRequestURI : string -> option URL)
  (ParseAddress : string -> option (string * string)).

Definition session_user (r : request) : option User :=
  if session_token r =?s "" then None else ValidateToken (session_token r).

(** Nobody has level 0. *)
Definition session_level (r : request) : Z :=
  match session_user r with Some user => roleLevel (user_Role user) | None => 0 end.

Definition request_obeys (r : request) (p : panel_prog) : Prop :=
  obeys (session_level r) (is_get r) (request_node r) (RealIP r) start_ghost p.

Definition route_obeys (rt : route) : Prop :=
  forall r values, matches r rt = Some values -> request_obeys r (rt_Handler rt (set_path_values values r)).

(** *** Patterns *)

Definition node_pattern (name pattern : string) : bool :=
  match (parse_pattern pattern).2 with
  | Literal a :: Literal b :: Wildcard n :: _ => (a =?s "api") && (b =?s "nodes") && (n =?s name)
  | _ => false
  end.

Definition changing_pattern (pattern : string) : bool :=
  let m := (parse_pattern pattern).1 in negb (m =?s "GET") && negb (m =?s "HEAD").

Definition get_pattern (pattern : string) : bool := (parse_pattern pattern).1 =?s "GET".

Lemma pattern_get pattern h r values :
  get_pattern pattern = true -> matches r (route_of pattern h) = Some values -> is_get r = true.
Proof.
  unfold get_pattern, matches, route_of, is_get. cbn [rt_Method rt_Pattern]. intros Hp%String.eqb_eq. rewrite Hp.
  by destruct (match_method _ _).
Qed.

Lemma node_value name pattern h r values :
  node_pattern name pattern = true -> matches r (route_of pattern h) = Some values ->
  request_node r = value_of values name /\ value_of values name <> "".
Proof.
  unfold node_pattern, matches, route_of. cbn [rt_Method rt_Pattern].
  destruct (parse_pattern pattern).2 as [|[a|] [|[b|] [|[|n] rest]]]; try done. intros Hp.
  destruct (match_method _ _); [|done]. destruct (r_Segments r) as [|x segs] eqn:E; [done|]. cbn [match_segments].
  destruct (a =?s x); [|done]. destruct segs as [|y segs]; [done|]. cbn [match_segments].
  destruct (b =?s y); [|done]. destruct segs as [|z zs]; [done|]. cbn [match_segments].
  destruct (z =?s "") eqn:Ez; [done|].
  destruct (match_segments rest zs) as [vs|]; [|done]. intros [= <-]. breflect. subst.
  unfold request_node, value_of. rewrite E. cbn [nth find fst]. rewrite String.eqb_refl. by cbn.
Qed.

Lemma changing_not_get pattern h r values :
  changing_pattern pattern = true -> matches r (route_of pattern h) = Some values -> is_get r = false.
Proof.
  unfold changing_pattern, matches, route_of, is_get, match_method. cbn [rt_Method rt_Pattern]. intros Hc. breflect.
  destruct (_ =?s r_Method r) eqn:E; cbn [orb].
  - intros _. apply String.eqb_eq in E as <-. apply orb_false_iff. split; [apply String.eqb_neq; congruence|].
    apply andb_false_iff. right. by apply String.eqb_neq.
  - by apply String.eqb_neq in H1 as ->.
Qed.

(** *** Middleware *)

Lemma withAuth_obeys h r values :
  (forall user, session_user r = Some user -> request_obeys r (h (set_user user (set_path_values values r)))) ->
  request_obeys r (withAuth ValidateToken h (set_path_values values r)).
Proof.
  intros Hh. unfold withAuth, session_user in *. change (session_token (set_path_values values r)) with (session_token r).
  destruct (session_token r =?s ""); [by apply obeys_error|].
  destruct (ValidateToken (session_token r)); [by apply Hh|by apply obeys_error].
Qed.

Lemma requireRole_obeys role h r r' :
  (forall user, session_user r = Some user -> r_User r' = Some user) ->
  (role <= session_level r -> request_obeys r (h r')) ->
  session_user r <> None -> request_obeys r (requireRole role h r').
Proof.
  intros Hu Hh Hs. unfold requireRole, session_level in *. destruct (session_user r) as [user|]; [|done].
  rewrite (Hu user eq_refl). destruct (_ <? _) eqn:E; [by apply obeys_error|]. breflect. auto.
Qed.

(** Every valid session is of a viewer at least. *)
Lemma session_viewer r user : session_user r = Some user -> RoleViewer <= session_level r.
Proof. unfold session_level, roleLevel. intros ->. by repeat case_match. Qed.

Section path_values.
Context (name pattern : string) (h : request -> panel_prog).
Hypothesis Hname : node_pattern name pattern = true.

Lemma role_route role :
  get_pattern pattern = true ->
  (forall level ip r g, role <= level -> g_stage g = Idle -> obeys level true (path r name) ip g (h r)) ->
  route_obeys (route_of pattern (withAuth ValidateToken (requireRole role h))).
Proof.
  intros Hget Hh r values Hm. destruct (node_value _ _ _ _ _ Hname Hm) as [En _]. apply withAuth_obeys. intros user Hu.
  apply requireRole_obeys; [by intros ? [= <-]%(eq_trans (eq_sym Hu))| |congruence]. intros Hl. unfold request_obeys.
  rewrite En, (pattern_get _ _ _ _ Hget Hm).
  by apply (Hh _ _ (set_user user (set_path_values values r))).
Qed.

Lemma limited_route :
  changing_pattern pattern = true ->
  (forall level get ip r, RoleAdmin <= level -> get = false -> path r name <> "" ->
     obeys level get (path r name) ip (mkGhost true Idle) (h r)) ->
  route_obeys (route_of pattern (withAuth ValidateToken (requireRole RoleAdmin (limited h)))).
Proof.
  intros Hc Hh r values Hm. destruct (node_value _ _ _ _ _ Hname Hm) as [En Hne].
  pose proof (changing_not_get _ _ _ _ Hc Hm) as Hg. apply withAuth_obeys. intros user Hu.
  apply requireRole_obeys; [by intros ? [= <-]%(eq_trans (eq_sym Hu))| |congruence]. intros Hl.
  split; [by repeat split|]. intros []; [|by apply obeys_error].
  unfold request_obeys. rewrite En. by apply (Hh _ _ _ (set_user user (set_path_values values r))).
Qed.
End path_values.
End routes.
