(* ===== verification/PanelSamples.v ===== *)
(** * The panel against its database

    [hub_host] answers the calls of a handler from a database and a rate limiter.
    Between two calls the other goroutines of the panel run: their service calls
    are part of [surroundings], and so are the readings of the clock and the
    random bytes a call takes. *)

From stdpp Require Import base strings gmap list.
From Stdlib Require Import ZArith Lia Ascii.
From S2P Require Import Prelude GoStrings GoBase64 GoJson GoTime HubTypes TaskGate Profile IntegrationStatus Repository Service HubSystem ServiceFacts TaskGateClaims HostClaims Samples AgentConfig AgentTasks GoTyped RemoteNodes PanelApi RateLimit PanelNodes PanelDomains PanelAgents PanelRouter PanelFacts.
Local Open Scope Z_scope.
Local Open Scope hub_scope.

Section host.
Context `{UnicodeTables} `{TokenBucket}.

(** What happens around the n-th call of a program. *)
Record surroundings : Type := mkSurroundings {
  s_others : nat -> list call;
  s_checked : nat -> time;
  s_written : nat -> time;
  s_random : nat -> list Z;
  s_readings : nat -> readings
}.

Record world : Type := mkWorld {
  w_db : db;
  w_limiter : RateLimiter;
  w_calls : nat;
  w_audit : list (string * string)
}.

Context (s : surroundings) (user : option User).

(** [auditHostAction] writes for a user only. *)
Definition audited (action details : string) (log : list (string * string)) : list (string * string) :=
  match user with Some _ => log ++ [(action, details)] | None => log end.

Definition text_of (t : text) : string := match t with Text s => s | HubText _ => "hub error" end.

(** A call of the service, its effect on the database. *)
Definition on_db {B} (w : world) (a : B * db) : B * world :=
  (a.1, mkWorld a.2 (w_limiter w) (S (w_calls w)) (w_audit w)).

Definition on_log (w : world) (action details : string) : unit * world :=
  (tt, mkWorld (w_db w) (w_limiter w) (S (w_calls w)) (audited action details (w_audit w))).

(** The others run before the call. *)
Definition arrive (w : world) : world :=
  mkWorld (foldl (fun d c => ServiceFacts.run c d) (w_db w) (s_others s (w_calls w))) (w_limiter w) (w_calls w) (w_audit w).

Definition answer_call {B} (o : hub_call B) (w : world) : B * world :=
  let d := w_db w in
  let n := w_calls w in
  let checked := s_checked s n in
  let written := s_written s n in
  match o in hub_call B return B * world with
  | HubEnqueue node req => on_db w (EnqueueTask d node req checked written)
  | HubEnsure node target domain revision =>
      on_db w (EnqueueDeployDomainEnsure d node target domain revision checked written)
  | HubStatus node => on_db w (EnqueueIntegrationStatusTask d node checked written)
  | HubMetrics node => on_db w (EnqueueMetricsTask d node checked written)
  | HubGetTask node id => on_db w (GetTaskForNode d node id, d)
  | HubListTasks node limit => on_db w (ListTasksForNode d node limit, d)
  | HubGetNode node => on_db w (GetNode d node, d)
  | HubListNodes => on_db w (ListNodes d, d)
  | HubOnline node => on_db w (IsNodeOnline node checked, d)
  | HubRegister req => on_db w (RegisterNode d req (s_random s n) checked)
  | HubHeartbeat node token req => on_db w (Service.Heartbeat d node token req checked)
  | HubPoll node token => on_db w (PollTask d node token checked)
  | HubComplete node token id req => on_db w (CompleteTask d node token id req checked written)
  | HubGetProfile node => on_db w (GetNodeProfile d node checked, d)
  | HubUpdateProfile node profile revision => on_db w (UpdateNodeProfile d node profile revision checked written)
  | HubApplyProfile node revision => on_db w (ApplyNodeProfile d node revision checked written)
  | RateAllow ip lt =>
      let '(allowed, limiter) := Allow (w_limiter w) ip lt (s_readings s n) in
      (allowed, mkWorld d limiter (S n) (w_audit w))
  | Audit action details => on_log w action details
  | AuditFailure action details f => on_log w action (details +:+ " failed: " +:+ text_of (failure_text f))
  | Now => on_db w (checked, d)
  end.

Definition hub_host (B : Type) (o : hub_call B) (w : world) : B * world := answer_call o (arrive w).

(** A run with its trace. *)
Definition run_traced : panel_prog -> world -> list answered * response * world := trace_of hub_host.

Lemma run_traced_runs p w : runs p (run_traced p w).1.1 (run_traced p w).1.2.
Proof. apply trace_of_runs. Qed.
End host.

(** ** Concrete requests and surroundings for the panel's theorems *)

#[local] Existing Instance latin_tables.

(** A token bucket in whole nanoseconds: the interval of a token, the burst, the
    credit and when it was counted. *)
#[export] Instance sample_bucket : TokenBucket := {|
  Rate := Z;
  Limiter := Z * Z * Z * Z;
  rate_Every := fun d => d;
  rate_zero := 0;
  NewLimiter := fun every burst => (every, burst, every * burst, 0);
  limiter_Allow := fun '(every, burst, credit, last) now =>
    let credit := Z.min (every * burst) (credit + (now - last)) in
    if (0 <? every) && (every <=? credit) then (true, (every, burst, credit - every, now))
    else (false, (every, burst, credit, now))
|}.

#[export] Instance sample_lower : LowerTable := fun r => r.

(** The node of the samples, with the capabilities to manage files. *)
Definition files_heartbeat : HeartbeatRequest :=
  mkHeartbeat ProtocolVersion sample_node "1.4.0"
    (Some [CapabilityInventory; CapabilityFilesRead; CapabilityFilesWrite])
    "edge-01.example" sample_now sample_inventory None.

Definition files_db : db := Eval vm_compute in (UpdateHeartbeat sample_d1 sample_node files_heartbeat sample_now).2.

Lemma files_db_reachable : reachable files_db.
Proof.
  eapply reachable_step; [eapply reachable_step; [exists []; constructor|apply sample_step1]|].
  eapply step_as; [apply (step_heartbeat _ sample_node files_heartbeat sample_now)|..]; vm_compute; reflexivity.
Qed.

(** An administrator, and tokens that name him. *)
Definition sample_admin : User := mkUser 1 "root@example.org" "Root" "admin".
Definition sample_validate (token : string) : option User :=
  if String.eqb token "good" then Some sample_admin else None.

Definition sample_checksum : string := String.concat "" (replicate 8 "0123abcd").

(** The body of a file save. *)
Definition sample_body : string :=
  marshal (JObj [("path", jstr "/srv/app/config.ini"); ("content", jstr "port = 8080"); ("checksum", jstr sample_checksum)]).

Definition sample_request (method : string) (segments : list string) (body : string) : request := {|
  r_Method := method;
  r_Path := String slash (join slash segments);
  r_Segments := segments;
  r_PathValue := fun _ => "";
  r_Query := fun _ => "";
  r_Header := fun name => if String.eqb name "Authorization" then "Bearer good" else "";
  r_Cookie := fun _ => None;
  r_RemoteAddr := "192.0.2.7:50000";
  r_Body := body;
  r_Wait := fun _ => (3%nat, DeadlineExceeded);
  r_User := None
|}.

Definition save_request : request := sample_request "PUT" ["api"; "nodes"; sample_node; "file"] sample_body.

Definition saved_report : TaskResultRequest :=
  completed (<["message" := "File saved"]> {["backup" := "/var/backups/config.ini.1"]}).

(** The agent polls and reports before the third read of the task: call 0 is the
    rate limit, call 1 queues the task. *)
Definition sample_surroundings (first : nat) : surroundings := {|
  s_others := fun n =>
    if Nat.eqb n (first + 2)
    then [CallPoll sample_node sample_token sample_later;
          CallComplete sample_node sample_token 1 saved_report sample_later sample_later]
    else [];
  s_checked := fun _ => sample_later;
  s_written := fun _ => sample_later;
  s_random := fun _ => sample_raw_token;
  s_readings := fun _ => mkReadings sample_later sample_later sample_later sample_later
|}.

Definition sample_world : world := mkWorld files_db NewRateLimiter 0 [].

Definition sample_serve : request -> option panel_prog :=
  serve sample_validate "1.4.0" (fun _ => None) (fun _ => None).

Definition save_program : panel_prog :=
  match sample_serve save_request with Some p => p | None => Ret (mkAnswer StatusNotFound BNull) end.

Lemma save_served : sample_serve save_request = Some save_program.
Proof.
  unfold save_program. destruct (sample_serve save_request) eqn:E; [done|]. exfalso.
  assert (match sample_serve save_request with Some _ => true | None => false end = true) as Hs by (by vm_compute).
  by rewrite E in Hs.
Qed.

Definition save_run := run_traced (sample_surroundings 1) (Some sample_admin) save_program sample_world.

Example save_answers :
  save_run.1.2 = mkAnswer StatusOK (BStrings [("message", "Remote file saved"); ("backup", "/var/backups/config.ini.1")]).
Proof. vm_compute. reflexivity. Qed.

Example save_audited : w_audit save_run.2 = [("remote_file_save", "edge-01: /srv/app/config.ini")].
Proof. vm_compute. reflexivity. Qed.
