(* ===== verification/PanelTaskClaims.v ===== *)
(** * A task through the panel, the hub and the agent

    [delegated]: a task a handler queues for an idle online node is what the
    agent's next poll delivers, and the report the agent then sends is what the
    handler reads.  [run_task_answers]: the handlers that wait for a task answer
    from that report. *)

From stdpp Require Import base strings gmap list.
From Stdlib Require Import ZArith Lia Ascii.
From S2P Require Import Prelude GoStrings GoBase64 GoJson GoTime HubTypes TaskGate Profile Repository Service HubSystem ServiceFacts TaskGateClaims HostClaims Samples ServiceClaims AgentStore AgentApply AgentConfig AgentTasks AgentTasksClaims GoTyped IntegrationStatus RemoteNodes PanelApi RateLimit PanelNodes PanelDomains PanelAgents PanelRouter PanelFacts PanelSamples.
Local Open Scope Z_scope.
Local Open Scope hub_scope.

(** Kinds whose results the hub checks no further than any result. *)
Definition plain_kind (kind : string) : bool :=
  negb (existsb (String.eqb kind) [TaskIntegrationStatus; TaskMetricsRead; TaskProfileApply]).

Lemma plain_result task req now : plain_kind (task_Kind task) = true -> result_for_kind task req now = Ok tt.
Proof.
  unfold plain_kind, result_for_kind. cbn [existsb]. intros Hk. breflect.
  repeat match goal with E : _ <> _ |- _ => rewrite (proj2 (String.eqb_neq _ _) E); clear E end. done.
Qed.

Lemma scanTask_result r t m :
  scanTask r = Ok t -> tr_result_json r = marshalStringMap m -> utf8_map m -> task_Result t = m.
Proof.
  unfold scanTask. intros Hs E Hm. rewrite E, map_text_roundtrip in Hs by done. inv_ok Hs. simplify_eq/=. done.
Qed.

Section delegate.
Context `{UnicodeTables}.

(** The node is registered, online and capable, the request is valid, the ids
    last, and nothing else is queued for the node. *)
Record deliverable (d : db) (nodeID token : string) (req : TaskRequest) (checked written : time) : Prop := {
  dl_reachable : reachable d;
  dl_utf8 : utf8_map (req_Payload req);
  dl_clock : clock_ok written = true;
  dl_ids : db_next_id d <= max_int64;
  dl_node : exists node, Service.GetNode d nodeID = Ok node
    /\ capabilityForTask (req_Kind req) ∈ node_Capabilities node /\ IsNodeOnline node checked = true;
  dl_valid : ValidateTaskRequest req = Ok tt;
  dl_plain : plain_kind (req_Kind req) = true;
  dl_generic : get (req_Payload req) "action" <> "ensure";
  dl_idle : Forall (fun r => tr_node_id r = nodeID -> tr_status r <> TaskStatusQueued) (db_tasks d);
  dl_agent : exists agent, AuthenticateNode d nodeID token = Ok agent
}.

Definition recordable (report : TaskResultRequest) : Prop :=
  ValidateTaskResultRequest report = Ok tt /\ utf8_map (tres_Result report).

(** What is read of a task its agent reported. *)
Definition reported (t : Task) (id : Z) (report : TaskResultRequest) : Prop :=
  task_ID t = id /\ task_Status t = tres_Status report /\ task_Result t = tres_Result report
  /\ task_Error t = tres_Error report.

(** The hub's part of a delegation: the poll and the report of the agent. *)
Definition delivered (d1 : db) (nodeID token : string) (req : TaskRequest) (id : Z) : Prop :=
  forall polled, clock_ok polled = true ->
  exists t d2, PollTask d1 nodeID token polled = (Ok (Some t), d2)
    /\ task_ID t = id /\ task_NodeID t = nodeID /\ task_Kind t = req_Kind req /\ task_Payload t = req_Payload req
    /\ forall report checked written, recordable report -> clock_ok written = true ->
       exists t' d3, Service.CompleteTask d2 nodeID token id report checked written = (Ok t', d3)
         /\ exists t3, Service.GetTaskForNode d3 nodeID id = Ok t3 /\ reported t3 id report.

Lemma authenticate_same d d' nodeID token : db_nodes d' = db_nodes d ->
  AuthenticateNode d' nodeID token = AuthenticateNode d nodeID token.
Proof. intros E. unfold AuthenticateNode, AuthenticateToken, Repository.GetNode. by rewrite E. Qed.

Lemma authenticate_valid d nodeID token agent : AuthenticateNode d nodeID token = Ok agent -> validNodeID nodeID = true.
Proof. unfold AuthenticateNode. by destruct (validNodeID nodeID). Qed.

(** The oldest queued task of an idle node is the one just added. *)
Lemma find_new d nodeID row l :
  Forall (fun r => tr_node_id r = nodeID -> tr_status r <> TaskStatusQueued) l ->
  tr_node_id row = nodeID -> tr_status row = TaskStatusQueued -> db_tasks d = l ++ [row] ->
  find_task (queued_for nodeID) (db_tasks d) = Some row.
Proof.
  intros Hl Hn Hs ->. unfold find_task. induction Hl as [|x l Hx _ IH]; simpl; unfold queued_for in *.
  - by rewrite Hn, Hs, !String.eqb_refl.
  - destruct (tr_node_id x =?s nodeID) eqn:E; [|done]. breflect. rewrite (proj2 (String.eqb_neq _ _)) by auto. done.
Qed.

(** The row of a reported task. *)
Lemma reported_row d2 r task nodeID id report checked written :
  hub_inv d2 -> r ∈ db_tasks d2 -> tr_status r = TaskStatusRunning -> tr_node_id r = nodeID -> tr_id r = id ->
  validNodeID nodeID = true -> scanTask r = Ok task -> plain_kind (task_Kind task) = true ->
  recordable report -> clock_ok written = true ->
  exists t' d3, CompleteTaskForNode d2 nodeID id report checked written = (Ok t', d3)
    /\ exists t3, Service.GetTaskForNode d3 nodeID id = Ok t3 /\ reported t3 id report.
Proof.
  intros Hd2 Hr Hs <- <- Hid Hsc Hk [Hv Hu] Hc.
  destruct (complete_succeeds d2 r task report checked written) as (t' & d3 & Hct & _); auto using plain_result.
  exists t', d3. split; [done|]. apply CompleteTaskForNode_ok in Hct as (_ & -> & _ & _).
  pose proof (complete_update_inv d2 (tr_node_id r) (tr_id r) report written Hv Hu Hc Hd2) as Hd3.
  unfold complete_update in Hd3. pose proof (result_status _ Hv) as Hst.
  assert (check_task_status (tres_Status report) = true) as Hck by (by destruct Hst as [-> | ->]).
  rewrite Hck, andb_false_r in Hd3. cbn [snd] in Hd3. set (d3 := set_tasks _ _ _) in *.
  set (row := complete_row report (formatTime written) r).
  assert (row ∈ db_tasks d3) as Hin.
  { simpl. unfold update_where. apply list_elem_of_fmap. exists r. unfold claimed_by.
    by rewrite Hs, Z.eqb_refl, !String.eqb_refl. }
  destruct (scanTask_ok row) as (t3 & Ht3 & Hreads); [by apply (row_in d3)|].
  exists t3. split.
  - unfold Service.GetTaskForNode. pose proof (inv_ids _ Hd2) as Hids. rewrite Forall_forall in Hids.
    specialize (Hids r Hr). simpl in Hids. rewrite Hid, (proj2 (Z.leb_gt _ _)) by lia. cbn [negb orb].
    change (tr_node_id r) with (tr_node_id row). change (tr_id r) with (tr_id row). by rewrite (GetTaskForNode_in d3).
  - split_and!; [apply (reads_id _ _ Hreads)|apply (reads_status _ _ Hreads)| |apply (reads_error _ _ Hreads)].
    by eapply scanTask_result.
Qed.

Lemma delegated d nodeID token req checked written :
  deliverable d nodeID token req checked written ->
  exists t d1, EnqueueTask d nodeID req checked written = (Ok t, d1) /\ task_ID t = db_next_id d
    /\ (exists t0, Service.GetTaskForNode d1 nodeID (db_next_id d) = Ok t0 /\ task_done t0 = false)
    /\ delivered d1 nodeID token req (db_next_id d).
Proof.
  intros [Hreach Hu Hc Hmax (node & Hnode & Hcap & Hon) Hv Hk Hgen Hidle [agent Hag]].
  pose proof (reachable_inv _ Hreach) as Hd.
  destruct (EnqueueTask_succeeds d nodeID req checked written node) as (t & Ht & Hid); auto.
  pose proof (ServiceFacts.call_steps (CallEnqueue nodeID req checked written) d (conj Hu Hc)) as Hd1.
  unfold ServiceFacts.run in Hd1. rewrite Ht in *. cbn [snd] in Hd1.
  set (row := new_row d nodeID _ _ _) in *. set (d1 := set_tasks d _ _) in *.
  assert (hub_inv d1) as Hinv1 by (destruct Hd1 as [es Hes]; by apply (steps_inv d es)).
  pose proof (authenticate_valid _ _ _ _ Hag) as Hnode_id.
  exists t, d1. split_and!; [done|done| |].
  { destruct (scanTask_ok row) as (t0 & Ht0 & Hr0); [apply (row_in d1); [done|simpl; set_solver]|]. exists t0.
    unfold Service.GetTaskForNode. pose proof (inv_next _ Hd). rewrite Hnode_id, (proj2 (Z.leb_gt _ _)) by lia.
    cbn [negb orb]. rewrite <-Ht0. split; [apply (GetTaskForNode_in d1 row); [done|simpl; set_solver]|].
    unfold task_done. by rewrite (reads_status _ _ Hr0). }
  intros polled Hp.
  assert (find_task (queued_for nodeID) (db_tasks d1) = Some row) as Hf by (by eapply find_new).
  assert (row ∈ db_tasks d1) as Hin by (simpl; set_solver).
  destruct (scanTask_ok (claim_row (formatTime polled) row)) as (t1 & Ht1 & Hreads).
  { apply claim_moves; [by apply (row_in d1)|done|done]. }
  pose proof (ClaimNextTask_inv d1 nodeID polled Hp Hinv1) as Hinv2.
  unfold PollTask, reading. rewrite (authenticate_same d d1), Hag by done. unfold PollTaskForNode. rewrite Hnode_id.
  unfold ClaimNextTask in *. rewrite Hf, Ht1 in *. cbn [negb rbind snd] in *. set (d2 := set_tasks d1 _ _) in *.
  assert (task_Kind t1 = req_Kind req) as Hkind by apply Hreads.
  exists t1, d2. split_and!; [done|apply Hreads|apply Hreads|done| |].
  - apply map_text_inj; [apply Hreads|done|apply Hreads].
  - intros report ch wr Hrep Hwr. unfold Service.CompleteTask, reading.
    rewrite (authenticate_same d d2), Hag by done.
    apply (reported_row d2 (claim_row (formatTime polled) row) t1); try done; [|by rewrite Hkind].
    simpl. unfold update_where. apply list_elem_of_fmap. exists row. by rewrite Z.eqb_refl.
Qed.

(** ** The handlers that wait *)

Context `{TokenBucket}.
Context (s : surroundings) (user : option User).

Lemma hub_host_get nodeID id w :
  hub_host s user _ (HubGetTask nodeID id) w
  = (Service.GetTaskForNode (w_db (arrive s w)) nodeID id,
     mkWorld (w_db (arrive s w)) (w_limiter w) (S (w_calls w)) (w_audit w)).
Proof. done. Qed.

Lemma arrive_alone w : s_others s (w_calls w) = [] -> arrive s w = w.
Proof. intros E. unfold arrive. rewrite E. by destruct w. Qed.

(** The task is read until the others completed it. *)
Lemma wait_answers nodeID id r timeout k j t0 t3 d3 w :
  (j <= (r_Wait r timeout).1)%nat ->
  (forall i, (i < j)%nat -> s_others s (w_calls w + i)%nat = []) ->
  Service.GetTaskForNode (w_db w) nodeID id = Ok t0 -> task_done t0 = false ->
  foldl (fun d c => ServiceFacts.run c d) (w_db w) (s_others s (w_calls w + j)%nat) = d3 ->
  Service.GetTaskForNode d3 nodeID id = Ok t3 -> task_done t3 = true ->
  run_prog (hub_host s user) (waitForManagedNodeTask r timeout nodeID id k) w
  = run_prog (hub_host s user) (k (Ok t3)) (mkWorld d3 (w_limiter w) (w_calls w + S j)%nat (w_audit w)).
Proof.
  unfold waitForManagedNodeTask. generalize (r_Wait r timeout).2 as c, (r_Wait r timeout).1 as n.
  intros c n. revert w n. induction j as [|j IH]; intros w n Hn Ho Hbefore Hpend <- Hafter Hd3.
  - rewrite Nat.add_0_r in Hafter |- *. rewrite Nat.add_1_r.
    destruct n; cbn [wait_ticks run_prog]; rewrite hub_host_get; unfold arrive; cbn [w_db]; by rewrite Hafter, Hd3.
  - destruct n as [|n]; [lia|]. cbn [wait_ticks run_prog]. rewrite hub_host_get.
    rewrite arrive_alone by (rewrite <-(Ho 0%nat) by lia; f_equal; lia). rewrite Hbefore, Hpend.
    set (w1 := mkWorld (w_db w) (w_limiter w) (S (w_calls w)) (w_audit w)).
    rewrite (IH w1 n); [|lia| |done|done| |done|done].
    + simpl. by replace (w_calls w + S (S j))%nat with (S (w_calls w + S j))%nat by lia.
    + intros i Hi. simpl. replace (S (w_calls w + i))%nat with (w_calls w + S i)%nat by lia. apply Ho. lia.
    + simpl. by replace (S (w_calls w + j))%nat with (w_calls w + S j)%nat by lia.
Qed.

(** The agent polls and reports at the j-th tick, and the panel is otherwise idle. *)
Record agent_works (nodeID token : string) (id : Z) (report : TaskResultRequest) (j n : nat) : Prop := {
  aw_idle : forall i, (i <= j)%nat -> s_others s (n + i)%nat = [];
  aw_works : exists polled checked written, clock_ok polled = true /\ clock_ok written = true
    /\ s_others s (n + S j)%nat = [CallPoll nodeID token polled; CallComplete nodeID token id report checked written]
}.

Lemma reported_done t id report : recordable report -> reported t id report -> task_done t = true.
Proof. intros [Hv _] (_ & Hs & _). unfold task_done. rewrite Hs. by destruct (result_status _ Hv) as [-> | ->]. Qed.

Lemma run_task_answers w r nodeID token req timeout failed done report j :
  let d := w_db w in
  let n := w_calls w in
  deliverable d nodeID token req (s_checked s n) (s_written s n) -> recordable report ->
  agent_works nodeID token (db_next_id d) report j n -> (j <= (r_Wait r timeout).1)%nat ->
  exists t d3, Service.GetTaskForNode d3 nodeID (db_next_id d) = Ok t /\ reported t (db_next_id d) report
    /\ run_prog (hub_host s user) (run_task r nodeID req timeout failed done) w
       = run_prog (hub_host s user) (if task_Status t =?s TaskStatusFailed then failed t else done t)
           (mkWorld d3 (w_limiter w) (n + S (S j))%nat (w_audit w)).
Proof.
  intros d n Hdel Hrep [Hidle (polled & checked & written & Hp & Hw & Hothers)] Hj.
  destruct (delegated _ _ _ _ _ _ Hdel) as (t & d1 & Henq & Hid & (t0 & Ht0 & Hq) & Hdeliver).
  destruct (Hdeliver polled Hp) as (t1 & d2 & Hpoll & _ & _ & _ & _ & Hreport).
  destruct (Hreport report checked written Hrep Hw) as (t' & d3 & Hcomp & t3 & Ht3 & Hr3).
  exists t3, d3. split; [done|]. split; [done|]. unfold run_task. cbn [run_prog]. unfold hub_host at 1.
  rewrite arrive_alone by (rewrite <-(Hidle 0%nat) by lia; f_equal; lia). cbn [answer_call]. fold d n.
  rewrite Henq. unfold on_db. cbn [fst snd]. rewrite Hid.
  rewrite (wait_answers nodeID (db_next_id d) r timeout _ j t0 t3 d3); cbn [w_db w_limiter w_calls w_audit]; fold n.
  - by replace (S n + S j)%nat with (n + S (S j))%nat by lia.
  - done.
  - intros i Hi. replace (S n + i)%nat with (n + S i)%nat by lia. apply Hidle. lia.
  - done.
  - done.
  - replace (S n + j)%nat with (n + S j)%nat by lia. rewrite Hothers. cbn [foldl ServiceFacts.run].
    rewrite Hpoll. cbn [snd]. by rewrite Hcomp.
  - done.
  - by eapply reported_done.
Qed.
End delegate.

(** ** From a request of the panel to the controller of a host, and back *)

(** ** What the executor makes of a payload *)

Section payloads.
Context (e : taskExecutor) (task : Task).

Lemma execute_kind kind (arm : task_prog) :
  task_Kind task = kind -> execute e (Some (mkTask (task_ID task) (task_NodeID task) kind (task_Payload task)
    (task_Status task) (task_Result task) (task_Error task) (task_CreatedAt task) (task_StartedAt task)
    (task_CompletedAt task))) = arm -> execute e (Some task) = arm.
Proof. intros <-. by destruct task. Qed.

Lemma file_write_executed request :
  task_Kind task = TaskFilesWrite -> task_Payload task = file_save_payload request -> has e Cfiles = true ->
  execute e (Some task)
  = Call (FilesWrite (string_field file_save_request request "path") (string_field file_save_request request "content")
            (string_field file_save_request request "checksum")) (backup_or failedNginxResult "File saved").
Proof.
  intros Hk Hp He. apply (execute_kind _ _ Hk). rewrite Hp.
  transitivity (exec_files_write e (file_save_payload request)); [reflexivity|].
  unfold exec_files_write. rewrite He. change (map_len (file_save_payload request)) with 3. cbn [Z.eqb negb orb].
  change (get (file_save_payload request) "content_b64")
    with (EncodeToString (string_field file_save_request request "content")).
  by rewrite base64_roundtrip.
Qed.

Lemma gate_arm `{UnicodeTables} kind p :
  ValidateTaskRequest (mkTaskRequest kind p) = Ok tt -> switch kind task_cases (fun _ => Ok tt) p = Ok tt.
Proof. unfold ValidateTaskRequest. cbn [req_Kind req_Payload]. intros Hv. by repeat (case_match; [done|]). Qed.

Lemma invalid_when_Ok b : invalid_when b = Ok tt -> b = false.
Proof. by destruct b. Qed.

Lemma ParseBool_Format b : ParseBool (FormatBool b) = Some b.
Proof. by destruct b. Qed.

Abbreviation text := (string_field config_save_request).
Abbreviation flag := (bool_field config_save_request).

Lemma nginx_write_executed `{UnicodeTables} name request :
  let p := config_save_payload [("name", name)] request in
  task_Kind task = TaskNginxConfigWrite -> task_Payload task = p ->
  ValidateTaskRequest (mkTaskRequest TaskNginxConfigWrite p) = Ok tt -> has e Cnginx = true ->
  exists message, execute e (Some task)
    = Call (NginxWrite name (text request "content") (text request "checksum") (flag request "reload"))
        (backup_or failedNginxResult message).
Proof.
  intros p Hk Hp Hv%gate_arm He.
  assert (check_nginx_config_write p = Ok tt) as Hc by exact Hv. clear Hv.
  assert (execute e (Some task) = exec_nginx_config_write e p) as ->.
  { apply (execute_kind _ _ Hk). rewrite Hp. reflexivity. }
  revert Hc. unfold check_nginx_config_write, exec_nginx_config_write. rewrite He, nginx_pattern, sha256_pattern.
  change (map_len p) with 4. change (get p "name") with name. change (get p "checksum") with (text request "checksum").
  change (get p "reload") with (FormatBool (flag request "reload")).
  change (get p "content_b64") with (EncodeToString (text request "content")).
  rewrite base64_roundtrip, ParseBool_Format. cbn [Z.eqb Pos.eqb negb orb].
  destruct (validNginxConfigName name); [|done]. destruct (validSHA256 _); [|done]. cbn [negb orb]. by eexists.
Qed.

Lemma php_write_executed `{UnicodeTables} version pool request :
  let p := config_save_payload [("version", version); ("pool", pool)] request in
  task_Kind task = TaskPHPConfigWrite -> task_Payload task = p ->
  ValidateTaskRequest (mkTaskRequest TaskPHPConfigWrite p) = Ok tt -> has e Cphp = true ->
  exists message, execute e (Some task)
    = Call (PHPWrite version pool (text request "content") (text request "checksum") (flag request "reload"))
        (backup_or failedPHPResult message).
Proof.
  intros p Hk Hp Hv%gate_arm He.
  assert (check_php_config_write p = Ok tt) as Hc by exact Hv. clear Hv.
  assert (execute e (Some task) = exec_php_config_write e p) as ->.
  { apply (execute_kind _ _ Hk). rewrite Hp. reflexivity. }
  revert Hc. unfold check_php_config_write, exec_php_config_write. rewrite He, pool_pattern, sha256_pattern.
  change (map_len p) with 5. change (get p "version") with version. change (get p "pool") with pool.
  change (get p "checksum") with (text request "checksum").
  change (get p "reload") with (FormatBool (flag request "reload")).
  change (get p "content_b64") with (EncodeToString (text request "content")).
  rewrite base64_roundtrip, ParseBool_Format. cbn [Z.eqb Pos.eqb negb orb].
  destruct (validPHPVersion version) eqn:Ev; [|done]. rewrite (php_version_agrees _ Ev).
  destruct (validPHPPool pool); [|done]. destruct (validSHA256 _); [|done]. cbn [negb orb]. by eexists.
Qed.

(** *** Cron jobs and firewall rules travel as JSON *)

Definition cron_job_of (request : goval) (id : string) : cronTaskJob :=
  let text := string_field cron_request request in
  mkCronTaskJob id (text "schedule") (text "user") (text "command") (text "description")
    (bool_field cron_request request "enabled").

Definition rule_of (request : goval) : firewallRule :=
  let text := string_field firewall_request request in
  mkRule "" (text "action") (text "protocol") (int_field firewall_request request "port") (text "source")
    (text "comment") false "".

(** The strings of a decoded body are valid UTF-8 and its integers are [int64]. *)
Definition strings_utf8 (t : gotype) (request : goval) (names : list string) : Prop :=
  Forall (fun name => valid_utf8 (string_field t request name) = true) names.

Lemma jstr_ok s : valid_utf8 s = true -> json_ok (jstr s).
Proof. apply ok_str. Qed.

Lemma cron_job_roundtrip request id :
  valid_utf8 id = true -> strings_utf8 cron_request request ["schedule"; "user"; "command"; "description"] ->
  decode_cron_job (cron_job_text request id) = Some (cron_job_of request id).
Proof.
  unfold strings_utf8. intros Hid Hs. repeat (apply Forall_cons in Hs as [? Hs]). clear Hs.
  unfold decode_cron_job, cron_job_text, omit_empty.
  rewrite marshal_roundtrip.
  - destruct (String.eqb_spec (string_field cron_request request "description") "") as [E|_]; [|reflexivity].
    unfold cron_job_of. rewrite E. reflexivity.
  - constructor; destruct (_ =?s _); simpl; repeat constructor; auto using jstr_ok.
Qed.

Lemma firewall_rule_roundtrip request :
  strings_utf8 firewall_request request ["action"; "protocol"; "source"; "comment"] ->
  min_int64 <= int_field firewall_request request "port" <= max_int64 ->
  decode_rule (firewall_rule_text request) = Some (rule_of request).
Proof.
  unfold strings_utf8. intros Hs Hp. repeat (apply Forall_cons in Hs as [? Hs]). clear Hs.
  unfold decode_rule, firewall_rule_text, omit_empty, rule_of. cbv zeta.
  set (port := int_field firewall_request request "port") in *.
  set (source := string_field firewall_request request "source") in *.
  set (comment := string_field firewall_request request "comment") in *.
  rewrite marshal_roundtrip.
  - pose proof (ParseInt_Itoa port Hp) as Hport.
    destruct (Z.eqb_spec port 0) as [E0|_], (String.eqb_spec source "") as [E1|_], (String.eqb_spec comment "") as [E2|_];
      cbn; rewrite ?Hport, ?E0, ?E1, ?E2; reflexivity.
  - constructor; destruct (port =? 0), (source =?s ""), (comment =?s ""); simpl;
      repeat constructor; auto using jstr_ok.
Qed.

Lemma cron_executed `{UnicodeTables} (kind : string) (b : bool) request id :
  let p := cron_payload request id in
  (kind, b) ∈ [(TaskCronCreate, false); (TaskCronUpdate, true)] -> task_Kind task = kind -> task_Payload task = p ->
  valid_utf8 id = true -> strings_utf8 cron_request request ["schedule"; "user"; "command"; "description"] ->
  ValidateTaskRequest (mkTaskRequest kind p) = Ok tt -> has e Ccron = true ->
  let job := cron_job_of request id in
  let revision := string_field cron_request request "revision" in
  if b then exists k, execute e (Some task) = Call (CronUpdate job revision) k
  else exists k, execute e (Some task) = Call (CronCreate job revision) k.
Proof.
  intros p Hin Hk Hp Hid Hs Hv%gate_arm He job revision.
  assert (get p "revision" = revision) as Hrev by reflexivity.
  assert (check_cron_write b p = Ok tt /\ execute e (Some task) = exec_cron_write e kind p) as [Hc ->].
  { repeat (apply elem_of_cons in Hin as [[= -> ->]|Hin]); [..|by apply not_elem_of_nil in Hin];
      (split; [exact Hv|]); apply (execute_kind _ _ Hk); rewrite Hp; reflexivity. }
  apply invalid_when_Ok in Hc. breflect.
  match goal with Hj : validCronJobPayload _ _ = true |- _ => apply admitted_cron in Hj as (raw & parsed & Hraw & Hlen & Hjob & _) end.
  assert (get p "job_b64" = EncodeToString (cron_job_text request id)) as Hget by reflexivity. clearbody p. rewrite Hget in Hraw.
  rewrite base64_roundtrip in Hraw. injection Hraw as <-. rewrite cron_job_roundtrip in Hjob by done. injection Hjob as <-.
  unfold exec_cron_write. rewrite He, sha256_pattern.
  match goal with Hr : validSHA256 _ = true |- _ => rewrite Hr end.
  match goal with Hl : (map_len p) = 2 |- _ => rewrite Hl end.
  rewrite Hget, base64_roundtrip.
  rewrite (proj2 (Z.ltb_ge _ _)), cron_job_roundtrip by done. cbn [Z.eqb Pos.eqb negb orb]. rewrite Hrev.
  repeat (apply elem_of_cons in Hin as [[= -> ->]|Hin]); [..|by apply not_elem_of_nil in Hin]; by eexists.
Qed.

Lemma firewall_executed `{UnicodeTables} request :
  let p := firewall_payload request in
  task_Kind task = TaskFirewallAdd -> task_Payload task = p ->
  strings_utf8 firewall_request request ["action"; "protocol"; "source"; "comment"] ->
  min_int64 <= int_field firewall_request request "port" <= max_int64 ->
  ValidateTaskRequest (mkTaskRequest TaskFirewallAdd p) = Ok tt -> has e Cfirewall = true ->
  exists k, execute e (Some task)
    = Call (FirewallAdd (rule_of request) (string_field firewall_request request "revision")) k.
Proof.
  intros p Hk Hp Hs Hport Hv%gate_arm He.
  assert (check_firewall_add p = Ok tt) as Hc by exact Hv. clear Hv.
  assert (get p "revision" = string_field firewall_request request "revision") as Hrev by reflexivity.
  assert (execute e (Some task) = exec_firewall_add e p) as ->.
  { apply (execute_kind _ _ Hk). rewrite Hp. reflexivity. }
  apply invalid_when_Ok in Hc. breflect.
  match goal with Hj : validFirewallRulePayload _ = true |- _ => apply admitted_rule in Hj as (raw & rule & h & Hraw & Hlen & Hrule & _) end.
  assert (get p "rule_b64" = EncodeToString (firewall_rule_text request)) as Hget by reflexivity. clearbody p. rewrite Hget in Hraw.
  rewrite base64_roundtrip in Hraw. injection Hraw as <-. rewrite firewall_rule_roundtrip in Hrule by done. injection Hrule as <-.
  unfold exec_firewall_add. rewrite He, sha256_pattern.
  match goal with Hr : validSHA256 _ = true |- _ => rewrite Hr end.
  match goal with Hl : (map_len p) = 2 |- _ => rewrite Hl end.
  rewrite Hget, base64_roundtrip.
  rewrite (proj2 (Z.ltb_ge _ _)), firewall_rule_roundtrip by done. cbn [Z.eqb Pos.eqb negb orb].
  rewrite Hrev. by eexists.
Qed.
End payloads.

(** ** The route of a file save *)

Lemma dispatch_skip rt rts r : matches r rt = None -> dispatch (rt :: rts) r = dispatch rts r.
Proof. intros E. cbn [dispatch]. by rewrite E. Qed.

Lemma serve_file_save `{UnicodeTables} `{LowerTable} ValidateToken Version url_ParseRequestURI ParseAddress r node :
  r_Method r = "PUT" -> r_Segments r = ["api"; "nodes"; node; "file"] -> node <> "" ->
  serve ValidateToken Version url_ParseRequestURI ParseAddress r
  = Some (withAuth ValidateToken (requireRole RoleAdmin (limited handleRemoteNodeFileSave)) (set_path_values [("id", node)] r)).
Proof.
  intros Hm Hs Hn%String.eqb_neq. unfold serve, agent_hub_routes.
  repeat (rewrite dispatch_skip by (unfold matches; rewrite Hm, Hs; cbn; rewrite ?Hn; reflexivity)).
  cbn [dispatch]. unfold matches. rewrite Hm, Hs. cbn. by rewrite Hn.
Qed.

(** A request of an administrator that the rate limit lets pass gets to the
    handler. *)
Lemma limited_runs `{UnicodeTables} `{TokenBucket} ValidateToken s user w r h values :
  session_user ValidateToken r = Some user -> roleLevel (user_Role user) = RoleAdmin ->
  (Allow (w_limiter w) (RealIP r) LimitMutate (s_readings s (w_calls w))).1 = true ->
  exists limiter,
    run_prog (hub_host s (Some user)) (withAuth ValidateToken (requireRole RoleAdmin (limited h)) (set_path_values values r)) w
    = run_prog (hub_host s (Some user)) (h (set_user user (set_path_values values r)))
        (mkWorld (w_db (arrive s w)) limiter (S (w_calls w)) (w_audit w)).
Proof.
  unfold session_user, withAuth. change (session_token (set_path_values values r)) with (session_token r).
  destruct (session_token r =?s ""); [done|]. intros -> Hrole Hallow. unfold requireRole. cbn [r_User set_user].
  rewrite Hrole, Z.ltb_irrefl. unfold limited. cbn [run_prog]. unfold hub_host at 1. cbn [answer_call].
  change (RealIP (set_user user (set_path_values values r))) with (RealIP r). cbn [w_limiter w_calls arrive].
  destruct (Allow _ _ _ _) as [allowed limiter]. cbn [fst] in Hallow. subst allowed. by exists limiter.
Qed.

(** ** The properties *)

Section claims.
Context `{UnicodeTables}.

(** What a user writes is what the host's controller is asked to write: for
    an admitted task with the payload the panel built, the executor's call has
    the path or name, the content, the checksum and the reload flag of the
    request's body. *)
Theorem written_content_roundtrip e task :
  ValidateTaskRequest (mkTaskRequest (task_Kind task) (task_Payload task)) = Ok tt ->
  has e Cfiles = true -> has e Cnginx = true -> has e Cphp = true ->
  (forall request, task_Kind task = TaskFilesWrite -> task_Payload task = file_save_payload request ->
     let text := string_field file_save_request request in
     exists k, execute e (Some task) = Call (FilesWrite (text "path") (text "content") (text "checksum")) k)
  /\ (forall name request, task_Kind task = TaskNginxConfigWrite ->
        task_Payload task = config_save_payload [("name", name)] request ->
        let text := string_field config_save_request request in
        exists k, execute e (Some task)
          = Call (NginxWrite name (text "content") (text "checksum") (bool_field config_save_request request "reload")) k)
  /\ (forall version pool request, task_Kind task = TaskPHPConfigWrite ->
        task_Payload task = config_save_payload [("version", version); ("pool", pool)] request ->
        let text := string_field config_save_request request in
        exists k, execute e (Some task)
          = Call (PHPWrite version pool (text "content") (text "checksum")
                    (bool_field config_save_request request "reload")) k).
Proof.
  intros Hv Hf Hn Hp. split_and!.
  - intros request Hk Hpay text. eexists. by apply file_write_executed.
  - intros name request Hk Hpay text. rewrite Hk, Hpay in Hv.
    destruct (nginx_write_executed e task name request Hk Hpay Hv Hn) as [message ->]. by eexists.
  - intros version pool request Hk Hpay text. rewrite Hk, Hpay in Hv.
    destruct (php_write_executed e task version pool request Hk Hpay Hv Hp) as [message ->]. by eexists.
Qed.

(** Cron jobs and firewall rules travel from the panel to the host as JSON
    in base64: for an admitted task the controller gets the job or the rule of
    the request's body, field by field, under the revision the user saw. *)
Theorem typed_payload_roundtrip e task request id :
  ValidateTaskRequest (mkTaskRequest (task_Kind task) (task_Payload task)) = Ok tt ->
  has e Ccron = true -> has e Cfirewall = true -> valid_utf8 id = true ->
  strings_utf8 cron_request request ["schedule"; "user"; "command"; "description"] ->
  strings_utf8 firewall_request request ["action"; "protocol"; "source"; "comment"] ->
  min_int64 <= int_field firewall_request request "port" <= max_int64 ->
  (task_Payload task = cron_payload request id ->
     let revision := string_field cron_request request "revision" in
     (task_Kind task = TaskCronCreate ->
        exists k, execute e (Some task) = Call (CronCreate (cron_job_of request id) revision) k)
     /\ (task_Kind task = TaskCronUpdate ->
        exists k, execute e (Some task) = Call (CronUpdate (cron_job_of request id) revision) k))
  /\ (task_Payload task = firewall_payload request -> task_Kind task = TaskFirewallAdd ->
        exists k, execute e (Some task)
          = Call (FirewallAdd (rule_of request) (string_field firewall_request request "revision")) k).
Proof.
  intros Hv Hc Hf Hid Hcs Hfs Hp. split.
  - intros Hpay revision. rewrite Hpay in Hv. split; intros Hk; rewrite Hk in Hv.
    + assert ((TaskCronCreate, false) ∈ [(TaskCronCreate, false); (TaskCronUpdate, true)]) as Hin by (repeat constructor).
      exact (cron_executed e task _ _ request id Hin Hk Hpay Hid Hcs Hv Hc).
    + assert ((TaskCronUpdate, true) ∈ [(TaskCronCreate, false); (TaskCronUpdate, true)]) as Hin by (repeat constructor).
      exact (cron_executed e task _ _ request id Hin Hk Hpay Hid Hcs Hv Hc).
  - intros Hpay Hk. rewrite Hpay, Hk in Hv. exact (firewall_executed e task request Hk Hpay Hfs Hp Hv Hf).
Qed.

(** C19. Saving a file works end to end.  An administrator's [PUT] of a file,
    which the rate limit lets pass, for an online node with the capability and
    with nothing else queued: when the node's agent polls and reports a backup at
    any tick before the deadline, and nothing else happens on the hub meanwhile,
    the agent's controller is asked to write the path and content of the request,
    and the request is answered [200 OK] with the backup the controller made.
    The task is then stored as reported, and the audit log has one more entry,
    which names the node and the file. *)
Theorem file_save_answers `{TokenBucket} `{LowerTable} ValidateToken Version url_ParseRequestURI ParseAddress
    s user w r node token request backup e j :
  let d := w_db (arrive s w) in
  let n := S (w_calls w) in
  let req := mkTaskRequest TaskFilesWrite (file_save_payload request) in
  let report := completed (<["message" := "File saved"]> {["backup" := backup]}) in
  let text := string_field file_save_request request in
  r_Method r = "PUT" -> r_Segments r = ["api"; "nodes"; node; "file"] ->
  session_user ValidateToken r = Some user -> roleLevel (user_Role user) = RoleAdmin ->
  (Allow (w_limiter w) (RealIP r) LimitMutate (s_readings s (w_calls w))).1 = true ->
  decode_first (Z.shiftl 3 20) file_save_request (r_Body r) = Some request ->
  deliverable d node token req (s_checked s n) (s_written s n) ->
  has e Cfiles = true -> backup <> "" -> recordable report ->
  agent_works s node token (db_next_id d) report j n -> (j <= (r_Wait r (40 * Second)%Z).1)%nat ->
  (forall task, task_Kind task = req_Kind req -> task_Payload task = req_Payload req ->
     exists k, execute e (Some task) = Call (FilesWrite (text "path") (text "content") (text "checksum")) k
       /\ k (Ok backup) = Ret report)
  /\ exists p t d' w',
       serve ValidateToken Version url_ParseRequestURI ParseAddress r = Some p
       /\ run_prog (hub_host s (Some user)) p w
          = (mkAnswer StatusOK (BStrings [("message", "Remote file saved"); ("backup", backup)]), w')
       /\ w_audit w' = w_audit w ++ [("remote_file_save", node +:+ ": " +:+ text "path")]
       /\ Service.GetTaskForNode d' node (db_next_id d) = Ok t /\ reported t (db_next_id d) report
       /\ w_db w' = foldl (fun d c => ServiceFacts.run c d) d' (s_others s (n + S (S j))%nat).
Proof.
  intros d n req report text Hm Hs Hu Hrole Hallow Hbody Hdel He Hb Hrep Hagent Hj. split.
  { intros task Hk Hp. eexists. by split; [apply file_write_executed|]. }
  destruct (dl_agent _ _ _ _ _ _ Hdel) as [agent Hag].
  assert (node <> "") as Hnode by (apply authenticate_valid in Hag; by intros ->).
  eexists. destruct (limited_runs ValidateToken s user w r handleRemoteNodeFileSave [("id", node)] Hu Hrole Hallow) as [limiter Hrun].
  set (w1 := mkWorld _ limiter _ _) in Hrun.
  unfold handleRemoteNodeFileSave in Hrun. change (r_Body (set_user _ _)) with (r_Body r) in Hrun. rewrite Hbody in Hrun. cbv zeta in Hrun.
  match type of Hrun with _ = run_prog _ (run_task ?r' _ _ _ _ ?done) _ =>
    destruct (run_task_answers s (Some user) w1 r' node token req (40 * Second) writeManagedNginxTaskError done report j
      Hdel Hrep Hagent Hj) as (t & d3 & Hget & Hreported & Htask) end.
  pose proof Hreported as (_ & Hst & Hres & _).
  assert (result_of t "backup" = backup) as Hbackup.
  { unfold result_of. rewrite Hres. unfold get. by simplify_map_eq. }
  rewrite Hst in Htask. cbv beta in Htask. rewrite Hbackup in Htask. apply String.eqb_neq in Hb. rewrite Hb in Htask.
  exists t, d3. eexists. split; [by apply serve_file_save|]. split; [etransitivity; [exact Hrun|]; etransitivity; [exact Htask|]; reflexivity|].
  by split_and!.
Qed.
End claims.

(** ** Witnesses *)

#[local] Existing Instance latin_tables.

Definition all_executor : taskExecutor := mkExecutor (fun _ => true) ∅ ∅ ∅ true true.

(** The body of a request, decoded. *)
Definition sample_save : goval :=
  Eval vm_compute in default (VStruct []) (decode_first (Z.shiftl 3 20) file_save_request sample_body).

Definition sample_config_save : goval :=
  VStruct [VString "server {}"; VString sample_checksum; VBool true].

Definition delivered_task (kind : string) (payload : gmap string string) : Task :=
  mkTask 1 sample_node kind payload TaskStatusRunning ∅ "" sample_later (Some sample_later) None.

Definition nginx_task : Task :=
  delivered_task TaskNginxConfigWrite (config_save_payload [("name", "site.conf")] sample_config_save).

Lemma written_content_roundtrip_witness :
  exists k, execute all_executor (Some nginx_task) = Call (NginxWrite "site.conf" "server {}" sample_checksum true) k.
Proof.
  destruct (written_content_roundtrip all_executor nginx_task) as (_ & Hn & _); [vm_compute; reflexivity..|].
  by apply (Hn "site.conf" sample_config_save).
Defined.

Definition sample_cron_request : goval :=
  VStruct [VString "cron-0123456789ab"; VString "0 3 * * *"; VString "root"; VString "/usr/bin/backup"; VString ""; VBool true;
           VString sample_checksum].

Definition sample_rule_request : goval :=
  VStruct [VString "DROP"; VString "tcp"; VInt 8080; VString "203.0.113.0/24"; VString "scanner"; VString sample_checksum].

Definition cron_task : Task := delivered_task TaskCronUpdate (cron_payload sample_cron_request "cron-0123456789ab").

Lemma typed_payload_roundtrip_witness :
  exists k, execute all_executor (Some cron_task)
    = Call (CronUpdate (mkCronTaskJob "cron-0123456789ab" "0 3 * * *" "root" "/usr/bin/backup" "" true) sample_checksum) k.
Proof.
  destruct (typed_payload_roundtrip all_executor cron_task sample_cron_request "cron-0123456789ab") as [Hc _];
    [vm_compute; reflexivity..|by repeat (constructor; [vm_compute; reflexivity|]); constructor| |by vm_compute|].
  - repeat (constructor; [vm_compute; reflexivity|]). constructor.
  - by apply Hc.
Defined.

Lemma sample_deliverable :
  deliverable files_db sample_node sample_token (mkTaskRequest TaskFilesWrite (file_save_payload sample_save))
    sample_later sample_later.
Proof.
  constructor.
  - apply files_db_reachable.
  - apply utf8_mapb_ok. vm_compute. reflexivity.
  - vm_compute. reflexivity.
  - by vm_compute.
  - destruct (Service.GetNode files_db sample_node) as [node|] eqn:E; [|by vm_compute in E]. exists node.
    split; [done|]. vm_compute in E. injection E as <-. split; [|vm_compute; reflexivity].
    apply hasCapability_elem. vm_compute. reflexivity.
  - vm_compute. reflexivity.
  - vm_compute. reflexivity.
  - by vm_compute.
  - constructor.
  - destruct (AuthenticateNode files_db sample_node sample_token) as [agent|] eqn:E; [by exists agent|by vm_compute in E].
Qed.

Lemma saved_recordable : recordable saved_report.
Proof. split; [vm_compute; reflexivity|]. apply utf8_mapb_ok. vm_compute. reflexivity. Qed.

Lemma file_save_answers_witness :
  exists p t d' w',
    sample_serve save_request = Some p
    /\ run_prog (hub_host (sample_surroundings 1) (Some sample_admin)) p sample_world
       = (mkAnswer StatusOK (BStrings [("message", "Remote file saved"); ("backup", "/var/backups/config.ini.1")]), w')
    /\ w_audit w' = [("remote_file_save", "edge-01: /srv/app/config.ini")]
    /\ Service.GetTaskForNode d' sample_node 1 = Ok t /\ reported t 1 saved_report
    /\ w_db w' = d'.
Proof.
  destruct (file_save_answers sample_validate "1.4.0" (fun _ => None) (fun _ => None) (sample_surroundings 1) sample_admin
    sample_world save_request sample_node sample_token sample_save "/var/backups/config.ini.1" all_executor 1)
    as [_ (p & t & d' & w' & Hserve & Hrun & Haudit & Hget & Hreported & Hd)].
  - reflexivity.
  - reflexivity.
  - reflexivity.
  - reflexivity.
  - vm_compute. reflexivity.
  - vm_compute. reflexivity.
  - exact sample_deliverable.
  - reflexivity.
  - done.
  - exact saved_recordable.
  - constructor.
    + intros [|[|i]] Hi; [reflexivity|reflexivity|lia].
    + exists sample_later, sample_later, sample_later. split_and!; vm_compute; reflexivity.
  - vm_compute. lia.
  - exists p, t, d', w'. split; [exact Hserve|]. split; [exact Hrun|].
    split; [etransitivity; [exact Haudit|]; vm_compute; reflexivity|]. split; [exact Hget|]. by split.
Defined.
