(* ===== verification/PanelClaims.v ===== *)
(** * What the managed-node API of the panel promises *)

From stdpp Require Import base strings gmap list.
From Stdlib Require Import ZArith Lia Ascii.
From S2P Require Import Prelude GoStrings GoJson GoTime GoTyped HubTypes TaskGate Profile Repository Service.
From S2P Require Import IntegrationStatus AgentConfig AgentTasks RemoteNodes PanelApi RateLimit PanelNodes PanelDomains PanelAgents.
From S2P Require Import PanelRouter PanelFacts PanelSamples AgentTasksClaims TaskGateClaims Samples.
Local Open Scope Z_scope.
Local Open Scope hub_scope.

(** ** Every route follows the protocol *)

Create HintDb panel discriminated.
#[export] Hint Constants Opaque : panel.
#[export] Hint Extern 0 (true = true) => reflexivity : panel.
#[export] Hint Resolve action_obeys signal_obeys deploy_action_obeys task_create_obeys profile_put_obeys
  profile_apply_obeys upgrade_obeys rollback_obeys domain_create_obeys domain_delete_obeys tls_enable_obeys
  tls_action_obeys ensure_obeys integration_status_obeys metrics_obeys update_status_obeys domains_obey
  domain_health_obeys node_get_obeys task_list_obeys task_get_obeys : panel.

Lemma read_one level ip r g h : In h read_handlers -> RoleAdmin <= level -> g_stage g = Idle ->
  obeys level true (path r "id") ip g (h r).
Proof.
  intros Hh Hl Hg. pose proof (read_handlers_obey level true ip r Hl g eq_refl Hg) as F. rewrite List.Forall_forall in F. by apply F.
Qed.

Lemma inventory_one level ip r g h : In h inventory_handlers -> RoleAdmin <= level -> g_stage g = Idle ->
  obeys level true (path r "id") ip g (h r).
Proof.
  intros Hh Hl Hg. pose proof (inventory_handlers_obey level true ip r Hl g eq_refl Hg) as F.
  rewrite List.Forall_forall in F. by apply F.
Qed.

Lemma write_one level get ip r h : In h write_handlers -> RoleAdmin <= level -> get = false ->
  obeys level get (path r "id") ip (mkGhost true Idle) (h r).
Proof. intros Hh Hl Hg. pose proof (write_handlers_obey level get ip r Hl Hg) as F. rewrite List.Forall_forall in F. by apply F. Qed.

(** [In h l] for an element written in [l]. *)
Ltac member := first
  [ match goal with |- In ?h (?h :: _) => apply in_eq end
  | match goal with |- In _ (_ :: _) => apply in_cons; member end ].

Ltac handler_obeys := first
  [ solve [eauto with panel nocore]
  | apply write_one; [unfold write_handlers; member|done|done]
  | apply read_one; [unfold read_handlers; member|done|done]
  | apply inventory_one; [unfold inventory_handlers; member|done|done] ].

Ltac route_tac :=
  match goal with
  | |- route_obeys _ (route_of ?p (withAuth _ (requireRole _ (limited _)))) =>
      first [apply (limited_route _ "id" p); [reflexivity|reflexivity|intros; handler_obeys]
            |apply (limited_route _ "node_id" p); [reflexivity|reflexivity|intros; handler_obeys]]
  | |- route_obeys _ (route_of ?p (withAuth _ (requireRole _ _))) =>
      apply (role_route _ "id" p); [reflexivity|reflexivity|intros; handler_obeys]
  end.

(** The routes under [/api/nodes]. *)
Definition is_node_route (rt : route) : bool :=
  match rt_Pattern rt with Literal _ :: Literal b :: _ => b =?s "nodes" | _ => false end.

Section claims.
Context `{UnicodeTables} `{LowerTable}.
Context (ValidateToken : string -> option User).
Context (Version : string) (url_ParseRequestURI : string -> option URL)
  (ParseAddress : string -> option (string * string)).
Abbreviation routes := (agent_hub_routes ValidateToken Version url_ParseRequestURI ParseAddress).

(** A pattern of two segments names no node. *)
Lemma no_node pattern h r values :
  length (parse_pattern pattern).2 = 2%nat -> matches r (route_of pattern h) = Some values -> request_node r = "".
Proof.
  unfold matches, route_of, request_node. cbn [rt_Method rt_Pattern]. destruct (match_method _ _); [|done].
  destruct (parse_pattern pattern).2 as [|p1 [|p2 [|]]]; try done. intros _.
  assert (forall p s vs, match_segments [p] s = Some vs -> (length s <= 1)%nat) as Hone.
  { intros [l|l] [|x [|y z]] vs; cbn; repeat case_match; intros; simplify_eq; simpl; try lia; done. }
  destruct (r_Segments r) as [|x [|y [|z ss]]]; try done. intros Hm. exfalso.
  assert (exists vs, match_segments [p2] (y :: z :: ss) = Some vs) as [vs Hvs].
  { destruct p1; cbn [match_segments] in Hm |- *; repeat case_match; simplify_eq; eauto. }
  apply Hone in Hvs. simpl in Hvs. lia.
Qed.

Lemma register_route :
  route_obeys ValidateToken (route_of "POST /api/nodes" (withAuth ValidateToken (requireRole RoleAdmin handleNodeRegister))).
Proof.
  intros r values Hm. pose proof (changing_not_get "POST /api/nodes" _ _ _ eq_refl Hm) as Hg. apply withAuth_obeys. intros user Hu.
  apply requireRole_obeys; [by intros ? [= <-]%(eq_trans (eq_sym Hu))| |congruence]. intros Hl. unfold request_obeys.
  rewrite (no_node "POST /api/nodes" _ _ _ eq_refl Hm). by apply register_obeys.
Qed.

Lemma node_list_route :
  route_obeys ValidateToken (route_of "GET /api/nodes" (withAuth ValidateToken (handleNodeList Version))).
Proof.
  intros r values Hm. apply withAuth_obeys. intros user Hu. unfold request_obeys.
  rewrite (pattern_get "GET /api/nodes" _ _ _ eq_refl Hm). apply node_list_obeys; [by eapply session_viewer|done].
Qed.

Lemma node_get_route :
  route_obeys ValidateToken (route_of "GET /api/nodes/{id}" (withAuth ValidateToken (handleNodeGet Version))).
Proof.
  intros r values Hm. destruct (node_value "id" "GET /api/nodes/{id}" _ _ _ eq_refl Hm) as [En _]. apply withAuth_obeys. intros user Hu.
  unfold request_obeys. rewrite En, (pattern_get "GET /api/nodes/{id}" _ _ _ eq_refl Hm).
  by apply (node_get_obeys _ _ (set_user user (set_path_values values r))); [eapply session_viewer|].
Qed.

Lemma routes_obey : Forall (fun rt => is_node_route rt = true -> route_obeys ValidateToken rt) routes.
Proof.
  unfold agent_hub_routes. repeat first [apply List.Forall_cons|apply List.Forall_nil]; cbv beta.
  1-3: intros E; by vm_compute in E.
  1: intros _; apply register_route.
  1: intros _; apply node_list_route.
  1: intros _; apply node_get_route.
  all: intros _; route_tac.
Qed.

(** Every route is of the nodes or of the agents. *)
Definition is_agent_route (rt : route) : bool :=
  match rt_Pattern rt with Literal _ :: Literal b :: _ => b =?s "agent" | _ => false end.

Lemma routes_split : Forall (fun rt => is_node_route rt = true \/ is_agent_route rt = true) routes.
Proof.
  unfold agent_hub_routes. repeat first [apply List.Forall_cons|apply List.Forall_nil]; cbv beta;
    first [left; reflexivity|right; reflexivity].
Qed.

Lemma dispatch_cases rts r p : dispatch rts r = Some p ->
  exists rt values, In rt rts /\ matches r rt = Some values /\ p = rt_Handler rt (set_path_values values r).
Proof.
  induction rts as [|rt rts IH]; [done|]. cbn [dispatch]. destruct (matches r rt) as [values|] eqn:E.
  - intros [= <-]. exists rt, values. by split; [left|].
  - intros Hp. destruct (IH Hp) as (rt' & values & Hin & Hm & Hh). exists rt', values. by split; [right|].
Qed.

(** The second segment of a matched path is the pattern's. *)
Lemma matched_second r rt values a b rest :
  matches r rt = Some values -> rt_Pattern rt = Literal a :: Literal b :: rest -> nth 1 (r_Segments r) "" = b.
Proof.
  unfold matches. intros Hm Hp. rewrite Hp in Hm. destruct (match_method _ _); [|done].
  destruct (r_Segments r) as [|x segs]; [done|]. cbn [match_segments] in Hm. destruct (a =?s x); [|done].
  destruct segs as [|y segs]; [done|]. cbn [match_segments] in Hm. destruct (b =?s y) eqn:E; [|done].
  by apply String.eqb_eq in E as ->.
Qed.

Definition nodes_request (r : request) : Prop := nth 1 (r_Segments r) "" = "nodes".

Lemma serve_obeys r p :
  nodes_request r -> serve ValidateToken Version url_ParseRequestURI ParseAddress r = Some p ->
  request_obeys ValidateToken r p.
Proof.
  intros Hn Hs. apply dispatch_cases in Hs as (rt & values & Hin & Hm & ->).
  pose proof routes_obey as Hr. pose proof routes_split as Hc. rewrite List.Forall_forall in Hr, Hc.
  apply Hr; [done| |done]. destruct (Hc _ Hin) as [E|E]; [done|]. unfold is_agent_route, is_node_route in *.
  destruct (rt_Pattern rt) as [|[a|] [|[b|] rest]] eqn:Ep; try done.
  pose proof (matched_second _ _ _ _ _ _ Hm Ep) as Hb. unfold nodes_request in Hn. rewrite Hb in Hn. by subst b.
Qed.

Lemma serve_follows r p tr rsp :
  nodes_request r -> serve ValidateToken Version url_ParseRequestURI ParseAddress r = Some p -> runs p tr rsp ->
  follows (session_level ValidateToken r) (is_get r) (request_node r) (RealIP r) start_ghost tr rsp.
Proof. intros Hn Hs Hr. eapply obeys_runs; [done|]. by apply (serve_obeys r p). Qed.

(** ** The agents' own requests *)

(** Who may make a call: an agent with the credentials it sent, or a user whose
    session has the level of the call. *)
Definition authorized (r : request) {B} (o : hub_call B) : Prop :=
  match o with
  | HubHeartbeat n token req => agentCredentials r = Some (n, token) /\ hb_NodeID req = n
  | HubPoll n token | HubComplete n token _ _ => agentCredentials r = Some (n, token)
  | _ => match call_level o with Some l => l <= session_level ValidateToken r | None => False end
  end.

Lemma agent_handlers_authorized r values : Forall (fun h => all_calls (@authorized r) (h (set_path_values values r)))
  [handleAgentHeartbeat; handleAgentTaskPoll; handleAgentTaskResult].
Proof.
  repeat first [apply List.Forall_cons|apply List.Forall_nil]; cbv beta;
    unfold handleAgentHeartbeat, handleAgentTaskPoll, handleAgentTaskResult;
    change (agentCredentials (set_path_values values r)) with (agentCredentials r);
    destruct (agentCredentials r) as [[n token]|] eqn:E; try done.
  - destruct (strict_body _ _ _ _) as [req|]; [|done]. destruct (negb _) eqn:En; [done|]. breflect.
    split; [by split|]. intros [?|[]]; done.
  - split; [done|]. intros [?|[]]; done.
  - destruct (positive_id _); [|done]. destruct (strict_body _ _ _ _); [|done]. split; [done|]. intros [?|[]]; done.
Qed.

Lemma all_calls_each (P : forall B, hub_call B -> Prop) p tr rsp :
  all_calls P p -> runs p tr rsp -> each (fun B o _ => P B o) tr.
Proof. intros Hp Hr. induction Hr as [|B o k b tr rsp Hr IH]; [done|]. destruct Hp as [Ho Hk]. split; [done|auto]. Qed.

Lemma each_impl (P Q : forall B, hub_call B -> B -> Prop) tr :
  (forall B o b, P B o b -> Q B o b) -> each P tr -> each Q tr.
Proof. intros HPQ. induction tr as [|[B o b] tr IH]; [done|]. intros [Ho Ht]. split; auto. Qed.

Lemma agent_routes rt : In rt routes -> is_agent_route rt = true ->
  In (rt_Handler rt) [handleAgentHeartbeat; handleAgentTaskPoll; handleAgentTaskResult].
Proof.
  intros Hin Ha. assert (Forall (fun rt => is_agent_route rt = true ->
    In (rt_Handler rt) [handleAgentHeartbeat; handleAgentTaskPoll; handleAgentTaskResult]) routes) as F.
  { unfold agent_hub_routes. apply List.Forall_cons; [intros _; apply in_eq|].
    apply List.Forall_cons; [intros _; apply in_cons, in_eq|].
    apply List.Forall_cons; [intros _; apply in_cons, in_cons, in_eq|].
    repeat first [apply List.Forall_cons|apply List.Forall_nil]; cbv beta; intros E; by vm_compute in E. }
  rewrite List.Forall_forall in F. by apply F.
Qed.

(** ** The properties *)

Section served.
Context (r : request) (p : panel_prog) (tr : list answered) (rsp : response).
Hypothesis Hserved : serve ValidateToken Version url_ParseRequestURI ParseAddress r = Some p.
Hypothesis Hruns : runs p tr rsp.

(** C4. Whatever the hub answers, every call a request leads to is authorised:
    the calls of an agent carry the node and the token of its own headers, a
    heartbeat names that node, and every other call needs a valid session of the
    level of the call (viewer to list nodes, manager to read tasks, admin for
    everything else). *)
Theorem calls_authorized : each (fun B o _ => authorized r o) tr.
Proof.
  pose proof (dispatch_cases _ _ _ Hserved) as (rt & values & Hin & Hm & Hp).
  pose proof routes_obey as Hr. pose proof routes_split as Hc. rewrite List.Forall_forall in Hr, Hc.
  destruct (Hc _ Hin) as [E|E].
  - pose proof (Hr _ Hin E r values Hm) as Ho. rewrite <-Hp in Ho.
    pose proof (obeys_runs _ _ _ _ _ _ _ Hruns _ Ho) as Hf. apply follows_levels in Hf.
    eapply each_impl; [|exact Hf]. intros B o b (l & Hl & Hle). destruct o; try done; cbn [authorized]; by rewrite Hl.
  - eapply all_calls_each; [|exact Hruns]. subst p. pose proof (agent_handlers_authorized r values) as Ha.
    rewrite List.Forall_forall in Ha. apply Ha. by apply agent_routes.
Qed.

Hypothesis Hnodes : nodes_request r.

(** A request about a node concerns that node only: every call names the
    node of the path, and at most one task is queued. *)
Theorem one_task_of_the_node :
  each (fun B o _ => match node_of o with Some n => n = request_node r | None => True end) tr
  /\ (length (queued_tasks tr) <= 1)%nat.
Proof.
  pose proof (serve_follows r p tr rsp Hnodes Hserved Hruns) as Hf. split; [by eapply follows_nodes|].
  by eapply follows_one.
Qed.

(** C20. A request other than [GET] and [HEAD] asks nothing of the hub before
    the rate limit of the client's address let it pass; the registration of a
    node ([POST /api/nodes]) is the one exception.  A [GET] or [HEAD] leaves the
    hub's database as it is, whatever happens around it, but for at most one
    task for the node of its path, of one of the 23 kinds of [read_kinds]: the
    scan of a clean-up, inventories, lists, logs, statuses, metrics, and what the
    editors read. *)
Theorem changes_are_limited `{TokenBucket} :
  (is_get r = false -> limited_calls (request_node r) (RealIP r) false tr)
  /\ (is_get r = true ->
        (length (queued_tasks tr) <= 1)%nat
        /\ each (fun B o _ =>
                   match queue_of o with
                   | Some (n, kind) => n = request_node r /\ kind ∈ read_kinds
                   | None => forall s user w, w_db (answer_call s user o w).2 = w_db w
                   end) tr).
Proof.
  pose proof (serve_follows r p tr rsp Hnodes Hserved Hruns) as Hf. split; intros Hg.
  - exact (follows_limited _ _ _ _ _ _ _ Hg Hf).
  - split; [by eapply follows_one|]. pose proof (follows_get _ _ _ _ _ _ _ Hg Hf) as He.
    eapply each_impl; [|exact He]. intros B o b Ho. unfold reads_or_queues in Ho.
    destruct (queue_of o) as [[n kind]|] eqn:E; [done|]. intros s user w.
    destruct o; try done. cbn [answer_call]. by destruct (Allow _ _ _ _).
Qed.

(** C21. A success tells what became of the task: [200 OK] after a task was
    queued means that it was read as completed, the other successes that it was
    queued or completed; a task or an apply of the profile that the hub refused
    is never answered with a success, and an apply is answered with [200 OK] only
    after the hub reported the profile as applied. *)
Theorem success_means_completed :
  rsp_Status rsp < 300 ->
  match final_stage start_ghost tr with
  | Idle => queued_tasks tr = []
  | Refused => False
  | Waiting _ => StatusOK < rsp_Status rsp
  | Seen task => task_Status task = TaskStatusCompleted
  | Applying read => StatusOK < rsp_Status rsp \/ read_applied read
  end.
Proof.
  intros Hs. pose proof (serve_follows r p tr rsp Hnodes Hserved Hruns) as Hf.
  pose proof (follows_settled _ _ _ _ _ _ _ Hf Hs) as Hst. cbn [g_stage] in Hst.
  destruct (final_stage start_ghost tr) eqn:E; try done. clear Hst Hs Hruns.
  assert (forall g, final_stage g tr = Idle -> queued_tasks tr = []) as Hq; [|by apply (Hq start_ghost)].
  clear. induction tr as [|[B o b] tr' IH]; [done|]. intros g. cbn [final_stage queued_tasks].
  destruct (queue_of o) as [q|] eqn:Eq; [|by apply IH]. intros E. exfalso.
  assert (forall tr g, g_stage g <> Idle -> final_stage g tr <> Idle) as Hstay.
  { clear. induction tr as [|[B o b] tr' IH]; [done|]. intros g Hg. cbn [final_stage]. by apply IH, after_stays. }
  eapply Hstay, E. destruct o; try done; by destruct b.
Qed.
End served.
End claims.

(** ** Witnesses *)

#[local] Existing Instance latin_tables.

Abbreviation save_trace := save_run.1.1.
Abbreviation save_response := save_run.1.2.

Lemma save_runs : runs save_program save_trace save_response.
Proof. apply run_traced_runs. Qed.

Lemma save_nodes : nodes_request save_request.
Proof. reflexivity. Qed.

Lemma calls_authorized_witness : each (fun B o _ => authorized sample_validate save_request o) save_trace.
Proof. exact (calls_authorized _ _ _ _ _ _ _ _ save_served save_runs). Defined.

Lemma one_task_of_the_node_witness :
  each (fun B o _ => match node_of o with Some n => n = sample_node | None => True end) save_trace
  /\ queued_tasks save_trace = [(sample_node, TaskFilesWrite)].
Proof.
  split; [exact (proj1 (one_task_of_the_node _ _ _ _ _ _ _ _ save_served save_runs save_nodes))|].
  vm_compute. reflexivity.
Defined.

Lemma changes_are_limited_witness :
  limited_calls sample_node "192.0.2.7" false save_trace /\ queued_tasks save_trace = [(sample_node, TaskFilesWrite)].
Proof.
  split; [|vm_compute; reflexivity].
  apply (proj1 (changes_are_limited _ _ _ _ _ _ _ _ save_served save_runs save_nodes)). reflexivity.
Defined.

Lemma success_means_completed_witness : exists task,
  final_stage start_ghost save_trace = Seen task /\ task_Status task = TaskStatusCompleted.
Proof.
  assert (rsp_Status save_response < 300) as Hs by (by vm_compute).
  pose proof (success_means_completed _ _ _ _ _ _ _ _ save_served save_runs save_nodes Hs) as H.
  assert (exists task, final_stage start_ghost save_trace = Seen task) as [task E] by (eexists; vm_compute; reflexivity).
  rewrite E in H. exists task. exact (conj E H).
Defined.
