(* ===== verification/PanelDomainClaims.v ===== *)
(** * Project domains: what a user is shown of them *)

From stdpp Require Import base strings gmap list.
From Stdlib Require Import ZArith Lia Ascii.
From S2P Require Import Prelude GoStrings GoJson GoTime GoTyped HubTypes TaskGate TaskGateClaims Profile Repository Service.
From S2P Require Import IntegrationStatus AgentTasks RemoteNodes PanelApi PanelNodes PanelDomains PanelFacts PanelRouter PanelSamples PanelTaskClaims Samples HostClaims.
Local Open Scope Z_scope.
Local Open Scope hub_scope.

Section domains.
Context `{UnicodeTables} `{LowerTable}.

(** What an accepted observation of a domain says. *)
Record domain_shown (v : goval) (target domain : string) : Prop := {
  shown_target : string_field RemoteDeployDomain v "target_id" = target;
  shown_domain : string_field RemoteDeployDomain v "domain" = domain;
  shown_port : 1 <= int_field RemoteDeployDomain v "host_port" <= 65535;
  shown_desired : 1 <= int_field RemoteDeployDomain v "desired_host_port" <= 65535;
  shown_upstream : string_field RemoteDeployDomain v "upstream"
                   = "http://127.0.0.1:" +:+ Itoa (int_field RemoteDeployDomain v "host_port");
  shown_status : string_field RemoteDeployDomain v "status" ∈ ["active"; "drifted"];
  shown_tls : string_field RemoteDeployDomain v "tls_status" ∈ tls_states;
  shown_name : validNginxConfigName target = true /\ validDeployDomainName domain = true
}.

(** A revision: 64 lower-case hexadecimal digits. *)
Definition hex64 (s : string) : Prop :=
  len s = 64 /\ Forall (fun c => 48 <= byte c <= 57 \/ 97 <= byte c <= 102) (chars s).

Lemma revision_hex s : validRemoteDeployDomainRevision s = true -> hex64 s.
Proof.
  unfold validRemoteDeployDomainRevision, hex64. rewrite andb_true_iff, Z.eqb_eq, forallb_Forall. intros [Hl Hc].
  split; [done|]. eapply Forall_impl; [exact Hc|]. simpl. intros c [E|E]%orb_true_iff; breflect; lia.
Qed.

Lemma is_Ok_unit {E} (x : result E unit) : is_Ok x = true -> x = Ok tt.
Proof. by destruct x as [[]|]. Qed.

Lemma health_gate target domain :
  is_Ok (ValidateTaskRequest (mkTaskRequest TaskDeployDomainHealth (payload_of [("target", target); ("domain", domain)]))) = true ->
  validNginxConfigName target = true /\ validDeployDomainName domain = true.
Proof.
  set (p := payload_of _). assert (get p "target" = target /\ get p "domain" = domain) as [Et Ed] by done.
  clearbody p. subst target domain. intros Hv%is_Ok_unit%gate_arm.
  assert (check_deploy_domain_health p = Ok tt) as Hc%invalid_when_Ok by exact Hv. by breflect.
Qed.

Lemma valid_shown v target domain : validRemoteDeployDomain v target domain = true -> domain_shown v target domain.
Proof.
  unfold validRemoteDeployDomain, port_ok. cbv zeta. destruct (_ || _) eqn:E1; [intros [=]|].
  destruct (negb (is_Ok _)) eqn:E2; [intros [=]|]. apply negb_false_iff, health_gate in E2 as [Hn Hd].
  destruct (negb (_ =?s local_upstream +:+ _)) eqn:E3; [intros [=]|]. destruct (negb _ && negb _) eqn:E4; [intros [=]|]. intros Ht.
  breflect. subst. constructor; try lia; try done.
  - apply andb_false_iff in E4. rewrite !negb_false_iff, !String.eqb_eq in E4. set_solver.
  - by apply existsb_eqb_elem.
Qed.

(** The receipt of an ensure. *)
Lemma receipt_checked task target domain response :
  decodeRemoteDeployDomainEnsureReceipt task target domain = Ok response ->
  domain_shown (ensr_Observation response) target domain
  /\ string_field RemoteDeployDomain (ensr_Observation response) "status" = "active"
  /\ bool_field RemoteDeployDomain (ensr_Observation response) "enabled" = true
  /\ hex64 (string_field RemoteDeployDomain (ensr_Observation response) "revision")
  /\ task_Status task = TaskStatusCompleted /\ task_Error task = "".
Proof.
  unfold decodeRemoteDeployDomainEnsureReceipt. destruct (_ || _) eqn:Eh; [done|]. breflect.
  destruct (_ =?s ""); [done|]. destruct (_ ≫= _) as [fields|]; [|done].
  destruct (fields !! "changed"), (fields !! "observation") as [raw|]; try done.
  destruct (decodeJSONField _ _ _) as [changed|]; [|done].
  destruct (ensure_observation raw target domain) as [v|] eqn:Ev; [|done]. intros [= <-]. cbn [ensr_Observation].
  unfold ensure_observation in Ev. destruct (decodeStrictJSONObjectFields _ _); [|done].
  destruct (negb _); [done|]. destruct (existsb _ _); [done|]. destruct (decode _ _ _ _) as [v'|]; [|done].
  destruct (_ && _ && _ && _) eqn:E; [|done]. injection Ev as ->. breflect. split_and!; auto using valid_shown, revision_hex.
Qed.

(** ** Whatever is answered *)

(** The tasks an ensure may queue. *)
Definition ensures (target domain revision : string) : panel_prog -> Prop :=
  all_calls (fun B o => match o with
                        | HubEnsure _ t d rev => t = target /\ d = domain /\ rev = revision
                        | o => queue_of o = None
                        end).

(** A request to ensure is confirmed and names a revision or that there is none. *)
Lemma ensure_request_checked s request :
  decodeRemoteDeployDomainEnsureRequest s = Some request ->
  ens_Confirmed request = true
  /\ (ens_ExpectedRevision request = "absent" \/ hex64 (ens_ExpectedRevision request)).
Proof.
  unfold decodeRemoteDeployDomainEnsureRequest. destruct (_ <? _); [done|]. destruct (unmarshal s); [|done]. cbn [mbind option_bind].
  destruct (decodeStrictJSONObjectFields _ _) as [fields|]; [|done]. cbn [mbind option_bind].
  destruct (fields !! "confirmed"); [|done]. cbn [mbind option_bind].
  destruct (decodeJSONField into_bool _ _) as [[]|]; [|done..]. cbn [mbind option_bind negb].
  destruct (fields !! "expected_revision"); [|intros [= <-]; by split; [|left]].
  destruct (decodeJSONField into_string _ _) as [revision|]; [|done]. cbn [mbind option_bind].
  destruct (_ && _) eqn:E; [done|]. intros [= <-]. split; [done|].
  apply andb_false_iff in E. rewrite !negb_false_iff, String.eqb_eq in E. destruct E as [E|E]; [by left|right].
  by apply revision_hex.
Qed.

Lemma ensure_asks r request :
  let '(node, target, raw) := remoteDeployDomainPathValues r in
  decodeRemoteDeployDomainEnsureRequest (r_Body r) = Some request ->
  ensures target (normal_domain raw) (ens_ExpectedRevision request) (handleRemoteNodeDeployDomainEnsure r).
Proof.
  unfold handleRemoteNodeDeployDomainEnsure. destruct (remoteDeployDomainPathValues r) as [[node target] raw].
  intros ->. split; [done|]. intros [task|[]]; try done. split; [done|]. intros []. apply calls_wait; [done|].
  intros [t|[]]; try done. destruct (task_Status t =?s TaskStatusFailed); [unfold ensure_failed; cbv zeta; by repeat case_match|].
  by destruct (decodeRemoteDeployDomainEnsureReceipt _ _ _).
Qed.

Lemma responds_error (R : response -> Prop) status message :
  (rsp_Status (mkAnswer status (BError (Text message))) = StatusOK -> False) ->
  responds (fun rsp => rsp_Status rsp = StatusOK -> R rsp) (jsonError status message).
Proof. intros Hs Hok. by exfalso. Qed.

Lemma ensure_shows r :
  let '(node, target, raw) := remoteDeployDomainPathValues r in
  responds (fun rsp => rsp_Status rsp = StatusOK ->
      exists request, decodeRemoteDeployDomainEnsureRequest (r_Body r) = Some request
        /\ exists response, rsp_Body rsp = BEnsure response
             /\ domain_shown (ensr_Observation response) target (normal_domain raw)
             /\ string_field RemoteDeployDomain (ensr_Observation response) "status" = "active"
             /\ bool_field RemoteDeployDomain (ensr_Observation response) "enabled" = true
             /\ hex64 (string_field RemoteDeployDomain (ensr_Observation response) "revision"))
    (handleRemoteNodeDeployDomainEnsure r).
Proof.
  unfold handleRemoteNodeDeployDomainEnsure. destruct (remoteDeployDomainPathValues r) as [[node target] raw].
  destruct (decodeRemoteDeployDomainEnsureRequest (r_Body r)) as [request|]; [|by apply responds_error].
  intros [task|e]; [|by destruct e; intros [=]]. intros []. apply responds_wait; [intros []; by apply responds_error|].
  intros t _. destruct (task_Status t =?s TaskStatusFailed).
  { unfold ensure_failed. cbv zeta. repeat case_match; by apply responds_error. }
  destruct (decodeRemoteDeployDomainEnsureReceipt t target (normal_domain raw)) as [response|] eqn:E.
  - intros [] _. exists request. split; [done|]. exists response. apply receipt_checked in E as (Hs & Ha & He & Hr & _).
    by split_and!.
  - intros []. by apply responds_error.
Qed.

(** A successful ensure shows the domain that was asked for: only a
    confirmed request that names the revision it saw (or that it saw none)
    reaches the hub, with that revision and the normalised domain of the path,
    and [200 OK] carries an observation of that target and domain, active and
    enabled, of one revision, whose upstream is the loopback address at its own
    port. *)
Theorem ensure_answers_checked r tr rsp :
  let '(node, target, raw) := remoteDeployDomainPathValues r in
  let domain := normal_domain raw in
  runs (handleRemoteNodeDeployDomainEnsure r) tr rsp -> rsp_Status rsp = StatusOK ->
  (exists request, decodeRemoteDeployDomainEnsureRequest (r_Body r) = Some request
    /\ ens_Confirmed request = true
    /\ (ens_ExpectedRevision request = "absent" \/ hex64 (ens_ExpectedRevision request))
    /\ ensures target domain (ens_ExpectedRevision request) (handleRemoteNodeDeployDomainEnsure r))
  /\ exists response, rsp_Body rsp = BEnsure response
    /\ domain_shown (ensr_Observation response) target domain
    /\ string_field RemoteDeployDomain (ensr_Observation response) "status" = "active"
    /\ bool_field RemoteDeployDomain (ensr_Observation response) "enabled" = true
    /\ hex64 (string_field RemoteDeployDomain (ensr_Observation response) "revision").
Proof.
  pose proof (ensure_shows r) as Hshows. pose proof (ensure_asks r) as Hasks.
  destruct (remoteDeployDomainPathValues r) as [[node target] raw]. intros domain Hruns Hok.
  destruct (responds_runs _ _ _ _ Hshows Hruns Hok) as (request & Hreq & response & Hresponse).
  split; [|by exists response]. exists request. destruct (ensure_request_checked _ _ Hreq) as [Hc Hr].
  split_and!; [done..|]. by apply Hasks.
Qed.
End domains.

(** ** Witness *)

#[local] Existing Instance latin_tables.

(** A hub whose node finishes the task at once. *)
Definition ensured_observation : json :=
  JObj [("target_id", jstr "shop"); ("domain", jstr "shop.example.org"); ("host_port", JNum "8081");
        ("desired_host_port", JNum "8081"); ("upstream", jstr "http://127.0.0.1:8081"); ("status", jstr "active");
        ("message", jstr "in sync"); ("tls_status", jstr "healthy"); ("tls_message", jstr "valid");
        ("enabled", JBool true); ("revision", jstr sample_checksum)].

Definition ensured_task : Task :=
  mkTask 7 sample_node TaskDeployDomainAction ∅ TaskStatusCompleted
    {["data" := marshal (JObj [("changed", JBool true); ("observation", ensured_observation)])]} "" sample_now None
    (Some sample_later).

Definition ensuring_hub (B : Type) (o : hub_call B) (w : unit) : B * unit :=
  (match o in hub_call B return B with
   | HubEnqueue _ _ | HubEnsure _ _ _ _ | HubStatus _ | HubMetrics _ | HubGetTask _ _ | HubComplete _ _ _ _ =>
       Ok ensured_task
   | HubListTasks _ _ | HubListNodes => Ok []
   | HubGetNode _ | HubRegister _ | HubHeartbeat _ _ _ | HubGetProfile _ | HubUpdateProfile _ _ _ => Err ErrOther
   | HubPoll _ _ | HubApplyProfile _ _ => Ok None
   | HubOnline _ | RateAllow _ _ => true
   | Audit _ _ | AuditFailure _ _ _ => tt
   | Now => sample_now
   end, w).

Definition ensure_request : request :=
  set_path_values [("node_id", sample_node); ("target_id", "shop"); ("domain", "Shop.example.org.")]
    (sample_request "PUT" ["api"; "nodes"; sample_node; "deploy"; "shop"; "domains"; "Shop.example.org."]
       (marshal (JObj [("confirmed", JBool true); ("expected_revision", jstr "absent")]))).

Definition ensure_run := trace_of ensuring_hub (handleRemoteNodeDeployDomainEnsure ensure_request) tt.

Lemma ensure_answers_checked_witness : exists response,
  rsp_Body ensure_run.1.2 = BEnsure response
  /\ domain_shown (ensr_Observation response) "shop" "shop.example.org"
  /\ bool_field RemoteDeployDomain (ensr_Observation response) "enabled" = true.
Proof.
  assert (rsp_Status ensure_run.1.2 = StatusOK) as Hok by (vm_compute; reflexivity).
  destruct (ensure_answers_checked ensure_request ensure_run.1.1 ensure_run.1.2 (trace_of_runs _ _ _) Hok)
    as (_ & response & Hb & Hs & _ & He & _).
  exists response. exact (conj Hb (conj Hs He)).
Defined.
