(* ===== verification/RateLimitClaims.v ===== *)
(** * Rate limits and bans: theorems *)

From stdpp Require Import base strings gmap list fin_maps.
From Stdlib Require Import ZArith Lia Ascii.
From S2P Require Import Prelude GoStrings GoTime GoNet HubTypes HostClaims PanelApi RateLimit Samples PanelSamples.
Local Open Scope Z_scope.
Local Open Scope hub_scope.

Section limiter.
Context `{TokenBucket}.
Implicit Types rl : RateLimiter.

(** ** The client of an address *)

Lemma client_set rl ip lt cs ip' lt' :
  client (set_client rl ip lt cs) ip' lt'
  = if bool_decide (ip = ip' /\ lt = lt') then Some cs else client rl ip' lt'.
Proof.
  unfold client, set_client, set_clients. cbn [rl_clients].
  destruct (decide (ip = ip')) as [->|Hip].
  - rewrite lookup_insert_eq. cbn [mbind option_bind]. destruct (decide (lt = lt')) as [->|Hlt].
    + by rewrite lookup_insert_eq, bool_decide_true.
    + rewrite lookup_insert_ne, bool_decide_false by naive_solver. by destruct (rl_clients rl !! ip').
  - by rewrite lookup_insert_ne, bool_decide_false by naive_solver.
Qed.

Lemma client_set_same rl ip lt cs : client (set_client rl ip lt cs) ip lt = Some cs.
Proof. by rewrite client_set, bool_decide_true. Qed.

Lemma client_set_other rl ip lt cs ip' lt' : ip <> ip' \/ lt <> lt' ->
  client (set_client rl ip lt cs) ip' lt' = client rl ip' lt'.
Proof. intros Hn. rewrite client_set, bool_decide_false; [done|naive_solver]. Qed.

Lemma client_cleanup rl now ip lt :
  client (cleanup rl now) ip lt
  = match client rl ip lt with
    | Some cs => if cs_lastSeen cs <? now - rl_cleanupTTL rl then None else Some cs
    | None => None
    end.
Proof.
  unfold client, cleanup, set_clients. cbv zeta. cbn [rl_clients]. rewrite lookup_omap.
  destruct (rl_clients rl !! ip) as [types|]; [|done]. cbn [mbind option_bind].
  set (kept := filter _ types).
  assert (kept !! lt = match types !! lt with
                       | Some cs => if cs_lastSeen cs <? now - rl_cleanupTTL rl then None else Some cs
                       | None => None end) as Hk.
  { unfold kept. rewrite map_lookup_filter. destruct (types !! lt) as [cs|]; [|done]. cbn [mbind option_bind snd].
    destruct (Z.ltb_spec (cs_lastSeen cs) (now - rl_cleanupTTL rl)); case_guard; simpl in *; done || lia. }
  case_bool_decide as E; [|exact Hk]. rewrite <-Hk. fold kept in E. by rewrite E, lookup_empty.
Qed.

(** No operation changes the limits. *)
Lemma op_limits rl op :
  rl_banDuration (apply_op rl op) = rl_banDuration rl /\ rl_cleanupTTL (apply_op rl op) = rl_cleanupTTL rl
  /\ rl_maxFailures (apply_op rl op) = rl_maxFailures rl.
Proof.
  destruct op; cbn [apply_op]; unfold Allow, RecordFailure, RecordSuccess, cleanup; repeat case_match; done.
Qed.

(** ** Bans *)

(** An operation later than [k] that does not lift the ban of [ip]: no successful
    login of it, and no clean-up that finds it unseen for too long. *)
Definition after_ban (ip : string) (ttl : duration) (k : readings) (op : limiter_op) : Prop :=
  match op with
  | DoAllow _ _ k' | DoFailure _ k' => at_seen k <= at_seen k' /\ at_taken k <= at_taken k'
  | DoSuccess ip' => ip' <> ip
  | DoCleanup now => now - ttl <= at_seen k
  end.

(** The address stays banned until [stop]. *)
Definition held (rl : RateLimiter) (ip : string) (seen stop : time) : Prop :=
  exists cs, client rl ip LimitLogin = Some cs /\ seen <= cs_lastSeen cs /\ stop <= cs_bannedUntil cs.

Lemma getOrCreate_client rl ip lt t cs : client rl ip lt = Some cs -> getOrCreate rl ip lt t = cs.
Proof. unfold getOrCreate. by intros ->. Qed.

Lemma held_op rl ip k op :
  let stop := at_taken k + rl_banDuration rl in
  after_ban ip (rl_cleanupTTL rl) k op -> held rl ip (at_seen k) stop -> held (apply_op rl op) ip (at_seen k) stop.
Proof.
  intros stop Hop (cs & Hcs & Hseen & Huntil). unfold held. destruct op as [ip' lt' k'|ip' k'|ip'|now]; cbn [apply_op after_ban] in *.
  - unfold Allow. destruct (decide (ip' = ip /\ lt' = LimitLogin)) as [[-> ->]|Hne].
    + rewrite (getOrCreate_client _ _ _ _ _ Hcs). destruct (banned cs _).
      * exists cs. cbn [snd]. by rewrite client_set_same.
      * destruct (limiter_Allow _ _) as [b l]. cbn [snd]. eexists. rewrite client_set_same. split; [done|]. simpl. by destruct Hop.
    + exists cs. split; [|done]. destruct (banned _ _); [|destruct (limiter_Allow _ _)]; cbn [snd];
        (rewrite client_set_other; [done|]); destruct (decide (ip' = ip)); naive_solver.
  - unfold RecordFailure. destruct (decide (ip' = ip)) as [->|Hne].
    + rewrite (getOrCreate_client _ _ _ _ _ Hcs). destruct (_ <=? _); cbn [snd]; eexists; rewrite client_set_same;
        (split; [done|]); simpl; unfold stop in *; lia.
    + exists cs. split; [|done]. destruct (_ <=? _); cbn [snd]; (rewrite client_set_other; [done|by left]).
  - exists cs. split; [|done]. unfold RecordSuccess. destruct (client rl ip' LimitLogin); [|done].
    rewrite client_set_other; [done|by left].
  - exists cs. split; [|done]. rewrite client_cleanup, Hcs. by rewrite (proj2 (Z.ltb_ge _ _)) by lia.
Qed.

Lemma held_ops rl ip k ops :
  let stop := at_taken k + rl_banDuration rl in
  Forall (after_ban ip (rl_cleanupTTL rl) k) ops -> held rl ip (at_seen k) stop ->
  held (apply_ops rl ops) ip (at_seen k) stop.
Proof.
  revert rl. induction ops as [|op ops IH]; intros rl stop Ho Hh; [done|]. apply Forall_cons in Ho as [Ho Hos].
  destruct (op_limits rl op) as (Hb & Ht & _). unfold apply_ops. cbn [foldl].
  specialize (IH (apply_op rl op)). rewrite Hb, Ht in IH. apply IH; [done|]. by apply held_op.
Qed.

Lemma failure_bans rl ip k : (RecordFailure rl ip k).1 = true ->
  held (RecordFailure rl ip k).2 ip (at_seen k) (at_taken k + rl_banDuration rl)
  /\ rl_banDuration (RecordFailure rl ip k).2 = rl_banDuration rl
  /\ rl_cleanupTTL (RecordFailure rl ip k).2 = rl_cleanupTTL rl.
Proof.
  intros Hb. split; [|by destruct (op_limits rl (DoFailure ip k)) as (? & ? & _)].
  unfold RecordFailure in *. destruct (_ <=? _); [|done]. cbn [snd]. eexists. rewrite client_set_same.
  split; [done|]. simpl. lia.
Qed.

(** A ban holds: once a failed login bans an address, whatever operations
    follow, no login of that address is let through before the end of the ban,
    unless it logged in successfully elsewhere or a clean-up forgot it because it
    had not been seen for the clean-up time. *)
Theorem ban_refuses rl ip k ops k' :
  (RecordFailure rl ip k).1 = true -> Forall (after_ban ip (rl_cleanupTTL rl) k) ops ->
  at_checked k' < at_taken k + rl_banDuration rl -> zero_time < at_taken k + rl_banDuration rl ->
  (Allow (apply_ops (RecordFailure rl ip k).2 ops) ip LimitLogin k').1 = false.
Proof.
  intros (Hh & Hb & Ht)%failure_bans Hops Hnow Hz.
  destruct (held_ops (RecordFailure rl ip k).2 ip k ops) as (cs & Hcs & _ & Hu); [by rewrite Ht|by rewrite Hb|].
  rewrite Hb in Hu. unfold Allow. rewrite (getOrCreate_client _ _ _ _ _ Hcs). unfold banned.
  rewrite (proj2 (Z.eqb_neq _ _)), (proj2 (Z.ltb_lt _ _)) by lia. done.
Qed.

(** What refused logins do not change. *)
Lemma refused_attempts rl ip cs ks :
  client rl ip LimitLogin = Some cs -> Forall (fun k => banned cs (at_checked k) = true) ks ->
  client (apply_ops rl (DoAllow ip LimitLogin <$> ks)) ip LimitLogin = Some cs
  /\ rl_cleanupTTL (apply_ops rl (DoAllow ip LimitLogin <$> ks)) = rl_cleanupTTL rl
  /\ fresh_limiter (apply_ops rl (DoAllow ip LimitLogin <$> ks)) LimitLogin = fresh_limiter rl LimitLogin.
Proof.
  intros Hcs Hks. revert rl Hcs. induction Hks as [|k ks Hk _ IH]; intros rl Hcs; [done|].
  assert (apply_ops rl (DoAllow ip LimitLogin <$> k :: ks)
          = apply_ops (set_client rl ip LimitLogin cs) (DoAllow ip LimitLogin <$> ks)) as ->.
  { unfold apply_ops. cbn [fmap list_fmap foldl apply_op]. f_equal. unfold Allow.
    by rewrite (getOrCreate_client _ _ _ _ _ Hcs), Hk. }
  destruct (IH (set_client rl ip LimitLogin cs)) as (H1 & H2 & H3); [by rewrite client_set_same|]. by split_and!.
Qed.

(** The ban of fifteen minutes is forgotten after five: a clean-up drops an
    address that was not seen for five minutes, banned or not, and a refused
    login does not count as seen; the next login then meets a fresh limiter. *)
Lemma ban_forgotten rl ip k ks now k' :
  let banned_rl := (RecordFailure rl ip k).2 in
  (RecordFailure rl ip k).1 = true -> zero_time < at_taken k + rl_banDuration rl ->
  Forall (fun k1 => at_checked k1 < at_taken k + rl_banDuration rl) ks ->
  at_seen k < now - rl_cleanupTTL rl ->
  (Allow (cleanup (apply_ops banned_rl (DoAllow ip LimitLogin <$> ks)) now) ip LimitLogin k').1
  = (limiter_Allow (fresh_limiter rl LimitLogin) (at_taken k')).1.
Proof.
  intros banned_rl Hb Hz Hks Hnow. unfold banned_rl, RecordFailure in *. destruct (_ <=? _); [|done]. cbn [snd].
  set (cs := mkClient _ _ _ _). set (rl1 := set_client rl ip LimitLogin cs).
  destruct (refused_attempts rl1 ip cs ks) as (Hcs & Ht & Hf).
  { apply client_set_same. }
  { eapply Forall_impl; [exact Hks|]. intros k1 Hk1. unfold banned. cbn [cs cs_bannedUntil] in *.
    rewrite (proj2 (Z.eqb_neq _ _)), (proj2 (Z.ltb_lt _ _)) by lia. done. }
  unfold Allow, getOrCreate. rewrite client_cleanup, Hcs, Ht.
  rewrite (proj2 (Z.ltb_lt _ _)) by exact Hnow. unfold banned. cbn [cs_bannedUntil cs_limiter].
  change (fresh_limiter (cleanup _ _) LimitLogin) with (fresh_limiter (apply_ops rl1 (DoAllow ip LimitLogin <$> ks)) LimitLogin).
  rewrite Hf, Z.eqb_refl. cbn [negb andb]. change (fresh_limiter rl1 LimitLogin) with (fresh_limiter rl LimitLogin).
  by destruct (limiter_Allow _ _).
Qed.
End limiter.

(** ** Whose address it is *)

(** The first address of [X-Forwarded-For], which the client itself writes and a
    proxy only appends to, is the address that is limited and banned. *)
Lemma forwarded_address_wins r first rest a :
  ","%char ∉ chars first -> r_Header r "X-Forwarded-For" = first +:+ String ","%char rest ->
  ParseIP (TrimSpace first) = Some a -> RealIP r = IP_String (as16 a).
Proof.
  intros Hcomma Hh Hp. unfold RealIP, header_ip. rewrite Hh.
  assert ((first +:+ String ","%char rest) =?s "" = false) as -> by (by destruct first).
  rewrite split_app_sep by done. cbn [head from_option id]. unfold id. by rewrite Hp.
Qed.

(** ** Ten failed logins *)

Definition sample_readings (t : time) : readings := mkReadings t t t t.

Definition nine_failures : RateLimiter := Eval vm_compute in
  apply_ops NewRateLimiter (replicate 9 (DoFailure "192.0.2.7" (sample_readings sample_now))).

Lemma ban_refuses_witness :
  (Allow (apply_ops (RecordFailure nine_failures "192.0.2.7" (sample_readings sample_now)).2
            [DoAllow "192.0.2.7" LimitLogin (sample_readings (sample_now + Minute)); DoSuccess "198.51.100.5";
             DoCleanup (sample_now + 5 * Minute)])
     "192.0.2.7" LimitLogin (sample_readings (sample_now + 14 * Minute))).1 = false.
Proof.
  apply ban_refuses.
  - vm_compute. reflexivity.
  - repeat constructor; cbn; unfold Minute, Second; try lia. discriminate.
  - cbn. unfold Minute, Second. lia.
  - vm_compute. reflexivity.
Defined.

(** The ban that the clean-up forgot. *)
Example ban_forgotten_early :
  let rl := (RecordFailure nine_failures "192.0.2.7" (sample_readings sample_now)).2 in
  (Allow rl "192.0.2.7" LimitLogin (sample_readings (sample_now + 6 * Minute))).1 = false
  /\ (Allow (cleanup rl (sample_now + 6 * Minute)) "192.0.2.7" LimitLogin (sample_readings (sample_now + 7 * Minute))).1 = true.
Proof. vm_compute. by split. Qed.
