(* ===== verification/HostFiles.v ===== *)
(** * The files of a host, and programs over them

    The controllers of [cmd/hserver-agent] that edit configurations work on
    files by system calls, any of which may fail.  A controller is a program of
    such calls; [sys_step] says what each call may answer and do to the files,
    and [wp] is the program logic of the proofs: an invariant that holds after
    every call, so also where the agent stops, and a postcondition.

    The files of [nginx.go] that the controllers share are here too. *)

From stdpp Require Import base strings gmap list.
From Stdlib Require Import ZArith Lia Ascii.
From S2P Require Import Prelude GoStrings GoSha256 GoJson GoTime HubTypes TaskGate AgentConfig AgentTasks.
Local Open Scope Z_scope.
Local Open Scope hub_scope.

(** ** Sequencing programs *)

Fixpoint pbind {E : Type -> Type} {A B : Type} (p : prog E A) (k : A -> prog E B) : prog E B :=
  match p with
  | Ret a => k a
  | Call o c => Call o (fun b => pbind (c b) k)
  end.

(** [try!]: an error ends the function that calls. *)
Definition on_ok {E A B : Type} {F : Type -> Type} (k : A -> prog F (result E B)) (r : result E A) : prog F (result E B) :=
  match r with Ok a => k a | Err e => Ret (Err e) end.

Notation "'do!' x := p 'in' k" := (pbind p (fun x => k))
  (at level 200, x name, p at level 100, k at level 200, right associativity) : hub_scope.
Notation "'try!' x := p 'in' k" := (pbind p (on_ok (fun x => k)))
  (at level 200, x pattern, p at level 100, k at level 200, right associativity) : hub_scope.

(** ** Paths: [path/filepath] *)

(** The directory part with its last slash, and the rest. *)
Definition split_path (path : string) : string * string :=
  match reverse (split slash path) with
  | base :: (_ :: _) as dirs => (join slash (reverse dirs) +:+ "/", base)
  | _ => ("", path)
  end.

Definition Dir (path : string) : string := Clean (split_path path).1.

(** [filepath.Base]: the last element. *)
Definition Base (path : string) : string :=
  if path =?s "" then "." else default "/" (last (filter (fun e => e <> "") (split slash path))).

(** [filepath.Join]: empty elements are ignored. *)
Definition Join (elems : list string) : string :=
  match filter (fun e => e <> "") elems with
  | [] => ""
  | parts => Clean (join slash parts)
  end.

Definition newline : ascii := of_byte 10.

(** [strings.Contains] *)
Fixpoint occurs (sub : string) (s : string) : bool :=
  HasPrefix s sub || match s with "" => false | String _ s' => occurs sub s' end.

(** [strings.Cut] at a byte. *)
Fixpoint Cut (sep : ascii) (s : string) : option (string * string) :=
  match s with
  | "" => None
  | String c s' => if Ascii.eqb c sep then Some ("", s') else (fun '(a, b) => (String c a, b)) <$> Cut sep s'
  end.

(** [Format("20060102T150405.000000000Z")] *)
Definition compact_stamp (t : time) : string :=
  let '(y, m, d) := civil_from_days (t / day_ns) in
  let ns := t mod day_ns in
  let secs := ns / 1000000000 in
  year_string y +:+ digit_string (two_digits m ++ two_digits d) +:+ "T"
  +:+ digit_string (two_digits (secs / 3600) ++ two_digits (secs / 60 mod 60) ++ two_digits (secs mod 60))
  +:+ "." +:+ digit_string (fixed_digits 9 (ns mod 1000000000)) +:+ "Z".

(** ** Files and system calls *)

Inductive node : Type :=
| File (content : string) (perm uid gid : Z)
| Directory
| Link (target : string)
| Special.

Notation fs := (gmap string node).

(** An error of the operating system; [os_missing] is [os.IsNotExist]. *)
Record os_error : Type := mkOsError { os_text : string; os_missing : bool }.

Record FileInfo : Type := mkFileInfo {
  fi_Regular : bool;
  fi_IsDir : bool;
  fi_Symlink : bool;
  fi_Size : Z;
  fi_Perm : Z;
  fi_Owner : option (Z * Z);     (** the user and group of [Sys()] *)
  fi_Mode : string;              (** [Mode().String()] *)
  fi_ModTime : time
}.

(** An entry of a directory: its type bits, and what [entry.Info] answers. *)
Record DirEntry : Type := mkDirEntry {
  de_Name : string; de_IsDir : bool; de_Symlink : bool; de_Info : result os_error FileInfo }.

(** The answer to a request over the net: the bytes of its body, and whether
    they end without an error. *)
Record http_response : Type := mkResponse { rsp_Status : Z; rsp_Body : string; rsp_Complete : bool }.

Inductive sys : Type -> Type :=
| OpenNoFollow (path : string) : sys (result os_error unit)
| FileStat (path : string) : sys (result os_error FileInfo)
| ReadLimited (path : string) (limit : Z) : sys (result os_error string)
| CreateNew (path : string) (perm : Z) : sys (result os_error unit)
| CreateTemp (dir prefix suffix : string) : sys (result os_error string)
| Chmod (path : string) (perm : Z) : sys (result os_error unit)
| Chown (path : string) (uid gid : Z) : sys (result os_error unit)
| WriteAll (path content : string) : sys (result os_error unit)
| Sync (path : string) : sys (result os_error unit)
| Close (path : string) : sys (result os_error unit)
| Rename (old new : string) : sys (result os_error unit)
| Remove (path : string) : sys (result os_error unit)
| Symlink (target path : string) : sys (result os_error unit)
| MkdirAll (path : string) (perm : Z) : sys (result os_error unit)
| WriteFile (path content : string) (perm : Z) : sys (result os_error unit)
| Lstat (path : string) : sys (result os_error FileInfo)
| Stat (path : string) : sys (result os_error FileInfo)
| ReadDir (path : string) : sys (result os_error (list DirEntry))
| EvalSymlinks (path : string) : sys (result os_error string)
| Readlink (path : string) : sys (result os_error string)
| ReadFile (path : string) : sys (result os_error string)
| OpenRead (path : string) : sys (result os_error unit)
| ReadUpTo (path : string) (limit : Z) : sys (result os_error string)
| OpenCreate (path : string) (perm : Z) : sys (result os_error unit)
| LockFile (path : string) : sys (result os_error unit)
| LookupUser (name : string) : sys bool
| RandomBytes (n : nat) : sys (result os_error (list Z))
| TimeNow : sys time
| Run (name : string) (args : list string) : sys (result string string)
| RunCombined (name : string) (args : list string) : sys (string * option string)
| HttpGet (url : string) : sys (result string Z)
| HttpFetch (url accept : string) : sys (result string http_response)
| Mkdir (path : string) (perm : Z) : sys (result os_error unit)
| ContextErr : sys (option string).

Definition perform {B : Type} (o : sys B) : prog sys B := Call o Ret.

Definition os_fail (e : os_error) : error := errors_New (os_text e).

(** What a host may do beyond its files: whether a call that writes may fail for
    a reason the files do not tell, as a full disk; the times of modification a
    file of the host can have; the readings its clock can give. *)
Class Host : Type := mkHost {
  faulty : Prop;
  modified : string -> node -> time -> Prop;
  reads_clock : time -> Prop
}.

(** What [stat] says of the node at a path. *)
Definition describes `{Host} (path : string) (info : FileInfo) (n : node) : Prop :=
  match n with
  | File content perm uid gid =>
      fi_Regular info = true /\ fi_IsDir info = false /\ fi_Size info = len content /\ fi_Perm info = perm
      /\ (forall owner, fi_Owner info = Some owner -> owner = (uid, gid)) /\ fi_Symlink info = false
      /\ modified path n (fi_ModTime info)
  | Directory => fi_Regular info = false /\ fi_IsDir info = true /\ fi_Symlink info = false
  | Link _ => fi_Regular info = false /\ fi_IsDir info = false /\ fi_Symlink info = true
  | Special => fi_Regular info = false /\ fi_IsDir info = false /\ fi_Symlink info = false
  end.

Definition decimal (s : string) : Prop := forallb decimal_digit (chars s) = true.

(** The name [os.CreateTemp] makes up. *)
Definition temp_name (dir prefix suffix path : string) : Prop :=
  exists digits, decimal digits
    /\ path = (if HasSuffix dir "/" then dir else dir +:+ "/") +:+ prefix +:+ digits +:+ suffix.

(** The names of the entries of a directory. *)
Definition plain_name (name : string) : Prop := plain_component name /\ slash ∉ chars name.

(** What a failed call says of a path: only an absent one is missing. *)
Definition missing_ok (s : fs) (path : string) (e : os_error) : Prop := os_missing e = true -> s !! path = None.

Section semantics.
Context `{Host}.
(** What a command may print and do to the files, and what a path may be
    resolved to. *)
Context (command : string -> list string -> fs -> result string string -> fs -> Prop).
Context (resolves : string -> string -> Prop).

(** A call either fails, mostly without effect, or succeeds. *)
Definition sys_step {B} (o : sys B) : fs -> B -> fs -> Prop :=
  match o in sys B return fs -> B -> fs -> Prop with
  | OpenNoFollow path => fun s r s' => s' = s /\
      match r with
      | Ok _ => match s !! path with Some (File _ _ _ _ | Directory | Special) => True | _ => False end
      | Err e => missing_ok s path e
      end
  | FileStat path | Lstat path => fun s r s' => s' = s /\
      match r with
      | Ok info => match s !! path with Some n => describes path info n | None => False end
      | Err e => missing_ok s path e
      end
  | ReadLimited path limit => fun s r s' => s' = s /\
      match r with
      | Ok text => match s !! path with Some (File content _ _ _) => text = stake (Z.to_nat limit) content | _ => False end
      | Err e => missing_ok s path e
      end
  | CreateNew path perm => fun s r s' =>
      match r with
      | Ok _ => s !! path = None /\ exists perm' uid gid, s' = <[path := File "" perm' uid gid]> s
      | Err _ => s' = s
      end
  | CreateTemp dir prefix suffix => fun s r s' =>
      match r with
      | Ok path => s !! path = None /\ temp_name dir prefix suffix path
                   /\ exists uid gid, s' = <[path := File "" 384 uid gid]> s
      | Err _ => faulty /\ s' = s
      end
  | Chmod path perm => fun s r s' =>
      match r, s !! path with
      | Ok _, Some (File content _ uid gid) => s' = <[path := File content perm uid gid]> s
      | Ok _, Some Directory => s' = s
      | Ok _, _ => False
      | Err _, Some (File _ _ _ _) => faulty /\ s' = s
      | Err _, _ => s' = s
      end
  | Chown path uid gid => fun s r s' =>
      match r, s !! path with
      | Ok _, Some (File content perm _ _) => s' = <[path := File content perm uid gid]> s
      | Ok _, _ => False
      | Err _, Some (File _ _ _ _) => faulty /\ s' = s
      | Err _, _ => s' = s
      end
  | WriteAll path content => fun s r s' =>
      match r, s !! path with
      | Ok _, Some (File old perm uid gid) => s' = <[path := File (old +:+ content) perm uid gid]> s
      | Ok _, _ => False
      | Err _, Some (File old perm uid gid) => faulty /\ exists n, s' = <[path := File (old +:+ stake n content) perm uid gid]> s
      | Err _, _ => s' = s
      end
  | Sync _ | Close _ => fun s r s' => s' = s /\ match r with Ok _ => True | Err _ => faulty end
  | LockFile _ => fun s _ s' => s' = s
  | Rename old new => fun s r s' =>
      match r, s !! old with
      | Ok _, Some n => s' = <[new := n]> (delete old s)
      | Ok _, None => False
      | Err _, Some _ => s' = s /\ (faulty \/ s !! new = Some Directory)
      | Err _, None => s' = s
      end
  | Remove path => fun s r s' =>
      match r with
      | Ok _ => s' = delete path s
      | Err e => s' = s /\ (faulty \/ s !! path = None \/ s !! path = Some Directory) /\ missing_ok s path e
      end
  | Symlink target path => fun s r s' =>
      match r with
      | Ok _ => s !! path = None /\ s' = <[path := Link target]> s
      | Err _ => s' = s /\ (faulty \/ is_Some (s !! path))
      end
  | MkdirAll path _ => fun s _ s' =>
      (forall p, is_Some (s !! p) -> s' !! p = s !! p)
      /\ (forall p, s !! p = None -> s' !! p = None \/ s' !! p = Some Directory /\ HasPrefix path p = true)
  | WriteFile path content _ => fun s r s' =>
      match r with
      | Ok _ => exists perm uid gid, s' = <[path := File content perm uid gid]> s
      | Err _ => s' = s \/ exists n perm uid gid, s' = <[path := File (stake n content) perm uid gid]> s
      end
  | Stat _ => fun s _ s' => s' = s
  | ReadDir _ => fun s r s' => s' = s /\
      match r with Ok entries => Forall (fun entry => plain_name (de_Name entry)) entries | Err _ => True end
  | ReadFile path => fun s r s' => s' = s /\
      match r with
      | Ok text => match s !! path with Some (File content _ _ _) => text = content | Some (Link _) => True | _ => False end
      | Err e => os_missing e = true -> match s !! path with None | Some (Link _) => True | _ => False end
      end
  | OpenRead path => fun s r s' => s' = s
  | ReadUpTo path limit => fun s r s' => s' = s /\
      match r, s !! path with
      | Ok text, Some (File content _ _ _) => text = stake (Z.to_nat limit) content
      | _, _ => True
      end
  | OpenCreate path _ => fun s r s' =>
      match r with
      | Ok _ => s' = s \/ s !! path = None /\ exists perm uid gid, s' = <[path := File "" perm uid gid]> s
      | Err _ => s' = s
      end
  | EvalSymlinks path => fun s r s' => s' = s /\ match r with Ok resolved => resolves path resolved | Err _ => True end
  | Readlink path => fun s r s' => s' = s /\
      match r with
      | Ok target => s !! path = Some (Link target)
      | Err _ => True
      end
  | LookupUser _ => fun s _ s' => s' = s
  | RandomBytes n => fun s r s' => s' = s /\ match r with Ok bytes => length bytes = n | Err _ => True end
  | TimeNow => fun s now s' => s' = s /\ reads_clock now
  | Run name args => fun s r s' => command name args s r s'
  | RunCombined name args => fun s r s' =>
      command name args s (match r.2 with None => Ok r.1 | Some e => Err e end) s'
  | HttpGet _ => fun s _ s' => s' = s
  | HttpFetch _ _ => fun s _ s' => s' = s
  | Mkdir path _ => fun s r s' =>
      match r with
      | Ok _ => s !! path = None /\ s' = <[path := Directory]> s
      | Err _ => s' = s
      end
  | ContextErr => fun s _ s' => s' = s
  end.

(** An execution of a program, up to a point. *)
Inductive reaches {A} : prog sys A -> fs -> prog sys A -> fs -> Prop :=
| reaches_here p s : reaches p s p s
| reaches_call {B} (o : sys B) k s b s1 p' s' :
    sys_step o s b s1 -> reaches (k b) s1 p' s' -> reaches (Call o k) s p' s'.

(** Every state on the way satisfies [I], and the result [Q]. *)
Fixpoint wp {A} (I : fs -> Prop) (p : prog sys A) (Q : A -> fs -> Prop) (s : fs) : Prop :=
  I s /\ match p with
         | Ret a => Q a s
         | Call o k => forall b s', sys_step o s b s' -> wp I (k b) Q s'
         end.

Lemma wp_sound {A} I (p : prog sys A) Q s p' s' :
  wp I p Q s -> reaches p s p' s' -> I s' /\ forall a, p' = Ret a -> Q a s'.
Proof.
  intros Hw Hr. induction Hr as [p s|B o k s b s1 p' s' Hs _ IH].
  - destruct p; destruct Hw as [Hi Hq]; (split; [done|]); intros a' [=]. by subst.
  - destruct Hw as [_ Hw]. apply IH. by apply Hw.
Qed.

Lemma wp_inv {A} I (p : prog sys A) Q s : wp I p Q s -> I s.
Proof. by destruct p; intros [? _]. Qed.

Lemma wp_mono {A} (I I' : fs -> Prop) (p : prog sys A) (Q Q' : A -> fs -> Prop) s :
  wp I p Q s -> (forall s, I s -> I' s) -> (forall a s, I s -> Q a s -> Q' a s) -> wp I' p Q' s.
Proof.
  intros Hw HI HQ. revert s Hw. induction p as [a|B o k IH]; intros s [Hi Hw]; (split; [by apply HI|]).
  - by apply HQ.
  - intros b s' Hs. by apply IH, Hw.
Qed.

Lemma wp_bind {A B} I (p : prog sys A) (k : A -> prog sys B) Q s :
  wp I p (fun a s => wp I (k a) Q s) s -> wp I (pbind p k) Q s.
Proof.
  revert s. induction p as [a|B' o c IH]; intros s [Hi Hw]; cbn [pbind]; [done|].
  split; [done|]. intros b s' Hs. by apply IH, Hw.
Qed.

Lemma wp_ret {A} (I : fs -> Prop) (a : A) (Q : A -> fs -> Prop) s : I s -> Q a s -> wp I (Ret a) Q s.
Proof. by split. Qed.

Lemma wp_perform {B} (I : fs -> Prop) (o : sys B) (Q : B -> fs -> Prop) s :
  I s -> (forall b s', sys_step o s b s' -> I s' /\ Q b s') -> wp I (perform o) Q s.
Proof. intros Hi Ho. split; [done|]. intros b s' Hs. apply Ho in Hs as [? ?]. by apply wp_ret. Qed.
End semantics.

(** ** The files the controllers share: [nginx.go] *)

Definition maxAgentNginxConfigBytes : Z := Z.shiftl 2 20.

(** An error of [readManagedFile]; [fe_missing] is [os.IsNotExist]. *)
Record file_error : Type := mkFileError { fe_error : error; fe_missing : bool }.

Definition from_os (e : os_error) : file_error := mkFileError (os_fail e) (os_missing e).

Definition errManagedFileTooLarge_error : error :=
  mkError "managed configuration file exceeds the size limit" [errManagedFileTooLarge].
Definition not_regular : error := errors_New "managed configuration is not a regular file".

(** A call whose error [readManagedFile] returns. *)
Definition reading_call {B C} (o : sys (result os_error B)) (k : B -> prog sys (result file_error C))
    : prog sys (result file_error C) :=
  Call o (fun r => match r with Err e => Ret (Err (from_os e)) | Ok b => k b end).

Definition readManagedFile (path : string) : prog sys (result file_error (FileInfo * string * string)) :=
  let failed e := Ret (Err (mkFileError e false)) in
  reading_call (OpenNoFollow path) (fun _ =>
  reading_call (FileStat path) (fun info =>
    if negb (fi_Regular info) then failed not_regular
    else if (fi_Size info <? 0) || (maxAgentNginxConfigBytes <? fi_Size info) then failed errManagedFileTooLarge_error
    else
      reading_call (ReadLimited path (maxAgentNginxConfigBytes + 1)) (fun content =>
        if maxAgentNginxConfigBytes <? len content then failed errManagedFileTooLarge_error
        else Ret (Ok (info, content, sha256_hex content))))).

Definition regularManagedFile (path : string) : prog sys (answer FileInfo) :=
  Call (Lstat path) (fun r =>
    match r with
    | Err e => Ret (Err (os_fail e))
    | Ok info => if negb (fi_Regular info) then Ret (Err not_regular) else Ret (Ok info)
    end).

(** A call whose error is returned. *)
Definition checking {A B} (o : sys (result os_error B)) (k : B -> prog sys (answer A)) : prog sys (answer A) :=
  Call o (fun r => match r with Err e => Ret (Err (os_fail e)) | Ok b => k b end).

(** The deferred clean-up of a file that was not finished. *)
Definition discard {A} (path : string) (e : os_error) : prog sys (answer A) :=
  Call (Close path) (fun _ => Call (Remove path) (fun _ => Ret (Err (os_fail e)))).

Definition guarded {A B} (path : string) (o : sys (result os_error B)) (k : prog sys (answer A)) : prog sys (answer A) :=
  Call o (fun r => match r with Err e => discard path e | Ok _ => k end).

Definition writeNewManagedFile (path content : string) (mode uid gid : Z) : prog sys (answer unit) :=
  Call (CreateNew path mode) (fun r =>
    match r with
    | Err e => Ret (Err (os_fail e))
    | Ok _ =>
        guarded path (Chown path uid gid) (guarded path (WriteAll path content)
          (guarded path (Sync path) (guarded path (Close path) (Ret (Ok tt)))))
    end).

(** The temporary file that becomes the target. *)
Definition replace_by (temporary target content : string) (mode uid gid : Z) : prog sys (answer unit) :=
  guarded temporary (Chmod temporary mode) (guarded temporary (Chown temporary uid gid)
    (guarded temporary (WriteAll temporary content) (guarded temporary (Sync temporary)
      (guarded temporary (Close temporary) (guarded temporary (Rename temporary target) (Ret (Ok tt))))))).

Definition replaceManagedFile (target content : string) (mode uid gid : Z) : prog sys (answer unit) :=
  Call (CreateTemp (Dir target) ".hserver-nginx-" "") (fun r =>
    match r with
    | Err e => Ret (Err (os_fail e))
    | Ok temporary => replace_by temporary target content mode uid gid
    end).

Definition validManagedTextContent (content : string) : bool :=
  valid_utf8 content
  && forallb (fun c => negb ((byte c <? 32) && negb (byte c =? 10) && negb (byte c =? 13) && negb (byte c =? 9)))
       (chars content).

(** A command; its error is a text. *)
Definition run_command (name : string) (args : list string) : prog sys (result string string) := perform (Run name args).

(** ** What the shared file operations do

    Each operation is specified from the files it starts with: before it
    finishes it may only have added files, or replaced its target in one
    step. *)

(** ** Temporary names *)

Lemma prefix_of_self p s : prefix_of p (p ++ s) = true.
Proof. induction p as [|a p IH]; [done|]. simpl. by rewrite Ascii.eqb_refl. Qed.

Lemma occurs_app sub a b : occurs sub (a +:+ sub +:+ b) = true.
Proof.
  induction a as [|c a IH].
  - change ("" +:+ ?x) with x. assert (HasPrefix (sub +:+ b) sub = true) as H.
    { unfold HasPrefix. rewrite chars_app. apply prefix_of_self. }
    destruct (sub +:+ b); cbn [occurs]; by rewrite H.
  - rewrite string_app_cons. cbn [occurs]. rewrite IH. apply orb_true_r.
Qed.

Lemma temp_name_occurs dir sub suffix path : temp_name dir sub suffix path -> occurs sub path = true.
Proof. intros (digits & _ & ->). apply occurs_app. Qed.

(** ** Joined paths *)

Lemma Clean_nonempty p : Clean p <> "".
Proof. unfold Clean. destruct (IsAbs p); [done|]. case_match; [done|]. by apply String.eqb_neq. Qed.

Lemma Join_nonempty d n : n <> "" -> Join [d; n] <> "".
Proof.
  intros Hn. unfold Join. rewrite !filter_cons, filter_nil. do 2 (case_decide; try done); apply Clean_nonempty.
Qed.

Lemma split_app_last sep a w : sep ∉ chars w -> split sep (a +:+ String sep w) = split sep a ++ [w].
Proof.
  intros Hw. induction a as [|c a IH].
  - simpl. rewrite Ascii.eqb_refl. by rewrite (split_plain sep w).
  - rewrite string_app_cons. simpl. rewrite IH. destruct (Ascii.eqb c sep); [done|].
    destruct (split sep a) eqn:E; [by apply split_nonempty in E|done].
Qed.

Lemma clean_go_last rooted comps n stack :
  plain_component n -> clean_go rooted (comps ++ [n]) stack = n :: clean_go rooted comps stack.
Proof.
  intros (H1 & H2 & H3). revert stack. induction comps as [|c cs IH]; intros stack; cbn [app clean_go].
  - apply String.eqb_neq in H1, H2, H3. by rewrite H1, H2, H3.
  - repeat case_match; apply IH.
Qed.

Definition ahead (sep : ascii) (ws : list string) : string := match ws with [] => "" | _ => join sep ws +:+ String sep "" end.

Lemma join_last sep ws w : join sep (ws ++ [w]) = ahead sep ws +:+ w.
Proof.
  unfold ahead.
  induction ws as [|a [|b ws] IH]; [done|..].
  - cbn [app join]. by rewrite <-string_app_assoc, string_app_cons.
  - change (join sep ((a :: b :: ws) ++ [w])) with (a +:+ String sep (join sep ((b :: ws) ++ [w]))). rewrite IH.
    change (join sep (a :: b :: ws)) with (a +:+ String sep (join sep (b :: ws))).
    by rewrite <-!string_app_assoc, !string_app_cons.
Qed.

(** The paths of a directory's entries differ in the name only. *)
Lemma Join_prefix d : d <> "" -> exists prefix, forall n, plain_name n -> Join [d; n] = prefix +:+ n.
Proof.
  intros Hd. set (stack := clean_go (IsAbs d) (split slash d) []).
  exists ((if IsAbs d then "/" else "") +:+ ahead slash (reverse stack)).
  intros n [Hn Hs]. assert (n <> "") as Hne by apply Hn.
  unfold Join. rewrite !filter_cons, filter_nil, !decide_True by done. cbn [join]. unfold Clean.
  assert (IsAbs (d +:+ String slash n) = IsAbs d) as -> by by destruct d.
  rewrite split_app_last, clean_go_last, reverse_cons, join_last by done.
  fold stack. destruct (IsAbs d); [by rewrite <-string_app_assoc, string_app_cons|].
  change ("" +:+ ?x) with x. rewrite (proj2 (String.eqb_neq _ _)); [done|].
  unfold String.app. intros E. apply (f_equal String.length) in E.
  rewrite <-!length_chars, chars_app, length_app in E. destruct n; [done|]. simpl in E. lia.
Qed.

Lemma string_app_inj p a b : p +:+ a = p +:+ b -> a = b.
Proof. induction p as [|c p IH]; [done|]. rewrite !string_app_cons. intros [= E]. by apply IH. Qed.

Lemma Join_inj d m n : d <> "" -> plain_name m -> plain_name n -> Join [d; m] = Join [d; n] -> m = n.
Proof. intros Hd Hm Hn. destruct (Join_prefix d Hd) as [p Hp]. rewrite !Hp by done. apply string_app_inj. Qed.

Section facts.
Context `{Host}.
Context (command : string -> list string -> fs -> result string string -> fs -> Prop).
Context (resolves : string -> string -> Prop).
Notation wp := (wp command resolves).
Notation reaches := (reaches command resolves).

(** ** Rules *)

Lemma wp_call {A B} (I : fs -> Prop) (o : sys B) (k : B -> prog sys A) Q s :
  I s -> (forall b s', sys_step command resolves o s b s' -> wp I (k b) Q s') -> wp I (Call o k) Q s.
Proof. by split. Qed.

(** Every call is made in a state that allows it, and the result satisfies [Q]. *)
Fixpoint calls_ok {A} (P : forall B, sys B -> fs -> Prop) (p : prog sys A) (Q : A -> fs -> Prop) (s : fs) : Prop :=
  match p with
  | Ret a => Q a s
  | Call o k => P _ o s /\ forall b s', sys_step command resolves o s b s' -> calls_ok P (k b) Q s'
  end.

Lemma calls_ok_sound {A} P (p : prog sys A) Q s p' s' :
  calls_ok P p Q s -> reaches p s p' s' -> match p' with Ret a => Q a s' | Call o _ => P _ o s' end.
Proof.
  intros Hc Hr. induction Hr as [p s|B o k s b s1 p' s' Hs _ IH]; [by destruct p; [|destruct Hc]|].
  apply IH, Hc, Hs.
Qed.

Lemma calls_ok_bind {A B} P (p : prog sys A) (k : A -> prog sys B) Q s :
  calls_ok P p (fun a s => calls_ok P (k a) Q s) s -> calls_ok P (pbind p k) Q s.
Proof.
  revert s. induction p as [a|B' o c IH]; intros s Hc; [done|]. destruct Hc as [Ho Hc].
  split; [done|]. intros b s' Hs. by apply IH, Hc.
Qed.

(** A program none of whose calls is restricted. *)
Fixpoint free_of {A} (restricted : forall B, sys B -> bool) (p : prog sys A) : Prop :=
  match p with Ret _ => True | Call o k => restricted _ o = false /\ forall b, free_of restricted (k b) end.

Lemma free_of_bind {A B} restricted (p : prog sys A) (k : A -> prog sys B) :
  free_of restricted p -> (forall a, free_of restricted (k a)) -> free_of restricted (pbind p k).
Proof. intros Hp Hk. induction p as [a|B' o c IH]; [apply Hk|]. destruct Hp as [Ho Hp]. split; [done|]. intros b. apply IH, Hp. Qed.

Lemma free_of_calls {A} restricted P (p : prog sys A) Q s :
  (forall B (o : sys B) s, restricted _ o = false -> P _ o s) -> free_of restricted p ->
  (forall a s', reaches p s (Ret a) s' -> Q a s') -> calls_ok P p Q s.
Proof.
  intros HP. revert s. induction p as [a|B o k IH]; intros s Hf Hq.
  - apply Hq, reaches_here.
  - destruct Hf as [Ho Hk]. split; [by apply HP|]. intros b s' Hs. apply IH; [by apply Hk|].
    intros a s1 Hr. apply Hq. by eapply reaches_call.
Qed.

(** A postcondition may say that the program did answer so. *)
Lemma wp_reaches {A} I (p : prog sys A) Q s :
  wp I p Q s -> wp I p (fun a s' => Q a s' /\ reaches p s (Ret a) s') s.
Proof.
  revert s. induction p as [a|B o k IH]; intros s [Hi Hw].
  - apply wp_ret; [done|]. split; [done|]. apply reaches_here.
  - split; [done|]. intros b s' Hs. eapply wp_mono; [by apply IH, Hw|done|].
    intros a s1 _ [Hq Hr]. split; [done|]. by eapply reaches_call.
Qed.

(** Calls that leave the files. *)
Definition pure_call {B} (o : sys B) : Prop := forall s b s', sys_step command resolves o s b s' -> s' = s.

Lemma wp_pure {A B} (I : fs -> Prop) (o : sys B) (k : B -> prog sys A) Q s :
  pure_call o -> I s -> (forall b, sys_step command resolves o s b s -> wp I (k b) Q s) -> wp I (Call o k) Q s.
Proof. intros Hp Hi Hk. apply wp_call; [done|]. intros b s' Hs. pose proof (Hp _ _ _ Hs) as ->. by apply Hk. Qed.

Lemma pure_calls path limit dir :
  pure_call (OpenNoFollow path) /\ pure_call (FileStat path) /\ pure_call (ReadLimited path limit)
  /\ pure_call (Lstat path) /\ pure_call (HostFiles.Stat path) /\ pure_call (ReadDir dir) /\ pure_call (Sync path)
  /\ pure_call (Close path) /\ pure_call (EvalSymlinks path) /\ pure_call (LookupUser path) /\ pure_call TimeNow
  /\ pure_call (LockFile path).
Proof. by split_and!; intros s b s' Hs; try apply Hs; destruct Hs. Qed.

(** ** Reading *)

Lemma stake_all n (s : string) : (String.length s <= n)%nat -> stake n s = s.
Proof. revert n. induction s as [|a s IH]; intros [|n] Hl; simpl in *; try done; [lia|]. f_equal. apply IH. lia. Qed.

Ltac refused := apply wp_ret; [done|]; split; [done|]; intros [=].

Lemma readManagedFile_wp (I : fs -> Prop) path s :
  I s ->
  wp I (readManagedFile path)
    (fun r s' => s' = s /\
       match r with
       | Ok (info, content, checksum) =>
           (exists perm uid gid, s !! path = Some (File content perm uid gid) /\ describes path info (File content perm uid gid))
           /\ checksum = sha256_hex content /\ len content <= maxAgentNginxConfigBytes
       | Err e => fe_missing e = true -> s !! path = None
       end) s.
Proof.
  intros Hi. destruct (pure_calls path (maxAgentNginxConfigBytes + 1) path) as (Ho & Hf & Hr & _).
  unfold readManagedFile, reading_call.
  apply wp_pure; [done..|]. intros [[]|e] [_ Hopen]; [|by apply wp_ret].
  apply wp_pure; [done..|]. intros [info|e] [_ Hst]; [|by apply wp_ret].
  destruct (s !! path) as [n|] eqn:Hn; [|done].
  destruct (fi_Regular info) eqn:Hreg; cbn [negb]; [|refused].
  destruct ((fi_Size info <? 0) || (maxAgentNginxConfigBytes <? fi_Size info)) eqn:Hsz; [refused|].
  apply wp_pure; [done..|]. intros [text|e] [_ Hread]; [|by apply wp_ret; [|rewrite <-Hn]].
  rewrite Hn in Hread. destruct n as [content perm uid gid| | |]; try done. subst text.
  destruct (maxAgentNginxConfigBytes <? len _) eqn:Hlen; [refused|].
  apply Z.ltb_ge in Hlen. destruct Hst as (Hr1 & Hr2 & Hr3 & Hr4).
  assert (stake (Z.to_nat (maxAgentNginxConfigBytes + 1)) content = content) as Hall.
  { apply stake_all. apply orb_false_iff in Hsz as [_ Hsz]. apply Z.ltb_ge in Hsz. unfold len in *. lia. }
  rewrite Hall in Hlen |- *. apply wp_ret; [done|]. split_and!; eauto 10. by exists perm, uid, gid.
Qed.

(** ** A file that is being written *)

Section scratch.
(** The files [s] without the one at [t], which is new; what the operation
    leaves when it fails, for a reason [E], may be any extension of [s]. *)
Context (E : Prop) (HE : faulty -> E).
Context {A : Type} (t : string) (s : fs) (fresh : s !! t = None).
Context (I : fs -> Prop) (Q : answer A -> fs -> Prop).
Context (HI : forall s', s ⊆ s' -> I s') (HQ : forall e s', E -> s ⊆ s' -> Q (Err e) s').

Lemma scratch_ext n : s ⊆ <[t := n]> s.
Proof. by apply insert_subseteq. Qed.

Lemma discard_wp n e : E -> wp I (discard t e) Q (<[t := n]> s).
Proof.
  intros He. pose proof (scratch_ext n) as Hn. unfold discard.
  apply wp_call; [by apply HI|]. intros b s1 [-> _]. apply wp_call; [by apply HI|].
  intros [b'|e'] s2 Hs; simpl in Hs; [subst s2|destruct Hs as [-> _]].
  - rewrite delete_insert_id by done. apply wp_ret; [by apply HI|by apply HQ].
  - apply wp_ret; [by apply HI|by apply HQ].
Qed.

(** A call on the file: it keeps the others, and on success the file is [n']. *)
Definition updates {B} (o : sys (result os_error B)) (n n' : node) : Prop :=
  forall r s', sys_step command resolves o (<[t := n]> s) r s' ->
    match r with Ok _ => s' = <[t := n']> s | Err _ => faulty /\ exists n'', s' = <[t := n'']> s end.

Lemma guarded_wp {B} (o : sys (result os_error B)) k n n' :
  updates o n n' -> wp I k Q (<[t := n']> s) -> wp I (guarded t o k) Q (<[t := n]> s).
Proof.
  intros Ho Hk. apply wp_call; [by apply HI, scratch_ext|]. intros [b|e] s' Hs; apply Ho in Hs.
  - by subst s'.
  - destruct Hs as [Hf [n'' ->]]. by apply discard_wp, HE.
Qed.

Ltac updating := intros [[]|e] s' Hs; simpl in Hs; rewrite ?lookup_insert_eq in Hs;
  [subst s'|destruct Hs as [Hf ->]]; rewrite ?insert_insert_eq; eauto.

Lemma updates_chmod c p u g p' : updates (Chmod t p') (File c p u g) (File c p' u g).
Proof. updating. Qed.

Lemma updates_chown c p u g u' g' : updates (Chown t u' g') (File c p u g) (File c p u' g').
Proof. updating. Qed.

Lemma updates_write c p u g text : updates (WriteAll t text) (File c p u g) (File (c +:+ text) p u g).
Proof.
  intros [[]|e] s' Hs; simpl in Hs; rewrite lookup_insert_eq in Hs; [subst s'|destruct Hs as [Hf [m ->]]];
    rewrite ?insert_insert_eq; eauto.
Qed.

Lemma updates_sync n : updates (Sync t) n n.
Proof. intros [[]|e] s' [-> Hf]; eauto. Qed.

Lemma updates_close n : updates (Close t) n n.
Proof. intros [[]|e] s' [-> Hf]; eauto. Qed.

(** The last step of a replacement. *)
Lemma guarded_rename_wp target n k :
  n <> Directory -> (s !! target = Some Directory -> E) ->
  wp I k Q (<[target := n]> s) -> wp I (guarded t (Rename t target) k) Q (<[t := n]> s).
Proof.
  intros Hn Hd Hk. apply wp_call; [by apply HI, scratch_ext|]. intros [[]|e] s' Hs; simpl in Hs; rewrite lookup_insert_eq in Hs.
  - subst s'. by rewrite delete_insert_id.
  - destruct Hs as [-> Hf]. apply discard_wp. destruct Hf as [Hf|Hf]; [by apply HE|]. apply Hd.
    by apply lookup_insert_Some in Hf as [[_ Hf]|[_ Hf]].
Qed.
End scratch.

(** ** Creating and replacing a file *)

Section writing.
Context (s : fs) (I : fs -> Prop) (Q : answer unit -> fs -> Prop) (HI : forall s', s ⊆ s' -> I s').

Lemma writeNewManagedFile_wp path content mode uid gid :
  (forall e s', s ⊆ s' -> Q (Err e) s') ->
  (forall perm, s !! path = None -> Q (Ok tt) (<[path := File content perm uid gid]> s)) ->
  wp I (writeNewManagedFile path content mode uid gid) Q s.
Proof.
  intros HQ Hok. apply wp_call; [by apply HI|]. intros [[]|e] s' Hs; simpl in Hs.
  - destruct Hs as (Hf & perm & u & g & ->).
    do 4 (eapply (guarded_wp True); [auto using updates_chown, updates_write, updates_sync, updates_close..|]).
    apply wp_ret; [by apply HI, insert_subseteq|by apply Hok].
  - subst s'. apply wp_ret; [by apply HI|by apply HQ].
Qed.

(** A replacement fails only on a faulty host, or for a directory. *)
Lemma replaceManagedFile_wp target content mode uid gid :
  (forall e s', faulty \/ s !! target = Some Directory -> s ⊆ s' -> Q (Err e) s') ->
  I (<[target := File content mode uid gid]> s) -> Q (Ok tt) (<[target := File content mode uid gid]> s) ->
  wp I (replaceManagedFile target content mode uid gid) Q s.
Proof.
  intros HQ Hi Hok. apply wp_call; [by apply HI|]. intros [t|e] s' Hs; simpl in Hs.
  - destruct Hs as (Hf & _ & u & g & ->).
    do 5 (eapply (guarded_wp (faulty \/ s !! target = Some Directory)); [by left|done|done|exact HQ|auto using updates_chmod, updates_chown, updates_write, updates_sync, updates_close|]).
    eapply (guarded_rename_wp (faulty \/ s !! target = Some Directory)); [by left|done|done|exact HQ|done|by right|]. by apply wp_ret.
  - destruct Hs as [Hf ->]. apply wp_ret; [by apply HI|apply HQ; [by left|done]].
Qed.
End writing.
End facts.

(** ** A host on which calls succeed

    [run_host] executes a program on given files: every call that can succeed
    does.  It is one of the executions [reaches] allows, without faults as well
    ([run_host_reaches]), so a computation with it is an example of what the
    programs do.  [run_on] is the host whose files are all of one time. *)

Definition info_of (modified : time) (n : node) : FileInfo :=
  match n with
  | File content perm uid gid => mkFileInfo true false false (len content) perm (Some (uid, gid)) "" modified
  | Directory => mkFileInfo false true false 0 0 None "" modified
  | Link _ => mkFileInfo false false true 0 0 None "" modified
  | Special => mkFileInfo false false false 0 0 None "" modified
  end.

(** [strings.CutPrefix] *)
Definition cut_prefix (prefix s : string) : option string :=
  if HasPrefix s prefix then Some (sdrop (String.length prefix) s) else None.

Definition plain_nameb (name : string) : bool :=
  negb (existsb (String.eqb name) [""; "."; ".."]) && forallb (fun c => negb (Ascii.eqb c slash)) (chars name).

Lemma plain_nameb_ok name : plain_nameb name = true -> plain_name name.
Proof.
  unfold plain_nameb. cbn [existsb]. intros Hn. breflect. split; [by split_and!|].
  intros Hin. match goal with Hf : forallb _ _ = true |- _ => rewrite forallb_forall in Hf; apply list_elem_of_In, Hf in Hin end.
  by rewrite Ascii.eqb_refl in Hin.
Qed.

Definition absent : os_error := mkOsError "no such file or directory" true.
Definition denied : os_error := mkOsError "operation not permitted" false.

Definition temp_path (dir prefix suffix digits : string) : string :=
  (if HasSuffix dir "/" then dir else dir +:+ "/") +:+ prefix +:+ digits +:+ suffix.

(** The first free temporary name of ten, or one longer than every path. *)
Fixpoint free_temp (fuel : nat) (n : Z) (dir prefix suffix : string) (s : fs) : string :=
  match fuel with
  | O => temp_path dir prefix suffix (digit_string (repeat 0 (S (foldr (fun e n => String.length e.1 + n)%nat 0%nat (map_to_list s)))))
  | S fuel' =>
      let path := temp_path dir prefix suffix (digit_string [n]) in
      if decide (s !! path = None) then path else free_temp fuel' (n + 1) dir prefix suffix s
  end.

Section host.
(** When the files were modified; what commands answer, and a page by the pseudo
    command [GET]; the users; the clock. *)
Context (mtime : string -> time) (answers : string -> list string -> result string string) (users : list string) (clock : time).

Definition command_of (name : string) (args : list string) (s : fs) (r : result string string) (s' : fs) : Prop :=
  s' = s /\ r = answers name args.

Definition look (s : fs) (path : string) : result os_error FileInfo :=
  match s !! path with Some n => Ok (info_of (mtime path) n) | None => Err absent end.

(** The entries of a directory, in no order. *)
Definition entries_of (s : fs) (path : string) : list DirEntry :=
  omap (fun e : string * node =>
    match cut_prefix (path +:+ "/") e.1 with
    | Some name =>
        if plain_nameb name
        then let info := info_of (mtime e.1) e.2 in Some (mkDirEntry name (fi_IsDir info) (fi_Symlink info) (Ok info))
        else None
    | None => None
    end) (map_to_list s).

Lemma entries_plain s path : Forall (fun entry => plain_name (de_Name entry)) (entries_of s path).
Proof.
  unfold entries_of. induction (map_to_list s) as [|[key n] l IH]; cbn [omap list_omap]; [by constructor|].
  destruct (cut_prefix _ _) as [name|]; [|done]. destruct (plain_nameb name) eqn:Hn; [|done].
  constructor; [|done]. by apply plain_nameb_ok.
Qed.

(** A call on a regular file. *)
Definition on_file (s : fs) (path : string) (f : string -> Z -> Z -> Z -> node) : result os_error unit * fs :=
  match s !! path with
  | Some (File content perm uid gid) => (Ok tt, <[path := f content perm uid gid]> s)
  | _ => (Err denied, s)
  end.

Definition host_call {B} (o : sys B) : fs -> B * fs :=
  match o in sys B return fs -> B * fs with
  | OpenNoFollow path => fun s =>
      (match s !! path with
       | Some (File _ _ _ _ | Directory | Special) => Ok tt
       | Some (Link _) => Err denied
       | None => Err absent
       end, s)
  | FileStat path | Lstat path | HostFiles.Stat path => fun s => (look s path, s)
  | ReadLimited path limit => fun s =>
      (match s !! path with Some (File c _ _ _) => Ok (stake (Z.to_nat limit) c) | _ => Err denied end, s)
  | CreateNew path perm => fun s =>
      match s !! path with None => (Ok tt, <[path := File "" perm 0 0]> s) | Some _ => (Err denied, s) end
  | CreateTemp dir prefix suffix => fun s =>
      let path := free_temp 10 0 dir prefix suffix s in (Ok path, <[path := File "" 384 0 0]> s)
  | Chmod path perm => fun s => on_file s path (fun c _ u g => File c perm u g)
  | Chown path uid gid => fun s => on_file s path (fun c p _ _ => File c p uid gid)
  | WriteAll path text => fun s => on_file s path (fun c p u g => File (c +:+ text) p u g)
  | Sync _ | Close _ | LockFile _ => fun s => (Ok tt, s)
  | Rename old new => fun s => match s !! old with Some n => (Ok tt, <[new := n]> (delete old s)) | None => (Err absent, s) end
  | Remove path => fun s => match s !! path with Some _ => (Ok tt, delete path s) | None => (Err absent, s) end
  | HostFiles.Symlink target path => fun s =>
      match s !! path with None => (Ok tt, <[path := Link target]> s) | Some _ => (Err denied, s) end
  | MkdirAll _ _ => fun s => (Ok tt, s)
  | WriteFile path content perm => fun s => (Ok tt, <[path := File content perm 0 0]> s)
  | ReadDir path => fun s => (Ok (entries_of s path), s)
  | ReadFile path => fun s => (match s !! path with Some (File c _ _ _) => Ok c | None => Err absent | _ => Err denied end, s)
  | OpenRead path => fun s => (match s !! path with Some _ => Ok tt | None => Err absent end, s)
  | ReadUpTo path limit => fun s =>
      (match s !! path with Some (File c _ _ _) => Ok (stake (Z.to_nat limit) c) | _ => Err denied end, s)
  | OpenCreate path perm => fun s =>
      (Ok tt, match s !! path with Some _ => s | None => <[path := File "" perm 0 0]> s end)
  | EvalSymlinks path => fun s => (Ok path, s)
  | Readlink path => fun s => (match s !! path with Some (Link t) => Ok t | _ => Err denied end, s)
  | LookupUser name => fun s => (bool_decide (name ∈ users), s)
  | RandomBytes n => fun s => (Ok (repeat 0 n), s)
  | TimeNow => fun s => (clock, s)
  | HostFiles.Run name args => fun s => (answers name args, s)
  | RunCombined name args => fun s => (match answers name args with Ok out => (out, None) | Err e => ("", Some e) end, s)
  | HttpGet _ => fun s => (Err "connection refused", s)
  | HttpFetch url _ => fun s => (match answers "GET" [url] with Ok body => Ok (mkResponse 200 body true) | Err e => Err e end, s)
  | Mkdir path _ => fun s => match s !! path with None => (Ok tt, <[path := Directory]> s) | Some _ => (Err denied, s) end
  | ContextErr => fun s => (None, s)
  end.

Lemma long_fresh (s : fs) path :
  (foldr (fun e n => String.length e.1 + n)%nat 0%nat (map_to_list s) < String.length path)%nat -> s !! path = None.
Proof.
  intros Hl. apply eq_None_not_Some. intros [n Hn]. apply elem_of_map_to_list in Hn.
  revert Hl. apply Nat.le_ngt. induction (map_to_list s) as [|e l IH]; [by apply not_elem_of_nil in Hn|].
  cbn [foldr]. apply elem_of_cons in Hn as [<-|Hn]; [simpl; lia|]. specialize (IH Hn). lia.
Qed.

Lemma digits_decimal ds : Forall (fun d => 0 <= d < 10) ds -> decimal (digit_string ds).
Proof.
  intros Hd. unfold decimal, digit_string. rewrite GoBase64.chars_of_list. apply forallb_forall.
  intros a (d & <- & Hin)%in_map_iff. apply list_elem_of_In in Hin. rewrite Forall_forall in Hd. apply Hd in Hin.
  assert (d = 0 \/ d = 1 \/ d = 2 \/ d = 3 \/ d = 4 \/ d = 5 \/ d = 6 \/ d = 7 \/ d = 8 \/ d = 9) as Hc by lia.
  by repeat destruct Hc as [->|Hc]; [..|subst d].
Qed.

Lemma free_temp_sound fuel n dir prefix suffix s :
  0 <= n -> n + Z.of_nat fuel <= 10 ->
  s !! free_temp fuel n dir prefix suffix s = None /\ temp_name dir prefix suffix (free_temp fuel n dir prefix suffix s).
Proof.
  revert n. induction fuel as [|fuel IH]; intros n Hn Hf; cbn [free_temp].
  - split.
    + apply long_fresh. unfold temp_path, String.app, digit_string.
      rewrite <-length_chars, !chars_app, !length_app, GoBase64.chars_of_list, length_map, repeat_length. lia.
    + eexists. split; [|done]. apply digits_decimal, Forall_forall. intros d ->%list_elem_of_In%repeat_spec. lia.
  - case_decide; [|apply IH; lia]. split; [done|]. eexists. split; [|done]. apply digits_decimal. repeat constructor; lia.
Qed.

#[local] Arguments free_temp : simpl never.

Context `{Host} (Hmtime : forall path n, modified path n (mtime path)) (Hclock : reads_clock clock).

Lemma info_of_describes path n : describes path (info_of (mtime path) n) n.
Proof. destruct n; simpl; split_and!; try done. by intros owner [= <-]. Qed.

Lemma host_call_sound {B} (o : sys B) s b s' : host_call o s = (b, s') -> sys_step command_of eq o s b s'.
Proof.
  destruct o; simpl; unfold look, on_file, missing_ok, command_of; intros E;
    repeat case_match; simplify_eq/=; rewrite ?lookup_insert_eq; try done; eauto 10 using info_of_describes, entries_plain.
  - match goal with |- context [free_temp 10 0 ?d ?p ?q ?s] => destruct (free_temp_sound 10 0 d p q s) as [? ?]; [done..|] end. eauto 10.
  - split; [done|]. apply repeat_length.
Qed.

Fixpoint run_host {A} (p : prog sys A) (s : fs) : A * fs :=
  match p with
  | Ret a => (a, s)
  | Call o k => let '(b, s') := host_call o s in run_host (k b) s'
  end.

Lemma run_host_reaches {A} (p : prog sys A) s a s' :
  run_host p s = (a, s') -> reaches command_of eq p s (Ret a) s'.
Proof.
  revert s. induction p as [a'|B o k IH]; intros s; simpl.
  - intros [= -> ->]. apply reaches_here.
  - destruct (host_call o s) as [b s1] eqn:Hc. intros Hr. eapply reaches_call; [by apply host_call_sound|]. by apply IH.
Qed.

(** The execution up to the first call of a kind. *)
Fixpoint run_until {A} (stop : forall B, sys B -> bool) (p : prog sys A) (s : fs) : prog sys A * fs :=
  match p with
  | Ret a => (Ret a, s)
  | Call o k => if stop _ o then (p, s) else let '(b, s') := host_call o s in run_until stop (k b) s'
  end.

Lemma run_until_reaches {A} stop (p : prog sys A) s :
  reaches command_of eq p s (run_until stop p s).1 (run_until stop p s).2.
Proof.
  revert s. induction p as [a'|B o k IH]; intros s; simpl; [apply reaches_here|].
  destruct (stop B o); [apply reaches_here|]. destruct (host_call o s) as [b s1] eqn:Hc.
  eapply reaches_call; [by apply host_call_sound|]. apply IH.
Qed.
End host.

(** The host without faults on which files and clock can be of any time. *)
Definition no_faults : Host := mkHost False (fun _ _ _ => True) (fun _ => True).

Notation run_on := (run_host (fun _ => 0)).

Lemma run_on_reaches answers users clock {A} (p : prog sys A) s a s' :
  run_on answers users clock p s = (a, s') -> @reaches no_faults (command_of answers) eq A p s (Ret a) s'.
Proof. by apply (@run_host_reaches _ answers users clock no_faults). Qed.
