(* ===== verification/AgentEditors.v ===== *)
(** * Editing a file of the host: what the writers share

    A write is guarded by the checksum the panel saw, keeps a backup, replaces
    the file by renaming a temporary one, and, for configurations, is tested and
    taken back when the test fails.  [nginx.go], [php.go] and [files.go] of
    [cmd/hserver-agent] have these steps in each writer. *)

From stdpp Require Import base strings gmap list sorting.
From Stdlib Require Import ZArith Lia Ascii.
From S2P Require Import Prelude GoStrings GoJson GoTime GoSha256 HubTypes TaskGate IntegrationStatus AgentConfig AgentTasks HostFiles.
Local Open Scope Z_scope.
Local Open Scope hub_scope.

(** [fmt.Errorf("...: %w", err)] *)
Definition wrap (before : string) (e : error) : error := mkError (before +:+ err_Error e) (err_wraps e).

(** The guarded replacement the three writers share; [k] gets the backup, the
    content that was replaced, its mode and its owner. *)
Definition checked_replace {A} (changed : error) (ownership backing replacing : string)
    (target content expected : string)
    (k : string -> string -> Z -> Z -> Z -> prog sys (answer A)) : prog sys (answer A) :=
  do! before := readManagedFile target in
  match before with
  | Err e => Ret (Err (fe_error e))
  | Ok (info, current, checksum) =>
      if negb (checksum =?s expected) then Ret (Err changed)
      else
        match fi_Owner info with
        | None => Ret (Err (errors_New ownership))
        | Some (uid, gid) =>
            Call TimeNow (fun now =>
              let backup := target +:+ ".hserver-backup-" +:+ compact_stamp now in
              let mode := fi_Perm info in
              do! saved := writeNewManagedFile backup current mode uid gid in
              match saved with
              | Err e => Ret (Err (wrap backing e))
              | Ok _ =>
                  do! latest := readManagedFile target in
                  match latest with
                  | Err e => Ret (Err (fe_error e))
                  | Ok (_, _, latestChecksum) =>
                      if negb (latestChecksum =?s expected) then Ret (Err changed)
                      else
                        do! replaced := replaceManagedFile target content mode uid gid in
                        match replaced with
                        | Err e => Ret (Err (wrap replacing e))
                        | Ok _ => k backup current mode uid gid
                        end
                  end
              end)
        end
  end.

(** A test that failed: the previous content is put back. *)
Definition restore {A} (invalid : error) (restore_failed : string) (target current : string) (mode uid gid : Z)
    : prog sys (answer A) :=
  do! restored := replaceManagedFile target current mode uid gid in
  match restored with
  | Err e => Ret (Err (mkError (err_Error invalid +:+ restore_failed +:+ err_Error e) (err_wraps invalid)))
  | Ok _ => Ret (Err invalid)
  end.

(** The test of the new content, and the reload. *)
Definition test_and_reload (invalid : error) (test reloading : prog sys (answer unit)) (target : string) (reload : bool)
    (backup current : string) (mode uid gid : Z) : prog sys (answer string) :=
  do! tested := test in
  match tested with
  | Err _ => restore invalid " and restore failed: " target current mode uid gid
  | Ok _ => if reload then try! _ := reloading in Ret (Ok backup) else Ret (Ok backup)
  end.

(** What a reader of a file answers. *)
Record managedFileContent : Type := mkFileContent {
  mfc_Path : string; mfc_Content : string; mfc_Checksum : string; mfc_Size : Z; mfc_Mode : string;
  mfc_ModifiedAt : string }.
