(* ===== verification/AgentNginx.v ===== *)
(** * The Nginx controller: [nginx.go] of [cmd/hserver-agent]

    Configurations are listed, read, written and reloaded; a mutex serialises the
    operations.  A configuration that is not enabled is linked for its test. *)

From stdpp Require Import base strings gmap list sorting.
From Stdlib Require Import ZArith Lia Ascii.
From S2P Require Import Prelude GoStrings GoJson GoTime GoSha256 HubTypes TaskGate IntegrationStatus AgentConfig AgentTasks HostFiles AgentEditors.
Local Open Scope Z_scope.
Local Open Scope hub_scope.

Definition nginx_changed : error := mkError "Nginx configuration changed on the server" [errNginxConfigChanged].
Definition nginx_invalid : error := mkError "Nginx configuration test failed" [errNginxConfigInvalid].
Definition nginx_too_large : error := mkError "Nginx configuration exceeds the size limit" [errNginxConfigTooLarge].

Record nginxConfig : Type := mkNginxConfig {
  nc_Name : string; nc_Enabled : bool; nc_Size : Z; nc_ModifiedAt : string; nc_Content : string; nc_Checksum : string }.

Record nginxController : Type := mkNginx {
  ngx_allowedActions : gset string;
  ngx_allowRead : bool;
  ngx_allowWrite : bool;
  ngx_availableDir : string;
  ngx_enabledDir : string
}.

Definition newNginxController (allowedActions : gset string) (allowRead allowWrite : bool) (availableDir enabledDir : string)
    : nginxController := mkNginx allowedActions allowRead allowWrite availableDir enabledDir.

Section controller.
Context (c : nginxController).

Definition testLocked : prog sys (answer unit) :=
  do! r := run_command "nginx" ["-t"] in
  match r with
  | Err text => Ret (Err (mkError ("Nginx configuration test failed: " +:+ text) [errNginxConfigInvalid]))
  | Ok _ => Ret (Ok tt)
  end.

Definition reloadLocked : prog sys (answer unit) :=
  do! r := run_command "systemctl" ["reload"; "nginx.service"] in
  match r with
  | Err text => Ret (Err (errors_New ("Nginx reload failed: " +:+ text)))
  | Ok _ => Ret (Ok tt)
  end.

Definition enabled (name : string) : prog sys bool :=
  Call (Lstat (Join [ngx_enabledDir c; name])) (fun r => Ret (match r with Ok _ => true | Err _ => false end)).

Definition Action (action : string) : prog sys (answer string) :=
  if negb (bool_decide (action ∈ ngx_allowedActions c))
  then Ret (Err (errors_New "Nginx action is not in the local allowlist"))
  else
    try! _ := testLocked in
    if action =?s "test" then Ret (Ok "Nginx configuration is valid")
    else try! _ := reloadLocked in Ret (Ok "Nginx configuration tested and reloaded").

(** The names [List] shows. *)
Definition listed (name : string) : bool :=
  agentNginxConfigNamePattern name && negb (occurs ".hserver-backup-" name).

Fixpoint list_configs (entries : list DirEntry) (configs : list nginxConfig) : prog sys (list nginxConfig) :=
  match entries with
  | [] => Ret configs
  | entry :: rest =>
      let name := de_Name entry in
      if negb (listed name) then list_configs rest configs
      else
        do! info := regularManagedFile (Join [ngx_availableDir c; name]) in
        match info with
        | Err _ => list_configs rest configs
        | Ok info =>
            do! on := enabled name in
            list_configs rest
              (configs ++ [mkNginxConfig name on (fi_Size info) (FormatRFC3339Nano (fi_ModTime info)) "" ""])
        end
  end.

Definition name_le (a b : nginxConfig) : Prop := String.le (nc_Name a) (nc_Name b).
#[global] Instance name_le_dec : RelDecision name_le := fun a b => decide (String.le (nc_Name a) (nc_Name b)).

Definition List : prog sys (answer (list nginxConfig)) :=
  if negb (ngx_allowRead c) then Ret (Err (errors_New "Nginx configuration reading is not enabled locally"))
  else
    Call (ReadDir (ngx_availableDir c)) (fun r =>
      match r with
      | Err e => Ret (Err (errors_New ("read Nginx configuration directory: " +:+ os_text e)))
      | Ok entries => do! configs := list_configs entries [] in Ret (Ok (merge_sort name_le configs))
      end).

Definition Read (name : string) : prog sys (answer nginxConfig) :=
  if negb (ngx_allowRead c) then Ret (Err (errors_New "Nginx configuration reading is not enabled locally"))
  else if negb (agentNginxConfigNamePattern name) then Ret (Err (errors_New "invalid Nginx configuration name"))
  else
    do! r := readManagedFile (Join [ngx_availableDir c; name]) in
    match r with
    | Err e => Ret (Err (fe_error e))
    | Ok (info, content, checksum) =>
        do! on := enabled name in
        Ret (Ok (mkNginxConfig name on (fi_Size info) (FormatRFC3339Nano (fi_ModTime info)) content checksum))
    end.

(** The link that makes the test read a configuration that is not enabled, if
    it needs one. *)
Definition ensureValidationLink (name target : string) : prog sys (answer (option string)) :=
  Call (Lstat (Join [ngx_enabledDir c; name])) (fun seen =>
    match seen with
    | Ok _ => Ret (Ok None)
    | Err e =>
        if negb (os_missing e) then Ret (Err (errors_New ("inspect enabled Nginx configuration: " +:+ os_text e)))
        else
          Call (MkdirAll (ngx_enabledDir c) 493) (fun made =>
            match made with
            | Err e => Ret (Err (errors_New ("prepare enabled Nginx directory: " +:+ os_text e)))
            | Ok _ =>
                Call (CreateTemp (ngx_enabledDir c) ".hserver-validation-" ".conf") (fun reserved =>
                  match reserved with
                  | Err e => Ret (Err (errors_New ("reserve Nginx validation link: " +:+ os_text e)))
                  | Ok validation =>
                      Call (Close validation) (fun closed =>
                        match closed with
                        | Err e => Call (Remove validation) (fun _ => Ret (Err (os_fail e)))
                        | Ok _ =>
                            Call (Remove validation) (fun removed =>
                              match removed with
                              | Err e => Ret (Err (os_fail e))
                              | Ok _ =>
                                  Call (HostFiles.Symlink target validation) (fun linked =>
                                    match linked with
                                    | Err e => Ret (Err (errors_New ("create Nginx validation link: " +:+ os_text e)))
                                    | Ok _ => Ret (Ok (Some validation))
                                    end)
                              end)
                        end)
                  end)
            end)
    end).

Definition removeValidation (validation : option string) : prog sys unit :=
  match validation with
  | Some path => Call (Remove path) (fun _ => Ret tt)
  | None => Ret tt
  end.

Definition Write (name content expectedChecksum : string) (reload : bool) : prog sys (answer string) :=
  if negb (ngx_allowWrite c) then Ret (Err (errors_New "Nginx configuration writing is not enabled locally"))
  else if negb (agentNginxConfigNamePattern name) || negb (agentSHA256Pattern expectedChecksum)
  then Ret (Err (errors_New "invalid Nginx configuration write request"))
  else if maxAgentNginxConfigBytes <? len content then Ret (Err nginx_too_large)
  else if negb (validManagedTextContent content)
  then Ret (Err (errors_New "Nginx configuration must be valid UTF-8 text"))
  else
    let target := Join [ngx_availableDir c; name] in
    checked_replace nginx_changed "Nginx configuration ownership is unavailable"
      "create Nginx configuration backup: " "replace Nginx configuration: " target content expectedChecksum
      (fun backup current mode uid gid =>
         do! link := ensureValidationLink name target in
         match link with
         | Err e => do! _ := replaceManagedFile target current mode uid gid in Ret (Err e)
         | Ok validation =>
             do! r := test_and_reload nginx_invalid testLocked reloadLocked target reload backup current mode uid gid in
             do! _ := removeValidation validation in Ret r
         end).
End controller.
