(* ===== verification/AgentPHP.v ===== *)
(** * The PHP-FPM controller: [php.go] of [cmd/hserver-agent]

    The versions and their pools are listed, pools are read and written, and a
    version is tested, reloaded and restarted. *)

From stdpp Require Import base strings gmap list sorting.
From Stdlib Require Import ZArith Lia Ascii.
From S2P Require Import Prelude GoStrings GoJson GoTime GoSha256 HubTypes TaskGate IntegrationStatus AgentConfig AgentTasks HostFiles AgentEditors.
Local Open Scope Z_scope.
Local Open Scope hub_scope.

Definition php_changed : error := mkError "PHP-FPM pool changed on the server" [errPHPConfigChanged].
Definition php_invalid : error := mkError "PHP-FPM configuration test failed" [errPHPConfigInvalid].
Definition php_too_large : error := mkError "PHP-FPM pool exceeds the size limit" [errPHPConfigTooLarge].

Definition maxPHPVersions : Z := 32.
Definition maxPHPPools : Z := 512.

Record phpFPMPool : Type := mkPool {
  pool_Name : string; pool_Path : string; pool_User : string; pool_Group : string; pool_Listen : string;
  pool_PM : string; pool_MaxChildren : Z }.

Record phpFPMVersion : Type := mkVersion {
  ver_Version : string; ver_Unit : string; ver_Active : string; ver_Enabled : string; ver_Masked : bool;
  ver_Binary : string; ver_Pools : list phpFPMPool }.

(** [values[key] = value]; a key that is absent reads as the empty string. *)
Definition set_value (values : gmap string string) (entry : string * string) : gmap string string :=
  <[entry.1 := entry.2]> values.

Definition TrimSuffix (s suffix : string) : string :=
  if HasSuffix s suffix then stake (String.length s - String.length suffix) s else s.

(** The line before a comment: [strings.SplitN(raw, ";", 2)[0]] *)
Definition uncommented (raw : string) : string :=
  TrimSpace (match Cut ";"%char raw with Some (line, _) => line | None => raw end).

Definition config_value (raw : string) : option (string * string) :=
  let line := uncommented raw in
  if (line =?s "") || HasPrefix line "[" then None
  else (fun '(key, value) => (TrimSpace key, TrimSpace value)) <$> Cut "="%char line.

Definition parsePHPConfigValues (content : string) : gmap string string :=
  foldl set_value ∅ (omap config_value (split newline content)).

Record phpController : Type := mkPHP {
  php_allowedActions : gset string;
  php_allowRead : bool;
  php_allowWrite : bool;
  php_configRoot : string;
  php_binaryRoot : string
}.

(** [fmt.Sprintf("%04o", perm)] of a permission. *)
Definition octal (perm : Z) : string :=
  digit_string [perm / 512 mod 8; perm / 64 mod 8; perm / 8 mod 8; perm mod 8].

(** A regular file that someone may execute. *)
Definition runnable (r : result os_error FileInfo) : bool :=
  match r with Ok info => fi_Regular info && negb (Z.land (fi_Perm info) 73 =? 0) | Err _ => false end.

Definition newPHPController (allowedActions : gset string) (allowRead allowWrite : bool) (configRoot binaryRoot : string)
    : phpController := mkPHP allowedActions allowRead allowWrite configRoot binaryRoot.

Section controller.
Context (c : phpController).

Definition poolPath (version pool : string) : answer string :=
  if negb (agentPHPVersionPattern version) || negb (agentPHPPoolNamePattern pool)
  then Err (errors_New "invalid PHP-FPM version or pool")
  else Ok (Join [php_configRoot c; version; "fpm"; "pool.d"; pool +:+ ".conf"]).

Definition binary (version : string) : string := Join [php_binaryRoot c; "php-fpm" +:+ version].
Definition unit_name (version : string) : string := "php" +:+ version +:+ "-fpm.service".

Definition testLocked (version : string) : prog sys (answer unit) :=
  Call (HostFiles.Stat (binary version)) (fun found =>
    if negb (runnable found)
    then Ret (Err (mkError "PHP-FPM configuration test failed: runtime binary is unavailable" [errPHPConfigInvalid]))
    else
      do! r := run_command (binary version) ["-t"] in
      match r with
      | Err text => Ret (Err (mkError ("PHP-FPM configuration test failed: " +:+ text) [errPHPConfigInvalid]))
      | Ok _ => Ret (Ok tt)
      end).

Definition serviceActionLocked (version action : string) : prog sys (answer unit) :=
  if negb (action =?s "reload") && negb (action =?s "restart")
  then Ret (Err (errors_New "unsupported PHP-FPM service action"))
  else
    do! r := run_command "systemctl" [action; unit_name version] in
    match r with
    | Err text => Ret (Err (errors_New ("PHP-FPM " +:+ action +:+ " failed: " +:+ text)))
    | Ok _ => Ret (Ok tt)
    end.

Definition serviceState (unit_ : string) : prog sys (string * string) :=
  do! r := run_command "systemctl" ["show"; "--property=ActiveState"; "--property=UnitFileState"; unit_] in
  match r with
  | Err _ => Ret ("unknown", "unknown")
  | Ok output =>
      let values := foldl set_value ∅ (omap (Cut "="%char) (split newline (TrimSpace output))) in
      let active := values !!! "ActiveState" in
      let enabled := values !!! "UnitFileState" in
      if (active =?s "") || (enabled =?s "") then Ret ("unknown", "unknown") else Ret (active, enabled)
  end.

(** The pools of a version, in the order of their directory. *)
Fixpoint list_pools (poolDir : string) (entries : list DirEntry) (pools : list phpFPMPool) : prog sys (list phpFPMPool) :=
  match entries with
  | [] => Ret pools
  | entry :: rest =>
      if Z.of_nat (length pools) =? maxPHPPools then Ret pools
      else
        let file := de_Name entry in
        let name := TrimSuffix file ".conf" in
        if negb (HasSuffix file ".conf") || negb (agentPHPPoolNamePattern name) || occurs ".hserver-backup-" file
        then list_pools poolDir rest pools
        else
          let path := Join [poolDir; file] in
          do! r := readManagedFile path in
          match r with
          | Err _ => list_pools poolDir rest pools
          | Ok (_, content, _) =>
              let values := parsePHPConfigValues content in
              list_pools poolDir rest
                (pools ++ [mkPool name path (values !!! "user") (values !!! "group") (values !!! "listen")
                             (values !!! "pm") (Atoi_value (values !!! "pm.max_children"))])
          end
  end.

Definition pool_le (a b : phpFPMPool) : Prop := String.le (pool_Name a) (pool_Name b).
#[global] Instance pool_le_dec : RelDecision pool_le := fun a b => decide (String.le (pool_Name a) (pool_Name b)).

Definition readPHPPools (poolDir : string) : prog sys (answer (list phpFPMPool)) :=
  Call (ReadDir poolDir) (fun r =>
    match r with
    | Err e => Ret (Err (os_fail e))
    | Ok entries => do! pools := list_pools poolDir entries [] in Ret (Ok (merge_sort pool_le pools))
    end).

Fixpoint list_versions (entries : list DirEntry) (versions : list phpFPMVersion)
    : prog sys (answer (list phpFPMVersion)) :=
  match entries with
  | [] => Ret (Ok versions)
  | entry :: rest =>
      if Z.of_nat (length versions) =? maxPHPVersions then Ret (Ok versions)
      else
        let version := de_Name entry in
        if negb (de_IsDir entry) || negb (agentPHPVersionPattern version) then list_versions rest versions
        else
          let poolDir := Join [php_configRoot c; version; "fpm"; "pool.d"] in
          Call (HostFiles.Stat poolDir) (fun found =>
            if negb (match found with Ok info => fi_IsDir info | Err _ => false end) then list_versions rest versions
            else
              do! state := serviceState (unit_name version) in
              let '(active, enabled) := state in
              Call (HostFiles.Stat (binary version)) (fun runtime =>
                let path := if runnable runtime then binary version else "" in
                do! read := readPHPPools poolDir in
                match read with
                | Err e => Ret (Err (wrap ("read PHP " +:+ version +:+ " pools: ") e))
                | Ok pools =>
                    list_versions rest
                      (versions ++ [mkVersion version (unit_name version) active enabled (enabled =?s "masked") path pools])
                end))
  end.

Definition version_le (a b : phpFPMVersion) : Prop := String.le (ver_Version a) (ver_Version b).
#[global] Instance version_le_dec : RelDecision version_le := fun a b => decide (String.le (ver_Version a) (ver_Version b)).

Definition Inventory : prog sys (answer (list phpFPMVersion)) :=
  if negb (php_allowRead c) then Ret (Err (errors_New "PHP-FPM inventory is not enabled locally"))
  else
    Call (ReadDir (php_configRoot c)) (fun r =>
      match r with
      | Err e => Ret (Err (errors_New ("read PHP configuration root: " +:+ os_text e)))
      | Ok entries => try! versions := list_versions entries [] in Ret (Ok (merge_sort version_le versions))
      end).

Definition Read (version pool : string) : prog sys (answer managedFileContent) :=
  if negb (php_allowRead c) then Ret (Err (errors_New "PHP-FPM configuration reading is not enabled locally"))
  else
    match poolPath version pool with
    | Err e => Ret (Err e)
    | Ok path =>
        do! r := readManagedFile path in
        match r with
        | Err e => Ret (Err (fe_error e))
        | Ok (info, content, checksum) =>
            Ret (Ok (mkFileContent path content checksum (fi_Size info) (octal (fi_Perm info))
                       (FormatRFC3339Nano (fi_ModTime info))))
        end
    end.

Definition Write (version pool content expectedChecksum : string) (reload : bool) : prog sys (answer string) :=
  let refused := Ret (Err (errors_New "invalid PHP-FPM configuration write request")) in
  if negb (php_allowWrite c) then Ret (Err (errors_New "PHP-FPM configuration writing is not enabled locally"))
  else
    match poolPath version pool with
    | Err _ => refused
    | Ok path =>
        if negb (agentSHA256Pattern expectedChecksum) then refused
        else if maxAgentNginxConfigBytes <? len content then Ret (Err php_too_large)
        else if negb (validManagedTextContent content)
        then Ret (Err (errors_New "PHP-FPM configuration must be valid UTF-8 text"))
        else
          checked_replace php_changed "PHP-FPM pool ownership is unavailable" "create PHP-FPM pool backup: "
            "replace PHP-FPM pool: " path content expectedChecksum
            (test_and_reload php_invalid (testLocked version) (serviceActionLocked version "reload") path reload)
    end.

Definition Action (version action : string) : prog sys (answer string) :=
  if negb (agentPHPVersionPattern version) then Ret (Err (errors_New "invalid PHP-FPM version"))
  else if negb (bool_decide (action ∈ php_allowedActions c))
  then Ret (Err (errors_New "PHP-FPM action is not in the local allowlist"))
  else
    try! _ := testLocked version in
    if action =?s "test" then Ret (Ok "PHP-FPM configuration is valid")
    else
      try! _ := serviceActionLocked version action in
      Ret (Ok (if action =?s "reload" then "PHP-FPM configuration tested and reloaded"
               else "PHP-FPM configuration tested and restarted")).
End controller.
