(* ===== verification/AgentFiles.v ===== *)
(** * The file controller: [files.go] of [cmd/hserver-agent]

    Files are browsed, read and written inside local roots, whatever links say. *)

From stdpp Require Import base strings gmap list sorting.
From Stdlib Require Import ZArith Lia Ascii.
From S2P Require Import Prelude GoStrings GoJson GoTime GoSha256 HubTypes TaskGate IntegrationStatus AgentConfig AgentTasks HostFiles AgentEditors AgentNginx.
Local Open Scope Z_scope.
Local Open Scope hub_scope.

Record fileController : Type := mkFiles { fc_readRoots : list string; fc_writeRoots : list string }.

Definition newFileController (readRoots writeRoots : list string) : fileController := mkFiles readRoots writeRoots.

Definition outside_roots : error := errors_New "managed path is outside the local roots".

(** The path is the directory or below it. *)
Definition within (path dir : string) : bool := (path =?s dir) || HasPrefix path (dir +:+ "/").

Fixpoint resolve_in (candidate : string) (roots : list string) : prog sys (answer string) :=
  match roots with
  | [] => Ret (Err outside_roots)
  | root :: rest =>
      if negb (within candidate root) then resolve_in candidate rest
      else
        Call (EvalSymlinks root) (fun resolvedRoot =>
          Call (EvalSymlinks candidate) (fun resolved =>
            match resolvedRoot, resolved with
            | Ok dir, Ok path => if within path dir then Ret (Ok path) else resolve_in candidate rest
            | _, _ => resolve_in candidate rest
            end))
  end.

Definition resolveManagedPath (candidate : string) (roots : list string) : prog sys (answer string) :=
  if Nat.eqb (length roots) 0 || negb (IsAbs candidate) || negb (Clean candidate =?s candidate) || (candidate =?s "/")
  then Ret (Err outside_roots)
  else resolve_in candidate roots.

Definition maxAgentFileEntries : nat := 512.

Record managedFileEntry : Type := mkFileEntry {
  mfe_Name : string; mfe_Path : string; mfe_Type : string; mfe_Size : Z; mfe_Mode : string; mfe_ModifiedAt : string }.

(** What [Browse] calls an entry. *)
Definition entry_kind (entry : DirEntry) (info : FileInfo) : string :=
  if de_Symlink entry then "symlink"
  else if de_IsDir entry then "directory"
  else if negb (fi_Regular info) then "other" else "file".

Definition file_entry (dir : string) (entry : DirEntry) : option managedFileEntry :=
  match de_Info entry with
  | Err _ => None
  | Ok info => Some (mkFileEntry (de_Name entry) (Join [dir; de_Name entry]) (entry_kind entry info) (fi_Size info)
                       (fi_Mode info) (FormatRFC3339Nano (fi_ModTime info)))
  end.

(** Directories first, then by the name without case. *)
Definition entry_less `{LowerTable} (a b : managedFileEntry) : bool :=
  let dir e := mfe_Type e =?s "directory" in
  if negb (Bool.eqb (dir a) (dir b)) then dir a
  else String.ltb (ToLower (mfe_Name a)) (ToLower (mfe_Name b)).

Section controller.
Context (c : fileController).

(** [sort.Slice] leaves entries that compare equal in any order. *)
Context `{LowerTable} (sort_Slice : (managedFileEntry -> managedFileEntry -> bool)
                                      -> list managedFileEntry -> list managedFileEntry).

Definition Browse (candidate : string) : prog sys (answer (list managedFileEntry)) :=
  try! resolved := resolveManagedPath candidate (fc_readRoots c) in
  Call (HostFiles.Stat resolved) (fun found =>
    if negb (match found with Ok info => fi_IsDir info | Err _ => false end)
    then Ret (Err (errors_New "managed path is not a directory"))
    else
      Call (ReadDir resolved) (fun listing =>
        match listing with
        | Err e => Ret (Err (errors_New ("read managed directory: " +:+ os_text e)))
        | Ok entries =>
            if Nat.ltb maxAgentFileEntries (length entries)
            then Ret (Err (errors_New "managed directory exceeds the entry limit"))
            else Ret (Ok (sort_Slice entry_less (omap (file_entry resolved) entries)))
        end)).

Definition Read (candidate : string) : prog sys (answer managedFileContent) :=
  try! resolved := resolveManagedPath candidate (fc_readRoots c) in
  do! r := readManagedFile resolved in
  match r with
  | Err e => Ret (Err (fe_error e))
  | Ok (info, content, checksum) =>
      if negb (valid_utf8 content) || existsb (Ascii.eqb nul) (chars content)
      then Ret (Err (errors_New "managed file must be UTF-8 text"))
      else Ret (Ok (mkFileContent resolved content checksum (fi_Size info) (fi_Mode info)
                      (FormatRFC3339Nano (fi_ModTime info))))
  end.

Definition Write (candidate content expectedChecksum : string) : prog sys (answer string) :=
  if Nat.eqb (length (fc_writeRoots c)) 0 then Ret (Err (errors_New "file writing is not enabled locally"))
  else if negb (agentSHA256Pattern expectedChecksum) || (maxAgentNginxConfigBytes <? len content)
          || negb (validManagedTextContent content)
  then Ret (Err (errors_New "invalid managed file write request"))
  else
    try! resolved := resolveManagedPath candidate (fc_writeRoots c) in
    checked_replace nginx_changed "managed file ownership is unavailable" "create managed file backup: "
      "replace managed file: " resolved content expectedChecksum (fun backup _ _ _ _ => Ret (Ok backup)).
End controller.
