(* ===== verification/AgentEditorsClaims.v ===== *)
(** * The guarded replacement, the test and the restoration

    [edit] is the three writers of [AgentEditors] as one; the theorems about
    them are about every edit. *)

From stdpp Require Import base strings gmap list sorting.
From Stdlib Require Import ZArith Lia Ascii.
From S2P Require Import Prelude GoStrings GoSha256 GoJson GoTime HubTypes TaskGate IntegrationStatus AgentConfig AgentTasks HostFiles AgentEditors AgentNginx AgentPHP AgentFiles.
Local Open Scope Z_scope.
Local Open Scope hub_scope.

(** ** Writers *)

Inductive edit : Type :=
| EditNginx (c : nginxController) (name : string) (reload : bool)
| EditPHP (c : phpController) (version pool : string) (reload : bool)
| EditFile (c : fileController) (candidate : string).

Definition edit_write (e : edit) (content expected : string) : prog sys (answer string) :=
  match e with
  | EditNginx c name reload => AgentNginx.Write c name content expected reload
  | EditPHP c version pool reload => AgentPHP.Write c version pool content expected reload
  | EditFile c candidate => AgentFiles.Write c candidate content expected
  end.

Definition edit_test (e : edit) : option (prog sys (answer unit)) :=
  match e with
  | EditNginx _ _ _ => Some AgentNginx.testLocked
  | EditPHP c version _ _ => Some (AgentPHP.testLocked c version)
  | EditFile _ _ => None
  end.

Definition edit_reload (e : edit) : option (prog sys (answer unit)) :=
  match e with
  | EditNginx _ _ true => Some AgentNginx.reloadLocked
  | EditPHP _ version _ true => Some (AgentPHP.serviceActionLocked version "reload")
  | _ => None
  end.

(** The new content replaces the old one, whose mode and owner stay. *)
Definition replaces (target content : string) (s0 s : fs) : Prop :=
  exists old mode uid gid,
    s0 !! target = Some (File old mode uid gid) /\ s !! target = Some (File content mode uid gid).

(** Every other file is as before, and the target is the old or the new version. *)
Definition versions (target content : string) (s0 s : fs) : Prop :=
  delete target s0 ⊆ s /\ (s !! target = s0 !! target \/ replaces target content s0 s).

Section facts.
Context `{Host}.
Context (command : string -> list string -> fs -> result string string -> fs -> Prop).
Context (resolves : string -> string -> Prop).
Context (commands_leave_files : forall name args s r s', command name args s r s' -> s' = s).
Notation wp := (wp command resolves).
Notation reaches := (reaches command resolves).

(** The file an edit is about. *)
Definition edits (e : edit) (target : string) : Prop :=
  match e with
  | EditNginx c name _ => target = Join [ngx_availableDir c; name]
  | EditPHP c version pool _ => AgentPHP.poolPath c version pool = Ok target
  | EditFile c candidate =>
      exists root dir, root ∈ fc_writeRoots c /\ within candidate root = true
        /\ resolves root dir /\ resolves candidate target /\ within target dir = true
  end.

(** A program that ran on files with the new content, and one that failed. *)
Definition passed (target content : string) (p : prog sys (answer unit)) : Prop :=
  exists mode uid gid s s',
    s !! target = Some (File content mode uid gid) /\ reaches p s (Ret (Ok tt)) s'.

Definition failed (p : prog sys (answer unit)) : Prop := exists s s' e, reaches p s (Ret (Err e)) s'.

(** ** Extensions of the files *)

Lemma versions_ext target content s0 s :
  is_Some (s0 !! target) -> s0 ⊆ s -> versions target content s0 s.
Proof.
  intros [n Hn] Hs. split.
  - etrans; [apply delete_subseteq|done].
  - left. rewrite Hn. by eapply lookup_weaken.
Qed.

Lemma versions_weaken target content s0 s s' :
  is_Some (s0 !! target) -> versions target content s0 s -> s ⊆ s' -> versions target content s0 s'.
Proof.
  intros [n Hn] [Hd Ht] Hs. split; [by etrans|]. destruct Ht as [Ht|(old & m & u & g & H0 & Ht)].
  - left. rewrite Hn in Ht |- *. by eapply lookup_weaken.
  - right. exists old, m, u, g. split; [done|]. by eapply lookup_weaken.
Qed.

(** ** Programs that leave the files *)

Definition leaves_files {A} (p : prog sys A) : Prop :=
  forall (I : fs -> Prop) (Q : A -> fs -> Prop) s,
    I s -> (forall a, reaches p s (Ret a) s -> Q a s) -> wp I p Q s.

Lemma leaves_files_ret {A} (a : A) : leaves_files (Ret a).
Proof. intros I Q s Hi Hq. apply wp_ret; [done|]. apply Hq, reaches_here. Qed.

Lemma leaves_files_call {A B} (o : sys B) (k : B -> prog sys A) :
  pure_call command resolves o -> (forall b, leaves_files (k b)) -> leaves_files (Call o k).
Proof.
  intros Ho Hk I Q s Hi Hq. apply wp_pure; [done..|]. intros b Hs. apply Hk; [done|].
  intros a Hr. apply Hq. by eapply reaches_call.
Qed.

Lemma pure_run name args : pure_call command resolves (HostFiles.Run name args).
Proof. intros s b s' Hs. by eapply commands_leave_files. Qed.

Lemma tests_leave_files e p : edit_test e = Some p -> leaves_files p.
Proof.
  destruct e; intros [= <-].
  - apply leaves_files_call; [apply pure_run|]. intros [out|text]; apply leaves_files_ret.
  - apply leaves_files_call; [apply (pure_calls command resolves (AgentPHP.binary c version) 0 "")|].
    intros found. destruct (negb (runnable found)); [apply leaves_files_ret|].
    apply leaves_files_call; [apply pure_run|]. intros [out|text]; apply leaves_files_ret.
Qed.

Lemma reloads_leave_files e p : edit_reload e = Some p -> leaves_files p.
Proof.
  destruct e as [c name []|c version pool []|]; intros [= <-];
    (apply leaves_files_call; [apply pure_run|]; intros [out|text]; apply leaves_files_ret).
Qed.

(** ** The replacement *)

Lemma checked_replace_wp {A} (I : fs -> Prop) (Q : answer A -> fs -> Prop) changed own backing replacing
    target content expected k s0 :
  I s0 -> (forall e, Q (Err e) s0) ->
  (is_Some (s0 !! target) -> forall s, s0 ⊆ s -> I s /\ forall e, Q (Err e) s) ->
  (forall backup current mode perm uid gid,
     s0 !! target = Some (File current mode uid gid) -> s0 !! backup = None -> backup <> target ->
     sha256_hex current = expected ->
     wp I (k backup current mode uid gid) Q
       (<[target := File content mode uid gid]> (<[backup := File current perm uid gid]> s0))) ->
  wp I (checked_replace changed own backing replacing target content expected k) Q s0.
Proof.
  intros HI0 HQ0 Hext Hk. assert (forall e, wp I (Ret (Err e)) Q s0) as Hstop.
  { intros e. apply wp_ret; auto. }
  apply wp_bind. eapply wp_mono; [apply (readManagedFile_wp command resolves I); auto|done|].
  intros [[[info current] checksum]|e] s _ [-> Hread]; [|apply Hstop].
  destruct Hread as ((mode & uid & gid & Ht & Hd) & -> & _).
  assert (forall s, s0 ⊆ s -> I s /\ forall e, Q (Err e) s) as HIQ by (apply Hext; by rewrite Ht).
  assert (forall s, s0 ⊆ s -> I s) as HI by (intros s Hs; by apply HIQ).
  assert (forall e s, s0 ⊆ s -> Q (Err e) s) as HQ by (intros e s Hs; by apply HIQ).
  clear Hext HIQ.
  destruct (negb _) eqn:Hexp; [apply Hstop|]. apply negb_false_iff, String.eqb_eq in Hexp.
  destruct (fi_Owner info) as [[u g]|] eqn:Hown; [|apply Hstop].
  destruct Hd as (_ & _ & _ & -> & Hd). apply Hd in Hown as [= -> ->].
  apply wp_pure; [by intros ??? [? _]|auto|]. intros now _.
  set (backup := target +:+ _).
  apply wp_bind. apply writeNewManagedFile_wp; [done|intros; apply wp_ret; auto|].
  intros perm Hb. assert (backup <> target) as Hne by congruence.
  assert (s0 ⊆ <[backup := File current perm uid gid]> s0) as Hs1 by by apply insert_subseteq.
  apply wp_bind. eapply wp_mono; [apply (readManagedFile_wp command resolves I); auto|done|].
  intros [[[info' current'] checksum']|e] s _ [-> Hread']; [|apply wp_ret; auto].
  destruct (negb (checksum' =?s expected)); [apply wp_ret; auto|].
  pose proof (Hk backup current mode perm uid gid Ht Hb Hne Hexp) as Hk'.
  apply wp_bind. apply replaceManagedFile_wp.
  - intros s Hs. apply HI. by etrans.
  - intros e s _ Hs. apply wp_ret; [apply HI|apply HQ]; by etrans.
  - by eapply wp_inv.
  - done.
Qed.

(** ** What an edit leaves *)

Definition outcome (e : edit) (target content expected : string) (s0 : fs) (r : answer string) (s : fs) : Prop :=
  delete target s0 ⊆ s /\
  match r with
  | Ok backup =>
      (exists old mode perm uid gid,
         s0 !! target = Some (File old mode uid gid) /\ sha256_hex old = expected
         /\ s !! target = Some (File content mode uid gid)
         /\ s0 !! backup = None /\ s !! backup = Some (File old perm uid gid))
      /\ (forall p, edit_test e = Some p -> passed target content p)
      /\ (forall p, edit_reload e = Some p -> passed target content p)
  | Err _ =>
      s !! target = s0 !! target
      \/ replaces target content s0 s
         /\ ((exists p, edit_reload e = Some p /\ failed p
                /\ forall q, edit_test e = Some q -> passed target content q)
             \/ faulty)
  end.

Lemma outcome_kept e target content expected s0 err s :
  is_Some (s0 !! target) -> s0 ⊆ s -> outcome e target content expected s0 (Err err) s.
Proof. intros Ht Hs. destruct (versions_ext target content s0 s Ht Hs) as [Hd [Hv|Hv]]; split; auto.
  left. destruct Ht as [n Hn]. rewrite Hn. by eapply lookup_weaken. Qed.

(** Removing a file that was not there before. *)
Lemma kept_without (target : string) (s0 s : fs) (v : string) : s0 !! v = None -> delete target s0 ⊆ s -> delete target s0 ⊆ delete v s.
Proof.
  intros Hv Hd. apply map_subseteq_spec. intros p x Hp. rewrite lookup_delete_ne; [by eapply lookup_weaken|].
  intros ->. apply lookup_delete_Some in Hp as [_ Hp]. congruence.
Qed.

Lemma versions_remove target content s0 s v :
  v <> target -> s0 !! v = None -> versions target content s0 s -> versions target content s0 (delete v s).
Proof.
  intros Hne Hv [Hd Hr]. split; [by apply kept_without|]. unfold replaces in *. by rewrite lookup_delete_ne.
Qed.

Lemma outcome_remove e target content expected s0 r s v :
  is_Some (s0 !! target) -> s0 !! v = None -> (forall backup, r = Ok backup -> v <> backup) ->
  outcome e target content expected s0 r s -> outcome e target content expected s0 r (delete v s).
Proof.
  intros [n Hn] Hv Hb [Hd Hr]. assert (v <> target) as Hne by congruence.
  split; [by apply kept_without|]. unfold replaces in *. destruct r as [backup|err]; rewrite lookup_delete_ne by done; [|done].
  rewrite lookup_delete_ne; [done|]. by apply Hb.
Qed.

Section after_replacement.
Context (e : edit) (target content expected backup old : string) (mode perm uid gid : Z) (s0 : fs).
Context (H0 : s0 !! target = Some (File old mode uid gid)) (Hb : s0 !! backup = None) (Hsha : sha256_hex old = expected).
Let I : fs -> Prop := versions target content s0.

(** The files after the replacement, with the new content or restored. *)
Definition holding (current : string) (s : fs) : Prop :=
  delete target s0 ⊆ s /\ s !! target = Some (File current mode uid gid) /\ s !! backup = Some (File old perm uid gid).

Lemma holding_ext current s s' : holding current s -> s ⊆ s' -> holding current s'.
Proof. intros (Hd & Ht & Hb') Hs. split_and!; [by etrans|by eapply lookup_weaken..]. Qed.

Lemma holding_old s : holding content s -> holding old (<[target := File old mode uid gid]> s).
Proof.
  intros (Hd & Ht & Hb'). assert (backup <> target) by congruence. split_and!.
  - apply map_subseteq_spec. intros p x Hp. pose proof Hp as Hp'. apply lookup_delete_Some in Hp' as [Hne _].
    rewrite lookup_insert_ne by done. by eapply lookup_weaken.
  - by rewrite lookup_insert_eq.
  - by rewrite lookup_insert_ne.
Qed.

Lemma holding_versions current s : current = old \/ current = content -> holding current s -> I s.
Proof.
  intros Hc (Hd & Ht & _). split; [done|]. destruct Hc as [->| ->]; [left; congruence|right]. by exists old, mode, uid, gid.
Qed.

(** Putting the old content back. *)
Lemma put_back_wp {A} (k : answer unit -> prog sys A) Q s :
  holding content s ->
  (forall s', I s' -> holding old s' -> wp I (k (Ok tt)) Q s') ->
  (forall err s', I s' -> holding content s' -> faulty ->
     wp I (k (Err err)) Q s') ->
  wp I (pbind (replaceManagedFile target old mode uid gid) k) Q s.
Proof.
  intros Hh Hok Herr. apply wp_bind. apply replaceManagedFile_wp.
  - intros s' Hs. eapply holding_versions; [by right|]. by eapply holding_ext.
  - intros err s' Hf Hs. assert (holding content s') as Hh' by by eapply holding_ext.
    apply Herr; [eapply holding_versions; [by right|done]|done|]. destruct Hf as [Hf|Hf]; [done|].
    destruct Hh as (_ & Ht & _). congruence.
  - eapply holding_versions; [by left|]. by apply holding_old.
  - apply Hok; [|by apply holding_old]. eapply holding_versions; [by left|]. by apply holding_old.
Qed.

Lemma outcome_restored err s : holding old s -> outcome e target content expected s0 (Err err) s.
Proof. intros (Hd & Ht & _). split; [done|]. left. congruence. Qed.

Lemma outcome_unrestored err s :
  holding content s -> faulty ->
  outcome e target content expected s0 (Err err) s.
Proof.
  intros (Hd & Ht & _) Hf. split; [done|]. right. split; [by exists old, mode, uid, gid|].
  by right.
Qed.

Lemma test_and_reload_wp invalid test reloading (reload : bool) s :
  edit_test e = Some test -> edit_reload e = (if reload then Some reloading else None) ->
  holding content s ->
  wp I (test_and_reload invalid test reloading target reload backup old mode uid gid)
    (fun r s' => outcome e target content expected s0 r s' /\ (forall b, r = Ok b -> b = backup)) s.
Proof.
  intros He Hr Hh. assert (I s) as Hi by (eapply holding_versions; [by right|done]).
  pose proof Hh as (Hd & Ht & Hb').
  assert (forall p, reaches p s (Ret (Ok tt)) s -> passed target content p) as Hpass.
  { intros p Hp. by exists mode, uid, gid, s, s. }
  unfold test_and_reload. apply wp_bind. eapply tests_leave_files; [done..|].
  intros [[]|err] Htest.
  - assert (forall p, edit_test e = Some p -> passed target content p) as Hp.
    { intros p Hp. rewrite He in Hp. injection Hp as <-. by apply Hpass. }
    assert ((forall p, edit_reload e = Some p -> passed target content p) ->
              outcome e target content expected s0 (Ok backup) s) as Hdone.
    { intros Hre. split; [done|]. split_and!; [|done..]. by exists old, mode, perm, uid, gid. }
    destruct reload.
    + apply wp_bind. eapply reloads_leave_files; [done..|]. intros [[]|err] Hre; (apply wp_ret; [done|]); split.
      * apply Hdone. intros p Hp'. rewrite Hr in Hp'. injection Hp' as <-. by apply Hpass.
      * by intros b [= ->].
      * split; [done|]. right. split; [by exists old, mode, uid, gid|]. left. exists reloading.
        split_and!; [done| |done]. by exists s, s, err.
      * done.
    + apply wp_ret; [done|]. split; [|by intros b [= ->]]. apply Hdone. congruence.
  - apply put_back_wp; [done|..].
    + intros s' Hi' Hs. apply wp_ret; [done|]. split; [by apply outcome_restored|done].
    + intros err' s' Hi' Hs Hf. apply wp_ret; [done|]. split; [by apply outcome_unrestored|done].
Qed.
End after_replacement.

(** ** The validation link *)

Lemma ensureValidationLink_wp (I : fs -> Prop) (Q : answer (option string) -> fs -> Prop) c name target s :
  (forall s', s ⊆ s' -> I s') -> (forall e s', s ⊆ s' -> Q (Err e) s') -> Q (Ok None) s ->
  (forall v s', s !! v = None -> s ⊆ s' -> Q (Ok (Some v)) s') ->
  wp I (AgentNginx.ensureValidationLink c name target) Q s.
Proof.
  intros HI HQ Hnone Hsome.
  assert (forall e s', s ⊆ s' -> wp I (Ret (Err e)) Q s') as Hstop by (intros; apply wp_ret; auto).
  apply wp_pure; [apply (pure_calls command resolves _ 0 "")|auto|].
  intros [info|err] _; [apply wp_ret; auto|]. destruct (negb (os_missing err)); [by apply Hstop|].
  apply wp_call; [auto|]. intros made s1 [Hm _].
  assert (s ⊆ s1) as Hs1.
  { apply map_subseteq_spec. intros p x Hp. rewrite Hm; [done|by rewrite Hp]. }
  destruct made as [[]|err1]; [|by apply Hstop].
  apply wp_call; [auto|]. intros [v|err2] s2 Hs2; simpl in Hs2; [|destruct Hs2 as [_ ->]; by apply Hstop].
  destruct Hs2 as (Hv & _ & u & g & ->).
  assert (forall n, s ⊆ <[v := n]> s1) as Hs2 by (intros n; etrans; [done|by apply insert_subseteq]).
  assert (s !! v = None) as Hv0 by by eapply lookup_weaken_None.
  apply wp_call; [auto|]. intros [[]|err3] s3 [-> _].
  - apply wp_call; [auto|]. intros [[]|err4] s4 Hs4; simpl in Hs4; [subst s4|destruct Hs4 as [-> _]; auto].
    rewrite delete_insert_id by done.
    apply wp_call; [auto|]. intros [[]|err5] s5 Hs5; simpl in Hs5; [|destruct Hs5 as [-> _]; auto].
    destruct Hs5 as [_ ->]. apply wp_ret; auto.
  - apply wp_call; [auto|]. intros [[]|err4] s4 Hs4; simpl in Hs4; [subst s4|destruct Hs4 as [-> _]; auto].
    rewrite delete_insert_id by done. auto.
Qed.

(** ** Resolving a path *)

Lemma resolve_in_wp (I : fs -> Prop) (Q : answer string -> fs -> Prop) candidate roots s :
  I s -> (forall e, Q (Err e) s) ->
  (forall root dir path, root ∈ roots -> within candidate root = true -> resolves root dir ->
     resolves candidate path -> within path dir = true -> Q (Ok path) s) ->
  wp I (resolve_in candidate roots) Q s.
Proof.
  intros Hi He. induction roots as [|root roots IH]; intros Hok; cbn [resolve_in]; [by apply wp_ret|].
  assert (wp I (resolve_in candidate roots) Q s) as Hrest.
  { apply IH. intros root' dir path Hr. apply Hok. by right. }
  destruct (within candidate root) eqn:Hw; cbn [negb]; [|done].
  apply wp_pure; [apply (pure_calls command resolves root 0 "")|done|]. intros r1 [_ H1].
  apply wp_pure; [apply (pure_calls command resolves candidate 0 "")|done|]. intros r2 [_ H2].
  destruct r1 as [dir|e1]; [|done]. destruct r2 as [path|e2]; [|done].
  destruct (within path dir) eqn:Hp; [|done]. apply wp_ret; [done|]. eapply Hok; eauto. by left.
Qed.

(** ** The writers *)

Definition accepted (content : string) : Prop :=
  len content <= maxAgentNginxConfigBytes /\ validManagedTextContent content = true.

(** An edit that stopped before it had a target, or what it did to one. *)
Definition edit_result (e : edit) (content expected : string) (s0 : fs) (r : answer string) (s : fs) : Prop :=
  (s = s0 /\ exists err, r = Err err)
  \/ accepted content /\ exists target, edits e target /\ is_Some (s0 !! target) /\ outcome e target content expected s0 r s.

Definition edit_states (e : edit) (content : string) (s0 s : fs) : Prop :=
  s = s0 \/ exists target, edits e target /\ is_Some (s0 !! target) /\ versions target content s0 s.

Section writer.
Context (e : edit) (content expected : string) (s0 : fs).
Let I : fs -> Prop := edit_states e content s0.
Let Q : answer string -> fs -> Prop := edit_result e content expected s0.

Lemma edit_stops err : wp I (Ret (Err err)) Q s0.
Proof. apply wp_ret; left; eauto. Qed.

Section target.
Context (target : string) (Ht : edits e target) (Hc : accepted content).

Lemma edit_replaces changed own backing replacing k :
  (forall backup old mode perm uid gid s,
     s0 !! target = Some (File old mode uid gid) -> s0 !! backup = None -> sha256_hex old = expected ->
     holding target backup old mode perm uid gid s0 content s ->
     wp (versions target content s0) (k backup old mode uid gid)
       (fun r s' => outcome e target content expected s0 r s') s) ->
  wp I (checked_replace changed own backing replacing target content expected k) Q s0.
Proof.
  intros Hk. apply checked_replace_wp.
  - by left.
  - intros err. left. eauto.
  - intros Hsome s Hs. split.
    + right. exists target. split_and!; [done..|]. by apply versions_ext.
    + intros err. right. split; [done|]. exists target. split_and!; [done..|]. by apply outcome_kept.
  - intros backup old mode perm uid gid H0 Hb Hne Hsha.
    eapply wp_mono; [eapply Hk; [done..|]| |].
    + split_and!.
      * apply map_subseteq_spec. intros p x Hp. apply lookup_delete_Some in Hp as [Hp Hx].
        rewrite lookup_insert_ne by done. rewrite lookup_insert_ne; [done|]. congruence.
      * by rewrite lookup_insert_eq.
      * by rewrite lookup_insert_ne, lookup_insert_eq.
    + intros s Hs. right. exists target. by rewrite H0.
    + intros r s _ Hr. right. split; [done|]. exists target. by rewrite H0.
Qed.
End target.
End writer.

(** The link, the test and the reload of an Nginx configuration. *)
Lemma nginx_continues c name reload target content expected backup old mode perm uid gid s0 s :
  let e := EditNginx c name reload in
  s0 !! target = Some (File old mode uid gid) -> s0 !! backup = None -> sha256_hex old = expected ->
  holding target backup old mode perm uid gid s0 content s ->
  wp (versions target content s0)
    (do! link := AgentNginx.ensureValidationLink c name target in
     match link with
     | Err e => do! _ := replaceManagedFile target old mode uid gid in Ret (Err e)
     | Ok validation =>
         do! r := test_and_reload nginx_invalid AgentNginx.testLocked AgentNginx.reloadLocked target reload backup old mode uid gid in
         do! _ := AgentNginx.removeValidation validation in Ret r
     end)
    (fun r s' => outcome e target content expected s0 r s') s.
Proof.
  intros e H0 Hb Hsha Hh. apply wp_bind. eapply ensureValidationLink_wp.
  - intros s' Hs. eapply holding_versions; [done|by right|]. by eapply holding_ext.
  - intros err s' Hs. eapply put_back_wp; [done..|by eapply holding_ext| |].
    + intros s1 Hi Hs1. apply wp_ret; [done|]. by eapply outcome_restored.
    + intros err' s1 Hi Hs1 Hf. apply wp_ret; [done|]. by eapply outcome_unrestored.
  - apply wp_bind. eapply wp_mono; [by eapply (test_and_reload_wp e)|done|].
    intros r s' Hi [Hr _]. by apply wp_ret.
  - intros v s1 Hv Hs1. apply wp_bind.
    eapply wp_mono; [eapply (test_and_reload_wp e); [done..|by eapply holding_ext]|done|].
    intros r s' Hi [Hr Hrb]. destruct Hh as (Hd & Ht & Hb').
    assert (v <> target /\ v <> backup) as [Hvt Hvb] by (split; congruence).
    assert (s0 !! v = None) as Hv0.
    { eapply lookup_weaken_None in Hd; [|exact Hv]. by rewrite lookup_delete_ne in Hd. }
    apply wp_call; [done|]. intros [[]|err] s2 Hs2; simpl in Hs2; [subst s2|destruct Hs2 as [-> _]; by apply wp_ret].
    apply wp_ret; [by apply versions_remove|].
    apply outcome_remove; [by rewrite H0|done| |done]. intros b ->%Hrb. done.
Qed.

Lemma edit_write_wp e content expected s0 :
  wp (edit_states e content s0) (edit_write e content expected) (edit_result e content expected s0) s0.
Proof.
  destruct e as [c name reload|c version pool reload|c candidate]; cbn [edit_write].
  - unfold AgentNginx.Write. destruct (negb (ngx_allowWrite c)); [apply edit_stops|].
    destruct (_ || _); [apply edit_stops|].
    destruct (maxAgentNginxConfigBytes <? len content) eqn:Hlen; [apply edit_stops|]. apply Z.ltb_ge in Hlen.
    destruct (validManagedTextContent content) eqn:Htext; cbn [negb]; [|apply edit_stops].
    apply edit_replaces; [done|by split|]. intros. by eapply nginx_continues.
  - unfold AgentPHP.Write. destruct (negb (php_allowWrite c)); [apply edit_stops|].
    destruct (AgentPHP.poolPath c version pool) as [path|err] eqn:Hpath; [|apply edit_stops].
    destruct (negb (agentSHA256Pattern expected)); [apply edit_stops|].
    destruct (maxAgentNginxConfigBytes <? len content) eqn:Hlen; [apply edit_stops|]. apply Z.ltb_ge in Hlen.
    destruct (validManagedTextContent content) eqn:Htext; cbn [negb]; [|apply edit_stops].
    apply edit_replaces; [done|by split|]. intros.
    eapply wp_mono; [by eapply (test_and_reload_wp (EditPHP c version pool reload))|done|]. by intros r s' _ [Hr _].
  - unfold AgentFiles.Write. destruct (Nat.eqb _ 0); [apply edit_stops|].
    destruct (_ || negb (validManagedTextContent content)) eqn:Hg; [apply edit_stops|].
    apply orb_false_iff in Hg as [[_ Hlen%Z.ltb_ge]%orb_false_iff Htext%negb_false_iff].
    apply wp_bind. unfold resolveManagedPath. destruct (_ || _ || _ || _); [by apply wp_ret; [left|apply edit_stops]|].
    apply resolve_in_wp; [by left|intros; apply edit_stops|].
    intros root dir path Hin Hw Hroot Hpath Hp. apply edit_replaces; [by exists root, dir|by split|].
    intros backup old mode perm uid gid s H0 Hb Hsha Hh. apply wp_ret.
    + eapply holding_versions; [done|by right|done].
    + destruct Hh as (Hd & Ht & Hb'). split; [done|]. split_and!; [|done..]. by exists old, mode, perm, uid, gid.
Qed.
End facts.

(** ** Edits of configurations and files, their properties

    The files meant are those of the managed directories; the commands an edit
    runs, [nginx -t], [php-fpm -t] and [systemctl], are assumed to leave them. *)

(** The reader beside a writer: the content and its checksum. *)
Definition edit_read (e : edit) : prog sys (answer (string * string)) :=
  match e with
  | EditNginx c name _ => try! f := AgentNginx.Read c name in Ret (Ok (nc_Content f, nc_Checksum f))
  | EditPHP c version pool _ => try! f := AgentPHP.Read c version pool in Ret (Ok (mfc_Content f, mfc_Checksum f))
  | EditFile c candidate => try! f := AgentFiles.Read c candidate in Ret (Ok (mfc_Content f, mfc_Checksum f))
  end.

Definition leaves_managed_files (command : string -> list string -> fs -> result string string -> fs -> Prop) : Prop :=
  forall name args s r s', command name args s r s' -> s' = s.

(** A path resolves to one path. *)
Definition resolves_once (resolves : string -> string -> Prop) : Prop :=
  forall path p q, resolves path p -> resolves path q -> p = q.

Section lemmas.
Context `{Host}.
Context (command : string -> list string -> fs -> result string string -> fs -> Prop).
Context (resolves : string -> string -> Prop).
Context (Hc : leaves_managed_files command) (Hr : resolves_once resolves).
Notation wp := (wp command resolves).
Notation reaches := (reaches command resolves).

Lemma edits_once e p q : edits resolves e p -> edits resolves e q -> p = q.
Proof.
  destruct e; simpl; [congruence..|]. intros (r1 & d1 & _ & _ & _ & H1 & _) (r2 & d2 & _ & _ & _ & H2 & _). by eapply Hr.
Qed.

(** An edit that succeeded, by its target. *)
Lemma edit_ok e content expected target backup s0 s :
  edits resolves e target -> reaches (edit_write e content expected) s0 (Ret (Ok backup)) s ->
  accepted content /\ outcome command resolves e target content expected s0 (Ok backup) s.
Proof.
  intros Ht Hw. destruct (wp_sound _ _ _ _ _ _ _ _ (edit_write_wp command resolves Hc e content expected s0) Hw) as [_ Hq].
  destruct (Hq _ eq_refl) as [[_ [? [=]]]|(Ha & target' & Ht' & _ & Ho)].
  by rewrite (edits_once e target target' Ht Ht').
Qed.

(** What a reader returns is a file's content. *)
Definition read_of (target : string) (s : fs) (r : answer (string * string)) : Prop :=
  match r with
  | Ok (text, checksum) =>
      checksum = sha256_hex text /\ exists perm uid gid, s !! target = Some (File text perm uid gid)
  | Err _ => True
  end.

Lemma read_wp {A} target (k : result file_error (FileInfo * string * string) -> prog sys A) (Q : A -> fs -> Prop) s :
  (forall info text checksum, read_of target s (Ok (text, checksum)) -> wp (eq s) (k (Ok (info, text, checksum))) Q s) ->
  (forall err, wp (eq s) (k (Err err)) Q s) ->
  wp (eq s) (pbind (readManagedFile target) k) Q s.
Proof.
  intros Hok Herr. apply wp_bind. eapply wp_mono; [by apply (readManagedFile_wp command resolves (eq s))|done|].
  intros [[[info text] sum]|err] s' _ [-> Hread]; [|apply Herr].
  apply Hok. destruct Hread as ((perm & uid & gid & Hl & _) & Hsum & _). split; [done|]. by exists perm, uid, gid.
Qed.

Lemma edit_read_wp e s :
  wp (eq s) (edit_read e) (fun r _ => forall target, edits resolves e target -> read_of target s r) s.
Proof.
  assert (forall err, wp (eq s) (pbind (Ret (Err err)) (@on_ok error _ _ sys (fun x : nginxConfig => Ret (Ok (nc_Content x, nc_Checksum x)))))
    (fun r _ => forall target, edits resolves e target -> read_of target s r) s) as Hn by (by intros; apply wp_ret).
  assert (forall err, wp (eq s) (pbind (Ret (Err err)) (@on_ok error _ _ sys (fun x : managedFileContent => Ret (Ok (mfc_Content x, mfc_Checksum x)))))
    (fun r _ => forall target, edits resolves e target -> read_of target s r) s) as Hm by (by intros; apply wp_ret).
  destruct e as [c name reload|c version pool reload|c candidate]; cbn [edit_read].
  - unfold AgentNginx.Read. destruct (negb _); [apply Hn|]. destruct (negb _); [apply Hn|].
    apply wp_bind, read_wp; [|by intros; apply wp_ret]. intros info text sum Hread.
    apply wp_pure; [apply (pure_calls command resolves _ 0 "")|done|]. intros found _.
    apply wp_ret; [done|]. apply wp_ret; [done|]. by intros target ->.
  - unfold AgentPHP.Read. destruct (negb _); [apply Hm|].
    destruct (AgentPHP.poolPath c version pool) as [path|err] eqn:Hp; [|apply Hm].
    apply wp_bind, read_wp; [|by intros; apply wp_ret]. intros info text sum Hread.
    apply wp_ret; [done|]. apply wp_ret; [done|]. intros target Ht. change (AgentPHP.poolPath c version pool = Ok target) in Ht.
    assert (path = target) as <- by congruence. done.
  - unfold AgentFiles.Read, resolveManagedPath. apply wp_bind, wp_bind.
    destruct (_ || _ || _ || _); [by do 3 (apply wp_ret; [done|])|].
    apply resolve_in_wp; [done|by intros; do 2 (apply wp_ret; [done|])|].
    intros root dir path _ _ _ Hpath _. apply read_wp; [|by intros; do 2 (apply wp_ret; [done|])].
    intros info text sum Hread. cbn beta iota. destruct (_ || _); [by do 2 (apply wp_ret; [done|])|].
    apply wp_ret; [done|]. apply wp_ret; [done|].
    intros target (r & d & _ & _ & _ & Htarget & _). by rewrite (Hr _ _ _ Htarget Hpath).
Qed.
End lemmas.

(** ** A host: its configuration, and an edit of it *)

(** It has no faults. *)
#[local] Existing Instance no_faults.

Definition sample_answers (name : string) (args : list string) : result string string :=
  if (name =?s "nginx") || (name =?s "systemctl") then Ok "" else Err "exit status 1".

Definition sample_nginx : nginxController := mkNginx {["test"; "reload"]} true true "/etc/nginx/sites-available" "/etc/nginx/sites-enabled".
Definition sample_edit : edit := EditNginx sample_nginx "shop.conf" true.
Definition sample_target : string := "/etc/nginx/sites-available/shop.conf".
Definition sample_old : string := "server { listen 80; }".
Definition sample_new : string := "server { listen 443 ssl; }".
Definition sample_files : fs := {[sample_target := File sample_old 420 0 0]}.
Definition sample_command := command_of sample_answers.

Lemma sample_leaves : leaves_managed_files sample_command.
Proof. intros name args s r s' [-> _]. done. Qed.

Lemma sample_once : resolves_once eq.
Proof. intros path p q -> ->. done. Qed.

(** What the host makes of an edit, and of a reader. *)
Definition sample_run {A} (p : prog sys A) : fs -> A * fs := run_on sample_answers [] 0 p.
Notation sample_write content := (edit_write sample_edit content (sha256_hex sample_old)).

Lemma sample_reaches {A} (p : prog sys A) s r s' : sample_run p s = (r, s') -> reaches sample_command eq p s (Ret r) s'.
Proof. apply run_on_reaches. Qed.

Definition sample_backup : string := sample_target +:+ ".hserver-backup-19700101T000000.000000000Z".
Notation sample_saved content := (sample_run (sample_write content) sample_files).2.

(** The answer of a run. *)
Lemma run_answer {A} (p : prog sys A) s r :
  (sample_run p s).1 = r -> reaches sample_command eq p s (Ret r) (sample_run p s).2.
Proof. intros <-. apply sample_reaches, surjective_pairing. Qed.

Lemma sample_edited : (sample_run (sample_write sample_new) sample_files).1 = Ok sample_backup.
Proof. vm_compute. reflexivity. Qed.

Lemma sample_same : (sample_run (sample_write sample_old) sample_files).1 = Ok sample_backup.
Proof. vm_compute. reflexivity. Qed.

Lemma sample_read :
  (sample_run (edit_read sample_edit) (sample_saved sample_new)).1 = Ok (sample_new, sha256_hex sample_new).
Proof. vm_compute. reflexivity. Qed.

(** A host whose configuration test refuses the new content. *)
Definition refusing (name : string) (args : list string) : result string string := Err "emerg".
Notation refused_run := (run_on refusing [] 0 (sample_write sample_new) sample_files).

Lemma refusing_leaves : leaves_managed_files (command_of refusing).
Proof. intros name args s r s' [-> _]. done. Qed.

Lemma refused_reaches : reaches (command_of refusing) eq (sample_write sample_new) sample_files (Ret refused_run.1) refused_run.2.
Proof. apply (run_on_reaches refusing [] 0), surjective_pairing. Qed.

(** ** Claims *)

(** C8. Wherever an edit of an Nginx configuration, a PHP pool or a file stops,
    in a crash as well, the target holds its old version or the complete new
    one with the old mode and owner, and every other file is as it was; the
    target of a file edit resolves inside a local root. *)
Theorem edit_crash_safe `{Host} command resolves e content expected s0 p s :
  leaves_managed_files command ->
  reaches command resolves (edit_write e content expected) s0 p s ->
  s = s0 \/ exists target, edits resolves e target /\ is_Some (s0 !! target) /\ versions target content s0 s.
Proof. intros Hc Hw. apply (wp_sound _ _ _ _ _ _ _ _ (edit_write_wp command resolves Hc e content expected s0) Hw). Qed.

(** C7. The answer of an edit tells what it did.  Success: the file had the
    expected checksum, holds the new content with its mode and owner, the named
    backup holds the old content, and the configuration test and the reload
    passed on the new content.  An error: the target is as before, unless the
    reload failed after the test passed, or the host is faulty, so that putting
    the old content back may fail as well. *)
Theorem edit_outcome `{Host} command resolves e content expected s0 r s :
  leaves_managed_files command ->
  reaches command resolves (edit_write e content expected) s0 (Ret r) s ->
  (s = s0 /\ exists err, r = Err err)
  \/ accepted content /\ exists target, edits resolves e target /\ is_Some (s0 !! target)
                                   /\ outcome command resolves e target content expected s0 r s.
Proof. intros Hc Hw. by apply (wp_sound _ _ _ _ _ _ _ _ (edit_write_wp command resolves Hc e content expected s0) Hw). Qed.

(** C9. Two edits of one file with the same expected checksum cannot both
    succeed, unless the first content has that checksum itself: an edit does not
    overwrite what its author has not seen, whatever happened to other files in
    between. *)
Theorem edit_no_lost_update `{Host} command resolves e1 e2 target c1 c2 expected b1 b2 s0 s1 s1' s2 :
  leaves_managed_files command -> resolves_once resolves ->
  edits resolves e1 target -> edits resolves e2 target ->
  reaches command resolves (edit_write e1 c1 expected) s0 (Ret (Ok b1)) s1 ->
  s1' !! target = s1 !! target ->
  reaches command resolves (edit_write e2 c2 expected) s1' (Ret (Ok b2)) s2 ->
  sha256_hex c1 = expected.
Proof.
  intros Hc Hr H1 H2 Hw1 Hs Hw2.
  destruct (edit_ok command resolves Hc Hr _ _ _ _ _ _ _ H1 Hw1) as [_ [_ [(? & ? & ? & ? & ? & _ & _ & Ht1 & _) _]]].
  destruct (edit_ok command resolves Hc Hr _ _ _ _ _ _ _ H2 Hw2) as [_ [_ [(old & ? & ? & ? & ? & Ht2 & Hsha & _) _]]].
  rewrite Hs, Ht1 in Ht2. congruence.
Qed.

(** What was saved is what is read: after an edit succeeded, a reader of the
    same file that returns anything returns the new content and its checksum. *)
Theorem edit_read_back `{Host} command resolves e target content expected backup s0 s1 text checksum s2 :
  leaves_managed_files command -> resolves_once resolves ->
  edits resolves e target ->
  reaches command resolves (edit_write e content expected) s0 (Ret (Ok backup)) s1 ->
  reaches command resolves (edit_read e) s1 (Ret (Ok (text, checksum))) s2 ->
  text = content /\ checksum = sha256_hex content.
Proof.
  intros Hc Hr He Hw Hread.
  destruct (edit_ok command resolves Hc Hr _ _ _ _ _ _ _ He Hw) as [_ [_ [(? & ? & ? & ? & ? & _ & _ & Ht & _) _]]].
  destruct (wp_sound _ _ _ _ _ _ _ _ (edit_read_wp command resolves Hr e s1) Hread) as [_ Hq].
  destruct (Hq _ eq_refl target He) as [-> (perm & uid & gid & Hf)].
  rewrite Ht in Hf. injection Hf as <- _ _ _. done.
Qed.

(** ** Witnesses *)

Lemma edit_crash_safe_witness :
  sample_saved sample_new = sample_files
  \/ exists target, edits eq sample_edit target /\ is_Some (sample_files !! target)
                    /\ versions target sample_new sample_files (sample_saved sample_new).
Proof.
  apply (edit_crash_safe sample_command eq sample_edit sample_new (sha256_hex sample_old) sample_files
           (Ret (Ok sample_backup)) (sample_saved sample_new)).
  - exact sample_leaves.
  - exact (run_answer (sample_write sample_new) _ _ sample_edited).
Defined.

Lemma edit_outcome_witness :
  refused_run.1 = Err nginx_invalid
  /\ ((refused_run.2 = sample_files /\ exists err, refused_run.1 = Err err)
     \/ accepted sample_new /\ exists target, edits eq sample_edit target /\ is_Some (sample_files !! target)
          /\ outcome (command_of refusing) eq sample_edit target sample_new (sha256_hex sample_old) sample_files
               refused_run.1 refused_run.2).
Proof.
  split; [vm_compute; reflexivity|].
  apply (edit_outcome (command_of refusing) eq sample_edit sample_new (sha256_hex sample_old) sample_files
           refused_run.1 refused_run.2).
  - exact refusing_leaves.
  - exact refused_reaches.
Defined.

Lemma edit_no_lost_update_witness : sha256_hex sample_old = sha256_hex sample_old.
Proof.
  apply (edit_no_lost_update sample_command eq sample_edit sample_edit sample_target sample_old sample_new
           (sha256_hex sample_old) sample_backup sample_backup sample_files (sample_saved sample_old) sample_files
           (sample_saved sample_new)).
  - exact sample_leaves.
  - exact sample_once.
  - vm_compute. reflexivity.
  - vm_compute. reflexivity.
  - exact (run_answer (sample_write sample_old) _ _ sample_same).
  - vm_compute. reflexivity.
  - exact (run_answer (sample_write sample_new) _ _ sample_edited).
Defined.

Lemma edit_read_back_witness : sample_new = sample_new /\ sha256_hex sample_new = sha256_hex sample_new.
Proof.
  apply (edit_read_back sample_command eq sample_edit sample_target sample_new (sha256_hex sample_old) sample_backup
           sample_files (sample_saved sample_new) sample_new (sha256_hex sample_new)
           (sample_run (edit_read sample_edit) (sample_saved sample_new)).2).
  - exact sample_leaves.
  - exact sample_once.
  - vm_compute. reflexivity.
  - exact (run_answer (sample_write sample_new) _ _ sample_edited).
  - exact (run_answer (edit_read sample_edit) _ _ sample_read).
Defined.
