(* ===== verification/AgentDomains.v ===== *)
(** * The domain controller: [domains.go] of [cmd/hserver-agent]

    A domain is an Nginx configuration; it is enabled by a link to it in the
    directory of enabled sites.  Switching it tests and reloads Nginx, and takes
    the link back when that fails.  The mutex of the Nginx controller is held. *)

From stdpp Require Import base strings gmap list sorting.
From Stdlib Require Import ZArith Lia Ascii.
From S2P Require Import Prelude GoStrings GoSha256 GoJson GoTime HubTypes TaskGate IntegrationStatus AgentConfig AgentTasks AgentFirewall HostFiles AgentEditors AgentNginx AgentPHP AgentFiles AgentEditorsClaims.
Local Open Scope Z_scope.
Local Open Scope hub_scope.

Definition maxManagedDomains : nat := 512.

Record managedDomain : Type := mkManagedDomain {
  md_Name : string; md_Aliases : list string; md_Config : string; md_Enabled : bool; md_SSL : bool;
  md_CertificateName : string; md_Root : string; md_ProxyTarget : string; md_Kind : string }.

Record domainController : Type := mkDomains { dom_nginx : nginxController; dom_allowRead : bool; dom_allowActions : bool }.

Definition newDomainController (nginx : nginxController) (allowRead allowActions : bool) : domainController :=
  mkDomains nginx allowRead allowActions.

(** ** The regular expressions

    Each is matched at a position of the text; [prev] is the character before
    it, for [\b].  A match gives the group and the text after it. *)

Definition word_char (c : ascii) : bool := in_range 48 57 c || in_range 65 90 c || in_range 97 122 c || (byte c =? 95).
Definition re_space (c : ascii) : bool := existsb (Z.eqb (byte c)) [9; 10; 12; 13; 32].

(** The longest prefix of characters with [p], and the rest. *)
Fixpoint span (p : ascii -> bool) (s : string) : string * string :=
  match s with
  | String c s' => if p c then let '(a, b) := span p s' in (String c a, b) else ("", s)
  | "" => ("", "")
  end.

(** A word that starts here: [\bword]. *)
Definition at_word (prev : option ascii) (word s : string) : option string :=
  if match prev with Some c => word_char c | None => false end then None
  else if HasPrefix s word then Some (sdrop (String.length word) s) else None.

(** [\bword\s+([^;]+);]; when nothing is left for the group it takes the last
    white space. *)
Definition value_pattern (word : string) (prev : option ascii) (s : string) : option (string * string) :=
  rest ← at_word prev word s;
  let '(ws, body) := span re_space rest in
  let '(value, after) := span (fun c => negb (Ascii.eqb c ";"%char)) body in
  match ws, after with
  | String _ ws', String _ after' =>
      if value =?s "" then
        match ws' with
        | "" => None
        | _ => Some (sdrop (String.length ws' - 1) ws', after')
        end
      else Some (value, after')
  | _, _ => None
  end.

(** [\bssl_certificate\s+/etc/letsencrypt/live/([^/]+)/fullchain\.pem\s*;] *)
Definition certificate_pattern (prev : option ascii) (s : string) : option (string * string) :=
  rest ← at_word prev "ssl_certificate" s;
  let '(ws, body) := span re_space rest in
  if (ws =?s "") || negb (HasPrefix body "/etc/letsencrypt/live/") then None
  else
    let '(name, after) := span (fun c => negb (Ascii.eqb c slash)) (sdrop 22 body) in
    if (name =?s "") || negb (HasPrefix after "/fullchain.pem") then None
    else
      match snd (span re_space (sdrop 14 after)) with
      | String c end_ => if Ascii.eqb c ";"%char then Some (name, end_) else None
      | "" => None
      end.

(** [[^;]*\bssl\b] *)
Fixpoint word_before_semicolon (word : string) (prev : option ascii) (s : string) : bool :=
  match at_word prev word s with
  | Some "" => true
  | Some (String c _) => negb (word_char c)
  | None => false
  end
  || match s with
     | String c s' => negb (Ascii.eqb c ";"%char) && word_before_semicolon word (Some c) s'
     | "" => false
     end.

(** [\blisten\s+[^;]*\bssl\b] *)
Definition listen_pattern (prev : option ascii) (s : string) : option (string * string) :=
  rest ← at_word prev "listen" s;
  match rest with
  | String c body => if re_space c && word_before_semicolon "ssl" (Some c) body then Some ("", body) else None
  | "" => None
  end.

(** The matches from left to right, without overlap; [skip] characters belong to
    the last one. *)
Fixpoint find_all (pattern : option ascii -> string -> option (string * string)) (skip : nat) (prev : option ascii) (s : string)
    : list string :=
  match s with
  | "" => []
  | String c s' =>
      match skip with
      | S k => find_all pattern k (Some c) s'
      | O =>
          match pattern prev s with
          | Some (group, after) => group :: find_all pattern (String.length s' - String.length after) (Some c) s'
          | None => find_all pattern 0 (Some c) s'
          end
      end
  end.

Definition FindAllStringSubmatch pattern (s : string) : list string := find_all pattern 0 None s.

Definition firstDomainMatch pattern (value : string) : string :=
  match FindAllStringSubmatch pattern value with group :: _ => TrimSpace group | [] => "" end.

Definition domainServerNamePattern := value_pattern "server_name".
Definition domainRootPattern := value_pattern "root".
Definition domainProxyPattern := value_pattern "proxy_pass".
Definition domainCertificatePattern := certificate_pattern.
Definition domainSSLListenPattern := listen_pattern.

(** ** Reading a configuration *)

Definition without_comment (line : string) : string := match Cut "#"%char line with Some (text, _) => text | None => line end.

(** The server names, each once. *)
Fixpoint distinct_names (seen : list string) (words : list string) : list string :=
  match words with
  | [] => []
  | name :: rest =>
      if (name =?s "_") || (name =?s "") || existsb (String.eqb name) seen then distinct_names seen rest
      else name :: distinct_names (name :: seen) rest
  end.

Definition primary_name (config : string) (names : list string) : string :=
  let primary := default config (find (fun name => negb (HasPrefix name "www.") && negb (occurs "*" name)) names) in
  if primary =?s config then match names with name :: _ => name | [] => primary end else primary.

Definition parseManagedDomain (config raw : string) (enabled : bool) : managedDomain :=
  let active := join newline (without_comment <$> split newline raw) in
  let names := distinct_names [] (concat (Fields <$> FindAllStringSubmatch domainServerNamePattern active)) in
  let root := firstDomainMatch domainRootPattern active in
  let proxy := firstDomainMatch domainProxyPattern active in
  let certificate := firstDomainMatch domainCertificatePattern active in
  let kind := if negb (proxy =?s "") then "proxy" else if occurs "fastcgi_pass" active then "php" else "static" in
  let ssl := negb (certificate =?s "") || negb (Nat.eqb (length (FindAllStringSubmatch domainSSLListenPattern active)) 0) in
  mkManagedDomain (primary_name config names) names config enabled ssl certificate root proxy kind.

Definition domain_less `{LowerTable} (a b : managedDomain) : bool :=
  if negb (Bool.eqb (md_Enabled a) (md_Enabled b)) then md_Enabled a
  else String.ltb (ToLower (md_Name a)) (ToLower (md_Name b)).

(** ** The controller *)

Definition not_managed_link : error := errors_New "enabled domain entry is not the managed symlink".

Definition symlinkResolvesTo (link target : string) : prog sys bool :=
  Call (EvalSymlinks link) (fun r => Ret (match r with Ok resolved => resolved =?s target | Err _ => false end)).

Section controller.
(** [sort_Slice] leaves domains that compare equal in any order. *)
Context (c : domainController).
Context `{LowerTable} (sort_Slice : (managedDomain -> managedDomain -> bool) -> list managedDomain -> list managedDomain).

Fixpoint list_domains (entries : list DirEntry) (domains : list managedDomain) : prog sys (list managedDomain) :=
  match entries with
  | [] => Ret domains
  | entry :: rest =>
      if Nat.leb maxManagedDomains (length domains) then Ret domains
      else
        let name := de_Name entry in
        if negb (listed name) then list_domains rest domains
        else
          do! r := readManagedFile (Join [ngx_availableDir (dom_nginx c); name]) in
          match r with
          | Err _ => list_domains rest domains
          | Ok (_, content, _) =>
              do! on := enabled (dom_nginx c) name in
              list_domains rest (domains ++ [parseManagedDomain name content on])
          end
  end.

Definition Inventory : prog sys (answer (list managedDomain)) :=
  if negb (dom_allowRead c) then Ret (Err (errors_New "domain inventory is not enabled locally"))
  else
    Call (ReadDir (ngx_availableDir (dom_nginx c))) (fun r : result os_error (list DirEntry) =>
      match r with
      | Err e => Ret (Err (errors_New ("read Nginx domain directory: " +:+ os_text e)))
      | Ok entries =>
          if Nat.ltb (4 * maxManagedDomains) (length entries)
          then Ret (Err (errors_New "Nginx domain directory exceeds the inventory limit"))
          else do! domains := list_domains entries [] in Ret (Ok (sort_Slice domain_less domains))
      end).

(** The test and the reload; [undo] is run when one fails. *)
Definition test_and_reload_or (undo : prog sys unit) (message : string) : prog sys (answer string) :=
  do! tested := AgentNginx.testLocked in
  match tested with
  | Err e => do! _ := undo in Ret (Err e)
  | Ok _ =>
      do! reloaded := AgentNginx.reloadLocked in
      match reloaded with
      | Err e => do! _ := undo in Ret (Err e)
      | Ok _ => Ret (Ok message)
      end
  end.

Definition enable (target link : string) (found : result os_error FileInfo) : prog sys (answer string) :=
  match found with
  | Ok info =>
      if negb (fi_Symlink info) then Ret (Err not_managed_link)
      else
        do! ours := symlinkResolvesTo link target in
        if negb ours then Ret (Err not_managed_link) else Ret (Ok "Domain is already enabled")
  | Err e =>
      if negb (os_missing e) then Ret (Err (os_fail e))
      else
        checking (HostFiles.Symlink target link) (fun _ =>
          test_and_reload_or (Call (Remove link) (fun _ => Ret tt)) "Domain enabled and Nginx reloaded")
  end.

Definition disable (target link : string) (found : result os_error FileInfo) : prog sys (answer string) :=
  match found with
  | Err e => if os_missing e then Ret (Ok "Domain is already disabled") else Ret (Err (os_fail e))
  | Ok info =>
      if negb (fi_Symlink info) then Ret (Err not_managed_link)
      else
        do! ours := symlinkResolvesTo link target in
        if negb ours then Ret (Err not_managed_link)
        else
          checking (Readlink link) (fun original =>
          checking (Remove link) (fun _ =>
            test_and_reload_or (Call (HostFiles.Symlink original link) (fun _ => Ret tt)) "Domain disabled and Nginx reloaded"))
  end.

Definition Action (name action : string) : prog sys (answer string) :=
  if negb (dom_allowActions c) then Ret (Err (errors_New "domain actions are not enabled locally"))
  else if negb (agentNginxConfigNamePattern name) || (negb (action =?s "enable") && negb (action =?s "disable"))
  then Ret (Err (errors_New "invalid domain action"))
  else
    let target := Join [ngx_availableDir (dom_nginx c); name] in
    do! known := regularManagedFile target in
    match known with
    | Err e => Ret (Err (wrap "domain configuration is unavailable: " e))
    | Ok _ =>
        checking (MkdirAll (ngx_enabledDir (dom_nginx c)) 493) (fun _ =>
          let link := Join [ngx_enabledDir (dom_nginx c); name] in
          Call (Lstat link) (fun found => if action =?s "enable" then enable target link found else disable target link found))
    end.
End controller.

(** ** Switching a domain on and off

    A domain is switched by its link in the directory of enabled sites.  The
    switch is the only change of the files, and it stays only when Nginx was
    tested and reloaded with it. *)

Section switching.
Context `{Host}.
Context (command : string -> list string -> fs -> result string string -> fs -> Prop).
Context (resolves : string -> string -> Prop).
Context (Hc : leaves_managed_files command).
Context (c : domainController) (name : string).
Notation wp := (wp command resolves).
Notation reaches := (reaches command resolves).
Notation target := (Join [ngx_availableDir (dom_nginx c); name]).
Notation link := (Join [ngx_enabledDir (dom_nginx c); name]).

(** The link is not above its directory. *)
Definition link_layout : Prop := HasPrefix (ngx_enabledDir (dom_nginx c)) link = false.

(** Nginx was tested and reloaded with these files. *)
Definition live (s : fs) : Prop :=
  reaches AgentNginx.testLocked s (Ret (Ok tt)) s /\ reaches AgentNginx.reloadLocked s (Ret (Ok tt)) s.

(** The link a configuration is enabled by. *)
Definition managed_link (s : fs) : Prop := (exists t, s !! link = Some (Link t)) /\ resolves link target.

Definition switched (action : string) (s0 s : fs) : Prop :=
  (action = "enable" /\ s0 !! link = None /\ s !! link = Some (Link target))
  \/ (action = "disable" /\ managed_link s0 /\ s !! link = None).

Definition switch_states (action : string) (s0 s : fs) : Prop :=
  delete link s0 ⊆ s /\ (s !! link = s0 !! link \/ switched action s0 s).

Definition switch_result (action : string) (s0 : fs) (r : answer string) (s : fs) : Prop :=
  delete link s0 ⊆ s /\
  match r with
  | Ok _ =>
      (exists content mode uid gid, s0 !! target = Some (File content mode uid gid))
      /\ (switched action s0 s /\ live s
          \/ s !! link = s0 !! link
             /\ (action = "enable" /\ managed_link s0 \/ action = "disable" /\ s0 !! link = None))
  | Err _ => s !! link = s0 !! link \/ faulty
  end.

(** The files before the switch. *)
Definition prepared (s0 s : fs) : Prop := delete link s0 ⊆ s /\ s !! link = s0 !! link.

Section action.
Context (action : string) (s0 : fs).
Let I : fs -> Prop := switch_states action s0.
Let Q : answer string -> fs -> Prop := switch_result action s0.

Lemma prepared_states s : prepared s0 s -> I s.
Proof. intros [? ?]. split; auto. Qed.

Lemma prepared_stops e s : prepared s0 s -> wp I (Ret (Err e)) Q s.
Proof. intros [? ?]. apply wp_ret; (split; [done|]); by left. Qed.

Lemma same_others (s : fs) n : delete link s0 ⊆ s -> delete link s0 ⊆ <[link := n]> s.
Proof.
  intros Hs. apply map_subseteq_spec. intros p x Hp. pose proof Hp as [Hne _]%lookup_delete_Some.
  rewrite lookup_insert_ne by done. by eapply lookup_weaken.
Qed.

Lemma same_others_without (s : fs) : delete link s0 ⊆ s -> delete link s0 ⊆ delete link s.
Proof.
  intros Hs. apply map_subseteq_spec. intros p x Hp. pose proof Hp as [Hne _]%lookup_delete_Some.
  rewrite lookup_delete_ne by done. by eapply lookup_weaken.
Qed.

(** The test and the reload after the switch, which [undo] takes back. *)
Lemma test_and_reload_or_wp undo message s :
  (exists content mode uid gid, s0 !! target = Some (File content mode uid gid)) ->
  delete link s0 ⊆ s -> switched action s0 s ->
  (forall e, wp I (do! _ := undo in Ret (Err e)) Q s) ->
  wp I (test_and_reload_or undo message) Q s.
Proof.
  intros Ht Hd Hs Hu. assert (I s) as Hi by (split; auto).
  apply wp_bind. apply (tests_leave_files command resolves Hc (EditNginx (dom_nginx c) name true) _ eq_refl); [done|].
  intros [[]|e] Htest; [|apply Hu].
  apply wp_bind. apply (reloads_leave_files command resolves Hc (EditNginx (dom_nginx c) name true) _ eq_refl); [done|].
  intros [[]|e] Hload; [|apply Hu].
  apply wp_ret; [done|]. split; [done|]. split; [done|]. left. by split.
Qed.

(** What [Lstat] says of the link. *)
Definition looked (s : fs) (found : result os_error FileInfo) : Prop := sys_step command resolves (Lstat link) s found s.

Section prepared.
Context (s : fs).
Context (Ht : exists content mode uid gid, s0 !! target = Some (File content mode uid gid)).
Context (Hs : prepared s0 s).

Lemma answers_unchanged message :
  action = "enable" /\ managed_link s0 \/ action = "disable" /\ s0 !! link = None -> wp I (Ret (Ok message)) Q s.
Proof. intros Ha. apply wp_ret; [by apply prepared_states|]. destruct Hs as [Hd Hl]. split; [done|]. split; [done|]. by right. Qed.

(** The entry is the managed link, or the switch is refused. *)
Lemma ours_wp info (k : prog sys (answer string)) :
  looked s (Ok info) -> (managed_link s0 -> wp I k Q s) ->
  wp I (if negb (fi_Symlink info) then Ret (Err not_managed_link)
        else do! ours := symlinkResolvesTo link target in if negb ours then Ret (Err not_managed_link) else k) Q s.
Proof.
  intros Hf Hk. destruct (fi_Symlink info) eqn:Hsym; cbn [negb]; [|by apply prepared_stops].
  apply wp_pure; [apply (pure_calls command resolves _ 0 "")|by apply prepared_states|].
  intros [resolved|e] [_ Hr]; cbn [pbind negb]; [|by apply prepared_stops].
  destruct (String.eqb_spec resolved target) as [->|]; cbn [negb]; [|by apply prepared_stops].
  apply Hk. split; [|done]. destruct Hs as [_ Hl]. destruct Hf as [_ Hf'].
  rewrite <-Hl. destruct (s !! link) as [[| |t|]|]; simpl in Hf'; [| |by exists t| |done]; destruct_and!; congruence.
Qed.

Lemma enable_wp found : looked s found -> action = "enable" -> wp I (enable target link found) Q s.
Proof.
  intros Hf Ha. pose proof Hs as [Hd Hl]. destruct found as [info|e]; cbn [enable].
  - eapply ours_wp; [done|]. intros Hm. apply answers_unchanged. by left.
  - destruct (os_missing e) eqn:Hm; cbn [negb]; [|by apply prepared_stops].
    assert (s0 !! link = None) as H0 by (rewrite <-Hl; apply Hf, Hm).
    apply wp_call; [by apply prepared_states|]. intros [[]|e'] s1 Hs1; [|destruct Hs1 as [-> _]; by apply prepared_stops].
    destruct Hs1 as [Hn ->].
    assert (switched action s0 (<[link := Link target]> s)) as Hsw by (left; by rewrite lookup_insert_eq).
    assert (delete link s0 ⊆ <[link := Link target]> s) as Hd' by by apply same_others.
    apply test_and_reload_or_wp; [done..|]. intros e'.
    apply wp_call; [split; auto|]. intros [[]|e2] s2 Hs2; simpl in Hs2.
    + subst s2. rewrite delete_insert_id by done. by apply prepared_stops.
    + destruct Hs2 as (-> & Hbad & _). rewrite lookup_insert_eq in Hbad. destruct Hbad as [Hbad|[[=]|[=]]].
      apply wp_ret; [split; auto|]. split; auto.
Qed.

Lemma disable_wp found : looked s found -> action = "disable" -> wp I (disable target link found) Q s.
Proof.
  intros Hf Ha. pose proof Hs as [Hd Hl]. destruct found as [info|e]; cbn [disable].
  - eapply ours_wp; [done|]. intros Hm.
    apply wp_call; [by apply prepared_states|]. intros [original|e'] s1 [-> Hr]; [|by apply prepared_stops].
    apply wp_call; [by apply prepared_states|]. intros [[]|e'] s1 Hs1; simpl in Hs1; [|destruct Hs1 as [-> _]; by apply prepared_stops].
    subst s1.
    assert (switched action s0 (delete link s)) as Hsw by (right; by rewrite lookup_delete_eq).
    assert (delete link s0 ⊆ delete link s) as Hd' by by apply same_others_without.
    apply test_and_reload_or_wp; [done..|]. intros e'.
    apply wp_call; [split; auto|]. intros [[]|e2] s2 Hs2; simpl in Hs2.
    + destruct Hs2 as [_ ->]. apply prepared_stops. rewrite insert_delete_eq, insert_id by done. done.
    + destruct Hs2 as [-> Hbad]. rewrite lookup_delete_eq in Hbad. destruct Hbad as [Hbad|[? [=]]].
      apply wp_ret; [split; auto|]. split; auto.
  - destruct (os_missing e) eqn:Hm; [|by apply prepared_stops].
    apply answers_unchanged. right. split; [done|]. rewrite <-Hl. apply Hf, Hm.
Qed.
End prepared.

Lemma switch_wp : link_layout -> wp I (Action c name action) Q s0.
Proof.
  intros Hlay. assert (prepared s0 s0) as H0 by (split; [apply delete_subseteq|done]).
  unfold Action. destruct (negb (dom_allowActions c)); [by apply prepared_stops|].
  destruct (_ || _) eqn:Hg; [by apply prepared_stops|]. apply orb_false_iff in Hg as [_ Hg].
  apply wp_bind, wp_pure; [apply (pure_calls command resolves _ 0 "")|by apply prepared_states|].
  intros [info|e] [_ Hi]; [|apply wp_ret; [by apply prepared_states|by apply prepared_stops]].
  destruct (fi_Regular info) eqn:Hreg; cbn [negb]; (apply wp_ret; [by apply prepared_states|]); [|by apply prepared_stops].
  assert (exists content mode uid gid, s0 !! target = Some (File content mode uid gid)) as Ht.
  { destruct (s0 !! target) as [[content mode uid gid| | |]|]; [by exists content, mode, uid, gid| | | |done];
      destruct Hi as (? & _); congruence. }
  apply wp_call; [by apply prepared_states|]. intros made s1 [Hk Hm].
  assert (prepared s0 s1) as H1.
  { split.
    - apply map_subseteq_spec. intros p x [_ Hp]%lookup_delete_Some. by rewrite Hk, Hp.
    - destruct (s0 !! link) as [n|] eqn:Hn; [by rewrite Hk, Hn|]. destruct (Hm _ Hn) as [|[_ Hpre]]; [done|].
      unfold link_layout in Hlay. congruence. }
  destruct made as [[]|e]; [|by apply prepared_stops].
  apply wp_pure; [apply (pure_calls command resolves _ 0 "")|by apply prepared_states|]. intros found Hf.
  destruct (String.eqb_spec action "enable") as [Ha|Hne]; [by apply enable_wp|].
  apply disable_wp; [done..|]. by apply negb_false_iff, String.eqb_eq in Hg.
Qed.
End action.
End switching.

(** ** A host with one domain *)

Definition sample_domains : domainController := mkDomains sample_nginx true true.
Notation sample_link := "/etc/nginx/sites-enabled/shop.conf".
#[local] Existing Instance no_faults.

(** Enabling it succeeds, or Nginx refuses its configuration. *)
Notation enabling := (sample_run (Action sample_domains "shop.conf" "enable") sample_files).
Notation refusing_to := (run_on refusing [] 0 (Action sample_domains "shop.conf" "enable") sample_files).

Lemma enabling_links : enabling.2 !! sample_link = Some (Link sample_target).
Proof. vm_compute. reflexivity. Qed.

Lemma refused_reaches_switch :
  reaches (command_of refusing) eq (Action sample_domains "shop.conf" "enable") sample_files
    (Ret refusing_to.1) refusing_to.2.
Proof. apply (run_on_reaches refusing [] 0), surjective_pairing. Qed.

(** ** Claims *)

(** C16. Switching a domain on or off changes or removes nothing that was on the
    host but its link (entries may be added, as directories are), and the link in
    one step, wherever the switch stops.  A success means the
    configuration exists and the link was switched and Nginx tested and reloaded
    with it, or that it was as asked already; entries that are not the managed
    link are never touched.  After an error the link is as it was, unless the
    host is faulty. *)
Theorem domain_switch `{Host} command resolves c name action s0 p s :
  leaves_managed_files command -> link_layout c name ->
  reaches command resolves (Action c name action) s0 p s ->
  switch_states resolves c name action s0 s
  /\ forall r, p = Ret r -> switch_result command resolves c name action s0 r s.
Proof. intros Hc Hl Hr. exact (wp_sound _ _ _ _ _ _ _ _ (switch_wp command resolves Hc c name action s0 Hl) Hr). Qed.

(** ** Witness *)

Lemma domain_switch_witness :
  refusing_to.2 !! sample_link = None
  /\ switch_states eq sample_domains "shop.conf" "enable" sample_files refusing_to.2
  /\ forall r, @Ret sys _ refusing_to.1 = Ret r ->
       switch_result (command_of refusing) eq sample_domains "shop.conf" "enable" sample_files r refusing_to.2.
Proof.
  split; [vm_compute; reflexivity|].
  apply (domain_switch (command_of refusing) eq sample_domains "shop.conf" "enable" sample_files (Ret refusing_to.1)).
  - exact refusing_leaves.
  - vm_compute. reflexivity.
  - exact refused_reaches_switch.
Defined.
