(* ===== verification/ProjectDomains.v ===== *)
(** * The runtime of project domains: [project_domains_nginx.go] of [internal/services/deploy]

    A project domain is a reverse proxy of Nginx: a configuration that names its
    owner, and a link that enables it.  Every mutation tests and reloads Nginx,
    and takes itself back when that fails.  The panel and the agent share it. *)

From stdpp Require Import base strings gmap list.
From Stdlib Require Import ZArith Lia Ascii Floats.SpecFloat.
From S2P Require Import Prelude GoStrings GoSha256 GoJson GoTime HubTypes GoFloat TaskGate IntegrationStatus AgentConfig AgentTasks AgentDeploy AgentFirewall HostFiles AgentEditors AgentNginx AgentPHP AgentFiles AgentEditorsClaims.
Local Open Scope Z_scope.
Local Open Scope hub_scope.

(** ** Domains and certificates *)

(** The fields of [models.DeployDomain] the runtime reads. *)
Record DeployDomain : Type := mkDeployDomain {
  dd_TargetID : Z; dd_RuntimeOwner : string; dd_Domain : string; dd_Service : string; dd_HostPort : Z; dd_TLSEnabled : bool }.

Record DeployDomainTLSState : Type := mkTLSState {
  tls_Status : string; tls_ExpiresAt : option time; tls_DaysRemaining : Z; tls_Message : string }.

(** What is read of an X.509 certificate; the serial number in hexadecimal. *)
Record certificate : Type := mkCertificate {
  crt_NotBefore : time; crt_NotAfter : time; crt_DNSNames : list string; crt_Issuer : string; crt_Serial : string }.

(** [encoding/pem] and [crypto/x509]: a block with its type and bytes, the
    certificate in them, and whether it covers a host. *)
Class X509 : Type := {
  pem_Decode : string -> option (string * string);
  ParseCertificate : string -> result string certificate;
  VerifyHostname : certificate -> string -> option string }.

(** [int(d.Hours() / 24)] of [t.Sub(u)], which saturates. *)
Definition hour_ns : Z := 3600 * second_ns.
Definition Hours (d : duration) : float64 := SFadd prec emax (of_Z (Z.quot d hour_ns)) (f_div (of_Z (Z.rem d hour_ns)) (of_Z hour_ns)).

Definition truncated (x : float64) : Z :=
  match x with
  | S754_finite neg m e =>
      let v := if 0 <=? e then Zpos m * 2 ^ e else Zpos m / 2 ^ (- e) in
      if neg then - v else v
  | _ => 0
  end.

Definition whole_days (d : duration) : Z := truncated (f_div (Hours d) (of_Z 24)).

Definition label_char (c : ascii) : bool := in_range 97 122 c || in_range 48 57 c || Ascii.eqb c "-"%char.

(** [^[a-z0-9](?:[a-z0-9-]{0,61}[a-z0-9])?$] *)
Definition projectDomainLabelPattern (label : string) : bool :=
  (1 <=? len label) && (len label <=? 63) && forallb label_char (chars label)
  && negb (HasPrefix label "-") && negb (HasSuffix label "-").

Definition validProjectDomain (value : string) : bool :=
  if (value =?s "") || (253 <? len value) || occurs ".." value then false
  else
    let labels := split "."%char value in
    if Nat.ltb (length labels) 2 then false else forallb projectDomainLabelPattern labels.

Definition owner_char (c : ascii) : bool := alnum c || existsb (Ascii.eqb c) (chars "._-").

(** [^[A-Za-z0-9][A-Za-z0-9._-]{0,254}$] and [^[A-Za-z0-9._-]+$] *)
Definition projectDomainOwnerPattern : string -> bool := class_pattern alnum owner_char 254.
Definition projectDomainBinaryPattern (binary : string) : bool := negb (binary =?s "") && forallb owner_char (chars binary).

(** ** Errors *)

Definition ErrInvalidProjectDomain : error := errors_New "invalid project domain".
Definition cleanup_failed : error := mkError "project domain cleanup failed" [ErrProjectDomainCleanup].
Definition project_conflict (text : string) : error := errors_New ("project domain already exists: " +:+ text).

(** A call whose error is returned behind a text. *)
Definition checked {A B} (before : string) (o : sys (result os_error B)) (k : B -> prog sys (answer A)) : prog sys (answer A) :=
  Call o (fun r => match r with Err e => Ret (Err (errors_New (before +:+ os_text e))) | Ok b => k b end).

Definition ellipsis : string := String "226"%char (String "128"%char (String "166"%char "")).

Definition boundedProcessDetail (output : string) : string :=
  let detail := join " "%char (Fields output) in
  if 240 <? len detail then stake 240 detail +:+ ellipsis else detail.

(** ** The configuration text *)

Definition unlines (lines : list string) : string := foldr (fun line text => line +:+ String newline text) "" lines.

Definition projectDomainOwner (domain : DeployDomain) : answer string :=
  let owner := TrimSpace (dd_RuntimeOwner domain) in
  let owner := if (owner =?s "") && (0 <? dd_TargetID domain) then Itoa (dd_TargetID domain) else owner in
  if negb (projectDomainOwnerPattern owner) then Err ErrInvalidProjectDomain else Ok owner.

Definition owner_line (owner : string) : string := "# hserver-project-target: " +:+ owner.
Definition domain_line (domain : string) : string := "# hserver-project-domain: " +:+ domain.
Definition proxy_line (port : Z) : string := "        proxy_pass http://127.0.0.1:" +:+ Itoa port +:+ ";".

Definition head_lines (owner domain webroot : string) : list string :=
  [ "# Managed by Heyserver project domains. Do not edit manually.";
    owner_line owner;
    domain_line domain;
    "server {";
    "    listen 80;";
    "    listen [::]:80;";
    "    server_name " +:+ domain +:+ ";";
    "";
    "    location /.well-known/acme-challenge/ {";
    "        root " +:+ webroot +:+ ";";
    "        try_files $uri =404;";
    "    }";
    "";
    "    location / {" ].

Definition proxy_lines (port : Z) : list string :=
  [ proxy_line port;
    "        proxy_http_version 1.1;";
    "        proxy_set_header Host $host;";
    "        proxy_set_header X-Real-IP $remote_addr;";
    "        proxy_set_header X-Forwarded-For $proxy_add_x_forwarded_for;";
    "        proxy_set_header X-Forwarded-Proto $scheme;";
    "        proxy_set_header Upgrade $http_upgrade;";
    "        proxy_set_header Connection " +:+ quoted "upgrade" +:+ ";";
    "    }";
    "}" ].

Definition http_config (owner domain webroot : string) (port : Z) : string :=
  unlines (head_lines owner domain webroot ++ proxy_lines port).

Definition tls_config (owner domain webroot certPath keyPath : string) (port : Z) : string :=
  unlines (head_lines owner domain webroot
    ++ [ "        return 301 https://$host$request_uri;";
         "    }";
         "}";
         "";
         "server {";
         "    listen 443 ssl;";
         "    listen [::]:443 ssl;";
         "    server_name " +:+ domain +:+ ";";
         "";
         "    ssl_certificate " +:+ certPath +:+ ";";
         "    ssl_certificate_key " +:+ keyPath +:+ ";";
         "    ssl_protocols TLSv1.2 TLSv1.3;";
         "    ssl_session_cache shared:SSL:10m;";
         "";
         "    location / {" ]
    ++ proxy_lines port).

Definition with_newline (line : string) : string := line +:+ String newline "".

Definition ownedProjectDomainConfig (content : string) (domain : DeployDomain) : bool :=
  match projectDomainOwner domain with
  | Err _ => false
  | Ok owner => occurs (with_newline (owner_line owner)) content && occurs (with_newline (domain_line (dd_Domain domain))) content
  end.

(** ** The runtime *)

Record NginxProjectDomainRuntime : Type := mkRuntime {
  rt_sitesAvailable : string; rt_sitesEnabled : string; rt_certbotBin : string; rt_certbotConfig : string;
  rt_certbotWork : string; rt_certbotLogs : string; rt_acmeWebroot : string }.

Definition or_default (value fallback : string) : string := if TrimSpace value =?s "" then fallback else value.

Definition NewNginxProjectDomainRuntimeWithCertbotStorage
    (sitesAvailable sitesEnabled certbotBin certbotConfig certbotWork certbotLogs acmeWebroot : string) : NginxProjectDomainRuntime :=
  mkRuntime (Clean (or_default sitesAvailable "/etc/nginx/sites-available")) (Clean (or_default sitesEnabled "/etc/nginx/sites-enabled"))
    (TrimSpace (or_default certbotBin "certbot")) (Clean (or_default certbotConfig "/etc/letsencrypt"))
    (Clean (or_default certbotWork "/var/lib/letsencrypt")) (Clean (or_default certbotLogs "/var/log/letsencrypt"))
    (Clean (or_default acmeWebroot "/var/www/hserver-acme")).

Section runtime.
Context `{X509} (runtime : NginxProjectDomainRuntime).

Definition filename (domain : DeployDomain) : string := dd_Domain domain +:+ ".conf".
Definition availablePath (domain : DeployDomain) : string := Join [rt_sitesAvailable runtime; filename domain].
Definition enabledPath (domain : DeployDomain) : string := Join [rt_sitesEnabled runtime; filename domain].

(** The two directories; which of two errors is returned depends on the order
    of a Go map, here the order of the listing. *)
Fixpoint validate_paths (paths : list (string * string)) : prog sys (answer unit) :=
  match paths with
  | [] => Ret (Ok tt)
  | (label, path) :: rest =>
      if negb (IsAbs path) then Ret (Err (errors_New ("Nginx " +:+ label +:+ " path must be absolute")))
      else
        checked ("inspect Nginx " +:+ label +:+ ": ") (HostFiles.Stat path) (fun info =>
          if negb (fi_IsDir info) then Ret (Err (errors_New ("Nginx " +:+ label +:+ " path is not a directory")))
          else validate_paths rest)
  end.

Definition validate : prog sys (answer unit) :=
  validate_paths [("sites-available", rt_sitesAvailable runtime); ("sites-enabled", rt_sitesEnabled runtime)].

Definition validateTLSPaths : answer unit :=
  if negb (IsAbs (rt_certbotConfig runtime)) || negb (IsAbs (rt_certbotWork runtime)) || negb (IsAbs (rt_certbotLogs runtime))
     || negb (IsAbs (rt_acmeWebroot runtime))
  then Err (errors_New "Certbot config, work, logs, and ACME webroot paths must be absolute")
  else Ok tt.

Definition certbot_name : answer unit :=
  let binary := rt_certbotBin runtime in
  if occurs "/" binary then
    if negb (IsAbs binary) || negb (Clean binary =?s binary)
    then Err (errors_New "Certbot binary must be an absolute normalized path or command name") else Ok tt
  else if negb (projectDomainBinaryPattern binary)
  then Err (errors_New "Certbot binary contains an invalid command name") else Ok tt.

Definition validateTLS : prog sys (answer unit) :=
  try! _ := validate in
  match validateTLSPaths with Err e => Ret (Err e) | Ok _ => Ret certbot_name end.

Definition run_combined (name : string) (args : list string) : prog sys (string * option string) := perform (RunCombined name args).

Definition testAndReload : prog sys (answer unit) :=
  do! tested := run_combined "nginx" ["-t"] in
  match tested with
  | (output, Some _) => Ret (Err (errors_New ("Nginx configuration test failed: " +:+ boundedProcessDetail output)))
  | (_, None) =>
      do! reloaded := run_combined "systemctl" ["reload"; "nginx"] in
      match reloaded with
      | (output, Some _) => Ret (Err (errors_New ("Nginx reload failed: " +:+ boundedProcessDetail output)))
      | (_, None) => Ret (Ok tt)
      end
  end.

(** Nginx after a mutation was taken back; what it says is ignored. *)
Definition test_again : prog sys unit :=
  do! _ := run_combined "nginx" ["-t"] in
  do! _ := run_combined "systemctl" ["reload"; "nginx"] in Ret tt.

Definition certificatePaths (domain : string) : string * string :=
  let root := Join [rt_certbotConfig runtime; "live"; domain] in (Join [root; "fullchain.pem"], Join [root; "privkey.pem"]).

Definition not_configured : DeployDomainTLSState := mkTLSState "not_configured" None 0 "TLS is not enabled for this project domain.".

(** What a certificate is worth at [now]; [days] are left. *)
Definition certificate_state (c : certificate) (now : time) (days : Z) : DeployDomainTLSState :=
  let expires := crt_NotAfter c in
  let state status message := mkTLSState status (Some expires) days message in
  if negb (crt_NotBefore c =? zero_time) && (now <? crt_NotBefore c) then state "unavailable" "Managed TLS certificate is not valid yet."
  else if negb (now <? expires) then state "expired" "Managed TLS certificate has expired."
  else if days <=? 30 then state "expiring" "Managed TLS certificate expires within 30 days."
  else state "healthy" "Managed TLS certificate is valid.".

Definition TLSState (domain : DeployDomain) : prog sys (answer DeployDomainTLSState) :=
  if negb (dd_TLSEnabled domain) then Ret (Ok not_configured)
  else
    match validateTLSPaths with
    | Err e => Ret (Err e)
    | Ok _ =>
        let '(certPath, keyPath) := certificatePaths (dd_Domain domain) in
        checked "inspect TLS private key: " (HostFiles.Stat keyPath) (fun info =>
          if negb (fi_Regular info)
          then Ret (Err (errors_New "inspect TLS private key: private key path is not a regular file"))
          else
            checked "read TLS certificate: " (ReadFile certPath) (fun data =>
              match pem_Decode data with
              | None => Ret (Err (errors_New "TLS certificate contains no PEM block"))
              | Some (_, bytes) =>
                  match ParseCertificate bytes with
                  | Err text => Ret (Err (errors_New ("parse TLS certificate: " +:+ text)))
                  | Ok c =>
                      match VerifyHostname c (dd_Domain domain) with
                      | Some text => Ret (Err (errors_New ("certificate does not cover " +:+ dd_Domain domain +:+ ": " +:+ text)))
                      | None =>
                          Call TimeNow (fun now => Call TimeNow (fun until =>
                            Ret (Ok (certificate_state c now (whole_days (Sub (crt_NotAfter c) until))))))
                      end
                  end
              end))
    end.

Definition configContent (domain : DeployDomain) : prog sys (answer string) :=
  match projectDomainOwner domain with
  | Err e => Ret (Err e)
  | Ok owner =>
      if dd_TLSEnabled domain then
        try! _ := TLSState domain in
        let '(certPath, keyPath) := certificatePaths (dd_Domain domain) in
        Ret (Ok (tls_config owner (dd_Domain domain) (rt_acmeWebroot runtime) certPath keyPath (dd_HostPort domain)))
      else Ret (Ok (http_config owner (dd_Domain domain) (rt_acmeWebroot runtime) (dd_HostPort domain)))
  end.
(** ** Applying a domain *)

Definition removeProjectDomainPath (path : string) : prog sys (option os_error) :=
  Call (HostFiles.Remove path) (fun r => Ret (match r with Err e => if os_missing e then None else Some e | Ok _ => None end)).

(** The deferred clean-up of an apply that was not committed; [available] when
    the configuration had its name already. *)
Definition abandon {A} (domain : DeployDomain) (temporary : string) (available : bool) (e : error) : prog sys (answer A) :=
  Call (Close temporary) (fun _ => Call (HostFiles.Remove temporary) (fun _ =>
    if available then
      Call (HostFiles.Remove (enabledPath domain)) (fun _ => Call (HostFiles.Remove (availablePath domain)) (fun _ => Ret (Err e)))
    else Ret (Err e))).

(** A step before the configuration has its name. *)
Definition staged {A B} (domain : DeployDomain) (temporary : string) (o : sys (result os_error B)) (k : prog sys (answer A))
    : prog sys (answer A) :=
  Call o (fun r => match r with Err e => abandon domain temporary false (os_fail e) | Ok _ => k end).

(** The link, the test and the reload. *)
Definition activate (domain : DeployDomain) (temporary : string) : prog sys (answer unit) :=
  Call (HostFiles.Symlink (availablePath domain) (enabledPath domain)) (fun linked =>
    match linked with
    | Err e =>
        do! cleanup := removeProjectDomainPath (availablePath domain) in
        abandon domain temporary true
          (match cleanup with Some _ => cleanup_failed | None => errors_New ("enable Nginx project domain: " +:+ os_text e) end)
    | Ok _ =>
        do! tested := testAndReload in
        match tested with
        | Err e =>
            do! link := removeProjectDomainPath (enabledPath domain) in
            do! config := removeProjectDomainPath (availablePath domain) in
            do! _ := test_again in
            abandon domain temporary true (match link, config with None, None => e | _, _ => cleanup_failed end)
        | Ok _ => Call (Close temporary) (fun _ => Ret (Ok tt))
        end
    end).

Definition commit (domain : DeployDomain) (temporary content : string) : prog sys (answer unit) :=
  staged domain temporary (WriteAll temporary content) (staged domain temporary (Sync temporary) (staged domain temporary (Close temporary)
    (Call (Rename temporary (availablePath domain)) (fun renamed =>
       match renamed with
       | Err e => abandon domain temporary false (errors_New ("commit Nginx project domain: " +:+ os_text e))
       | Ok _ => activate domain temporary
       end)))).

(** A path that has to be free. *)
Definition absent_or {A} (path : string) (conflict : error) (k : prog sys (answer A)) : prog sys (answer A) :=
  Call (Lstat path) (fun r =>
    match r with
    | Ok _ => Ret (Err conflict)
    | Err e => if negb (os_missing e) then Ret (Err (os_fail e)) else k
    end).

Definition Apply (domain : DeployDomain) : prog sys (answer unit) :=
  try! _ := validate in
  if negb (validProjectDomain (dd_Domain domain)) || (dd_HostPort domain <? 1) || (65535 <? dd_HostPort domain)
  then Ret (Err ErrInvalidProjectDomain)
  else
    match projectDomainOwner domain with
    | Err _ => Ret (Err ErrInvalidProjectDomain)
    | Ok _ =>
        absent_or (availablePath domain) (project_conflict ("Nginx config " +:+ filename domain +:+ " is already owned"))
          (absent_or (enabledPath domain) (project_conflict ("enabled Nginx site " +:+ filename domain +:+ " already exists"))
            (checked "stage Nginx project domain: " (CreateTemp (rt_sitesAvailable runtime) ".hserver-project-domain-" ".tmp") (fun temporary =>
               staged domain temporary (Chmod temporary 420)
                 (do! content := configContent domain in
                  match content with
                  | Err e => abandon domain temporary false e
                  | Ok text => commit domain temporary text
                  end))))
    end.

(** ** Changing one that is owned *)

Definition not_owned : error := errors_New "Nginx config is not owned by this project domain".

Definition requireOwnedConfig (domain : DeployDomain) : prog sys (answer unit) :=
  checking (ReadFile (availablePath domain)) (fun content =>
    if negb (ownedProjectDomainConfig content domain) then Ret (Err not_owned) else Ret (Ok tt)).

(** The temporary file is removed whatever happened. *)
Definition finally_remove {A} (temporary : string) (r : answer A) : prog sys (answer A) :=
  Call (HostFiles.Remove temporary) (fun _ => Ret r).

Definition writing_temp {A B} (temporary : string) (o : sys (result os_error B)) (k : prog sys (answer A)) : prog sys (answer A) :=
  Call o (fun r =>
    match r with
    | Err e => Call (Close temporary) (fun _ => finally_remove temporary (Err (os_fail e)))
    | Ok _ => k
    end).

(** The old version comes back under its name. *)
Definition put_back {A} (available backup temporary : string) (again : bool) (e : error) : prog sys (answer A) :=
  Call (HostFiles.Remove available) (fun _ => Call (Rename backup available) (fun _ =>
    do! _ := (if again then test_again else Ret tt) in finally_remove temporary (Err e))).

Definition swap_config (available temporary : string) : prog sys (answer unit) :=
  Call TimeNow (fun now =>
    let backup := available +:+ ".hserver-tls-" +:+ Itoa now in
    Call (Rename available backup) (fun saved =>
      match saved with
      | Err e => finally_remove temporary (Err (os_fail e))
      | Ok _ =>
          Call (Rename temporary available) (fun replaced =>
            match replaced with
            | Err e => put_back available backup temporary false (os_fail e)
            | Ok _ =>
                do! tested := testAndReload in
                match tested with
                | Err e => put_back available backup temporary true e
                | Ok _ => Call (HostFiles.Remove backup) (fun _ => finally_remove temporary (Ok tt))
                end
            end)
      end)).

Definition replaceOwnedConfig (domain : DeployDomain) (content : string) : prog sys (answer unit) :=
  checking (ReadFile (availablePath domain)) (fun current =>
    if negb (ownedProjectDomainConfig current domain) then Ret (Err not_owned)
    else
      checking (CreateTemp (rt_sitesAvailable runtime) ".hserver-project-domain-tls-" ".tmp") (fun temporary =>
        writing_temp temporary (Chmod temporary 420) (writing_temp temporary (WriteAll temporary content)
          (writing_temp temporary (Sync temporary)
            (Call (Close temporary) (fun closed =>
               match closed with
               | Err e => finally_remove temporary (Err (os_fail e))
               | Ok _ => swap_config (availablePath domain) temporary
               end)))))).

Definition with_tls (domain : DeployDomain) (enabled : bool) : DeployDomain :=
  mkDeployDomain (dd_TargetID domain) (dd_RuntimeOwner domain) (dd_Domain domain) (dd_Service domain) (dd_HostPort domain) enabled.

(** Certbot, and what it says when it fails. *)
Definition certbot (what : string) (args : list string) (k : prog sys (answer DeployDomainTLSState)) : prog sys (answer DeployDomainTLSState) :=
  do! ran := run_combined (rt_certbotBin runtime) args in
  match ran with
  | (output, Some text) =>
      let detail := boundedProcessDetail output in
      Ret (Err (errors_New ("Certbot " +:+ what +:+ " failed: " +:+ (if detail =?s "" then text else detail))))
  | (_, None) => k
  end.

Definition storage_args : list string :=
  ["--config-dir"; rt_certbotConfig runtime; "--work-dir"; rt_certbotWork runtime; "--logs-dir"; rt_certbotLogs runtime].

Definition EnableTLS (domain : DeployDomain) (email : string) : prog sys (answer DeployDomainTLSState) :=
  try! _ := validateTLS in
  if negb (validProjectDomain (dd_Domain domain)) then Ret (Err ErrInvalidProjectDomain)
  else
    try! _ := requireOwnedConfig domain in
    checked "create ACME webroot: " (MkdirAll (rt_acmeWebroot runtime) 493) (fun _ =>
    checked "set ACME webroot permissions: " (Chmod (rt_acmeWebroot runtime) 493) (fun _ =>
      certbot "issuance"
        (["certonly"; "--webroot"; "--webroot-path"; rt_acmeWebroot runtime] ++ storage_args
         ++ ["--cert-name"; dd_Domain domain; "--domain"; dd_Domain domain; "--non-interactive"; "--agree-tos";
             "--keep-until-expiring"; "--deploy-hook"; "systemctl reload nginx"]
         ++ (if email =?s "" then ["--register-unsafely-without-email"] else ["--email"; email]))
        (try! state := TLSState (mkDeployDomain 0 "" (dd_Domain domain) "" 0 true) in
         try! content := configContent (with_tls domain true) in
         try! _ := replaceOwnedConfig (with_tls domain true) content in Ret (Ok state)))).

Definition DisableTLS (domain : DeployDomain) : prog sys (answer unit) :=
  try! _ := validate in
  try! _ := requireOwnedConfig domain in
  try! content := configContent (with_tls domain false) in
  replaceOwnedConfig (with_tls domain false) content.

Definition RenewTLS (domain : DeployDomain) : prog sys (answer DeployDomainTLSState) :=
  try! _ := validateTLS in
  if negb (dd_TLSEnabled domain) || negb (validProjectDomain (dd_Domain domain)) then Ret (Err ErrInvalidProjectDomain)
  else
    try! _ := requireOwnedConfig domain in
    certbot "renewal"
      (["renew"] ++ storage_args
       ++ ["--cert-name"; dd_Domain domain; "--non-interactive"; "--deploy-hook"; "systemctl reload nginx"])
      (try! state := TLSState domain in
       if tls_Status state =?s "expired"
       then Ret (Err (errors_New "Certbot renewal completed without replacing the expired certificate"))
       else Ret (Ok state)).

(** ** Removing one *)

(** The renames of the configuration and of its link to their tombstones, and
    back when Nginx does not accept it. *)
Definition bury (available enabled suffix : string) (moved : bool) : prog sys (answer unit) :=
  Call (Rename available (available +:+ suffix)) (fun renamed =>
    match renamed with
    | Err e =>
        if moved then Call (Rename (enabled +:+ suffix) enabled) (fun _ => Ret (Err (os_fail e))) else Ret (Err (os_fail e))
    | Ok _ =>
        do! tested := testAndReload in
        match tested with
        | Err e =>
            Call (Rename (available +:+ suffix) available) (fun _ =>
              do! _ := (if moved then Call (Rename (enabled +:+ suffix) enabled) (fun _ => Ret tt) else Ret tt) in
              do! _ := test_again in Ret (Err e))
        | Ok _ =>
            Call (HostFiles.Remove (available +:+ suffix)) (fun _ =>
              if moved then Call (HostFiles.Remove (enabled +:+ suffix)) (fun _ => Ret (Ok tt)) else Ret (Ok tt))
        end
    end).

Definition Remove (domain : DeployDomain) : prog sys (answer unit) :=
  try! _ := validate in
  let available := availablePath domain in
  let enabled := enabledPath domain in
  Call (ReadFile available) (fun r =>
    match r with
    | Err e => if os_missing e then Ret (Ok tt) else Ret (Err (os_fail e))
    | Ok content =>
        if negb (ownedProjectDomainConfig content domain)
        then Ret (Err (errors_New "refusing to remove Nginx config not owned by this project domain"))
        else
          Call TimeNow (fun now =>
            let suffix := ".hserver-delete-" +:+ Itoa now in
            Call (Lstat enabled) (fun found =>
              match found with
              | Err e => if os_missing e then bury available enabled suffix false else Ret (Err (os_fail e))
              | Ok info =>
                  if negb (fi_Symlink info) then Ret (Err (errors_New "refusing to remove a non-symlink enabled Nginx site"))
                  else
                    Call (Readlink enabled) (fun link =>
                      if negb (match link with Ok target => Clean target =?s available | Err _ => false end)
                      then Ret (Err (errors_New "refusing to remove an unexpected enabled Nginx symlink"))
                      else checking (Rename enabled (enabled +:+ suffix)) (fun _ => bury available enabled suffix true))
              end))
    end).
End runtime.

(** ** What applying a project domain does to the files

    An apply only adds: the configuration, in one step, and the link.  It ends
    with both and Nginx reloaded, or with neither, or with the error that names
    a failed clean-up. *)

(** Files at two paths, or none. *)
Record site_paths : Type := mkSite { site_config : string; site_link : string }.

(** The paths differ, and are no temporary files. *)
Record site_layout (p : site_paths) : Prop := mkSiteLayout {
  site_distinct : site_config p <> site_link p;
  site_not_temp : occurs ".hserver-project-domain-" (site_config p) = false /\ occurs ".hserver-project-domain-" (site_link p) = false }.

Section facts.
Context `{Host}.
Context (command : string -> list string -> fs -> result string string -> fs -> Prop).
Context (resolves : string -> string -> Prop).
Context (commands_leave_files : forall name args s r s', command name args s r s' -> s' = s).
Notation wp := (wp command resolves).
Notation reaches := (reaches command resolves).
Notation leaves_files := (leaves_files command resolves).

(** ** Programs that only read *)

Lemma leaves_files_bind {A B} (p : prog sys A) (k : A -> prog sys B) :
  leaves_files p -> (forall a, leaves_files (k a)) -> leaves_files (pbind p k).
Proof.
  intros Hp Hk I Q s Hi Hq. apply wp_bind, Hp; [done|]. intros a Ha. apply Hk; [done|].
  intros b Hb. apply Hq. clear -Ha Hb. remember (Ret a) as q eqn:E.
  assert (forall p s1 q s2, reaches p s1 q s2 -> q = Ret a -> reaches (k a) s2 (Ret b) s -> reaches (pbind p k) s1 (Ret b) s) as Hs.
  { clear. intros p s1 q s2 Hr. induction Hr as [p s1|B' o c s1 b' s2 q s3 Hs _ IH]; intros -> Hk; [done|].
    eapply reaches_call; [done|]. by apply IH. }
  by eapply Hs.
Qed.

Lemma pure_combined name args : pure_call command resolves (RunCombined name args).
Proof. intros s b s' Hs. by eapply commands_leave_files. Qed.

Ltac pure_read := first [apply (pure_calls command resolves _ 0 "") | let Hs := fresh in intros ? ? ? Hs; apply Hs].

Lemma checked_leaves {A B} before (o : sys (result os_error B)) (k : B -> prog sys (answer A)) :
  pure_call command resolves o -> (forall b, leaves_files (k b)) -> leaves_files (checked before o k).
Proof. intros Ho Hk. apply leaves_files_call; [done|]. intros [b|e]; [apply Hk|apply leaves_files_ret]. Qed.

Lemma validate_wp (I : fs -> Prop) (Q : answer unit -> fs -> Prop) runtime s :
  I s -> Q (Ok tt) s -> (forall text, Q (Err (errors_New text)) s) -> wp I (validate runtime) Q s.
Proof.
  intros Hi Hok He. unfold validate.
  induction [("sites-available", _); _] as [|[label path] paths IH]; cbn [validate_paths]; [by apply wp_ret|].
  destruct (negb (IsAbs path)); [by apply wp_ret|]. apply wp_pure; [pure_read|done|]. intros [info|e] _; [|by apply wp_ret].
  destruct (negb (fi_IsDir info)); [by apply wp_ret|done].
Qed.

Lemma TLSState_leaves `{X509} runtime domain : leaves_files (TLSState runtime domain).
Proof.
  unfold TLSState. destruct (negb (dd_TLSEnabled domain)); [apply leaves_files_ret|].
  destruct (validateTLSPaths runtime); [|apply leaves_files_ret]. destruct (certificatePaths _ _) as [certPath keyPath].
  apply checked_leaves; [pure_read|]. intros info. destruct (negb _); [apply leaves_files_ret|].
  apply checked_leaves; [pure_read|]. intros data. destruct (pem_Decode data) as [[kind bytes]|]; [|apply leaves_files_ret].
  destruct (ParseCertificate bytes) as [cert|text]; [|apply leaves_files_ret].
  destruct (VerifyHostname cert _); [apply leaves_files_ret|].
  do 2 (apply leaves_files_call; [pure_read|]; intros ?). apply leaves_files_ret.
Qed.

Lemma testAndReload_leaves : leaves_files testAndReload.
Proof.
  apply leaves_files_call; [apply pure_combined|]. intros [out [e|]]; [apply leaves_files_ret|].
  apply leaves_files_call; [apply pure_combined|]. intros [out' [e|]]; apply leaves_files_ret.
Qed.

Lemma test_again_leaves : leaves_files test_again.
Proof. do 2 (apply leaves_files_call; [apply pure_combined|]; intros ?). apply leaves_files_ret. Qed.

(** ** The content of a configuration *)

Definition config_text (runtime : NginxProjectDomainRuntime) (domain : DeployDomain) (owner : string) : string :=
  if dd_TLSEnabled domain
  then tls_config owner (dd_Domain domain) (rt_acmeWebroot runtime) (certificatePaths runtime (dd_Domain domain)).1
         (certificatePaths runtime (dd_Domain domain)).2 (dd_HostPort domain)
  else http_config owner (dd_Domain domain) (rt_acmeWebroot runtime) (dd_HostPort domain).

Lemma configContent_wp `{X509} (I : fs -> Prop) (Q : answer string -> fs -> Prop) runtime domain owner s :
  projectDomainOwner domain = Ok owner ->
  I s -> (forall e, Q (Err e) s) -> Q (Ok (config_text runtime domain owner)) s -> wp I (configContent runtime domain) Q s.
Proof.
  intros Ho Hi He Hok. unfold configContent, config_text in *. rewrite Ho. destruct (dd_TLSEnabled domain).
  - apply wp_bind, TLSState_leaves; [done|]. intros [state|e] _; [|by apply wp_ret].
    cbn [on_ok]. destruct (certificatePaths _ _) as [certPath keyPath]. by apply wp_ret.
  - by apply wp_ret.
Qed.

(** ** The mapping of a domain *)

Definition mapped (p : site_paths) (text : string) (s : fs) : Prop :=
  (exists uid gid, s !! site_config p = Some (File text 420 uid gid)) /\ s !! site_link p = Some (Link (site_config p)).

(** Nginx was tested and reloaded with these files. *)
Definition reloaded (s : fs) : Prop := reaches testAndReload s (Ret (Ok tt)) s.

(** Everything that was there stays; the configuration is complete or absent. *)
Definition apply_states (p : site_paths) (text : string) (s0 s : fs) : Prop :=
  s0 ⊆ s
  /\ (s !! site_config p = s0 !! site_config p
      \/ s0 !! site_config p = None /\ exists uid gid, s !! site_config p = Some (File text 420 uid gid))
  /\ (s !! site_link p = s0 !! site_link p
      \/ s0 !! site_link p = None /\ s !! site_link p = Some (Link (site_config p))).

Definition unmapped (p : site_paths) (s0 s : fs) : Prop :=
  s !! site_config p = s0 !! site_config p /\ s !! site_link p = s0 !! site_link p.

Definition apply_result (p : site_paths) (text : string) (s0 : fs) (r : answer unit) (s : fs) : Prop :=
  s0 ⊆ s /\
  match r with
  | Ok _ => s0 !! site_config p = None /\ s0 !! site_link p = None /\ mapped p text s /\ reloaded s
  | Err e => unmapped p s0 s \/ errors_Is e ErrProjectDomainCleanup = true /\ faulty
  end.

Section applying.
Context `{X509} (runtime : NginxProjectDomainRuntime) (domain : DeployDomain) (owner : string).
Notation av := (availablePath runtime domain).
Notation en := (enabledPath runtime domain).
Definition site_of : site_paths := mkSite av en.
Context (layout : site_layout site_of) (Howner : projectDomainOwner domain = Ok owner).
Context (s0 : fs).
Notation text := (config_text runtime domain owner).
Let I : fs -> Prop := apply_states site_of text s0.
Let Q : answer unit -> fs -> Prop := apply_result site_of text s0.

Lemma unmapped_states s : s0 ⊆ s -> unmapped site_of s0 s -> I s.
Proof. intros Hs [Ha He]. split_and!; auto. Qed.

Lemma unmapped_stops e s : s0 ⊆ s -> unmapped site_of s0 s -> wp I (Ret (Err e)) Q s.
Proof. intros Hs Hu. apply wp_ret; [by apply unmapped_states|]. split; auto. Qed.

(** After both paths were found free. *)
Context (Ha : s0 !! av = None) (He : s0 !! en = None).

(** The files with the configuration, the link, both or neither. *)
Definition site (config link : bool) (s : fs) : Prop :=
  s0 ⊆ s
  /\ (if config then exists uid gid, s !! av = Some (File text 420 uid gid) else s !! av = None)
  /\ s !! en = if link then Some (Link av) else None.

Lemma site_states config link s : site config link s -> I s.
Proof.
  intros (Hs & Hc & Hl). split_and!; [done|..]; cbn [site_of site_config site_link].
  - destruct config; [right|left]; [done|by rewrite Ha].
  - destruct link; [right|left]; [done|by rewrite He].
Qed.

Lemma site_none s : s0 ⊆ s -> s !! av = None -> s !! en = None -> site false false s.
Proof. done. Qed.

Lemma site_unmapped s : site false false s -> unmapped site_of s0 s.
Proof. intros (Hs & Hc & Hl). split; cbn; congruence. Qed.

Lemma site_delete_link config link s : site config link s -> site config false (delete en s).
Proof.
  intros (Hs & Hc & Hl). pose proof (site_distinct _ layout) as Hne. cbn in Hne. split_and!.
  - apply map_subseteq_spec. intros q x Hq. rewrite lookup_delete_ne; [by eapply lookup_weaken|]. congruence.
  - destruct config; rewrite lookup_delete_ne by done; done.
  - by rewrite lookup_delete_eq.
Qed.

Lemma site_delete_config config link s : site config link s -> site false link (delete av s).
Proof.
  intros (Hs & Hc & Hl). pose proof (site_distinct _ layout) as Hne. cbn in Hne. split_and!.
  - apply map_subseteq_spec. intros q x Hq. rewrite lookup_delete_ne; [by eapply lookup_weaken|]. congruence.
  - by rewrite lookup_delete_eq.
  - by rewrite lookup_delete_ne.
Qed.

(** Removing a path of the mapping. *)
Lemma remove_link_step config link s b s' :
  site config link s -> sys_step command resolves (HostFiles.Remove en) s b s' ->
  match b with Ok _ => site config false s' | Err e => s' = s /\ (link = true -> faulty /\ os_missing e = false) end.
Proof.
  intros Hs. destruct b as [[]|e]; simpl; [intros ->; by eapply site_delete_link|]. intros (-> & Hf & Hm). split; [done|].
  intros ->. destruct Hs as (_ & _ & Hl). rewrite Hl in Hf. split; [by destruct Hf as [|[[=]|[=]]]|].
  unfold missing_ok in Hm. rewrite Hl in Hm. destruct (os_missing e); [by specialize (Hm eq_refl)|done].
Qed.

Lemma remove_config_step config link s b s' :
  site config link s -> sys_step command resolves (HostFiles.Remove av) s b s' ->
  match b with Ok _ => site false link s' | Err e => s' = s /\ (config = true -> faulty /\ os_missing e = false) end.
Proof.
  intros Hs. destruct b as [[]|e]; simpl; [intros ->; by eapply site_delete_config|]. intros (-> & Hf & Hm). split; [done|].
  intros ->. destruct Hs as (_ & (u & g & Hl) & _). rewrite Hl in Hf. split; [by destruct Hf as [|[[=]|[=]]]|].
  unfold missing_ok in Hm. rewrite Hl in Hm. destruct (os_missing e); [by specialize (Hm eq_refl)|done].
Qed.

(** ** The steps of an apply *)

Section temporary.
Context (t : string) (fresh : s0 !! t = None).
Context (Hname : temp_name (rt_sitesAvailable runtime) ".hserver-project-domain-" ".tmp" t).

Lemma temporary_ne : t <> av /\ t <> en.
Proof.
  destruct (site_not_temp _ layout) as [H1 H2]. cbn in H1, H2. pose proof (temp_name_occurs _ _ _ _ Hname).
  split; intros E; rewrite <-E in *; congruence.
Qed.

Lemma site_delete_temporary config link s : site config link s -> site config link (delete t s).
Proof.
  intros (Hs & Hc & Hl). destruct temporary_ne as [Hta Hte]. split_and!.
  - apply map_subseteq_spec. intros q x Hq. rewrite lookup_delete_ne; [by eapply lookup_weaken|]. congruence.
  - destruct config; rewrite lookup_delete_ne by done; done.
  - by rewrite lookup_delete_ne.
Qed.

Lemma site_temporary n : site false false (<[t := n]> s0).
Proof. destruct temporary_ne. split_and!; [by apply insert_subseteq|by rewrite lookup_insert_ne..]. Qed.

Lemma abandon_wp {A} (Q' : answer A -> fs -> Prop) config link available e s :
  site config link s ->
  (forall config' link' s', site config' link' s' -> (config' = true -> config = true) -> (link' = true -> link = true) -> Q' (Err e) s') ->
  wp I (abandon runtime domain t available e) Q' s.
Proof.
  intros Hs HQ. pose proof site_states as HI.
  apply wp_call; [by eapply HI|]. intros b s1 [-> _].
  apply wp_call; [by eapply HI|]. intros b1 s1 Hb1.
  assert (site config link s1) as Hs1.
  { destruct b1 as [[]|e1]; simpl in Hb1; [subst s1; by apply site_delete_temporary|by destruct Hb1 as [-> _]]. }
  destruct available; [|apply wp_ret; [by eapply HI|by eapply HQ]].
  apply wp_call; [by eapply HI|]. intros b2 s2 Hb2.
  assert (exists link', site config link' s2 /\ (link' = true -> link = true)) as (link' & Hs2 & Hl).
  { pose proof (remove_link_step _ _ _ _ _ Hs1 Hb2) as Hr. destruct b2; [by exists false|destruct Hr as [-> _]; eauto]. }
  apply wp_call; [by eapply HI|]. intros b3 s3 Hb3.
  assert (exists config', site config' link' s3 /\ (config' = true -> config = true)) as (config' & Hs3 & Hc).
  { pose proof (remove_config_step _ _ _ _ _ Hs2 Hb3) as Hr. destruct b3; [by exists false|destruct Hr as [-> _]; eauto]. }
  apply wp_ret; [by eapply HI|by eapply HQ].
Qed.

(** Nothing is left, or the error says so. *)
Lemma abandon_none available e s : site false false s -> wp I (abandon runtime domain t available e) Q s.
Proof.
  intros Hs. eapply abandon_wp; [exact Hs|]. intros [] [] s' Hs' H1 H2; try (by specialize (H1 eq_refl)); try (by specialize (H2 eq_refl)).
  split; [apply Hs'|]. left. by apply site_unmapped.
Qed.

Lemma abandon_cleanup config link available s :
  faulty -> site config link s -> wp I (abandon runtime domain t available cleanup_failed) Q s.
Proof.
  intros Hf Hs. eapply abandon_wp; [exact Hs|]. intros config' link' s' Hs' _ _. split; [apply Hs'|]. by right.
Qed.

Lemma remove_link_wp {A} config s (k : option os_error -> prog sys A) Q' :
  site config true s -> (forall s', site config false s' -> wp I (k None) Q' s') -> (forall e, faulty -> wp I (k (Some e)) Q' s) ->
  wp I (pbind (removeProjectDomainPath en) k) Q' s.
Proof.
  intros Hs Hok Herr. apply wp_call; [by eapply site_states|]. intros b s' Hb.
  pose proof (remove_link_step _ _ _ _ _ Hs Hb) as Hr. destruct b as [[]|e]; [by apply Hok|].
  destruct Hr as [-> Hr]. destruct (Hr eq_refl) as [Hf Hm]. cbn [pbind]. rewrite Hm. by apply Herr.
Qed.

Lemma remove_config_wp {A} link s (k : option os_error -> prog sys A) Q' :
  site true link s -> (forall s', site false link s' -> wp I (k None) Q' s') -> (forall e, faulty -> wp I (k (Some e)) Q' s) ->
  wp I (pbind (removeProjectDomainPath av) k) Q' s.
Proof.
  intros Hs Hok Herr. apply wp_call; [by eapply site_states|]. intros b s' Hb.
  pose proof (remove_config_step _ _ _ _ _ Hs Hb) as Hr. destruct b as [[]|e]; [by apply Hok|].
  destruct Hr as [-> Hr]. destruct (Hr eq_refl) as [Hf Hm]. cbn [pbind]. rewrite Hm. by apply Herr.
Qed.

Lemma again_wp {A} (p : prog sys A) Q' config link s :
  site config link s -> wp I p Q' s -> wp I (do! _ := test_again in p) Q' s.
Proof. intros Hs Hp. apply wp_bind, test_again_leaves; [by eapply site_states|done]. Qed.

(** The test failed. *)
Lemma take_back_wp e s :
  site true true s ->
  wp I (do! link := removeProjectDomainPath en in
        do! config := removeProjectDomainPath av in
        do! _ := test_again in
        abandon runtime domain t true (match link, config with None, None => e | _, _ => cleanup_failed end)) Q s.
Proof.
  intros Hs. apply (remove_link_wp true); [done|..].
  - intros s' Hs'. apply (remove_config_wp false); [done|..].
    + intros s2 Hs2. eapply again_wp; [exact Hs2|]. by apply abandon_none.
    + intros e' Hf. eapply again_wp; [exact Hs'|]. by eapply abandon_cleanup.
  - intros e' Hf. apply (remove_config_wp true); [done|..].
    + intros s2 Hs2. eapply again_wp; [exact Hs2|]. by eapply abandon_cleanup.
    + intros e2 Hf2. eapply again_wp; [exact Hs|]. by eapply abandon_cleanup.
Qed.

Lemma activate_wp s : site true false s -> wp I (activate runtime domain t) Q s.
Proof.
  intros Hs. pose proof site_states as HI. pose proof (site_distinct _ layout) as Hne. cbn in Hne.
  apply wp_call; [by eapply HI|]. intros [[]|e] s1 Hs1; simpl in Hs1.
  - destruct Hs1 as [Hn ->].
    assert (site true true (<[en := Link av]> s)) as Hs1.
    { destruct Hs as (Hs & Hc & Hl). split_and!; [etrans; [done|by apply insert_subseteq]|by rewrite lookup_insert_ne|].
      by rewrite lookup_insert_eq. }
    apply wp_bind, testAndReload_leaves; [by eapply HI|]. intros [[]|e] Ht; [|by apply take_back_wp].
    apply wp_call; [by eapply HI|]. intros b s2 [-> _]. apply wp_ret; [by eapply HI|].
    destruct Hs1 as (Hs1 & Hc & Hl). by split_and!.
  - destruct Hs1 as [-> Hf]. pose proof Hs as (_ & _ & Hl). rewrite Hl in Hf. destruct Hf as [Hf|[? [=]]].
    apply (remove_config_wp false); [done|..].
    + intros s' Hs'. by apply abandon_none.
    + intros e' _. by eapply abandon_cleanup.
Qed.

(** A step on the temporary file. *)
Lemma staged_wp {B} (o : sys (result os_error B)) k n n' :
  updates command resolves t s0 o n n' -> wp I k Q (<[t := n']> s0) -> wp I (staged runtime domain t o k) Q (<[t := n]> s0).
Proof.
  intros Ho Hk. apply wp_call; [eapply site_states, site_temporary|]. intros [b|e] s' Hs; apply Ho in Hs.
  - by subst s'.
  - destruct Hs as [_ [n'' ->]]. apply abandon_none, site_temporary.
Qed.

Lemma commit_wp uid gid : wp I (commit runtime domain t text) Q (<[t := File "" 420 uid gid]> s0).
Proof.
  destruct temporary_ne as [Hta Hte].
  do 3 (eapply staged_wp; [auto using updates_write, updates_sync, updates_close|]).
  apply wp_call; [eapply site_states, site_temporary|]. intros [[]|e] s' Hs; simpl in Hs; rewrite lookup_insert_eq in Hs.
  - subst s'. rewrite delete_insert_id by done. apply activate_wp. pose proof (site_distinct _ layout) as Hne. cbn in Hne. split_and!.
    + by apply insert_subseteq.
    + rewrite lookup_insert_eq. eauto.
    + by rewrite lookup_insert_ne.
  - destruct Hs as [-> _]. apply abandon_none, site_temporary.
Qed.
End temporary.
End applying.

(** A path that is not free ends the apply. *)
Lemma absent_or_wp {A} (I : fs -> Prop) (Q : answer A -> fs -> Prop) path conflict k s :
  I s -> (forall e, Q (Err e) s) -> (s !! path = None -> wp I k Q s) -> wp I (absent_or path conflict k) Q s.
Proof.
  intros Hi He Hk. apply wp_pure; [apply (pure_calls command resolves _ 0 "")|done|]. intros [info|e] [_ Hs]; [by apply wp_ret|].
  destruct (os_missing e) eqn:Hm; cbn [negb]; [by apply Hk, Hs|by apply wp_ret].
Qed.

Lemma Apply_wp `{X509} runtime domain owner s0 :
  site_layout (site_of runtime domain) -> projectDomainOwner domain = Ok owner ->
  let text := config_text runtime domain owner in
  wp (apply_states (site_of runtime domain) text s0) (Apply runtime domain)
    (fun r s => apply_result (site_of runtime domain) text s0 r s /\ (r = Ok tt -> validProjectDomain (dd_Domain domain) = true)) s0.
Proof.
  intros Hl Ho text.
  assert (forall e : error, apply_result (site_of runtime domain) text s0 (Err e) s0
            /\ (Err e = Ok tt -> validProjectDomain (dd_Domain domain) = true)) as Hstop.
  { intros e. split; [|done]. split; [done|]. by left. }
  assert (apply_states (site_of runtime domain) text s0 s0) as Hi by (split_and!; auto).
  apply wp_bind, validate_wp; [done| |intros text'; by apply wp_ret].
  cbn [on_ok]. destruct (_ || _) eqn:Hg; [by apply wp_ret|].
  apply orb_false_iff in Hg as [[Hd%negb_false_iff _]%orb_false_iff _]. rewrite Ho.
  apply absent_or_wp; [done..|]. intros Ha. apply absent_or_wp; [done..|]. intros He.
  apply wp_call; [done|]. intros [t|e] s Hs; simpl in Hs; [|destruct Hs as [_ ->]; by apply wp_ret].
  destruct Hs as (Hf & Hn & u & g & ->).
  eapply wp_mono; [|done|intros r s _ Hq; split; [exact Hq|done]].
  eapply (staged_wp runtime domain owner Hl s0 Ha He t Hf Hn); [apply updates_chmod|].
  apply wp_bind. eapply configContent_wp; [done|by eapply site_states, site_temporary| |].
  - intros e. eapply (abandon_none runtime domain owner Hl s0 Ha He t Hf Hn), site_temporary; done.
  - eapply commit_wp; done.
Qed.

(** Nothing is applied for an invalid owner. *)
Lemma Apply_invalid_wp runtime `{X509} domain e s0 :
  projectDomainOwner domain = Err e ->
  wp (eq s0) (Apply runtime domain) (fun r s => s = s0 /\ exists text, r = Err (errors_New text)) s0.
Proof.
  intros Ho. apply wp_bind, validate_wp; [done| |intros text; apply wp_ret; eauto].
  cbn [on_ok]. destruct (_ || _); [apply wp_ret; unfold ErrInvalidProjectDomain; eauto|].
  rewrite Ho. apply wp_ret; unfold ErrInvalidProjectDomain; eauto.
Qed.
End facts.
