(* ===== verification/AgentDeployDomains.v ===== *)
(** * Project domains on the agent: [deploy_domains.go] of [cmd/hserver-agent]

    The controller observes the Nginx mapping of a domain, compares it with the
    plan of its deploy target, and asks the runtime of project domains for
    changes.  The runtime is an interface; [nginx_runtime] is the one [main]
    uses.  The mutex of the Nginx controller is held during an operation. *)

From stdpp Require Import base strings gmap list sorting.
From Stdlib Require Import ZArith Lia Ascii.
From S2P Require Import Prelude GoStrings GoJson GoTime GoSha256 HubTypes TaskGate IntegrationStatus AgentConfig AgentTasks AgentFirewall AgentDeploy HostFiles AgentEditors AgentPHP AgentDomains ProjectDomains.
Local Open Scope Z_scope.
Local Open Scope hub_scope.

Definition maxManagedDeployDomains : nat := 64.
Definition maxManagedDomainConfigSize : Z := Z.shiftl 128 10.

Record managedDeployDomain : Type := mkManaged {
  mgd_TargetID : string; mgd_Domain : string; mgd_HostPort : Z; mgd_DesiredHostPort : Z; mgd_Upstream : string;
  mgd_Status : string; mgd_Message : string; mgd_TLSStatus : string; mgd_TLSExpiresAt : string;
  mgd_TLSDaysRemaining : Z; mgd_TLSMessage : string; mgd_UpdatedAt : string; mgd_Enabled : bool; mgd_Revision : string }.

Record managedDeployDomainEnsureReceipt : Type := mkReceipt { rcp_Changed : bool; rcp_Observation : managedDeployDomain }.

Record managedDeployDomainHealth : Type := mkHealth {
  hlt_Domain : string; hlt_Upstream : string; hlt_Status : string; hlt_StatusCode : Z; hlt_LatencyMS : Z;
  hlt_Message : string; hlt_CheckedAt : string }.

Record deployDomainTLSMaintenanceReport : Type := mkReport { rep_Checked : Z; rep_Renewed : Z; rep_Failed : Z }.

(** An observation; a mapping that belongs to nobody known has no description. *)
Inductive observation : Type :=
| OAbsent
| OManaged (managed : managedDeployDomain)
| ODrift (managed : managedDeployDomain)
| OForeign (managed : option managedDeployDomain).

(** The interface of the runtime. *)
Record deployProjectDomainRuntime : Type := mkDomainRuntime {
  run_Apply : DeployDomain -> prog sys (answer unit);
  run_Remove : DeployDomain -> prog sys (answer unit);
  run_EnableTLS : DeployDomain -> string -> prog sys (answer DeployDomainTLSState);
  run_DisableTLS : DeployDomain -> prog sys (answer unit);
  run_TLSState : DeployDomain -> prog sys (answer DeployDomainTLSState);
  run_RenewTLS : DeployDomain -> prog sys (answer DeployDomainTLSState) }.

Definition nginx_runtime `{X509} (runtime : NginxProjectDomainRuntime) : deployProjectDomainRuntime :=
  mkDomainRuntime (Apply runtime) (ProjectDomains.Remove runtime) (EnableTLS runtime) (DisableTLS runtime) (TLSState runtime)
    (RenewTLS runtime).

Definition domain_stale : error := mkError "stale_observation" [errManagedDeployDomainStale].
Definition domain_drift : error := mkError "domain_drift" [errManagedDeployDomainDrift].
Definition domain_conflict : error := mkError "domain_conflict" [errManagedDeployDomainConflict].
Definition domain_cleanup : error := mkError "domain_cleanup_failed" [errManagedDeployDomainCleanup].
Definition domain_observation : error := mkError "domain_observation_failed" [errManagedDeployDomainObservation].
Definition domain_operation : error := errors_New "domain_operation_failed".

(** ** Names, revisions and ports *)

Definition agentDeployDomainLabelPattern : string -> bool := projectDomainLabelPattern.

Definition normalizeAgentDeployDomain `{LowerTable} (value : string) : answer string :=
  let value := TrimSuffix (ToLower (TrimSpace value)) "." in
  if (value =?s "") || (253 <? len value) then Err (errors_New "domain must be a valid ASCII hostname")
  else
    let labels := split "."%char value in
    if Nat.ltb (length labels) 2 then Err (errors_New "domain must contain at least two labels")
    else if forallb agentDeployDomainLabelPattern labels then Ok value
    else Err (errors_New "domain must be a valid ASCII hostname").

Definition agentDeployDomainOwner (targetID : string) : string := "agent-" +:+ targetID.

Definition agentDeployDomainRevision (content : string) (enabled : bool) : string :=
  sha256_hex (content +:+ String nul (if enabled then "enabled" else "disabled")).

(** [(?m)^\s*proxy_pass http://127\.0\.0\.1:([0-9]{1,5});\s*$]: white space may
    go on over the ends of lines, so the first match is in the first line that
    matches by itself. *)
Definition proxy_port (line : string) : option string :=
  let body := (span re_space line).2 in
  if negb (HasPrefix body "proxy_pass http://127.0.0.1:") then None
  else
    let '(digits, rest) := span (in_range 48 57) (sdrop 28 body) in
    match rest with
    | String c rest' =>
        if (1 <=? len digits) && (len digits <=? 5) && Ascii.eqb c ";"%char && forallb re_space (chars rest')
        then Some digits else None
    | "" => None
    end.

Definition agentDeployProxyPassPattern (text : string) : option string := head (omap proxy_port (split newline text)).

(** ** The controller *)

Record deployDomainController : Type := mkDeployDomains {
  ddc_plansPath : string; ddc_runtime : deployProjectDomainRuntime; ddc_allowRead : bool; ddc_allowActions : bool;
  ddc_sitesAvailable : string; ddc_sitesEnabled : string }.

Definition newDeployDomainController (plansPath : string) (runtime : deployProjectDomainRuntime) (allowRead allowActions : bool)
    (sitesAvailable sitesEnabled : string) : deployDomainController :=
  let enabled := if TrimSpace sitesEnabled =?s "" then Join [Dir (Clean sitesAvailable); "sites-enabled"] else sitesEnabled in
  mkDeployDomains plansPath runtime allowRead allowActions (Clean sitesAvailable) (Clean enabled).

Section controller.
(** The order [sort.Slice] leaves plans of one name in, the texts of decoding
    errors, and [mail.ParseAddress], which gives a name and an address. *)
Context `{LowerTable} (sort_plans : list deployPlanConfig -> list deployPlanConfig) (decode_error : string -> string).
Context (ParseAddress : string -> option (string * string)).
Context (c : deployDomainController).
Notation runtime := (ddc_runtime c).

Definition load_plans : prog sys (answer (list deployPlanConfig)) :=
  Call (OpenRead (ddc_plansPath c)) (fun opened =>
    match opened with
    | Err e => Ret (loadPlans sort_plans (OpenFailed (os_text e)))
    | Ok _ =>
        Call (ReadUpTo (ddc_plansPath c) (maxDeployPlanBytes + 1)) (fun data =>
          Ret (loadPlans sort_plans (match data with Err _ => ReadFailed | Ok text => PlansRead text (decode_error text) end)))
    end).

Definition configuredTarget (targetID : string) : prog sys (answer deployPlanConfig) :=
  try! plans := load_plans in
  Ret (match find (fun plan => plan_ID plan =?s targetID) plans with
       | None => Err (errors_New "deploy target is not configured locally")
       | Some plan =>
           if (plan_HostPort plan <? 1) || (65535 <? plan_HostPort plan)
           then Err (errors_New "deploy target has no locally configured host_port") else Ok plan
       end).

Definition domainModel (plan : deployPlanConfig) (domain : string) (hostPort : Z) (tlsEnabled : bool) : DeployDomain :=
  mkDeployDomain 0 (agentDeployDomainOwner (plan_ID plan)) domain (plan_ID plan) hostPort tlsEnabled.

Definition observedDomainModel (domain : managedDeployDomain) : DeployDomain :=
  mkDeployDomain 0 (agentDeployDomainOwner (mgd_TargetID domain)) (mgd_Domain domain) (mgd_TargetID domain) (mgd_HostPort domain)
    (negb (mgd_TLSStatus domain =?s "not_configured")).

Definition exactManagedDomainSymlink (enabledPath availablePath : string) : prog sys (answer bool) :=
  Call (Lstat enabledPath) (fun r =>
    match r with
    | Err e => Ret (if os_missing e then Ok false else Err (os_fail e))
    | Ok info =>
        if negb (fi_Symlink info) then Ret (Ok false)
        else checking (Readlink enabledPath) (fun target => Ret (Ok (target =?s availablePath)))
    end).

(** What the text of a mapping and its link say; the certificate is looked at
    for a mapping with a port. *)
Definition describe (plan : deployPlanConfig) (targetID domain text : string) (enabled : bool) (modified : time)
    : prog sys (answer observation) :=
  let base status message :=
    mkManaged targetID domain 0 (plan_HostPort plan) "" status message "" "" 0 "" (FormatRFC3339Nano modified) enabled
      (agentDeployDomainRevision text enabled) in
  if negb (occurs (with_newline (owner_line (agentDeployDomainOwner targetID))) text)
     || negb (occurs (with_newline (domain_line domain)) text)
  then Ret (Ok (OForeign (Some (base "conflict" "An existing Nginx mapping is not owned by this deploy target."))))
  else
    match agentDeployProxyPassPattern text with
    | None => Ret (Ok (ODrift (base "drifted" "Managed Nginx mapping has no valid loopback upstream.")))
    | Some digits =>
        match Atoi digits with
        | Some hostPort =>
            if (hostPort <? 1) || (65535 <? hostPort)
            then Ret (Ok (ODrift (base "drifted" "Managed Nginx mapping has an invalid loopback port.")))
            else
              do! state := run_TLSState runtime (domainModel plan domain hostPort (occurs "listen 443 ssl;" text)) in
              let '(tlsStatus, expires, days, tlsMessage) :=
                match state with
                | Err e => ("unavailable", "", 0, err_Error e)
                | Ok st => (tls_Status st, match tls_ExpiresAt st with Some t => FormatRFC3339Nano t | None => "" end,
                            tls_DaysRemaining st, tls_Message st)
                end in
              let '(status, message) :=
                if negb (hostPort =? plan_HostPort plan)
                then ("drifted", "Nginx maps port " +:+ Itoa hostPort +:+ " while the local deploy plan declares port "
                                 +:+ Itoa (plan_HostPort plan) +:+ ".")
                else if negb enabled
                then ("drifted", "Managed Nginx mapping is not enabled by its exact sites-enabled symlink.")
                else ("active", "Managed Nginx mapping matches the local deploy plan.") in
              let managed := mkManaged targetID domain hostPort (plan_HostPort plan) ("http://127.0.0.1:" +:+ Itoa hostPort)
                               status message tlsStatus expires days tlsMessage (FormatRFC3339Nano modified) enabled
                               (agentDeployDomainRevision text enabled) in
              Ret (Ok (if status =?s "active" then OManaged managed else ODrift managed))
        | None => Ret (Ok (ODrift (base "drifted" "Managed Nginx mapping has an invalid loopback port.")))
        end
    end.

Definition mapping_path (domain : string) : string := Join [ddc_sitesAvailable c; domain +:+ ".conf"].
Definition mapping_link (domain : string) : string := Join [ddc_sitesEnabled c; domain +:+ ".conf"].

Definition observeDomainWithPlan (plan : deployPlanConfig) (targetID domain : string) : prog sys (answer observation) :=
  Call (Lstat (mapping_path domain)) (fun r =>
    match r with
    | Err e =>
        if os_missing e then
          Call (Lstat (mapping_link domain)) (fun l =>
            match l with
            | Err e' => Ret (if os_missing e' then Ok OAbsent else Err (os_fail e'))
            | Ok _ => Ret (Ok (OForeign None))
            end)
        else Ret (Err (os_fail e))
    | Ok info =>
        if negb (fi_Regular info) || (maxManagedDomainConfigSize <? fi_Size info) then Ret (Ok (OForeign None))
        else
          checking (ReadFile (mapping_path domain)) (fun text =>
            if maxManagedDomainConfigSize <? len text then Ret (Ok (OForeign None))
            else
              try! enabled := exactManagedDomainSymlink (mapping_link domain) (mapping_path domain) in
              describe plan targetID domain text enabled (fi_ModTime info))
    end).

(** ** Inventory *)

Fixpoint list_mappings (plan : deployPlanConfig) (targetID : string) (entries : list DirEntry) (domains : list managedDeployDomain)
    : prog sys (answer (list managedDeployDomain)) :=
  match entries with
  | [] => Ret (Ok domains)
  | entry :: rest =>
      let file := de_Name entry in
      let domain := TrimSuffix file ".conf" in
      if de_IsDir entry || negb (HasSuffix file ".conf") then list_mappings plan targetID rest domains
      else if match normalizeAgentDeployDomain domain with Err _ => true | Ok _ => false end
      then list_mappings plan targetID rest domains
      else
        do! observed := observeDomainWithPlan plan targetID domain in
        match observed with
        | Ok (OManaged managed) | Ok (ODrift managed) =>
            if Nat.eqb (length domains) maxManagedDeployDomains
            then Ret (Err (errors_New "managed project domains exceed the 64-domain limit"))
            else list_mappings plan targetID rest (domains ++ [managed])
        | _ => list_mappings plan targetID rest domains
        end
  end.

Definition domain_le (a b : managedDeployDomain) : Prop := String.le (mgd_Domain a) (mgd_Domain b).
#[local] Instance domain_le_dec : RelDecision domain_le := fun a b => decide (String.le (mgd_Domain a) (mgd_Domain b)).

Definition inventoryLocked (targetID : string) : prog sys (answer (list managedDeployDomain)) :=
  try! plan := configuredTarget targetID in
  Call (ReadDir (ddc_sitesAvailable c)) (fun r : result os_error (list DirEntry) =>
    match r with
    | Err e => Ret (Err (errors_New ("read Nginx sites: " +:+ os_text e)))
    | Ok entries => try! domains := list_mappings plan targetID entries [] in Ret (Ok (merge_sort domain_le domains))
    end).

Definition Inventory (targetID : string) : prog sys (answer (list managedDeployDomain)) :=
  if negb (ddc_allowRead c) then Ret (Err (errors_New "project domain inventory is not enabled locally"))
  else inventoryLocked targetID.

Definition domainLocked (targetID domain : string) : prog sys (answer managedDeployDomain) :=
  try! domains := inventoryLocked targetID in
  Ret (match find (fun candidate => mgd_Domain candidate =?s domain) domains with
       | Some candidate => Ok candidate
       | None => Err (errors_New "managed project domain was not found")
       end).

(** ** Ensuring a domain *)

Definition actions_disabled : error := errors_New "project domain actions are not enabled locally".

(** What is observed after an apply. *)
Definition applied (observed : answer observation) : answer managedDeployDomainEnsureReceipt :=
  match observed with
  | Err _ => Err domain_observation
  | Ok (OManaged managed) =>
      if negb (mgd_Status managed =?s "active") || negb (mgd_Enabled managed) then Err domain_drift
      else Ok (mkReceipt true managed)
  | Ok (OForeign _) => Err domain_conflict
  | Ok _ => Err domain_drift
  end.

Definition Ensure (targetID rawDomain expectedRevision : string) : prog sys (answer managedDeployDomainEnsureReceipt) :=
  if negb (ddc_allowActions c) then Ret (Err actions_disabled)
  else
    match normalizeAgentDeployDomain rawDomain with
    | Err e => Ret (Err e)
    | Ok domain =>
        if negb (validAgentDeployDomainRevision expectedRevision)
        then Ret (Err (errors_New "expected_revision must be absent or a lowercase SHA-256 revision"))
        else
          do! configured := configuredTarget targetID in
          match configured with
          | Err _ => Ret (Err domain_observation)
          | Ok plan =>
              do! observed := observeDomainWithPlan plan targetID domain in
              match observed with
              | Err _ => Ret (Err domain_observation)
              | Ok (OForeign _) => Ret (Err domain_conflict)
              | Ok (ODrift managed) =>
                  if negb (mgd_Revision managed =?s "") && negb (mgd_Revision managed =?s expectedRevision)
                  then Ret (Err domain_stale) else Ret (Err domain_drift)
              | Ok (OManaged managed) =>
                  if negb (mgd_Revision managed =?s expectedRevision) then Ret (Err domain_stale)
                  else if negb (mgd_Status managed =?s "active") || negb (mgd_Enabled managed) then Ret (Err domain_drift)
                  else Ret (Ok (mkReceipt false managed))
              | Ok OAbsent =>
                  if negb (expectedRevision =?s "absent") then Ret (Err domain_stale)
                  else
                    do! done := run_Apply runtime (domainModel plan domain (plan_HostPort plan) false) in
                    match done with
                    | Err e => Ret (Err (if errors_Is e ErrProjectDomainCleanup then domain_cleanup else domain_operation))
                    | Ok _ => do! after := observeDomainWithPlan plan targetID domain in Ret (applied after)
                    end
              end
          end
    end.

(** ** The other changes *)

(** A call of the runtime whose error is returned behind a text. *)
Definition asking {A B} (before : string) (p : prog sys (answer A)) (k : prog sys (answer B)) : prog sys (answer B) :=
  do! r := p in match r with Err e => Ret (Err (wrap before e)) | Ok _ => k end.

(** The guards the changes share. *)
Definition for_domain {B} (rawDomain : string) (k : string -> prog sys (answer B)) : prog sys (answer B) :=
  if negb (ddc_allowActions c) then Ret (Err actions_disabled)
  else match normalizeAgentDeployDomain rawDomain with Err e => Ret (Err e) | Ok domain => k domain end.

Definition Create (targetID rawDomain : string) : prog sys (answer managedDeployDomain) :=
  for_domain rawDomain (fun domain =>
    try! plan := configuredTarget targetID in
    asking "activate managed project domain: " (run_Apply runtime (domainModel plan domain (plan_HostPort plan) false))
      (domainLocked targetID domain)).

Definition Delete (targetID rawDomain : string) : prog sys (answer unit) :=
  for_domain rawDomain (fun domain =>
    try! observed := domainLocked targetID domain in
    asking "deactivate managed project domain: " (run_Remove runtime (observedDomainModel observed)) (Ret (Ok tt))).

Definition account_email_ok (email : string) : bool :=
  (email =?s "") || match ParseAddress email with Some (name, address) => (address =?s email) && (name =?s "") | None => false end.

Definition EnableTLS (targetID rawDomain rawEmail : string) : prog sys (answer managedDeployDomain) :=
  for_domain rawDomain (fun domain =>
    let email := TrimSpace rawEmail in
    if negb (account_email_ok email) then Ret (Err (errors_New "invalid ACME account email"))
    else
      try! observed := domainLocked targetID domain in
      asking "enable managed project TLS: " (run_EnableTLS runtime (observedDomainModel observed) email) (domainLocked targetID domain)).

Definition DisableTLS (targetID rawDomain : string) : prog sys (answer managedDeployDomain) :=
  for_domain rawDomain (fun domain =>
    try! observed := domainLocked targetID domain in
    asking "disable managed project TLS: " (run_DisableTLS runtime (observedDomainModel observed)) (domainLocked targetID domain)).

Definition RenewTLS (targetID rawDomain : string) : prog sys (answer managedDeployDomain) :=
  for_domain rawDomain (fun domain =>
    try! observed := domainLocked targetID domain in
    if mgd_TLSStatus observed =?s "not_configured" then Ret (Err (errors_New "managed project TLS is not enabled"))
    else
      asking "renew managed project TLS: " (run_RenewTLS runtime (observedDomainModel observed)) (domainLocked targetID domain)).

(** The address is a URL whatever the mapping says, so making the request does
    not fail. *)
Definition Health (targetID rawDomain : string) : prog sys (answer managedDeployDomainHealth) :=
  if negb (ddc_allowRead c) then Ret (Err (errors_New "project domain inventory is not enabled locally"))
  else
    match normalizeAgentDeployDomain rawDomain with
    | Err e => Ret (Err e)
    | Ok domain =>
        try! observed := domainLocked targetID domain in
        Call TimeNow (fun _ => Call TimeNow (fun started =>
          Call (HttpGet (mgd_Upstream observed +:+ "/")) (fun response =>
            Call TimeNow (fun finished => Call TimeNow (fun checked =>
              let result status code message :=
                mkHealth (mgd_Domain observed) (mgd_Upstream observed) status code (Z.quot (Sub finished started) 1000000) message
                  (FormatRFC3339Nano checked) in
              Ret (Ok (match response with
                       | Err _ => result "unavailable" 0 "Loopback upstream did not respond."
                       | Ok code =>
                           if (200 <=? code) && (code <? 400)
                           then result "healthy" code "Loopback upstream returned a successful response."
                           else result "unhealthy" code "Loopback upstream responded outside the accepted 200-399 range."
                       end)))))))
    end.

(** ** The maintenance of certificates *)

Definition counted (report : deployDomainTLSMaintenanceReport) (checked renewed failed : Z) : deployDomainTLSMaintenanceReport :=
  mkReport (rep_Checked report + checked) (rep_Renewed report + renewed) (rep_Failed report + failed).

Fixpoint maintain_domains (domains : list managedDeployDomain) (report : deployDomainTLSMaintenanceReport)
    : prog sys deployDomainTLSMaintenanceReport :=
  match domains with
  | [] => Ret report
  | domain :: rest =>
      if mgd_TLSStatus domain =?s "not_configured" then maintain_domains rest report
      else if negb (mgd_TLSStatus domain =?s "expiring") && negb (mgd_TLSStatus domain =?s "expired")
      then maintain_domains rest (counted report 1 0 0)
      else
        do! renewed := run_RenewTLS runtime (observedDomainModel domain) in
        maintain_domains rest (match renewed with Err _ => counted report 1 0 1 | Ok _ => counted report 1 1 0 end)
  end.

Fixpoint maintain_plans (plans : list deployPlanConfig) (report : deployDomainTLSMaintenanceReport)
    : prog sys deployDomainTLSMaintenanceReport :=
  match plans with
  | [] => Ret report
  | plan :: rest =>
      if plan_HostPort plan =? 0 then maintain_plans rest report
      else
        do! domains := inventoryLocked (plan_ID plan) in
        match domains with
        | Err _ => maintain_plans rest (counted report 0 0 1)
        | Ok domains => do! report' := maintain_domains domains report in maintain_plans rest report'
        end
  end.

Definition MaintainTLS : prog sys deployDomainTLSMaintenanceReport :=
  let none := mkReport 0 0 0 in
  if negb (ddc_allowRead c) || negb (ddc_allowActions c) then Ret none
  else
    do! plans := load_plans in
    match plans with
    | Err _ => Ret (counted none 0 0 1)
    | Ok plans => maintain_plans plans none
    end.
End controller.
