(* ===== verification/AgentDeployDomainsClaims.v ===== *)
(** * Observing and ensuring project domains

    What an observation says of the files, that the mapping an apply writes is
    observed as managed and active, and what an ensure does.  The runtime is
    known by its interface, [RuntimeSpec], which the Nginx runtime implements. *)

From stdpp Require Import base strings gmap list sorting.
From Stdlib Require Import ZArith Lia Ascii.
From S2P Require Import Prelude GoStrings GoSha256 GoJson GoTime HubTypes TaskGate IntegrationStatus AgentConfig AgentConfigClaims AgentTasks AgentDeploy AgentFirewall HostFiles AgentEditors AgentNginx AgentPHP AgentFiles AgentDomains AgentEditorsClaims ProjectDomains AgentDeployDomains.
Local Open Scope Z_scope.
Local Open Scope hub_scope.

(** ** The text of a mapping *)

Lemma span_stop p a c rest : forallb p (chars a) = true -> p c = false -> span p (a +:+ String c rest) = (a, String c rest).
Proof.
  intros Ha Hc. induction a as [|x a IH]; [change ("" +:+ String c rest) with (String c rest); cbn [span]; by rewrite Hc|].
  cbn [chars forallb] in Ha. apply andb_true_iff in Ha as [Hx Ha]. rewrite string_app_cons. cbn [span]. by rewrite Hx, IH.
Qed.

Lemma dec_digits_short k fuel n : 0 <= n < 10 ^ Z.of_nat (S k) -> (length (dec_digits fuel n) <= S k)%nat.
Proof.
  revert fuel n. induction k as [|k IH]; intros [|fuel] n Hn; cbn [dec_digits length]; try lia; rewrite length_app; cbn [length].
  - rewrite (proj2 (Z.ltb_lt n 10)) by lia. simpl. lia.
  - destruct (n <? 10); [simpl; lia|].
    assert (0 <= n / 10 < 10 ^ Z.of_nat (S k)) as Hd.
    { rewrite (Nat2Z.inj_succ (S k)), Z.pow_succ_r in Hn by lia. split; [apply Z.div_pos; lia|apply Z.div_lt_upper_bound; lia]. }
    specialize (IH fuel _ Hd). lia.
Qed.

Lemma port_digits port : 1 <= port <= 65535 ->
  forallb (in_range 48 57) (chars (Itoa port)) = true /\ 1 <= len (Itoa port) <= 5.
Proof.
  intros Hp. unfold Itoa. rewrite (proj2 (Z.ltb_ge _ _)) by lia. split.
  - unfold utoa. rewrite GoBase64.chars_of_list. apply forallb_forall. intros a (d & <- & Hin)%in_map_iff.
    apply list_elem_of_In in Hin. pose proof (dec_digits_range (dec_fuel port) port ltac:(lia)) as Hr.
    rewrite Forall_forall in Hr. apply Hr in Hin. unfold in_range, digit_char. rewrite byte_of_byte by lia.
    apply andb_true_iff. rewrite !Z.leb_le. lia.
  - split.
    + destruct (utoa port) eqn:E; [by apply utoa_nonempty in E|]. unfold len. simpl. lia.
    + unfold len, utoa. rewrite <-length_chars, GoBase64.chars_of_list, length_map.
      pose proof (dec_digits_short 4 (dec_fuel port) port ltac:(lia)). lia.
Qed.

Lemma proxy_port_line port : 1 <= port <= 65535 -> proxy_port (proxy_line port) = Some (Itoa port).
Proof.
  intros Hp. destruct (port_digits port Hp) as [Hd Hl]. unfold proxy_port, proxy_line.
  change (span re_space ("        proxy_pass http://127.0.0.1:" +:+ Itoa port +:+ ";"))
    with ("        ", "proxy_pass http://127.0.0.1:" +:+ Itoa port +:+ ";").
  cbn [snd]. change (HasPrefix ("proxy_pass http://127.0.0.1:" +:+ Itoa port +:+ ";") "proxy_pass http://127.0.0.1:") with true.
  cbn [negb]. change (sdrop 28 ("proxy_pass http://127.0.0.1:" +:+ Itoa port +:+ ";")) with (Itoa port +:+ ";").
  rewrite span_stop by done. rewrite !(proj2 (Z.leb_le _ _)) by lia. done.
Qed.

Lemma unlines_app a b : unlines (a ++ b) = unlines a +:+ unlines b.
Proof. induction a as [|l a IH]; [done|]. cbn [app unlines foldr]. fold (unlines (a ++ b)) (unlines a). rewrite IH. by rewrite <-string_app_assoc. Qed.

Lemma split_unlines lines : Forall (fun line => newline ∉ chars line) lines -> split newline (unlines lines) = lines ++ [""].
Proof.
  induction 1 as [|line lines Hl _ IH]; [done|]. cbn [unlines foldr]. fold (unlines lines). rewrite split_app_sep by done. by rewrite IH.
Qed.

Lemma occurs_unlines line before after : occurs (with_newline line) (unlines (before ++ line :: after)) = true.
Proof.
  rewrite unlines_app. cbn [unlines foldr]. fold (unlines after). unfold with_newline.
  replace (line +:+ String newline (unlines after)) with ((line +:+ String newline "") +:+ unlines after); [apply occurs_app|].
  by rewrite <-string_app_assoc.
Qed.

(** A text that stands in one line of the configuration. *)
Definition in_line (s : string) : Prop := newline ∉ chars s.

Lemma in_line_app a b : in_line a -> in_line b -> in_line (a +:+ b).
Proof. unfold in_line. rewrite chars_app, elem_of_app. tauto. Qed.

Ltac literal := apply (bool_decide_unpack _); vm_compute; exact I.
Ltac line_parts := repeat apply in_line_app; try assumption; try literal.

Lemma http_config_split owner domain webroot port :
  in_line owner -> in_line domain -> in_line webroot -> 1 <= port <= 65535 ->
  split newline (http_config owner domain webroot port) = head_lines owner domain webroot ++ proxy_lines port ++ [""].
Proof.
  intros Ho Hd Hw Hp. unfold http_config. rewrite split_unlines, <-app_assoc; [done|].
  assert (in_line (Itoa port)) as Hi.
  { intros Hin. destruct (port_digits port Hp) as [Hf _]. rewrite forallb_forall in Hf. apply list_elem_of_In, Hf in Hin. done. }
  unfold head_lines, proxy_lines, owner_line, domain_line, proxy_line, quoted. cbn [app].
  repeat (apply Forall_cons; split; [change (newline ∉ chars ?l) with (in_line l); line_parts|]). constructor.
Qed.

(** The mapping an apply writes has the port it was given. *)
Lemma http_config_port owner domain webroot port :
  in_line owner -> in_line domain -> in_line webroot -> 1 <= port <= 65535 ->
  agentDeployProxyPassPattern (http_config owner domain webroot port) = Some (Itoa port).
Proof.
  intros Ho Hd Hw Hp. unfold agentDeployProxyPassPattern. rewrite http_config_split by done.
  rewrite omap_app. assert (omap proxy_port (head_lines owner domain webroot) = []) as -> by reflexivity.
  cbn [app proxy_lines omap list_omap]. by rewrite proxy_port_line.
Qed.

(** ** Owners and lengths *)

Lemma owner_char_plain ch : owner_char ch = true -> byte ch < 0x80 /\ IsSpace (byte ch) = false /\ ch <> newline.
Proof. destruct ch as [[] [] [] [] [] [] [] []]; vm_compute; intros [=]; by split_and!. Qed.

Lemma target_plain target :
  agentNginxConfigNamePattern target = true -> Forall (fun ch => owner_char ch = true) (chars (agentDeployDomainOwner target)) /\ len target <= 255.
Proof.
  unfold agentNginxConfigNamePattern, class_pattern. destruct target as [|ch rest]; [done|].
  rewrite !andb_true_iff. intros [[Hf Hr] Hl%Z.leb_le]. split; [|unfold len in *; cbn [String.length]; lia].
  unfold agentDeployDomainOwner. rewrite chars_app. apply Forall_app_2; [by repeat constructor|]. cbn [chars].
  apply Forall_cons. split; [unfold owner_char; by rewrite Hf|]. by apply forallb_Forall.
Qed.

Lemma model_owner plan domain port tls :
  agentNginxConfigNamePattern (plan_ID plan) = true ->
  forall owner, projectDomainOwner (domainModel plan domain port tls) = Ok owner -> owner = agentDeployDomainOwner (plan_ID plan).
Proof.
  intros Hp owner. destruct (target_plain _ Hp) as [Hc _]. unfold projectDomainOwner. cbn [dd_RuntimeOwner dd_TargetID domainModel].
  rewrite trim_plain by (eapply Forall_impl; [exact Hc|]; intros ch Hch; destruct (owner_char_plain ch Hch) as (? & ? & _); done).
  rewrite andb_false_r. destruct (negb _); [done|]. by intros [= <-].
Qed.

Lemma owner_in_line target : agentNginxConfigNamePattern target = true -> in_line (agentDeployDomainOwner target).
Proof.
  intros [Hc _]%target_plain Hin. rewrite Forall_forall in Hc. apply Hc in Hin. by apply owner_char_plain in Hin as (_ & _ & ?).
Qed.

Lemma domain_in_line domain : validProjectDomain domain = true -> in_line domain /\ len domain <= 253.
Proof.
  unfold validProjectDomain. destruct (_ || _ || _) eqn:Hg; [done|]. apply orb_false_iff in Hg as [[_ Hl%Z.ltb_ge]%orb_false_iff _].
  cbv zeta. destruct (Nat.ltb _ 2); [done|]. intros Hf. split; [|done]. rewrite <-(join_split "."%char domain). intros Hin.
  assert (forall labels, forallb projectDomainLabelPattern labels = true -> newline ∉ chars (join "."%char labels)) as Hj.
  { clear. intros labels. induction labels as [|label [|next labels] IH]; intros Hf; [by apply not_elem_of_nil|..];
      cbn [forallb] in Hf; apply andb_true_iff in Hf as [Hp Hf]; unfold projectDomainLabelPattern in Hp;
      rewrite !andb_true_iff in Hp; destruct Hp as [[[_ Hc] _] _]; rewrite forallb_forall in Hc;
      assert (newline ∉ chars label) as Hnl by (by intros Hin%list_elem_of_In%Hc).
    - done.
    - change (join "."%char (label :: next :: labels)) with (label +:+ String "."%char (join "."%char (next :: labels))).
      rewrite chars_app, elem_of_app. change (chars (String "."%char ?x)) with ("."%char :: chars x).
      rewrite elem_of_cons. intros [?|[[=]|?]]; [done|]. by apply IH. }
  by apply (Hj _ Hf).
Qed.

Lemma len_unlines lines : len (unlines lines) = foldr (fun line n => len line + 1 + n) 0 lines.
Proof.
  induction lines as [|line lines IH]; [done|]. cbn [unlines foldr]. fold (unlines lines). rewrite len_app.
  change (len (String newline (unlines lines))) with (Z.of_nat (S (String.length (unlines lines)))). unfold len in *. lia.
Qed.

Lemma http_config_len owner domain webroot port :
  1 <= port <= 65535 -> len (http_config owner domain webroot port) <= len owner + 2 * len domain + len webroot + 2000.
Proof.
  intros Hp. destruct (port_digits port Hp) as [_ Hl]. unfold http_config. rewrite len_unlines.
  unfold head_lines, proxy_lines, owner_line, domain_line, proxy_line, quoted. cbn [app foldr]. rewrite !len_app.
  repeat match goal with |- context [len ?s] => lazymatch s with String _ _ => let v := eval vm_compute in (len s) in change (len s) with v end end.
  change (len "") with 0. lia.
Qed.

(** ** What a mapping says *)

Inductive kind : Type := KManaged | KDrift | KForeign.

Definition classify (plan : deployPlanConfig) (targetID domain text : string) (enabled : bool) : kind :=
  if negb (occurs (with_newline (owner_line (agentDeployDomainOwner targetID))) text)
     || negb (occurs (with_newline (domain_line domain)) text) then KForeign
  else
    match agentDeployProxyPassPattern text with
    | None => KDrift
    | Some digits =>
        match Atoi digits with
        | Some port =>
            if (port <? 1) || (65535 <? port) then KDrift
            else if negb (port =? plan_HostPort plan) then KDrift else if negb enabled then KDrift else KManaged
        | None => KDrift
        end
    end.

(** The description of an active mapping. *)
Definition describes_active (plan : deployPlanConfig) (targetID domain text : string) (m : managedDeployDomain) : Prop :=
  mgd_TargetID m = targetID /\ mgd_Domain m = domain /\ mgd_HostPort m = plan_HostPort plan /\ mgd_Status m = "active"
  /\ mgd_Enabled m = true /\ mgd_Revision m = agentDeployDomainRevision text true.

Definition says (plan : deployPlanConfig) (targetID domain text : string) (enabled : bool) (o : observation) : Prop :=
  match o with
  | OAbsent => False
  | OManaged m => classify plan targetID domain text enabled = KManaged /\ enabled = true /\ describes_active plan targetID domain text m
  | ODrift m => classify plan targetID domain text enabled = KDrift
  | OForeign _ => classify plan targetID domain text enabled = KForeign
  end.

Section facts.
Context `{Host} `{LowerTable}.
Context (command : string -> list string -> fs -> result string string -> fs -> Prop).
Context (resolves : string -> string -> Prop).
Context (sort_plans : list deployPlanConfig -> list deployPlanConfig) (decode_error : string -> string).
Context (c : deployDomainController).
Notation wp := (wp command resolves).
Notation reaches := (reaches command resolves).
Notation leaves_files := (leaves_files command resolves).
Notation runtime := (ddc_runtime c).

Definition site_for (domain : string) : site_paths := mkSite (mapping_path c domain) (mapping_link c domain).

(** What the controller relies on of its runtime. *)
Class RuntimeSpec (webroot : string) : Prop := {
  spec_tls_reads d : leaves_files (run_TLSState runtime d);
  spec_apply d owner s0 :
    site_layout (site_for (dd_Domain d)) -> dd_TLSEnabled d = false -> projectDomainOwner d = Ok owner ->
    let text := http_config owner (dd_Domain d) webroot (dd_HostPort d) in
    wp (apply_states (site_for (dd_Domain d)) text s0) (run_Apply runtime d)
      (fun r s => apply_result command resolves (site_for (dd_Domain d)) text s0 r s
         /\ (r = Ok tt -> validProjectDomain (dd_Domain d) = true)) s0;
  spec_apply_invalid d e s0 :
    projectDomainOwner d = Err e ->
    wp (eq s0) (run_Apply runtime d) (fun r s => s = s0 /\ exists text, r = Err (errors_New text)) s0 }.

Context (webroot : string) `{!RuntimeSpec webroot}.

Lemma describe_wp (I : fs -> Prop) (Q : answer observation -> fs -> Prop) plan targetID domain text enabled modified s :
  I s -> (forall o, says plan targetID domain text enabled o -> Q (Ok o) s) ->
  wp I (describe c plan targetID domain text enabled modified) Q s.
Proof.
  intros Hi Hq. unfold describe.
  assert (forall o, says plan targetID domain text enabled o -> wp I (Ret (Ok o)) Q s) as Hr by (intros; apply wp_ret; auto).
  unfold says, classify in *. destruct (negb (occurs _ text) || _); [by apply Hr|].
  destruct (agentDeployProxyPassPattern text) as [digits|]; [|by apply Hr].
  destruct (Atoi digits) as [port|]; [|by apply Hr]. destruct (_ || _); [by apply Hr|].
  apply wp_bind, spec_tls_reads; [done|]. intros state _. destruct (match state with Ok _ => _ | Err _ => _ end) as [[[? ?] ?] ?].
  destruct (port =? plan_HostPort plan) eqn:Hp; cbn [negb]; [apply Z.eqb_eq in Hp; subst port|by apply Hr].
  destruct enabled; cbn [negb]; [|by apply Hr]. apply Hr. by split_and!.
Qed.

(** What an observation says of the files. *)
Definition observed (plan : deployPlanConfig) (targetID domain : string) (s : fs) (r : answer observation) : Prop :=
  let av := mapping_path c domain in
  let en := mapping_link c domain in
  match r with
  | Err _ => True
  | Ok OAbsent => s !! av = None /\ s !! en = None
  | Ok o =>
      (exists m, o = OForeign m /\ forall text perm uid gid, s !! av = Some (File text perm uid gid) -> maxManagedDomainConfigSize < len text)
      \/ exists text perm uid gid enabled, s !! av = Some (File text perm uid gid) /\ (enabled = true <-> s !! en = Some (Link av))
           /\ says plan targetID domain text enabled o
  end.

Lemma exact_link_wp (I : fs -> Prop) (Q : answer bool -> fs -> Prop) link path s :
  I s -> (forall e, Q (Err e) s) -> (forall enabled : bool, (enabled = true <-> s !! link = Some (Link path)) -> Q (Ok enabled) s) ->
  wp I (exactManagedDomainSymlink link path) Q s.
Proof.
  intros Hi He Hok. apply wp_pure; [apply (pure_calls command resolves _ 0 "")|done|]. intros [info|e] [_ Hs].
  - destruct (s !! link) as [n|] eqn:Hn; [|done]. destruct (fi_Symlink info) eqn:Hsym; cbn [negb].
    + apply wp_pure; [by intros s1 b s2 [-> _]|done|]. intros [target|e] [_ Ht]; (apply wp_ret; [done|]); [|done].
      apply Hok. rewrite Hn in Ht. injection Ht as ->. rewrite String.eqb_eq. split; [by intros ->|by intros [= ->]].
    + apply wp_ret; [done|]. apply Hok. split; [done|]. intros [= ->]. destruct Hs as (_ & _ & Hs). congruence.
  - destruct (os_missing e) eqn:Hm; (apply wp_ret; [done|]); [|done]. apply Hok. rewrite Hs by done. done.
Qed.

Lemma observe_wp (I : fs -> Prop) (Q : answer observation -> fs -> Prop) plan targetID domain s :
  I s -> (forall r, observed plan targetID domain s r -> Q r s) -> wp I (observeDomainWithPlan c plan targetID domain) Q s.
Proof.
  intros Hi Hq. assert (forall r, observed plan targetID domain s r -> wp I (Ret r) Q s) as Hr by (intros; apply wp_ret; auto).
  set (av := mapping_path c domain) in *. set (en := mapping_link c domain) in *.
  apply wp_pure; [apply (pure_calls command resolves _ 0 "")|done|]. intros [info|e] [_ Hs].
  - change (mapping_path c domain) with av in Hs. destruct (s !! av) as [n|] eqn:Hn; [|done].
    assert (forall m, (forall text perm uid gid, n = File text perm uid gid -> maxManagedDomainConfigSize < len text) ->
              wp I (Ret (Ok (OForeign m))) Q s) as Hforeign.
    { intros m Hm. apply Hr. left. exists m. split; [done|]. fold av. rewrite Hn. intros text perm uid gid [= ->]. by eapply Hm. }
    destruct (negb (fi_Regular info) || (maxManagedDomainConfigSize <? fi_Size info)) eqn:Hg.
    { apply Hforeign. intros text perm uid gid ->. destruct Hs as (Hreg & _ & Hsz & _). rewrite Hreg, Hsz in Hg. by apply Z.ltb_lt in Hg. }
    apply orb_false_iff in Hg as [Hreg%negb_false_iff _].
    assert (exists text perm uid gid, n = File text perm uid gid) as (text & perm & uid & gid & ->).
    { destruct n as [text perm uid gid| | |]; [by exists text, perm, uid, gid|..]; simpl in Hs; destruct_and!; congruence. }
    apply wp_pure; [by intros s1 b s2 [-> _]|done|]. intros [content|e] [_ Hread]; [|by apply Hr].
    change (mapping_path c domain) with av in Hread. rewrite Hn in Hread. subst content.
    destruct (maxManagedDomainConfigSize <? len text) eqn:Hlen.
    { apply Hforeign. intros ? ? ? ? [= <- <- <- <-]. by apply Z.ltb_lt. }
    apply wp_bind, exact_link_wp; [done|by intros; apply Hr|]. intros enabled Hen. cbn [on_ok].
    apply describe_wp; [done|]. intros o Ho. apply Hq. destruct o; try done;
      (right; exists text, perm, uid, gid, enabled; by split_and!).
  - destruct (os_missing e) eqn:Hm; [|by apply Hr].
    apply wp_pure; [apply (pure_calls command resolves _ 0 "")|done|]. intros [info|e'] [_ Hs'].
    + apply Hr. left. exists None. split; [done|]. intros text perm uid gid Hf. rewrite Hs in Hf by done. done.
    + destruct (os_missing e') eqn:Hm'; apply Hr; [|done]. split; [by apply Hs|by apply Hs'].
Qed.

(** ** The mapping an apply writes *)

Definition webroot_ok : Prop := in_line webroot /\ len webroot <= 4096.

Lemma applied_classified plan targetID domain :
  plan_ID plan = targetID -> agentNginxConfigNamePattern targetID = true -> validProjectDomain domain = true -> webroot_ok ->
  1 <= plan_HostPort plan <= 65535 ->
  let text := http_config (agentDeployDomainOwner targetID) domain webroot (plan_HostPort plan) in
  classify plan targetID domain text true = KManaged /\ len text <= maxManagedDomainConfigSize.
Proof.
  intros Hid Ht Hd [Hw Hwl] Hp text. pose proof (owner_in_line _ Ht) as Ho. destruct (domain_in_line _ Hd) as [Hdl Hdn].
  split.
  - unfold classify. assert (occurs (with_newline (owner_line (agentDeployDomainOwner targetID))) text = true) as ->.
    { apply (occurs_unlines _ ["# Managed by Heyserver project domains. Do not edit manually."]). }
    assert (occurs (with_newline (domain_line domain)) text = true) as ->.
    { apply (occurs_unlines _ ["# Managed by Heyserver project domains. Do not edit manually."; owner_line (agentDeployDomainOwner targetID)]). }
    cbn [negb orb]. unfold text. rewrite http_config_port by done. unfold Atoi. rewrite ParseInt_Itoa by (unfold min_int64, max_int64; lia).
    rewrite (proj2 (Z.ltb_ge _ _)), (proj2 (Z.ltb_ge 65535 _)), Z.eqb_refl by lia. done.
  - pose proof (http_config_len (agentDeployDomainOwner targetID) domain webroot (plan_HostPort plan) Hp).
    destruct (target_plain _ Ht) as [_ Hl]. unfold text.
    assert (len (agentDeployDomainOwner targetID) = 6 + len targetID) by apply len_app.
    change maxManagedDomainConfigSize with 131072. lia.
Qed.

(** ** The plan of a target *)

Lemma configuredTarget_wp (I : fs -> Prop) (Q : answer deployPlanConfig -> fs -> Prop) targetID s :
  I s -> (forall e, Q (Err e) s) ->
  (forall plan, plan_ID plan = targetID -> 1 <= plan_HostPort plan <= 65535 -> Q (Ok plan) s) ->
  wp I (configuredTarget sort_plans decode_error c targetID) Q s.
Proof.
  intros Hi He Hok.
  assert (forall r, wp I (on_ok (fun plans => Ret (match find (fun plan => plan_ID plan =?s targetID) plans with
       | None => Err (errors_New "deploy target is not configured locally")
       | Some plan => if (plan_HostPort plan <? 1) || (65535 <? plan_HostPort plan)
           then Err (errors_New "deploy target has no locally configured host_port") else Ok plan end)) r) Q s) as Hk.
  { intros [plans|e]; [|by apply wp_ret]. apply wp_ret; [done|]. destruct (find _ plans) as [plan|] eqn:Hf; [|done].
    apply find_some in Hf as [_ Hf%String.eqb_eq]. destruct (_ || _) eqn:Hg; [done|].
    apply orb_false_iff in Hg as [H1%Z.ltb_ge H2%Z.ltb_ge]. by apply Hok. }
  apply wp_bind, wp_pure; [by intros s1 b s2 ->|done|]. intros [[]|e] _; [|by apply wp_ret].
  apply wp_pure; [by intros s1 b s2 [-> _]|done|]. intros [text|e] _; by apply wp_ret.
Qed.

(** ** Ensuring *)

Section ensuring.
Context (targetID domain expected : string) (s0 : fs).
Context (Ht : agentNginxConfigNamePattern targetID = true) (Hw : webroot_ok) (Hlay : site_layout (site_for domain)).
Notation av := (mapping_path c domain).
Notation en := (mapping_link c domain).
Notation text_of port := (http_config (agentDeployDomainOwner targetID) domain webroot port).

Definition ensure_states (s : fs) : Prop :=
  s = s0 \/ exists port, 1 <= port <= 65535 /\ apply_states (site_for domain) (text_of port) s0 s.

(** The mapping in the files, and what is said of it. *)
Definition shown_mapping (m : managedDeployDomain) (s : fs) : Prop :=
  exists text perm uid gid, s !! av = Some (File text perm uid gid) /\ s !! en = Some (Link av)
    /\ mgd_TargetID m = targetID /\ mgd_Domain m = domain /\ mgd_Status m = "active" /\ mgd_Enabled m = true
    /\ mgd_Revision m = agentDeployDomainRevision text true.

Definition ensure_result (r : answer managedDeployDomainEnsureReceipt) (s : fs) : Prop :=
  s0 ⊆ s /\
  match r with
  | Ok receipt =>
      shown_mapping (rcp_Observation receipt) s
      /\ if rcp_Changed receipt
         then expected = "absent" /\ s0 !! av = None /\ s0 !! en = None
              /\ mapped (site_for domain) (text_of (mgd_HostPort (rcp_Observation receipt))) s /\ reloaded command resolves s
         else s = s0 /\ expected = mgd_Revision (rcp_Observation receipt)
  | Err e =>
      unmapped (site_for domain) s0 s
      \/ e = domain_cleanup /\ faulty
      \/ e = domain_observation /\ exists port, mapped (site_for domain) (text_of port) s /\ reloaded command resolves s
  end.

Let I : fs -> Prop := ensure_states.
Let Q : answer managedDeployDomainEnsureReceipt -> fs -> Prop := ensure_result.

Lemma ensure_stops e : wp I (Ret (Err e)) Q s0.
Proof. apply wp_ret; [by left|]. split; [done|]. by left. Qed.

(** After the apply the mapping is observed again. *)
Lemma after_apply_wp plan s :
  plan_ID plan = targetID -> 1 <= plan_HostPort plan <= 65535 -> validProjectDomain domain = true -> expected = "absent" ->
  apply_result command resolves (site_for domain) (text_of (plan_HostPort plan)) s0 (Ok tt) s ->
  wp I (do! after := observeDomainWithPlan c plan targetID domain in Ret (applied after)) Q s.
Proof.
  intros Hid Hp Hd He (Hs & Ha & Hn & Hm & Hr). cbn in Ha, Hn.
  destruct (applied_classified plan targetID domain Hid Ht Hd Hw Hp) as [Hc Hl]. cbv zeta in Hc, Hl.
  pose proof Hm as [(uid & gid & Hf) Hlink]. cbn in Hf, Hlink.
  assert (I s) as Hi.
  { right. exists (plan_HostPort plan). split; [done|]. split_and!; [done|..]; right; cbn; eauto. }
  apply wp_bind, observe_wp; [done|]. intros r Ho. apply wp_ret; [done|].
  assert (forall text perm uid gid, s !! av = Some (File text perm uid gid) -> text = text_of (plan_HostPort plan)) as Htext.
  { intros text perm u g E. rewrite Hf in E. by injection E. }
  destruct r as [o|e]; [|split; [done|]; right; right; eauto]. cbn [observed] in Ho.
  assert (o <> OAbsent) as Hna by (intros ->; destruct Ho; congruence).
  assert (exists enabled, (enabled = true <-> s !! en = Some (Link av))
            /\ says plan targetID domain (text_of (plan_HostPort plan)) enabled o) as (enabled & Hen & Hsays).
  { destruct o as [|m|m|m]; [done|..]; (destruct Ho as [(m' & E & Hbig)|(text & perm & u & g & enabled & Hfile & Hen & Hsays)];
      [try done; apply Hbig, Z.lt_nge in Hf; by destruct Hf|apply Htext in Hfile as ->; eauto]). }
  assert (enabled = true) as -> by (by apply Hen).
  destruct o as [|m|m|m]; [done|..]; cbn [says] in Hsays; [|congruence..].
  destruct Hsays as (_ & _ & Hact). pose proof Hact as (H1 & H2 & H3 & H4 & H5 & H6). cbn [applied]. rewrite H4, H5. cbn.
  split; [done|]. cbn [rcp_Changed rcp_Observation]. rewrite H3. split; [|by split_and!]. eexists _, _, _, _. by split_and!.
Qed.

(** A domain that is absent is applied. *)
Lemma apply_absent_wp plan :
  plan_ID plan = targetID -> 1 <= plan_HostPort plan <= 65535 -> expected = "absent" ->
  wp I (run_Apply runtime (domainModel plan domain (plan_HostPort plan) false))
    (fun r s => wp I (match r with
       | Err e => Ret (Err (if errors_Is e ErrProjectDomainCleanup then domain_cleanup else domain_operation))
       | Ok _ => do! after := observeDomainWithPlan c plan targetID domain in Ret (applied after)
       end) Q s) s0.
Proof.
  intros Hid Hp He. set (d := domainModel plan domain (plan_HostPort plan) false).
  destruct (projectDomainOwner d) as [owner|e] eqn:Ho.
  - assert (owner = agentDeployDomainOwner targetID) as ->.
    { rewrite <-Hid. eapply model_owner; [by rewrite Hid|exact Ho]. }
    pose proof (spec_apply d _ s0 Hlay eq_refl Ho) as Ha. cbn [d domainModel dd_Domain dd_HostPort] in Ha.
    eapply wp_mono; [exact Ha|intros s Hs; right; eauto|]. intros [[]|e] s Hi [Hr Hd].
    + apply after_apply_wp; auto.
    + destruct Hr as [Hs Hr]. apply wp_ret; [right; eauto|]. split; [done|].
      destruct Hr as [Hu|[-> Hf]]; [by left|]. by right; left.
  - eapply wp_mono; [by apply (spec_apply_invalid d e s0)|intros s <-; by left|]. intros r s _ [-> [text ->]]. apply ensure_stops.
Qed.
End ensuring.

Lemma Ensure_wp targetID rawDomain expected s0 :
  agentNginxConfigNamePattern targetID = true -> webroot_ok ->
  (forall domain, normalizeAgentDeployDomain rawDomain = Ok domain -> site_layout (site_for domain)) ->
  wp (fun s => s = s0 \/ exists domain, normalizeAgentDeployDomain rawDomain = Ok domain /\ ensure_states targetID domain s0 s)
    (Ensure sort_plans decode_error c targetID rawDomain expected)
    (fun r s => (s = s0 /\ exists e, r = Err e)
       \/ exists domain, normalizeAgentDeployDomain rawDomain = Ok domain /\ ensure_result targetID domain expected s0 r s) s0.
Proof.
  intros Ht Hw Hlay. unfold Ensure.
  assert (forall (I : fs -> Prop) (Q : answer managedDeployDomainEnsureReceipt -> fs -> Prop) e, I s0 -> Q (Err e) s0 -> wp I (Ret (Err e)) Q s0) as Hr
    by (intros; by apply wp_ret).
  destruct (negb (ddc_allowActions c)); [apply Hr; eauto|].
  destruct (normalizeAgentDeployDomain rawDomain) as [domain|e] eqn:Hd; [|apply Hr; eauto].
  destruct (negb (validAgentDeployDomainRevision expected)); [apply Hr; eauto|].
  specialize (Hlay domain eq_refl). eapply wp_mono; [|intros s Hs; right; exists domain; split; [done|exact Hs]|intros r s _ Hs; right; exists domain; split; [done|exact Hs]].
  set (I := ensure_states targetID domain s0). assert (I s0) as Hi by (by left).
  pose proof (ensure_stops targetID domain expected s0) as Hstop.
  apply wp_bind, configuredTarget_wp; [done|done|]. intros plan Hid Hp.
  apply wp_bind, observe_wp; [done|]. intros [o|e] Ho; [|done]. cbn [observed] in Ho.
  destruct o as [|m|m|m]; [|destruct Ho as [(? & [=] & _)|(text & perm & u & g & enabled & Hf & Hen & _ & -> & Hact)]| |done].
  - destruct (String.eqb_spec expected "absent") as [->|]; cbn [negb]; [|done].
    apply wp_bind. by apply apply_absent_wp.
  - destruct Hact as (H1 & H2 & H3 & H4 & H5 & H6).
    destruct (String.eqb_spec (mgd_Revision m) expected) as [He|]; cbn [negb]; [|done]. rewrite H4, H5.
    apply wp_ret; [done|]. split; [done|]. split; [|by split]. exists text, perm, u, g. split_and!; try done. by apply Hen.
  - destruct (_ && _); done.
Qed.
End facts.

(** ** Project domains, their properties

    The controller [main] builds: project domains over the Nginx runtime, on the
    same directories of sites.  Commands are assumed to leave the files. *)

(** The controller of an agent, by the directories and the web root it is given. *)
Definition project_domains `{X509} (plansPath : string) (runtime : NginxProjectDomainRuntime) (allowRead allowActions : bool)
    : deployDomainController :=
  newDeployDomainController plansPath (nginx_runtime runtime) allowRead allowActions (rt_sitesAvailable runtime)
    (rt_sitesEnabled runtime).

(** Directories as the runtime keeps them: clean, and named. *)
Definition clean_sites (runtime : NginxProjectDomainRuntime) : Prop :=
  Clean (rt_sitesAvailable runtime) = rt_sitesAvailable runtime /\ Clean (rt_sitesEnabled runtime) = rt_sitesEnabled runtime
  /\ TrimSpace (rt_sitesEnabled runtime) <> "".

Section interface.
Context `{Host} `{X509}.
Context (command : string -> list string -> fs -> result string string -> fs -> Prop).
Context (resolves : string -> string -> Prop) (Hc : leaves_managed_files command).
Context (plansPath : string) (runtime : NginxProjectDomainRuntime) (allowRead allowActions : bool).
Context (Hs : clean_sites runtime).
Notation c := (project_domains plansPath runtime allowRead allowActions).

Lemma same_site d : site_for c (dd_Domain d) = site_of runtime d.
Proof.
  destruct Hs as (Ha & He & Hn). unfold site_for, mapping_path, mapping_link, site_of, availablePath, enabledPath, filename.
  unfold project_domains, newDeployDomainController. cbn [ddc_sitesAvailable ddc_sitesEnabled].
  rewrite (proj2 (String.eqb_neq _ _)) by done. by rewrite Ha, He.
Qed.

(** The Nginx runtime keeps what the controller relies on. *)
#[local] Instance nginx_runtime_spec : RuntimeSpec command resolves c (rt_acmeWebroot runtime).
Proof.
  constructor.
  - intros d. by apply TLSState_leaves.
  - intros d owner s0 Hl Ht Ho. cbv zeta. rewrite same_site in Hl |- *.
    pose proof (Apply_wp command resolves Hc runtime d owner s0 Hl Ho) as Ha. unfold config_text in Ha. by rewrite Ht in Ha.
  - intros d e s0 Ho. by apply (Apply_invalid_wp command resolves runtime d e).
Qed.
End interface.

(** ** A host with one deploy target *)

#[local] Instance no_x509 : X509 := {| pem_Decode _ := None; ParseCertificate _ := Err ""; VerifyHostname _ _ := None |}.
#[local] Instance ascii_table : LowerTable := fun r => r.
#[local] Existing Instance no_faults.

Definition shop_runtime : NginxProjectDomainRuntime :=
  NewNginxProjectDomainRuntimeWithCertbotStorage "/etc/nginx/sites-available" "/etc/nginx/sites-enabled" "" "" "" "" "".

Definition shop_plans : string :=
  "{" +:+ quoted "plans" +:+ ":[{" +:+ quoted "id" +:+ ":" +:+ quoted "shop" +:+ "," +:+ quoted "name" +:+ ":"
  +:+ quoted "Shop" +:+ "," +:+ quoted "path" +:+ ":" +:+ quoted "/srv/shop" +:+ "," +:+ quoted "host_port" +:+ ":3000,"
  +:+ quoted "actions" +:+ ":{" +:+ quoted "deploy" +:+ ":{" +:+ quoted "command" +:+ ":" +:+ quoted "/srv/shop/deploy" +:+ "}}}]}".

Definition shop_files : fs :=
  {["/etc/nginx/sites-available" := Directory; "/etc/nginx/sites-enabled" := Directory;
    "/etc/hserver/deploy.json" := File shop_plans 384 0 0]}.

Notation shop_domains := (project_domains "/etc/hserver/deploy.json" shop_runtime true true).
Notation ensuring := (Ensure (fun plans => plans) (fun _ => "") shop_domains "shop" "shop.example.com" "absent").

(** A host where Nginx accepts everything, and one where it refuses. *)
Notation ensured := (sample_run ensuring shop_files).
Notation unensured := (run_on refusing [] 0 ensuring shop_files).

Definition shop_text : string := http_config "agent-shop" "shop.example.com" "/var/www/hserver-acme" 3000.

Notation shop_path := "/etc/nginx/sites-available/shop.example.com.conf".

Example ensured_mapping : ensured.2 !! shop_path = Some (File shop_text 420 0 0).
Proof. vm_compute. reflexivity. Qed.

Lemma unensured_reaches : reaches (command_of refusing) eq ensuring shop_files (Ret unensured.1) unensured.2.
Proof. apply (run_on_reaches refusing [] 0), surjective_pairing. Qed.

Lemma shop_layout domain : normalizeAgentDeployDomain "shop.example.com" = Ok domain -> site_layout (site_for shop_domains domain).
Proof. intros [= <-]. by split; vm_compute. Qed.

(** ** Claims *)

(** C17. An ensure of a project domain never changes or removes a file that was
    there, wherever it stops.  A success without change means that the mapping
    is there with the expected revision; one with a change, that no mapping was
    there, that none was expected, and that the complete mapping of the plan is
    enabled and Nginx reloaded with it; the receipt describes it.  After an
    error there is no mapping that was not there, unless the error is the one
    that names a failed clean-up on a faulty host, or the applied mapping could
    not be observed; a mapping just applied is never taken for drift or for
    another's. *)
Theorem ensure_safe `{Host} `{X509} `{LowerTable} command resolves sort_plans decode_error plansPath runtime allowRead allowActions
    targetID rawDomain expected s0 p s :
  let c := project_domains plansPath runtime allowRead allowActions in
  leaves_managed_files command -> clean_sites runtime -> webroot_ok (rt_acmeWebroot runtime) ->
  agentNginxConfigNamePattern targetID = true ->
  (forall domain, normalizeAgentDeployDomain rawDomain = Ok domain -> site_layout (site_for c domain)) ->
  reaches command resolves (Ensure sort_plans decode_error c targetID rawDomain expected) s0 p s ->
  s0 ⊆ s
  /\ forall r, p = Ret r ->
       (s = s0 /\ exists e, r = Err e)
       \/ exists domain, normalizeAgentDeployDomain rawDomain = Ok domain
            /\ ensure_result command resolves c (rt_acmeWebroot runtime) targetID domain expected s0 r s.
Proof.
  intros c Hc Hs Hw Ht Hl Hr.
  pose proof (nginx_runtime_spec command resolves Hc plansPath runtime allowRead allowActions Hs) as Hspec.
  destruct (wp_sound _ _ _ _ _ _ _ _
    (Ensure_wp command resolves sort_plans decode_error c (rt_acmeWebroot runtime) targetID rawDomain expected s0 Ht Hw Hl) Hr) as [Hi Hq].
  split; [|exact Hq]. destruct Hi as [->|(domain & _ & [->|(port & _ & Ha)])]; [done..|]. apply Ha.
Qed.

(** ** Witness *)

Lemma ensure_safe_witness :
  unensured.1 = Err domain_operation /\ unensured.2 !! shop_path = None
  /\ shop_files ⊆ unensured.2
  /\ forall r, @Ret sys _ unensured.1 = Ret r ->
       (unensured.2 = shop_files /\ exists e, r = Err e)
       \/ exists domain, normalizeAgentDeployDomain "shop.example.com" = Ok domain
            /\ ensure_result (command_of refusing) eq shop_domains "/var/www/hserver-acme" "shop" domain "absent" shop_files r unensured.2.
Proof.
  split; [vm_compute; reflexivity|]. split; [vm_compute; reflexivity|].
  apply (ensure_safe (command_of refusing) eq (fun plans => plans) (fun _ => "") "/etc/hserver/deploy.json" shop_runtime true true
           "shop" "shop.example.com" "absent" shop_files (Ret unensured.1)).
  - exact refusing_leaves.
  - vm_compute. split; [reflexivity|]. split; [reflexivity|discriminate].
  - split; [apply (bool_decide_unpack _); vm_compute; exact I|vm_compute; discriminate].
  - vm_compute. reflexivity.
  - exact shop_layout.
  - exact unensured_reaches.
Defined.
