(* ===== verification/AgentCron.v ===== *)
(** * Cron jobs of a host: [cron.go] of [cmd/hserver-agent]

    The jobs are kept in a state file, as JSON, and rendered into a file of
    [/etc/cron.d].  A change is guarded by the revision the panel saw, the
    digest of the jobs; it replaces the cron file, then the state file.  A mutex
    and a lock file serialise the changes. *)

From stdpp Require Import base strings gmap list sorting.
From Stdlib Require Import ZArith Lia Ascii.
From S2P Require Import Prelude GoStrings GoJson GoTime GoSha256 HubTypes TaskGate AgentConfig AgentTasks AgentFirewall HostFiles.
Local Open Scope Z_scope.
Local Open Scope hub_scope.

Definition maxCronJobs : nat := 256.

Definition cron_changed : error := mkError "cron jobs changed on the server" [errCronChanged].
Definition cron_not_found : error := mkError "cron job was not found" [errCronNotFound].
Definition cron_invalid : error := mkError "cron job is invalid" [errCronInvalid].
Definition cron_user_unknown : error := mkError "cron job is invalid: user does not exist" [errCronInvalid].
Definition cron_syntax : error := mkError "cron job is invalid: cron syntax test failed" [errCronInvalid].

Record cronSource : Type := mkCronSource { src_Path : string; src_EntryCount : Z; src_Managed : bool }.

(** A slice of jobs; [None] is the nil slice. *)
Definition cron_jobs : Type := option (list cronTaskJob).
Definition jobs_of (jobs : cron_jobs) : list cronTaskJob := default [] jobs.

Record cronInventory : Type := mkCronInventory {
  inv_Service : string; inv_Jobs : cron_jobs; inv_Sources : list cronSource; inv_Revision : string }.

Record cronController : Type := mkCron {
  crn_allowRead : bool; crn_allowWrite : bool; crn_allowRun : bool;
  crn_statePath : string; crn_cronPath : string; crn_lockPath : string;
  crn_crontabBinary : string; crn_runuserBinary : string; crn_shell : string; crn_service : string }.

Definition newCronController (allowRead allowWrite allowRun : bool)
    (statePath cronPath lockPath crontabBinary runuserBinary shell service : string) : cronController :=
  mkCron allowRead allowWrite allowRun statePath cronPath lockPath crontabBinary runuserBinary shell service.

(** ** Jobs *)

(** [hex.DecodeString] succeeds. *)
Definition any_hex_digit (c : ascii) : bool := match hex_value c with Some _ => true | None => false end.
Definition decodes_hex (s : string) : bool := Nat.even (String.length s) && forallb any_hex_digit (chars s).

Definition validAgentCronID (value : string) : bool :=
  if negb (len value =? 17) || negb (HasPrefix value "cron-") then false else decodes_hex (sdrop 5 value).

(** [^[a-z_][a-z0-9_-]{0,31}$] *)
Definition user_head (c : ascii) : bool := in_range 97 122 c || (byte c =? 95).
Definition user_char (c : ascii) : bool := user_head c || in_range 48 57 c || (byte c =? 45).
Definition agentSystemUserPattern (value : string) : bool :=
  match chars value with c :: cs => user_head c && forallb user_char cs && Nat.leb (length cs) 31 | [] => false end.

(** The checks of the fields alone. *)
Definition cron_fields_ok (job : cronTaskJob) (requireID : bool) : bool :=
  negb ((requireID && negb (validAgentCronID (cron_ID job))) || (negb requireID && negb (cron_ID job =?s ""))
        || negb (agentSystemUserPattern (cron_User job))
        || (len (cron_Command job) =? 0) || (4096 <? len (cron_Command job)) || ContainsAny (cron_Command job) line_breaks
        || (160 <? len (cron_Description job)) || ContainsAny (cron_Description job) line_breaks
        || (160 <? len (cron_Schedule job)) || ContainsAny (cron_Schedule job) line_breaks
        || negb (FieldsCount (cron_Schedule job) =? 5)).

Definition validateCronJob (job : cronTaskJob) (requireID : bool) : prog sys (answer unit) :=
  if negb (cron_fields_ok job requireID) then Ret (Err cron_invalid)
  else Call (LookupUser (cron_User job)) (fun found : bool => if found then Ret (Ok tt) else Ret (Err cron_user_unknown)).

Fixpoint validate_all (jobs : list cronTaskJob) : prog sys (answer unit) :=
  match jobs with
  | [] => Ret (Ok tt)
  | job :: rest => try! _ := validateCronJob job true in validate_all rest
  end.

Definition newCronID : prog sys (answer string) :=
  Call (RandomBytes 6) (fun r =>
    match r with Err e => Ret (Err (os_fail e)) | Ok raw => Ret (Ok ("cron-" +:+ hex_encode raw)) end).

(** ** The texts of the jobs *)

Definition job_json (job : cronTaskJob) : json :=
  JObj ([("id", jstr (cron_ID job)); ("schedule", jstr (cron_Schedule job)); ("user", jstr (cron_User job));
         ("command", jstr (cron_Command job))]
        ++ (if cron_Description job =?s "" then [] else [("description", jstr (cron_Description job))])
        ++ [("enabled", JBool (cron_Enabled job))]).

Definition jobs_json (jobs : cron_jobs) : json :=
  match jobs with Some l => JArr (job_json <$> l) | None => JNull end.

Definition cronRevision (jobs : cron_jobs) : string := sha256_hex (marshal (jobs_json jobs)).

(** [json.MarshalIndent(v, "", "  ")]: each element and member on its own line. *)
Definition margin (depth : nat) : string := String newline (String.string_of_list_ascii (repeat " "%char (2 * depth))).

Fixpoint marshal_indent (depth : nat) (j : json) : string :=
  match j with
  | JArr ((_ :: _) as l) =>
      String lbrack (join comma ((fun e => margin (S depth) +:+ marshal_indent (S depth) e) <$> l)
                     +:+ margin depth +:+ String rbrack "")
  | JObj ((_ :: _) as m) =>
      String lbrace (join comma ((fun kv => margin (S depth) +:+ quote kv.1 +:+ String colon (String " "%char (marshal_indent (S depth) kv.2))) <$> m)
                     +:+ margin depth +:+ String rbrace "")
  | _ => marshal j
  end.

Definition state_text (jobs : cron_jobs) : string := marshal_indent 0 (jobs_json jobs) +:+ String newline "".

(** [json.Unmarshal(content, &jobs)] *)
Definition zero_job : cronTaskJob := mkCronTaskJob "" "" "" "" "" false.

Definition decode_jobs (content : string) : option cron_jobs :=
  match unmarshal content with
  | Some JNull => Some None
  | Some (JArr l) => (fun jobs => Some jobs) <$> mapM (fun j => decode_struct false cron_fields j zero_job) l
  | _ => None
  end.

Definition line_end (s : string) : string := s +:+ String newline "".

Definition job_line (job : cronTaskJob) : string := cron_Schedule job +:+ " " +:+ cron_User job +:+ " " +:+ cron_Command job.

Definition job_text (job : cronTaskJob) : string :=
  String newline "# HSERVER " +:+ cron_ID job
  +:+ line_end (if cron_Description job =?s "" then "" else " - " +:+ cron_Description job)
  +:+ line_end (if cron_Enabled job then job_line job else "# DISABLED " +:+ job_line job).

Definition renderCronJobs (jobs : list cronTaskJob) (shell : string) : string :=
  line_end "# Managed by Heyserver. Changes outside Heyserver will be replaced."
  +:+ line_end ("SHELL=" +:+ shell)
  +:+ line_end "PATH=/usr/local/sbin:/usr/local/bin:/usr/sbin:/usr/bin:/sbin:/bin"
  +:+ foldr (fun job text => job_text job +:+ text) "" jobs.

(** ** Files *)

(** The previous content, if there was a file. *)
Definition backupCronFile (path backupDir : string) : prog sys (answer (option string)) :=
  do! r := readManagedFile path in
  match r with
  | Err e => if fe_missing e then Ret (Ok None) else Ret (Err (fe_error e))
  | Ok (_, content, _) =>
      Call TimeNow (fun now =>
        checking (WriteFile (Join [backupDir; Base path +:+ ".backup-" +:+ compact_stamp now]) content 384)
          (fun _ => Ret (Ok (Some content))))
  end.

(** The temporary file is always removed, which does nothing after the rename. *)
Definition unlink {A} (path : string) (r : answer A) : prog sys (answer A) := Call (Remove path) (fun _ => Ret r).

Definition close_unlink {A} (path : string) (e : os_error) : prog sys (answer A) :=
  Call (Close path) (fun _ => unlink path (Err (os_fail e))).

Definition writing {A B} (path : string) (o : sys (result os_error B)) (k : prog sys (answer A)) : prog sys (answer A) :=
  Call o (fun r => match r with Err e => close_unlink path e | Ok _ => k end).

Definition atomicCronWrite (path content : string) (mode : Z) : prog sys (answer unit) :=
  checking (CreateTemp (Dir path) ".hserver-cron-" "") (fun temporary =>
    writing temporary (Chmod temporary mode) (writing temporary (WriteAll temporary content) (writing temporary (Sync temporary)
      (Call (Close temporary) (fun closed =>
         match closed with
         | Err e => unlink temporary (Err (os_fail e))
         | Ok _ =>
             Call (Rename temporary path) (fun renamed =>
               unlink temporary (match renamed with Err e => Err (os_fail e) | Ok _ => Ok tt end))
         end))))).

Definition restoreCronFile (path : string) (previous : option string) (mode : Z) : prog sys (answer unit) :=
  match previous with
  | None => checking (Remove path) (fun _ => Ret (Ok tt))
  | Some content => atomicCronWrite path content mode
  end.

(** ** The controller *)

Section controller.
(** [newest_first] is what [sort.Slice] makes of the backups, whose order is
    open for backups of the same age; [TempDir] is [os.TempDir()]. *)
Context (c : cronController) (TempDir : string) (newest_first : list (string * time) -> list (string * time)).

Definition loadJobs : prog sys (answer cron_jobs) :=
  do! r := readManagedFile (crn_statePath c) in
  match r with
  | Err e => if fe_missing e then Ret (Ok (Some [])) else Ret (Err (fe_error e))
  | Ok (_, content, _) =>
      if maxCronStateBytes <? len content then Ret (Err (errors_New "cron state exceeds the size limit"))
      else
        match decode_jobs content with
        | Some jobs =>
            if Nat.ltb maxCronJobs (length (jobs_of jobs)) then Ret (Err (errors_New "cron state is invalid"))
            else try! _ := validate_all (jobs_of jobs) in Ret (Ok jobs)
        | None => Ret (Err (errors_New "cron state is invalid"))
        end
  end.

(** The lines of the test file are written one by one. *)
Fixpoint write_lines {A} (path : string) (jobs : list cronTaskJob) (k : prog sys (answer A)) : prog sys (answer A) :=
  match jobs with
  | [] => k
  | job :: rest =>
      if cron_Enabled job
      then writing path (WriteAll path (line_end (cron_Schedule job +:+ " " +:+ cron_Command job))) (write_lines path rest k)
      else write_lines path rest k
  end.

Definition validateRendered (jobs : list cronTaskJob) : prog sys (answer unit) :=
  checking (CreateTemp TempDir ".hserver-cron-check-" "") (fun path =>
    write_lines path jobs
      (Call (Close path) (fun closed =>
         match closed with
         | Err e => unlink path (Err (os_fail e))
         | Ok _ =>
             do! r := run_command (crn_crontabBinary c) ["-n"; path] in
             unlink path (match r with Err _ => Err cron_syntax | Ok _ => Ok tt end)
         end))).

Definition backup_item (directory : string) (entry : DirEntry) : option (string * time) :=
  match de_Info entry with
  | Ok info => if fi_Regular info then Some (Join [directory; de_Name entry], fi_ModTime info) else None
  | Err _ => None
  end.

Fixpoint remove_all (paths : list string) : prog sys unit :=
  match paths with
  | [] => Ret tt
  | path :: rest => Call (Remove path) (fun _ => remove_all rest)
  end.

Definition pruneCronBackups (directory : string) (keep : nat) : prog sys unit :=
  Call (ReadDir directory) (fun r : result os_error (list DirEntry) =>
    match r with
    | Err _ => Ret tt
    | Ok entries =>
        let items := newest_first (omap (backup_item directory) entries) in
        if Nat.leb (length items) keep then Ret tt else remove_all (fst <$> drop keep items)
    end).

Definition backup_dir : string := Join [Dir (crn_statePath c); "backups"; "cron"].

Definition saveJobs (jobs : cron_jobs) : prog sys (answer unit) :=
  let state := state_text jobs in
  let cron := renderCronJobs (jobs_of jobs) (crn_shell c) in
  try! _ := validateRendered (jobs_of jobs) in
  checking (MkdirAll (Dir (crn_statePath c)) 448) (fun _ =>
  checking (MkdirAll (Dir (crn_cronPath c)) 493) (fun _ =>
  checking (MkdirAll backup_dir 448) (fun _ =>
    try! _ := backupCronFile (crn_statePath c) backup_dir in
    try! previousCron := backupCronFile (crn_cronPath c) backup_dir in
    try! _ := atomicCronWrite (crn_cronPath c) cron 420 in
    do! saved := atomicCronWrite (crn_statePath c) state 384 in
    match saved with
    | Err e => do! _ := restoreCronFile (crn_cronPath c) previousCron 420 in Ret (Err e)
    | Ok _ => do! _ := pruneCronBackups backup_dir 20 in Ret (Ok tt)
    end))).

Definition mutate (expectedRevision : string) (apply : cron_jobs -> answer cron_jobs) : prog sys (answer unit) :=
  if negb (agentSHA256Pattern expectedRevision) then Ret (Err cron_changed)
  else
    checking (MkdirAll (Dir (crn_lockPath c)) 493) (fun _ =>
    checking (OpenCreate (crn_lockPath c) 384) (fun _ =>
    checking (LockFile (crn_lockPath c)) (fun _ =>
      try! jobs := loadJobs in
      if negb (cronRevision jobs =?s expectedRevision) then Ret (Err cron_changed)
      else
        match apply jobs with
        | Err e => Ret (Err e)
        | Ok jobs' =>
            if Nat.ltb maxCronJobs (length (jobs_of jobs')) then Ret (Err cron_invalid)
            else try! _ := validate_all (jobs_of jobs') in saveJobs jobs'
        end))).

(** The changes [mutate] applies. *)
Definition apply_create (job : cronTaskJob) (jobs : cron_jobs) : answer cron_jobs := Ok (Some (jobs_of jobs ++ [job])).

Fixpoint update_in (job : cronTaskJob) (jobs : list cronTaskJob) : option (list cronTaskJob) :=
  match jobs with
  | [] => None
  | j :: rest => if cron_ID j =?s cron_ID job then Some (job :: rest) else cons j <$> update_in job rest
  end.

Fixpoint delete_in (id : string) (jobs : list cronTaskJob) : option (list cronTaskJob) :=
  match jobs with
  | [] => None
  | j :: rest => if cron_ID j =?s id then Some rest else cons j <$> delete_in id rest
  end.

Definition found (jobs : option (list cronTaskJob)) : answer cron_jobs :=
  match jobs with Some l => Ok (Some l) | None => Err cron_not_found end.

Definition Create (job : cronTaskJob) (expectedRevision : string) : prog sys (answer string) :=
  if negb (crn_allowWrite c) then Ret (Err (errors_New "cron writing is not enabled locally"))
  else
    let job := mkCronTaskJob "" (cron_Schedule job) (cron_User job) (cron_Command job) (cron_Description job) (cron_Enabled job) in
    try! _ := validateCronJob job false in
    try! id := newCronID in
    let job := mkCronTaskJob id (cron_Schedule job) (cron_User job) (cron_Command job) (cron_Description job) (cron_Enabled job) in
    try! _ := mutate expectedRevision (apply_create job) in Ret (Ok id).

Definition Update (job : cronTaskJob) (expectedRevision : string) : prog sys (answer unit) :=
  if negb (crn_allowWrite c) then Ret (Err (errors_New "cron writing is not enabled locally"))
  else
    try! _ := validateCronJob job true in
    mutate expectedRevision (fun jobs => found (update_in job (jobs_of jobs))).

Definition Delete (id expectedRevision : string) : prog sys (answer unit) :=
  if negb (crn_allowWrite c) then Ret (Err (errors_New "cron writing is not enabled locally"))
  else if negb (validAgentCronID id) then Ret (Err cron_invalid)
  else mutate expectedRevision (fun jobs => found (delete_in id (jobs_of jobs))).

Definition Run (id : string) : prog sys (answer string) :=
  if negb (crn_allowRun c) then Ret (Err (errors_New "manual cron execution is not enabled locally"))
  else if negb (validAgentCronID id) then Ret (Err cron_invalid)
  else
    try! jobs := loadJobs in
    match find (fun job => cron_ID job =?s id) (jobs_of jobs) with
    | None => Ret (Err cron_not_found)
    | Some job =>
        do! r := run_command (crn_runuserBinary c) ["-u"; cron_User job; "--"; crn_shell c; "-lc"; cron_Command job] in
        match r with
        | Err text => Ret (Err (errors_New ("cron job failed: " +:+ text)))
        | Ok output => Ret (Ok output)
        end
    end.

(** ** The inventory *)

(** The lines of a file that run something. *)
Definition cron_entry (raw : string) : bool :=
  let line := TrimSpace raw in
  negb (line =?s "") && negb (HasPrefix line "#")
  && match Fields line with first :: _ => negb (occurs "=" first) | [] => false end.

Definition crontab_entry (raw : string) : bool :=
  let line := TrimSpace raw in negb (line =?s "") && negb (HasPrefix line "#").

Definition count_lines (entry : string -> bool) (text : string) : Z :=
  Z.of_nat (length (List.filter entry (split newline text))).

Fixpoint list_sources (directory : string) (entries : list DirEntry) (sources : list cronSource) : prog sys (list cronSource) :=
  match entries with
  | [] => Ret sources
  | entry :: rest =>
      let path := Join [directory; de_Name entry] in
      Call (Lstat path) (fun info =>
        match info with
        | Err _ => list_sources directory rest sources
        | Ok info =>
            if negb (fi_Regular info) then list_sources directory rest sources
            else
              Call (ReadFile path) (fun content =>
                match content with
                | Err _ => list_sources directory rest sources
                | Ok text =>
                    if maxCronStateBytes <? len text then list_sources directory rest sources
                    else list_sources directory rest
                           (sources ++ [mkCronSource path (count_lines cron_entry text) (path =?s crn_cronPath c)])
                end)
        end)
  end.

Definition source_le (a b : cronSource) : Prop := String.le (src_Path a) (src_Path b).
#[global] Instance source_le_dec : RelDecision source_le := fun a b => decide (String.le (src_Path a) (src_Path b)).

Definition sources : prog sys (answer (list cronSource)) :=
  let directory := Dir (crn_cronPath c) in
  Call (ReadDir directory) (fun r =>
    let listing := match r with Ok entries => Ok entries | Err e => if os_missing e then Ok [] else Err (os_fail e) end in
    match listing with
    | Err e => Ret (Err e)
    | Ok entries =>
        do! found := list_sources directory entries [] in
        do! root := run_command (crn_crontabBinary c) ["-l"] in
        let rootCount := match root with Ok output => count_lines crontab_entry output | Err _ => 0 end in
        Ret (Ok (merge_sort source_le (found ++ [mkCronSource "root crontab" rootCount false])))
    end).

Definition serviceState : prog sys string :=
  do! r := run_command "systemctl" ["show"; "--property=ActiveState"; "--value"; crn_service c] in
  Ret (match r with
       | Ok output => if TrimSpace output =?s "" then "unknown" else TrimSpace output
       | Err _ => "unknown"
       end).

Definition Inventory : prog sys (answer cronInventory) :=
  if negb (crn_allowRead c) then Ret (Err (errors_New "cron inventory is not enabled locally"))
  else
    try! jobs := loadJobs in
    try! sources := sources in
    do! service := serviceState in
    Ret (Ok (mkCronInventory service jobs sources (cronRevision jobs))).
End controller.
