(* ===== verification/AgentCronClaims.v ===== *)
(** * The texts of the cron jobs

    The state file is read back as it was written ([state_roundtrip]), and the
    lines of the cron file are those of the jobs ([rendered_lines]). *)

From stdpp Require Import base strings gmap list sorting.
From Stdlib Require Import ZArith Lia Ascii.
From S2P Require Import Prelude GoStrings GoSha256 GoJson GoTime HubTypes TaskGate AgentConfig AgentTasks AgentFirewall AgentFirewallClaims HostFiles AgentCron.
Local Open Scope Z_scope.
Local Open Scope hub_scope.

(** ** White space *)

Definition blank (ws : string) : Prop := forallb json_space (chars ws) = true.

Lemma skip_ws_blank ws s : blank ws -> skip_ws (ws +:+ s) = skip_ws s.
Proof.
  unfold blank. induction ws as [|c ws IH]; [done|]. rewrite string_app_cons. simpl.
  intros [-> H]%andb_true_iff. by apply IH.
Qed.

Lemma parse_value_blank k ws s : blank ws -> parse_value k (ws +:+ s) = parse_value k s.
Proof. intros Hw. destruct k as [|k]; [done|]. cbn [parse_value]. by rewrite skip_ws_blank. Qed.

Lemma parse_value_space k s : parse_value k (String " "%char s) = parse_value k s.
Proof. exact (parse_value_blank k (String " "%char "") s eq_refl). Qed.

Lemma parse_elems_blank k ws s : blank ws -> parse_elems k (ws +:+ s) = parse_elems k s.
Proof. intros Hw. destruct k as [|k]; [done|]. cbn [parse_elems]. by rewrite parse_value_blank. Qed.

Lemma parse_members_blank k ws s : blank ws -> parse_members k (ws +:+ s) = parse_members k s.
Proof. intros Hw. destruct k as [|k]; [done|]. cbn [parse_members]. by rewrite skip_ws_blank. Qed.

Lemma margin_blank d : blank (margin d).
Proof.
  unfold blank, margin. simpl. induction (d + (d + 0))%nat as [|n IH]; [done|]. by simpl.
Qed.

(** ** Indented texts are read back *)

Lemma join_cons2 {A} (f : A -> string) a b l :
  join comma (f <$> a :: b :: l) = f a +:+ String comma (join comma (f <$> b :: l)).
Proof. done. Qed.

(** Values without numbers. *)
Inductive textual : json -> Prop :=
| text_null : textual JNull
| text_bool b : textual (JBool b)
| text_str s : valid_utf8 s = true -> textual (jstr s)
| text_arr l : Forall textual l -> textual (JArr l)
| text_obj m : Forall (fun kv : string * json => valid_utf8 kv.1 = true) m ->
    Forall (fun kv : string * json => textual kv.2) m -> textual (JObj m).

Definition reads_at (j : json) : Prop :=
  forall d, exists K, forall k rest, (K <= k)%nat -> parse_value k (marshal_indent d j +:+ rest) = Some (j, rest).

Lemma reads_str s : valid_utf8 s = true -> reads_at (jstr s).
Proof.
  intros Hv d. exists 1%nat. intros [|k] rest Hk; [lia|].
  unfold jstr. cbn [marshal_indent marshal]. unfold quote. rewrite string_app_cons, <-string_app_assoc, string_app_cons.
  change ("" +:+ rest) with rest. cbn [parse_value]. rewrite skip_ws_stop by done.
  change (Ascii.eqb dq dq) with true. cbv iota. rewrite parse_str_escape by done. by rewrite stake_literal.
Qed.

Lemma elems_read d l :
  l <> [] -> Forall reads_at l ->
  exists K, forall k rest, (K <= k)%nat ->
    parse_elems k (join comma ((fun e => margin (S d) +:+ marshal_indent (S d) e) <$> l) +:+ margin d +:+ String rbrack rest)
    = Some (l, rest).
Proof.
  induction l as [|j [|j' l] IH]; intros Hne Hr; [done|..]; inversion_clear Hr as [|?? Hj Hr']; destruct (Hj (S d)) as [K HK].
  - exists (S K). intros [|k] rest Hk; [lia|]. cbn [fmap list_fmap join].
    rewrite <-string_app_assoc, parse_elems_blank by apply margin_blank. cbn [parse_elems].
    rewrite HK by lia. rewrite skip_ws_blank by apply margin_blank. by rewrite skip_ws_stop.
  - destruct IH as [K' HK']; [done..|]. exists (S (K + K')). intros [|k] rest Hk; [lia|].
    rewrite join_cons2. set (tail := join comma _) in *.
    rewrite <-!string_app_assoc, string_app_cons, parse_elems_blank by apply margin_blank. cbn [parse_elems].
    rewrite HK by lia. rewrite skip_ws_stop by done. change (Ascii.eqb comma comma) with true. cbv iota.
    by rewrite HK' by lia.
Qed.

Lemma members_read d m :
  m <> [] -> Forall (fun kv : string * json => valid_utf8 kv.1 = true) m ->
  Forall (fun kv : string * json => reads_at kv.2) m ->
  exists K, forall k rest, (K <= k)%nat ->
    parse_members k
      (join comma ((fun kv => margin (S d) +:+ quote kv.1 +:+ String colon (String " "%char (marshal_indent (S d) kv.2))) <$> m)
       +:+ margin d +:+ String rbrace rest)
    = Some (m, rest).
Proof.
  assert (forall key v k rest, valid_utf8 key = true -> parse_members (S k)
     ((margin (S d) +:+ quote key +:+ String colon (String " "%char (marshal_indent (S d) v))) +:+ rest) =
     match parse_value k (marshal_indent (S d) v +:+ rest) with
     | None => None
     | Some (v, r) =>
         match skip_ws r with
         | "" => None
         | String c r' =>
             if Ascii.eqb c comma then
               match parse_members k r' with Some (m, r'') => Some ((key, v) :: m, r'') | None => None end
             else if Ascii.eqb c rbrace then Some ([(key, v)], r') else None
         end
     end) as Hstep.
  { intros key v k rest Hkey. unfold quote.
    rewrite <-!string_app_assoc, parse_members_blank by apply margin_blank.
    rewrite !string_app_cons, <-!string_app_assoc, !string_app_cons. cbn [parse_members].
    rewrite skip_ws_stop by done. change (Ascii.eqb dq dq) with true. cbv iota.
    change ("" +:+ ?x) with x. rewrite parse_str_escape by done. rewrite skip_ws_stop by done.
    change (Ascii.eqb colon colon) with true. cbv iota.
    by rewrite parse_value_space. }
  induction m as [|[key j] [|kv' m] IH]; intros Hne Hok Hr; [done|..];
    inversion_clear Hr as [|?? Hj Hr']; destruct (Hj (S d)) as [K HK]; inversion_clear Hok as [|?? Hkey Hok']; cbn [fst snd] in *.
  - exists (S K). intros [|k] rest Hk; [lia|]. cbn [fmap list_fmap join fst snd].
    rewrite Hstep, HK by (done || lia). rewrite skip_ws_blank by apply margin_blank. by rewrite skip_ws_stop.
  - destruct IH as [K' HK']; [done..|]. exists (S (K + K')). intros [|k] rest Hk; [lia|].
    rewrite join_cons2. set (tail := join comma _) in *. cbn [fst snd].
    rewrite <-string_app_assoc, string_app_cons, Hstep, HK by (done || lia).
    rewrite skip_ws_stop by done. change (Ascii.eqb comma comma) with true. cbv iota. by rewrite HK' by lia.
Qed.

Lemma marshal_indent_head d j :
  textual j -> exists c s, marshal_indent d j = String c s /\ json_space c = false
     /\ Ascii.eqb c rbrack = false /\ Ascii.eqb c rbrace = false.
Proof.
  intros Hj. destruct Hj as [|[]|s|[|e l]|[|kv m]]; simpl; by eexists _, _.
Qed.

Lemma reads_arr l : Forall textual l -> Forall reads_at l -> reads_at (JArr l).
Proof.
  intros Ht Hr d. destruct l as [|j l]; [exists 1%nat; intros [|k] rest Hk; [lia|done]|].
  destruct (elems_read d (j :: l)) as [K HK]; [done..|]. exists (S K). intros [|k] rest Hk; [lia|].
  cbn [marshal_indent]. rewrite string_app_cons, <-!string_app_assoc, string_app_cons.
  change ("" +:+ rest) with rest. cbn [parse_value]. rewrite skip_ws_stop by done.
  change (Ascii.eqb lbrack dq) with false. change (Ascii.eqb lbrack lbrack) with true. cbv iota.
  rewrite HK by lia. inversion_clear Ht as [|?? Hj _].
  destruct (marshal_indent_head (S d) j Hj) as (c & s & E & Hsp & Hb & _).
  destruct l as [|j' l]; [cbn [fmap list_fmap join]|rewrite join_cons2]; cbv beta; rewrite <-!string_app_assoc;
    rewrite skip_ws_blank by apply margin_blank; rewrite E, string_app_cons, skip_ws_stop by done; by rewrite Hb.
Qed.

Lemma reads_obj m :
  Forall (fun kv : string * json => valid_utf8 kv.1 = true) m -> Forall (fun kv : string * json => reads_at kv.2) m ->
  reads_at (JObj m).
Proof.
  intros Hk Hr d. destruct m as [|kv m]; [exists 1%nat; intros [|k] rest Hle; [lia|done]|].
  destruct (members_read d (kv :: m)) as [K HK]; [done..|]. exists (S K). intros [|k] rest Hle; [lia|].
  cbn [marshal_indent]. rewrite string_app_cons, <-!string_app_assoc, string_app_cons.
  change ("" +:+ rest) with rest. cbn [parse_value]. rewrite skip_ws_stop by done.
  change (Ascii.eqb lbrace dq) with false. change (Ascii.eqb lbrace lbrack) with false.
  change (Ascii.eqb lbrace lbrace) with true. cbv iota. rewrite HK by lia.
  destruct m as [|kv' m]; [cbn [fmap list_fmap join]|rewrite join_cons2]; cbv beta; rewrite <-!string_app_assoc;
    rewrite skip_ws_blank by apply margin_blank; unfold quote; rewrite !string_app_cons, skip_ws_stop by done; done.
Qed.

Lemma textual_reads j : textual j -> reads_at j.
Proof.
  induction j as [|[]|lit|b s|l IH|m IH] using json_ind'; intros Hj.
  - intros d. exists 1%nat. intros [|k] rest Hk; [lia|done].
  - intros d. exists 1%nat. intros [|k] rest Hk; [lia|done].
  - intros d. exists 1%nat. intros [|k] rest Hk; [lia|done].
  - inversion Hj.
  - inversion_clear Hj. by apply reads_str.
  - inversion_clear Hj. apply reads_arr; [done|]. rewrite List.Forall_forall in *. auto.
  - inversion_clear Hj. apply reads_obj; [done|]. rewrite List.Forall_forall in *. auto.
Qed.

Lemma marshal_indent_roundtrip j ws : textual j -> blank ws -> unmarshal (marshal_indent 0 j +:+ ws) = Some j.
Proof.
  intros Hj Hw. destruct (textual_reads j Hj 0%nat) as [K HK]. set (text := marshal_indent 0 j +:+ ws) in *.
  specialize (HK (K + unmarshal_fuel text)%nat ws ltac:(lia)). fold text in HK. rewrite parse_fuel_enough in HK by lia.
  unfold unmarshal. rewrite HK. pose proof (skip_ws_blank ws "" Hw) as Hs. rewrite string_app_nil_r in Hs. by rewrite Hs.
Qed.

(** ** The state file *)

Definition job_utf8 (job : cronTaskJob) : Prop :=
  valid_utf8 (cron_ID job) = true /\ valid_utf8 (cron_Schedule job) = true /\ valid_utf8 (cron_User job) = true
  /\ valid_utf8 (cron_Command job) = true /\ valid_utf8 (cron_Description job) = true.

Lemma job_json_textual job : job_utf8 job -> textual (job_json job).
Proof.
  intros (? & ? & ? & ? & ?). unfold job_json. constructor; destruct (_ =?s ""); simpl; repeat constructor; done.
Qed.

Lemma job_json_decode job : decode_struct false cron_fields (job_json job) zero_job = Some job.
Proof.
  destruct job as [id schedule user command description enabled]. unfold job_json. cbn [cron_Description].
  destruct (String.eqb_spec description "") as [->|_]; reflexivity.
Qed.

Lemma state_roundtrip jobs : Forall job_utf8 (jobs_of jobs) -> decode_jobs (state_text jobs) = Some jobs.
Proof.
  intros Hj. unfold decode_jobs, state_text. rewrite marshal_indent_roundtrip.
  - destruct jobs as [l|]; [|done]. cbn [jobs_json].
    assert (mapM (fun j => decode_struct false cron_fields j zero_job) (job_json <$> l) = Some l) as ->; [|done].
    clear Hj. induction l as [|job l IH]; [done|]. cbn [fmap list_fmap mapM]. rewrite job_json_decode. simpl. by rewrite IH.
  - destruct jobs as [l|]; [|constructor]. constructor. apply Forall_fmap. eapply Forall_impl; [exact Hj|].
    apply job_json_textual.
  - done.
Qed.

(** ** The cron file *)

(** The lines of a job: a blank one, a comment and the line itself. *)
Definition comment_line (job : cronTaskJob) : string :=
  "# HSERVER " +:+ cron_ID job +:+ (if cron_Description job =?s "" then "" else " - " +:+ cron_Description job).

Definition entry_line (job : cronTaskJob) : string :=
  if cron_Enabled job then job_line job else "# DISABLED " +:+ job_line job.

Definition header_lines (shell : string) : list string :=
  ["# Managed by Heyserver. Changes outside Heyserver will be replaced."; "SHELL=" +:+ shell;
   "PATH=/usr/local/sbin:/usr/local/bin:/usr/sbin:/usr/bin:/sbin:/bin"].

(** A line cron may run: neither empty nor a comment. *)
Definition runs_line (line : string) : bool := negb (line =?s "") && negb (HasPrefix line "#").

Definition one_line (s : string) : Prop := newline ∉ chars s.

Ltac literal_line := apply (bool_decide_unpack _); by vm_compute.

Lemma one_line_app s t : one_line s -> one_line t -> one_line (s +:+ t).
Proof. unfold one_line. rewrite chars_app, elem_of_app. tauto. Qed.

Lemma no_breaks_one_line s : ContainsAny s line_breaks = false -> one_line s.
Proof.
  unfold ContainsAny. intros He Hin. assert (existsb (fun c => existsb (Ascii.eqb c) line_breaks) (chars s) = true) as E.
  { apply existsb_exists. exists newline. split; [by apply list_elem_of_In|done]. }
  congruence.
Qed.

Lemma user_one_line u : agentSystemUserPattern u = true -> one_line u.
Proof.
  unfold agentSystemUserPattern, one_line. destruct (chars u) as [|c cs]; [done|].
  intros [[Hh Ht]%andb_true_iff _]%andb_true_iff [<-|Hin]%elem_of_cons; [done|].
  rewrite forallb_forall in Ht. apply list_elem_of_In, Ht in Hin. done.
Qed.

Lemma id_one_line id : validAgentCronID id = true -> one_line id.
Proof.
  unfold validAgentCronID. destruct (_ || _) eqn:Hg; [done|].
  apply orb_false_iff in Hg as [_ Hp%negb_false_iff]. unfold decodes_hex. intros [_ Hh]%andb_true_iff.
  destruct (prefix_of_app _ _ Hp) as [rest Hr].
  assert (id = "cron-" +:+ String.string_of_list_ascii rest) as -> by (rewrite <-(string_chars id), Hr; done).
  change (sdrop 5 ("cron-" +:+ String.string_of_list_ascii rest)) with (String.string_of_list_ascii rest) in Hh.
  apply one_line_app; [literal_line|]. intros Hin. rewrite forallb_forall in Hh. apply list_elem_of_In, Hh in Hin. done.
Qed.

(** The fields of a valid job are single lines. *)
Lemma valid_job_lines job requireID :
  cron_fields_ok job requireID = true ->
  (requireID = true -> one_line (comment_line job)) /\ one_line (job_line job).
Proof.
  unfold cron_fields_ok. rewrite negb_true_iff, !orb_false_iff, !andb_false_iff, !negb_false_iff.
  intros ((((((((((Hid & _) & Hu%user_one_line) & _) & _) & Hc%no_breaks_one_line) & _) & Hd%no_breaks_one_line) & _)
    & Hs%no_breaks_one_line) & _).
  split.
  - intros ->. destruct Hid as [?|Hid%id_one_line]; [done|]. unfold comment_line.
    repeat apply one_line_app; [literal_line|done|].
    destruct (_ =?s ""); [literal_line|]. apply one_line_app; [literal_line|done].
  - unfold job_line. repeat apply one_line_app; try done; literal_line.
Qed.

Lemma job_text_lines job rest :
  one_line (comment_line job) -> one_line (entry_line job) ->
  split newline (job_text job +:+ rest) = "" :: comment_line job :: entry_line job :: split newline rest.
Proof.
  intros Hc He.
  assert (job_text job +:+ rest
          = String newline (comment_line job +:+ String newline (entry_line job +:+ String newline rest))) as ->.
  { unfold job_text, line_end, comment_line, entry_line. by rewrite <-!string_app_assoc. }
  cbn [split]. change (Ascii.eqb newline newline) with true. cbv iota. by rewrite !split_app_sep.
Qed.

Lemma jobs_text_lines jobs :
  Forall (fun job => one_line (comment_line job) /\ one_line (entry_line job)) jobs ->
  split newline (foldr (fun job text => job_text job +:+ text) "" jobs)
  = flat_map (fun job => [""; comment_line job; entry_line job]) jobs ++ [""].
Proof.
  induction 1 as [|job jobs [Hc He] _ IH]; [done|]. cbn [foldr flat_map]. rewrite job_text_lines by done. by rewrite IH.
Qed.

Lemma entry_one_line job : one_line (job_line job) -> one_line (entry_line job).
Proof.
  intros Hl. unfold entry_line. destruct (cron_Enabled job); [done|]. apply one_line_app; [literal_line|done].
Qed.

Lemma rendered_lines jobs shell :
  one_line shell -> Forall (fun job => cron_fields_ok job true = true) jobs ->
  split newline (renderCronJobs jobs shell)
  = header_lines shell ++ flat_map (fun job => [""; comment_line job; entry_line job]) jobs ++ [""].
Proof.
  intros Hsh Hj. unfold header_lines. set (managed := "# Managed by Heyserver. Changes outside Heyserver will be replaced.").
  set (path := "PATH=/usr/local/sbin:/usr/local/bin:/usr/sbin:/usr/bin:/sbin:/bin").
  assert (renderCronJobs jobs shell
          = managed +:+ String newline (("SHELL=" +:+ shell) +:+ String newline (path +:+ String newline
              (foldr (fun job text => job_text job +:+ text) "" jobs)))) as ->.
  { unfold renderCronJobs, line_end. by rewrite <-!string_app_assoc. }
  rewrite !split_app_sep; [|literal_line| |literal_line].
  - rewrite jobs_text_lines; [done|]. eapply Forall_impl; [exact Hj|]. simpl. intros job Hok.
    destruct (valid_job_lines job true Hok) as [Hc Hl]. split; [by apply Hc|by apply entry_one_line].
  - by apply one_line_app; [literal_line|].
Qed.

(** The lines that may run, after the header, are the enabled jobs'. *)
Lemma rendered_entries jobs :
  List.filter runs_line (flat_map (fun job => [""; comment_line job; entry_line job]) jobs ++ [""])
  = List.filter runs_line (List.map job_line (List.filter cron_Enabled jobs)).
Proof.
  induction jobs as [|job jobs IH]; [done|]. cbn [flat_map List.filter app].
  assert (runs_line (comment_line job) = false) as -> by done. change (runs_line "") with false. cbv iota.
  rewrite IH. unfold entry_line. destruct (cron_Enabled job); [done|].
  assert (runs_line ("# DISABLED " +:+ job_line job) = false) as -> by done. done.
Qed.

(** ** What a change of the cron jobs does to the files

    Most of what [mutate] does is [noise]: new files, and files in the
    directory of the backups.  The cron file and the state file change in two
    steps, each of which is one rename. *)

(** ** Names of backups *)

Definition slash_free (s : string) : Prop := slash ∉ chars s.

Lemma slash_free_app s t : slash_free s -> slash_free t -> slash_free (s +:+ t).
Proof. unfold slash_free. rewrite chars_app, elem_of_app. tauto. Qed.

Lemma digits_slash_free ds : Forall (fun d => 0 <= d < 10) ds -> slash_free (digit_string ds).
Proof.
  intros Hd. unfold slash_free, digit_string. rewrite GoBase64.chars_of_list.
  intros (d & E & Hin)%list_elem_of_fmap. rewrite Forall_forall in Hd. apply Hd in Hin.
  apply (f_equal byte) in E. unfold digit_char in E. rewrite byte_of_byte in E by lia.
  change (byte slash) with 47 in E. lia.
Qed.

Lemma two_digits_range n : 0 <= n < 100 -> Forall (fun d => 0 <= d < 10) (two_digits n).
Proof. intros Hn. unfold two_digits. repeat constructor; lia_div. Qed.

Lemma utoa_slash_free n : 0 <= n -> slash_free (utoa n).
Proof. intros Hn. unfold utoa. apply digits_slash_free. by apply dec_digits_range. Qed.

Lemma year_slash_free y : slash_free (year_string y).
Proof.
  unfold year_string. destruct (Z.ltb_spec y 0).
  - apply (slash_free_app (String "-"%char "")); [literal_line|].
    destruct (Z.ltb_spec (- y) 10000); [|apply utoa_slash_free; lia].
    apply digits_slash_free, Forall_app_2; apply two_digits_range; lia_div.
  - destruct (Z.ltb_spec y 10000); [|apply utoa_slash_free; lia].
    apply digits_slash_free, Forall_app_2; apply two_digits_range; lia_div.
Qed.

Lemma stamp_slash_free now : slash_free (compact_stamp now).
Proof.
  unfold compact_stamp. destruct (civil_from_days (now / day_ns)) as [[y m] d] eqn:Hc.
  apply civil_from_days_spec in Hc as (Hm & Hd & _).
  assert (daysIn m y <= 31) as Hdays by (unfold daysIn; repeat case_match; lia).
  assert (0 <= now mod day_ns < day_ns) as Hns by (apply Z.mod_pos_bound; done).
  assert (0 <= now mod day_ns / 1000000000 < 86400) as Hs.
  { split; [apply Z.div_pos; lia|]. apply Z.div_lt_upper_bound; [done|]. change (1000000000 * 86400) with day_ns. lia. }
  cbv zeta. set (secs := now mod day_ns / 1000000000) in *.
  assert (0 <= secs / 3600 < 100) as Hh by (split; [apply Z.div_pos; lia|apply Z.div_lt_upper_bound; lia]).
  assert (forall n, 0 <= n mod 60 < 100) as H60 by (intros n; pose proof (Z.mod_pos_bound n 60 eq_refl); lia).
  apply slash_free_app; [apply year_slash_free|].
  apply slash_free_app; [apply digits_slash_free, Forall_app_2; apply two_digits_range; lia|].
  apply slash_free_app; [literal_line|].
  apply slash_free_app; [apply digits_slash_free; repeat apply Forall_app_2; by apply two_digits_range|].
  apply slash_free_app; [literal_line|].
  apply slash_free_app; [apply digits_slash_free, fixed_digits_range|literal_line].
Qed.

Lemma backup_name_plain path now :
  slash_free (Base path) -> plain_name (Base path +:+ ".backup-" +:+ compact_stamp now).
Proof.
  intros Hb. split.
  - assert (3 <= len (Base path +:+ ".backup-" +:+ compact_stamp now)) as Hl.
    { rewrite !len_app. change (len ".backup-") with 8. unfold len. lia. }
    split_and!; intros E; rewrite E in Hl; vm_compute in Hl; by apply Hl.
  - apply slash_free_app; [done|]. apply slash_free_app; [literal_line|apply stamp_slash_free].
Qed.

Definition content_of (s : fs) (path : string) : option string :=
  match s !! path with Some (File text _ _ _) => Some text | _ => None end.

Section files.
Context `{Host}.
Context (command : string -> list string -> fs -> result string string -> fs -> Prop).
Context (resolves : string -> string -> Prop).
Context (commands_leave_files : forall name args s r s', command name args s r s' -> s' = s).
Context (c : cronController).
Notation wp := (wp command resolves).
Notation reaches := (reaches command resolves).
Notation state := (crn_statePath c).
Notation cron := (crn_cronPath c).

Definition in_backups (path : string) : Prop := exists name, plain_name name /\ path = Join [AgentCron.backup_dir c; name].

(** The paths of a configuration do not collide. *)
Record cron_layout : Prop := mkLayout {
  layout_distinct : state <> cron /\ crn_lockPath c <> state /\ crn_lockPath c <> cron;
  layout_temp : occurs ".hserver-cron-" state = false /\ occurs ".hserver-cron-" cron = false;
  layout_backups : ~ in_backups state /\ ~ in_backups cron;
  layout_bases : slash_free (Base state) /\ slash_free (Base cron) }.

Context (layout : cron_layout).

(** ** Noise *)

Definition managed (path : string) : Prop := path = state \/ path = cron.

(** New files and backups: every other file is kept, and the state and the cron
    file have the same content. *)
Definition noise (s s' : fs) : Prop :=
  (forall path, is_Some (s !! path) -> ~ in_backups path -> s' !! path = s !! path)
  /\ (forall path, managed path -> content_of s' path = content_of s path).

Lemma noise_refl s : noise s s.
Proof. done. Qed.

Lemma noise_trans s1 s2 s3 : noise s1 s2 -> noise s2 s3 -> noise s1 s3.
Proof.
  intros [Hk1 Hc1] [Hk2 Hc2]. split.
  - intros path Hs Hb. rewrite Hk2; [by apply Hk1| |done]. by rewrite Hk1.
  - intros path Hm. by rewrite Hc2, Hc1.
Qed.

Lemma noise_fresh s t n : s !! t = None -> ~ managed t -> noise s (<[t := n]> s).
Proof.
  intros Ht Hm. split.
  - intros path [x Hx] _. rewrite lookup_insert_ne; [done|]. congruence.
  - intros path Hp. unfold content_of. rewrite lookup_insert_ne; [done|]. by intros ->.
Qed.

Lemma managed_not_backup path : managed path -> ~ in_backups path.
Proof. destruct (layout_backups layout). by intros [->| ->]. Qed.

Lemma noise_backup s path n : in_backups path -> noise s (<[path := n]> s).
Proof.
  intros Hb. split; intros p H1; [intros H2|]; unfold content_of; rewrite lookup_insert_ne; try done; intros <-; [done|].
  by apply (managed_not_backup path).
Qed.

Lemma noise_remove_backup s path : in_backups path -> noise s (delete path s).
Proof.
  intros Hb. split; intros p H1; [intros H2|]; unfold content_of; rewrite lookup_delete_ne; try done; intros <-; [done|].
  by apply (managed_not_backup path).
Qed.

Lemma temp_not_managed dir sub suffix path rest :
  sub = ".hserver-cron-" +:+ rest -> temp_name dir sub suffix path -> ~ managed path.
Proof.
  intros -> (digits & _ & ->) Hm. destruct (layout_temp layout) as [H1 H2].
  rewrite <-string_app_assoc in Hm. destruct Hm as [E|E]; rewrite <-E, occurs_app in *; done.
Qed.

Lemma noise_mkdir path perm s b s' : sys_step command resolves (MkdirAll path perm) s b s' -> noise s s'.
Proof.
  intros [Hk Hd]. split; [by intros p Hp _; apply Hk|]. intros p _. unfold content_of.
  destruct (s !! p) as [n|] eqn:Hp; [rewrite Hk by (by rewrite Hp); by rewrite Hp|].
  by destruct (Hd p Hp) as [->|[-> _]].
Qed.

Lemma noise_lock perm s b s' : sys_step command resolves (OpenCreate (crn_lockPath c) perm) s b s' -> noise s s'.
Proof.
  destruct (layout_distinct layout) as (_ & H1 & H2).
  destruct b as [[]|e]; [|by intros ->]. intros [->|(Hn & p & u & g & ->)]; [done|].
  apply noise_fresh; [done|]. intros [E|E]; done.
Qed.

(** ** Programs that make noise *)

(** From [s], every state is noise, and so is the last, which satisfies [P]. *)
Definition quiet {A} (p : prog sys A) (P : A -> fs -> Prop) (s : fs) : Prop :=
  wp (noise s) p (fun a s' => noise s s' /\ P a s') s.

Lemma quiet_bind {A B} (p : prog sys A) (k : A -> prog sys B) P (I : fs -> Prop) Q s0 s :
  noise s0 s -> (forall s', noise s0 s' -> I s') -> quiet p P s ->
  (forall a s', noise s0 s' -> P a s' -> wp I (k a) Q s') -> wp I (pbind p k) Q s.
Proof.
  intros Hn HI Hp Hk. apply wp_bind. eapply wp_mono; [exact Hp| |].
  - intros s' Hs. apply HI. by eapply noise_trans.
  - intros a s' _ [Hs Ha]. apply Hk; [by eapply noise_trans|done].
Qed.

Lemma checking_wp {A B} (o : sys (result os_error B)) (k : B -> prog sys (answer A)) (I : fs -> Prop) Q s0 s :
  noise s0 s -> (forall s', noise s0 s' -> I s') -> (forall e s', noise s0 s' -> Q (Err e) s') ->
  (forall b s', sys_step command resolves o s b s' -> noise s s') ->
  (forall b s', sys_step command resolves o s (Ok b) s' -> noise s0 s' -> wp I (k b) Q s') ->
  wp I (checking o k) Q s.
Proof.
  intros Hn HI HQ Ho Hk. apply wp_call; [by apply HI|]. intros b s' Hs.
  assert (noise s0 s') by (eapply noise_trans; [done|by eapply Ho]).
  destruct b as [b|e]; [by apply Hk|]. apply wp_ret; auto.
Qed.

Lemma quiet_ret {A} (a : A) (P : A -> fs -> Prop) s : P a s -> quiet (Ret a) P s.
Proof. intros Ha. apply wp_ret; [apply noise_refl|]. split; [apply noise_refl|done]. Qed.

Lemma quiet_pure {A B} (o : sys B) (k : B -> prog sys A) P s :
  pure_call command resolves o -> (forall b, sys_step command resolves o s b s -> quiet (k b) P s) -> quiet (Call o k) P s.
Proof. intros Ho Hk. by apply wp_pure; [done|apply noise_refl|]. Qed.

Lemma quiet_mono {A} (p : prog sys A) (P P' : A -> fs -> Prop) s :
  quiet p P s -> (forall a s', noise s s' -> P a s' -> P' a s') -> quiet p P' s.
Proof. intros Hp HP. eapply wp_mono; [exact Hp|done|]. intros a s' _ [Hn Ha]. split; [done|]. by apply HP. Qed.

(** Sequencing of quiet programs. *)
Lemma quiet_seq {A B} (p : prog sys A) (k : A -> prog sys B) P P' s :
  quiet p P s -> (forall a s', noise s s' -> P a s' -> quiet (k a) P' s') -> quiet (pbind p k) P' s.
Proof.
  intros Hp Hk. eapply quiet_bind; [apply noise_refl|done|exact Hp|]. intros a s' Hn Ha.
  eapply wp_mono; [by apply Hk| |]; simpl.
  - intros s2 Hs. by eapply noise_trans.
  - intros b s2 _ [Hs Hb]. split; [by eapply noise_trans|done].
Qed.

Lemma quiet_noisy {A B} (o : sys B) (k : B -> prog sys A) P s :
  (forall b s', sys_step command resolves o s b s' -> noise s s' /\ quiet (k b) P s') -> quiet (Call o k) P s.
Proof.
  intros Hk. apply wp_call; [apply noise_refl|]. intros b s' [Hn Hq]%Hk. eapply wp_mono; [exact Hq| |]; simpl.
  - intros s2 Hs. by eapply noise_trans.
  - intros a s2 _ [Hs Ha]. split; [by eapply noise_trans|done].
Qed.

Lemma run_pure name args : pure_call command resolves (HostFiles.Run name args).
Proof. intros s b s' Hs. by eapply commands_leave_files. Qed.

(** ** Checking and loading the jobs *)

Lemma validateCronJob_quiet job requireID s :
  quiet (validateCronJob job requireID) (fun r _ => r = Ok tt -> cron_fields_ok job requireID = true) s.
Proof.
  unfold validateCronJob. destruct (cron_fields_ok job requireID) eqn:Hf; cbn [negb]; [|by apply quiet_ret].
  apply quiet_pure; [apply (pure_calls command resolves _ 0 "")|]. intros [] _; by apply quiet_ret.
Qed.

Lemma validate_all_quiet jobs s :
  quiet (validate_all jobs) (fun r _ => r = Ok tt -> Forall (fun job => cron_fields_ok job true = true) jobs) s.
Proof.
  revert s. induction jobs as [|job jobs IH]; intros s; cbn [validate_all]; [by apply quiet_ret|].
  eapply quiet_seq; [apply validateCronJob_quiet|]. intros [[]|e] s' _ Hok; [|by apply quiet_ret].
  eapply quiet_mono; [apply IH|]. intros r s2 _ Hr E. constructor; auto.
Qed.

(** The jobs the state file stands for. *)
Definition stored (s : fs) (jobs : cron_jobs) : Prop :=
  match s !! state with
  | None => jobs = Some []
  | Some (File text _ _ _) => len text <= maxCronStateBytes /\ decode_jobs text = Some jobs
  | _ => False
  end.

Lemma readManagedFile_quiet path s :
  quiet (readManagedFile path)
    (fun r s' => s' = s /\
       match r with
       | Ok (info, content, checksum) => content_of s path = Some content
       | Err e => fe_missing e = true -> s !! path = None
       end) s.
Proof.
  eapply wp_mono; [apply (readManagedFile_wp command resolves (noise s)), noise_refl|done|].
  intros [[[info content] sum]|e] s' _ [-> Hr]; (split; [apply noise_refl|]); split; try done.
  destruct Hr as ((p & u & g & Hl & _) & _). unfold content_of. by rewrite Hl.
Qed.

Lemma loadJobs_quiet s :
  quiet (AgentCron.loadJobs c)
    (fun r _ => match r with
                | Ok jobs => stored s jobs /\ Forall (fun job => cron_fields_ok job true = true) (jobs_of jobs)
                | Err _ => True
                end) s.
Proof.
  eapply quiet_seq; [apply readManagedFile_quiet|]. intros [[[info content] sum]|e] s' _ [-> Hr].
  - destruct (maxCronStateBytes <? len content) eqn:Hl; [by apply quiet_ret|]. apply Z.ltb_ge in Hl.
    destruct (decode_jobs content) as [jobs|] eqn:Hd; [|by apply quiet_ret].
    destruct (Nat.ltb _ _); [by apply quiet_ret|].
    eapply quiet_seq; [apply validate_all_quiet|]. intros [[]|e] s2 _ Hok; apply quiet_ret; [|done].
    split; [|by apply Hok]. unfold stored. unfold content_of in Hr. destruct (s !! state) as [[]|]; try done.
    by injection Hr as ->.
  - destruct (fe_missing e); apply quiet_ret; [|done]. split; [|constructor]. unfold stored. by rewrite Hr.
Qed.

(** ** Temporary files *)

Section temporary.
Context (E : Prop) (HE : faulty -> E).
Context {A : Type} (t : string) (s : fs) (fresh : s !! t = None) (unmanaged : ~ managed t).
Context (I : fs -> Prop) (Q : answer A -> fs -> Prop).
Context (HI : forall s', noise s s' -> I s') (HQ : forall e s', E -> noise s s' -> Q (Err e) s').

Lemma working_noise n : noise s (<[t := n]> s).
Proof. by apply noise_fresh. Qed.

(** From [s] with the temporary file. *)
Definition working (p : prog sys (answer A)) (n : node) : Prop := wp I p Q (<[t := n]> s).

Lemma working_unlink r n : Q r s -> Q r (<[t := n]> s) -> working (unlink t r) n.
Proof.
  intros H1 H2. apply wp_call; [apply HI, working_noise|]. intros [[]|e] s' Hs; simpl in Hs; [subst s'|destruct Hs as [-> _]].
  - rewrite delete_insert_id by done. apply wp_ret; [apply HI, noise_refl|done].
  - apply wp_ret; [apply HI, working_noise|done].
Qed.

Lemma working_fails e n : E -> working (unlink t (Err e)) n.
Proof. intros He. apply working_unlink; apply HQ; [done|apply noise_refl|done|apply working_noise]. Qed.

Lemma working_close e n : E -> working (close_unlink t e) n.
Proof. intros He. apply wp_call; [apply HI, working_noise|]. intros b s' [-> _]. by apply working_fails. Qed.

Lemma working_writing {B} (o : sys (result os_error B)) k n n' :
  updates command resolves t s o n n' -> working k n' -> working (writing t o k) n.
Proof.
  intros Ho Hk. apply wp_call; [apply HI, working_noise|]. intros [b|e] s' Hs; apply Ho in Hs; [by subst s'|].
  destruct Hs as [Hf [n'' ->]]. by apply working_close, HE.
Qed.

Lemma working_lines jobs k text perm uid gid :
  (forall text', working k (File text' perm uid gid)) -> working (AgentCron.write_lines t jobs k) (File text perm uid gid).
Proof.
  revert text. induction jobs as [|job jobs IH]; intros text Hk; cbn [AgentCron.write_lines]; [apply Hk|].
  destruct (cron_Enabled job); [|by apply IH]. eapply working_writing; [apply updates_write|]. by apply IH.
Qed.
End temporary.

(** The test file is removed again. *)
Lemma validateRendered_quiet TempDir jobs s : quiet (AgentCron.validateRendered c TempDir jobs) (fun _ _ => True) s.
Proof.
  assert (forall r s', noise s s' -> noise s s' /\ True) as HQ by done.
  apply wp_call; [apply noise_refl|]. intros [t|e] s' Hs; simpl in Hs.
  - destruct Hs as (Hf & Ht & u & g & ->).
    assert (~ managed t) as Hm by (by eapply (temp_not_managed _ _ _ _ "check-")).
    apply (working_lines True); [done..|]. intros text. apply wp_call; [by apply working_noise|].
    intros [[]|e] s' [-> _]; [|by apply (working_fails True)].
    apply wp_pure; [apply run_pure|by apply working_noise|]. intros r _. cbn [pbind].
    apply working_unlink; [done..| |]; (split; [|done]); [apply noise_refl|by apply working_noise].
  - destruct Hs as [_ ->]. apply wp_ret; [apply noise_refl|]. by apply HQ, noise_refl.
Qed.

Lemma backupCronFile_quiet path s :
  managed path ->
  quiet (backupCronFile path (AgentCron.backup_dir c))
    (fun r _ => match r with
                | Ok (Some text) => content_of s path = Some text
                | Ok None => s !! path = None
                | Err _ => True
                end) s.
Proof.
  intros Hm. assert (slash_free (Base path)) as Hb by (destruct (layout_bases layout); by destruct Hm as [->| ->]).
  eapply quiet_seq; [apply readManagedFile_quiet|]. intros [[[info content] sum]|e] s' _ [-> Hr].
  - apply quiet_pure; [apply (pure_calls command resolves "" 0 "")|]. intros now _.
    assert (in_backups (Join [AgentCron.backup_dir c; Base path +:+ ".backup-" +:+ compact_stamp now])) as Hin.
    { eexists. split; [by apply backup_name_plain|done]. }
    apply quiet_noisy. intros [[]|e] s' Hs; simpl in Hs.
    + destruct Hs as (p & u & g & ->). split; [by apply noise_backup|by apply quiet_ret].
    + split; [|by apply quiet_ret]. destruct Hs as [->|(n & p & u & g & ->)]; [done|by apply noise_backup].
  - destruct (fe_missing e); apply quiet_ret; auto.
Qed.

Lemma remove_all_quiet paths s : Forall in_backups paths -> quiet (AgentCron.remove_all paths) (fun _ _ => True) s.
Proof.
  intros Hp. revert s. induction Hp as [|path paths Hb _ IH]; intros s; cbn [AgentCron.remove_all]; [by apply quiet_ret|].
  apply quiet_noisy. intros [[]|e] s' Hs; simpl in Hs; [subst s'|destruct Hs as [-> _]]; (split; [|apply IH]); [by apply noise_remove_backup|done].
Qed.

(** A sort returns some of its elements. *)
Lemma pruneCronBackups_quiet newest_first keep s :
  (forall items, newest_first items ⊆ items) ->
  quiet (AgentCron.pruneCronBackups newest_first (AgentCron.backup_dir c) keep) (fun _ _ => True) s.
Proof.
  intros Hsort. apply quiet_pure; [apply (pure_calls command resolves "" 0 _)|]. intros [entries|e] [_ He]; [|by apply quiet_ret].
  cbv zeta. case_match; [by apply quiet_ret|]. apply remove_all_quiet. apply Forall_fmap, Forall_drop, Forall_forall.
  intros item Hin%Hsort. apply list_elem_of_omap in Hin as (entry & Hentry & Hi).
  rewrite Forall_forall in He. apply He in Hentry. unfold AgentCron.backup_item in Hi.
  destruct (de_Info entry) as [info|]; [|done]. destruct (fi_Regular info); [|done]. injection Hi as <-.
  by exists (de_Name entry).
Qed.

(** ** The two renames *)

Lemma atomicCronWrite_wp path content mode (I : fs -> Prop) (Q : answer unit -> fs -> Prop) s :
  let E := faulty \/ s !! path = Some Directory in
  managed path -> (forall s', noise s s' -> I s') -> (forall e s', E -> noise s s' -> Q (Err e) s') ->
  (forall uid gid, let s' := <[path := File content mode uid gid]> s in I s' /\ Q (Ok tt) s') ->
  wp I (atomicCronWrite path content mode) Q s.
Proof.
  intros E Hm HI HQ Hok. assert (faulty -> E) as HE by (by left).
  apply wp_call; [apply HI, noise_refl|]. intros [t|e] s' Hs; simpl in Hs.
  - destruct Hs as (Hf & Ht & u & g & ->).
    assert (~ managed t) as Ht' by (by eapply (temp_not_managed _ _ _ _ "")).
    assert (t <> path) as Hne by (by intros ->).
    apply (working_writing E HE t s Hf Ht' I Q HI HQ _ _ _ (File "" mode u g)); [apply updates_chmod|].
    eapply (working_writing E HE t s Hf Ht' I Q HI HQ); [apply updates_write|].
    eapply (working_writing E HE t s Hf Ht' I Q HI HQ); [apply updates_sync|].
    apply wp_call; [by apply HI, working_noise|]. intros [[]|e] s' [-> Hd]; [|by apply (working_fails E); auto].
    apply wp_call; [by apply HI, working_noise|]. intros [[]|e] s' Hs; simpl in Hs; rewrite lookup_insert_eq in Hs.
    + subst s'. rewrite delete_insert_id by done.
      destruct (Hok u g) as [Hi Hq]. change ("" +:+ content) with content.
      apply wp_call; [done|]. intros b s' Hs. assert (s' = <[path := File content mode u g]> s) as ->.
      { destruct b; simpl in Hs; [|by destruct Hs]. subst s'. apply delete_id. by rewrite lookup_insert_ne. }
      by apply wp_ret.
    + destruct Hs as [-> Hr]. apply (working_fails E); [done..|]. rewrite lookup_insert_ne in Hr by done. exact Hr.
  - destruct Hs as [Hf ->]. apply wp_ret; [apply HI, noise_refl|apply HQ; [by left|apply noise_refl]].
Qed.

(** Every file but the two and the backups. *)
Definition others (s0 s : fs) : Prop :=
  forall path, is_Some (s0 !! path) -> ~ managed path -> ~ in_backups path -> s !! path = s0 !! path.

Definition contents (s : fs) : option string * option string := (content_of s state, content_of s cron).

(** The contents during a change: nothing yet, the new cron file, or both. *)
Definition phase (newState newCron : string) (s0 s : fs) : Prop :=
  others s0 s /\
  (contents s = contents s0 \/ contents s = (content_of s0 state, Some newCron)
   \/ contents s = (Some newState, Some newCron)).

(** What the answer of a change says of the files. *)
Definition saved (newState newCron : string) (s0 : fs) (r : answer unit) (s : fs) : Prop :=
  others s0 s /\
  match r with
  | Ok _ => contents s = (Some newState, Some newCron)
  | Err _ => contents s = contents s0 \/ contents s = (content_of s0 state, Some newCron) /\ faulty
  end.

Lemma noise_contents s s' : noise s s' -> contents s' = contents s.
Proof. intros [_ Hc]. unfold contents. rewrite !Hc; [done|by right|by left]. Qed.

Lemma noise_others s0 s s' : others s0 s -> noise s s' -> others s0 s'.
Proof. intros Ho [Hk _] path Hs Hm Hb. rewrite Hk; [by apply Ho| |done]. by rewrite Ho. Qed.

Lemma noise_others0 s0 s : noise s0 s -> others s0 s.
Proof. intros [Hk _] path Hs _ Hb. by apply Hk. Qed.

Lemma others_insert s0 s path n : managed path -> others s0 s -> others s0 (<[path := n]> s).
Proof. intros Hm Ho p Hs Hp Hb. rewrite lookup_insert_ne by (by intros ->). by apply Ho. Qed.

Lemma phase_noise a b s0 s s' : phase a b s0 s -> noise s s' -> phase a b s0 s'.
Proof.
  intros [Ho Hc] Hn. split; [by eapply noise_others|]. by rewrite (noise_contents _ _ Hn).
Qed.

Lemma contents_cron s text mode uid gid :
  contents (<[cron := File text mode uid gid]> s) = (content_of s state, Some text).
Proof.
  destruct (layout_distinct layout) as (Hd & _). unfold contents, content_of.
  by rewrite lookup_insert_ne, lookup_insert_eq by done.
Qed.

Lemma contents_state s text mode uid gid :
  contents (<[state := File text mode uid gid]> s) = (Some text, content_of s cron).
Proof.
  destruct (layout_distinct layout) as (Hd & _). unfold contents, content_of.
  by rewrite lookup_insert_eq, lookup_insert_ne by done.
Qed.

(** The cron file is put back. *)
Lemma restoreCronFile_wp newState newCron previous s0 s Q :
  others s0 s -> contents s = (content_of s0 state, Some newCron) ->
  previous = content_of s0 cron ->
  (forall r s', saved newState newCron s0 (Err r) s' -> Q s') ->
  wp (phase newState newCron s0) (restoreCronFile cron previous 420) (fun _ s' => Q s') s.
Proof.
  intros Ho Hc Hp HQ. pose proof (fun s' => phase_noise newState newCron s0 s s' (conj Ho (or_intror (or_introl Hc)))) as Hn.
  assert (forall s', others s0 s' -> contents s' = contents s0 -> phase newState newCron s0 s' /\ Q s') as Hback.
  { intros s' Ho' Hc'. split; [by split; [|left]|]. apply (HQ (errors_New "")). by split; [|left]. }
  assert (forall s', faulty -> noise s s' -> Q s') as Hstuck.
  { intros s' Hf Hs. apply (HQ (errors_New "")). split; [by eapply noise_others|]. right. by rewrite (noise_contents _ _ Hs). }
  assert (s !! cron <> None /\ s !! cron <> Some Directory) as [Hsome Hdir].
  { injection Hc as _ Hc. unfold content_of in Hc. by destruct (s !! cron) as [[]|]. }
  destruct previous as [text|]; cbn [restoreCronFile].
  - apply atomicCronWrite_wp; [by right|done| |].
    + intros e s' [Hf|Hf] Hs; [by apply Hstuck|done].
    + intros uid gid. apply Hback; [apply others_insert; [by right|done]|].
      rewrite contents_cron. injection Hc as -> _. unfold contents. by rewrite <-Hp.
  - apply wp_call; [by apply Hn|]. intros [[]|e] s' Hs; simpl in Hs.
    + subst s'. destruct (Hback (delete cron s)) as [Hi Hq]; [| |by apply wp_ret].
      * intros p Hs Hm Hb. rewrite lookup_delete_ne; [by apply Ho|]. intros <-. apply Hm. by right.
      * destruct (layout_distinct layout) as (Hd & _). injection Hc as Hc1 _. unfold contents, content_of in *.
        rewrite lookup_delete_ne, lookup_delete_eq by done. by rewrite Hc1, <-Hp.
    + destruct Hs as (-> & [Hf|[Hf|Hf]] & _); [|done..]. apply wp_ret; [by apply Hn|]. apply Hstuck; [done|apply noise_refl].
Qed.

Context (TempDir : string) (newest_first : list (string * time) -> list (string * time)).
Context (sorts : forall items, newest_first items ⊆ items).

Section saving.
Context (jobs : cron_jobs) (s0 : fs).
Notation newState := (state_text jobs).
Notation newCron := (renderCronJobs (jobs_of jobs) (crn_shell c)).
Let I : fs -> Prop := phase newState newCron s0.
Let Q : answer unit -> fs -> Prop := saved newState newCron s0.

Lemma saving_quiet s : noise s0 s -> I s /\ forall e, Q (Err e) s.
Proof.
  intros Hn. split; [|intros e]; (split; [by apply noise_others0|]); left; by apply noise_contents.
Qed.

(** The state file, after the cron file. *)
Lemma save_state_wp previous s :
  others s0 s -> contents s = (content_of s0 state, Some newCron) -> previous = content_of s0 cron ->
  wp I (do! saved := atomicCronWrite state newState 384 in
        match saved with
        | Err e => do! _ := restoreCronFile cron previous 420 in Ret (Err e)
        | Ok _ => do! _ := AgentCron.pruneCronBackups newest_first (AgentCron.backup_dir c) 20 in Ret (Ok tt)
        end) Q s.
Proof.
  intros Ho Hc Hp. apply wp_bind.
  assert (forall s', noise s s' -> I s') as HI.
  { intros s'. apply phase_noise. split; [done|]. by right; left. }
  apply atomicCronWrite_wp; [by left|done| |].
  - intros e s' _ Hn. apply wp_bind.
    eapply wp_mono; [eapply (restoreCronFile_wp newState newCron previous s0 s' (fun s2 => wp I (Ret (Err e)) Q s2))| |].
    + by eapply noise_others.
    + by rewrite (noise_contents _ _ Hn).
    + done.
    + intros e' s2 [Ho2 Hs2]. apply wp_ret; [|by split]. split; [done|]. destruct Hs2 as [?|[? _]]; auto.
    + done.
    + done.
  - intros uid gid s'.
    assert (others s0 s' /\ contents s' = (Some newState, Some newCron)) as [Ho' Hc'].
    { split; [apply others_insert; [by left|done]|]. unfold s'. rewrite contents_state. by injection Hc as _ ->. }
    assert (phase newState newCron s0 s') as Hi by (split; [done|]; by right; right).
    split; [done|]. eapply quiet_bind; [apply noise_refl| |by apply pruneCronBackups_quiet|].
    + intros s2 Hn. by eapply phase_noise.
    + intros [] s2 Hn _. apply wp_ret; [by eapply phase_noise|]. split; [by eapply noise_others|].
      by rewrite (noise_contents _ _ Hn).
Qed.

Lemma saveJobs_wp s : noise s0 s -> wp I (AgentCron.saveJobs c TempDir newest_first jobs) Q s.
Proof.
  intros Hs. pose proof saving_quiet as Hq.
  assert (forall s', noise s0 s' -> I s') as HI by (intros; by apply Hq).
  assert (forall e s', noise s0 s' -> Q (Err e) s') as HQ by (intros; by apply Hq).
  unfold AgentCron.saveJobs. cbv zeta.
  eapply quiet_bind; [exact Hs|done|apply validateRendered_quiet|]. intros [[]|e] s1 H1 _; [|by apply wp_ret; auto].
  apply (checking_wp _ _ _ _ s0); [done|done|done|apply noise_mkdir|]. intros [] sa _ Ha.
  apply (checking_wp _ _ _ _ s0); [done|done|done|apply noise_mkdir|]. intros [] sb _ Hb.
  apply (checking_wp _ _ _ _ s0); [done|done|done|apply noise_mkdir|]. intros [] sd _ Hd.
  eapply quiet_bind; [exact Hd|done|apply backupCronFile_quiet; by left|]. intros [_p|e] s2 H2 _; [|by apply wp_ret; auto].
  eapply quiet_bind; [exact H2|done|apply backupCronFile_quiet; by right|].
  intros [previous|e] s3 H3 Hp; [|by apply wp_ret; auto]. cbn [on_ok].
  assert (previous = content_of s0 cron) as Hprev.
  { destruct H2 as [Hk Hc]. rewrite <-(Hc cron) by (by right). destruct previous as [text|]; [done|].
    unfold content_of. by rewrite Hp. }
  apply wp_bind, atomicCronWrite_wp; [by right| | |].
  - intros s' Hn. apply HI. by eapply noise_trans.
  - intros e s' _ Hn. apply wp_ret; [apply HI|apply HQ]; by eapply noise_trans.
  - intros uid gid s'.
    assert (others s0 s' /\ contents s' = (content_of s0 state, Some newCron)) as [Ho' Hc'].
    { split; [apply others_insert; [by right|by apply noise_others0]|]. unfold s'. rewrite contents_cron.
      by rewrite (proj2 H3) by (by left). }
    split; [split; [done|by right; left]|]. by apply save_state_wp.
Qed.
End saving.

(** ** Changes *)

Lemma stored_noise s0 s jobs : noise s0 s -> stored s jobs -> stored s0 jobs.
Proof.
  intros [Hk Hc] Hs. specialize (Hc state (or_introl eq_refl)). unfold stored, content_of in *.
  destruct (s !! state) as [[]|] eqn:Es; try done.
  - destruct (s0 !! state) as [[]|]; try done. by injection Hc as ->.
  - destruct (s0 !! state) as [n|] eqn:E0; [|done]. rewrite Hk in Es; [congruence|by rewrite E0|].
    apply (layout_backups layout).
Qed.

(** The jobs before and after a change that passed all checks. *)
Definition changes (expected : string) (apply : cron_jobs -> answer cron_jobs) (s0 : fs) (jobs jobs' : cron_jobs) : Prop :=
  stored s0 jobs /\ cronRevision jobs = expected /\ apply jobs = Ok jobs' /\ (length (jobs_of jobs') <= maxCronJobs)%nat
  /\ Forall (fun job => cron_fields_ok job true = true) (jobs_of jobs').

Definition change_states expected apply (s0 s : fs) : Prop :=
  noise s0 s
  \/ exists jobs jobs', changes expected apply s0 jobs jobs'
       /\ phase (state_text jobs') (renderCronJobs (jobs_of jobs') (crn_shell c)) s0 s.

Definition change_result expected apply (s0 : fs) (r : answer unit) (s : fs) : Prop :=
  (noise s0 s /\ exists e, r = Err e)
  \/ exists jobs jobs', changes expected apply s0 jobs jobs'
       /\ saved (state_text jobs') (renderCronJobs (jobs_of jobs') (crn_shell c)) s0 r s.

Lemma mutate_wp expected apply s0 s :
  noise s0 s ->
  wp (change_states expected apply s0) (AgentCron.mutate c TempDir newest_first expected apply)
    (change_result expected apply s0) s.
Proof.
  intros Hs. set (I := change_states expected apply s0). set (Q := change_result expected apply s0).
  assert (forall s', noise s0 s' -> I s') as HI by (by left).
  assert (forall e s', noise s0 s' -> Q (Err e) s') as HQ by (left; eauto).
  assert (forall e s', noise s0 s' -> wp I (Ret (Err e)) Q s') as Hstop by (intros; apply wp_ret; auto).
  unfold AgentCron.mutate. destruct (negb (agentSHA256Pattern expected)); [by apply Hstop|].
  apply (checking_wp _ _ _ _ s0); [done|done|done|apply noise_mkdir|]. intros [] s1 _ H1.
  apply (checking_wp _ _ _ _ s0); [done|done|done|apply noise_lock|]. intros [] s2 _ H2.
  apply (checking_wp _ _ _ _ s0); [done|done|done|by intros b s' ->|]. intros [] s3 _ H3.
  eapply quiet_bind; [exact H3|done|apply loadJobs_quiet|]. intros [jobs|e] s4 H4 Hl; [|by apply Hstop].
  destruct Hl as [Hst%(stored_noise s0) _]; [|done]. cbn [on_ok].
  destruct (String.eqb_spec (cronRevision jobs) expected) as [Hrev|]; cbn [negb]; [|by apply Hstop].
  destruct (apply jobs) as [jobs'|e] eqn:Happ; [|by apply Hstop].
  destruct (Nat.ltb maxCronJobs _) eqn:Hlen; [by apply Hstop|]. apply Nat.ltb_ge in Hlen.
  eapply quiet_bind; [exact H4|done|apply validate_all_quiet|]. intros [[]|e] s5 H5 Hok; [|by apply Hstop].
  assert (changes expected apply s0 jobs jobs') as Hch by (split_and!; auto).
  eapply wp_mono; [by apply saveJobs_wp| |].
  - intros s' Hp. right. eauto.
  - intros r s' _ Hr. right. eauto.
Qed.
End files.

(** ** Changes of the cron jobs, their properties

    The commands a change runs ([crontab -n]) are assumed to leave the files,
    and the paths of the configuration not to collide ([cron_layout]). *)

(** ** Changes *)

Inductive cron_change : Type :=
| CreateJob (job : cronTaskJob)
| UpdateJob (job : cronTaskJob)
| DeleteJob (id : string).

(** The job with the identifier the agent made up. *)
Definition with_id (id : string) (job : cronTaskJob) : cronTaskJob :=
  mkCronTaskJob id (cron_Schedule job) (cron_User job) (cron_Command job) (cron_Description job) (cron_Enabled job).

(** What a change makes of the list of jobs. *)
Definition change_of (change : cron_change) (jobs jobs' : list cronTaskJob) : Prop :=
  match change with
  | CreateJob job => exists id, jobs' = jobs ++ [with_id id job]
  | UpdateJob job => exists before old after,
      jobs = before ++ old :: after /\ cron_ID old = cron_ID job /\ jobs' = before ++ job :: after
  | DeleteJob id => exists before old after,
      jobs = before ++ old :: after /\ cron_ID old = id /\ jobs' = before ++ after
  end.

Section changing.
Context `{Host}.
Context (command : string -> list string -> fs -> result string string -> fs -> Prop).
Context (resolves : string -> string -> Prop).
Context (c : cronController) (TempDir : string) (newest_first : list (string * time) -> list (string * time)).

Definition change_prog (change : cron_change) (revision : string) : prog sys (answer unit) :=
  match change with
  | CreateJob job => try! _ := AgentCron.Create c TempDir newest_first job revision in Ret (Ok tt)
  | UpdateJob job => AgentCron.Update c TempDir newest_first job revision
  | DeleteJob id => AgentCron.Delete c TempDir newest_first id revision
  end.

(** The jobs before and after a change that is carried out. *)
Definition changed (change : cron_change) (revision : string) (s0 : fs) (jobs : cron_jobs) (jobs' : list cronTaskJob) : Prop :=
  stored c s0 jobs /\ cronRevision jobs = revision /\ change_of change (jobs_of jobs) jobs'
  /\ (length jobs' <= maxCronJobs)%nat /\ Forall (fun job => cron_fields_ok job true = true) jobs'.

Lemma update_in_spec job jobs jobs' : AgentCron.update_in job jobs = Some jobs' -> change_of (UpdateJob job) jobs jobs'.
Proof.
  revert jobs'. induction jobs as [|j jobs IH]; intros jobs' E; [done|]. simpl in E.
  destruct (String.eqb_spec (cron_ID j) (cron_ID job)) as [Hid|].
  - injection E as <-. by exists [], j, jobs.
  - destruct (AgentCron.update_in job jobs) as [l|] eqn:El; [|done]. injection E as <-.
    destruct (IH _ eq_refl) as (before & old & after & -> & Hid & ->). by exists (j :: before), old, after.
Qed.

Lemma delete_in_spec id jobs jobs' : AgentCron.delete_in id jobs = Some jobs' -> change_of (DeleteJob id) jobs jobs'.
Proof.
  revert jobs'. induction jobs as [|j jobs IH]; intros jobs' E; [done|]. simpl in E.
  destruct (String.eqb_spec (cron_ID j) id) as [Hid|].
  - injection E as <-. by exists [], j, jobs.
  - destruct (AgentCron.delete_in id jobs) as [l|] eqn:El; [|done]. injection E as <-.
    destruct (IH _ eq_refl) as (before & old & after & -> & Hid & ->). by exists (j :: before), old, after.
Qed.

Context (commands_leave_files : forall name args s r s', command name args s r s' -> s' = s).
Context (layout : cron_layout c) (sorts : forall items, newest_first items ⊆ items).
Notation wp := (wp command resolves).
Notation noise := (noise c).

Definition rendered (jobs : list cronTaskJob) : string := renderCronJobs jobs (crn_shell c).

(** The files on the way, and what the answer says of them. *)
Definition on_the_way (change : cron_change) (revision : string) (s0 s : fs) : Prop :=
  noise s0 s
  \/ exists jobs jobs', changed change revision s0 jobs jobs' /\ phase c (state_text (Some jobs')) (rendered jobs') s0 s.

Definition answered (change : cron_change) (revision : string) (s0 : fs) (r : answer unit) (s : fs) : Prop :=
  (noise s0 s /\ exists e, r = Err e)
  \/ exists jobs jobs', changed change revision s0 jobs jobs'
       /\ saved c (state_text (Some jobs')) (rendered jobs') s0 r s.

(** A [mutate] whose function carries the change out. *)
Lemma mutate_changes change revision apply s0 s :
  (forall jobs jobs', apply jobs = Ok jobs' -> exists l, jobs' = Some l /\ change_of change (jobs_of jobs) l) ->
  noise s0 s ->
  wp (on_the_way change revision s0) (AgentCron.mutate c TempDir newest_first revision apply) (answered change revision s0) s.
Proof.
  intros Happ Hs.
  assert (forall jobs jobs', changes c revision apply s0 jobs jobs' ->
            exists l, jobs' = Some l /\ changed change revision s0 jobs l) as Hch.
  { intros jobs jobs' (H1 & H2 & H3 & H4 & H5). destruct (Happ _ _ H3) as (l & -> & Hl). exists l. by split_and!. }
  eapply wp_mono; [by apply mutate_wp| |].
  - intros s' [Hn|(jobs & jobs' & Hc & Hp)]; [by left|]. destruct (Hch _ _ Hc) as (l & -> & Hl). right. eauto.
  - intros r s' _ [Hn|(jobs & jobs' & Hc & Hp)]; [by left|]. destruct (Hch _ _ Hc) as (l & -> & Hl). right. eauto.
Qed.

Lemma stops_at change revision s0 s e : noise s0 s -> wp (on_the_way change revision s0) (Ret (Err e)) (answered change revision s0) s.
Proof. intros Hn. apply wp_ret; left; eauto. Qed.

Lemma change_wp change revision s0 :
  wp (on_the_way change revision s0) (change_prog change revision) (answered change revision s0) s0.
Proof.
  pose proof (noise_refl c s0) as Hr. assert (forall s, noise s0 s -> on_the_way change revision s0 s) as HI by (by left).
  destruct change as [job|job|id]; cbn [change_prog].
  - unfold AgentCron.Create. destruct (negb (crn_allowWrite c)); [by apply (stops_at (CreateJob job))|]. cbv zeta.
    apply wp_bind. eapply quiet_bind; [exact Hr|done|apply validateCronJob_quiet; [done..]|].
    intros [[]|e] s1 H1 _; [|apply wp_ret; [auto|by apply (stops_at (CreateJob job))]].
    apply wp_bind, wp_pure; [by intros s b s' [-> _]|auto|].
    intros [raw|e] _; (apply wp_ret; [auto|]); [|apply wp_ret; [auto|by apply (stops_at (CreateJob job))]].
    cbn [on_ok]. set (id := "cron-" +:+ hex_encode raw). apply wp_bind.
    eapply wp_mono; [apply (mutate_changes (CreateJob job)); [|done]|done|].
    + intros jobs jobs' [= <-]. eexists. split; [done|]. by exists id.
    + intros [[]|e] s2 Hi Ha; (apply wp_ret; [done|]); by apply wp_ret.
  - unfold AgentCron.Update. destruct (negb (crn_allowWrite c)); [by apply stops_at|].
    eapply quiet_bind; [exact Hr|done|apply validateCronJob_quiet; done|].
    intros [[]|e] s1 H1 _; [|by apply stops_at]. apply mutate_changes; [|done].
    intros jobs jobs' E. destruct (AgentCron.update_in job (jobs_of jobs)) as [l|] eqn:El; [|done].
    injection E as <-. exists l. split; [done|]. by apply update_in_spec.
  - unfold AgentCron.Delete. destruct (negb (crn_allowWrite c)); [by apply stops_at|].
    destruct (negb (validAgentCronID id)); [by apply stops_at|]. apply mutate_changes; [|done].
    intros jobs jobs' E. destruct (AgentCron.delete_in id (jobs_of jobs)) as [l|] eqn:El; [|done].
    injection E as <-. exists l. split; [done|]. by apply delete_in_spec.
Qed.

(** ** The inventory *)

Lemma list_sources_quiet dir entries found s : quiet command resolves c (AgentCron.list_sources c dir entries found) (fun _ _ => True) s.
Proof.
  revert found s. induction entries as [|entry entries IH]; intros found s; cbn [AgentCron.list_sources]; [by apply quiet_ret|].
  apply quiet_pure; [apply (pure_calls command resolves _ 0 "")|]. intros [info|e] _; [|apply IH].
  destruct (negb (fi_Regular info)); [apply IH|].
  apply quiet_pure; [by intros s1 b s2 [-> _]|]. intros [text|e] _; [|apply IH].
  destruct (maxCronStateBytes <? len text); apply IH.
Qed.

Lemma Inventory_quiet s :
  quiet command resolves c (AgentCron.Inventory c)
    (fun r _ => match r with Ok i => stored c s (inv_Jobs i) /\ inv_Revision i = cronRevision (inv_Jobs i) | Err _ => True end) s.
Proof.
  unfold AgentCron.Inventory. destruct (negb (crn_allowRead c)); [by apply quiet_ret|].
  eapply quiet_seq; [by apply loadJobs_quiet|]. intros [jobs|e] s1 _ Hj; [|by apply quiet_ret]. destruct Hj as [Hj _].
  eapply (quiet_seq _ _ _ _ _ (fun _ _ => True)).
  { unfold AgentCron.sources. cbv zeta. apply quiet_pure; [by intros s2 b s3 [-> _]|]. intros r _.
    destruct (match r with Ok entries => Ok entries | Err e => if os_missing e then Ok [] else Err (os_fail e) end);
      [|by apply quiet_ret].
    eapply quiet_seq; [apply list_sources_quiet|]. intros found s2 _ _.
    apply quiet_pure; [by apply run_pure|]. intros root _. by apply quiet_ret. }
  intros [sources|e] s2 _ _; [|by apply quiet_ret]. cbn [on_ok].
  unfold AgentCron.serviceState. apply quiet_pure; [by apply run_pure|]. intros r _. by apply quiet_ret.
Qed.
End changing.

(** ** A host with cron, at the default paths *)

#[local] Existing Instance no_faults.

Definition sample_cron : cronController :=
  mkCron true true true "/etc/hserver/cron-jobs.json" "/etc/cron.d/hserver-managed" "/run/lock/hserver-cron.lock"
    "/usr/bin/crontab" "/usr/sbin/runuser" "/bin/bash" "cron.service".
Definition sample_job : cronTaskJob := mkCronTaskJob "" "0 3 * * *" "backup" "/usr/local/bin/backup" "nightly" true.
Definition no_change (items : list (string * time)) : list (string * time) := items.
Definition cron_answers (name : string) (args : list string) : result string string := Ok "".
Notation cron_command := (command_of cron_answers).
Notation cron_run p s := (run_on cron_answers ["backup"] 0 p s).

Lemma cron_leaves name args s r s' : cron_command name args s r s' -> s' = s.
Proof. by intros [-> _]. Qed.

Lemma no_change_sorts items : no_change items ⊆ items.
Proof. done. Qed.

Lemma sample_backups path : in_backups sample_cron path -> HasPrefix path "/etc/hserver/backups/cron/" = true.
Proof.
  intros (name & [(H1 & H2 & H3) Hs] & ->). change (AgentCron.backup_dir sample_cron) with "/etc/hserver/backups/cron".
  unfold Join. rewrite (filter_cons_True _ _ _) by done. rewrite (filter_cons_True _ _ _) by done.
  change (filter (fun e : string => e <> "") []) with (@nil string). cbv iota beta.
  set (comps := [""; "etc"; "hserver"; "backups"; "cron"; name]).
  change (join slash ["/etc/hserver/backups/cron"; name]) with (join slash comps).
  unfold Clean. change (IsAbs (join slash comps)) with true. cbv iota.
  rewrite split_join; [|done|]; [|unfold comps; repeat (apply Forall_cons; split; [done || (apply (bool_decide_unpack _); by vm_compute)|]); done].
  assert (clean_go true comps [] = reverse (tail comps)) as ->.
  { cbn. by rewrite (proj2 (String.eqb_neq _ _) H1), (proj2 (String.eqb_neq _ _) H2), (proj2 (String.eqb_neq _ _) H3). }
  by rewrite reverse_involutive.
Qed.

Lemma sample_layout : cron_layout sample_cron.
Proof.
  split.
  - done.
  - done.
  - split; intros H%sample_backups; by vm_compute in H.
  - split; apply (bool_decide_unpack _); by vm_compute.
Qed.

Definition empty_revision : string := Eval vm_compute in cronRevision (Some []).
Notation sample_create := (change_prog sample_cron "/tmp" no_change (CreateJob sample_job) empty_revision).

Lemma sample_created : (cron_run sample_create ∅).1 = Ok tt.
Proof. vm_compute. reflexivity. Qed.

Lemma cron_reaches {A} (p : prog sys A) s r : (cron_run p s).1 = r -> reaches cron_command eq p s (Ret r) (cron_run p s).2.
Proof. intros <-. apply (run_on_reaches cron_answers ["backup"] 0), surjective_pairing. Qed.

(** ** Claims *)

(** C12. Wherever a change of the cron jobs stops, in a crash as well, the state
    file and the cron file are both as before, both new, or the cron file alone
    is new, and complete; every other file that is no backup is as it was.  A
    file only becomes new after the revision and every job of the change were
    checked. *)
Theorem cron_change_crash `{Host} command resolves c TempDir newest_first change revision s0 p s :
  (forall name args s r s', command name args s r s' -> s' = s) ->
  cron_layout c -> (forall items, newest_first items ⊆ items) ->
  reaches command resolves (change_prog c TempDir newest_first change revision) s0 p s ->
  noise c s0 s
  \/ exists jobs jobs', changed c change revision s0 jobs jobs' /\ phase c (state_text (Some jobs')) (rendered c jobs') s0 s.
Proof.
  intros Hc Hl Hs Hr.
  apply (wp_sound _ _ _ _ _ _ _ _ (change_wp command resolves c TempDir newest_first Hc Hl Hs change revision s0) Hr).
Qed.

(** C13. A change answered without error is carried out in full: the named
    revision was that of the stored jobs, the new jobs are the old ones with the
    one created, replaced or removed, at most 256 valid ones, and both files hold
    them.  After an error the state file is as before, and so is the cron file
    unless the host is faulty, so that putting it back may fail. *)
Theorem cron_change_answer `{Host} command resolves c TempDir newest_first change revision s0 r s :
  (forall name args s r s', command name args s r s' -> s' = s) ->
  cron_layout c -> (forall items, newest_first items ⊆ items) ->
  reaches command resolves (change_prog c TempDir newest_first change revision) s0 (Ret r) s ->
  (noise c s0 s /\ exists e, r = Err e)
  \/ exists jobs jobs', changed c change revision s0 jobs jobs'
       /\ saved c (state_text (Some jobs')) (rendered c jobs') s0 r s.
Proof.
  intros Hc Hl Hs Hr.
  by apply (wp_sound _ _ _ _ _ _ _ _ (change_wp command resolves c TempDir newest_first Hc Hl Hs change revision s0) Hr).
Qed.

(** C14. What a change stored is what the next inventory shows: after a change
    succeeded, an inventory that is answered lists exactly the new jobs, field by
    field, with the revision the next change has to name, as long as their texts
    are UTF-8 (the state is written as JSON). *)
Theorem cron_inventory_roundtrip `{Host} command resolves c TempDir newest_first change revision s0 s inventory s' :
  (forall name args s r s', command name args s r s' -> s' = s) ->
  cron_layout c -> (forall items, newest_first items ⊆ items) ->
  reaches command resolves (change_prog c TempDir newest_first change revision) s0 (Ret (Ok tt)) s ->
  reaches command resolves (AgentCron.Inventory c) s (Ret (Ok inventory)) s' ->
  exists old new, changed c change revision s0 old new
    /\ (Forall job_utf8 new -> inv_Jobs inventory = Some new /\ inv_Revision inventory = cronRevision (Some new)).
Proof.
  intros Hc Hl Hs Hr Hi.
  destruct (wp_sound _ _ _ _ _ _ _ _ (change_wp command resolves c TempDir newest_first Hc Hl Hs change revision s0) Hr) as [_ Ha].
  destruct (Ha _ eq_refl) as [[_ [e [=]]]|(old & new & Hch & _ & Hnew)].
  destruct (wp_sound _ _ _ _ _ _ _ _ (Inventory_quiet command resolves c Hc s) Hi) as [_ Hq].
  destruct (Hq _ eq_refl) as (_ & Hst & Hrev). exists old, new. split; [done|]. intros Hu.
  injection Hnew as Hnew _. unfold content_of in Hnew. unfold stored in Hst.
  destruct (s !! crn_statePath c) as [[text perm uid gid| | |]|]; try done. injection Hnew as ->.
  destruct Hst as [_ Hd]. rewrite state_roundtrip in Hd by done. injection Hd as Hd. by rewrite Hrev, <-Hd.
Qed.

(** C15. The cron file runs nothing but the jobs: its lines are the three of the
    header and, for every job, a blank line, a comment and its one line, so that
    a line after the header that is no comment is the line of an enabled job,
    in the order of the jobs.  No field of a job can add a line. *)
Theorem cron_file_lines jobs shell :
  one_line shell -> Forall (fun job => cron_fields_ok job true = true) jobs ->
  split newline (renderCronJobs jobs shell)
  = header_lines shell ++ flat_map (fun job => [""; comment_line job; entry_line job]) jobs ++ [""]
  /\ List.filter runs_line (drop 3 (split newline (renderCronJobs jobs shell)))
     = List.filter runs_line (List.map job_line (List.filter cron_Enabled jobs)).
Proof.
  intros Hs Hj. rewrite rendered_lines by done. split; [done|]. cbn [header_lines app drop]. apply rendered_entries.
Qed.

(** ** Witnesses *)

Lemma cron_change_crash_witness :
  noise sample_cron ∅ (cron_run sample_create ∅).2
  \/ exists jobs jobs', changed sample_cron (CreateJob sample_job) empty_revision ∅ jobs jobs'
       /\ phase sample_cron (state_text (Some jobs')) (rendered sample_cron jobs') ∅ (cron_run sample_create ∅).2.
Proof.
  apply (cron_change_crash cron_command eq sample_cron "/tmp" no_change (CreateJob sample_job) empty_revision ∅ (Ret (Ok tt))).
  - exact cron_leaves.
  - exact sample_layout.
  - exact no_change_sorts.
  - exact (cron_reaches _ _ _ sample_created).
Defined.

Lemma cron_change_answer_witness :
  (noise sample_cron ∅ (cron_run sample_create ∅).2 /\ exists e, @Ok error unit tt = Err e)
  \/ exists jobs jobs', changed sample_cron (CreateJob sample_job) empty_revision ∅ jobs jobs'
       /\ saved sample_cron (state_text (Some jobs')) (rendered sample_cron jobs') ∅ (Ok tt)
            (cron_run sample_create ∅).2.
Proof.
  apply (cron_change_answer cron_command eq sample_cron "/tmp" no_change (CreateJob sample_job) empty_revision ∅ (Ok tt)).
  - exact cron_leaves.
  - exact sample_layout.
  - exact no_change_sorts.
  - exact (cron_reaches _ _ _ sample_created).
Defined.

Definition shown (r : answer cronInventory) : cronInventory :=
  match r with Ok i => i | Err _ => mkCronInventory "" None [] "" end.
Notation sample_inventory := (cron_run (AgentCron.Inventory sample_cron) (cron_run sample_create ∅).2).

Lemma sample_shown : sample_inventory.1 = Ok (shown sample_inventory.1).
Proof. vm_compute. reflexivity. Qed.

Lemma cron_inventory_roundtrip_witness :
  exists old new, changed sample_cron (CreateJob sample_job) empty_revision ∅ old new
    /\ (Forall job_utf8 new -> inv_Jobs (shown sample_inventory.1) = Some new
         /\ inv_Revision (shown sample_inventory.1) = cronRevision (Some new)).
Proof.
  apply (cron_inventory_roundtrip cron_command eq sample_cron "/tmp" no_change (CreateJob sample_job) empty_revision ∅
           (cron_run sample_create ∅).2 (shown sample_inventory.1) sample_inventory.2).
  - exact cron_leaves.
  - exact sample_layout.
  - exact no_change_sorts.
  - exact (cron_reaches _ _ _ sample_created).
  - exact (cron_reaches _ _ _ sample_shown).
Defined.

Definition listed_job : cronTaskJob := with_id "cron-0123456789ab" sample_job.

Lemma cron_file_lines_witness :
  split newline (renderCronJobs [listed_job] "/bin/bash")
  = header_lines "/bin/bash" ++ [""; comment_line listed_job; entry_line listed_job; ""]
  /\ List.filter runs_line (drop 3 (split newline (renderCronJobs [listed_job] "/bin/bash"))) = [job_line listed_job].
Proof.
  apply (cron_file_lines [listed_job] "/bin/bash").
  - apply (bool_decide_unpack _). vm_compute. exact I.
  - apply Forall_cons. split; [vm_compute; reflexivity|constructor].
Defined.

(** ** Limits of the state file *)

(** A change may store jobs whose state file is too long to be read again:
    [saveJobs] does not compare it with [maxCronStateBytes]. *)
Definition long_job : cronTaskJob :=
  mkCronTaskJob "cron-0123456789ab" "0 3 * * *" "backup" (String.string_of_list_ascii (repeat "a"%char 4096)) "" true.

Lemma len_String a s : len (String a s) = 1 + len s.
Proof. unfold len. simpl String.length. lia. Qed.

Lemma len_join_repeat text n : Z.of_nat n * len text <= len (join comma (repeat text n)).
Proof.
  induction n as [|n IH]; [done|]. destruct n as [|n]; [simpl; lia|].
  change (join comma (repeat text (S (S n)))) with (text +:+ String comma (join comma (repeat text (S n)))).
  rewrite len_app, len_String. lia.
Qed.

Lemma state_text_long job n :
  Z.of_nat (S n) * len (marshal_indent 1 (job_json job)) <= len (state_text (Some (repeat job (S n)))).
Proof.
  unfold state_text, jobs_json. rewrite len_app.
  assert (job_json <$> repeat job (S n) = repeat (job_json job) (S n)) as -> by apply map_repeat.
  cbn [marshal_indent repeat]. change (job_json job :: repeat (job_json job) n) with (repeat (job_json job) (S n)).
  set (f := fun e => margin 1 +:+ marshal_indent 1 e).
  assert (f <$> repeat (job_json job) (S n) = repeat (f (job_json job)) (S n)) as -> by apply map_repeat.
  rewrite len_String, len_app. pose proof (len_join_repeat (f (job_json job)) (S n)) as Hl. unfold f in Hl at 1.
  rewrite len_app in Hl. pose proof (len_nonneg (margin 1)). pose proof (len_nonneg (margin 0 +:+ String rbrack "")).
  pose proof (len_nonneg (String newline "")). nia.
Qed.

Lemma state_outgrows_limit :
  let jobs := repeat long_job 256 in
  (length jobs <= maxCronJobs)%nat /\ Forall (fun job => cron_fields_ok job true = true) jobs
  /\ maxCronStateBytes < len (state_text (Some jobs)).
Proof.
  cbv zeta. split_and!.
  - rewrite repeat_length. done.
  - apply Forall_forall. intros job ->%list_elem_of_In%repeat_spec. vm_compute. reflexivity.
  - eapply Z.lt_le_trans; [|apply (state_text_long long_job 255)].
    assert (4200 < len (marshal_indent 1 (job_json long_job))) by (vm_compute; reflexivity).
    change maxCronStateBytes with 1048576. lia.
Qed.

(** A job whose user is gone cannot be deleted: the stored jobs are validated
    before every change. *)
Definition orphan_state : fs :=
  {["/etc/hserver/cron-jobs.json" := File (state_text (Some [listed_job])) 384 0 0]}.

Lemma orphan_job_blocks :
  (run_on cron_answers [] 0
     (AgentCron.Delete sample_cron "/tmp" no_change "cron-0123456789ab" (cronRevision (Some [listed_job]))) orphan_state).1
  = Err cron_user_unknown.
Proof. vm_compute. reflexivity. Qed.
