(* ===== verification/AgentServices.v ===== *)
(** * Controllers that run commands: [service.go], [containers.go], [logs.go] and [pm2.go] of [cmd/hserver-agent]

    Services, containers, the journal and PM2 are observed and driven by
    commands; their output is bounded and read line by line or as JSON. *)

From stdpp Require Import base strings gmap list.
From Stdlib Require Import ZArith Lia Ascii.
From S2P Require Import Prelude GoStrings GoJson GoTime GoFloat GoSha256 GoTyped HubTypes TaskGate IntegrationStatus AgentConfig AgentTasks HostFiles AgentEditors AgentPHP.
Local Open Scope Z_scope.
Local Open Scope hub_scope.

(** ** Running a command: [service.go] *)

Definition maxCommandOutputBytes : Z := Z.shiftl 512 10.

(** [boundedBuffer.Write]: the bytes kept, and whether all were taken. *)
Definition bounded_write (bytes data : string) : string * bool :=
  let remaining := maxCommandOutputBytes - len bytes in
  if remaining <=? 0 then (bytes, false)
  else if remaining <? len data then (bytes +:+ stake (Z.to_nat remaining) data, false)
  else (bytes +:+ data, true).

(** The pieces a process writes, in order; one that is not taken fails the
    command, with this text. *)
Fixpoint collect (bytes : string) (pieces : list string) : result string string :=
  match pieces with
  | [] => Ok bytes
  | piece :: rest =>
      match bounded_write bytes piece with
      | (bytes', true) => collect bytes' rest
      | (_, false) => Err "command output exceeds size limit"
      end
  end.

(** [execRunner.run] of a process that writes [pieces] and ends with [failure]. *)
Definition exec_run (pieces : list string) (failure : option string) : result string string :=
  match failure with Some text => Err text | None => collect "" pieces end.

(** [bufio.Scanner] with [maxCommandOutputBytes] of buffer: the lines before one
    that is too long, and whether there was one. *)
Definition carriage_return : ascii := of_byte 13.

Definition drop_cr (line : string) : string := TrimSuffix line (String carriage_return "").

Fixpoint scan_all (lines : list string) : list string * bool :=
  match lines with
  | [] | [""] => ([], false)
  | line :: rest =>
      if maxCommandOutputBytes <=? len line then ([], true)
      else let '(tokens, failed) := scan_all rest in (drop_cr line :: tokens, failed)
  end.

Definition scan_lines (output : string) : list string * bool := scan_all (split newline output).

Definition token_too_long : string := "bufio.Scanner: token too long".

(** Values of the lines, at most [limit] of them; the scan stops there. *)
Fixpoint scan_values {A} (value : string -> option A) (limit : nat) (tokens : list string) (values : list A) : list A * bool :=
  match tokens with
  | [] => (values, false)
  | token :: rest =>
      match value token with
      | None => scan_values value limit rest values
      | Some v =>
          let values' := values ++ [v] in
          if Nat.eqb (length values') limit then (values', true) else scan_values value limit rest values'
      end
  end.

(** A line that is too long is an error unless the limit was reached before it. *)
Definition parse_lines {A} (value : string -> option A) (limit : nat) (failure output : string) : answer (list A) :=
  let '(tokens, failed) := scan_lines output in
  let '(values, full) := scan_values value limit tokens [] in
  if failed && negb full then Err (errors_New (failure +:+ token_too_long)) else Ok values.

(** A command whose failure is returned behind a text. *)
Definition running {A} (before name : string) (args : list string) (k : string -> prog sys (answer A)) : prog sys (answer A) :=
  do! r := run_command name args in
  match r with Err text => Ret (Err (errors_New (before +:+ text))) | Ok output => k output end.

(** ** Services *)

Definition service_status (service : string) : prog sys (answer AgentTasks.serviceState) :=
  if negb (servicePattern service) then Ret (Err (errors_New "invalid service name"))
  else
    running "systemctl status failed: " "systemctl" ["show"; "--property=ActiveState,SubState"; "--value"; service] (fun output =>
      Ret (match split newline (TrimSpace output) with
           | [active; sub] =>
               if active =?s "" then Err (errors_New "systemctl returned an invalid status") else Ok (AgentTasks.mkServiceState service active sub)
           | _ => Err (errors_New "systemctl returned an invalid status")
           end)).

Definition service_action (service action : string) : prog sys (answer unit) :=
  if negb (servicePattern service) then Ret (Err (errors_New "invalid service name"))
  else if negb (existsb (String.eqb action) ["start"; "stop"; "restart"])
  then Ret (Err (errors_New "unsupported service action"))
  else running "systemctl action failed: " "systemctl" [action; service] (fun _ => Ret (Ok tt)).

(** ** Containers: [containers.go] *)

Definition maxContainers : nat := 256.

Record containerState : Type := mkContainer {
  ctr_ID : string; ctr_Name : string; ctr_Image : string; ctr_State : string; ctr_Status : string; ctr_Ports : string }.

Record containerController : Type := mkContainers { ctc_allowRead : bool; ctc_allowedActions : gset string }.

Definition newContainerController (allowRead : bool) (allowedActions : gset string) : containerController :=
  mkContainers allowRead allowedActions.

Definition container_row : gotype :=
  GStruct [("ID", GString); ("Names", GString); ("Image", GString); ("State", GString); ("Status", GString); ("Ports", GString)].

Definition container_of (line : string) : option containerState :=
  row ← Unmarshal container_row line;
  let text := string_field container_row row in
  if text "ID" =?s "" then None
  else Some (mkContainer (text "ID") (text "Names") (text "Image") (text "State") (text "Status") (text "Ports")).

Definition parseContainerStates (output : string) : answer (list containerState) :=
  parse_lines container_of maxContainers "parse docker container list: " output.

Definition container_list (c : containerController) : prog sys (answer (list containerState)) :=
  if negb (ctc_allowRead c) then Ret (Err (errors_New "container inventory is not enabled locally"))
  else
    running "docker container list failed: " "docker" ["ps"; "-a"; "--no-trunc"; "--format"; "{{json .}}"] (fun output =>
      Ret (parseContainerStates output)).

Definition container_probe (c : containerController) : prog sys (string * option error) :=
  if negb (ctc_allowRead c) then Ret (NotConfigured, Some (errors_New "Docker integration is not configured locally"))
  else
    do! r := run_command "docker" ["info"] in
    Ret (match r with
         | Err _ => (Unavailable, Some (errors_New "Docker status probe failed"))
         | Ok _ => (Healthy, None)
         end).

Definition container_action (c : containerController) (container action : string) : prog sys (answer string) :=
  if negb (agentContainerNamePattern container) then Ret (Err (errors_New "invalid container identity"))
  else if negb (bool_decide (action ∈ ctc_allowedActions c))
  then Ret (Err (errors_New "container action is not in the local allowlist"))
  else
    running ("docker container " +:+ action +:+ " failed: ") "docker" [action; "--"; container] (fun _ =>
      Ret (Ok ("Container " +:+ action +:+ " completed for " +:+ container))).

(** ** The journal: [logs.go] *)

Definition defaultLogLines : Z := 200.
Definition maxLogLines : Z := 500.

Definition journalUnits : gmap string string :=
  {["system" := ""; "nginx" := "nginx.service"; "php" := "php*-fpm.service"; "mariadb" := "mariadb.service";
    "postgresql" := "postgresql*.service"; "pm2" := "pm2-*.service"; "docker" := "docker.service"]}.

Record journalEntry : Type := mkEntry { jrn_Timestamp : string; jrn_Unit : string; jrn_Priority : Z; jrn_Message : string }.

Definition journal_row : gotype :=
  GStruct [("__REALTIME_TIMESTAMP", GString); ("_SYSTEMD_UNIT", GString); ("SYSLOG_IDENTIFIER", GString); ("PRIORITY", GString);
           ("MESSAGE", GString)].

Definition journal_entry (line : string) : option journalEntry :=
  row ← Unmarshal journal_row line;
  let text := string_field journal_row row in
  if text "MESSAGE" =?s "" then None
  else
    let unit_ := if text "_SYSTEMD_UNIT" =?s "" then text "SYSLOG_IDENTIFIER" else text "_SYSTEMD_UNIT" in
    let stamp := match ParseInt (text "__REALTIME_TIMESTAMP") with
                 | Some micros => FormatRFC3339Nano (micros * 1000)
                 | None => text "__REALTIME_TIMESTAMP"
                 end in
    Some (mkEntry stamp unit_ (Atoi_value (text "PRIORITY")) (text "MESSAGE")).

Definition parseJournalEntries (output : string) (limit : Z) : answer (list journalEntry) :=
  parse_lines journal_entry (Z.to_nat limit) "parse journal output: " output.

Definition journal_read (allowed : gset string) (source : string) (lines : Z) : prog sys (answer (list journalEntry)) :=
  match journalUnits !! source with
  | Some unit_ =>
      if negb (bool_decide (source ∈ allowed)) then Ret (Err (errors_New "log source is not in the local allowlist"))
      else
        let lines := if lines <? 1 then defaultLogLines else lines in
        if maxLogLines <? lines then Ret (Err (errors_New ("log line count exceeds " +:+ Itoa maxLogLines)))
        else
          let args := ["--no-pager"; "-o"; "json"; "--lines=" +:+ Itoa lines] ++ (if unit_ =?s "" then [] else ["-u"; unit_]) in
          running "journalctl read failed: " "journalctl" args (fun output => Ret (parseJournalEntries output lines))
  | None => Ret (Err (errors_New "log source is not in the local allowlist"))
  end.

(** ** PM2: [pm2.go] *)

Definition maxPM2Processes : nat := 512.

Record pm2Process : Type := mkPM2Process {
  pm_ID : Z; pm_Name : string; pm_Status : string; pm_PID : Z; pm_CPU : float64; pm_Memory : Z; pm_Uptime : Z;
  pm_Restarts : Z; pm_Mode : string; pm_CWD : string; pm_Script : string; pm_Version : string }.

Definition monit_type : gotype := GStruct [("cpu", GFloat64); ("memory", GInt)].
Definition environment_type : gotype :=
  GStruct [("status", GString); ("pm_uptime", GInt); ("restart_time", GInt); ("exec_mode", GString); ("pm_cwd", GString);
           ("pm_exec_path", GString); ("version", GString)].
Definition pm2RawProcess : gotype :=
  GStruct [("pm_id", GInt); ("name", GString); ("pid", GInt); ("monit", monit_type); ("pm2_env", environment_type)].

(** [truncateUTF8] of [inventory.go]. *)
Fixpoint shorten (fuel : nat) (value : string) : string :=
  match fuel with
  | O => value
  | S fuel' => if valid_utf8 value then value else shorten fuel' (stake (String.length value - 1) value)
  end.

Definition truncateUTF8 (value : string) (maxBytes : nat) : string :=
  if Nat.leb (String.length value) maxBytes then value else shorten maxBytes (stake maxBytes value).

Definition pm2_process (item : goval) : pm2Process :=
  let monit := default (zero monit_type) (field pm2RawProcess item "monit") in
  let env := default (zero environment_type) (field pm2RawProcess item "pm2_env") in
  let text := string_field environment_type env in
  let number := int_field environment_type env in
  mkPM2Process (int_field pm2RawProcess item "pm_id") (truncateUTF8 (string_field pm2RawProcess item "name") 128)
    (truncateUTF8 (text "status") 64) (int_field pm2RawProcess item "pid")
    (match field monit_type monit "cpu" with Some (VFloat f) => f | _ => f_zero end)
    (int_field monit_type monit "memory") (number "pm_uptime") (number "restart_time") (truncateUTF8 (text "exec_mode") 128)
    (truncateUTF8 (text "pm_cwd") 4096) (truncateUTF8 (text "pm_exec_path") 4096) (truncateUTF8 (text "version") 128).

Record pm2Controller : Type := mkPM2Controller {
  pmc_allowRead : bool; pmc_allowedActions : gset string; pmc_binary : string; pmc_home : string; pmc_user : string }.

Definition newPM2Controller (allowRead : bool) (allowedActions : gset string) (binary home user : string) : pm2Controller :=
  mkPM2Controller allowRead allowedActions binary home user.

Section pm2.
(** [decode_error] is the text of a decoding error. *)
Context (decode_error : string -> string) (c : pm2Controller).

Definition pm2_command (args : list string) : string * list string :=
  let environment := "PM2_HOME=" +:+ pmc_home c in
  if pmc_user c =?s "root" then ("env", [environment; pmc_binary c] ++ args)
  else ("runuser", ["-u"; pmc_user c; "--"; "env"; environment; pmc_binary c] ++ args).

Definition runLocked (args : list string) : prog sys (result string string) :=
  Call (HostFiles.Stat (pmc_binary c)) (fun found =>
    if negb (runnable found) then Ret (Err "configured PM2 binary is unavailable")
    else run_command (pm2_command args).1 (pm2_command args).2).

Definition pm2_running {A} (before : string) (args : list string) (k : string -> prog sys (answer A)) : prog sys (answer A) :=
  do! r := runLocked args in
  match r with Err text => Ret (Err (errors_New (before +:+ text))) | Ok output => k output end.

Definition pm2_list : prog sys (answer (list pm2Process)) :=
  if negb (pmc_allowRead c) then Ret (Err (errors_New "PM2 inventory is not enabled locally"))
  else
    pm2_running "PM2 inventory failed: " ["jlist"] (fun output =>
      Ret (match Unmarshal (GSlice pm2RawProcess) output with
           | None => Err (errors_New ("parse PM2 inventory: " +:+ decode_error output))
           | Some raw =>
               if Nat.ltb maxPM2Processes (length (items_of raw)) then Err (errors_New "PM2 inventory exceeds 512 processes")
               else Ok (map pm2_process (items_of raw))
           end)).

Definition pm2_probe : prog sys (string * option error) :=
  let not_configured text := Ret (NotConfigured, Some (errors_New text)) in
  let unavailable text := Ret (Unavailable, Some (errors_New text)) in
  if negb (pmc_allowRead c) || (pmc_binary c =?s "") || (pmc_home c =?s "") || (pmc_user c =?s "")
  then not_configured "PM2 integration is not configured locally"
  else
    Call (HostFiles.Stat (pmc_binary c)) (fun found =>
      if negb (runnable found) then not_configured "configured PM2 binary is unavailable"
      else
        do! r := runLocked ["jlist"] in
        match r with
        | Err _ => unavailable "PM2 status probe failed"
        | Ok output =>
            if maxCommandOutputBytes <? len output then unavailable "PM2 status probe output exceeded the limit"
            else if negb (HasPrefix (TrimSpace output) "[") || match unmarshal output with Some (JArr _) => false | _ => true end
            then unavailable "PM2 status probe returned invalid JSON"
            else Ret (Healthy, None)
        end).

Definition pm2_logs (name : string) (lines : Z) : prog sys (answer string) :=
  if negb (pmc_allowRead c) then Ret (Err (errors_New "PM2 log reading is not enabled locally"))
  else if negb (agentPM2NamePattern name) || (lines <? 1) || (500 <? lines) then Ret (Err (errors_New "invalid PM2 log request"))
  else
    pm2_running "PM2 process lookup failed: " ["describe"; name] (fun _ =>
      pm2_running "PM2 log read failed: " ["logs"; name; "--nostream"; "--raw"; "--lines"; Itoa lines] (fun output => Ret (Ok output))).

Definition pm2_action (name action : string) : prog sys (answer string) :=
  if negb (agentPM2NamePattern name) then Ret (Err (errors_New "invalid PM2 process name"))
  else if negb (bool_decide (action ∈ pmc_allowedActions c)) then Ret (Err (errors_New "PM2 action is not in the local allowlist"))
  else
    pm2_running "PM2 process lookup failed: " ["describe"; name] (fun _ =>
      pm2_running ("PM2 " +:+ action +:+ " failed: ") [action; name; "--update-env"] (fun _ =>
        pm2_running "PM2 action completed but process-list save failed: " ["save"; "--force"] (fun _ =>
          Ret (Ok ("PM2 process " +:+ action +:+ " completed and process list saved"))))).
End pm2.
