(* ===== verification/AgentDatabases.v ===== *)
(** * The database controller: [database.go] of [cmd/hserver-agent]

    MariaDB and PostgreSQL are observed by queries, whose answers are lines of
    fields, and restarted, with a check that the engine answers again. *)

From stdpp Require Import base strings gmap list.
From Stdlib Require Import ZArith Lia Ascii.
From S2P Require Import Prelude GoStrings GoJson GoTime HubTypes TaskGate IntegrationStatus AgentConfig AgentTasks AgentFirewall HostFiles AgentServices.
Local Open Scope Z_scope.
Local Open Scope hub_scope.

Definition maxDatabaseRows : nat := 512.

Definition mariaDatabaseQuery : string :=
  "select s.schema_name,coalesce(sum(t.data_length+t.index_length),0),count(t.table_name),coalesce((select count(*) from information_schema.processlist p where p.db=s.schema_name),0) from information_schema.schemata s left join information_schema.tables t on t.table_schema=s.schema_name where s.schema_name not in ('information_schema','performance_schema','mysql','sys') group by s.schema_name order by 2 desc".
Definition mariaSessionQuery : string :=
  "select id,user,coalesce(db,''),command,time,coalesce(state,''),replace(replace(left(coalesce(info,''),240),'\n',' '),'\r',' ') from information_schema.processlist where id<>connection_id() order by time desc limit 50".
Definition postgresDatabaseQuery : string :=
  "select d.datname,pg_database_size(d.datname),0,coalesce(s.numbackends,0) from pg_database d left join pg_stat_database s on s.datid=d.oid where d.datistemplate=false order by 2 desc".
Definition postgresSessionQuery : string :=
  "select pid,usename,coalesce(datname,''),state,greatest(0,extract(epoch from now()-coalesce(query_start,backend_start))::int),replace(replace(left(coalesce(query,''),240),E'\n',' '),E'\r',' ') from pg_stat_activity where pid<>pg_backend_pid() order by 5 desc limit 50".

Record managedDatabase : Type := mkDatabase { db_Name : string; db_Size : Z; db_Connections : Z; db_Objects : Z }.

Record managedDatabaseSession : Type := mkSession {
  dbs_ID : string; dbs_User : string; dbs_Database : string; dbs_State : string; dbs_Age : Z; dbs_Query : string }.

Record managedDatabaseEngine : Type := mkEngine {
  eng_ID : string; eng_Name : string; eng_Version : string; eng_Unit : string; eng_Active : string; eng_DataSize : Z;
  eng_Databases : list managedDatabase; eng_Sessions : list managedDatabaseSession }.

Record databaseController : Type := mkDatabases {
  dbc_allowRead : bool; dbc_allowedRestarts : gset string; dbc_mariadb : string; dbc_mariadbAdmin : string;
  dbc_pgClusters : string; dbc_psql : string; dbc_pgIsReady : string; dbc_runuser : string }.

Definition newDatabaseController (allowRead : bool) (allowedRestarts : gset string)
    (mariadb mariadbAdmin pgClusters psql pgIsReady runuser : string) : databaseController :=
  mkDatabases allowRead allowedRestarts mariadb mariadbAdmin pgClusters psql pgIsReady runuser.

(** ** Rows *)

Definition tab : ascii := of_byte 9.

(** Rows until an empty line or [limit] of them; lines without a value are
    skipped. *)
Fixpoint take_rows {A} (value : list string -> option A) (limit : nat) (lines : list string) (rows : list A) : list A :=
  match lines with
  | [] => rows
  | raw :: rest =>
      if (raw =?s "") || Nat.leb limit (length rows) then rows
      else take_rows value limit rest (match value (split tab raw) with Some row => rows ++ [row] | None => rows end)
  end.

Definition database_row (parts : list string) : option managedDatabase :=
  match parts with
  | name :: size :: objects :: connections :: _ =>
      if (128 <? len name) || ContainsAny name line_breaks then None
      else
        size ← ParseInt size; objects ← Atoi objects; connections ← Atoi connections;
        if (size <? 0) || (objects <? 0) || (connections <? 0) then None else Some (mkDatabase name size connections objects)
  | _ => None
  end.

Definition parseManagedDatabases (output : string) : list managedDatabase :=
  take_rows database_row maxDatabaseRows (split newline (TrimSpace output)) [].

(** The fields of a session: [maria] has a separate state. *)
Definition session_fields (maria : bool) (parts : list string) : option (string * string * string * string * string * string) :=
  match maria, parts with
  | true, id :: user :: database :: command :: age :: state :: query :: _ =>
      Some (id, user, database, (if state =?s "" then command else command +:+ " · " +:+ state), age, query)
  | false, id :: user :: database :: state :: age :: query :: _ => Some (id, user, database, state, age, query)
  | _, _ => None
  end.

Definition session_row (maria : bool) (parts : list string) : option managedDatabaseSession :=
  '(id, user, database, state, age, query) ← session_fields maria parts;
  age ← Atoi age;
  if (age <? 0) || (64 <? len id) || (128 <? len user) || (128 <? len database) || (256 <? len state) || (240 <? len query)
  then None else Some (mkSession id user database state age query).

Definition parseDatabaseSessions (output : string) (maria : bool) : list managedDatabaseSession :=
  take_rows (session_row maria) 50 (split newline (TrimSpace output)) [].

Definition sumDatabaseSize (databases : list managedDatabase) : Z :=
  foldl (fun total database => if db_Size database <=? max_int64 - total then total + db_Size database else total) 0 databases.

Definition stateOrUnknown (output : string) : string :=
  let state := TrimSpace output in
  if negb (state =?s "") && (len state <=? 32) then state else "unknown".

(** ** Clusters of PostgreSQL *)

Record postgresCluster : Type := mkCluster { clu_version : string; clu_name : string; clu_port : string }.

Definition validNumericVersion (value : string) : bool :=
  let parts := split "."%char value in
  if Nat.ltb 3 (length parts) || (value =?s "") then false
  else forallb (fun part => negb (part =?s "") && match Atoi part with Some _ => true | None => false end) parts.

(** Missing parts count as 0; the difference is a 64-bit one. *)
Fixpoint compare_parts (l r : list string) : Z :=
  let value s := Atoi_value s in
  match l, r with
  | [], [] => 0
  | a :: l', [] => if value a =? 0 then compare_parts l' [] else value a
  | [], b :: r' => if value b =? 0 then (fix rest r := match r with [] => 0 | b :: r' => if value b =? 0 then rest r' else wrap_int64 (- value b) end) r'
                   else wrap_int64 (- value b)
  | a :: l', b :: r' => if value a =? value b then compare_parts l' r' else wrap_int64 (value a - value b)
  end.

Definition compareNumericVersion (left right : string) : Z := compare_parts (split "."%char left) (split "."%char right).

Definition cluster_of (line : string) : option postgresCluster :=
  match Fields line with
  | version :: name :: port :: status :: _ =>
      if negb (status =?s "online") || negb (validNumericVersion version) || negb (agentNginxConfigNamePattern name) then None
      else
        number ← Atoi port;
        if (number <? 1) || (65535 <? number) then None else Some (mkCluster version name port)
  | _ => None
  end.

Definition newer (a b : postgresCluster) : bool := 0 <? compareNumericVersion (clu_version a) (clu_version b).

Section controller.
(** [sort_Slice] leaves clusters of one version in any order. *)
Context (sort_Slice : (postgresCluster -> postgresCluster -> bool) -> list postgresCluster -> list postgresCluster).
Context (c : databaseController).

Definition selectPostgresCluster (output : string) : option postgresCluster :=
  head (sort_Slice newer (omap cluster_of (split newline output))).

Definition cluster_unit (cluster : postgresCluster) : string :=
  "postgresql@" +:+ clu_version cluster +:+ "-" +:+ clu_name cluster +:+ ".service".

(** What a command printed; nothing when it failed. *)
Definition printed (r : result string string) : string := match r with Ok output => output | Err _ => "" end.

Definition mariaInventory : prog sys (option managedDatabaseEngine) :=
  do! version := run_command (dbc_mariadb c) ["-NBe"; "select version()"] in
  match version with
  | Err _ => Ret None
  | Ok text =>
      if TrimSpace text =?s "" then Ret None
      else
        do! databases := run_command (dbc_mariadb c) ["-NBe"; mariaDatabaseQuery] in
        do! sessions := run_command (dbc_mariadb c) ["-NBe"; mariaSessionQuery] in
        do! active := run_command "systemctl" ["is-active"; "mariadb.service"] in
        let rows := parseManagedDatabases (printed databases) in
        Ret (Some (mkEngine "mariadb" "MariaDB" (TrimSpace text) "mariadb.service" (stateOrUnknown (printed active))
                     (sumDatabaseSize rows) rows (parseDatabaseSessions (printed sessions) true)))
  end.

Definition psqlQuery (query : string) : prog sys (result string string) :=
  run_command (dbc_runuser c) ["-u"; "postgres"; "--"; dbc_psql c; "-AtF"; String tab ""; "-qc"; query; "postgres"].

Definition postgresInventory : prog sys (option managedDatabaseEngine) :=
  do! clusters := run_command (dbc_pgClusters c) ["--no-header"] in
  match clusters with
  | Err _ => Ret None
  | Ok output =>
      match selectPostgresCluster output with
      | None => Ret None
      | Some cluster =>
          do! version := psqlQuery "show server_version" in
          match version with
          | Err _ => Ret None
          | Ok text =>
              do! databases := psqlQuery postgresDatabaseQuery in
              do! sessions := psqlQuery postgresSessionQuery in
              do! active := run_command "systemctl" ["is-active"; cluster_unit cluster] in
              let rows := parseManagedDatabases (printed databases) in
              Ret (Some (mkEngine "postgresql" "PostgreSQL" (TrimSpace text) (cluster_unit cluster) (stateOrUnknown (printed active))
                           (sumDatabaseSize rows) rows (parseDatabaseSessions (printed sessions) false)))
          end
      end
  end.

Definition database_inventory : prog sys (answer (list managedDatabaseEngine)) :=
  if negb (dbc_allowRead c) then Ret (Err (errors_New "database inventory is not enabled locally"))
  else
    do! maria := mariaInventory in
    do! postgres := postgresInventory in
    Ret (Ok (option_list maria ++ option_list postgres)).

Definition database_action (engine action : string) : prog sys (answer string) :=
  if negb (action =?s "restart") then Ret (Err (errors_New "unsupported database action"))
  else if negb (bool_decide (engine ∈ dbc_allowedRestarts c))
  then Ret (Err (errors_New "database restart is not in the local allowlist"))
  else if engine =?s "mariadb" then
    running "MariaDB restart failed: " "systemctl" ["restart"; "mariadb.service"] (fun _ =>
      running "MariaDB socket health check failed: " (dbc_mariadbAdmin c) ["ping"; "--silent"] (fun _ =>
        Ret (Ok "MariaDB restarted and socket health check passed")))
  else if engine =?s "postgresql" then
    do! clusters := run_command (dbc_pgClusters c) ["--no-header"] in
    match clusters with
    | Err _ => Ret (Err (errors_New "PostgreSQL cluster inventory failed"))
    | Ok output =>
        match selectPostgresCluster output with
        | None => Ret (Err (errors_New "no online PostgreSQL cluster found"))
        | Some cluster =>
            running "PostgreSQL restart failed: " "systemctl" ["restart"; cluster_unit cluster] (fun _ =>
              running "PostgreSQL readiness check failed: " (dbc_pgIsReady c) ["-q"; "-p"; clu_port cluster] (fun _ =>
                Ret (Ok "PostgreSQL restarted and readiness check passed")))
        end
    end
  else Ret (Err (errors_New "unsupported database engine")).
End controller.

(** ** What the rows are bounded by *)

Lemma take_rows_bounded {A} (value : list string -> option A) limit lines rows :
  (length rows <= limit)%nat -> (length (take_rows value limit lines rows) <= limit)%nat.
Proof.
  revert rows. induction lines as [|raw lines IH]; intros rows Hr; cbn [take_rows]; [done|].
  destruct (raw =?s ""); cbn [orb]; [done|]. destruct (Nat.leb_spec limit (length rows)); [done|].
  apply IH. destruct (value _); [rewrite length_app; cbn; lia|done].
Qed.

(** The sum does not overflow: sizes that would are left out. *)
Lemma sum_bounded databases :
  Forall (fun database => 0 <= db_Size database) databases -> 0 <= sumDatabaseSize databases <= max_int64.
Proof.
  assert (forall total, 0 <= total <= max_int64 -> Forall (fun database => 0 <= db_Size database) databases ->
    0 <= foldl (fun total database => if db_Size database <=? max_int64 - total then total + db_Size database else total) total databases
      <= max_int64) as Hsum.
  { induction databases as [|database databases IH]; intros total Ht Hs; cbn [foldl]; [done|]. apply Forall_cons in Hs as [Hd Hs].
    apply IH; [|done]. destruct (Z.leb_spec (db_Size database) (max_int64 - total)); lia. }
  apply Hsum. unfold max_int64. lia.
Qed.
