(* ===== verification/AgentCertificates.v ===== *)
(** * The certificate controller: [ssl.go] of [cmd/hserver-agent]

    The certificates of Certbot are listed with what is left of them, checked
    against their chain, and renewed, after which Nginx is tested and reloaded. *)

From stdpp Require Import base strings gmap list.
From Stdlib Require Import ZArith Lia Ascii Floats.SpecFloat.
From S2P Require Import Prelude GoStrings GoJson GoTime GoFloat HubTypes TaskGate IntegrationStatus AgentConfig AgentTasks AgentDeploy HostFiles AgentNginx AgentServices ProjectDomains.
Local Open Scope Z_scope.
Local Open Scope hub_scope.

Definition maxAgentCertificates : nat := 512.
Definition maxCertificateBytes : Z := Z.shiftl 4 20.

Record managedCertificate : Type := mkManagedCertificate {
  mc_Name : string; mc_Domains : list string; mc_Issuer : string; mc_Serial : string; mc_NotBefore : string;
  mc_NotAfter : string; mc_DaysRemaining : Z; mc_AutoRenew : bool }.

Record sslController : Type := mkSSL {
  ssl_allowRead : bool; ssl_allowActions : bool; ssl_liveDir : string; ssl_renewalDir : string; ssl_configDir : string;
  ssl_workDir : string; ssl_logsDir : string; ssl_certbot : string; ssl_openssl : string; ssl_caBundle : string }.

Definition newSSLController (allowRead allowActions : bool) (configDir workDir logsDir certbot openssl caBundle : string) : sslController :=
  mkSSL allowRead allowActions (Join [configDir; "live"]) (Join [configDir; "renewal"]) configDir workDir logsDir certbot openssl caBundle.

(** [Format(time.RFC3339)], without a fraction of a second. *)
Definition FormatSeconds (t : time) : string := FormatRFC3339Nano (t - t mod Second).

(** [int(math.Floor(d.Hours() / 24))] *)
Definition floored (x : float64) : Z :=
  match x with
  | S754_finite neg m e =>
      let v := if neg then - Zpos m else Zpos m in
      if 0 <=? e then v * 2 ^ e else v / 2 ^ (- e)
  | _ => 0
  end.

Definition days_remaining (expires now : time) : Z := floored (f_div (Hours (Sub expires now)) (of_Z 24)).

Definition upper_hex (c : ascii) : ascii := if in_range 97 102 c then of_byte (byte c - 32) else c.

(** Sooner to expire, then by name. *)
Definition certificate_less `{LowerTable} (a b : managedCertificate) : bool :=
  if mc_DaysRemaining a =? mc_DaysRemaining b then String.ltb (ToLower (mc_Name a)) (ToLower (mc_Name b))
  else mc_DaysRemaining a <? mc_DaysRemaining b.

Section controller.
Context `{X509} `{LowerTable} (c : sslController).
(** [sort_Slice] leaves certificates that compare equal in any order. *)
Context (sort_Slice : (managedCertificate -> managedCertificate -> bool) -> list managedCertificate -> list managedCertificate).

(** A regular file of a bounded size. *)
Definition bounded_file (found : result os_error FileInfo) : bool :=
  match found with Ok info => fi_Regular info && (fi_Size info <=? maxCertificateBytes) | Err _ => false end.

Definition regularCertificateFile (path : string) : prog sys bool :=
  Call (HostFiles.Stat path) (fun found => Ret (bounded_file found)).

Definition readCertificate (name : string) : prog sys (answer managedCertificate) :=
  let path := Join [ssl_liveDir c; name; "cert.pem"] in
  let unavailable := Err (errors_New "certificate file is unavailable") in
  do! regular := regularCertificateFile path in
  if negb regular then Ret unavailable
  else
    Call (ReadFile path) (fun read : result os_error string =>
      match read with
      | Err _ => Ret unavailable
      | Ok data =>
          if maxCertificateBytes <? len data then Ret unavailable
          else
            match pem_Decode data with
            | Some (kind, bytes) =>
                if negb (kind =?s "CERTIFICATE") then Ret (Err (errors_New "certificate PEM is invalid"))
                else
                  match ParseCertificate bytes with
                  | Err _ => Ret (Err (errors_New "certificate is invalid"))
                  | Ok cert =>
                      Call (HostFiles.Stat (Join [ssl_renewalDir c; name +:+ ".conf"])) (fun renewal =>
                        Call TimeNow (fun now =>
                          Ret (Ok (mkManagedCertificate name (crt_DNSNames cert) (crt_Issuer cert)
                                     (String.string_of_list_ascii (upper_hex <$> chars (crt_Serial cert)))
                                     (FormatSeconds (crt_NotBefore cert)) (FormatSeconds (crt_NotAfter cert))
                                     (days_remaining (crt_NotAfter cert) now)
                                     (match renewal with Ok _ => true | Err _ => false end)))))
                  end
            | None => Ret (Err (errors_New "certificate PEM is invalid"))
            end
      end).

Fixpoint list_certificates (entries : list DirEntry) (certificates : list managedCertificate) : prog sys (list managedCertificate) :=
  match entries with
  | [] => Ret certificates
  | entry :: rest =>
      if negb (agentNginxConfigNamePattern (de_Name entry)) then list_certificates rest certificates
      else
        do! r := readCertificate (de_Name entry) in
        list_certificates rest (match r with Ok certificate => certificates ++ [certificate] | Err _ => certificates end)
  end.

Definition ssl_inventory : prog sys (answer (list managedCertificate)) :=
  if negb (ssl_allowRead c) then Ret (Err (errors_New "SSL certificate reading is not enabled locally"))
  else
    Call (ReadDir (ssl_liveDir c)) (fun r : result os_error (list DirEntry) =>
      match r with
      | Err e => Ret (Err (errors_New ("read certificate directory: " +:+ os_text e)))
      | Ok entries =>
          if Nat.ltb maxAgentCertificates (length entries)
          then Ret (Err (errors_New "certificate directory exceeds the inventory limit"))
          else do! certificates := list_certificates entries [] in Ret (Ok (sort_Slice certificate_less certificates))
      end).

Definition check_chain (name : string) : prog sys (answer string) :=
  let base := Join [ssl_liveDir c; name] in
  let unavailable := Err (errors_New "certificate chain is unavailable") in
  do! cert := regularCertificateFile (Join [base; "cert.pem"]) in
  if negb cert then Ret unavailable
  else
    do! chain := regularCertificateFile (Join [base; "chain.pem"]) in
    if negb chain then Ret unavailable
    else
      running "certificate chain verification failed: " (ssl_openssl c)
        ["verify"; "-CAfile"; ssl_caBundle c; "-untrusted"; Join [base; "chain.pem"]; Join [base; "cert.pem"]]
        (fun _ => Ret (Ok "Certificate chain is valid")).

Definition renew (name : string) : prog sys (answer string) :=
  do! configured := regularCertificateFile (Join [ssl_renewalDir c; name +:+ ".conf"]) in
  if negb configured then Ret (Err (errors_New "certificate renewal configuration is unavailable"))
  else
    running "certificate renewal failed: " (ssl_certbot c)
      ["renew"; "--cert-name"; name; "--non-interactive"; "--config-dir"; ssl_configDir c; "--work-dir"; ssl_workDir c;
       "--logs-dir"; ssl_logsDir c]
      (fun _ =>
         try! _ := AgentNginx.testLocked in
         try! _ := AgentNginx.reloadLocked in
         Ret (Ok "Certificate checked and renewed if due; Nginx reloaded")).

Definition ssl_action (name action : string) : prog sys (answer string) :=
  if negb (ssl_allowActions c) then Ret (Err (errors_New "SSL certificate actions are not enabled locally"))
  else if negb (agentNginxConfigNamePattern name) then Ret (Err (errors_New "invalid certificate name"))
  else if action =?s "check" then check_chain name
  else if action =?s "renew" then renew name
  else Ret (Err (errors_New "unsupported certificate action")).
End controller.
