(* ===== verification/AgentBackups.v ===== *)
(** * The backup controller: [backup.go] of [cmd/hserver-agent]

    Backup plans name a service, its timer and a directory; the controller lists
    the files of the directory, verifies them against a manifest of checksums,
    and starts the service.  The deadline of the operations is left out. *)

From stdpp Require Import base strings gmap list sorting.
From Stdlib Require Import ZArith Lia Ascii.
From S2P Require Import Prelude GoStrings GoJson GoTime GoSha256 GoTyped HubTypes TaskGate IntegrationStatus AgentConfig AgentTasks HostFiles AgentPHP AgentServices.
Local Open Scope Z_scope.
Local Open Scope hub_scope.

Definition maxBackupPlans : nat := 32.
Definition maxBackupPlanBytes : Z := Z.shiftl 64 10.
Definition maxBackupFiles : nat := 256.
Definition maxBackupDepth : nat := 4.
Definition maxBackupVerifyBytes : Z := Z.shiftl 16 30.

Record backupPlanConfig : Type := mkBackupPlan {
  bp_ID : string; bp_Name : string; bp_Service : string; bp_Timer : string; bp_Root : string; bp_ChecksumFile : string }.

Record managedBackupFile : Type := mkBackupFile { bf_Name : string; bf_Path : string; bf_Size : Z; bf_ModifiedAt : string }.

Record managedBackupPlan : Type := mkManagedPlan {
  mbp_ID : string; mbp_Name : string; mbp_Service : string; mbp_Timer : string; mbp_Active : string; mbp_Enabled : string;
  mbp_LastResult : string; mbp_LastRun : string; mbp_NextRun : string; mbp_CompletedAt : string; mbp_Verified : bool;
  mbp_TotalSize : Z; mbp_Files : list managedBackupFile }.

Record backupController : Type := mkBackups { bkc_allowRead : bool; bkc_allowRun : bool; bkc_plansPath : string }.

Definition newBackupController (allowRead allowRun : bool) (plansPath : string) : backupController :=
  mkBackups allowRead allowRun plansPath.

Definition valueOrUnknown (value : string) : string := if value =?s "" then "unknown" else value.

(** ** Plans *)

Definition validBackupRoot (path : string) : bool :=
  IsAbs path && (Clean path =?s path) && negb (path =?s "/") && (len path <=? 4096).

Definition validBackupRelativePath (path : string) (optional : bool) : bool :=
  if path =?s "" then optional
  else negb (IsAbs path) && (Clean path =?s path) && negb (path =?s ".") && negb (path =?s "..") && negb (HasPrefix path "../")
       && (len path <=? 512).

Definition plan_type : gotype :=
  GStruct [("id", GString); ("name", GString); ("service", GString); ("timer", GString); ("root", GString); ("checksum_file", GString)].
Definition backupPlanDocument : gotype := GStruct [("plans", GSlice plan_type)].

Definition plan_of (v : goval) : backupPlanConfig :=
  let text := string_field plan_type v in
  mkBackupPlan (text "id") (text "name") (text "service") (text "timer") (text "root") (text "checksum_file").

Definition valid_backup_plan (plan : backupPlanConfig) : bool :=
  agentNginxConfigNamePattern (bp_ID plan) && negb (bp_Name plan =?s "") && (len (bp_Name plan) <=? 128)
  && negb (ContainsAny (bp_Name plan) line_breaks) && servicePattern (bp_Service plan) && servicePattern (bp_Timer plan)
  && validBackupRoot (bp_Root plan) && validBackupRelativePath (bp_ChecksumFile plan) true.

(** The loop over the plans: each is valid and no identifier is there twice. *)
Fixpoint check_plans (seen : list string) (plans : list backupPlanConfig) : answer unit :=
  match plans with
  | [] => Ok tt
  | plan :: rest =>
      if negb (valid_backup_plan plan) then Err (errors_New "backup plan configuration contains an invalid plan")
      else if existsb (String.eqb (bp_ID plan)) seen then Err (errors_New "backup plan IDs must be unique")
      else check_plans (bp_ID plan :: seen) rest
  end.

Definition decode_document (data : string) : answer (list backupPlanConfig) :=
  match Unmarshal backupPlanDocument data with
  | None => Err (errors_New "backup plan configuration is invalid")
  | Some document =>
      let plans := plan_of <$> items_of (default (VSlice [] None) (field backupPlanDocument document "plans")) in
      if Nat.ltb maxBackupPlans (length plans) then Err (errors_New "backup plan configuration is invalid")
      else let? _ := check_plans [] plans in Ok plans
  end.

Definition loadPlans (c : backupController) : prog sys (answer (list backupPlanConfig)) :=
  Call (HostFiles.Stat (bkc_plansPath c)) (fun found =>
    if negb (match found with
             | Ok info => fi_Regular info && negb (fi_Size info <=? 0) && (fi_Size info <=? maxBackupPlanBytes)
             | Err _ => false
             end)
    then Ret (Err (errors_New "backup plan configuration is unavailable or invalid"))
    else
      Call (ReadFile (bkc_plansPath c)) (fun data =>
        Ret (match data with Err _ => Err (errors_New "backup plan configuration is unavailable") | Ok text => decode_document text end))).

(** ** The files of a backup: [filepath.WalkDir]

    Directories below the fourth level are not entered. *)

Record listing : Type := mkListing { lst_files : list managedBackupFile; lst_total : Z; lst_latest : time }.

Definition list_file (relative path : string) (info : FileInfo) (l : listing) : result os_error listing :=
  if Nat.leb maxBackupFiles (length (lst_files l)) then Err (mkOsError "backup file inventory exceeds the limit" false)
  else if (0 <? fi_Size info) && (max_int64 - fi_Size info <? lst_total l)
  then Err (mkOsError "backup size exceeds the supported range" false)
  else Ok (mkListing (lst_files l ++ [mkBackupFile relative path (fi_Size info) (FormatRFC3339Nano (fi_ModTime info))])
             (lst_total l + fi_Size info) (if lst_latest l <? fi_ModTime info then fi_ModTime info else lst_latest l)).

Definition below (parent name : string) : string := if parent =?s "" then name else parent +:+ "/" +:+ name.

(** The entries of the directory [path], which is [relative] to the root; at
    most [levels] levels are left. *)
Fixpoint walk_directory (levels : nat) (path relative : string) (l : listing) : prog sys (result os_error listing) :=
  Call (ReadDir path) (fun r : result os_error (list DirEntry) =>
    match r with
    | Err e => Ret (Err e)
    | Ok entries =>
        (fix walk (entries : list DirEntry) (l : listing) : prog sys (result os_error listing) :=
           match entries with
           | [] => Ret (Ok l)
           | entry :: rest =>
               let child := Join [path; de_Name entry] in
               let name := below relative (de_Name entry) in
               match levels with
               | O => walk rest l
               | S levels' =>
                   if de_IsDir entry then
                     do! inside := walk_directory levels' child name l in
                     match inside with Err e => Ret (Err e) | Ok l' => walk rest l' end
                   else if de_Symlink entry then walk rest l
                   else
                     match de_Info entry with
                     | Ok info =>
                         if negb (fi_Regular info) then walk rest l
                         else match list_file name child info l with Err e => Ret (Err e) | Ok l' => walk rest l' end
                     | Err _ => walk rest l
                     end
               end
           end) entries l
    end).

Definition file_le (a b : managedBackupFile) : Prop := String.le (bf_Name a) (bf_Name b).
#[local] Instance file_le_dec : RelDecision file_le := fun a b => decide (String.le (bf_Name a) (bf_Name b)).

(** The files, their size, and when the last of them was written; the error. *)
Definition listBackupFiles (root : string) : prog sys (list managedBackupFile * Z * string * option os_error) :=
  let none e := ([], 0, "", e) in
  Call (Lstat root) (fun found =>
    do! walked := match found with
                  | Err e => Ret (Err e)
                  | Ok info =>
                      if fi_IsDir info then walk_directory maxBackupDepth root "" (mkListing [] 0 zero_time)
                      else Ret (Ok (mkListing [] 0 zero_time))
                  end in
    Ret (match walked with
         | Err e => if os_missing e then none None else none (Some e)
         | Ok l => (merge_sort file_le (lst_files l), lst_total l,
                    if lst_latest l =? zero_time then "" else FormatRFC3339Nano (lst_latest l), None)
         end)).

(** ** The manifest *)

Definition lower_hex (c : ascii) : ascii := if in_range 65 70 c then of_byte (byte c + 32) else c.
Definition hex_digit (c : ascii) : bool := in_range 48 57 c || in_range 97 102 c || in_range 65 70 c.

Fixpoint trim_marks (s : string) : string :=
  match s with
  | String c s' => if Ascii.eqb c " "%char || Ascii.eqb c "*"%char then trim_marks s' else s
  | "" => ""
  end.

(** The checksum of a line, in lower case, and its path. *)
Definition manifest_line (line : string) : option (string * string) :=
  let digest := stake 64 line in
  let relative := trim_marks (sdrop 64 line) in
  if (len line <? 67) || negb (forallb hex_digit (chars digest)) || negb (validBackupRelativePath relative false) then None
  else Some (String.string_of_list_ascii (lower_hex <$> chars digest), relative).

(** A regular file, not a link, of at most [limit] bytes. *)
Definition plain_file (limit : Z) (found : result os_error FileInfo) : option FileInfo :=
  match found with
  | Ok info => if fi_Symlink info || negb (fi_Regular info) || (limit <? fi_Size info) then None else Some info
  | Err _ => None
  end.

(** The checks of the lines; [entries] and [total] of them are done. *)
Fixpoint verify_lines (root : string) (lines : list string) (entries : nat) (total : Z) : prog sys (option nat) :=
  match lines with
  | [] => Ret (Some entries)
  | line :: rest =>
      match manifest_line line with
      | None => Ret None
      | Some (digest, relative) =>
          let path := Join [root; relative] in
          Call (Lstat path) (fun found =>
            match plain_file (maxBackupVerifyBytes - total) found with
            | None => Ret None
            | Some info =>
                if Nat.ltb maxBackupFiles (S entries) then Ret None
                else
                  Call (OpenRead path) (fun opened =>
                    match opened with
                    | Err _ => Ret None
                    | Ok _ =>
                        Call (ReadUpTo path (fi_Size info + 1)) (fun read => Call (Close path) (fun closed =>
                          match read, closed with
                          | Ok content, Ok _ =>
                              if negb (sha256_hex content =?s digest) then Ret None
                              else verify_lines root rest (S entries) (total + fi_Size info)
                          | _, _ => Ret None
                          end))
                    end)
            end)
      end
  end.

(** The lines of a scanner with the default buffer, [None] when one is too long. *)
Definition manifest_lines (text : string) : option (list string) :=
  let lines := split newline text in
  let lines := match last lines with Some "" => removelast lines | _ => lines end in
  if existsb (fun line => 65536 <=? len line) lines then None else Some (drop_cr <$> lines).

Definition verifyBackupChecksums (root checksumFile : string) : prog sys bool :=
  let manifestPath := Join [root; checksumFile] in
  Call (Lstat manifestPath) (fun found =>
    match plain_file maxBackupPlanBytes found with
    | None => Ret false
    | Some _ =>
        Call (OpenRead manifestPath) (fun opened =>
          match opened with
          | Err _ => Ret false
          | Ok _ =>
              Call (ReadFile manifestPath) (fun read =>
                match read with
                | Err _ => Ret false
                | Ok text =>
                    match manifest_lines text with
                    | None => Ret false
                    | Some lines =>
                        do! checked := verify_lines root lines 0 0 in
                        Ret (match checked with Some entries => Nat.ltb 0 entries | None => false end)
                    end
                end)
          end)
    end).

(** ** The controller *)

Section controller.
Context (c : backupController).

Definition unitProperties (unit_ : string) : prog sys (gmap string string) :=
  do! r := run_command "systemctl"
             ["show"; unit_; "-p"; "ActiveState"; "-p"; "UnitFileState"; "-p"; "NextElapseUSecRealtime"; "-p"; "LastTriggerUSec";
              "-p"; "Result"] in
  Ret (match r with
       | Err _ => ∅
       | Ok output =>
           foldl set_value ∅
             (filter (fun entry => len entry.1 <= 64 /\ len entry.2 <= 512) (omap (Cut "="%char) (split newline output)))
       end).

Definition inspectPlan (plan : backupPlanConfig) : prog sys managedBackupPlan :=
  do! timer := unitProperties (bp_Timer plan) in
  do! service := unitProperties (bp_Service plan) in
  do! files := listBackupFiles (bp_Root plan) in
  let '(files, total, completed, failure) := files in
  do! verified := (match failure with
                   | None => if negb (bp_ChecksumFile plan =?s "") then verifyBackupChecksums (bp_Root plan) (bp_ChecksumFile plan) else Ret false
                   | Some _ => Ret false
                   end) in
  Ret (mkManagedPlan (bp_ID plan) (bp_Name plan) (bp_Service plan) (bp_Timer plan) (valueOrUnknown (timer !!! "ActiveState"))
         (valueOrUnknown (timer !!! "UnitFileState")) (valueOrUnknown (service !!! "Result")) (timer !!! "LastTriggerUSec")
         (timer !!! "NextElapseUSecRealtime") completed verified total files).

Fixpoint inspect_all (plans : list backupPlanConfig) : prog sys (list managedBackupPlan) :=
  match plans with
  | [] => Ret []
  | plan :: rest => do! shown := inspectPlan plan in do! others := inspect_all rest in Ret (shown :: others)
  end.

Definition backup_inventory : prog sys (answer (list managedBackupPlan)) :=
  if negb (bkc_allowRead c) then Ret (Err (errors_New "backup inventory is not enabled locally"))
  else try! plans := loadPlans c in do! shown := inspect_all plans in Ret (Ok shown).

Definition backup_run (id : string) : prog sys (answer string) :=
  if negb (bkc_allowRun c) then Ret (Err (errors_New "backup execution is not enabled locally"))
  else
    try! plans := loadPlans c in
    match find (fun plan => bp_ID plan =?s id) plans with
    | None => Ret (Err (errors_New "backup plan is not configured locally"))
    | Some selected =>
        running "backup service failed: " "systemctl" ["start"; bp_Service selected] (fun _ =>
          do! properties := unitProperties (bp_Service selected) in
          Ret (if negb (properties !!! "Result" =?s "success")
               then Err (errors_New ("backup service result is " +:+ valueOrUnknown (properties !!! "Result")))
               else Ok (bp_Name selected +:+ " backup completed")))
    end.
End controller.
