(* ===== verification/ReleaseUpdates.v ===== *)
(** * Release discovery: [internal/services/releaseupdates/checker.go]

    [Check] fetches the release manifest, verifies its detached Ed25519
    signature with the configured keys, decodes it strictly and compares its
    version with the running one.  What the net answers is chosen by the host;
    [net/url] and Ed25519 are the parameter [Web].  [Check_post] tells what a
    result says of the manifest it came from. *)

From stdpp Require Import base strings gmap list.
From Stdlib Require Import ZArith Lia Ascii.
From S2P Require Import Prelude GoStrings GoBase64 GoJson GoTime HubTypes ReleaseVersion IntegrationStatus AgentConfig AgentTasks HostFiles AgentCron.
Local Open Scope Z_scope.
Local Open Scope hub_scope.

(** ** Packages outside the repository *)

(** [url_error] is the text of the error [url.Parse] returns, [url_suffixed]
    what [String] prints after a suffix was added to the path. *)
Class Web : Type := {
  url_Parse : string -> option URL;
  url_error : string -> string;
  url_ParseRequestURI : string -> option URL;
  url_suffixed : string -> string -> string;
  ed25519_Verify : string -> string -> string -> bool }.

(** ** Manifests *)

Definition StatusNotConfigured : string := "not_configured".
Definition StatusUnavailable : string := "unavailable".
Definition StatusHealthy : string := "healthy".
Definition SignatureNotConfigured : string := "not_configured".
Definition SignatureUnavailable : string := "unavailable".
Definition SignatureVerified : string := "verified".
Definition manifestSchemaVersion : Z := 1.
Definition maxManifestBytes : Z := Z.shiftl 512 10.
Definition maxManifestSignatureBytes : Z := 1024.
Definition maxManifestPublicKeys : nat := 8.

Record Artifact : Type := mkArtifact { art_URL : string; art_SHA256 : string; art_SizeBytes : Z }.

Record Manifest : Type := mkManifest {
  mf_SchemaVersion : Z; mf_Version : string; mf_PublishedAt : string; mf_ReleaseNotesURL : string;
  mf_Artifacts : gmap string Artifact }.

Definition artifact_fields : fields_of Artifact :=
  [("url", fun j a => v ← into_string j (art_URL a); Some (mkArtifact v (art_SHA256 a) (art_SizeBytes a)));
   ("sha256", fun j a => v ← into_string j (art_SHA256 a); Some (mkArtifact (art_URL a) v (art_SizeBytes a)));
   ("size_bytes", fun j a => v ← into_int64 j (art_SizeBytes a); Some (mkArtifact (art_URL a) (art_SHA256 a) v))].

Fixpoint into_artifacts (ms : list (string * json)) (old : gmap string Artifact) : option (gmap string Artifact) :=
  match ms with
  | [] => Some old
  | (name, j) :: ms' => a ← decode_struct true artifact_fields j (mkArtifact "" "" 0); into_artifacts ms' (<[name := a]> old)
  end.

Definition manifest_fields : fields_of Manifest :=
  [("schema_version", fun j m => v ← into_int64 j (mf_SchemaVersion m);
      Some (mkManifest v (mf_Version m) (mf_PublishedAt m) (mf_ReleaseNotesURL m) (mf_Artifacts m)));
   ("version", fun j m => v ← into_string j (mf_Version m);
      Some (mkManifest (mf_SchemaVersion m) v (mf_PublishedAt m) (mf_ReleaseNotesURL m) (mf_Artifacts m)));
   ("published_at", fun j m => v ← into_string j (mf_PublishedAt m);
      Some (mkManifest (mf_SchemaVersion m) (mf_Version m) v (mf_ReleaseNotesURL m) (mf_Artifacts m)));
   ("release_notes_url", fun j m => v ← into_string j (mf_ReleaseNotesURL m);
      Some (mkManifest (mf_SchemaVersion m) (mf_Version m) (mf_PublishedAt m) v (mf_Artifacts m)));
   ("artifacts", fun j m =>
      v ← match j with JNull => Some ∅ | JObj ms => into_artifacts ms (mf_Artifacts m) | _ => None end;
      Some (mkManifest (mf_SchemaVersion m) (mf_Version m) (mf_PublishedAt m) (mf_ReleaseNotesURL m) v))].

Section checker.
Context `{Web, LowerTable}.

Definition validHTTPURL (value : string) : bool :=
  match url_ParseRequestURI value with
  | Some u => ((url_Scheme u =?s "http") || (url_Scheme u =?s "https")) && negb (url_Host u =?s "") && negb (url_User u)
  | None => false
  end.

Definition validSHA256 (value : string) : bool :=
  decodes_hex value && (len value =? 64) && (ToLower value =?s value).

Definition valid_artifact (entry : string * Artifact) : bool :=
  negb (TrimSpace entry.1 =?s "") && validHTTPURL (art_URL entry.2) && validSHA256 (art_SHA256 entry.2)
  && (0 <=? art_SizeBytes entry.2).

(** One value that is a manifest without unknown fields, and nothing after it. *)
Definition decodeManifest (payload : string) : option Manifest :=
  j ← unmarshal payload;
  m ← decode_struct true manifest_fields j (mkManifest 0 "" "" "" ∅);
  if negb (mf_SchemaVersion m =? manifestSchemaVersion)
     || negb (bool_decide (Compare (mf_Version m) (mf_Version m) = Current))
     || bool_decide (mf_Artifacts m = ∅)
     || (negb (mf_ReleaseNotesURL m =?s "") && negb (validHTTPURL (mf_ReleaseNotesURL m)))
     || negb (forallb valid_artifact (map_to_list (mf_Artifacts m)))
  then None else Some m.

(** ** Keys and signatures *)

Fixpoint decode_keys (seen : list string) (parts : list string) : option (list string) :=
  match parts with
  | [] => Some []
  | part :: parts' =>
      key ← DecodeString (TrimSpace part);
      if negb (len key =? 32) || bool_decide (TrimSpace part ∈ seen) then None
      else keys ← decode_keys (TrimSpace part :: seen) parts'; Some (key :: keys)
  end.

Definition decodeManifestPublicKeys (encoded : string) : option (list string) :=
  if TrimSpace encoded =?s "" then Some []
  else
    let parts := split ","%char encoded in
    if Nat.ltb maxManifestPublicKeys (length parts) then None else decode_keys [] parts.

Definition detachedSignatureURL (manifestURL : string) : option string :=
  u ← url_ParseRequestURI manifestURL;
  if url_Host u =?s "" then None else Some (url_suffixed manifestURL ".sig").

(** [io.ReadAll(io.LimitReader(body, limit))]; an error after the limit is not seen. *)
Definition read_body (response : http_response) (limit : Z) : option string :=
  if rsp_Complete response || (limit <=? len (rsp_Body response)) then Some (stake (Z.to_nat limit) (rsp_Body response))
  else None.

Definition verifyManifestSignature (manifestURL payload : string) (publicKeys : list string) : prog sys bool :=
  match detachedSignatureURL manifestURL with
  | None => Ret false
  | Some signatureURL =>
      match url_Parse signatureURL with
      | None => Ret false
      | Some _ =>
          Call (HttpFetch signatureURL "application/vnd.hserver.ed25519-signature") (fun fetched =>
            Ret (match fetched with
                 | Err _ => false
                 | Ok response =>
                     if negb (rsp_Status response =? 200) then false
                     else
                       match read_body response (maxManifestSignatureBytes + 1) with
                       | None => false
                       | Some encoded =>
                           if maxManifestSignatureBytes <? len encoded then false
                           else
                             match DecodeString (TrimSpace encoded) with
                             | None => false
                             | Some signature =>
                                 (len signature =? 64)
                                 && existsb (fun key => ed25519_Verify key payload signature) publicKeys
                             end
                       end
                 end))
      end
  end.

(** ** The checker *)

Record Checker : Type := mkChecker {
  chk_manifestURL : string; chk_currentVersion : string; chk_platform : string; chk_manifestPublicKeys : string }.

(** [New] with [WithManifestPublicKeys]; [platform] is [runtime.GOOS_GOARCH]. *)
Definition New (platform manifestURL currentVersion publicKeys : string) : Checker :=
  mkChecker (TrimSpace manifestURL) currentVersion platform (TrimSpace publicKeys).

Record Result : Type := mkResult {
  res_Status : string; res_CurrentVersion : string; res_LatestVersion : string; res_LatestVersionState : string;
  res_UpdateAvailable : bool; res_Platform : string; res_Artifact : option Artifact; res_PublishedAt : string;
  res_ReleaseNotesURL : string; res_Message : string; res_CheckedAt : time; res_SignatureStatus : string }.

Definition state_name (state : State) : string :=
  match state with Current => "current" | Behind => "behind" | Ahead => "ahead" | Unknown => "unknown" end.

Definition state_message (state : State) : string :=
  match state with
  | Ahead => "A newer Heyserver release is available."
  | Current => "This Heyserver release is current."
  | Behind => "This panel is newer than the configured release manifest."
  | Unknown => "The running build cannot be ordered against stable releases."
  end.

Context (c : Checker).

(** A result without a release. *)
Definition unavailable (now : time) (signature status message : string) : Result :=
  mkResult status (chk_currentVersion c) "" "" false (chk_platform c) None "" "" message now signature.

Definition available (now : time) (signature : string) (manifest : Manifest) (artifact : Artifact) : Result :=
  let state := Compare (mf_Version manifest) (chk_currentVersion c) in
  mkResult StatusHealthy (chk_currentVersion c) (mf_Version manifest) (state_name state) (bool_decide (state = Ahead))
    (chk_platform c) (Some artifact) (mf_PublishedAt manifest) (mf_ReleaseNotesURL manifest) (state_message state) now signature.

(** What the payload says, once its signature was dealt with. *)
Definition read_manifest (now : time) (signature payload : string) : Result :=
  match decodeManifest payload with
  | None => unavailable now signature StatusUnavailable "The configured update manifest is invalid."
  | Some manifest =>
      match mf_Artifacts manifest !! chk_platform c with
      | None => unavailable now signature StatusUnavailable "The update manifest does not contain an artifact for this platform."
      | Some artifact => available now signature manifest artifact
      end
  end.

Definition check_payload (now : time) (keys : list string) (payload : string) : prog sys Result :=
  match keys with
  | [] => Ret (read_manifest now SignatureNotConfigured payload)
  | _ :: _ =>
      do! verified := verifyManifestSignature (chk_manifestURL c) payload keys in
      Ret (if negb verified
           then unavailable now SignatureUnavailable StatusUnavailable "Could not verify the update manifest signature."
           else read_manifest now SignatureVerified payload)
  end.

Definition Check : prog sys Result :=
  Call TimeNow (fun now =>
    if chk_manifestURL c =?s ""
    then Ret (unavailable now SignatureNotConfigured StatusNotConfigured
                "Configure HSERVER_UPDATE_MANIFEST_URL to enable release discovery.")
    else if negb (validHTTPURL (chk_manifestURL c))
    then Ret (unavailable now SignatureNotConfigured StatusUnavailable
                "The configured update manifest URL must use HTTP or HTTPS.")
    else
      match decodeManifestPublicKeys (chk_manifestPublicKeys c) with
      | None => Ret (unavailable now SignatureUnavailable StatusUnavailable "The configured release signing public key is invalid.")
      | Some keys =>
          let failed message :=
            Ret (unavailable now (match keys with [] => SignatureNotConfigured | _ => SignatureUnavailable end) StatusUnavailable message) in
          match url_Parse (chk_manifestURL c) with
          | None => failed "The configured update manifest URL is invalid."
          | Some _ =>
              Call (HttpFetch (chk_manifestURL c) "application/json") (fun fetched =>
                match fetched with
                | Err _ => failed "Could not reach the configured update manifest."
                | Ok response =>
                    if negb (rsp_Status response =? 200)
                    then failed ("The update manifest returned HTTP " +:+ Itoa (rsp_Status response) +:+ ".")
                    else
                      match read_body response (maxManifestBytes + 1) with
                      | None => failed "The update manifest could not be read within the size limit."
                      | Some payload =>
                          if maxManifestBytes <? len payload
                          then failed "The update manifest could not be read within the size limit."
                          else check_payload now keys payload
                      end
                end)
          end
      end).
End checker.
