(* ===== verification/AgentUpdates.v ===== *)
(** * The agent's own updates: [cmd/hserver-agent/agent_update.go]

    An upgrade downloads the archive a signed manifest names, checks and unpacks
    it into a stage directory, records the operation in small files and hands
    the packaged installer to a detached systemd unit; a rollback runs the
    installed one.  [archive/tar] over [compress/gzip] and [debug/elf] are the
    parameter [Archives]; the detached unit is a command. *)

From stdpp Require Import base strings gmap list.
From Stdlib Require Import ZArith Lia Ascii.
From S2P Require Import Prelude GoStrings GoJson GoTime GoSha256 HubTypes ReleaseVersion IntegrationStatus AgentConfig AgentTasks HostFiles AgentEditors AgentPHP AgentCron ReleaseUpdates.
Local Open Scope Z_scope.
Local Open Scope hub_scope.

(** ** Packages outside the repository *)

(** An entry of a tar archive: its header, what reading it yields, and the error
    that ends the reading early. *)
Record tar_entry : Type := mkTarEntry {
  te_Name : string; te_Typeflag : Z; te_Size : Z; te_Data : string; te_Failure : option string }.

(** The entries of an archive, and the error that follows them instead of its end. *)
Record tar_archive : Type := mkTar { tar_Entries : list tar_entry; tar_Failure : option string }.

Record elf_header : Type := mkElf { elf_Class : Z; elf_Machine : Z; elf_Type : Z }.

Class Archives : Type := {
  gzip_tar : string -> result string tar_archive;
  elf_File : string -> option elf_header }.

(** ** Constants and records *)

Definition agentUpdateIdle : string := "idle".
Definition agentUpdateScheduled : string := "scheduled".
Definition agentUpdateRunning : string := "running".
Definition agentUpdateCompleted : string := "completed".
Definition agentUpdateFailed : string := "failed".
Definition maxAgentReleaseArchiveBytes : Z := Z.shiftl 1 30.
Definition maxAgentReleaseExpanded : Z := Z.shiftl 512 20.
Definition maxAgentBinaryBytes : Z := Z.shiftl 256 20.
Definition maxAgentInstallerBytes : Z := Z.shiftl 2 20.
Definition maxAgentVersionBytes : Z := 128.
Definition agentLifecycleRuntimeMax : string := "3min".

Definition errAgentUpdateConflict : error := errors_New "an agent lifecycle operation is already active".
Definition errAgentUpdateUnavailable : error := errors_New "the configured agent release is unavailable".
Definition errAgentUpdateVersion : error := errors_New "the requested agent release is no longer current".
Definition errAgentRollbackUnavailable : error := errors_New "no verified agent rollback snapshot is available".
Definition ErrSignedManifestRequired : error := errors_New "a verified signed release manifest is required".

Record managedAgentUpdateStatus : Type := mkUpdateStatus {
  upd_ReleaseStatus : string; upd_SignatureStatus : string; upd_CurrentVersion : string; upd_LatestVersion : string;
  upd_LatestState : string; upd_UpdateAvailable : bool; upd_Platform : string; upd_ReleaseNotesURL : string;
  upd_ReleaseMessage : string; upd_ReleaseCheckedAt : string; upd_Operation : string; upd_OperationStatus : string;
  upd_OperationVersion : string; upd_OperationDetail : string; upd_OperationUpdated : string; upd_RollbackAvailable : bool }.

Record agentUpdateOperation : Type := mkOperation {
  aop_ID : string; aop_Action : string; aop_Status : string; aop_Version : string; aop_Detail : string; aop_UpdatedAt : string }.

Record agentUpdateController : Type := mkUpdates {
  auc_currentVersion : string; auc_manifestURL : string; auc_manifestPublicKeys : string; auc_stateDir : string;
  auc_lifecycleInstaller : string; auc_systemdRunBinary : string; auc_systemctlBinary : string; auc_platform : string }.

(** [platform] is [runtime.GOOS_GOARCH]. *)
Definition newAgentUpdateController (platform currentVersion manifestURL manifestPublicKeys stateDir lifecycleInstaller
    systemdRunBinary systemctlBinary : string) : agentUpdateController :=
  mkUpdates currentVersion manifestURL manifestPublicKeys stateDir lifecycleInstaller systemdRunBinary systemctlBinary platform.

(** The script the detached unit runs; [~] stands for a double quote. *)
Definition script_line (line : string) : string :=
  String.string_of_list_ascii ((fun ch => if Ascii.eqb ch "~"%char then of_byte 34 else ch) <$> chars line) +:+ String newline "".

Definition agentLifecycleRunner : string := foldr (fun line text => script_line line +:+ text) ""
  [ "#!/usr/bin/env sh";
    "set -eu";
    "";
    "[ ~$#~ -ge 5 ] || exit 2";
    "status_file=$1";
    "detail_file=$2";
    "updated_file=$3";
    "installer=$4";
    "action=$5";
    "binary=${6:-}";
    "";
    "write_status() {";
    "  value=$1";
    "  detail=$2";
    "  printf '%s\n' ~$value~ >~$status_file.tmp~";
    "  mv -f ~$status_file.tmp~ ~$status_file~";
    "  printf '%s\n' ~$detail~ >~$detail_file.tmp~";
    "  mv -f ~$detail_file.tmp~ ~$detail_file~";
    "  date -u +%Y-%m-%dT%H:%M:%SZ >~$updated_file.tmp~";
    "  mv -f ~$updated_file.tmp~ ~$updated_file~";
    "}";
    "";
    "write_status running ~Agent lifecycle installer is running.~";
    "if [ ~$action~ = upgrade ]; then";
    "  if ~$installer~ upgrade --binary ~$binary~; then";
    "    write_status completed ~Agent upgrade completed and the managed service passed its active-state check.~";
    "    exit 0";
    "  fi";
    "  write_status failed ~Agent upgrade failed; the lifecycle installer attempted automatic rollback.~";
    "  exit 1";
    "fi";
    "if [ ~$action~ = rollback ]; then";
    "  if ~$installer~ rollback; then";
    "    write_status completed ~Agent rollback completed and the restored service passed its active-state check.~";
    "    exit 0";
    "  fi";
    "  write_status failed ~Agent rollback failed; inspect the hserver-agent-lifecycle journal.~";
    "  exit 1";
    "fi";
    "write_status failed ~Unsupported agent lifecycle action.~";
    "exit 2" ].

(** ** Archives *)

(** The three files an update needs, with their limits. *)
Definition release_targets : list (string * Z) :=
  [("VERSION", maxAgentVersionBytes); ("hserver-agent", maxAgentBinaryBytes); ("agent-install.sh", maxAgentInstallerBytes)].

Definition release_root (version platform : string) : string :=
  "hserver-panel-" +:+ version +:+ "-" +:+ String.string_of_list_ascii ((fun ch => if Ascii.eqb ch "_"%char then "-"%char else ch) <$> chars platform).

Definition tar_dir (e : tar_entry) : bool := te_Typeflag e =? 53.
Definition tar_regular (e : tar_entry) : bool := (te_Typeflag e =? 48) || (te_Typeflag e =? 0).

Definition entry_name (e : tar_entry) : string := if tar_dir e then TrimSuffix (te_Name e) "/" else te_Name e.

Definition bad_entry_path (root : string) (e : tar_entry) : bool :=
  let clean := Clean (entry_name e) in
  existsb (Ascii.eqb "\"%char) (chars (te_Name e)) || negb (clean =?s entry_name e) || (clean =?s ".") || HasPrefix clean "/"
  || HasPrefix clean "../" || (negb (clean =?s root) && negb (HasPrefix clean (root +:+ "/"))).

(** What [io.LimitReader(reader, header.Size)] yields, and whether it ends in an error. *)
Definition entry_data (e : tar_entry) : string := stake (Z.to_nat (te_Size e)) (te_Data e).
Definition entry_failure (e : tar_entry) : option string :=
  if te_Size e <=? len (te_Data e) then None else te_Failure e.

Definition target_of (root clean : string) : option (string * Z) :=
  find (fun target : string * Z => clean =?s root +:+ "/" +:+ target.1) release_targets.

Definition failed_with {A} (text : string) : prog sys (answer A) := Ret (Err (errors_New text)).

(** One asset. *)
Definition extract_asset {A} (outputPath : string) (e : tar_entry) (k : prog sys (answer A)) : prog sys (answer A) :=
  checking (CreateNew outputPath 448) (fun _ =>
    Call (WriteAll outputPath (entry_data e)) (fun wrote =>
    Call (Close outputPath) (fun closed =>
      match wrote, closed, entry_failure e with
      | Ok _, Ok _, None =>
          if negb (len (entry_data e) =? te_Size e) then failed_with "agent release lifecycle asset is incomplete" else k
      | _, _, _ => failed_with "agent release lifecycle asset is incomplete"
      end))).

(** The loop over the entries, up to the end or the error of the archive. *)
Fixpoint extract_entries (destination root : string) (entries : list tar_entry) (failure : option string) (found : list string)
    (expanded : Z) : prog sys (answer (list string)) :=
  match entries with
  | [] => match failure with Some text => failed_with text | None => Ret (Ok found) end
  | e :: rest =>
      if bad_entry_path root e then failed_with "agent release archive contains an invalid path"
      else if tar_dir e then extract_entries destination root rest failure found expanded
      else if negb (tar_regular e) then failed_with "agent release archive contains an unsupported entry type"
      else if (te_Size e <? 0) || (maxAgentReleaseExpanded - expanded <? te_Size e)
      then failed_with "agent release archive exceeds the expanded size limit"
      else
        match target_of root (Clean (entry_name e)) with
        | None =>
            match entry_failure e with
            | Some text => failed_with text
            | None => extract_entries destination root rest failure found (expanded + te_Size e)
            end
        | Some (name, limit) =>
            if bool_decide (name ∈ found) || (limit <? te_Size e)
            then failed_with "agent release archive contains an invalid lifecycle asset"
            else
              extract_asset (Join [destination; name]) e
                (extract_entries destination root rest failure (name :: found) (expanded + te_Size e))
        end
  end.

Definition EM_X86_64 : Z := 62.
Definition EM_AARCH64 : Z := 183.

Definition wanted_machine (platform : string) : option Z :=
  if platform =?s "linux_amd64" then Some EM_X86_64 else if platform =?s "linux_arm64" then Some EM_AARCH64 else None.

Definition elf_matches (machine : Z) (header : elf_header) : bool :=
  (elf_Class header =? 2) && (elf_Machine header =? machine) && ((elf_Type header =? 2) || (elf_Type header =? 3)).

Definition installer_line : string := "#!/usr/bin/env sh".

(** ** Operations *)

Definition idle_operation : agentUpdateOperation :=
  mkOperation "" "" agentUpdateIdle "" "No agent lifecycle operation has been scheduled." "".
Definition invalid_marker : agentUpdateOperation :=
  mkOperation "" "" agentUpdateFailed "" "The agent lifecycle state marker is invalid." "".

Definition known_status (status : string) : bool :=
  existsb (String.eqb status) [agentUpdateScheduled; agentUpdateRunning; agentUpdateCompleted; agentUpdateFailed].
Definition in_progress (operation : agentUpdateOperation) : bool :=
  (aop_Status operation =?s agentUpdateScheduled) || (aop_Status operation =?s agentUpdateRunning).

(** [time.Format] with [20060102T150405Z]. *)
Definition operation_stamp (t : time) : string :=
  let '(y, m, d) := civil_from_days (t / day_ns) in
  let secs := t mod day_ns / 1000000000 in
  year_string y +:+ digit_string (two_digits m ++ two_digits d) +:+ "T"
  +:+ digit_string (two_digits (secs / 3600) ++ two_digits (secs / 60 mod 60) ++ two_digits (secs mod 60)) +:+ "Z".

Definition writeAgentUpdateFile (filename value : string) : prog sys (answer unit) :=
  let temporary := filename +:+ ".tmp" in
  checking (WriteFile temporary (value +:+ String newline "") 384) (fun _ =>
    Call (Rename temporary filename) (fun renamed =>
      match renamed with
      | Err e => Call (HostFiles.Remove temporary) (fun _ => Ret (Err (os_fail e)))
      | Ok _ => Ret (Ok tt)
      end)).

Definition readAgentUpdateFile (filename : string) : prog sys string :=
  Call (ReadFile filename) (fun r => Ret (match r with Ok text => TrimSpace text | Err _ => "" end)).

Definition regularExecutable (filename : string) : prog sys bool := Call (Lstat filename) (fun r => Ret (runnable r)).

(** The states of the timer and of the service: whether one is active, if that
    can be told. *)
Definition block_state (block : string) : option bool :=
  let properties := foldl (fun (m : gmap string string) line =>
    match Cut "="%char (TrimSpace line) with Some (key, value) => <[key := value]> m | None => m end) ∅ (split newline block) in
  if default "" (properties !! "LoadState") =?s "" then None
  else
    let active := default "" (properties !! "ActiveState") in
    if existsb (String.eqb active) ["active"; "activating"; "reloading"; "deactivating"] then Some true
    else if existsb (String.eqb active) ["inactive"; "failed"] then Some false else None.

(** [strings.Split(s, sep)] with the two-byte separator of blank lines. *)
Fixpoint split_blocks (s block : string) : list string :=
  match s with
  | String a (String b rest as rest') =>
      if Ascii.eqb a newline && Ascii.eqb b newline then block :: split_blocks rest ""
      else split_blocks rest' (block +:+ String a "")
  | String a "" => [block +:+ String a ""]
  | "" => [block]
  end.

Definition detachedAgentLifecycleState (output : string) : bool * bool :=
  match split_blocks (TrimSpace output) "" with
  | [timer; service] =>
      match block_state timer with
      | None => (false, false)
      | Some true => (true, true)
      | Some false => match block_state service with None => (false, false) | Some active => (active, true) end
      end
  | _ => (false, false)
  end.

Section updates.
Context `{Web, Archives, LowerTable}.
(** [shuffle] is the order a map of five files is walked in. *)
Context (shuffle : list (string * string) -> list (string * string)) (c : agentUpdateController).

Definition releaseChecker : Checker := New (auc_platform c) (auc_manifestURL c) (auc_currentVersion c) (auc_manifestPublicKeys c).

Definition updateDir : string := Join [auc_stateDir c; "updates"].
Definition stage_dir (id : string) : string := Join [updateDir; id].
Definition stage_file (id name : string) : string := Join [stage_dir id; name].

Definition loadOperation : prog sys agentUpdateOperation :=
  Call (ReadFile (Join [updateDir; "current"])) (fun marker =>
    match marker with
    | Err _ => Ret idle_operation
    | Ok text =>
        let id := TrimSpace text in
        if (id =?s "") || negb (Base id =?s id) then Ret invalid_marker
        else
          do! action := readAgentUpdateFile (stage_file id "action") in
          do! status := readAgentUpdateFile (stage_file id "status") in
          do! version := readAgentUpdateFile (stage_file id "version") in
          do! detail := readAgentUpdateFile (stage_file id "status-detail") in
          do! updated := readAgentUpdateFile (stage_file id "updated-at") in
          Ret (if known_status status then mkOperation id action status version detail updated
               else mkOperation id action agentUpdateFailed version "The persisted agent lifecycle status is invalid." updated)
    end).

Definition writeOperationStatus (id status detail : string) : prog sys (answer unit) :=
  try! _ := writeAgentUpdateFile (stage_file id "status") status in
  try! _ := writeAgentUpdateFile (stage_file id "status-detail") detail in
  Call TimeNow (fun now => writeAgentUpdateFile (stage_file id "updated-at") (FormatRFC3339Nano now)).

Definition interrupted : string :=
  "Detached agent lifecycle unit ended before writing a terminal result; the operation was interrupted.".

Definition reconcileOperation (operation : agentUpdateOperation) : prog sys agentUpdateOperation :=
  do! shown := run_command (auc_systemctlBinary c)
    ["show"; "--property=LoadState"; "--property=ActiveState"; "hserver-agent-lifecycle.timer"; "hserver-agent-lifecycle.service"] in
  match shown with
  | Err _ => Ret operation
  | Ok output =>
      let '(active, conclusive) := detachedAgentLifecycleState output in
      if negb conclusive || active then Ret operation
      else
        do! _ := writeOperationStatus (aop_ID operation) agentUpdateFailed interrupted in
        Call TimeNow (fun now =>
          Ret (mkOperation (aop_ID operation) (aop_Action operation) agentUpdateFailed (aop_Version operation) interrupted
                 (FormatRFC3339Nano now)))
  end.

Definition rollbackAvailable : prog sys bool :=
  let releasesDir := Join [auc_stateDir c; "releases"] in
  Call (ReadFile (Join [releasesDir; "latest-pre-upgrade"])) (fun marker =>
    match marker with
    | Err _ => Ret false
    | Ok text =>
        let target := TrimSpace text in
        if (target =?s "") || (target =?s releasesDir) || negb (HasPrefix target (releasesDir +:+ "/")) then Ret false
        else
          Call (HostFiles.Stat (Join [target; "hserver-agent"])) (fun found =>
            Ret (match found with Ok info => fi_Regular info && (0 <? fi_Size info) | Err _ => false end))
    end).

Fixpoint write_all (directory : string) (files : list (string * string)) : prog sys (answer unit) :=
  match files with
  | [] => Ret (Ok tt)
  | (name, value) :: files' => try! _ := writeAgentUpdateFile (Join [directory; name]) value in write_all directory files'
  end.

Definition newOperation (action version : string) : prog sys (answer agentUpdateOperation) :=
  Call (MkdirAll updateDir 448) (fun made =>
    match made with
    | Err e => failed_with ("create agent update directory: " +:+ os_text e)
    | Ok _ =>
        checking (RandomBytes 6) (fun random =>
        Call TimeNow (fun now =>
          let id := operation_stamp now +:+ "-" +:+ hex_encode random in
          checking (Mkdir (stage_dir id) 448) (fun _ =>
          Call TimeNow (fun updated =>
            let operation := mkOperation id action agentUpdateScheduled version
              "Detached agent lifecycle operation is scheduled." (FormatRFC3339Nano updated) in
            try! _ := write_all (stage_dir id) (shuffle
              [("action", action); ("status", aop_Status operation); ("version", version);
               ("status-detail", aop_Detail operation); ("updated-at", aop_UpdatedAt operation)]) in
            try! _ := writeAgentUpdateFile (Join [updateDir; "current"]) id in
            Ret (Ok operation)))))
    end).

(** ** Staging an upgrade *)

Definition drop_archive (temporary text : string) : prog sys (answer unit) :=
  Call (HostFiles.Remove temporary) (fun _ => failed_with text).

Definition downloadArchive (artifact : Artifact) (destination : string) : prog sys (answer unit) :=
  if maxAgentReleaseArchiveBytes <? art_SizeBytes artifact then failed_with "agent release archive exceeds the size limit"
  else
    match url_Parse (art_URL artifact) with
    | None => failed_with ("create agent release request: " +:+ url_error (art_URL artifact))
    | Some _ =>
        Call (HttpFetch (art_URL artifact) "application/gzip, application/octet-stream") (fun fetched =>
          match fetched with
          | Err text => failed_with ("download agent release: " +:+ text)
          | Ok response =>
              if negb (rsp_Status response =? 200) then failed_with ("agent release returned HTTP " +:+ Itoa (rsp_Status response))
              else
                let limit := if 0 <? art_SizeBytes artifact then art_SizeBytes artifact else maxAgentReleaseArchiveBytes in
                let temporary := destination +:+ ".tmp" in
                let data := stake (Z.to_nat (limit + 1)) (rsp_Body response) in
                let broken := negb (rsp_Complete response) && (len (rsp_Body response) <? limit + 1) in
                Call (CreateNew temporary 384) (fun created =>
                  match created with
                  | Err e => failed_with ("create agent release archive: " +:+ os_text e)
                  | Ok _ =>
                      Call (WriteAll temporary data) (fun wrote =>
                      Call (Close temporary) (fun closed =>
                        match wrote, closed with
                        | Ok _, Ok _ =>
                            if broken || (limit <? len data) || ((0 <? art_SizeBytes artifact) && negb (len data =? art_SizeBytes artifact))
                            then drop_archive temporary "agent release archive size validation failed"
                            else if negb (sha256_hex data =?s art_SHA256 artifact)
                            then drop_archive temporary "agent release archive checksum validation failed"
                            else
                              Call (Rename temporary destination) (fun renamed =>
                                match renamed with
                                | Err e => drop_archive temporary ("publish agent release archive: " +:+ os_text e)
                                | Ok _ => Ret (Ok tt)
                                end)
                        | _, _ => drop_archive temporary "agent release archive size validation failed"
                        end))
                  end)
          end)
    end.

Definition verifyAgentELF (binaryPath platform : string) : prog sys (answer unit) :=
  Call (ReadFile binaryPath) (fun r =>
    match r with
    | Err _ => failed_with "agent release binary is not a valid ELF executable"
    | Ok data =>
        match elf_File data with
        | None => failed_with "agent release binary is not a valid ELF executable"
        | Some header =>
            match wanted_machine platform with
            | None => failed_with "agent release platform is unsupported"
            | Some machine =>
                if negb (elf_matches machine header)
                then failed_with "agent release binary architecture does not match this server" else Ret (Ok tt)
            end
        end
    end).

(** The checks of the unpacked assets. *)
Definition check_assets (destination version platform : string) : prog sys (answer unit) :=
  Call (ReadFile (Join [destination; "VERSION"])) (fun r =>
    match r with
    | Ok text =>
        if negb (TrimSpace text =?s version) then failed_with "agent release VERSION does not match the manifest"
        else
          checking (OpenRead (Join [destination; "agent-install.sh"])) (fun _ =>
          Call (ReadUpTo (Join [destination; "agent-install.sh"]) (len installer_line)) (fun head =>
          Call (Close (Join [destination; "agent-install.sh"])) (fun _ =>
            match head with
            | Ok text =>
                if negb (text =?s installer_line) then failed_with "agent lifecycle installer has an invalid format"
                else verifyAgentELF (Join [destination; "hserver-agent"]) platform
            | Err _ => failed_with "agent lifecycle installer has an invalid format"
            end)))
    | Err _ => failed_with "agent release VERSION does not match the manifest"
    end).

(** The archive is read while it is unpacked; nothing else writes it. *)
Definition extractAgentRelease (archivePath destination version platform : string) : prog sys (answer unit) :=
  checking (OpenRead archivePath) (fun _ =>
  checking (ReadFile archivePath) (fun data =>
    match gzip_tar data with
    | Err text => failed_with text
    | Ok archive =>
        try! found := extract_entries destination (release_root version platform) (tar_Entries archive) (tar_Failure archive) [] 0 in
        if negb (forallb (fun target : string * Z => bool_decide (target.1 ∈ found)) release_targets)
        then failed_with "agent release archive is missing a lifecycle asset"
        else check_assets destination version platform
    end)).

Definition stageUpgrade (version : string) (artifact : Artifact) : prog sys (answer agentUpdateOperation) :=
  try! operation := newOperation "upgrade" version in
  let archivePath := stage_file (aop_ID operation) "release.tar.gz" in
  do! downloaded := downloadArchive artifact archivePath in
  match downloaded with
  | Err e =>
      do! _ := writeOperationStatus (aop_ID operation) agentUpdateFailed "Release archive download or checksum verification failed." in
      Ret (Err e)
  | Ok _ =>
      do! extracted := extractAgentRelease archivePath (stage_dir (aop_ID operation)) version (auc_platform c) in
      match extracted with
      | Err e =>
          Call (HostFiles.Remove archivePath) (fun _ =>
            do! _ := writeOperationStatus (aop_ID operation) agentUpdateFailed "Release archive validation failed." in
            Ret (Err e))
      | Ok _ =>
          Call (HostFiles.Remove archivePath) (fun removed =>
            match removed with
            | Err e => failed_with ("remove verified agent archive: " +:+ os_text e)
            | Ok _ => Ret (Ok operation)
            end)
      end
  end.

(** ** Scheduling *)

Definition schedule_args (operation : agentUpdateOperation) (installer binary : string) : list string :=
  ["--collect"; "--quiet"; "--unit=hserver-agent-lifecycle"; "--on-active=3s"; "--timer-property=AccuracySec=1s";
   "--property=RuntimeMaxSec=" +:+ agentLifecycleRuntimeMax;
   "/bin/sh"; stage_file (aop_ID operation) "lifecycle-runner.sh";
   stage_file (aop_ID operation) "status"; stage_file (aop_ID operation) "status-detail"; stage_file (aop_ID operation) "updated-at";
   installer; aop_Action operation]
  ++ (if aop_Action operation =?s "upgrade" then [binary] else []).

Definition schedule (operation : agentUpdateOperation) (installer binary : string) : prog sys (answer unit) :=
  checking (WriteFile (stage_file (aop_ID operation) "lifecycle-runner.sh") agentLifecycleRunner 448) (fun _ =>
    do! started := run_command (auc_systemdRunBinary c) (schedule_args operation installer binary) in
    Ret (match started with
         | Err text => Err (errors_New ("schedule detached agent lifecycle operation: " +:+ text))
         | Ok _ => Ok tt
         end)).

Definition update_status (release : Result) (operation : agentUpdateOperation) (rollback : bool) : managedAgentUpdateStatus :=
  mkUpdateStatus (res_Status release) (res_SignatureStatus release) (res_CurrentVersion release) (res_LatestVersion release)
    (res_LatestVersionState release) (res_UpdateAvailable release) (res_Platform release) (res_ReleaseNotesURL release)
    (res_Message release) (FormatRFC3339Nano (res_CheckedAt release)) (aop_Action operation) (aop_Status operation)
    (aop_Version operation) (aop_Detail operation) (aop_UpdatedAt operation) rollback.

Definition statusFromKnownRelease (release : Result) : prog sys (answer managedAgentUpdateStatus) :=
  do! operation := loadOperation in
  do! rollback := rollbackAvailable in
  Ret (Ok (update_status release operation rollback)).

(** ** The controller's operations *)

Definition Status : prog sys (answer managedAgentUpdateStatus) :=
  do! release := Check releaseChecker in
  do! loaded := loadOperation in
  do! operation := (if in_progress loaded then reconcileOperation loaded else Ret loaded) in
  do! rollback := rollbackAvailable in
  Ret (Ok (update_status release operation rollback)).

(** The installer and the binary are handed to the detached unit. *)
Definition schedule_or_fail {A} (operation : agentUpdateOperation) (installer binary : string) (k : prog sys (answer A))
    : prog sys (answer A) :=
  do! scheduled := schedule operation installer binary in
  match scheduled with
  | Err e =>
      do! _ := writeOperationStatus (aop_ID operation) agentUpdateFailed "Could not create the detached systemd lifecycle unit." in
      Ret (Err e)
  | Ok _ => k
  end.

Definition Upgrade (expectedVersion : string) : prog sys (answer managedAgentUpdateStatus) :=
  do! current := loadOperation in
  if in_progress current then Ret (Err errAgentUpdateConflict)
  else
    do! release := Check releaseChecker in
    match res_Artifact release with
    | Some artifact =>
        if negb (res_Status release =?s StatusHealthy) || negb (res_UpdateAvailable release) then Ret (Err errAgentUpdateUnavailable)
        else if negb (res_SignatureStatus release =?s SignatureVerified) then Ret (Err ErrSignedManifestRequired)
        else if (expectedVersion =?s "") || negb (expectedVersion =?s res_LatestVersion release) then Ret (Err errAgentUpdateVersion)
        else
          try! operation := stageUpgrade (res_LatestVersion release) artifact in
          schedule_or_fail operation (stage_file (aop_ID operation) "agent-install.sh") (stage_file (aop_ID operation) "hserver-agent")
            (statusFromKnownRelease release)
    | None => Ret (Err errAgentUpdateUnavailable)
    end.

Definition Rollback : prog sys (answer managedAgentUpdateStatus) :=
  do! current := loadOperation in
  if in_progress current then Ret (Err errAgentUpdateConflict)
  else
    do! snapshot := rollbackAvailable in
    do! executable := (if snapshot then regularExecutable (auc_lifecycleInstaller c) else Ret false) in
    if negb snapshot || negb executable then Ret (Err errAgentRollbackUnavailable)
    else
      try! operation := newOperation "rollback" "" in
      schedule_or_fail operation (auc_lifecycleInstaller c) ""
        (do! release := Check releaseChecker in statusFromKnownRelease release).
End updates.
