(* ===== verification/AgentUpdatesClaims.v ===== *)
(** * What the agent's updates run

    An upgrade executes nothing but the installer and the binary of a release
    that a configured key signed. *)

From stdpp Require Import base strings gmap list.
From Stdlib Require Import ZArith Lia Ascii.
From S2P Require Import Prelude GoStrings GoJson GoTime GoSha256 HubTypes ReleaseVersion IntegrationStatus AgentConfig AgentTasks HostFiles AgentEditors AgentPHP AgentCron ReleaseUpdates AgentUpdates.
Local Open Scope Z_scope.
Local Open Scope hub_scope.

(** The path holds a file with the content. *)
Definition holds (s : fs) (path content : string) : Prop := exists perm uid gid, s !! path = Some (File content perm uid gid).

Definition commands {B} (o : sys B) : bool := match o with HostFiles.Run _ _ | RunCombined _ _ => true | _ => false end.

(** The regular entries of an archive with a name below its root. *)
Definition asset_entries (root name : string) (entries : list tar_entry) : list tar_entry :=
  filter (fun e => tar_regular e = true /\ te_Name e = root +:+ "/" +:+ name) entries.

Section release.
Context `{Web, Archives, LowerTable}.

(** A manifest with this version and artifact of the platform has a signature
    of one of the controller's keys. *)
Definition signed_release (c : agentUpdateController) (version : string) (artifact : Artifact) : Prop :=
  exists keys key payload signature manifest,
    decodeManifestPublicKeys (TrimSpace (auc_manifestPublicKeys c)) = Some keys /\ key ∈ keys
    /\ ed25519_Verify key payload signature = true
    /\ decodeManifest payload = Some manifest
    /\ mf_Version manifest = version /\ mf_Artifacts manifest !! auc_platform c = Some artifact.

(** The installer and the binary of an archive: each the one entry of its name,
    beside the VERSION of the release, in the formats of a shell script and of
    an executable of the platform. *)
Definition assets_of (bytes version platform installer binary : string) : Prop :=
  exists archive eV eI eB machine header,
    let one name e := asset_entries (release_root version platform) name (tar_Entries archive) = [e] in
    gzip_tar bytes = Ok archive /\ tar_Failure archive = None
    /\ one "VERSION" eV /\ TrimSpace (entry_data eV) = version
    /\ one "agent-install.sh" eI /\ entry_data eI = installer /\ stake 17 installer = installer_line
    /\ one "hserver-agent" eB /\ entry_data eB = binary
    /\ wanted_machine platform = Some machine /\ elf_File binary = Some header /\ elf_matches machine header = true.
End release.

(** ** Programs without commands *)

Notation quiet := (free_of (@commands)).

Ltac quiet :=
  repeat first
    [ done
    | progress cbn [free_of commands pbind perform checking on_ok failed_with]
    | apply conj
    | progress intros
    | apply free_of_bind
    | assumption
    | case_match ].

Lemma writeAgentUpdateFile_quiet filename value : quiet (writeAgentUpdateFile filename value).
Proof. unfold writeAgentUpdateFile, checking. quiet. Qed.

Section quiet.
Context `{Web, Archives, LowerTable} (shuffle : list (string * string) -> list (string * string)) (c : agentUpdateController).

Lemma loadOperation_quiet : quiet (loadOperation c).
Proof. unfold loadOperation, readAgentUpdateFile. quiet. Qed.

Lemma Check_quiet checker : quiet (Check checker).
Proof. unfold Check, check_payload, verifyManifestSignature. quiet. Qed.

Lemma rollbackAvailable_quiet : quiet (rollbackAvailable c).
Proof. unfold rollbackAvailable. quiet. Qed.

Lemma write_all_quiet directory files : quiet (write_all directory files).
Proof.
  induction files as [|[name value] files IH]; [done|]. apply free_of_bind; [apply writeAgentUpdateFile_quiet|].
  intros [[]|e]; [apply IH|done].
Qed.

Lemma writeOperationStatus_quiet id status detail : quiet (writeOperationStatus c id status detail).
Proof.
  unfold writeOperationStatus. repeat (apply free_of_bind; [apply writeAgentUpdateFile_quiet|]; intros [[]|e]; [|done]).
  split; [done|]. intros now. apply writeAgentUpdateFile_quiet.
Qed.

Lemma newOperation_quiet action version : quiet (newOperation shuffle c action version).
Proof.
  unfold newOperation, checking. split; [done|]. intros [_|e]; [|done]. split; [done|]. intros [random|e]; [|done].
  split; [done|]. intros now. split; [done|]. intros [_|e]; [|done]. split; [done|]. intros updated.
  apply free_of_bind; [apply write_all_quiet|]. intros [[]|e]; [|done].
  apply free_of_bind; [apply writeAgentUpdateFile_quiet|]. by intros [[]|e].
Qed.

Lemma downloadArchive_quiet artifact destination : quiet (downloadArchive artifact destination).
Proof. unfold downloadArchive, drop_archive. quiet. Qed.

Lemma extract_entries_quiet destination root entries failure found expanded :
  quiet (extract_entries destination root entries failure found expanded).
Proof.
  revert found expanded. induction entries as [|e entries IH]; intros found expanded; cbn [extract_entries]; [by case_match|].
  repeat case_match; try done; try apply IH. unfold extract_asset, checking. quiet.
Qed.

Lemma extractAgentRelease_quiet archivePath destination version platform :
  quiet (extractAgentRelease archivePath destination version platform).
Proof.
  unfold extractAgentRelease, check_assets, verifyAgentELF, checking. split; [done|]. intros [_|e]; [|done]. split; [done|].
  intros [data|e]; [|done]. case_match; [|done]. apply free_of_bind; [apply extract_entries_quiet|]. intros [found|e]; quiet.
Qed.

Lemma stageUpgrade_quiet version artifact : quiet (stageUpgrade shuffle c version artifact).
Proof.
  unfold stageUpgrade. apply free_of_bind; [apply newOperation_quiet|]. intros [operation|e]; [|done].
  apply free_of_bind; [apply downloadArchive_quiet|]. intros [[]|e].
  - apply free_of_bind; [apply extractAgentRelease_quiet|]. intros [[]|e]; (split; [done|]); intros r; [by case_match|].
    apply free_of_bind; [apply writeOperationStatus_quiet|done].
  - apply free_of_bind; [apply writeOperationStatus_quiet|done].
Qed.

Lemma statusFromKnownRelease_quiet release : quiet (statusFromKnownRelease c release).
Proof.
  apply free_of_bind; [apply loadOperation_quiet|]. intros operation.
  apply free_of_bind; [apply rollbackAvailable_quiet|done].
Qed.
End quiet.

(** ** What the steps establish *)

Section steps.
Context `{Host, Web, Archives, LowerTable}.
Context (command : string -> list string -> fs -> result string string -> fs -> Prop).
Context (resolves : string -> string -> Prop).
Notation wp := (wp command resolves (fun _ => True)).
Notation reaches := (reaches command resolves).

Lemma call_wp {A B} (o : sys B) (k : B -> prog sys A) Q s :
  (forall b s', sys_step command resolves o s b s' -> wp (k b) Q s') -> wp (Call o k) Q s.
Proof. by apply wp_call. Qed.

Lemma done_wp {A} (a : A) (Q : A -> fs -> Prop) s : Q a s -> wp (Ret a) Q s.
Proof. by apply wp_ret. Qed.

Lemma wp_at {A} (p : prog sys A) Q s a s' : wp p Q s -> reaches p s (Ret a) s' -> Q a s'.
Proof. intros Hw Hr. by eapply wp_sound in Hr as [_ Hq]; [apply Hq|]. Qed.

(** *** The release *)

Lemma verify_wp manifestURL payload keys s :
  wp (verifyManifestSignature manifestURL payload keys) (fun verified _ => verified = true ->
    exists key signature, key ∈ keys /\ ed25519_Verify key payload signature = true) s.
Proof.
  unfold verifyManifestSignature. case_match; [|by apply done_wp]. case_match; [|by apply done_wp].
  apply call_wp. intros fetched s' _. apply done_wp. repeat case_match; try done.
  intros [_ (key & Hin & Hv)%existsb_exists]%andb_true_iff. apply list_elem_of_In in Hin. eauto.
Qed.

Lemma Check_wp c s :
  wp (Check (releaseChecker c)) (fun release _ => forall artifact,
    res_Artifact release = Some artifact -> res_SignatureStatus release = SignatureVerified ->
    signed_release c (res_LatestVersion release) artifact
    /\ (res_UpdateAvailable release = true -> Compare (res_LatestVersion release) (auc_currentVersion c) = Ahead)) s.
Proof.
  unfold Check. apply call_wp. intros now s1 _. case_match; [by apply done_wp|]. case_match; [by apply done_wp|].
  case_match eqn:Hkeys; [|by apply done_wp]. case_match; [|by apply done_wp]. apply call_wp. intros fetched s2 _.
  case_match; [|by apply done_wp]. case_match; [by apply done_wp|]. case_match; [|by apply done_wp]. case_match; [by apply done_wp|].
  unfold check_payload. destruct l as [|k ks].
  - apply done_wp. unfold read_manifest. by repeat case_match.
  - apply wp_bind. eapply wp_mono; [apply verify_wp|done|]. intros verified s3 _ Hv. apply done_wp.
    destruct verified; [|done]. destruct (Hv eq_refl) as (key & signature & Hin & Hs). unfold read_manifest.
    destruct (decodeManifest _) as [manifest|] eqn:Hm; [|done]. destruct (mf_Artifacts manifest !! _) as [found|] eqn:Ha; [|done].
    intros artifact [= <-] _. split; [|by intros ?%bool_decide_eq_true]. exists (k :: ks), key, s0, signature, manifest. by rewrite <-Hkeys.
Qed.

(** *** The archive *)

Lemma drop_archive_wp temporary text Q s : (forall s', Q (Err (errors_New text)) s') -> wp (drop_archive temporary text) Q s.
Proof. intros Hq. apply call_wp. intros r s' _. by apply done_wp. Qed.

Lemma downloadArchive_wp artifact destination s :
  wp (downloadArchive artifact destination) (fun r s' =>
    r = Ok tt -> exists bytes, holds s' destination bytes /\ sha256_hex bytes = art_SHA256 artifact) s.
Proof.
  unfold downloadArchive. case_match; [by apply done_wp|]. case_match; [|by apply done_wp].
  apply call_wp. intros [response|text] s1 _; [|by apply done_wp]. case_match; [by apply done_wp|].
  apply call_wp. intros [[]|e] s2 Hc; [|by apply done_wp]. destruct Hc as (Hnone & perm & uid & gid & ->).
  set (data := stake _ _). apply call_wp. intros wrote s3 Hw. apply call_wp. intros closed s4 [-> _].
  destruct wrote as [[]|e]; [|by apply drop_archive_wp]. destruct closed as [[]|e]; [|by apply drop_archive_wp].
  cbn in Hw. rewrite lookup_insert_eq in Hw. subst s3.
  case_match; [by apply drop_archive_wp|]. destruct (String.eqb_spec (sha256_hex data) (art_SHA256 artifact)) as [Hh|]; [|by apply drop_archive_wp].
  cbn [negb]. apply call_wp. intros [[]|e] s5 Hr; [|by apply drop_archive_wp]. apply done_wp. intros _.
  cbn in Hr. rewrite lookup_insert_eq in Hr. subst s5. exists data. split; [|done].
  eexists _, _, _. by rewrite lookup_insert_eq.
Qed.

(** Of every asset the entries so far hold none, and it was not found, or one,
    and it was written. *)
Definition unpacked (destination root : string) (entries : list tar_entry) (found : list string) (s : fs) : Prop :=
  forall name limit, (name, limit) ∈ release_targets ->
    match asset_entries root name entries with
    | [] => name ∉ found
    | [e] => name ∈ found /\ holds s (Join [destination; name]) (entry_data e)
    | _ => False
    end.

Lemma target_of_some root e name limit :
  target_of root (te_Name e) = Some (name, limit) -> (name, limit) ∈ release_targets /\ te_Name e = root +:+ "/" +:+ name.
Proof.
  unfold target_of. intros [Hin He]%find_some. apply list_elem_of_In in Hin. split; [done|]. by apply String.eqb_eq.
Qed.

Lemma target_of_none root e : target_of root (te_Name e) = None ->
  forall name limit, (name, limit) ∈ release_targets -> te_Name e <> root +:+ "/" +:+ name.
Proof.
  unfold target_of. intros Hn name limit Hin%list_elem_of_In E. eapply find_none in Hn; [|done]. cbn in Hn.
  by rewrite <-E, String.eqb_refl in Hn.
Qed.

Lemma asset_entries_app root name entries e :
  asset_entries root name (entries ++ [e])
  = asset_entries root name entries ++ (if decide (tar_regular e = true /\ te_Name e = root +:+ "/" +:+ name) then [e] else []).
Proof. unfold asset_entries. rewrite filter_app, filter_cons, filter_nil. by case_decide. Qed.

Lemma unpacked_skip destination root entries found s e :
  (forall name limit, (name, limit) ∈ release_targets -> ~ (tar_regular e = true /\ te_Name e = root +:+ "/" +:+ name)) ->
  unpacked destination root entries found s -> unpacked destination root (entries ++ [e]) found s.
Proof.
  intros He Hu name limit Hin. rewrite asset_entries_app, decide_False by by eapply He. rewrite app_nil_r. by eapply Hu.
Qed.

Lemma asset_plain name limit : (name, limit) ∈ release_targets -> plain_name name.
Proof.
  intros Hin. repeat (apply elem_of_cons in Hin as [[= -> ->]|Hin]; [by split; [|apply (bool_decide_unpack _); vm_compute]|]).
  by apply not_elem_of_nil in Hin.
Qed.

Lemma unpacked_asset destination root entries found s e name limit perm uid gid :
  destination <> "" -> (name, limit) ∈ release_targets -> tar_regular e = true -> te_Name e = root +:+ "/" +:+ name -> name ∉ found ->
  unpacked destination root entries found s ->
  unpacked destination root (entries ++ [e]) (name :: found)
    (<[Join [destination; name] := File (entry_data e) perm uid gid]> s).
Proof.
  intros Hd Hin Hr Hn Hnew Hu name' limit' Hin'. rewrite asset_entries_app. specialize (Hu name' limit' Hin') as Hold.
  destruct (decide (name' = name)) as [->|Hne].
  - rewrite decide_True by done. destruct (asset_entries root name entries) as [|e' [|]]; [|by destruct Hold|done].
    split; [by left|]. eexists _, _, _. apply lookup_insert_eq.
  - rewrite decide_False, app_nil_r.
    2:{ intros [_ E]. rewrite E in Hn. by apply string_app_inj, string_app_inj in Hn. }
    destruct (asset_entries root name' entries) as [|e' [|]]; [set_solver| |done]. destruct Hold as [Hf (p & u & g & Hs)].
    split; [by right|]. eexists _, _, _. rewrite lookup_insert_ne; [done|]. intros E. apply Hne.
    eapply Join_inj; [done| |..]; eauto using asset_plain.
Qed.

Lemma regular_name e : tar_regular e = true -> tar_dir e = false /\ entry_name e = te_Name e.
Proof.
  unfold entry_name, tar_regular, tar_dir. intros [E|E]%orb_true_iff; apply Z.eqb_eq in E; by rewrite E.
Qed.

Lemma extract_entries_wp destination root entries failure before found expanded s :
  destination <> "" -> unpacked destination root before found s ->
  wp (extract_entries destination root entries failure found expanded) (fun r s' =>
    match r with Ok found' => failure = None /\ unpacked destination root (before ++ entries) found' s' | Err _ => True end) s.
Proof.
  intros Hd. revert before found expanded s. induction entries as [|e entries IH]; intros before found expanded s Hu; cbn [extract_entries].
  { rewrite app_nil_r. destruct failure; by apply done_wp. }
  assert (before ++ e :: entries = (before ++ [e]) ++ entries) as -> by by rewrite <-app_assoc.
  destruct (bad_entry_path root e) eqn:Hbad; [by apply done_wp|].
  destruct (tar_dir e) eqn:Hdir.
  { apply IH, unpacked_skip; [|done]. intros name limit _ [Hr _]. apply regular_name in Hr as [? _]. congruence. }
  destruct (tar_regular e) eqn:Hr; [|by apply done_wp]. cbn [negb]. case_match; [by apply done_wp|].
  assert (Clean (entry_name e) = te_Name e) as ->.
  { apply regular_name in Hr as [_ <-]. unfold bad_entry_path in Hbad. repeat (apply orb_false_iff in Hbad as [Hbad ?]).
    by apply String.eqb_eq, negb_false_iff. }
  destruct (target_of root (te_Name e)) as [[name limit]|] eqn:Ht.
  - apply target_of_some in Ht as [Hin Hn]. destruct (bool_decide _ || _) eqn:Hg; [by apply done_wp|].
    apply orb_false_iff in Hg as [Hnew%bool_decide_eq_false _].
    unfold extract_asset, checking. apply call_wp. intros [[]|x] s1 Hc; [|by apply done_wp]. destruct Hc as (_ & perm & uid & gid & ->).
    apply call_wp. intros wrote s2 Hw. apply call_wp. intros closed s3 [-> _].
    destruct wrote as [[]|x]; [|by apply done_wp]. destruct closed as [[]|x]; [|by apply done_wp].
    destruct (entry_failure e); [by apply done_wp|]. case_match; [by apply done_wp|].
    cbn in Hw. rewrite lookup_insert_eq in Hw. subst s2. rewrite insert_insert_eq. apply IH. by eapply unpacked_asset.
  - case_match; [by apply done_wp|]. apply IH, unpacked_skip; [|done]. intros name limit Hin [_ E]. by eapply target_of_none in Ht.
Qed.

(** Reading a file that is there. *)
Lemma read_held s path content r s' :
  sys_step command resolves (ReadFile path) s r s' -> holds s path content -> s' = s /\ forall text, r = Ok text -> text = content.
Proof. intros [-> Hr] (perm & uid & gid & Hs). split; [done|]. intros text ->. by rewrite Hs in Hr. Qed.

Lemma check_assets_wp destination version platform vtext itext btext s :
  holds s (Join [destination; "VERSION"]) vtext -> holds s (Join [destination; "agent-install.sh"]) itext ->
  holds s (Join [destination; "hserver-agent"]) btext ->
  wp (check_assets destination version platform) (fun r s' => r = Ok tt -> s' = s
    /\ TrimSpace vtext = version /\ stake 17 itext = installer_line
    /\ exists machine header, wanted_machine platform = Some machine /\ elf_File btext = Some header /\ elf_matches machine header = true) s.
Proof.
  intros Hv Hi Hb. unfold check_assets, verifyAgentELF, checking. apply call_wp. intros r1 s1 Hr1.
  apply (read_held _ _ vtext) in Hr1 as [-> Hr1]; [|done]. destruct r1 as [text|e]; [|by apply done_wp]. rewrite (Hr1 text) by done.
  destruct (String.eqb_spec (TrimSpace vtext) version) as [Hversion|]; [|by apply done_wp]. cbn [negb].
  apply call_wp. intros [opened|e] s2 Hs2; [|by apply done_wp]. cbn in Hs2. subst s2. apply call_wp. intros head s3 [-> Hs3].
  apply call_wp. intros closed s4 [-> _]. destruct Hi as (perm & uid & gid & Hi). rewrite Hi in Hs3.
  destruct head as [head|e]; [|by apply done_wp]. subst head. change (Z.to_nat (len installer_line)) with 17%nat.
  destruct (String.eqb_spec (stake 17 itext) installer_line) as [Hline|]; [|by apply done_wp]. cbn [negb].
  apply call_wp. intros r5 s5 Hr5. apply (read_held _ _ btext) in Hr5 as [-> Hr5]; [|done].
  destruct r5 as [data|e]; [|by apply done_wp]. rewrite (Hr5 data) by done.
  destruct (elf_File btext) as [header|] eqn:He; [|by apply done_wp]. destruct (wanted_machine platform) as [machine|] eqn:Hm; [|by apply done_wp].
  destruct (elf_matches machine header) eqn:Hok; [|by apply done_wp]. apply done_wp. intros _. split_and!; [done..|].
  by exists machine, header.
Qed.

(** A stage directory with the assets of the archive. *)
Definition staged (bytes version platform destination : string) (s : fs) : Prop :=
  exists installer binary, assets_of bytes version platform installer binary
    /\ holds s (Join [destination; "agent-install.sh"]) installer /\ holds s (Join [destination; "hserver-agent"]) binary.

Lemma unpacked_one destination root entries found s name limit :
  (name, limit) ∈ release_targets -> name ∈ found -> unpacked destination root entries found s ->
  exists e, asset_entries root name entries = [e] /\ holds s (Join [destination; name]) (entry_data e).
Proof.
  intros Hin Hf Hu. specialize (Hu name limit Hin). destruct (asset_entries root name entries) as [|e [|]]; [done| |done].
  exists e. split; [done|]. apply Hu.
Qed.

Lemma extractAgentRelease_wp archivePath destination version platform bytes s :
  destination <> "" -> holds s archivePath bytes ->
  wp (extractAgentRelease archivePath destination version platform) (fun r s' => r = Ok tt -> staged bytes version platform destination s') s.
Proof.
  intros Hd Hb. unfold extractAgentRelease, checking. apply call_wp. intros [opened|e] s1 Hs1; [|by apply done_wp].
  cbn in Hs1. subst s1. apply call_wp. intros r2 s2 Hr2. apply (read_held _ _ bytes) in Hr2 as [-> Hr2]; [|done].
  destruct r2 as [data|e]; [|by apply done_wp]. rewrite (Hr2 data) by done.
  destruct (gzip_tar bytes) as [archive|text] eqn:Ht; [|by apply done_wp].
  apply wp_bind. eapply wp_mono; [apply (extract_entries_wp _ _ _ _ []); [done|]|done|].
  { intros name limit _. set_solver. }
  intros [found|e] s3 _; [|intros _; by apply done_wp]. intros [Hfail Hu]. cbn [on_ok].
  destruct (forallb _ release_targets) eqn:Hall; [|by apply done_wp]. cbn [negb].
  rewrite forallb_forall in Hall.
  assert (forall name limit, (name, limit) ∈ release_targets -> exists e,
    asset_entries (release_root version platform) name (tar_Entries archive) = [e] /\ holds s3 (Join [destination; name]) (entry_data e)) as Hone.
  { intros name limit Hin. eapply unpacked_one; [done| |done]. apply list_elem_of_In, Hall, bool_decide_eq_true in Hin. done. }
  destruct (Hone "VERSION" maxAgentVersionBytes) as (eV & HV & FV); [by left|].
  destruct (Hone "hserver-agent" maxAgentBinaryBytes) as (eB & HB & FB); [by right; left|].
  destruct (Hone "agent-install.sh" maxAgentInstallerBytes) as (eI & HI & FI); [by right; right; left|].
  eapply wp_mono; [by eapply check_assets_wp|done|]. intros r s4 _ Hr Hok. destruct (Hr Hok) as (-> & Hv & Hi & machine & header & ? & ? & ?).
  exists (entry_data eI), (entry_data eB). split_and!; [|done..]. by exists archive, eV, eI, eB, machine, header.
Qed.

Lemma stage_dir_nonempty c id : stage_dir c id <> "".
Proof.
  unfold stage_dir, Join. rewrite !filter_cons, filter_nil. rewrite decide_True by (apply Join_nonempty; done).
  case_decide; apply Clean_nonempty.
Qed.

Lemma stage_ne c id m n : plain_name m -> plain_name n -> m <> n -> stage_file c id m <> stage_file c id n.
Proof. intros Hm Hn Hne E. apply Hne. by eapply Join_inj; [apply stage_dir_nonempty|..]. Qed.

Lemma holds_delete (s : fs) path path' content : path <> path' -> holds s path content -> holds (delete path' s) path content.
Proof. intros Hne (perm & uid & gid & Hs). exists perm, uid, gid. by rewrite lookup_delete_ne. Qed.

Lemma wp_any {A} (p : prog sys A) Q s : (forall a s', Q a s') -> wp p Q s.
Proof. intros Hq. revert s. induction p as [a|B o k IH]; intros s; [by apply done_wp|]. apply call_wp. intros b s' _. apply IH. Qed.

Lemma wp_then {A B} (p : prog sys A) (k : A -> prog sys B) Q s : (forall a s', wp (k a) Q s') -> wp (pbind p k) Q s.
Proof. intros Hk. by apply wp_bind, wp_any. Qed.

Lemma newOperation_wp shuffle c action version s :
  wp (newOperation shuffle c action version) (fun r _ => forall operation, r = Ok operation -> aop_Action operation = action) s.
Proof.
  unfold newOperation, checking. apply call_wp. intros [made|e] s1 _; [|by apply done_wp].
  apply call_wp. intros [random|e] s2 _; [|by apply done_wp]. apply call_wp. intros now s3 _.
  apply call_wp. intros [made'|e] s4 _; [|by apply done_wp]. apply call_wp. intros updated s5 _.
  apply wp_then. intros [[]|e] s6; [|by apply done_wp]. apply wp_then. intros [[]|e] s7; [|by apply done_wp].
  apply done_wp. by intros operation [= <-].
Qed.

Lemma plain_names : Forall plain_name ["release.tar.gz"; "agent-install.sh"; "hserver-agent"; "lifecycle-runner.sh"].
Proof. repeat constructor; try done; apply (bool_decide_unpack _); by vm_compute. Qed.

Lemma stageUpgrade_wp shuffle c version artifact s :
  wp (stageUpgrade shuffle c version artifact) (fun r s' => forall operation, r = Ok operation ->
    aop_Action operation = "upgrade" /\ exists bytes, sha256_hex bytes = art_SHA256 artifact
      /\ staged bytes version (auc_platform c) (stage_dir c (aop_ID operation)) s') s.
Proof.
  unfold stageUpgrade. apply wp_bind. eapply wp_mono; [apply newOperation_wp|done|].
  intros [operation|e] s1 _ Hop; [|by apply done_wp]. cbn [on_ok]. specialize (Hop operation eq_refl).
  apply wp_bind. eapply wp_mono; [apply downloadArchive_wp|done|]. intros [[]|e] s2 _ Hdown; [|by apply wp_then; intros; apply done_wp].
  destruct (Hdown eq_refl) as (bytes & Hbytes & Hsha). clear Hdown.
  apply wp_bind. eapply wp_mono; [by eapply extractAgentRelease_wp; [apply stage_dir_nonempty|]|done|].
  intros [[]|e] s3 _ Hext; [|by apply call_wp; intros; apply wp_then; intros; apply done_wp].
  destruct (Hext eq_refl) as (installer & binary & Hassets & Hi & Hb). clear Hext.
  apply call_wp. intros [[]|e] s4 Hs4; [|by apply done_wp]. cbn in Hs4. subst s4. apply done_wp. intros op [= <-].
  split; [done|]. exists bytes. split; [done|]. exists installer, binary. split; [done|].
  pose proof plain_names as Hn. rewrite !Forall_cons in Hn. destruct Hn as (Hn1 & Hn2 & Hn3 & _).
  split; (apply holds_delete; [|done]); (apply (stage_ne c (aop_ID operation)); done).
Qed.
End steps.

(** ** Claims *)

(** What a command of an upgrade to [expected] may be: the start of the detached
    unit over a stage directory with the assets of a signed release. *)
Definition upgrade_command `{Web, Archives, LowerTable} (c : agentUpdateController) (expected : string) {B} (o : sys B) (s : fs) : Prop :=
  match o with
  | HostFiles.Run name args =>
      exists operation artifact bytes installer binary,
        let path := stage_file c (aop_ID operation) in
        signed_release c expected artifact /\ Compare expected (auc_currentVersion c) = Ahead
        /\ sha256_hex bytes = art_SHA256 artifact /\ assets_of bytes expected (auc_platform c) installer binary
        /\ holds s (path "agent-install.sh") installer /\ holds s (path "hserver-agent") binary
        /\ holds s (path "lifecycle-runner.sh") agentLifecycleRunner
        /\ aop_Action operation = "upgrade"
        /\ name = auc_systemdRunBinary c /\ args = schedule_args c operation (path "agent-install.sh") (path "hserver-agent")
  | _ => False
  end.

Section claims.
Context `{Host, Web, Archives, LowerTable}.
Context (command : string -> list string -> fs -> result string string -> fs -> Prop).
Context (resolves : string -> string -> Prop).
Notation reaches := (reaches command resolves).
Notation calls_ok := (calls_ok command resolves).
Context (shuffle : list (string * string) -> list (string * string)) (c : agentUpdateController).

(** A restriction on commands only. *)
Definition restricted (P : forall B, sys B -> fs -> Prop) B (o : sys B) (s : fs) : Prop := commands o = true -> P B o s.

Lemma quiet_calls {A} (P : forall B, sys B -> fs -> Prop) (p : prog sys A) (Q : A -> fs -> Prop) s :
  quiet p -> (forall a s', reaches p s (Ret a) s' -> Q a s') -> calls_ok (restricted P) p Q s.
Proof. apply free_of_calls. intros B o s' Ho Hc. congruence. Qed.

Lemma silent_bind {A B} (P : forall B, sys B -> fs -> Prop) (p : prog sys A) (k : A -> prog sys B) Q s :
  quiet p -> (forall a s', reaches p s (Ret a) s' -> calls_ok (restricted P) (k a) Q s') -> calls_ok (restricted P) (pbind p k) Q s.
Proof. intros Hp Hk. by apply calls_ok_bind, quiet_calls. Qed.

Lemma schedule_calls {A} (P : forall B, sys B -> fs -> Prop) operation installer binary (k : prog sys (answer A)) (s : fs) :
  quiet k ->
  (forall perm uid gid, P _ (HostFiles.Run (auc_systemdRunBinary c) (schedule_args c operation installer binary))
     (<[stage_file c (aop_ID operation) "lifecycle-runner.sh" := File agentLifecycleRunner perm uid gid]> s)) ->
  calls_ok (restricted P) (schedule_or_fail c operation installer binary k) (fun _ _ => True) s.
Proof.
  intros Hk HP. unfold schedule_or_fail, schedule, checking, run_command, perform.
  split; [done|]. intros [[]|e] s1 Hs1.
  - destruct Hs1 as (perm & uid & gid & ->). split; [intros _; apply HP|]. intros started s2 _. cbn [pbind].
    destruct started as [output|text]; [by apply quiet_calls|]. apply silent_bind; [apply writeOperationStatus_quiet|done].
  - cbn [pbind]. apply silent_bind; [apply writeOperationStatus_quiet|done].
Qed.

Lemma holds_insert (s : fs) path path' n content : path <> path' -> holds s path content -> holds (<[path' := n]> s) path content.
Proof. intros Hne (perm & uid & gid & Hs). exists perm, uid, gid. by rewrite lookup_insert_ne. Qed.

Lemma upgrade_calls expected s0 :
  calls_ok (restricted (fun B o s => upgrade_command c expected o s
      /\ exists recorded s1, reaches (loadOperation c) s0 (Ret recorded) s1 /\ in_progress recorded = false))
    (Upgrade shuffle c expected) (fun _ _ => True) s0.
Proof.
  unfold Upgrade. apply silent_bind; [apply loadOperation_quiet|]. intros recorded s1 Hrec. destruct (in_progress recorded) eqn:Hp; [done|].
  apply silent_bind; [apply Check_quiet|]. intros release s2 Hcheck. eapply wp_at in Hcheck; [|apply Check_wp].
  destruct (res_Artifact release) as [artifact|] eqn:Hart; [|done]. destruct (_ || negb (res_UpdateAvailable release)) eqn:Hup; [done|].
  apply orb_false_iff in Hup as [_ Hup%negb_false_iff].
  destruct (String.eqb_spec (res_SignatureStatus release) SignatureVerified) as [Hsig|]; [|done]. cbn [negb].
  destruct (expected =?s "") ; [done|]. destruct (String.eqb_spec expected (res_LatestVersion release)) as [Hver|]; [|done]. cbn [negb orb].
  destruct (Hcheck artifact Hart Hsig) as [Hsigned Hnewer]. rewrite <-Hver in *.
  apply silent_bind; [apply stageUpgrade_quiet|]. intros [operation|e] s3 Hstage; [|done]. cbn [on_ok].
  eapply wp_at in Hstage; [|apply stageUpgrade_wp]. destruct (Hstage operation eq_refl) as (Hact & bytes & Hsha & installer & binary & Hassets & Hi & Hb).
  apply schedule_calls; [apply statusFromKnownRelease_quiet|]. intros perm uid gid. split; [|by eauto].
  pose proof plain_names as Hn. rewrite !Forall_cons in Hn. destruct Hn as (_ & Hn2 & Hn3 & Hn4 & _).
  exists operation, artifact, bytes, installer, binary. split_and!; try done; [by apply Hnewer|..].
  - apply holds_insert; [by apply stage_ne|done].
  - apply holds_insert; [by apply stage_ne|done].
  - eexists _, _, _. apply lookup_insert_eq.
Qed.

(** A rollback only starts the unit with the installer of the host, over a
    recorded operation that is not in progress. *)
Definition rollback_command {B} (o : sys B) (s : fs) : Prop :=
  match o with
  | HostFiles.Run name args =>
      name = auc_systemdRunBinary c /\ exists operation, aop_Action operation = "rollback"
        /\ args = schedule_args c operation (auc_lifecycleInstaller c) ""
        /\ holds s (stage_file c (aop_ID operation) "lifecycle-runner.sh") agentLifecycleRunner
  | _ => False
  end.

Lemma rollback_calls s0 :
  calls_ok (restricted (fun B o s => rollback_command o s
      /\ exists recorded s1, reaches (loadOperation c) s0 (Ret recorded) s1 /\ in_progress recorded = false))
    (Rollback shuffle c) (fun _ _ => True) s0.
Proof.
  unfold Rollback. apply silent_bind; [apply loadOperation_quiet|]. intros recorded s1 Hrec. destruct (in_progress recorded) eqn:Hp; [done|].
  apply silent_bind; [apply rollbackAvailable_quiet|]. intros snapshot s2 _. apply silent_bind.
  { destruct snapshot; [|done]. by split. }
  intros executable s3 _. destruct (negb snapshot || negb executable); [done|].
  apply silent_bind; [apply newOperation_quiet|]. intros [operation|e] s4 Hnew; [|done]. cbn [on_ok].
  eapply wp_at in Hnew; [|apply newOperation_wp]. apply schedule_calls.
  { apply free_of_bind; [apply Check_quiet|]. intros release. apply statusFromKnownRelease_quiet. }
  intros perm uid gid. split; [|by eauto]. split; [done|]. exists operation. split_and!; [by apply Hnew|done|].
  eexists _, _, _. apply lookup_insert_eq.
Qed.
End claims.

(** ** A host with a release *)

Definition quoted (text : string) : string := script_line text.

Definition key_text : string := "kkkkkkkkkkkkkkkkkkkkkkkkkkkkkkkk".
Definition signature_text : string := key_text +:+ key_text.

#[local] Instance sample_web : Web := {
  url_Parse _ := Some (mkURL "https" "releases" false "" "" "/");
  url_error _ := "";
  url_ParseRequestURI _ := Some (mkURL "https" "releases" false "" "" "/");
  url_suffixed url suffix := url +:+ suffix;
  ed25519_Verify key _ signature := (key =?s key_text) && (signature =?s signature_text) }.

Definition release_entry (name data : string) : tar_entry :=
  mkTarEntry ("hserver-panel-2.0.0-linux-amd64/" +:+ name) 48 (len data) data None.

#[local] Instance sample_archives : Archives := {
  gzip_tar _ := Ok (mkTar [release_entry "VERSION" "2.0.0"; release_entry "README.md" "text";
                           release_entry "agent-install.sh" "#!/usr/bin/env sh -e"; release_entry "hserver-agent" "binary"] None);
  elf_File _ := Some (mkElf 2 62 2) }.

#[local] Instance sample_lower : LowerTable := fun r => r.
#[local] Existing Instance no_faults.

Definition release_archive : string := "archive".

Definition release_manifest : string :=
  quoted ("{~schema_version~:1,~version~:~2.0.0~,~artifacts~:{~linux_amd64~:{~url~:~https://releases/a.tar.gz~,~sha256~:~"
          +:+ sha256_hex release_archive +:+ "~,~size_bytes~:7}}}").

Definition release_host (name : string) (args : list string) : result string string :=
  match args with
  | [url] => Ok (if HasSuffix url ".sig" then GoBase64.EncodeToString signature_text
                 else if HasSuffix url ".json" then release_manifest else release_archive)
  | _ => Ok ""
  end.

Definition sample_updates : agentUpdateController :=
  newAgentUpdateController "linux_amd64" "1.0.0" "https://releases/manifest.json" (GoBase64.EncodeToString key_text) "/var/lib/hserver-agent"
    "/usr/libexec/agent-install.sh" "/usr/bin/systemd-run" "/usr/bin/systemctl".

Notation sample_upgrade := (Upgrade (fun files => files) sample_updates "2.0.0").
Notation upgrade_run := (run_until (fun _ => 0) release_host [] 0 (@commands) sample_upgrade ∅).

Definition at_command {A} (p : prog sys A) : bool := match p with Call o _ => commands o | Ret _ => false end.

Lemma upgrade_run_command : at_command upgrade_run.1 = true.
Proof. vm_compute. reflexivity. Qed.

(** C10. Every command an upgrade of the agent runs is the start of the detached
    lifecycle unit, and over a verified release only: a manifest with the
    expected version, newer than the running one, is signed by a configured
    key, the digest it names is that of an archive, and the files the unit is
    given hold the one installer and the one binary of that archive, in the
    right formats, beside the fixed script; the operation recorded before was
    read as not in progress.  This holds whatever the net answers and whichever
    calls fail. *)
Theorem upgrade_runs_signed_release `{Host, Web, Archives, LowerTable} command resolves shuffle c expected s0 {B} (o : sys B) k s :
  reaches command resolves (Upgrade shuffle c expected) s0 (Call o k) s -> commands o = true ->
  upgrade_command c expected o s
  /\ exists recorded s1, reaches command resolves (loadOperation c) s0 (Ret recorded) s1 /\ in_progress recorded = false.
Proof.
  intros Hr Ho. pose proof (upgrade_calls command resolves shuffle c expected s0) as Hc.
  exact (calls_ok_sound _ _ _ _ _ _ _ _ Hc Hr Ho).
Qed.

Lemma upgrade_runs_signed_release_witness :
  exists p s, reaches (command_of release_host) eq sample_upgrade ∅ p s
    /\ match p with Call o _ => commands o = true /\ upgrade_command sample_updates "2.0.0" o s | Ret _ => False end.
Proof.
  exists upgrade_run.1, upgrade_run.2. pose proof upgrade_run_command as Hc.
  pose proof (run_until_reaches (fun _ => 0) release_host [] 0 (fun _ _ => I) I (@commands) sample_upgrade ∅) as Hr. split; [exact Hr|].
  destruct upgrade_run as [p s]. destruct p as [a|B o k]; [done|]. split; [done|].
  by apply (upgrade_runs_signed_release (command_of release_host) eq (fun files => files) sample_updates "2.0.0" ∅ o k s).
Defined.
