(* ===== verification/AgentCleanup.v ===== *)
(** * Disk cleanup: [cmd/hserver-agent/disk_cleanup.go]

    The controller measures and cleans up to four kinds of disposable files.
    [Walk] is [filepath.Walk] over the calls it makes; a cancelled context is
    an answer of [ContextErr].  The claim at the end shows what a clean-up can
    remove. *)

From stdpp Require Import base strings gmap list.
From Stdlib Require Import ZArith Lia Ascii.
From S2P Require Import Prelude GoStrings GoJson GoTime HubTypes AgentConfig AgentTasks HostFiles.
Local Open Scope Z_scope.
Local Open Scope hub_scope.

(** ** Records and targets *)

Record diskCleanupTarget : Type := mkTarget { dct_ID : string; dct_Name : string; dct_Description : string; dct_Size : Z; dct_Risk : string }.

Record diskCleanupResult : Type := mkCleanup { dcr_ID : string; dcr_Status : string; dcr_Message : string; dcr_Reclaimed : Z }.

Record diskCleanupExecution : Type := mkExecution { dce_Results : list diskCleanupResult; dce_ScanError : string }.

Record diskCleanupPaths : Type := mkPaths { dcp_aptArchives : string; dcp_journal : string; dcp_temporary : list string; dcp_logs : string }.

Record diskCleanupController : Type := mkCleanupController { dcc_allowed : gset string; dcc_paths : diskCleanupPaths }.

Record diskCleanupDefinition : Type := mkDefinition { dcd_name : string; dcd_description : string; dcd_risk : string; dcd_message : string }.

(** In the order of [sort.Strings]. *)
Definition cleanup_definitions : list (string * diskCleanupDefinition) :=
  [("apt-cache", mkDefinition "APT package cache"
      "Downloaded .deb packages and partial downloads; installed packages stay unchanged" "low" "APT package cache cleaned");
   ("journal", mkDefinition "Old system journal"
      "Vacuum archived systemd journal entries while retaining the latest 7 days" "low"
      "Journal vacuumed; the latest 7 days were retained");
   ("rotated-logs", mkDefinition "Old rotated logs"
      "Compressed and numbered log rotations older than 7 days; active logs stay untouched" "medium"
      "Rotated logs older than 7 days removed");
   ("tmp-old", mkDefinition "Expired temporary files"
      "Regular files in /tmp and /var/tmp not modified for more than 7 days" "medium"
      "Temporary files older than 7 days removed")].

Definition diskCleanupDefinitions : gmap string diskCleanupDefinition := list_to_map cleanup_definitions.

Definition newDiskCleanupController (allowed : gset string) : diskCleanupController :=
  mkCleanupController allowed (mkPaths "/var/cache/apt/archives" "/var/log/journal" ["/tmp"; "/var/tmp"] "/var/log").

(** ** Names *)

(** [strings.LastIndex]: what follows the last occurrence. *)
Fixpoint after_last (sub s : string) : option string :=
  match s with
  | "" => if sub =?s "" then Some "" else None
  | String _ s' =>
      match after_last sub s' with
      | Some rest => Some rest
      | None => if HasPrefix s sub then Some (sdrop (String.length sub) s) else None
      end
  end.

Definition rotatedLogName (name : string) : bool :=
  if HasSuffix name ".gz" || occurs ".log-" name then true
  else
    match after_last ".log." name with
    | Some (String c _) => in_range 48 57 c
    | _ => false
    end.

(** ** Walking *)

(** What [fn] gets: the path, and the file's state or an error; it threads what
    it collects and may end the walk with an error. *)
Definition visitor (A : Type) : Type := string -> result os_error FileInfo -> A -> prog sys (A * option os_error).

(** A path has at most 4096 bytes, so at most 2048 levels. *)
Definition walk_levels : nat := 2048.
Definition name_too_long : os_error := mkOsError "file name too long" false.

Section walk.
Context {A : Type} (fn : visitor A).

(** The entries of a directory; [enter] walks below one. *)
Fixpoint walk_entries (enter : string -> FileInfo -> A -> prog sys (A * option os_error)) (path : string) (names : list string) (a : A)
    : prog sys (A * option os_error) :=
  match names with
  | [] => Ret (a, None)
  | name :: names' =>
      let filename := Join [path; name] in
      Call (Lstat filename) (fun found =>
        do! r := match found with Err e => fn filename (Err e) a | Ok info => enter filename info a end in
        match r with
        | (a', Some e) => Ret (a', Some e)
        | (a', None) => walk_entries enter path names' a'
        end)
  end.

Fixpoint walk (levels : nat) (path : string) (info : FileInfo) (a : A) : prog sys (A * option os_error) :=
  if negb (fi_IsDir info) then fn path (Ok info) a
  else
    match levels with
    | O => Ret (a, Some name_too_long)
    | S levels' =>
        Call (ReadDir path) (fun r : result os_error (list DirEntry) =>
          match r with
          | Err e => fn path (Err e) a
          | Ok entries =>
              do! visited := fn path (Ok info) a in
              match visited with
              | (a', Some e) => Ret (a', Some e)
              | (a', None) => walk_entries (walk levels') path (map de_Name entries) a'
              end
          end)
    end.

Definition Walk (root : string) (a : A) : prog sys (A * option os_error) :=
  Call (Lstat root) (fun found =>
    match found with Err e => fn root (Err e) a | Ok info => walk walk_levels root info a end).
End walk.

(** What a callback does first: a cancelled context or an error that is not
    about a missing file ends the walk, a missing file is passed over. *)
Definition visiting {A} (found : result os_error FileInfo) (a : A) (k : FileInfo -> prog sys (A * option os_error))
    : prog sys (A * option os_error) :=
  Call ContextErr (fun cancelled =>
    match cancelled with
    | Some text => Ret (a, Some (mkOsError text false))
    | None =>
        match found with
        | Err e => Ret (a, if os_missing e then None else Some e)
        | Ok info => k info
        end
    end).

Definition max_uint64 : Z := 2 ^ 64 - 1.

Definition size_visitor (include : string -> FileInfo -> bool) : visitor Z := fun path found total =>
  visiting found total (fun info =>
    Ret (if negb (fi_Regular info) || negb (include path info) then (total, None)
         else if fi_Size info <? 0
         then (total, Some (mkOsError "disk cleanup measurement returned a negative file size" false))
         else if max_uint64 - total <? fi_Size info then (total, Some (mkOsError "disk cleanup measurement overflow" false))
         else (total + fi_Size info, None))).

Fixpoint walkFileSize (include : string -> FileInfo -> bool) (roots : list string) (total : Z) : prog sys (answer Z) :=
  match roots with
  | [] => Ret (Ok total)
  | root :: roots' =>
      do! r := Walk (size_visitor include) root total in
      match r with
      | (total', Some e) => if os_missing e then walkFileSize include roots' total' else Ret (Err (os_fail e))
      | (total', None) => walkFileSize include roots' total'
      end
  end.

Definition remove_visitor (include : string -> FileInfo -> bool) : visitor unit := fun path found _ =>
  visiting found tt (fun info =>
    if fi_Regular info && include path info
    then Call (HostFiles.Remove path) (fun removed => Ret (tt, match removed with Err e => Some e | Ok _ => None end))
    else Ret (tt, None)).

Fixpoint removeMatchingFiles (include : string -> FileInfo -> bool) (roots : list string) : prog sys (answer unit) :=
  match roots with
  | [] => Ret (Ok tt)
  | root :: roots' =>
      do! r := Walk (remove_visitor include) root tt in
      match r.2 with
      | Some e => if os_missing e then removeMatchingFiles include roots' else Ret (Err (os_fail e))
      | None => removeMatchingFiles include roots'
      end
  end.

(** ** The controller *)

Definition week_ns : Z := 7 * 24 * 3600 * 1000000000.

Definition apt_file (path : string) (info : FileInfo) : bool := HasSuffix (Base path) ".deb" || occurs "/partial/" path.
Definition any_file (path : string) (info : FileInfo) : bool := true.
Definition old_file (cutoff : time) (path : string) (info : FileInfo) : bool := fi_ModTime info <? cutoff.
Definition old_rotation (cutoff : time) (path : string) (info : FileInfo) : bool := (fi_ModTime info <? cutoff) && rotatedLogName (Base path).

Definition unsupported_target {A} : prog sys (answer A) := Ret (Err (errors_New "unsupported disk cleanup target")).

Section controller.
Context (c : diskCleanupController).

Definition measure (id : string) : prog sys (answer Z) :=
  Call TimeNow (fun now =>
    let cutoff := now - week_ns in
    let paths := dcc_paths c in
    if id =?s "apt-cache" then walkFileSize apt_file [dcp_aptArchives paths] 0
    else if id =?s "journal" then walkFileSize any_file [dcp_journal paths] 0
    else if id =?s "tmp-old" then walkFileSize (old_file cutoff) (dcp_temporary paths) 0
    else if id =?s "rotated-logs" then walkFileSize (old_rotation cutoff) [dcp_logs paths] 0
    else unsupported_target).

Definition run (name : string) (args : list string) : prog sys (answer unit) :=
  do! r := run_command name args in
  Ret (match r with Err text => Err (errors_New (name +:+ " failed: " +:+ text)) | Ok _ => Ok tt end).

Definition clean (id : string) : prog sys (answer unit) :=
  Call TimeNow (fun now =>
    let cutoff := now - week_ns in
    let paths := dcc_paths c in
    if id =?s "apt-cache" then run "apt-get" ["clean"]
    else if id =?s "journal" then run "journalctl" ["--vacuum-time=7d"]
    else if id =?s "tmp-old" then removeMatchingFiles (old_file cutoff) (dcp_temporary paths)
    else if id =?s "rotated-logs" then removeMatchingFiles (old_rotation cutoff) [dcp_logs paths]
    else unsupported_target).

Fixpoint scan_targets (ids : list (string * diskCleanupDefinition)) : prog sys (answer (list diskCleanupTarget)) :=
  match ids with
  | [] => Ret (Ok [])
  | (id, definition) :: ids' =>
      do! measured := measure id in
      match measured with
      | Err e => Ret (Err (mkError ("measure " +:+ id +:+ ": " +:+ err_Error e) (err_wraps e)))
      | Ok size =>
          try! targets := scan_targets ids' in
          Ret (Ok (if size =? 0 then targets
                   else mkTarget id (dcd_name definition) (dcd_description definition) size (dcd_risk definition) :: targets))
      end
  end.

Definition Scan : prog sys (answer (list diskCleanupTarget)) :=
  scan_targets (filter (fun d => d.1 ∈ dcc_allowed c) cleanup_definitions).

Fixpoint check_targets (seen : list string) (ids : list string) : answer unit :=
  match ids with
  | [] => Ok tt
  | id :: ids' =>
      if negb (bool_decide (id ∈ dcc_allowed c))
      then Err (errors_New ("disk cleanup target " +:+ id +:+ " is not in the local allowlist"))
      else if bool_decide (diskCleanupDefinitions !! id = None) then Err (errors_New "unsupported disk cleanup target")
      else if bool_decide (id ∈ seen) then Err (errors_New "duplicate disk cleanup target")
      else check_targets (id :: seen) ids'
  end.

Fixpoint measure_all (ids : list string) (before : gmap string Z) : prog sys (answer (gmap string Z)) :=
  match ids with
  | [] => Ret (Ok before)
  | id :: ids' =>
      do! measured := measure id in
      match measured with
      | Err e => Ret (Err (mkError ("measure " +:+ id +:+ " before cleanup: " +:+ err_Error e) (err_wraps e)))
      | Ok size => measure_all ids' (<[id := size]> before)
      end
  end.

Fixpoint clean_all (ids : list string) : prog sys (list diskCleanupResult) :=
  match ids with
  | [] => Ret []
  | id :: ids' =>
      do! cleaned := clean id in
      do! results := clean_all ids' in
      Ret (match cleaned with
           | Err e => mkCleanup id "error" (err_Error e) 0
           | Ok _ => mkCleanup id "ok" (match diskCleanupDefinitions !! id with Some d => dcd_message d | None => "" end) 0
           end :: results)
  end.

(** The sizes afterwards; the first failing measurement ends it. *)
Fixpoint reclaim (before : gmap string Z) (results : list diskCleanupResult) : prog sys diskCleanupExecution :=
  match results with
  | [] => Ret (mkExecution [] "")
  | r :: results' =>
      do! measured := measure (dcr_ID r) in
      match measured with
      | Err e => Ret (mkExecution results (err_Error e))
      | Ok after =>
          do! rest := reclaim before results' in
          let old := default 0 (before !! dcr_ID r) in
          Ret (mkExecution ((if after <? old then mkCleanup (dcr_ID r) (dcr_Status r) (dcr_Message r) (old - after) else r) :: dce_Results rest)
                 (dce_ScanError rest))
      end
  end.

Definition Execute (ids : list string) : prog sys (answer diskCleanupExecution) :=
  if Nat.eqb (length ids) 0 || Nat.ltb (length cleanup_definitions) (length ids)
  then Ret (Err (errors_New "select between one and four disk cleanup targets"))
  else
    match check_targets [] ids with
    | Err e => Ret (Err e)
    | Ok _ =>
        try! before := measure_all ids ∅ in
        do! results := clean_all ids in
        do! execution := reclaim before results in
        Ret (Ok execution)
    end.
End controller.

(** ** What a clean-up can remove *)

(** The paths a walk can come to. *)
Inductive under (root : string) : string -> Prop :=
| under_root : under root root
| under_entry path name : under root path -> plain_name name -> under root (Join [path; name]).

Section removal.
Context `{Host}.
Context (command : string -> list string -> fs -> result string string -> fs -> Prop).
Context (resolves : string -> string -> Prop).
Notation wp := (wp command resolves).
Notation reaches := (reaches command resolves).

(** *** Walks *)

Section walks.
Context {A : Type} (fn : visitor A) (I : fs -> Prop) (root : string).

(** The callback keeps [I] on what a walk may show it. *)
Definition visits : Prop := forall path a s, I s -> under root path ->
  (forall e, wp I (fn path (Err e) a) (fun _ => I) s)
  /\ (forall info n, s !! path = Some n -> describes path info n -> wp I (fn path (Ok info) a) (fun _ => I) s).

Context (Hfn : visits).

Lemma walk_entries_wp enter path names a s :
  (forall filename info n a s, I s -> under root filename -> s !! filename = Some n -> describes filename info n ->
     wp I (enter filename info a) (fun _ => I) s) ->
  I s -> under root path -> Forall plain_name names -> wp I (walk_entries fn enter path names a) (fun _ => I) s.
Proof.
  intros He Hi Hp Hn. revert a s Hi. induction Hn as [|name names Hname _ IH]; intros a s Hi; cbn [walk_entries]; [by apply wp_ret|].
  assert (under root (Join [path; name])) as Hu by by constructor.
  apply wp_call; [done|]. intros found s1 [-> Hf]. apply wp_bind. eapply (wp_mono _ _ _ I).
  - destruct found as [info|e]; [|by apply Hfn]. destruct (s !! _) as [n|] eqn:Hs; [|done]. by eapply He.
  - done.
  - intros [a' [e|]] s2 Hi2 _; [by apply wp_ret|by apply IH].
Qed.

Lemma walk_wp levels path info n a s :
  I s -> under root path -> s !! path = Some n -> describes path info n -> wp I (walk fn levels path info a) (fun _ => I) s.
Proof.
  revert path info n a s. induction levels as [|levels IH]; intros path info n a s Hi Hu Hs Hd; cbn [walk];
    (destruct (fi_IsDir info); [|by eapply Hfn]); cbn [negb]; [by apply wp_ret|].
  apply wp_call; [done|]. intros r s1 [-> Hr]. destruct r as [entries|e]; [|by apply Hfn].
  apply wp_bind. eapply wp_mono; [by eapply Hfn|done|]. intros [a' [e|]] s2 Hi2 _; [by apply wp_ret|].
  apply walk_entries_wp; [|done..|].
  - intros filename info' n' a1 s3 Hi3 Hu3 Hs3 Hd3. by eapply IH.
  - by apply Forall_map.
Qed.

Lemma Walk_wp a s : I s -> wp I (Walk fn root a) (fun _ => I) s.
Proof.
  intros Hi. apply wp_call; [done|]. intros found s1 [-> Hf]. destruct found as [info|e]; [|by apply Hfn; [|constructor]].
  destruct (s !! root) as [n|] eqn:Hs; [|done]. by eapply walk_wp; [|constructor|..].
Qed.
End walks.

Lemma visiting_wp {A} (I : fs -> Prop) (found : result os_error FileInfo) (a : A) k (Q : A * option os_error -> fs -> Prop) s :
  I s -> (forall e, Q (a, e) s) -> (forall info, found = Ok info -> wp I (k info) Q s) -> wp I (visiting found a k) Q s.
Proof.
  intros Hi Hq Hk. apply wp_call; [done|]. intros cancelled s1 ->. destruct cancelled; [by apply wp_ret|].
  destruct found as [info|e]; [by apply Hk|by apply wp_ret].
Qed.

Lemma walkFileSize_wp (I : fs -> Prop) include roots total s : I s -> wp I (walkFileSize include roots total) (fun _ => I) s.
Proof.
  revert total s. induction roots as [|root roots IH]; intros total s Hi; [by apply wp_ret|]. apply wp_bind.
  eapply wp_mono; [eapply Walk_wp|done|]; [|done|].
  - intros path a s1 Hi1 _. split; intros; (apply visiting_wp; [done..|]); intros; by apply wp_ret.
  - intros [total' [e|]] s1 Hi1 _; [destruct (os_missing e); [by apply IH|by apply wp_ret]|by apply IH].
Qed.

Lemma measure_wp (I : fs -> Prop) c id s : I s -> wp I (measure c id) (fun _ => I) s.
Proof.
  intros Hi. apply wp_call; [done|]. intros now s1 [-> _]. repeat case_match; try by apply walkFileSize_wp. by apply wp_ret.
Qed.

(** *** Removals *)

Lemma removeMatchingFiles_wp (I : fs -> Prop) include roots s :
  (forall root path info content perm uid gid s, root ∈ roots -> under root path -> include path info = true -> I s ->
     s !! path = Some (File content perm uid gid) -> modified path (File content perm uid gid) (fi_ModTime info) ->
     I (delete path s)) ->
  I s -> wp I (removeMatchingFiles include roots) (fun _ => I) s.
Proof.
  intros Hdel. revert s. induction roots as [|root roots IH]; intros s Hi; [by apply wp_ret|]. apply wp_bind.
  eapply wp_mono; [eapply Walk_wp|done|]; [|done|].
  - intros path a s1 Hi1 Hu. split.
    + intros e. by apply visiting_wp.
    + intros info n Hs Hd. apply visiting_wp; [done..|]. intros info' [= <-].
      destruct (fi_Regular info && include path info) eqn:Hg; [|by apply wp_ret]. apply andb_true_iff in Hg as [Hreg Hinc].
      assert (exists content perm uid gid, n = File content perm uid gid) as (content & perm & uid & gid & ->).
      { destruct n; [by eauto| | |]; cbn in Hd; destruct Hd as [Hd _]; congruence. }
      assert (modified path (File content perm uid gid) (fi_ModTime info)) by apply Hd.
      apply wp_call; [done|]. intros [[]|e] s2 Hr; cbn in Hr.
      * subst s2. assert (I (delete path s1)) by (eapply Hdel; eauto; by left). by apply wp_ret.
      * destruct Hr as [-> _]. by apply wp_ret.
  - intros [[] [e|]] s1 Hi1 _; cbn [snd].
    + destruct (os_missing e); [|by apply wp_ret]. apply IH; [|done]. intros. eapply Hdel; eauto. by right.
    + apply IH; [|done]. intros. eapply Hdel; eauto. by right.
Qed.

(** *** The controller *)

Context (c : diskCleanupController) (ids : list string) (s0 : fs).

(** A file that was modified more than seven days before a reading of the clock. *)
Definition expired (path : string) (n : node) : Prop :=
  exists changed now, modified path n changed /\ reads_clock now /\ changed < now - week_ns.

(** What the clean-up's own removals are limited to, and what the two commands
    may change. *)
Definition disposable (path : string) (n : node) : Prop :=
  expired path n
  /\ ("tmp-old" ∈ ids /\ (exists root, root ∈ dcp_temporary (dcc_paths c) /\ under root path)
      \/ "rotated-logs" ∈ ids /\ under (dcp_logs (dcc_paths c)) path /\ rotatedLogName (Base path) = true).

Definition cached (path : string) : Prop :=
  "apt-cache" ∈ ids /\ under (dcp_aptArchives (dcc_paths c)) path \/ "journal" ∈ ids /\ under (dcp_journal (dcc_paths c)) path.

Definition disposed (s : fs) : Prop := forall path,
  s !! path = s0 !! path \/ cached path
  \/ s !! path = None
     /\ exists content perm uid gid, s0 !! path = Some (File content perm uid gid) /\ disposable path (File content perm uid gid).

(** [apt-get clean] changes the archives only, [journalctl --vacuum-time] the
    journal only. *)
Definition cleaners : Prop :=
  (forall s r s', command "apt-get" ["clean"] s r s' -> forall path, s' !! path = s !! path \/ under (dcp_aptArchives (dcc_paths c)) path)
  /\ (forall s r s', command "journalctl" ["--vacuum-time=7d"] s r s' -> forall path, s' !! path = s !! path \/ under (dcp_journal (dcc_paths c)) path).

Lemma disposed_delete s path content perm uid gid :
  disposed s -> s !! path = Some (File content perm uid gid) -> disposable path (File content perm uid gid) ->
  disposed (delete path s).
Proof.
  intros Hd Hs Hp path'. destruct (decide (path' = path)) as [->|Hne]; [|rewrite lookup_delete_ne by done; apply Hd].
  rewrite lookup_delete_eq. destruct (Hd path) as [E|[Hc|[E _]]]; [|by right; left|congruence].
  right; right. split; [done|]. rewrite <-E. eauto 6.
Qed.

Lemma disposed_command s s' :
  disposed s -> (forall path, s' !! path = s !! path \/ cached path) -> disposed s'.
Proof. intros Hd Hs path. destruct (Hs path) as [->|Hc]; [apply Hd|by right; left]. Qed.

Lemma run_disposed name args s :
  (forall s r s', command name args s r s' -> forall path, s' !! path = s !! path \/ cached path) ->
  disposed s -> wp disposed (run name args) (fun _ => disposed) s.
Proof.
  intros Hc Hd. apply wp_call; [done|]. intros r s' Hs. cbn in Hs.
  assert (disposed s') by (eapply disposed_command; [done|by eapply Hc]). by apply wp_ret.
Qed.

Lemma clean_disposed id s : cleaners -> id ∈ ids -> disposed s -> wp disposed (clean c id) (fun _ => disposed) s.
Proof.
  intros [Hapt Hjournal] Hin Hd. apply wp_call; [done|]. intros now s1 [-> Hnow].
  destruct (String.eqb_spec id "apt-cache") as [->|].
  { apply run_disposed; [|done]. intros s1 r s2 Hs path. destruct (Hapt _ _ _ Hs path); [by left|]. right. by left. }
  destruct (String.eqb_spec id "journal") as [->|].
  { apply run_disposed; [|done]. intros s1 r s2 Hs path. destruct (Hjournal _ _ _ Hs path); [by left|]. right. by right. }
  destruct (String.eqb_spec id "tmp-old") as [->|].
  { apply removeMatchingFiles_wp; [|done]. intros root path info content perm uid gid s1 Hroot Hu Hold%Z.ltb_lt Hi Hs Hm.
    eapply disposed_delete; [done..|]. split; [by exists (fi_ModTime info), now|]. left. eauto. }
  destruct (String.eqb_spec id "rotated-logs") as [->|]; [|by apply wp_ret].
  apply removeMatchingFiles_wp; [|done]. intros root path info content perm uid gid s1 ->%list_elem_of_singleton Hu Hinc Hi Hs Hm.
  apply andb_true_iff in Hinc as [Hold%Z.ltb_lt ?].
  eapply disposed_delete; [done..|]. split; [by exists (fi_ModTime info), now|]. by right.
Qed.

Lemma clean_all_disposed targets s : cleaners -> targets ⊆ ids -> disposed s -> wp disposed (clean_all c targets) (fun _ => disposed) s.
Proof.
  intros Hc. revert s. induction targets as [|id targets IH]; intros s Hin Hd; [by apply wp_ret|]. apply wp_bind.
  eapply wp_mono; [apply clean_disposed; [done|set_solver|done]|done|]. intros cleaned s1 Hd1 _. apply wp_bind.
  eapply wp_mono; [apply IH; [set_solver|done]|done|]. intros results s2 Hd2 _. by apply wp_ret.
Qed.

Lemma measure_all_disposed targets before s : disposed s -> wp disposed (measure_all c targets before) (fun _ => disposed) s.
Proof.
  revert before s. induction targets as [|id targets IH]; intros before s Hd; [by apply wp_ret|]. apply wp_bind.
  eapply wp_mono; [by apply measure_wp|done|]. intros [size|e] s1 Hd1 _; [by apply IH|by apply wp_ret].
Qed.

Lemma reclaim_disposed before results s : disposed s -> wp disposed (reclaim c before results) (fun _ => disposed) s.
Proof.
  revert s. induction results as [|r results IH]; intros s Hd; [by apply wp_ret|]. apply wp_bind.
  eapply wp_mono; [by apply measure_wp|done|]. intros [size|e] s1 Hd1 _; [|by apply wp_ret]. apply wp_bind.
  eapply wp_mono; [by apply IH|done|]. intros rest s2 Hd2 _. by apply wp_ret.
Qed.

Lemma check_targets_allowed seen targets : check_targets c seen targets = Ok tt -> Forall (fun id => id ∈ dcc_allowed c) targets.
Proof.
  revert seen. induction targets as [|id targets IH]; intros seen; cbn [check_targets]; [by constructor|].
  case_bool_decide; [|done]. repeat (case_bool_decide; [done|]). intros Hc. constructor; [done|]. exact (IH _ Hc).
Qed.

Lemma Execute_wp : cleaners ->
  wp (fun s => disposed s /\ (s = s0 \/ Forall (fun id => id ∈ dcc_allowed c) ids)) (Execute c ids) (fun _ _ => True) s0.
Proof.
  intros Hc. assert (disposed s0) as H0 by by left. unfold Execute. destruct (_ || _); [by apply wp_ret; [split; [|left]|]|].
  destruct (check_targets c [] ids) as [[]|e] eqn:Ht; [|by apply wp_ret; [split; [|left]|]].
  eapply (wp_mono _ _ disposed _ _ (fun _ _ => True)); [|intros s Hs; split; [done|]; right; by eapply check_targets_allowed|done].
  apply wp_bind. eapply wp_mono; [by apply measure_all_disposed|done|]. intros [before|e] s1 Hd1 _; [|by apply wp_ret].
  apply wp_bind. eapply wp_mono; [by apply clean_all_disposed|done|]. intros results s2 Hd2 _.
  apply wp_bind. eapply wp_mono; [by apply reclaim_disposed|done|]. intros execution s3 Hd3 _. by apply wp_ret.
Qed.
End removal.

(** C11. A disk clean-up removes nothing but what it is for, wherever it stops:
    the files of the host are as before, except for what [apt-get] and
    [journalctl] do in their directories when they are asked for, and for
    regular files, modified more than seven days before the clean-up's reading
    of the clock, below the temporary directories, or below the log directory
    with the name of a rotation, when those targets were selected.  Nothing is
    touched unless every selected target is in the local allowlist. *)
Theorem cleanup_removes `{Host} command resolves c ids s0 p s :
  cleaners command c -> reaches command resolves (Execute c ids) s0 p s ->
  disposed c ids s0 s /\ (s = s0 \/ Forall (fun id => id ∈ dcc_allowed c) ids).
Proof. intros Hc Hr. exact (proj1 (wp_sound _ _ _ _ _ _ _ _ (Execute_wp command resolves c ids s0 Hc) Hr)). Qed.

(** ** A host with rotated logs

    Of two rotations one is older than a week; the clean-up removes it alone. *)

Definition log_host : fs :=
  {["/var/log" := Directory; "/var/log/app.log" := File "now" 420 0 0; "/var/log/app.log.1" := File "recent" 420 0 0;
    "/var/log/app.log.2" := File "old" 420 0 0]}.

Definition log_clock : time := 2 * week_ns.
Definition log_mtime (path : string) : time :=
  if path =?s "/var/log/app.log.1" then log_clock - 1 else if path =?s "/var/log/app.log.2" then 1 else 0.

#[local] Instance log_times : Host := mkHost False (fun path _ changed => changed = log_mtime path) (fun now => now = log_clock).

Definition log_controller : diskCleanupController := newDiskCleanupController {["rotated-logs"]}.

Notation log_run := (run_host log_mtime (fun _ _ => Ok "") [] log_clock (Execute log_controller ["rotated-logs"]) log_host).

Lemma log_run_removes : log_run.2 = delete "/var/log/app.log.2" log_host.
Proof. by vm_compute. Qed.

Lemma cleanup_removes_witness :
  log_run.2 = delete "/var/log/app.log.2" log_host
  /\ disposed log_controller ["rotated-logs"] log_host log_run.2
  /\ (log_run.2 = log_host \/ Forall (fun id => id ∈ dcc_allowed log_controller) ["rotated-logs"]).
Proof.
  split; [apply log_run_removes|].
  apply (cleanup_removes (command_of (fun _ _ => Ok "")) eq log_controller ["rotated-logs"] log_host (Ret log_run.1) log_run.2).
  - split; intros s r s' [-> _] path; by left.
  - apply (run_host_reaches log_mtime (fun _ _ => Ok "") [] log_clock); [done..|apply surjective_pairing].
Defined.
