(* ===== verification/HostTasks.v ===== *)
(** * Tasks on a host: the executor with its controllers

    [execute] asks controllers for operations; [on_host] carries the changes of
    Nginx, PHP-FPM, files, cron, domains, certificates, backups, containers,
    services and PM2 out on the host, with the controllers [main.go] builds from
    the configuration.  The other operations are a parameter. *)

From stdpp Require Import base strings gmap list sorting.
From Stdlib Require Import ZArith Lia Ascii.
From S2P Require Import Prelude GoStrings GoJson GoTime GoSha256 HubTypes TaskGate IntegrationStatus AgentConfig AgentTasks AgentTasksClaims HostFiles AgentEditors AgentNginx AgentPHP AgentFiles AgentEditorsClaims AgentDomains AgentCron AgentServices AgentCertificates AgentBackups GoTyped PanelApi PanelNodes PanelTaskClaims Samples PanelSamples TaskGateClaims.
Local Open Scope Z_scope.
Local Open Scope hub_scope.

(** ** The controllers of [main] *)

Definition main_nginx (cfg : config) : nginxController :=
  newNginxController (cfg_allowedNginxActions cfg) (cfg_allowNginxConfigRead cfg) (cfg_allowNginxConfigWrite cfg)
    (cfg_nginxSitesAvailable cfg) (cfg_nginxSitesEnabled cfg).

Definition main_php (cfg : config) : phpController :=
  newPHPController (cfg_allowedPHPActions cfg) (cfg_allowPHPConfigRead cfg) (cfg_allowPHPConfigWrite cfg)
    (cfg_phpConfigRoot cfg) (cfg_phpBinaryRoot cfg).

Definition main_files (cfg : config) : fileController := newFileController (cfg_fileReadRoots cfg) (cfg_fileWriteRoots cfg).

Definition main_cron (cfg : config) : cronController :=
  newCronController (cfg_allowCronRead cfg) (cfg_allowCronWrite cfg) (cfg_allowCronRun cfg) (cfg_cronStatePath cfg)
    (cfg_cronFilePath cfg) (cfg_cronLockPath cfg) (cfg_crontabBinary cfg) (cfg_runuserBinary cfg) (cfg_cronShell cfg)
    (cfg_cronService cfg).

Definition main_containers (cfg : config) : containerController :=
  newContainerController (cfg_allowContainerRead cfg) (cfg_allowedContainerActions cfg).

Definition main_domains (cfg : config) : domainController :=
  newDomainController (main_nginx cfg) (cfg_allowDomainRead cfg) (cfg_allowDomainActions cfg).

Definition main_ssl (cfg : config) : sslController :=
  newSSLController (cfg_allowSSLRead cfg) (cfg_allowSSLActions cfg) (cfg_certificateConfigDir cfg) (cfg_certificateWorkDir cfg)
    (cfg_certificateLogsDir cfg) (cfg_certbotBinary cfg) (cfg_openSSLBinary cfg) (cfg_caBundle cfg).

Definition main_backups (cfg : config) : backupController :=
  newBackupController (cfg_allowBackupRead cfg) (cfg_allowBackupRun cfg) (cfg_backupPlansPath cfg).

Definition main_pm2 (cfg : config) : pm2Controller :=
  newPM2Controller (cfg_allowPM2Read cfg) (cfg_allowedPM2Actions cfg) (cfg_pm2Binary cfg) (cfg_pm2Home cfg) (cfg_pm2User cfg).

Section host.
Context (cfg : config) (TempDir : string) (newest_first : list (string * time) -> list (string * time)).
Context (other : forall B, operation B -> prog sys B).

Definition carry_out {B} (o : operation B) : prog sys B :=
  match o in operation B return prog sys B with
  | NginxAction action => AgentNginx.Action (main_nginx cfg) action
  | NginxWrite name content checksum reload => AgentNginx.Write (main_nginx cfg) name content checksum reload
  | PHPWrite version pool content checksum reload => AgentPHP.Write (main_php cfg) version pool content checksum reload
  | PHPAction version action => AgentPHP.Action (main_php cfg) version action
  | FilesWrite path content checksum => AgentFiles.Write (main_files cfg) path content checksum
  | CronCreate job revision => AgentCron.Create (main_cron cfg) TempDir newest_first job revision
  | CronUpdate job revision => AgentCron.Update (main_cron cfg) TempDir newest_first job revision
  | CronDelete id revision => AgentCron.Delete (main_cron cfg) TempDir newest_first id revision
  | CronRun id => AgentCron.Run (main_cron cfg) id
  | DomainAction config action => AgentDomains.Action (main_domains cfg) config action
  | SSLAction name action => ssl_action (main_ssl cfg) name action
  | BackupRun plan => backup_run (main_backups cfg) plan
  | ContainerAction container action => container_action (main_containers cfg) container action
  | ServiceStatus service => service_status service
  | ServiceAction service action => service_action service action
  | PM2Logs name lines => pm2_logs (main_pm2 cfg) name lines
  | PM2Action name action => pm2_action (main_pm2 cfg) name action
  | o => other _ o
  end.

Fixpoint on_host {A} (p : prog operation A) : prog sys A :=
  match p with
  | Ret a => Ret a
  | Call o k => pbind (carry_out o) (fun b => on_host (k b))
  end.
End host.

(** ** A save of the panel *)

(** A task the panel made of a save, and the edit that is meant. *)
Inductive saving (cfg : config) (task : Task) : edit -> string -> string -> Prop :=
| saving_file request :
    let text := string_field file_save_request request in
    task_Kind task = TaskFilesWrite -> task_Payload task = file_save_payload request ->
    saving cfg task (EditFile (main_files cfg) (text "path")) (text "content") (text "checksum")
| saving_nginx name request :
    let text := string_field config_save_request request in
    task_Kind task = TaskNginxConfigWrite -> task_Payload task = config_save_payload [("name", name)] request ->
    saving cfg task (EditNginx (main_nginx cfg) name (bool_field config_save_request request "reload"))
      (text "content") (text "checksum")
| saving_php version pool request :
    let text := string_field config_save_request request in
    task_Kind task = TaskPHPConfigWrite -> task_Payload task = config_save_payload [("version", version); ("pool", pool)] request ->
    saving cfg task (EditPHP (main_php cfg) version pool (bool_field config_save_request request "reload"))
      (text "content") (text "checksum").

(** The report of an edit. *)
Definition reports (r : answer string) (result : TaskResultRequest) : Prop :=
  match r with
  | Ok backup => tres_Status result = TaskStatusCompleted /\ tres_Result result !! "backup" = Some backup
  | Err e => tres_Status result = TaskStatusFailed
  end.

Section composition.
Context `{UnicodeTables} (cfg : config) (TempDir : string) (newest_first : list (string * time) -> list (string * time)).
Context (other : forall B, operation B -> prog sys B).
Notation host := (on_host cfg TempDir newest_first other).

(** The task runs the edit, and reports it. *)
Lemma save_executed task e content checksum :
  ValidateTaskRequest (mkTaskRequest (task_Kind task) (task_Payload task)) = Ok tt ->
  saving cfg task e content checksum ->
  exists report, host (execute (main_executor cfg) (Some task)) = pbind (edit_write e content checksum) (fun r => Ret (report r))
    /\ forall r, reports r (report r).
Proof.
  intros Hv Hs.
  assert (forall fail message, (forall err, tres_Status (fail err) = TaskStatusFailed) ->
    forall r : answer string, reports r (match r with
      | Ok backup => completed (<["message" := message]> {["backup" := backup]}) | Err err => fail err end)) as Hrep.
  { intros fail message Hf [backup|err]; [|apply Hf]. split; [done|]. cbn.
    by rewrite lookup_insert_ne, lookup_singleton_eq by done. }
  destruct Hs as [request text Hk Hp|name request text Hk Hp|version pool request text Hk Hp].
  - rewrite (file_write_executed (main_executor cfg) task request Hk Hp eq_refl). eexists.
    split; [reflexivity|]. by apply Hrep.
  - rewrite Hk, Hp in Hv. destruct (nginx_write_executed (main_executor cfg) task name request Hk Hp Hv eq_refl) as [message ->].
    eexists. split; [reflexivity|]. by apply Hrep.
  - rewrite Hk, Hp in Hv.
    destruct (php_write_executed (main_executor cfg) task version pool request Hk Hp Hv eq_refl) as [message ->].
    eexists. split; [reflexivity|]. by apply Hrep.
Qed.
End composition.

(** C6. A save of the panel reaches the disk: when the agent executes the task
    of a file, an Nginx or a PHP-FPM save, the files of the host and the report
    agree: completed with the name of a backup only after the target the user
    named got the content the user sent, over a version with the checksum the
    user saw; failed, with the target as before, unless the reload failed or the
    host is faulty.  On the way the target is never anything
    but its old or its complete new version. *)
Theorem save_reaches_disk `{UnicodeTables} `{Host} cfg TempDir newest_first other command resolves task e content checksum s0 p s :
  ValidateTaskRequest (mkTaskRequest (task_Kind task) (task_Payload task)) = Ok tt ->
  saving cfg task e content checksum ->
  leaves_managed_files command ->
  reaches command resolves (on_host cfg TempDir newest_first other (execute (main_executor cfg) (Some task))) s0 p s ->
  edit_states resolves e content s0 s
  /\ (forall result, p = Ret result -> exists r, reports r result /\ edit_result command resolves e content checksum s0 r s).
Proof.
  intros Hv Hs Hc Hr. destruct (save_executed cfg TempDir newest_first other task e content checksum Hv Hs) as (report & E & Hrep).
  rewrite E in Hr.
  eapply (wp_sound command resolves (edit_states resolves e content s0) _
            (fun result s' => exists r, reports r result /\ edit_result command resolves e content checksum s0 r s'));
    [|exact Hr].
  apply wp_bind. eapply wp_mono; [by apply edit_write_wp|done|]. intros r s' Hi Hq. apply wp_ret; eauto.
Qed.

(** ** Witness *)

(** An agent with one writable root. *)
Definition disk_config : config :=
  assemble (mkIdentity (mkURL "" "" false "" "" "") "" "" 0) (mkAllowances [] ∅ ∅ false false ∅ ∅ false ∅ ∅)
    (mkWeb false false "" "" false false false false "" "" "" "" "" "")
    (mkDelivery false false "" false false false false "" "" [])
    (mkLifecycle false false "" "" "" "" "" "" ["/srv"] ["/srv"]) (mkRuntimes false ∅ "" "" "" "" "" ∅ false false "" "")
    (mkPM2 false ∅ "" "" "") (AgentConfig.mkCron false false false "" "" "" "" "" "" "")
    (mkFirewall false false "" "" "" "" "" [] ∅) (mkObservation "" 0 "").

Definition disk_old : string := "port = 80".
Definition disk_new : string := "port = 8080".
Definition disk_checksum : string := Eval vm_compute in sha256_hex disk_old.
Definition disk_request : goval := VStruct [VString "/srv/app.ini"; VString disk_new; VString disk_checksum].
Definition disk_task : Task := delivered_task TaskFilesWrite (file_save_payload disk_request).
Definition disk_edit : edit := EditFile (main_files disk_config) "/srv/app.ini".
Definition disk_files : fs := {["/srv/app.ini" := File disk_old 420 0 0]}.

(** Controllers that refuse. *)
Definition no_text : string := "not on this host".
Definition no_other (B : Type) (o : operation B) : prog sys B :=
  match o in operation B return prog sys B with
  | ProfileApply _ => Ret (Err no_text)
  | UpdateStatus | UpdateUpgrade _ | UpdateRollback | MetricsCollect | ServiceStatus _ | ServiceAction _ _ |
    HostAction _ | TerminateProcess _ _ _ | DiskScan | DiskExecute _ | LogsRead _ _ | ContainerList |
    ContainerAction _ _ | NginxAction _ | NginxList | NginxRead _ | NginxWrite _ _ _ _ | PHPInventory |
    PHPRead _ _ | PHPWrite _ _ _ _ _ | PHPAction _ _ | PM2List | PM2Logs _ _ | PM2Action _ _ | CronInventory |
    CronCreate _ _ | CronUpdate _ _ | CronDelete _ _ | CronRun _ | FirewallInventory | FirewallAdd _ _ |
    FirewallDelete _ _ | DomainInventory | DomainAction _ _ | SSLInventory | SSLAction _ _ | DatabaseInventory |
    DatabaseAction _ _ | BackupInventory | BackupRun _ | FilesBrowse _ | FilesRead _ | FilesWrite _ _ _ |
    DeployInventory | DeployDomainInventory _ | DeployDomainHealth _ _ | DeployDomainCreate _ _ |
    DeployDomainEnsure _ _ _ | DeployDomainDelete _ _ | DeployDomainEnableTLS _ _ _ | DeployDomainDisableTLS _ _ |
    DeployDomainRenewTLS _ _ => Ret (Err (errors_New no_text))
  | IntegrationProbe _ => Ret None
  | IntegrationClock => Ret 0
  | DeployRun _ _ => Ret (no_text, no_text, None)
  end.

Notation disk_run :=
  (AgentEditorsClaims.sample_run (on_host disk_config "/tmp" (fun items => items) no_other (execute (main_executor disk_config) (Some disk_task))) disk_files).

#[local] Existing Instances latin_tables no_faults.

Lemma save_reaches_disk_witness :
  tres_Status disk_run.1 = TaskStatusCompleted
  /\ disk_run.2 !! "/srv/app.ini" = Some (File disk_new 420 0 0)
  /\ edit_states eq disk_edit disk_new disk_files disk_run.2
  /\ (forall result, @Ret sys _ disk_run.1 = Ret result -> exists r, reports r result
        /\ edit_result sample_command eq disk_edit disk_new disk_checksum disk_files r disk_run.2).
Proof.
  split; [vm_compute; reflexivity|]. split; [vm_compute; reflexivity|].
  apply (save_reaches_disk disk_config "/tmp" (fun items => items) no_other sample_command eq disk_task disk_edit disk_new
           disk_checksum disk_files (Ret disk_run.1) disk_run.2).
  - vm_compute. reflexivity.
  - exact (saving_file disk_config disk_task disk_request eq_refl eq_refl).
  - exact sample_leaves.
  - exact (run_answer _ _ _ eq_refl).
Defined.
